(* ===== verification/_CoqProject ===== *)
-Q . S2P
Prelude.v
Defs.v
OrdMap.v
Tlv.v
TarHeader.v
Serial.v
SerialFacts.v
Messages.v
SerialProps.v
Heartbeat.v
Packet.v
PacketProps.v
Session.v
SessionProps.v
Task.v
Usb.v
Args.v
Strings.v
Numbers.v
Sandbox.v
Uart.v
UartProps.v
UartSystem.v
Transfer.v
TransferProps.v
TransferSystem.v
ChannelIo.v
ChannelIoProps.v
ChannelHandshake.v
ShellOption.v
Translate.v
AuthKeys.v
Daemon.v
DaemonProps.v
DaemonFacts.v
ServerTables.v
ServerTablesProps.v
ServerAuth.v
AuthSystem.v
Forward.v
ForwardProps.v
ForwardSystem.v
Channel.v
ChannelProps.v
ChannelSystem.v
ServerRequest.v
ServerRequestProps.v
ServerSystem.v
Negotiate.v
NegotiateProps.v
NegotiateTree.v
Jdwp.v
JdwpProps.v
JdwpSystem.v
Credential.v
CredentialProps.v
EventReport.v
MemoryPool.v
Archive.v
ArchiveProps.v
CircleBuffer.v
