(* ===== verification/Prelude.v ===== *)
(** * A verification library for hdc, the OpenHarmony device connector

    hdc connects a developer's host with OpenHarmony devices.  A client asks the
    host's server to run a command; the server keeps a session with the daemon on
    each device; commands and data of many channels travel in frames over one
    session, on top of TCP, USB or a serial line; a task on either side executes
    one command of one channel (a file transfer, a forwarded port, a shell).  All
    of it runs on libuv event loops with callbacks.  The C++ sources are under
    [src/src]; file names below are relative to [src/src/common] unless another
    directory is named.

    ** Parts of the program and the files that model them

    - [Prelude]: machine integers as [Z] with explicit wrap-around ([uwrap],
      [swrap]), byte strings, [memcpy_s], the outcome type [res] ([Ok], [Undefined]
      for an invalid memory access, [Exited], [Stuck] for missing fuel), tactics,
      hint databases and the lemmas all files share.
    - [Defs]: the enumerations and constants of [define.h] and [define_enum.h].
    - [OrdMap]: [std::map] as a sorted association list, with the key order as a
      class; used where the program iterates a map.
    - [Serial], [SerialFacts], [Messages], [SerialProps]: the protobuf-like codec of
      [serial_struct_define.h] (writers, limited readers, varints, scalar
      serializers, vectors, nested and optional fields, the read loop) and the six
      structs of [serial_struct.h] that cross the wire.
    - [Packet], [PacketProps]: framing of the session byte stream in [session.cpp]
      ([Send]'s frame, [AllocCallback], [OnRead], [DecryptPayload], [FetchIOBuf]).
    - [Session], [SessionProps]: the session table of [session.cpp], creation, the
      staged teardown ([FreeSession] to [FreeSessionFinally]), asynchronous
      requests, reference counts of concurrent [Send]s, reset votes.
    - [Task]: the task map of a session in [session.cpp] and its two-step removal.
    - [Heartbeat], [Tlv], [TarHeader], [CircleBuffer]: [heartbeat.cpp], [tlv.cpp],
      [header.cpp] and [circle_buffer.cpp].
    - [Usb]: the block protocol on USB bulk transfers ([usb.cpp] and the read paths
      of [host/host_usb.cpp] and [daemon/daemon_usb.cpp]).
    - [Uart], [UartProps], [UartSystem]: packages on a serial line ([uart.cpp],
      [uart.h], [host/host_uart.cpp], [daemon/daemon_uart.cpp]): checksums, the
      queue of outgoing packages with acknowledgements and retransmission, slicing,
      the receiver; the specifications of the operations; two such ends joined by
      a line that loses packages, and the abstract stop-and-wait protocol they
      implement.
    - [ChannelIo], [ChannelIoProps]: the byte stream between client and server
      ([channel.cpp] and the allocator of [AcceptClient] in
      [host/server_for_client.cpp]); [ChannelHandshake]: the first messages of a
      channel ([host/server_for_client.cpp], [host/client.cpp]).
    - [Translate]: from the text of a request to its command code
      ([host/translate.cpp]); [ShellOption]: the options of the shell command
      ([host/host_shell_option.cpp]) and their decoding on the device
      ([daemon/daemon_unity.cpp]).
    - [Args], [Strings], [Numbers]: the functions of [base.cpp] on command lines,
      strings, paths, decimal numbers, addresses and textual TLVs.
    - [Sandbox]: the path checks of [file.cpp] for transfers into an application's
      directory.
    - [Transfer], [TransferProps], [TransferSystem]: the file transfer task of
      [transfer.cpp] and [file.cpp] (open, chunked asynchronous I/O, payload
      encoding, throttling, completion, errors), and two such tasks connected by
      their packet streams.
    - [AuthKeys]: tokens, signatures and key files ([auth.cpp], the verification in
      [daemon/daemon.cpp]); [Daemon]: the daemon's handshake, authorisation table,
      control switches and dispatch to tasks ([daemon/daemon.cpp], the session
      functions of [daemon/daemon_usb.cpp]); [DaemonProps], [DaemonFacts]: the
      abstract authorisation machine and what runs of packets can do.
    - [ServerTables], [ServerTablesProps]: the tables of devices and of forwarding
      rules of the host's server ([host/server.cpp], [host/server_for_client.cpp]);
      [ServerAuth]: the host's side of the session handshake ([host/server.cpp],
      [session.cpp]); [AuthSystem]: both sides put together.
    - [Forward]: the forwarding task of either side, its contexts, handles, commands
      and callbacks ([forward.cpp], [host/host_forward.cpp],
      [daemon/daemon_forward.cpp]); [ForwardProps], [ForwardSystem]: its invariant,
      its runs, draining it, two tasks joined.
    - [Credential]: the credential service, its messages and its clients
      ([credential_message.cpp], [src/credential], [hdc_huks.cpp], [password.cpp],
      [connect_validation.cpp]); [CredentialProps]: requests through the service;
      [EventReport]: reports of commands ([command_event_report.cpp]).
    - [MemoryPool]: blocks kept for reuse ([memory_pool.cpp]).
    - [Archive], [ArchiveProps]: directories packed for installation and unpacked on
      the device ([entry.cpp], [compress.cpp], [decompress.cpp], [Dir2Tar] of
      [host/host_app.cpp], [Tar2Dir] of [daemon/daemon_app.cpp]).
    - [Channel]: channels on a heap, their handles, callbacks and messages, sending,
      freeing, binding to a session ([channel.cpp], the attachment of channels in
      [host/server.cpp] and [host/server_for_client.cpp]); [ChannelProps]: the
      invariant of one channel; [ChannelSystem]: channels among their events.
    - [ServerRequest]: requests of clients and commands of devices as the server
      handles them ([host/server_for_client.cpp], [FetchCommand] and what it calls
      in [host/server.cpp]); [ServerRequestProps]: what a request may bring about;
      [ServerSystem]: the server among clients, devices and tasks.
    - [Negotiate]: arguments, directory lists and modes, and where received files are
      put ([file.cpp], [transfer.cpp]); [NegotiateProps]: a disk, confinement and
      refusals; [NegotiateTree]: whole directories, their modes, the options.
    - [Jdwp]: the processes that can be debugged, their trackers and debuggers
      ([daemon/jdwp.cpp], [register/hdc_jdwp.cpp], the commands on them in
      [daemon/daemon_unity.cpp] and [daemon/daemon.cpp]); [JdwpProps]: the service as
      a table; [JdwpSystem]: applications, service and trackers.

    ** How code becomes definitions

    A pure function is a Rocq function with the name it has in the source.
    Stateful code passes its state explicitly; objects that are deleted
    ([HdcSession], [TaskInformation]) live in a heap indexed by address, and
    callbacks and timers hold addresses, so a use after free is the outcome
    [Undefined] instead of being excluded by the types.  Accesses to raw buffers are
    checked against the size of the allocation in the same way.  Loops that are not
    structurally recursive take fuel, always one more than a measure of the input
    (the length of the buffer or string, which every iteration shortens); the
    theorems show that the fuel is enough, so [Stuck] is never the result.
    Interleavings of callbacks, threads and packets are step relations; their
    theorems quantify over every reachable state.

    Code outside the repository is an argument, with what is documented of it as a
    hypothesis: LZ4 (class [TransferProps.Lz4Ok]: decompression inverts
    compression, within the size bound), OpenSSL (classes [AuthKeys.OpenSSL] and
    [AuthKeys.OpenSSLLaws]), the key store (classes [Credential.Huks] and
    [Credential.HuksLaws]), [realpath], system parameters, the endpoint I/O below the USB
    blocks, and the results of allocations and of submitting requests.  Virtual
    functions of other parts of the program ([FetchCommand], [RemoveInstanceTask],
    [RedirectToTask]) are arguments too ([Packet.CommandSink] is a class).

    ** What the theorems show

    - Wire codec: every message that is encoded is decoded to itself; the sizes
      computed in advance are those written; decoding ends, whatever the input;
      decoding never reports an error, which is more than the callers expect.
    - Framing: whatever pieces the transport delivers a stream of frames in, the
      receiver hands over exactly the commands sent, in order; on arbitrary input
      no byte outside the buffer is read and the buffer's invariant is kept.
    - Sessions and tasks: in every reachable state no callback holds a deleted
      session or task and the counts agree with what is alive; a session that is
      freed is eventually deleted; [Send] leaves the reference count as it was; the
      theorems on [malloc_failure_keeps_ref], [send_can_outlive_session] and
      [clear_ignores_pending_removals] show runs in which a count is wrong.
    - Serial line: the queues of both ends refine a stop-and-wait protocol, so the
      receiving session gets the bytes sent, in order and once, whatever is lost;
      while the link has not given up, completion stays reachable; two theorems
      show package identities that collide and a reset request that reads behind
      its object.
    - Channels: whatever pieces the socket delivers, a channel's receiver reaches
      the state of handling the messages one after the other; arbitrary input stays
      inside the buffer; the handshake makes client and server agree on channel id
      and connect key.  Messages larger than the buffer stall the channel or, before
      a channel is bound, overflow the buffer.
    - Requests: every terminated request is translated to a known command code or to
      an error; each documented command is recognised whatever its parameters; the
      words of a shell command reach the device unchanged.
    - Authorisation: the daemon's table refines a machine of five states per session
      id, and no command reaches a task unless the id was issued a token, a
      permitted key was accepted and the key's owner signed the token; with a known
      key, host and daemon complete the handshake in six messages; an encrypting
      host cannot be led back to plain text.  Two theorems show what the code does
      not exclude: authorisation outlives the session, and converting the key file
      separates the two halves of the key.
    - Server tables: the operations keep the device table a map in key order;
      removing a forwarding rule removes it for every device.
    - Port forwarding: in every reachable state of a host's task no callback holds a
      deleted context and the counts agree; after [StopTask] every order of
      callbacks leads to release; two joined tasks relay each connection's bytes in
      order.  Theorems on concrete runs show what the hypotheses exclude: short
      packets, repeated ids, a failed accept on a pipe, a freed context in a
      daemon's set-up, error texts used as formats.
    - Credentials: messages are read as they were written; a generated password
      survives encryption, hexadecimal text and the service; a request that fails
      is answered with itself, which the clients take for success; a command report
      that fits is published unchanged and one that had to be cut is lost.
    - Memory pool: blocks handed out are unused, of the right size and allocated.
    - Archives: unpacking restores what was packed and nothing else; theorems on
      concrete trees show what the hypotheses exclude: a stale limit, symbolic
      links, unreadable files and long names.
    - Channel life cycle: no callback and no thread in [Send] holds a deleted channel,
      and none is deleted while a loop knows a handle of it; theorems on concrete
      runs show what the hypotheses exclude: a [Send] that starts on a dead channel,
      an attachment that arrives late, colliding ids, lost messages.
    - Server requests: a device puts on the host only what the channel's client asked
      for; a request sends commands only to its own device and its own session's
      tasks; a refused request is explained.  Theorems on concrete runs show texts
      of a device used as formats, a negative size, permits without a kind and
      commands of another device on a channel.
    - File negotiation: a directory that is sent arrives as a whole where it was asked
      to; a file for an application is opened below its directory; a refused file is
      not touched and the user is told; the modes of all directories arrive before
      the file is announced; options in any order are understood.  Theorems on
      concrete disks show names that avoid the refused directories, directories made
      for a refused name, times compared in different units and modes that are lost.
    - Debuggable processes: in every reachable state and for every orderly event the
      service is a table of processes that is printed for the trackers, and no
      deleted object is read; an application that announces itself is listed and
      told to the trackers; a debugger's descriptor and text reach the process.
      Theorems on concrete runs show what the hypotheses exclude: several processes
      on one connection, announcements after a failure or a stop, names used as
      formats, handles left in the loop, and a thread that never polls.
    - File transfer: however requests complete and packets interleave, the slave's
      file ends equal to the master's, both tasks finish with balanced reference
      counts, and completion stays reachable; a failed or short access is reported
      with the bytes transferred.
    - Data formats: round trips of TLV buffers, handshake TLV strings, tar headers,
      feature lists and USB blocks, safety of the TLV parser on any input, the
      exact behaviour of address, path and suffix tests.
    - Safety of access: paths accepted by the sandbox check stay in the
      application's directory; buffers of the pool are never handed out twice.

    ** Not modelled

    Code that only calls the operating system or a library (libuv set-up, libusb,
    OpenSSL, the key store, child processes, terminals), logging and statistics,
    the Rust implementation, tests and scripts.  In the modelled files: the
    encrypted variant of [FetchIOBuf], printing of session lists, the
    application's reconnection to the process service, and
    setting the times and permissions of a file that was opened.

    ** Order of work

    The core comes first: codec, framing, sessions, tasks, file transfer and the
    utilities they use, then the transports, channels and requests, then
    authorisation and the server's tables, port forwarding, credentials, archives,
    channels, the requests of clients, the negotiation of transfers and the service
    of debuggable processes. *)

From Stdlib Require Import ZArith Lia List String Ascii Bool.
From stdpp Require Import base list numbers.

Declare Scope hdc_scope.
Delimit Scope hdc_scope with hdc.
#[global] Open Scope Z_scope.

(** ** Machine integers: a w-bit unsigned integer is a [Z] in [0, 2^w). *)

Definition uwrap (w : Z) (x : Z) : Z := x mod 2 ^ w.
Abbreviation u8 := (uwrap 8).
Abbreviation u16 := (uwrap 16).
Abbreviation u32 := (uwrap 32).
Abbreviation u64 := (uwrap 64).

(** Two's complement reading of the low [w] bits. *)
Definition swrap (w : Z) (x : Z) : Z :=
  let m := x mod 2 ^ w in if m <? 2 ^ (w - 1) then m else m - 2 ^ w.
Abbreviation i32 := (swrap 32).
Abbreviation i64 := (swrap 64).

Definition in_u (w x : Z) : Prop := 0 <= x < 2 ^ w.
#[export] Instance in_u_dec w x : Decision (in_u w x).
Proof. unfold in_u. apply _. Defined.

Definition in_s (w x : Z) : Prop := - 2 ^ (w - 1) <= x < 2 ^ (w - 1).

(** A byte string: C++ [std::string], [std::vector<uint8_t>] and raw buffers. *)
Abbreviation bytes := (list Z).
Abbreviation is_byte := (in_u 8).
Abbreviation wf_bytes := (Forall is_byte).

(** Length and slices with [Z] indices, as [size_t] and [int] index buffers. *)
Abbreviation zlen l := (Z.of_nat (length l)).
Definition ztake {A} (n : Z) (l : list A) : list A := take (Z.to_nat n) l.
Definition zdrop {A} (n : Z) (l : list A) : list A := drop (Z.to_nat n) l.

(** String literals of the source as byte strings. *)
Definition str (s : string) : bytes :=
  map (fun c => Z.of_N (N_of_ascii c)) (list_ascii_of_string s).
Arguments str s%_string.

Definition bytes_eqb (a b : bytes) : bool := bool_decide (a = b).

(** The characters before the first NUL. *)
Fixpoint cstr (s : bytes) : bytes :=
  match s with
  | [] => []
  | c :: s => if c =? 0 then [] else c :: cstr s
  end.

Definition no_nul (s : bytes) : Prop := Forall (fun c => c <> 0) s.

(** [htons]/[htonl] and the little-endian stores of the supported hosts. *)
Fixpoint le_split (n : nat) (z : Z) : bytes :=
  match n with
  | O => []
  | S n => z mod 256 :: le_split n (z / 256)
  end.
Fixpoint le_combine (l : bytes) : Z :=
  match l with
  | [] => 0
  | b :: l => b + 256 * le_combine l
  end.
Definition be_split (n : nat) (z : Z) : bytes := rev (le_split n z).
Definition be_combine (l : bytes) : Z := le_combine (rev l).

(** [memcpy_s(dest, destMax, src, count)] of the bounds-checking C library:
    it succeeds exactly when [destMax] is neither 0 nor above [RSIZE_MAX] and
    [count] fits. *)
Definition RSIZE_MAX : Z := 2147483647.
Definition memcpy_ok (destMax count : Z) : bool :=
  (0 <? destMax) && (destMax <=? RSIZE_MAX) && (count <=? destMax).

(** ** Outcomes of stateful code

    [Undefined] is an invalid memory access (a pointer to a deleted object, an
    index outside a buffer); [Exited] is [_exit] or [abort]; [Stuck] is missing
    fuel. *)
Inductive res (A : Type) :=
| Ok (a : A)
| Undefined
| Exited
| Stuck.
Arguments Ok {A}. Arguments Undefined {A}. Arguments Exited {A}. Arguments Stuck {A}.

#[export] Instance res_ret : MRet res := fun _ a => Ok a.
#[export] Instance res_bind : MBind res := fun A B f m =>
  match m with
  | Ok a => f a
  | Undefined => Undefined
  | Exited => Exited
  | Stuck => Stuck
  end.

(** A pointer dereference. *)
Definition deref {A} (o : option A) : res A := match o with Some a => Ok a | None => Undefined end.

Lemma bind_Ok {A B} (m : res A) (f : A -> res B) (b : B) : (m ≫= f) = Ok b <-> exists a, m = Ok a /\ f a = Ok b.
Proof. split; [destruct m; naive_solver|]. by intros (a & -> & Hf). Qed.

Lemma deref_Ok {A} (o : option A) (a : A) : deref o = Ok a <-> o = Some a.
Proof. destruct o; naive_solver. Qed.

Create HintDb hdc.
Create Rewrite HintDb hdc_rw.

(** ** Tactics *)

(** Turn boolean comparisons of the code into arithmetic facts. *)
Ltac breflect :=
  repeat match goal with
  | H : _ && _ = true |- _ => apply andb_true_iff in H as [? ?]
  | H : _ || _ = false |- _ => apply orb_false_iff in H as [? ?]
  | H : negb _ = true |- _ => apply negb_true_iff in H
  | H : negb _ = false |- _ => apply negb_false_iff in H
  | H : (_ <? _) = true |- _ => apply Z.ltb_lt in H
  | H : (_ <? _) = false |- _ => apply Z.ltb_ge in H
  | H : (_ <=? _) = true |- _ => apply Z.leb_le in H
  | H : (_ <=? _) = false |- _ => apply Z.leb_gt in H
  | H : (_ =? _) = true |- _ => apply Z.eqb_eq in H
  | H : (_ =? _) = false |- _ => apply Z.eqb_neq in H
  | H : bool_decide _ = true |- _ => apply bool_decide_eq_true in H
  | H : bool_decide _ = false |- _ => apply bool_decide_eq_false in H
  end.

(** Take a successful run of monadic code apart. *)
Ltac inv_res :=
  repeat match goal with
  | H : (_ ≫= _) = Ok _ |- _ => apply bind_Ok in H; let E := fresh "E" in destruct H as (? & E & H)
  | H : deref _ = Ok _ |- _ => apply deref_Ok in H
  | H : context [let '(_, _) := ?x in _] |- _ => is_var x; destruct x
  | H : Ok _ = Ok _ |- _ => injection H as H; subst
  | H : (_, _) = (_, _) |- _ => injection H as ? ?; subst
  | H : @eq (res _) _ (Ok _) |- _ => discriminate H
  end.

(** Takes apart a sequence of handlers that succeeded. *)
Ltac bind_ok H :=
  match type of H with
  | (_ ≫= _) = Ok _ => apply bind_Ok in H; let x := fresh "x" in let Hx := fresh "Hx" in destruct H as (x & Hx & H); repeat match goal with y : (_ * _)%type |- _ => destruct y end
  end.

(** Case on the scrutinee of the leftmost [if]/[match] of the goal. *)
Ltac case_if_goal :=
  match goal with
  | |- context [if ?b then _ else _] => let E := fresh "E" in destruct b eqn:E
  end.

(** ** Integers *)

Lemma uwrap_range w x : 0 <= w -> in_u w (uwrap w x).
Proof. intros. unfold in_u, uwrap. apply Z.mod_pos_bound. lia. Qed.

Lemma uwrap_small w x : in_u w x -> uwrap w x = x.
Proof. intros. apply Z.mod_small. assumption. Qed.

Lemma uwrap_idem w x : 0 <= w -> uwrap w (uwrap w x) = uwrap w x.
Proof. intros. apply uwrap_small. by apply uwrap_range. Qed.

Lemma swrap_range w x : 0 < w -> in_s w (swrap w x).
Proof.
  intros. unfold in_s, swrap.
  assert (2 ^ w = 2 * 2 ^ (w - 1)) by (rewrite <- Z.pow_succ_r by lia; f_equal; lia).
  pose proof (Z.mod_pos_bound x (2 ^ w)). destruct (_ <? _) eqn:E; breflect; lia.
Qed.

Lemma swrap_uwrap w x : 0 < w -> in_s w x -> swrap w (uwrap w x) = x.
Proof.
  intros Hw [? ?]. unfold swrap, uwrap.
  assert (2 ^ w = 2 * 2 ^ (w - 1)) by (rewrite <- Z.pow_succ_r by lia; f_equal; lia).
  rewrite Z.mod_mod by lia.
  destruct (Z.lt_ge_cases x 0).
  - replace (x mod 2 ^ w) with (x + 2 ^ w)
      by (rewrite <- (Z.mod_add x 1) by lia; rewrite Z.mod_small; lia).
    destruct (_ <? _) eqn:E; breflect; lia.
  - rewrite Z.mod_small by lia. destruct (_ <? _) eqn:E; breflect; lia.
Qed.

Lemma in_u_mono w w' x : w <= w' -> in_u w x -> in_u w' x.
Proof.
  unfold in_u. intros. destruct (Z.lt_ge_cases w 0).
  - rewrite Z.pow_neg_r in H0 by lia. lia.
  - pose proof (Z.pow_le_mono_r 2 w w'). lia.
Qed.

Lemma land_127 x : Z.land x 127 = x mod 128.
Proof. change 127 with (Z.ones 7). by rewrite Z.land_ones by lia. Qed.

Lemma land_1 x : Z.land x 1 = x mod 2.
Proof. exact (Z.land_ones x 1 ltac:(lia)). Qed.

Lemma land_pow2_m1 x n : 0 <= n -> Z.land x (Z.ones n) = x mod 2 ^ n.
Proof. intros. by rewrite Z.land_ones. Qed.

(** Disjoint bit ranges: [lor] is addition. *)
Lemma lor_shiftl_add a x n :
  0 <= n -> 0 <= a < 2 ^ n -> Z.lor a (Z.shiftl x n) = a + x * 2 ^ n.
Proof.
  intros Hn Ha. rewrite Z.shiftl_mul_pow2 by lia.
  assert (Hl : Z.land a (x * 2 ^ n) = 0).
  { apply Z.bits_inj'. intros i Hi. rewrite Z.land_spec, Z.bits_0.
    destruct (Z.lt_ge_cases i n).
    - rewrite Z.mul_pow2_bits_low by lia. apply andb_false_r.
    - rewrite <- (Z.mod_small a (2 ^ n)) by lia.
      by rewrite Z.mod_pow2_bits_high by lia. }
  by rewrite Z.add_nocarry_lxor, Z.lxor_lor by exact Hl.
Qed.

(** Setting the continuation bit of a 7-bit group. *)
Lemma lor_128 a : 0 <= a < 128 -> Z.lor a 128 = a + 128.
Proof. intros. change 128 with (Z.shiftl 1 7) at 1. rewrite lor_shiftl_add by lia. lia. Qed.

(** ** Byte order *)

Lemma length_le_split n z : length (le_split n z) = n.
Proof. revert z; induction n; intros; simpl; auto. Qed.

Lemma le_split_wf n z : wf_bytes (le_split n z).
Proof.
  revert z; induction n; intros; simpl; constructor; auto.
  apply (uwrap_range 8); lia.
Qed.

Lemma le_combine_split n z : le_combine (le_split n z) = z mod 2 ^ (8 * Z.of_nat n).
Proof.
  revert z; induction n; intros z; simpl le_split; simpl le_combine.
  - by rewrite Z.mod_1_r.
  - rewrite IHn, Nat2Z.inj_succ.
    replace (8 * Z.succ (Z.of_nat n)) with (8 + 8 * Z.of_nat n) by lia.
    rewrite Z.pow_add_r by lia. change (2 ^ 8) with 256.
    by rewrite Z.rem_mul_r by lia.
Qed.

Lemma le_combine_bound l : wf_bytes l -> 0 <= le_combine l < 2 ^ (8 * zlen l).
Proof.
  induction 1 as [|b l Hb Hl IH]; simpl le_combine; simpl length.
  - simpl. lia.
  - rewrite Nat2Z.inj_succ.
    replace (8 * Z.succ (zlen l)) with (8 + 8 * zlen l) by lia.
    rewrite Z.pow_add_r by lia. change (2 ^ 8) with 256.
    unfold in_u in Hb. change (2 ^ 8) with 256 in Hb. lia.
Qed.

Lemma le_split_combine l : wf_bytes l -> le_split (length l) (le_combine l) = l.
Proof.
  induction 1 as [|b l Hb Hl IH]; simpl; [done|].
  unfold in_u in Hb. change (2 ^ 8) with 256 in Hb.
  f_equal.
  - rewrite (Z.mul_comm 256), Z.mod_add, Z.mod_small by lia. done.
  - rewrite (Z.mul_comm 256), Z.div_add, Z.div_small by lia. done.
Qed.

Lemma length_be_split n z : length (be_split n z) = n.
Proof. unfold be_split. by rewrite length_rev, length_le_split. Qed.

Lemma be_split_wf n z : wf_bytes (be_split n z).
Proof. apply Forall_rev, le_split_wf. Qed.

Lemma be_combine_split n z : be_combine (be_split n z) = z mod 2 ^ (8 * Z.of_nat n).
Proof. unfold be_combine, be_split. by rewrite rev_involutive, le_combine_split. Qed.

Lemma be_combine_bound l : wf_bytes l -> 0 <= be_combine l < 2 ^ (8 * zlen l).
Proof.
  intros H. unfold be_combine. rewrite <- (length_rev l).
  apply le_combine_bound. by apply Forall_rev.
Qed.

(** ** Slices *)

Lemma length_ztake {A} n (l : list A) : 0 <= n <= zlen l -> zlen (ztake n l) = n.
Proof. intros. unfold ztake. rewrite length_take. lia. Qed.

Lemma length_zdrop {A} n (l : list A) : 0 <= n <= zlen l -> zlen (zdrop n l) = zlen l - n.
Proof. intros. unfold zdrop. rewrite length_drop. lia. Qed.

Lemma ztake_zdrop {A} n (l : list A) : ztake n l ++ zdrop n l = l.
Proof. apply take_drop. Qed.

Lemma ztake_app {A} (l k : list A) n : n = zlen l -> ztake n (l ++ k) = l.
Proof. intros ->. unfold ztake. rewrite Nat2Z.id. apply take_app_length. Qed.

Lemma zdrop_app {A} (l k : list A) n : n = zlen l -> zdrop n (l ++ k) = k.
Proof. intros ->. unfold zdrop. rewrite Nat2Z.id. apply drop_app_length. Qed.

Lemma ztake_ge {A} (l : list A) n : zlen l <= n -> ztake n l = l.
Proof. intros. unfold ztake. apply take_ge. lia. Qed.

Lemma zdrop_ge {A} (l : list A) n : zlen l <= n -> zdrop n l = [].
Proof. intros. unfold zdrop. apply drop_ge. lia. Qed.

Lemma zdrop_zdrop {A} (l : list A) a b :
  0 <= a -> 0 <= b -> zdrop b (zdrop a l) = zdrop (a + b) l.
Proof. intros. unfold zdrop. rewrite drop_drop. f_equal. lia. Qed.

Lemma ztake_0 {A} (l : list A) : ztake 0 l = [].
Proof. done. Qed.

Lemma zdrop_0 {A} (l : list A) : zdrop 0 l = l.
Proof. done. Qed.

Lemma wf_ztake n l : wf_bytes l -> wf_bytes (ztake n l).
Proof. intros. by apply Forall_take. Qed.

Lemma wf_zdrop n l : wf_bytes l -> wf_bytes (zdrop n l).
Proof. intros. by apply Forall_drop. Qed.

(** The bytes of [x], a prefix of the chunks of [cs], are some complete chunks
    and a proper prefix of the next one. *)
Lemma chunks_prefix {A B} (frame : A -> list B) cs x y : x ++ y = concat (map frame cs) ->
  exists cs1 cs2 p, cs = cs1 ++ cs2 /\ x = concat (map frame cs1) ++ p /\
    p ++ y = concat (map frame cs2) /\
    (p <> [] -> exists c q, List.In c cs2 /\ p ++ q = frame c /\ q <> []).
Proof.
  revert x. induction cs as [|c cs IH]; intros x Hx.
  - apply app_eq_nil in Hx as [-> ->]. by exists [], [], [].
  - cbn [map concat] in Hx.
    destruct (decide (length (frame c) <= length x)%nat) as [Hle|Hlt].
    + assert (x = frame c ++ drop (length (frame c)) x) as Hx'.
      { rewrite <- (take_drop (length (frame c)) x) at 1. f_equal.
        transitivity (take (length (frame c)) (x ++ y)); [by rewrite take_app_le by lia|].
        rewrite Hx. apply take_app_length. }
      rewrite Hx', <- app_assoc in Hx. apply app_inv_head in Hx.
      destruct (IH _ Hx) as (cs1 & cs2 & p & -> & Hd & Hp & Hn).
      exists (c :: cs1), cs2, p. split_and!; try done.
      cbn [map concat]. rewrite <- app_assoc, <- Hd. exact Hx'.
    + exists [], (c :: cs), x. split_and!; try done. intros Hne. exists c, (drop (length x) (frame c)).
      split_and!; [by left| |].
      * rewrite <- (take_drop (length x) (frame c)) at 2. f_equal.
        transitivity (take (length x) (x ++ y)); [by rewrite take_app_length|].
        rewrite Hx. by rewrite take_app_le by lia.
      * intros Hd. apply (f_equal length) in Hd. rewrite length_drop in Hd. change (length []) with 0%nat in Hd. lia.
Qed.

Lemma length_str s : zlen (str s) = Z.of_nat (String.length s).
Proof.
  unfold str. rewrite length_map. f_equal.
  induction s; simpl; auto.
Qed.

Lemma str_wf s : wf_bytes (str s).
Proof.
  induction s as [|c s IH]; constructor; [|exact IH].
  unfold in_u. pose proof (N_ascii_bounded c). lia.
Qed.

Lemma bytes_eqb_eq a b : bytes_eqb a b = true <-> a = b.
Proof. apply bool_decide_eq_true. Qed.

Lemma cstr_no_nul s : no_nul (cstr s).
Proof. induction s as [|c s IH]; cbn [cstr]; [constructor|]. destruct (c =? 0) eqn:E; breflect; constructor; auto. Qed.

Lemma cstr_id s : no_nul s -> cstr s = s.
Proof. induction 1 as [|c s Hc Hs IH]; simpl; [done|]. destruct (c =? 0) eqn:E; breflect; [by apply Hc in E|].
  f_equal. exact IH. Qed.

Lemma cstr_app_nul s k : no_nul s -> cstr (s ++ 0 :: k) = s.
Proof. induction 1 as [|c s Hc Hs IH]; simpl; [done|]. destruct (c =? 0) eqn:E; breflect; [by apply Hc in E|].
  f_equal. exact IH. Qed.

(** ** What every schedule leads to *)

Section Inevitable.
Context {S : Type} (step : S -> S -> Prop).

(** [P] holds now, or some step is possible and [P] is inevitable after each. *)
Inductive inevitably (P : S -> Prop) (s : S) : Prop :=
  | inev_now : P s -> inevitably P s
  | inev_next : (exists s', step s s') -> (forall s', step s s' -> inevitably P s') -> inevitably P s.

Lemma inevitably_measure (J P : S -> Prop) (m : S -> nat) :
  (forall s, J s -> P s \/ exists s', step s s') -> (forall s s', J s -> step s s' -> J s' /\ (m s' < m s)%nat) ->
  forall s, J s -> inevitably P s.
Proof.
  intros Hprog Hstep s. remember (m s) as n eqn:En. revert s En. induction (lt_wf n) as [n _ IH]. intros s -> HJ.
  destruct (Hprog s HJ) as [HP|Hs]; [by apply inev_now|]. apply inev_next; [done|]. intros s' Hs'.
  destruct (Hstep _ _ HJ Hs') as [HJ' Hm]. by eapply IH.
Qed.
End Inevitable.

#[export] Hint Resolve le_split_wf be_split_wf str_wf wf_ztake wf_zdrop : hdc.
#[export] Hint Rewrite length_le_split length_be_split @length_app @length_map @length_rev
  @ztake_zdrop @ztake_0 @zdrop_0 : hdc_rw.
