(* ===== verification/Defs.v ===== *)
(** * Defs: the constants and enumerations of [define.h] and [define_enum.h]

    Enumerators keep their names; an enumeration used as an integer is a [Z]. *)

From Stdlib Require Import String ZArith List.
From stdpp Require Import base list numbers.
From S2P Require Import Prelude.

(** Connection types. *)
Definition CONN_USB : Z := 0.
Definition CONN_TCP : Z := 1.
Definition CONN_SERIAL : Z := 2.
Definition CONN_BT : Z := 3.
Definition CONN_UNKNOWN : Z := 4.

(** Status of a known daemon. *)
Definition STATUS_UNKNOW : Z := 0.
Definition STATUS_READY : Z := 1.
Definition STATUS_CONNECTED : Z := 2.
Definition STATUS_OFFLINE : Z := 3.
Definition STATUS_UNAUTH : Z := 4.

(** Authentication methods. *)
Definition RSA_ENCRYPT : Z := 0.
Definition RSA_3072_SHA512 : Z := 1.
Definition PSK_TLS_AES_128_GCM_SHA256 : Z := 2.
Definition UNKNOWN : Z := 100.

(** Operations of the Admin functions. *)
Definition OP_ADD : Z := 0.
Definition OP_REMOVE : Z := 1.
Definition OP_QUERY : Z := 2.
Definition OP_QUERY_REF : Z := 3.
Definition OP_GET_STRLIST : Z := 4.
Definition OP_GET_STRLIST_FULL : Z := 5.
Definition OP_GET_ANY : Z := 6.
Definition OP_UPDATE : Z := 7.
Definition OP_CLEAR : Z := 8.
Definition OP_INIT : Z := 9.
Definition OP_GET_ONLY : Z := 10.
Definition OP_VOTE_RESET : Z := 11.
Definition OP_WAIT_FOR_ANY : Z := 12.
Definition OP_PRINT : Z := 13.

(** Return codes. *)
Definition RET_SSL_HANDSHAKE_FINISHED : Z := 1.
Definition RET_SUCCESS : Z := 0.
Definition ERR_GENERIC : Z := (-1).
Definition ERR_NO_SUPPORT : Z := (-2).
Definition ERR_PARAM_NULLPTR : Z := (-5).
Definition ERR_LIBUSB_OPEN : Z := (-100).
Definition ERR_BUF_SIZE : Z := (-10000).
Definition ERR_BUF_ALLOC : Z := (-9999).
Definition ERR_BUF_OVERFLOW : Z := (-9998).
Definition ERR_BUF_CHECK : Z := (-9997).
Definition ERR_BUF_RESET : Z := (-9996).
Definition ERR_BUF_COPY : Z := (-9995).
Definition ERR_CHECK_VERSION : Z := (-9994).
Definition ERR_FILE_OPEN : Z := (-11000).
Definition ERR_FILE_READ : Z := (-10999).
Definition ERR_FILE_WRITE : Z := (-10998).
Definition ERR_FILE_STAT : Z := (-10997).
Definition ERR_FILE_PATH_CHECK : Z := (-10996).
Definition ERR_PARM_FORMAT : Z := (-12000).
Definition ERR_PARM_SIZE : Z := (-11999).
Definition ERR_PARM_FAIL : Z := (-11998).
Definition ERR_API_FAIL : Z := (-13000).
Definition ERR_IO_FAIL : Z := (-14000).
Definition ERR_IO_TIMEOUT : Z := (-13999).
Definition ERR_IO_SOFT_RESET : Z := (-13998).
Definition ERR_SESSION_NOFOUND : Z := (-15000).
Definition ERR_SESSION_OFFLINE : Z := (-14999).
Definition ERR_SESSION_DEAD : Z := (-14998).
Definition ERR_HANDSHAKE_NOTMATCH : Z := (-16000).
Definition ERR_HANDSHAKE_CONNECTKEY_FAILED : Z := (-15999).
Definition ERR_HANDSHAKE_HANGUP_CHILD : Z := (-15998).
Definition ERR_SOCKET_FAIL : Z := (-17000).
Definition ERR_SOCKET_DUPLICATE : Z := (-16999).
Definition ERR_MODULE_JDWP_FAILED : Z := (-18000).
Definition ERR_UT_MODULE_NOTREADY : Z := (-19000).
Definition ERR_UT_MODULE_WAITMAX : Z := (-18999).
Definition ERR_THREAD_MUTEX_FAIL : Z := (-20000).
Definition ERR_PROCESS_SUB_FAIL : Z := (-21000).
Definition ERR_PRIVELEGE_NEED : Z := (-22000).
Definition ERR_ENCRYPT : Z := (-23000).
Definition ERR_DECRYPT : Z := (-23001).
Definition ERR_DECRYPT_WANT_READ : Z := (-23002).

(** Messages to the main loop. *)
Definition ASYNC_STOP_MAINLOOP : Z := 0.
Definition ASYNC_FREE_SESSION : Z := 1.
Definition ASYNC_FREE_CHANNEL : Z := 2.

(** Control commands between the threads of a session. *)
Definition SP_START_SESSION : Z := 0.
Definition SP_STOP_SESSION : Z := 1.
Definition SP_ATTACH_CHANNEL : Z := 2.
Definition SP_DEATCH_CHANNEL : Z := 3.
Definition SP_JDWP_NEWFD : Z := 4.
Definition SP_ARK_NEWFD : Z := 5.

(** Commands carried by packets. *)
Definition CMD_KERNEL_HELP : Z := 0.
Definition CMD_KERNEL_HANDSHAKE : Z := 1.
Definition CMD_KERNEL_CHANNEL_CLOSE : Z := 2.
Definition CMD_KERNEL_TARGET_DISCOVER : Z := 4.
Definition CMD_KERNEL_TARGET_LIST : Z := 5.
Definition CMD_KERNEL_TARGET_ANY : Z := 6.
Definition CMD_KERNEL_TARGET_CONNECT : Z := 7.
Definition CMD_KERNEL_TARGET_DISCONNECT : Z := 8.
Definition CMD_KERNEL_ECHO : Z := 9.
Definition CMD_KERNEL_ECHO_RAW : Z := 10.
Definition CMD_KERNEL_ENABLE_KEEPALIVE : Z := 11.
Definition CMD_KERNEL_WAKEUP_SLAVETASK : Z := 12.
Definition CMD_CHECK_SERVER : Z := 13.
Definition CMD_CHECK_DEVICE : Z := 14.
Definition CMD_WAIT_FOR : Z := 15.
Definition CMD_SERVER_KILL : Z := 16.
Definition CMD_SERVICE_START : Z := 17.
Definition CMD_KERNEL_TARGET_RECONNECT : Z := 18.
Definition CMD_SSL_HANDSHAKE : Z := 20.
Definition CMD_UNITY_COMMAND_HEAD : Z := 1000.
Definition CMD_UNITY_EXECUTE : Z := 1001.
Definition CMD_UNITY_REMOUNT : Z := 1002.
Definition CMD_UNITY_REBOOT : Z := 1003.
Definition CMD_UNITY_RUNMODE : Z := 1004.
Definition CMD_UNITY_HILOG : Z := 1005.
Definition CMD_UNITY_ROOTRUN : Z := 1007.
Definition CMD_JDWP_LIST : Z := 1008.
Definition CMD_JDWP_TRACK : Z := 1009.
Definition CMD_UNITY_COMMAND_TAIL : Z := 1010.
Definition CMD_UNITY_BUGREPORT_INIT : Z := 1011.
Definition CMD_UNITY_BUGREPORT_DATA : Z := 1012.
Definition CMD_UNITY_EXECUTE_EX : Z := 1200.
Definition CMD_SHELL_INIT : Z := 2000.
Definition CMD_SHELL_DATA : Z := 2001.
Definition CMD_FORWARD_INIT : Z := 2500.
Definition CMD_FORWARD_CHECK : Z := 2501.
Definition CMD_FORWARD_CHECK_RESULT : Z := 2502.
Definition CMD_FORWARD_ACTIVE_SLAVE : Z := 2503.
Definition CMD_FORWARD_ACTIVE_MASTER : Z := 2504.
Definition CMD_FORWARD_DATA : Z := 2505.
Definition CMD_FORWARD_FREE_CONTEXT : Z := 2506.
Definition CMD_FORWARD_LIST : Z := 2507.
Definition CMD_FORWARD_REMOVE : Z := 2508.
Definition CMD_FORWARD_SUCCESS : Z := 2509.
Definition CMD_FILE_INIT : Z := 3000.
Definition CMD_FILE_CHECK : Z := 3001.
Definition CMD_FILE_BEGIN : Z := 3002.
Definition CMD_FILE_DATA : Z := 3003.
Definition CMD_FILE_FINISH : Z := 3004.
Definition CMD_APP_SIDELOAD : Z := 3005.
Definition CMD_FILE_MODE : Z := 3006.
Definition CMD_DIR_MODE : Z := 3007.
Definition CMD_APP_INIT : Z := 3500.
Definition CMD_APP_CHECK : Z := 3501.
Definition CMD_APP_BEGIN : Z := 3502.
Definition CMD_APP_DATA : Z := 3503.
Definition CMD_APP_FINISH : Z := 3504.
Definition CMD_APP_UNINSTALL : Z := 3505.
Definition CMD_UNITY_JPID : Z := 1008.
Definition CMD_FLASHD_UPDATE_INIT : Z := 4000.
Definition CMD_FLASHD_FLASH_INIT : Z := 4001.
Definition CMD_FLASHD_CHECK : Z := 4002.
Definition CMD_FLASHD_BEGIN : Z := 4003.
Definition CMD_FLASHD_DATA : Z := 4004.
Definition CMD_FLASHD_FINISH : Z := 4005.
Definition CMD_FLASHD_ERASE : Z := 4006.
Definition CMD_FLASHD_FORMAT : Z := 4007.
Definition CMD_FLASHD_PROGRESS : Z := 4008.
Definition CMD_HEARTBEAT_MSG : Z := 5000.
Definition CMD_SPAWN_SUB : Z := 6000.

(** Option bits of a USB packet header. *)
Definition USB_OPTION_HEADER : Z := 1.
Definition USB_OPTION_RESET : Z := 2.
Definition USB_OPTION_RESERVE4 : Z := 4.
Definition USB_OPTION_RESERVE8 : Z := 8.
Definition USB_OPTION_RESERVE16 : Z := 16.

(** Sizes and literals of [define.h]. *)
Definition BUF_SIZE_MICRO : Z := 16.
Definition VER_PROTOCOL : Z := 1.
Definition HDC_BUF_MAX_BYTES : Z := 2147483647.
Definition MAX_SIZE_IOBUF : Z := 511 * 1024.
Definition MAX_SIZE_IOBUF_STABLE : Z := 60 * 1024.
Definition HDC_SOCKETPAIR_SIZE : Z := MAX_SIZE_IOBUF * 2.
Definition MAX_CONNECTKEY_SIZE : Z := 32.
Definition MAX_PACKET_SIZE_HISPEED : Z := 512.
Definition PACKET_FLAG : bytes := str "HW".
Definition HANDSHAKE_MESSAGE : bytes := str "OHOS HDC".
Definition ENABLE_IO_CHECKSUM : bool := false.
Definition DWORD_SERIALIZE_SIZE : Z := 4.
Definition BUF_EXTEND_SIZE : Z := 4.
Definition BUF_SIZE_TINY : Z := 64.
Definition HUGE_BUF_TAG : Z := 72.
Definition BANNER_FEATURE_TAG_OFFSET : Z := 11.
Definition WAIT_DEVICE_TAG : Z := 87.
Definition WAIT_TAG_OFFSET : Z := 11.
Definition CMDSTR_WAIT_FOR : bytes := str "wait".
Definition CMDSTR_CONNECT_ANY : bytes := str "any".
Definition TAG_SHELL_CMD : Z := 0.
Definition TAG_SHELL_BUNDLE : Z := 1.
Definition CMDSTR_SOFTWARE_VERSION : bytes := str "version".
Definition CMDSTR_SOFTWARE_HELP : bytes := str "help".
Definition CMDSTR_TARGET_DISCOVER : bytes := str "discover".
Definition CMDSTR_SERVICE_START : bytes := str "start".
Definition CMDSTR_SERVICE_KILL : bytes := str "kill".
Definition CMDSTR_LIST_TARGETS : bytes := str "list targets".
Definition CMDSTR_CHECK_SERVER : bytes := str "checkserver".
Definition CMDSTR_CHECK_DEVICE : bytes := str "checkdevice".
Definition CMDSTR_CONNECT_TARGET : bytes := str "tconn".
Definition CMDSTR_TARGET_RECONNECT : bytes := str "reconnect".
Definition CMDSTR_SHELL : bytes := str "shell".
Definition CMDSTR_SHELL_EX : bytes := str "shell -".
Definition CMDSTR_TARGET_REBOOT : bytes := str "target boot".
Definition CMDSTR_TARGET_MOUNT : bytes := str "target mount".
Definition CMDSTR_STARTUP_MODE : bytes := str "smode".
Definition CMDSTR_TARGET_MODE : bytes := str "tmode".
Definition CMDSTR_BUGREPORT : bytes := str "bugreport".
Definition CMDSTR_HILOG : bytes := str "hilog".
Definition CMDSTR_TMODE_USB : bytes := str "usb".
Definition CMDSTR_FILE_SEND : bytes := str "file send".
Definition CMDSTR_FILE_RECV : bytes := str "file recv".
Definition CMDSTR_FORWARD_FPORT : bytes := str "fport".
Definition CMDSTR_FORWARD_RPORT : bytes := str "rport".
Definition CMDSTR_APP_INSTALL : bytes := str "install".
Definition CMDSTR_APP_UNINSTALL : bytes := str "uninstall".
Definition CMDSTR_APP_SIDELOAD : bytes := str "sideload".
Definition CMDSTR_LIST_JDWP : bytes := str "jpid".
Definition CMDSTR_TRACK_JDWP : bytes := str "track-jpid".
Definition CMDSTR_INNER_ENABLE_KEEPALIVE : bytes := str "alive".
Definition CMDSTR_SPAWN_SUB : bytes := str "spawn-sub".
Definition MAX_APP_PARAM_SIZE : Z := 512.
Definition MIN_APP_PARAM_SIZE : Z := 4.
Definition CMD_REMOTE_SIZE : Z := 8.
Definition FORWORD_PORT_RM_BUF_SIZE : Z := 9.
Definition FORWORD_PORT_OTHER_BUF_SIZE : Z := 6.
Definition HDC_VERSION_NUMBER : Z := 807405056.
