(* ===== verification/OrdMap.v ===== *)
(** * OrdMap: [std::map] as a sorted association list

    The containers of the program that are iterated in key order.  The order of
    the keys is a class, instantiated for unsigned integers and for
    [std::string] (lexicographic on unsigned bytes). *)

From Stdlib Require Import ZArith Lia List Bool Sorting.Sorted.
From stdpp Require Import base list numbers.
From S2P Require Import Prelude.

Class StdLess (K : Type) := less : K -> K -> bool.

Class StdLessLaws (K : Type) `{StdLess K} := {
  less_irrefl : forall a, less a a = false;
  less_trans : forall a b c, less a b = true -> less b c = true -> less a c = true;
  less_total : forall a b, a <> b -> less a b = true \/ less b a = true
}.

#[export] Instance Z_less : StdLess Z := Z.ltb.

#[export] Instance Z_less_laws : StdLessLaws Z.
Proof.
  constructor; unfold less, Z_less; intros.
  - apply Z.ltb_irrefl.
  - breflect. apply Z.ltb_lt. lia.
  - destruct (Z.lt_total a b) as [?|[?|?]]; [left|done|right]; by apply Z.ltb_lt.
Qed.

Fixpoint bytes_ltb (a b : bytes) : bool :=
  match a, b with
  | _, [] => false
  | [], _ :: _ => true
  | x :: a, y :: b => if x =? y then bytes_ltb a b else x <? y
  end.

#[export] Instance bytes_less : StdLess bytes := bytes_ltb.

#[export] Instance bytes_less_laws : StdLessLaws bytes.
Proof.
  constructor; unfold less, bytes_less.
  - induction a as [|x a IH]; simpl; [done|]. by rewrite Z.eqb_refl.
  - induction a as [|x a IH]; intros [|y b] [|z c]; simpl; try done.
    destruct (x =? y) eqn:E1, (y =? z) eqn:E2; breflect; subst; intros H1 H2.
    + rewrite Z.eqb_refl. eauto.
    + destruct (y =? z) eqn:E3; breflect; lia.
    + destruct (x =? z) eqn:E3; breflect; lia.
    + breflect. destruct (x =? z) eqn:E3; breflect; lia.
  - induction a as [|x a IH]; intros [|y b] Hne; simpl; [done|by left|by right|].
    destruct (x =? y) eqn:E; breflect.
    + subst. rewrite Z.eqb_refl. apply IH. congruence.
    + replace (y =? x) with false by (symmetry; apply Z.eqb_neq; lia).
      destruct (Z.lt_total x y) as [?|[?|?]]; [left|done|right]; by apply Z.ltb_lt.
Qed.

Section OrdMap.
Context {K V : Type} `{EqDecision K} `{StdLessLaws K}.
Implicit Types (k : K) (v : V) (m : list (K * V)).

Definition om_keys m : list K := map fst m.

Fixpoint om_find k m : option V :=
  match m with
  | [] => None
  | (k', v) :: m => if bool_decide (k = k') then Some v else om_find k m
  end.

(** [m[k] = v]. *)
Fixpoint om_set k v m : list (K * V) :=
  match m with
  | [] => [(k, v)]
  | (k', v') :: t =>
      if bool_decide (k = k') then (k, v) :: t
      else if less k k' then (k, v) :: m
      else (k', v') :: om_set k v t
  end.

(** [m.erase(k)]. *)
Definition om_erase k m : list (K * V) :=
  filter (fun p => p.1 <> k) m.

Definition om_sorted m : Prop := StronglySorted (fun a b => less a b = true) (om_keys m).

Lemma om_find_set_eq k v m : om_find k (om_set k v m) = Some v.
Proof.
  induction m as [|[k' v'] m IH]; simpl; [by rewrite bool_decide_eq_true_2|].
  destruct (bool_decide (k = k')) eqn:E; [simpl; by rewrite bool_decide_eq_true_2|].
  destruct (less k k'); simpl; [by rewrite bool_decide_eq_true_2|]. by rewrite E.
Qed.

Lemma om_find_set_ne k k' v m : k' <> k -> om_find k' (om_set k v m) = om_find k' m.
Proof.
  intros Hne. induction m as [|[k1 v1] m IH]; simpl.
  - by rewrite bool_decide_eq_false_2.
  - destruct (bool_decide (k = k1)) eqn:E; breflect.
    + subst. simpl. by rewrite !bool_decide_eq_false_2.
    + destruct (less k k1); simpl; [by rewrite (bool_decide_eq_false_2 (k' = k))|].
      by rewrite IH.
Qed.

Lemma om_find_erase_eq k m : om_find k (om_erase k m) = None.
Proof.
  unfold om_erase. induction m as [|[k' v'] m IH]; simpl; [done|].
  rewrite filter_cons. case_decide as Hd; simpl in *; [|done].
  by rewrite bool_decide_eq_false_2.
Qed.

Lemma om_find_erase_ne k k' m : k' <> k -> om_find k' (om_erase k m) = om_find k' m.
Proof.
  intros Hne. unfold om_erase. induction m as [|[k1 v1] m IH]; simpl; [done|].
  rewrite filter_cons. case_decide as Hd; simpl in *; [by rewrite IH|].
  rewrite IH. rewrite bool_decide_eq_false_2; [done|]. intros ->. congruence.
Qed.

Lemma om_find_In k v m : om_find k m = Some v -> In (k, v) m.
Proof.
  induction m as [|[k' v'] m IH]; simpl; [done|].
  destruct (bool_decide (k = k')) eqn:E; breflect; intros; subst; simplify_eq; auto.
Qed.

Lemma om_find_None k m : om_find k m = None <-> ~ In k (om_keys m).
Proof.
  induction m as [|[k' v'] m IH]; simpl; [tauto|].
  destruct (bool_decide (k = k')) eqn:E; breflect; subst.
  - split; [done|]. intros Hn. exfalso. auto.
  - rewrite IH. split; [intros ? [?|?]; subst; auto|tauto].
Qed.

Lemma om_keys_set k v m x : In x (om_keys (om_set k v m)) -> x = k \/ In x (om_keys m).
Proof.
  induction m as [|[k' v'] m IH]; simpl; [intuition auto|].
  destruct (bool_decide (k = k')) eqn:E; breflect; subst; simpl; [intuition auto|].
  destruct (less k k'); simpl; intuition auto.
Qed.

Lemma om_sorted_set k v m : om_sorted m -> om_sorted (om_set k v m).
Proof.
  unfold om_sorted. induction m as [|[k' v'] m IH]; intros Hs; simpl; [repeat constructor|].
  inversion Hs as [|? ? Hs' Hf]; subst.
  destruct (bool_decide (k = k')) eqn:E; breflect; subst; [done|].
  destruct (less k k') eqn:El.
  - constructor; [done|]. constructor; [done|]. rewrite List.Forall_forall in *.
    intros x Hx. eapply less_trans; eauto.
  - constructor; [by apply IH|]. fold (om_keys (om_set k v m)). rewrite List.Forall_forall in *. intros x Hx.
    apply om_keys_set in Hx as [->|Hx]; [|by apply Hf].
    destruct (less_total k k' E) as [Hl|Hl]; [congruence|exact Hl].
Qed.

Lemma om_sorted_erase k m : om_sorted m -> om_sorted (om_erase k m).
Proof.
  unfold om_sorted, om_erase. induction m as [|[k' v'] m IH]; intros Hs; [done|].
  inversion Hs as [|? ? Hs' Hf]; subst. rewrite filter_cons. case_decide; [|by apply IH].
  simpl. constructor; [by apply IH|]. rewrite List.Forall_forall in *. intros x Hx. apply Hf.
  apply in_map_iff in Hx as ([? ?] & <- & Hx). apply in_map_iff. eexists. split; [done|].
  apply list_elem_of_In in Hx. apply list_elem_of_filter in Hx as [_ Hx]. by apply list_elem_of_In.
Qed.

(** Inserting above every key appends. *)
Lemma om_set_last k v m :
  Forall (fun x => less x k = true) (om_keys m) -> om_set k v m = m ++ [(k, v)].
Proof.
  induction m as [|[k' v'] m IH]; intros Hf; simpl; [done|].
  inversion Hf as [|? ? Hl Hf']; subst. simpl in Hl.
  rewrite bool_decide_eq_false_2 by (intros ->; by rewrite less_irrefl in Hl).
  destruct (less k k') eqn:El.
  - pose proof (less_trans _ _ _ Hl El) as Hc. by rewrite less_irrefl in Hc.
  - by rewrite IH.
Qed.

Lemma om_set_Forall (P : K * V -> Prop) k v m : P (k, v) -> Forall P m -> Forall P (om_set k v m).
Proof.
  intros Hp. induction 1 as [|[k' v'] m Hx Hm IH]; simpl; [auto|].
  case_bool_decide; [auto|]. destruct (less k k'); auto.
Qed.

(** Keys are unique, so an entry is what a lookup of its key finds. *)
Lemma om_find_sorted k v m : om_sorted m -> In (k, v) m -> om_find k m = Some v.
Proof.
  unfold om_sorted. induction m as [|[k' v'] m IH]; [done|]. cbn [om_keys map fst]. intros Hs Hin.
  inversion Hs as [|? ? Hs' Hf]; subst. cbn [om_find]. destruct Hin as [[= -> ->]|Hin].
  - by rewrite bool_decide_eq_true_2.
  - rewrite bool_decide_eq_false_2; [by apply IH|]. intros ->.
    rewrite List.Forall_forall in Hf. specialize (Hf k' (in_map fst _ _ Hin)).
    by rewrite less_irrefl in Hf.
Qed.

(** Rebuilding a sorted map by inserting its entries in order. *)
Lemma om_rebuild m acc :
  om_sorted (acc ++ m) -> fold_left (fun a p => om_set p.1 p.2 a) m acc = acc ++ m.
Proof.
  revert acc. induction m as [|[k v] m IH]; intros acc Hs; simpl; [by rewrite app_nil_r|].
  rewrite om_set_last.
  - rewrite IH by (by rewrite <- (assoc_L (++))). by rewrite <- (assoc_L (++)).
  - clear IH. induction acc as [|[k' v'] acc IHa]; simpl; [constructor|].
    inversion Hs as [|? ? Hs' Hf]; subst. constructor; [|by apply IHa].
    rewrite List.Forall_forall in Hf. apply Hf. unfold om_keys. rewrite map_app.
    apply in_or_app. right. by left.
Qed.

End OrdMap.

Create HintDb ordmap.
#[export] Hint Resolve om_sorted_set om_sorted_erase om_set_Forall : ordmap.
#[export] Hint Rewrite @om_find_set_eq @om_find_erase_eq : hdc_rw.
