(* ===== verification/Tlv.v ===== *)
(** * Tlv: the tag-length-value buffer of [tlv.cpp]

    A [TlvBuf] is a [std::map] from tags to values and a set of valid tags.
    Loads from the input buffer are bounds-checked in the model: [None] is an
    access outside the [size] bytes the caller passed. *)

From Stdlib Require Import String ZArith Lia List Bool Sorting.Sorted.
From stdpp Require Import base list numbers.
From S2P Require Import Prelude OrdMap.

Definition TLV_HEAD_SIZE : Z := 8.
Definition TLV_VALUE_MAX_LEN : Z := 16 * 1024 * 1024.

Record TlvBuf := mkTlvBuf { mTlvMap : list (Z * bytes); mValidTags : list Z }.

Definition TlvBuf_empty : TlvBuf := mkTlvBuf [] [].

(** [Clear] returns early on an empty map and then keeps the valid tags. *)
Definition Clear (b : TlvBuf) : TlvBuf :=
  match mTlvMap b with
  | [] => b
  | _ => mkTlvBuf [] []
  end.

Definition TlvBuf_new (validtags : list Z) : TlvBuf := mkTlvBuf (mTlvMap (Clear TlvBuf_empty)) validtags.

(** [Append(tag, len, val)]; [None] for [val] is the null pointer. *)
Definition Append (tag len : Z) (val : option bytes) (b : TlvBuf) : bool * TlvBuf :=
  if (len =? 0) || (TLV_VALUE_MAX_LEN <? len) then (false, b)
  else match val with
  | None => (false, b)
  | Some v =>
      match om_find tag (mTlvMap b) with
      | Some _ => (false, b)
      | None => (true, mkTlvBuf (om_set tag (ztake len v) (mTlvMap b)) (mValidTags b))
      end
  end.

Definition Append_string (tag : Z) (val : bytes) (b : TlvBuf) : bool * TlvBuf :=
  Append tag (u32 (zlen val)) (Some val) b.

(** A bounds-checked [*reinterpret_cast<const uint32_t*>(p + pos)]. *)
Definition load32 (buf : bytes) (pos : Z) : option Z :=
  if (0 <=? pos) && (pos + 4 <=? zlen buf)
  then Some (le_combine (ztake 4 (zdrop pos buf))) else None.

(** The bytes [v.assign(val, val + len)] copies. *)
Definition load_bytes (buf : bytes) (pos len : Z) : option bytes :=
  if (0 <=? pos) && (pos + len <=? zlen buf) then Some (ztake len (zdrop pos buf)) else None.

(** The parsing constructor; the outer [None] is an out-of-bounds access or
    running out of fuel. *)
Fixpoint TlvBuf_loop (fuel : nat) (tlvs : bytes) (size pos : Z) (b : TlvBuf) : option TlvBuf :=
  match fuel with
  | O => None
  | S fuel =>
      if negb (pos <? size) then Some b
      else if size - pos <? TLV_HEAD_SIZE then Some (Clear b)
      else
        match load32 tlvs pos with
        | None => None
        | Some tag =>
            let pos := pos + 4 in
            match load32 tlvs pos with
            | None => None
            | Some len =>
                let pos := pos + 4 in
                if (len <=? 0) || (size - pos <? len) then Some (Clear b)
                else
                  match load_bytes tlvs pos len with
                  | None => None
                  | Some val =>
                      let '(ok, b') := Append tag len (Some val) b in
                      if ok then TlvBuf_loop fuel tlvs size (pos + len) b'
                      else Some (Clear b')
                  end
            end
        end
  end.

Definition TlvBuf_parse (tlvs : option bytes) (size : Z) : option TlvBuf :=
  let b := Clear TlvBuf_empty in
  match tlvs with
  | None => Some b
  | Some buf => if size =? 0 then Some b else TlvBuf_loop (S (Z.to_nat size)) buf size 0 b
  end.

Definition TlvBuf_parse_tags (tlvs : option bytes) (size : Z) (validtags : list Z) : option TlvBuf :=
  match TlvBuf_parse tlvs size with
  | Some b => Some (mkTlvBuf (mTlvMap b) validtags)
  | None => None
  end.

(** [FindTlv(tag, len, val)] with a fresh copy of the value. *)
Definition FindTlv (tag : Z) (b : TlvBuf) : option (Z * bytes) :=
  match om_find tag (mTlvMap b) with
  | None => None
  | Some tlv =>
      let len := u32 (zlen tlv) in
      if (len =? 0) || (TLV_VALUE_MAX_LEN <? len) then None
      else if memcpy_ok len (zlen tlv) then Some (len, tlv) else None
  end.

Definition FindTlv_string (tag : Z) (b : TlvBuf) : option bytes := om_find tag (mTlvMap b).

Definition ContainInvalidTag (b : TlvBuf) : bool :=
  match mTlvMap b, mValidTags b with
  | [], _ => false
  | _, [] => false
  | m, vt => existsb (fun p => negb (bool_decide (p.1 ∈ vt))) m
  end.

Definition GetBufSize (b : TlvBuf) : Z :=
  fold_left (fun size p => u32 (u32 (size + TLV_HEAD_SIZE) + zlen p.2)) (mTlvMap b) 0.

(** Store [src] at [pos] of a buffer. *)
Definition store (dst : bytes) (pos : Z) (src : bytes) : bytes :=
  ztake pos dst ++ src ++ zdrop (pos + zlen src) dst.

(** The copy loop; the flag is [memcpy_s]'s. *)
Fixpoint CopyToBuf_loop (m : list (Z * bytes)) (dst : bytes) (size pos : Z) : bool * bytes :=
  match m with
  | [] => (true, dst)
  | (tag, tlv) :: m =>
      let dst := store dst pos (le_split 4 tag) in
      let pos := pos + 4 in
      let dst := store dst pos (le_split 4 (zlen tlv)) in
      let pos := pos + 4 in
      if memcpy_ok (size - pos) (zlen tlv)
      then CopyToBuf_loop m (store dst pos tlv) size (pos + zlen tlv)
      else (false, dst)
  end.

Definition CopyToBuf (b : TlvBuf) (dst : option bytes) (size : Z) : bool * option bytes :=
  match dst with
  | None => (false, None)
  | Some d =>
      if size <? GetBufSize b then (false, dst)
      else let '(ok, d') := CopyToBuf_loop (mTlvMap b) d size 0 in (ok, Some d')
  end.

(** ** Invariant *)

Definition entry_ok (p : Z * bytes) : Prop :=
  in_u 32 p.1 /\ 1 <= zlen p.2 <= TLV_VALUE_MAX_LEN.

Record wf_tlv (b : TlvBuf) : Prop := {
  wt_sorted : om_sorted (mTlvMap b);
  wt_entries : Forall entry_ok (mTlvMap b)
}.

Definition enc_entry (p : Z * bytes) : bytes := le_split 4 p.1 ++ le_split 4 (zlen p.2) ++ p.2.
Definition enc_map (m : list (Z * bytes)) : bytes := concat (map enc_entry m).

Lemma wf_tlv_empty vt : wf_tlv (mkTlvBuf [] vt).
Proof. constructor; simpl; constructor. Qed.

Lemma Clear_wf b : wf_tlv b -> wf_tlv (Clear b).
Proof. intros H. unfold Clear. destruct (mTlvMap b); [done|apply wf_tlv_empty]. Qed.

Lemma Clear_map b : mTlvMap (Clear b) = [].
Proof. unfold Clear. by destruct (mTlvMap b) eqn:E. Qed.

Lemma Append_wf tag len val b :
  wf_tlv b -> in_u 32 tag -> match val with Some v => len <= zlen v | None => True end -> 0 <= len ->
  wf_tlv (Append tag len val b).2.
Proof.
  intros [Hs He] Ht Hv Hl. unfold Append. destruct (_ || _) eqn:E; [by constructor|].
  destruct val as [v|]; [|by constructor]. destruct (om_find tag _); [by constructor|].
  breflect. constructor; cbn [Append snd mTlvMap]; [by apply om_sorted_set|].
  apply om_set_Forall; [|done]. split; simpl; [done|]. rewrite length_ztake by lia. lia.
Qed.

#[export] Hint Resolve wf_tlv_empty Clear_wf : hdc.

Lemma enc_entry_length p : zlen (enc_entry p) = 8 + zlen p.2.
Proof. unfold enc_entry. autorewrite with hdc_rw. lia. Qed.

Lemma zlen_enc_map_cons p m : zlen (enc_map (p :: m)) = 8 + zlen p.2 + zlen (enc_map m).
Proof.
  change (enc_map (p :: m)) with (enc_entry p ++ enc_map m).
  rewrite length_app, Nat2Z.inj_add, enc_entry_length. lia.
Qed.

Lemma load32_app a x k pos :
  pos = zlen a -> in_u 32 x -> load32 (a ++ le_split 4 x ++ k) pos = Some x.
Proof.
  intros -> Hx. unfold load32.
  replace ((0 <=? zlen a) && _) with true
    by (symmetry; apply andb_true_iff; rewrite !Z.leb_le, !length_app, length_le_split; lia).
  rewrite zdrop_app by done. rewrite ztake_app by done.
  rewrite le_combine_split. change (8 * Z.of_nat 4) with 32. by rewrite Z.mod_small.
Qed.

Lemma load_bytes_app a v k pos len :
  pos = zlen a -> len = zlen v -> load_bytes (a ++ v ++ k) pos len = Some v.
Proof.
  intros -> ->. unfold load_bytes.
  replace ((0 <=? zlen a) && _) with true
    by (symmetry; apply andb_true_iff; rewrite !Z.leb_le, !length_app; lia).
  rewrite zdrop_app by done. by rewrite ztake_app.
Qed.

(** One turn of the parser on an encoded entry with a fresh tag. *)
Lemma TlvBuf_loop_entry fuel a p k size b :
  entry_ok p -> size = zlen (a ++ enc_entry p ++ k) -> om_find p.1 (mTlvMap b) = None ->
  TlvBuf_loop (S fuel) (a ++ enc_entry p ++ k) size (zlen a) b
  = TlvBuf_loop fuel (a ++ enc_entry p ++ k) size (zlen a + zlen (enc_entry p))
      (mkTlvBuf (om_set p.1 p.2 (mTlvMap b)) (mValidTags b)).
Proof.
  destruct p as [tag v]. intros [Ht Hv] Hsize Hf. cbn [fst snd] in *.
  assert (Hlen : zlen (enc_entry (tag, v)) = 8 + zlen v) by apply enc_entry_length.
  rewrite !length_app in Hsize.
  assert (Hv32 : in_u 32 (zlen v)) by (unfold TLV_VALUE_MAX_LEN, in_u in *; lia).
  cbn [TlvBuf_loop]. unfold TLV_HEAD_SIZE.
  replace (zlen a <? size) with true by (symmetry; apply Z.ltb_lt; lia). cbn [negb].
  replace (size - zlen a <? 8) with false by (symmetry; apply Z.ltb_ge; lia).
  set (buf := a ++ enc_entry (tag, v) ++ k).
  assert (L1 : load32 buf (zlen a) = Some tag).
  { unfold buf, enc_entry; cbn [fst snd]. rewrite <- !(assoc_L (++)). by apply load32_app. }
  assert (L2 : load32 buf (zlen a + 4) = Some (zlen v)).
  { unfold buf, enc_entry; cbn [fst snd]. rewrite <- !(assoc_L (++)), (assoc_L (++) a).
    apply load32_app; [|done]. rewrite length_app, length_le_split. lia. }
  assert (L3 : load_bytes buf (zlen a + 4 + 4) (zlen v) = Some v).
  { unfold buf, enc_entry; cbn [fst snd]. rewrite <- !(assoc_L (++)), (assoc_L (++) a), (assoc_L (++) (a ++ _)).
    apply load_bytes_app; [|done]. rewrite !length_app, !length_le_split. lia. }
  rewrite L1, L2.
  replace ((zlen v <=? 0) || _) with false
    by (symmetry; apply orb_false_iff; rewrite Z.leb_gt, Z.ltb_ge; lia).
  rewrite L3. unfold Append.
  replace ((zlen v =? 0) || _) with false
    by (symmetry; apply orb_false_iff; rewrite Z.eqb_neq, Z.ltb_ge; lia).
  rewrite Hf, ztake_ge by lia. f_equal. lia.
Qed.

Lemma TlvBuf_loop_enc m fuel a size b :
  Forall entry_ok m -> om_sorted (mTlvMap b ++ m) ->
  size = zlen (a ++ enc_map m) -> (length m < fuel)%nat ->
  TlvBuf_loop fuel (a ++ enc_map m) size (zlen a) b
  = Some (mkTlvBuf (mTlvMap b ++ m) (mValidTags b)).
Proof.
  intros Hm. revert fuel a b. induction Hm as [|p m Hp Hm IH]; intros fuel a b Hs Hsize Hf.
  - destruct fuel; [lia|]. cbn [TlvBuf_loop]. rewrite length_app in Hsize. simpl in Hsize.
    replace (zlen a <? size) with false by (symmetry; apply Z.ltb_ge; lia).
    cbn [negb]. destruct b. simpl. by rewrite app_nil_r.
  - destruct fuel as [|fuel]; [simpl in Hf; lia|].
    change (enc_map (p :: m)) with (enc_entry p ++ enc_map m) in *.
    assert (Hlast : Forall (fun x => less x p.1 = true) (om_keys (mTlvMap b))).
    { clear -Hs. induction (mTlvMap b) as [|q l IHl]; simpl in *; constructor.
      - inversion Hs as [|? ? Hs' Hfa]; subst. rewrite List.Forall_forall in Hfa. apply Hfa.
        unfold om_keys. rewrite map_app. apply in_or_app. right. by left.
      - apply IHl. by inversion Hs. }
    rewrite TlvBuf_loop_entry; [|done|done|].
    + rewrite om_set_last by done.
      rewrite <- (Nat2Z.inj_add (length a)), <- length_app, (assoc_L (++)).
      rewrite IH; simpl; [| | |simpl in Hf; lia].
      * rewrite <- (assoc_L (++)). by destruct p.
      * rewrite <- (assoc_L (++)). simpl. by destruct p.
      * by rewrite <- (assoc_L (++)).
    + apply om_find_None. intros Hin. rewrite List.Forall_forall in Hlast.
      specialize (Hlast _ Hin). by rewrite less_irrefl in Hlast.
Qed.

(** ** Copying out *)

Lemma store_app a r s pos :
  pos = zlen a -> store (a ++ r) pos s = a ++ s ++ zdrop (zlen s) r.
Proof.
  intros ->. unfold store. rewrite ztake_app by done.
  rewrite <- zdrop_zdrop by lia. by rewrite zdrop_app.
Qed.

Lemma CopyToBuf_loop_enc m a r size :
  Forall entry_ok m -> zlen (a ++ r) = size -> size <= RSIZE_MAX -> zlen (enc_map m) <= zlen r ->
  CopyToBuf_loop m (a ++ r) size (zlen a) = (true, a ++ enc_map m ++ zdrop (zlen (enc_map m)) r).
Proof.
  intros Hm. revert a r. induction Hm as [|[tag v] m [Ht Hv] Hm IH]; intros a r Hsize Hmax Hr; [done|].
  rewrite zlen_enc_map_cons in *. cbn [CopyToBuf_loop fst snd] in *.
  rewrite length_app in Hsize. cbn [fst snd] in Hv.
  assert (Hz : forall k, 0 <= k <= zlen r -> zlen (zdrop k r) = zlen r - k) by (intros; by apply length_zdrop).
  rewrite store_app by done. rewrite length_le_split. change (Z.of_nat 4) with 4.
  rewrite (assoc_L (++) a), store_app by (rewrite length_app, length_le_split; lia).
  rewrite length_le_split. change (Z.of_nat 4) with 4.
  unfold memcpy_ok.
  replace ((0 <? _) && _ && _) with true
    by (symmetry; rewrite !andb_true_iff, Z.ltb_lt, !Z.leb_le; lia).
  rewrite (assoc_L (++) (a ++ _)), store_app by (rewrite !length_app, !length_le_split; lia).
  rewrite !zdrop_zdrop by lia.
  set (a' := (a ++ le_split 4 tag) ++ le_split 4 (zlen v)).
  rewrite (assoc_L (++) a' v).
  replace (zlen a + 4 + 4 + zlen v) with (zlen (a' ++ v))
    by (unfold a'; rewrite !length_app, !length_le_split; lia).
  rewrite IH.
  - rewrite zdrop_zdrop by lia. change (enc_map ((tag, v) :: m)) with (enc_entry (tag, v) ++ enc_map m).
    unfold a', enc_entry; cbn [fst snd]. rewrite <- !(assoc_L (++)).
    replace (4 + (4 + zlen v) + zlen (enc_map m)) with (8 + zlen v + zlen (enc_map m)) by lia.
    done.
  - unfold a'. rewrite !length_app, !length_le_split. rewrite !Nat2Z.inj_add, Hz by lia. lia.
  - done.
  - rewrite Hz by lia. lia.
Qed.

Lemma GetBufSize_aux m acc :
  0 <= acc -> acc + zlen (enc_map m) < 2 ^ 32 ->
  fold_left (fun size p => u32 (u32 (size + TLV_HEAD_SIZE) + zlen p.2)) m acc = acc + zlen (enc_map m).
Proof.
  revert acc. induction m as [|p m IH]; intros acc Ha Hb; [simpl; lia|].
  rewrite zlen_enc_map_cons in *. cbn [fold_left]. unfold TLV_HEAD_SIZE in *.
  rewrite (uwrap_small 32 (acc + 8)), uwrap_small by (unfold in_u; lia).
  rewrite IH by lia. lia.
Qed.

Lemma GetBufSize_enc b : zlen (enc_map (mTlvMap b)) < 2 ^ 32 -> GetBufSize b = zlen (enc_map (mTlvMap b)).
Proof. intros. unfold GetBufSize. by rewrite GetBufSize_aux by lia. Qed.

(** ** The parser on arbitrary input *)

Definition build (es : list (Z * bytes)) : list (Z * bytes) :=
  fold_left (fun a p => om_set p.1 p.2 a) es [].

Lemma build_snoc es p : build (es ++ [p]) = om_set p.1 p.2 (build es).
Proof. unfold build. by rewrite fold_left_app. Qed.

Lemma build_keys es k : In k (om_keys (build es)) <-> In k (map fst es).
Proof.
  induction es as [|p es IH] using rev_ind; [done|].
  rewrite build_snoc, map_app, in_app_iff, <- IH. simpl. split.
  - intros [->|?]%om_keys_set; auto.
  - intros Hk. destruct (decide (k = p.1)) as [->|Hne].
    + destruct (om_find p.1 (om_set p.1 p.2 (build es))) as [b|] eqn:E.
      * apply in_map_iff. exists (p.1, b). split; [done|]. by apply om_find_In.
      * by rewrite om_find_set_eq in E.
    + destruct Hk as [Hk|[?|[]]]; [|congruence].
      destruct (om_find k (om_set p.1 p.2 (build es))) as [b|] eqn:E.
      * apply in_map_iff. exists (k, b). split; [done|]. by apply om_find_In.
      * rewrite om_find_set_ne in E by done. by apply om_find_None in E.
Qed.

Lemma enc_map_snoc es p : enc_map (es ++ [p]) = enc_map es ++ enc_entry p.
Proof. unfold enc_map. rewrite map_app, concat_app. simpl. by rewrite app_nil_r. Qed.

Lemma load32_ok buf pos :
  wf_bytes buf -> 0 <= pos -> pos + 4 <= zlen buf ->
  exists x, load32 buf pos = Some x /\ in_u 32 x /\ ztake 4 (zdrop pos buf) = le_split 4 x.
Proof.
  intros Hwf Hp Hl. unfold load32.
  replace ((0 <=? pos) && _) with true by (symmetry; rewrite andb_true_iff, !Z.leb_le; lia).
  eexists. split; [done|].
  assert (Hlen : zlen (ztake 4 (zdrop pos buf)) = 4)
    by (rewrite length_ztake; [done|rewrite length_zdrop; lia]).
  assert (Hw : wf_bytes (ztake 4 (zdrop pos buf))) by auto with hdc.
  split.
  - pose proof (le_combine_bound _ Hw) as Hb. rewrite Hlen in Hb. exact Hb.
  - symmetry. replace 4%nat with (length (ztake 4 (zdrop pos buf))) by lia. by apply le_split_combine.
Qed.

(** Reading the next entry extends the parsed prefix by its encoding. *)
Lemma ztake_extend (buf : bytes) pos n :
  0 <= pos -> 0 <= n -> pos + n <= zlen buf ->
  ztake (pos + n) buf = ztake pos buf ++ ztake n (zdrop pos buf).
Proof.
  intros. unfold ztake, zdrop. rewrite Z2Nat.inj_add by lia. by rewrite take_take_drop.
Qed.

Definition parsed (buf : bytes) (n : Z) (b : TlvBuf) : Prop :=
  exists es, ztake n buf = enc_map es /\ List.NoDup (map fst es) /\ mTlvMap b = build es.

Lemma TlvBuf_loop_safe fuel buf size pos b :
  wf_bytes buf -> 0 <= pos <= size -> size <= zlen buf -> wf_tlv b -> parsed buf pos b ->
  size - pos < Z.of_nat fuel ->
  exists b', TlvBuf_loop fuel buf size pos b = Some b' /\ wf_tlv b' /\
             (mTlvMap b' = [] \/ parsed buf size b').
Proof.
  intros Hbuf. revert pos b. induction fuel as [|fuel IH]; intros pos b Hp Hs Hwf Hpar Hf; [lia|].
  cbn [TlvBuf_loop]. destruct (pos <? size) eqn:E1; breflect; cbn [negb].
  2:{ exists b. replace size with pos by lia. auto. }
  destruct (_ <? TLV_HEAD_SIZE) eqn:E2; breflect; unfold TLV_HEAD_SIZE in *.
  { exists (Clear b). rewrite Clear_map. auto with hdc. }
  destruct (load32_ok buf pos Hbuf) as (tag & -> & Htag & Et); [lia|lia|].
  destruct (load32_ok buf (pos + 4) Hbuf) as (len & -> & Hlen & El); [lia|lia|].
  destruct (_ || _) eqn:E3.
  { exists (Clear b). rewrite Clear_map. auto with hdc. }
  breflect. unfold load_bytes.
  replace ((0 <=? pos + 4 + 4) && _) with true by (symmetry; rewrite andb_true_iff, !Z.leb_le; lia).
  set (val := ztake len (zdrop (pos + 4 + 4) buf)).
  assert (Hval : zlen val = len) by (apply length_ztake; rewrite length_zdrop; lia).
  pose proof (Append_wf tag len (Some val) b Hwf Htag ltac:(cbn beta iota; lia) ltac:(lia)) as Hwf'.
  destruct (Append tag len (Some val) b) as [ok b'] eqn:EA. cbn [snd] in Hwf'.
  destruct ok.
  2:{ exists (Clear b'). rewrite Clear_map. auto with hdc. }
  apply IH; try lia; [done|].
  destruct Hpar as (es & Hpre & Hnd & Hm). exists (es ++ [(tag, val)]).
  unfold Append in EA. destruct ((len =? 0) || _); [done|].
  destruct (om_find tag (mTlvMap b)) eqn:Efind; [done|]. injection EA as <-.
  split; [|split].
  - rewrite enc_map_snoc, <- Hpre. replace (pos + 4 + 4 + len) with (pos + (4 + (4 + len))) by lia.
    rewrite ztake_extend by lia. f_equal. unfold enc_entry; cbn [fst snd]. rewrite Hval.
    rewrite <- Et, <- El. unfold val.
    rewrite <- (ztake_zdrop 4 (ztake (4 + (4 + len)) _)) at 1.
    assert (Hcut : forall a n (l : bytes), 0 <= a -> 0 <= n ->
      ztake a (ztake (a + n) l) = ztake a l /\ zdrop a (ztake (a + n) l) = ztake n (zdrop a l)).
    { intros a n l Ha Hn. unfold ztake, zdrop. split.
      - rewrite take_take. f_equal. lia.
      - rewrite skipn_firstn_comm. f_equal. lia. }
    destruct (Hcut 4 (4 + len) (zdrop pos buf) ltac:(lia) ltac:(lia)) as [-> ->]. f_equal.
    rewrite <- (ztake_zdrop 4 (ztake (4 + len) _)).
    destruct (Hcut 4 len (zdrop 4 (zdrop pos buf)) ltac:(lia) ltac:(lia)) as [-> ->].
    by rewrite !zdrop_zdrop by lia.
  - rewrite map_app. simpl.
    rewrite Hm in Efind. apply om_find_None in Efind. rewrite build_keys in Efind.
    apply List.NoDup_app; [done|repeat constructor; auto|]. intros x Hx [<-|[]]. done.
  - cbn [mTlvMap]. rewrite build_snoc, <- Hm. cbn [fst snd]. by rewrite ztake_ge by lia.
Qed.

(** ** Theorems *)

(** Copying to a buffer and parsing it back. *)
Lemma CopyToBuf_parse (b : TlvBuf) (dst : bytes) :
  wf_tlv b -> zlen dst <= RSIZE_MAX -> GetBufSize b <= zlen dst ->
  zlen (enc_map (mTlvMap b)) < 2 ^ 32 ->
  exists out, CopyToBuf b (Some dst) (zlen dst) = (true, Some out) /\
    zlen out = zlen dst /\ zdrop (GetBufSize b) out = zdrop (GetBufSize b) dst /\
    TlvBuf_parse (Some (ztake (GetBufSize b) out)) (GetBufSize b) = Some (mkTlvBuf (mTlvMap b) []).
Proof.
  intros [Hs He] Hmax Hfit Hsz. rewrite GetBufSize_enc in * by done.
  set (n := zlen (enc_map (mTlvMap b))) in *.
  exists (enc_map (mTlvMap b) ++ zdrop n dst). split; [|split; [|split]].
  - unfold CopyToBuf. rewrite GetBufSize_enc by done. fold n.
    replace (zlen dst <? n) with false by (symmetry; apply Z.ltb_ge; lia).
    pose proof (CopyToBuf_loop_enc (mTlvMap b) [] dst (zlen dst) He eq_refl Hmax ltac:(fold n; lia)) as H.
    cbn [app length] in H. change (Z.of_nat 0) with 0 in H. by rewrite H.
  - rewrite length_app, Nat2Z.inj_add, length_zdrop by lia. fold n. lia.
  - by apply zdrop_app.
  - rewrite ztake_app by done. unfold TlvBuf_parse. simpl Clear.
    destruct (n =? 0) eqn:E; breflect.
    + destruct (mTlvMap b) as [|p m]; [done|]. unfold n in E. rewrite zlen_enc_map_cons in E. lia.
    + pose proof (TlvBuf_loop_enc (mTlvMap b) (S (Z.to_nat n)) [] n TlvBuf_empty He Hs eq_refl) as H.
      cbn [app length] in H. change (Z.of_nat 0) with 0 in H. apply H. unfold n. clear.
      induction (mTlvMap b) as [|p m IH]; [simpl; lia|]. rewrite zlen_enc_map_cons. simpl length. lia.
Qed.

(** Encode then decode: a well-formed [TlvBuf] copied into a destination
    of at least [GetBufSize] bytes and parsed back from exactly those bytes
    yields the same map, and the rest of the destination is untouched. *)
Theorem tlv_roundtrip (b : TlvBuf) (dst : bytes) :
  wf_tlv b -> zlen dst <= RSIZE_MAX -> GetBufSize b <= zlen dst ->
  zlen (enc_map (mTlvMap b)) < 2 ^ 32 ->
  exists out, CopyToBuf b (Some dst) (zlen dst) = (true, Some out) /\
    zlen out = zlen dst /\ zdrop (GetBufSize b) out = zdrop (GetBufSize b) dst /\
    TlvBuf_parse (Some (ztake (GetBufSize b) out)) (GetBufSize b) = Some (mkTlvBuf (mTlvMap b) []).
Proof. exact (CopyToBuf_parse b dst). Qed.

Lemma tlv_roundtrip_witness :
  exists out, CopyToBuf (mkTlvBuf [(0, str "ls"); (1, str "com.a.b")] []) (Some (repeat 255 30)) 30 = (true, Some out) /\
    zlen out = 30 /\ zdrop 25 out = zdrop 25 (repeat 255 30) /\
    TlvBuf_parse (Some (ztake 25 out)) 25 = Some (mkTlvBuf [(0, str "ls"); (1, str "com.a.b")] []).
Proof.
  apply (tlv_roundtrip (mkTlvBuf [(0, str "ls"); (1, str "com.a.b")] []) (repeat 255 30)).
  - constructor.
    + repeat constructor.
    + repeat constructor; vm_compute; discriminate.
  - vm_compute. discriminate.
  - vm_compute. discriminate.
  - vm_compute. reflexivity.
Defined.

(** Memory safety and all-or-nothing parsing: on any buffer of at least
    [size] bytes the parsing constructor terminates, never loads outside the
    buffer, and leaves a well-formed map that is either empty or holds exactly
    the entries, with pairwise distinct tags, whose encodings make up the whole
    input. *)
Theorem tlv_parse_safe (buf : bytes) (size : Z) :
  wf_bytes buf -> 0 <= size <= zlen buf ->
  exists b, TlvBuf_parse (Some buf) size = Some b /\ wf_tlv b /\
    (mTlvMap b = [] \/
     exists es, ztake size buf = enc_map es /\ List.NoDup (map fst es) /\ mTlvMap b = build es).
Proof.
  intros Hbuf Hs. unfold TlvBuf_parse. simpl Clear. destruct (size =? 0) eqn:E; breflect.
  - exists TlvBuf_empty. split; [done|]. split; [apply wf_tlv_empty|by left].
  - apply (TlvBuf_loop_safe (S (Z.to_nat size)) buf size 0 TlvBuf_empty Hbuf); try lia.
    + apply wf_tlv_empty.
    + exists []. split; [done|]. split; [constructor|done].
Qed.

Lemma tlv_parse_safe_witness :
  exists b, TlvBuf_parse (Some [7; 0; 0; 0; 200; 0; 0; 0; 1]) 9 = Some b /\ wf_tlv b /\
    (mTlvMap b = [] \/
     exists es, ztake 9 [7; 0; 0; 0; 200; 0; 0; 0; 1] = enc_map es /\ List.NoDup (map fst es) /\ mTlvMap b = build es).
Proof.
  apply (tlv_parse_safe [7; 0; 0; 0; 200; 0; 0; 0; 1] 9).
  - repeat constructor; vm_compute; discriminate.
  - vm_compute. split; discriminate.
Defined.

(** [Append] is a checked insertion: it succeeds exactly when the value is
    present, its length is between 1 and [TLV_VALUE_MAX_LEN] and the tag is new;
    then [FindTlv] returns that value and every other tag is unaffected, and a
    refused append changes nothing. *)
Theorem append_then_find (tag : Z) (val : bytes) (b : TlvBuf) :
  wf_tlv b -> in_u 32 tag -> zlen val < 2 ^ 32 ->
  let '(ok, b') := Append_string tag val b in
  wf_tlv b' /\
  (ok = true <-> 1 <= zlen val <= TLV_VALUE_MAX_LEN /\ om_find tag (mTlvMap b) = None) /\
  (ok = true -> FindTlv tag b' = Some (zlen val, val) /\ FindTlv_string tag b' = Some val /\
                forall t, t <> tag -> FindTlv_string t b' = FindTlv_string t b) /\
  (ok = false -> b' = b).
Proof.
  intros Hwf Ht Hlt. unfold Append_string. rewrite uwrap_small by (unfold in_u; lia).
  pose proof (Append_wf tag (zlen val) (Some val) b Hwf Ht ltac:(cbn beta iota; lia) ltac:(lia)) as Hwf'.
  destruct (Append tag (zlen val) (Some val) b) as [ok b'] eqn:EA. cbn [snd] in Hwf'.
  split; [done|]. unfold Append in EA.
  destruct ((zlen val =? 0) || _) eqn:E1.
  { injection EA as <- <-. apply orb_true_iff in E1. split; [|done].
    split; [done|]. intros [? ?]. rewrite Z.eqb_eq, Z.ltb_lt in E1. lia. }
  breflect. destruct (om_find tag (mTlvMap b)) eqn:Ef.
  { injection EA as <- <-. split; [|done]. split; [done|]. by intros [_ ?]. }
  injection EA as <- <-. rewrite ztake_ge in * by lia. split; [|split; [|done]].
  { split; [|done]. intros _. split; [lia|done]. }
  intros _. unfold FindTlv, FindTlv_string. cbn [mTlvMap]. rewrite om_find_set_eq. split; [|split; [done|]].
  - unfold TLV_VALUE_MAX_LEN in *. rewrite uwrap_small by (unfold in_u; lia).
    replace ((zlen val =? 0) || _) with false by (symmetry; rewrite orb_false_iff, Z.eqb_neq, Z.ltb_ge; lia).
    unfold memcpy_ok, RSIZE_MAX.
    by replace ((0 <? zlen val) && _ && _) with true by (symmetry; rewrite !andb_true_iff, Z.ltb_lt, !Z.leb_le; lia).
  - intros t Hne. by apply om_find_set_ne.
Qed.

Lemma append_then_find_witness :
  FindTlv 3 (mkTlvBuf [(3, str "abc")] []) = Some (3, str "abc").
Proof.
  pose proof (append_then_find 3 (str "abc") TlvBuf_empty (wf_tlv_empty []) ltac:(unfold in_u; lia) ltac:(vm_compute; reflexivity)) as H.
  vm_compute in H. destruct H as (_ & _ & H & _). vm_compute. apply H. reflexivity.
Defined.
