(* ===== verification/TarHeader.v ===== *)
(** * TarHeader: the 512-byte archive header of [header.cpp]

    The struct with its fixed-width byte arrays, the string-copy primitive
    [snprintf_s] with its truncation, and every member function. *)

From Stdlib Require Import String ZArith Lia List Bool.
From stdpp Require Import base list numbers.
From S2P Require Import Prelude.

Definition HEADER_LEN : Z := 512.
Definition HEADER_NAME_LEN : Z := 100.
Definition HEADER_SIZE_LEN : Z := 12.
Definition HEADER_CHKSUM_LEN : Z := 8.
Definition HEADER_PREFIX_LEN : Z := 155.
Definition HEADER_MAX_FILE_LEN : Z := 255.

Definition MAGIC : bytes := str "ustar" ++ [32].
Definition VERSION : bytes := [32; 0].

(** [TypeFlage]: the byte values of the enumerators. *)
Definition INVALID : Z := 0.
Definition ORDINARYFILE : Z := 48.
Definition DIRECTORY : Z := 53.
Definition RESERVE : Z := 55.

Record Header := mkHeader {
  h_name : bytes; h_mode : bytes; h_uid : bytes; h_gid : bytes; h_size : bytes;
  h_mtime : bytes; h_chksum : bytes; h_typeflage : bytes; h_linkname : bytes;
  h_magic : bytes; h_version : bytes; h_uname : bytes; h_gname : bytes;
  h_devmajor : bytes; h_devminor : bytes; h_prefix : bytes; h_pad : bytes
}.

Definition zeros (n : nat) : bytes := repeat 0 n.

(** [Header::Header()]. *)
Definition Header_new : Header :=
  mkHeader (zeros 100) (zeros 8) (zeros 8) (zeros 8) (zeros 12) (zeros 12) (zeros 8) (zeros 1)
           (zeros 100) MAGIC VERSION (zeros 32) (zeros 32) (zeros 8) (zeros 8) (zeros 155) (zeros 12).

(** The object representation, in declaration order. *)
Definition Header_bytes (h : Header) : bytes :=
  h_name h ++ h_mode h ++ h_uid h ++ h_gid h ++ h_size h ++ h_mtime h ++ h_chksum h ++
  h_typeflage h ++ h_linkname h ++ h_magic h ++ h_version h ++ h_uname h ++ h_gname h ++
  h_devmajor h ++ h_devminor h ++ h_prefix h ++ h_pad h.

Definition slice (d : bytes) (off n : nat) : bytes := take n (drop off d).

Definition Header_of_bytes (d : bytes) : Header :=
  mkHeader (slice d 0 100) (slice d 100 8) (slice d 108 8) (slice d 116 8) (slice d 124 12)
           (slice d 136 12) (slice d 148 8) (slice d 156 1) (slice d 157 100) (slice d 257 6)
           (slice d 263 2) (slice d 265 32) (slice d 297 32) (slice d 329 8) (slice d 337 8)
           (slice d 345 155) (slice d 500 12).

(** [Header::Header(data, dataLen)]: bytes beyond [dataLen] stay zero. *)
Definition Header_parse (data : option bytes) (dataLen : Z) : Header :=
  match data with
  | None => Header_of_bytes (zeros 512)
  | Some d =>
      if (dataLen <=? 0) || (HEADER_LEN <? dataLen) then Header_of_bytes (zeros 512)
      else Header_of_bytes (ztake dataLen d ++ zeros (Z.to_nat (HEADER_LEN - dataLen)))
  end.

(** ** C strings *)

(** [strnlen(p, n)] bytes of [p]. *)
Definition strn (p : bytes) (n : Z) : bytes := cstr (ztake n p).

(** [snprintf_s(dest, destMax, count, "%s", s)]: at most [count] characters
    and the terminator are stored; -1 reports truncation. *)
Definition snprintf_s (dest : bytes) (count : Z) (s : bytes) : Z * bytes :=
  let c := cstr s in
  let out := ztake count c ++ [0] in
  (if count <? zlen c then -1 else zlen c, out ++ zdrop (zlen out) dest).

(** ** Octal numbers *)

Fixpoint oct_digits (fuel : nat) (n : Z) (acc : bytes) : bytes :=
  match fuel with
  | O => acc
  | S fuel => if n <? 8 then (48 + n) :: acc else oct_digits fuel (n / 8) ((48 + n mod 8) :: acc)
  end.

(** [std::oct << std::setw(length) << std::setfill('0')]; 22 octal digits hold
    any [size_t]. *)
Definition DecimalToOctalString (decimalNumber : Z) (length : Z) : bytes :=
  let s := oct_digits 22 decimalNumber [] in
  repeat 48 (Z.to_nat (length - zlen s)) ++ s.

Definition is_octal (c : Z) : bool := (48 <=? c) && (c <=? 55).

(** [stoull(s, nullptr, 8)] on octal digits. *)
Definition stoull8 (s : bytes) : Z := fold_left (fun a c => a * 8 + (c - 48)) s 0.

(** ** Member functions *)

Definition Name (h : Header) : bytes :=
  let prefix := strn (h_prefix h) HEADER_PREFIX_LEN in
  let name := strn (h_name h) HEADER_NAME_LEN in
  if 4096 <? zlen prefix + zlen name then [] else prefix ++ name.

Definition set_name (h : Header) (name prefix : bytes) : Header :=
  mkHeader name (h_mode h) (h_uid h) (h_gid h) (h_size h) (h_mtime h) (h_chksum h) (h_typeflage h)
           (h_linkname h) (h_magic h) (h_version h) (h_uname h) (h_gname h) (h_devmajor h)
           (h_devminor h) prefix (h_pad h).

Definition UpdataName (h : Header) (fileName : bytes) : bool * Header :=
  let len := zlen fileName in
  if HEADER_MAX_FILE_LEN <=? len then (false, h)
  else if len <? HEADER_NAME_LEN then
    let '(_, name) := snprintf_s (h_name h) (HEADER_NAME_LEN - 1) fileName in
    (true, set_name h name (h_prefix h))
  else
    let sprefix := ztake (len - (HEADER_NAME_LEN - 1)) fileName in
    let sname := zdrop (len - (HEADER_NAME_LEN - 1)) fileName in
    let '(_, name) := snprintf_s (h_name h) (HEADER_NAME_LEN - 1) sname in
    let '(_, prefix) := snprintf_s (h_prefix h) (HEADER_NAME_LEN - 1) sprefix in
    (true, set_name h name prefix).

Definition Size (h : Header) : Z :=
  let octalStr := ztake (HEADER_SIZE_LEN - 1) (h_size h) in
  match octalStr with
  | [] => 0
  | _ => if forallb is_octal octalStr then stoull8 octalStr else 0
  end.

Definition set_size (h : Header) (size : bytes) : Header :=
  mkHeader (h_name h) (h_mode h) (h_uid h) (h_gid h) size (h_mtime h) (h_chksum h) (h_typeflage h)
           (h_linkname h) (h_magic h) (h_version h) (h_uname h) (h_gname h) (h_devmajor h)
           (h_devminor h) (h_prefix h) (h_pad h).

Definition UpdataSize (h : Header) (fileLen : Z) : Header :=
  let sizeStr := DecimalToOctalString fileLen (HEADER_SIZE_LEN - 1) in
  set_size h (snprintf_s (h_size h) (HEADER_SIZE_LEN - 1) sizeStr).2.

Definition FileType (h : Header) : Z :=
  let t := default 0 (head (h_typeflage h)) in
  if (t <? ORDINARYFILE) || (RESERVE <? t) then INVALID else t.

Definition set_type (h : Header) (t : Z) : Header :=
  mkHeader (h_name h) (h_mode h) (h_uid h) (h_gid h) (h_size h) (h_mtime h) (h_chksum h) [t]
           (h_linkname h) (h_magic h) (h_version h) (h_uname h) (h_gname h) (h_devmajor h)
           (h_devminor h) (h_prefix h) (h_pad h).

Definition UpdataFileType (h : Header) (fileType : Z) : Header :=
  if (fileType <? ORDINARYFILE) || (RESERVE <? fileType) then set_type h INVALID
  else set_type h fileType.

Definition IsInvalid (h : Header) : bool := FileType h =? INVALID.

Definition set_chksum (h : Header) (c : bytes) : Header :=
  mkHeader (h_name h) (h_mode h) (h_uid h) (h_gid h) (h_size h) (h_mtime h) c (h_typeflage h)
           (h_linkname h) (h_magic h) (h_version h) (h_uname h) (h_gname h) (h_devmajor h)
           (h_devminor h) (h_prefix h) (h_pad h).

Definition byte_sum (d : bytes) : Z := fold_left (fun a c => u64 (a + c)) d 0.

Definition UpdataCheckSum (h : Header) : Header :=
  let sum := u64 (byte_sum (Header_bytes h) + 256) in
  let sizeStr := DecimalToOctalString sum (HEADER_CHKSUM_LEN - 1) in
  set_chksum h (snprintf_s (h_chksum h) (HEADER_CHKSUM_LEN - 1) sizeStr).2.

(** [GetBytes(data, dataLen)] refreshes the checksum and copies the struct. *)
Definition GetBytes (h : Header) (data : bytes) (dataLen : Z) : Header * bytes :=
  let h' := UpdataCheckSum h in
  (h', if memcpy_ok dataLen HEADER_LEN then Header_bytes h' ++ zdrop HEADER_LEN data else data).

(** ** Well-formed headers *)

Definition field_lengths (h : Header) : list nat :=
  map length [h_name h; h_mode h; h_uid h; h_gid h; h_size h; h_mtime h; h_chksum h; h_typeflage h;
              h_linkname h; h_magic h; h_version h; h_uname h; h_gname h; h_devmajor h; h_devminor h;
              h_prefix h; h_pad h].

Definition wf_header (h : Header) : Prop :=
  field_lengths h = [100; 8; 8; 8; 12; 12; 8; 1; 100; 6; 2; 32; 32; 8; 8; 155; 12]%nat /\
  wf_bytes (Header_bytes h).

(** ** Lemmas on C strings *)


Lemma cstr_zeros n : cstr (zeros n) = [].
Proof. by destruct n. Qed.

Lemma length_snprintf dest count s :
  0 <= count -> count < zlen dest -> zlen (snprintf_s dest count s).2 = zlen dest.
Proof.
  intros Hc Hl. unfold snprintf_s. cbn [snd]. rewrite length_app.
  assert (zlen (ztake count (cstr s) ++ [0]) <= count + 1)
    by (rewrite length_app; unfold ztake; rewrite length_take; simpl; lia).
  rewrite Nat2Z.inj_add, length_zdrop by lia. lia.
Qed.

(** A copy that fits, read back with [strnlen]. *)
Lemma strn_snprintf dest count n s :
  no_nul s -> 0 <= count < n ->
  strn (snprintf_s dest count s).2 n = ztake count s.
Proof.
  intros Hs Hc. unfold strn, snprintf_s. cbn [snd]. rewrite (cstr_id s) by done.
  set (t := ztake count s).
  assert (Ht : no_nul t) by by apply Forall_take.
  assert (zlen t <= count) by (unfold t, ztake; rewrite length_take; lia).
  rewrite <- (assoc_L (++)). simpl.
  assert (Hz : exists k, ztake n (t ++ 0 :: zdrop (zlen (t ++ [0])) dest) = t ++ 0 :: k).
  { unfold ztake. rewrite firstn_app, firstn_all2 by lia.
    destruct (Z.to_nat n - length t)%nat eqn:E; [lia|]. simpl. eauto. }
  destruct Hz as [k ->]. by apply cstr_app_nul.
Qed.

(** ** Lemmas on octal numbers *)

Lemma stoull8_snoc_aux s a : fold_left (fun a c => a * 8 + (c - 48)) s a = a * 8 ^ zlen s + stoull8 s.
Proof.
  unfold stoull8. revert a. induction s as [|c s IH]; intros a; simpl fold_left; [simpl; lia|].
  rewrite IH, (IH (0 * 8 + (c - 48))). simpl length. rewrite Nat2Z.inj_succ, Z.pow_succ_r by lia. nia.
Qed.

Lemma stoull8_app a b : stoull8 (a ++ b) = stoull8 a * 8 ^ zlen b + stoull8 b.
Proof. unfold stoull8 at 1. rewrite fold_left_app. fold (stoull8 a). apply stoull8_snoc_aux. Qed.

Lemma stoull8_zeros n : stoull8 (repeat 48 n) = 0.
Proof. unfold stoull8. induction n as [|n IH]; [done|]. exact IH. Qed.

Lemma oct_digits_spec fuel k n acc :
  0 <= n < 8 ^ Z.of_nat k -> (0 < k <= fuel)%nat -> Forall (fun c => is_octal c = true) acc ->
  exists d, oct_digits fuel n acc = d ++ acc /\ stoull8 d = n /\ (1 <= length d <= k)%nat /\
    Forall (fun c => is_octal c = true) d.
Proof.
  intros Hn. revert fuel n acc Hn. induction k as [|k IH]; intros fuel n acc Hn Hk Hacc; [lia|].
  destruct fuel as [|fuel]; [lia|]. simpl. destruct (n <? 8) eqn:E; breflect.
  - exists [48 + n]. repeat split; simpl; try lia; [unfold stoull8; simpl; lia|].
    constructor; [|constructor]. unfold is_octal. rewrite andb_true_iff, !Z.leb_le. lia.
  - rewrite Nat2Z.inj_succ, Z.pow_succ_r in Hn by lia.
    pose proof (Z.mod_pos_bound n 8 ltac:(lia)).
    assert (Hoct : is_octal (48 + n mod 8) = true) by (unfold is_octal; rewrite andb_true_iff, !Z.leb_le; lia).
    assert (Hq : 0 <= n / 8 < 8 ^ Z.of_nat k)
      by (split; [apply Z.div_pos; lia|apply Z.div_lt_upper_bound; lia]).
    assert (k <> 0)%nat by (intros ->; simpl in Hn; lia).
    destruct (IH fuel (n / 8) ((48 + n mod 8) :: acc) Hq) as (d & Hd & Hv & Hl & Ho); [lia|by constructor|].
    exists (d ++ [48 + n mod 8]). rewrite Hd, <- (assoc_L (++)). split; [done|]. split; [|split].
    + rewrite stoull8_app, Hv. unfold stoull8; simpl. pose proof (Z.div_mod n 8 ltac:(lia)). lia.
    + rewrite length_app. simpl. lia.
    + apply Forall_app. split; [done|]. by constructor.
Qed.

(** A number below [8^k] printed with width [k]. *)
Lemma DecimalToOctalString_spec n k :
  0 <= n < 8 ^ Z.of_nat k -> (0 < k <= 22)%nat ->
  zlen (DecimalToOctalString n (Z.of_nat k)) = Z.of_nat k /\
  stoull8 (DecimalToOctalString n (Z.of_nat k)) = n /\
  Forall (fun c => is_octal c = true) (DecimalToOctalString n (Z.of_nat k)).
Proof.
  intros Hn Hk. unfold DecimalToOctalString.
  destruct (oct_digits_spec 22 k n [] Hn ltac:(lia) (List.Forall_nil _)) as (d & -> & Hv & Hl & Ho).
  rewrite app_nil_r, length_app, repeat_length. split; [lia|]. split.
  - rewrite stoull8_app, stoull8_zeros. lia.
  - apply Forall_app. split; [|done].
    apply List.Forall_forall. intros x Hx. apply repeat_spec in Hx. by subst.
Qed.

Lemma octal_no_nul s : Forall (fun c => is_octal c = true) s -> no_nul s.
Proof. apply List.Forall_impl. intros c Hc ->. done. Qed.

Lemma strn_zeros n m : strn (zeros n) m = [].
Proof. unfold strn, zeros, ztake. by destruct n, (Z.to_nat m). Qed.

(** ** Layout *)

Lemma slice_app a b k off n :
  off = length a -> n = length b -> slice (a ++ b ++ k) off n = b.
Proof. intros -> ->. unfold slice. by rewrite drop_app_length, take_app_length. Qed.

Lemma Header_bytes_length h : wf_header h -> length (Header_bytes h) = 512%nat.
Proof.
  intros [Hl _]. unfold field_lengths in Hl. simpl in Hl. simplify_eq.
  unfold Header_bytes. rewrite !length_app. lia.
Qed.

Lemma Header_of_bytes_id h : wf_header h -> Header_of_bytes (Header_bytes h) = h.
Proof.
  intros [Hl _]. unfold field_lengths in Hl. simpl in Hl. injection Hl as ?????????????????.
  destruct h as [f1 f2 f3 f4 f5 f6 f7 f8 f9 f10 f11 f12 f13 f14 f15 f16 f17].
  unfold Header_bytes, Header_of_bytes; cbn [h_name h_mode h_uid h_gid h_size h_mtime h_chksum
    h_typeflage h_linkname h_magic h_version h_uname h_gname h_devmajor h_devminor h_prefix h_pad] in *.
  f_equal.
  1: by apply (slice_app [] f1).
  all: repeat match goal with
       | |- slice (?a ++ ?b ++ ?k) ?off ?n = ?b =>
           apply slice_app; rewrite ?length_app; lia
       | |- slice (?a ++ ?b) _ _ = ?b =>
           rewrite <- (app_nil_r b) at 1; apply slice_app; rewrite ?length_app; lia
       | |- slice (?a ++ ?b ++ ?k) _ _ = _ => rewrite (assoc_L (++) a b k)
       end.
Qed.

(** ** Theorems *)

(** File names through a fresh header: names of up to 198 characters come
    back exactly; names of 199 to 254 characters are accepted but the prefix
    copy is bounded by the width of the name field, so characters 99 to
    [len - 99] are silently lost; 255 characters or more are refused and leave
    the header unchanged. *)
Theorem name_roundtrip (f : bytes) :
  no_nul f ->
  let '(ok, h) := UpdataName Header_new f in
  (zlen f <= 198 -> ok = true /\ Name h = f) /\
  (199 <= zlen f < 255 -> ok = true /\ Name h = ztake 99 f ++ zdrop (zlen f - 99) f) /\
  (255 <= zlen f -> ok = false /\ h = Header_new).
Proof.
  intros Hf. unfold UpdataName, HEADER_MAX_FILE_LEN, HEADER_NAME_LEN.
  destruct (255 <=? zlen f) eqn:E1; breflect; [split; [lia|split; [lia|done]]|].
  destruct (zlen f <? 100) eqn:E2; breflect.
  - destruct (snprintf_s _ _ f) as [rc name] eqn:Es. split; [intros _; split; [done|]|split; lia].
    unfold Name, set_name; cbn [h_name h_prefix Header_new].
    rewrite strn_zeros. replace name with (snprintf_s (h_name Header_new) (100 - 1) f).2 by by rewrite Es.
    rewrite strn_snprintf by (done || (unfold HEADER_NAME_LEN; lia)).
    rewrite ztake_ge by lia. cbn [length app].
    replace (4096 <? Z.of_nat 0 + zlen f) with false by (symmetry; apply Z.ltb_ge; lia). done.
  - set (n := zlen f - (100 - 1)).
    destruct (snprintf_s _ _ (zdrop n f)) as [rc1 name] eqn:Es1.
    destruct (snprintf_s _ _ (ztake n f)) as [rc2 prefix] eqn:Es2.
    assert (Hn : strn name HEADER_NAME_LEN = zdrop n f).
    { replace name with (snprintf_s (h_name Header_new) (100 - 1) (zdrop n f)).2 by by rewrite Es1.
      rewrite strn_snprintf by ((by apply Forall_drop) || (unfold HEADER_NAME_LEN; lia)).
      apply ztake_ge. rewrite length_zdrop; unfold n; lia. }
    assert (Hp : strn prefix HEADER_PREFIX_LEN = ztake 99 (ztake n f)).
    { replace prefix with (snprintf_s (h_prefix Header_new) (100 - 1) (ztake n f)).2 by by rewrite Es2.
      by rewrite strn_snprintf by ((by apply Forall_take) || (unfold HEADER_PREFIX_LEN; lia)). }
    assert (HN : Name (set_name Header_new name prefix) = ztake 99 (ztake n f) ++ zdrop n f).
    { unfold Name, set_name; cbn [h_name h_prefix]. rewrite Hn, Hp.
      replace (4096 <? _) with false; [done|]. symmetry. apply Z.ltb_ge.
      unfold ztake at 1. rewrite length_take. rewrite length_zdrop by (unfold n; lia). lia. }
    rewrite HN. split; [|split; [|lia]].
    + intros H. split; [done|]. rewrite (ztake_ge (ztake n f)); [apply ztake_zdrop|].
      rewrite length_ztake; unfold n; lia.
    + intros H. split; [done|]. f_equal. unfold ztake. rewrite take_take. f_equal. unfold n. lia.
Qed.

Lemma name_roundtrip_witness :
  exists h, UpdataName Header_new (repeat 97 198) = (true, h) /\ Name h = repeat 97 198.
Proof.
  assert (Hf : no_nul (repeat 97 198)) by (apply List.Forall_forall; intros x Hx; apply repeat_spec in Hx; lia).
  pose proof (name_roundtrip (repeat 97 198) Hf) as H.
  destruct (UpdataName Header_new (repeat 97 198)) as [ok h]. exists h.
  destruct H as [H _]. destruct H as [-> Hn]; [rewrite repeat_length; lia|]. split; [reflexivity|exact Hn].
Defined.

(** File sizes: every size below 8^11 (8 GiB) is stored in octal and read
    back exactly; the size 8^11 itself is stored truncated to its first eleven
    digits and reads back as 8^10. *)
Theorem size_roundtrip (h : Header) :
  zlen (h_size h) = 12 ->
  (forall n, 0 <= n < 8 ^ 11 -> Size (UpdataSize h n) = n) /\
  Size (UpdataSize h (8 ^ 11)) = 8 ^ 10.
Proof.
  intros Hl.
  assert (Hrd : forall s d, zlen s = 11 -> Forall (fun c => is_octal c = true) s ->
    ztake 11 d = s -> (match ztake 11 d with [] => 0 | _ => if forallb is_octal (ztake 11 d) then stoull8 (ztake 11 d) else 0 end) = stoull8 s).
  { intros s d Hs Ho ->. destruct s as [|c s]; [done|].
    replace (forallb is_octal (c :: s)) with true; [done|]. symmetry. apply forallb_forall.
    intros x Hx. rewrite List.Forall_forall in Ho. by apply Ho. }
  split.
  - intros n Hn. destruct (DecimalToOctalString_spec n 11 Hn ltac:(lia)) as (Hs & Hv & Ho).
    change (Z.of_nat 11) with 11 in *. unfold Size, UpdataSize, set_size, HEADER_SIZE_LEN; cbn [h_size].
    change (12 - 1) with 11. rewrite <- Hv at 2. apply Hrd; [done|done|].
    unfold snprintf_s. cbn [snd]. rewrite cstr_id by by apply octal_no_nul.
    rewrite (ztake_ge (DecimalToOctalString n 11)) by lia. rewrite <- (assoc_L (++)).
    by apply ztake_app.
  - unfold Size, UpdataSize, set_size, HEADER_SIZE_LEN; cbn [h_size].
    change (12 - 1) with 11.
    rewrite (Hrd (49 :: repeat 48 10)); [vm_compute; reflexivity|done| |].
    + repeat constructor.
    + unfold snprintf_s. cbn [snd].
      change (ztake 11 (cstr (DecimalToOctalString (8 ^ 11) 11))) with (49 :: repeat 48 10).
      rewrite <- (assoc_L (++)). by apply ztake_app.
Qed.

Lemma size_roundtrip_witness : Size (UpdataSize Header_new 1024) = 1024.
Proof. apply (proj1 (size_roundtrip Header_new ltac:(vm_compute; reflexivity)) 1024). lia. Defined.

Ltac cbn_header :=
  cbn [h_name h_mode h_uid h_gid h_size h_mtime h_chksum h_typeflage h_linkname h_magic h_version
       h_uname h_gname h_devmajor h_devminor h_prefix h_pad] in *.

Definition zsum (d : bytes) : Z := fold_right Z.add 0 d.

Lemma zsum_app a b : zsum (a ++ b) = zsum a + zsum b.
Proof. unfold zsum. induction a; simpl; lia. Qed.

Lemma zsum_bound d : wf_bytes d -> 0 <= zsum d <= 255 * zlen d.
Proof.
  unfold zsum. induction 1 as [|x d Hx Hd IH]; [simpl; lia|]. cbn [fold_right length].
  unfold in_u in Hx. lia.
Qed.

Lemma byte_sum_zsum d : wf_bytes d -> zlen d < 2 ^ 32 -> byte_sum d = zsum d.
Proof.
  intros Hd Hl. unfold byte_sum.
  assert (H : forall a, 0 <= a -> a + 255 * zlen d < 2 ^ 64 ->
    fold_left (fun a c => u64 (a + c)) d a = a + zsum d); [|apply H; lia].
  clear Hl. induction Hd as [|x d Hx Hd IH]; intros a Ha Hb; cbn [fold_left zsum fold_right length] in *; [lia|].
  unfold in_u in Hx. rewrite uwrap_small by (unfold in_u; lia).
  rewrite IH by lia. unfold zsum. lia.
Qed.

Lemma zsum_chksum h c :
  zsum (Header_bytes (set_chksum h c)) = zsum (Header_bytes h) - zsum (h_chksum h) + zsum c.
Proof. destruct h. unfold Header_bytes, set_chksum; cbn_header. rewrite !zsum_app. lia. Qed.

Lemma wf_set_chksum h c : wf_header h -> length c = 8%nat -> wf_bytes c -> wf_header (set_chksum h c).
Proof.
  intros [Hl Hb] Hc Hw. split.
  - unfold field_lengths in *. destruct h; unfold set_chksum; cbn_header. cbn [map] in *. congruence.
  - unfold Header_bytes, set_chksum in *. destruct h; cbn_header. rewrite !Forall_app in *. tauto.
Qed.

Lemma octal_wf s : Forall (fun c => is_octal c = true) s -> wf_bytes s.
Proof. apply List.Forall_impl. unfold is_octal, in_u. intros c Hc. breflect. lia. Qed.

(** Writing a header out and reading it back: for a header whose checksum
    field is still zero, [GetBytes] fills the 512 bytes, parsing them gives the
    header with its checksum set, and the octal checksum equals the sum of the
    bytes with the checksum field counted as eight spaces. *)
Theorem header_bytes_roundtrip (h : Header) (data : bytes) :
  wf_header h -> h_chksum h = zeros 8 -> zlen data = 512 ->
  let '(h', out) := GetBytes h data 512 in
  zlen out = 512 /\ Header_parse (Some out) 512 = h' /\
  stoull8 (ztake 7 (h_chksum h')) = zsum (Header_bytes (set_chksum h' (repeat 32 8))).
Proof.
  intros Hwf Hz Hd. unfold GetBytes. change (memcpy_ok 512 HEADER_LEN) with true.
  rewrite (zdrop_ge data) by (unfold HEADER_LEN; lia). rewrite app_nil_r.
  pose proof (Header_bytes_length h Hwf) as Hlen. pose proof (zsum_bound _ (proj2 Hwf)) as Hsum.
  rewrite Hlen in Hsum.
  assert (Hbs : u64 (byte_sum (Header_bytes h) + 256) = zsum (Header_bytes h) + 256).
  { rewrite byte_sum_zsum by (apply Hwf || (rewrite Hlen; lia)). apply uwrap_small. unfold in_u. lia. }
  set (n := zsum (Header_bytes h) + 256) in *.
  destruct (DecimalToOctalString_spec n 7) as (Hs & Hv & Ho); [unfold n; lia|lia|].
  change (Z.of_nat 7) with 7 in *.
  assert (Hh' : UpdataCheckSum h = set_chksum h (DecimalToOctalString n 7 ++ [0])).
  { unfold UpdataCheckSum, HEADER_CHKSUM_LEN. rewrite Hbs. change (8 - 1) with 7. f_equal.
    unfold snprintf_s. cbn [snd]. rewrite cstr_id by by apply octal_no_nul.
    rewrite ztake_ge by lia. rewrite Hz, zdrop_ge; [by rewrite app_nil_r|].
    rewrite length_app, Nat2Z.inj_add, Hs. unfold zeros. rewrite repeat_length. simpl. lia. }
  assert (Hwf' : wf_header (UpdataCheckSum h)).
  { rewrite Hh'. apply wf_set_chksum; [done|rewrite length_app; simpl; lia|].
    apply Forall_app. split; [by apply octal_wf|]. constructor; [unfold in_u; lia|constructor]. }
  pose proof (Header_bytes_length _ Hwf') as Hlen'. split; [lia|]. split.
  - unfold Header_parse. change ((512 <=? 0) || (HEADER_LEN <? 512)) with false. cbn iota.
    rewrite ztake_ge by lia. change (zeros (Z.to_nat (HEADER_LEN - 512))) with (@nil Z).
    rewrite app_nil_r. by apply Header_of_bytes_id.
  - rewrite Hh'. unfold set_chksum at 1; cbn [h_chksum]. rewrite ztake_app by lia. rewrite Hv.
    change (set_chksum (set_chksum h _) (repeat 32 8)) with (set_chksum h (repeat 32 8)).
    rewrite zsum_chksum, Hz. unfold n. change (zsum (zeros 8)) with 0. change (zsum (repeat 32 8)) with 256. lia.
Qed.

Lemma header_bytes_roundtrip_witness :
  exists h' out, GetBytes (UpdataSize Header_new 42) (zeros 512) 512 = (h', out) /\
    Header_parse (Some out) 512 = h'.
Proof.
  assert (Hw : wf_header (UpdataSize Header_new 42)).
  { split; [vm_compute; reflexivity|]. apply (bool_decide_unpack _). vm_compute. exact I. }
  pose proof (header_bytes_roundtrip (UpdataSize Header_new 42) (zeros 512) Hw ltac:(vm_compute; reflexivity) ltac:(vm_compute; reflexivity)) as H.
  destruct (GetBytes (UpdataSize Header_new 42) (zeros 512) 512) as [h' out]. exists h', out.
  split; [reflexivity|apply H].
Defined.
