(* ===== verification/Serial.v ===== *)
(** * Serial: the wire codec of [serial_struct_define.h]

    The protobuf-like encoder and decoder every hdc message goes through.
    A [Writer] is a class with one operation, implemented by [StringWriter]
    (append to a byte string) and [WriterSizeCollector] (count bytes); a
    [reader] is a [StringReader] under a stack of [LimitedReader]s, innermost
    limit first.  [Serializer<T>] is a record of the two static functions the
    templates call, [Parse] returning the flag, the (possibly partly written)
    out-parameter and the reader.  A message descriptor is the list of its
    fields, visited in order. *)

From Stdlib Require Import ZArith Lia List Bool.
From stdpp Require Import base list numbers.
From S2P Require Import Prelude.

(** ** Wire types and tags *)

Definition WireType := Z.
Definition VARINT : WireType := 0.
Definition FIXED64 : WireType := 1.
Definition LENGTH_DELIMETED : WireType := 2.
Definition START_GROUP : WireType := 3.
Definition END_GROUP : WireType := 4.
Definition FIXED32 : WireType := 5.

Definition MakeTagWireType (tag : Z) (wireType : WireType) : Z :=
  Z.lor (u32 (Z.shiftl tag 3)) wireType.

Definition ReadTagWireType (tagKey : Z) : Z * WireType :=
  (Z.shiftr tagKey 3, Z.land tagKey 7).

(** ** Zigzag, for widths 32 and 64 *)

Definition MakeZigzagValue (w value : Z) : Z :=
  Z.lxor (uwrap w (Z.shiftl (uwrap w value) 1)) (uwrap w (Z.shiftr value (w - 1))).

Definition ReadZigzagValue (w value : Z) : Z :=
  swrap w (Z.lxor (Z.shiftr value 1)
                  (uwrap w (uwrap w (Z.lnot (Z.land value 1)) + 1))).

(** ** Writers *)

Class Writer (W : Type) := Write : bytes -> W -> W.

#[export] Instance StringWriter : Writer bytes := fun bs out => out ++ bs.
#[export] Instance WriterSizeCollector : Writer Z :=
  fun bs byte_size => u64 (byte_size + zlen bs).

(** ** Readers *)

Record reader := mkReader { r_in : bytes; r_pos : Z; r_limits : list Z }.

Definition StringReader (s : bytes) : reader := mkReader s 0 [].

Definition StringReader_Read (input : bytes) (pos size : Z) : bytes * Z :=
  if zlen input <? pos then ([], pos)
  else
    let readSize := Z.min size (zlen input - pos) in
    if memcpy_ok size readSize
    then (ztake readSize (zdrop pos input), pos + readSize)
    else ([], pos).

Fixpoint LimitedReader_Read (limits : list Z) (input : bytes) (pos size : Z)
    : bytes * (list Z * Z) :=
  match limits with
  | [] => let '(bs, pos') := StringReader_Read input pos size in (bs, ([], pos'))
  | lim :: parent =>
      let sizeToRead := Z.min size lim in
      let '(bs, (parent', pos')) := LimitedReader_Read parent input pos sizeToRead in
      (bs, (lim - zlen bs :: parent', pos'))
  end.

Definition Read (size : Z) (r : reader) : bytes * reader :=
  let '(bs, (lims, pos)) := LimitedReader_Read (r_limits r) (r_in r) (r_pos r) size in
  (bs, mkReader (r_in r) pos lims).

(** Entering and leaving the scope of a [LimitedReader limitedIn(in, size)]. *)
Definition push_limit (size : Z) (r : reader) : reader :=
  mkReader (r_in r) (r_pos r) (size :: r_limits r).
Definition pop_limit (r : reader) : reader :=
  mkReader (r_in r) (r_pos r) (tail (r_limits r)).
Definition AvailableBytes (r : reader) : Z :=
  match r_limits r with [] => 0 | l :: _ => l end.

Definition ReadByte (r : reader) : option Z * reader :=
  let '(bs, r') := Read 1 r in
  match bs with
  | [x] => (Some x, r')
  | _ => (None, r')
  end.

(** ** Varints: [bytesSize] is 5 for [uint32_t] and 10 for [uint64_t] *)

Fixpoint WriteVarint_loop (n : nat) (value : Z) (b : bytes) : option bytes :=
  match n with
  | O => None
  | S n =>
      let bi := Z.land value 127 in
      let value' := Z.shiftr value 7 in
      if negb (value' =? 0) then WriteVarint_loop n value' (b ++ [Z.lor bi 128])
      else Some (b ++ [bi])
  end.

Definition WriteVarint_n (bytesSize : nat) {W} `{Writer W} (value : Z) (out : W) : W :=
  match WriteVarint_loop bytesSize value [] with
  | Some b => Write b out
  | None => out
  end.

Definition WriteVarint_u32 {W} `{Writer W} (value : Z) (out : W) : W := WriteVarint_n 5 value out.
Definition WriteVarint_u64 {W} `{Writer W} (value : Z) (out : W) : W := WriteVarint_n 10 value out.

(** The result is the flag, the out-parameter and the reader. *)
Fixpoint ReadVarint_loop (w : Z) (n : nat) (c : Z) (value : Z) (r : reader)
    : bool * Z * reader :=
  match n with
  | O => (false, value, r)
  | S n =>
      match ReadByte r with
      | (None, r') => (false, value, r')
      | (Some x, r') =>
          let value' := Z.lor value (uwrap w (Z.shiftl (Z.land x 127) (7 * c))) in
          if Z.land x 128 =? 0 then (true, value', r')
          else ReadVarint_loop w n (c + 1) value' r'
      end
  end.

Definition ReadVarint_u32 (r : reader) : bool * Z * reader := ReadVarint_loop 32 5 0 0 r.
Definition ReadVarint_u64 (r : reader) : bool * Z * reader := ReadVarint_loop 64 10 0 0 r.

Definition WriteVarint_i32 {W} `{Writer W} (value : Z) (out : W) : W :=
  WriteVarint_u32 (u32 value) out.
Definition WriteVarint_i64 {W} `{Writer W} (value : Z) (out : W) : W :=
  WriteVarint_u64 (u64 value) out.
Definition WriteSignedVarint_i32 {W} `{Writer W} (value : Z) (out : W) : W :=
  WriteVarint_u32 (MakeZigzagValue 32 value) out.
Definition WriteSignedVarint_i64 {W} `{Writer W} (value : Z) (out : W) : W :=
  WriteVarint_u64 (MakeZigzagValue 64 value) out.

(** Readers through an intermediate value assign only on success. *)
Definition via {A} (rd : reader -> bool * Z * reader) (conv : Z -> A)
    (old : A) (r : reader) : bool * A * reader :=
  let '(ok, v, r') := rd r in
  if ok then (true, conv v, r') else (false, old, r').

Definition ReadVarint_i32 : Z -> reader -> bool * Z * reader := via ReadVarint_u32 (swrap 32).
Definition ReadVarint_i64 : Z -> reader -> bool * Z * reader := via ReadVarint_u64 (swrap 64).
Definition ReadSignedVarint_i32 : Z -> reader -> bool * Z * reader :=
  via ReadVarint_u32 (ReadZigzagValue 32).
Definition ReadSignedVarint_i64 : Z -> reader -> bool * Z * reader :=
  via ReadVarint_u64 (ReadZigzagValue 64).

Definition WriteTagWriteType {W} `{Writer W} (tag : Z) (wireType : WireType) (out : W) : W :=
  WriteVarint_u32 (MakeTagWireType tag wireType) out.

(** ** Fixed-width values, little-endian, 4 or 8 bytes *)

Definition WriteFixed (n : nat) {W} `{Writer W} (value : Z) (out : W) : W :=
  Write (le_split n value) out.

(** A short read leaves the tail of the old object representation. *)
Definition ReadFixed (n : nat) (old : Z) (r : reader) : bool * Z * reader :=
  let '(bs, r') := Read (Z.of_nat n) r in
  (zlen bs =? Z.of_nat n, le_combine (bs ++ drop (length bs) (le_split n old)), r').

Definition WriteSignedFixed (n : nat) {W} `{Writer W} (value : Z) (out : W) : W :=
  WriteFixed n (uwrap (8 * Z.of_nat n) value) out.
Definition ReadSignedFixed (n : nat) : Z -> reader -> bool * Z * reader :=
  via (ReadFixed n 0) (swrap (8 * Z.of_nat n)).

(** ** Serializers *)

Record Serializer (T : Type) := mkSerializer {
  Serialize : forall {W} `{Writer W}, Z -> T -> bool -> W -> W;
  Parse : WireType -> T -> reader -> bool * T * reader
}.
Arguments Serialize {T} s {W H} tag value force out.
Arguments Parse {T} s wireType value r.
Arguments mkSerializer {T}.

Record PackedSerializer (T : Type) := mkPacked {
  SerializePacked : forall {W} `{Writer W}, T -> W -> W;
  ParsePacked : T -> reader -> bool * T * reader
}.
Arguments SerializePacked {T} p {W H} value out.
Arguments ParsePacked {T} p value r.
Arguments mkPacked {T}.

(** [if (wire_type != expected) return false; ...] *)
Definition guard_wire {T} (expected : WireType) (p : T -> reader -> bool * T * reader)
    (wire_type : WireType) (value : T) (r : reader) : bool * T * reader :=
  if negb (wire_type =? expected) then (false, value, r) else p value r.

(** The flag combinations the signed and the unsigned overloads accept. *)
Inductive sflags := s_no | s_s | s_sf.
Inductive uflags := u_no | u_f.

Definition Packed_int32 (fl : sflags) : PackedSerializer Z :=
  match fl with
  | s_no => mkPacked (fun W _ v out => WriteVarint_i32 v out) ReadVarint_i32
  | s_s => mkPacked (fun W _ v out => WriteSignedVarint_i32 v out) ReadSignedVarint_i32
  | s_sf => mkPacked (fun W _ v out => WriteSignedFixed 4 v out) (ReadSignedFixed 4)
  end.

Definition Serializer_int32 (fl : sflags) : Serializer Z :=
  let wt := match fl with s_sf => FIXED32 | _ => VARINT end in
  mkSerializer
    (fun W _ tag value force out =>
       SerializePacked (Packed_int32 fl) value (WriteTagWriteType tag wt out))
    (guard_wire wt (ParsePacked (Packed_int32 fl))).

Definition Packed_uint32 (fl : uflags) : PackedSerializer Z :=
  match fl with
  | u_no => mkPacked (fun W _ v out => WriteVarint_u32 v out) (fun _ => ReadVarint_u32)
  | u_f => mkPacked (fun W _ v out => WriteFixed 4 v out) (ReadFixed 4)
  end.

Definition Serializer_uint32 (fl : uflags) : Serializer Z :=
  let wt := match fl with u_f => FIXED32 | u_no => VARINT end in
  mkSerializer
    (fun W _ tag value force out =>
       SerializePacked (Packed_uint32 fl) value (WriteTagWriteType tag wt out))
    (guard_wire wt (ParsePacked (Packed_uint32 fl))).

Definition Packed_int64 (fl : sflags) : PackedSerializer Z :=
  match fl with
  | s_no => mkPacked (fun W _ v out => WriteVarint_i64 v out) ReadVarint_i64
  | s_s => mkPacked (fun W _ v out => WriteSignedVarint_i64 v out) ReadSignedVarint_i64
  | s_sf => mkPacked (fun W _ v out => WriteSignedFixed 8 v out) (ReadSignedFixed 8)
  end.

Definition Serializer_int64 (fl : sflags) : Serializer Z :=
  let wt := match fl with s_sf => FIXED64 | _ => VARINT end in
  mkSerializer
    (fun W _ tag value force out =>
       SerializePacked (Packed_int64 fl) value (WriteTagWriteType tag wt out))
    (guard_wire wt (ParsePacked (Packed_int64 fl))).

Definition Packed_uint64 (fl : uflags) : PackedSerializer Z :=
  match fl with
  | u_no => mkPacked (fun W _ v out => WriteVarint_u64 v out) (fun _ => ReadVarint_u64)
  | u_f => mkPacked (fun W _ v out => WriteFixed 8 v out) (ReadFixed 8)
  end.

(** Only the fixed form elides a zero that is not forced. *)
Definition Serializer_uint64 (fl : uflags) : Serializer Z :=
  match fl with
  | u_no =>
      mkSerializer
        (fun W _ tag value force out =>
           SerializePacked (Packed_uint64 u_no) value (WriteTagWriteType tag VARINT out))
        (guard_wire VARINT (ParsePacked (Packed_uint64 u_no)))
  | u_f =>
      mkSerializer
        (fun W _ tag value force out =>
           if negb force && (value =? 0) then out
           else SerializePacked (Packed_uint64 u_f) value (WriteTagWriteType tag FIXED64 out))
        (guard_wire FIXED64 (ParsePacked (Packed_uint64 u_f)))
  end.

(** [double] and [float] as their IEEE bit patterns; [FP_ZERO] is a pattern
    that is zero up to the sign bit. *)
Definition fp_is_zero (w bits : Z) : bool := Z.land bits (Z.ones (w - 1)) =? 0.

Definition Packed_fp (n : nat) : PackedSerializer Z :=
  mkPacked (fun W _ v out => WriteFixed n v out)
           (fun old => via (ReadFixed n 0) (fun v => v) old).

Definition Serializer_double : Serializer Z :=
  mkSerializer
    (fun W _ tag value force out =>
       if negb force && fp_is_zero 64 value then out
       else SerializePacked (Packed_fp 8) value (WriteTagWriteType tag FIXED64 out))
    (guard_wire FIXED64 (ParsePacked (Packed_fp 8))).

Definition Serializer_float : Serializer Z :=
  mkSerializer
    (fun W _ tag value force out =>
       if negb force && fp_is_zero 32 value then out
       else SerializePacked (Packed_fp 4) value (WriteTagWriteType tag FIXED32 out))
    (guard_wire FIXED32 (ParsePacked (Packed_fp 4))).

(** Serializers that go through another one ([bool], enums, [uint8_t],
    [uint16_t]): convert, and assign only when the inner parse succeeds. *)
Definition Serializer_conv {T} (base : Serializer Z) (toU : T -> Z) (ofU : Z -> T) : Serializer T :=
  mkSerializer
    (fun W _ tag value force out => Serialize base tag (toU value) force out)
    (fun wt value r => via (Parse base wt 0) ofU value r).

Definition Packed_conv {T} (base : PackedSerializer Z) (toU : T -> Z) (ofU : Z -> T)
    : PackedSerializer T :=
  mkPacked (fun W _ value out => SerializePacked base (toU value) out)
           (fun value r => via (ParsePacked base 0) ofU value r).

Definition bool_to_u32 (b : bool) : Z := if b then 1 else 0.
Definition Serializer_bool : Serializer bool :=
  Serializer_conv (Serializer_uint32 u_no) bool_to_u32 (fun v => negb (v =? 0)).
Definition Packed_bool : PackedSerializer bool :=
  Packed_conv (Packed_uint32 u_no) bool_to_u32 (fun v => negb (v =? 0)).

Definition Serializer_enum {T} (U : Serializer Z) (toU : T -> Z) (ofU : Z -> T) : Serializer T :=
  Serializer_conv U toU ofU.

Definition Serializer_uint8 : Serializer Z :=
  Serializer_conv (Serializer_uint32 u_no) (fun v => v) (uwrap 8).
Definition Packed_uint8 : PackedSerializer Z :=
  Packed_conv (Packed_uint32 u_no) (fun v => v) (uwrap 8).
Definition Serializer_uint16 : Serializer Z :=
  Serializer_conv (Serializer_uint32 u_no) (fun v => v) (uwrap 16).
Definition Packed_uint16 : PackedSerializer Z :=
  Packed_conv (Packed_uint32 u_no) (fun v => v) (uwrap 16).

(** [std::string]: [resize] then [Read] into the buffer. *)
Definition MAX_STRING_SIZE : Z := 10 * 1024 * 1024.

Definition resize (size : Z) (s : bytes) : bytes :=
  ztake size s ++ repeat 0 (Z.to_nat (size - zlen s)).

Definition Parse_string (value : bytes) (r : reader) : bool * bytes * reader :=
  match ReadVarint_u64 r with
  | (true, size, r1) =>
      if MAX_STRING_SIZE <? size then (false, value, r1)
      else
        let buf := resize size value in
        let '(bs, r2) := Read size r1 in
        (zlen bs =? size, bs ++ zdrop (zlen bs) buf, r2)
  | (false, _, r1) => (false, value, r1)
  end.

Definition Serializer_string : Serializer bytes :=
  mkSerializer
    (fun W _ tag value force out =>
       Write value (WriteVarint_u64 (zlen value) (WriteTagWriteType tag LENGTH_DELIMETED out)))
    (guard_wire LENGTH_DELIMETED Parse_string).

(** ** Messages *)

Record FieldImpl (T : Type) := mkField {
  f_tag : Z;
  WriteField : forall {W} `{Writer W}, T -> W -> W;
  ReadField : T -> Z -> WireType -> reader -> T * reader
}.
Arguments f_tag {T} f.
Arguments WriteField {T} f {W H} value out.
Arguments ReadField {T} f value tag wireType r.
Arguments mkField {T}.

(** [Field<Tag, &T::member>]: the parse result is discarded. *)
Definition Field {T M} (tag : Z) (ser : Serializer M) (get : T -> M) (set : M -> T -> T)
    : FieldImpl T :=
  mkField tag
    (fun W _ value out => Serialize ser tag (get value) false out)
    (fun value tag' wt r =>
       if negb (tag =? tag') then (value, r)
       else let '(_, m, r') := Parse ser wt (get value) r in (set m value, r')).

(** [OneofField<Tag, Index, &T::member>]: [alt] reads alternative [Index] when
    the variant holds it, [emplace] makes the variant hold it. *)
Definition OneofField {T V A} (tag : Z) (ser : Serializer A) (get : T -> V) (set : V -> T -> T)
    (alt : V -> option A) (emplace : A -> V) (dflt : A) : FieldImpl T :=
  mkField tag
    (fun W _ value out =>
       match alt (get value) with
       | None => out
       | Some a => Serialize ser tag a false out
       end)
    (fun value tag' wt r =>
       if negb (tag =? tag') then (value, r)
       else let '(_, a, r') := Parse ser wt dflt r in (set (emplace a) value, r')).

Definition MessageImpl (T : Type) := list (FieldImpl T).

Definition WriteMessage {T} {W} `{Writer W} (value : T) (message : MessageImpl T) (out : W) : W :=
  fold_left (fun out field => WriteField field value out) message out.

Definition VisitFields {T} (message : MessageImpl T) (tag : Z) (wt : WireType)
    (st : T * reader) : T * reader :=
  fold_left (fun '(value, r) field => ReadField field value tag wt r) message st.

(** The [while (ReadVarint(tagKey, in))] loop; [None] is running out of fuel. *)
Fixpoint ReadMessage_loop {T} (fuel : nat) (message : MessageImpl T) (value : T) (r : reader)
    : option (T * reader) :=
  match fuel with
  | O => None
  | S fuel =>
      match ReadVarint_u32 r with
      | (false, _, r') => Some (value, r')
      | (true, tagKey, r') =>
          let '(tag, wireType) := ReadTagWireType tagKey in
          let '(value', r'') := VisitFields message tag wireType (value, r') in
          ReadMessage_loop fuel message value' r''
      end
  end.

(** Every turn of the loop consumes at least one byte of the input. *)
Definition read_fuel (r : reader) : nat := S (length (r_in r) - Z.to_nat (r_pos r)).

Definition ReadMessage {T} (message : MessageImpl T) (value : T) (r : reader)
    : bool * T * reader :=
  match ReadMessage_loop (read_fuel r) message value r with
  | Some (value', r') => (true, value', r')
  | None => (false, value, r)
  end.

(** The common [Serializer]: a nested message, length-delimited. *)
Definition Serializer_message {T} (message : MessageImpl T) : Serializer T :=
  mkSerializer
    (fun W _ tag value force out =>
       let byte_size := WriteMessage value message (0 : Z) in
       if negb force && (byte_size =? 0) then out
       else WriteMessage value message
              (WriteVarint_u64 byte_size (WriteTagWriteType tag LENGTH_DELIMETED out)))
    (guard_wire LENGTH_DELIMETED
       (fun value r =>
          match ReadVarint_u64 r with
          | (true, size, r1) =>
              let '(ok, value', r2) := ReadMessage message value (push_limit size r1) in
              (ok, value', pop_limit r2)
          | (false, _, r1) => (false, value, r1)
          end)).

(** ** Containers *)

(** [WriteRepeated]/[ReadRepeated], packed element types. *)
Definition WriteRepeated_packed {T} (p : PackedSerializer T) {W} `{Writer W}
    (tag : Z) (value : list T) (out : W) : W :=
  match value with
  | [] => out
  | _ =>
      let put {W'} `{Writer W'} (o : W') := fold_left (fun o v => SerializePacked p v o) value o in
      let out1 := WriteVarint_u32 (MakeTagWireType tag LENGTH_DELIMETED) out in
      put (WriteVarint_u64 (put (0 : Z)) out1)
  end.

Fixpoint ReadRepeated_loop {T} (p : PackedSerializer T) (dflt : T) (fuel : nat)
    (acc : list T) (r : reader) : option (bool * list T * reader) :=
  match fuel with
  | O => None
  | S fuel =>
      if 0 <? AvailableBytes r then
        match ParsePacked p dflt r with
        | (true, v, r') => ReadRepeated_loop p dflt fuel (acc ++ [v]) r'
        | (false, _, r') => Some (false, acc, r')
        end
      else Some (true, acc, r)
  end.

Definition ReadRepeated_packed {T} (p : PackedSerializer T) (dflt : T)
    (value : list T) (r : reader) : bool * list T * reader :=
  match ReadVarint_u64 r with
  | (true, size, r1) =>
      match ReadRepeated_loop p dflt (read_fuel r1) value (push_limit size r1) with
      | Some (ok, value', r2) => (ok, value', pop_limit r2)
      | None => (false, value, r1)
      end
  | (false, _, r1) => (false, value, r1)
  end.

Definition Serializer_vector_packed {T} (p : PackedSerializer T) (dflt : T) : Serializer (list T) :=
  mkSerializer
    (fun W _ tag value force out => WriteRepeated_packed p tag value out)
    (guard_wire LENGTH_DELIMETED (ReadRepeated_packed p dflt)).

(** Element types without a packed form: one tagged record per element. *)
Definition Serializer_vector {T} (s : Serializer T) (dflt : T) : Serializer (list T) :=
  mkSerializer
    (fun W _ tag value force out => fold_left (fun o v => Serialize s tag v false o) value out)
    (fun wt value r =>
       match Parse s wt dflt r with
       | (true, v, r') => (true, value ++ [v], r')
       | (false, _, r') => (false, value, r')
       end).

Definition Serializer_optional {T} (s : Serializer T) (dflt : T) : Serializer (option T) :=
  mkSerializer
    (fun W _ tag value force out =>
       match value with
       | None => out
       | Some v => Serialize s tag v false out
       end)
    (fun wt value r => let '(ok, v, r') := Parse s wt dflt r in (ok, Some v, r')).

(** ** Entry points *)

Definition SerializeToString {T} (message : MessageImpl T) (value : T) : bytes :=
  WriteMessage value message ([] : bytes).

Definition ParseFromString {T} (message : MessageImpl T) (value : T) (input : bytes) : bool * T :=
  let '(ok, value', _) := ReadMessage message value (StringReader input) in (ok, value').
