(* ===== verification/SerialFacts.v ===== *)
(** * SerialFacts: laws of the wire codec

    Readers are characterised by the bytes they can still deliver ([rest]) and
    by [adv], the effect of consuming some of them; every lemma about a parser
    is stated with these two, so the [LimitedReader] stack is handled once. *)

From Stdlib Require Import ZArith Lia List Bool.
From stdpp Require Import base list numbers.
From S2P Require Import Prelude Serial.

(** ** Readers *)

Definition eff (limits : list Z) (avail : Z) : Z := fold_right Z.min avail limits.

Record wf_reader (r : reader) : Prop := {
  wf_pos : 0 <= r_pos r <= zlen (r_in r);
  wf_limits : Forall (fun l => 0 <= l) (r_limits r)
}.

(** The bytes the reader can still deliver. *)
Definition rest (r : reader) : bytes :=
  ztake (eff (r_limits r) (zlen (r_in r) - r_pos r)) (zdrop (r_pos r) (r_in r)).

(** The reader after [n] more bytes were consumed. *)
Definition adv (n : Z) (r : reader) : reader :=
  mkReader (r_in r) (r_pos r + n) (map (fun l => l - n) (r_limits r)).

Lemma eff_nonneg lims a : 0 <= a -> Forall (fun l => 0 <= l) lims -> 0 <= eff lims a <= a.
Proof. intros Ha. induction 1; simpl; lia. Qed.

Lemma eff_sub lims a n : eff (map (fun l => l - n) lims) (a - n) = eff lims a - n.
Proof. induction lims; simpl; lia. Qed.

Lemma eff_le_head lims a n :
  Forall (fun l => 0 <= l) lims -> n <= eff lims a ->
  Forall (fun l => 0 <= l) (map (fun l => l - n) lims).
Proof.
  intros Hl Hn. induction Hl as [|l lims Hl0 Hl IH]; simpl in *; constructor; try lia.
  apply IH. lia.
Qed.

Lemma zlen_rest r : wf_reader r -> zlen (rest r) = eff (r_limits r) (zlen (r_in r) - r_pos r).
Proof.
  intros [Hp Hl]. unfold rest. rewrite length_ztake; [done|].
  rewrite length_zdrop by lia. apply eff_nonneg; [lia|done].
Qed.

Lemma adv_0 r : adv 0 r = r.
Proof.
  destruct r as [i p l]. unfold adv; simpl. f_equal; [lia|].
  rewrite <- (map_id l) at 2. apply map_ext. lia.
Qed.

Lemma adv_adv a b r : adv a (adv b r) = adv (a + b) r.
Proof.
  unfold adv; simpl. f_equal; [lia|]. rewrite map_map. apply map_ext. lia.
Qed.

Lemma wf_adv n r : wf_reader r -> 0 <= n <= zlen (rest r) -> wf_reader (adv n r).
Proof.
  intros H Hn. pose proof (zlen_rest r H) as Hr. destruct H as [Hp Hl].
  pose proof (eff_nonneg (r_limits r) (zlen (r_in r) - r_pos r) ltac:(lia) Hl).
  constructor; simpl; [lia|]. apply (eff_le_head _ (zlen (r_in r) - r_pos r)); [done|lia].
Qed.

Lemma rest_adv n r : wf_reader r -> 0 <= n <= zlen (rest r) -> rest (adv n r) = zdrop n (rest r).
Proof.
  intros H Hn. pose proof (zlen_rest r H) as Hr. destruct H as [Hp Hl].
  unfold rest in *; simpl.
  replace (zlen (r_in r) - (r_pos r + n)) with (zlen (r_in r) - r_pos r - n) by lia.
  rewrite eff_sub. set (e := eff _ _) in *.
  rewrite <- zdrop_zdrop by lia. unfold ztake, zdrop. rewrite skipn_firstn_comm.
  f_equal. lia.
Qed.

Lemma LimitedReader_Read_spec lims input pos size :
  0 <= pos <= zlen input -> Forall (fun l => 0 <= l) lims -> 0 <= size <= RSIZE_MAX ->
  let m := Z.min size (eff lims (zlen input - pos)) in
  LimitedReader_Read lims input pos size
  = (ztake m (zdrop pos input), (map (fun l => l - m) lims, pos + m)).
Proof.
  intros Hp Hl. revert size. induction Hl as [|l lims Hl0 Hl IH]; intros size Hs m; simpl in *.
  - subst m. unfold StringReader_Read, memcpy_ok.
    replace (zlen input <? pos) with false by (symmetry; apply Z.ltb_ge; lia).
    destruct (0 <? size) eqn:E; breflect; simpl.
    + replace (size <=? RSIZE_MAX) with true by (symmetry; apply Z.leb_le; lia).
      replace (_ <=? size) with true by (symmetry; apply Z.leb_le; lia). done.
    + replace size with 0 by lia. rewrite Z.min_l by lia. by rewrite ztake_0, Z.add_0_r.
  - pose proof (eff_nonneg lims (zlen input - pos) ltac:(lia) Hl) as He.
    rewrite IH by lia.
    assert (Hm : Z.min (Z.min size l) (eff lims (zlen input - pos)) = m) by (subst m; lia).
    rewrite !Hm. rewrite length_ztake; [done|].
    rewrite length_zdrop by lia. lia.
Qed.

Lemma Read_spec size r :
  wf_reader r -> 0 <= size <= RSIZE_MAX ->
  Read size r = (ztake size (rest r), adv (Z.min size (zlen (rest r))) r).
Proof.
  intros H Hs. pose proof (zlen_rest r H) as Hr. destruct H as [Hp Hl].
  unfold Read. rewrite LimitedReader_Read_spec by done.
  rewrite Hr. unfold adv, rest. f_equal.
  unfold ztake. rewrite take_take. f_equal. lia.
Qed.

Lemma Read_app size r a b :
  wf_reader r -> 0 <= size <= RSIZE_MAX -> rest r = a ++ b -> zlen a = size ->
  Read size r = (a, adv size r).
Proof.
  intros H Hs Hr Ha. rewrite Read_spec by done. rewrite Hr, ztake_app by done.
  do 2 f_equal. rewrite length_app. lia.
Qed.

Lemma rest_adv_app n r a b :
  wf_reader r -> rest r = a ++ b -> n = zlen a -> wf_reader (adv n r) /\ rest (adv n r) = b.
Proof.
  intros H Hr ->. assert (0 <= zlen a <= zlen (rest r)) by (rewrite Hr, length_app; lia).
  split; [by apply wf_adv|]. rewrite rest_adv by done. rewrite Hr. by apply zdrop_app.
Qed.

Lemma wf_StringReader s : wf_reader (StringReader s).
Proof. constructor; simpl; [lia|constructor]. Qed.

Lemma rest_StringReader s : rest (StringReader s) = s.
Proof. unfold rest; simpl. rewrite zdrop_0, ztake_ge by lia. done. Qed.

Lemma push_limit_wf size r : 0 <= size -> wf_reader r -> wf_reader (push_limit size r).
Proof. intros ? [? ?]. constructor; simpl; auto. Qed.

Lemma rest_push_limit size r : 0 <= size -> wf_reader r -> rest (push_limit size r) = ztake size (rest r).
Proof.
  intros Hs [Hp Hl]. unfold rest, push_limit; simpl. unfold ztake at 2 3. rewrite take_take.
  unfold ztake. f_equal. pose proof (eff_nonneg (r_limits r) (zlen (r_in r) - r_pos r) ltac:(lia) Hl). lia.
Qed.

Lemma pop_adv_push n size r : pop_limit (adv n (push_limit size r)) = adv n r.
Proof. done. Qed.

#[export] Hint Resolve wf_adv wf_StringReader push_limit_wf : hdc.

Lemma ReadByte_cons r x b :
  wf_reader r -> rest r = x :: b -> ReadByte r = (Some x, adv 1 r).
Proof.
  intros H Hr. unfold ReadByte.
  by rewrite (Read_app 1 r [x] b) by (done || (unfold RSIZE_MAX; lia)).
Qed.

Lemma ReadByte_nil r : wf_reader r -> rest r = [] -> ReadByte r = (None, r).
Proof.
  intros H Hr. unfold ReadByte. rewrite Read_spec by (done || (unfold RSIZE_MAX; lia)).
  rewrite Hr. simpl. by rewrite adv_0.
Qed.

(** ** Varints *)

(** The groups of seven bits, least significant first. *)
Fixpoint varint (n : nat) (v : Z) : bytes :=
  match n with
  | O => []
  | S n => if v / 128 =? 0 then [v mod 128] else v mod 128 + 128 :: varint n (v / 128)
  end.

Lemma WriteVarint_loop_varint n v b :
  0 <= v < 2 ^ (7 * Z.of_nat n) -> (0 < n)%nat ->
  WriteVarint_loop n v b = Some (b ++ varint n v).
Proof.
  revert v b. induction n as [|n IH]; intros v b Hv Hn; [lia|].
  simpl. rewrite land_127, Z.shiftr_div_pow2 by lia. change (2 ^ 7) with 128.
  destruct (v / 128 =? 0) eqn:E; simpl; [done|]. breflect.
  rewrite lor_128 by (apply Z.mod_pos_bound; lia).
  rewrite Nat2Z.inj_succ in Hv. replace (7 * Z.succ (Z.of_nat n)) with (7 + 7 * Z.of_nat n) in Hv by lia.
  rewrite Z.pow_add_r in Hv by lia. change (2 ^ 7) with 128 in Hv.
  assert (0 <= v / 128 < 2 ^ (7 * Z.of_nat n)).
  { split; [apply Z.div_pos; lia|]. apply Z.div_lt_upper_bound; lia. }
  rewrite IH; [|done|].
  - by rewrite <- (assoc_L (++)).
  - destruct n; [|lia]. simpl in *. lia.
Qed.

Lemma ReadVarint_loop_varint w n c acc v r k :
  0 <= v < 2 ^ (7 * Z.of_nat n) -> (0 < n)%nat -> 0 <= c -> 0 <= acc < 2 ^ (7 * c) ->
  in_u w (acc + v * 2 ^ (7 * c)) -> 0 <= w ->
  wf_reader r -> rest r = varint n v ++ k ->
  ReadVarint_loop w n c acc r
  = (true, acc + v * 2 ^ (7 * c), adv (zlen (varint n v)) r).
Proof.
  revert c acc v r. induction n as [|n IH]; intros c acc v r Hv Hn Hc Hacc Hw Hw0 Hwf Hr; [lia|].
  simpl in Hr |- *.
  pose proof (Z.mod_pos_bound v 128 ltac:(lia)) as Hm.
  pose proof (Z.div_mod v 128 ltac:(lia)) as Hd.
  assert (Hq : 0 <= v / 128) by (apply Z.div_pos; lia).
  pose proof (Z.pow_pos_nonneg 2 (7 * c) ltac:(lia) ltac:(lia)) as Hp.
  assert (Hbits : forall x, Z.land x 127 = v mod 128 ->
    Z.lor acc (uwrap w (Z.shiftl (Z.land x 127) (7 * c))) = acc + v mod 128 * 2 ^ (7 * c)).
  { intros x ->. rewrite uwrap_small.
    - rewrite lor_shiftl_add by lia. done.
    - rewrite Z.shiftl_mul_pow2 by lia. unfold in_u in *. nia. }
  destruct (v / 128 =? 0) eqn:E; breflect.
  - rewrite (ReadByte_cons r (v mod 128) k) by done.
    rewrite Hbits by (rewrite land_127; apply Z.mod_small; lia).
    replace (Z.land (v mod 128) 128 =? 0) with true.
    + replace (v mod 128) with v by lia. done.
    + symmetry. apply Z.eqb_eq. rewrite <- (Z.mod_small (v mod 128) 128) by lia.
      change 128 with (2 ^ 7) at 2. rewrite <- Z.land_ones by lia.
      rewrite <- Z.land_assoc. change (Z.land (Z.ones 7) 128) with 0. apply Z.land_0_r.
  - rewrite (ReadByte_cons r (v mod 128 + 128) (varint n (v / 128) ++ k)) by done.
    rewrite Hbits.
    2:{ rewrite land_127. replace (v mod 128 + 128) with (v mod 128 + 1 * 128) by lia.
        rewrite Z.mod_add by lia. apply Z.mod_small; lia. }
    replace (Z.land (v mod 128 + 128) 128 =? 0) with false.
    2:{ symmetry. apply Z.eqb_neq. rewrite <- lor_128 by lia.
        rewrite Z.land_lor_distr_l. change (Z.land 128 128) with 128.
        intros [_ ?]%Z.lor_eq_0_iff. lia. }
    rewrite Nat2Z.inj_succ in Hv. replace (7 * Z.succ (Z.of_nat n)) with (7 + 7 * Z.of_nat n) in Hv by lia.
    rewrite Z.pow_add_r in Hv by lia. change (2 ^ 7) with 128 in Hv.
    assert (0 <= v / 128 < 2 ^ (7 * Z.of_nat n)) by (split; [lia|apply Z.div_lt_upper_bound; lia]).
    assert (Hpow : 2 ^ (7 * (c + 1)) = 128 * 2 ^ (7 * c)).
    { replace (7 * (c + 1)) with (7 + 7 * c) by lia. by rewrite Z.pow_add_r by lia. }
    destruct (rest_adv_app 1 r [v mod 128 + 128] (varint n (v / 128) ++ k)) as [Hwf' Hr'];
      [done|done|done|].
    assert (Hval : acc + v mod 128 * 2 ^ (7 * c) + v / 128 * 2 ^ (7 * (c + 1)) = acc + v * 2 ^ (7 * c))
      by (rewrite Hpow; nia).
    rewrite (IH (c + 1) _ (v / 128) _); try done; try lia.
    + rewrite Hval, adv_adv. do 2 f_equal. simpl length. lia.
    + destruct n; [simpl in *; lia|lia].
    + rewrite Hpow. nia.
    + by rewrite Hval.
Qed.

Lemma varint_nonempty n v : (0 < n)%nat -> 0 < zlen (varint n v).
Proof. destruct n; [lia|]. simpl. case_if_goal; simpl; lia. Qed.

Lemma varint_length_le n v : zlen (varint n v) <= Z.of_nat n.
Proof. revert v. induction n as [|n IH]; intros v; simpl; [lia|]. case_if_goal; simpl length; [lia|]. specialize (IH (v / 128)). lia. Qed.

Lemma varint_wf n v : 0 <= v -> wf_bytes (varint n v).
Proof.
  revert v. induction n as [|n IH]; intros v Hv; simpl; [constructor|].
  pose proof (Z.mod_pos_bound v 128 ltac:(lia)).
  case_if_goal; constructor; auto; unfold in_u; try lia.
  apply IH. apply Z.div_pos; lia.
Qed.

Lemma ReadVarint_u32_varint v r k :
  in_u 32 v -> wf_reader r -> rest r = varint 5 v ++ k ->
  ReadVarint_u32 r = (true, v, adv (zlen (varint 5 v)) r).
Proof.
  intros Hv Hwf Hr. unfold ReadVarint_u32.
  rewrite (ReadVarint_loop_varint 32 5 0 0 v r k); try done; unfold in_u in *; try lia.
  by rewrite Z.mul_1_r.
Qed.

Lemma ReadVarint_u64_varint v r k :
  in_u 64 v -> wf_reader r -> rest r = varint 10 v ++ k ->
  ReadVarint_u64 r = (true, v, adv (zlen (varint 10 v)) r).
Proof.
  intros Hv Hwf Hr. unfold ReadVarint_u64.
  rewrite (ReadVarint_loop_varint 64 10 0 0 v r k); try done; unfold in_u in *; try lia.
  by rewrite Z.mul_1_r.
Qed.

Lemma ReadVarint_loop_nil w n c acc r :
  (0 < n)%nat -> wf_reader r -> rest r = [] -> ReadVarint_loop w n c acc r = (false, acc, r).
Proof. destruct n; [lia|]. intros. simpl. by rewrite ReadByte_nil. Qed.

(** ** What a serializing function emits

    The same code runs against both writers: [emits f bs] says that it appends
    [bs] to the string writer and adds the length of [bs] to the counter. *)
Record emits (f : forall W, Writer W -> W -> W) (bs : bytes) : Prop := {
  emits_string : forall out, f bytes StringWriter out = out ++ bs;
  emits_size : forall n, in_u 64 n -> f Z WriterSizeCollector n = u64 (n + zlen bs)
}.

Lemma emits_Write bs : emits (fun W _ out => Write bs out) bs.
Proof. constructor; intros; done. Qed.

Lemma emits_skip : emits (fun W _ out => out) [].
Proof.
  constructor; intros; [by rewrite app_nil_r|]. rewrite Z.add_0_r. by rewrite uwrap_small.
Qed.

Lemma emits_comp f g a b :
  emits f a -> emits g b -> emits (fun W H out => g W H (f W H out)) (a ++ b).
Proof.
  intros [Fs Fn] [Gs Gn]. constructor; intros.
  - by rewrite Fs, Gs, (assoc_L (++)).
  - rewrite Fn, Gn by (done || (apply uwrap_range; lia)).
    unfold uwrap. rewrite Z.add_mod_idemp_l by lia. f_equal. rewrite length_app. lia.
Qed.

Lemma emits_varint32 v : in_u 32 v -> emits (fun W _ out => WriteVarint_u32 v out) (varint 5 v).
Proof.
  intros Hv. unfold WriteVarint_u32, WriteVarint_n. rewrite WriteVarint_loop_varint.
  - apply (emits_Write ([] ++ varint 5 v)).
  - unfold in_u in Hv. lia.
  - lia.
Qed.

Lemma emits_varint64 v : in_u 64 v -> emits (fun W _ out => WriteVarint_u64 v out) (varint 10 v).
Proof.
  intros Hv. unfold WriteVarint_u64, WriteVarint_n. rewrite WriteVarint_loop_varint.
  - apply (emits_Write ([] ++ varint 10 v)).
  - unfold in_u in Hv. lia.
  - lia.
Qed.

(** ** Tags *)

Definition tag_ok (tag : Z) : Prop := 0 < tag < 2 ^ 29.
Definition tag_bytes (tag : Z) (wt : WireType) : bytes := varint 5 (8 * tag + wt).

Lemma MakeTagWireType_eq tag wt :
  tag_ok tag -> 0 <= wt < 8 -> MakeTagWireType tag wt = 8 * tag + wt.
Proof.
  intros Ht Hw. unfold MakeTagWireType, tag_ok in *. rewrite uwrap_small.
  - rewrite Z.lor_comm, lor_shiftl_add by lia. change (2 ^ 3) with 8. lia.
  - rewrite Z.shiftl_mul_pow2 by lia. unfold in_u. lia.
Qed.

Lemma ReadTagWireType_eq tag wt :
  0 <= tag -> 0 <= wt < 8 -> ReadTagWireType (8 * tag + wt) = (tag, wt).
Proof.
  intros Ht Hw. unfold ReadTagWireType. rewrite Z.shiftr_div_pow2 by lia.
  change 7 with (Z.ones 3). rewrite Z.land_ones by lia. change (2 ^ 3) with 8.
  replace (8 * tag + wt) with (wt + tag * 8) by lia.
  rewrite Z.div_add, Z.mod_add, Z.div_small, Z.mod_small by lia. done.
Qed.

Lemma emits_tag tag wt :
  tag_ok tag -> 0 <= wt < 8 -> emits (fun W _ out => WriteTagWriteType tag wt out) (tag_bytes tag wt).
Proof.
  intros Ht Hw. unfold WriteTagWriteType. rewrite MakeTagWireType_eq by done.
  apply emits_varint32. unfold tag_ok, in_u in *. lia.
Qed.

(** ** Zigzag *)

Lemma lxor_ones x w : 0 < w -> 0 <= x < 2 ^ w -> Z.lxor x (Z.ones w) = 2 ^ w - 1 - x.
Proof.
  intros Hw Hx. rewrite <- (Z.mod_small x (2 ^ w)) at 1 by lia.
  rewrite <- Z.land_ones by lia.
  assert (Hl : Z.lxor (Z.land x (Z.ones w)) (Z.ones w) = Z.ldiff (Z.ones w) x).
  { apply Z.bits_inj'. intros i Hi.
    rewrite Z.lxor_spec, Z.ldiff_spec, Z.land_spec.
    destruct (Z.testbit x i), (Z.testbit (Z.ones w) i); done. }
  rewrite Hl, <- Z.sub_nocarry_ldiff.
  - rewrite Z.ones_equiv. lia.
  - rewrite Z.ldiff_ones_r_low; [done|lia|].
    destruct (Z.eq_dec x 0) as [->|]; [simpl; lia|].
    apply Z.log2_lt_pow2; lia.
Qed.

Lemma zigzag_enc w x :
  1 < w -> in_s w x -> MakeZigzagValue w x = if x <? 0 then - 2 * x - 1 else 2 * x.
Proof.
  intros Hw Hx. unfold in_s, MakeZigzagValue in *.
  assert (Hp : 2 ^ w = 2 * 2 ^ (w - 1)) by (rewrite <- Z.pow_succ_r by lia; f_equal; lia).
  rewrite Z.shiftr_div_pow2, Z.shiftl_mul_pow2 by lia. change (2 ^ 1) with 2.
  destruct (x <? 0) eqn:E; breflect.
  - replace (x / 2 ^ (w - 1)) with (-1) by (apply (Z.div_unique_pos x _ _ (x + 2 ^ (w - 1))); lia).
    replace (uwrap w (-1)) with (Z.ones w).
    2:{ unfold uwrap. rewrite Z.ones_equiv. apply (Z.mod_unique_pos _ _ (-1)); lia. }
    replace (uwrap w (uwrap w x * 2)) with (2 * x + 2 ^ w).
    + rewrite lxor_ones by lia. lia.
    + unfold uwrap. rewrite Z.mul_mod_idemp_l by lia.
      apply (Z.mod_unique_pos _ _ (-1)); lia.
  - rewrite Z.div_small by lia. rewrite (uwrap_small w 0), Z.lxor_0_r by (unfold in_u; lia).
    rewrite (uwrap_small w x) by (unfold in_u; lia).
    rewrite uwrap_small by (unfold in_u; lia). lia.
Qed.

Lemma zigzag_range w x : 1 < w -> in_s w x -> in_u w (MakeZigzagValue w x).
Proof.
  intros Hw Hx. rewrite zigzag_enc by done. unfold in_s, in_u in *.
  assert (Hp : 2 ^ w = 2 * 2 ^ (w - 1)) by (rewrite <- Z.pow_succ_r by lia; f_equal; lia).
  case_if_goal; breflect; lia.
Qed.

Lemma zigzag_dec w x : 1 < w -> in_s w x -> ReadZigzagValue w (MakeZigzagValue w x) = x.
Proof.
  intros Hw Hx. rewrite zigzag_enc by done. unfold ReadZigzagValue.
  assert (Hp : 2 ^ w = 2 * 2 ^ (w - 1)) by (rewrite <- Z.pow_succ_r by lia; f_equal; lia).
  pose proof (Z.pow_pos_nonneg 2 (w - 1) ltac:(lia) ltac:(lia)).
  pose proof Hx as Hx'. unfold in_s in Hx'.
  rewrite land_1, Z.shiftr_div_pow2 by lia. change (2 ^ 1) with 2.
  destruct (x <? 0) eqn:E; breflect.
  - replace (- 2 * x - 1) with (1 + (- x - 1) * 2) by lia.
    rewrite Z.div_add, Z.mod_add by lia. change (1 / 2) with 0. change (1 mod 2) with 1.
    replace (uwrap w (uwrap w (Z.lnot 1) + 1)) with (Z.ones w).
    2:{ unfold uwrap. rewrite Z.add_mod_idemp_l by lia. rewrite Z.ones_equiv.
        apply (Z.mod_unique_pos _ _ (-1)); [lia|]. change (Z.lnot 1) with (-2). lia. }
    rewrite lxor_ones by lia. transitivity (swrap w (uwrap w x)); [|by apply swrap_uwrap; [lia|]].
    f_equal. unfold uwrap. apply (Z.mod_unique_pos _ _ (-1)); lia.
  - replace (2 * x) with (0 + x * 2) by lia.
    rewrite Z.div_add, Z.mod_add by lia. change (0 / 2) with 0. change (0 mod 2) with 0.
    replace (uwrap w (uwrap w (Z.lnot 0) + 1)) with 0.
    2:{ unfold uwrap. rewrite Z.add_mod_idemp_l by lia. change (Z.lnot 0 + 1) with 0. by rewrite Z.mod_0_l by lia. }
    rewrite Z.lxor_0_r. transitivity (swrap w (uwrap w x)); [|by apply swrap_uwrap; [lia|]].
    f_equal. by rewrite uwrap_small by (unfold in_u; lia).
Qed.

(** ** Parsers only move forward *)

Definition consumes {T} (p : reader -> bool * T * reader) : Prop :=
  forall r, wf_reader r -> exists n, 0 <= n <= zlen (rest r) /\ (p r).2 = adv n r.

Definition field_consumes {T} (f : FieldImpl T) : Prop :=
  forall v tag wt r, wf_reader r ->
    exists n, 0 <= n <= zlen (rest r) /\ (ReadField f v tag wt r).2 = adv n r.

Lemma adv_compose r a b :
  wf_reader r -> 0 <= a <= zlen (rest r) -> 0 <= b <= zlen (rest (adv a r)) ->
  0 <= b + a <= zlen (rest r).
Proof. intros Hwf Ha. rewrite rest_adv by done. rewrite length_zdrop by done. lia. Qed.

Lemma ReadByte_adv r :
  wf_reader r ->
  (rest r = [] /\ ReadByte r = (None, r)) \/
  (exists x b, rest r = x :: b /\ ReadByte r = (Some x, adv 1 r)).
Proof.
  intros H. destruct (rest r) as [|x b] eqn:E.
  - left. split; [done|]. by apply ReadByte_nil.
  - right. exists x, b. split; [done|]. by apply (ReadByte_cons r x b).
Qed.

Lemma ReadVarint_loop_adv w n c acc r :
  wf_reader r -> 0 <= acc -> 0 <= w ->
  exists ok v k, ReadVarint_loop w n c acc r = (ok, v, adv k r) /\
    0 <= k <= zlen (rest r) /\ 0 <= v /\ (ok = true -> 1 <= k).
Proof.
  revert c acc r. induction n as [|n IH]; intros c acc r Hwf Hacc Hw; simpl.
  - exists false, acc, 0. rewrite adv_0. repeat split; lia || done.
  - destruct (ReadByte_adv r Hwf) as [[Hr ->]|(x & b & Hr & ->)].
    + exists false, acc, 0. rewrite adv_0. repeat split; lia || done.
    + set (v' := Z.lor acc _).
      assert (0 <= v').
      { apply Z.lor_nonneg. split; [done|]. by apply (uwrap_range w). }
      assert (H1 : 0 <= 1 <= zlen (rest r)) by (rewrite Hr; simpl; lia).
      destruct (_ =? 0).
      * exists true, v', 1. done.
      * destruct (IH (c + 1) v' (adv 1 r)) as (ok & v & k & -> & Hk & Hv & Hok);
          [by apply wf_adv|done|done|].
        exists ok, v, (k + 1). rewrite adv_adv.
        pose proof (adv_compose r 1 k Hwf H1 Hk). repeat split; lia || done.
Qed.

Lemma ReadVarint_u32_adv r :
  wf_reader r ->
  exists ok v k, ReadVarint_u32 r = (ok, v, adv k r) /\
    0 <= k <= zlen (rest r) /\ 0 <= v /\ (ok = true -> 1 <= k).
Proof. intros. by apply ReadVarint_loop_adv. Qed.

Lemma ReadVarint_u64_adv r :
  wf_reader r ->
  exists ok v k, ReadVarint_u64 r = (ok, v, adv k r) /\
    0 <= k <= zlen (rest r) /\ 0 <= v /\ (ok = true -> 1 <= k).
Proof. intros. by apply ReadVarint_loop_adv. Qed.

Lemma consumes_u32 : consumes ReadVarint_u32.
Proof. intros r H. destruct (ReadVarint_u32_adv r H) as (? & ? & k & -> & ? & _). by exists k. Qed.

Lemma consumes_u64 : consumes ReadVarint_u64.
Proof. intros r H. destruct (ReadVarint_u64_adv r H) as (? & ? & k & -> & ? & _). by exists k. Qed.

Lemma consumes_via {A} rd (conv : Z -> A) old : consumes rd -> consumes (via rd conv old).
Proof.
  intros Hrd r H. destruct (Hrd r H) as (k & Hk & Hr). exists k. split; [done|].
  unfold via. destruct (rd r) as [[ok v] r']. simpl in Hr. subst. by destruct ok.
Qed.

Lemma consumes_fixed n old : Z.of_nat n <= RSIZE_MAX -> consumes (ReadFixed n old).
Proof.
  intros Hn r H. unfold ReadFixed. rewrite Read_spec by (done || lia).
  eexists. split; [|done]. lia.
Qed.

Lemma consumes_guard {T} wt (p : T -> reader -> bool * T * reader) wt' v :
  consumes (p v) -> consumes (guard_wire wt p wt' v).
Proof.
  intros Hp r H. unfold guard_wire. case_if_goal; [|by apply Hp].
  exists 0. rewrite adv_0. split; [lia|done].
Qed.

Lemma consumes_string v : consumes (Parse_string v).
Proof.
  intros r H. unfold Parse_string.
  destruct (ReadVarint_u64_adv r H) as (ok & size & k & -> & Hk & Hs & _).
  destruct ok; [|by exists k].
  destruct (_ <? _) eqn:E; breflect; [by exists k|].
  rewrite Read_spec by (auto with hdc || (unfold RSIZE_MAX, MAX_STRING_SIZE in *; lia)).
  eexists. simpl. rewrite adv_adv. split; [|done].
  apply adv_compose; try done. lia.
Qed.

Lemma consumes_packed_u32 fl v : consumes (ParsePacked (Packed_uint32 fl) v).
Proof. destruct fl; [apply consumes_u32|apply consumes_fixed; unfold RSIZE_MAX; lia]. Qed.

Lemma consumes_packed_u64 fl v : consumes (ParsePacked (Packed_uint64 fl) v).
Proof. destruct fl; [apply consumes_u64|apply consumes_fixed; unfold RSIZE_MAX; lia]. Qed.

Lemma consumes_uint32 fl wt v : consumes (Parse (Serializer_uint32 fl) wt v).
Proof. apply consumes_guard, consumes_packed_u32. Qed.

Lemma consumes_uint64 fl wt v : consumes (Parse (Serializer_uint64 fl) wt v).
Proof. destruct fl; apply consumes_guard, consumes_packed_u64. Qed.

Lemma consumes_conv {T} base (toU : T -> Z) ofU wt v :
  (forall v, consumes (Parse base wt v)) -> consumes (Parse (Serializer_conv base toU ofU) wt v).
Proof. intros. apply consumes_via. auto. Qed.

Lemma consumes_bool wt v : consumes (Parse Serializer_bool wt v).
Proof. apply consumes_conv. intros. apply consumes_uint32. Qed.

Lemma consumes_uint8 wt v : consumes (Parse Serializer_uint8 wt v).
Proof. apply consumes_conv. intros. apply consumes_uint32. Qed.

Lemma consumes_uint16 wt v : consumes (Parse Serializer_uint16 wt v).
Proof. apply consumes_conv. intros. apply consumes_uint32. Qed.

Lemma consumes_Serializer_string wt v : consumes (Parse Serializer_string wt v).
Proof. apply consumes_guard, consumes_string. Qed.

Lemma Field_consumes {T M} tag (ser : Serializer M) (get : T -> M) set :
  (forall wt v, consumes (Parse ser wt v)) -> field_consumes (Field tag ser get set).
Proof.
  intros Hs v tag' wt r H. simpl. case_if_goal.
  - exists 0. rewrite adv_0. split; [lia|done].
  - destruct (Hs wt (get v) r H) as (k & Hk & Hr). exists k. split; [done|].
    destruct (Parse ser wt (get v) r) as [[ok m] r']. done.
Qed.

Create HintDb consumes.
#[export] Hint Resolve consumes_uint32 consumes_uint64 consumes_bool consumes_uint8 consumes_uint16
  consumes_Serializer_string Field_consumes : consumes.

Lemma VisitFields_adv {T} (msg : MessageImpl T) tag wt v r :
  Forall field_consumes msg -> wf_reader r ->
  exists k, 0 <= k <= zlen (rest r) /\ (VisitFields msg tag wt (v, r)).2 = adv k r.
Proof.
  intros Hm. revert v r. induction Hm as [|f msg Hf Hm IH]; intros v r H.
  - exists 0. rewrite adv_0. split; [lia|done].
  - unfold VisitFields; simpl. destruct (Hf v tag wt r H) as (a & Ha & Hra).
    destruct (ReadField f v tag wt r) as [v1 r1]. simpl in Hra. subst r1.
    destruct (IH v1 (adv a r)) as (b & Hb & Hrb); [by apply wf_adv|].
    exists (b + a). split; [by apply adv_compose|]. unfold VisitFields in Hrb. by rewrite Hrb, adv_adv.
Qed.

Lemma length_rest_adv r a :
  wf_reader r -> 0 <= a <= zlen (rest r) -> zlen (rest (adv a r)) = zlen (rest r) - a.
Proof. intros. by rewrite rest_adv, length_zdrop. Qed.

(** One turn of the loop strictly shortens the input. *)
Lemma ReadMessage_loop_total {T} (msg : MessageImpl T) fuel v r :
  Forall field_consumes msg -> wf_reader r -> (length (rest r) < fuel)%nat ->
  exists v' k, ReadMessage_loop fuel msg v r = Some (v', adv k r) /\ 0 <= k <= zlen (rest r).
Proof.
  intros Hm. revert v r. induction fuel as [|fuel IH]; intros v r H Hf; [lia|].
  cbn [ReadMessage_loop].
  destruct (ReadVarint_u32_adv r H) as (ok & key & a & -> & Ha & Hkey & Hok).
  destruct ok; [|by exists v, a]. specialize (Hok eq_refl).
  destruct (ReadTagWireType key) as [tag wt].
  assert (H1 : wf_reader (adv a r)) by by apply wf_adv.
  destruct (VisitFields_adv msg tag wt v (adv a r) Hm H1) as (b & Hb & Hrb).
  destruct (VisitFields msg tag wt (v, adv a r)) as [v1 r1]. simpl in Hrb. subst r1.
  assert (H2 : wf_reader (adv b (adv a r))) by by apply wf_adv.
  pose proof (length_rest_adv r a H Ha). pose proof (length_rest_adv _ b H1 Hb).
  cbn beta iota. destruct (IH v1 (adv b (adv a r)) H2) as (v' & k & Heq & Hk); [lia|].
  rewrite Heq.
  exists v', (k + b + a). rewrite !adv_adv. split; [done|lia].
Qed.

Lemma ReadMessage_loop_fuel {T} (msg : MessageImpl T) fuel1 fuel2 v r x :
  (fuel1 <= fuel2)%nat -> ReadMessage_loop fuel1 msg v r = Some x ->
  ReadMessage_loop fuel2 msg v r = Some x.
Proof.
  revert fuel2 v r. induction fuel1 as [|fuel1 IH]; intros fuel2 v r Hle; [done|].
  destruct fuel2 as [|fuel2]; [lia|]. cbn [ReadMessage_loop].
  destruct (ReadVarint_u32 r) as [[[] key] r']; [|done].
  destruct (ReadTagWireType key) as [tag wt]. destruct (VisitFields _ _ _ _) as [v1 r1].
  apply IH. lia.
Qed.

Lemma read_fuel_enough r : wf_reader r -> (length (rest r) < read_fuel r)%nat.
Proof.
  intros H. pose proof (zlen_rest r H). destruct H as [Hp Hl]. unfold read_fuel.
  pose proof (eff_nonneg (r_limits r) (zlen (r_in r) - r_pos r) ltac:(lia) Hl). lia.
Qed.

Lemma ReadMessage_total {T} (msg : MessageImpl T) v r :
  Forall field_consumes msg -> wf_reader r ->
  exists v' k, ReadMessage msg v r = (true, v', adv k r) /\ 0 <= k <= zlen (rest r).
Proof.
  intros Hm H. unfold ReadMessage.
  destruct (ReadMessage_loop_total msg (read_fuel r) v r Hm H (read_fuel_enough r H))
    as (v' & k & -> & Hk). by exists v', k.
Qed.

(** ** Round-trip laws *)

(** [ser_ok s wt dom body skip dflt]: on [dom], [Serialize] emits the tag with
    wire type [wt] and [body], or nothing for an unforced skipped value, and
    [Parse] reads [body] back whatever the out-parameter held. *)
Record ser_ok {T} (s : Serializer T) (wt : WireType) (dom : T -> Prop)
    (body : T -> bytes) (skip : T -> bool) : Prop := {
  so_wt : 0 <= wt < 8;
  so_write : forall tag v force, dom v -> tag_ok tag ->
    emits (fun W H out => Serialize s tag v force out)
          (if negb force && skip v then [] else tag_bytes tag wt ++ body v);
  so_parse : forall v0 v r k, dom v -> wf_reader r -> rest r = body v ++ k ->
    Parse s wt v0 r = (true, v, adv (zlen (body v)) r)
}.

Record packed_ok {T} (p : PackedSerializer T) (dom : T -> Prop) (body : T -> bytes) : Prop := {
  po_write : forall v, dom v -> emits (fun W H out => SerializePacked p v out) (body v);
  po_parse : forall v0 v r k, dom v -> wf_reader r -> rest r = body v ++ k ->
    ParsePacked p v0 r = (true, v, adv (zlen (body v)) r);
  po_nonempty : forall v, dom v -> 0 < zlen (body v)
}.

(** The serializers that write the tag and then the packed form. *)
Lemma ser_ok_of_packed {T} (p : PackedSerializer T) wt dom body :
  0 <= wt < 8 -> packed_ok p dom body ->
  ser_ok (mkSerializer
    (fun W H tag value force out => SerializePacked p value (WriteTagWriteType tag wt out))
    (guard_wire wt (ParsePacked p))) wt dom body (fun _ => false).
Proof.
  intros Hwt Hp. constructor; [done| |].
  - intros tag v force Hv Ht. rewrite andb_false_r. simpl.
    apply (emits_comp _ _ _ _ (emits_tag tag wt Ht Hwt) (po_write p dom body Hp v Hv)).
  - intros v0 v r k Hv Hwf Hr. simpl. unfold guard_wire. rewrite Z.eqb_refl. simpl.
    by apply (po_parse p dom body Hp v0 v r k).
Qed.

Lemma ser_ok_of_packed_skip {T} (p : PackedSerializer T) wt dom body (skip : T -> bool) :
  0 <= wt < 8 -> packed_ok p dom body ->
  ser_ok (mkSerializer
    (fun W H tag value force out =>
       if negb force && skip value then out
       else SerializePacked p value (WriteTagWriteType tag wt out))
    (guard_wire wt (ParsePacked p))) wt dom body skip.
Proof.
  intros Hwt Hp. pose proof (ser_ok_of_packed p wt dom body Hwt Hp) as [_ Hw Hr].
  constructor; [done| |exact Hr].
  intros tag v force Hv Ht. simpl. destruct (negb force && skip v); [apply emits_skip|].
  specialize (Hw tag v force Hv Ht). rewrite andb_false_r in Hw. exact Hw.
Qed.

Lemma via_eq {A} rd (conv : Z -> A) old r v r' :
  rd r = (true, v, r') -> via rd conv old r = (true, conv v, r').
Proof. intros H. unfold via. by rewrite H. Qed.

Lemma packed_u32 : packed_ok (Packed_uint32 u_no) (in_u 32) (varint 5).
Proof.
  constructor; [apply emits_varint32| |intros; apply varint_nonempty; lia].
  intros v0 v r k. apply ReadVarint_u32_varint.
Qed.

Lemma packed_u64 : packed_ok (Packed_uint64 u_no) (in_u 64) (varint 10).
Proof.
  constructor; [apply emits_varint64| |intros; apply varint_nonempty; lia].
  intros v0 v r k. apply ReadVarint_u64_varint.
Qed.

Lemma ReadFixed_app n old v r k :
  Z.of_nat n <= RSIZE_MAX -> in_u (8 * Z.of_nat n) v -> wf_reader r -> rest r = le_split n v ++ k ->
  ReadFixed n old r = (true, v, adv (zlen (le_split n v)) r).
Proof.
  intros Hn Hv Hwf Hr. unfold ReadFixed.
  rewrite (Read_app (Z.of_nat n) r (le_split n v) k) by (done || lia || by rewrite length_le_split).
  rewrite length_le_split, Z.eqb_refl, drop_ge, app_nil_r by (rewrite length_le_split; lia).
  by rewrite le_combine_split, (Z.mod_small v).
Qed.

Lemma packed_fixed_unsigned n (p : PackedSerializer Z) :
  (0 < n)%nat -> Z.of_nat n <= RSIZE_MAX ->
  p = mkPacked (fun W _ v out => WriteFixed n v out) (ReadFixed n) ->
  packed_ok p (in_u (8 * Z.of_nat n)) (le_split n).
Proof.
  intros Hn Hm ->. constructor.
  - intros v Hv. apply emits_Write.
  - intros v0 v r k. by apply ReadFixed_app.
  - intros. rewrite length_le_split. lia.
Qed.

Lemma packed_fp n : (0 < n)%nat -> Z.of_nat n <= RSIZE_MAX ->
  packed_ok (Packed_fp n) (in_u (8 * Z.of_nat n)) (le_split n).
Proof.
  intros Hn Hm. constructor.
  - intros v Hv. apply emits_Write.
  - intros v0 v r k Hv Hwf Hr. simpl. by rewrite (via_eq _ _ _ _ _ _ (ReadFixed_app n 0 v r k Hm Hv Hwf Hr)).
  - intros. rewrite length_le_split. lia.
Qed.

(** The three encodings of a signed [8n]-bit value. *)
Lemma packed_signed_fixed n : (0 < n)%nat -> Z.of_nat n <= RSIZE_MAX ->
  packed_ok (mkPacked (fun W _ v out => WriteSignedFixed n v out) (ReadSignedFixed n))
    (in_s (8 * Z.of_nat n)) (fun v => le_split n (uwrap (8 * Z.of_nat n) v)).
Proof.
  intros Hn Hm. constructor.
  - intros v Hv. apply emits_Write.
  - intros v0 v r k Hv Hwf Hr. cbn [ParsePacked]. unfold ReadSignedFixed.
    rewrite (via_eq _ _ _ _ _ _ (ReadFixed_app n 0 _ r k Hm (uwrap_range (8 * Z.of_nat n) v ltac:(lia)) Hwf Hr)).
    by rewrite swrap_uwrap by (done || lia).
  - intros. rewrite length_le_split. lia.
Qed.

Definition body_i32 (fl : sflags) (v : Z) : bytes :=
  match fl with
  | s_no => varint 5 (u32 v)
  | s_s => varint 5 (MakeZigzagValue 32 v)
  | s_sf => le_split 4 (u32 v)
  end.

Definition body_i64 (fl : sflags) (v : Z) : bytes :=
  match fl with
  | s_no => varint 10 (u64 v)
  | s_s => varint 10 (MakeZigzagValue 64 v)
  | s_sf => le_split 8 (u64 v)
  end.

Lemma packed_i32 fl : packed_ok (Packed_int32 fl) (in_s 32) (body_i32 fl).
Proof.
  destruct fl; [| |apply (packed_signed_fixed 4); [lia|unfold RSIZE_MAX; lia]];
    constructor; cbn [body_i32 body_i64]; try (intros; apply varint_nonempty; lia).
  - intros v Hv. apply emits_varint32, uwrap_range. lia.
  - intros v0 v r k Hv Hwf Hr. cbn [ParsePacked Packed_int32]. unfold ReadVarint_i32.
    rewrite (via_eq _ _ _ _ _ _ (ReadVarint_u32_varint _ r k (uwrap_range 32 v ltac:(lia)) Hwf Hr)).
    by rewrite swrap_uwrap.
  - intros v Hv. apply emits_varint32. by apply zigzag_range.
  - intros v0 v r k Hv Hwf Hr. cbn [ParsePacked Packed_int32]. unfold ReadSignedVarint_i32.
    rewrite (via_eq _ _ _ _ _ _ (ReadVarint_u32_varint _ r k (zigzag_range 32 v ltac:(lia) Hv) Hwf Hr)).
    by rewrite zigzag_dec.
Qed.

Lemma packed_i64 fl : packed_ok (Packed_int64 fl) (in_s 64) (body_i64 fl).
Proof.
  destruct fl; [| |apply (packed_signed_fixed 8); [lia|unfold RSIZE_MAX; lia]];
    constructor; cbn [body_i32 body_i64]; try (intros; apply varint_nonempty; lia).
  - intros v Hv. apply emits_varint64, uwrap_range. lia.
  - intros v0 v r k Hv Hwf Hr. cbn [ParsePacked Packed_int64]. unfold ReadVarint_i64.
    rewrite (via_eq _ _ _ _ _ _ (ReadVarint_u64_varint _ r k (uwrap_range 64 v ltac:(lia)) Hwf Hr)).
    by rewrite swrap_uwrap.
  - intros v Hv. apply emits_varint64. by apply zigzag_range.
  - intros v0 v r k Hv Hwf Hr. cbn [ParsePacked Packed_int64]. unfold ReadSignedVarint_i64.
    rewrite (via_eq _ _ _ _ _ _ (ReadVarint_u64_varint _ r k (zigzag_range 64 v ltac:(lia) Hv) Hwf Hr)).
    by rewrite zigzag_dec.
Qed.

Definition wt_i32 (fl : sflags) : WireType := match fl with s_sf => FIXED32 | _ => VARINT end.
Definition wt_i64 (fl : sflags) : WireType := match fl with s_sf => FIXED64 | _ => VARINT end.

Lemma ser_int32 fl :
  ser_ok (Serializer_int32 fl) (wt_i32 fl) (in_s 32) (body_i32 fl) (fun _ => false).
Proof. apply ser_ok_of_packed; [destruct fl; done|apply packed_i32]. Qed.

Lemma ser_int64 fl :
  ser_ok (Serializer_int64 fl) (wt_i64 fl) (in_s 64) (body_i64 fl) (fun _ => false).
Proof. apply ser_ok_of_packed; [destruct fl; done|apply packed_i64]. Qed.

Lemma ser_uint32 : ser_ok (Serializer_uint32 u_no) VARINT (in_u 32) (varint 5) (fun _ => false).
Proof. apply ser_ok_of_packed; [done|apply packed_u32]. Qed.

Lemma ser_uint32_fixed : ser_ok (Serializer_uint32 u_f) FIXED32 (in_u 32) (le_split 4) (fun _ => false).
Proof.
  apply ser_ok_of_packed; [done|].
  apply (packed_fixed_unsigned 4); [lia|unfold RSIZE_MAX; lia|done].
Qed.

Lemma ser_uint64 : ser_ok (Serializer_uint64 u_no) VARINT (in_u 64) (varint 10) (fun _ => false).
Proof. apply ser_ok_of_packed; [done|apply packed_u64]. Qed.

Lemma ser_uint64_fixed :
  ser_ok (Serializer_uint64 u_f) FIXED64 (in_u 64) (le_split 8) (fun v => v =? 0).
Proof.
  apply ser_ok_of_packed_skip; [done|].
  apply (packed_fixed_unsigned 8); [lia|unfold RSIZE_MAX; lia|done].
Qed.

Lemma ser_double : ser_ok Serializer_double FIXED64 (in_u 64) (le_split 8) (fp_is_zero 64).
Proof.
  apply ser_ok_of_packed_skip; [done|]. apply (packed_fp 8); [lia|unfold RSIZE_MAX; lia].
Qed.

Lemma ser_float : ser_ok Serializer_float FIXED32 (in_u 32) (le_split 4) (fp_is_zero 32).
Proof.
  apply ser_ok_of_packed_skip; [done|]. apply (packed_fp 4); [lia|unfold RSIZE_MAX; lia].
Qed.

Lemma ser_conv {T} base (toU : T -> Z) ofU wt dom0 body skip (dom : T -> Prop) :
  ser_ok base wt dom0 body skip ->
  (forall v, dom v -> dom0 (toU v)) -> (forall v, dom v -> ofU (toU v) = v) ->
  ser_ok (Serializer_conv base toU ofU) wt dom (fun v => body (toU v)) (fun v => skip (toU v)).
Proof.
  intros [Hwt Hw Hr] Hd Hinv. constructor; [done| |].
  - intros. simpl. by apply Hw; auto.
  - intros v0 v r k Hv Hwf Hrest. simpl.
    rewrite (via_eq _ _ _ _ _ _ (Hr 0 (toU v) r k (Hd v Hv) Hwf Hrest)). by rewrite Hinv.
Qed.

Lemma ser_bool :
  ser_ok Serializer_bool VARINT (fun _ => True) (fun b => varint 5 (bool_to_u32 b)) (fun _ => false).
Proof.
  apply (ser_conv _ bool_to_u32 _ _ _ _ _ _ ser_uint32); intros [] _; done || (unfold in_u; simpl; lia).
Qed.

Lemma ser_uint8 : ser_ok Serializer_uint8 VARINT (in_u 8) (varint 5) (fun _ => false).
Proof.
  apply (ser_conv _ (fun v => v) _ _ _ _ _ _ ser_uint32); intros v Hv.
  - by apply (in_u_mono 8).
  - by apply uwrap_small.
Qed.

Lemma ser_uint16 : ser_ok Serializer_uint16 VARINT (in_u 16) (varint 5) (fun _ => false).
Proof.
  apply (ser_conv _ (fun v => v) _ _ _ _ _ _ ser_uint32); intros v Hv.
  - by apply (in_u_mono 16).
  - by apply uwrap_small.
Qed.

Definition string_dom (s : bytes) : Prop := zlen s <= MAX_STRING_SIZE.

Lemma ser_string :
  ser_ok Serializer_string LENGTH_DELIMETED string_dom
    (fun s => varint 10 (zlen s) ++ s) (fun _ => false).
Proof.
  constructor; [done| |].
  - intros tag v force Hv Ht. rewrite andb_false_r.
    assert (in_u 64 (zlen v)) by (unfold string_dom, MAX_STRING_SIZE, in_u in *; lia).
    apply (emits_comp _ _ _ _ (emits_tag tag LENGTH_DELIMETED Ht ltac:(done))
             (emits_comp _ _ _ _ (emits_varint64 _ H) (emits_Write v))).
  - intros v0 v r k Hv Hwf Hr. simpl. unfold guard_wire. rewrite Z.eqb_refl. simpl.
    assert (Hin : in_u 64 (zlen v)) by (unfold string_dom, MAX_STRING_SIZE, in_u in *; lia).
    rewrite <- (assoc_L (++)) in Hr. unfold Parse_string.
    rewrite (ReadVarint_u64_varint (zlen v) r (v ++ k)) by done.
    unfold string_dom in Hv.
    replace (MAX_STRING_SIZE <? zlen v) with false by (symmetry; apply Z.ltb_ge; lia).
    destruct (rest_adv_app (zlen (varint 10 (zlen v))) r (varint 10 (zlen v)) (v ++ k)) as [Hwf' Hr'];
      [done|done|done|].
    rewrite (Read_app (zlen v) _ v k) by (done || (unfold RSIZE_MAX, MAX_STRING_SIZE in *; lia)).
    rewrite Z.eqb_refl, adv_adv.
    assert (Hb : zdrop (zlen v) (resize (zlen v) v0) = []).
    { apply zdrop_ge. unfold resize, ztake. rewrite length_app, length_take, repeat_length. lia. }
    by rewrite Hb, app_nil_r, length_app, Nat2Z.inj_add, (Z.add_comm (zlen v)).
Qed.

Definition optional_dom {T} (dom : T -> Prop) (skip : T -> bool) (v : option T) : Prop :=
  match v with Some x => dom x /\ skip x = false | None => False end.

(** An engaged optional whose value is not elided. *)
Lemma ser_optional {T} (s : Serializer T) wt dom body skip dflt :
  ser_ok s wt dom body skip ->
  ser_ok (Serializer_optional s dflt) wt (optional_dom dom skip)
    (fun v => match v with Some x => body x | None => [] end)
    (fun v => match v with Some x => skip x | None => true end).
Proof.
  intros [Hwt Hw Hr]. constructor; [done| |].
  - intros tag [v|] force Hv Ht; [destruct Hv as [Hv Hs]|destruct Hv]. simpl. specialize (Hw tag v false Hv Ht).
    rewrite Hs in *. by rewrite andb_false_r.
  - intros v0 [v|] r k Hv Hwf Hrest; [destruct Hv as [Hv Hs]|destruct Hv]. simpl. by rewrite (Hr dflt v r k).
Qed.

(** ** Messages *)

Record field_spec (T : Type) := mkFieldSpec {
  fs_dom : T -> Prop;
  fs_enc : T -> bytes;
  fs_upd : T -> T -> T
}.
Arguments fs_dom {T} f.
Arguments fs_enc {T} f.
Arguments fs_upd {T} f.
Arguments mkFieldSpec {T}.

Record field_ok {T} (f : FieldImpl T) (sp : field_spec T) : Prop := {
  fo_tag : tag_ok (f_tag f);
  fo_write : forall v, fs_dom sp v -> emits (fun W H out => WriteField f v out) (fs_enc sp v);
  fo_other : forall v0 tag wt r, tag <> f_tag f -> ReadField f v0 tag wt r = (v0, r);
  fo_parse : forall v, fs_dom sp v ->
    (fs_enc sp v = [] /\ forall v0, fs_upd sp v v0 = v0) \/
    (exists wt body, 0 <= wt < 8 /\ fs_enc sp v = tag_bytes (f_tag f) wt ++ body /\
       forall v0 r k, wf_reader r -> rest r = body ++ k ->
         ReadField f v0 (f_tag f) wt r = (fs_upd sp v v0, adv (zlen body) r))
}.

Definition field_spec_of {T M} (tag : Z) (wt : WireType) (get : T -> M) (set : M -> T -> T)
    (dom : M -> Prop) (body : M -> bytes) (skip : M -> bool) : field_spec T :=
  mkFieldSpec (fun v => dom (get v))
    (fun v => if skip (get v) then [] else tag_bytes tag wt ++ body (get v))
    (fun v v0 => if skip (get v) then v0 else set (get v) v0).

Lemma Field_ok {T M} tag (ser : Serializer M) (get : T -> M) set wt dom body skip :
  tag_ok tag -> ser_ok ser wt dom body skip ->
  field_ok (Field tag ser get set) (field_spec_of tag wt get set dom body skip).
Proof.
  intros Ht [Hwt Hw Hr]. constructor; [done| | |].
  - intros v Hv. exact (Hw tag (get v) false Hv Ht).
  - intros v0 tag' wt' r Hne. simpl in *.
    replace (tag =? tag') with false by (symmetry; apply Z.eqb_neq; lia). done.
  - intros v Hv. simpl in *. destruct (skip (get v)); [by left|right].
    exists wt, (body (get v)). split; [done|]. split; [done|].
    intros v0 r k Hwf Hrest. simpl. rewrite Z.eqb_refl. simpl.
    by rewrite (Hr (get v0) (get v) r k).
Qed.

Definition msg_ok {T} (msg : MessageImpl T) (specs : list (field_spec T)) : Prop :=
  NoDup (map f_tag msg) /\ Forall2 field_ok msg specs.
Definition msg_dom {T} (specs : list (field_spec T)) (v : T) : Prop :=
  Forall (fun s => fs_dom s v) specs.
Definition msg_enc {T} (specs : list (field_spec T)) (v : T) : bytes :=
  concat (map (fun s => fs_enc s v) specs).
Definition msg_upd {T} (specs : list (field_spec T)) (v v0 : T) : T :=
  fold_left (fun a s => fs_upd s v a) specs v0.

Lemma WriteMessage_emits {T} (msg : MessageImpl T) specs v :
  Forall2 field_ok msg specs -> msg_dom specs v ->
  emits (fun W H out => WriteMessage v msg out) (msg_enc specs v).
Proof.
  intros Hok. unfold msg_dom, WriteMessage. induction Hok as [|f sp msg specs Hf Hok IH]; intros Hd.
  - apply emits_skip.
  - inversion Hd; subst. simpl.
    apply (emits_comp (fun W H out => WriteField f v out)
             (fun W H out => fold_left (fun o g => WriteField g v o) msg out)).
    + by apply (fo_write f sp Hf).
    + by apply IH.
Qed.

Lemma VisitFields_miss {T} (msg : MessageImpl T) specs tag wt st :
  Forall2 field_ok msg specs -> ~ In tag (map f_tag msg) -> VisitFields msg tag wt st = st.
Proof.
  intros Hok. destruct st as [v r]. revert v r. induction Hok as [|f sp msg specs Hf Hok IH]; intros v r Hn; [done|].
  unfold VisitFields in *. simpl. rewrite (fo_other f sp Hf); [apply IH|]; simpl in Hn; intuition congruence.
Qed.

Lemma VisitFields_hit {T} (msg : MessageImpl T) specs f wt v r res :
  msg_ok msg specs -> In f msg -> ReadField f v (f_tag f) wt r = res ->
  VisitFields msg (f_tag f) wt (v, r) = res.
Proof.
  intros [Hnd Hok] Hin <-. revert Hnd Hin. induction Hok as [|g sp msg specs Hg Hok IH]; intros Hnd Hin; [done|].
  simpl in Hnd. inversion Hnd as [|? ? Hn Hnd']; subst. unfold VisitFields in *. simpl.
  destruct Hin as [<-|Hin].
  - destruct (ReadField g v (f_tag g) wt r) as [v1 r1] eqn:E. apply (VisitFields_miss msg specs); [done|].
    by rewrite <- list_elem_of_In.
  - rewrite (fo_other g sp Hg); [by apply IH|].
    intros Heq. apply Hn. rewrite list_elem_of_In, <- Heq. by apply in_map.
Qed.

Lemma tag_key_range tag wt : tag_ok tag -> 0 <= wt < 8 -> in_u 32 (8 * tag + wt).
Proof. unfold tag_ok, in_u. lia. Qed.

(** [tail] is skipped by the loop without effect. *)
Definition ignored_tail {T} (msg : MessageImpl T) (tail : bytes) : Prop :=
  forall fuel v0 r, wf_reader r -> rest r = tail -> (length tail < fuel)%nat ->
    ReadMessage_loop fuel msg v0 r = Some (v0, adv (zlen tail) r).

Lemma ignored_nil {T} (msg : MessageImpl T) : ignored_tail msg [].
Proof.
  intros fuel v0 r Hwf Hr Hf. destruct fuel; [simpl in Hf; lia|]. cbn [ReadMessage_loop].
  unfold ReadVarint_u32. rewrite ReadVarint_loop_nil by (done || lia). by rewrite adv_0.
Qed.

Lemma ReadMessage_loop_enc_tail {T} (msg : MessageImpl T) specs tail todo tspecs fuel v v0 r :
  msg_ok msg specs -> ignored_tail msg tail ->
  Forall2 field_ok todo tspecs -> (forall f, In f todo -> In f msg) ->
  msg_dom tspecs v -> wf_reader r -> rest r = msg_enc tspecs v ++ tail -> (length (rest r) < fuel)%nat ->
  ReadMessage_loop fuel msg v0 r = Some (msg_upd tspecs v v0, adv (zlen (rest r)) r).
Proof.
  intros Hmsg Htail Htodo. revert fuel v0 r.
  induction Htodo as [|f sp todo tspecs Hf Htodo IH]; intros fuel v0 r Hsub Hd Hwf Hr Hfuel.
  - unfold msg_enc in Hr. simpl in Hr. rewrite Hr in *. by apply Htail.
  - inversion Hd as [|? ? Hdf Hdt]; subst.
    assert (Hsub' : forall g, In g todo -> In g msg) by (intros; apply Hsub; by right).
    destruct (fo_parse f sp Hf v Hdf) as [[He Hu]|(wt & body & Hwt & He & Hp)].
    + unfold msg_enc in Hr; simpl in Hr. rewrite He in Hr. unfold msg_upd; simpl. rewrite Hu.
      by apply IH.
    + destruct fuel as [|fuel]; [lia|]. cbn [ReadMessage_loop].
      unfold msg_enc in Hr; simpl in Hr. rewrite He, <- !(assoc_L (++)) in Hr.
      fold (msg_enc tspecs v) in Hr. pose proof (fo_tag f sp Hf) as Htag. set (k := msg_enc tspecs v ++ tail) in *.
      rewrite (ReadVarint_u32_varint (8 * f_tag f + wt) r (body ++ k))
        by (done || by apply tag_key_range).
      rewrite ReadTagWireType_eq by (unfold tag_ok in Htag; lia).
      set (a := zlen (varint 5 _)).
      destruct (rest_adv_app a r (tag_bytes (f_tag f) wt) (body ++ k)) as [Hwf1 Hr1];
        [done|done|done|].
      rewrite (VisitFields_hit msg specs f wt v0 (adv a r) (fs_upd sp v v0, adv (zlen body) (adv a r)));
        [|done|by apply Hsub; left|by apply (Hp v0 (adv a r) k)].
      destruct (rest_adv_app (zlen body) (adv a r) body k) as [Hwf2 Hr2]; [done|done|done|].
      assert (0 < a) by (apply varint_nonempty; lia).
      assert (Hl : zlen (rest r) = a + (zlen body + zlen k))
        by (rewrite Hr, !length_app; unfold a, tag_bytes; lia).
      rewrite IH by (done || (rewrite Hr2; lia)).
      rewrite Hr2, !adv_adv. unfold msg_upd at 2; simpl. do 2 f_equal. f_equal. lia.
Qed.

Lemma ReadMessage_loop_enc {T} (msg : MessageImpl T) specs todo tspecs fuel v v0 r :
  msg_ok msg specs -> Forall2 field_ok todo tspecs -> (forall f, In f todo -> In f msg) ->
  msg_dom tspecs v -> wf_reader r -> rest r = msg_enc tspecs v -> (length (rest r) < fuel)%nat ->
  ReadMessage_loop fuel msg v0 r = Some (msg_upd tspecs v v0, adv (zlen (rest r)) r).
Proof.
  intros Hmsg Htodo Hsub Hd Hwf Hr. apply (ReadMessage_loop_enc_tail msg specs [] todo); auto using ignored_nil.
  by rewrite app_nil_r.
Qed.

(** Bytes of value 0 read as tag 0, which no field has. *)
Lemma ignored_zeros {T} (msg : MessageImpl T) specs n : msg_ok msg specs -> ignored_tail msg (repeat 0 n).
Proof.
  intros [Hnd Hok]. induction n as [|n IH]; [apply ignored_nil|].
  intros fuel v0 r Hwf Hr Hf. destruct fuel as [|fuel]; [lia|]. cbn [ReadMessage_loop].
  rewrite (ReadVarint_u32_varint 0 r (repeat 0 n)) by (done || (unfold in_u; lia)).
  change (zlen (varint 5 0)) with 1. unfold ReadTagWireType. change (Z.shiftr 0 3) with 0. change (Z.land 0 7) with 0.
  rewrite (VisitFields_miss msg specs); [|done|].
  - destruct (rest_adv_app 1 r [0] (repeat 0 n)) as [Hwf1 Hr1]; [done|done|done|].
    simpl in Hf. rewrite (IH fuel v0 (adv 1 r) Hwf1 Hr1) by lia. rewrite adv_adv. do 3 f_equal. simpl length. lia.
  - clear Hnd Hr IH. induction Hok as [|f sp msg specs Hf' Hok IHm]; [by intros []|]. simpl.
    pose proof (fo_tag f sp Hf') as Htag. unfold tag_ok in Htag. intros [?|?]; [lia|by apply IHm].
Qed.

Lemma parse_padded {T} (msg : MessageImpl T) specs v v0 n :
  msg_ok msg specs -> msg_dom specs v ->
  ParseFromString msg v0 (SerializeToString msg v ++ repeat 0 n) = (true, msg_upd specs v v0).
Proof.
  intros Hok Hd. assert (He : SerializeToString msg v = msg_enc specs v).
  { destruct Hok as [_ Hok]. exact (emits_string _ _ (WriteMessage_emits msg specs v Hok Hd) []). }
  rewrite He. unfold ParseFromString, ReadMessage.
  rewrite (ReadMessage_loop_enc_tail msg specs (repeat 0 n) msg specs _ v v0); try done.
  - by apply ignored_zeros with specs.
  - by destruct Hok.
  - apply wf_StringReader.
  - apply rest_StringReader.
  - apply read_fuel_enough, wf_StringReader.
Qed.

Lemma ReadMessage_enc {T} (msg : MessageImpl T) specs v v0 r :
  msg_ok msg specs -> msg_dom specs v -> wf_reader r -> rest r = msg_enc specs v ->
  ReadMessage msg v0 r = (true, msg_upd specs v v0, adv (zlen (rest r)) r).
Proof.
  intros Hok Hd Hwf Hr. unfold ReadMessage.
  rewrite (ReadMessage_loop_enc msg specs msg specs (read_fuel r) v v0 r); try done.
  - by destruct Hok.
  - by apply read_fuel_enough.
Qed.

Lemma message_roundtrip {T} (msg : MessageImpl T) specs v v0 :
  msg_ok msg specs -> msg_dom specs v ->
  SerializeToString msg v = msg_enc specs v /\
  ParseFromString msg v0 (SerializeToString msg v) = (true, msg_upd specs v v0).
Proof.
  intros Hok Hd.
  assert (He : SerializeToString msg v = msg_enc specs v).
  { destruct Hok as [_ Hok]. exact (emits_string _ _ (WriteMessage_emits msg specs v Hok Hd) []). }
  split; [done|]. rewrite He. unfold ParseFromString.
  rewrite (ReadMessage_enc msg specs v v0 (StringReader (msg_enc specs v)));
    auto using wf_StringReader, rest_StringReader.
Qed.

(** A message whose fields are all written reads back whatever it held. *)
Definition msg_complete {T} (specs : list (field_spec T)) : Prop :=
  forall v v0, msg_upd specs v v0 = v.

Lemma ser_message {T} (msg : MessageImpl T) specs :
  msg_ok msg specs -> msg_complete specs ->
  ser_ok (Serializer_message msg) LENGTH_DELIMETED
    (fun v => msg_dom specs v /\ zlen (msg_enc specs v) < 2 ^ 64)
    (fun v => varint 10 (zlen (msg_enc specs v)) ++ msg_enc specs v)
    (fun v => zlen (msg_enc specs v) =? 0).
Proof.
  intros Hok Hc. constructor; [done| |].
  - intros tag v force [Hd Hl] Ht. cbn [Serialize Serializer_message].
    pose proof (WriteMessage_emits msg specs v (proj2 Hok) Hd) as He.
    assert (Hin : in_u 64 (zlen (msg_enc specs v))) by (unfold in_u; lia).
    rewrite (emits_size _ _ He 0) by (unfold in_u; lia).
    rewrite Z.add_0_l, uwrap_small by done.
    destruct (negb force && _); [apply emits_skip|].
    apply (emits_comp _ _ _ _ (emits_tag tag LENGTH_DELIMETED Ht ltac:(done))
             (emits_comp _ _ _ _ (emits_varint64 _ Hin) He)).
  - intros v0 v r k [Hd Hl] Hwf Hr. cbn [Parse Serializer_message]. unfold guard_wire.
    rewrite Z.eqb_refl. cbn [negb]. rewrite <- (assoc_L (++)) in Hr.
    set (n := zlen (msg_enc specs v)) in *.
    rewrite (ReadVarint_u64_varint n r (msg_enc specs v ++ k)) by (done || (unfold in_u; lia)).
    destruct (rest_adv_app (zlen (varint 10 n)) r (varint 10 n) (msg_enc specs v ++ k)) as [Hwf1 Hr1];
      [done|done|done|].
    set (r1 := adv _ r) in *.
    assert (Hrest : rest (push_limit n r1) = msg_enc specs v)
      by (rewrite rest_push_limit, Hr1 by (done || lia); by apply ztake_app).
    rewrite (ReadMessage_enc msg specs v v0 (push_limit n r1)) by (done || (apply push_limit_wf; [lia|done])).
    rewrite Hrest, pop_adv_push, Hc. unfold r1. rewrite adv_adv, length_app, Nat2Z.inj_add.
    by rewrite Z.add_comm.
Qed.

(** ** Packed repeated fields *)

Lemma fold_packed_emits {T} (p : PackedSerializer T) dom body (l : list T) :
  packed_ok p dom body -> Forall dom l ->
  emits (fun W H out => fold_left (fun o v => SerializePacked p v o) l out) (concat (map body l)).
Proof.
  intros Hp. induction 1 as [|v l Hv Hl IH]; simpl; [apply emits_skip|].
  apply (emits_comp (fun W H out => SerializePacked p v out) _ _ _ (po_write p dom body Hp v Hv) IH).
Qed.

Lemma AvailableBytes_push_adv n size r : AvailableBytes (adv n (push_limit size r)) = size - n.
Proof. done. Qed.

Lemma ReadRepeated_loop_enc {T} (p : PackedSerializer T) dom body dflt l fuel acc size n r :
  packed_ok p dom body -> Forall dom l ->
  let r' := adv n (push_limit size r) in
  wf_reader r' -> rest r' = concat (map body l) -> size - n = zlen (concat (map body l)) ->
  (length l < fuel)%nat ->
  ReadRepeated_loop p dflt fuel acc r' = Some (true, acc ++ l, adv (size - n) r').
Proof.
  intros Hp Hl. revert fuel acc n.
  induction Hl as [|v l Hv Hl IH]; intros fuel acc n r' Hwf Hr Hn Hf; (destruct fuel as [|fuel]; [lia|]).
  - cbn [ReadRepeated_loop]. unfold r'. rewrite AvailableBytes_push_adv. simpl in Hn. rewrite Hn.
    simpl. by rewrite app_nil_r, adv_0.
  - cbn [ReadRepeated_loop]. simpl in Hr, Hn, Hf. rewrite length_app in Hn.
    pose proof (po_nonempty p dom body Hp v Hv).
    unfold r'. rewrite AvailableBytes_push_adv. fold r'.
    replace (0 <? size - n) with true by (symmetry; apply Z.ltb_lt; lia).
    rewrite (po_parse p dom body Hp dflt v r' _ Hv Hwf Hr).
    destruct (rest_adv_app (zlen (body v)) r' (body v) (concat (map body l)) Hwf Hr eq_refl) as [Hwf1 Hr1].
    unfold r' in *. rewrite adv_adv in *.
    rewrite IH by (done || lia).
    rewrite !adv_adv, <- (assoc_L (++)).
    replace (size - (zlen (body v) + n) + (zlen (body v) + n)) with (size - n + n) by lia. done.
Qed.

Lemma vector_packed_roundtrip {T} (p : PackedSerializer T) dom body dflt (l acc : list T) tag r k :
  packed_ok p dom body -> Forall dom l -> l <> [] -> tag_ok tag ->
  zlen (concat (map body l)) < 2 ^ 64 -> wf_reader r ->
  let payload := varint 10 (zlen (concat (map body l))) ++ concat (map body l) in
  rest r = payload ++ k ->
  emits (fun W H out => Serialize (Serializer_vector_packed p dflt) tag l false out)
        (tag_bytes tag LENGTH_DELIMETED ++ payload) /\
  Parse (Serializer_vector_packed p dflt) LENGTH_DELIMETED acc r = (true, acc ++ l, adv (zlen payload) r).
Proof.
  intros Hp Hl Hne Ht Hsz Hwf payload Hr.
  pose proof (fold_packed_emits p dom body l Hp Hl) as He.
  set (n := zlen (concat (map body l))) in *.
  assert (Hn : in_u 64 n) by (unfold in_u; lia).
  split.
  - cbn [Serialize Serializer_vector_packed]. unfold WriteRepeated_packed.
    destruct l as [|v l']; [done|]. set (l := v :: l') in *.
    rewrite (emits_size _ _ He 0) by (unfold in_u; lia).
    rewrite Z.add_0_l, uwrap_small by exact Hn.
    apply (emits_comp _ _ _ _ (emits_tag tag LENGTH_DELIMETED Ht ltac:(done))
             (emits_comp _ _ _ _ (emits_varint64 _ Hn) He)).
  - cbn [Parse Serializer_vector_packed]. unfold guard_wire, ReadRepeated_packed.
    rewrite Z.eqb_refl. cbn [negb]. unfold payload in Hr. rewrite <- (assoc_L (++)) in Hr.
    rewrite (ReadVarint_u64_varint n r _ Hn Hwf Hr).
    destruct (rest_adv_app (zlen (varint 10 n)) r _ _ Hwf Hr eq_refl) as [Hwf1 Hr1].
    set (r1 := adv _ r) in *.
    pose proof (ReadRepeated_loop_enc p dom body dflt l (read_fuel r1) acc n 0 r1 Hp Hl) as Hloop.
    cbv zeta in Hloop. rewrite adv_0, Z.sub_0_r in Hloop.
    assert (Hfuel : (length l < read_fuel r1)%nat).
    { pose proof (read_fuel_enough r1 Hwf1) as Hf. rewrite Hr1, length_app in Hf.
      assert ((length l <= length (concat (map body l)))%nat); [|lia].
      clear -Hp Hl. induction Hl as [|v l Hv Hl IH]; simpl; [lia|]. rewrite length_app.
      pose proof (po_nonempty p dom body Hp v Hv). lia. }
    rewrite Hloop; [|apply push_limit_wf; [lia|done]| |done|done].
    + rewrite pop_adv_push. unfold r1, payload. rewrite adv_adv, length_app, Nat2Z.inj_add.
      by rewrite (Z.add_comm (zlen (varint 10 n))).
    + rewrite rest_push_limit by (done || lia). rewrite Hr1. by apply ztake_app.
Qed.
