(* ===== verification/Messages.v ===== *)
(** * Messages: the hdc structures and their wire descriptors

    The structs of [transfer.h] and [session.h] that cross the wire, with the
    field lists [serial_struct.h] gives them, and the theorems that each of them
    survives encoding and decoding. *)

From Stdlib Require Import ZArith Lia List Bool.
From stdpp Require Import base list numbers.
From S2P Require Import Prelude Serial SerialFacts.

(** ** [HdcTransferBase::TransferConfig] *)

Record TransferConfig := mkTransferConfig {
  tc_fileSize : Z;
  tc_atime : Z;
  tc_mtime : Z;
  tc_options : bytes;
  tc_path : bytes;
  tc_optionalName : bytes;
  tc_updateIfNew : bool;
  tc_compressType : Z;
  tc_holdTimestamp : bool;
  tc_functionName : bytes;
  tc_clientCwd : bytes;
  tc_reserve1 : bytes;
  tc_reserve2 : bytes
}.

Definition TransferConfig_zero : TransferConfig := mkTransferConfig 0 0 0 [] [] [] false 0 false [] [] [] [].

Definition set_tc_fileSize (x : Z) (v : TransferConfig) : TransferConfig :=
  mkTransferConfig x (tc_atime v) (tc_mtime v) (tc_options v) (tc_path v) (tc_optionalName v) (tc_updateIfNew v) (tc_compressType v) (tc_holdTimestamp v) (tc_functionName v) (tc_clientCwd v) (tc_reserve1 v) (tc_reserve2 v).
Definition set_tc_atime (x : Z) (v : TransferConfig) : TransferConfig :=
  mkTransferConfig (tc_fileSize v) x (tc_mtime v) (tc_options v) (tc_path v) (tc_optionalName v) (tc_updateIfNew v) (tc_compressType v) (tc_holdTimestamp v) (tc_functionName v) (tc_clientCwd v) (tc_reserve1 v) (tc_reserve2 v).
Definition set_tc_mtime (x : Z) (v : TransferConfig) : TransferConfig :=
  mkTransferConfig (tc_fileSize v) (tc_atime v) x (tc_options v) (tc_path v) (tc_optionalName v) (tc_updateIfNew v) (tc_compressType v) (tc_holdTimestamp v) (tc_functionName v) (tc_clientCwd v) (tc_reserve1 v) (tc_reserve2 v).
Definition set_tc_options (x : bytes) (v : TransferConfig) : TransferConfig :=
  mkTransferConfig (tc_fileSize v) (tc_atime v) (tc_mtime v) x (tc_path v) (tc_optionalName v) (tc_updateIfNew v) (tc_compressType v) (tc_holdTimestamp v) (tc_functionName v) (tc_clientCwd v) (tc_reserve1 v) (tc_reserve2 v).
Definition set_tc_path (x : bytes) (v : TransferConfig) : TransferConfig :=
  mkTransferConfig (tc_fileSize v) (tc_atime v) (tc_mtime v) (tc_options v) x (tc_optionalName v) (tc_updateIfNew v) (tc_compressType v) (tc_holdTimestamp v) (tc_functionName v) (tc_clientCwd v) (tc_reserve1 v) (tc_reserve2 v).
Definition set_tc_optionalName (x : bytes) (v : TransferConfig) : TransferConfig :=
  mkTransferConfig (tc_fileSize v) (tc_atime v) (tc_mtime v) (tc_options v) (tc_path v) x (tc_updateIfNew v) (tc_compressType v) (tc_holdTimestamp v) (tc_functionName v) (tc_clientCwd v) (tc_reserve1 v) (tc_reserve2 v).
Definition set_tc_updateIfNew (x : bool) (v : TransferConfig) : TransferConfig :=
  mkTransferConfig (tc_fileSize v) (tc_atime v) (tc_mtime v) (tc_options v) (tc_path v) (tc_optionalName v) x (tc_compressType v) (tc_holdTimestamp v) (tc_functionName v) (tc_clientCwd v) (tc_reserve1 v) (tc_reserve2 v).
Definition set_tc_compressType (x : Z) (v : TransferConfig) : TransferConfig :=
  mkTransferConfig (tc_fileSize v) (tc_atime v) (tc_mtime v) (tc_options v) (tc_path v) (tc_optionalName v) (tc_updateIfNew v) x (tc_holdTimestamp v) (tc_functionName v) (tc_clientCwd v) (tc_reserve1 v) (tc_reserve2 v).
Definition set_tc_holdTimestamp (x : bool) (v : TransferConfig) : TransferConfig :=
  mkTransferConfig (tc_fileSize v) (tc_atime v) (tc_mtime v) (tc_options v) (tc_path v) (tc_optionalName v) (tc_updateIfNew v) (tc_compressType v) x (tc_functionName v) (tc_clientCwd v) (tc_reserve1 v) (tc_reserve2 v).
Definition set_tc_functionName (x : bytes) (v : TransferConfig) : TransferConfig :=
  mkTransferConfig (tc_fileSize v) (tc_atime v) (tc_mtime v) (tc_options v) (tc_path v) (tc_optionalName v) (tc_updateIfNew v) (tc_compressType v) (tc_holdTimestamp v) x (tc_clientCwd v) (tc_reserve1 v) (tc_reserve2 v).
Definition set_tc_clientCwd (x : bytes) (v : TransferConfig) : TransferConfig :=
  mkTransferConfig (tc_fileSize v) (tc_atime v) (tc_mtime v) (tc_options v) (tc_path v) (tc_optionalName v) (tc_updateIfNew v) (tc_compressType v) (tc_holdTimestamp v) (tc_functionName v) x (tc_reserve1 v) (tc_reserve2 v).
Definition set_tc_reserve1 (x : bytes) (v : TransferConfig) : TransferConfig :=
  mkTransferConfig (tc_fileSize v) (tc_atime v) (tc_mtime v) (tc_options v) (tc_path v) (tc_optionalName v) (tc_updateIfNew v) (tc_compressType v) (tc_holdTimestamp v) (tc_functionName v) (tc_clientCwd v) x (tc_reserve2 v).
Definition set_tc_reserve2 (x : bytes) (v : TransferConfig) : TransferConfig :=
  mkTransferConfig (tc_fileSize v) (tc_atime v) (tc_mtime v) (tc_options v) (tc_path v) (tc_optionalName v) (tc_updateIfNew v) (tc_compressType v) (tc_holdTimestamp v) (tc_functionName v) (tc_clientCwd v) (tc_reserve1 v) x.

Definition TransferConfig_type : MessageImpl TransferConfig :=
  [ Field 1 (Serializer_uint64 u_no) tc_fileSize set_tc_fileSize;
    Field 2 (Serializer_uint64 u_no) tc_atime set_tc_atime;
    Field 3 (Serializer_uint64 u_no) tc_mtime set_tc_mtime;
    Field 4 Serializer_string tc_options set_tc_options;
    Field 5 Serializer_string tc_path set_tc_path;
    Field 6 Serializer_string tc_optionalName set_tc_optionalName;
    Field 7 Serializer_bool tc_updateIfNew set_tc_updateIfNew;
    Field 8 Serializer_uint8 tc_compressType set_tc_compressType;
    Field 9 Serializer_bool tc_holdTimestamp set_tc_holdTimestamp;
    Field 10 Serializer_string tc_functionName set_tc_functionName;
    Field 11 Serializer_string tc_clientCwd set_tc_clientCwd;
    Field 12 Serializer_string tc_reserve1 set_tc_reserve1;
    Field 13 Serializer_string tc_reserve2 set_tc_reserve2 ].

(** Every integer fits its type and no string exceeds [MAX_STRING_SIZE]. *)
Definition TransferConfig_wf (v : TransferConfig) : Prop :=
  in_u 64 (tc_fileSize v) /\
  in_u 64 (tc_atime v) /\
  in_u 64 (tc_mtime v) /\
  string_dom (tc_options v) /\
  string_dom (tc_path v) /\
  string_dom (tc_optionalName v) /\
  in_u 8 (tc_compressType v) /\
  string_dom (tc_functionName v) /\
  string_dom (tc_clientCwd v) /\
  string_dom (tc_reserve1 v) /\
  string_dom (tc_reserve2 v).

(** ** [HdcTransferBase::FileMode] *)

Record FileMode := mkFileMode {
  fm_perm : Z;
  fm_uId : Z;
  fm_gId : Z;
  fm_context : bytes;
  fm_fullName : bytes
}.

Definition FileMode_zero : FileMode := mkFileMode 0 0 0 [] [].

Definition set_fm_perm (x : Z) (v : FileMode) : FileMode :=
  mkFileMode x (fm_uId v) (fm_gId v) (fm_context v) (fm_fullName v).
Definition set_fm_uId (x : Z) (v : FileMode) : FileMode :=
  mkFileMode (fm_perm v) x (fm_gId v) (fm_context v) (fm_fullName v).
Definition set_fm_gId (x : Z) (v : FileMode) : FileMode :=
  mkFileMode (fm_perm v) (fm_uId v) x (fm_context v) (fm_fullName v).
Definition set_fm_context (x : bytes) (v : FileMode) : FileMode :=
  mkFileMode (fm_perm v) (fm_uId v) (fm_gId v) x (fm_fullName v).
Definition set_fm_fullName (x : bytes) (v : FileMode) : FileMode :=
  mkFileMode (fm_perm v) (fm_uId v) (fm_gId v) (fm_context v) x.

Definition FileMode_type : MessageImpl FileMode :=
  [ Field 1 (Serializer_uint64 u_no) fm_perm set_fm_perm;
    Field 2 (Serializer_uint64 u_no) fm_uId set_fm_uId;
    Field 3 (Serializer_uint64 u_no) fm_gId set_fm_gId;
    Field 4 Serializer_string fm_context set_fm_context;
    Field 5 Serializer_string fm_fullName set_fm_fullName ].

(** Every integer fits its type and no string exceeds [MAX_STRING_SIZE]. *)
Definition FileMode_wf (v : FileMode) : Prop :=
  in_u 64 (fm_perm v) /\
  in_u 64 (fm_uId v) /\
  in_u 64 (fm_gId v) /\
  string_dom (fm_context v) /\
  string_dom (fm_fullName v).

(** ** [HdcTransferBase::TransferPayload] *)

Record TransferPayload := mkTransferPayload {
  tp_index : Z;
  tp_compressType : Z;
  tp_compressSize : Z;
  tp_uncompressSize : Z
}.

Definition TransferPayload_zero : TransferPayload := mkTransferPayload 0 0 0 0.

Definition set_tp_index (x : Z) (v : TransferPayload) : TransferPayload :=
  mkTransferPayload x (tp_compressType v) (tp_compressSize v) (tp_uncompressSize v).
Definition set_tp_compressType (x : Z) (v : TransferPayload) : TransferPayload :=
  mkTransferPayload (tp_index v) x (tp_compressSize v) (tp_uncompressSize v).
Definition set_tp_compressSize (x : Z) (v : TransferPayload) : TransferPayload :=
  mkTransferPayload (tp_index v) (tp_compressType v) x (tp_uncompressSize v).
Definition set_tp_uncompressSize (x : Z) (v : TransferPayload) : TransferPayload :=
  mkTransferPayload (tp_index v) (tp_compressType v) (tp_compressSize v) x.

Definition TransferPayload_type : MessageImpl TransferPayload :=
  [ Field 1 (Serializer_uint64 u_no) tp_index set_tp_index;
    Field 2 Serializer_uint8 tp_compressType set_tp_compressType;
    Field 3 (Serializer_uint32 u_no) tp_compressSize set_tp_compressSize;
    Field 4 (Serializer_uint32 u_no) tp_uncompressSize set_tp_uncompressSize ].

(** Every integer fits its type and no string exceeds [MAX_STRING_SIZE]. *)
Definition TransferPayload_wf (v : TransferPayload) : Prop :=
  in_u 64 (tp_index v) /\
  in_u 8 (tp_compressType v) /\
  in_u 32 (tp_compressSize v) /\
  in_u 32 (tp_uncompressSize v).

(** ** [HdcSessionBase::SessionHandShake] *)

Record SessionHandShake := mkSessionHandShake {
  hs_banner : bytes;
  hs_authType : Z;
  hs_sessionId : Z;
  hs_connectKey : bytes;
  hs_buf : bytes;
  hs_version : bytes
}.

Definition SessionHandShake_zero : SessionHandShake := mkSessionHandShake [] 0 0 [] [] [].

Definition set_hs_banner (x : bytes) (v : SessionHandShake) : SessionHandShake :=
  mkSessionHandShake x (hs_authType v) (hs_sessionId v) (hs_connectKey v) (hs_buf v) (hs_version v).
Definition set_hs_authType (x : Z) (v : SessionHandShake) : SessionHandShake :=
  mkSessionHandShake (hs_banner v) x (hs_sessionId v) (hs_connectKey v) (hs_buf v) (hs_version v).
Definition set_hs_sessionId (x : Z) (v : SessionHandShake) : SessionHandShake :=
  mkSessionHandShake (hs_banner v) (hs_authType v) x (hs_connectKey v) (hs_buf v) (hs_version v).
Definition set_hs_connectKey (x : bytes) (v : SessionHandShake) : SessionHandShake :=
  mkSessionHandShake (hs_banner v) (hs_authType v) (hs_sessionId v) x (hs_buf v) (hs_version v).
Definition set_hs_buf (x : bytes) (v : SessionHandShake) : SessionHandShake :=
  mkSessionHandShake (hs_banner v) (hs_authType v) (hs_sessionId v) (hs_connectKey v) x (hs_version v).
Definition set_hs_version (x : bytes) (v : SessionHandShake) : SessionHandShake :=
  mkSessionHandShake (hs_banner v) (hs_authType v) (hs_sessionId v) (hs_connectKey v) (hs_buf v) x.

Definition SessionHandShake_type : MessageImpl SessionHandShake :=
  [ Field 1 Serializer_string hs_banner set_hs_banner;
    Field 2 Serializer_uint8 hs_authType set_hs_authType;
    Field 3 (Serializer_uint32 u_no) hs_sessionId set_hs_sessionId;
    Field 4 Serializer_string hs_connectKey set_hs_connectKey;
    Field 5 Serializer_string hs_buf set_hs_buf;
    Field 6 Serializer_string hs_version set_hs_version ].

(** Every integer fits its type and no string exceeds [MAX_STRING_SIZE]. *)
Definition SessionHandShake_wf (v : SessionHandShake) : Prop :=
  string_dom (hs_banner v) /\
  in_u 8 (hs_authType v) /\
  in_u 32 (hs_sessionId v) /\
  string_dom (hs_connectKey v) /\
  string_dom (hs_buf v) /\
  string_dom (hs_version v).

(** ** [HdcSessionBase::PayloadProtect] *)

Record PayloadProtect := mkPayloadProtect {
  pp_channelId : Z;
  pp_commandFlag : Z;
  pp_checkSum : Z;
  pp_vCode : Z
}.

Definition PayloadProtect_zero : PayloadProtect := mkPayloadProtect 0 0 0 0.

Definition set_pp_channelId (x : Z) (v : PayloadProtect) : PayloadProtect :=
  mkPayloadProtect x (pp_commandFlag v) (pp_checkSum v) (pp_vCode v).
Definition set_pp_commandFlag (x : Z) (v : PayloadProtect) : PayloadProtect :=
  mkPayloadProtect (pp_channelId v) x (pp_checkSum v) (pp_vCode v).
Definition set_pp_checkSum (x : Z) (v : PayloadProtect) : PayloadProtect :=
  mkPayloadProtect (pp_channelId v) (pp_commandFlag v) x (pp_vCode v).
Definition set_pp_vCode (x : Z) (v : PayloadProtect) : PayloadProtect :=
  mkPayloadProtect (pp_channelId v) (pp_commandFlag v) (pp_checkSum v) x.

Definition PayloadProtect_type : MessageImpl PayloadProtect :=
  [ Field 1 (Serializer_uint32 u_no) pp_channelId set_pp_channelId;
    Field 2 (Serializer_uint32 u_no) pp_commandFlag set_pp_commandFlag;
    Field 3 Serializer_uint8 pp_checkSum set_pp_checkSum;
    Field 4 Serializer_uint8 pp_vCode set_pp_vCode ].

(** Every integer fits its type and no string exceeds [MAX_STRING_SIZE]. *)
Definition PayloadProtect_wf (v : PayloadProtect) : Prop :=
  in_u 32 (pp_channelId v) /\
  in_u 32 (pp_commandFlag v) /\
  in_u 8 (pp_checkSum v) /\
  in_u 8 (pp_vCode v).

(** ** [HdcSessionBase::HeartbeatMsg] *)

Record HeartbeatMsg := mkHeartbeatMsg {
  hb_heartbeatCount : Z;
  hb_reserved : bytes
}.

Definition HeartbeatMsg_zero : HeartbeatMsg := mkHeartbeatMsg 0 [].

Definition set_hb_heartbeatCount (x : Z) (v : HeartbeatMsg) : HeartbeatMsg :=
  mkHeartbeatMsg x (hb_reserved v).
Definition set_hb_reserved (x : bytes) (v : HeartbeatMsg) : HeartbeatMsg :=
  mkHeartbeatMsg (hb_heartbeatCount v) x.

Definition HeartbeatMsg_type : MessageImpl HeartbeatMsg :=
  [ Field 1 (Serializer_uint64 u_no) hb_heartbeatCount set_hb_heartbeatCount;
    Field 2 Serializer_string hb_reserved set_hb_reserved ].

(** Every integer fits its type and no string exceeds [MAX_STRING_SIZE]. *)
Definition HeartbeatMsg_wf (v : HeartbeatMsg) : Prop :=
  in_u 64 (hb_heartbeatCount v) /\
  string_dom (hb_reserved v).

(** ** Proof automation for descriptors *)

Ltac pick_ser :=
  first [ exact ser_uint64 | exact ser_uint32 | exact ser_uint8 | exact ser_string | exact ser_bool ].

(** [msg_ok msg ?specs]: distinct tags, and each field by its serializer's law. *)
Ltac solve_fields :=
  repeat (eapply Forall2_cons; [eapply Field_ok; [unfold tag_ok; lia|pick_ser]|]);
  apply Forall2_nil.
Ltac solve_nodup := apply (bool_decide_unpack _); vm_compute; exact I.

Ltac solve_dom :=
  repeat (apply List.Forall_cons; [simpl; tauto|]); apply List.Forall_nil.
Ltac solve_consumes :=
  repeat (apply List.Forall_cons; [auto with consumes|]); apply List.Forall_nil.

Definition TransferConfig_specs : list (field_spec TransferConfig) :=
  [ field_spec_of 1 VARINT tc_fileSize set_tc_fileSize (in_u 64) (varint 10) (fun _ => false);
    field_spec_of 2 VARINT tc_atime set_tc_atime (in_u 64) (varint 10) (fun _ => false);
    field_spec_of 3 VARINT tc_mtime set_tc_mtime (in_u 64) (varint 10) (fun _ => false);
    field_spec_of 4 LENGTH_DELIMETED tc_options set_tc_options string_dom (fun s => varint 10 (zlen s) ++ s) (fun _ => false);
    field_spec_of 5 LENGTH_DELIMETED tc_path set_tc_path string_dom (fun s => varint 10 (zlen s) ++ s) (fun _ => false);
    field_spec_of 6 LENGTH_DELIMETED tc_optionalName set_tc_optionalName string_dom (fun s => varint 10 (zlen s) ++ s) (fun _ => false);
    field_spec_of 7 VARINT tc_updateIfNew set_tc_updateIfNew (fun _ => True) (fun b => varint 5 (bool_to_u32 b)) (fun _ => false);
    field_spec_of 8 VARINT tc_compressType set_tc_compressType (in_u 8) (varint 5) (fun _ => false);
    field_spec_of 9 VARINT tc_holdTimestamp set_tc_holdTimestamp (fun _ => True) (fun b => varint 5 (bool_to_u32 b)) (fun _ => false);
    field_spec_of 10 LENGTH_DELIMETED tc_functionName set_tc_functionName string_dom (fun s => varint 10 (zlen s) ++ s) (fun _ => false);
    field_spec_of 11 LENGTH_DELIMETED tc_clientCwd set_tc_clientCwd string_dom (fun s => varint 10 (zlen s) ++ s) (fun _ => false);
    field_spec_of 12 LENGTH_DELIMETED tc_reserve1 set_tc_reserve1 string_dom (fun s => varint 10 (zlen s) ++ s) (fun _ => false);
    field_spec_of 13 LENGTH_DELIMETED tc_reserve2 set_tc_reserve2 string_dom (fun s => varint 10 (zlen s) ++ s) (fun _ => false) ].

Lemma TransferConfig_ok : msg_ok TransferConfig_type TransferConfig_specs.
Proof. split; [solve_nodup|solve_fields]. Qed.

Lemma TransferConfig_complete : msg_complete TransferConfig_specs.
Proof. intros [] []. reflexivity. Qed.

Lemma TransferConfig_dom v : TransferConfig_wf v -> msg_dom TransferConfig_specs v.
Proof. unfold TransferConfig_wf. intros. solve_dom. Qed.

Lemma TransferConfig_consumes : Forall field_consumes TransferConfig_type.
Proof. solve_consumes. Qed.

Lemma TransferConfig_rt v v0 :
  TransferConfig_wf v -> ParseFromString TransferConfig_type v0 (SerializeToString TransferConfig_type v) = (true, v).
Proof.
  intros Hv. destruct (message_roundtrip _ _ v v0 TransferConfig_ok (TransferConfig_dom v Hv)) as [_ ->].
  by rewrite TransferConfig_complete.
Qed.

Definition FileMode_specs : list (field_spec FileMode) :=
  [ field_spec_of 1 VARINT fm_perm set_fm_perm (in_u 64) (varint 10) (fun _ => false);
    field_spec_of 2 VARINT fm_uId set_fm_uId (in_u 64) (varint 10) (fun _ => false);
    field_spec_of 3 VARINT fm_gId set_fm_gId (in_u 64) (varint 10) (fun _ => false);
    field_spec_of 4 LENGTH_DELIMETED fm_context set_fm_context string_dom (fun s => varint 10 (zlen s) ++ s) (fun _ => false);
    field_spec_of 5 LENGTH_DELIMETED fm_fullName set_fm_fullName string_dom (fun s => varint 10 (zlen s) ++ s) (fun _ => false) ].

Lemma FileMode_ok : msg_ok FileMode_type FileMode_specs.
Proof. split; [solve_nodup|solve_fields]. Qed.

Lemma FileMode_complete : msg_complete FileMode_specs.
Proof. intros [] []. reflexivity. Qed.

Lemma FileMode_dom v : FileMode_wf v -> msg_dom FileMode_specs v.
Proof. unfold FileMode_wf. intros. solve_dom. Qed.

Lemma FileMode_consumes : Forall field_consumes FileMode_type.
Proof. solve_consumes. Qed.

Lemma FileMode_rt v v0 :
  FileMode_wf v -> ParseFromString FileMode_type v0 (SerializeToString FileMode_type v) = (true, v).
Proof.
  intros Hv. destruct (message_roundtrip _ _ v v0 FileMode_ok (FileMode_dom v Hv)) as [_ ->].
  by rewrite FileMode_complete.
Qed.

Definition TransferPayload_specs : list (field_spec TransferPayload) :=
  [ field_spec_of 1 VARINT tp_index set_tp_index (in_u 64) (varint 10) (fun _ => false);
    field_spec_of 2 VARINT tp_compressType set_tp_compressType (in_u 8) (varint 5) (fun _ => false);
    field_spec_of 3 VARINT tp_compressSize set_tp_compressSize (in_u 32) (varint 5) (fun _ => false);
    field_spec_of 4 VARINT tp_uncompressSize set_tp_uncompressSize (in_u 32) (varint 5) (fun _ => false) ].

Lemma TransferPayload_ok : msg_ok TransferPayload_type TransferPayload_specs.
Proof. split; [solve_nodup|solve_fields]. Qed.

Lemma TransferPayload_complete : msg_complete TransferPayload_specs.
Proof. intros [] []. reflexivity. Qed.

Lemma TransferPayload_dom v : TransferPayload_wf v -> msg_dom TransferPayload_specs v.
Proof. unfold TransferPayload_wf. intros. solve_dom. Qed.

Lemma TransferPayload_consumes : Forall field_consumes TransferPayload_type.
Proof. solve_consumes. Qed.

Lemma TransferPayload_rt v v0 :
  TransferPayload_wf v -> ParseFromString TransferPayload_type v0 (SerializeToString TransferPayload_type v) = (true, v).
Proof.
  intros Hv. destruct (message_roundtrip _ _ v v0 TransferPayload_ok (TransferPayload_dom v Hv)) as [_ ->].
  by rewrite TransferPayload_complete.
Qed.

Definition SessionHandShake_specs : list (field_spec SessionHandShake) :=
  [ field_spec_of 1 LENGTH_DELIMETED hs_banner set_hs_banner string_dom (fun s => varint 10 (zlen s) ++ s) (fun _ => false);
    field_spec_of 2 VARINT hs_authType set_hs_authType (in_u 8) (varint 5) (fun _ => false);
    field_spec_of 3 VARINT hs_sessionId set_hs_sessionId (in_u 32) (varint 5) (fun _ => false);
    field_spec_of 4 LENGTH_DELIMETED hs_connectKey set_hs_connectKey string_dom (fun s => varint 10 (zlen s) ++ s) (fun _ => false);
    field_spec_of 5 LENGTH_DELIMETED hs_buf set_hs_buf string_dom (fun s => varint 10 (zlen s) ++ s) (fun _ => false);
    field_spec_of 6 LENGTH_DELIMETED hs_version set_hs_version string_dom (fun s => varint 10 (zlen s) ++ s) (fun _ => false) ].

Lemma SessionHandShake_ok : msg_ok SessionHandShake_type SessionHandShake_specs.
Proof. split; [solve_nodup|solve_fields]. Qed.

Lemma SessionHandShake_complete : msg_complete SessionHandShake_specs.
Proof. intros [] []. reflexivity. Qed.

Lemma SessionHandShake_dom v : SessionHandShake_wf v -> msg_dom SessionHandShake_specs v.
Proof. unfold SessionHandShake_wf. intros. solve_dom. Qed.

Lemma SessionHandShake_consumes : Forall field_consumes SessionHandShake_type.
Proof. solve_consumes. Qed.

Lemma SessionHandShake_rt v v0 :
  SessionHandShake_wf v -> ParseFromString SessionHandShake_type v0 (SerializeToString SessionHandShake_type v) = (true, v).
Proof.
  intros Hv. destruct (message_roundtrip _ _ v v0 SessionHandShake_ok (SessionHandShake_dom v Hv)) as [_ ->].
  by rewrite SessionHandShake_complete.
Qed.

Definition PayloadProtect_specs : list (field_spec PayloadProtect) :=
  [ field_spec_of 1 VARINT pp_channelId set_pp_channelId (in_u 32) (varint 5) (fun _ => false);
    field_spec_of 2 VARINT pp_commandFlag set_pp_commandFlag (in_u 32) (varint 5) (fun _ => false);
    field_spec_of 3 VARINT pp_checkSum set_pp_checkSum (in_u 8) (varint 5) (fun _ => false);
    field_spec_of 4 VARINT pp_vCode set_pp_vCode (in_u 8) (varint 5) (fun _ => false) ].

Lemma PayloadProtect_ok : msg_ok PayloadProtect_type PayloadProtect_specs.
Proof. split; [solve_nodup|solve_fields]. Qed.

Lemma PayloadProtect_complete : msg_complete PayloadProtect_specs.
Proof. intros [] []. reflexivity. Qed.

Lemma PayloadProtect_dom v : PayloadProtect_wf v -> msg_dom PayloadProtect_specs v.
Proof. unfold PayloadProtect_wf. intros. solve_dom. Qed.

Lemma PayloadProtect_consumes : Forall field_consumes PayloadProtect_type.
Proof. solve_consumes. Qed.

Lemma PayloadProtect_rt v v0 :
  PayloadProtect_wf v -> ParseFromString PayloadProtect_type v0 (SerializeToString PayloadProtect_type v) = (true, v).
Proof.
  intros Hv. destruct (message_roundtrip _ _ v v0 PayloadProtect_ok (PayloadProtect_dom v Hv)) as [_ ->].
  by rewrite PayloadProtect_complete.
Qed.

Definition HeartbeatMsg_specs : list (field_spec HeartbeatMsg) :=
  [ field_spec_of 1 VARINT hb_heartbeatCount set_hb_heartbeatCount (in_u 64) (varint 10) (fun _ => false);
    field_spec_of 2 LENGTH_DELIMETED hb_reserved set_hb_reserved string_dom (fun s => varint 10 (zlen s) ++ s) (fun _ => false) ].

Lemma HeartbeatMsg_ok : msg_ok HeartbeatMsg_type HeartbeatMsg_specs.
Proof. split; [solve_nodup|solve_fields]. Qed.

Lemma HeartbeatMsg_complete : msg_complete HeartbeatMsg_specs.
Proof. intros [] []. reflexivity. Qed.

Lemma HeartbeatMsg_dom v : HeartbeatMsg_wf v -> msg_dom HeartbeatMsg_specs v.
Proof. unfold HeartbeatMsg_wf. intros. solve_dom. Qed.

Lemma HeartbeatMsg_consumes : Forall field_consumes HeartbeatMsg_type.
Proof. solve_consumes. Qed.

Lemma HeartbeatMsg_rt v v0 :
  HeartbeatMsg_wf v -> ParseFromString HeartbeatMsg_type v0 (SerializeToString HeartbeatMsg_type v) = (true, v).
Proof.
  intros Hv. destruct (message_roundtrip _ _ v v0 HeartbeatMsg_ok (HeartbeatMsg_dom v Hv)) as [_ ->].
  by rewrite HeartbeatMsg_complete.
Qed.

