(* ===== verification/SerialProps.v ===== *)
(** * SerialProps: the theorems about the wire codec *)

From Stdlib Require Import String ZArith Lia List Bool.
From stdpp Require Import base list numbers.
From S2P Require Import Prelude Serial SerialFacts Messages.

(** C18. Every structure hdc sends over the wire survives encoding and decoding:
    for each of the six messages, parsing the serialized bytes into any
    previously initialised object succeeds and yields exactly the value sent,
    provided its strings do not exceed [MAX_STRING_SIZE]. *)
Theorem wire_messages_roundtrip :
  (forall v v0, PayloadProtect_wf v ->
     ParseFromString PayloadProtect_type v0 (SerializeToString PayloadProtect_type v) = (true, v)) /\
  (forall v v0, SessionHandShake_wf v ->
     ParseFromString SessionHandShake_type v0 (SerializeToString SessionHandShake_type v) = (true, v)) /\
  (forall v v0, HeartbeatMsg_wf v ->
     ParseFromString HeartbeatMsg_type v0 (SerializeToString HeartbeatMsg_type v) = (true, v)) /\
  (forall v v0, TransferConfig_wf v ->
     ParseFromString TransferConfig_type v0 (SerializeToString TransferConfig_type v) = (true, v)) /\
  (forall v v0, FileMode_wf v ->
     ParseFromString FileMode_type v0 (SerializeToString FileMode_type v) = (true, v)) /\
  (forall v v0, TransferPayload_wf v ->
     ParseFromString TransferPayload_type v0 (SerializeToString TransferPayload_type v) = (true, v)).
Proof.
  repeat split; intros; auto using PayloadProtect_rt, SessionHandShake_rt, HeartbeatMsg_rt,
    TransferConfig_rt, FileMode_rt, TransferPayload_rt.
Qed.

Definition sample_handshake : SessionHandShake :=
  mkSessionHandShake (str "OHOS HDC") 0 305419896 (str "127.0.0.1:5555") [] (str "Ver: 3.2.0g").

Lemma wire_messages_roundtrip_witness :
  SessionHandShake_wf sample_handshake /\
  ParseFromString SessionHandShake_type SessionHandShake_zero
    (SerializeToString SessionHandShake_type sample_handshake) = (true, sample_handshake).
Proof.
  assert (H : SessionHandShake_wf sample_handshake)
    by (unfold SessionHandShake_wf, string_dom, MAX_STRING_SIZE, in_u; vm_compute; intuition discriminate).
  split; [exact H|]. exact (proj1 (proj2 wire_messages_roundtrip) _ _ H).
Defined.

(** The decoder accepts everything: whatever the bytes, the
    [while (ReadVarint)] loop of [ReadMessage] terminates and
    [ParseFromString] reports success for every hdc message type, so the
    failure branches of its callers are never taken. *)
Theorem parse_never_fails (input : bytes) :
  (forall v0, (ParseFromString PayloadProtect_type v0 input).1 = true) /\
  (forall v0, (ParseFromString SessionHandShake_type v0 input).1 = true) /\
  (forall v0, (ParseFromString HeartbeatMsg_type v0 input).1 = true) /\
  (forall v0, (ParseFromString TransferConfig_type v0 input).1 = true) /\
  (forall v0, (ParseFromString FileMode_type v0 input).1 = true) /\
  (forall v0, (ParseFromString TransferPayload_type v0 input).1 = true).
Proof.
  assert (H : forall T (msg : MessageImpl T) v0, Forall field_consumes msg ->
                (ParseFromString msg v0 input).1 = true).
  { intros T msg v0 Hm. unfold ParseFromString.
    destruct (ReadMessage_total msg v0 _ Hm (wf_StringReader input)) as (v' & k & -> & _). done. }
  repeat split; intros v0; apply H; auto using PayloadProtect_consumes, SessionHandShake_consumes,
    HeartbeatMsg_consumes, TransferConfig_consumes, FileMode_consumes, TransferPayload_consumes.
Qed.

(** C40. The fuel of [ReadMessage] never decides a result: on a well-formed
    reader, any number of iterations above the number of bytes left gives the
    same value and the same reader, for every message built from forward-moving
    fields. *)
Theorem read_message_fuel_irrelevant {T} (msg : MessageImpl T) v0 r fuel :
  Forall field_consumes msg -> wf_reader r -> (length (rest r) < fuel)%nat ->
  exists v' n, 0 <= n <= zlen (rest r) /\
    ReadMessage_loop fuel msg v0 r = Some (v', adv n r) /\
    ReadMessage msg v0 r = (true, v', adv n r).
Proof.
  intros Hm Hwf Hf.
  destruct (ReadMessage_loop_total msg fuel v0 r Hm Hwf Hf) as (v' & n & Hl & Hn).
  exists v', n. split; [done|]. split; [done|]. unfold ReadMessage.
  destruct (ReadMessage_loop_total msg (read_fuel r) v0 r Hm Hwf (read_fuel_enough r Hwf)) as (v2 & n2 & Hl2 & _).
  pose proof (ReadMessage_loop_fuel msg _ _ v0 r _ (Nat.le_max_l fuel (read_fuel r)) Hl) as H1.
  pose proof (ReadMessage_loop_fuel msg _ _ v0 r _ (Nat.le_max_r fuel (read_fuel r)) Hl2) as H2.
  by replace (ReadMessage_loop (read_fuel r) msg v0 r) with (Some (v', adv n r)) by congruence.
Qed.

Lemma read_message_fuel_irrelevant_witness :
  exists v' n, 0 <= n <= 3 /\
    ReadMessage_loop 100 HeartbeatMsg_type HeartbeatMsg_zero (StringReader [8; 172; 2]) = Some (v', adv n (StringReader [8; 172; 2])) /\
    ReadMessage HeartbeatMsg_type HeartbeatMsg_zero (StringReader [8; 172; 2]) = (true, v', adv n (StringReader [8; 172; 2])).
Proof.
  apply (read_message_fuel_irrelevant HeartbeatMsg_type HeartbeatMsg_zero (StringReader [8; 172; 2]) 100
           HeartbeatMsg_consumes (wf_StringReader _)).
  vm_compute. lia.
Defined.

(** The two writers agree: running the serializer of a message against the
    size collector yields the length (modulo 2^64) of what it appends to the
    string writer, so the length prefixes written before nested messages and
    packed fields are those of the bytes that follow. *)
Theorem size_collector_matches_string_writer {T} (msg : MessageImpl T) specs v :
  msg_ok msg specs -> msg_dom specs v ->
  WriteMessage v msg (0 : Z) = u64 (zlen (SerializeToString msg v)) /\
  (forall out : bytes, WriteMessage v msg out = out ++ SerializeToString msg v).
Proof.
  intros [Hnd Hok] Hd. pose proof (WriteMessage_emits msg specs v Hok Hd) as [Hs Hn].
  unfold SerializeToString. rewrite (Hs []). split.
  - rewrite Hn by (unfold in_u; lia). done.
  - intros out. rewrite (Hs out). done.
Qed.

Definition sample_protect : PayloadProtect := mkPayloadProtect 4294967295 1 0 9.

Lemma size_collector_witness :
  WriteMessage sample_protect PayloadProtect_type (0 : Z)
  = u64 (zlen (SerializeToString PayloadProtect_type sample_protect)) /\
  (forall out : bytes, WriteMessage sample_protect PayloadProtect_type out
                       = out ++ SerializeToString PayloadProtect_type sample_protect).
Proof.
  apply (size_collector_matches_string_writer PayloadProtect_type PayloadProtect_specs sample_protect PayloadProtect_ok).
  apply PayloadProtect_dom. unfold PayloadProtect_wf, in_u. vm_compute. intuition discriminate.
Defined.

(** All scalar encodings are injective and self-delimiting: for every
    flag combination of the 32- and 64-bit signed and unsigned serializers,
    the parser recovers the value written and consumes exactly its bytes,
    whatever follows; a packed vector of [uint32_t] is appended to the vector
    already held. *)
Theorem scalar_serializers_roundtrip (k : bytes) :
  (forall fl v old, in_s 32 v ->
     ParsePacked (Packed_int32 fl) old (StringReader (SerializePacked (Packed_int32 fl) v [] ++ k))
     = (true, v, adv (zlen (SerializePacked (Packed_int32 fl) v [])) (StringReader (SerializePacked (Packed_int32 fl) v [] ++ k)))) /\
  (forall fl v old, in_s 64 v ->
     ParsePacked (Packed_int64 fl) old (StringReader (SerializePacked (Packed_int64 fl) v [] ++ k))
     = (true, v, adv (zlen (SerializePacked (Packed_int64 fl) v [])) (StringReader (SerializePacked (Packed_int64 fl) v [] ++ k)))) /\
  (forall tag l acc, tag_ok tag -> Forall (in_u 32) l -> l <> [] ->
     zlen (concat (map (varint 5) l)) < 2 ^ 64 ->
     exists payload,
       Serialize (Serializer_vector_packed (Packed_uint32 u_no) 0) tag l false [] = tag_bytes tag LENGTH_DELIMETED ++ payload /\
       Parse (Serializer_vector_packed (Packed_uint32 u_no) 0) LENGTH_DELIMETED acc (StringReader (payload ++ k))
       = (true, acc ++ l, adv (zlen payload) (StringReader (payload ++ k)))).
Proof.
  assert (Hp : forall (p : PackedSerializer Z) dom body v old, packed_ok p dom body -> dom v ->
    ParsePacked p old (StringReader (SerializePacked p v [] ++ k))
    = (true, v, adv (zlen (SerializePacked p v [])) (StringReader (SerializePacked p v [] ++ k)))).
  { intros p dom body v old Hok Hv. rewrite (emits_string _ _ (po_write p dom body Hok v Hv)).
    apply (po_parse p dom body Hok old v _ k Hv (wf_StringReader _)). apply rest_StringReader. }
  split; [|split].
  - intros fl v old Hv. exact (Hp _ _ _ v old (packed_i32 fl) Hv).
  - intros fl v old Hv. exact (Hp _ _ _ v old (packed_i64 fl) Hv).
  - intros tag l acc Ht Hl Hne Hsz.
    exists (varint 10 (zlen (concat (map (varint 5) l))) ++ concat (map (varint 5) l)).
    destruct (vector_packed_roundtrip (Packed_uint32 u_no) (in_u 32) (varint 5) 0 l acc tag
      (StringReader ((varint 10 (zlen (concat (map (varint 5) l))) ++ concat (map (varint 5) l)) ++ k)) k
      packed_u32 Hl Hne Ht Hsz (wf_StringReader _) (rest_StringReader _)) as [He Hr].
    split; [|exact Hr]. exact (emits_string _ _ He []).
Qed.

Lemma scalar_serializers_witness :
  ParsePacked (Packed_int32 s_s) 0 (StringReader (SerializePacked (Packed_int32 s_s) (-5) [] ++ [1]))
  = (true, -5, adv 1 (StringReader [9; 1])).
Proof. apply (proj1 (scalar_serializers_roundtrip [1]) s_s (-5) 0). unfold in_s. lia. Defined.
