(* ===== verification/Heartbeat.v ===== *)
(** * Heartbeat: the per-session keep-alive counters of [heartbeat.cpp]

    Times are seconds of the monotonic clock, passed in by the caller. *)

From Stdlib Require Import String ZArith Lia List Bool.
From stdpp Require Import base list numbers.
From S2P Require Import Prelude Serial SerialFacts Messages.

Record HdcHeartbeat := mkHeartbeat {
  heartbeatCount : Z; messageCount : Z; lastTime : Z; supportHeartbeat : bool
}.

Definition HdcHeartbeat_new (now : Z) : HdcHeartbeat := mkHeartbeat 0 0 now false.

Definition AddHeartbeatCount (h : HdcHeartbeat) : HdcHeartbeat :=
  mkHeartbeat (u64 (heartbeatCount h + 1)) (messageCount h) (lastTime h) (supportHeartbeat h).

(** On the host the timeout test is compiled out. *)
Definition HandleMessageCount (host : bool) (now : Z) (h : HdcHeartbeat) : bool * HdcHeartbeat :=
  let h' := mkHeartbeat (heartbeatCount h) (u64 (messageCount h + 1)) (lastTime h) (supportHeartbeat h) in
  if host then (true, h') else (negb (3600 <? now - lastTime h), h').

Definition GetHeartbeatCount (h : HdcHeartbeat) : Z := heartbeatCount h.
Definition GetSupportHeartbeat (h : HdcHeartbeat) : bool := supportHeartbeat h.
Definition SetSupportHeartbeat (s : bool) (h : HdcHeartbeat) : HdcHeartbeat :=
  mkHeartbeat (heartbeatCount h) (messageCount h) (lastTime h) s.

(** The count the peer reported, or [None] for an empty payload. *)
Definition HandleRecvHeartbeatMsg (now : Z) (payload : bytes) (payloadSize : Z) (h : HdcHeartbeat)
    : option Z * HdcHeartbeat :=
  if payloadSize <=? 0 then (None, h)
  else
    let s := ztake payloadSize payload in
    let '(_, msg) := ParseFromString HeartbeatMsg_type HeartbeatMsg_zero s in
    (Some (hb_heartbeatCount msg),
     mkHeartbeat (heartbeatCount h) (messageCount h) now (supportHeartbeat h)).

(** The payload [SendHeartbeatMsg] sends, and the counters after it. *)
Definition SendHeartbeat_payload (h : HdcHeartbeat) : bytes * HdcHeartbeat :=
  let msg := mkHeartbeatMsg (GetHeartbeatCount h) [] in
  (SerializeToString HeartbeatMsg_type msg, AddHeartbeatCount h).

(** ** Theorems *)

(** The keep-alive exchange: what one side sends, the other decodes to the
    sender's count and restarts its own clock, so that within the next hour of
    messages the daemon does not ask for a new handshake, and after more than an
    hour without another heartbeat it does. *)
Theorem heartbeat_exchange (sender receiver : HdcHeartbeat) (now later : Z) :
  in_u 64 (heartbeatCount sender) ->
  let '(payload, sender') := SendHeartbeat_payload sender in
  let '(seen, receiver') := HandleRecvHeartbeatMsg now payload (zlen payload) receiver in
  seen = Some (heartbeatCount sender) /\
  heartbeatCount sender' = u64 (heartbeatCount sender + 1) /\
  lastTime receiver' = now /\
  (HandleMessageCount false later receiver').1 = negb (3600 <? later - now) /\
  (HandleMessageCount true later receiver').1 = true.
Proof.
  intros Hc. unfold SendHeartbeat_payload, HandleRecvHeartbeatMsg, GetHeartbeatCount.
  set (v := mkHeartbeatMsg (heartbeatCount sender) []).
  assert (Hwf : HeartbeatMsg_wf v) by (split; [exact Hc|unfold string_dom, MAX_STRING_SIZE; simpl; lia]).
  pose proof (message_roundtrip _ _ v HeartbeatMsg_zero HeartbeatMsg_ok (HeartbeatMsg_dom v Hwf)) as [He _].
  assert (Hpos : 0 < zlen (SerializeToString HeartbeatMsg_type v)).
  { rewrite He. unfold msg_enc, HeartbeatMsg_specs. cbn [map concat fs_enc field_spec_of].
    rewrite !length_app. pose proof (varint_nonempty 5 (8 * 1 + VARINT) ltac:(lia)). unfold tag_bytes. lia. }
  replace (zlen (SerializeToString HeartbeatMsg_type v) <=? 0) with false by (symmetry; apply Z.leb_gt; lia).
  rewrite ztake_ge by lia. rewrite (HeartbeatMsg_rt v HeartbeatMsg_zero Hwf). repeat split.
Qed.

Lemma heartbeat_exchange_witness :
  (HandleRecvHeartbeatMsg 50 (SendHeartbeat_payload (mkHeartbeat 7 0 0 true)).1
     (zlen (SendHeartbeat_payload (mkHeartbeat 7 0 0 true)).1) (HdcHeartbeat_new 0)).1 = Some 7.
Proof.
  pose proof (heartbeat_exchange (mkHeartbeat 7 0 0 true) (HdcHeartbeat_new 0) 50 60 ltac:(vm_compute; split; [discriminate|reflexivity])) as H.
  destruct (SendHeartbeat_payload (mkHeartbeat 7 0 0 true)) as [p s'].
  cbn [fst]. destruct (HandleRecvHeartbeatMsg 50 p (zlen p) (HdcHeartbeat_new 0)) as [seen r']. apply H.
Defined.
