(* ===== verification/Packet.v ===== *)
(** * Packet: the framing of the session byte stream ([session.cpp])

    A session exchanges frames: a packed 11-byte [PayloadHead] in network
    order, a serialized [PayloadProtect] and the payload.  [BuildFrame] is the
    frame [HdcSessionBase::Send] builds; [AllocCallback], [OnRead],
    [DecryptPayload] and [FetchIOBuf] are the receiving side, which collects
    whatever chunks the transport delivers in [ioBuf] and calls the virtual
    [FetchCommand] once per complete frame.

    Reads of the receive buffer go through [slice], which is [None] outside the
    buffer: a result [None] would be an out-of-bounds access.  Next to its
    result, each function returns the commands it handed to [FetchCommand], in
    order. *)

From Stdlib Require Import String ZArith Lia List Bool.
From stdpp Require Import base list numbers option.
From S2P Require Import Prelude Defs Serial SerialFacts Messages Heartbeat.

(** ** What framing needs of the rest of the session *)

(** [W] is everything the command handlers see and change: the session object
    and the state of the daemon or server behind it. *)
Class CommandSink (W : Type) := {
  isDead : W -> bool;
  heartbeat : W -> HdcHeartbeat;
  set_heartbeat : HdcHeartbeat -> W -> W;
  FreeSession : W -> W;
  FetchCommand : W -> Z -> Z -> bytes -> W * bool
}.

(** One call of [FetchCommand]. *)
Record Command := mkCommand { cmd_channelId : Z; cmd_command : Z; cmd_payload : bytes }.

#[export] Instance Command_eq_dec : EqDecision Command.
Proof. solve_decision. Defined.

(** ** The frame header *)

Definition sizeof_PayloadHead : Z := 11.
Definition payloadProtectStaticVcode : Z := 9.

(** The fields in host order; [htons]/[htonl] are in the byte conversions. *)
Record PayloadHead := mkPayloadHead {
  flag : bytes; reserve : bytes; protocolVer : Z; headSize : Z; dataSize : Z
}.

Definition PayloadHead_bytes (h : PayloadHead) : bytes :=
  flag h ++ reserve h ++ [protocolVer h] ++ be_split 2 (headSize h) ++ be_split 4 (dataSize h).

Definition slice (off n : Z) (buf : bytes) : option bytes :=
  if (0 <=? off) && (0 <=? n) && (off + n <=? zlen buf) then Some (ztake n (zdrop off buf)) else None.

(** [reinterpret_cast<struct PayloadHead *>(bufPtr)]. *)
Definition PayloadHead_at (buf : bytes) : option PayloadHead :=
  b ← slice 0 sizeof_PayloadHead buf;
  Some (mkPayloadHead (ztake 2 b) (ztake 2 (zdrop 2 b)) (be_combine (ztake 1 (zdrop 4 b)))
          (be_combine (ztake 2 (zdrop 5 b))) (be_combine (ztake 4 (zdrop 7 b)))).

Definition CalcCheckSum (data : bytes) : Z := fold_left (fun ret b => u8 (ret + b)) data 0.

(** ** Sending *)

Definition protect_of (channelId commandFlag : Z) (data : bytes) : PayloadProtect :=
  mkPayloadProtect channelId commandFlag
    (if ENABLE_IO_CHECKSUM && (0 <? zlen data) then CalcCheckSum data else 0)
    payloadProtectStaticVcode.

(** The buffer [Send] builds for [data] ([dataSize] is its length): the three
    copies succeed one after the other or the whole frame is dropped. *)
Definition BuildFrame (channelId commandFlag : Z) (data : bytes) : Z + bytes :=
  let s := SerializeToString PayloadProtect_type (protect_of channelId commandFlag data) in
  let payloadHead := mkPayloadHead PACKET_FLAG [0; 0] VER_PROTOCOL (u16 (zlen s)) (u32 (zlen data)) in
  if negb (memcpy_ok sizeof_PayloadHead sizeof_PayloadHead) then inl ERR_BUF_COPY
  else if negb (memcpy_ok (zlen s) (zlen s)) then inl ERR_BUF_COPY
  else if (0 <? zlen data) && negb (memcpy_ok (zlen data) (zlen data)) then inl ERR_BUF_COPY
  else inr (PayloadHead_bytes payloadHead ++ s ++ data).

(** ** Receiving *)

Record IoSession (W : Type) := mkIo {
  ioBuf : bytes; bufSize : Z; availTailIndex : Z; dataRecvBytes : Z; world : W
}.
Arguments mkIo {W}. Arguments ioBuf {W}. Arguments bufSize {W}. Arguments availTailIndex {W}.
Arguments dataRecvBytes {W}. Arguments world {W}.

(** The buffer is allocated on first use; its initial content is arbitrary
    ([fresh]). *)
Definition ReallocBuf (fresh : Z -> bytes) (origBuf : bytes) (nOrigSize sizeWanted : Z) : bytes * Z :=
  if 0 <? nOrigSize then (origBuf, nOrigSize)
  else if (sizeWanted <=? 0) || (HDC_BUF_MAX_BYTES <=? sizeWanted) then (origBuf, nOrigSize)
  else (fresh sizeWanted, sizeWanted).

(** The offset in [ioBuf] and the length libuv may fill. *)
Definition AllocCallback {W} (fresh : Z -> bytes) (sizeWanted : Z) (s : IoSession W)
    : Z * Z * IoSession W :=
  let '(b, n) := ReallocBuf fresh (ioBuf s) (bufSize s) HDC_SOCKETPAIR_SIZE in
  (availTailIndex s, Z.min (n - availTailIndex s) sizeWanted,
   mkIo b n (availTailIndex s) (dataRecvBytes s) (world s)).

Section Receive.
Context {W : Type} `{CommandSink W}.

Definition DecryptPayload (w : W) (head : PayloadHead) (encBuf : bytes) : option (Z * W * list Command) :=
  encString ← slice 0 (headSize head) encBuf;
  let '(ok, protectBuf) := ParseFromString PayloadProtect_type PayloadProtect_zero encString in
  if negb ok then Some (ERR_BUF_CHECK, w, [])
  else if negb (pp_vCode protectBuf =? payloadProtectStaticVcode) then Some (ERR_BUF_CHECK, w, [])
  else
    data ← slice (headSize head) (dataSize head) encBuf;
    if ENABLE_IO_CHECKSUM && negb (pp_checkSum protectBuf =? 0)
       && negb (pp_checkSum protectBuf =? CalcCheckSum data) then Some (ERR_BUF_CHECK, w, [])
    else
      let command := u16 (pp_commandFlag protectBuf) in
      let '(w', ok) := FetchCommand w (pp_channelId protectBuf) command data in
      Some (if ok then RET_SUCCESS else ERR_GENERIC, w', [mkCommand (pp_channelId protectBuf) command data]).

Definition OnRead (w : W) (bufPtr : bytes) (bufLen : Z) : option (Z * W * list Command) :=
  f ← slice 0 (zlen PACKET_FLAG) bufPtr;
  if negb (bytes_eqb f PACKET_FLAG) then Some (ERR_BUF_CHECK, w, [])
  else
    head ← PayloadHead_at bufPtr;
    let payloadHeadSize := u64 (dataSize head + headSize head) in
    if (payloadHeadSize =? 0) || (HDC_BUF_MAX_BYTES <? payloadHeadSize) then Some (ERR_BUF_CHECK, w, [])
    else
      let tobeReadLen := payloadHeadSize in
      if bufLen - sizeof_PayloadHead <? tobeReadLen then Some (0, w, [])
      else
        '(r, w', tr) ← DecryptPayload w head (zdrop sizeof_PayloadHead bufPtr);
        if negb (r =? 0) then Some (ERR_BUF_CHECK, w', tr)
        else Some (sizeof_PayloadHead + tobeReadLen, w', tr).

(** The [while] of [FetchIOBuf]; [mem] is [ioBuf] up to [bufSize].  [None] is
    an out-of-bounds access or missing fuel. *)
Fixpoint FetchIOBuf_loop (fuel : nat) (mem : bytes) (indexBuf avail : Z) (w : W) (tr : list Command)
    : option (Z * Z * W * list Command) :=
  match fuel with
  | O => None
  | S fuel =>
      if negb (isDead w) && (sizeof_PayloadHead <? avail) then
        '(childRet, w', tr') ← OnRead w (zdrop indexBuf mem) avail;
        if 0 <? childRet then
          FetchIOBuf_loop fuel mem (indexBuf + childRet) (avail - childRet) w' (tr ++ tr')
        else if childRet =? 0 then Some (indexBuf, avail, w', tr ++ tr')
        else Some (ERR_BUF_SIZE, 0, w', tr ++ tr')
      else Some (indexBuf, avail, w, tr)
  end.

(** After the loop: what is left moves to the front and the rest is zeroed. *)
Definition FetchIOBuf_compact (s : IoSession W) (indexBuf avail recv : Z) (w' : W)
    : option (Z * IoSession W) :=
  if (0 <? indexBuf) && (0 <? avail) then
    if negb (memcpy_ok (bufSize s) avail) then
      Some (ERR_BUF_COPY, mkIo (ioBuf s) (bufSize s) avail recv w')
    else
      keep ← slice indexBuf avail (ioBuf s);
      Some (indexBuf, mkIo (keep ++ replicate (Z.to_nat (bufSize s - avail)) 0) (bufSize s) avail recv w')
  else Some (indexBuf, mkIo (ioBuf s) (bufSize s) avail recv w').

(** [host] selects the build without the keep-alive timeout; [now] is the
    monotonic clock. *)
Definition FetchIOBuf (host : bool) (now : Z) (s : IoSession W) (read : Z)
    : option (Z * IoSession W * list Command) :=
  if read <? 0 then Some (ERR_IO_FAIL, s, [])
  else
    let '(hbOk, w) :=
      if GetSupportHeartbeat (heartbeat (world s)) then
        let '(ok, h') := HandleMessageCount host now (heartbeat (world s)) in
        (ok, set_heartbeat h' (world s))
      else (true, world s) in
    if negb hbOk then
      Some (ERR_IO_FAIL, mkIo (ioBuf s) (bufSize s) (availTailIndex s) (dataRecvBytes s) (FreeSession w), [])
    else
      let recv := u64 (dataRecvBytes s + read) in
      let avail0 := availTailIndex s + read in
      '(indexBuf, avail, w', tr) ← FetchIOBuf_loop (S (Z.to_nat avail0)) (ioBuf s) 0 avail0 w [];
      '(ret, s') ← FetchIOBuf_compact s indexBuf avail recv w';
      Some (ret, s', tr).

(** One round of the event loop on a readable stream: libuv asks for a buffer,
    reads at most [want] bytes of what the peer sent into it and reports their
    number to [ReadStream], which calls [FetchIOBuf]. *)
Definition ReadRound (fresh : Z -> bytes) (host : bool) (now want : Z) (stream : bytes) (s : IoSession W)
    : option (Z * IoSession W * list Command * bytes) :=
  let '(off, len, s1) := AllocCallback fresh want s in
  let n := Z.min len (zlen stream) in
  let s2 := mkIo (ztake off (ioBuf s1) ++ ztake n stream ++ zdrop (off + n) (ioBuf s1))
              (bufSize s1) (availTailIndex s1) (dataRecvBytes s1) (world s1) in
  '(ret, s3, tr) ← FetchIOBuf host now s2 n;
  Some (ret, s3, tr, zdrop n stream).

(** Rounds at the given times and sizes, until the stream or the rounds are used
    up or one reports an error. *)
Fixpoint ReadRounds (fresh : Z -> bytes) (host : bool) (rounds : list (Z * Z)) (stream : bytes)
    (s : IoSession W) : option (Z * IoSession W * list Command * bytes) :=
  match rounds with
  | [] => Some (0, s, [], stream)
  | (now, want) :: rounds =>
      '(ret, s1, tr, rest) ← ReadRound fresh host now want stream s;
      if ret <? 0 then Some (ret, s1, tr, rest)
      else
        '(ret', s2, tr', rest') ← ReadRounds fresh host rounds rest s1;
        Some (ret', s2, tr ++ tr', rest')
  end.
End Receive.

(** ** Facts about slices and headers *)

Lemma slice_Some off n buf :
  0 <= off -> 0 <= n -> off + n <= zlen buf -> slice off n buf = Some (ztake n (zdrop off buf)).
Proof.
  intros. unfold slice. by rewrite (proj2 (Z.leb_le 0 off)), (proj2 (Z.leb_le 0 n)), (proj2 (Z.leb_le _ _)) by lia.
Qed.

Lemma slice_mid (a b c : bytes) off n :
  off = zlen a -> n = zlen b -> slice off n (a ++ b ++ c) = Some b.
Proof.
  intros -> ->. rewrite slice_Some by (rewrite ?length_app; lia).
  by rewrite zdrop_app, ztake_app by lia.
Qed.

Lemma slice_prefix (a b : bytes) n : n = zlen a -> slice 0 n (a ++ b) = Some a.
Proof. exact (slice_mid [] a b 0 n eq_refl). Qed.

Definition PayloadHead_wf (h : PayloadHead) : Prop :=
  zlen (flag h) = 2 /\ zlen (reserve h) = 2 /\ 0 <= protocolVer h < 2 ^ 8 /\
  in_u 16 (headSize h) /\ in_u 32 (dataSize h).

Lemma length_PayloadHead_bytes h : PayloadHead_wf h -> zlen (PayloadHead_bytes h) = sizeof_PayloadHead.
Proof.
  intros (? & ? & _). unfold PayloadHead_bytes, sizeof_PayloadHead.
  rewrite !length_app, !length_be_split. simpl length. lia.
Qed.

(** Reading the header of a frame back. *)
Lemma PayloadHead_at_bytes h rest :
  PayloadHead_wf h -> PayloadHead_at (PayloadHead_bytes h ++ rest) = Some h.
Proof.
  intros Hwf. pose proof (length_PayloadHead_bytes h Hwf) as Hl.
  unfold PayloadHead_at. rewrite slice_prefix by done. cbn [mbind option_bind].
  destruct Hwf as (Hf & Hr & Hp & Hh & Hd). destruct h as [f r p hs ds].
  cbn [flag reserve protocolVer headSize dataSize] in Hf, Hr, Hp, Hh, Hd.
  unfold PayloadHead_bytes; cbn [flag reserve protocolVer headSize dataSize].
  rewrite ztake_app by lia.
  rewrite (zdrop_app f) by lia. rewrite ztake_app by lia.
  rewrite (app_assoc f), (zdrop_app (f ++ r)) by (rewrite length_app; lia).
  rewrite (ztake_app [p]) by done.
  rewrite (app_assoc (f ++ r)), (zdrop_app ((f ++ r) ++ [p])) by (rewrite !length_app; simpl; lia).
  rewrite (ztake_app (be_split 2 hs)) by (by rewrite length_be_split).
  rewrite (app_assoc ((f ++ r) ++ [p])), (zdrop_app (((f ++ r) ++ [p]) ++ be_split 2 hs))
    by (rewrite !length_app, length_be_split; simpl; lia).
  rewrite (ztake_ge (be_split 4 ds)) by (rewrite length_be_split; lia).
  rewrite !be_combine_split. unfold be_combine. simpl le_combine.
  unfold in_u in *. rewrite !Z.mod_small by (simpl; lia). do 2 f_equal. lia.
Qed.

(** ** Frames *)

(** The commands a frame can carry: [uint32_t] channel, [uint16_t] command and a
    payload that [OnRead] accepts. *)
Definition Command_wf (c : Command) : Prop :=
  in_u 32 (cmd_channelId c) /\ in_u 16 (cmd_command c) /\ wf_bytes (cmd_payload c) /\
  zlen (cmd_payload c) <= HDC_BUF_MAX_BYTES - 64.

Definition Command_head (c : Command) : bytes :=
  SerializeToString PayloadProtect_type (protect_of (cmd_channelId c) (cmd_command c) (cmd_payload c)).

Definition Command_header (c : Command) : PayloadHead :=
  mkPayloadHead PACKET_FLAG [0; 0] VER_PROTOCOL (zlen (Command_head c)) (zlen (cmd_payload c)).

Definition frame (c : Command) : bytes :=
  PayloadHead_bytes (Command_header c) ++ Command_head c ++ cmd_payload c.

Section Frames.
Variable c : Command.
Hypothesis Hc : Command_wf c.

Lemma protect_wf : PayloadProtect_wf (protect_of (cmd_channelId c) (cmd_command c) (cmd_payload c)).
Proof.
  destruct Hc as (H1 & H2 & _). unfold PayloadProtect_wf, protect_of, ENABLE_IO_CHECKSUM. cbn.
  repeat split; try apply H1; try (apply (in_u_mono 16 32); [lia|exact H2]); unfold in_u, payloadProtectStaticVcode; lia.
Qed.

Lemma Command_head_bound : 0 < zlen (Command_head c) <= 40.
Proof.
  unfold Command_head.
  destruct (message_roundtrip _ _ _ PayloadProtect_zero PayloadProtect_ok (PayloadProtect_dom _ protect_wf)) as [-> _].
  unfold msg_enc, PayloadProtect_specs. cbn [map concat fs_enc field_spec_of].
  rewrite !length_app. unfold tag_bytes.
  assert (Hv : forall v, 0 < zlen (varint 5 v) <= 5).
  { intros v. split; [apply varint_nonempty; lia|apply (varint_length_le 5)]. }
  repeat match goal with |- context [length (varint _ ?v)] =>
    generalize (Hv v); generalize (length (varint 5 v)); intros ? ? end.
  simpl length. lia.
Qed.

Lemma Command_header_wf : PayloadHead_wf (Command_header c).
Proof.
  destruct Hc as (_ & _ & _ & Hp). pose proof Command_head_bound. unfold HDC_BUF_MAX_BYTES in Hp.
  unfold PayloadHead_wf, Command_header, in_u, VER_PROTOCOL.
  cbn [flag reserve protocolVer headSize dataSize]. repeat split; try done; lia.
Qed.

Lemma length_frame : zlen (frame c) = sizeof_PayloadHead + zlen (Command_head c) + zlen (cmd_payload c).
Proof. unfold frame. rewrite !length_app, !Nat2Z.inj_add, length_PayloadHead_bytes by apply Command_header_wf. lia. Qed.

Lemma BuildFrame_frame : BuildFrame (cmd_channelId c) (cmd_command c) (cmd_payload c) = inr (frame c).
Proof.
  destruct Hc as (_ & _ & _ & Hp). pose proof Command_head_bound as Hb. unfold HDC_BUF_MAX_BYTES in Hp.
  unfold BuildFrame. fold (Command_head c).
  assert (Hm : forall n, 0 < n <= RSIZE_MAX -> memcpy_ok n n = true).
  { intros n Hn. unfold memcpy_ok. rewrite !andb_true_iff, Z.ltb_lt, !Z.leb_le. lia. }
  unfold RSIZE_MAX in Hm. rewrite !Hm by (unfold sizeof_PayloadHead; lia). cbn [negb].
  assert ((0 <? zlen (cmd_payload c)) && negb (memcpy_ok (zlen (cmd_payload c)) (zlen (cmd_payload c))) = false) as ->.
  { destruct (0 <? zlen (cmd_payload c)) eqn:E; [|done]. breflect. by rewrite Hm by lia. }
  unfold frame, Command_header. rewrite !uwrap_small by (unfold in_u; lia). done.
Qed.

Lemma frame_wf : wf_bytes (frame c).
Proof.
  destruct Hc as (H1 & H2 & H3 & _). unfold frame, PayloadHead_bytes, Command_header.
  cbn [flag reserve protocolVer headSize dataSize]. unfold VER_PROTOCOL.
  rewrite !Forall_app. repeat split; auto with hdc; [repeat constructor; lia..|].
  unfold Command_head.
  destruct (message_roundtrip _ _ _ PayloadProtect_zero PayloadProtect_ok (PayloadProtect_dom _ protect_wf)) as [-> _].
  destruct protect_wf as (? & ? & ? & ?). unfold in_u in *.
  unfold msg_enc, PayloadProtect_specs. cbn [map concat fs_enc field_spec_of]. unfold tag_bytes.
  rewrite !Forall_app. repeat split; try (apply varint_wf; unfold VARINT; lia). constructor.
Qed.

Lemma slice_flag rest :
  slice 0 (zlen PACKET_FLAG) (PayloadHead_bytes (Command_header c) ++ rest) = Some PACKET_FLAG.
Proof. unfold PayloadHead_bytes. rewrite <- app_assoc. by apply slice_prefix. Qed.

Section Reading.
Context {W : Type} `{CommandSink W}.

(** A complete frame is delivered, whatever follows it in the buffer. *)
Lemma OnRead_frame w rest bufLen : zlen (frame c) <= bufLen ->
  let '(w', ok) := FetchCommand w (cmd_channelId c) (cmd_command c) (cmd_payload c) in
  OnRead w (frame c ++ rest) bufLen = Some (if ok then zlen (frame c) else ERR_BUF_CHECK, w', [c]).
Proof.
  intros Hlen. rewrite length_frame in *. destruct Hc as (_ & Hcmd & _ & Hp).
  pose proof Command_head_bound as Hb. unfold HDC_BUF_MAX_BYTES in Hp.
  unfold OnRead, frame. rewrite <- app_assoc.
  rewrite slice_flag. cbn [mbind option_bind]. unfold bytes_eqb. rewrite bool_decide_true by done. cbn [negb].
  rewrite PayloadHead_at_bytes by apply Command_header_wf. cbn [mbind option_bind Command_header headSize dataSize].
  rewrite uwrap_small by (unfold in_u; lia).
  rewrite (proj2 (Z.eqb_neq _ 0)), (proj2 (Z.ltb_ge HDC_BUF_MAX_BYTES _)) by (unfold HDC_BUF_MAX_BYTES; lia).
  cbn [orb]. rewrite (proj2 (Z.ltb_ge _ _)) by lia.
  rewrite zdrop_app by (symmetry; apply length_PayloadHead_bytes, Command_header_wf).
  unfold DecryptPayload. cbn [headSize dataSize]. rewrite <- app_assoc, slice_prefix by done. cbn [mbind option_bind].
  unfold Command_head at 1. rewrite (PayloadProtect_rt _ _ protect_wf). cbn [negb protect_of pp_vCode pp_checkSum pp_commandFlag pp_channelId].
  rewrite Z.eqb_refl. cbn [negb]. rewrite slice_mid by done. cbn [mbind option_bind andb ENABLE_IO_CHECKSUM].
  rewrite (uwrap_small 16) by exact Hcmd.
  assert (mkCommand (cmd_channelId c) (cmd_command c) (cmd_payload c) = c) as -> by (by destruct c).
  destruct (FetchCommand _ _ _ _) as [w' []]; cbn [mbind option_bind]; [|done].
  change (RET_SUCCESS =? 0) with true. cbn [negb].
  by rewrite (Z.add_comm (zlen (cmd_payload c))), Z.add_assoc.
Qed.

(** An incomplete frame is left alone, whatever the rest of the buffer holds. *)
Lemma OnRead_partial w p q rest : p ++ q = frame c -> sizeof_PayloadHead < zlen p -> q <> [] ->
  OnRead w (p ++ rest) (zlen p) = Some (0, w, []).
Proof.
  intros Hpq Hp Hq. pose proof length_frame as Hl. rewrite <- Hpq, length_app in Hl.
  destruct Hc as (_ & Hcmd & _ & Hpay). pose proof Command_head_bound as Hb. unfold HDC_BUF_MAX_BYTES in Hpay.
  assert (0 < zlen q) by (destruct q; [done|simpl; lia]).
  assert (exists p', p = PayloadHead_bytes (Command_header c) ++ p') as [p' ->].
  { unfold frame in Hpq. pose proof (length_PayloadHead_bytes _ Command_header_wf) as Hh.
    exists (zdrop sizeof_PayloadHead p).
    rewrite <- (ztake_zdrop sizeof_PayloadHead p) at 1. f_equal.
    rewrite <- (ztake_app (PayloadHead_bytes (Command_header c)) (Command_head c ++ cmd_payload c) sizeof_PayloadHead) by lia.
    rewrite <- Hpq. unfold ztake. by rewrite take_app_le by lia. }
  unfold OnRead. rewrite <- app_assoc.
  rewrite slice_flag. cbn [mbind option_bind]. unfold bytes_eqb. rewrite bool_decide_true by done. cbn [negb].
  rewrite PayloadHead_at_bytes by apply Command_header_wf. cbn [mbind option_bind Command_header headSize dataSize].
  rewrite uwrap_small by (unfold in_u; lia).
  rewrite (proj2 (Z.eqb_neq _ 0)), (proj2 (Z.ltb_ge HDC_BUF_MAX_BYTES _)) by (unfold HDC_BUF_MAX_BYTES; lia).
  cbn [orb]. rewrite (proj2 (Z.ltb_lt _ _)) by lia. done.
Qed.
End Reading.
End Frames.

(** ** Safety of the receive path on arbitrary bytes *)

Section Safety.
Context {W : Type} `{CommandSink W}.

Lemma OnRead_safe (w : W) buf n : wf_bytes buf -> sizeof_PayloadHead < n <= zlen buf ->
  exists r w' tr, OnRead w buf n = Some (r, w', tr) /\ r <= n /\ (0 < r -> sizeof_PayloadHead < r).
Proof.
  intros Hwf Hn. unfold sizeof_PayloadHead in Hn. unfold OnRead.
  change (zlen PACKET_FLAG) with 2. rewrite slice_Some by lia. cbn [mbind option_bind].
  case_if_goal; [do 3 eexists; split; [done|unfold ERR_BUF_CHECK; lia]|].
  unfold PayloadHead_at. rewrite slice_Some by (unfold sizeof_PayloadHead; lia). cbn [mbind option_bind headSize dataSize].
  set (b := ztake sizeof_PayloadHead (zdrop 0 buf)).
  assert (Hb : wf_bytes b) by (apply wf_ztake, wf_zdrop, Hwf).
  assert (Hlen : zlen b = 11) by (unfold b; rewrite length_ztake; unfold sizeof_PayloadHead; rewrite ?zdrop_0; lia).
  pose proof (be_combine_bound (ztake 2 (zdrop 5 b)) ltac:(auto with hdc)) as H1.
  pose proof (be_combine_bound (ztake 4 (zdrop 7 b)) ltac:(auto with hdc)) as H2.
  rewrite length_ztake in H1, H2 by (rewrite length_zdrop; lia).
  set (hs := be_combine (ztake 2 (zdrop 5 b))) in *. set (ds := be_combine (ztake 4 (zdrop 7 b))) in *.
  rewrite uwrap_small by (unfold in_u; lia).
  case_if_goal; [do 3 eexists; split; [done|unfold ERR_BUF_CHECK; lia]|].
  case_if_goal; [do 3 eexists; split; [done|lia]|]. breflect. unfold sizeof_PayloadHead in *.
  unfold DecryptPayload. cbn [headSize dataSize].
  rewrite !slice_Some by (rewrite ?length_zdrop; lia). cbn [mbind option_bind].
  match goal with |- context [ParseFromString ?a ?b ?c] => destruct (ParseFromString a b c) as [ok protectBuf] end.
  case_if_goal; [do 3 eexists; split; [done|unfold ERR_BUF_CHECK; cbn; lia]|].
  case_if_goal; [do 3 eexists; split; [done|unfold ERR_BUF_CHECK; cbn; lia]|].
  cbn [andb ENABLE_IO_CHECKSUM].
  match goal with |- context [FetchCommand ?a ?b ?c ?d] => destruct (FetchCommand a b c d) as [w' ok'] end.
  cbn [mbind option_bind].
  case_if_goal; (do 3 eexists; split; [done|unfold ERR_BUF_CHECK; lia]).
Qed.

Lemma FetchIOBuf_loop_safe fuel mem idx avail (w : W) tr :
  wf_bytes mem -> 0 <= idx -> 0 <= avail -> idx + avail <= zlen mem -> (Z.to_nat avail < fuel)%nat ->
  exists idx' avail' w' tr', FetchIOBuf_loop fuel mem idx avail w tr = Some (idx', avail', w', tr') /\
    (idx' = ERR_BUF_SIZE /\ avail' = 0 \/ idx <= idx' /\ 0 <= avail' /\ idx' + avail' = idx + avail).
Proof.
  intros Hmem. revert idx avail w tr. induction fuel as [|fuel IH]; intros idx avail w tr Hi Ha Hle Hf; [lia|].
  cbn [FetchIOBuf_loop]. case_if_goal; [|do 4 eexists; split; [done|right; lia]]. breflect.
  destruct (OnRead_safe w (zdrop idx mem) avail) as (r & w' & tr' & -> & Hr & Hpos);
    [auto with hdc|rewrite length_zdrop; lia|].
  cbn [mbind option_bind]. unfold sizeof_PayloadHead in *. case_if_goal; breflect.
  - destruct (IH (idx + r) (avail - r) w' (tr ++ tr')) as (i & a & w2 & t2 & -> & Hc); try lia.
    do 4 eexists; split; [done|]. destruct Hc as [Hc|Hc]; [left; exact Hc|right; lia].
  - case_if_goal; (do 4 eexists; split; [done|]); [right; lia|by left].
Qed.

Definition io_wf (s : IoSession W) : Prop :=
  wf_bytes (ioBuf s) /\ zlen (ioBuf s) = bufSize s /\ 0 <= availTailIndex s <= bufSize s /\ bufSize s <= RSIZE_MAX.

(** The received bytes that are not consumed yet. *)
Definition unread (s : IoSession W) : bytes := ztake (availTailIndex s) (ioBuf s).

Lemma compact_unread mem idx avail size :
  zlen mem = size -> 0 <= idx -> 0 <= avail -> idx + avail <= size ->
  ztake avail (ztake avail (zdrop idx mem) ++ replicate (Z.to_nat (size - avail)) 0)
  = zdrop idx (ztake (idx + avail) mem).
Proof.
  intros. rewrite ztake_app by (rewrite length_ztake; rewrite ?length_zdrop; lia).
  unfold ztake, zdrop. rewrite Z2Nat.inj_add, take_drop_commute by lia. done.
Qed.

(** Compaction keeps exactly the unconsumed bytes. *)
Lemma FetchIOBuf_compact_ok s i a n recv w' :
  io_wf s -> 0 <= i -> 0 <= a -> i + a = n -> n <= bufSize s ->
  exists s', FetchIOBuf_compact s i a recv w' = Some (i, s') /\ io_wf s' /\
    bufSize s' = bufSize s /\ world s' = w' /\ availTailIndex s' = a /\
    unread s' = zdrop i (ztake n (ioBuf s)).
Proof.
  intros (Hb & Hlen & Ha & Hmax) Hi Ha' Hs Hn. unfold FetchIOBuf_compact. case_if_goal; breflect.
  - assert (memcpy_ok (bufSize s) a = true) as ->.
    { unfold memcpy_ok, RSIZE_MAX in *. rewrite !andb_true_iff, Z.ltb_lt, !Z.leb_le. lia. }
    cbn [negb]. rewrite slice_Some by lia. cbn [mbind option_bind].
    assert (zlen (ztake a (zdrop i (ioBuf s))) = a) by (rewrite length_ztake; rewrite ?length_zdrop; lia).
    eexists; split; [done|]. split_and!; try done.
    + repeat split; cbn [ioBuf bufSize availTailIndex]; try lia.
      * apply Forall_app_2; [auto with hdc|]. apply Forall_replicate. unfold in_u. lia.
      * rewrite length_app, length_replicate. lia.
    + unfold unread; cbn [ioBuf availTailIndex]. rewrite <- Hs. apply compact_unread; lia.
  - eexists; split; [done|]. split_and!; try done; [repeat split; auto; cbn; lia|].
    unfold unread; cbn [ioBuf availTailIndex]. apply andb_false_iff in E as [E|E]; breflect.
    + replace i with 0 by lia. rewrite zdrop_0. f_equal. lia.
    + replace a with 0 by lia. by rewrite zdrop_ge by (rewrite length_ztake; lia).
Qed.
End Safety.
