(* ===== verification/PacketProps.v ===== *)
(** * PacketProps: the theorems about session framing

    [fetch_iobuf_safe] covers arbitrary, possibly hostile input;
    [stream_reassembly] says that what one side sends arrives, whatever the
    sizes in which the transport delivers it. *)

From Stdlib Require Import String ZArith Lia List Bool.
From stdpp Require Import base list numbers option.
From S2P Require Import Prelude Defs Serial SerialFacts Messages Heartbeat Packet.

(** C19. Whatever bytes a peer sends, [FetchIOBuf] terminates and touches only
    bytes that were received: no read outside the buffer, the buffer state stays
    well formed, a non-negative result is exactly the number of bytes consumed
    and the unconsumed bytes are kept in order at the front of the buffer; an
    error discards the input ([ERR_BUF_SIZE]) or leaves it untouched
    ([ERR_IO_FAIL], keep-alive timeout). *)
Theorem fetch_iobuf_safe {W} `{CommandSink W} (host : bool) (now read : Z) (s : IoSession W) :
  io_wf s -> 0 <= read <= bufSize s - availTailIndex s ->
  exists ret s' tr, FetchIOBuf host now s read = Some (ret, s', tr) /\ io_wf s' /\
    ((0 <= ret /\ unread s' = zdrop ret (ztake (availTailIndex s + read) (ioBuf s))) \/
     (ret = ERR_BUF_SIZE /\ availTailIndex s' = 0) \/
     (ret = ERR_IO_FAIL /\ unread s' = unread s)).
Proof.
  intros (Hb & Hlen & Ha & Hmax) Hr. unfold FetchIOBuf.
  rewrite (proj2 (Z.ltb_ge read 0)) by lia.
  destruct (if GetSupportHeartbeat _ then _ else _) as [ok w].
  destruct ok; cbn [negb]; [|do 3 eexists; split; [done|]; split; [repeat split; auto; cbn; lia|by right; right]].
  destruct (FetchIOBuf_loop_safe (S (Z.to_nat (availTailIndex s + read))) (ioBuf s) 0
              (availTailIndex s + read) w []) as (i & a & w' & tr & -> & Hc); try lia; [done|].
  cbn [mbind option_bind]. destruct Hc as [[-> ->]|(Hi & Ha' & Hs)].
  { cbn. do 3 eexists; split; [done|]. split; [repeat split; auto; cbn; lia|]. by right; left. }
  destruct (FetchIOBuf_compact_ok s i a (availTailIndex s + read) (u64 (dataRecvBytes s + read)) w')
    as (s' & -> & Hwf & _ & _ & _ & Hu); [by repeat split; auto; lia|lia..|].
  cbn [mbind option_bind]. do 3 eexists; split; [done|]. split; [exact Hwf|left; split; [lia|exact Hu]].
Qed.

(** A session whose handlers always answer [ok]. *)
Definition sink_of (ok : bool) : CommandSink (HdcHeartbeat * bool) := {|
  isDead := fun w => w.2;
  heartbeat := fun w => w.1;
  set_heartbeat := fun h w => (h, w.2);
  FreeSession := fun w => (w.1, true);
  FetchCommand := fun w _ _ _ => (w, ok)
|}.
Definition live_world : HdcHeartbeat * bool := (HdcHeartbeat_new 0, false).

Lemma fetch_iobuf_safe_witness :
  exists ret s' tr, FetchIOBuf (H := sink_of true) false 1
    (mkIo (str "HW" ++ replicate 30 255) 32 0 0 live_world) 32 = Some (ret, s', tr) /\ ret = ERR_BUF_SIZE.
Proof.
  set (s0 := mkIo (str "HW" ++ replicate 30 255) 32 0 0 live_world).
  destruct (@fetch_iobuf_safe _ (sink_of true) false 1 32 s0) as (ret & s' & tr & E & _ & _).
  - repeat split; try (vm_compute; congruence). apply (bool_decide_unpack _). vm_compute. exact I.
  - vm_compute. split; discriminate.
  - exists ret, s', tr. split; [exact E|]. vm_compute in E. injection E as <- _ _. reflexivity.
Defined.

(** ** Reassembly *)

Abbreviation frames cs := (concat (map frame cs)).

Section Reassembly.
Context {W : Type} {SK : CommandSink W}.
Context (host : bool) (fresh : Z -> bytes) (Good : W -> Prop).
(** [new uint8_t[n]] yields [n] bytes. *)
Hypothesis fresh_ok : forall n, 0 <= n -> zlen (fresh n) = n /\ wf_bytes (fresh n).
(** The handlers keep the session alive and accept what they are given. *)
Hypothesis good_alive : forall w, Good w -> isDead w = false.
Hypothesis good_fetch : forall w ch cmd p, Good w ->
  (FetchCommand w ch cmd p).2 = true /\ Good (FetchCommand w ch cmd p).1.
(** No keep-alive timeout. *)
Hypothesis good_heartbeat : forall w now, Good w -> supportHeartbeat (heartbeat w) = true ->
  (HandleMessageCount host now (heartbeat w)).1 = true /\
  Good (set_heartbeat (HandleMessageCount host now (heartbeat w)).2 w).

(** The loop delivers the complete frames at [idx] and stops at the partial one. *)
Lemma FetchIOBuf_loop_frames cs1 : forall fuel mem idx p junk w tr,
  Forall Command_wf cs1 ->
  (p <> [] -> exists c q, Command_wf c /\ p ++ q = frame c /\ q <> []) ->
  Good w -> 0 <= idx -> zdrop idx mem = frames cs1 ++ p ++ junk -> (length cs1 < fuel)%nat ->
  exists w', Good w' /\
    FetchIOBuf_loop fuel mem idx (zlen (frames cs1) + zlen p) w tr
    = Some (idx + zlen (frames cs1), zlen p, w', tr ++ cs1).
Proof.
  induction cs1 as [|c cs1 IH]; intros fuel mem idx p junk w tr Hcs Hp Hw Hi Hm Hf;
    (destruct fuel as [|fuel]; [simpl in Hf; lia|]); cbn [FetchIOBuf_loop map concat];
    rewrite (good_alive w Hw); cbn [negb andb].
  - exists w. split; [done|]. cbn [length] in *. rewrite app_nil_r.
    change (Z.of_nat 0) with 0. rewrite !Z.add_0_l, Z.add_0_r.
    destruct (sizeof_PayloadHead <? zlen p) eqn:E; [|done]. breflect.
    destruct Hp as (c & q & Hc & Hpq & Hq).
    { intros ->. cbn in E. unfold sizeof_PayloadHead in E. lia. }
    rewrite Hm. cbn [map concat app]. rewrite (OnRead_partial c Hc w p q junk Hpq E Hq).
    cbn [mbind option_bind]. cbn. by rewrite app_nil_r.
  - apply List.Forall_cons_iff in Hcs as [Hc Hcs]. rewrite length_app.
    pose proof (length_frame c Hc). pose proof (Command_head_bound c Hc).
    unfold sizeof_PayloadHead in *.
    rewrite (proj2 (Z.ltb_lt 11 _)) by lia.
    cbn [map concat] in Hm. rewrite <- app_assoc in Hm. rewrite Hm.
    pose proof (OnRead_frame c Hc w (frames cs1 ++ p ++ junk)
      (Z.of_nat (length (frame c) + length (frames cs1)) + zlen p) ltac:(lia)) as Hread.
    destruct (good_fetch w (cmd_channelId c) (cmd_command c) (cmd_payload c) Hw) as [Hok Hw'].
    destruct (FetchCommand _ _ _ _) as [w' ok]. cbn in Hok, Hw'. subst ok.
    rewrite Hread. cbn [mbind option_bind]. rewrite (proj2 (Z.ltb_lt 0 _)) by lia.
    destruct (IH fuel mem (idx + zlen (frame c)) p junk w' (tr ++ [c])) as (w2 & Hg & He);
      auto; [lia| |simpl in Hf; lia|].
    { rewrite <- zdrop_zdrop by lia. rewrite Hm. by rewrite zdrop_app by done. }
    exists w2. split; [done|].
    replace (Z.of_nat (length (frame c) + length (frames cs1)) + zlen p - zlen (frame c))
      with (zlen (frames cs1) + zlen p) by lia.
    rewrite He, <- app_assoc, Nat2Z.inj_add, Z.add_assoc. done.
Qed.

(** What holds between two rounds: [cs] is what the peer has still to see
    delivered, the first bytes of it are buffered and the rest is under way. *)
Record pending (s : IoSession W) (stream : bytes) (cs : list Command) : Prop := {
  pd_wf : io_wf s;
  pd_size : bufSize s = 0 \/ bufSize s = HDC_SOCKETPAIR_SIZE;
  pd_good : Good (world s);
  pd_cmds : Forall Command_wf cs;
  pd_fit : Forall (fun c => zlen (frame c) <= HDC_SOCKETPAIR_SIZE) cs;
  pd_bytes : unread s ++ stream = frames cs;
  pd_part : unread s <> [] -> exists c q, List.In c cs /\ unread s ++ q = frame c /\ q <> []
}.

Lemma frames_wf cs : Forall Command_wf cs -> wf_bytes (frames cs).
Proof.
  induction 1 as [|c cs Hc _ IH]; cbn [map concat]; [constructor|].
  apply Forall_app_2; [by apply frame_wf|exact IH].
Qed.

(** The bytes in the buffer after libuv stored [chunk] behind the unread ones. *)
Lemma unread_fill (b chunk : bytes) avail : 0 <= avail -> avail + zlen chunk <= zlen b ->
  ztake (avail + zlen chunk) (ztake avail b ++ chunk ++ zdrop (avail + zlen chunk) b)
  = ztake avail b ++ chunk /\
  zlen (ztake avail b ++ chunk ++ zdrop (avail + zlen chunk) b) = zlen b.
Proof.
  intros. assert (zlen (ztake avail b) = avail) by (rewrite length_ztake; lia). split.
  - rewrite app_assoc. apply ztake_app. rewrite length_app. lia.
  - rewrite !length_app, !Nat2Z.inj_add. rewrite length_zdrop; lia.
Qed.

(** [FetchIOBuf] on a buffer of complete frames and a partial one. *)
Lemma FetchIOBuf_frames now s read cs1 p :
  io_wf s -> 0 <= read <= bufSize s - availTailIndex s -> Good (world s) ->
  ztake (availTailIndex s + read) (ioBuf s) = frames cs1 ++ p ->
  Forall Command_wf cs1 ->
  (p <> [] -> exists c q, Command_wf c /\ p ++ q = frame c /\ q <> []) ->
  exists s', FetchIOBuf host now s read = Some (zlen (frames cs1), s', cs1) /\ io_wf s' /\
    bufSize s' = bufSize s /\ Good (world s') /\ unread s' = p.
Proof.
  intros Hwf Hr Hg Hx Hcs Hp. pose proof Hwf as (Hb & Hlen & Ha & Hmax).
  assert (Hn : zlen (frames cs1) + zlen p = availTailIndex s + read)
    by (rewrite <- Nat2Z.inj_add, <- length_app, <- Hx, length_ztake; lia).
  assert (exists w, Good w /\ (if GetSupportHeartbeat (heartbeat (world s)) then
        let '(ok, h') := HandleMessageCount host now (heartbeat (world s)) in
        (ok, set_heartbeat h' (world s)) else (true, world s)) = (true, w)) as (w & Hw & Hhb).
  { unfold GetSupportHeartbeat. destruct (supportHeartbeat _) eqn:E; [|by exists (world s)].
    destruct (good_heartbeat (world s) now Hg E) as [Hok Hg'].
    destruct (HandleMessageCount _ _ _) as [ok h']. cbn in Hok, Hg'. subst ok. by eexists. }
  unfold FetchIOBuf. rewrite (proj2 (Z.ltb_ge read 0)) by lia. rewrite Hhb. cbn [negb].
  assert (Hcnt : (length cs1 <= Z.to_nat (availTailIndex s + read))%nat).
  { assert (zlen cs1 <= zlen (frames cs1)); [|lia]. clear - Hcs. induction Hcs as [|c cs Hc _ IH]; [done|].
    cbn [map concat]. rewrite length_app. pose proof (length_frame c Hc). unfold sizeof_PayloadHead in *.
    simpl (length (c :: cs)). lia. }
  destruct (FetchIOBuf_loop_frames cs1 (S (Z.to_nat (availTailIndex s + read))) (ioBuf s) 0 p
      (zdrop (availTailIndex s + read) (ioBuf s)) w []) as (w' & Hg' & He); auto; try lia.
  { rewrite zdrop_0, app_assoc, <- Hx. symmetry. apply ztake_zdrop. }
  rewrite Hn in He. rewrite He. cbn [mbind option_bind].
  destruct (FetchIOBuf_compact_ok s (0 + zlen (frames cs1)) (zlen p) (availTailIndex s + read)
    (u64 (dataRecvBytes s + read)) w') as (s' & -> & Hwf' & Hbs & Hws & _ & Hu); auto; try lia.
  cbn [mbind option_bind]. exists s'. split_and!; auto; [by rewrite Hws|].
  rewrite Hu, Hx. by apply zdrop_app.
Qed.

Lemma AllocCallback_ok want (s : IoSession W) : io_wf s -> bufSize s = 0 \/ bufSize s = HDC_SOCKETPAIR_SIZE ->
  exists s1, AllocCallback fresh want s
    = (availTailIndex s, Z.min (HDC_SOCKETPAIR_SIZE - availTailIndex s) want, s1) /\
    bufSize s1 = HDC_SOCKETPAIR_SIZE /\ availTailIndex s1 = availTailIndex s /\ world s1 = world s /\
    zlen (ioBuf s1) = HDC_SOCKETPAIR_SIZE /\ wf_bytes (ioBuf s1) /\
    ztake (availTailIndex s) (ioBuf s1) = unread s.
Proof.
  intros (Hb & Hlen & Ha & Hmax) Hsz. unfold AllocCallback, ReallocBuf, unread.
  destruct Hsz as [Hsz|Hsz]; rewrite Hsz; eexists; (split; [done|]); cbn [bufSize availTailIndex world ioBuf].
  - destruct (fresh_ok HDC_SOCKETPAIR_SIZE ltac:(vm_compute; discriminate)).
    replace (availTailIndex s) with 0 by lia. by rewrite !ztake_0.
  - by rewrite Hsz in Hlen.
Qed.

(** The buffer is never full between rounds. *)
Lemma pending_room s stream cs : pending s stream cs -> availTailIndex s < HDC_SOCKETPAIR_SIZE.
Proof.
  intros [(Hb & Hlen & Ha & Hmax) Hsz Hg Hcs Hfit Hbytes Hpart].
  assert (Hlu : zlen (unread s) = availTailIndex s) by (unfold unread; rewrite length_ztake; lia).
  destruct (unread s) as [|x l] eqn:Eu.
  - cbn in Hlu. rewrite <- Hlu. vm_compute. reflexivity.
  - destruct Hpart as (c & q & Hin & Hq & Hqn); [done|].
    rewrite List.Forall_forall in Hfit. specialize (Hfit c Hin). rewrite <- Hq, length_app in Hfit.
    destruct q; [done|]. simpl (length (_ :: q)) in Hfit. lia.
Qed.

(** One round delivers the frames it completes and makes progress. *)
Lemma ReadRound_pending now want stream s cs : 0 < want -> pending s stream cs ->
  exists ret s' cs1 cs2 rest, ReadRound fresh host now want stream s = Some (ret, s', cs1, rest) /\
    0 <= ret /\ cs = cs1 ++ cs2 /\ pending s' rest cs2 /\ (zlen rest < zlen stream \/ stream = []).
Proof.
  intros Hwant Hpd. pose proof (pending_room _ _ _ Hpd) as Hcap.
  destruct Hpd as [(Hb & Hlen & Ha & Hmax) Hsz Hg Hcs Hfit Hbytes Hpart]. unfold ReadRound.
  destruct (AllocCallback_ok want s) as (s1 & H1); [by repeat split; auto; lia|done|].
  destruct H1 as (-> & Hbs & Hav & Hws & Hl1 & Hw1 & Hu). rewrite Hav.
  set (n := Z.min (Z.min (HDC_SOCKETPAIR_SIZE - availTailIndex s) want) (zlen stream)).
  assert (Hn : 0 <= n <= zlen stream /\ availTailIndex s + n <= HDC_SOCKETPAIR_SIZE) by lia.
  assert (Hlc : zlen (ztake n stream) = n) by (apply length_ztake; lia).
  destruct (unread_fill (ioBuf s1) (ztake n stream) (availTailIndex s)) as [Hfill Hflen]; [lia|lia|].
  rewrite Hlc in Hfill, Hflen.
  destruct (chunks_prefix frame cs (unread s ++ ztake n stream) (zdrop n stream)) as (cs1 & cs2 & p & Ecs & Hx & Hy & Hp).
  { by rewrite <- app_assoc, ztake_zdrop. }
  subst cs. apply Forall_app in Hcs as [Hcs1 Hcs2]. apply Forall_app in Hfit as [Hf1 Hf2].
  pose proof (frames_wf (cs1 ++ cs2) ltac:(by apply Forall_app_2)) as Hfw. rewrite <- Hbytes in Hfw.
  apply Forall_app in Hfw as [Hfw1 Hfw2].
  destruct (FetchIOBuf_frames now (mkIo (ztake (availTailIndex s) (ioBuf s1) ++ ztake n stream ++
     zdrop (availTailIndex s + n) (ioBuf s1)) (bufSize s1) (availTailIndex s) (dataRecvBytes s1) (world s1)) n cs1 p)
    as (s' & -> & Hwf' & Hbs' & Hg' & Hu'); cbn [ioBuf bufSize availTailIndex world]; auto.
  - repeat split; cbn [ioBuf bufSize availTailIndex]; try lia.
    + rewrite !Forall_app. auto with hdc.
    + rewrite Hbs. vm_compute. discriminate.
  - lia.
  - by rewrite Hws.
  - by rewrite Hfill, Hu.
  - intros Hne. destruct (Hp Hne) as (c & q & Hin & Hq). exists c, q. split; [|exact Hq].
    rewrite List.Forall_forall in Hcs2. auto.
  - cbn [mbind option_bind]. cbn in Hbs'. do 5 eexists. split; [done|]. split_and!; [lia|done| |].
    + split; auto; [right; by rewrite Hbs'|by rewrite Hu'|]. rewrite Hu'. exact Hp.
    + destruct stream as [|b l]; [by right|left]. rewrite length_zdrop by lia.
      assert (0 < n); [|lia]. simpl (length (b :: l)) in *. lia.
Qed.
Lemma ReadRounds_pending rounds : forall stream s cs,
  Forall (fun r => 0 < r.2) rounds -> zlen stream <= zlen rounds -> pending s stream cs ->
  exists s', ReadRounds fresh host rounds stream s = Some (0, s', cs, []) /\ unread s' = [] /\ Good (world s').
Proof.
  assert (Hdone : forall s cs, pending s [] cs -> cs = [] /\ unread s = []).
  { intros s cs [_ _ _ Hcs _ Hb Hp]. rewrite app_nil_r in Hb. destruct (unread s) as [|x l] eqn:E.
    - split; [|done]. destruct cs as [|c cs]; [done|]. apply List.Forall_cons_iff in Hcs as [Hc _].
      pose proof (length_frame c Hc). cbn [map concat] in Hb. destruct (frame c); [|done].
      unfold sizeof_PayloadHead in *. cbn in *. lia.
    - exfalso. destruct Hp as (c & q & Hin & Hq & Hne); [done|].
      assert (Hle : (length (frame c) <= length (frames cs))%nat).
      { clear - Hin. induction cs as [|d cs IH]; [done|]. cbn [map concat]. rewrite length_app.
        destruct Hin as [->|Hin]; [lia|]. specialize (IH Hin). lia. }
      rewrite <- Hb, <- Hq, length_app in Hle. destruct q; [done|]. simpl (length (_ :: q)) in Hle. lia. }
  induction rounds as [|[now want] rounds IH]; intros stream s cs Hw Hlen Hp.
  - destruct stream; [|cbn in Hlen; lia]. destruct (Hdone _ _ Hp) as [-> Hu].
    exists s. split; [done|]. split; [done|]. apply Hp.
  - apply List.Forall_cons_iff in Hw as [Hw Hws]. cbn [snd] in Hw.
    destruct (ReadRound_pending now want stream s cs Hw Hp) as (ret & s1 & cs1 & cs2 & rest & He & Hret & -> & Hp1 & Hprog).
    cbn [ReadRounds]. rewrite He. cbn [mbind option_bind]. rewrite (proj2 (Z.ltb_ge ret 0)) by lia.
    destruct (IH rest s1 cs2) as (s' & -> & Hu & Hg'); auto.
    { simpl (length (_ :: rounds)) in Hlen. destruct Hprog as [Hprog| ->]; [lia|].
      destruct rest as [|b l]; [simpl; lia|]. exfalso. clear - He.
      unfold ReadRound in He. destruct (AllocCallback _ _ _) as [[off len] s1'].
      destruct (FetchIOBuf _ _ _ _) as [[[? ?] ?]|]; [|done]. cbn in He. injection He as _ _ _ He.
      unfold zdrop in He. by rewrite drop_nil in He. }
    cbn [mbind option_bind]. by exists s'.
Qed.

(** C2. The framing layer is a faithful channel: the commands one peer hands to
    [Send] reach the other peer's [FetchCommand], all of them, unaltered, once
    and in order, however the transport splits the byte stream into reads, as
    long as each frame fits the receive buffer; nothing is left in the buffer
    afterwards.  The session must survive: the handlers accept and the
    keep-alive does not expire. *)
Theorem stream_reassembly (cs : list Command) (sent : list bytes) (rounds : list (Z * Z)) (w : W) :
  Good w -> Forall Command_wf cs ->
  Forall2 (fun c f => BuildFrame (cmd_channelId c) (cmd_command c) (cmd_payload c) = inr f) cs sent ->
  Forall (fun f => zlen f <= HDC_SOCKETPAIR_SIZE) sent ->
  Forall (fun r => 0 < r.2) rounds -> zlen (concat sent) <= zlen rounds ->
  exists s', ReadRounds fresh host rounds (concat sent) (mkIo [] 0 0 0 w) = Some (0, s', cs, []) /\
    unread s' = [] /\ Good (world s').
Proof.
  intros Hg Hcs Hsent Hfit Hr Hlen.
  assert (sent = map frame cs) as ->.
  { clear - Hcs Hsent. induction Hsent as [|c f cs fs Hf _ IH]; [done|].
    apply List.Forall_cons_iff in Hcs as [Hc Hcs]. cbn [map]. rewrite <- IH by done.
    rewrite BuildFrame_frame in Hf by done. by injection Hf as ->. }
  rewrite List.Forall_map in Hfit.
  apply ReadRounds_pending; auto. split; cbn [bufSize world]; auto.
  repeat split; cbn; auto; try (unfold RSIZE_MAX; lia). intros []. reflexivity.
Qed.
End Reassembly.

Definition sample_commands : list Command :=
  [mkCommand 7 CMD_UNITY_EXECUTE (str "ls"); mkCommand 7 CMD_KERNEL_CHANNEL_CLOSE []].

(** Two frames delivered one byte at a time to a session whose handlers accept. *)
Lemma stream_reassembly_witness :
  exists s', ReadRounds (H := sink_of true) (fun n => replicate (Z.to_nat n) 0) true (replicate 64 (0, 1))
    (concat (map frame sample_commands)) (mkIo [] 0 0 0 live_world) = Some (0, s', sample_commands, []).
Proof.
  pose proof (@stream_reassembly _ (sink_of true) true (fun n => replicate (Z.to_nat n) 0)
    (fun w => w = live_world)) as T. cbv beta in T.
  assert (H1 : forall n, 0 <= n -> zlen (replicate (Z.to_nat n) 0) = n /\ wf_bytes (replicate (Z.to_nat n) 0)).
  { intros n Hn. split; [rewrite length_replicate; lia|]. apply Forall_replicate. unfold in_u. lia. }
  specialize (T H1). clear H1.
  specialize (T ltac:(intros w ->; reflexivity) ltac:(intros w ch cmd p ->; split; reflexivity)
    ltac:(intros w now ->; discriminate)).
  specialize (T sample_commands (map frame sample_commands) (replicate 64 (0, 1)) live_world eq_refl).
  destruct T as (s' & He & _).
  - repeat constructor; try (vm_compute; congruence).
  - constructor; [|constructor; [|constructor]]; vm_compute; reflexivity.
  - constructor; [|constructor; [|constructor]]; vm_compute; discriminate.
  - apply Forall_replicate. reflexivity.
  - vm_compute. discriminate.
  - exists s'. exact He.
Defined.
