(* ===== verification/Session.v ===== *)
(** * Session: the session table and the life of a session ([session.cpp])

    Sessions are heap objects: [heap] maps addresses to the [HdcSession]s that are
    allocated, [mapSession] maps session ids to addresses, and [loopMain] lists
    the callbacks registered with the main event loop, each holding the address
    it was given.  An access through an address that is no longer allocated is
    [Undefined].  [inflight] lists the sessions for which some thread is inside
    [Send], between [AdminSession(OP_QUERY_REF)] and [--hSession->ref].

    The virtual hooks ([NotifyInstanceSessionFree], [OnUSBDisconnectExit]) and
    logging do not change this state and are left out; creating a libuv timer or
    idle handle succeeds. *)

From Stdlib Require Import String ZArith Lia List Bool.
From stdpp Require Import base list numbers option gmap.
From S2P Require Import Prelude Defs OrdMap Packet.

Abbreviation addr := Z.
Abbreviation omap A := (list (Z * A)).

(** The parts of [HdcUSB] the session layer looks at; [u_bulkShutdown] is
    [hostBulkIn.isShutdown && hostBulkOut.isShutdown]. *)
Record HdcUSB := mkUSB {
  u_devId : Z; u_busId : Z; u_wMaxPacketSizeSend : Z; u_bulkShutdown : bool
}.

Record HdcSession := mkSession {
  s_serverOrDaemon : bool;
  s_isDead : bool;
  s_voteReset : bool;
  s_connType : Z;
  s_sessionId : Z;
  s_ref : Z;
  s_uvHandleRef : Z;
  s_childCleared : bool;
  s_workLoop : bool;            (* pollHandle[STREAM_WORK]->loop is set *)
  s_classModule : bool;         (* not null *)
  s_ioBuf : bool;               (* not null *)
  s_availTailIndex : Z;
  s_hUSB : option HdcUSB;
  s_hUART : bool                (* not null *)
}.

Definition set_isDead b (s : HdcSession) := mkSession (s_serverOrDaemon s) b (s_voteReset s)
  (s_connType s) (s_sessionId s) (s_ref s) (s_uvHandleRef s) (s_childCleared s) (s_workLoop s)
  (s_classModule s) (s_ioBuf s) (s_availTailIndex s) (s_hUSB s) (s_hUART s).
Definition set_voteReset b (s : HdcSession) := mkSession (s_serverOrDaemon s) (s_isDead s) b
  (s_connType s) (s_sessionId s) (s_ref s) (s_uvHandleRef s) (s_childCleared s) (s_workLoop s)
  (s_classModule s) (s_ioBuf s) (s_availTailIndex s) (s_hUSB s) (s_hUART s).
Definition set_ref n (s : HdcSession) := mkSession (s_serverOrDaemon s) (s_isDead s) (s_voteReset s)
  (s_connType s) (s_sessionId s) n (s_uvHandleRef s) (s_childCleared s) (s_workLoop s)
  (s_classModule s) (s_ioBuf s) (s_availTailIndex s) (s_hUSB s) (s_hUART s).
Definition set_uvHandleRef n (s : HdcSession) := mkSession (s_serverOrDaemon s) (s_isDead s) (s_voteReset s)
  (s_connType s) (s_sessionId s) (s_ref s) n (s_childCleared s) (s_workLoop s)
  (s_classModule s) (s_ioBuf s) (s_availTailIndex s) (s_hUSB s) (s_hUART s).
Definition set_childCleared b (s : HdcSession) := mkSession (s_serverOrDaemon s) (s_isDead s) (s_voteReset s)
  (s_connType s) (s_sessionId s) (s_ref s) (s_uvHandleRef s) b (s_workLoop s)
  (s_classModule s) (s_ioBuf s) (s_availTailIndex s) (s_hUSB s) (s_hUART s).
Definition set_workLoop b (s : HdcSession) := mkSession (s_serverOrDaemon s) (s_isDead s) (s_voteReset s)
  (s_connType s) (s_sessionId s) (s_ref s) (s_uvHandleRef s) (s_childCleared s) b
  (s_classModule s) (s_ioBuf s) (s_availTailIndex s) (s_hUSB s) (s_hUART s).
Definition clear_io (s : HdcSession) := mkSession (s_serverOrDaemon s) (s_isDead s) (s_voteReset s)
  (s_connType s) (s_sessionId s) (s_ref s) (s_uvHandleRef s) (s_childCleared s) (s_workLoop s)
  (s_classModule s) false 0 (s_hUSB s) (s_hUART s).
Definition set_hUSB u (s : HdcSession) := mkSession (s_serverOrDaemon s) (s_isDead s) (s_voteReset s)
  (s_connType s) (s_sessionId s) (s_ref s) (s_uvHandleRef s) (s_childCleared s) (s_workLoop s)
  (s_classModule s) (s_ioBuf s) (s_availTailIndex s) u (s_hUART s).
Definition set_hUART u (s : HdcSession) := mkSession (s_serverOrDaemon s) (s_isDead s) (s_voteReset s)
  (s_connType s) (s_sessionId s) (s_ref s) (s_uvHandleRef s) (s_childCleared s) (s_workLoop s)
  (s_classModule s) (s_ioBuf s) (s_availTailIndex s) (s_hUSB s) u.

(** [AsyncParam]: a request posted to the main thread. *)
Record AsyncParam := mkAsync { a_sid : Z; a_method : Z; a_data : bytes }.

(** Callbacks registered with the main loop.  [CbOperate] and [CbCheckChild] are
    repeating timers, [CbFinally] and [CbAsync] idle handlers, [CbClose] the
    completion of a [uv_close]. *)
Inductive Callback :=
| CbOperate (p : addr)
| CbCheckChild (p : addr)
| CbFinally (p : addr)
| CbClose (p : addr)
| CbAsync (a : AsyncParam).

#[export] Instance AsyncParam_eq_dec : EqDecision AsyncParam.
Proof. solve_decision. Defined.
#[export] Instance Callback_eq_dec : EqDecision Callback.
Proof. solve_decision. Defined.

Record SessionBase := mkBase {
  serverOrDaemon : bool;
  heap : gmap addr HdcSession;
  mapSession : omap addr;
  sessionRef : Z;
  lstMainThreadOP : list AsyncParam;
  loopMain : list Callback;
  loopStopped : bool;
  wantRestart : bool;
  inflight : list addr;
  deletedSet : list Z;
  deletedQueue : list Z
}.

Definition set_heap h (b : SessionBase) := mkBase (serverOrDaemon b) h (mapSession b) (sessionRef b)
  (lstMainThreadOP b) (loopMain b) (loopStopped b) (wantRestart b) (inflight b) (deletedSet b) (deletedQueue b).
Definition set_mapSession m (b : SessionBase) := mkBase (serverOrDaemon b) (heap b) m (sessionRef b)
  (lstMainThreadOP b) (loopMain b) (loopStopped b) (wantRestart b) (inflight b) (deletedSet b) (deletedQueue b).
Definition set_sessionRef n (b : SessionBase) := mkBase (serverOrDaemon b) (heap b) (mapSession b) n
  (lstMainThreadOP b) (loopMain b) (loopStopped b) (wantRestart b) (inflight b) (deletedSet b) (deletedQueue b).
Definition set_lstMainThreadOP l (b : SessionBase) := mkBase (serverOrDaemon b) (heap b) (mapSession b) (sessionRef b)
  l (loopMain b) (loopStopped b) (wantRestart b) (inflight b) (deletedSet b) (deletedQueue b).
Definition set_loopMain l (b : SessionBase) := mkBase (serverOrDaemon b) (heap b) (mapSession b) (sessionRef b)
  (lstMainThreadOP b) l (loopStopped b) (wantRestart b) (inflight b) (deletedSet b) (deletedQueue b).
Definition set_stopped s (b : SessionBase) := mkBase (serverOrDaemon b) (heap b) (mapSession b) (sessionRef b)
  (lstMainThreadOP b) (loopMain b) s (wantRestart b) (inflight b) (deletedSet b) (deletedQueue b).
Definition set_wantRestart r (b : SessionBase) := mkBase (serverOrDaemon b) (heap b) (mapSession b) (sessionRef b)
  (lstMainThreadOP b) (loopMain b) (loopStopped b) r (inflight b) (deletedSet b) (deletedQueue b).
Definition set_inflight l (b : SessionBase) := mkBase (serverOrDaemon b) (heap b) (mapSession b) (sessionRef b)
  (lstMainThreadOP b) (loopMain b) (loopStopped b) (wantRestart b) l (deletedSet b) (deletedQueue b).
Definition set_deleted s q (b : SessionBase) := mkBase (serverOrDaemon b) (heap b) (mapSession b) (sessionRef b)
  (lstMainThreadOP b) (loopMain b) (loopStopped b) (wantRestart b) (inflight b) s q.

(** [hSession->f = ...] through a pointer. *)
Definition upd (p : addr) (f : HdcSession -> HdcSession) (b : SessionBase) : res SessionBase :=
  s ← deref (heap b !! p); Ok (set_heap (<[p := f s]> (heap b)) b).

(** Register and close a callback. *)
Definition push_cb (c : Callback) (b : SessionBase) : SessionBase := set_loopMain (loopMain b ++ [c]) b.
Fixpoint remove_one {A} `{EqDecision A} (c : A) (l : list A) : list A :=
  match l with
  | [] => []
  | x :: l => if decide (x = c) then l else x :: remove_one c l
  end.
Definition drop_cb (c : Callback) (b : SessionBase) : SessionBase := set_loopMain (remove_one c (loopMain b)) b.

(** ** The record of freed session ids ([base.cpp]) *)

(** 32 on the host, 10 on the device. *)
Definition MAX_DELETED_SESSION_ID_RECORD_COUNT (host : bool) : Z := if host then 32 else 10.

Definition AddDeletedSessionId (host : bool) (sessionId : Z) (b : SessionBase) : SessionBase :=
  if bool_decide (sessionId ∈ deletedSet b) then b
  else
    let s := sessionId :: deletedSet b in
    let q := deletedQueue b ++ [sessionId] in
    if MAX_DELETED_SESSION_ID_RECORD_COUNT host <? zlen q then
      match q with
      | id :: q' => set_deleted (filter (fun x => x <> id) s) q' b
      | [] => set_deleted s q b
      end
    else set_deleted s q b.

Definition IsSessionDeleted (sessionId : Z) (b : SessionBase) : bool := bool_decide (sessionId ∈ deletedSet b).

(** ** The session table *)

(** Every session but [sessionId] has voted. *)
Fixpoint others_voted (sessionId : Z) (m : omap addr) (h : gmap addr HdcSession) : res bool :=
  match m with
  | [] => Ok true
  | (id, p) :: m =>
      rest ← others_voted sessionId m h;
      if sessionId =? id then Ok rest
      else s ← deref (h !! p); Ok (s_voteReset s && rest)
  end.

(** Passed when every other session has voted too; it ends the process. *)
Definition VoteReset (sessionId : Z) (b : SessionBase) : res (option addr * SessionBase) :=
  if serverOrDaemon b then
    p ← deref (om_find sessionId (mapSession b));
    b1 ← upd p (set_voteReset true) b;
    needReset ← others_voted sessionId (mapSession b1) (heap b1);
    match needReset with true => Exited | false => Ok (Some p, b1) end
  else Exited.

Definition AdminSession (op sessionId : Z) (hInput : option addr) (b : SessionBase)
    : res (option addr * SessionBase) :=
  if op =? OP_ADD then
    p ← deref hInput; Ok (None, set_mapSession (om_set sessionId p (mapSession b)) b)
  else if op =? OP_REMOVE then Ok (None, set_mapSession (om_erase sessionId (mapSession b)) b)
  else if op =? OP_QUERY then Ok (om_find sessionId (mapSession b), b)
  else if op =? OP_QUERY_REF then
    match om_find sessionId (mapSession b) with
    | Some p => b' ← upd p (fun s => set_ref (u32 (s_ref s + 1)) s) b; Ok (Some p, b')
    | None => Ok (None, b)
    end
  else if op =? OP_UPDATE then
    p ← deref hInput;
    s ← deref (heap b !! p);
    Ok (None, set_mapSession (om_set (s_sessionId s) p (om_erase sessionId (mapSession b))) b)
  else if op =? OP_VOTE_RESET then
    match om_find sessionId (mapSession b) with
    | Some _ => VoteReset sessionId b
    | None => Ok (None, b)
    end
  else Ok (None, b).

(** The first session in id order that passes the test. *)
Fixpoint first_session (test : HdcSession -> bool) (m : omap addr) (h : gmap addr HdcSession)
    : res (option addr) :=
  match m with
  | [] => Ok None
  | (_, p) :: m => s ← deref (h !! p); if test s then Ok (Some p) else first_session test m h
  end.

(** The host's lookup of a session by USB bus and device number. *)
Definition QueryUSBDeviceRegister (busId devId : Z) (b : SessionBase) : res (option addr) :=
  first_session (fun hs =>
    if s_connType hs =? CONN_USB then false
    else match s_hUSB hs with
         | None => false
         | Some u => negb (negb (u_devId u =? devId) || negb (u_busId u =? busId))
         end) (mapSession b) (heap b).

(** ** Requests to the main thread *)

Definition PushAsyncMessage (sessionId method : Z) (data : bytes) (b : SessionBase) : SessionBase :=
  if (0 <? zlen data) && negb (memcpy_ok (zlen data) (zlen data)) then b
  else set_lstMainThreadOP (lstMainThreadOP b ++ [mkAsync sessionId method data]) b.

Definition MainAsyncCallback (b : SessionBase) : SessionBase :=
  set_lstMainThreadOP [] (set_loopMain (loopMain b ++ map CbAsync (lstMainThreadOP b)) b).

Definition PostStopInstanceMessage (restart : bool) (b : SessionBase) : SessionBase :=
  set_wantRestart restart (PushAsyncMessage 0 ASYNC_STOP_MAINLOOP [] b).

(** ** Freeing a session *)

(** [onMain]: the caller runs on the main thread. *)
Definition FreeSession (host onMain : bool) (sessionId : Z) (b0 : SessionBase) : res SessionBase :=
  let b := AddDeletedSessionId host sessionId b0 in
  if negb onMain then Ok (PushAsyncMessage sessionId ASYNC_FREE_SESSION [] b)
  else
    '(hSession, b1) ← AdminSession OP_QUERY sessionId None b;
    match hSession with
    | None => Ok b1
    | Some p =>
        s ← deref (heap b1 !! p);
        if s_isDead s then Ok b1
        else b2 ← upd p (set_isDead true) b1; Ok (push_cb (CbOperate p) b2)
    end.

Definition AsyncMainLoopTask (host : bool) (param : AsyncParam) (b : SessionBase) : res SessionBase :=
  b1 ← (if a_method param =? ASYNC_FREE_SESSION then FreeSession host true (a_sid param) b
        else if a_method param =? ASYNC_STOP_MAINLOOP then Ok (set_stopped true b)
        else Ok b);
  Ok (drop_cb (CbAsync param) b1).

Definition FreeSessionByConnectType (p : addr) (b : SessionBase) : res SessionBase :=
  s ← deref (heap b !! p);
  b1 ← (if s_connType s =? CONN_USB then upd p (set_hUSB None) b else Ok b);
  if s_connType s =? CONN_SERIAL then upd p (set_hUART false) b1 else Ok b1.

(** The completion of closing one of the session's handles. *)
Definition closeSessionTCPHandle (p : addr) (b : SessionBase) : res SessionBase :=
  upd p (fun s => set_uvHandleRef (u8 (s_uvHandleRef s - 1)) s) b.

(** [TryCloseHandle(handle, true, closeSessionTCPHandle)]: closing is deferred to
    the loop, or, for a handle that is closing already, completed at once. *)
Definition TryCloseSessionHandle (p : addr) (open : bool) (b : SessionBase) : res SessionBase :=
  if open then Ok (push_cb (CbClose p) b) else closeSessionTCPHandle p b.

(** [opens]: which of [hWorkTCP], [pollHandle[STREAM_MAIN]] and
    [dataPipe[STREAM_MAIN]] are not closing yet. *)
Definition FreeSessionContinue (opens : bool * bool * bool) (p : addr) (b : SessionBase) : res SessionBase :=
  s ← deref (heap b !! p);
  b1 ← (if s_connType s =? CONN_TCP then TryCloseSessionHandle p opens.1.1 b else Ok b);
  b2 ← upd p clear_io b1;
  b3 ← TryCloseSessionHandle p opens.1.2 b2;
  b4 ← TryCloseSessionHandle p opens.2 b3;
  b5 ← FreeSessionByConnectType p b4;
  Ok (push_cb (CbFinally p) b5).

Definition FreeSessionOpeate (host : bool) (opens : bool * bool * bool) (p : addr) (b : SessionBase)
    : res SessionBase :=
  s ← deref (heap b !! p);
  if host && match s_hUSB s with Some u => negb (u_bulkShutdown u) | None => false end
  then Ok b  (* CancelUsbIo, tried again at the next tick *)
  else if 0 <? s_ref s then Ok b
  else
    b1 ← (if s_workLoop s then Ok (push_cb (CbCheckChild p) b)  (* after SP_STOP_SESSION *)
          else FreeSessionContinue opens p b);
    Ok (drop_cb (CbOperate p) b1).

Definition callbackCheckFreeSessionContinue (opens : bool * bool * bool) (p : addr) (b : SessionBase)
    : res SessionBase :=
  s ← deref (heap b !! p);
  if negb (s_childCleared s) then Ok b
  else FreeSessionContinue opens p (drop_cb (CbCheckChild p) b).

Definition FreeSessionFinally (p : addr) (b : SessionBase) : res SessionBase :=
  s ← deref (heap b !! p);
  if 0 <? s_uvHandleRef s then Ok b
  else
    '(_, b1) ← AdminSession OP_REMOVE (s_sessionId s) None b;
    let b2 := set_heap (delete p (heap b1)) b1 in
    let b3 := drop_cb (CbFinally p) b2 in
    Ok (set_sessionRef (u32 (sessionRef b3 - 1)) b3).

Definition ClearSessions (host : bool) (b : SessionBase) : res SessionBase :=
  fold_left (fun acc kv =>
    b ← acc;
    s ← deref (heap b !! kv.2);
    if s_isDead s then Ok b else FreeSession host true (s_sessionId s) b) (mapSession b) (Ok b).

(** Stop when every session object is gone. *)
Definition clearSessionsForFinish (b : SessionBase) : SessionBase :=
  if 0 <? sessionRef b then b else set_stopped true b.

(** The device frees its USB session when the cable is unplugged. *)
Definition AdminUsbSession (b : SessionBase) : res SessionBase :=
  found ← first_session (fun s => s_connType s =? CONN_USB) (mapSession b) (heap b);
  match found with
  | Some p => s ← deref (heap b !! p); FreeSession false true (s_sessionId s) b
  | None => Ok b
  end.

(** ** Creating a session *)

(** Which of the allocations and system calls succeed, the addresses and the
    random numbers they give. *)
Record MallocEnv := mkMallocEnv {
  e_addr : addr; e_new : bool; e_mapTask : bool; e_listKey : bool; e_poll : bool;
  e_pollInit : bool; e_dataFd : bool; e_tcpInit : bool; e_usb : bool; e_uids : list Z
}.

Fixpoint GetSessionPseudoUid (uids : list Z) (b : SessionBase) : res Z :=
  match uids with
  | [] => Stuck
  | uid :: uids =>
      '(h, _) ← AdminSession OP_QUERY uid None b;
      match h with None => Ok uid | Some _ => GetSessionPseudoUid uids b end
  end.

Definition MallocSessionByConnectType (env : MallocEnv) (p : addr) (b : SessionBase) : res (Z * SessionBase) :=
  s ← deref (heap b !! p);
  if s_connType s =? CONN_TCP then
    if e_tcpInit env then b' ← upd p (fun s => set_uvHandleRef (u8 (s_uvHandleRef s + 1)) s) b; Ok (0, b')
    else Ok (-1, b)
  else if s_connType s =? CONN_USB then
    if e_usb env then b' ← upd p (set_hUSB (Some (mkUSB 0 0 MAX_PACKET_SIZE_HISPEED true))) b; Ok (0, b')
    else Ok (-1, b)
  else if s_connType s =? CONN_SERIAL then b' ← upd p (set_hUART true) b; Ok (0, b')
  else Ok (-1, b).

Definition delete_session (p : addr) (b : SessionBase) : SessionBase := set_heap (delete p (heap b)) b.

Definition MallocSession (env : MallocEnv) (serverOrDaemonIn : bool) (connType : Z) (classModule : bool)
    (sessionId : Z) (b0 : SessionBase) : res (option addr * SessionBase) :=
  if negb (e_new env) then Ok (None, b0)
  else
    let p := e_addr env in
    let b := set_sessionRef (u32 (sessionRef b0 + 1)) b0 in
    sid ← (if sessionId =? 0 then GetSessionPseudoUid (e_uids env) b else Ok sessionId);
    let s := mkSession serverOrDaemonIn false false connType sid 0 0 false false classModule false 0 None false in
    let b1 := set_heap (<[p := s]> (heap b)) b in
    if negb (e_mapTask env) || negb (e_listKey env) then Ok (None, delete_session p b1)
    else
      b2 ← upd p (fun s => set_uvHandleRef (u8 (s_uvHandleRef s + 1)) s) b1;
      if negb (e_poll env) then Ok (None, delete_session p b2)
      else if negb (e_pollInit env) then Exited
      else
        b3 ← upd p (fun s => set_uvHandleRef (u8 (s_uvHandleRef s + 1)) s) b2;
        if negb (e_dataFd env) then Exited
        else
          '(ret, b4) ← MallocSessionByConnectType env p b3;
          if negb (ret =? 0) then Ok (None, delete_session p b4)
          else '(_, b5) ← AdminSession OP_ADD sid (Some p) b4; Ok (Some p, b5).

(** ** Sending *)

Inductive Transport := ToWorkTCP | ToChildWorkTCP | ToUSB | ToUART.

(** [sameThread]: the caller runs on the session's [hWorkThread]; [xmit] is the
    transport module's write. *)
Definition SendByProtocol (xmit : Transport -> bytes -> Z) (sameThread : bool) (p : addr) (buf : bytes)
    (echo : bool) (b : SessionBase) : res (Z * list (Transport * bytes)) :=
  s ← deref (heap b !! p);
  if s_isDead s then Ok (ERR_SESSION_NOFOUND, [])
  else if negb (s_classModule s) then Ok (ERR_SESSION_NOFOUND, [])
  else
    let via t := Ok (xmit t buf, [(t, buf)]) in
    if s_connType s =? CONN_TCP then
      if echo && negb (s_serverOrDaemon s) then via ToChildWorkTCP
      else if sameThread then via ToWorkTCP else via ToChildWorkTCP
    else if s_connType s =? CONN_USB then via ToUSB
    else if s_connType s =? CONN_SERIAL then via ToUART
    else Ok (ERR_GENERIC, []).

(** The three stages of [Send]: take a reference, transmit, drop it. *)
Definition SendBegin (sessionId : Z) (b : SessionBase) : res (option addr * SessionBase) :=
  '(h, b1) ← AdminSession OP_QUERY_REF sessionId None b;
  match h with
  | Some p => Ok (Some p, set_inflight (p :: inflight b1) b1)
  | None => Ok (None, b1)
  end.

Definition SendEnd (p : addr) (b : SessionBase) : res SessionBase :=
  b1 ← upd p (fun s => set_ref (u32 (s_ref s - 1)) s) b;
  Ok (set_inflight (remove_one p (inflight b1)) b1).

Definition Send (xmit : Transport -> bytes -> Z) (sameThread allocOk : bool)
    (sessionId channelId commandFlag : Z) (data : bytes) (b : SessionBase)
    : res (Z * list (Transport * bytes) * SessionBase) :=
  '(h, b1) ← SendBegin sessionId b;
  match h with
  | None => Ok (ERR_SESSION_NOFOUND, [], b1)
  | Some p =>
      if negb allocOk then b2 ← SendEnd p b1; Ok (ERR_BUF_ALLOC, [], b2)
      else
        match BuildFrame channelId commandFlag data with
        | inl err => b2 ← SendEnd p b1; Ok (err, [], b2)
        | inr buf =>
            '(ret, out) ← SendByProtocol xmit sameThread p buf (commandFlag =? CMD_KERNEL_ECHO) b1;
            b2 ← SendEnd p b1; Ok (ret, out, b2)
        end
  end.
