(* ===== verification/SessionProps.v ===== *)
(** * SessionProps: the theorems about the session table and session life time *)

From Stdlib Require Import String ZArith Lia List Bool.
From stdpp Require Import base list numbers option gmap.
From S2P Require Import Prelude Defs OrdMap Messages Packet Session.

#[local] Set Warnings "-clear-no-such-hyp".

(** ** The transition system *)

(** Run one callback of the main loop. *)
Definition run_cb (host : bool) (opens : bool * bool * bool) (c : Callback) (b : SessionBase) : res SessionBase :=
  match c with
  | CbOperate p => FreeSessionOpeate host opens p b
  | CbCheckChild p => callbackCheckFreeSessionContinue opens p b
  | CbFinally p => FreeSessionFinally p b
  | CbClose p => closeSessionTCPHandle p (drop_cb (CbClose p) b)
  | CbAsync a => AsyncMainLoopTask host a b
  end.

(** What can happen next: the loop runs a callback it holds, any thread asks to
    free a session or is at one of the two ends of [Send], the main thread
    creates a session at a fresh address (addresses are not reused and a given
    id is not in use), a session's work thread starts or finishes, the USB layer
    updates its part of the session. *)
Inductive step (host : bool) : SessionBase -> SessionBase -> Prop :=
| step_run c opens b b' : List.In c (loopMain b) -> run_cb host opens c b = Ok b' -> step host b b'
| step_malloc env sod connType cm sid b p b' :
    MallocSession env sod connType cm sid b = Ok (Some p, b') ->
    heap b !! e_addr env = None -> e_addr env ∉ inflight b ->
    sid = 0 \/ om_find sid (mapSession b) = None -> step host b b'
| step_free onMain sid b b' : FreeSession host onMain sid b = Ok b' -> step host b b'
| step_async b : step host b (MainAsyncCallback b)
| step_stop restart b : step host b (PostStopInstanceMessage restart b)
| step_send_begin sid b r : SendBegin sid b = Ok r -> step host b r.2
| step_send_end p b b' : List.In p (inflight b) -> SendEnd p b = Ok b' -> step host b b'
| step_work_start p s b b' : heap b !! p = Some s -> s_isDead s = false ->
    upd p (set_workLoop true) b = Ok b' -> step host b b'
| step_child_cleared p b b' : upd p (set_childCleared true) b = Ok b' -> step host b b'
| step_usb p u u' s b b' : heap b !! p = Some s -> s_hUSB s = Some u ->
    upd p (set_hUSB (Some u')) b = Ok b' -> step host b b'.

Definition initial (sod : bool) : SessionBase := mkBase sod ∅ [] 0 [] [] false false [] [] [].

Inductive reachable (host : bool) : SessionBase -> Prop :=
| reach_init sod : reachable host (initial sod)
| reach_step b b' : reachable host b -> step host b b' -> reachable host b'.

(** ** The invariant *)

Definition cb_addr (c : Callback) : option addr :=
  match c with CbOperate p | CbCheckChild p | CbFinally p | CbClose p => Some p | CbAsync _ => None end.

Definition cbs_of (p : addr) (l : list Callback) : list Callback := filter (fun c => cb_addr c = Some p) l.

Abbreviation cnt p l := (Z.of_nat (count_occ Z.eq_dec l p)).

(** The libuv handles of a session that is not being torn down. *)
Definition all_handles (s : HdcSession) : Z := if s_connType s =? CONN_TCP then 3 else 2.

(** The stages of a session, by the callbacks that hold it. *)
Inductive phase (p : addr) (s : HdcSession) : list Callback -> Prop :=
| ph_live : s_isDead s = false -> s_uvHandleRef s = all_handles s -> phase p s []
| ph_operate : s_isDead s = true -> s_uvHandleRef s = all_handles s -> phase p s [CbOperate p]
| ph_check : s_isDead s = true -> s_uvHandleRef s = all_handles s -> s_workLoop s = true ->
    phase p s [CbCheckChild p]
| ph_final n l : s_isDead s = true -> s_uvHandleRef s = Z.of_nat n -> (n <= 3)%nat ->
    s_ioBuf s = false -> s_hUSB s = None \/ s_connType s <> CONN_USB ->
    l ≡ₚ CbFinally p :: replicate n (CbClose p) -> phase p s l.

Record Inv (h : gmap addr HdcSession) (m : omap addr) (n : Z) (l : list Callback) (fl : list addr) : Prop := {
  inv_table : forall id p, om_find id m = Some p -> exists s, h !! p = Some s /\ s_sessionId s = id;
  inv_heap : forall p s, h !! p = Some s -> om_find (s_sessionId s) m = Some p /\
    s_ref s = u32 (cnt p fl) /\ phase p s (cbs_of p l);
  inv_dangling : forall p, h !! p = None -> cbs_of p l = [];
  inv_ref : n = u32 (Z.of_nat (size h));
  inv_sorted : om_sorted m
}.
Definition inv (b : SessionBase) : Prop := Inv (heap b) (mapSession b) (sessionRef b) (loopMain b) (inflight b).

(** ** Callback lists *)

Lemma cbs_of_push_eq p c l : cb_addr c = Some p -> cbs_of p (l ++ [c]) = cbs_of p l ++ [c].
Proof. intros. unfold cbs_of. rewrite filter_app. f_equal. by rewrite filter_cons_True. Qed.

Lemma cbs_of_push_ne p c l : cb_addr c <> Some p -> cbs_of p (l ++ [c]) = cbs_of p l.
Proof. intros. unfold cbs_of. rewrite filter_app, filter_cons_False by done. apply app_nil_r. Qed.

Lemma cbs_of_closes_eq p k l : cbs_of p (l ++ replicate k (CbClose p)) = cbs_of p l ++ replicate k (CbClose p).
Proof.
  unfold cbs_of. rewrite filter_app. f_equal. induction k; [done|]. cbn [replicate].
  rewrite filter_cons_True by done. by f_equal.
Qed.

Lemma cbs_of_closes_ne p q k l : q <> p -> cbs_of q (l ++ replicate k (CbClose p)) = cbs_of q l.
Proof.
  intros. unfold cbs_of. rewrite filter_app. replace (filter _ (replicate k _)) with ([] : list Callback); [apply app_nil_r|].
  induction k; [done|]. cbn [replicate]. rewrite filter_cons_False; [done|cbn; congruence].
Qed.

Lemma cbs_of_drop_ne p c l : cb_addr c <> Some p -> cbs_of p (remove_one c l) = cbs_of p l.
Proof.
  intros Hc. unfold cbs_of. induction l as [|x l IH]; [done|]. cbn [remove_one].
  destruct (decide (x = c)) as [->|Hx]; [by rewrite filter_cons_False|].
  rewrite !filter_cons, IH. done.
Qed.

Lemma cbs_of_drop_eq p c l : cb_addr c = Some p -> cbs_of p (remove_one c l) = remove_one c (cbs_of p l).
Proof.
  intros Hc. unfold cbs_of. induction l as [|x l IH]; [done|]. cbn [remove_one].
  destruct (decide (x = c)) as [->|Hx].
  - rewrite filter_cons_True by done. cbn [remove_one]. by rewrite decide_True.
  - rewrite !filter_cons. destruct (decide (cb_addr x = Some p)); [|done].
    cbn [remove_one]. rewrite decide_False by done. by rewrite IH.
Qed.

Lemma cbs_of_In p c l : cb_addr c = Some p -> List.In c l -> List.In c (cbs_of p l).
Proof. intros Hc Hin. apply list_elem_of_In, list_elem_of_filter. split; [done|]. by apply list_elem_of_In. Qed.

Lemma cbs_of_async p l (q : list AsyncParam) : cbs_of p (l ++ map CbAsync q) = cbs_of p l.
Proof.
  unfold cbs_of. rewrite filter_app. replace (filter _ (map CbAsync q)) with ([] : list Callback); [apply app_nil_r|].
  induction q; [done|]. cbn [map]. by rewrite filter_cons_False.
Qed.

Lemma remove_one_perm {A} `{EqDecision A} (c : A) l : c ∈ l -> l ≡ₚ c :: remove_one c l.
Proof.
  induction l as [|x l IH]; [by intros ?%not_elem_of_nil|]. intros Hin. cbn [remove_one].
  destruct (decide (x = c)) as [->|Hx]; [done|].
  apply elem_of_cons in Hin as [->|Hin]; [done|]. rewrite (IH Hin) at 1. apply Permutation_swap.
Qed.

Lemma count_remove_one p l : List.In p l -> cnt p (remove_one p l) = cnt p l - 1.
Proof.
  induction l as [|x l IH]; [done|]. intros Hin. cbn [remove_one count_occ].
  destruct (decide (x = p)) as [->|Hx]; [destruct (Z.eq_dec p p); [lia|done]|].
  destruct Hin as [->|Hin]; [done|]. cbn [count_occ]. destruct (Z.eq_dec x p); [done|]. by apply IH.
Qed.

Lemma count_remove_one_ne p q l : q <> p -> cnt q (remove_one p l) = cnt q l.
Proof.
  intros Hq. induction l as [|x l IH]; [done|]. cbn [remove_one].
  destruct (decide (x = p)) as [->|Hx]; cbn [count_occ].
  - destruct (Z.eq_dec p q); [congruence|done].
  - destruct (Z.eq_dec x q); rewrite ?Nat2Z.inj_succ, IH; done.
Qed.

(** ** Changing one session *)

Lemma phase_touch p s s' l : phase p s l ->
  s_isDead s' = s_isDead s -> s_uvHandleRef s' = s_uvHandleRef s -> s_connType s' = s_connType s ->
  s_ioBuf s' = s_ioBuf s -> (s_hUSB s = None -> s_hUSB s' = None) ->
  (s_workLoop s = true -> s_workLoop s' = true) -> phase p s' l.
Proof.
  intros Hph Hd Hu Hc Hio Husb Hw.
  assert (Ha : all_handles s' = all_handles s) by (unfold all_handles; by rewrite Hc).
  destruct Hph as [| | |k l0 ? ? ? ? [?|?]]; [apply ph_live|apply ph_operate|apply ph_check|apply (ph_final _ _ k)..];
    try congruence; auto. right. congruence.
Qed.

Section Change.
Context {h : gmap addr HdcSession} {m : omap addr} {n : Z} {l : list Callback} {fl : list addr}.
Hypothesis HI : Inv h m n l fl.

(** Replace the object at [p] and its callbacks. *)
Lemma Inv_change p s s' l' fl' :
  h !! p = Some s -> s_sessionId s' = s_sessionId s -> s_ref s' = u32 (cnt p fl') ->
  (forall q, q <> p -> cbs_of q l' = cbs_of q l) ->
  (forall q, q <> p -> cnt q fl' = cnt q fl) ->
  phase p s' (cbs_of p l') -> Inv (<[p := s']> h) m n l' fl'.
Proof.
  intros Hp Hid Href Hl Hfl Hph. split.
  - intros id q Hq. destruct (inv_table _ _ _ _ _ HI id q Hq) as (t & Ht & Hi).
    destruct (decide (q = p)) as [->|Hne].
    + exists s'. rewrite lookup_insert_eq. split; [done|]. congruence.
    + exists t. by rewrite lookup_insert_ne by done.
  - intros q t Hq. destruct (decide (q = p)) as [->|Hne].
    + rewrite lookup_insert_eq in Hq. injection Hq as <-. rewrite Hid. split_and!; [|done|done].
      apply (inv_heap _ _ _ _ _ HI p s Hp).
    + rewrite lookup_insert_ne in Hq by done. rewrite Hl, Hfl by done. by apply (inv_heap _ _ _ _ _ HI).
  - intros q Hq. apply lookup_insert_None in Hq as [Hq Hne]. rewrite Hl by congruence.
    by apply (inv_dangling _ _ _ _ _ HI).
  - rewrite map_size_insert_Some by (by eexists). apply HI.
  - apply HI.
Qed.

(** A change that leaves id, references, handles and liveness alone. *)
Lemma Inv_touch p s s' :
  h !! p = Some s -> s_sessionId s' = s_sessionId s -> s_ref s' = s_ref s ->
  s_isDead s' = s_isDead s -> s_uvHandleRef s' = s_uvHandleRef s -> s_connType s' = s_connType s ->
  s_ioBuf s' = s_ioBuf s -> (s_hUSB s = None -> s_hUSB s' = None) ->
  (s_workLoop s = true -> s_workLoop s' = true) -> Inv (<[p := s']> h) m n l fl.
Proof.
  intros Hp Hid Href Hd Hu Hc Hio Husb Hw.
  destruct (inv_heap _ _ _ _ _ HI p s Hp) as (_ & Hr & Hph).
  apply (Inv_change p s); auto; [congruence|]. by apply (phase_touch p s).
Qed.

(** Callbacks of no session do not matter. *)
Lemma Inv_loop l' : (forall q, cbs_of q l' = cbs_of q l) -> Inv h m n l' fl.
Proof. intros Hl. destruct HI as [H1 H2 H3 H4 H5]. split; auto; intros; rewrite Hl; auto. Qed.
End Change.

(** ** Every step keeps the invariant *)

Lemma upd_ok p f b s : heap b !! p = Some s -> upd p f b = Ok (set_heap (<[p := f s]> (heap b)) b).
Proof. intros Hp. unfold upd. by rewrite Hp. Qed.

(** The states that differ from [b] in the object at [p] and the callbacks. *)
Section At.
Variables (b : SessionBase) (p : addr).
Definition at_ (s : HdcSession) (l : list Callback) : SessionBase :=
  set_loopMain l (set_heap (<[p := s]> (heap b)) b).

Lemma at_id s : heap b !! p = Some s -> b = at_ s (loopMain b).
Proof. intros Hp. unfold at_. rewrite insert_id by done. by destruct b. Qed.

Lemma at_drop c s : heap b !! p = Some s -> drop_cb c b = at_ s (remove_one c (loopMain b)).
Proof. intros Hp. unfold at_, drop_cb. rewrite insert_id by done. by destruct b. Qed.

Lemma at_lookup s l : heap (at_ s l) !! p = Some s.
Proof. cbn. apply lookup_insert_eq. Qed.

Lemma at_upd f s l : upd p f (at_ s l) = Ok (at_ (f s) l).
Proof.
  unfold upd. rewrite at_lookup. cbn [deref mbind res_bind]. unfold at_, set_heap, set_loopMain. cbn.
  by rewrite insert_insert_eq.
Qed.

(** The fields teardown leaves alone. *)
Definition core (s' s : HdcSession) : Prop :=
  s_sessionId s' = s_sessionId s /\ s_ref s' = s_ref s /\ s_isDead s' = s_isDead s /\
  s_connType s' = s_connType s.

(** Closing one handle, now or later: [uvHandleRef] counts the pending closes and
    the [rem] handles still to be closed. *)
Lemma at_close (open : bool) s l pend rem :
  s_uvHandleRef s = Z.of_nat (pend + S rem) -> (pend + S rem <= 3)%nat ->
  exists s' pend', TryCloseSessionHandle p open (at_ s (l ++ replicate pend (CbClose p)))
    = Ok (at_ s' (l ++ replicate pend' (CbClose p))) /\ core s' s /\ s_ioBuf s' = s_ioBuf s /\
      s_uvHandleRef s' = Z.of_nat (pend' + rem) /\ (pend' + rem <= 3)%nat.
Proof.
  intros Hk Hle. unfold TryCloseSessionHandle, closeSessionTCPHandle. destruct open.
  - exists s, (S pend). rewrite replicate_S_end, app_assoc. split; [done|].
    unfold core. split_and!; auto; [rewrite Hk; f_equal|]; lia.
  - rewrite at_upd, Hk, uwrap_small by (unfold in_u; lia).
    eexists _, pend. split; [done|]. unfold core. cbn. split_and!; auto; lia.
Qed.

Lemma at_free_conn s l : exists s', FreeSessionByConnectType p (at_ s l) = Ok (at_ s' l) /\
  core s' s /\ s_uvHandleRef s' = s_uvHandleRef s /\ s_ioBuf s' = s_ioBuf s /\
  (s_hUSB s' = None \/ s_connType s' <> CONN_USB).
Proof.
  unfold FreeSessionByConnectType. rewrite at_lookup. cbn [deref mbind res_bind].
  destruct (s_connType s =? CONN_USB) eqn:E1; rewrite ?at_upd; cbn [mbind res_bind];
    destruct (s_connType s =? CONN_SERIAL) eqn:E2; rewrite ?at_upd;
    (eexists; split; [reflexivity|]); breflect; unfold core; cbn; split_and!; auto.
Qed.
End At.

(** [FreeSessionContinue] ends with one [CbFinally] and as many pending closes
    as [uvHandleRef] counts. *)
Lemma FreeSessionContinue_ok opens p b s l : s_uvHandleRef s = all_handles s ->
  exists s' k, FreeSessionContinue opens p (at_ b p s l)
    = Ok (at_ b p s' (l ++ replicate k (CbClose p) ++ [CbFinally p])) /\ core s' s /\
    s_uvHandleRef s' = Z.of_nat k /\ (k <= 3)%nat /\
    s_ioBuf s' = false /\ (s_hUSB s' = None \/ s_connType s' <> CONN_USB).
Proof.
  intros Hu. unfold FreeSessionContinue. rewrite at_lookup. cbn [deref mbind res_bind].
  unfold all_handles in Hu. destruct opens as [[o1 o2] o3]. cbn [fst snd].
  assert (exists s1 k1, (if s_connType s =? CONN_TCP then TryCloseSessionHandle p o1 (at_ b p s l)
      else Ok (at_ b p s l)) = Ok (at_ b p s1 (l ++ replicate k1 (CbClose p))) /\ core s1 s /\
      s_uvHandleRef s1 = Z.of_nat (k1 + 2) /\ (k1 + 2 <= 3)%nat) as (s1 & k1 & -> & H1 & H2 & H3).
  { destruct (s_connType s =? CONN_TCP).
    - destruct (at_close b p o1 s l 0 2) as (s1 & k1 & He & H1 & _ & H2 & H3); [done|lia|].
      rewrite app_nil_r in He. eauto 10.
    - exists s, 0%nat. rewrite app_nil_r. unfold core. split_and!; auto. }
  cbn [mbind res_bind]. rewrite at_upd. cbn [mbind res_bind].
  destruct (at_close b p o2 (clear_io s1) l k1 1) as (s2 & k2 & -> & H4 & H5 & H6 & H7); [done|lia|].
  cbn [mbind res_bind].
  destruct (at_close b p o3 s2 l k2 0) as (s3 & k3 & -> & H8 & H9 & H10 & H11); [done|lia|].
  cbn [mbind res_bind].
  destruct (at_free_conn b p s3 (l ++ replicate k3 (CbClose p))) as (s4 & -> & H12 & H13 & H14 & H15).
  cbn [mbind res_bind]. exists s4, k3. split; [by rewrite app_assoc|].
  unfold core in *. cbn in H4, H5. rewrite Nat.add_0_r in *. split_and!; intuition congruence.
Qed.

Lemma inv_at b p s s' l' :
  inv b -> heap b !! p = Some s -> s_sessionId s' = s_sessionId s -> s_ref s' = s_ref s ->
  (forall q, q <> p -> cbs_of q l' = cbs_of q (loopMain b)) ->
  phase p s' (cbs_of p l') -> inv (at_ b p s' l').
Proof.
  intros HI Hp Hid Href Hl Hph. destruct (inv_heap _ _ _ _ _ HI p s Hp) as (_ & Hr & _).
  apply (Inv_change HI p s s' l' (inflight b)); auto; congruence.
Qed.

(** The session a callback holds is allocated, and its stage is known. *)
Lemma cb_session b c p : inv b -> cb_addr c = Some p -> List.In c (loopMain b) ->
  exists s, heap b !! p = Some s /\ phase p s (cbs_of p (loopMain b)) /\ List.In c (cbs_of p (loopMain b)).
Proof.
  intros HI Hc Hin. apply (cbs_of_In p) in Hin; [|done]. destruct (heap b !! p) as [s|] eqn:Hp.
  - exists s. split_and!; auto. apply (inv_heap _ _ _ _ _ HI p s Hp).
  - by rewrite (inv_dangling _ _ _ _ _ HI p Hp) in Hin.
Qed.

Lemma In_final p n l c : l ≡ₚ CbFinally p :: replicate n (CbClose p) -> List.In c l ->
  c = CbFinally p \/ c = CbClose p /\ (0 < n)%nat.
Proof.
  intros Hl Hin. apply list_elem_of_In in Hin. rewrite Hl in Hin. apply elem_of_cons in Hin as [->|Hin]; [by left|].
  apply elem_of_replicate in Hin as [-> Hn]. right. split; [done|lia].
Qed.

Lemma AddDeletedSessionId_fields host sid b :
  let b' := AddDeletedSessionId host sid b in
  heap b' = heap b /\ mapSession b' = mapSession b /\ sessionRef b' = sessionRef b /\
  loopMain b' = loopMain b /\ inflight b' = inflight b /\ lstMainThreadOP b' = lstMainThreadOP b.
Proof.
  unfold AddDeletedSessionId. case_if_goal; [done|]. case_if_goal; [|done].
  destruct (deletedQueue b ++ [sid]); done.
Qed.

Lemma FreeSession_inv host onMain sid b : inv b -> exists b', FreeSession host onMain sid b = Ok b' /\ inv b'.
Proof.
  intros HI. unfold FreeSession.
  destruct (AddDeletedSessionId_fields host sid b) as (Hh & Hm & Hn & Hl & Hf & _).
  set (b0 := AddDeletedSessionId host sid b) in *.
  assert (HI0 : inv b0) by (unfold inv; by rewrite Hh, Hm, Hn, Hl, Hf). clearbody b0. clear Hh Hm Hn Hl Hf HI b.
  destruct onMain; cbn [negb]; [|eexists; split; [done|exact HI0]].
  unfold AdminSession. cbn [Z.eqb OP_QUERY OP_ADD OP_REMOVE Pos.eqb mbind res_bind].
  destruct (om_find sid (mapSession b0)) as [p|] eqn:Hq; [|by eexists].
  destruct (inv_table _ _ _ _ _ HI0 _ _ Hq) as (s & Hp & Hid). rewrite Hp. cbn [deref mbind res_bind].
  destruct (s_isDead s) eqn:Hd; [by eexists|].
  rewrite (upd_ok _ _ _ s Hp). cbn [mbind res_bind]. eexists; split; [done|].
  destruct (inv_heap _ _ _ _ _ HI0 p s Hp) as (_ & _ & Hph).
  apply (inv_at b0 p s (set_isDead true s) (loopMain b0 ++ [CbOperate p])); auto.
  - intros q Hne. apply cbs_of_push_ne. cbn. intros [= ->]. done.
  - rewrite cbs_of_push_eq by done. inversion Hph; try congruence. apply ph_operate; done.
Qed.

Lemma Operate_inv host opens p b : inv b -> List.In (CbOperate p) (loopMain b) ->
  exists b', FreeSessionOpeate host opens p b = Ok b' /\ inv b'.
Proof.
  intros HI Hin. destruct (cb_session b (CbOperate p) p HI eq_refl Hin) as (s & Hp & Hph & Hc).
  unfold FreeSessionOpeate. rewrite Hp. cbn [deref mbind res_bind].
  case_if_goal; [by eexists|]. case_if_goal; [by eexists|].
  inversion Hph as [Hd Hu Hl|Hd Hu Hl|Hd Hu Hwl Hl|n l Hd Hu Hn Hio Hus Hl]; subst.
  1: by rewrite <- Hl in Hc.
  2: { rewrite <- Hl in Hc. by destruct Hc. }
  2: { by apply (In_final p n) in Hc as [?|[? ?]]. }
  assert (Hcb : cbs_of p (loopMain b) = [CbOperate p]) by done.
  destruct (s_workLoop s) eqn:Hwk; cbn [mbind res_bind].
  - eexists; split; [done|]. rewrite (at_id b p s Hp).
    apply (inv_at b p s s (remove_one (CbOperate p) (loopMain b ++ [CbCheckChild p]))); auto.
    + intros q Hne. rewrite cbs_of_drop_ne, cbs_of_push_ne by (cbn; congruence). done.
    + rewrite cbs_of_drop_eq, cbs_of_push_eq, Hcb by done. cbn [app remove_one].
      rewrite decide_True by done. by apply ph_check.
  - rewrite (at_id b p s Hp).
    destruct (FreeSessionContinue_ok opens p b s (loopMain b) Hu) as (s' & k & -> & Hco & Hk & Hk3 & Hio & Husb).
    cbn [mbind res_bind]. eexists; split; [done|].
    destruct Hco as (H1 & H2 & H3 & H4).
    apply (inv_at b p s s' (remove_one (CbOperate p) (loopMain b ++ replicate k (CbClose p) ++ [CbFinally p]))); auto.
    + intros q Hne. rewrite cbs_of_drop_ne by (cbn; congruence).
      rewrite app_assoc, cbs_of_push_ne by (cbn; congruence). by apply cbs_of_closes_ne.
    + rewrite cbs_of_drop_eq, app_assoc, cbs_of_push_eq, cbs_of_closes_eq, Hcb by done.
      cbn [app remove_one]. rewrite decide_True by done.
      apply (ph_final _ _ k); auto; [congruence|]. by rewrite Permutation_app_comm.
Qed.

Lemma Check_inv opens p b : inv b -> List.In (CbCheckChild p) (loopMain b) ->
  exists b', callbackCheckFreeSessionContinue opens p b = Ok b' /\ inv b'.
Proof.
  intros HI Hin. destruct (cb_session b (CbCheckChild p) p HI eq_refl Hin) as (s & Hp & Hph & Hc).
  unfold callbackCheckFreeSessionContinue. rewrite Hp. cbn [deref mbind res_bind].
  case_if_goal; [by eexists|].
  inversion Hph as [Hd Hu Hl|Hd Hu Hl|Hd Hu Hwl Hl|n l Hd Hu Hn Hio Hus Hl]; subst.
  1: by rewrite <- Hl in Hc.
  1: { rewrite <- Hl in Hc. by destruct Hc. }
  2: { by apply (In_final p n) in Hc as [?|[? ?]]. }
  assert (Hcb : cbs_of p (loopMain b) = [CbCheckChild p]) by done.
  rewrite (at_drop b p (CbCheckChild p) s Hp).
  destruct (FreeSessionContinue_ok opens p b s (remove_one (CbCheckChild p) (loopMain b)) Hu)
    as (s' & k & -> & Hco & Hk & Hk3 & Hio & Husb).
  eexists; split; [done|]. destruct Hco as (H1 & H2 & H3 & H4). apply (inv_at b p s); auto.
  - intros q Hne. rewrite app_assoc, cbs_of_push_ne by (cbn; congruence).
    rewrite cbs_of_closes_ne, cbs_of_drop_ne by (cbn; congruence). done.
  - rewrite app_assoc, cbs_of_push_eq, cbs_of_closes_eq, cbs_of_drop_eq, Hcb by done.
    cbn [app remove_one]. rewrite decide_True by done.
    apply (ph_final _ _ k); auto; [congruence|]. by rewrite Permutation_app_comm.
Qed.

Lemma Close_inv p b : inv b -> List.In (CbClose p) (loopMain b) ->
  exists b', closeSessionTCPHandle p (drop_cb (CbClose p) b) = Ok b' /\ inv b'.
Proof.
  intros HI Hin. destruct (cb_session b (CbClose p) p HI eq_refl Hin) as (s & Hp & Hph & Hc).
  inversion Hph as [Hd Hu Hl|Hd Hu Hl|Hd Hu Hwl Hl|n l Hd Hu Hn Hio Hus Hl]; subst;
    [by rewrite <- Hl in Hc|rewrite <- Hl in Hc; by destruct Hc..|].
  destruct (In_final p n _ _ Hl Hc) as [?|[_ Hn0]]; [done|]. destruct n as [|n]; [lia|].
  unfold closeSessionTCPHandle. erewrite upd_ok by (cbn; exact Hp). eexists; split; [done|].
  rewrite Hu, uwrap_small by (unfold in_u; lia).
  apply (inv_at b p s (set_uvHandleRef (Z.of_nat (S n) - 1) s) (remove_one (CbClose p) (loopMain b))); auto.
  - intros q Hne. apply cbs_of_drop_ne. cbn. congruence.
  - rewrite cbs_of_drop_eq by done. apply (ph_final _ _ n); cbn; auto; [lia|lia|].
    apply list_elem_of_In in Hc. apply (Permutation_cons_inv (a := CbClose p)). rewrite <- (remove_one_perm _ _ Hc), Hl.
    apply Permutation_swap.
Qed.

Lemma Finally_inv p b : inv b -> List.In (CbFinally p) (loopMain b) ->
  exists b', FreeSessionFinally p b = Ok b' /\ inv b'.
Proof.
  intros HI Hin. destruct (cb_session b (CbFinally p) p HI eq_refl Hin) as (s & Hp & Hph & Hc).
  unfold FreeSessionFinally. rewrite Hp. cbn [deref mbind res_bind]. case_if_goal; [by eexists|]. breflect.
  inversion Hph as [Hd Hu Hl|Hd Hu Hl|Hd Hu Hwl Hl|n l Hd Hu Hn Hio Hus Hl]; subst;
    [by rewrite <- Hl in Hc|rewrite <- Hl in Hc; by destruct Hc..|].
  assert (n = 0%nat) as -> by lia. cbn [replicate] in Hl. apply Permutation_singleton_r in Hl.
  unfold AdminSession. cbn [Z.eqb OP_REMOVE OP_ADD mbind res_bind]. eexists; split; [done|].
  unfold inv. cbn [heap mapSession sessionRef loopMain inflight set_sessionRef drop_cb set_loopMain set_heap set_mapSession].
  split.
  - intros id q Hq. destruct (decide (id = s_sessionId s)) as [->|Hne]; [by rewrite om_find_erase_eq in Hq|].
    rewrite om_find_erase_ne in Hq by done. destruct (inv_table _ _ _ _ _ HI _ _ Hq) as (t & Ht & Hi).
    exists t. rewrite lookup_delete_ne by congruence. done.
  - intros q t Hq. apply lookup_delete_Some in Hq as [Hne Hq].
    destruct (inv_heap _ _ _ _ _ HI q t Hq) as (Ht & Hr & Hpq).
    split_and!; auto; [|by rewrite cbs_of_drop_ne by (cbn; congruence)].
    rewrite om_find_erase_ne; [done|]. intros Heq. destruct (inv_heap _ _ _ _ _ HI p s Hp) as (Hs & _).
    rewrite Heq in Ht. congruence.
  - intros q Hq. destruct (decide (q = p)) as [->|Hne].
    + rewrite cbs_of_drop_eq, Hl by done. cbn. by rewrite decide_True.
    + rewrite lookup_delete_ne in Hq by done. rewrite cbs_of_drop_ne by (cbn; congruence).
      by apply (inv_dangling _ _ _ _ _ HI).
  - rewrite (inv_ref _ _ _ _ _ HI). rewrite map_size_delete, Hp.
    assert (size (heap b) <> 0%nat) by (apply map_size_ne_0_lookup; by exists p, s).
    unfold uwrap. rewrite Zminus_mod_idemp_l. f_equal. lia.
  - apply om_sorted_erase, HI.
Qed.

Lemma Async_inv host a b : inv b -> exists b', AsyncMainLoopTask host a b = Ok b' /\ inv b'.
Proof.
  intros HI. unfold AsyncMainLoopTask.
  assert (exists b1, (if a_method a =? ASYNC_FREE_SESSION then FreeSession host true (a_sid a) b
      else if a_method a =? ASYNC_STOP_MAINLOOP then Ok (set_stopped true b) else Ok b) = Ok b1 /\ inv b1)
    as (b1 & -> & HI1).
  { case_if_goal; [by apply FreeSession_inv|]. case_if_goal; by eexists. }
  cbn [mbind res_bind]. eexists; split; [done|]. apply (Inv_loop HI1). intros q. by apply cbs_of_drop_ne.
Qed.

Lemma run_cb_inv host opens c b : inv b -> List.In c (loopMain b) ->
  exists b', run_cb host opens c b = Ok b' /\ inv b'.
Proof.
  intros HI Hin. destruct c; cbn [run_cb];
    eauto using Operate_inv, Check_inv, Finally_inv, Close_inv, Async_inv.
Qed.

(** A successful [MallocSession] adds one live session under an unused id. *)
Lemma MallocSession_ok env sod ct cm sid b p b' :
  MallocSession env sod ct cm sid b = Ok (Some p, b') ->
  sid = 0 \/ om_find sid (mapSession b) = None ->
  exists s, p = e_addr env /\ heap b' = <[p := s]> (heap b) /\
    mapSession b' = om_set (s_sessionId s) p (mapSession b) /\ om_find (s_sessionId s) (mapSession b) = None /\
    sessionRef b' = u32 (sessionRef b + 1) /\ loopMain b' = loopMain b /\ inflight b' = inflight b /\
    s_isDead s = false /\ s_ref s = 0 /\ s_uvHandleRef s = all_handles s /\ s_connType s = ct.
Proof.
  intros Hm Hfree. unfold MallocSession in Hm. destruct (e_new env); [|done]. cbn [negb] in Hm.
  assert (Huid : forall uids b0 x, GetSessionPseudoUid uids b0 = Ok x -> om_find x (mapSession b0) = None).
  { induction uids as [|u uids IH]; [done|]. intros b0 x. cbn [GetSessionPseudoUid].
    unfold AdminSession. cbn [Z.eqb OP_QUERY OP_ADD OP_REMOVE Pos.eqb mbind res_bind].
    destruct (om_find u (mapSession b0)) eqn:E; [apply IH|]. by intros [= ->]. }
  set (b0 := set_sessionRef _ b) in Hm.
  destruct (if sid =? 0 then _ else _) as [sid'| | |] eqn:Es; try done. cbn [mbind res_bind] in Hm.
  assert (Hnone : om_find sid' (mapSession b) = None).
  { destruct (sid =? 0) eqn:E; breflect.
    - apply (Huid _ _ _ Es).
    - injection Es as <-. by destruct Hfree. }
  destruct (negb (e_mapTask env) || negb (e_listKey env)); [done|].
  set (s0 := mkSession _ _ _ _ _ _ _ _ _ _ _ _ _ _) in Hm.
  change (set_heap (<[e_addr env := s0]> (heap b0)) b0) with (at_ b0 (e_addr env) s0 (loopMain b0)) in Hm.
  rewrite at_upd in Hm. cbn [mbind res_bind] in Hm. destruct (e_poll env); [|done]. cbn [negb] in Hm.
  destruct (e_pollInit env); [|done]. cbn [negb] in Hm. rewrite at_upd in Hm. cbn [mbind res_bind] in Hm.
  destruct (e_dataFd env); [|done]. cbn [negb] in Hm. unfold MallocSessionByConnectType in Hm.
  rewrite at_lookup in Hm. cbn [deref mbind res_bind s_connType set_uvHandleRef s0] in Hm.
  unfold AdminSession in Hm. cbn [OP_ADD Z.eqb] in Hm.
  destruct (ct =? CONN_TCP) eqn:E1; [|destruct (ct =? CONN_USB) eqn:E2; [|destruct (ct =? CONN_SERIAL) eqn:E3; [|done]]];
    [destruct (e_tcpInit env); [|done]|destruct (e_usb env); [|done]|];
    rewrite at_upd in Hm; cbn [mbind res_bind deref negb Z.eqb] in Hm; injection Hm as <- <-;
    (eexists; split; [done|]; split; [done|]); cbn; unfold all_handles; cbn; rewrite E1; split_and!; done.
Qed.

Lemma Malloc_inv env sod ct cm sid b p b' : inv b ->
  MallocSession env sod ct cm sid b = Ok (Some p, b') ->
  heap b !! e_addr env = None -> e_addr env ∉ inflight b ->
  sid = 0 \/ om_find sid (mapSession b) = None -> inv b'.
Proof.
  intros HI Hm Hfresh Hfl Hfree.
  destruct (MallocSession_ok _ _ _ _ _ _ _ _ Hm Hfree) as (s & -> & Hh & Hmap & Hno & Hn & Hl & Hf & Hd & Hr & Hu & _).
  unfold inv. rewrite Hh, Hmap, Hn, Hl, Hf. split.
  - intros id q Hq. destruct (decide (id = s_sessionId s)) as [->|Hne].
    + rewrite om_find_set_eq in Hq. injection Hq as <-. exists s. by rewrite lookup_insert_eq.
    + rewrite om_find_set_ne in Hq by done. destruct (inv_table _ _ _ _ _ HI _ _ Hq) as (t & Ht & Hi).
      exists t. rewrite lookup_insert_ne by congruence. done.
  - intros q t Hq. apply lookup_insert_Some in Hq as [[<- <-]|[Hne Hq]].
    + rewrite om_find_set_eq. split_and!; [done| |].
      * rewrite Hr. rewrite (proj1 (count_occ_not_In Z.eq_dec _ _)); [done|]. by rewrite <- list_elem_of_In.
      * rewrite (inv_dangling _ _ _ _ _ HI _ Hfresh). by apply ph_live.
    + destruct (inv_heap _ _ _ _ _ HI q t Hq) as (Ht & Hrq & Hpq). split_and!; auto.
      rewrite om_find_set_ne; [done|]. congruence.
  - intros q Hq. apply lookup_insert_None in Hq as [Hq _]. by apply (inv_dangling _ _ _ _ _ HI).
  - rewrite (inv_ref _ _ _ _ _ HI), map_size_insert_None by done.
    unfold uwrap. rewrite Zplus_mod_idemp_l. f_equal. lia.
  - apply om_sorted_set, HI.
Qed.

Lemma SendBegin_inv sid b : inv b -> exists r, SendBegin sid b = Ok r /\ inv r.2 /\
  (r.1 = om_find sid (mapSession b)).
Proof.
  intros HI. unfold SendBegin, AdminSession. cbn [Z.eqb OP_QUERY_REF OP_QUERY OP_ADD OP_REMOVE Pos.eqb].
  destruct (om_find sid (mapSession b)) as [p|] eqn:Hq; [|by eexists].
  destruct (inv_table _ _ _ _ _ HI _ _ Hq) as (s & Hp & _).
  rewrite (upd_ok _ _ _ s Hp). cbn [mbind res_bind]. eexists; split; [done|]. split; [|done].
  destruct (inv_heap _ _ _ _ _ HI p s Hp) as (_ & Hr & Hph).
  apply (Inv_change HI p s _ _ (p :: inflight b)); auto.
  - cbn [s_ref set_ref count_occ]. destruct (Z.eq_dec p p); [|done]. rewrite Hr.
    unfold uwrap. rewrite Zplus_mod_idemp_l. f_equal. lia.
  - intros q Hne. cbn [count_occ]. destruct (Z.eq_dec p q); [congruence|done].
  - by apply (phase_touch p s).
Qed.

Lemma SendEnd_inv p b b' : inv b -> List.In p (inflight b) -> SendEnd p b = Ok b' -> inv b'.
Proof.
  intros HI Hin Hs. unfold SendEnd, upd in Hs. destruct (heap b !! p) as [s|] eqn:Hp; [|done].
  cbn [deref mbind res_bind] in Hs. injection Hs as <-.
  destruct (inv_heap _ _ _ _ _ HI p s Hp) as (_ & Hr & Hph).
  apply (Inv_change HI p s _ _ (remove_one p (inflight b))); auto.
  - cbn [s_ref set_ref]. rewrite count_remove_one, Hr by done. unfold uwrap. by rewrite Zminus_mod_idemp_l.
  - intros q Hne. by apply count_remove_one_ne.
  - by apply (phase_touch p s).
Qed.

Lemma PushAsync_fields sid method data b :
  let b' := PushAsyncMessage sid method data b in
  heap b' = heap b /\ mapSession b' = mapSession b /\ sessionRef b' = sessionRef b /\
  loopMain b' = loopMain b /\ inflight b' = inflight b.
Proof. unfold PushAsyncMessage. case_if_goal; done. Qed.

Lemma step_inv host b b' : inv b -> step host b b' -> inv b'.
Proof.
  intros HI Hs. destruct Hs as [c opens b b' Hin Hr|env sod ct cm sid b p b' Hm H1 H2 H3|om sid b b' Hf|b|r b|sid b r Hs
      |p b b' Hin Hs|p s b b' Hp Hd Hu|p b b' Hu|p u u' s b b' Hp Hus Hu].
  - destruct (run_cb_inv host opens c b HI Hin) as (b1 & He & HI1). congruence.
  - eapply Malloc_inv; eauto.
  - destruct (FreeSession_inv host om sid b HI) as (b1 & He & HI1). congruence.
  - apply (Inv_loop HI). intros q. apply cbs_of_async.
  - exact HI.
  - destruct (SendBegin_inv sid b HI) as (r' & He & HI1 & _). congruence.
  - eapply SendEnd_inv; eauto.
  - rewrite (upd_ok _ _ _ s Hp) in Hu. injection Hu as <-. by apply (Inv_touch HI p s).
  - unfold upd in Hu. destruct (heap b !! p) as [s|] eqn:Hp; [|done]. injection Hu as <-. by apply (Inv_touch HI p s).
  - rewrite (upd_ok _ _ _ s Hp) in Hu. injection Hu as <-. apply (Inv_touch HI p s); auto. congruence.
Qed.

Lemma reachable_inv host b : reachable host b -> inv b.
Proof.
  induction 1 as [sod|b b' _ IH Hs]; [|by eapply step_inv].
  split; cbn; try done. constructor.
Qed.

(** C3. Life-time safety of sessions: in every reachable state, whatever the
    order of main-loop callbacks, frees from any thread, sends and work-thread
    events, each session in the table is allocated under its own id, every
    callback the main loop still holds points to an allocated session, and
    running any of them completes without touching freed memory; an allocated
    session that is being torn down has exactly one pending teardown callback,
    and [sessionRef] counts the allocated sessions. *)
Theorem session_lifetime_safe (host : bool) (b : SessionBase) :
  reachable host b ->
  (forall id p, om_find id (mapSession b) = Some p -> exists s, heap b !! p = Some s /\ s_sessionId s = id) /\
  (forall c p, List.In c (loopMain b) -> cb_addr c = Some p -> is_Some (heap b !! p)) /\
  (forall c opens, List.In c (loopMain b) -> exists b', run_cb host opens c b = Ok b') /\
  (forall p s, heap b !! p = Some s -> phase p s (cbs_of p (loopMain b))) /\
  sessionRef b = u32 (Z.of_nat (size (heap b))).
Proof.
  intros HI%reachable_inv. split_and!.
  - apply HI.
  - intros c p Hin Hc. destruct (cb_session b c p HI Hc Hin) as (s & -> & _). by eexists.
  - intros c opens Hin. destruct (run_cb_inv host opens c b HI Hin) as (b' & He & _). by exists b'.
  - intros p s Hp. apply (inv_heap _ _ _ _ _ HI p s Hp).
  - apply HI.
Qed.

Definition env1 : MallocEnv := mkMallocEnv 100 true true true true true true true true [7; 8].
Definition opens1 : bool * bool * bool := (true, true, true).
(** A TCP session is created and freed. *)
Definition trace1 : SessionBase :=
  match MallocSession env1 true CONN_TCP true 0 (initial true) with
  | Ok (_, b) => match FreeSession true true 7 b with Ok b' => b' | _ => b end
  | _ => initial true
  end.

Lemma trace1_reachable : reachable true trace1.
Proof.
  destruct (MallocSession env1 true CONN_TCP true 0 (initial true)) as [[[p|] b]| | |] eqn:E; try by vm_compute in E.
  destruct (FreeSession true true 7 b) as [b'| | |] eqn:E2;
    try (vm_compute in E; injection E as <- <-; by vm_compute in E2).
  assert (trace1 = b') as -> by (unfold trace1; by rewrite E, E2).
  eapply reach_step; [|exact (step_free true true 7 b b' E2)].
  eapply reach_step; [apply (reach_init true true)|].
  apply (step_malloc true env1 true CONN_TCP true 0 _ p b E); [done| |by left].
  cbn. intros ?%not_elem_of_nil. done.
Qed.

Lemma session_lifetime_safe_witness :
  reachable true trace1 /\ loopMain trace1 = [CbOperate 100] /\
  exists b', run_cb true opens1 (CbOperate 100) trace1 = Ok b'.
Proof.
  split; [apply trace1_reachable|]. assert (loopMain trace1 = [CbOperate 100]) as Hl by (vm_compute; reflexivity).
  split; [exact Hl|]. apply (session_lifetime_safe true trace1 trace1_reachable). rewrite Hl. by left.
Defined.

(** ** Sending *)

Lemma set_ref_back s : in_u 32 (s_ref s) ->
  let s1 := set_ref (u32 (s_ref s + 1)) s in set_ref (u32 (s_ref s1 - 1)) s1 = s.
Proof.
  intros Hr. destruct s. unfold set_ref; cbn in *. f_equal.
  unfold uwrap. rewrite Zminus_mod_idemp_l. rewrite Z.add_simpl_r. by apply Z.mod_small.
Qed.

(** [Send] on a consistent table returns on every path with the reference it
    took released and nothing else changed; it reports an unknown or dying
    session without transmitting anything, and otherwise hands the whole frame,
    once, to the transport of the session's connection type and returns what
    that transport returned. *)
Theorem send_balanced (xmit : Transport -> bytes -> Z) (sameThread allocOk : bool)
    (sid channelId command : Z) (data : bytes) (b : SessionBase) :
  inv b ->
  exists ret out b', Send xmit sameThread allocOk sid channelId command data b = Ok (ret, out, b') /\
    heap b' = heap b /\ mapSession b' = mapSession b /\ loopMain b' = loopMain b /\
    inflight b' = inflight b /\ sessionRef b' = sessionRef b /\
    (om_find sid (mapSession b) = None -> ret = ERR_SESSION_NOFOUND /\ out = []) /\
    (forall p s frame, om_find sid (mapSession b) = Some p -> heap b !! p = Some s ->
       allocOk = true -> BuildFrame channelId command data = inr frame ->
       (s_isDead s = true -> ret = ERR_SESSION_NOFOUND /\ out = []) /\
       (s_isDead s = false -> s_classModule s = true ->
          match out with
          | [] => ret = ERR_GENERIC /\ s_connType s <> CONN_TCP /\ s_connType s <> CONN_USB /\ s_connType s <> CONN_SERIAL
          | [(t, bs)] => bs = frame /\ ret = xmit t frame /\
              s_connType s = match t with ToUSB => CONN_USB | ToUART => CONN_SERIAL | _ => CONN_TCP end
          | _ => False
          end)).
Proof.
  intros HI. unfold Send, SendBegin, AdminSession.
  cbn [Z.eqb OP_QUERY_REF OP_QUERY OP_ADD OP_REMOVE Pos.eqb].
  destruct (om_find sid (mapSession b)) as [p|] eqn:Hq; cbn [mbind res_bind];
    [|do 3 eexists; split; [done|]; by split_and!].
  destruct (inv_table _ _ _ _ _ HI _ _ Hq) as (s & Hp & _).
  destruct (inv_heap _ _ _ _ _ HI p s Hp) as (_ & Hr & _).
  assert (Hu : in_u 32 (s_ref s)) by (rewrite Hr; by apply uwrap_range).
  rewrite (upd_ok _ _ _ s Hp). cbn [mbind res_bind].
  set (b1 := set_inflight _ _).
  assert (Hend : SendEnd p b1 = Ok (set_inflight (inflight b) (set_heap (heap b) b1))).
  { unfold SendEnd, b1. erewrite upd_ok by (cbn; apply lookup_insert_eq). cbn [mbind res_bind inflight heap set_heap set_inflight].
    cbn [remove_one]. rewrite decide_True by done. cbv beta.
    pose proof (set_ref_back s Hu) as Hback. cbv zeta in Hback. rewrite Hback.
    rewrite insert_insert_eq, insert_id by done. done. }
  destruct allocOk; cbn [negb]; [|rewrite Hend; cbn [mbind res_bind]; do 3 eexists; split; [done|]; cbn; by split_and!].
  destruct (BuildFrame channelId command data) as [err|fr];
    [rewrite Hend; cbn [mbind res_bind]; do 3 eexists; split; [done|]; cbn; by split_and!|].
  unfold SendByProtocol. cbn [heap b1 set_inflight set_heap]. rewrite lookup_insert_eq. cbn [deref mbind res_bind s_isDead set_ref s_classModule s_connType s_serverOrDaemon].
  destruct (s_isDead s) eqn:Hd; [|destruct (s_classModule s) eqn:Hcm; cbn [negb]].
  - cbn [mbind res_bind]. rewrite Hend. cbn [mbind res_bind]. do 3 eexists. split; [done|]. cbn. split_and!; try done.
    intros p' s' f [= <-] Hp' _ [= <-]. split; [done|congruence].
  - repeat (case_if_goal); cbn [mbind res_bind]; rewrite Hend; cbn [mbind res_bind];
      (do 3 eexists; split; [done|]; cbn; split_and!; try done;
       intros p' s' f [= <-] Hp' _ [= <-]; rewrite Hp in Hp'; injection Hp' as <-; breflect; split; [congruence|]; auto).
  - cbn [mbind res_bind]. rewrite Hend. cbn [mbind res_bind]. do 3 eexists. split; [done|]. cbn. split_and!; try done.
    intros p' s' f [= <-] Hp' _ [= <-]. split; congruence.
Qed.

(** One live TCP session with id 7 at address 100. *)
Definition live1 : SessionBase :=
  match MallocSession env1 true CONN_TCP true 0 (initial true) with Ok (_, b) => b | _ => initial true end.

Lemma live1_reachable : reachable true live1.
Proof.
  destruct (MallocSession env1 true CONN_TCP true 0 (initial true)) as [[[p|] b]| | |] eqn:E; try by vm_compute in E.
  assert (live1 = b) as -> by (unfold live1; by rewrite E).
  eapply reach_step; [apply (reach_init true true)|].
  apply (step_malloc true env1 true CONN_TCP true 0 _ p b E); [done| |by left].
  cbn. intros ?%not_elem_of_nil. done.
Qed.

Lemma send_balanced_witness :
  exists ret out b', Send (fun _ bs => zlen bs) true true 7 1 CMD_UNITY_EXECUTE (str "ls") live1 = Ok (ret, out, b') /\
    heap b' = heap live1 /\ exists bs, out = [(ToWorkTCP, bs)] /\ ret = zlen bs.
Proof.
  destruct (send_balanced (fun _ bs => zlen bs) true true 7 1 CMD_UNITY_EXECUTE (str "ls") live1
    (reachable_inv true live1 live1_reachable)) as (ret & out & b' & He & Hh & _).
  exists ret, out, b'. split; [exact He|]. split; [exact Hh|].
  vm_compute in He. injection He as <- <- _. eexists. split; reflexivity.
Defined.

(** ** Teardown completes *)

(** The main loop runs these callbacks in this order. *)
Inductive runs (host : bool) : SessionBase -> list Callback -> SessionBase -> Prop :=
| runs_nil b : runs host b [] b
| runs_cons c opens cs b b1 b' : List.In c (loopMain b) -> run_cb host opens c b = Ok b1 ->
    runs host b1 cs b' -> runs host b (c :: cs) b'.

Lemma runs_app host b cs b1 cs' b' : runs host b cs b1 -> runs host b1 cs' b' -> runs host b (cs ++ cs') b'.
Proof. induction 1; [done|]. intros. cbn [app]. econstructor; eauto. Qed.

(** From the last stage: the pending closes complete, then the object goes. *)
Lemma final_runs host p : forall n b s, inv b -> heap b !! p = Some s ->
  s_isDead s = true -> s_uvHandleRef s = Z.of_nat n -> (n <= 3)%nat ->
  cbs_of p (loopMain b) ≡ₚ CbFinally p :: replicate n (CbClose p) ->
  exists cs b', runs host b cs b' /\ heap b' !! p = None /\ om_find (s_sessionId s) (mapSession b') = None.
Proof.
  assert (Hcb : forall b c, c ∈ cbs_of p (loopMain b) -> List.In c (loopMain b)).
  { intros b c Hc. apply list_elem_of_filter in Hc as [_ Hc]. by apply list_elem_of_In. }
  induction n as [|n IH]; intros b s HI Hp Hd Hu Hn Hl.
  - assert (Hin : List.In (CbFinally p) (loopMain b)) by (apply Hcb; rewrite Hl; left).
    destruct (Finally_inv p b HI Hin) as (b' & He & _). exists [CbFinally p], b'. split.
    { eapply (runs_cons _ _ (true, true, true)); [exact Hin|exact He|constructor]. }
    unfold FreeSessionFinally in He. rewrite Hp in He. cbn [deref mbind res_bind] in He. rewrite Hu in He.
    cbn [Z.of_nat Z.ltb Z.compare AdminSession Z.eqb OP_REMOVE OP_ADD mbind res_bind] in He.
    unfold AdminSession in He. cbn [Z.eqb OP_REMOVE OP_ADD mbind res_bind] in He. injection He as <-.
    cbn. split; [apply lookup_delete_eq|apply om_find_erase_eq].
  - assert (Hc : CbClose p ∈ cbs_of p (loopMain b)) by (rewrite Hl; right; left).
    destruct (Close_inv p b HI (Hcb _ _ Hc)) as (b1 & He & HI1). pose proof He as He'.
    unfold closeSessionTCPHandle in He'. erewrite upd_ok in He' by (cbn; exact Hp). injection He' as Hb1.
    destruct (IH b1 (set_uvHandleRef (Z.of_nat n) s)) as (cs & b' & Hr & H1 & H2); auto.
    + subst b1. cbn. rewrite lookup_insert_eq, Hu, uwrap_small by (unfold in_u; lia). do 2 f_equal. lia.
    + lia.
    + subst b1. cbn [loopMain set_heap drop_cb set_loopMain]. rewrite cbs_of_drop_eq by done.
      apply (Permutation_cons_inv (a := CbClose p)). rewrite <- (remove_one_perm _ _ Hc), Hl. apply Permutation_swap.
    + exists (CbClose p :: cs), b'. split; [|done].
      eapply (runs_cons _ _ (true, true, true)); [apply Hcb, Hc|exact He|exact Hr].
Qed.

(** A callback of [p] is in the loop. *)
Lemma cbs_of_loop p c l : c ∈ cbs_of p l -> List.In c l.
Proof. intros Hc. apply list_elem_of_filter in Hc as [_ Hc]. by apply list_elem_of_In. Qed.

(** From the state [FreeSessionContinue] leaves behind. *)
Lemma continue_runs host p b s s' l k b1 :
  core s' s -> s_isDead s = true -> s_uvHandleRef s' = Z.of_nat k -> (k <= 3)%nat ->
  b1 = at_ b p s' l -> inv b1 -> cbs_of p l ≡ₚ replicate k (CbClose p) ++ [CbFinally p] ->
  exists cs b', runs host b1 cs b' /\ heap b' !! p = None /\ om_find (s_sessionId s) (mapSession b') = None.
Proof.
  intros (Hid & _ & Hd' & _) Hd Hk Hk3 -> HI Hl.
  destruct (final_runs host p k _ s' HI) as (cs & b' & Hruns & H1 & H2); auto; [apply at_lookup|congruence| |].
  - cbn [loopMain at_ set_loopMain]. by rewrite Hl, Permutation_app_comm.
  - exists cs, b'. by rewrite <- Hid.
Qed.

Lemma check_runs host p b s : inv b -> heap b !! p = Some s -> s_isDead s = true -> s_childCleared s = true ->
  s_uvHandleRef s = all_handles s -> cbs_of p (loopMain b) = [CbCheckChild p] ->
  exists cs b', runs host b cs b' /\ heap b' !! p = None /\ om_find (s_sessionId s) (mapSession b') = None.
Proof.
  intros HI Hp Hd Hcc Hu Hl. set (opens := (true, true, true)).
  assert (Hc : List.In (CbCheckChild p) (loopMain b)) by (apply (cbs_of_loop p); rewrite Hl; left).
  destruct (Check_inv opens p _ HI Hc) as (b1 & He & HI1). pose proof He as He'.
  unfold callbackCheckFreeSessionContinue in He'. rewrite Hp in He'. cbn [deref mbind res_bind] in He'.
  rewrite Hcc in He'. cbn [negb] in He'. rewrite (at_drop b p _ s Hp) in He'.
  destruct (FreeSessionContinue_ok opens p b s (remove_one (CbCheckChild p) (loopMain b)) Hu)
    as (s' & k & Hc' & Hco & Hk & Hk3 & _). rewrite Hc' in He'. injection He' as Hb1.
  edestruct (continue_runs host p b s s' _ k b1 Hco Hd Hk Hk3 (eq_sym Hb1) HI1) as (cs & b' & Hruns & H).
  - rewrite app_assoc, cbs_of_push_eq, cbs_of_closes_eq, cbs_of_drop_eq, Hl by done.
    cbn [remove_one]. by rewrite decide_True by done.
  - exists (CbCheckChild p :: cs), b'. split; [|exact H].
    eapply (runs_cons _ _ opens); [exact Hc|exact He|exact Hruns].
Qed.

Lemma operate_runs host p b s : inv b -> heap b !! p = Some s -> s_isDead s = true ->
  s_ref s = 0 -> (s_workLoop s = true -> s_childCleared s = true) ->
  (host = true -> forall u, s_hUSB s = Some u -> u_bulkShutdown u = true) ->
  s_uvHandleRef s = all_handles s -> cbs_of p (loopMain b) = [CbOperate p] ->
  exists cs b', runs host b cs b' /\ heap b' !! p = None /\ om_find (s_sessionId s) (mapSession b') = None.
Proof.
  intros HI Hp Hd Hr Hw Husb Hu Hl. set (opens := (true, true, true)).
  assert (Hc : List.In (CbOperate p) (loopMain b)) by (apply (cbs_of_loop p); rewrite Hl; left).
  destruct (Operate_inv host opens p b HI Hc) as (b1 & He & HI1). pose proof He as He'.
  unfold FreeSessionOpeate in He'. rewrite Hp in He'. cbn [deref mbind res_bind] in He'.
  assert (host && match s_hUSB s with Some u => negb (u_bulkShutdown u) | None => false end = false) as Hus.
  { destruct host; [|done]. destruct (s_hUSB s) eqn:E; [|done]. by rewrite (Husb eq_refl _ eq_refl). }
  rewrite Hus, Hr in He'. cbn [Z.ltb Z.compare] in He'.
  assert (exists cs b', runs host b1 cs b' /\ heap b' !! p = None /\ om_find (s_sessionId s) (mapSession b') = None)
    as (cs & b' & Hruns & H); [|exists (CbOperate p :: cs), b'; split; [|exact H];
                                eapply (runs_cons _ _ opens); [exact Hc|exact He|exact Hruns]].
  rewrite (at_id b p s Hp) in He'. destruct (s_workLoop s) eqn:Hwl; cbn [mbind res_bind] in He'.
  - injection He' as Hb1. change (at_ b p s (remove_one (CbOperate p) (loopMain b ++ [CbCheckChild p])) = b1) in Hb1.
    subst b1. apply (check_runs host p); auto; [apply at_lookup|]. cbn [loopMain at_ set_loopMain].
    rewrite cbs_of_drop_eq, cbs_of_push_eq, Hl by done. cbn. by rewrite decide_True.
  - destruct (FreeSessionContinue_ok opens p b s (loopMain b) Hu) as (s' & k & Hc' & Hco & Hk & Hk3 & _).
    rewrite Hc' in He'. cbn [mbind res_bind] in He'. injection He' as Hb1.
    eapply (continue_runs host p b s s' _ k b1 Hco Hd Hk Hk3 (eq_sym Hb1) HI1).
    cbn [loopMain at_ set_loopMain].
    rewrite cbs_of_drop_eq, app_assoc, cbs_of_push_eq, cbs_of_closes_eq, Hl by done.
    cbn [app remove_one]. by rewrite decide_True by done.
Qed.

(** C21. A freed session really goes away: once no thread is inside [Send] for
    it, its work thread (if one was started) has finished and the host's USB
    transfers are shut down, running the callbacks the main loop already holds
    deletes the object and removes its id from the table. *)
Theorem freed_session_is_deleted (host : bool) (b : SessionBase) (p : addr) (s : HdcSession) :
  reachable host b -> heap b !! p = Some s -> s_isDead s = true ->
  s_ref s = 0 -> (s_workLoop s = true -> s_childCleared s = true) ->
  (host = true -> forall u, s_hUSB s = Some u -> u_bulkShutdown u = true) ->
  exists cs b', runs host b cs b' /\ heap b' !! p = None /\ om_find (s_sessionId s) (mapSession b') = None.
Proof.
  intros HI%reachable_inv Hp Hd Hr Hw Husb.
  destruct (inv_heap _ _ _ _ _ HI p s Hp) as (_ & _ & Hph).
  inversion Hph as [|Hd1 Hu Hl|Hd1 Hu Hwl Hl|n l Hd1 Hu Hn Hio Hus Hl]; subst; [congruence| | |].
  - by apply (operate_runs host p).
  - apply (check_runs host p); auto.
  - by apply (final_runs host p n).
Qed.

Lemma freed_session_is_deleted_witness :
  exists cs b', runs true trace1 cs b' /\ heap b' !! 100 = None /\ om_find 7 (mapSession b') = None.
Proof.
  destruct (heap trace1 !! 100) as [s|] eqn:E; [|by vm_compute in E].
  assert (Hs : s_sessionId s = 7 /\ s_isDead s = true /\ s_ref s = 0 /\ s_workLoop s = false /\ s_hUSB s = None)
    by (vm_compute in E; injection E as <-; repeat split).
  destruct Hs as (H1 & H2 & H3 & H4 & H5).
  pose proof (freed_session_is_deleted true trace1 100 s trace1_reachable E H2 H3) as T.
  rewrite H1, H4, H5 in T. apply T; [discriminate|intros _ u; discriminate].
Defined.

(** What the teardown does not wait for: [ref] is tested once, before the
    handles are closed, and not again when the object is deleted, so a thread
    that enters [Send] in between still holds the session after it is freed.
    There is a reachable state in which a [Send] is in flight for a deleted
    session, and its [--hSession->ref] is then an access to freed memory. *)
Theorem send_can_outlive_session :
  exists (b : SessionBase) (p : addr), reachable true b /\ List.In p (inflight b) /\
    heap b !! p = None /\ SendEnd p b = Undefined.
Proof.
  destruct (run_cb true (false, false, false) (CbOperate 100) trace1) as [b1| | |] eqn:E1; try by vm_compute in E1.
  destruct (SendBegin 7 b1) as [[h b2]| | |] eqn:E2;
    try (vm_compute in E1; injection E1 as <-; by vm_compute in E2).
  destruct (run_cb true (false, false, false) (CbFinally 100) b2) as [b3| | |] eqn:E3;
    try (vm_compute in E1; injection E1 as <-; vm_compute in E2; injection E2 as <- <-; by vm_compute in E3).
  exists b3, 100. split.
  - eapply reach_step; [|apply (step_run true (CbFinally 100) (false, false, false) b2 b3); [|exact E3]].
    + eapply reach_step; [|exact (step_send_begin true 7 b1 (h, b2) E2)].
      eapply reach_step; [apply trace1_reachable|].
      apply (step_run true (CbOperate 100) (false, false, false) trace1 b1); [|exact E1]. vm_compute. by left.
    + vm_compute in E1. injection E1 as <-. vm_compute in E2. injection E2 as <- <-. vm_compute. by left.
  - vm_compute in E1. injection E1 as <-. vm_compute in E2. injection E2 as <- <-.
    vm_compute in E3. injection E3 as <-. vm_compute. split_and!; [by left|done|done].
Qed.

(** ** The record of freed ids *)

Definition deleted_ok (host : bool) (b : SessionBase) : Prop :=
  NoDup (deletedQueue b) /\ (forall x, x ∈ deletedSet b <-> x ∈ deletedQueue b) /\
  zlen (deletedQueue b) <= MAX_DELETED_SESSION_ID_RECORD_COUNT host.

(** The record of freed session ids is a sliding window: the set and the queue
    always hold the same ids, without repetition and never more than the limit;
    recording an id makes [IsSessionDeleted] true for it, forgets at most the
    oldest recorded id, and invents none. *)
Theorem deleted_ids_window (host : bool) (sid : Z) (b : SessionBase) :
  deleted_ok host b ->
  let b' := AddDeletedSessionId host sid b in
  deleted_ok host b' /\ IsSessionDeleted sid b' = true /\
  (forall x, IsSessionDeleted x b' = true -> x = sid \/ IsSessionDeleted x b = true) /\
  (forall x, IsSessionDeleted x b = true -> IsSessionDeleted x b' = true \/ head (deletedQueue b) = Some x).
Proof.
  intros (Hnd & Hset & Hlen). unfold AddDeletedSessionId, IsSessionDeleted, deleted_ok.
  assert (Hmax : 1 <= MAX_DELETED_SESSION_ID_RECORD_COUNT host) by (destruct host; cbn; lia).
  destruct (bool_decide (sid ∈ deletedSet b)) eqn:E; breflect.
  { cbn zeta. rewrite !bool_decide_eq_true. split_and!; auto. }
  cbn zeta. assert (Hns : sid ∉ deletedQueue b) by (by rewrite <- Hset).
  assert (Hnd' : NoDup (deletedQueue b ++ [sid])).
  { apply NoDup_app. split_and!; [done| |apply NoDup_singleton]. intros x Hx ->%list_elem_of_singleton. done. }
  rewrite length_app. cbn [length]. destruct (_ <? _) eqn:Hlt; breflect; destruct (deletedQueue b) as [|h q] eqn:Hq;
    cbn [app length] in *; try lia; cbn [set_deleted deletedSet deletedQueue head].
  - apply NoDup_cons in Hnd' as [Hh Hnd'].
    assert (Hmem : forall x, x ∈ filter (fun y => y <> h) (sid :: deletedSet b) <-> x ∈ q ++ [sid]).
    { intros x. rewrite list_elem_of_filter, elem_of_cons, Hset, elem_of_app, elem_of_cons, list_elem_of_singleton.
      rewrite elem_of_app, list_elem_of_singleton in Hh. naive_solver. }
    split_and!; auto; [rewrite length_app; cbn; lia|..].
    + apply bool_decide_eq_true. rewrite Hmem, elem_of_app, list_elem_of_singleton. by right.
    + intros x. rewrite !bool_decide_eq_true, Hmem, elem_of_app, list_elem_of_singleton, Hset, elem_of_cons. naive_solver.
    + intros x. rewrite !bool_decide_eq_true, Hmem, elem_of_app, list_elem_of_singleton, Hset, elem_of_cons. naive_solver.
  - split_and!; auto; try (cbn [length]; rewrite ?length_app; cbn [length]; lia).
    + intros x. rewrite elem_of_cons, Hset, list_elem_of_singleton, elem_of_nil. naive_solver.
    + apply bool_decide_eq_true. by left.
    + intros x. rewrite !bool_decide_eq_true, elem_of_cons. naive_solver.
    + intros x. rewrite !bool_decide_eq_true, elem_of_cons. naive_solver.
  - split_and!; auto; try (cbn [length]; rewrite ?length_app; cbn [length]; lia).
    + intros x. rewrite !elem_of_cons, Hset, elem_of_cons, elem_of_app, list_elem_of_singleton. naive_solver.
    + apply bool_decide_eq_true. by left.
    + intros x. rewrite !bool_decide_eq_true, elem_of_cons. naive_solver.
    + intros x. rewrite !bool_decide_eq_true, elem_of_cons. naive_solver.
Qed.

Lemma deleted_ids_window_witness :
  deleted_ok true (initial true) /\ IsSessionDeleted 7 (AddDeletedSessionId true 7 (initial true)) = true.
Proof.
  assert (H : deleted_ok true (initial true)).
  { split; [constructor|]. split; [done|]. cbn. lia. }
  split; [exact H|]. apply (deleted_ids_window true 7 (initial true) H).
Defined.

(** ** Failures of [MallocSession] *)

(** When [MallocSession] fails after allocating the session object (no
    memory for its parts, or a transport that cannot be set up), the object is
    deleted and the table is unchanged, but [sessionRef] keeps the increment:
    from then on it is one more than the number of sessions, and the shutdown
    loop, which waits for it to reach zero, does not stop even when every session
    is gone. *)
Theorem malloc_failure_keeps_ref (env : MallocEnv) (sod : bool) (ct sid : Z) (cm : bool) (b b' : SessionBase) :
  e_new env = true -> heap b !! e_addr env = None ->
  MallocSession env sod ct cm sid b = Ok (None, b') ->
  heap b' = heap b /\ mapSession b' = mapSession b /\ sessionRef b' = u32 (sessionRef b + 1) /\
  (sessionRef b = 0 -> clearSessionsForFinish b' = b').
Proof.
  intros Hnew Hfresh Hm. unfold MallocSession in Hm. rewrite Hnew in Hm. cbn [negb] in Hm.
  set (b0 := set_sessionRef _ b) in Hm.
  assert (Hdone : forall s l, b' = delete_session (e_addr env) (at_ b0 (e_addr env) s l) ->
     heap b' = heap b /\ mapSession b' = mapSession b /\ sessionRef b' = u32 (sessionRef b + 1) /\
     (sessionRef b = 0 -> clearSessionsForFinish b' = b')).
  { intros s l ->. cbn. split_and!; auto.
    - rewrite delete_insert_eq. by apply delete_id.
    - intros Hz. unfold clearSessionsForFinish. cbn. by rewrite Hz. }
  destruct (if sid =? 0 then _ else _) as [sid'| | |]; try done. cbn [mbind res_bind] in Hm.
  set (s0 := mkSession _ _ _ _ _ _ _ _ _ _ _ _ _ _) in Hm.
  change (set_heap (<[e_addr env := s0]> (heap b0)) b0) with (at_ b0 (e_addr env) s0 (loopMain b0)) in Hm.
  destruct (negb (e_mapTask env) || negb (e_listKey env)); [injection Hm as <-; by eapply Hdone|].
  rewrite at_upd in Hm. cbn [mbind res_bind] in Hm.
  destruct (e_poll env); cbn [negb] in Hm; [|injection Hm as <-; by eapply Hdone].
  destruct (e_pollInit env); [|done]. cbn [negb] in Hm. rewrite at_upd in Hm. cbn [mbind res_bind] in Hm.
  destruct (e_dataFd env); [|done]. cbn [negb] in Hm. unfold MallocSessionByConnectType in Hm.
  rewrite at_lookup in Hm. cbn [deref mbind res_bind] in Hm.
  repeat match type of Hm with context [if ?c then _ else _] => destruct c end;
    rewrite ?at_upd in Hm; cbn [mbind res_bind negb Z.eqb AdminSession OP_ADD deref] in Hm;
    try done; injection Hm as <-; by eapply Hdone.
Qed.

Lemma malloc_failure_keeps_ref_witness :
  exists b', MallocSession env1 true CONN_UNKNOWN true 9 (initial true) = Ok (None, b') /\
    heap b' = ∅ /\ sessionRef b' = 1 /\ clearSessionsForFinish b' = b'.
Proof.
  destruct (MallocSession env1 true CONN_UNKNOWN true 9 (initial true)) as [[[p|] b']| | |] eqn:E;
    try by vm_compute in E.
  destruct (malloc_failure_keeps_ref env1 true CONN_UNKNOWN 9 true (initial true) b' eq_refl eq_refl E)
    as (H1 & H2 & H3 & H4).
  exists b'. split; [reflexivity|]. split; [exact H1|]. split; [exact H3|]. by apply H4.
Defined.

(** ** Voting for a reset *)

(** Every other session of the table has voted. *)
Definition all_others_voted (sid : Z) (b : SessionBase) : Prop :=
  Forall (fun kv => kv.1 = sid \/ exists s, heap b !! kv.2 = Some s /\ s_voteReset s = true) (mapSession b).

Lemma others_voted_spec sid p s (h : gmap addr HdcSession) (m : omap addr) :
  (forall kv, List.In kv m -> kv.1 <> sid -> kv.2 <> p /\ is_Some (h !! kv.2)) ->
  exists r, others_voted sid m (<[p := s]> h) = Ok r /\
    (r = true <-> Forall (fun kv => kv.1 = sid \/ exists s, h !! kv.2 = Some s /\ s_voteReset s = true) m).
Proof.
  induction m as [|[id q] m IH]; intros Hm; [by exists true|]. cbn [others_voted].
  destruct IH as (r & -> & Hr); [intros kv Hin; apply Hm; by right|]. cbn [mbind res_bind].
  destruct (sid =? id) eqn:E; breflect.
  - exists r. split; [done|]. rewrite Hr, Forall_cons. cbn. intuition congruence.
  - destruct (Hm (id, q) (or_introl eq_refl)) as [Hqp [t Ht]]; [cbn; congruence|]. cbn in Hqp, Ht.
    rewrite lookup_insert_ne, Ht by congruence. cbn [deref mbind res_bind].
    exists (s_voteReset t && r). split; [done|]. rewrite andb_true_iff, Hr, Forall_cons. cbn. naive_solver.
Qed.

(** On the server a session's reset vote ends the process exactly when every
    other session in the table has voted as well, and is otherwise only recorded
    on that session; an id that is not in the table changes nothing. *)
Theorem vote_reset_unanimous (host : bool) (sid : Z) (b : SessionBase) :
  reachable host b -> serverOrDaemon b = true ->
  match om_find sid (mapSession b) with
  | None => AdminSession OP_VOTE_RESET sid None b = Ok (None, b)
  | Some p =>
      (all_others_voted sid b -> AdminSession OP_VOTE_RESET sid None b = Exited) /\
      (~ all_others_voted sid b ->
         exists s b', heap b !! p = Some s /\ AdminSession OP_VOTE_RESET sid None b = Ok (Some p, b') /\
         heap b' = <[p := set_voteReset true s]> (heap b) /\ mapSession b' = mapSession b)
  end.
Proof.
  intros HI%reachable_inv Hsd. unfold AdminSession.
  cbn [Z.eqb OP_VOTE_RESET OP_UPDATE OP_QUERY_REF OP_QUERY OP_ADD OP_REMOVE Pos.eqb].
  destruct (om_find sid (mapSession b)) as [p|] eqn:Hq; [|done].
  destruct (inv_table _ _ _ _ _ HI _ _ Hq) as (s & Hp & Hid). unfold VoteReset. rewrite Hsd, Hq.
  cbn [deref mbind res_bind]. rewrite (upd_ok _ _ _ s Hp). cbn [mbind res_bind mapSession set_heap heap].
  destruct (others_voted_spec sid p (set_voteReset true s) (heap b) (mapSession b)) as (r & -> & Hr).
  { intros [id q] Hin Hne. apply om_find_sorted in Hin; [|apply HI]. cbn in *.
    destruct (inv_table _ _ _ _ _ HI _ _ Hin) as (t & Ht & Hti). split; [congruence|by eexists]. }
  cbn [mbind res_bind]. fold (all_others_voted sid b) in Hr. split.
  - intros Ho. by rewrite (proj2 Hr Ho).
  - intros Ho. destruct r; [by destruct (Ho (proj1 Hr eq_refl))|]. eexists s, _. by split_and!.
Qed.

Lemma vote_reset_unanimous_witness :
  reachable true live1 /\ AdminSession OP_VOTE_RESET 7 None live1 = Exited.
Proof.
  split; [apply live1_reachable|].
  pose proof (vote_reset_unanimous true 7 live1 live1_reachable eq_refl) as T.
  destruct (om_find 7 (mapSession live1)) as [p|] eqn:E; [|by vm_compute in E].
  apply T. vm_compute. repeat constructor.
Defined.
