(* ===== verification/Task.v ===== *)
(** * Task: the tasks of a session ([session.cpp])

    A session keeps its running tasks by channel id.  A task is removed in two
    steps: [BeginRemoveTask] arms a repeating timer and marks it stopped,
    [TaskClassDeleteRetry] retries until the task class lets go and then deletes
    the [TaskInformation].  Task objects live in a heap, timers hold their
    addresses, and an access to a deleted one is [Undefined].

    The virtual [RemoveInstanceTask] and [RedirectToTask] belong to the daemon
    and the server and are arguments. *)

From Stdlib Require Import String ZArith Lia List Bool.
From stdpp Require Import base list numbers option gmap.
From S2P Require Import Prelude Defs OrdMap Session.

#[local] Set Warnings "-clear-no-such-hyp".

Record TaskInformation := mkTask {
  t_taskType : Z; t_sessionId : Z; t_channelId : Z; t_hasInitial : bool; t_taskStop : bool; t_taskFree : bool;
  t_serverOrDaemon : bool; t_masterSlave : bool; t_closeRetryCount : Z; t_isCleared : bool
}.

Definition set_taskStop b t := mkTask (t_taskType t) (t_sessionId t) (t_channelId t) (t_hasInitial t) b
  (t_taskFree t) (t_serverOrDaemon t) (t_masterSlave t) (t_closeRetryCount t) (t_isCleared t).
Definition set_taskFree b t := mkTask (t_taskType t) (t_sessionId t) (t_channelId t) (t_hasInitial t) (t_taskStop t)
  b (t_serverOrDaemon t) (t_masterSlave t) (t_closeRetryCount t) (t_isCleared t).
Definition set_isCleared b t := mkTask (t_taskType t) (t_sessionId t) (t_channelId t) (t_hasInitial t) (t_taskStop t)
  (t_taskFree t) (t_serverOrDaemon t) (t_masterSlave t) (t_closeRetryCount t) b.
Definition set_closeRetryCount n t := mkTask (t_taskType t) (t_sessionId t) (t_channelId t) (t_hasInitial t) (t_taskStop t)
  (t_taskFree t) (t_serverOrDaemon t) (t_masterSlave t) n (t_isCleared t).

(** The task side of one session and its work loop. *)
Record Tasks := mkTasks {
  tasks : gmap addr TaskInformation;
  mapTask : omap addr;
  timers : list addr;      (* TaskClassDeleteRetry timers on the work loop *)
  taskCount : Z
}.

Definition upd_task (p : addr) (f : TaskInformation -> TaskInformation) (s : Tasks) : res Tasks :=
  t ← deref (tasks s !! p); Ok (mkTasks (<[p := f t]> (tasks s)) (mapTask s) (timers s) (taskCount s)).

(** ** Removing tasks *)

(** [removed]: what [RemoveInstanceTask(OP_REMOVE, ...)] answers. *)
Definition TryRemoveTask (removed : bool) (p : addr) (s : Tasks) : res (bool * Tasks) :=
  t ← deref (tasks s !! p);
  if t_taskFree t then Ok (true, s)
  else if removed then s' ← upd_task p (set_taskFree true) s; Ok (true, s')
  else Ok (false, s).

(** One tick of the timer that holds [p]. *)
Definition TaskClassDeleteRetry (removed : bool) (p : addr) (s : Tasks) : res Tasks :=
  t ← deref (tasks s !! p);
  s1 ← (if t_isCleared t then Ok s else upd_task p (set_isCleared true) s);
  let count := 1000 in
  let n := if (t_closeRetryCount t =? 0) || (count <? t_closeRetryCount t) then 1 else t_closeRetryCount t in
  s2 ← upd_task p (set_closeRetryCount (u32 (n + 1))) s1;
  '(ok, s3) ← TryRemoveTask removed p s2;
  match ok with
  | false => Ok s3
  | true => Ok (mkTasks (delete p (tasks s3)) (mapTask s3) (remove_one p (timers s3)) (u32 (taskCount s3 - 1)))
  end.

(** [timerOk]: the timer could be created. *)
Definition BeginRemoveTask (timerOk : bool) (p : addr) (s : Tasks) : res Tasks :=
  t ← deref (tasks s !! p);
  if t_taskStop t || t_taskFree t then Ok s
  else if negb timerOk then Ok s
  else upd_task p (set_taskStop true) (mkTasks (tasks s) (mapTask s) (timers s ++ [p]) (taskCount s)).

(** The loop over [mapTask]; [channelIDInput = 0] clears every task. *)
Fixpoint ClearOwnTasks_loop (timerOk : bool) (channelIDInput : Z) (m : omap addr) (s : Tasks) : res Tasks :=
  match m with
  | [] => Ok s
  | (channelId, p) :: m =>
      let erased s := mkTasks (tasks s) (om_erase channelId (mapTask s)) (timers s) (taskCount s) in
      if negb (channelIDInput =? 0) then
        if negb (channelIDInput =? channelId) then ClearOwnTasks_loop timerOk channelIDInput m s
        else s' ← BeginRemoveTask timerOk p s; Ok (erased s')
      else s' ← BeginRemoveTask timerOk p s; ClearOwnTasks_loop timerOk channelIDInput m (erased s')
  end.

Definition ClearOwnTasks (timerOk : bool) (channelIDInput : Z) (s : Tasks) : res Tasks :=
  ClearOwnTasks_loop timerOk channelIDInput (mapTask s)
    (mkTasks (tasks s) (mapTask s) (timers s) (zlen (mapTask s))).

(** The end of the work thread: wait for the tasks, at most 50 ticks.  The
    result says whether the loop stops. *)
Definition clearTaskForSessionFinish (clearTaskTimes : Z) (s : Tasks) : Z * bool :=
  let n := u32 (clearTaskTimes + 1) in
  (n, negb (negb (taskCount s =? 0) && (n <? 50))).

(** ** Finding and adding tasks *)

(** [OP_VOTE_RESET], which no caller uses, goes to [AdminSession] and does not
    change the tasks. *)
Definition AdminTask (op channelId : Z) (hInput : option addr) (s : Tasks) : res (option addr * Tasks) :=
  if op =? OP_ADD then
    match om_find channelId (mapTask s) with
    | Some old =>
        _ ← deref (tasks s !! old);
        p ← deref hInput;
        Ok (hInput, mkTasks (delete old (tasks s)) (om_set channelId p (mapTask s)) (timers s) (taskCount s))
    | None =>
        p ← deref hInput; Ok (hInput, mkTasks (tasks s) (om_set channelId p (mapTask s)) (timers s) (taskCount s))
    end
  else if op =? OP_REMOVE then
    Ok (None, mkTasks (tasks s) (om_erase channelId (mapTask s)) (timers s) (taskCount s))
  else if op =? OP_QUERY then Ok (om_find channelId (mapTask s), s)
  else Ok (None, s).

(** The command opens a task, and whether that task is the master side. *)
Definition NeedNewTaskInfo (serverOrDaemon : bool) (command : Z) : bool * bool :=
  let taskMasterInit := bool_decide (command ∈ [CMD_FILE_INIT; CMD_FLASHD_FLASH_INIT; CMD_FLASHD_UPDATE_INIT;
    CMD_FLASHD_ERASE; CMD_FLASHD_FORMAT; CMD_FORWARD_INIT; CMD_APP_INIT; CMD_APP_UNINSTALL; CMD_APP_SIDELOAD]) in
  if negb serverOrDaemon &&
     ((command =? CMD_SHELL_INIT) || (command =? CMD_UNITY_EXECUTE_EX) ||
      ((CMD_UNITY_COMMAND_HEAD <? command) && (command <? CMD_UNITY_COMMAND_TAIL))) then (true, false)
  else if command =? CMD_KERNEL_WAKEUP_SLAVETASK then (true, false)
  else if command =? CMD_UNITY_BUGREPORT_INIT then (true, false)
  else if taskMasterInit then (true, true)
  else (false, false).

Fixpoint AddTaskWithRetry_loop (addTaskRetry : nat) (p : addr) (s : Tasks) : res (bool * Tasks) :=
  match addTaskRetry with
  | O => Ok (false, s)
  | S n =>
      t ← deref (tasks s !! p);
      '(r, s') ← AdminTask OP_ADD (t_channelId t) (Some p) s;
      match r with
      | Some _ => Ok (true, s')
      | None => AddTaskWithRetry_loop n p s'
      end
  end.
Definition AddTaskWithRetry (p : addr) (s : Tasks) : res (bool * Tasks) := AddTaskWithRetry_loop 3 p s.

(** [fresh] is where the new [TaskInformation] is allocated, [None] when memory
    is short; [redirect] is the virtual [RedirectToTask], which gets the task.
    The last component is the task the payload went to. *)
Definition DispatchTaskData (serverOrDaemon : bool) (fresh : option addr) (redirect : addr -> bool)
    (sessionId channelId command : Z) (s : Tasks) : res (bool * Tasks * option addr) :=
  let '(newTask, masterTask) := NeedNewTaskInfo serverOrDaemon command in
  let finish (h : option addr) (s : Tasks) :=
    match h with
    | None => Ok (true, s, None)
    | Some p =>
        t ← deref (tasks s !! p);
        if t_taskStop t || t_taskFree t then Ok (true, s, None) else Ok (redirect p, s, Some p)
    end in
  if newTask then
    match fresh with
    | None => Ok (true, s, None)
    | Some p =>
        let t := mkTask 0 sessionId channelId false false false serverOrDaemon masterTask 0 false in
        '(added, s') ← AddTaskWithRetry p (mkTasks (<[p := t]> (tasks s)) (mapTask s) (timers s) (taskCount s));
        match added with
        | false => Ok (false, mkTasks (delete p (tasks s')) (mapTask s') (timers s') (taskCount s'), None)
        | true => finish (Some p) s'
        end
    end
  else '(h, s') ← AdminTask OP_QUERY channelId None s; finish h s'.

(** ** Invariant *)

Record tasks_ok (s : Tasks) : Prop := {
  tk_map : forall c p, om_find c (mapTask s) = Some p -> exists t, tasks s !! p = Some t /\
    t_taskStop t = false /\ t_taskFree t = false /\ t_channelId t = c;
  tk_timers : forall p, p ∈ timers s -> exists t, tasks s !! p = Some t /\
    t_taskStop t = true /\ t_taskFree t = false;
  tk_nodup : NoDup (timers s);
  tk_sorted : om_sorted (mapTask s)
}.

Lemma upd_task_ok p f s t : tasks s !! p = Some t ->
  upd_task p f s = Ok (mkTasks (<[p := f t]> (tasks s)) (mapTask s) (timers s) (taskCount s)).
Proof. intros Hp. unfold upd_task. by rewrite Hp. Qed.

(** Replacing a task by one with the same channel and flags. *)
Lemma tasks_ok_touch s p t t' n : tasks_ok s -> tasks s !! p = Some t ->
  t_channelId t' = t_channelId t -> t_taskStop t' = t_taskStop t ->
  (t_taskFree t = false -> t_taskFree t' = false) ->
  tasks_ok (mkTasks (<[p := t']> (tasks s)) (mapTask s) (timers s) n).
Proof.
  intros HI Hp Hc Hs Hf. split; cbn; try apply HI.
  - intros c q Hq. destruct (tk_map s HI c q Hq) as (u & Hu & H1 & H2 & H3). destruct (decide (q = p)) as [->|Hne].
    + exists t'. rewrite lookup_insert_eq. split; [done|]. simplify_eq. split_and!; auto. congruence.
    + exists u. by rewrite lookup_insert_ne by done.
  - intros q Hq. destruct (tk_timers s HI q Hq) as (u & Hu & H1 & H2). destruct (decide (q = p)) as [->|Hne].
    + exists t'. rewrite lookup_insert_eq. simplify_eq. split_and!; auto. congruence.
    + exists u. by rewrite lookup_insert_ne by done.
Qed.

Lemma NoDup_remove_one {A} `{EqDecision A} (x : A) l : NoDup l -> NoDup (remove_one x l) /\
  forall y, y ∈ remove_one x l -> y ∈ l /\ y <> x.
Proof.
  induction 1 as [|z l Hz Hnd [IH1 IH2]]; cbn [remove_one]; [split; [constructor|]; by intros ? ?%not_elem_of_nil|].
  destruct (decide (z = x)) as [->|Hne].
  - split; [done|]. intros y Hy. split; [by right|]. by intros ->.
  - split.
    + constructor; [|done]. intros Hin. by destruct (IH2 _ Hin).
    + intros y [->|Hy]%elem_of_cons; [split; [left|done]|]. destruct (IH2 _ Hy). split; [by right|done].
Qed.

(** A tick of a pending delete timer. *)
Lemma TaskClassDeleteRetry_ok removed p s : tasks_ok s -> p ∈ timers s ->
  exists s', TaskClassDeleteRetry removed p s = Ok s' /\ tasks_ok s' /\
    (if removed then tasks s' !! p = None /\ ~ (p ∈ timers s') /\ taskCount s' = u32 (taskCount s - 1)
     else is_Some (tasks s' !! p)).
Proof.
  intros HI Hin. destruct (tk_timers s HI p Hin) as (t & Hp & Hst & Hfr).
  unfold TaskClassDeleteRetry. rewrite Hp. cbn [deref mbind res_bind].
  assert (exists t1 s1, (if t_isCleared t then Ok s else upd_task p (set_isCleared true) s) = Ok s1 /\
      s1 = mkTasks (<[p := t1]> (tasks s)) (mapTask s) (timers s) (taskCount s) /\
      t_channelId t1 = t_channelId t /\ t_taskStop t1 = true /\ t_taskFree t1 = t_taskFree t) as (t1 & s1 & -> & -> & Hc1 & Hs1 & Hf1).
  { destruct (t_isCleared t).
    - exists t, s. split; [done|]. rewrite insert_id by done. by destruct s.
    - rewrite (upd_task_ok p _ s t Hp). by do 2 eexists. }
  cbn [mbind res_bind]. set (n := if _ || _ then _ else _).
  erewrite upd_task_ok by (cbn; apply lookup_insert_eq). cbn [mbind res_bind tasks mapTask timers taskCount].
  rewrite insert_insert_eq. set (t2 := set_closeRetryCount _ t1).
  assert (HI2 : tasks_ok (mkTasks (<[p := t2]> (tasks s)) (mapTask s) (timers s) (taskCount s))).
  { apply (tasks_ok_touch s p t); auto; cbn; congruence. }
  assert (Hdel : forall t3, tasks_ok (mkTasks (delete p (<[p := t3]> (tasks s))) (mapTask s)
     (remove_one p (timers s)) (u32 (taskCount s - 1)))).
  { intros t3. destruct (NoDup_remove_one p (timers s) (tk_nodup s HI)) as [Hnd Hmem]. split; cbn; try apply HI; auto.
    - intros c q Hq. destruct (tk_map s HI c q Hq) as (u & Hu & H1 & H2).
      exists u. assert (p <> q) by congruence. by rewrite lookup_delete_ne, lookup_insert_ne.
    - intros q Hq. destruct (Hmem q Hq) as [Hq' Hne]. destruct (tk_timers s HI q Hq') as (u & Hu & H1).
      exists u. by rewrite lookup_delete_ne, lookup_insert_ne. }
  assert (Hgone : p ∉ remove_one p (timers s)).
  { intros Hq. by destruct (proj2 (NoDup_remove_one p (timers s) (tk_nodup s HI)) p Hq). }
  unfold TryRemoveTask. cbn [tasks]. rewrite lookup_insert_eq. cbn [deref mbind res_bind].
  assert (t_taskFree t2 = false) as -> by (cbn; congruence). destruct removed.
  - erewrite upd_task_ok by (cbn; apply lookup_insert_eq). cbn [mbind res_bind tasks mapTask timers taskCount].
    rewrite insert_insert_eq. eexists; split; [done|]. split; [apply Hdel|]. cbn. by rewrite lookup_delete_eq.
  - cbn [mbind res_bind]. eexists; split; [done|]. split; [done|]. cbn. rewrite lookup_insert_eq. by eexists.
Qed.

(** Stopping a registered task and taking it out of the map. *)
Lemma BeginRemoveTask_erase timerOk c p s : tasks_ok s -> om_find c (mapTask s) = Some p ->
  exists s1, BeginRemoveTask timerOk p s = Ok s1 /\ mapTask s1 = mapTask s /\ taskCount s1 = taskCount s /\
    tasks_ok (mkTasks (tasks s1) (om_erase c (mapTask s1)) (timers s1) (taskCount s1)) /\
    timers s1 = (if timerOk then timers s ++ [p] else timers s) /\ dom (tasks s1) = dom (tasks s).
Proof.
  intros HI Hc. destruct (tk_map s HI c p Hc) as (t & Hp & Hst & Hfr & Hch).
  unfold BeginRemoveTask. rewrite Hp. cbn [deref mbind res_bind]. rewrite Hst, Hfr. cbn [orb].
  assert (Hmap : forall c' q, om_find c' (om_erase c (mapTask s)) = Some q -> q <> p /\ exists u, tasks s !! q = Some u /\
      t_taskStop u = false /\ t_taskFree u = false /\ t_channelId u = c').
  { intros c' q Hq. destruct (decide (c' = c)) as [->|Hne]; [by rewrite om_find_erase_eq in Hq|].
    rewrite om_find_erase_ne in Hq by done. destruct (tk_map s HI c' q Hq) as (u & Hu & H1 & H2 & H3).
    split; [|by exists u]. intros ->. congruence. }
  destruct timerOk; cbn [negb].
  - erewrite upd_task_ok by (cbn; exact Hp). eexists; split; [done|]. cbn. split_and!; auto.
    + split; cbn.
      * intros c' q Hq. destruct (Hmap c' q Hq) as [Hne (u & Hu & H)]. exists u. by rewrite lookup_insert_ne.
      * intros q [Hq| ->%list_elem_of_singleton]%elem_of_app; [|by rewrite lookup_insert_eq; eexists].
        destruct (tk_timers s HI q Hq) as (u & Hu & H1 & H2). exists u. rewrite lookup_insert_ne; [done|]. congruence.
      * apply NoDup_app. split_and!; [apply HI| |apply NoDup_singleton].
        intros q Hq ->%list_elem_of_singleton. destruct (tk_timers s HI p Hq) as (u & Hu & H1 & H2). congruence.
      * apply om_sorted_erase, HI.
    + apply dom_insert_lookup_L. by eexists.
  - eexists; split; [done|]. split_and!; auto. split; cbn; try apply HI.
    + intros c' q Hq. by apply Hmap.
    + apply om_sorted_erase, HI.
Qed.

(** The loop over a part [m] of the map. *)
Lemma ClearOwnTasks_loop_ok timerOk cid : forall m s, tasks_ok s ->
  (forall c p, List.In (c, p) m -> om_find c (mapTask s) = Some p) -> om_sorted m ->
  exists s', ClearOwnTasks_loop timerOk cid m s = Ok s' /\ tasks_ok s' /\ taskCount s' = taskCount s /\
    dom (tasks s') = dom (tasks s) /\
    (forall c, om_find c (mapTask s') =
       if bool_decide (c ∈ om_keys m /\ (cid = 0 \/ c = cid)) then None else om_find c (mapTask s)) /\
    (forall c p, timerOk = true -> List.In (c, p) m -> cid = 0 \/ c = cid -> p ∈ timers s') /\
    (forall p, p ∈ timers s -> p ∈ timers s').
Proof.
  induction m as [|[c p] m IH]; intros s HI Hm Hs; cbn [ClearOwnTasks_loop].
  { exists s. split_and!; auto. done. }
  inversion Hs as [|? ? Hs' Hlt]; subst. fold (om_keys m) in *.
  assert (Hnot : c ∉ om_keys m).
  { intros Hin%list_elem_of_In. rewrite List.Forall_forall in Hlt. specialize (Hlt c Hin). by rewrite less_irrefl in Hlt. }
  pose proof (Hm c p (or_introl eq_refl)) as Hc.
  destruct (BeginRemoveTask_erase timerOk c p s HI Hc) as (s1 & -> & Hms & Htc & HI1 & Htm & Hdom).
  cbn [mbind res_bind]. set (s2 := mkTasks _ _ _ _) in *.
  assert (Hsel : forall x, om_keys ((c, p) :: m) = c :: om_keys m /\ (x ∈ c :: om_keys m <-> x = c \/ x ∈ om_keys m))
    by (intros; split; [done|apply elem_of_cons]).
  destruct (cid =? 0) eqn:E0; cbn [negb]; breflect.
  - destruct (IH s2 HI1) as (s' & -> & H1 & H2 & H3 & H4 & H5 & H6); auto.
    { intros c' q Hin. cbn. rewrite Hms, om_find_erase_ne; [apply Hm; by right|].
      intros ->. apply Hnot, list_elem_of_In. by apply (in_map fst) in Hin. }
    exists s'. cbn in H2, H3, H6. split_and!; auto; [congruence|congruence|..].
    + intros c'. rewrite H4. cbn [mapTask s2]. rewrite Hms.
      destruct (decide (c' = c)) as [->|Hne].
      * rewrite om_find_erase_eq, (bool_decide_eq_true_2 (c ∈ om_keys ((c, p) :: m) /\ _)); [by case_bool_decide|].
        split; [left|by left].
      * rewrite om_find_erase_ne by done.
        rewrite (bool_decide_ext (c' ∈ om_keys ((c, p) :: m) /\ _) (c' ∈ om_keys m /\ (cid = 0 \/ c' = cid))); [done|].
        rewrite (proj1 (Hsel c')), (proj2 (Hsel c')). tauto.
    + intros c' q Ht [[= <- <-]|Hin] Hor; [|by eapply H5]. apply H6. rewrite Htm, Ht.
      apply elem_of_app. right. by apply list_elem_of_singleton.
    + intros q Hq. apply H6. rewrite Htm. destruct timerOk; [apply elem_of_app; by left|done].
  - destruct (cid =? c) eqn:E1; cbn [negb]; breflect.
    + subst cid. exists s2. cbn. split_and!; auto.
      * intros c'. rewrite Hms. destruct (decide (c' = c)) as [->|Hne].
        -- rewrite om_find_erase_eq, bool_decide_eq_true_2; [done|]. split; [left|by right].
        -- rewrite om_find_erase_ne, bool_decide_eq_false_2 by naive_solver. done.
      * intros c' q Ht [[= <- <-]|Hin] [Hor|Hor]; [done| |done|].
        -- rewrite Htm, Ht. apply elem_of_app. right. by apply list_elem_of_singleton.
        -- subst c'. exfalso. apply Hnot, list_elem_of_In. by apply (in_map fst) in Hin.
      * intros q Hq. rewrite Htm. destruct timerOk; [apply elem_of_app; by left|done].
    + destruct (IH s HI) as (s' & -> & H1 & H2 & H3 & H4 & H5 & H6); auto.
      { intros c' q Hin. apply Hm. by right. }
      exists s'. split_and!; auto.
      * intros c'. rewrite H4.
        rewrite (bool_decide_ext (c' ∈ om_keys ((c, p) :: m) /\ _) (c' ∈ om_keys m /\ (cid = 0 \/ c' = cid))); [done|].
        rewrite (proj1 (Hsel c')), (proj2 (Hsel c')). split; [|tauto]. intros [[->|?] [?|?]]; done || tauto.
      * intros c' q Ht [[= <- <-]|Hin] Hor; [naive_solver|by eapply H5].
Qed.

Lemma ClearOwnTasks_ok timerOk cid s : tasks_ok s ->
  exists s', ClearOwnTasks timerOk cid s = Ok s' /\ tasks_ok s' /\ taskCount s' = zlen (mapTask s) /\
    dom (tasks s') = dom (tasks s) /\
    (forall c, om_find c (mapTask s') = if bool_decide (cid = 0 \/ c = cid) then None else om_find c (mapTask s)) /\
    (forall c p, timerOk = true -> om_find c (mapTask s) = Some p -> cid = 0 \/ c = cid -> p ∈ timers s') /\
    (forall p, p ∈ timers s -> p ∈ timers s').
Proof.
  intros HI. unfold ClearOwnTasks. set (s0 := mkTasks _ _ _ _).
  assert (HI0 : tasks_ok s0) by (destruct HI; by split).
  destruct (ClearOwnTasks_loop_ok timerOk cid (mapTask s) s0 HI0) as (s' & -> & H1 & H2 & H3 & H4 & H5 & H6).
  - intros c p Hin. apply om_find_sorted; [apply HI|done].
  - apply HI.
  - exists s'. split_and!; auto.
    + intros c. rewrite H4. cbn [mapTask s0].
      destruct (decide (cid = 0 \/ c = cid)) as [Hd|Hd]; [|by rewrite !bool_decide_eq_false_2 by tauto].
      rewrite (bool_decide_eq_true_2 (cid = 0 \/ c = cid)) by done. case_bool_decide as Hk; [done|].
      destruct (om_find c (mapTask s)) eqn:E; [|done]. apply om_find_In, (in_map fst) in E. exfalso.
      apply Hk. split; [|done]. by apply list_elem_of_In.
    + intros c p Ht Hc. apply (H5 c); auto. by apply om_find_In.
Qed.

(** Registering a new task; a task the channel already had is dropped. *)
Lemma AddTask_ok s p t c : tasks_ok s -> tasks s !! p = None -> t_channelId t = c ->
  t_taskStop t = false -> t_taskFree t = false ->
  exists s', AddTaskWithRetry p (mkTasks (<[p := t]> (tasks s)) (mapTask s) (timers s) (taskCount s)) = Ok (true, s') /\
    tasks_ok s' /\ tasks s' !! p = Some t /\ mapTask s' = om_set c p (mapTask s) /\ timers s' = timers s.
Proof.
  intros HI Hp Hc Hst Hfr. unfold AddTaskWithRetry. cbn [AddTaskWithRetry_loop tasks].
  rewrite lookup_insert_eq. cbn [deref mbind res_bind]. rewrite Hc.
  unfold AdminTask. cbn [Z.eqb OP_ADD mapTask].
  assert (Hok : forall T, T !! p = Some t ->
     (forall q u, q <> p -> T !! q = Some u -> tasks s !! q = Some u) ->
     (forall q, q <> p -> om_find c (mapTask s) <> Some q -> T !! q = tasks s !! q) ->
     tasks_ok (mkTasks T (om_set c p (mapTask s)) (timers s) (taskCount s))).
  { intros T H1 H2 H3. split; cbn; try apply HI.
    - intros c' q Hq. destruct (decide (c' = c)) as [->|Hne].
      + rewrite om_find_set_eq in Hq. injection Hq as <-. exists t. by split_and!.
      + rewrite om_find_set_ne in Hq by done. destruct (tk_map s HI c' q Hq) as (u & Hu & Hrest).
        exists u. rewrite H3; [done|congruence|]. intros Hc'. destruct (tk_map s HI c q Hc') as (v & Hv & _ & _ & Hvc).
        rewrite Hu in Hv. injection Hv as <-. destruct Hrest as (_ & _ & ?). congruence.
    - intros q Hq. destruct (tk_timers s HI q Hq) as (u & Hu & Hrest). exists u. rewrite H3; [done|congruence|].
      intros Hc'. destruct (tk_map s HI c q Hc') as (v & Hv & Hvs & _).
      rewrite Hu in Hv. injection Hv as <-. destruct Hrest. congruence.
    - apply om_sorted_set, HI. }
  destruct (om_find c (mapTask s)) as [old|] eqn:Hold; cbn [mbind res_bind].
  - destruct (tk_map s HI c old Hold) as (u & Hu & _). assert (old <> p) by congruence.
    cbn [tasks]. rewrite lookup_insert_ne, Hu by done. cbn [deref mbind res_bind].
    eexists; split; [done|]. cbn. split_and!; auto.
    + apply Hok; [by rewrite lookup_delete_ne, lookup_insert_eq|..].
      * intros q v Hq Hv. apply lookup_delete_Some in Hv as [_ Hv]. by rewrite lookup_insert_ne in Hv.
      * intros q Hq Hne. rewrite lookup_delete_ne, lookup_insert_ne by congruence. done.
    + by rewrite lookup_delete_ne, lookup_insert_eq.
  - cbn [deref mbind res_bind]. eexists; split; [done|]. cbn. split_and!; auto.
    + apply Hok; [by rewrite lookup_insert_eq|..].
      * intros q v Hq Hv. by rewrite lookup_insert_ne in Hv.
      * intros q Hq _. by rewrite lookup_insert_ne.
    + apply lookup_insert_eq.
Qed.

Lemma DispatchTaskData_ok sod fresh redirect sid cid command s : tasks_ok s ->
  (forall p, fresh = Some p -> tasks s !! p = None) ->
  exists ret s' to, DispatchTaskData sod fresh redirect sid cid command s = Ok (ret, s', to) /\ tasks_ok s' /\
    timers s' = timers s /\
    (forall p, to = Some p -> ret = redirect p /\ om_find cid (mapTask s') = Some p) /\
    ((NeedNewTaskInfo sod command).1 = true -> forall p, fresh = Some p -> to = Some p) /\
    ((NeedNewTaskInfo sod command).1 = false -> s' = s /\ to = om_find cid (mapTask s)).
Proof.
  intros HI Hfresh. unfold DispatchTaskData. destruct (NeedNewTaskInfo sod command) as [nt mt]. cbn [fst].
  destruct nt.
  - destruct fresh as [p|]; [|by do 3 eexists; split_and!].
    set (t := mkTask _ _ _ _ _ _ _ _ _ _).
    destruct (AddTask_ok s p t cid HI (Hfresh p eq_refl) eq_refl eq_refl eq_refl) as (s' & -> & HI' & Hp & Hm & Ht).
    cbn [mbind res_bind]. rewrite Hp. cbn [deref mbind res_bind t_taskStop t_taskFree t orb].
    do 3 eexists; split; [done|]. split_and!; auto; try congruence.
    intros q [= <-]. rewrite Hm, om_find_set_eq. done.
  - unfold AdminTask. cbn [Z.eqb OP_QUERY OP_ADD OP_REMOVE Pos.eqb mbind res_bind].
    destruct (om_find cid (mapTask s)) as [p|] eqn:Hq; [|by do 3 eexists; split_and!].
    destruct (tk_map s HI cid p Hq) as (t & Hp & Hst & Hfr & _). rewrite Hp. cbn [deref mbind res_bind].
    rewrite Hst, Hfr. cbn [orb]. do 3 eexists; split; [done|]. split_and!; auto; try done. by intros q [= <-].
Qed.

(** ** Theorem *)

(** What happens to a session's tasks: a command arrives, a channel or the whole
    session is cleared, a delete timer ticks. *)
Inductive task_step : Tasks -> Tasks -> Prop :=
| ts_dispatch sod fresh redirect sid cid command s ret s' to :
    (forall p, fresh = Some p -> tasks s !! p = None) ->
    DispatchTaskData sod fresh redirect sid cid command s = Ok (ret, s', to) -> task_step s s'
| ts_clear timerOk cid s s' : ClearOwnTasks timerOk cid s = Ok s' -> task_step s s'
| ts_tick removed p s s' : p ∈ timers s -> TaskClassDeleteRetry removed p s = Ok s' -> task_step s s'.

Definition no_tasks : Tasks := mkTasks ∅ [] [] 0.

Lemma task_steps_ok s : rtc task_step no_tasks s -> tasks_ok s.
Proof.
  intros Hr. assert (Hg : forall a, rtc task_step a s -> tasks_ok a -> tasks_ok s).
  { clear Hr. intros a. induction 1 as [|a b c Hab _ IH]; [done|]. intros HI. apply IH.
    destruct Hab as [sod fresh redirect sid cid command s ret s' to Hf Hd|timerOk cid s s' Hc|removed p s s' Hin Ht].
    - destruct (DispatchTaskData_ok sod fresh redirect sid cid command s HI Hf) as (? & ? & ? & He & ? & _). congruence.
    - destruct (ClearOwnTasks_ok timerOk cid s HI) as (? & He & ? & _). congruence.
    - destruct (TaskClassDeleteRetry_ok removed p s HI Hin) as (? & He & ? & _). congruence. }
  apply (Hg no_tasks Hr). split; cbn; try done; [intros ? []%not_elem_of_nil|constructor|constructor].
Qed.



(** The count the work thread waits for at the end of a session misses tasks:
    [ClearOwnTasks] sets [taskCount] to the size of the map, so a task whose
    removal was already under way (taken out of the map, its delete timer still
    pending) is not counted, and with an empty map the wait ends at the first
    tick while that task still exists. *)
Theorem clear_ignores_pending_removals :
  exists s s', rtc task_step no_tasks s /\ ClearOwnTasks true 0 s = Ok s' /\
    timers s' = [500] /\ is_Some (tasks s' !! 500) /\ (clearTaskForSessionFinish 0 s').2 = true.
Proof.
  destruct (DispatchTaskData false (Some 500) (fun _ => true) 1 9 CMD_SHELL_INIT no_tasks) as [[[r a] to]| | |] eqn:E1;
    try by vm_compute in E1.
  destruct (ClearOwnTasks true 9 a) as [c| | |] eqn:E2;
    try (vm_compute in E1; injection E1 as <- <- <-; by vm_compute in E2).
  destruct (ClearOwnTasks true 0 c) as [d| | |] eqn:E3;
    try (vm_compute in E1; injection E1 as <- <- <-; vm_compute in E2; injection E2 as <-; by vm_compute in E3).
  exists c, d. split.
  - eapply rtc_l; [eapply (ts_dispatch false (Some 500)); [|exact E1]; done|].
    eapply rtc_l; [exact (ts_clear true 9 a c E2)|apply rtc_refl].
  - vm_compute in E1. injection E1 as <- <- <-. vm_compute in E2. injection E2 as <-.
    vm_compute in E3. injection E3 as <-. vm_compute. split_and!; try done. by eexists.
Qed.
