(* ===== verification/Usb.v ===== *)
(** * Usb: blocks over USB bulk transfers ([usb.cpp], [daemon_usb.cpp], [host_usb.cpp])

    A block is sent as an 11-byte [USBHead], the body, and, when the body fills
    its last USB packet, a dummy header that keeps the controller from sending a
    zero-length packet.  The receiver gets the transfers one by one and forwards
    the body to the session's stream.

    The raw bulk write [SendUSBRaw] and the forwarding [UsbToHdcProtocol] are
    virtual; they are arguments, and the definitions return what was passed to
    them. *)

From Stdlib Require Import String ZArith Lia List Bool.
From stdpp Require Import base list numbers option.
From S2P Require Import Prelude Defs Packet.

Definition USB_PACKET_FLAG : bytes := str "UB".
Definition sizeof_USBHead : Z := 11.

(** Fields in host order; [htonl] is in the byte conversions. *)
Record USBHead := mkUSBHead { uh_flag : bytes; uh_option : Z; uh_sessionId : Z; uh_dataSize : Z }.

Definition USBHead_bytes (h : USBHead) : bytes :=
  uh_flag h ++ [uh_option h] ++ be_split 4 (uh_sessionId h) ++ be_split 4 (uh_dataSize h).

Definition USBHead_of (b : bytes) : USBHead :=
  mkUSBHead (ztake 2 b) (be_combine (ztake 1 (zdrop 2 b))) (be_combine (ztake 4 (zdrop 3 b)))
    (be_combine (ztake 4 (zdrop 7 b))).

Definition BuildPacketHeader (sessionId option dataSize : Z) : bytes :=
  USBHead_bytes (mkUSBHead USB_PACKET_FLAG option sessionId dataSize).

(** The parts of a session and its [HdcUSB] this file uses. *)
Record UsbSession := mkUsbSession {
  us_sessionId : Z; us_serverOrDaemon : bool; us_payloadSize : Z; us_resetIO : bool; us_wMaxPacketSizeSend : Z
}.
Definition set_payloadSize n (s : UsbSession) :=
  mkUsbSession (us_sessionId s) (us_serverOrDaemon s) n (us_resetIO s) (us_wMaxPacketSizeSend s).
Definition set_resetIO b (s : UsbSession) :=
  mkUsbSession (us_sessionId s) (us_serverOrDaemon s) (us_payloadSize s) b (us_wMaxPacketSizeSend s).

(** ** Sending *)

(** The result and the raw writes, in order. *)
Definition SendUSBBlock (SendUSBRaw : bytes -> Z) (s : UsbSession) (data : bytes) : Z * list bytes :=
  let length := zlen data in
  let header := BuildPacketHeader (us_sessionId s) USB_OPTION_HEADER (u32 length) in
  if us_wMaxPacketSizeSend s =? 0 then (ERR_IO_FAIL, [])
  else if SendUSBRaw header <=? 0 then (ERR_IO_FAIL, [header])
  else
    let childRet := SendUSBRaw data in
    if childRet <=? 0 then (ERR_IO_FAIL, [header; data])
    else if (0 <? childRet) && (childRet mod us_wMaxPacketSizeSend s =? 0) then
      let dummy := BuildPacketHeader (us_sessionId s) 0 0 in
      if SendUSBRaw dummy <=? 0 then (ERR_IO_FAIL, [header; data; dummy])
      else (length, [header; data; dummy])
    else (length, [header; data]).

(** ** Receiving *)

Definition IsUsbPacketHeader (ioBuf : bytes) (ioBytes : Z) : bool :=
  if negb (ioBytes =? sizeof_USBHead) then false
  else
    let h := USBHead_of ioBuf in
    if negb (bytes_eqb (uh_flag h) USB_PACKET_FLAG) then false
    else (uh_dataSize h =? 0) || negb (Z.land (uh_option h) USB_OPTION_HEADER =? 0).

(** The reset request goes out at most once. *)
Definition PreSendUsbSoftReset (s : UsbSession) (sessionIdOld : Z) : UsbSession * list bytes :=
  if us_serverOrDaemon s && negb (us_resetIO s) then
    (set_resetIO true s, [BuildPacketHeader sessionIdOld USB_OPTION_RESET 0])
  else (s, []).

Definition CheckPacketOption (s : UsbSession) (appendData : bytes) : Z * UsbSession * list bytes :=
  let header := USBHead_of appendData in
  if negb (uh_sessionId header =? us_sessionId s) then
    let '(s', raw) := PreSendUsbSoftReset s (uh_sessionId header) in (0, s', raw)
  else
    let s' := if negb (Z.land (uh_option header) USB_OPTION_HEADER =? 0)
              then set_payloadSize (uh_dataSize header) s else s in
    (i32 (us_payloadSize s'), s', []).

(** The result, the session, the reset packets written and the bytes passed to
    [UsbToHdcProtocol]. *)
Definition SendToHdcStream (UsbToHdcProtocol : bytes -> Z) (s : UsbSession) (appendData : bytes)
    : Z * UsbSession * list bytes * bytes :=
  if IsUsbPacketHeader appendData (zlen appendData) then (CheckPacketOption s appendData, [])
  else if us_payloadSize s <=? 0 then
    let '(s', raw) := PreSendUsbSoftReset s 0 in (0, s', raw, [])
  else
    let childRet := UsbToHdcProtocol appendData in
    if childRet <? 0 then (ERR_IO_FAIL, s, [], appendData)
    else
      let s' := set_payloadSize (u32 (us_payloadSize s - childRet)) s in
      (i32 (us_payloadSize s'), s', [], appendData).

(** How much the host asks for next. *)
Definition nextReadSize (childRet wMaxPacketSizeSend bulkInSize : Z) : Z :=
  if childRet <? wMaxPacketSizeSend then wMaxPacketSizeSend else Z.min childRet bulkInSize.

(** The host's read loop, over the results of [SubmitUsbBio]: an error code or
    the transfer read; the list ends when the session is dead.  Returned are the
    last [childRet], the sizes asked for, the session, the reset packets written
    and the bytes forwarded. *)
Fixpoint BeginUsbRead (fwd : bytes -> Z) (bulkInSize childRet : Z) (s : UsbSession) (bios : list (Z + bytes))
    : Z * list Z * UsbSession * list bytes * bytes :=
  match bios with
  | [] => (childRet, [], s, [], [])
  | bio :: bios =>
      let next := nextReadSize childRet (us_wMaxPacketSizeSend s) bulkInSize in
      match bio with
      | inl err => (err, [next], s, [], [])
      | inr [] =>
          let '(r, asked, s', raw, out) := BeginUsbRead fwd bulkInSize next s bios in (r, next :: asked, s', raw, out)
      | inr t =>
          let '(r1, s1, raw1, out1) := SendToHdcStream fwd s t in
          if r1 <? 0 then (r1, [next], s1, raw1, out1)
          else
            let '(r, asked, s', raw, out) := BeginUsbRead fwd bulkInSize r1 s1 bios in
            (r, next :: asked, s', raw1 ++ raw, out1 ++ out)
      end
  end.

(** The daemon skips the hello packet of an older protocol. *)
Definition JumpAntiquePacket (buf : bytes) (nbytes : Z) : bool :=
  (nbytes =? 24) && bytes_eqb (ztake 4 buf) [67; 78; 88; 78].

(** The daemon looks for reset requests and learns the session id from headers:
    the result, the id to reset (if any) and the new value of [*sessionId]. *)
Definition AvailablePacket (ioBuf : bytes) (ioBytes : Z) (sessionId : Z) : Z * option Z * Z :=
  if negb (IsUsbPacketHeader ioBuf ioBytes) then (RET_SUCCESS, None, sessionId)
  else
    let h := USBHead_of ioBuf in
    if negb (Z.land (uh_option h) USB_OPTION_RESET =? 0) then
      (ERR_IO_SOFT_RESET, Some (uh_sessionId h), sessionId)
    else (RET_SUCCESS, None, uh_sessionId h).

(** ** Facts *)

Definition USBHead_wf (h : USBHead) : Prop :=
  zlen (uh_flag h) = 2 /\ in_u 8 (uh_option h) /\ in_u 32 (uh_sessionId h) /\ in_u 32 (uh_dataSize h).

Lemma length_USBHead_bytes h : USBHead_wf h -> zlen (USBHead_bytes h) = sizeof_USBHead.
Proof.
  intros (Hf & _). unfold USBHead_bytes, sizeof_USBHead. rewrite !length_app, !length_be_split. simpl length. lia.
Qed.

Lemma USBHead_of_bytes h : USBHead_wf h -> USBHead_of (USBHead_bytes h) = h.
Proof.
  intros (Hf & Ho & Hs & Hd). destruct h as [f o s d]. cbn [uh_flag uh_option uh_sessionId uh_dataSize] in *.
  unfold USBHead_of, USBHead_bytes. cbn [uh_flag uh_option uh_sessionId uh_dataSize].
  rewrite ztake_app by lia. rewrite (zdrop_app f) by lia. rewrite (ztake_app [o]) by done.
  rewrite (app_assoc f), (zdrop_app (f ++ [o])) by (rewrite length_app; simpl; lia).
  rewrite (ztake_app (be_split 4 s)) by (by rewrite length_be_split).
  rewrite (app_assoc (f ++ [o])), (zdrop_app ((f ++ [o]) ++ be_split 4 s))
    by (rewrite !length_app, length_be_split; simpl; lia).
  rewrite (ztake_ge (be_split 4 d)) by (rewrite length_be_split; lia).
  rewrite !be_combine_split. unfold be_combine. simpl le_combine. unfold in_u in *.
  rewrite !Z.mod_small by (simpl; lia). f_equal. lia.
Qed.

Lemma BuildPacketHeader_ok sid opt n : in_u 32 sid -> in_u 8 opt -> in_u 32 n ->
  USBHead_of (BuildPacketHeader sid opt n) = mkUSBHead USB_PACKET_FLAG opt sid n /\
  zlen (BuildPacketHeader sid opt n) = sizeof_USBHead.
Proof. intros. split; [apply USBHead_of_bytes|apply length_USBHead_bytes]; by split_and!. Qed.

(** A header addressed to the session. *)
Lemma SendToHdcStream_header fwd s opt n : in_u 32 (us_sessionId s) -> in_u 8 opt -> in_u 32 n ->
  n = 0 \/ Z.land opt USB_OPTION_HEADER <> 0 ->
  SendToHdcStream fwd s (BuildPacketHeader (us_sessionId s) opt n)
  = (let s' := if negb (Z.land opt USB_OPTION_HEADER =? 0) then set_payloadSize n s else s in
     (i32 (us_payloadSize s'), s', [], [])).
Proof.
  intros Hs Ho Hn Hh. destruct (BuildPacketHeader_ok (us_sessionId s) opt n Hs Ho Hn) as [He Hl].
  unfold SendToHdcStream, IsUsbPacketHeader, CheckPacketOption. rewrite Hl, He, Z.eqb_refl.
  cbn [negb uh_flag uh_dataSize uh_option uh_sessionId]. unfold bytes_eqb. rewrite bool_decide_true by done. cbn [negb].
  assert ((n =? 0) || negb (Z.land opt USB_OPTION_HEADER =? 0) = true) as ->.
  { destruct Hh as [->|Hh]; [done|]. rewrite orb_true_iff. right. by apply negb_true_iff, Z.eqb_neq. }
  by rewrite Z.eqb_refl.
Qed.

Definition body_chunk (c : bytes) : Prop := IsUsbPacketHeader c (zlen c) = false.

Lemma nextReadSize_ge childRet w bulk : w <= bulk -> w <= nextReadSize childRet w bulk.
Proof. intros. unfold nextReadSize. destruct (_ <? _) eqn:E; breflect; lia. Qed.

(** One transfer that is processed without an error. *)
Lemma BeginUsbRead_step fwd bulk childRet s t bios r1 s1 raw1 out1 :
  t <> [] -> SendToHdcStream fwd s t = (r1, s1, raw1, out1) -> 0 <= r1 ->
  BeginUsbRead fwd bulk childRet s (inr t :: bios) =
    let '(r, asked, s', raw, out) := BeginUsbRead fwd bulk r1 s1 bios in
    (r, nextReadSize childRet (us_wMaxPacketSizeSend s) bulk :: asked, s', raw1 ++ raw, out1 ++ out).
Proof.
  intros Ht Hs Hr. cbn [BeginUsbRead]. destruct t as [|b t]; [done|]. rewrite Hs. by rewrite (proj2 (Z.ltb_ge r1 0)) by lia.
Qed.

(** What a run of the loop over the rest of a block ensures. *)
Definition block_read (fwd : bytes -> Z) (bulk childRet : Z) (s : UsbSession) (bios : list (Z + bytes)) (data : bytes) : Prop :=
  exists r asked, BeginUsbRead fwd bulk childRet s bios = (r, asked, set_payloadSize 0 s, [], data) /\ 0 <= r /\
    Forall (fun n => us_wMaxPacketSizeSend s <= n) asked.

Lemma block_read_step fwd bulk childRet s t bios r1 out1 data n :
  us_wMaxPacketSizeSend s <= bulk ->
  t <> [] -> SendToHdcStream fwd s t = (r1, set_payloadSize n s, [], out1) -> 0 <= r1 ->
  block_read fwd bulk r1 (set_payloadSize n s) bios data ->
  block_read fwd bulk childRet s (inr t :: bios) (out1 ++ data).
Proof.
  intros Hb Ht Hs Hr (r & asked & Hrun & Hr' & Hask). unfold block_read.
  rewrite (BeginUsbRead_step _ _ _ _ _ _ _ _ _ _ Ht Hs Hr), Hrun. eexists _, _. split; [reflexivity|]. split; [done|].
  constructor; [by apply nextReadSize_ge|exact Hask].
Qed.

(** Body transfers are forwarded and counted down, empty reads are skipped. *)
Lemma block_read_body fwd bulk chunks rest : forall childRet s,
  (forall c, fwd c = zlen c) -> 0 <= childRet -> us_wMaxPacketSizeSend s <= bulk -> 0 <= us_wMaxPacketSizeSend s ->
  Forall body_chunk chunks -> zlen (concat chunks) = us_payloadSize s -> us_payloadSize s < 2 ^ 31 ->
  (forall c, 0 <= c -> block_read fwd bulk c (set_payloadSize 0 s) rest []) ->
  block_read fwd bulk childRet s (map inr chunks ++ rest) (concat chunks).
Proof.
  intros childRet s Hfwd. revert childRet s. induction chunks as [|c chunks IH]; intros childRet s Hr Hb Hw Hc Hlen Hmax Hrest; cbn [map app concat] in *.
  - cbn in Hlen. replace s with (set_payloadSize 0 s) by (destruct s; cbn in Hlen; by subst). by apply Hrest.
  - apply List.Forall_cons_iff in Hc as [Hh Hc]. rewrite length_app in Hlen. destruct (decide (c = [])) as [->|Hne].
    + destruct (IH (nextReadSize childRet (us_wMaxPacketSizeSend s) bulk) s) as (r & asked & Hrun & Hr' & Hask); auto.
      { pose proof (nextReadSize_ge childRet _ _ Hb). lia. }
      eexists _, _. cbn [BeginUsbRead]. rewrite Hrun. split; [reflexivity|]. split; [done|].
      constructor; [by apply nextReadSize_ge|exact Hask].
    + assert (0 < zlen c) by (destruct c; [done|simpl; lia]).
      apply (block_read_step _ _ _ _ _ _ (us_payloadSize s - zlen c) _ _ (us_payloadSize s - zlen c)); [done|done|..|lia|].
      * unfold SendToHdcStream. rewrite Hh, (proj2 (Z.leb_gt _ _)), Hfwd, (proj2 (Z.ltb_ge _ _)) by lia.
        rewrite uwrap_small by (unfold in_u; lia). cbn [us_payloadSize set_payloadSize].
        assert (Hi : i32 (us_payloadSize s - zlen c) = us_payloadSize s - zlen c); [|by rewrite Hi].
        unfold swrap. rewrite Z.mod_small by lia. by rewrite (proj2 (Z.ltb_lt _ _)) by lia.
      * apply IH; cbn; auto; lia.
Qed.

(** A header, the body, and possibly the dummy header. *)
Lemma block_read_block fwd bulk rcv data chunks :
  in_u 32 (us_sessionId rcv) -> 0 < zlen data < 2 ^ 31 -> 0 <= us_wMaxPacketSizeSend rcv <= bulk ->
  (forall c, fwd c = zlen c) -> concat chunks = data -> Forall body_chunk chunks ->
  let header := BuildPacketHeader (us_sessionId rcv) USB_OPTION_HEADER (zlen data) in
  let dummy := BuildPacketHeader (us_sessionId rcv) 0 0 in
  block_read fwd bulk 0 rcv (map inr ([header] ++ chunks)) data /\
  block_read fwd bulk 0 rcv (map inr ([header] ++ chunks ++ [dummy])) data.
Proof.
  intros Hu Hlen Hbulk Hfwd Hch Hbody header dummy.
  pose proof (SendToHdcStream_header fwd rcv USB_OPTION_HEADER (zlen data) Hu ltac:(unfold in_u, USB_OPTION_HEADER; lia)
    ltac:(unfold in_u; lia) ltac:(right; discriminate)) as Hhead.
  change (negb (Z.land USB_OPTION_HEADER USB_OPTION_HEADER =? 0)) with true in Hhead. cbv iota zeta in Hhead.
  cbn [us_payloadSize set_payloadSize] in Hhead.
  assert (Hi : i32 (zlen data) = zlen data).
  { unfold swrap. rewrite Z.mod_small by lia. by rewrite (proj2 (Z.ltb_lt _ _)) by lia. }
  rewrite Hi in Hhead.
  assert (Hgo : forall rest, (forall c, 0 <= c -> block_read fwd bulk c (set_payloadSize 0 rcv) rest []) ->
    block_read fwd bulk 0 rcv (inr header :: map inr chunks ++ rest) data).
  { intros rest Hrest. rewrite <- (app_nil_l data).
    apply (block_read_step _ _ _ _ _ _ (zlen data) _ _ (zlen data)); [lia|done|exact Hhead|lia|].
    subst data. apply block_read_body; cbn; auto; lia. }
  cbn [map app]. rewrite map_app. split; [rewrite <- (app_nil_r (map inr chunks))|]; apply Hgo; intros c Hc.
  - exists c, []. done.
  - pose proof (SendToHdcStream_header fwd (set_payloadSize 0 rcv) 0 0 Hu ltac:(unfold in_u; lia)
      ltac:(unfold in_u; lia) (or_introl eq_refl)) as Hdum.
    apply (block_read_step _ _ _ _ dummy [] 0 [] [] 0); [cbn; lia|done|exact Hdum|lia|]. by exists 0, [].
Qed.

(** ** Theorems *)

(** A block sent with [SendUSBBlock] arrives complete: whatever the sizes of
    the transfers in which the body reaches the host, empty ones included, as long
    as none of them looks like a header, the read loop forwards exactly the body,
    ends without an error, asks for no reset and is ready for the next block; and
    it never asks for less than one USB packet.  This covers the dummy header after
    a body that fills its last USB packet. *)
Theorem usb_block_roundtrip (raw fwd : bytes -> Z) (bulk : Z) (snd rcv : UsbSession) (data : bytes) (chunks : list bytes) :
  us_sessionId snd = us_sessionId rcv -> in_u 32 (us_sessionId rcv) ->
  0 < zlen data < 2 ^ 31 -> 0 < us_wMaxPacketSizeSend snd -> 0 <= us_wMaxPacketSizeSend rcv <= bulk ->
  (forall b, raw b = zlen b) -> (forall c, fwd c = zlen c) ->
  concat chunks = data -> Forall body_chunk chunks ->
  exists writes, SendUSBBlock raw snd data = (zlen data, writes) /\
    let transfers := match writes with
                     | [header; _; dummy] => [header] ++ chunks ++ [dummy]
                     | [header; _] => [header] ++ chunks
                     | _ => []
                     end in
    block_read fwd bulk 0 rcv (map inr transfers) data.
Proof.
  intros Hid Hu Hlen Hw Hbulk Hraw Hfwd Hch Hbody. unfold SendUSBBlock. rewrite Hid.
  rewrite (uwrap_small 32 (zlen data)) by (unfold in_u; lia).
  destruct (BuildPacketHeader_ok (us_sessionId rcv) USB_OPTION_HEADER (zlen data)) as [_ Hl1];
    [done|unfold in_u, USB_OPTION_HEADER; lia|unfold in_u; lia|].
  destruct (BuildPacketHeader_ok (us_sessionId rcv) 0 0) as [_ Hl2]; [done|unfold in_u; lia..|].
  rewrite (proj2 (Z.eqb_neq _ 0)), !Hraw, Hl1, Hl2 by lia. unfold sizeof_USBHead.
  cbn [Z.leb Z.compare]. rewrite (proj2 (Z.leb_gt (zlen data) 0)), (proj2 (Z.ltb_lt 0 (zlen data))) by lia. cbn [andb].
  pose proof (block_read_block fwd bulk rcv data chunks Hu Hlen Hbulk Hfwd Hch Hbody) as [H1 H2].
  case_if_goal; (eexists; split; [reflexivity|]); cbv zeta; [exact H2|exact H1].
Qed.

Definition usb_sample : UsbSession := mkUsbSession 77 true 0 false 4.

Lemma usb_block_roundtrip_witness :
  exists writes, SendUSBBlock (fun b => zlen b) usb_sample (str "abcdefgh") = (8, writes) /\
    block_read (fun b => zlen b) 64 0 usb_sample (map inr
      match writes with
      | [header; _; dummy] => [header] ++ [str "abcd"; []; str "efgh"] ++ [dummy]
      | [header; _] => [header] ++ [str "abcd"; []; str "efgh"]
      | _ => []
      end) (str "abcdefgh").
Proof.
  apply (usb_block_roundtrip (fun b => zlen b) (fun b => zlen b) 64 usb_sample usb_sample (str "abcdefgh") [str "abcd"; []; str "efgh"]).
  - reflexivity.
  - vm_compute. split; [discriminate|reflexivity].
  - vm_compute. split; reflexivity.
  - reflexivity.
  - vm_compute. split; discriminate.
  - reflexivity.
  - reflexivity.
  - reflexivity.
  - repeat constructor.
Defined.

(** Data that does not belong to the current block is never forwarded: a
    header with another session id or a transfer that arrives while nothing is
    outstanding is dropped, and the server answers with one reset request until
    the next; a transfer longer than what is outstanding is forwarded but
    reported as an error (a negative result), which ends the read loop. *)
Theorem usb_stray_data (fwd : bytes -> Z) (s : UsbSession) (t : bytes) :
  in_u 32 (us_payloadSize s) -> (forall c, fwd c = zlen c) ->
  let '(r, s', raw, out) := SendToHdcStream fwd s t in
  (IsUsbPacketHeader t (zlen t) = true -> out = [] /\
     (uh_sessionId (USBHead_of t) <> us_sessionId s -> r = 0 /\ us_payloadSize s' = us_payloadSize s)) /\
  (IsUsbPacketHeader t (zlen t) = false -> us_payloadSize s = 0 -> r = 0 /\ out = []) /\
  (IsUsbPacketHeader t (zlen t) = false -> 0 < us_payloadSize s < zlen t -> zlen t <= 2 ^ 31 ->
     r < 0 /\ out = t) /\
  (raw <> [] -> us_serverOrDaemon s = true /\ us_resetIO s = false /\ us_resetIO s' = true) /\
  (us_resetIO s = true -> raw = [] /\ us_resetIO s' = true).
Proof.
  intros Hp Hfwd. unfold in_u in Hp. unfold SendToHdcStream, CheckPacketOption, PreSendUsbSoftReset.
  destruct (IsUsbPacketHeader t (zlen t)).
  - destruct (negb (uh_sessionId (USBHead_of t) =? us_sessionId s)) eqn:E; breflect.
    + destruct (us_serverOrDaemon s) eqn:E1, (us_resetIO s) eqn:E2; cbn; split_and!; auto; try done; congruence.
    + case_if_goal; cbn; split_and!; auto; try done; intros; try done; congruence.
  - destruct (us_payloadSize s <=? 0) eqn:E; breflect.
    + destruct (us_serverOrDaemon s) eqn:E1, (us_resetIO s) eqn:E2; cbn; split_and!; auto; try done; try congruence; intros; lia.
    + rewrite Hfwd, (proj2 (Z.ltb_ge _ 0)) by lia. cbn. split_and!; try done; [intros; lia|].
      intros _ Hlt Hmax. split; [|done].
      assert (Hm : u32 (us_payloadSize s - zlen t) = us_payloadSize s - zlen t + 2 ^ 32).
      { unfold uwrap. rewrite <- (Z.mod_add _ 1) by lia. rewrite Z.mod_small; lia. }
      rewrite Hm. unfold swrap. rewrite Z.mod_small by lia. rewrite (proj2 (Z.ltb_ge _ _)) by lia. lia.
Qed.

Lemma usb_stray_data_witness :
  (SendToHdcStream (fun b => zlen b) usb_sample (str "stale")).1.1.1 = 0.
Proof.
  pose proof (usb_stray_data (fun b => zlen b) usb_sample (str "stale")) as T.
  destruct (SendToHdcStream (fun b => zlen b) usb_sample (str "stale")) as [[[r s'] raw] out].
  apply T; try reflexivity. vm_compute. split; [discriminate|reflexivity].
Defined.
