(* ===== verification/Args.v ===== *)
(** * Args: splitting a command line into arguments ([Base::SplitCommandToArgs])

    One allocation holds the slots of [argv] and behind them the characters of
    the arguments ([temp]).  Every store is checked against its part of the
    allocation, so [Undefined] would be a write out of bounds. *)

From Stdlib Require Import String ZArith Lia List Bool.
From stdpp Require Import base list numbers option.
From S2P Require Import Prelude.

Definition extraBufSize : Z := 2.

(** The number of [argv] slots and of [temp] characters allocated for [len]
    input characters. *)
Definition argv_slots (len : Z) : Z := (len + extraBufSize) / extraBufSize + 1.
Definition temp_size (len : Z) : Z := len + extraBufSize.

Record ArgState := mkArgs {
  ag_argv : list Z;  (* the offsets stored in argv[0 .. argc-1] *)
  ag_temp : bytes;   (* temp[0 .. j-1] *)
  ag_isQuoted : bool; ag_isText : bool; ag_isSpace : bool
}.

(** [temp[j] = c; ++j]. *)
Definition put_char (len c : Z) (s : ArgState) : res ArgState :=
  if zlen (ag_temp s) <? temp_size len
  then Ok (mkArgs (ag_argv s) (ag_temp s ++ [c]) (ag_isQuoted s) (ag_isText s) (ag_isSpace s))
  else Undefined.

(** [argv[argc] = temp + j; ++argc]. *)
Definition put_arg (len : Z) (s : ArgState) : res ArgState :=
  if zlen (ag_argv s) <? argv_slots len
  then Ok (mkArgs (ag_argv s ++ [zlen (ag_temp s)]) (ag_temp s) (ag_isQuoted s) (ag_isText s) (ag_isSpace s))
  else Undefined.

Definition is_blank (a : Z) : bool := (a =? 32) || (a =? 9) || (a =? 10) || (a =? 13).

Definition flags (q t sp : bool) (s : ArgState) : ArgState := mkArgs (ag_argv s) (ag_temp s) q t sp.

(** One iteration of the loop. *)
Definition split_char (len a : Z) (s : ArgState) : res ArgState :=
  if ag_isQuoted s then
    if a =? 34 then Ok (flags false (ag_isText s) (ag_isSpace s) s) else put_char len a s
  else if a =? 34 then
    s1 ← (if ag_isSpace s then put_arg len s else Ok s); Ok (flags true true false s1)
  else if is_blank a then
    s1 ← (if ag_isText s then put_char len 0 s else Ok s); Ok (flags false false true s1)
  else
    s1 ← (if ag_isSpace s then put_arg len s else Ok s);
    s2 ← put_char len a s1; Ok (flags false true false s2).

Fixpoint split_loop (len : Z) (input : bytes) (s : ArgState) : res ArgState :=
  match input with
  | [] => Ok s
  | a :: input => s' ← split_char len a s; split_loop len input s'
  end.

(** [None] is the null result for an empty command; otherwise the offsets of the
    arguments and the characters. *)
Definition SplitCommandToArgs (cmdStringLine : bytes) : res (option (list Z * bytes)) :=
  let line := cstr cmdStringLine in
  let len := zlen line in
  if len <? 1 then Ok None
  else
    s ← split_loop len line (mkArgs [] [] false false true);
    s' ← put_char len 0 s;
    if zlen (ag_argv s') <? argv_slots len then Ok (Some (ag_argv s', ag_temp s')) else Undefined.

(** The C strings [argv[0 .. argc-1]] point to. *)
Definition arg_strings (r : list Z * bytes) : list bytes := map (fun o => cstr (zdrop o r.2)) r.1.

(** ** Reference definition *)

(** The arguments of the rest of the line: inside quotes or not, with the
    argument read so far. *)
Fixpoint words (quoted : bool) (cur : option bytes) (input : bytes) : list bytes :=
  match input with
  | [] => match cur with Some w => [w] | None => [] end
  | a :: input =>
      if quoted then
        if a =? 34 then words false cur input else words true (Some (default [] cur ++ [a])) input
      else if a =? 34 then words true (Some (default [] cur)) input
      else if is_blank a then
        match cur with Some w => w :: words false None input | None => words false None input end
      else words false (Some (default [] cur ++ [a])) input
  end.

(** ** Correctness *)

(** Finished arguments in memory, each with its terminator, from offset [n]. *)
Fixpoint offsets (n : Z) (ds : list bytes) : list Z :=
  match ds with
  | [] => []
  | d :: ds => n :: offsets (n + zlen d + 1) ds
  end.
Definition packed (ds : list bytes) : bytes := concat (map (fun d => d ++ [0]) ds).

Lemma packed_snoc ds d : packed (ds ++ [d]) = packed ds ++ d ++ [0].
Proof. unfold packed. rewrite map_app, concat_app. cbn. by rewrite app_nil_r. Qed.

Lemma offsets_snoc ds d : forall n, offsets n (ds ++ [d]) = offsets n ds ++ [n + zlen (packed ds)].
Proof.
  induction ds as [|x ds IH]; intros n; cbn [app offsets packed map concat]; [by rewrite Z.add_0_r|].
  rewrite IH. fold (packed ds). cbn [app].
  replace (n + zlen x + 1 + zlen (packed ds)) with (n + zlen ((x ++ [0]) ++ packed ds)); [done|].
  rewrite !length_app. cbn [length]. lia.
Qed.

Definition has_word (cur : option bytes) : bool := match cur with Some _ => true | None => false end.

(** The loop has stored the finished arguments [ds] and is reading [cur]. *)
Record at_args (len k : Z) (ds : list bytes) (quoted : bool) (cur : option bytes) (s : ArgState) : Prop := {
  aa_temp : ag_temp s = packed ds ++ default [] cur;
  aa_argv : ag_argv s = offsets 0 ds ++ match cur with Some _ => [zlen (packed ds)] | None => [] end;
  aa_quoted : ag_isQuoted s = quoted;
  aa_text : ag_isText s = has_word cur;
  aa_space : ag_isSpace s = negb (has_word cur);
  aa_qcur : quoted = true -> has_word cur = true;
  aa_len : zlen (ag_temp s) <= k;
  aa_argc : 2 * zlen (ag_argv s) <= k + match cur with Some _ => 1 | None => 0 end
}.

Lemma put_char_ok len c s k : zlen (ag_temp s) <= k -> k <= len ->
  put_char len c s = Ok (mkArgs (ag_argv s) (ag_temp s ++ [c]) (ag_isQuoted s) (ag_isText s) (ag_isSpace s)).
Proof. intros. unfold put_char, temp_size, extraBufSize. by rewrite (proj2 (Z.ltb_lt _ _)) by lia. Qed.

Lemma put_arg_ok len s k : 2 * zlen (ag_argv s) <= k -> k <= len ->
  put_arg len s = Ok (mkArgs (ag_argv s ++ [zlen (ag_temp s)]) (ag_temp s) (ag_isQuoted s) (ag_isText s) (ag_isSpace s)).
Proof.
  intros. unfold put_arg, argv_slots, extraBufSize. rewrite (proj2 (Z.ltb_lt _ _)); [done|].
  pose proof (Z.div_le_lower_bound (len + 2) 2 (zlen (ag_argv s))). lia.
Qed.

(** One character: the memory follows the reference definition. *)
Lemma split_char_ok len k ds quoted cur s a input :
  at_args len k ds quoted cur s -> k < len ->
  exists ds' quoted' cur' s', split_char len a s = Ok s' /\ at_args len (k + 1) ds' quoted' cur' s' /\
    ds ++ words quoted cur (a :: input) = ds' ++ words quoted' cur' input.
Proof.
  intros [Ht Hv Hq Hx Hs Hqc Hl Hc] Hk. unfold split_char. rewrite Hq, Hx, Hs. cbn [words].
  pose proof (put_char_ok len a s k Hl ltac:(lia)) as Hput.
  destruct quoted.
  - destruct cur as [w|]; [|by specialize (Hqc eq_refl)]. cbn [default from_option has_word] in *. destruct (a =? 34).
    + exists ds, false, (Some w). eexists. split; [done|]. split; [|done]. split; cbn; auto; lia.
    + exists ds, true, (Some (w ++ [a])). eexists. split; [exact Hput|]. split; [|done].
      split; cbn; auto; try lia; [by rewrite Ht, app_assoc|rewrite length_app; cbn; lia].
  - destruct (a =? 34); [|destruct (is_blank a)].
    + destruct cur as [w|]; cbn [has_word] in *.
      * cbn [negb mbind res_bind].
        exists ds, true, (Some w). eexists. split; [done|]. split; [|done]. split; cbn; auto; lia.
      * cbn [negb]. rewrite (put_arg_ok len s k) by lia. cbn [mbind res_bind].
        exists ds, true, (Some []). eexists. split; [done|]. split; [|done].
        cbn [default from_option] in *. rewrite app_nil_r in *.
        split; cbn; auto; try lia; [by rewrite app_nil_r|by rewrite Hv, Ht|rewrite length_app; cbn; lia].
    + destruct cur as [w|]; cbn [has_word] in *.
      * rewrite (put_char_ok len 0 s k) by lia. cbn [mbind res_bind].
        exists (ds ++ [w]), false, None. eexists. split; [done|]. split; [|by rewrite <- app_assoc].
        cbn [default from_option] in *.
        split; cbn; auto; try lia; try done.
        -- by rewrite app_nil_r, packed_snoc, Ht, <- app_assoc.
        -- by rewrite app_nil_r, offsets_snoc, Hv.
        -- rewrite length_app. cbn. lia.
      * cbn [mbind res_bind].
        exists ds, false, None. eexists. split; [done|]. split; [|done]. split; cbn; auto; try lia; done.
    + destruct cur as [w|]; cbn [has_word] in *.
      * cbn [negb mbind res_bind]. rewrite Hput. cbn [mbind res_bind].
        exists ds, false, (Some (w ++ [a])). eexists. split; [done|]. split; [|done]. cbn [default from_option] in *.
        split; cbn; auto; try lia; try done; [by rewrite Ht, app_assoc|rewrite length_app; cbn; lia].
      * cbn [negb]. rewrite (put_arg_ok len s k) by lia. cbn [mbind res_bind].
        rewrite (put_char_ok _ _ _ k) by (cbn; lia). cbn [mbind res_bind].
        exists ds, false, (Some [a]). eexists. split; [done|]. split; [|done]. cbn [default from_option] in *.
        rewrite app_nil_r in *.
        split; cbn; auto; try lia; try done; [by rewrite Ht|by rewrite Hv, Ht|rewrite length_app; cbn; lia..].
Qed.

Lemma split_loop_ok len input : forall k ds quoted cur s,
  at_args len k ds quoted cur s -> k + zlen input <= len ->
  exists ds' quoted' cur' s', split_loop len input s = Ok s' /\ at_args len (k + zlen input) ds' quoted' cur' s' /\
    ds ++ words quoted cur input = ds' ++ match cur' with Some w => [w] | None => [] end.
Proof.
  induction input as [|a input IH]; intros k ds quoted cur s Hs Hlen.
  - exists ds, quoted, cur, s. cbn. rewrite Z.add_0_r. done.
  - cbn [length] in Hlen. destruct (split_char_ok len k ds quoted cur s a input Hs ltac:(lia)) as (d & q & c & s1 & He & Hs1 & Hw).
    cbn [split_loop]. rewrite He. cbn [mbind res_bind].
    destruct (IH (k + 1) d q c s1 Hs1 ltac:(lia)) as (d' & q' & c' & s' & He' & Hs' & Hw').
    exists d', q', c', s'. split; [done|]. split; [|by rewrite Hw].
    replace (k + zlen (a :: input)) with (k + 1 + zlen input) by (cbn [length]; lia). done.
Qed.

(** Reading the stored strings back. *)
Lemma read_offsets ds : forall p q, Forall no_nul ds ->
  map (fun o => cstr (zdrop o (p ++ packed ds ++ q))) (offsets (zlen p) ds) = ds.
Proof.
  induction ds as [|d ds IH]; intros p q Hn; [done|]. apply List.Forall_cons_iff in Hn as [Hd Hds].
  cbn [offsets map]. f_equal.
  - rewrite zdrop_app by done. unfold packed. cbn [map concat]. rewrite <- !app_assoc. cbn [app]. by apply cstr_app_nul.
  - replace (zlen p + zlen d + 1) with (zlen (p ++ d ++ [0])) by (rewrite !length_app; cbn [length]; lia).
    rewrite <- (IH (p ++ d ++ [0]) q Hds) at 2. apply map_ext. intros o.
    unfold packed. cbn [map concat]. by rewrite <- !app_assoc.
Qed.

Lemma words_no_nul input : forall quoted cur, no_nul input -> no_nul (default [] cur) -> Forall no_nul (words quoted cur input).
Proof.
  induction input as [|a input IH]; intros quoted cur Hi Hc; cbn [words].
  - destruct cur; [|constructor]. constructor; [done|constructor].
  - apply List.Forall_cons_iff in Hi as [Ha Hi].
    assert (no_nul (default [] cur ++ [a])) by (apply Forall_app_2; [done|constructor; [done|constructor]]).
    destruct quoted; [destruct (a =? 34); apply IH; auto|].
    destruct (a =? 34); [by apply IH|]. destruct (is_blank a); [|by apply IH].
    destruct cur; [constructor; [done|]|]; apply IH; auto; constructor.
Qed.

(** The result of [SplitCommandToArgs] on every command. *)
Lemma SplitCommandToArgs_words (cmd : bytes) :
  if zlen (cstr cmd) <? 1 then SplitCommandToArgs cmd = Ok None
  else exists r, SplitCommandToArgs cmd = Ok (Some r) /\ arg_strings r = words false None (cstr cmd).
Proof.
  unfold SplitCommandToArgs. set (line := cstr cmd). destruct (zlen line <? 1) eqn:E; [done|]. breflect.
  assert (H0 : at_args (zlen line) 0 [] false None (mkArgs [] [] false false true)) by (split; cbn; auto; lia || done).
  destruct (split_loop_ok (zlen line) line 0 [] false None _ H0 ltac:(lia)) as (ds & q & cur & s & -> & Hs & Hw).
  cbn [mbind res_bind app] in *. destruct Hs as [Ht Hv _ _ _ _ Hl Hc].
  rewrite (put_char_ok (zlen line) 0 s (zlen line)) by lia. cbn [mbind res_bind ag_argv ag_temp].
  rewrite (proj2 (Z.ltb_lt _ _)).
  2: { unfold argv_slots, extraBufSize. pose proof (Z.div_le_lower_bound (zlen line + 2) 2 (zlen (ag_argv s))).
       destruct cur; lia. }
  eexists. split; [done|]. unfold arg_strings. cbn [fst snd]. rewrite Hw, Hv, Ht.
  pose proof (words_no_nul line false None (cstr_no_nul cmd) ltac:(constructor)) as Hn. rewrite Hw in Hn.
  destruct cur as [w|]; cbn [default from_option].
  - pose proof (read_offsets (ds ++ [w]) [] [] Hn) as Hr. rewrite packed_snoc, offsets_snoc, !app_nil_r in Hr.
    cbn [app length Z.of_nat Z.add] in Hr. rewrite <- app_assoc. exact Hr.
  - rewrite !app_nil_r in *. exact (read_offsets ds [] [0] Hn).
Qed.

(** C37. [SplitCommandToArgs] is memory safe and correct: for every command
    string all stores stay inside the one buffer it allocates, and the resulting
    [argv] strings are exactly the blank-separated words of the command, with
    double-quoted parts taken literally and joined to their word. *)
Theorem split_command_to_args_correct (cmd : bytes) :
  if zlen (cstr cmd) <? 1 then SplitCommandToArgs cmd = Ok None
  else exists r, SplitCommandToArgs cmd = Ok (Some r) /\ arg_strings r = words false None (cstr cmd).
Proof. exact (SplitCommandToArgs_words cmd). Qed.

(** The definitions on a concrete command line. *)
Example split_example :
  exists r, SplitCommandToArgs (str "cp  a b c" ++ [0]) = Ok (Some r) /\ arg_strings r = [str "cp"; str "a"; str "b"; str "c"].
Proof. eexists. split; vm_compute; reflexivity. Qed.
