(* ===== verification/Strings.v ===== *)
(** * Strings: the string utilities of [base.cpp]

    Each is modelled as written, loops included, on byte strings; the theorems
    compare them with direct definitions.  Loops run with fuel one above the
    length of the string, which every iteration shortens or advances in. *)

From Stdlib Require Import String ZArith Lia List Bool.
From stdpp Require Import base list numbers option.
From S2P Require Import Prelude Defs OrdMap.

(** ** [std::string] searches *)

Fixpoint is_prefix (pat s : bytes) : bool :=
  match pat, s with
  | [], _ => true
  | _, [] => false
  | p :: pat, c :: s => (p =? c) && is_prefix pat s
  end.

Fixpoint find_aux (pat s : bytes) (i : Z) : option Z :=
  if is_prefix pat s then Some i
  else match s with [] => None | _ :: s => find_aux pat s (i + 1) end.

(** [s.find(pat, pos)]; [None] is [npos]. *)
Definition find (pat s : bytes) (pos : Z) : option Z :=
  if zlen s <? pos then None else find_aux pat (zdrop pos s) pos.

(** [s.rfind(pat)]. *)
Fixpoint rfind_aux (pat s : bytes) (i : Z) : option Z :=
  match s with
  | [] => if is_prefix pat [] then Some i else None
  | _ :: t =>
      match rfind_aux pat t (i + 1) with
      | Some j => Some j
      | None => if is_prefix pat s then Some i else None
      end
  end.
Definition rfind (pat s : bytes) : option Z := rfind_aux pat s 0.

(** [s.substr(pos, n)]. *)
Definition substr (s : bytes) (pos n : Z) : bytes := ztake n (zdrop pos s).

(** ** Splitting *)

Fixpoint SplitString_loop (fuel : nat) (orig seq : bytes) (p1 : Z) (p2 : option Z) (result : list bytes)
    : res (list bytes) :=
  match fuel with
  | O => Stuck
  | S fuel =>
      match p2 with
      | None => Ok (if negb (p1 =? zlen orig) then result ++ [zdrop p1 orig] else result)
      | Some q =>
          if q =? p1 then SplitString_loop fuel orig seq (p1 + 1) (find seq orig (p1 + 1)) result
          else
            let p1' := q + zlen seq in
            SplitString_loop fuel orig seq p1' (find seq orig p1') (result ++ [substr orig p1 (q - p1)])
      end
  end.

Definition SplitString (orig seq : bytes) (result : list bytes) : res (list bytes) :=
  SplitString_loop (S (length orig)) orig seq 0 (find seq orig 0) result.

(** [std::getline] with a delimiter until the stream ends. *)
Fixpoint split_on (c : Z) (s : bytes) : list bytes :=
  match s with
  | [] => [[]]
  | x :: s =>
      if x =? c then [] :: split_on c s
      else match split_on c s with
           | w :: ws => (x :: w) :: ws
           | [] => [[x]]
           end
  end.
(** A delimiter at the very end opens no further field. *)
Fixpoint drop_last_empty (l : list bytes) : list bytes :=
  match l with
  | [] => []
  | [[]] => []
  | x :: l => x :: drop_last_empty l
  end.
Definition getlines (c : Z) (s : bytes) : list bytes := drop_last_empty (split_on c s).

(** ** Feature lists *)

Fixpoint FeatureToString (feature : list bytes) : bytes :=
  match feature with
  | [] => []
  | [f] => f
  | f :: feature => f ++ str "," ++ FeatureToString feature
  end.

Definition StringToFeatureSet (featureStr : bytes) (features : list bytes) : res (list bytes) :=
  SplitString featureStr (str ",") features.

Definition IsSupportFeature (features : list bytes) (feature : bytes) : bool :=
  existsb (fun f => bytes_eqb f feature) features.

(** ** Paths *)

(** The separator is [/] on every platform but Windows. *)
Definition GetPathSep : Z := 47.

Definition GetFileNameAny (path : bytes) : bytes :=
  match rfind [47] path with
  | Some i => zdrop (i + 1) path
  | None => match rfind [92] path with Some i => zdrop (i + 1) path | None => path end
  end.

(** Trailing separators are removed one by one; [back()] of an empty string is
    undefined.  The path is updated in place, the result is the last component. *)
Fixpoint strip_seps (fuel : nat) (s : bytes) : res bytes :=
  match fuel with
  | O => Stuck
  | S fuel =>
      match rev s with
      | [] => Undefined
      | c :: _ => if c =? GetPathSep then strip_seps fuel (removelast s) else Ok s
      end
  end.
Definition GetFullFilePath (s : bytes) : res (bytes * bytes) :=
  s' ← strip_seps (S (length s)) s;
  match rfind [GetPathSep] s' with
  | Some i => Ok (zdrop (i + 1) s', s')
  | None => Ok (s', s')
  end.

Definition GetPathWithoutFilename (s : bytes) : bytes :=
  match rfind [GetPathSep] s with Some i => ztake (i + 1) s | None => s end.

Definition CheckPathTraversal (path : bytes) : bool :=
  let normalizedPath := map (fun c => if c =? 92 then GetPathSep else c) path in
  forallb (fun component => negb (bytes_eqb component (str ".."))) (getlines GetPathSep normalizedPath).

Definition BUNDLE_MIN_SIZE : Z := 7.
Definition BUNDLE_MAX_SIZE : Z := 128.
Definition is_bundle_char (c : Z) : bool :=
  ((48 <=? c) && (c <=? 57)) || ((97 <=? c) && (c <=? 122)) || ((65 <=? c) && (c <=? 90)) || (c =? 95) || (c =? 46).
Definition CheckBundleName (bundleName : bytes) : bool :=
  if zlen bundleName =? 0 then false
  else if zlen bundleName <? BUNDLE_MIN_SIZE then false
  else if BUNDLE_MAX_SIZE <? zlen bundleName then false
  else forallb is_bundle_char bundleName.

(** [s.rfind(sub) == s.length() - sub.length()] on [size_t]: [npos] is the
    largest [size_t]. *)
Definition npos : Z := 2 ^ 64 - 1.
Definition StringEndsWith (s sub : bytes) : Z :=
  if match rfind sub s with Some i => i | None => npos end =? u64 (zlen s - zlen sub) then 1 else 0.

(** ** Facts about searches *)

Lemma is_prefix_spec pat s : is_prefix pat s = true <-> exists k, s = pat ++ k.
Proof.
  revert s. induction pat as [|p pat IH]; intros s; cbn [is_prefix].
  - split; [by exists s|done].
  - destruct s as [|c s]; [split; [done|intros [k Hk]; done]|]. rewrite andb_true_iff, Z.eqb_eq, IH. split.
    + intros [-> [k ->]]. by exists k.
    + intros [k Hk]. injection Hk as -> ->. split; [done|by exists k].
Qed.

(** Finding one character. *)
Lemma find_aux_char c s i :
  match find_aux [c] s i with
  | Some j => exists a b, s = a ++ c :: b /\ ~ (c ∈ a) /\ j = i + zlen a
  | None => c ∉ s
  end.
Proof.
  revert i. induction s as [|x s IH]; intros i; cbn [find_aux is_prefix].
  - apply not_elem_of_nil.
  - rewrite andb_true_r. destruct (c =? x) eqn:E; breflect.
    + subst x. exists [], s. split; [done|]. split; [apply not_elem_of_nil|]. cbn. lia.
    + specialize (IH (i + 1)). destruct (find_aux [c] s (i + 1)) as [j|].
      * destruct IH as (a & b & -> & Ha & ->). exists (x :: a), b. split; [done|]. split.
        -- intros [?|?]%elem_of_cons; congruence.
        -- cbn [length]. lia.
      * intros [?|?]%elem_of_cons; congruence.
Qed.

Lemma split_on_nosep c s : c ∉ s -> split_on c s = [s].
Proof.
  induction s as [|x s IH]; [done|]. intros [Hx Hs]%not_elem_of_cons. cbn [split_on].
  rewrite (proj2 (Z.eqb_neq x c)) by congruence. by rewrite IH.
Qed.

Lemma split_on_app c a b : c ∉ a -> split_on c (a ++ c :: b) = a :: split_on c b.
Proof.
  induction a as [|x a IH]; cbn [app split_on]; [by rewrite Z.eqb_refl|].
  intros [Hx Ha]%not_elem_of_cons. rewrite (proj2 (Z.eqb_neq x c)) by congruence. by rewrite IH.
Qed.

(** The first separator splits a string in one way. *)
Lemma app_split_char (c : Z) (u v w b : bytes) : c ∉ u -> c ∉ w -> u ++ c :: v = w ++ c :: b -> u = w.
Proof.
  revert w. induction u as [|x u IH]; intros w Hu Hw He; destruct w as [|y w]; cbn [app] in He; [done|..].
  - injection He as -> _. exfalso. apply Hw. left.
  - injection He as -> _. exfalso. apply Hu. left.
  - injection He as -> He. apply not_elem_of_cons in Hu as [_ Hu], Hw as [_ Hw]. f_equal. by apply IH.
Qed.

Lemma app_first_char (c : Z) (u v a k : bytes) : c ∉ u -> u ++ c :: v = a ++ c :: k ->
  (a = u /\ k = v) \/ exists a2, a = u ++ c :: a2 /\ v = a2 ++ c :: k.
Proof.
  revert a. induction u as [|x u IH]; intros a Hu He; destruct a as [|y a]; cbn [app] in He.
  - injection He as ->. by left.
  - injection He as <- ->. right. by exists a.
  - injection He as -> _. exfalso. apply Hu. left.
  - injection He as -> He. apply not_elem_of_cons in Hu as [_ Hu]. destruct (IH a Hu He) as [[-> ->]|(a2 & -> & ->)]; [by left|].
    right. by exists a2.
Qed.

Definition nonempty (w : bytes) : bool := negb (bool_decide (w = [])).

(** The loop from position [p1]. *)
Lemma SplitString_loop_char c orig : forall fuel p1 result,
  0 <= p1 <= zlen orig -> (length (zdrop p1 orig) < fuel)%nat ->
  SplitString_loop fuel orig [c] p1 (find [c] orig p1) result
  = Ok (result ++ List.filter nonempty (split_on c (zdrop p1 orig))).
Proof.
  induction fuel as [|fuel IH]; intros p1 result Hp Hf; [lia|]. cbn [SplitString_loop].
  unfold find. rewrite (proj2 (Z.ltb_ge (zlen orig) p1)) by lia.
  pose proof (find_aux_char c (zdrop p1 orig) p1) as Hfind.
  assert (Hlen : zlen (zdrop p1 orig) = zlen orig - p1) by (apply length_zdrop; lia).
  destruct (find_aux [c] (zdrop p1 orig) p1) as [q|].
  - destruct Hfind as (a & b & Hs & Ha & ->). rewrite Hs, split_on_app by done.
    assert (Hb : zdrop (p1 + zlen a + 1) orig = b).
    { replace (p1 + zlen a + 1) with (p1 + (zlen a + 1)) by lia. rewrite <- zdrop_zdrop, Hs by lia.
      change (a ++ c :: b) with (a ++ [c] ++ b). rewrite app_assoc. apply zdrop_app. rewrite length_app. cbn. lia. }
    rewrite Hs, length_app in Hlen, Hf. cbn [length] in Hlen, Hf.
    destruct (p1 + zlen a =? p1) eqn:E; breflect.
    + assert (a = []) as -> by (destruct a; [done|cbn [length] in E; lia]).
      cbn [length Z.of_nat] in *. rewrite Z.add_0_r in Hb.
      fold (find [c] orig (p1 + 1)). rewrite IH by (rewrite ?Hb; lia). rewrite Hb. done.
    + cbn [length]. change (Z.of_nat 1) with 1. fold (find [c] orig (p1 + zlen a + 1)).
      rewrite IH by (rewrite ?Hb; lia). rewrite Hb. cbn [List.filter].
      assert (nonempty a = true) as ->.
      { unfold nonempty. rewrite bool_decide_false; [done|]. intros ->. cbn in E. lia. }
      unfold substr. rewrite Hs. replace (p1 + zlen a - p1) with (zlen a) by lia. rewrite ztake_app by done.
      by rewrite <- app_assoc.
  - rewrite split_on_nosep by done. cbn [List.filter]. unfold nonempty.
    destruct (p1 =? zlen orig) eqn:E; breflect; cbn [negb].
    + rewrite bool_decide_true; [cbn; by rewrite app_nil_r|]. destruct (zdrop p1 orig); [done|cbn [length] in Hlen; lia].
    + rewrite bool_decide_false; [done|]. intros Hn. rewrite Hn in Hlen. cbn in Hlen. lia.
Qed.

(** [SplitString] with a one-character separator terminates and yields exactly
    the non-empty fields of the string, in order. *)
Theorem split_string_fields (orig : bytes) (c : Z) (result : list bytes) :
  SplitString orig [c] result = Ok (result ++ List.filter nonempty (split_on c orig)).
Proof. apply (SplitString_loop_char c orig (S (length orig)) 0 result); rewrite ?zdrop_0; lia. Qed.

(** ** Feature lists *)

Lemma split_on_features fs : fs <> [] -> Forall (fun f => 44 ∉ f) fs -> split_on 44 (FeatureToString fs) = fs.
Proof.
  intros Hne Hf. induction Hf as [|f fs Hf Hfs IH]; [done|]. destruct fs as [|g fs].
  - by apply split_on_nosep.
  - change (FeatureToString (f :: g :: fs)) with (f ++ 44 :: FeatureToString (g :: fs)).
    rewrite split_on_app by done. by rewrite IH.
Qed.

(** The feature list a peer announces in the handshake is recovered exactly:
    splitting the comma-separated string gives the same features, so a feature is
    reported as supported exactly when the peer listed it. *)
Theorem features_roundtrip (fs : list bytes) :
  Forall (fun f => f <> [] /\ ~ (44 ∈ f)) fs ->
  StringToFeatureSet (FeatureToString fs) [] = Ok fs /\
  (forall f, IsSupportFeature fs f = true <-> f ∈ fs).
Proof.
  intros Hf. split.
  - unfold StringToFeatureSet, SplitString. change (str ",") with [44]. rewrite (SplitString_loop_char 44 (FeatureToString fs) _ 0 []) by (rewrite ?zdrop_0; lia).
    rewrite zdrop_0. cbn [app]. f_equal. destruct fs as [|g fs]; [done|].
    rewrite split_on_features by (done || (eapply List.Forall_impl; [|exact Hf]; intros ? [_ ?]; done)).
    revert Hf. generalize (g :: fs). clear. intros l Hl. induction Hl as [|f l [Hne _] _ IH]; [done|]. cbn [List.filter].
    unfold nonempty at 1. rewrite bool_decide_false by done. cbn [negb]. by rewrite IH.
  - intros f. unfold IsSupportFeature. rewrite existsb_exists. split.
    + intros (x & Hx & He). apply bytes_eqb_eq in He. subst. by apply list_elem_of_In.
    + intros Hin. exists f. split; [by apply list_elem_of_In|by apply bytes_eqb_eq].
Qed.

Lemma features_roundtrip_witness :
  StringToFeatureSet (FeatureToString [str "Ver: 3.2.0g"; str "heartbeat"]) [] = Ok [str "Ver: 3.2.0g"; str "heartbeat"].
Proof.
  apply (features_roundtrip [str "Ver: 3.2.0g"; str "heartbeat"]).
  constructor; [|constructor; [|constructor]]; (split; [discriminate|]); apply (bool_decide_unpack _); vm_compute; exact I.
Defined.

(** ** Paths *)

(** A path component, with either kind of separator. *)
Definition is_sep (c : Z) : bool := (c =? 47) || (c =? 92).
Definition has_component (w path : bytes) : Prop :=
  exists a b, path = a ++ w ++ b /\ Forall (fun c => is_sep c = false) w /\
    (a = [] \/ exists a' c, a = a' ++ [c] /\ is_sep c = true) /\
    (b = [] \/ exists c b', b = c :: b' /\ is_sep c = true).

Lemma drop_last_empty_In w l : w <> [] -> (List.In w (drop_last_empty l) <-> List.In w l).
Proof.
  intros Hw. induction l as [|x l IH]; [done|].
  destruct x as [|y x], l as [|z l]; cbn [drop_last_empty]; [cbn; intuition congruence|..];
    cbn [List.In]; rewrite <- ?IH; cbn [drop_last_empty List.In]; tauto.
Qed.

(** The fields of a string are the separator-free parts between separators. *)
Lemma split_on_In c w s : List.In w (split_on c s) <->
  exists a b, s = a ++ w ++ b /\ ~ (c ∈ w) /\ (a = [] \/ exists a', a = a' ++ [c]) /\ (b = [] \/ exists b', b = c :: b').
Proof.
  remember (length s) as n eqn:Hn. revert s Hn w. induction (lt_wf n) as [n _ IH]. intros s Hn w.
  pose proof (find_aux_char c s 0) as Hf. destruct (find_aux [c] s 0) as [j|].
  - destruct Hf as (u & v & -> & Hu & _). rewrite split_on_app by done. cbn [List.In].
    rewrite (IH (length v)) by (subst n; rewrite ?length_app; cbn; lia || done). split.
    + intros [<-|(a & b & -> & Hw & Ha & Hb)].
      * exists [], (c :: v). split_and!; auto. right. by eexists.
      * exists (u ++ c :: a), b. split_and!; auto; [by rewrite <- !app_assoc|].
        right. destruct Ha as [->|[a' ->]]; [by exists u|]. exists (u ++ c :: a'). by rewrite <- app_assoc.
    + intros (a & b & He & Hw & Ha & Hb).
      destruct Ha as [->|[a' ->]].
      * left. cbn [app] in He. destruct Hb as [->|[b' ->]].
        -- rewrite app_nil_r in He. subst w. exfalso. apply Hw, elem_of_app. right. left.
        -- apply (app_split_char c u v w b' Hu Hw He).
      * right. rewrite <- app_assoc in He. cbn [app] in He.
        destruct (app_first_char c u v a' (w ++ b) Hu He) as [[Hx Hy]|[a2 [Hx Hy]]].
        -- exists [], b. subst. split_and!; auto.
        -- exists (a2 ++ [c]), b. subst. rewrite <- app_assoc. split_and!; auto. right. by eexists.
  - rewrite split_on_nosep by done. cbn [List.In]. split.
    + intros [<-|[]]. exists [], []. rewrite app_nil_r. split_and!; auto.
    + intros (a & b & -> & Hw & Ha & Hb). left. rewrite !not_elem_of_app in Hf. destruct Hf as (Ha' & Hw' & Hb').
      destruct Ha as [->|[a' ->]]; [|exfalso; apply Ha', elem_of_app; right; left].
      destruct Hb as [->|[b' ->]]; [|exfalso; apply Hb'; left]. by rewrite app_nil_r.
Qed.

Definition norm_sep (c : Z) : Z := if c =? 92 then GetPathSep else c.
Lemma norm_sep_47 c : norm_sep c = 47 <-> is_sep c = true.
Proof.
  unfold norm_sep, is_sep, GetPathSep. rewrite orb_true_iff, !Z.eqb_eq.
  destruct (c =? 92) eqn:E; breflect; lia.
Qed.

Lemma norm_sep_dots w : map norm_sep w = [46; 46] -> w = [46; 46].
Proof.
  assert (Hn : forall c, norm_sep c = 46 -> c = 46).
  { intros c. unfold norm_sep, GetPathSep. destruct (c =? 92) eqn:E; [discriminate|done]. }
  destruct w as [|x [|y [|z w]]]; try discriminate. cbn. intros Hw. injection Hw as Hx Hy.
  by rewrite (Hn x Hx), (Hn y Hy).
Qed.

Lemma dotdot_component path :
  List.In [46; 46] (split_on 47 (map norm_sep path)) <-> has_component [46; 46] path.
Proof.
  rewrite split_on_In. unfold has_component. split.
  - intros (a & b & He & _ & Ha & Hb). apply map_eq_app in He as (a0 & r & -> & <- & He).
    apply map_eq_app in He as (w0 & b0 & -> & Hw & <-). apply norm_sep_dots in Hw as ->.
    exists a0, b0. split_and!; [done|repeat constructor|..].
    + destruct Ha as [Ha|[a' Ha]]; [left; by destruct a0|right].
      apply map_eq_app in Ha as (u & v & -> & _ & Hv). destruct v as [|c [|]]; try discriminate.
      cbn in Hv. injection Hv as Hv. exists u, c. by rewrite norm_sep_47 in Hv.
    + destruct Hb as [Hb|[b' Hb]]; [left; by destruct b0|right].
      destruct b0 as [|c b0]; [discriminate|]. cbn in Hb. injection Hb as Hv _. exists c, b0. by rewrite norm_sep_47 in Hv.
  - intros (a & b & -> & _ & Ha & Hb). exists (map norm_sep a), (map norm_sep b). rewrite !map_app. split_and!; [done|..].
    + rewrite !not_elem_of_cons. split_and!; [done..|apply not_elem_of_nil].
    + destruct Ha as [->|(a' & c & -> & Hc)]; [by left|right]. exists (map norm_sep a').
      apply norm_sep_47 in Hc. rewrite map_app. cbn. by rewrite Hc.
    + destruct Hb as [->|(c & b' & -> & Hc)]; [by left|right]. exists (map norm_sep b').
      apply norm_sep_47 in Hc. cbn. by rewrite Hc.
Qed.

(** [CheckPathTraversal] refuses a path exactly when one of its components,
    delimited by either kind of slash, is [..]; in particular a path it accepts
    cannot climb out of the directory it is resolved in. *)
Theorem path_traversal_complete (path : bytes) :
  CheckPathTraversal path = true <-> ~ has_component (str "..") path.
Proof.
  change (str "..") with [46; 46]. rewrite <- dotdot_component. unfold CheckPathTraversal.
  rewrite forallb_forall. change (fun c => if c =? 92 then GetPathSep else c) with norm_sep.
  unfold getlines, GetPathSep. split.
  - intros H Hin. apply (drop_last_empty_In [46; 46]) in Hin; [|done]. apply H in Hin. done.
  - intros H x Hx. destruct (bytes_eqb x (str "..")) eqn:E; [|done]. apply bytes_eqb_eq in E. subst x.
    exfalso. apply H. apply (proj1 (drop_last_empty_In [46; 46] _ ltac:(done))), Hx.
Qed.

(** ** Suffixes *)

Lemma rfind_aux_spec pat s i :
  match rfind_aux pat s i with
  | Some j => exists a b, s = a ++ pat ++ b /\ j = i + zlen a /\
      forall a' b', s = a' ++ pat ++ b' -> zlen a' <= zlen a
  | None => forall a b, s <> a ++ pat ++ b
  end.
Proof.
  revert i. induction s as [|x s IH]; intros i; cbn [rfind_aux].
  - destruct pat as [|p pat]; cbn [is_prefix].
    + exists [], []. split_and!; [done|cbn; lia|]. intros [|] ?; [done|discriminate].
    + intros [|] ?; discriminate.
  - specialize (IH (i + 1)). destruct (rfind_aux pat s (i + 1)) as [j|].
    + destruct IH as (a & b & -> & -> & Hmax). exists (x :: a), b. split_and!; [done|cbn [length]; lia|].
      intros [|y a'] b' He; [cbn [length]; lia|]. injection He as _ He. apply Hmax in He. cbn [length]. lia.
    + destruct (is_prefix pat (x :: s)) eqn:E.
      * apply is_prefix_spec in E as [k E]. exists [], k. split_and!; [done|cbn; lia|].
        intros [|y a'] b' He; [done|]. injection He as _ He. by apply IH in He.
      * intros [|y a] b He; [|injection He as _ He; by apply IH in He].
        apply not_true_iff_false in E. apply E, is_prefix_spec. by exists b.
Qed.

(** [StringEndsWith] answers 1 for a suffix, but also for every [s] exactly
    one character shorter than [sub]: the failed search returns the largest
    [size_t], which is also the wrapped-around difference of the lengths. *)
Theorem string_ends_with_exact (s sub : bytes) :
  zlen s < 2 ^ 63 -> zlen sub < 2 ^ 63 ->
  (StringEndsWith s sub = 1 <-> (exists a, s = a ++ sub) \/ zlen s + 1 = zlen sub) /\
  (StringEndsWith s sub = 0 \/ StringEndsWith s sub = 1).
Proof.
  intros Hs Hsub. unfold StringEndsWith. split; [|destruct (_ =? _); auto].
  assert (Hif : forall b : bool, (if b then 1 else 0) = 1 <-> b = true) by (intros []; done).
  rewrite Hif, Z.eqb_eq. clear Hif. pose proof (rfind_aux_spec sub s 0) as Hr. unfold rfind.
  destruct (rfind_aux sub s 0) as [j|]; unfold uwrap, npos.
  - destruct Hr as (a & b & -> & -> & Hmax). rewrite !length_app in *. rewrite Z.mod_small by lia. split.
    + intros He. left. exists a. destruct b; [by rewrite app_nil_r|cbn [length] in He; lia].
    + intros [[a' Ha]|?]; [|lia]. pose proof (Hmax a' []) as Hm. rewrite app_nil_r in Hm. specialize (Hm Ha).
      apply (f_equal length) in Ha. rewrite !length_app in Ha. lia.
  - split.
    + intros He. right. destruct (Z_le_gt_dec (zlen sub) (zlen s)) as [Hle|Hgt].
      * rewrite Z.mod_small in He by lia. lia.
      * rewrite <- (Z.mod_add _ 1), Z.mod_small in He by lia. lia.
    + intros [[a ->]|He]; [by destruct (Hr a []); rewrite app_nil_r|].
      replace (zlen s - zlen sub) with (-1) by lia. done.
Qed.

Lemma string_ends_with_exact_witness :
  (StringEndsWith (str "hap") (str ".hap") = 1 <->
    (exists a, str "hap" = a ++ str ".hap") \/ zlen (str "hap") + 1 = zlen (str ".hap")) /\
  (StringEndsWith (str "hap") (str ".hap") = 0 \/ StringEndsWith (str "hap") (str ".hap") = 1).
Proof. apply (string_ends_with_exact (str "hap") (str ".hap")); vm_compute; reflexivity. Defined.

(** ** The last path component *)

Lemma strip_seps_spec fuel s : (length s < fuel)%nat ->
  (exists u k, s = u ++ repeat GetPathSep k /\ u <> [] /\ List.last u 0 <> GetPathSep /\ strip_seps fuel s = Ok u) \/
  (exists k, s = repeat GetPathSep k /\ strip_seps fuel s = Undefined).
Proof.
  revert s. induction fuel as [|fuel IH]; intros s Hf; [lia|]. cbn [strip_seps].
  destruct s as [|c s _] using rev_ind; [right; by exists 0%nat|].
  rewrite rev_app_distr. cbn [rev app]. rewrite removelast_last. rewrite length_app in Hf. cbn in Hf.
  destruct (c =? GetPathSep) eqn:E; breflect.
  - subst c. destruct (IH s ltac:(lia)) as [(u & k & -> & Hu & Hl & ->)|(k & -> & ->)].
    + left. exists u, (S k). rewrite <- app_assoc, <- repeat_cons. done.
    + right. exists (S k). by rewrite <- repeat_cons.
  - left. exists (s ++ [c]), 0%nat. rewrite app_nil_r, List.last_last. split_and!; [done|by destruct s|done..].
Qed.

(** [GetFullFilePath] strips every trailing separator in place and returns
    what follows the last separator of the rest: a non-empty name without
    separators.  On an empty path, or one of separators only, it calls [back]
    on an empty string, which is undefined. *)
Theorem get_full_file_path_correct (s : bytes) :
  (exists dir name k,
     s = dir ++ name ++ repeat GetPathSep k /\ name <> [] /\ ~ (GetPathSep ∈ name) /\
     (dir = [] \/ exists d, dir = d ++ [GetPathSep]) /\
     GetFullFilePath s = Ok (name, dir ++ name)) \/
  ((exists k, s = repeat GetPathSep k) /\ GetFullFilePath s = Undefined).
Proof.
  unfold GetFullFilePath. destruct (strip_seps_spec (S (length s)) s ltac:(lia)) as [(u & k & -> & Hu & Hl & ->)|(k & -> & ->)].
  2: { right. split; [by exists k|done]. }
  left. cbn [mbind res_bind]. pose proof (rfind_aux_spec [GetPathSep] u 0) as Hr. unfold rfind.
  destruct (rfind_aux [GetPathSep] u 0) as [j|].
  - destruct Hr as (a & b & -> & -> & Hmax). exists (a ++ [GetPathSep]), b, k.
    assert (Hd : zdrop (0 + zlen a + 1) (a ++ [GetPathSep] ++ b) = b).
    { rewrite app_assoc. apply zdrop_app. rewrite length_app. cbn. lia. }
    rewrite Hd, <- !app_assoc. split_and!; [done|..|done].
    + intros ->. apply Hl. by rewrite app_nil_r, List.last_last.
    + intros Hin. apply list_elem_of_split in Hin as (b1 & b2 & ->).
      specialize (Hmax (a ++ [GetPathSep] ++ b1) b2). rewrite <- !app_assoc in Hmax. specialize (Hmax eq_refl).
      rewrite !length_app in Hmax. cbn in Hmax. lia.
    + right. by exists a.
  - exists [], u, k. split_and!; [done..| |by left|done].
    intros Hin. apply list_elem_of_split in Hin as (b1 & b2 & ->). by apply (Hr b1 b2).
Qed.
