(* ===== verification/Numbers.v ===== *)
(** * Numbers: decimal strings, addresses and the textual TLV of [base.cpp]

    [strtol] of the C library on LP64 hosts (64-bit [long]), [std::to_string],
    and the functions of [base.cpp] built on them: [StringToLong],
    [StringToInt], [ConnectKey2IPPort], [IsValidIpv4], and the tag/length/value
    strings ([TlvAppend], [TlvToStringMap]) the handshake carries its options in. *)

From Stdlib Require Import String ZArith Lia List Bool.
From stdpp Require Import base list numbers option.
From S2P Require Import Prelude Defs OrdMap Strings.

(** ** The C library *)

Definition isdigit (c : Z) : bool := (48 <=? c) && (c <=? 57).
Definition isspace (c : Z) : bool := ((9 <=? c) && (c <=? 13)) || (c =? 32).

Fixpoint skip_spaces (s : bytes) : bytes :=
  match s with
  | c :: t => if isspace c then skip_spaces t else s
  | [] => []
  end.

(** The digits read, and what follows them. *)
Fixpoint span_digits (s : bytes) : bytes * bytes :=
  match s with
  | c :: t => if isdigit c then let '(d, r) := span_digits t in (c :: d, r) else ([], s)
  | [] => ([], [])
  end.

Definition digits_val (l : bytes) : Z := fold_left (fun a c => 10 * a + (c - 48)) l 0.

Definition LONG_MAX : Z := 2 ^ 63 - 1.
Definition LONG_MIN : Z := - 2 ^ 63.
Definition INT_MAX : Z := 2 ^ 31 - 1.
Definition INT_MIN : Z := - 2 ^ 31.

(** [strtol(s, &endptr, 10)]: the value, whether [errno] is [ERANGE], and the
    string at [endptr]. *)
Definition strtol (s : bytes) : Z * bool * bytes :=
  let t := skip_spaces (cstr s) in
  let '(neg, t1) := match t with
                    | c :: t' => if c =? 45 then (true, t') else if c =? 43 then (false, t') else (false, t)
                    | [] => (false, t)
                    end in
  let '(d, rest) := span_digits t1 in
  match d with
  | [] => (0, false, cstr s)
  | _ =>
      let v := if neg : bool then - digits_val d else digits_val d in
      if LONG_MAX <? v then (LONG_MAX, true, rest)
      else if v <? LONG_MIN then (LONG_MIN, true, rest)
      else (v, false, rest)
  end.

(** [atoi] converts the result of [strtol] to [int]. *)
Definition atoi (s : bytes) : Z := i32 (strtol s).1.1.

Fixpoint dec (fuel : nat) (n : Z) : bytes :=
  match fuel with
  | O => []
  | S fuel => if n <? 10 then [48 + n] else dec fuel (n / 10) ++ [48 + n mod 10]
  end.
(** [std::to_string] of an unsigned integer of at most 64 bits. *)
Definition to_string (n : Z) : bytes := dec 20 n.

(** ** Checked conversions *)

Definition StringToLong (s : bytes) : option Z :=
  if bool_decide (s = []) then None
  else
    let '(value, erange, endptr) := strtol s in
    if negb (bool_decide (endptr = [])) then None
    else if erange : bool then None
    else Some value.

Definition StringToInt (s : bytes) : option Z :=
  if bool_decide (s = []) then None
  else
    let '(longResult, erange, endptr) := strtol s in
    if negb (bool_decide (endptr = [])) then None
    else if erange || (INT_MAX <? longResult) || (longResult <? INT_MIN) then None
    else Some (i32 longResult).

(** ** Addresses *)

Definition BUF_SIZE_TINY : Z := 64.
Definition MAX_IP_PORT : Z := 65535.

(** The result code and, on success, the address written to [outIP] and the port. *)
Definition ConnectKey2IPPort (connectKey : bytes) (outSize : Z) : Z * option (bytes * Z) :=
  let key := cstr connectKey in
  if BUF_SIZE_TINY <=? zlen key then (ERR_BUF_COPY, None)
  else
    match rfind [58] key with
    | None => (ERR_PARM_FORMAT, None)
    | Some p =>
        let bufString := ztake p key in
        if (zlen bufString =? 0) || (40 <? zlen bufString) then (ERR_PARM_SIZE, None)
        else
          match StringToLong (zdrop (p + 1) key) with
          | None => (ERR_PARM_FORMAT, None)
          | Some wPort =>
              if (wPort <=? 0) || (MAX_IP_PORT <? wPort) then (ERR_PARM_FORMAT, None)
              else if outSize <=? zlen bufString then (ERR_BUF_COPY, None)
              else (RET_SUCCESS, Some (bufString, u16 wPort))
          end
    end.

Definition IsDigitString (s : bytes) : bool := forallb isdigit s.

Fixpoint IsValidIpv4_loop (lines : list bytes) (segments : list Z) : bool :=
  match lines with
  | [] => zlen segments =? 4
  | segment :: lines =>
      if 4 <=? zlen segments then false
      else if negb (IsDigitString segment) then false
      else
        let num := i32 (strtol segment).1.1 in
        if (num <? 0) || (255 <? num) then false
        else if (1 <? zlen segment) && (nth 0 segment 0 =? 48) && negb (bytes_eqb segment (str "0")) then false
        else IsValidIpv4_loop lines (segments ++ [num])
  end.
Definition IsValidIpv4 (ip : bytes) : bool := IsValidIpv4_loop (getlines 46 ip) [].

(** ** Textual TLV *)

Fixpoint TrimSubString_loop (fuel : nat) (s sub : bytes) (pos : Z) : res bytes :=
  match fuel with
  | O => Stuck
  | S fuel =>
      match find sub s pos with
      | None => Ok s
      | Some p => TrimSubString_loop fuel (ztake p s ++ zdrop (p + zlen sub) s) sub p
      end
  end.
Definition TrimSubString (s sub : bytes) : res bytes := TrimSubString_loop (S (length s)) s sub 0.

Definition TLV_TAG_LEN : Z := 16.
Definition TLV_VAL_LEN : Z := 16.
Definition TLV_MIN_LEN : Z := TLV_TAG_LEN + TLV_VAL_LEN.

Definition pad_to (n : Z) (s : bytes) : bytes :=
  if zlen s <? n then s ++ repeat 32 (Z.to_nat (n - zlen s)) else s.

Definition TlvAppend (tlv tag val : bytes) : bool * bytes :=
  if bool_decide (tag = []) then (false, tlv)
  else (true, tlv ++ pad_to TLV_TAG_LEN tag ++ pad_to TLV_VAL_LEN (to_string (zlen val)) ++ val).

Fixpoint TlvToStringMap_loop (fuel : nat) (tlv : bytes) (tlvmap : list (bytes * bytes))
    : res (bool * list (bytes * bytes)) :=
  match fuel with
  | O => Stuck
  | S fuel =>
      if zlen tlv <? TLV_MIN_LEN then Ok (true, tlvmap)
      else
        tag ← TrimSubString (ztake TLV_TAG_LEN tlv) [32];
        let tlv := zdrop TLV_TAG_LEN tlv in
        vallen ← TrimSubString (ztake TLV_VAL_LEN tlv) [32];
        let len := atoi vallen in
        if len <? 0 then Ok (false, tlvmap)
        else
          let tlv := zdrop TLV_VAL_LEN tlv in
          if zlen tlv <? len then Ok (false, tlvmap)
          else TlvToStringMap_loop fuel (zdrop len tlv) (om_set tag (ztake len tlv) tlvmap)
  end.
Definition TlvToStringMap (tlv : bytes) (tlvmap : list (bytes * bytes)) : res (bool * list (bytes * bytes)) :=
  if zlen tlv <? TLV_MIN_LEN then Ok (false, tlvmap)
  else TlvToStringMap_loop (S (length tlv)) tlv tlvmap.

(** ** Decimal facts *)

Definition all_digits (l : bytes) : Prop := Forall (fun c => isdigit c = true) l.

Lemma isdigit_range c : isdigit c = true <-> 48 <= c <= 57.
Proof. unfold isdigit. rewrite andb_true_iff, !Z.leb_le. lia. Qed.

Lemma digits_val_snoc l c : digits_val (l ++ [c]) = 10 * digits_val l + (c - 48).
Proof. unfold digits_val. by rewrite fold_left_app. Qed.

Lemma digits_val_bound l : all_digits l -> 0 <= digits_val l < 10 ^ zlen l.
Proof.
  induction l as [|c l IH] using rev_ind; intros Hl; [cbn; lia|].
  apply Forall_app in Hl as [Hl [Hc _]%List.Forall_cons_iff]. apply isdigit_range in Hc.
  rewrite digits_val_snoc, length_app. cbn [length]. rewrite Nat2Z.inj_add, Z.pow_add_r by lia.
  specialize (IH Hl). change (10 ^ Z.of_nat 1) with 10. lia.
Qed.

Lemma dec_digits fuel n : 0 <= n -> all_digits (dec fuel n).
Proof.
  revert n. induction fuel as [|fuel IH]; intros n Hn; [constructor|]. cbn [dec].
  destruct (n <? 10) eqn:E; breflect.
  - constructor; [apply isdigit_range; lia|constructor].
  - apply Forall_app. split; [apply IH, Z.div_pos; lia|].
    constructor; [apply isdigit_range; pose proof (Z.mod_pos_bound n 10); lia|constructor].
Qed.

Lemma dec_val fuel n : 0 <= n < 10 ^ Z.of_nat fuel -> digits_val (dec fuel n) = n.
Proof.
  revert n. induction fuel as [|fuel IH]; intros n Hn; [cbn in *; lia|]. cbn [dec].
  destruct (n <? 10) eqn:E; breflect; [cbn; lia|].
  rewrite digits_val_snoc, IH.
  - pose proof (Z.div_mod n 10). lia.
  - rewrite Nat2Z.inj_succ, Z.pow_succ_r in Hn by lia. split; [apply Z.div_pos; lia|].
    apply Z.div_lt_upper_bound; lia.
Qed.

Lemma dec_nonempty fuel n : dec (S fuel) n <> [].
Proof. cbn [dec]. destruct (n <? 10); [done|]. by destruct (dec fuel (n / 10)). Qed.

Lemma dec_length fuel n k : 0 <= n < 10 ^ Z.of_nat (S k) -> (length (dec fuel n) <= S k)%nat.
Proof.
  revert n k. induction fuel as [|fuel IH]; intros n k Hn; [cbn; lia|]. cbn [dec].
  destruct (n <? 10) eqn:E; breflect; [cbn; lia|]. rewrite length_app. cbn [length].
  destruct k as [|k]; [cbn in Hn; lia|].
  assert (length (dec fuel (n / 10)) <= S k)%nat; [|lia]. apply IH.
  rewrite (Nat2Z.inj_succ (S k)), Z.pow_succ_r in Hn by lia. split; [apply Z.div_pos; lia|].
  apply Z.div_lt_upper_bound; lia.
Qed.

(** A digit string without a leading zero is the decimal form of its value. *)
Lemma dec_canonical w fuel :
  w <> [] -> all_digits w -> (length w <= fuel)%nat -> (zlen w = 1 \/ nth 0 w 0 <> 48) -> dec fuel (digits_val w) = w.
Proof.
  revert fuel. induction w as [|c w IH] using rev_ind; intros fuel Hne Hd Hf Hz; [done|].
  apply Forall_app in Hd as [Hd [Hc _]%List.Forall_cons_iff]. apply isdigit_range in Hc.
  rewrite length_app in Hf, Hz. cbn [length] in Hf, Hz. destruct fuel as [|fuel]; [lia|].
  rewrite digits_val_snoc. cbn [dec]. destruct w as [|d w].
  - cbn [digits_val fold_left app]. change (10 * digits_val []) with 0. rewrite (proj2 (Z.ltb_lt _ _)) by lia. f_equal. lia.
  - destruct Hz as [Hz|Hz]; [cbn [length] in Hz; lia|]. cbn [app nth] in Hz.
    assert (Hv : 1 <= digits_val (d :: w)).
    { apply List.Forall_cons_iff in Hd as [Hdd Hw]. apply isdigit_range in Hdd. clear -Hdd Hw Hz.
      induction w as [|e w IH] using rev_ind; [cbn; lia|].
      apply Forall_app in Hw as [Hw [He _]%List.Forall_cons_iff]. apply isdigit_range in He.
      rewrite app_comm_cons, digits_val_snoc. specialize (IH Hw). lia. }
    rewrite (proj2 (Z.ltb_ge _ _)) by lia.
    replace ((10 * digits_val (d :: w) + (c - 48)) / 10) with (digits_val (d :: w))
      by (apply (Z.div_unique _ 10 _ (c - 48)); lia).
    replace ((10 * digits_val (d :: w) + (c - 48)) mod 10) with (c - 48)
      by (apply (Z.mod_unique _ 10 (digits_val (d :: w))); lia).
    rewrite IH; [f_equal; f_equal; lia|done|done|lia|by right].
Qed.

Lemma span_digits_all d rest : all_digits d ->
  match rest with c :: _ => isdigit c = false | [] => True end -> span_digits (d ++ rest) = (d, rest).
Proof.
  induction 1 as [|c d Hc Hd IH]; intros Hr; cbn [app span_digits].
  - destruct rest as [|c rest]; [done|]. cbn [span_digits]. by rewrite Hr.
  - rewrite Hc, IH by done. done.
Qed.

Lemma digits_no_nul d : all_digits d -> no_nul d.
Proof. apply List.Forall_impl. intros c Hc%isdigit_range. lia. Qed.

(** [strtol] on a string of digits. *)
Lemma strtol_digits d : d <> [] -> all_digits d -> strtol d =
  if LONG_MAX <? digits_val d then (LONG_MAX, true, []) else (digits_val d, false, []).
Proof.
  intros Hne Hd. unfold strtol. rewrite cstr_id by by apply digits_no_nul.
  assert (Hs : skip_spaces d = d).
  { destruct d as [|c d]; [done|]. apply List.Forall_cons_iff in Hd as [Hc _]. apply isdigit_range in Hc. cbn.
    unfold isspace. rewrite (proj2 (Z.leb_gt c 13)), (proj2 (Z.eqb_neq c 32)) by lia. by rewrite andb_false_r. }
  rewrite Hs. destruct d as [|c d]; [done|]. pose proof Hd as Hd'. apply List.Forall_cons_iff in Hd' as [Hc _]. apply isdigit_range in Hc.
  rewrite (proj2 (Z.eqb_neq c 45)), (proj2 (Z.eqb_neq c 43)) by lia.
  pose proof (span_digits_all (c :: d) [] Hd I) as Hsp. rewrite app_nil_r in Hsp. rewrite Hsp.
  pose proof (digits_val_bound (c :: d) Hd). destruct (LONG_MAX <? digits_val (c :: d)); [done|].
  rewrite (proj2 (Z.ltb_ge _ _)); [done|]. unfold LONG_MIN. lia.
Qed.

Lemma to_string_strtol n : 0 <= n <= LONG_MAX -> strtol (to_string n) = (n, false, []).
Proof.
  intros Hn. unfold to_string. rewrite strtol_digits by (apply dec_nonempty || (apply dec_digits; lia)).
  rewrite dec_val by (unfold LONG_MAX in Hn; cbn; lia). rewrite (proj2 (Z.ltb_ge _ _)) by lia. done.
Qed.

Lemma to_string_nonempty n : to_string n <> [].
Proof. apply dec_nonempty. Qed.

Lemma to_string_digits n : 0 <= n -> all_digits (to_string n).
Proof. apply dec_digits. Qed.

Lemma digits_notin c d : all_digits d -> isdigit c = false -> c ∉ d.
Proof.
  intros Hd Hc Hin. apply list_elem_of_In in Hin. unfold all_digits in Hd. rewrite List.Forall_forall in Hd.
  rewrite (Hd c Hin) in Hc. discriminate.
Qed.

Lemma to_string_long n : 0 <= n <= LONG_MAX -> StringToLong (to_string n) = Some n.
Proof.
  intros Hn. unfold StringToLong. rewrite bool_decide_false by apply to_string_nonempty.
  by rewrite to_string_strtol by done.
Qed.

(** The last occurrence of a character. *)
Lemma rfind_char_app c a b : c ∉ b -> rfind [c] (a ++ c :: b) = Some (zlen a).
Proof.
  intros Hb. unfold rfind. pose proof (rfind_aux_spec [c] (a ++ c :: b) 0) as Hr.
  destruct (rfind_aux [c] (a ++ c :: b) 0) as [j|]; [|by destruct (Hr a b)].
  destruct Hr as (a' & b' & He & -> & Hmax). specialize (Hmax a b eq_refl). f_equal.
  assert (~ zlen a < zlen a'); [|lia]. intros Hlt. apply Hb, (list_elem_of_lookup_2 _ (length a' - S (length a))).
  assert (Hl : (a ++ c :: b) !! length a' = Some c) by by rewrite He, lookup_app_r, Nat.sub_diag by lia.
  rewrite lookup_app_r in Hl by lia. replace (length a' - length a)%nat with (S (length a' - S (length a))) in Hl by lia.
  exact Hl.
Qed.

Lemma rfind_char_inv c s i : rfind [c] s = Some i -> exists a b, s = a ++ c :: b /\ ~ (c ∈ b) /\ i = zlen a.
Proof.
  unfold rfind. intros Hi. pose proof (rfind_aux_spec [c] s 0) as Hr. rewrite Hi in Hr.
  destruct Hr as (a & b & -> & -> & Hmax). exists a, b. split_and!; [done| |lia].
  intros Hin. apply list_elem_of_split in Hin as (b1 & b2 & ->).
  specialize (Hmax (a ++ c :: b1) b2). rewrite <- app_assoc in Hmax. specialize (Hmax eq_refl).
  rewrite length_app in Hmax. cbn in Hmax. lia.
Qed.

Lemma zdrop_sep (c : Z) (a b : bytes) : zdrop (zlen a + 1) (a ++ c :: b) = b.
Proof.
  change (a ++ c :: b) with (a ++ [c] ++ b). rewrite app_assoc. apply zdrop_app. rewrite length_app. cbn. lia.
Qed.

Lemma ConnectKey2IPPort_ok key outSize ip text port :
  cstr key = ip ++ 58 :: text -> ~ (58 ∈ text) -> zlen (cstr key) < 64 ->
  1 <= zlen ip <= 40 -> zlen ip < outSize -> StringToLong text = Some port -> 1 <= port <= 65535 ->
  ConnectKey2IPPort key outSize = (RET_SUCCESS, Some (ip, port)).
Proof.
  intros He Ht Hl Hip Hout Hp Hr. unfold ConnectKey2IPPort, BUF_SIZE_TINY, MAX_IP_PORT.
  rewrite (proj2 (Z.leb_gt 64 (zlen (cstr key)))) by lia. rewrite He, rfind_char_app, ztake_app, zdrop_sep by done.
  rewrite (proj2 (Z.eqb_neq (zlen ip) 0)), (proj2 (Z.ltb_ge 40 (zlen ip))) by lia. cbn [orb].
  rewrite Hp, (proj2 (Z.leb_gt port 0)), (proj2 (Z.ltb_ge 65535 port)), (proj2 (Z.leb_gt outSize (zlen ip))) by lia.
  cbn [orb]. by rewrite uwrap_small by (unfold in_u; lia).
Qed.

(** [ConnectKey2IPPort] splits at the last colon: it succeeds exactly on keys
    of at most 63 characters with an address of 1 to 40 characters that fits the
    caller's buffer and a port text that reads as 1 to 65535, and then returns
    those two parts; every other key gives a negative error code and no output.
    In particular a printed address and port are read back. *)
Theorem connect_key_exact (key : bytes) (outSize : Z) :
  (forall ip port, ConnectKey2IPPort key outSize = (RET_SUCCESS, Some (ip, port)) <->
     exists text, cstr key = ip ++ 58 :: text /\ ~ (58 ∈ text) /\ zlen (cstr key) < 64 /\
       1 <= zlen ip <= 40 /\ zlen ip < outSize /\ StringToLong text = Some port /\ 1 <= port <= 65535) /\
  ((exists ip port, ConnectKey2IPPort key outSize = (RET_SUCCESS, Some (ip, port))) \/
   (exists e, e < 0 /\ ConnectKey2IPPort key outSize = (e, None))) /\
  (forall ip port, key = ip ++ 58 :: to_string port -> no_nul ip ->
     1 <= zlen ip <= 40 -> zlen ip < outSize -> 1 <= port <= 65535 ->
     ConnectKey2IPPort key outSize = (RET_SUCCESS, Some (ip, port))).
Proof.
  split_and!.
  - intros ip port. split; [|intros (text & H1 & H2 & H3 & H4 & H5 & H6 & H7); by apply (ConnectKey2IPPort_ok _ _ _ text)].
    unfold ConnectKey2IPPort, BUF_SIZE_TINY, MAX_IP_PORT. destruct (64 <=? zlen (cstr key)) eqn:E1; [discriminate|]. breflect.
    destruct (rfind [58] (cstr key)) as [p|] eqn:Ef; [|discriminate].
    apply rfind_char_inv in Ef as (a & b & He & Hb & ->). rewrite He, ztake_app, zdrop_sep by done.
    destruct (_ || _) eqn:E2; [discriminate|]. breflect. destruct (StringToLong b) as [w|] eqn:Ew; [|discriminate].
    destruct ((w <=? 0) || _) eqn:E3; [discriminate|]. breflect. destruct (outSize <=? zlen a) eqn:E4; [discriminate|]. breflect.
    intros Hq. injection Hq as <- <-. rewrite uwrap_small by (unfold in_u; lia). exists b. rewrite <- He. split_and!; auto; lia.
  - unfold ConnectKey2IPPort. repeat first [case_match | left; do 2 eexists; reflexivity | right; eexists; split; [|reflexivity]; reflexivity].
  - intros ip port -> Hn Hip Hout Hport.
    assert (Hd : all_digits (to_string port)) by (apply to_string_digits; lia).
    assert (Hc : cstr (ip ++ 58 :: to_string port) = ip ++ 58 :: to_string port).
    { apply cstr_id, Forall_app. split; [done|]. constructor; [done|by apply digits_no_nul]. }
    apply (ConnectKey2IPPort_ok _ _ _ (to_string port)); try done.
    + by apply digits_notin.
    + rewrite Hc, length_app. cbn [length]. assert (length (to_string port) <= 5)%nat by (apply dec_length; cbn; lia). lia.
    + apply to_string_long. unfold LONG_MAX. lia.
Qed.

(** ** Dotted addresses *)

Definition octet_text (w : bytes) : Prop := w = [] \/ exists n, 0 <= n <= 255 /\ w = to_string n.

(** The test [IsValidIpv4] makes of one segment. *)
Definition segment_ok (segment : bytes) : bool :=
  IsDigitString segment &&
  negb ((i32 (strtol segment).1.1 <? 0) || (255 <? i32 (strtol segment).1.1)) &&
  negb ((1 <? zlen segment) && (nth 0 segment 0 =? 48) && negb (bytes_eqb segment (str "0"))).

Lemma IsValidIpv4_loop_spec lines segments : (length segments <= 4)%nat ->
  IsValidIpv4_loop lines segments = forallb segment_ok lines && (length lines + length segments =? 4)%nat.
Proof.
  revert segments. induction lines as [|w lines IH]; intros segments Hs; cbn [IsValidIpv4_loop forallb].
  - cbn. destruct (_ =? 4) eqn:E; breflect; symmetry; [apply Nat.eqb_eq|apply Nat.eqb_neq]; lia.
  - destruct (4 <=? zlen segments) eqn:E; breflect.
    + symmetry. apply andb_false_iff. right. apply Nat.eqb_neq. cbn [length]. lia.
    + unfold segment_ok at 1. destruct (IsDigitString w); [|done]. cbn [negb andb].
      destruct (_ || _); [done|]. destruct (_ && _ && _); [done|]. cbn [negb andb].
      rewrite IH by (rewrite length_app; cbn; lia). rewrite length_app. cbn [length]. f_equal. f_equal. lia.
Qed.

(** The texts of at most nine characters a segment may have. *)
Lemma segment_ok_spec w : (length w <= 9)%nat -> (segment_ok w = true <-> octet_text w).
Proof.
  intros Hlen. unfold segment_ok, octet_text. split.
  - intros H. breflect. destruct (decide (w = [])) as [->|Hne]; [by left|right].
    assert (Hd : all_digits w) by (unfold all_digits; rewrite List.Forall_forall; by apply forallb_forall).
    pose proof (digits_val_bound w Hd) as Hb.
    assert (10 ^ zlen w <= 10 ^ 9) by (apply Z.pow_le_mono_r; lia).
    rewrite strtol_digits in * by done. rewrite (proj2 (Z.ltb_ge LONG_MAX (digits_val w))) in * by (unfold LONG_MAX; lia).
    cbn [fst] in *. assert (Hi : i32 (digits_val w) = digits_val w).
    { rewrite <- (uwrap_small 32 (digits_val w)) at 1 by (unfold in_u; lia). apply swrap_uwrap; unfold in_s; lia. }
    rewrite Hi in *. breflect. exists (digits_val w). split; [lia|]. symmetry. apply dec_canonical; [done..|lia|].
    destruct (1 <? zlen w) eqn:E1; breflect; [|left; destruct w; [done|cbn [length] in *; lia]].
    right. intros Hz. rewrite Hz in *. cbn in *. breflect. rewrite bytes_eqb_eq in *. subst w. cbn in E1. lia.
  - intros [->|(n & Hn & ->)]; [done|].
    assert (Hall : forallb (fun k => segment_ok (to_string (Z.of_nat k))) (seq 0 256) = true) by (vm_compute; reflexivity).
    rewrite forallb_forall in Hall. specialize (Hall (Z.to_nat n)). rewrite Z2Nat.id in Hall by lia.
    apply Hall, in_seq. lia.
Qed.

Lemma drop_last_empty_inv l : l = drop_last_empty l /\ List.last l [0] <> [] \/ l = drop_last_empty l ++ [[]].
Proof.
  induction l as [|x l IH]; [by left|]. destruct l as [|y l].
  - destruct x; [by right|]. by left.
  - replace (drop_last_empty (x :: y :: l)) with (x :: drop_last_empty (y :: l)) by by destruct x.
    destruct IH as [[IH Hl]|IH]; [left|right].
    + split; [by rewrite <- IH|]. exact Hl.
    + cbn [app]. by rewrite <- IH.
Qed.

Lemma split_on_cons_inv c s a l : split_on c s = a :: l ->
  l = [] /\ s = a \/ exists s', s = a ++ c :: s' /\ split_on c s' = l.
Proof.
  pose proof (find_aux_char c s 0) as Hf. destruct (find_aux [c] s 0) as [j|].
  - destruct Hf as (u & v & -> & Hu & _). rewrite split_on_app by done. intros He. injection He as -> <-. right. by exists v.
  - rewrite split_on_nosep by done. intros He. injection He as -> <-. by left.
Qed.

Lemma split_on_nonnil c s : split_on c s <> [].
Proof. destruct s as [|x s]; [done|]. cbn [split_on]. destruct (x =? c); [done|]. by destruct (split_on c s). Qed.

Definition dotted (a b c d : bytes) : bytes := a ++ 46 :: b ++ 46 :: c ++ 46 :: d.

Lemma getlines_four s a b c d : getlines 46 s = [a; b; c; d] ->
  (s = dotted a b c d /\ d <> []) \/ s = dotted a b c d ++ [46].
Proof.
  unfold getlines, dotted. intros He. destruct (drop_last_empty_inv (split_on 46 s)) as [[Hs Hl]|Hs]; rewrite He in Hs;
    [left; rewrite Hs in Hl|right]; cbn [app] in Hs;
    repeat match goal with
    | H : split_on 46 _ = _ :: _ |- _ => apply split_on_cons_inv in H as [[? ?]|(? & ? & H)]; [discriminate || subst|subst]
    | H : split_on 46 _ = [] |- _ => by apply split_on_nonnil in H
    end.
  - split; [reflexivity|exact Hl].
  - by rewrite <- !app_assoc; cbn; rewrite <- !app_assoc; cbn; rewrite <- !app_assoc.
Qed.

Lemma octet_text_nosep w : octet_text w -> 46 ∉ w.
Proof. intros [->|(n & Hn & ->)]; [apply not_elem_of_nil|]. apply digits_notin; [apply to_string_digits; lia|done]. Qed.

Lemma getlines_dotted a b c d : octet_text a -> octet_text b -> octet_text c -> octet_text d ->
  getlines 46 (dotted a b c d ++ [46]) = [a; b; c; d] /\ (d <> [] -> getlines 46 (dotted a b c d) = [a; b; c; d]).
Proof.
  intros Ha%octet_text_nosep Hb%octet_text_nosep Hc%octet_text_nosep Hd%octet_text_nosep. unfold getlines, dotted.
  rewrite <- !app_assoc. cbn [app]. rewrite <- !app_assoc. cbn [app]. rewrite <- !app_assoc. cbn [app].
  rewrite !split_on_app by done. split; [by destruct a, b, c, d|].
  intros Hn. rewrite split_on_nosep by done. by destruct a, b, c, d.
Qed.

(** On addresses whose fields have at most nine characters, [IsValidIpv4]
    accepts exactly four fields, each the decimal form of 0 to 255 without leading
    zeros, or empty; a final dot is allowed, and is required after an empty last
    field.  So every dotted quad is accepted, but so is [....] . *)
Theorem valid_ipv4_exact (s : bytes) :
  Forall (fun w => (length w <= 9)%nat) (getlines 46 s) ->
  (IsValidIpv4 s = true <->
   exists a b c d, octet_text a /\ octet_text b /\ octet_text c /\ octet_text d /\
     ((s = dotted a b c d /\ d <> []) \/ s = dotted a b c d ++ [46])).
Proof.
  intros Hlen. unfold IsValidIpv4. rewrite IsValidIpv4_loop_spec, andb_true_iff, forallb_forall, Nat.eqb_eq by (cbn; lia).
  rewrite List.Forall_forall in Hlen. split.
  - intros [Hok H4]. cbn [length] in H4. destruct (getlines 46 s) as [|a [|b [|c [|d [|]]]]] eqn:Hg; cbn [length] in H4; try lia.
    exists a, b, c, d. pose proof (fun w Hw => proj1 (segment_ok_spec w (Hlen w Hw)) (Hok w Hw)) as Hs. cbn [List.In] in Hs.
    split_and!; [apply Hs; tauto..|]. by apply getlines_four.
  - intros (a & b & c & d & Ha & Hb & Hc & Hd & Hs). destruct (getlines_dotted a b c d Ha Hb Hc Hd) as [H1 H2].
    assert (Hg : getlines 46 s = [a; b; c; d]) by (destruct Hs as [[-> Hn]| ->]; auto).
    rewrite Hg in *. split; [|done]. intros w Hw. apply segment_ok_spec; [by apply Hlen|]. cbn in Hw.
    by destruct Hw as [<-|[<-|[<-|[<-|[]]]]].
Qed.

Lemma valid_ipv4_exact_witness : IsValidIpv4 (str "192.168.0.255") = true.
Proof.
  apply (valid_ipv4_exact (str "192.168.0.255")); [vm_compute; repeat constructor|].
  exists (str "192"), (str "168"), (str "0"), (str "255").
  split; [right; exists 192; split; [lia|reflexivity]|]. split; [right; exists 168; split; [lia|reflexivity]|].
  split; [right; exists 0; split; [lia|reflexivity]|]. split; [right; exists 255; split; [lia|reflexivity]|].
  left. split; [reflexivity|discriminate].
Defined.

(** Longer fields wrap around when [strtol]'s result is converted to [int]. *)
Example ipv4_accepts_wrapped : IsValidIpv4 (str "4294967297.0.0.1") = true.
Proof. vm_compute. reflexivity. Qed.

(** ** Textual TLV *)

Definition not_space (c : Z) : bool := negb (c =? 32).

Lemma filter_nospace a : 32 ∉ a -> List.filter not_space a = a.
Proof.
  induction a as [|x a IH]; [done|]. intros [Hx Ha]%not_elem_of_cons. cbn [List.filter]. unfold not_space at 1.
  rewrite (proj2 (Z.eqb_neq x 32)) by congruence. cbn [negb]. by rewrite IH.
Qed.

(** Removing a one-character substring removes every occurrence of it. *)
Lemma TrimSubString_loop_space fuel a s : 32 ∉ a -> (length s < fuel)%nat ->
  TrimSubString_loop fuel (a ++ s) [32] (zlen a) = Ok (a ++ List.filter not_space s).
Proof.
  revert a s. induction fuel as [|fuel IH]; intros a s Ha Hf; [lia|]. cbn [TrimSubString_loop]. unfold find.
  rewrite (proj2 (Z.ltb_ge _ _)) by (rewrite length_app; lia). rewrite zdrop_app by done.
  pose proof (find_aux_char 32 s (zlen a)) as Hc. destruct (find_aux [32] s (zlen a)) as [q|].
  - destruct Hc as (u & v & -> & Hu & ->). rewrite length_app in Hf. cbn [length] in Hf.
    assert (H1 : ztake (zlen a + zlen u) (a ++ u ++ 32 :: v) = a ++ u).
    { rewrite app_assoc. apply ztake_app. rewrite length_app. lia. }
    assert (H2 : zdrop (zlen a + zlen u + zlen [32]) (a ++ u ++ 32 :: v) = v).
    { rewrite app_assoc. change (zlen [32]) with 1. rewrite <- Nat2Z.inj_add, <- length_app. apply zdrop_sep. }
    rewrite H1, H2. replace (zlen a + zlen u) with (zlen (a ++ u)) by (rewrite length_app; lia).
    rewrite IH; [|by rewrite not_elem_of_app|lia].
    rewrite List.filter_app, (filter_nospace u) by done. cbn [List.filter]. by rewrite <- app_assoc.
  - by rewrite filter_nospace.
Qed.

Lemma TrimSubString_space s : TrimSubString s [32] = Ok (List.filter not_space s).
Proof. apply (TrimSubString_loop_space _ [] s); [apply not_elem_of_nil|lia]. Qed.

Lemma filter_pad n s : 32 ∉ s -> List.filter not_space (pad_to n s) = s.
Proof.
  intros Hs. unfold pad_to. destruct (zlen s <? n); [|by apply filter_nospace].
  rewrite List.filter_app, filter_nospace by done. generalize (Z.to_nat (n - zlen s)). intros k.
  induction k as [|k IH]; cbn; [apply app_nil_r|exact IH].
Qed.

Lemma length_pad n s : zlen s <= n -> zlen (pad_to n s) = n.
Proof.
  intros Hs. unfold pad_to. destruct (zlen s <? n) eqn:E; breflect; [|lia].
  rewrite length_app, repeat_length. lia.
Qed.

Lemma to_string_atoi n : 0 <= n <= INT_MAX -> atoi (to_string n) = n.
Proof.
  intros Hn. unfold INT_MAX in Hn. unfold atoi. rewrite to_string_strtol by (unfold LONG_MAX; lia). cbn [fst].
  rewrite <- (uwrap_small 32 n) at 1 by (unfold in_u; lia). apply swrap_uwrap; unfold in_s; lia.
Qed.

(** An option [TlvAppend] can carry losslessly. *)
Definition tlv_option (p : bytes * bytes) : Prop :=
  p.1 <> [] /\ zlen p.1 <= TLV_TAG_LEN /\ ~ (32 ∈ p.1) /\ zlen p.2 <= INT_MAX.

Definition tlv_entry (p : bytes * bytes) : bytes :=
  pad_to TLV_TAG_LEN p.1 ++ pad_to TLV_VAL_LEN (to_string (zlen p.2)) ++ p.2.

Lemma tlv_loop_entry fuel p rest m : tlv_option p ->
  TlvToStringMap_loop (S fuel) (tlv_entry p ++ rest) m = TlvToStringMap_loop fuel rest (om_set p.1 p.2 m).
Proof.
  intros (Hne & Htag & Hsp & Hval). unfold tlv_entry. rewrite <- !app_assoc. cbn [TlvToStringMap_loop].
  assert (Hd : all_digits (to_string (zlen p.2))) by (apply to_string_digits; lia).
  assert (Hlen : (length (to_string (zlen p.2)) <= 10)%nat) by (apply dec_length; unfold INT_MAX in Hval; cbn; lia).
  pose proof (length_pad TLV_TAG_LEN p.1 Htag) as L1.
  pose proof (length_pad TLV_VAL_LEN (to_string (zlen p.2)) ltac:(unfold TLV_VAL_LEN; lia)) as L2.
  rewrite (proj2 (Z.ltb_ge _ _)) by (rewrite !length_app; unfold TLV_MIN_LEN; lia).
  rewrite (ztake_app (pad_to TLV_TAG_LEN p.1)), (zdrop_app (pad_to TLV_TAG_LEN p.1)) by done.
  rewrite (ztake_app (pad_to TLV_VAL_LEN _)), (zdrop_app (pad_to TLV_VAL_LEN _)) by done.
  rewrite !TrimSubString_space, !filter_pad by (done || by apply digits_notin).
  cbn [mbind res_bind]. rewrite to_string_atoi by lia.
  rewrite (proj2 (Z.ltb_ge (zlen p.2) 0)), (proj2 (Z.ltb_ge _ (zlen p.2))) by (rewrite ?length_app; lia).
  by rewrite ztake_app, zdrop_app by done.
Qed.

Lemma length_tlv_entry p : tlv_option p -> TLV_MIN_LEN <= zlen (tlv_entry p).
Proof.
  intros (_ & Htag & _ & Hval). unfold tlv_entry, TLV_MIN_LEN.
  assert (length (to_string (zlen p.2)) <= 10)%nat by (apply dec_length; unfold INT_MAX in Hval; cbn; lia).
  rewrite !length_app, !Nat2Z.inj_add, !length_pad by (done || unfold TLV_VAL_LEN; lia). lia.
Qed.

Lemma tlv_loop_entries l : forall fuel m, Forall tlv_option l -> (length (concat (map tlv_entry l)) < fuel)%nat ->
  TlvToStringMap_loop fuel (concat (map tlv_entry l)) m = Ok (true, fold_left (fun m p => om_set p.1 p.2 m) l m).
Proof.
  induction l as [|p l IH]; intros fuel m Hl Hf; (destruct fuel as [|fuel]; [lia|]); [done|].
  apply List.Forall_cons_iff in Hl as [Hp Hl]. cbn [map concat fold_left] in *. rewrite tlv_loop_entry by done.
  pose proof (length_tlv_entry p Hp) as Hm. unfold TLV_MIN_LEN, TLV_TAG_LEN, TLV_VAL_LEN in Hm.
  rewrite length_app in Hf. apply IH; [done|lia].
Qed.

Lemma TlvAppend_entries l tlv : Forall tlv_option l ->
  fold_left (fun t p => (TlvAppend t p.1 p.2).2) l tlv = tlv ++ concat (map tlv_entry l).
Proof.
  intros Hl. revert tlv. induction Hl as [|p l (Hne & _) _ IH]; intros tlv; cbn [fold_left map concat]; [by rewrite app_nil_r|].
  unfold TlvAppend. rewrite bool_decide_false by done. cbn [snd]. rewrite IH. unfold tlv_entry. by rewrite <- !app_assoc.
Qed.

Lemma om_find_fold (l : list (bytes * bytes)) m tag val : NoDup (map fst l) -> (tag, val) ∈ l ->
  om_find tag (fold_left (fun m p => om_set p.1 p.2 m) l m) = Some val.
Proof.
  revert m. induction l as [|[t v] l IH]; intros m Hn Hin; [by apply not_elem_of_nil in Hin|].
  cbn [map] in Hn. inversion Hn as [|? ? Ht Hn']; subst. cbn [fold_left]. apply elem_of_cons in Hin as [He|Hin]; [|by apply IH].
  injection He as -> ->. clear IH. assert (Hm : om_find t (om_set t v m) = Some v) by apply om_find_set_eq.
  cbn [fst snd] in *. revert Hm Ht. generalize (om_set t v m). clear. induction l as [|[t' v'] l IH]; intros m Hm Ht; [done|].
  cbn [map fst] in Ht. apply not_elem_of_cons in Ht as [Hne Ht]. cbn [fold_left fst snd]. apply IH; [|done].
  by rewrite om_find_set_ne.
Qed.

(** The table [TlvToStringMap] makes of appended options. *)
Lemma TlvToStringMap_appended (l : list (bytes * bytes)) : l <> [] -> Forall tlv_option l ->
  TlvToStringMap (fold_left (fun t p => (TlvAppend t p.1 p.2).2) l []) [] =
    Ok (true, fold_left (fun m p => om_set p.1 p.2 m) l []).
Proof.
  intros Hne Hl. rewrite TlvAppend_entries by done. cbn [app].
  unfold TlvToStringMap. rewrite (proj2 (Z.ltb_ge _ _)); [apply tlv_loop_entries; [done|lia]|].
  destruct Hl as [|p l Hp _]; [done|]. cbn [map concat]. rewrite length_app. pose proof (length_tlv_entry p Hp). lia.
Qed.

(** The options a handshake carries as text are recovered: after any number of
    [TlvAppend]s of distinct tags (non-empty, at most 16 characters, no spaces)
    with values of any content, [TlvToStringMap] succeeds and finds under each tag
    exactly the value appended. *)
Theorem handshake_tlv_roundtrip (l : list (bytes * bytes)) :
  l <> [] -> Forall tlv_option l -> NoDup (map fst l) ->
  exists m, TlvToStringMap (fold_left (fun t p => (TlvAppend t p.1 p.2).2) l []) [] = Ok (true, m) /\
    forall tag val, (tag, val) ∈ l -> om_find tag m = Some val.
Proof.
  intros Hne Hl Hn. exists (fold_left (fun m p => om_set p.1 p.2 m) l []).
  split; [by apply TlvToStringMap_appended|intros; by apply om_find_fold].
Qed.

Lemma handshake_tlv_roundtrip_witness :
  exists m, TlvToStringMap (fold_left (fun t p => (TlvAppend t p.1 p.2).2)
      [(str "authtype", str "2"); (str "supportfeature", str "heartbeat")] []) [] = Ok (true, m) /\
    forall tag val, (tag, val) ∈ [(str "authtype", str "2"); (str "supportfeature", str "heartbeat")] -> om_find tag m = Some val.
Proof.
  apply (handshake_tlv_roundtrip [(str "authtype", str "2"); (str "supportfeature", str "heartbeat")]).
  - discriminate.
  - repeat constructor; cbn [fst snd]; try (vm_compute; discriminate); apply (bool_decide_unpack _); vm_compute; exact I.
  - apply (bool_decide_unpack _). vm_compute. exact I.
Defined.

(** Whatever text a peer sends, [TlvToStringMap] terminates with an answer:
    every round consumes at least the 32 bytes of a tag and a length. *)
Theorem tlv_string_map_total (tlv : bytes) (m : list (bytes * bytes)) :
  exists ok m', TlvToStringMap tlv m = Ok (ok, m').
Proof.
  unfold TlvToStringMap. destruct (zlen tlv <? TLV_MIN_LEN); [by do 2 eexists|].
  assert (Hf : (length tlv < S (length tlv))%nat) by lia. revert Hf. generalize (S (length tlv)). intros fuel.
  revert tlv m. induction fuel as [|fuel IH]; intros tlv m Hf; [lia|]. cbn [TlvToStringMap_loop].
  destruct (zlen tlv <? TLV_MIN_LEN) eqn:E; [by do 2 eexists|]. rewrite !TrimSubString_space. cbn [mbind res_bind].
  destruct (_ <? 0); [by do 2 eexists|]. destruct (_ <? atoi _); [by do 2 eexists|]. apply IH.
  breflect. unfold TLV_MIN_LEN, TLV_TAG_LEN, TLV_VAL_LEN, zdrop in *. rewrite !length_drop. lia.
Qed.
