(* ===== verification/Sandbox.v ===== *)
(** * Sandbox: confinement of file transfer to an application directory ([file.cpp])

    A transfer with a bundle name may only touch files below the application's
    directory.  [CheckSandboxSubPath] simplifies the requested path and compares
    it with the canonical name of that directory; [CheckBlacklistPath] refuses
    hdc's own key directories.  [realpath], behind [Base::CanonicalizeSpecPath],
    is the operating system's and is an argument. *)

From Stdlib Require Import String ZArith Lia List Bool.
From stdpp Require Import base list numbers option.
From S2P Require Import Prelude Defs Strings Numbers.

(** [strncmp(a.c_str(), b.c_str(), n) == 0]. *)
Definition strncmp_eq (a b : bytes) (n : Z) : bool :=
  bool_decide (ztake n (cstr a ++ [0]) = ztake n (cstr b ++ [0])).

(** One step of the loop over the groups between separators. *)
Definition simplify_group (nameVec : list bytes) (group : bytes) : list bytes :=
  if bytes_eqb group [] || bytes_eqb group (str ".") then nameVec
  else if bytes_eqb group (str "..") && negb (bool_decide (nameVec = [])) then removelast nameVec
  else if negb (bytes_eqb group (str "..")) then nameVec ++ [group]
  else nameVec.

Definition PathSimplify (path : bytes) : bytes :=
  let nameVec := fold_left simplify_group (getlines GetPathSep path) [] in
  let outPath := fold_left (fun out name => out ++ [GetPathSep] ++ name) nameVec [] in
  if negb (zlen outPath =? 0) then outPath else [GetPathSep].

Definition IsPathInsideSandbox (path appDir : bytes) : bool :=
  if zlen path <? zlen appDir then false
  else
    let resolvedPath := path ++ [GetPathSep] in
    let appDirPath := appDir ++ [GetPathSep] in
    strncmp_eq resolvedPath appDirPath (zlen appDirPath).

Definition SANDBOX_ROOT_DIR : bytes := str "/mnt/debug/100/debug_hap/".

(** Trailing separators are dropped unless a dot precedes them. *)
Fixpoint strip_postfix (fuel : nat) (fullPath : bytes) : res bytes :=
  match fuel with
  | O => Stuck
  | S fuel =>
      match rev fullPath with
      | [] => Undefined
      | c :: rest =>
          if c =? GetPathSep then
            match rest with
            | [] => Undefined
            | d :: _ => if negb (d =? 46) then strip_postfix fuel (removelast fullPath) else Ok fullPath
            end
          else Ok fullPath
      end
  end.

(** The result and [resolvedPath]. *)
Definition CheckSandboxSubPath (CanonicalizeSpecPath : bytes -> bytes) (bundleName inputLocalPath : bytes) : res (bool * bytes) :=
  let fullPath := SANDBOX_ROOT_DIR ++ bundleName in
  let appDir := CanonicalizeSpecPath fullPath in
  if negb (CheckPathTraversal inputLocalPath) then Ok (false, [])
  else
    let fullPath := fullPath ++ [GetPathSep] ++ inputLocalPath in
    fullPath ← strip_postfix (S (length fullPath)) fullPath;
    let resolvedPath := PathSimplify fullPath in
    let resolvedPath := if zlen appDir + 1 <? zlen resolvedPath then GetPathWithoutFilename resolvedPath else resolvedPath in
    if negb (IsPathInsideSandbox resolvedPath appDir) then Ok (false, resolvedPath) else Ok (true, resolvedPath).

Definition blacklistFiles : list bytes := [str "/data/service/el1/public/hdc"; str "/data/service/el2/public/hdc_service"].

Definition containsBlacklistedSubstring (input : bytes) (blacklistFiles : list bytes) : bool :=
  let inputPath := PathSimplify input in
  existsb (fun blacklisted => match find blacklisted inputPath 0 with Some _ => true | None => false end) blacklistFiles.

(** The path test of [CheckBlacklistPath]. *)
Definition CheckBlacklistPath (localPath : bytes) : bool := negb (containsBlacklistedSubstring localPath blacklistFiles).

Definition IsAbsolutePath (path : bytes) : bool := match path with c :: _ => c =? 47 | [] => false end.
Definition ExtractRelativePath (cwd path : bytes) : bytes := if IsAbsolutePath path then path else cwd ++ path.

(** ** Components *)

(** A name a simplified path consists of. *)
Definition name_ok (w : bytes) : Prop := w <> [] /\ w <> str "." /\ w <> str ".." /\ ~ (47 ∈ w).

Definition real_group (w : bytes) : bool := negb (bytes_eqb w [] || bytes_eqb w (str ".")).

(** The names of a path, without empty ones and [.]. *)
Definition components (p : bytes) : list bytes := List.filter real_group (split_on 47 p).

(** [/a/b/c]. *)
Definition render (names : list bytes) : bytes := concat (map (cons 47) names).

Lemma split_on_app_sep c p q : split_on c (p ++ c :: q) = split_on c p ++ split_on c q.
Proof.
  induction p as [|x p IH]; cbn [app split_on].
  - by rewrite Z.eqb_refl.
  - destruct (x =? c); [by rewrite IH|]. rewrite IH. destruct (split_on c p) as [|w ws] eqn:E; [by apply split_on_nonnil in E|done].
Qed.

Lemma components_app p q : components (p ++ 47 :: q) = components p ++ components q.
Proof. unfold components. by rewrite split_on_app_sep, List.filter_app. Qed.

Lemma name_ok_real w : name_ok w -> real_group w = true.
Proof.
  intros (H1 & H2 & _). unfold real_group, bytes_eqb. by rewrite !bool_decide_false.
Qed.

Lemma components_nil : components [] = [].
Proof. done. Qed.

Lemma components_cons q : components (47 :: q) = components q.
Proof. apply (components_app []). Qed.

Lemma components_sep p : components (p ++ [47]) = components p.
Proof. by rewrite components_app, components_nil, app_nil_r. Qed.

Lemma components_nosep w : 47 ∉ w -> components w = if real_group w then [w] else [].
Proof. intros H. unfold components. by rewrite split_on_nosep. Qed.

Lemma components_render names : Forall name_ok names -> components (render names) = names.
Proof.
  unfold render. induction 1 as [|w names Hw Hn IH]; [done|]. cbn [map concat app]. rewrite components_cons.
  assert (Hc : components w = [w]) by (rewrite components_nosep by apply Hw; by rewrite (name_ok_real w Hw)).
  destruct names as [|v names]; cbn [map concat app] in *; [by rewrite app_nil_r|].
  rewrite components_app, Hc. rewrite components_cons in IH. by rewrite IH.
Qed.

Lemma outPath_render names out : fold_left (fun out name => out ++ [GetPathSep] ++ name) names out = out ++ render names.
Proof.
  revert out. induction names as [|w names IH]; intros out; cbn [fold_left]; [by rewrite app_nil_r|].
  rewrite IH. unfold render. cbn [map concat]. by rewrite <- !app_assoc.
Qed.

(** ** What [PathSimplify] produces *)

Lemma split_on_nosep_all c s : Forall (fun w => c ∉ w) (split_on c s).
Proof.
  induction s as [|x s IH]; cbn [split_on]; [by repeat constructor; apply not_elem_of_nil|].
  destruct (x =? c) eqn:E; breflect; [constructor; [apply not_elem_of_nil|done]|].
  destruct (split_on c s) as [|w ws] eqn:Es; [by apply split_on_nonnil in Es|].
  apply List.Forall_cons_iff in IH as [Hw Hws]. constructor; [|done]. by intros [?|?]%elem_of_cons.
Qed.

Lemma drop_last_empty_Forall (P : bytes -> Prop) l : Forall P l -> Forall P (drop_last_empty l).
Proof.
  induction 1 as [|x l Hx Hl IH]; cbn [drop_last_empty]; [constructor|].
  destruct x, l; try constructor; done.
Qed.

Lemma simplify_group_ok names g : Forall name_ok names -> 47 ∉ g -> Forall name_ok (simplify_group names g).
Proof.
  intros Hn Hg. unfold simplify_group, bytes_eqb.
  destruct (bool_decide (g = [])) eqn:E1, (bool_decide (g = str ".")) eqn:E2; cbn [orb]; try done.
  destruct (bool_decide (g = str "..")) eqn:E3; cbn [andb negb].
  - destruct (bool_decide (names = [])); cbn [negb]; [done|].
    destruct names as [|w names _] using rev_ind; [done|]. rewrite removelast_last. by apply Forall_app in Hn as [? _].
  - apply Forall_app. split; [done|]. breflect. by repeat constructor.
Qed.

Lemma PathSimplify_render path : exists names, Forall name_ok names /\
  PathSimplify path = if bool_decide (names = []) then [47] else render names.
Proof.
  unfold PathSimplify. assert (H : forall gs names, Forall (fun w => 47 ∉ w) gs -> Forall name_ok names ->
    Forall name_ok (fold_left simplify_group gs names)).
  { induction gs as [|g gs IH]; intros names Hg Hn; cbn [fold_left]; [done|].
    apply List.Forall_cons_iff in Hg as [Hg Hgs]. auto using simplify_group_ok. }
  specialize (H (getlines GetPathSep path) [] (drop_last_empty_Forall _ _ (split_on_nosep_all _ _)) ltac:(constructor)).
  set (names := fold_left _ _ _) in *. clearbody names. exists names. split; [done|]. rewrite outPath_render. cbn [app].
  destruct names as [|w names]; [done|]. rewrite bool_decide_false by done. unfold render. cbn [map concat length app]. by destruct (Z.eqb_spec (Z.of_nat (S (length (w ++ concat (map (cons 47) names))))) 0); [lia|].
Qed.

Lemma components_simplify path : Forall name_ok (components (PathSimplify path)).
Proof.
  destruct (PathSimplify_render path) as (names & Hn & ->). case_bool_decide; [constructor|]. by rewrite components_render.
Qed.

Lemma components_dirname p : Forall name_ok (components p) -> Forall name_ok (components (GetPathWithoutFilename p)).
Proof.
  unfold GetPathWithoutFilename, GetPathSep. destruct (rfind [47] p) as [i|] eqn:E; [|done].
  apply rfind_char_inv in E as (a & b & -> & _ & ->). rewrite components_app. intros [? _]%Forall_app.
  unfold ztake. replace (a ++ 47 :: b) with ((a ++ [47]) ++ b) by by rewrite <- app_assoc.
  rewrite take_app_length'; [by rewrite components_sep|]. rewrite length_app. cbn. lia.
Qed.

(** ** The prefix comparison *)

Lemma strncmp_prefix a b : no_nul b -> strncmp_eq a b (zlen b) = true -> exists k, a = b ++ k.
Proof.
  unfold strncmp_eq, ztake. intros Hb H%bool_decide_eq_true. rewrite Nat2Z.id, (cstr_id b Hb), take_app_length in H.
  revert b Hb H. induction a as [|x a IH]; intros b Hb H.
  - destruct b as [|y b]; [by exists []|]. apply List.Forall_cons_iff in Hb as [Hy _]. cbn in H. injection H. congruence.
  - destruct b as [|y b]; [by exists (x :: a)|]. apply List.Forall_cons_iff in Hb as [Hy Hb]. cbn [cstr length] in H.
    destruct (Z.eqb_spec x 0); cbn in H; [injection H; congruence|]. injection H as -> H. destruct (IH b Hb H) as [k ->]. by exists k.
Qed.

Lemma strip_postfix_total fuel s : (length s < fuel)%nat -> (exists c, c ∈ s /\ c <> 47) -> exists p, strip_postfix fuel s = Ok p.
Proof.
  revert s. induction fuel as [|fuel IH]; intros s Hf (c & Hc & Hne); [lia|]. cbn [strip_postfix].
  destruct s as [|x s _] using rev_ind; [by apply not_elem_of_nil in Hc|].
  rewrite rev_app_distr. cbn [rev app]. rewrite removelast_last. rewrite length_app in Hf. cbn in Hf.
  unfold GetPathSep. destruct (Z.eqb_spec x 47) as [->|]; [|eauto]. apply elem_of_app in Hc as [Hc|Hc%list_elem_of_singleton]; [|congruence].
  destruct (rev s) as [|d r] eqn:E; [apply (f_equal (@rev Z)) in E; rewrite rev_involutive in E; cbn in E; subst s; by apply not_elem_of_nil in Hc|].
  destruct (negb (d =? 46)); [apply IH; [lia|eauto]|eauto].
Qed.

Lemma find_spec pat s : (exists j, find pat s 0 = Some j) <-> exists a k, s = a ++ pat ++ k.
Proof.
  unfold find. destruct (Z.ltb_spec (zlen s) 0); [lia|]. change (zdrop 0 s) with s. clear H. generalize 0 as i.
  induction s as [|x s IH]; intros i; cbn [find_aux].
  - destruct (is_prefix pat []) eqn:E; [apply is_prefix_spec in E as [k Hk]; split; [by exists [], k|by eexists]|].
    split; [by intros []|]. intros (a & k & Hs). symmetry in Hs. apply app_eq_nil in Hs as [-> [-> ->]%app_eq_nil]. done.
  - destruct (is_prefix pat (x :: s)) eqn:E; [apply is_prefix_spec in E as [k Hk]; split; [by exists [], k|by eexists]|].
    rewrite IH. split; [intros (a & k & ->); by exists (x :: a), k|].
    intros ([|y a] & k & Hs); [|injection Hs as -> ->; by exists a, k].
    apply not_true_iff_false in E. destruct E. apply is_prefix_spec. by exists k.
Qed.

(** ** Equal paths simplify alike *)

(** The groups of a path, its last empty one kept: it changes nothing. *)
Lemma simplify_drop_last gs names : fold_left simplify_group (drop_last_empty gs) names = fold_left simplify_group gs names.
Proof.
  revert names. induction gs as [|g gs IH]; intros names; [done|].
  destruct g, gs as [|h gs]; cbn [drop_last_empty fold_left] in *; try apply IH; done.
Qed.

Definition simplified (path : bytes) (names : list bytes) : list bytes := fold_left simplify_group (split_on 47 path) names.

Lemma simplified_app p q names : simplified (p ++ [47] ++ q) names = simplified q (simplified p names).
Proof. unfold simplified. cbn [app]. by rewrite split_on_app_sep, fold_left_app. Qed.

Lemma PathSimplify_ext p q : simplified p [] = simplified q [] -> PathSimplify p = PathSimplify q.
Proof. unfold simplified, PathSimplify, getlines, GetPathSep. intros H. by rewrite !simplify_drop_last, H. Qed.

(** A detour through a name and back, or through the directory itself. *)
Definition detour (d : bytes) : Prop := d = [] \/ d = str "." \/ exists w, name_ok w /\ d = w ++ [47] ++ str "..".

Lemma simplified_detour d names : detour d -> simplified d names = names.
Proof.
  intros [->|[->|(w & (H1 & H2 & H3 & H4) & ->)]]; [done..|]. rewrite simplified_app. unfold simplified at 2.
  rewrite split_on_nosep by done. cbn [fold_left]. unfold simplify_group at 1, bytes_eqb. rewrite !bool_decide_false by done. cbn [orb andb negb].
  unfold simplified. change (split_on 47 (str "..")) with [str ".."]. cbn [fold_left]. unfold simplify_group.
  change (bytes_eqb (str "..") [] || bytes_eqb (str "..") (str ".")) with false. change (bytes_eqb (str "..") (str "..")) with true.
  cbn [andb]. rewrite bool_decide_false by by destruct names. cbn [negb]. by rewrite removelast_last.
Qed.

(** ** Theorems *)

(** C38. The sandbox check is defined on every input, and a path it accepts stays in the
    application's directory: [resolvedPath], and the file [SetMasterParametersOnDaemon]
    opens below it, have the components of the directory's canonical name first
    and no parent reference after them.  The canonical name is a C string. *)
Theorem sandbox_path_confined (CanonicalizeSpecPath : bytes -> bytes) (bundleName inputLocalPath localName : bytes) :
  (forall p, no_nul (CanonicalizeSpecPath p)) -> 47 ∉ localName -> localName <> str ".." ->
  exists ok resolvedPath,
    CheckSandboxSubPath CanonicalizeSpecPath bundleName inputLocalPath = Ok (ok, resolvedPath) /\
    (ok = true -> exists inner,
      components (resolvedPath ++ [GetPathSep] ++ localName) =
        components (CanonicalizeSpecPath (SANDBOX_ROOT_DIR ++ bundleName)) ++ inner /\ str ".." ∉ inner).
Proof.
  intros Hreal Hsep Hdd. unfold CheckSandboxSubPath, IsPathInsideSandbox, GetPathSep.
  destruct (CheckPathTraversal inputLocalPath); cbn [negb]; [|by eexists _, _].
  destruct (strip_postfix_total (S (length ((SANDBOX_ROOT_DIR ++ bundleName) ++ [47] ++ inputLocalPath)))
    ((SANDBOX_ROOT_DIR ++ bundleName) ++ [47] ++ inputLocalPath)) as [full ->]; [lia| |].
  { exists 109. split; [|done]. apply elem_of_app. left. apply elem_of_app. left. by apply (bool_decide_unpack (109 ∈ SANDBOX_ROOT_DIR)). }
  cbn [mbind res_bind]. specialize (Hreal (SANDBOX_ROOT_DIR ++ bundleName)).
  set (appDir := CanonicalizeSpecPath _) in *. set (r := if _ <? zlen (PathSimplify full) then _ else _).
  assert (Hr : Forall name_ok (components r)).
  { subst r. destruct (_ <? _); [apply components_dirname|]; apply components_simplify. }
  destruct (zlen r <? zlen appDir); cbn [negb]; [by eexists _, _|].
  destruct (strncmp_eq _ _ _) eqn:E; cbn [negb]; (eexists _, _; split; [reflexivity|]); [intros _|done].
  apply strncmp_prefix in E as [k Hk]; [|apply Forall_app; by repeat constructor].
  rewrite <- components_sep, Hk, <- app_assoc in Hr. cbn [app] in Hr. rewrite components_app in Hr. apply Forall_app in Hr as [_ Hk'].
  exists (components k ++ components localName). cbn [app]. split.
  - rewrite components_app, <- (components_sep r), Hk, <- app_assoc. cbn [app]. by rewrite components_app, app_assoc.
  - intros [Hin|Hin]%elem_of_app.
    + rewrite List.Forall_forall in Hk'. apply list_elem_of_In, Hk' in Hin. by destruct Hin as (_ & _ & ? & _).
    + rewrite components_nosep in Hin by done. destruct (real_group localName); [|by apply not_elem_of_nil in Hin].
      apply list_elem_of_singleton in Hin. congruence.
Qed.

Lemma sandbox_path_confined_witness : exists ok resolvedPath,
  CheckSandboxSubPath cstr (str "com.example.app") (str "data/storage/log.txt") = Ok (ok, resolvedPath) /\
  (ok = true -> exists inner, components (resolvedPath ++ [GetPathSep] ++ str "log.txt") =
     components (cstr (SANDBOX_ROOT_DIR ++ str "com.example.app")) ++ inner /\ str ".." ∉ inner).
Proof.
  destruct (sandbox_path_confined cstr (str "com.example.app") (str "data/storage/log.txt") (str "log.txt"))
    as (ok & r & H1 & H2).
  - exact cstr_no_nul.
  - by apply (bool_decide_unpack (47 ∉ str "log.txt")).
  - by apply (bool_decide_unpack (str "log.txt" <> str "..")).
  - exists ok, r. split; [exact H1|exact H2].
Defined.

(** A file of an application is accepted, one outside is not. *)
Example sandbox_examples :
  CheckSandboxSubPath id (str "com.example.app") (str "data/storage/log.txt")
    = Ok (true, str "/mnt/debug/100/debug_hap/com.example.app/data/storage/") /\
  CheckSandboxSubPath id (str "com.example.app") (str "data/../../other/log.txt") = Ok (false, []).
Proof. split; vm_compute; reflexivity. Qed.

(** [CheckBlacklistPath] refuses a path exactly when its simplified form
    contains one of hdc's own directories, and no spelling of a path hides it:
    an empty group, a [.] or a name followed by [..], inserted anywhere between
    two separators, leaves the verdict as it is. *)
Theorem blacklist_exact (path : bytes) :
  (CheckBlacklistPath path = true <->
    forall dir, dir ∈ blacklistFiles -> ~ exists a k, PathSimplify path = a ++ dir ++ k) /\
  (forall p d q, detour d -> CheckBlacklistPath (p ++ [47] ++ d ++ [47] ++ q) = CheckBlacklistPath (p ++ [47] ++ q)).
Proof.
  unfold CheckBlacklistPath, containsBlacklistedSubstring. split.
  - rewrite negb_true_iff, <- not_true_iff_false, existsb_exists. split.
    + intros Hn dir Hd Hf%find_spec. apply Hn. exists dir. split; [by apply list_elem_of_In|]. by destruct Hf as [j ->].
    + intros Hn (dir & Hd & Hf). apply (Hn dir); [by apply list_elem_of_In|]. apply find_spec. destruct (find _ _ _); [eauto|done].
  - intros p d q Hd. rewrite (PathSimplify_ext (p ++ [47] ++ d ++ [47] ++ q) (p ++ [47] ++ q)); [done|].
    by rewrite !simplified_app, (simplified_detour d).
Qed.
