(* ===== verification/Uart.v ===== *)
(** * Uart: packages over a serial line ([uart.h], [uart.cpp], [daemon_uart.cpp], [host_uart.cpp])

    A serial line loses and damages bytes, so this transport has a link layer of
    its own: data travels in packages of at most 4 KB with an index and check sums,
    each is kept in [outPkgs] until the other side acknowledges it, and is sent
    again when the acknowledgement does not come within a second, four times at
    most.  One package per session is on its way at a time ([TransferSlot]).

    The state of [HdcUARTBase] is passed explicitly.  Sessions are those
    [GetSession] finds; [freed] logs the calls of [FreeSession], [line] the bytes
    written to the device, one entry per package.  The system calls under
    [UartToHdcProtocol] and [WriteUartDev] are an environment.  Functions that run
    under a mutex are atomic; one pass over [outPkgs] reads the clock once.
    [host] is the build with [HDC_HOST]. *)

From Stdlib Require Import String ZArith Lia List Bool.
From stdpp Require Import base list numbers option gmap.
From S2P Require Import Prelude Defs Strings Numbers.

(** ** Packages *)

Definition PKG_OPTION_TAIL : Z := 1.
Definition PKG_OPTION_RESET : Z := 2.
Definition PKG_OPTION_ACK : Z := 4.
Definition PKG_OPTION_NAK : Z := 8.
Definition PKG_OPTION_FREE : Z := 16.

Definition MAX_UART_SIZE_IOBUF : Z := 4096.
Definition WAIT_RESPONSE_TIME_OUT_MS : Z := 1000.
Definition OneMoreMs : Z := 1.
(** Times are nanoseconds of the steady clock. *)
Definition ms : Z := 1000000.

Record UartHead := mkUartHead {
  uh_flag : bytes;
  uh_option : Z;
  uh_sessionId : Z;
  uh_dataSize : Z;
  uh_packageIndex : Z;
  uh_dataCheckSum : Z;
  uh_headCheckSum : Z }.

Definition sizeof_UartHead : Z := 24.

(** The packed struct in memory. *)
Definition UartHead_bytes (h : UartHead) : bytes :=
  uh_flag h ++ le_split 2 (uh_option h) ++ le_split 4 (uh_sessionId h) ++ le_split 4 (uh_dataSize h) ++
  le_split 4 (uh_packageIndex h) ++ le_split 4 (uh_dataCheckSum h) ++ le_split 4 (uh_headCheckSum h).

Definition head_field (pos len : Z) (buf : bytes) : Z := le_combine (ztake len (zdrop pos buf)).

(** A buffer read as a head. *)
Definition UartHead_of (buf : bytes) : UartHead :=
  mkUartHead (ztake 2 buf) (head_field 2 2 buf) (head_field 4 4 buf) (head_field 8 4 buf) (head_field 12 4 buf) (head_field 16 4 buf) (head_field 20 4 buf).

(** The constructor. *)
Definition UartHead_new (sessionId option dataSize packageIndex : Z) : UartHead :=
  mkUartHead PACKET_FLAG option sessionId dataSize packageIndex 0 0.

Definition IsResponsePackage (h : UartHead) : bool :=
  negb (Z.land (uh_option h) PKG_OPTION_ACK =? 0) || negb (Z.land (uh_option h) PKG_OPTION_NAK =? 0).

(** [std::accumulate] with an unsigned start value. *)
Definition accumulate (l : bytes) : Z := fold_left (fun acc x => u32 (acc + x)) l 0.

Definition MaskString (s : bytes) : bytes :=
  match s with
  | [] => s
  | c :: _ =>
      let len := length s in
      if (len <=? 6)%nat then [c] ++ repeat 42 len ++ [List.last s 0]
      else take 3 s ++ repeat 42 6 ++ drop (len - 3) s ++ str "(L:" ++ to_string (Z.of_nat len) ++ str ")"
  end.
Definition MaskSessionIdToString (sessionId : Z) : bytes := MaskString (to_string sessionId).

Definition ToPkgIdentityString (h : UartHead) (responsePackage : bool) : bytes :=
  (if responsePackage then str "R-" else []) ++
  str "Id:" ++ MaskSessionIdToString (uh_sessionId h) ++ str "pkgIdx:" ++ to_string (uh_packageIndex h).

(** The data behind the head; [Undefined] when the buffer is shorter. *)
Definition package_data (buf : bytes) (n : Z) : res bytes :=
  if zlen buf <? sizeof_UartHead + n then Undefined else Ok (ztake n (zdrop sizeof_UartHead buf)).

Definition headCheckSumLen : Z := 20.

Definition UpdateCheckSum (buf : bytes) : res bytes :=
  let h := UartHead_of buf in
  h1 ← (if negb (uh_dataSize h =? 0) then
          data ← package_data buf (uh_dataSize h);
          Ok (mkUartHead (uh_flag h) (uh_option h) (uh_sessionId h) (uh_dataSize h) (uh_packageIndex h)
                (accumulate data) (uh_headCheckSum h))
        else Ok h);
  let sum := accumulate (ztake headCheckSumLen (UartHead_bytes h1)) in
  Ok (UartHead_bytes (mkUartHead (uh_flag h1) (uh_option h1) (uh_sessionId h1) (uh_dataSize h1) (uh_packageIndex h1)
        (uh_dataCheckSum h1) sum) ++ zdrop sizeof_UartHead buf).

Definition ValidateHead (buf : bytes) : bool :=
  uh_headCheckSum (UartHead_of buf) =? accumulate (ztake headCheckSumLen buf).

Definition ValidateData (buf : bytes) : res bool :=
  let h := UartHead_of buf in
  if uh_dataSize h =? 0 then Ok true
  else data ← package_data buf (uh_dataSize h); Ok (uh_dataCheckSum h =? accumulate data).

(** ** State *)

Inductive PkgStatus := PKG_WAIT_SEND | PKG_WAIT_RESPONSE.

Record HandleOutputPkg := mkPkg {
  p_key : bytes;
  p_sessionId : Z;
  p_response : bool;
  p_ack : bool;
  p_pkgStatus : PkgStatus;
  p_msgSendBuf : bytes;
  p_retryChance : Z;
  p_sendTimePoint : Z }.

Definition HandleOutputPkg_new (key : bytes) (sessionId : Z) (data : bytes) (response ack : bool) : HandleOutputPkg :=
  mkPkg key sessionId response ack PKG_WAIT_SEND data 4 0.

Definition set_sent (now : Z) (p : HandleOutputPkg) : HandleOutputPkg :=
  mkPkg (p_key p) (p_sessionId p) (p_response p) (p_ack p) PKG_WAIT_RESPONSE (p_msgSendBuf p) (p_retryChance p) now.
Definition set_resend (retry : Z) (p : HandleOutputPkg) : HandleOutputPkg :=
  mkPkg (p_key p) (p_sessionId p) (p_response p) (p_ack p) PKG_WAIT_SEND (p_msgSendBuf p) retry (p_sendTimePoint p).

Record TransferStateMachine := mkFsm { requested : bool; timeoutPoint : Z; timeout : bool }.

Record HdcUART := mkHUart {
  packageIndex : Z;
  dispatchedPackageIndex : Z;
  streamSize : Z;
  resetIO : bool }.

(** A session: its [hUART] and the bytes handed to its stream so far. *)
Record USession := mkUSession { ss_serverOrDaemon : bool; ss_hUART : HdcUART; ss_stream : bytes }.

Record Uart := mkUart {
  outPkgs : list HandleOutputPkg;
  hasWaitPkg : gset Z;
  transfer : TransferStateMachine;
  sessions : gmap Z USession;
  currentSessionId : Z;
  line : list bytes;
  freed : list Z }.

Definition set_outPkgs x u := mkUart x (hasWaitPkg u) (transfer u) (sessions u) (currentSessionId u) (line u) (freed u).
Definition set_hasWaitPkg x u := mkUart (outPkgs u) x (transfer u) (sessions u) (currentSessionId u) (line u) (freed u).
Definition set_transfer x u := mkUart (outPkgs u) (hasWaitPkg u) x (sessions u) (currentSessionId u) (line u) (freed u).
Definition set_sessions x u := mkUart (outPkgs u) (hasWaitPkg u) (transfer u) x (currentSessionId u) (line u) (freed u).
Definition set_line x u := mkUart (outPkgs u) (hasWaitPkg u) (transfer u) (sessions u) (currentSessionId u) x (freed u).
Definition FreeSession (sid : Z) u :=
  mkUart (outPkgs u) (hasWaitPkg u) (transfer u) (sessions u) (currentSessionId u) (line u) (freed u ++ [sid]).

Definition upd_session (sid : Z) (f : USession -> USession) (u : Uart) : res Uart :=
  s ← deref (sessions u !! sid); Ok (set_sessions (<[sid := f s]> (sessions u)) u).
Definition on_hUART (f : HdcUART -> HdcUART) (s : USession) : USession :=
  mkUSession (ss_serverOrDaemon s) (f (ss_hUART s)) (ss_stream s).

(** ** The writer's wake-up *)

(** [NotifyTransfer]. *)
Definition Request (u : Uart) : Uart :=
  set_transfer (mkFsm true (timeoutPoint (transfer u)) (timeout (transfer u))) u.
Definition Sent (now : Z) (u : Uart) : Uart :=
  set_transfer (mkFsm (requested (transfer u)) (now + (WAIT_RESPONSE_TIME_OUT_MS + OneMoreMs) * ms) true) u.

(** The wait that starts at [start] returns at [now]; [None] while it blocks. *)
Definition Wait (start now : Z) (u : Uart) : option Uart :=
  let t := transfer u in
  if timeout t then
    if requested t then Some (set_transfer (mkFsm false (timeoutPoint t) true) u)
    else if start + Z.quot (timeoutPoint t - start) ms * ms <=? now then Some (set_transfer (mkFsm false (timeoutPoint t) false) u)
    else None
  else if requested t then Some (set_transfer (mkFsm false (timeoutPoint t) false) u) else None.

(** ** [TransferSlot] *)

Definition slots_Wait (sid : Z) (u : Uart) : option Uart :=
  if decide (sid ∈ hasWaitPkg u) then None else Some (set_hasWaitPkg ({[sid]} ∪ hasWaitPkg u) u).
Definition slots_Free (sid : Z) (u : Uart) : Uart := set_hasWaitPkg (hasWaitPkg u ∖ {[sid]}) u.

(** ** Outgoing packages *)

Definition key_is (key : bytes) (p : HandleOutputPkg) : bool := bytes_eqb key (p_key p).

(** [RequestSendPackage] after the wait for the slot. *)
Definition RequestSendPackage_queued (data : bytes) (u : Uart) : res Uart :=
  let head := UartHead_of data in
  let response := IsResponsePackage head in
  let pkgId := ToPkgIdentityString head response in
  match List.find (key_is pkgId) (outPkgs u) with
  | None =>
      data ← UpdateCheckSum data;
      Ok (Request (set_outPkgs (outPkgs u ++
        [HandleOutputPkg_new pkgId (uh_sessionId head) data response (negb (Z.land (uh_option head) PKG_OPTION_ACK =? 0))]) u))
  | Some _ => Ok (Request u)
  end.

(** [None] while the calling thread waits for the slot of the session. *)
Definition RequestSendPackage (data : bytes) (queue : bool) (u : Uart) : option (res Uart) :=
  if queue then
    match slots_Wait (uh_sessionId (UartHead_of data)) u with
    | None => None
    | Some u => Some (RequestSendPackage_queued data u)
    end
  else Some (RequestSendPackage_queued data u).

Definition ResponseUartTrans (sessionId packageIndex option : Z) (u : Uart) : res Uart :=
  RequestSendPackage_queued (UartHead_bytes (UartHead_new sessionId option 0 packageIndex)) u.

(** Removes the first package with the key ([erase] of what [find_if] found). *)
Fixpoint erase_key (key : bytes) (l : list HandleOutputPkg) : list HandleOutputPkg :=
  match l with
  | [] => []
  | p :: l => if key_is key p then l else p :: erase_key key l
  end.
Fixpoint resend_key (key : bytes) (l : list HandleOutputPkg) : list HandleOutputPkg :=
  match l with
  | [] => []
  | p :: l => if key_is key p then set_resend (p_retryChance p) p :: l else p :: resend_key key l
  end.

Definition ProcessResponsePackage (head : UartHead) (u : Uart) : Uart :=
  let ack := negb (Z.land (uh_option head) PKG_OPTION_ACK =? 0) in
  let pkgId := ToPkgIdentityString head false in
  Request
    match List.find (key_is pkgId) (outPkgs u) with
    | Some it =>
        if ack then set_outPkgs (erase_key pkgId (outPkgs u)) (slots_Free (p_sessionId it) u)
        else set_outPkgs (resend_key pkgId (outPkgs u)) u
    | None => u
    end.

Definition ClearUARTOutMapRaw (sessionId : Z) (u : Uart) : Uart :=
  let mine := List.filter (fun p => p_sessionId p =? sessionId) (outPkgs u) in
  let u1 := if existsb (fun p => negb (p_response p)) mine then slots_Free sessionId u else u in
  Request (set_outPkgs (List.filter (fun p => negb (p_sessionId p =? sessionId)) (outPkgs u)) u1).
Definition ClearUARTOutMap := ClearUARTOutMapRaw.

(** [GetSession] found a session, or not. *)
Definition OnTransferErrorRaw (session : option Z) (u : Uart) : Uart :=
  match session with
  | Some sid => ClearUARTOutMapRaw sid (FreeSession sid u)
  | None => u
  end.

Definition PrepareNewSession (sid : Z) (u : Uart) : Uart :=
  let u1 := set_sessions (<[sid := mkUSession false (mkHUart 0 0 0 false) []]> (sessions u)) u in
  if negb (currentSessionId u =? 0) then FreeSession (currentSessionId u) u1 else u1.

Definition GetSession (host create : bool) (sid : Z) (u : Uart) : option Z * Uart :=
  match sessions u !! sid with
  | Some _ => (Some sid, u)
  | None => if negb host && create then (Some sid, PrepareNewSession sid u) else (None, u)
  end.

(** ** Writing *)

(** Results of [select] and [send] on the session's socket and of [write] on the
    device, for the bytes that remain. *)
Record UartEnv := mkUartEnv { env_select : Z; env_send : bytes -> Z; env_write : bytes -> Z }.

Section Operations.
Context (e : UartEnv) (host : bool).

Fixpoint WriteUartDev_loop (fuel : nat) (data : bytes) (totalBytesWrite : Z) : res (Z * bytes) :=
  match fuel with
  | O => Stuck
  | S fuel =>
      let bytesWrite := env_write e (zdrop totalBytesWrite data) in
      if bytesWrite <? 0 then Ok (-1, ztake totalBytesWrite data)
      else
        let totalBytesWrite := totalBytesWrite + bytesWrite in
        if totalBytesWrite <? zlen data then WriteUartDev_loop fuel data totalBytesWrite
        else Ok (totalBytesWrite, ztake totalBytesWrite data)
  end.

(** The result and what reached the device. *)
Definition WriteUartDev (data : bytes) (u : Uart) : res (Z * Uart) :=
  '(n, out) ← WriteUartDev_loop (S (length data)) data 0;
  Ok (n, set_line (line u ++ [out]) u).

Definition SendUARTRaw (data : bytes) (u : Uart) : res (bool * Uart) :=
  let uartHeader := UartHead_of data in
  if negb host && IsResponsePackage uartHeader then
    '(sendBytes, u1) ← WriteUartDev data u; Ok (0 <? sendBytes, u1)
  else
    let '(hSession, _) := GetSession host false (uh_sessionId uartHeader) u in
    match hSession with
    | None => Ok (false, u)
    | Some _ =>
        '(sendBytes, u1) ← WriteUartDev data u;
        Ok (0 <? sendBytes, if sendBytes <? 0 then OnTransferErrorRaw hSession u1 else u1)
    end.

(** The iterator is between the packages [before] and [after]. *)
Fixpoint SendPkg_loop (now : Z) (before after : list HandleOutputPkg) (waiting : list Z) (u : Uart) : res Uart :=
  match after with
  | [] => Ok (set_outPkgs before u)
  | it :: rest =>
      match p_pkgStatus it with
      | PKG_WAIT_SEND =>
          if negb (p_response it) && existsb (Z.eqb (p_sessionId it)) waiting
          then SendPkg_loop now (before ++ [it]) rest waiting u
          else
            '(ok, u1) ← SendUARTRaw (p_msgSendBuf it) (set_outPkgs (before ++ it :: rest) u);
            if negb ok then Ok u1
            else if p_response it then SendPkg_loop now before rest waiting u1
            else SendPkg_loop now (before ++ [set_sent now it]) rest (p_sessionId it :: waiting) (Sent now u1)
      | PKG_WAIT_RESPONSE =>
          if WAIT_RESPONSE_TIME_OUT_MS <=? Z.quot (now - p_sendTimePoint it) ms then
            if 0 <? p_retryChance it
            then Ok (Request (set_outPkgs (before ++ set_resend (p_retryChance it - 1) it :: rest) u))
            else Ok (OnTransferErrorRaw (GetSession host false (p_sessionId it) u).1 (set_outPkgs (before ++ it :: rest) u))
          else SendPkg_loop now (before ++ [it]) rest (p_sessionId it :: waiting) u
      end
  end.

Definition SendPkgInUARTOutMap (now : Z) (u : Uart) : res Uart := SendPkg_loop now [] (outPkgs u) [] u.

(** One round of the writer thread ([UartWriteThread], [DeamonWriteThread]). *)
Definition UartWriteRound (start now : Z) (u : Uart) : option (res Uart) :=
  match Wait start now u with
  | None => None
  | Some u => Some (SendPkgInUARTOutMap now u)
  end.

(** One iteration of [SendUARTData]: the package and the new offset. *)
Definition packageDataMaxSize : Z := MAX_UART_SIZE_IOBUF - sizeof_UartHead.
Definition SendUARTData_package (sid index : Z) (data : bytes) (offset : Z) : bytes * Z :=
  let RemainingDataSize := i32 (zlen data - offset) in
  let tail := negb (packageDataMaxSize <? RemainingDataSize) in
  let dataSize := u16 (if tail then RemainingDataSize else packageDataMaxSize) in
  let head := mkUartHead PACKET_FLAG (if tail then PKG_OPTION_TAIL else 0) sid dataSize (u32 index) 0 0 in
  (UartHead_bytes head ++ ztake dataSize (zdrop offset data), dataSize).

Inductive SendResult := SendFailed (err : Z) (u : Uart) | SendNext (offset : Z) (u : Uart).

(** [None] while the thread waits for the slot; the loop ends at [offset = length]. *)
Definition SendUARTData_step (sid : Z) (data : bytes) (offset : Z) (u : Uart) : option (res SendResult) :=
  match sessions u !! sid with
  | None => Some Undefined
  | Some s =>
      let h := ss_hUART s in
      let index := u64 (packageIndex h + 1) in
      let u1 := set_sessions (<[sid := on_hUART (fun h => mkHUart index (dispatchedPackageIndex h) (streamSize h) (resetIO h)) s]>
                  (sessions u)) u in
      let '(buf, dataSize) := SendUARTData_package sid index data offset in
      if negb (memcpy_ok packageDataMaxSize dataSize) then Some (Ok (SendFailed ERR_BUF_COPY u1))
      else
        match RequestSendPackage buf true u1 with
        | None => None
        | Some r => Some (u2 ← r; Ok (SendNext (offset + dataSize) u2))
        end
  end.

(** ** Reading *)

Fixpoint UartToHdcProtocol_loop (fuel : nat) (data : bytes) (index : Z) : res Z :=
  match fuel with
  | O => Stuck
  | S fuel =>
      if index <? zlen data then
        if env_select e <=? 0 then Ok index
        else
          let childRet := env_send e (zdrop index data) in
          if childRet <? 0 then Ok index else UartToHdcProtocol_loop fuel data (index + childRet)
      else Ok index
  end.

(** The result and the bytes the session's stream got. *)
Definition UartToHdcProtocol (data : bytes) : res (Z * bytes) :=
  index ← UartToHdcProtocol_loop (S (length data)) data 0;
  Ok (if negb (index =? zlen data) then ERR_IO_FAIL else index, ztake index data).

(** The head of a reset request announces data that the buffer does not have. *)
Definition SendUartSoftReset (sessionId : Z) (u : Uart) : res Uart :=
  if host then RequestSendPackage_queued (UartHead_bytes (UartHead_new sessionId PKG_OPTION_RESET sizeof_UartHead 0)) u
  else Ok u.

Definition UartSendToHdcStream (sid : Z) (data : bytes) (u : Uart) : res (bool * Uart) :=
  if zlen data <? sizeof_UartHead then Ok (false, u)
  else
    s ← deref (sessions u !! sid);
    let head := UartHead_of data in
    if negb (uh_sessionId head =? sid) then
      if ss_serverOrDaemon s && negb (resetIO (ss_hUART s)) then
        u1 ← SendUartSoftReset (uh_sessionId head) u;
        u2 ← upd_session sid (on_hUART (fun h => mkHUart (packageIndex h) (dispatchedPackageIndex h) (streamSize h) true)) u1;
        Ok (false, u2)
      else Ok (true, u)
    else if zlen data - sizeof_UartHead <? uh_dataSize head then Ok (false, u)
    else
      '(r, out) ← UartToHdcProtocol (ztake (uh_dataSize head) (zdrop sizeof_UartHead data));
      u1 ← upd_session sid (fun s =>
             let h := ss_hUART s in
             mkUSession (ss_serverOrDaemon s)
               (mkHUart (packageIndex h) (dispatchedPackageIndex h) (u64 (streamSize h + uh_dataSize head)) (resetIO h))
               (ss_stream s ++ out)) u;
      Ok (negb (r <? 0), u1).

Definition DispatchToWorkThread (hSession : option Z) (readBuf : bytes) (u : Uart) : res (Z * Uart) :=
  match hSession with
  | None => Ok (ERR_SESSION_NOFOUND, u)
  | Some sid =>
      '(ok, u1) ← UartSendToHdcStream sid readBuf u;
      Ok (if negb ok then ERR_IO_FAIL else RET_SUCCESS, u1)
  end.

Definition DispatchPackageData (sid : Z) (data : bytes) (packetSize index : Z) (u : Uart) : res Uart :=
  s ← deref (sessions u !! sid);
  if dispatchedPackageIndex (ss_hUART s) =? index then Ok u
  else
    u1 ← upd_session sid (on_hUART (fun h => mkHUart (packageIndex h) index (streamSize h) (resetIO h))) u;
    '(ret, u2) ← DispatchToWorkThread (Some sid) (ztake packetSize data) u1;
    if ret =? RET_SUCCESS then Ok u2
    else
      s2 ← deref (sessions u2 !! sid);
      let next := u64 (packageIndex (ss_hUART s2) + 1) in
      u3 ← upd_session sid (on_hUART (fun h => mkHUart next (dispatchedPackageIndex h) (streamSize h) (resetIO h))) u2;
      ResponseUartTrans sid (u32 next) PKG_OPTION_FREE u3.

Definition Restartession (session : option Z) (u : Uart) : Uart :=
  match session with
  | Some sid => FreeSession sid (ClearUARTOutMap sid u)
  | None => u
  end.

(** Only the daemon restarts a session on request. *)
Definition ResetOldSession (sessionId : Z) (u : Uart) : res Uart :=
  if host then Ok u
  else
    let sid := if sessionId =? 0 then currentSessionId u else sessionId in
    match sessions u !! sid with
    | None => Ok u
    | Some _ =>
        u1 ← upd_session sid (on_hUART (fun h => mkHUart (packageIndex h) (dispatchedPackageIndex h) (streamSize h) true)) u;
        Ok (ClearUARTOutMap sid (FreeSession sid u1))
    end.

(** The result, [sessionId], [packageIndex] and [packetSize]. *)
Definition ValidateUartPacket (data : bytes) (u : Uart) : res (Z * (Z * Z * Z) * Uart) :=
  let head := UartHead_of data in
  if negb (bytes_eqb (uh_flag head) PACKET_FLAG) then Ok (ERR_BUF_CHECK, (0, 0, 0), u)
  else if negb (ValidateHead data) then Ok (ERR_BUF_CHECK, (0, 0, 0), u)
  else if MAX_UART_SIZE_IOBUF - sizeof_UartHead <? uh_dataSize head then Ok (ERR_BUF_OVERFLOW, (0, 0, 0), u)
  else
    let packetSize := uh_dataSize head + sizeof_UartHead in
    let out := (uh_sessionId head, uh_packageIndex head, packetSize) in
    if negb (Z.land (uh_option head) PKG_OPTION_RESET =? 0) then
      u1 ← ResetOldSession (uh_sessionId head) u; Ok (ERR_IO_SOFT_RESET, out, u1)
    else
      let u1 := if negb (Z.land (uh_option head) PKG_OPTION_FREE =? 0)
                then Restartession (GetSession host false (uh_sessionId head) u).1 u else u in
      if packetSize <=? zlen data then
        ok ← ValidateData data;
        if negb ok then Ok (ERR_BUF_CHECK, out, u1)
        else if IsResponsePackage head then Ok (RET_SUCCESS, out, ProcessResponsePackage head u1)
        else u2 ← ResponseUartTrans (uh_sessionId head) (uh_packageIndex head) PKG_OPTION_ACK u1; Ok (RET_SUCCESS, out, u2)
      else Ok (RET_SUCCESS, out, u1).

(** The expected size, the rest of the buffer and the state. *)
Fixpoint PackageProcess_loop (fuel : nat) (data : bytes) (hSession : option Z) (u : Uart) : res (Z * bytes * Uart) :=
  match fuel with
  | O => Stuck
  | S fuel =>
      if sizeof_UartHead <=? zlen data then
        '(ret, (sessionId, index, packetSize), u1) ← ValidateUartPacket data u;
        let erase (data : bytes) := if packetSize <=? zlen data then zdrop packetSize data else data in
        if negb (ret =? RET_SUCCESS) then PackageProcess_loop fuel (erase []) hSession u1
        else if packetSize =? sizeof_UartHead then PackageProcess_loop fuel (erase data) hSession u1
        else if packetSize <=? zlen data then
          let '(hSession, u2) := match hSession with
                                 | Some _ => (hSession, u1)
                                 | None => GetSession host (negb host) sessionId u1
                                 end in
          u3 ← match hSession with
               | None => Ok u2
               | Some sid => DispatchPackageData sid data packetSize index u2
               end;
          PackageProcess_loop fuel (erase data) hSession u3
        else Ok (packetSize, data, u1)
      else Ok (if 1 <? zlen data then sizeof_UartHead else 0, data, u)
  end.

Definition PackageProcess (data : bytes) (hSession : option Z) (u : Uart) : res (Z * bytes * Uart) :=
  PackageProcess_loop (S (length data)) data hSession u.

End Operations.
