(* ===== verification/UartProps.v ===== *)
(** * UartProps: packages, keys and the operations of the serial link

    What each operation of [Uart] does on the packages hdc itself builds: data
    packages and acknowledgements of one session.  [UartSystem] connects two sides
    with these lemmas. *)

From Stdlib Require Import String ZArith Lia List Bool.
From stdpp Require Import base list numbers option gmap.
From S2P Require Import Prelude Defs Strings Numbers Uart.

(** ** The head in memory *)

Definition head_ok (h : UartHead) : Prop :=
  uh_flag h = PACKET_FLAG /\ in_u 16 (uh_option h) /\ in_u 32 (uh_sessionId h) /\ in_u 32 (uh_dataSize h) /\
  in_u 32 (uh_packageIndex h) /\ in_u 32 (uh_dataCheckSum h) /\ in_u 32 (uh_headCheckSum h).

Lemma length_head h : uh_flag h = PACKET_FLAG -> zlen (UartHead_bytes h) = sizeof_UartHead.
Proof. intros H. unfold UartHead_bytes. rewrite !length_app, !length_le_split, H. reflexivity. Qed.

Lemma le_field n x : in_u (8 * Z.of_nat n) x -> le_combine (le_split n x) = x.
Proof. intros Hx. rewrite le_combine_split. apply Z.mod_small, Hx. Qed.

Lemma head_roundtrip h k : head_ok h -> UartHead_of (UartHead_bytes h ++ k) = h.
Proof.
  destruct h as [f o s d i ds hs]. unfold head_ok.
  cbn [uh_flag uh_option uh_sessionId uh_dataSize uh_packageIndex uh_dataCheckSum uh_headCheckSum].
  intros (-> & H1 & H2 & H3 & H4 & H5 & H6). change PACKET_FLAG with [72; 87]. unfold UartHead_of.
  f_equal; [exact (le_field 2 o H1)|exact (le_field 4 s H2)|exact (le_field 4 d H3)|exact (le_field 4 i H4)
    |exact (le_field 4 ds H5)|exact (le_field 4 hs H6)].
Qed.

Lemma accumulate_range l : in_u 32 (accumulate l).
Proof.
  unfold accumulate. assert (H : forall a, in_u 32 a -> in_u 32 (fold_left (fun acc x => u32 (acc + x)) l a)).
  { induction l as [|x l IH]; intros a Ha; cbn [fold_left]; [done|]. apply IH. by apply uwrap_range. }
  apply H. unfold in_u. lia.
Qed.

(** ** Complete packages *)

Definition data_sum (data : bytes) : Z := if zlen data =? 0 then 0 else accumulate data.

Definition plain_head (opt sid idx : Z) (data : bytes) : UartHead := mkUartHead PACKET_FLAG opt sid (zlen data) idx 0 0.

Definition full_head (opt sid idx : Z) (data : bytes) : UartHead :=
  let h := mkUartHead PACKET_FLAG opt sid (zlen data) idx (data_sum data) 0 in
  mkUartHead PACKET_FLAG opt sid (zlen data) idx (data_sum data) (accumulate (ztake headCheckSumLen (UartHead_bytes h))).

(** A package with its check sums. *)
Definition package (opt sid idx : Z) (data : bytes) : bytes := UartHead_bytes (full_head opt sid idx data) ++ data.

Definition pk_ok (opt sid idx : Z) (data : bytes) : Prop :=
  in_u 16 opt /\ in_u 32 sid /\ in_u 32 idx /\ zlen data <= packageDataMaxSize.

Lemma pk_ok_size opt sid idx data : pk_ok opt sid idx data -> in_u 32 (zlen data).
Proof. intros (_ & _ & _ & H). unfold packageDataMaxSize, MAX_UART_SIZE_IOBUF, sizeof_UartHead in H. unfold in_u. lia. Qed.

Lemma data_sum_range data : in_u 32 (data_sum data).
Proof. unfold data_sum. destruct (_ =? 0); [unfold in_u; lia|apply accumulate_range]. Qed.

Lemma zero_range : in_u 32 0.
Proof. unfold in_u. lia. Qed.

Lemma plain_head_ok opt sid idx data : pk_ok opt sid idx data -> head_ok (plain_head opt sid idx data).
Proof. intros H. pose proof (pk_ok_size _ _ _ _ H). destruct H as (? & ? & ? & _). unfold plain_head, head_ok. cbn [uh_flag uh_option uh_sessionId uh_dataSize uh_packageIndex uh_dataCheckSum uh_headCheckSum]. split_and!; done || apply zero_range. Qed.

Lemma full_head_ok opt sid idx data : pk_ok opt sid idx data -> head_ok (full_head opt sid idx data).
Proof.
  intros H. pose proof (pk_ok_size _ _ _ _ H). destruct H as (? & ? & ? & _). pose proof (data_sum_range data).
  unfold full_head, head_ok. cbn [uh_flag uh_option uh_sessionId uh_dataSize uh_packageIndex uh_dataCheckSum uh_headCheckSum].
  split_and!; [done..|apply accumulate_range].
Qed.

Lemma length_package opt sid idx data : zlen (package opt sid idx data) = sizeof_UartHead + zlen data.
Proof. unfold package. rewrite length_app. rewrite Nat2Z.inj_add, length_head by done. done. Qed.

Lemma head_of_package opt sid idx data k : pk_ok opt sid idx data ->
  UartHead_of (package opt sid idx data ++ k) = full_head opt sid idx data.
Proof. intros H. unfold package. rewrite <- app_assoc. by apply head_roundtrip, full_head_ok. Qed.

Lemma head_of_plain opt sid idx data k : pk_ok opt sid idx data ->
  UartHead_of (UartHead_bytes (plain_head opt sid idx data) ++ k) = plain_head opt sid idx data.
Proof. intros H. by apply head_roundtrip, plain_head_ok. Qed.

(** The first 20 bytes do not depend on the head's check sum. *)
Lemma head_prefix f o s d i ds hs hs' k : zlen f = 2 ->
  ztake headCheckSumLen (UartHead_bytes (mkUartHead f o s d i ds hs) ++ k) =
  ztake headCheckSumLen (UartHead_bytes (mkUartHead f o s d i ds hs')).
Proof.
  intros Hf. unfold UartHead_bytes. cbn [uh_flag uh_option uh_sessionId uh_dataSize uh_packageIndex uh_dataCheckSum uh_headCheckSum].
  set (p := f ++ le_split 2 o ++ le_split 4 s ++ le_split 4 d ++ le_split 4 i ++ le_split 4 ds).
  replace (f ++ le_split 2 o ++ le_split 4 s ++ le_split 4 d ++ le_split 4 i ++ le_split 4 ds ++ le_split 4 hs)
    with (p ++ le_split 4 hs) by (unfold p; by rewrite <- !app_assoc).
  replace (f ++ le_split 2 o ++ le_split 4 s ++ le_split 4 d ++ le_split 4 i ++ le_split 4 ds ++ le_split 4 hs')
    with (p ++ le_split 4 hs') by (unfold p; by rewrite <- !app_assoc).
  assert (Hp : zlen p = headCheckSumLen) by (unfold p, headCheckSumLen; rewrite !length_app, !length_le_split; lia).
  rewrite <- app_assoc, !ztake_app by done. done.
Qed.

Lemma package_data_app h data k : uh_flag h = PACKET_FLAG -> package_data (UartHead_bytes h ++ data ++ k) (zlen data) = Ok data.
Proof.
  intros Hf. unfold package_data. rewrite !length_app, !Nat2Z.inj_add, length_head by done.
  destruct (Z.ltb_spec (sizeof_UartHead + (zlen data + zlen k)) (sizeof_UartHead + zlen data)); [lia|].
  rewrite zdrop_app by by rewrite length_head. by rewrite ztake_app.
Qed.

Lemma zdrop_head h k : uh_flag h = PACKET_FLAG -> zdrop sizeof_UartHead (UartHead_bytes h ++ k) = k.
Proof. intros Hf. by rewrite zdrop_app by by rewrite length_head. Qed.

Lemma UpdateCheckSum_package opt sid idx data : pk_ok opt sid idx data ->
  UpdateCheckSum (UartHead_bytes (plain_head opt sid idx data) ++ data) = Ok (package opt sid idx data).
Proof.
  intros H. unfold UpdateCheckSum. rewrite head_of_plain by done. cbn [plain_head uh_dataSize].
  pose proof (package_data_app (plain_head opt sid idx data) data [] eq_refl) as Hd. rewrite app_nil_r in Hd.
  unfold package, full_head, data_sum. rewrite zdrop_head by done.
  destruct (zlen data =? 0) eqn:E; cbn [negb mbind res_bind]; [done|]. rewrite Hd. done.
Qed.

Lemma ValidateHead_package opt sid idx data k : pk_ok opt sid idx data -> ValidateHead (package opt sid idx data ++ k) = true.
Proof.
  intros H. unfold ValidateHead. rewrite head_of_package by done. apply Z.eqb_eq. unfold package, full_head.
  cbn [uh_headCheckSum]. rewrite <- app_assoc. by rewrite (head_prefix _ _ _ _ _ _ _ 0).
Qed.

Lemma ValidateData_package opt sid idx data k : pk_ok opt sid idx data -> ValidateData (package opt sid idx data ++ k) = Ok true.
Proof.
  intros H. unfold ValidateData. rewrite head_of_package by done. cbn [full_head uh_dataSize uh_dataCheckSum].
  unfold data_sum, package. destruct (zlen data =? 0) eqn:E; [done|]. rewrite <- app_assoc, package_data_app by done.
  cbn [mbind res_bind]. by rewrite Z.eqb_refl.
Qed.

(** ** Keys *)

Definition data_key (sid idx : Z) : bytes := str "Id:" ++ MaskSessionIdToString sid ++ str "pkgIdx:" ++ to_string idx.
Definition ack_key (sid idx : Z) : bytes := str "R-" ++ data_key sid idx.

Lemma to_string_inj a b : in_u 32 a -> in_u 32 b -> to_string a = to_string b -> a = b.
Proof.
  unfold in_u. intros Ha Hb He. pose proof (to_string_strtol a ltac:(unfold LONG_MAX; lia)) as H1.
  pose proof (to_string_strtol b ltac:(unfold LONG_MAX; lia)) as H2. rewrite He, H2 in H1. by injection H1.
Qed.

Lemma data_key_inj sid a b : in_u 32 a -> in_u 32 b -> data_key sid a = data_key sid b -> a = b.
Proof. intros Ha Hb He. apply to_string_inj; [done..|]. unfold data_key in He. by repeat apply app_inv_head in He. Qed.

Lemma ack_key_data_key sid a b : ack_key sid a <> data_key sid b.
Proof. unfold ack_key, data_key. intros H. discriminate H. Qed.

(** ** Entries of [outPkgs] *)

Definition ack_pkg (sid j : Z) : HandleOutputPkg :=
  mkPkg (ack_key sid j) sid true true PKG_WAIT_SEND (package PKG_OPTION_ACK sid j []) 4 0.
Definition data_pkg (sid i opt : Z) (d : bytes) (st : PkgStatus) (retry t : Z) : HandleOutputPkg :=
  mkPkg (data_key sid i) sid false false st (package opt sid i d) retry t.

(** The options of a data package. *)
Definition data_opt (opt : Z) : Prop := opt = 0 \/ opt = PKG_OPTION_TAIL.

Definition add_ack (sid j : Z) (u : Uart) : Uart :=
  Request (match List.find (key_is (ack_key sid j)) (outPkgs u) with
           | Some _ => u
           | None => set_outPkgs (outPkgs u ++ [ack_pkg sid j]) u
           end).

Lemma request_package opt sid idx data u : pk_ok opt sid idx data ->
  let response := IsResponsePackage (full_head opt sid idx data) in
  let key := ToPkgIdentityString (full_head opt sid idx data) response in
  RequestSendPackage_queued (UartHead_bytes (plain_head opt sid idx data) ++ data) u =
  Ok (Request (match List.find (key_is key) (outPkgs u) with
               | Some _ => u
               | None => set_outPkgs (outPkgs u ++ [HandleOutputPkg_new key sid (package opt sid idx data) response
                           (negb (Z.land opt PKG_OPTION_ACK =? 0))]) u
               end)).
Proof.
  intros H. cbn zeta. unfold RequestSendPackage_queued. rewrite head_of_plain by done.
  change (IsResponsePackage (plain_head opt sid idx data)) with (IsResponsePackage (full_head opt sid idx data)).
  change (ToPkgIdentityString (plain_head opt sid idx data)) with (ToPkgIdentityString (full_head opt sid idx data)).
  destruct (List.find _ _); [done|]. rewrite UpdateCheckSum_package by done. done.
Qed.

Lemma pk_ok_ack sid j : in_u 32 sid -> in_u 32 j -> pk_ok PKG_OPTION_ACK sid j [].
Proof. intros Hs Hj. split; [unfold in_u, PKG_OPTION_ACK; lia|]. split_and!; [done..|]. done. Qed.

Lemma ResponseUartTrans_ack sid j u : in_u 32 sid -> in_u 32 j -> ResponseUartTrans sid j PKG_OPTION_ACK u = Ok (add_ack sid j u).
Proof.
  intros Hs Hj. pose proof (request_package _ _ _ _ u (pk_ok_ack sid j Hs Hj)) as H. cbn zeta in H.
  rewrite app_nil_r in H. exact H.
Qed.

Lemma RequestSendPackage_data opt sid idx data u : pk_ok opt sid idx data -> data_opt opt ->
  List.find (key_is (data_key sid idx)) (outPkgs u) = None ->
  RequestSendPackage_queued (UartHead_bytes (plain_head opt sid idx data) ++ data) u =
  Ok (Request (set_outPkgs (outPkgs u ++ [data_pkg sid idx opt data PKG_WAIT_SEND 4 0]) u)).
Proof.
  intros H Ho Hf. rewrite request_package by done.
  replace (IsResponsePackage (full_head opt sid idx data)) with false by by destruct Ho as [->| ->].
  change (ToPkgIdentityString (full_head opt sid idx data) false) with (data_key sid idx). rewrite Hf.
  replace (Z.land opt PKG_OPTION_ACK =? 0) with true by by destruct Ho as [->| ->]. done.
Qed.

(** ** Input and output *)

Class UartEnvOk (e : UartEnv) : Prop := {
  select_ok : 0 < env_select e;
  send_ok : forall d, d <> [] -> 0 < env_send e d <= zlen d;
  write_ok : forall d, d <> [] -> 0 < env_write e d <= zlen d }.

Section Env.
Context (e : UartEnv) (host : bool) `{!UartEnvOk e}.

Lemma zdrop_nonnil {A} (l : list A) t : 0 <= t < zlen l -> zdrop t l <> [].
Proof. intros Ht H. pose proof (length_zdrop t l ltac:(lia)) as Hl. rewrite H in Hl. cbn in Hl. lia. Qed.

Lemma WriteUartDev_all data u : data <> [] -> WriteUartDev e data u = Ok (zlen data, set_line (line u ++ [data]) u).
Proof.
  intros Hd. unfold WriteUartDev. assert (H : forall fuel t, 0 <= t < zlen data -> zlen data - t < Z.of_nat fuel ->
    WriteUartDev_loop e fuel data t = Ok (zlen data, data)).
  { induction fuel as [|fuel IH]; intros t Ht Hf; [lia|]. cbn [WriteUartDev_loop].
    pose proof (write_ok (zdrop t data) (zdrop_nonnil _ _ Ht)) as Hw. rewrite length_zdrop in Hw by lia.
    destruct (Z.ltb_spec (env_write e (zdrop t data)) 0); [lia|].
    destruct (Z.ltb_spec (t + env_write e (zdrop t data)) (zlen data)); [apply IH; lia|].
    replace (t + env_write e (zdrop t data)) with (zlen data) by lia. by rewrite ztake_ge. }
  assert (0 < zlen data) by (destruct data; [done|cbn [length]; lia]). rewrite H by lia. done.
Qed.

Lemma UartToHdcProtocol_all data : UartToHdcProtocol e data = Ok (zlen data, data).
Proof.
  unfold UartToHdcProtocol. assert (H : forall fuel t, 0 <= t <= zlen data -> zlen data - t < Z.of_nat fuel ->
    UartToHdcProtocol_loop e fuel data t = Ok (zlen data)).
  { induction fuel as [|fuel IH]; intros t Ht Hf; [lia|]. cbn [UartToHdcProtocol_loop]. pose proof select_ok.
    destruct (Z.ltb_spec t (zlen data)); [|f_equal; lia]. destruct (Z.leb_spec (env_select e) 0); [lia|].
    pose proof (send_ok (zdrop t data) (zdrop_nonnil data t ltac:(lia))) as Hw. rewrite length_zdrop in Hw by lia.
    destruct (Z.ltb_spec (env_send e (zdrop t data)) 0); [lia|]. apply IH; lia. }
  rewrite H by lia. cbn [mbind res_bind]. rewrite Z.eqb_refl. cbn [negb]. by rewrite ztake_ge.
Qed.

Lemma package_nonnil opt sid idx data : package opt sid idx data <> [].
Proof. intros H. pose proof (length_package opt sid idx data) as Hl. rewrite H in Hl. unfold sizeof_UartHead in Hl. cbn in Hl. lia. Qed.

Lemma SendUARTRaw_package opt sid idx data u s : pk_ok opt sid idx data -> sessions u !! sid = Some s ->
  SendUARTRaw e host (package opt sid idx data) u = Ok (true, set_line (line u ++ [package opt sid idx data]) u).
Proof.
  intros H Hs. unfold SendUARTRaw. rewrite WriteUartDev_all by apply package_nonnil.
  pose proof (length_package opt sid idx data) as Hl. cbn [mbind res_bind].
  replace (0 <? zlen (package opt sid idx data)) with true by (symmetry; apply Z.ltb_lt; rewrite Hl; unfold sizeof_UartHead; lia).
  destruct (negb host && _); [done|]. pose proof (head_of_package opt sid idx data [] H) as Hh. rewrite app_nil_r in Hh. rewrite Hh.
  unfold GetSession. cbn [full_head uh_sessionId]. rewrite Hs.
  by destruct (Z.ltb_spec (zlen (package opt sid idx data)) 0); [lia|].
Qed.

(** ** Receiving one package *)

Definition deliver (idx : Z) (data : bytes) (s : USession) : USession :=
  let h := ss_hUART s in
  if dispatchedPackageIndex h =? idx then s
  else mkUSession (ss_serverOrDaemon s) (mkHUart (packageIndex h) idx (u64 (streamSize h + zlen data)) (resetIO h)) (ss_stream s ++ data).

Definition recv_data (sid idx : Z) (data : bytes) (s : USession) (u : Uart) : Uart :=
  set_sessions (<[sid := deliver idx data s]> (sessions u)) (add_ack sid idx u).

Lemma add_ack_sessions sid j u : sessions (add_ack sid j u) = sessions u.
Proof. unfold add_ack. by destruct (List.find _ _). Qed.

Lemma set_sessions_same u : set_sessions (sessions u) u = u.
Proof. by destruct u. Qed.

Lemma DispatchPackageData_data opt sid idx data k s u : pk_ok opt sid idx data -> sessions u !! sid = Some s ->
  DispatchPackageData e host sid (package opt sid idx data ++ k) (zlen data + sizeof_UartHead) idx u =
  Ok (set_sessions (<[sid := deliver idx data s]> (sessions u)) u).
Proof.
  intros H Hs. unfold DispatchPackageData, deliver. rewrite Hs. cbn [deref mbind res_bind].
  destruct (dispatchedPackageIndex (ss_hUART s) =? idx) eqn:E; [by rewrite insert_id, set_sessions_same|].
  unfold upd_session. rewrite Hs. cbn [deref mbind res_bind]. unfold DispatchToWorkThread, UartSendToHdcStream.
  rewrite ztake_app by (rewrite length_package; lia). rewrite length_package.
  destruct (Z.ltb_spec (sizeof_UartHead + zlen data) sizeof_UartHead); [lia|].
  cbn [set_sessions sessions]. rewrite lookup_insert_eq. cbn [deref mbind res_bind].
  pose proof (head_of_package opt sid idx data [] H) as Hh. rewrite app_nil_r in Hh. rewrite Hh.
  cbn [full_head uh_sessionId uh_dataSize]. rewrite Z.eqb_refl. cbn [negb].
  destruct (Z.ltb_spec (sizeof_UartHead + zlen data - sizeof_UartHead) (zlen data)); [lia|].
  unfold package. rewrite zdrop_head by done. rewrite ztake_ge by lia. rewrite UartToHdcProtocol_all. cbn [mbind res_bind].
  unfold upd_session. cbn [set_sessions sessions]. rewrite ?lookup_insert_eq. cbn [deref mbind res_bind].
  destruct (Z.ltb_spec (zlen data) 0); [lia|]. cbn. by rewrite insert_insert_eq.
Qed.

Lemma full_head_options opt sid idx data : data_opt opt ->
  Z.land opt PKG_OPTION_RESET = 0 /\ Z.land opt PKG_OPTION_FREE = 0 /\ IsResponsePackage (full_head opt sid idx data) = false.
Proof. intros [->| ->]; done. Qed.

Lemma ValidateUartPacket_package opt sid idx data k u : pk_ok opt sid idx data ->
  Z.land opt PKG_OPTION_RESET = 0 -> Z.land opt PKG_OPTION_FREE = 0 ->
  ValidateUartPacket host (package opt sid idx data ++ k) u =
  (u2 ← (if IsResponsePackage (full_head opt sid idx data) then Ok (ProcessResponsePackage (full_head opt sid idx data) u)
         else ResponseUartTrans sid idx PKG_OPTION_ACK u);
   Ok (RET_SUCCESS, (sid, idx, zlen data + sizeof_UartHead), u2)).
Proof.
  intros H Hr Hf. unfold ValidateUartPacket. rewrite head_of_package by done. rewrite ValidateHead_package by done.
  cbn [full_head uh_flag uh_dataSize uh_option uh_sessionId uh_packageIndex]. rewrite Hr, Hf. cbn [negb Z.eqb].
  replace (bytes_eqb PACKET_FLAG PACKET_FLAG) with true by done. cbn [negb].
  destruct (Z.ltb_spec (MAX_UART_SIZE_IOBUF - sizeof_UartHead) (zlen data)); [destruct H as (_ & _ & _ & ?); unfold packageDataMaxSize in *; lia|].
  rewrite length_app, Nat2Z.inj_add, length_package.
  destruct (Z.leb_spec (zlen data + sizeof_UartHead) (sizeof_UartHead + zlen data + zlen k)); [|lia].
  rewrite ValidateData_package by done. cbn [mbind res_bind negb]. destruct (IsResponsePackage _); done.
Qed.

Lemma process_ack fuel sid j k hS u : in_u 32 sid -> in_u 32 j ->
  PackageProcess_loop e host (S fuel) (package PKG_OPTION_ACK sid j [] ++ k) hS u =
  PackageProcess_loop e host fuel k hS (ProcessResponsePackage (full_head PKG_OPTION_ACK sid j []) u).
Proof.
  intros Hs Hj. cbn [PackageProcess_loop]. rewrite ValidateUartPacket_package by first [by apply pk_ok_ack|done].
  rewrite length_app, Nat2Z.inj_add, length_package. cbn [length]. destruct (Z.leb_spec sizeof_UartHead (sizeof_UartHead + Z.of_nat 0 + zlen k)); [|lia].
  change (IsResponsePackage _) with true. cbn [mbind res_bind]. change (RET_SUCCESS =? RET_SUCCESS) with true. cbn [negb].
  change (Z.of_nat 0 + sizeof_UartHead =? sizeof_UartHead) with true. cbn match.
  destruct (Z.leb_spec (Z.of_nat 0 + sizeof_UartHead) (sizeof_UartHead + Z.of_nat 0 + zlen k)); [|lia].
  rewrite zdrop_app by (rewrite length_package; cbn; lia). done.
Qed.

Lemma process_data fuel opt sid idx data k hS s u : pk_ok opt sid idx data -> data_opt opt -> data <> [] ->
  sessions u !! sid = Some s -> hS = None \/ hS = Some sid ->
  PackageProcess_loop e host (S fuel) (package opt sid idx data ++ k) hS u =
  PackageProcess_loop e host fuel k (Some sid) (recv_data sid idx data s u).
Proof.
  intros H Ho Hd Hs HS. destruct (full_head_options opt sid idx data Ho) as (Hr & Hf & Hi). pose proof H as (_ & Hsid & Hidx & _).
  assert (0 < zlen data) by (destruct data; [done|cbn [length]; lia]).
  cbn [PackageProcess_loop]. rewrite ValidateUartPacket_package by done. rewrite Hi, ResponseUartTrans_ack by done.
  rewrite !length_app, !Nat2Z.inj_add, !length_package. destruct (Z.leb_spec sizeof_UartHead (sizeof_UartHead + zlen data + zlen k)); [|lia].
  cbn [mbind res_bind]. change (RET_SUCCESS =? RET_SUCCESS) with true. cbn [negb].
  destruct (Z.eqb_spec (zlen data + sizeof_UartHead) sizeof_UartHead); [lia|].
  destruct (Z.leb_spec (zlen data + sizeof_UartHead) (sizeof_UartHead + zlen data + zlen k)); [|lia].
  assert (Hs' : sessions (add_ack sid idx u) !! sid = Some s) by by rewrite add_ack_sessions.
  replace (match hS with Some _ => (hS, add_ack sid idx u) | None => GetSession host (negb host) sid (add_ack sid idx u) end)
    with (Some sid, add_ack sid idx u) by (destruct HS as [->| ->]; [unfold GetSession; by rewrite Hs'|done]).
  rewrite (DispatchPackageData_data _ _ _ _ _ s) by done. cbn [mbind res_bind]. rewrite add_ack_sessions.
  rewrite zdrop_app by (rewrite length_package; lia). done.
Qed.

(** ** One pass of the writer *)

Lemma SendPkg_loop_irrel now b a w x u : SendPkg_loop e host now b a w (set_outPkgs x u) = SendPkg_loop e host now b a w u.
Proof.
  revert b w. induction a as [|it rest IH]; intros b w; cbn [SendPkg_loop]; [done|].
  destruct (p_pkgStatus it); [destruct (negb _ && _); [apply IH|done]|].
  destruct (_ <=? _); [|apply IH]. destruct (0 <? _); [done|]. unfold GetSession. cbn [set_outPkgs sessions].
  by destruct (sessions u !! p_sessionId it); destruct host.
Qed.

Definition ack_bytes (sid : Z) (js : list Z) : list bytes := map (fun j => package PKG_OPTION_ACK sid j []) js.

Lemma SendPkg_acks now b sid js rest w s u : in_u 32 sid -> sessions u !! sid = Some s -> Forall (in_u 32) js ->
  SendPkg_loop e host now b (map (ack_pkg sid) js ++ rest) w u =
  SendPkg_loop e host now b rest w (set_line (line u ++ ack_bytes sid js) u).
Proof.
  intros Hsid. revert u. induction js as [|j js IH]; intros u Hs Hj; cbn [map app].
  - rewrite app_nil_r. by destruct u.
  - apply List.Forall_cons_iff in Hj as [Hj Hjs]. cbn [SendPkg_loop ack_pkg p_pkgStatus p_response negb andb p_msgSendBuf].
    rewrite (SendUARTRaw_package _ _ _ _ _ s) by first [by apply pk_ok_ack|done]. cbn [mbind res_bind negb].
    rewrite IH by done. cbn [set_line set_outPkgs line]. rewrite <- app_assoc. cbn [app].
    apply (SendPkg_loop_irrel now b rest w _ (set_line (line u ++ ack_bytes sid (j :: js)) u)).
Qed.

Lemma pass_acks now sid js s u : in_u 32 sid -> sessions u !! sid = Some s -> Forall (in_u 32) js ->
  outPkgs u = map (ack_pkg sid) js ->
  SendPkgInUARTOutMap e host now u = Ok (set_outPkgs [] (set_line (line u ++ ack_bytes sid js) u)).
Proof.
  intros Hsid Hs Hj Ho. unfold SendPkgInUARTOutMap. rewrite Ho. pose proof (SendPkg_acks now [] sid js [] [] s u Hsid Hs Hj) as H.
  rewrite app_nil_r in H. exact H.
Qed.

Lemma pass_send now sid js1 js2 i opt d r t s u : in_u 32 sid -> sessions u !! sid = Some s -> Forall (in_u 32) js1 -> Forall (in_u 32) js2 ->
  pk_ok opt sid i d -> outPkgs u = map (ack_pkg sid) js1 ++ data_pkg sid i opt d PKG_WAIT_SEND r t :: map (ack_pkg sid) js2 ->
  SendPkgInUARTOutMap e host now u =
  Ok (set_outPkgs [data_pkg sid i opt d PKG_WAIT_RESPONSE r now]
        (set_line (line u ++ ack_bytes sid js1 ++ package opt sid i d :: ack_bytes sid js2) (Sent now u))).
Proof.
  intros Hsid Hs H1 H2 Hp Ho. unfold SendPkgInUARTOutMap. rewrite Ho, (SendPkg_acks _ _ _ _ _ _ s) by done.
  cbn [SendPkg_loop data_pkg p_pkgStatus p_response p_sessionId existsb negb andb p_msgSendBuf].
  rewrite (SendUARTRaw_package _ _ _ _ _ s) by done. cbn [mbind res_bind negb].
  pose proof (SendPkg_acks now ([] ++ [set_sent now (data_pkg sid i opt d PKG_WAIT_SEND r t)]) sid js2 [] [sid] s) as Ha.
  rewrite app_nil_r in Ha. rewrite Ha by done. cbn. by rewrite <- !app_assoc.
Qed.

Definition elapsed (now t : Z) : bool := WAIT_RESPONSE_TIME_OUT_MS <=? Z.quot (now - t) ms.

Lemma pass_wait now sid js1 js2 i opt d r t s u : in_u 32 sid -> sessions u !! sid = Some s -> Forall (in_u 32) js1 -> Forall (in_u 32) js2 ->
  outPkgs u = map (ack_pkg sid) js1 ++ data_pkg sid i opt d PKG_WAIT_RESPONSE r t :: map (ack_pkg sid) js2 -> elapsed now t = false ->
  SendPkgInUARTOutMap e host now u =
  Ok (set_outPkgs [data_pkg sid i opt d PKG_WAIT_RESPONSE r t] (set_line (line u ++ ack_bytes sid js1 ++ ack_bytes sid js2) u)).
Proof.
  intros Hsid Hs H1 H2 Ho He. unfold SendPkgInUARTOutMap. rewrite Ho, (SendPkg_acks _ _ _ _ _ _ s) by done.
  unfold elapsed in He. cbn [SendPkg_loop data_pkg p_pkgStatus p_sendTimePoint]. rewrite He.
  pose proof (SendPkg_acks now ([] ++ [data_pkg sid i opt d PKG_WAIT_RESPONSE r t]) sid js2 [] [sid] s) as Ha.
  rewrite app_nil_r in Ha. rewrite Ha by done. cbn. by rewrite <- !app_assoc.
Qed.

Lemma pass_timeout now sid js1 js2 i opt d r t s u : in_u 32 sid -> sessions u !! sid = Some s -> Forall (in_u 32) js1 ->
  outPkgs u = map (ack_pkg sid) js1 ++ data_pkg sid i opt d PKG_WAIT_RESPONSE r t :: map (ack_pkg sid) js2 -> elapsed now t = true ->
  if 0 <? r then
    SendPkgInUARTOutMap e host now u =
    Ok (Request (set_outPkgs (data_pkg sid i opt d PKG_WAIT_SEND (r - 1) t :: map (ack_pkg sid) js2) (set_line (line u ++ ack_bytes sid js1) u)))
  else exists u', SendPkgInUARTOutMap e host now u = Ok u' /\ freed u' <> [].
Proof.
  intros Hsid Hs H1 Ho He. unfold SendPkgInUARTOutMap. rewrite Ho, (SendPkg_acks _ _ _ _ _ _ s) by done.
  unfold elapsed in He. cbn [SendPkg_loop data_pkg p_pkgStatus p_sendTimePoint p_retryChance p_sessionId]. rewrite He.
  destruct (0 <? r); [done|]. eexists. split; [reflexivity|]. unfold GetSession. cbn [set_line sessions]. rewrite Hs. cbn [fst OnTransferErrorRaw].
  unfold ClearUARTOutMapRaw. destruct (existsb _ _); cbn; by destruct (freed u).
Qed.

End Env.
