(* ===== verification/UartSystem.v ===== *)
(** * UartSystem: two sides of a serial line

    The link layer of [Uart] on both ends of a line that loses packages.  An
    abstract stop-and-wait protocol ([ASide]) says what the two sides do in terms of
    package indices; [Rep] relates it to the states of the code, every operation of
    the code is shown to implement its abstract counterpart, and the theorem about
    delivery is proved on the abstract side. *)

From Stdlib Require Import String ZArith Lia List Bool.
From stdpp Require Import base list numbers option gmap relations.
From S2P Require Import Prelude Defs Strings Numbers Uart UartProps.

(** ** The data of a side, cut into packages *)

(** The option and the data of a package. *)
Abbreviation piece := (Z * bytes)%type.

Fixpoint pieces_fuel (fuel : nat) (data : bytes) : list piece :=
  match fuel with
  | O => []
  | S fuel =>
      if packageDataMaxSize <? zlen data
      then (0, ztake packageDataMaxSize data) :: pieces_fuel fuel (zdrop packageDataMaxSize data)
      else [(PKG_OPTION_TAIL, data)]
  end.
Definition pieces (data : bytes) : list piece := pieces_fuel (S (length data)) data.

Lemma zdrop_max_shorter (data : bytes) : packageDataMaxSize < zlen data ->
  (length (zdrop packageDataMaxSize data) < length data)%nat.
Proof. unfold packageDataMaxSize, MAX_UART_SIZE_IOBUF, sizeof_UartHead, zdrop. intros H. rewrite length_drop. lia. Qed.

Lemma pieces_fuel_irrel f f' data : (length data < f)%nat -> (length data < f')%nat -> pieces_fuel f data = pieces_fuel f' data.
Proof.
  revert f' data. induction f as [|f IH]; intros f' data Hf Hf'; [lia|]. destruct f' as [|f']; [lia|]. cbn [pieces_fuel].
  destruct (Z.ltb_spec packageDataMaxSize (zlen data)) as [Hl|]; [|done]. pose proof (zdrop_max_shorter data Hl). f_equal. apply IH; lia.
Qed.

Lemma pieces_unfold data : pieces data =
  if packageDataMaxSize <? zlen data then (0, ztake packageDataMaxSize data) :: pieces (zdrop packageDataMaxSize data)
  else [(PKG_OPTION_TAIL, data)].
Proof.
  unfold pieces at 1. cbn [pieces_fuel]. destruct (Z.ltb_spec packageDataMaxSize (zlen data)) as [Hl|]; [|done].
  pose proof (zdrop_max_shorter data Hl). f_equal. apply pieces_fuel_irrel; lia.
Qed.

Definition piece_ok (p : piece) : Prop := data_opt p.1 /\ p.2 <> [] /\ zlen p.2 <= packageDataMaxSize.

Lemma pieces_ind (Q : bytes -> Prop) :
  (forall d, (packageDataMaxSize < zlen d -> Q (zdrop packageDataMaxSize d)) -> Q d) -> forall d, Q d.
Proof.
  intros H d. remember (length d) as n eqn:Hn. revert d Hn. induction (lt_wf n) as [n _ IH]. intros d ->. apply H. intros Hl.
  exact (IH _ (zdrop_max_shorter d Hl) _ eq_refl).
Qed.

Lemma pieces_ok data : data <> [] -> Forall piece_ok (pieces data).
Proof.
  revert data. refine (pieces_ind _ _). intros d IH Hd. rewrite pieces_unfold.
  destruct (Z.ltb_spec packageDataMaxSize (zlen d)) as [Hl|Hl].
  - pose proof (length_ztake packageDataMaxSize d ltac:(split; [done|lia])) as Ht. constructor.
    + split; [by left|]. cbn [fst snd]. split; [|lia]. intros He. rewrite He in Ht. discriminate Ht.
    + apply IH; [done|]. by apply zdrop_nonnil.
  - constructor; [|constructor]. unfold piece_ok. cbn [fst snd]. split_and!; [by right|done|done].
Qed.

Lemma pieces_concat data : concat (map snd (pieces data)) = data.
Proof.
  revert data. refine (pieces_ind _ _). intros d IH. rewrite pieces_unfold.
  destruct (Z.ltb_spec packageDataMaxSize (zlen d)) as [Hl|Hl]; cbn [map concat snd]; [by rewrite IH, ztake_zdrop|apply app_nil_r].
Qed.

(** ** The abstract protocol *)

Inductive item := Data (i : nat) | Ack (j : nat).

Record ASide := mkASide {
  a_q1 : list nat;                        (** acknowledgements queued before the data package *)
  a_dp : option (PkgStatus * Z * Z);      (** the data package not acknowledged yet, its index is [a_n] *)
  a_q2 : list nat;                        (** acknowledgements queued behind it *)
  a_line : list item;                     (** packages on the line to the other side *)
  a_n : nat;                              (** packages requested *)
  a_d : nat;                              (** packages delivered to the session here *)
  a_req : bool; a_tp : Z; a_tmo : bool }. (** the writer's wake-up *)

Definition a_request (a : ASide) : ASide :=
  mkASide (a_q1 a ++ a_q2 a) (Some (PKG_WAIT_SEND, 4, 0)) [] (a_line a) (S (a_n a)) (a_d a) true (a_tp a) (a_tmo a).

Definition deadline (now : Z) : Z := now + (WAIT_RESPONSE_TIME_OUT_MS + OneMoreMs) * ms.

Definition a_wait (start now : Z) (a : ASide) : option ASide :=
  let woken tmo := mkASide (a_q1 a) (a_dp a) (a_q2 a) (a_line a) (a_n a) (a_d a) false (a_tp a) tmo in
  if a_tmo a then
    if a_req a then Some (woken true)
    else if start + Z.quot (a_tp a - start) ms * ms <=? now then Some (woken false) else None
  else if a_req a then Some (woken false) else None.

Definition a_pass (now : Z) (a : ASide) : ASide :=
  let line l := a_line a ++ l in
  match a_dp a with
  | None => mkASide [] None [] (line (map Ack (a_q1 a ++ a_q2 a))) (a_n a) (a_d a) (a_req a) (a_tp a) (a_tmo a)
  | Some (PKG_WAIT_SEND, r, _) =>
      mkASide [] (Some (PKG_WAIT_RESPONSE, r, now)) [] (line (map Ack (a_q1 a) ++ Data (a_n a) :: map Ack (a_q2 a)))
        (a_n a) (a_d a) (a_req a) (deadline now) true
  | Some (PKG_WAIT_RESPONSE, r, t) =>
      if elapsed now t then
        mkASide [] (Some (PKG_WAIT_SEND, r - 1, t)) (a_q2 a) (line (map Ack (a_q1 a))) (a_n a) (a_d a) true (a_tp a) (a_tmo a)
      else mkASide [] (a_dp a) [] (line (map Ack (a_q1 a) ++ map Ack (a_q2 a))) (a_n a) (a_d a) (a_req a) (a_tp a) (a_tmo a)
  end.

(** The pass gives the session up. *)
Definition a_gives_up (now : Z) (a : ASide) : bool :=
  match a_dp a with
  | Some (PKG_WAIT_RESPONSE, r, t) => elapsed now t && negb (0 <? r)
  | _ => false
  end.

Definition a_recv (it : item) (a : ASide) : ASide :=
  match it with
  | Data i =>
      let q2 := if existsb (Nat.eqb i) (a_q1 a ++ a_q2 a) then a_q2 a else a_q2 a ++ [i] in
      mkASide (a_q1 a) (a_dp a) q2 (a_line a) (a_n a) i true (a_tp a) (a_tmo a)
  | Ack j =>
      match a_dp a with
      | Some _ =>
          if Nat.eqb j (a_n a) then mkASide (a_q1 a ++ a_q2 a) None [] (a_line a) (a_n a) (a_d a) true (a_tp a) (a_tmo a)
          else mkASide (a_q1 a) (a_dp a) (a_q2 a) (a_line a) (a_n a) (a_d a) true (a_tp a) (a_tmo a)
      | None => mkASide (a_q1 a) None (a_q2 a) (a_line a) (a_n a) (a_d a) true (a_tp a) (a_tmo a)
      end
  end.

Definition a_set_line (l : list item) (a : ASide) : ASide :=
  mkASide (a_q1 a) (a_dp a) (a_q2 a) l (a_n a) (a_d a) (a_req a) (a_tp a) (a_tmo a).

(** ** The system *)

(** A side: its [HdcUARTBase] and the calls of [SendUARTData] still to be made, the
    first one having sent [sd_off] bytes. *)
Record Side := mkSide { sd_u : Uart; sd_msgs : list bytes; sd_off : Z }.

Definition set_u (u : Uart) (X : Side) : Side := mkSide u (sd_msgs X) (sd_off X).

Definition alive (X : Side) : Prop := freed (sd_u X) = [].

(** The reader of the host knows its session, the daemon's looks it up. *)
Definition reader_session (host : bool) (sid : Z) : option Z := if host then Some sid else None.

(** The steps in which side [X] sends or its packages arrive at [Y]. *)
Inductive half (sid : Z) (eX : UartEnv) (hX : bool) (eY : UartEnv) (hY : bool) : Side * Side -> Side * Side -> Prop :=
| H_request X Y d ds off u :
    sd_msgs X = d :: ds -> SendUARTData_step sid d (sd_off X) (sd_u X) = Some (Ok (SendNext off u)) ->
    half sid eX hX eY hY (X, Y) (if off =? zlen d then mkSide u ds 0 else mkSide u (d :: ds) off, Y)
| H_write X Y start now u :
    start <= now -> UartWriteRound eX hX start now (sd_u X) = Some (Ok u) -> half sid eX hX eY hY (X, Y) (set_u u X, Y)
| H_read X Y n size u :
    (0 < n <= length (line (sd_u X)))%nat ->
    PackageProcess eY hY (concat (take n (line (sd_u X)))) (reader_session hY sid) (sd_u Y) = Ok (size, [], u) ->
    half sid eX hX eY hY (X, Y) (set_u (set_line (drop n (line (sd_u X))) (sd_u X)) X, set_u u Y)
| H_lose X Y l1 p l2 :
    line (sd_u X) = l1 ++ p :: l2 -> half sid eX hX eY hY (X, Y) (set_u (set_line (l1 ++ l2) (sd_u X)) X, Y).

(** A run of the host [A] and the daemon [B] ends when one of them gives the session up. *)
Inductive step (sid : Z) (eA eB : UartEnv) : Side * Side -> Side * Side -> Prop :=
| S_host A B A' B' : alive A -> alive B -> half sid eA true eB false (A, B) (A', B') -> step sid eA eB (A, B) (A', B')
| S_daemon A B A' B' : alive A -> alive B -> half sid eB false eA true (B, A) (B', A') -> step sid eA eB (A, B) (A', B').

(** A side with a fresh session. *)
Definition start_side (sid : Z) (serverOrDaemon : bool) (msgs : list bytes) : Side :=
  mkSide (mkUart [] ∅ (mkFsm false 0 false) {[sid := mkUSession serverOrDaemon (mkHUart 0 0 0 false) []]} 0 [] []) msgs 0.

Definition stream (sid : Z) (X : Side) : bytes :=
  match sessions (sd_u X) !! sid with Some s => ss_stream s | None => [] end.

(** ** Representation *)

Definition nth_piece (P : list piece) (i : nat) : piece := nth (Nat.pred i) P (0, []).

Definition item_bytes (sid : Z) (P : list piece) (it : item) : bytes :=
  match it with
  | Data i => package (nth_piece P i).1 sid (Z.of_nat i) (nth_piece P i).2
  | Ack j => package PKG_OPTION_ACK sid (Z.of_nat j) []
  end.

Definition acks (sid : Z) (q : list nat) : list HandleOutputPkg := map (ack_pkg sid) (map Z.of_nat q).

Definition dp_list (sid : Z) (P : list piece) (a : ASide) : list HandleOutputPkg :=
  match a_dp a with
  | Some (st, r, t) => [data_pkg sid (Z.of_nat (a_n a)) (nth_piece P (a_n a)).1 (nth_piece P (a_n a)).2 st r t]
  | None => []
  end.

Definition rest_pieces (msgs : list bytes) (off : Z) : list piece :=
  match msgs with
  | [] => []
  | d :: ds => pieces (zdrop off d) ++ concat (map pieces ds)
  end.

Definition off_ok (msgs : list bytes) (off : Z) : Prop :=
  match msgs with [] => True | d :: _ => 0 <= off < zlen d end.

(** Side [X] sends the pieces [P] and receives the pieces [Q]. *)
Record Rep (sid : Z) (P Q : list piece) (a : ASide) (X : Side) : Prop := {
  r_out : outPkgs (sd_u X) = acks sid (a_q1 a) ++ dp_list sid P a ++ acks sid (a_q2 a);
  r_wait : sid ∈ hasWaitPkg (sd_u X) <-> a_dp a <> None;
  r_fsm : transfer (sd_u X) = mkFsm (a_req a) (a_tp a) (a_tmo a);
  r_sess : exists s, sessions (sd_u X) !! sid = Some s /\ packageIndex (ss_hUART s) = Z.of_nat (a_n a) /\
    dispatchedPackageIndex (ss_hUART s) = Z.of_nat (a_d a) /\ ss_stream s = concat (map snd (take (a_d a) Q));
  r_line : line (sd_u X) = map (item_bytes sid P) (a_line a);
  r_freed : alive X;
  r_rest : rest_pieces (sd_msgs X) (sd_off X) = drop (a_n a) P;
  r_msgs : Forall (fun m => m <> [] /\ zlen m < 2 ^ 31) (sd_msgs X) /\ off_ok (sd_msgs X) (sd_off X) }.

(** What makes indices and packages fit their fields. *)
Record Sizes (sid : Z) (P : list piece) : Prop := {
  z_sid : in_u 32 sid;
  z_pieces : Forall piece_ok P;
  z_count : Z.of_nat (length P) < 2 ^ 32 }.

Record AWf (N M : nat) (a : ASide) : Prop := {
  w_n : (a_n a <= N)%nat;
  w_dp : a_dp a <> None -> (1 <= a_n a)%nat;
  w_acks : Forall (fun j => (1 <= j <= M)%nat) (a_q1 a ++ a_q2 a);
  w_line : Forall (fun it => match it with Data i => (1 <= i <= N)%nat | Ack j => (1 <= j <= M)%nat end) (a_line a);
  w_d : (a_d a <= M)%nat }.

(** ** The code implements the protocol *)

Lemma nth_piece_ok sid P i : Sizes sid P -> (1 <= i <= length P)%nat ->
  piece_ok (nth_piece P i) /\ pk_ok (nth_piece P i).1 sid (Z.of_nat i) (nth_piece P i).2.
Proof.
  intros [Hs Hp Hc] Hi. assert (Hn : piece_ok (nth_piece P i)).
  { rewrite List.Forall_forall in Hp. apply Hp, nth_In. lia. }
  split; [done|]. destruct Hn as (Ho & _ & Hl). split; [destruct Ho as [->| ->]; unfold in_u, PKG_OPTION_TAIL; lia|].
  split; [done|]. split; [unfold in_u; lia|done].
Qed.

Lemma index_ok sid P i : Sizes sid P -> (i <= length P)%nat -> in_u 32 (Z.of_nat i).
Proof. intros [_ _ Hc] Hi. unfold in_u. lia. Qed.

Lemma indices_ok sid P q : Sizes sid P -> Forall (fun j => (1 <= j <= length P)%nat) q -> Forall (in_u 32) (map Z.of_nat q).
Proof. intros Hz Hq. apply List.Forall_map. eapply List.Forall_impl; [|exact Hq]. cbn. intros j Hj. apply (index_ok sid P); [done|lia]. Qed.

Lemma drop_nth_piece P n p rest : drop n P = p :: rest -> (S n <= length P)%nat /\ nth_piece P (S n) = p /\ drop (S n) P = rest.
Proof.
  intros H. assert (Hl : (S n <= length P)%nat) by (apply (f_equal length) in H; rewrite length_drop in H; cbn in H; lia). split; [done|].
  unfold nth_piece. cbn [Nat.pred]. split.
  - rewrite <- (take_drop n P) at 1. rewrite app_nth2; rewrite length_take, Nat.min_l by lia; [|lia]. by rewrite Nat.sub_diag, H.
  - replace (S n) with (n + 1)%nat by lia. rewrite <- drop_drop, H. done.
Qed.

Lemma first_piece sid idx d off : 0 <= off < zlen d -> zlen d < 2 ^ 31 -> 0 <= idx < 2 ^ 32 ->
  exists opt data rest,
    pieces (zdrop off d) = (opt, data) :: rest /\
    SendUARTData_package sid idx d off = (UartHead_bytes (plain_head opt sid idx data) ++ data, zlen data) /\
    (if off + zlen data =? zlen d then rest = [] else rest = pieces (zdrop (off + zlen data) d) /\ off + zlen data < zlen d).
Proof.
  intros Ho Hl Hi. pose proof (length_zdrop off d ltac:(lia)) as Hr. unfold SendUARTData_package.
  assert (Hi32 : i32 (zlen d - off) = zlen d - off).
  { unfold swrap. rewrite Z.mod_small by lia. destruct (Z.ltb_spec (zlen d - off) (2 ^ (32 - 1))); lia. }
  rewrite Hi32, (uwrap_small 32 idx) by done. rewrite pieces_unfold, Hr.
  destruct (Z.ltb_spec packageDataMaxSize (zlen d - off)) as [Hm|Hm]; cbn [negb].
  - exists 0, (ztake packageDataMaxSize (zdrop off d)), (pieces (zdrop packageDataMaxSize (zdrop off d))).
    assert (Ht : zlen (ztake packageDataMaxSize (zdrop off d)) = packageDataMaxSize) by (apply length_ztake; rewrite Hr; unfold packageDataMaxSize, MAX_UART_SIZE_IOBUF, sizeof_UartHead in *; lia).
    rewrite (uwrap_small 16 packageDataMaxSize) by (unfold in_u, packageDataMaxSize, MAX_UART_SIZE_IOBUF, sizeof_UartHead; lia).
    split; [done|]. split; [by unfold plain_head; rewrite Ht|]. rewrite Ht. destruct (Z.eqb_spec (off + packageDataMaxSize) (zlen d)); [lia|].
    split; [|lia]. unfold zdrop. rewrite drop_drop. f_equal. f_equal. unfold packageDataMaxSize, MAX_UART_SIZE_IOBUF, sizeof_UartHead. lia.
  - exists PKG_OPTION_TAIL, (zdrop off d), []. split; [done|]. rewrite uwrap_small by (unfold in_u, packageDataMaxSize, MAX_UART_SIZE_IOBUF, sizeof_UartHead in *; lia).
    rewrite ztake_ge by lia. rewrite Hr. split; [by unfold plain_head; rewrite Hr|]. by rewrite (proj2 (Z.eqb_eq (off + (zlen d - off)) (zlen d)) ltac:(lia)).
Qed.

Lemma find_acks_data sid q i : List.find (key_is (data_key sid i)) (acks sid q) = None.
Proof.
  unfold acks. induction q as [|j q IH]; cbn [map List.find]; [done|]. unfold key_is at 1, bytes_eqb. cbn [ack_pkg p_key].
  rewrite bool_decide_false; [done|]. intros H. by apply (ack_key_data_key sid (Z.of_nat j) i).
Qed.

Lemma find_app_none {A} (f : A -> bool) l k : List.find f l = None -> List.find f (l ++ k) = List.find f k.
Proof. induction l as [|x l IH]; cbn [app List.find]; [done|]. by destruct (f x). Qed.

Section Simulation.
Context (sid : Z) (P Q : list piece) (ZP : Sizes sid P) (ZQ : Sizes sid Q).

Lemma sim_request a X d ds : Rep sid P Q a X -> AWf (length P) (length Q) a -> sd_msgs X = d :: ds ->
  match a_dp a with
  | Some _ => SendUARTData_step sid d (sd_off X) (sd_u X) = None
  | None => (S (a_n a) <= length P)%nat /\ exists off u,
      SendUARTData_step sid d (sd_off X) (sd_u X) = Some (Ok (SendNext off u)) /\
      Rep sid P Q (a_request a) (if off =? zlen d then mkSide u ds 0 else mkSide u (d :: ds) off)
  end.
Proof.
  intros [Ho Hw Hf (s & Hs & Hn & Hd & Hst) Hl Hfr Hr [Hm Hoff]] Wf Hmsg. rewrite Hmsg in *. cbn [off_ok rest_pieces] in *.
  apply List.Forall_cons_iff in Hm as [[Hd0 Hd1] Hds].
  pose proof (z_count _ _ ZP) as Hc. pose proof (w_n _ _ _ Wf) as Hn1.
  destruct (first_piece sid (Z.of_nat (a_n a) + 1) d (sd_off X)) as (opt & data & rest & Hp & Hpk & Hrest); [done|done| |].
  { split; [lia|]. rewrite <- app_nil_r in Hr. destruct (pieces (zdrop (sd_off X) d)) as [|p r] eqn:E; [rewrite pieces_unfold in E; by destruct (_ <? _)|].
    rewrite app_nil_r in Hr. cbn [app] in Hr. symmetry in Hr. apply drop_nth_piece in Hr as (? & _). lia. }
  rewrite Hp in Hr. cbn [app] in Hr. symmetry in Hr. apply drop_nth_piece in Hr as (Hlt & Hnth & Hdrop).
  destruct (nth_piece_ok sid P (S (a_n a)) ZP ltac:(lia)) as [(Hopt & Hne & Hmax) Hpk0]. rewrite Hnth in *. cbn [fst snd] in *.
  unfold SendUARTData_step. rewrite Hs, Hn, (uwrap_small 64) by (unfold in_u; lia). rewrite Hpk.
  replace (memcpy_ok packageDataMaxSize (zlen data)) with true by (symmetry; apply andb_true_iff; split; [done|by apply Z.leb_le]).
  cbn [negb]. unfold RequestSendPackage.
  replace (Z.of_nat (a_n a) + 1) with (Z.of_nat (S (a_n a))) by lia. rewrite head_of_plain by done. cbn [plain_head uh_sessionId].
  unfold slots_Wait. cbn [set_sessions hasWaitPkg]. destruct (a_dp a) as [dp|] eqn:Edp.
  - rewrite decide_True by by apply Hw. done.
  - split; [done|]. rewrite decide_False by (rewrite Hw; by intros []).
    change (mkUartHead PACKET_FLAG opt sid (zlen data) (Z.of_nat (S (a_n a))) 0 0) with (plain_head opt sid (Z.of_nat (S (a_n a))) data).
    rewrite RequestSendPackage_data; [|done|done|].
    2: { cbn [set_hasWaitPkg set_sessions outPkgs]. rewrite Ho. unfold dp_list. rewrite Edp. cbn [app].
         rewrite find_app_none by apply find_acks_data. apply find_acks_data. }
    eexists _, _. split; [reflexivity|]. cbn [set_hasWaitPkg set_sessions outPkgs Request set_outPkgs set_transfer hasWaitPkg transfer line freed sessions].
    set (X' := if _ =? _ then _ else _). assert (HX : sd_u X' = sd_u (mkSide (sd_u X') [] 0)) by done.
    assert (Hu : forall u, sd_u (if sd_off X + zlen data =? zlen d then mkSide u ds 0 else mkSide u (d :: ds) (sd_off X + zlen data)) = u) by (intros u; by destruct (_ =? _)).
    unfold X'. clear X' HX. constructor; rewrite ?Hu; cbn [a_request a_q1 a_q2 a_dp a_n a_d a_line a_req a_tp a_tmo outPkgs hasWaitPkg transfer line sessions].
    + unfold dp_list. cbn [a_request a_dp a_n]. rewrite Hnth, Ho. unfold dp_list. rewrite Edp. cbn [app fst snd]. unfold acks. rewrite !map_app. done.
    + split; [done|intros _]. cbn. apply elem_of_union. left. by apply elem_of_singleton.
    + cbn. rewrite Hf. done.
    + eexists. cbn [Request set_transfer set_outPkgs set_hasWaitPkg set_sessions sessions]. rewrite lookup_insert_eq. split; [reflexivity|]. cbn. split_and!; done.
    + exact Hl.
    + unfold alive in *. rewrite Hu. exact Hfr.
    + rewrite Hdrop. destruct (Z.eqb_spec (sd_off X + zlen data) (zlen d)).
      * subst rest. destruct ds as [|d' ds]; [done|]. cbn [sd_msgs sd_off rest_pieces map concat app]. by rewrite zdrop_0.
      * cbn [sd_msgs sd_off rest_pieces]. destruct Hrest as [-> _]. done.
    + destruct (Z.eqb_spec (sd_off X + zlen data) (zlen d)); cbn [sd_msgs sd_off].
      * split; [done|]. destruct ds as [|d' ds]; [done|]. apply List.Forall_cons_iff in Hds as [[? ?] _]. cbn. split; [done|]. destruct d'; [done|cbn [length]; lia].
      * split; [by constructor|]. cbn. lia.
Qed.

Lemma sim_wait start now a X : Rep sid P Q a X ->
  match a_wait start now a with
  | None => Wait start now (sd_u X) = None
  | Some a1 => exists u, Wait start now (sd_u X) = Some u /\ Rep sid P Q a1 (set_u u X)
  end.
Proof.
  intros [Ho Hw Hf Hs Hl Hfr Hr Hm]. unfold a_wait, Wait. rewrite Hf. cbn [timeout requested timeoutPoint].
  destruct (a_tmo a), (a_req a); try (destruct (_ <=? now)); try done; (eexists; split; [reflexivity|]); by constructor.
Qed.

Lemma a_wait_wf start now N M a a1 : a_wait start now a = Some a1 -> AWf N M a -> AWf N M a1.
Proof.
  intros H [? ? ? ? ?]. unfold a_wait in H. destruct (a_tmo a), (a_req a); try (destruct (_ <=? now)); simplify_eq; by constructor.
Qed.

Lemma ack_items q : ack_bytes sid (map Z.of_nat q) = map (item_bytes sid P) (map Ack q).
Proof. unfold ack_bytes. by rewrite !map_map. Qed.

Context (e : UartEnv) (host : bool) `{!UartEnvOk e}.

Ltac rep_fields Hw Hf Hl Edp :=
  constructor; cbn; first
    [ done
    | by eexists
    | match goal with H : outPkgs _ = _ |- _ => rewrite H; unfold dp_list; by rewrite ?Edp end
    | unfold dp_list; by rewrite Edp
    | by rewrite Hw, ?Edp
    | by rewrite Hf
    | by rewrite Hl, ?ack_items, ?map_app; cbn; rewrite ?map_app ].

Lemma sim_pass now a X : Rep sid P Q a X -> AWf (length P) (length Q) a ->
  exists u, SendPkgInUARTOutMap e host now (sd_u X) = Ok u /\
    if a_gives_up now a then freed u <> [] else Rep sid P Q (a_pass now a) (set_u u X).
Proof.
  intros [Ho Hw Hf (s & Hs & Hss) Hl Hfr Hr Hm] Wf. pose proof (w_acks _ _ _ Wf) as Hq. pose proof Hq as Hqq.
  apply Forall_app in Hq as [Hq1 Hq2]. pose proof (indices_ok _ _ _ ZQ Hq1) as Hi1. pose proof (indices_ok _ _ _ ZQ Hq2) as Hi2.
  pose proof (indices_ok _ _ _ ZQ Hqq) as Hi. pose proof (z_sid _ _ ZP) as Hsid. unfold dp_list in Ho.
  unfold a_gives_up, a_pass. destruct (a_dp a) as [[[[] r] t]|] eqn:Edp; cbn [app] in Ho.
  - destruct (nth_piece_ok sid P (a_n a) ZP) as [_ Hpk]; [split; [apply (w_dp _ _ _ Wf); by rewrite Edp|apply (w_n _ _ _ Wf)]|].
    eexists. split; [exact (pass_send e host now sid _ _ _ _ _ _ _ s (sd_u X) Hsid Hs Hi1 Hi2 Hpk Ho)|].
    rep_fields Hw Hf Hl Edp.
  - destruct (elapsed now t) eqn:Et; cbn [andb].
    + pose proof (pass_timeout e host now sid _ (map Z.of_nat (a_q2 a)) _ _ _ r t s (sd_u X) Hsid Hs Hi1 Ho Et) as Hp.
      destruct (0 <? r); cbn [negb]; [|destruct Hp as (u & Hu & Hne); by exists u].
      eexists. split; [exact Hp|]. rep_fields Hw Hf Hl Edp.
    + eexists. split; [exact (pass_wait e host now sid _ _ _ _ _ _ _ s (sd_u X) Hsid Hs Hi1 Hi2 Ho Et)|].
      rep_fields Hw Hf Hl Edp.
  - eexists. split; [apply (pass_acks e host now sid (map Z.of_nat (a_q1 a ++ a_q2 a)) s); [done..|]; rewrite Ho; unfold acks; by rewrite !map_app|].
    rep_fields Hw Hf Hl Edp.
Qed.

Lemma ack_key_inj i j : (i <= length Q)%nat -> (j <= length Q)%nat -> ack_key sid (Z.of_nat i) = ack_key sid (Z.of_nat j) -> i = j.
Proof.
  intros Hi Hj H. apply app_inv_head in H. apply data_key_inj in H; [lia|by apply (index_ok sid Q)..].
Qed.

Lemma find_ack_key i q : (i <= length Q)%nat -> Forall (fun j => (1 <= j <= length Q)%nat) q ->
  existsb (Nat.eqb i) q = match List.find (key_is (ack_key sid (Z.of_nat i))) (acks sid q) with Some _ => true | None => false end.
Proof.
  intros Hi. unfold acks. induction 1 as [|j q Hj Hq IH]; cbn [map List.find existsb]; [done|].
  unfold key_is at 1, bytes_eqb. cbn [ack_pkg p_key]. destruct (Nat.eqb_spec i j) as [->|Hne]; cbn [orb].
  - by rewrite bool_decide_true.
  - rewrite bool_decide_false; [done|]. intros H. apply ack_key_inj in H; [done|lia..].
Qed.

Lemma find_dp_ack i a : List.find (key_is (ack_key sid i)) (dp_list sid P a) = None.
Proof.
  unfold dp_list. destruct (a_dp a) as [[[st r] t]|]; [|done]. cbn. unfold key_is, bytes_eqb. cbn.
  rewrite bool_decide_false; [done|]. apply ack_key_data_key.
Qed.

Lemma find_app_some {A} (f : A -> bool) l k x : List.find f l = Some x -> List.find f (l ++ k) = Some x.
Proof. induction l as [|y l IH]; cbn [app List.find]; [done|]. by destruct (f y). Qed.

Lemma add_ack_out i a X : Rep sid P Q a X -> AWf (length P) (length Q) a -> (i <= length Q)%nat ->
  add_ack sid (Z.of_nat i) (sd_u X) =
  Request (set_outPkgs (acks sid (a_q1 a) ++ dp_list sid P a ++
    acks sid (if existsb (Nat.eqb i) (a_q1 a ++ a_q2 a) then a_q2 a else a_q2 a ++ [i])) (sd_u X)).
Proof.
  intros R Wf Hi. pose proof (w_acks _ _ _ Wf) as Hq. apply Forall_app in Hq as [Hq1 Hq2]. unfold add_ack. rewrite existsb_app, !find_ack_key by done.
  pose proof (r_out _ _ _ _ _ R) as Ho. rewrite Ho. set (f := key_is (ack_key sid (Z.of_nat i))).
  destruct (List.find f (acks sid (a_q1 a))) as [x|] eqn:E1; cbn [orb].
  - rewrite (find_app_some _ _ _ x) by done. f_equal. rewrite <- Ho. by destruct (sd_u X).
  - rewrite find_app_none by done. rewrite find_app_none by apply find_dp_ack.
    destruct (List.find f (acks sid (a_q2 a))) as [x|] eqn:E2; f_equal; [rewrite <- Ho; by destruct (sd_u X)|].
    f_equal. unfold acks. rewrite !map_app, <- !app_assoc. done.
Qed.

(** The packages the other side may send. *)
Definition item_ok (a : ASide) (it : item) : Prop :=
  match it with
  | Data i => (1 <= i <= length Q)%nat /\ (i = a_d a \/ i = S (a_d a))
  | Ack j => (1 <= j <= length P)%nat
  end.

Lemma take_S_concat (l : list piece) d : (S d <= length l)%nat ->
  concat (map snd (take (S d) l)) = concat (map snd (take d l)) ++ (nth_piece l (S d)).2.
Proof.
  intros H. destruct (drop d l) as [|p r] eqn:E; [apply (f_equal length) in E; rewrite length_drop in E; cbn in E; lia|].
  pose proof (drop_nth_piece _ _ _ _ E) as (_ & Hn & _). rewrite Hn.
  assert (Hl : l !! d = Some p) by (rewrite <- (Nat.add_0_r d), <- lookup_drop, E; done).
  rewrite (take_S_r _ _ _ Hl), map_app, concat_app. cbn. by rewrite app_nil_r.
Qed.

Lemma sim_recv_data a X i : Rep sid P Q a X -> AWf (length P) (length Q) a -> item_ok a (Data i) ->
  exists u, (forall fuel k hS, hS = None \/ hS = Some sid ->
      PackageProcess_loop e host (S fuel) (item_bytes sid Q (Data i) ++ k) hS (sd_u X) = PackageProcess_loop e host fuel k (Some sid) u) /\
    Rep sid P Q (a_recv (Data i) a) (set_u u X).
Proof.
  intros R Wf [Hi Hd]. destruct (nth_piece_ok sid Q i ZQ Hi) as [(Ho & Hne & _) Hpk].
  destruct (r_sess _ _ _ _ _ R) as (s & Hs & Hn & Hds & Hst). eexists. split.
  - intros fuel k hS HS. cbn [item_bytes]. by apply process_data.
  - unfold recv_data. rewrite (add_ack_out i a X) by first [done|lia].
    destruct R as [Ro Rw Rf _ Rl Rfr Rr Rm]. constructor; try done; cbn.
    + by rewrite Rf.
    + rewrite lookup_insert_eq. eexists. split; [reflexivity|]. unfold deliver. rewrite Hds.
      destruct Hd as [->| ->]; [by rewrite Z.eqb_refl|].
      destruct (Z.eqb_spec (Z.of_nat (a_d a)) (Z.of_nat (S (a_d a)))); [lia|]. cbn. split_and!; [done..|]. by rewrite Hst, take_S_concat by lia.
Qed.

Lemma erase_acks q i l : erase_key (data_key sid i) (acks sid q ++ l) = acks sid q ++ erase_key (data_key sid i) l.
Proof.
  unfold acks. induction q as [|j q IH]; cbn [map app erase_key]; [done|]. unfold key_is, bytes_eqb. cbn [ack_pkg p_key].
  rewrite bool_decide_false by (intros H; symmetry in H; by apply ack_key_data_key in H). by rewrite IH.
Qed.

Lemma sim_recv_ack a X j : Rep sid P Q a X -> AWf (length P) (length Q) a -> item_ok a (Ack j) ->
  exists u, (forall fuel k hS,
      PackageProcess_loop e host (S fuel) (item_bytes sid Q (Ack j) ++ k) hS (sd_u X) = PackageProcess_loop e host fuel k hS u) /\
    Rep sid P Q (a_recv (Ack j) a) (set_u u X).
Proof.
  intros R Wf Hj. cbn in Hj. pose proof (index_ok sid P j ZP ltac:(lia)) as Hj32. eexists. split.
  - intros fuel k hS. apply process_ack; [apply (z_sid _ _ ZP)|done].
  - unfold ProcessResponsePackage. change (ToPkgIdentityString _ false) with (data_key sid (Z.of_nat j)).
    change (negb (Z.land _ PKG_OPTION_ACK =? 0)) with true. destruct R as [Ro Rw Rf Rs Rl Rfr Rr Rm].
    assert (Hfind : List.find (key_is (data_key sid (Z.of_nat j))) (outPkgs (sd_u X)) =
      List.find (key_is (data_key sid (Z.of_nat j))) (dp_list sid P a)).
    { rewrite Ro, find_app_none by apply find_acks_data. destruct (List.find _ (dp_list sid P a)) eqn:E; [by apply find_app_some|].
      rewrite find_app_none by done. apply find_acks_data. }
    rewrite Hfind, Ro, erase_acks. cbn [a_recv]. unfold dp_list. destruct (a_dp a) as [[[st r] t]|] eqn:Edp.
    + unfold key_is, bytes_eqb, erase_key, key_is, bytes_eqb. cbn [List.find data_pkg p_key app].
      destruct (Nat.eqb_spec j (a_n a)) as [->|Hne].
      * rewrite !bool_decide_true by done. cbn [p_sessionId]. constructor; try done; cbn.
        -- unfold acks. by rewrite !map_app, app_nil_r.
        -- split; [by intros [_ []%not_elem_of_singleton]%elem_of_difference|done].
        -- by rewrite Rf.
      * rewrite !bool_decide_false by (intros H; apply data_key_inj in H; [lia|done|apply (index_ok sid P); [done|apply (w_n _ _ _ Wf)]]).
        rep_fields Rw Rf Rl Edp.
    + rep_fields Rw Rf Rl Edp.
Qed.

End Simulation.

(** ** The invariant of one direction *)

Fixpoint datas (l : list item) : list nat :=
  match l with [] => [] | Data i :: l => i :: datas l | Ack _ :: l => datas l end.
Fixpoint acknums (l : list item) : list nat :=
  match l with [] => [] | Ack j :: l => j :: acknums l | Data _ :: l => acknums l end.

Lemma datas_app l k : datas (l ++ k) = datas l ++ datas k.
Proof. induction l as [|[] l IH]; cbn; by rewrite ?IH. Qed.
Lemma acknums_app l k : acknums (l ++ k) = acknums l ++ acknums k.
Proof. induction l as [|[] l IH]; cbn; by rewrite ?IH. Qed.
Lemma datas_acks q : datas (map Ack q) = [].
Proof. induction q; done. Qed.
Lemma acknums_acks q : acknums (map Ack q) = q.
Proof. induction q as [|j q IH]; cbn; by rewrite ?IH. Qed.
Lemma datas_data i l : datas (Data i :: l) = i :: datas l.
Proof. done. Qed.
Lemma acknums_data i l : acknums (Data i :: l) = acknums l.
Proof. done. Qed.
Create Rewrite HintDb items.
#[local] Hint Rewrite datas_app acknums_app datas_acks acknums_acks datas_data acknums_data @app_nil_r @app_nil_l : items.

(** On the line from [a] are copies of the package delivered last and, behind them,
    copies of the next one. *)
Definition in_flight (n d : nat) (l : list nat) : Prop :=
  exists x y, l = repeat d x ++ repeat (S d) y /\ ((0 < x)%nat -> (1 <= d)%nat) /\ ((0 < y)%nat -> S d = n).

Definition acked (d : nat) (q : list nat) : Prop := Forall (fun j => (1 <= j <= d)%nat) q.

(** Packages travel from [a] to [b]; [N] is the number of packages [a] has to send. *)
Record Dir (N : nat) (a b : ASide) : Prop := {
  d_n : (a_n a <= N)%nat;
  d_d : (a_d b <= a_n a)%nat;
  d_dp : match a_dp a with None => a_d b = a_n a | Some (_, r, _) => (1 <= a_n a <= S (a_d b))%nat /\ 0 <= r end;
  d_line : in_flight (a_n a) (a_d b) (datas (a_line a));
  d_acks : acked (a_d b) (acknums (a_line b));
  d_queue : acked (a_d b) (a_q1 b ++ a_q2 b) }.

(** The writer is awake, or will be, whenever there is something to send. *)
Record Awake (a : ASide) : Prop := {
  k_send : match a_dp a with Some (PKG_WAIT_SEND, _, _) => a_req a = true | _ => True end;
  k_acks : a_q1 a ++ a_q2 a <> [] -> a_req a = true;
  k_wait : match a_dp a with
           | Some (PKG_WAIT_RESPONSE, _, t) => a_tmo a = true /\ a_tp a = deadline t
           | _ => True
           end }.

Definition Inv (N M : nat) (a b : ASide) : Prop := Dir N a b /\ Dir M b a /\ Awake a /\ Awake b.

Lemma Inv_sym N M a b : Inv N M a b -> Inv M N b a.
Proof. intros (? & ? & ? & ?). by split_and!. Qed.

Lemma in_flight_bounds n d l : (d <= n)%nat -> in_flight n d l -> Forall (fun i => (1 <= i <= n)%nat /\ (i = d \/ i = S d)) l.
Proof.
  intros Hd (x & y & -> & Hx & Hy). apply Forall_app. split; apply List.Forall_forall; intros i Hi; apply repeat_spec in Hi as Hi'; subst i.
  - destruct x; [done|]. specialize (Hx ltac:(lia)). lia.
  - destruct y; [done|]. specialize (Hy ltac:(lia)). lia.
Qed.

Lemma items_Forall (Pd Pa : nat -> Prop) l : Forall Pd (datas l) -> Forall Pa (acknums l) ->
  Forall (fun it => match it with Data i => Pd i | Ack j => Pa j end) l.
Proof.
  induction l as [|[i|j] l IH]; cbn; intros Hd Ha; [constructor|..].
  - apply List.Forall_cons_iff in Hd as [? ?]. constructor; auto.
  - apply List.Forall_cons_iff in Ha as [? ?]. constructor; auto.
Qed.

Lemma acked_app d l k : acked d (l ++ k) <-> acked d l /\ acked d k.
Proof. apply Forall_app. Qed.
Lemma acked_nil d : acked d [].
Proof. constructor. Qed.
#[local] Hint Resolve acked_nil : core.
Ltac acked_tac := rewrite ?acked_app in *; tauto.

Lemma acked_mono d d' q : (d <= d')%nat -> acked d q -> acked d' q.
Proof. intros Hd Hq. eapply List.Forall_impl; [|exact Hq]. cbn. lia. Qed.

Lemma Inv_wf N M a b : Inv N M a b -> AWf N M a.
Proof.
  intros ([H1 H2 H3 H4 H5 H6] & [G1 G2 G3 G4 G5 G6] & _ & _). constructor; [done| | | |lia].
  - destruct (a_dp a) as [[[? ?] ?]|]; [lia|done].
  - eapply List.Forall_impl; [|exact G6]. cbn. lia.
  - apply items_Forall; [eapply List.Forall_impl; [|exact (in_flight_bounds _ _ _ H2 H4)]|eapply List.Forall_impl; [|exact G5]]; cbn; lia.
Qed.

(** ** Preservation *)

Lemma inv_request N M a b : Inv N M a b -> a_dp a = None -> (S (a_n a) <= N)%nat -> Inv N M (a_request a) b.
Proof.
  intros ([H1 H2 H3 H4 H5 H6] & [G1 G2 G3 G4 G5 G6] & [K1 K2 K3] & Kb) Hdp Hn. rewrite Hdp in H3. split_and!; [| |by constructor|done].
  - constructor; cbn; [done|lia|lia| |done|done]. destruct H4 as (x & y & He & Hx & Hy). exists x, 0%nat.
    assert (y = 0%nat) as -> by (destruct y; [done|specialize (Hy ltac:(lia)); lia]). split_and!; [done|done|lia].
  - constructor; cbn; try done. by rewrite app_nil_r.
Qed.

Lemma inv_wait N M start now a b a1 : Inv N M a b -> a_wait start now a = Some a1 ->
  Dir N a1 b /\ Dir M b a1 /\ (a_req a1 = false) /\
  (a_q1 a1, a_q2 a1, a_dp a1, a_line a1, a_n a1, a_d a1, a_tp a1) = (a_q1 a, a_q2 a, a_dp a, a_line a, a_n a, a_d a, a_tp a) /\
  (a_tmo a1 = a_tmo a \/ (a_tmo a1 = false /\ a_req a = false /\ start + Z.quot (a_tp a - start) ms * ms <= now)).
Proof.
  intros ([H1 H2 H3 H4 H5 H6] & [G1 G2 G3 G4 G5 G6] & _ & _) H. unfold a_wait in H.
  destruct (a_tmo a), (a_req a); try (destruct (Z.leb_spec (start + Z.quot (a_tp a - start) ms * ms) now)); simplify_eq;
    (split; [by constructor|split; [by constructor|]]); split_and!; auto.
Qed.

Lemma in_flight_snoc n d l : in_flight n d l -> (1 <= n <= S d)%nat -> (d <= n)%nat -> in_flight n d (l ++ [n]).
Proof.
  intros (x & y & -> & Hx & Hy) Hn Hd. destruct (decide (n = d)) as [->|Hne].
  - assert (y = 0%nat) as -> by (destruct y; [done|specialize (Hy ltac:(lia)); lia]). exists (S x), 0%nat.
    cbn [repeat]. rewrite !app_nil_r. split_and!; [|lia..]. change [d] with (repeat d 1). by rewrite <- repeat_app, Nat.add_comm.
  - exists x, (S y). assert (n = S d) as -> by lia. split_and!; [|lia..]. rewrite <- app_assoc. f_equal. change [S d] with (repeat (S d) 1).
    by rewrite <- repeat_app, Nat.add_comm.
Qed.

(** When the timer has run out, the package has waited long enough. *)
Lemma timer_elapsed t start now : start <= now -> start + Z.quot (deadline t - start) ms * ms <= now -> elapsed now t = true.
Proof.
  unfold deadline, elapsed, WAIT_RESPONSE_TIME_OUT_MS, OneMoreMs, ms. intros Hs H. apply Z.leb_le.
  apply Z.quot_le_lower_bound; [lia|]. pose proof (Z.quot_rem' (t + (1000 + 1) * 1000000 - start) 1000000).
  pose proof (Z.rem_bound_abs (t + (1000 + 1) * 1000000 - start) 1000000). lia.
Qed.

Lemma inv_pass N M start now a b a1 : start <= now -> Inv N M a b -> a_wait start now a = Some a1 -> a_gives_up now a1 = false ->
  Inv N M (a_pass now a1) b.
Proof.
  intros Hsn I Hw Hg. pose proof I as (_ & _ & [K1 K2 K3] & Kb).
  destruct (inv_wait _ _ _ _ _ _ _ I Hw) as ([H1 H2 H3 H4 H5 H6] & [G1 G2 G3 G4 G5 G6] & Hreq & He & Htmo). injection He as E1 E2 E3 E4 E5 E6 E7.
  unfold a_pass, a_gives_up in *. rewrite <- E3 in K1, K3. destruct (a_dp a1) as [[[[] r] t]|] eqn:Edp.
  - split_and!; [constructor|constructor|constructor|done]; cbn; autorewrite with items; auto; try acked_tac; try done.
    apply in_flight_snoc; [done|lia|done].
  - destruct (elapsed now t) eqn:Et; cbn [andb] in Hg.
    + split_and!; [constructor|constructor|constructor|done]; cbn; autorewrite with items; auto; try acked_tac; try done.
      breflect. lia.
    + split_and!; [constructor|constructor|constructor|done]; cbn; rewrite ?Edp; autorewrite with items; auto; try acked_tac; try done.
      destruct K3 as [K3 K4]. rewrite E7. destruct Htmo as [Htmo|(_ & Hr & Ht)]; [by rewrite Htmo|].
      rewrite K4 in Ht. by rewrite (timer_elapsed t start now Hsn Ht) in Et.
  - split_and!; [constructor|constructor|constructor|done]; cbn; autorewrite with items; auto; try acked_tac; try done.
Qed.

Lemma repeat_delete (d : nat) x y l1 i l2 : repeat d x ++ repeat (S d) y = l1 ++ i :: l2 ->
  exists x' y', l1 ++ l2 = repeat d x' ++ repeat (S d) y' /\ (x' <= x)%nat /\ (y' <= y)%nat.
Proof.
  revert x y. induction l1 as [|j l1 IH]; intros x y H; cbn [app] in *.
  - destruct x as [|x]; [destruct y as [|y]; [done|]|]; cbn in H; injection H as <- <-.
    + exists 0%nat, y. split_and!; [done|lia..].
    + exists x, y. split_and!; [done|lia..].
  - destruct x as [|x]; [destruct y as [|y]; [done|]|]; cbn in H; injection H as <- H.
    + destruct (IH 0%nat y H) as (x' & y' & -> & Hx & Hy). assert (x' = 0%nat) as -> by lia. exists 0%nat, (S y'). split_and!; [done|lia..].
    + destruct (IH x y H) as (x' & y' & -> & Hx & Hy). exists (S x'), y'. split_and!; [done|lia..].
Qed.

Lemma in_flight_delete n d l1 i l2 : in_flight n d (l1 ++ i :: l2) -> in_flight n d (l1 ++ l2).
Proof.
  intros (x & y & He & Hx & Hy). symmetry in He. destruct (repeat_delete _ _ _ _ _ _ He) as (x' & y' & -> & Hx' & Hy').
  exists x', y'. split_and!; [done|intros; apply Hx; lia|intros; apply Hy; lia].
Qed.

Lemma in_flight_cons n d i l : in_flight n d (i :: l) -> (i = d /\ (1 <= d)%nat /\ in_flight n d l) \/ (i = S d /\ S d = n /\ in_flight n (S d) l).
Proof.
  intros (x & y & He & Hx & Hy). destruct x as [|x].
  - destruct y as [|y]; [done|]. cbn in He. injection He as -> ->. right. specialize (Hy ltac:(lia)). split_and!; [done..|].
    exists y, 0%nat. rewrite app_nil_r. split_and!; [done|lia..].
  - cbn in He. injection He as -> ->. left. specialize (Hx ltac:(lia)). split_and!; [done..|]. exists x, y. split_and!; [done|lia|intros; apply Hy; lia].
Qed.

Lemma inv_lose N M a b l1 it l2 : Inv N M a b -> a_line a = l1 ++ it :: l2 -> Inv N M (a_set_line (l1 ++ l2) a) b.
Proof.
  intros ([H1 H2 H3 H4 H5 H6] & [G1 G2 G3 G4 G5 G6] & [K1 K2 K3] & Kb) Hl. rewrite Hl in *. rewrite datas_app in H4. rewrite acknums_app in G5.
  split_and!; [constructor|constructor|constructor|done]; cbn; try done; rewrite ?datas_app, ?acknums_app; destruct it as [i|j]; cbn in *;
    first [done | by apply in_flight_delete in H4 | apply acked_app in G5 as [? G5]; apply List.Forall_cons_iff in G5 as [? ?]; by apply acked_app].
Qed.

Lemma acked_cons d j q : acked d (j :: q) <-> (1 <= j <= d)%nat /\ acked d q.
Proof. apply List.Forall_cons_iff. Qed.

Lemma inv_item_ok N M a b it l (P Q : list piece) : Inv N M a b -> a_line a = it :: l -> length P = N -> length Q = M -> item_ok Q P b it.
Proof.
  intros ([H1 H2 H3 H4 H5 H6] & [G1 G2 G3 G4 G5 G6] & _ & _) Hl HP HQ. rewrite Hl in *. unfold item_ok. destruct it as [i|j]; cbn in *.
  - apply in_flight_cons in H4. rewrite HP. lia.
  - apply acked_cons in G5 as [? _]. rewrite HQ. lia.
Qed.

Lemma inv_recv_data N M a b i l : Inv N M a b -> a_line a = Data i :: l -> Inv N M (a_set_line l a) (a_recv (Data i) b).
Proof.
  intros ([H1 H2 H3 H4 H5 H6] & [G1 G2 G3 G4 G5 G6] & [K1 K2 K3] & [L1 L2 L3]) Hl. rewrite Hl in *. cbn [datas acknums] in *.
  apply in_flight_cons in H4. assert (Hi : (1 <= i)%nat /\ (i = a_d b \/ i = S (a_d b)) /\ (a_d b <= i)%nat) by lia. destruct Hi as (Hi1 & Hi2 & Hi3).
  assert (Hf : in_flight (a_n a) i (datas l)) by (destruct H4 as [(-> & _ & ?)|(-> & _ & ?)]; done).
  split_and!; [constructor|constructor|constructor|constructor]; cbn; try done.
  - lia.
  - destruct (a_dp a) as [[[? ?] ?]|]; lia.
  - by apply (acked_mono (a_d b)).
  - apply acked_app in H6 as [H7 H8]. apply acked_app. split; [by apply (acked_mono (a_d b))|].
    destruct (existsb _ _); [by apply (acked_mono (a_d b))|]. apply acked_app. split; [by apply (acked_mono (a_d b))|]. apply acked_cons. split; [lia|done].
  - by destruct (a_dp b) as [[[[] ?] ?]|].
Qed.

Lemma inv_recv_ack N M a b j l : Inv N M a b -> a_line a = Ack j :: l -> Inv N M (a_set_line l a) (a_recv (Ack j) b).
Proof.
  intros ([H1 H2 H3 H4 H5 H6] & [G1 G2 G3 G4 G5 G6] & [K1 K2 K3] & [L1 L2 L3]) Hl. rewrite Hl in *. cbn [datas acknums] in *.
  apply acked_cons in G5 as [Hj G5]. cbn [a_recv]. destruct (a_dp b) as [[[st r] t]|] eqn:Edp.
  - destruct (Nat.eqb_spec j (a_n b)) as [->|Hne].
    + split_and!; [constructor|constructor|constructor|constructor]; cbn; try done; try lia. by rewrite app_nil_r.
    + split_and!; [constructor|constructor|constructor|constructor]; cbn; rewrite ?Edp; try done. by destruct st.
  - split_and!; [constructor|constructor|constructor|constructor]; cbn; rewrite ?Edp; done.
Qed.

Lemma inv_recv N M a b it l : Inv N M a b -> a_line a = it :: l -> Inv N M (a_set_line l a) (a_recv it b).
Proof. destruct it; [apply inv_recv_data|apply inv_recv_ack]. Qed.

(** ** Steps of the system *)

Definition Related (sid : Z) (P Q : list piece) (X Y : Side) : Prop :=
  exists a b, Rep sid P Q a X /\ Rep sid Q P b Y /\ Inv (length P) (length Q) a b.

Section System.
Context (sid : Z) (P Q : list piece) (ZP : Sizes sid P) (ZQ : Sizes sid Q).
Context (eX : UartEnv) (hX : bool) (eY : UartEnv) (hY : bool) `{!UartEnvOk eX} `{!UartEnvOk eY}.

Lemma rep_set_line a X n : Rep sid P Q a X ->
  Rep sid P Q (a_set_line (drop n (a_line a)) a) (set_u (set_line (drop n (line (sd_u X))) (sd_u X)) X).
Proof. intros [Ro Rw Rf Rs Rl Rfr Rr Rm]. constructor; try done. cbn. by rewrite Rl, skipn_map. Qed.

Lemma read_items its rest a b Y fuel hS : a_line a = its ++ rest -> Rep sid Q P b Y -> Inv (length P) (length Q) a b ->
  (length its < fuel)%nat -> hS = None \/ hS = Some sid ->
  exists u b', PackageProcess_loop eY hY fuel (concat (map (item_bytes sid P) its)) hS (sd_u Y) = Ok (0, [], u) /\
    Rep sid Q P b' (set_u u Y) /\ Inv (length P) (length Q) (a_set_line rest a) b'.
Proof.
  revert a b Y fuel hS. induction its as [|it its IH]; intros a b Y fuel hS Hl R I Hf HS; (destruct fuel as [|fuel]; [cbn in Hf; lia|]).
  - exists (sd_u Y), b. split; [done|]. split; [by destruct Y|]. cbn in Hl. subst rest. by destruct a.
  - pose proof (Inv_wf _ _ _ _ (Inv_sym _ _ _ _ I)) as Wf. pose proof (inv_item_ok _ _ _ _ _ _ P Q I Hl eq_refl eq_refl) as Hit.
    pose proof (inv_recv _ _ _ _ _ _ I Hl) as I'. cbn [map concat]. cbn [length] in Hf.
    assert (Hs : exists u hS', PackageProcess_loop eY hY (S fuel) (item_bytes sid P it ++ concat (map (item_bytes sid P) its)) hS (sd_u Y) =
        PackageProcess_loop eY hY fuel (concat (map (item_bytes sid P) its)) hS' u /\ (hS' = None \/ hS' = Some sid) /\
        Rep sid Q P (a_recv it b) (set_u u Y)).
    { destruct it as [i|j].
      - destruct (sim_recv_data sid Q P ZP eY hY b Y i R Wf Hit) as (u & Hu & R'). exists u, (Some sid). split; [by apply Hu|auto].
      - destruct (sim_recv_ack sid Q P ZQ eY hY b Y j R Wf Hit) as (u & Hu & R'). exists u, hS. split; [by apply Hu|auto]. }
    destruct Hs as (u & hS' & Hu & HS' & R'). rewrite Hu.
    exact (IH (a_set_line (its ++ rest) a) _ (set_u u Y) fuel hS' eq_refl R' I' ltac:(lia) HS').
Qed.

Lemma length_items its : (length its <= length (concat (map (item_bytes sid P) its)))%nat.
Proof.
  induction its as [|it its IH]; cbn [map concat length]; [done|]. rewrite length_app.
  assert (1 <= length (item_bytes sid P it))%nat; [|lia].
  destruct it as [i|j]; cbn [item_bytes]; pose proof (length_package (nth_piece P i).1 sid (Z.of_nat i) (nth_piece P i).2) as Hl ||
    pose proof (length_package PKG_OPTION_ACK sid (Z.of_nat j) []) as Hl; unfold sizeof_UartHead in Hl; lia.
Qed.

Lemma sim_read n a b X Y : Rep sid P Q a X -> Rep sid Q P b Y -> Inv (length P) (length Q) a b ->
  exists u, PackageProcess eY hY (concat (take n (line (sd_u X)))) (reader_session hY sid) (sd_u Y) = Ok (0, [], u) /\
    exists b', Rep sid Q P b' (set_u u Y) /\ Inv (length P) (length Q) (a_set_line (drop n (a_line a)) a) b'.
Proof.
  intros RX RY I. rewrite (r_line _ _ _ _ _ RX), firstn_map. unfold PackageProcess.
  pose proof (length_items (take n (a_line a))) as Hl.
  destruct (read_items (take n (a_line a)) (drop n (a_line a)) a b Y
    (S (length (concat (map (item_bytes sid P) (take n (a_line a)))))) (reader_session hY sid)) as (u & b' & Hu & R' & I'); try done.
  - by rewrite take_drop.
  - lia.
  - unfold reader_session. destruct hY; auto.
  - exists u. split; [exact Hu|]. by exists b'.
Qed.

Lemma half_related X Y X' Y' : Related sid P Q X Y -> half sid eX hX eY hY (X, Y) (X', Y') ->
  Related sid P Q X' Y' \/ (freed (sd_u X') <> [] /\ Y' = Y).
Proof.
  intros (a & b & RX & RY & I) H. pose proof (Inv_wf _ _ _ _ I) as Wf. inversion H as [? ? d ds off u Hm Hu|? ? start now u Hsn Hu|? ? n size u Hn Hu|? ? l1 p l2 Hl]; subst.
  - pose proof (sim_request sid P Q ZP a X d ds RX Wf Hm) as Hs. destruct (a_dp a) eqn:Edp; [congruence|].
    destruct Hs as (Hlt & off' & u' & Hu' & R'). rewrite Hu' in Hu. injection Hu as -> ->. left. exists (a_request a), b. split_and!; [done..|]. by apply inv_request.
  - unfold UartWriteRound in Hu. pose proof (sim_wait sid P Q start now a X RX) as Hw. destruct (a_wait start now a) as [a1|] eqn:Ew; [|by rewrite Hw in Hu].
    destruct Hw as (u1 & Hw & R1). rewrite Hw in Hu. destruct (sim_pass sid P Q ZP ZQ eX hX now a1 (set_u u1 X) R1 (a_wait_wf _ _ _ _ _ _ Ew Wf)) as (u' & Hu' & Hg).
    cbn [set_u sd_u] in Hu'. rewrite Hu' in Hu. injection Hu as ->. destruct (a_gives_up now a1) eqn:Eg; [by right|]. left.
    exists (a_pass now a1), b. split_and!; [done..|]. by apply (inv_pass _ _ start now a).
  - destruct (sim_read n a b X Y RX RY I) as (u' & Hu' & b' & R' & I'). rewrite Hu' in Hu. injection Hu as _ ->. left.
    exists (a_set_line (drop n (a_line a)) a), b'. split_and!; [by apply rep_set_line|done..].
  - left. rewrite (r_line _ _ _ _ _ RX) in Hl. apply map_eq_app in Hl as (i1 & i2' & Hl & H1 & H2). symmetry in H2. apply eq_sym, map_eq_cons in H2 as (it & i2 & -> & Hp & H2).
    exists (a_set_line (i1 ++ i2) a), b. split_and!; [|done|by apply (inv_lose _ _ _ _ _ it)].
    destruct RX as [Ro Rw Rf Rs Rl Rfr Rr Rm]. constructor; try done. cbn. by rewrite map_app, H1, H2.
Qed.

End System.

(** ** Progress *)

(** The package [a] waits for can still be acknowledged: it may be sent again, or a
    copy or the acknowledgement is on its way. *)
Definition hope (a b : ASide) : Prop :=
  match a_dp a with
  | Some (PKG_WAIT_RESPONSE, r, _) =>
      0 < r \/ In (a_n a) (datas (a_line a)) \/ (a_d b = a_n a /\ In (a_n a) ((a_q1 b ++ a_q2 b) ++ acknums (a_line b)))
  | _ => True
  end.

Definition item_weight (it : item) : Z := match it with Data _ => 5 | Ack _ => 2 end.
Definition line_weight (l : list item) : Z := fold_right (fun it n => item_weight it + n) 0 l.

Definition weight (N : nat) (a : ASide) : Z :=
  200 * (Z.of_nat N - Z.of_nat (a_n a)) +
  match a_dp a with None => 0 | Some (PKG_WAIT_SEND, r, _) => 20 * r + 12 | Some (PKG_WAIT_RESPONSE, r, _) => 20 * r + 5 end +
  3 * zlen (a_q1 a ++ a_q2 a) + line_weight (a_line a) + (if a_req a then 1 else 0).

Lemma line_weight_app l k : line_weight (l ++ k) = line_weight l + line_weight k.
Proof. induction l as [|it l IH]; cbn [app line_weight fold_right]; [done|]. unfold line_weight in *. lia. Qed.
Lemma line_weight_acks q : line_weight (map Ack q) = 2 * zlen q.
Proof. induction q as [|j q IH]; cbn [map line_weight fold_right item_weight length]; [done|]. unfold line_weight in IH. lia. Qed.
Lemma line_weight_nonneg l : 0 <= line_weight l.
Proof. induction l as [|[] l IH]; cbn [line_weight fold_right item_weight]; unfold line_weight in *; lia. Qed.
Lemma line_weight_cons it l : line_weight (it :: l) = item_weight it + line_weight l.
Proof. done. Qed.

Lemma weight_nonneg N a b : Dir N a b -> 0 <= weight N a.
Proof.
  intros [H1 H2 H3 _ _ _]. unfold weight. pose proof (line_weight_nonneg (a_line a)).
  revert H3. destruct (a_dp a) as [[[[] r] t]|], (a_req a); lia.
Qed.

(** Reading a package. *)
Lemma hope_read N M a b it l : Inv N M a b -> a_line a = it :: l -> hope a b -> hope b a ->
  hope (a_set_line l a) (a_recv it b) /\ hope (a_recv it b) (a_set_line l a) /\
  weight N (a_set_line l a) + weight M (a_recv it b) < weight N a + weight M b.
Proof.
  intros I Hl Ha Hb. pose proof I as (_ & [_ _ Gdp _ _ _] & _ & _). split_and!.
  - unfold hope in *. rewrite Hl in Ha. cbn [a_set_line a_dp a_n a_line]. destruct (a_dp a) as [[[[] r] t]|]; try done.
    destruct it as [i|j]; cbn [datas] in Ha.
    + pose proof (inv_item_ok _ _ _ _ _ _ (repeat (0, []) N) (repeat (0, []) M) I Hl ltac:(apply repeat_length) ltac:(apply repeat_length)) as [_ Hi].
      pose proof I as ([_ Hd _ Hf _ _] & _). rewrite Hl in Hf. cbn [datas] in Hf. apply in_flight_cons in Hf. cbn [a_recv a_q1 a_q2 a_d a_line].
      assert (Hq : In i (a_q1 b ++ (if existsb (Nat.eqb i) (a_q1 b ++ a_q2 b) then a_q2 b else a_q2 b ++ [i])) /\
        incl (a_q1 b ++ a_q2 b) (a_q1 b ++ (if existsb (Nat.eqb i) (a_q1 b ++ a_q2 b) then a_q2 b else a_q2 b ++ [i]))).
      { destruct (existsb _ _) eqn:E.
        - split; [|apply incl_refl]. apply existsb_exists in E as (j & Hj & ->%Nat.eqb_eq). done.
        - rewrite app_assoc. split; [apply in_or_app; right; by left|by apply incl_appl, incl_refl]. }
      destruct Hq as [Hq1 Hq2]. destruct Ha as [?|[[->|?]|[Hd' Hin]]]; [by left| |by right; left|].
      * right. right. split; [done|]. apply in_or_app. by left.
      * right. right. assert (i = a_n a) as -> by lia. split; [done|]. apply in_or_app. by left.
    + cbn [a_recv]. destruct (a_dp b) as [[[st rb] tb]|]; [destruct (j =? a_n b)%nat|]; cbn [a_q1 a_q2 a_d a_line]; rewrite ?app_nil_r; done.
  - unfold hope in *. rewrite Hl in Hb. cbn [a_set_line a_q1 a_q2 a_d a_line]. destruct it as [i|j]; cbn [acknums] in Hb.
    + exact Hb.
    + cbn [a_recv]. destruct (a_dp b) as [[[st rb] tb]|]; [|done]. destruct (Nat.eqb_spec j (a_n b)); [done|]. cbn [a_dp a_n a_line].
      destruct st; [done|]. destruct Hb as [?|[?|[? Hb]]]; [by left|by right; left|right; right]. split; [done|].
      apply in_app_or in Hb as [Hb|[Hb|Hb]]; [apply in_or_app; by left|congruence|apply in_or_app; by right].
  - unfold weight. cbn [a_set_line a_dp a_q1 a_q2 a_line a_n a_req]. rewrite Hl, line_weight_cons. destruct it as [i|j]; cbn [item_weight a_recv].
    + cbn [a_dp a_q1 a_q2 a_line a_n a_req]. destruct (existsb _ _); rewrite ?length_app; cbn [length]; destruct (a_req b); lia.
    + destruct (a_dp b) as [[[st rb] tb]|]; [destruct (j =? a_n b)%nat|]; cbn [a_dp a_q1 a_q2 a_line a_n a_req]; rewrite ?app_nil_r;
        destruct (a_req b); try destruct st; lia.
Qed.

(** A pass of the writer that finds no timeout. *)
Lemma elapsed_now t : elapsed t t = false.
Proof. unfold elapsed. by rewrite Z.sub_diag. Qed.

Lemma hope_write N M a b a1 now : Inv N M a b -> a_req a = true -> a_wait now now a = Some a1 ->
  (forall r t, a_dp a = Some (PKG_WAIT_RESPONSE, r, t) -> now = t) -> hope a b -> hope b a ->
  a_gives_up now a1 = false /\ hope (a_pass now a1) b /\ hope b (a_pass now a1) /\ weight N (a_pass now a1) < weight N a.
Proof.
  intros I Hreq Hw Hnow Ha Hb. destruct (inv_wait _ _ _ _ _ _ _ I Hw) as (_ & _ & Hr & He & _). injection He as E1 E2 E3 E4 E5 E6 E7.
  unfold a_gives_up, a_pass, hope, weight in *. rewrite E3, E1, E2, E4, E5, E6, E7. rewrite Hreq.
  assert (Hset : forall l, In l ((a_q1 a ++ a_q2 a) ++ acknums (a_line a)) ->
    In l (([] ++ []) ++ acknums (a_line a) ++ a_q1 a ++ a_q2 a)) by (intros l; cbn; rewrite !in_app_iff; tauto).
  destruct (a_dp a) as [[[[] r] t]|] eqn:Edp.
  - cbn [a_dp a_n a_d a_line a_q1 a_q2 a_req]. split; [done|]. autorewrite with items. split; [right; left; apply in_or_app; right; by left|]. split.
    + destruct (a_dp b) as [[[[] ?] ?]|]; try done. destruct Hb as [?|[?|[? ?]]]; auto.
    + rewrite !line_weight_app, line_weight_cons, !line_weight_acks, Hr, !length_app. cbn [item_weight app length]. lia.
  - rewrite (Hnow _ _ eq_refl), elapsed_now. cbn [andb a_dp a_n a_d a_line a_q1 a_q2 a_req]. split; [done|]. autorewrite with items. split; [|split].
    + exact Ha.
    + destruct (a_dp b) as [[[[] ?] ?]|]; try done. destruct Hb as [?|[?|[? ?]]]; auto.
    + rewrite !line_weight_app, !line_weight_acks, Hr, !length_app. cbn [app length]. lia.
  - cbn [a_dp a_n a_d a_line a_q1 a_q2 a_req]. split; [done|]. autorewrite with items. split; [done|]. split.
    + destruct (a_dp b) as [[[[] ?] ?]|]; try done. destruct Hb as [?|[?|[? ?]]]; auto.
    + rewrite !line_weight_app, !line_weight_acks, Hr, !length_app. cbn [app length]. lia.
Qed.

Lemma quiet_queues a : Awake a -> a_req a = false -> a_q1 a = [] /\ a_q2 a = [].
Proof. intros [_ K _] Hr. destruct (a_q1 a), (a_q2 a); cbn in K; try done; rewrite K in Hr by done; done. Qed.

Lemma hope_timeout N M a b r t : Inv N M a b -> a_req a = false -> a_dp a = Some (PKG_WAIT_RESPONSE, r, t) -> 0 < r -> hope b a ->
  exists a1, a_wait (a_tp a) (a_tp a) a = Some a1 /\ a_gives_up (a_tp a) a1 = false /\
    hope (a_pass (a_tp a) a1) b /\ hope b (a_pass (a_tp a) a1) /\ weight N (a_pass (a_tp a) a1) < weight N a.
Proof.
  intros (_ & _ & Ka & _) Hr Edp Hpos Hb. destruct (quiet_queues a Ka Hr) as [Hq1 Hq2]. destruct Ka as [_ _ K]. rewrite Edp in K. destruct K as [K1 K2].
  unfold a_wait. rewrite K1, Hr, Z.sub_diag.
  replace (a_tp a + Z.quot 0 ms * ms <=? a_tp a) with true by (symmetry; apply Z.leb_le; rewrite Z.quot_0_l by done; lia). eexists. split; [reflexivity|].
  assert (He : elapsed (a_tp a) t = true) by (apply (timer_elapsed t (a_tp a)); [lia|]; rewrite <- K2, Z.sub_diag, Z.quot_0_l by done; lia).
  unfold a_gives_up, a_pass, weight, hope in *. cbn [a_dp a_q1 a_q2 a_line a_n a_d a_req]. rewrite Edp, He, Hq1, Hq2, Hr.
  rewrite (proj2 (Z.ltb_lt 0 r) Hpos). cbn [a_dp a_q1 a_q2 a_line a_n a_d a_req map app negb andb]. rewrite Hq1, Hq2 in Hb. rewrite !app_nil_r.
  split_and!; [done|done| |cbn [length]; lia].
  destruct (a_dp b) as [[[[] ?] ?]|]; done.
Qed.

Lemma hope_request N a b : a_dp a = None -> hope b a -> hope (a_request a) b /\ hope b (a_request a) /\ weight N (a_request a) < weight N a.
Proof.
  intros Hdp Hb. split_and!; [done| |].
  - unfold hope in *. cbn [a_request a_d a_n a_q1 a_q2 a_line]. by rewrite app_nil_r.
  - unfold weight. cbn [a_request a_dp a_q1 a_q2 a_line a_n a_req]. rewrite Hdp, app_nil_r. destruct (a_req a); lia.
Qed.

(** Nothing is left to do for side [a]. *)
Definition idle (N : nat) (a : ASide) : Prop :=
  a_line a = [] /\ a_req a = false /\ a_dp a = None /\ a_n a = N.

Definition Good (sid : Z) (P Q : list piece) (w : Z) (X Y : Side) : Prop :=
  exists a b, Rep sid P Q a X /\ Rep sid Q P b Y /\ Inv (length P) (length Q) a b /\ hope a b /\ hope b a /\
    weight (length P) a + weight (length Q) b = w.

Lemma Good_sym sid P Q w X Y : Good sid P Q w X Y -> Good sid Q P w Y X.
Proof. intros (a & b & H1 & H2 & H3 & H4 & H5 & H6). exists b, a. split_and!; [done..|by apply Inv_sym|done|done|lia]. Qed.

Section Advance.
Context (sid : Z) (P Q : list piece) (ZP : Sizes sid P) (ZQ : Sizes sid Q).
Context (eX : UartEnv) (hX : bool) (eY : UartEnv) (hY : bool) `{!UartEnvOk eX} `{!UartEnvOk eY}.
Context (a b : ASide) (X Y : Side) (RX : Rep sid P Q a X) (RY : Rep sid Q P b Y) (I : Inv (length P) (length Q) a b).
Context (Ha : hope a b) (Hb : hope b a).

Let w := weight (length P) a + weight (length Q) b.

Definition advances : Prop := exists X' Y' w', half sid eX hX eY hY (X, Y) (X', Y') /\ Good sid P Q w' X' Y' /\ w' < w.

Lemma advance_read : a_line a <> [] -> advances.
Proof.
  intros Hl. destruct (a_line a) as [|it l] eqn:El; [done|].
  destruct (sim_read sid P Q ZP ZQ eY hY 1 a b X Y RX RY I) as (u & Hu & b' & R' & I').
  pose proof (hope_read _ _ _ _ _ _ I El Ha Hb) as (H1 & H2 & H3).
  exists (set_u (set_line (drop 1 (line (sd_u X))) (sd_u X)) X), (set_u u Y), (weight (length P) (a_set_line l a) + weight (length Q) (a_recv it b)).
  split; [|split; [|exact H3]].
  - apply (H_read _ _ _ _ _ X Y 1 0 u); [|exact Hu]. rewrite (r_line _ _ _ _ _ RX), El. cbn. lia.
  - exists (a_set_line l a), (a_recv it b). split_and!; [| |by apply inv_recv|done..].
    + replace l with (drop 1 (a_line a)) by by rewrite El. by apply rep_set_line.
    + clear R' I' b'. assert (Hone : take 1 (line (sd_u X)) = [item_bytes sid P it]) by by rewrite (r_line _ _ _ _ _ RX), El.
      rewrite Hone in Hu. cbn [concat] in Hu. unfold PackageProcess in Hu.
      pose proof (Inv_wf _ _ _ _ (Inv_sym _ _ _ _ I)) as Wf. pose proof (inv_item_ok _ _ _ _ _ _ P Q I El eq_refl eq_refl) as Hit.
      assert (Hlen : exists f, length (item_bytes sid P it ++ []) = S f).
      { destruct (item_bytes sid P it) eqn:E; [|by eexists]. destruct it; by apply package_nonnil in E. }
      destruct Hlen as [f Hlen]. rewrite Hlen in Hu. destruct it as [i|j].
      * destruct (sim_recv_data sid Q P ZP eY hY b Y i RY Wf Hit) as (u' & Hu' & R'). rewrite Hu' in Hu; [|unfold reader_session; destruct hY; auto].
        cbn in Hu. injection Hu as <-. exact R'.
      * destruct (sim_recv_ack sid Q P ZQ eY hY b Y j RY Wf Hit) as (u' & Hu' & R'). rewrite Hu' in Hu. cbn in Hu. injection Hu as <-. exact R'.
Qed.

Lemma advance_pass start now a1 : start <= now -> a_wait start now a = Some a1 -> a_gives_up now a1 = false ->
  hope (a_pass now a1) b -> hope b (a_pass now a1) -> weight (length P) (a_pass now a1) < weight (length P) a -> advances.
Proof.
  intros Hsn Hw Hg H1 H2 H3. pose proof (sim_wait sid P Q start now a X RX) as Hs. rewrite Hw in Hs. destruct Hs as (u1 & Hu1 & R1).
  destruct (sim_pass sid P Q ZP ZQ eX hX now a1 (set_u u1 X) R1 (a_wait_wf _ _ _ _ _ _ Hw (Inv_wf _ _ _ _ I))) as (u & Hu & R). rewrite Hg in R.
  exists (set_u u X), Y, (weight (length P) (a_pass now a1) + weight (length Q) b). split; [|split; [|unfold w; lia]].
  - apply (H_write _ _ _ _ _ X Y start now); [done|]. unfold UartWriteRound. rewrite Hu1. f_equal. exact Hu.
  - exists (a_pass now a1), b. split_and!; [exact R|done|by apply (inv_pass _ _ start now a)|done..].
Qed.

Lemma advance_write : a_req a = true -> advances.
Proof.
  intros Hr. set (now := match a_dp a with Some (PKG_WAIT_RESPONSE, _, t) => t | _ => 0 end).
  assert (Hw : exists a1, a_wait now now a = Some a1) by (unfold a_wait; rewrite Hr; destruct (a_tmo a); by eexists).
  destruct Hw as [a1 Hw]. destruct (hope_write _ _ _ _ a1 now I Hr Hw) as (Hg & H1 & H2 & H3); [|done..|by apply (advance_pass now now a1)].
  intros r t He. unfold now. by rewrite He.
Qed.

Lemma advance_timeout : a_line a = [] -> a_line b = [] -> a_req a = false -> a_req b = false -> a_dp a <> None -> advances.
Proof.
  intros Hla Hlb Hra Hrb Hdp. pose proof I as (_ & _ & Ka & Kb). destruct (quiet_queues b Kb Hrb) as [Hq1 Hq2].
  destruct (a_dp a) as [[[[] r] t]|] eqn:Edp; [|..|done].
  - destruct Ka as [K _ _]. rewrite Edp in K. congruence.
  - assert (Hpos : 0 < r).
    { unfold hope in Ha. rewrite Edp, Hla, Hlb, Hq1, Hq2 in Ha. cbn in Ha. tauto. }
    destruct (hope_timeout _ _ a b r t I Hra Edp Hpos Hb) as (a1 & Hw & Hg & H1 & H2 & H3). by apply (advance_pass (a_tp a) (a_tp a) a1).
Qed.

Lemma advance_request : a_dp a = None -> (a_n a < length P)%nat -> advances.
Proof.
  intros Hdp Hn. destruct (sd_msgs X) as [|d ds] eqn:Em.
  { pose proof (r_rest _ _ _ _ _ RX) as Hr. rewrite Em in Hr. cbn in Hr. apply (f_equal length) in Hr. rewrite length_drop in Hr. cbn in Hr. lia. }
  pose proof (sim_request sid P Q ZP a X d ds RX (Inv_wf _ _ _ _ I) Em) as Hs. rewrite Hdp in Hs. destruct Hs as (Hlt & off & u & Hu & R).
  destruct (hope_request (length P) a b Hdp Hb) as (H1 & H2 & H3).
  eexists _, Y, (weight (length P) (a_request a) + weight (length Q) b). split; [by apply (H_request _ _ _ _ _ X Y d ds off u)|]. split; [|unfold w; lia].
  exists (a_request a), b. split_and!; [exact R|done|by apply inv_request|done..].
Qed.

End Advance.

(** ** The theorems *)

(** The packages in which a side's messages travel. *)
Definition packages (msgs : list bytes) : list piece := concat (map pieces msgs).

Definition messages_ok (msgs : list bytes) : Prop :=
  Forall (fun m => m <> [] /\ zlen m < 2 ^ 31) msgs /\ Z.of_nat (length (packages msgs)) < 2 ^ 32.

Definition reachable (sid : Z) (eA eB : UartEnv) (MA MB : list bytes) (s : Side * Side) : Prop :=
  rtc (step sid eA eB) (start_side sid true MA, start_side sid false MB) s.

Lemma packages_concat msgs : concat (map snd (packages msgs)) = concat msgs.
Proof.
  unfold packages. induction msgs as [|m msgs IH]; cbn [map concat]; [done|]. by rewrite map_app, concat_app, pieces_concat, IH.
Qed.

Lemma messages_sizes sid msgs : in_u 32 sid -> messages_ok msgs -> Sizes sid (packages msgs).
Proof.
  intros Hs [Hm Hc]. constructor; [done| |done]. apply List.Forall_concat, List.Forall_map. eapply List.Forall_impl; [|exact Hm].
  cbn. intros m [? _]. by apply pieces_ok.
Qed.

Definition a_start : ASide := mkASide [] None [] [] 0 0 false 0 false.

Lemma rep_start sid host msgs other : messages_ok msgs -> Rep sid (packages msgs) (packages other) a_start (start_side sid host msgs).
Proof.
  intros [Hm _]. constructor; cbn; try done.
  - eexists. rewrite lookup_singleton_eq. done.
  - destruct msgs as [|m msgs]; cbn; [done|]. by rewrite zdrop_0.
  - split; [done|]. destruct msgs as [|m msgs]; [done|]. apply List.Forall_cons_iff in Hm as [[? _] _]. cbn. split; [done|]. destruct m; [done|cbn [length]; lia].
Qed.

Lemma inv_start N M : Inv N M a_start a_start.
Proof.
  assert (H : forall N, Dir N a_start a_start).
  { intros K. constructor; cbn; try lia; [|constructor..]. exists 0%nat, 0%nat. split_and!; [done|lia..]. }
  split_and!; [apply H..| |]; by constructor.
Qed.

Lemma related_sym sid P Q X Y : Related sid P Q X Y -> Related sid Q P Y X.
Proof. intros (a & b & ? & ? & ?). exists b, a. split_and!; [done..|]. by apply Inv_sym. Qed.

Section Link.
Context (sid : Z) (eA eB : UartEnv) (MA MB : list bytes) `{!UartEnvOk eA} `{!UartEnvOk eB}.
Context (Hsid : in_u 32 sid) (HA : messages_ok MA) (HB : messages_ok MB).

Let PA := packages MA.
Let PB := packages MB.
Let ZA : Sizes sid PA := messages_sizes sid MA Hsid HA.
Let ZB : Sizes sid PB := messages_sizes sid MB Hsid HB.

Lemma reachable_related A B : reachable sid eA eB MA MB (A, B) -> alive A -> alive B -> Related sid PA PB A B.
Proof.
  intros H. apply (rtc_ind_r (R := step sid eA eB) (fun s => alive s.1 -> alive s.2 -> Related sid PA PB s.1 s.2) (start_side sid true MA, start_side sid false MB)
    ) with (z := (A, B)); [|clear A B H|exact H].
  - intros _ _. exists a_start, a_start. split_and!; [by apply rep_start..|apply inv_start].
  - intros [A0 B0] [A B] _ Hs IH H1 H2. cbn [fst snd] in *.
    inversion Hs as [? ? ? ? Ha Hb Hh|? ? ? ? Ha Hb Hh]; subst; specialize (IH Ha Hb).
    + destruct (half_related sid PA PB ZA ZB eA true eB false _ _ _ _ IH Hh) as [?|[? _]]; done.
    + apply related_sym in IH. destruct (half_related sid PB PA ZB ZA eB false eA true _ _ _ _ IH Hh) as [?|[? _]]; [by apply related_sym|done].
Qed.

Lemma rep_stream P Q a X : Rep sid P Q a X -> stream sid X = concat (map snd (take (a_d a) Q)).
Proof. intros R. destruct (r_sess _ _ _ _ _ R) as (s & Hs & _ & _ & Hst). unfold stream. by rewrite Hs. Qed.

Lemma stream_prefix P Q a X : Rep sid P Q a X -> exists k, concat (map snd Q) = stream sid X ++ k.
Proof.
  intros R. rewrite (rep_stream _ _ _ _ R). exists (concat (map snd (drop (a_d a) Q))). by rewrite <- concat_app, <- map_app, take_drop.
Qed.

Lemma stream_complete P Q a b Y : Rep sid Q P b Y -> Dir (length P) a b -> a_dp a = None -> a_n a = length P ->
  stream sid Y = concat (map snd P).
Proof.
  intros RY [_ _ Hdp _ _ _] Ha Hn. rewrite Ha in Hdp. rewrite (rep_stream _ _ _ _ RY), Hdp, Hn. by rewrite firstn_all.
Qed.

Lemma no_data_pending P Q a X : Rep sid P Q a X -> (a_n a <= length P)%nat -> sd_msgs X = [] -> Forall (fun p => p_response p = true) (outPkgs (sd_u X)) ->
  a_dp a = None /\ a_n a = length P.
Proof.
  intros [Ro _ _ _ _ _ Rr _] Hn Hm Hp. rewrite Ro in Hp. apply Forall_app in Hp as [_ Hp]. apply Forall_app in Hp as [Hp _]. split.
  - unfold dp_list in Hp. destruct (a_dp a) as [[[st r] t]|]; [|done]. apply List.Forall_cons_iff in Hp as [Hp _]. done.
  - rewrite Hm in Rr. cbn in Rr. apply (f_equal length) in Rr. rewrite length_drop in Rr. cbn in Rr. lia.
Qed.

Lemma write_defined P Q a b X e host start now : Sizes sid P -> Sizes sid Q -> UartEnvOk e -> Rep sid P Q a X -> Inv (length P) (length Q) a b ->
  UartWriteRound e host start now (sd_u X) = None \/ exists u, UartWriteRound e host start now (sd_u X) = Some (Ok u).
Proof.
  intros ZP ZQ He R I. unfold UartWriteRound. pose proof (sim_wait sid P Q start now a X R) as Hw. destruct (a_wait start now a) as [a1|] eqn:Ew; [|rewrite Hw; auto].
  destruct Hw as (u1 & -> & R1). right. destruct (sim_pass sid P Q ZP ZQ e host now a1 (set_u u1 X) R1 (a_wait_wf _ _ _ _ _ _ Ew (Inv_wf _ _ _ _ I))) as (u & Hu & _).
  exists u. f_equal. exact Hu.
Qed.

(** Both sides can go on until everything is delivered. *)
Definition finishes (A B : Side) : Prop :=
  exists A' B', rtc (step sid eA eB) (A, B) (A', B') /\ alive A' /\ alive B' /\ outPkgs (sd_u A') = [] /\ outPkgs (sd_u B') = [] /\
    stream sid B' = concat MA /\ stream sid A' = concat MB.

Lemma good_finishes w A B : Good sid PA PB w A B -> finishes A B.
Proof.
  assert (Hw0 : forall w A B, Good sid PA PB w A B -> 0 <= w).
  { intros w' A' B' (a & b & _ & _ & I & _ & _ & <-). pose proof I as (D1 & D2 & _). pose proof (weight_nonneg _ _ _ D1). pose proof (weight_nonneg _ _ _ D2). lia. }
  revert A B. induction (Z.lt_wf 0 w) as [w _ IH]. intros A B G. pose proof (Hw0 w A B G) as Hpos.
  assert (Hgo : (exists A' B' w', step sid eA eB (A, B) (A', B') /\ Good sid PA PB w' A' B' /\ w' < w) -> finishes A B).
  { intros (A1 & B1 & w' & Hs & G' & Hlt). destruct (IH w' ltac:(pose proof (Hw0 _ _ _ G'); lia) A1 B1 G') as (A2 & B2 & Hr & Hrest).
    exists A2, B2. split; [by apply (rtc_l _ _ (A1, B1))|done]. }
  destruct G as (a & b & RA & RB & I & Ha & Hb & Hw). pose proof (r_freed _ _ _ _ _ RA) as FA. pose proof (r_freed _ _ _ _ _ RB) as FB.
  assert (HgA : advances sid PA PB eA true eB false a b A B -> finishes A B).
  { intros (A1 & B1 & w' & Hh & G' & Hlt). apply Hgo. exists A1, B1, w'. split; [by constructor|]. split; [done|lia]. }
  assert (HgB : advances sid PB PA eB false eA true b a B A -> finishes A B).
  { intros (B1 & A1 & w' & Hh & G' & Hlt). apply Hgo. exists A1, B1, w'. split; [by apply S_daemon|]. split; [by apply Good_sym|lia]. }
  pose proof (Inv_sym _ _ _ _ I) as I'. pose proof I as ([Hn _ _ _ _ _] & [Hm _ _ _ _ _] & Ka & Kb).
  destruct (a_line a) as [|ia la] eqn:Ela; [|apply HgA, (advance_read sid PA PB ZA ZB eA true eB false a b A B RA RB I Ha Hb); by rewrite Ela].
  destruct (a_line b) as [|ib lb] eqn:Elb; [|apply HgB, (advance_read sid PB PA ZB ZA eB false eA true b a B A RB RA I' Hb Ha); by rewrite Elb].
  destruct (a_req a) eqn:Era; [by apply HgA, (advance_write sid PA PB ZA ZB eA true eB false a b A B RA RB I Ha Hb)|].
  destruct (a_req b) eqn:Erb; [by apply HgB, (advance_write sid PB PA ZB ZA eB false eA true b a B A RB RA I' Hb Ha)|].
  destruct (decide (a_dp a = None)) as [Ea|Ea]; [|by apply HgA, (advance_timeout sid PA PB ZA ZB eA true eB false a b A B RA RB I Ha Hb)].
  destruct (decide (a_dp b = None)) as [Eb|Eb]; [|by apply HgB, (advance_timeout sid PB PA ZB ZA eB false eA true b a B A RB RA I' Hb Ha)].
  destruct (decide (a_n a = length PA)) as [Na|Na]; [|apply HgA, (advance_request sid PA PB ZA eA true eB false a b A B RA RB I Hb Ea); lia].
  destruct (decide (a_n b = length PB)) as [Nb|Nb]; [|apply HgB, (advance_request sid PB PA ZB eB false eA true b a B A RB RA I' Ha Eb); lia].
  exists A, B. split; [apply rtc_refl|]. destruct (quiet_queues a Ka Era) as [Qa1 Qa2], (quiet_queues b Kb Erb) as [Qb1 Qb2].
  pose proof (r_out _ _ _ _ _ RA) as OA. pose proof (r_out _ _ _ _ _ RB) as OB. unfold dp_list in OA, OB. rewrite Ea, Qa1, Qa2 in OA. rewrite Eb, Qb1, Qb2 in OB.
  pose proof I as (D1 & D2 & _). split_and!; [done..| |]; rewrite <- packages_concat.
  - by apply (stream_complete PA PB a b B).
  - by apply (stream_complete PB PA b a A).
Qed.

End Link.

(** Every package that waits for its acknowledgement may still be sent again. *)
Definition retries_left (X : Side) : Prop :=
  Forall (fun p => p_pkgStatus p = PKG_WAIT_RESPONSE -> 0 < p_retryChance p) (outPkgs (sd_u X)).

Lemma retries_hope sid P Q a b X : Rep sid P Q a X -> retries_left X -> hope a b.
Proof.
  intros [Ro _ _ _ _ _ _ _] Hr. unfold retries_left in Hr. rewrite Ro in Hr. apply Forall_app in Hr as [_ Hr]. apply Forall_app in Hr as [Hr _].
  unfold hope, dp_list in *. destruct (a_dp a) as [[[[] r] t]|]; [done| |done]. apply List.Forall_cons_iff in Hr as [Hr _]. left. by apply Hr.
Qed.


(** C22. The link cannot get stuck: from every reachable state in which no package
    has used up its retries, a run without further losses delivers everything both
    sides have to send and empties both queues.  In particular the writer is always
    woken in time: each of its rounds needs a request or an expired timer. *)
Theorem uart_link_progress (sid : Z) (eA eB : UartEnv) (MA MB : list bytes) (A B : Side) :
  UartEnvOk eA -> UartEnvOk eB -> in_u 32 sid -> messages_ok MA -> messages_ok MB ->
  reachable sid eA eB MA MB (A, B) -> alive A -> alive B -> retries_left A -> retries_left B ->
  exists A' B', rtc (step sid eA eB) (A, B) (A', B') /\ alive A' /\ alive B' /\ outPkgs (sd_u A') = [] /\ outPkgs (sd_u B') = [] /\
    stream sid B' = concat MA /\ stream sid A' = concat MB.
Proof.
  intros EA EB Hsid HA HB Hr FA FB LA LB. destruct (reachable_related sid eA eB MA MB Hsid HA HB A B Hr FA FB) as (a & b & RA & RB & I).
  apply (good_finishes sid eA eB MA MB Hsid HA HB (weight (length (packages MA)) a + weight (length (packages MB)) b)).
  exists a, b. split_and!; [done..|by apply (retries_hope sid (packages MA) (packages MB) a b A)|by apply (retries_hope sid (packages MB) (packages MA) b a B)|done].
Qed.

(** ** Witnesses and findings *)

(** An environment that takes everything at once. *)
Definition env_all : UartEnv := mkUartEnv 1 (fun d => zlen d) (fun d => zlen d).

#[export] Instance env_all_ok : UartEnvOk env_all.
Proof. constructor; [done|..]; intros [|x d] H; cbn [env_all env_send env_write length] in *; try done; lia. Qed.

Lemma messages_ok_small (m : list bytes) : bool_decide (Forall (fun d => d <> [] /\ zlen d < 2 ^ 31) m) && (Z.of_nat (length (packages m)) <? 2 ^ 32) = true -> messages_ok m.
Proof. intros H. breflect. by split. Qed.

Definition demo_A : list bytes := [str "ping"].
Definition demo_B : list bytes := [str "pong"].


Lemma uart_link_progress_witness : exists A' B',
  rtc (step 7 env_all env_all) (start_side 7 true demo_A, start_side 7 false demo_B) (A', B') /\
  stream 7 B' = concat demo_A /\ stream 7 A' = concat demo_B.
Proof.
  destruct (uart_link_progress 7 env_all env_all demo_A demo_B (start_side 7 true demo_A) (start_side 7 false demo_B))
    as (A' & B' & H1 & _ & _ & _ & _ & H2 & H3).
  - exact env_all_ok.
  - exact env_all_ok.
  - unfold in_u; lia.
  - apply messages_ok_small. vm_compute. reflexivity.
  - apply messages_ok_small. vm_compute. reflexivity.
  - apply rtc_refl.
  - reflexivity.
  - reflexivity.
  - constructor.
  - constructor.
  - exists A', B'. split; [exact H1|]. split; [exact H2|exact H3].
Defined.

(** While a session's slot is taken, [SendUARTData] waits. *)
Lemma send_waits sid data off u s : in_u 32 sid -> sessions u !! sid = Some s -> sid ∈ hasWaitPkg u ->
  SendUARTData_step sid data off u = None \/ exists err v, SendUARTData_step sid data off u = Some (Ok (SendFailed err v)).
Proof.
  intros Hsid Hs Hw. unfold SendUARTData_step. rewrite Hs. unfold SendUARTData_package. cbn zeta. cbn match.
  destruct (negb (memcpy_ok _ _)); [right; by eexists _, _|]. left. unfold RequestSendPackage.
  rewrite head_roundtrip; [cbn [uh_sessionId]; unfold slots_Wait; by rewrite decide_True|].
  unfold head_ok. cbn [uh_flag uh_option uh_sessionId uh_dataSize uh_packageIndex uh_dataCheckSum uh_headCheckSum].
  split; [done|]. split; [destruct (negb _); by split|]. split; [done|].
  split; [apply (in_u_mono 16); [lia|by apply uwrap_range]|]. split; [by apply uwrap_range|]. split; apply zero_range.
Qed.

(** Packages are identified by the masked session id: the packages with equal
    index of two sessions whose ten-digit ids differ only in the middle digits have
    the same key, so the second one takes the slot of its session but is never
    queued, and every later package of that session waits for ever. *)
Theorem masked_ids_collide :
  let u := mkUart [] ∅ (mkFsm false 0 false)
             {[1000000001 := mkUSession true (mkHUart 0 0 0 false) []; 1000009001 := mkUSession true (mkHUart 0 0 0 false) []]} 0 [] [] in
  exists u1 u2,
    SendUARTData_step 1000000001 (str "one") 0 u = Some (Ok (SendNext 3 u1)) /\
    SendUARTData_step 1000009001 (str "two") 0 u1 = Some (Ok (SendNext 3 u2)) /\
    outPkgs u2 = outPkgs u1 /\
    forall data off, SendUARTData_step 1000009001 data off u2 = None \/
      exists err v, SendUARTData_step 1000009001 data off u2 = Some (Ok (SendFailed err v)).
Proof.
  eexists _, _. split; [vm_compute; reflexivity|]. split; [vm_compute; reflexivity|]. split; [reflexivity|]. intros data off.
  eapply send_waits; [unfold in_u; lia|vm_compute; reflexivity|]. apply (bool_decide_unpack _). vm_compute. exact I.
Qed.

(** A reset request cannot be sent: its head announces 24 bytes of data that the
    buffer passed to [RequestSendPackage] does not have, so the check sum reads past
    the end of it. *)
Theorem soft_reset_reads_past_buffer (sid : Z) (u : Uart) :
  in_u 32 sid -> List.find (key_is (data_key sid 0)) (outPkgs u) = None -> SendUartSoftReset true sid u = Undefined.
Proof.
  intros Hsid Hf. unfold SendUartSoftReset, RequestSendPackage_queued. set (h := UartHead_new sid PKG_OPTION_RESET sizeof_UartHead 0).
  assert (Hh : UartHead_of (UartHead_bytes h) = h).
  { pose proof (head_roundtrip h []) as H. rewrite app_nil_r in H. apply H. unfold h, head_ok, UartHead_new.
    cbn [uh_flag uh_option uh_sessionId uh_dataSize uh_packageIndex uh_dataCheckSum uh_headCheckSum].
    split; [done|]. split; [by split|]. split; [done|]. split; [by split|]. split; [by split|]. split; by split. }
  rewrite Hh. change (ToPkgIdentityString h (IsResponsePackage h)) with (data_key sid 0). rewrite Hf. unfold UpdateCheckSum. rewrite Hh.
  unfold package_data. rewrite length_head by done. done.
Qed.

Lemma soft_reset_witness : SendUartSoftReset true 7 (sd_u (start_side 7 true [])) = Undefined.
Proof. apply (soft_reset_reads_past_buffer 7 (sd_u (start_side 7 true []))); [unfold in_u; lia|reflexivity]. Defined.
