(* ===== verification/Transfer.v ===== *)
(** * Transfer: the file transfer task ([transfer.cpp], [file.cpp], [task.cpp])

    One [HdcFile] task per side.  The master reads the file in chunks and sends
    each with a 64-byte prefix that holds a serialized [TransferPayload]; the slave
    writes every chunk at its own offset.  All file access is asynchronous: a
    [uv_fs_t] request is submitted and [OnFileIO] runs when it completes, in any
    order.  The state is the [CtxFile] of the task, its reference count, the
    requests in flight and the number of I/O buffers taken; what the task sends to
    its peer or reports is logged in [t_out].

    The LZ4 functions are those of the library, and appear as arguments.  The
    results of allocations and of submitting a request are in an [IoEnv].  The
    negotiation commands ([CMD_FILE_INIT], [CMD_FILE_CHECK], [CMD_FILE_MODE],
    [CMD_DIR_MODE]) are an argument of the command dispatcher.  File modes and
    times of the received file are not modelled. *)

From Stdlib Require Import String ZArith Lia List Bool.
From stdpp Require Import base list numbers option.
From S2P Require Import Prelude Defs Serial SerialFacts Messages.

Definition payloadPrefixReserve : Z := 64.
Definition MAX_USBFFS_BULK : Z := 512 * 1024.
Definition MAX_USBFFS_BULK_STABLE : Z := 61 * 1024.
Definition COMPRESS_NONE : Z := 0.
Definition COMPRESS_LZ4 : Z := 1.
Definition FEATURE_FLAG_MAX_SIZE : Z := 8.
Definition ENOSPC : Z := 28.
Definition EIO : Z := 5.

(** [GetMaxBufSize() * maxTransferBufFactor] and its stable variant, with the
    factor 0.8 and the result truncated to [int]. *)
Definition maxReadSize (stable : bool) : Z :=
  (if stable then MAX_SIZE_IOBUF_STABLE else MAX_SIZE_IOBUF) * 8 / 10.

(** ** State *)

Record CtxFile := mkCtxFile {
  cf_fileSize : Z;
  cf_dirSize : Z;
  cf_indexIO : Z;
  cf_fileCnt : Z;
  cf_isDir : bool;
  cf_localName : bytes;
  cf_localPath : bytes;
  cf_remotePath : bytes;
  cf_localDirName : bytes;
  cf_fileModeSync : bool;
  cf_master : bool;
  cf_closeNotify : bool;
  cf_ioFinish : bool;
  cf_closeReqSubmitted : bool;
  cf_isStableBufSize : bool;
  cf_isFdOpen : bool;
  cf_lastErrno : Z;
  cf_taskQueue : list bytes;
  cf_transferConfig : TransferConfig;
  cf_fileMode : FileMode;
  cf_openFd : Z;
  cf_sandboxMode : bool;
  cf_isOtherSideSandboxSupported : bool
}.

Definition set_cf_fileSize (x : Z) (v : CtxFile) : CtxFile :=
  mkCtxFile x (cf_dirSize v) (cf_indexIO v) (cf_fileCnt v) (cf_isDir v) (cf_localName v) (cf_localPath v)
    (cf_remotePath v) (cf_localDirName v) (cf_fileModeSync v) (cf_master v) (cf_closeNotify v) (cf_ioFinish v)
    (cf_closeReqSubmitted v) (cf_isStableBufSize v) (cf_isFdOpen v) (cf_lastErrno v) (cf_taskQueue v)
    (cf_transferConfig v) (cf_fileMode v) (cf_openFd v) (cf_sandboxMode v) (cf_isOtherSideSandboxSupported v).
Definition set_cf_indexIO (x : Z) (v : CtxFile) : CtxFile :=
  mkCtxFile (cf_fileSize v) (cf_dirSize v) x (cf_fileCnt v) (cf_isDir v) (cf_localName v) (cf_localPath v)
    (cf_remotePath v) (cf_localDirName v) (cf_fileModeSync v) (cf_master v) (cf_closeNotify v) (cf_ioFinish v)
    (cf_closeReqSubmitted v) (cf_isStableBufSize v) (cf_isFdOpen v) (cf_lastErrno v) (cf_taskQueue v)
    (cf_transferConfig v) (cf_fileMode v) (cf_openFd v) (cf_sandboxMode v) (cf_isOtherSideSandboxSupported v).
Definition set_cf_closeNotify (x : bool) (v : CtxFile) : CtxFile :=
  mkCtxFile (cf_fileSize v) (cf_dirSize v) (cf_indexIO v) (cf_fileCnt v) (cf_isDir v) (cf_localName v)
    (cf_localPath v) (cf_remotePath v) (cf_localDirName v) (cf_fileModeSync v) (cf_master v) x (cf_ioFinish v)
    (cf_closeReqSubmitted v) (cf_isStableBufSize v) (cf_isFdOpen v) (cf_lastErrno v) (cf_taskQueue v)
    (cf_transferConfig v) (cf_fileMode v) (cf_openFd v) (cf_sandboxMode v) (cf_isOtherSideSandboxSupported v).
Definition set_cf_ioFinish (x : bool) (v : CtxFile) : CtxFile :=
  mkCtxFile (cf_fileSize v) (cf_dirSize v) (cf_indexIO v) (cf_fileCnt v) (cf_isDir v) (cf_localName v)
    (cf_localPath v) (cf_remotePath v) (cf_localDirName v) (cf_fileModeSync v) (cf_master v)
    (cf_closeNotify v) x (cf_closeReqSubmitted v) (cf_isStableBufSize v) (cf_isFdOpen v) (cf_lastErrno v)
    (cf_taskQueue v) (cf_transferConfig v) (cf_fileMode v) (cf_openFd v) (cf_sandboxMode v)
    (cf_isOtherSideSandboxSupported v).
Definition set_cf_closeReqSubmitted (x : bool) (v : CtxFile) : CtxFile :=
  mkCtxFile (cf_fileSize v) (cf_dirSize v) (cf_indexIO v) (cf_fileCnt v) (cf_isDir v) (cf_localName v)
    (cf_localPath v) (cf_remotePath v) (cf_localDirName v) (cf_fileModeSync v) (cf_master v)
    (cf_closeNotify v) (cf_ioFinish v) x (cf_isStableBufSize v) (cf_isFdOpen v) (cf_lastErrno v)
    (cf_taskQueue v) (cf_transferConfig v) (cf_fileMode v) (cf_openFd v) (cf_sandboxMode v)
    (cf_isOtherSideSandboxSupported v).
Definition set_cf_isStableBufSize (x : bool) (v : CtxFile) : CtxFile :=
  mkCtxFile (cf_fileSize v) (cf_dirSize v) (cf_indexIO v) (cf_fileCnt v) (cf_isDir v) (cf_localName v)
    (cf_localPath v) (cf_remotePath v) (cf_localDirName v) (cf_fileModeSync v) (cf_master v)
    (cf_closeNotify v) (cf_ioFinish v) (cf_closeReqSubmitted v) x (cf_isFdOpen v) (cf_lastErrno v)
    (cf_taskQueue v) (cf_transferConfig v) (cf_fileMode v) (cf_openFd v) (cf_sandboxMode v)
    (cf_isOtherSideSandboxSupported v).
Definition set_cf_isFdOpen (x : bool) (v : CtxFile) : CtxFile :=
  mkCtxFile (cf_fileSize v) (cf_dirSize v) (cf_indexIO v) (cf_fileCnt v) (cf_isDir v) (cf_localName v)
    (cf_localPath v) (cf_remotePath v) (cf_localDirName v) (cf_fileModeSync v) (cf_master v)
    (cf_closeNotify v) (cf_ioFinish v) (cf_closeReqSubmitted v) (cf_isStableBufSize v) x (cf_lastErrno v)
    (cf_taskQueue v) (cf_transferConfig v) (cf_fileMode v) (cf_openFd v) (cf_sandboxMode v)
    (cf_isOtherSideSandboxSupported v).
Definition set_cf_lastErrno (x : Z) (v : CtxFile) : CtxFile :=
  mkCtxFile (cf_fileSize v) (cf_dirSize v) (cf_indexIO v) (cf_fileCnt v) (cf_isDir v) (cf_localName v)
    (cf_localPath v) (cf_remotePath v) (cf_localDirName v) (cf_fileModeSync v) (cf_master v)
    (cf_closeNotify v) (cf_ioFinish v) (cf_closeReqSubmitted v) (cf_isStableBufSize v) (cf_isFdOpen v) x
    (cf_taskQueue v) (cf_transferConfig v) (cf_fileMode v) (cf_openFd v) (cf_sandboxMode v)
    (cf_isOtherSideSandboxSupported v).
Definition set_cf_fileCnt (x : Z) (v : CtxFile) : CtxFile :=
  mkCtxFile (cf_fileSize v) (cf_dirSize v) (cf_indexIO v) x (cf_isDir v) (cf_localName v) (cf_localPath v)
    (cf_remotePath v) (cf_localDirName v) (cf_fileModeSync v) (cf_master v) (cf_closeNotify v) (cf_ioFinish v)
    (cf_closeReqSubmitted v) (cf_isStableBufSize v) (cf_isFdOpen v) (cf_lastErrno v) (cf_taskQueue v)
    (cf_transferConfig v) (cf_fileMode v) (cf_openFd v) (cf_sandboxMode v) (cf_isOtherSideSandboxSupported v).
Definition set_cf_dirSize (x : Z) (v : CtxFile) : CtxFile :=
  mkCtxFile (cf_fileSize v) x (cf_indexIO v) (cf_fileCnt v) (cf_isDir v) (cf_localName v) (cf_localPath v)
    (cf_remotePath v) (cf_localDirName v) (cf_fileModeSync v) (cf_master v) (cf_closeNotify v) (cf_ioFinish v)
    (cf_closeReqSubmitted v) (cf_isStableBufSize v) (cf_isFdOpen v) (cf_lastErrno v) (cf_taskQueue v)
    (cf_transferConfig v) (cf_fileMode v) (cf_openFd v) (cf_sandboxMode v) (cf_isOtherSideSandboxSupported v).
Definition set_cf_localName (x : bytes) (v : CtxFile) : CtxFile :=
  mkCtxFile (cf_fileSize v) (cf_dirSize v) (cf_indexIO v) (cf_fileCnt v) (cf_isDir v) x (cf_localPath v)
    (cf_remotePath v) (cf_localDirName v) (cf_fileModeSync v) (cf_master v) (cf_closeNotify v) (cf_ioFinish v)
    (cf_closeReqSubmitted v) (cf_isStableBufSize v) (cf_isFdOpen v) (cf_lastErrno v) (cf_taskQueue v)
    (cf_transferConfig v) (cf_fileMode v) (cf_openFd v) (cf_sandboxMode v) (cf_isOtherSideSandboxSupported v).
Definition set_cf_localPath (x : bytes) (v : CtxFile) : CtxFile :=
  mkCtxFile (cf_fileSize v) (cf_dirSize v) (cf_indexIO v) (cf_fileCnt v) (cf_isDir v) (cf_localName v) x
    (cf_remotePath v) (cf_localDirName v) (cf_fileModeSync v) (cf_master v) (cf_closeNotify v) (cf_ioFinish v)
    (cf_closeReqSubmitted v) (cf_isStableBufSize v) (cf_isFdOpen v) (cf_lastErrno v) (cf_taskQueue v)
    (cf_transferConfig v) (cf_fileMode v) (cf_openFd v) (cf_sandboxMode v) (cf_isOtherSideSandboxSupported v).
Definition set_cf_taskQueue (x : list bytes) (v : CtxFile) : CtxFile :=
  mkCtxFile (cf_fileSize v) (cf_dirSize v) (cf_indexIO v) (cf_fileCnt v) (cf_isDir v) (cf_localName v)
    (cf_localPath v) (cf_remotePath v) (cf_localDirName v) (cf_fileModeSync v) (cf_master v)
    (cf_closeNotify v) (cf_ioFinish v) (cf_closeReqSubmitted v) (cf_isStableBufSize v) (cf_isFdOpen v)
    (cf_lastErrno v) x (cf_transferConfig v) (cf_fileMode v) (cf_openFd v) (cf_sandboxMode v)
    (cf_isOtherSideSandboxSupported v).
Definition set_cf_transferConfig (x : TransferConfig) (v : CtxFile) : CtxFile :=
  mkCtxFile (cf_fileSize v) (cf_dirSize v) (cf_indexIO v) (cf_fileCnt v) (cf_isDir v) (cf_localName v)
    (cf_localPath v) (cf_remotePath v) (cf_localDirName v) (cf_fileModeSync v) (cf_master v)
    (cf_closeNotify v) (cf_ioFinish v) (cf_closeReqSubmitted v) (cf_isStableBufSize v) (cf_isFdOpen v)
    (cf_lastErrno v) (cf_taskQueue v) x (cf_fileMode v) (cf_openFd v) (cf_sandboxMode v)
    (cf_isOtherSideSandboxSupported v).
Definition set_cf_fileMode (x : FileMode) (v : CtxFile) : CtxFile :=
  mkCtxFile (cf_fileSize v) (cf_dirSize v) (cf_indexIO v) (cf_fileCnt v) (cf_isDir v) (cf_localName v)
    (cf_localPath v) (cf_remotePath v) (cf_localDirName v) (cf_fileModeSync v) (cf_master v)
    (cf_closeNotify v) (cf_ioFinish v) (cf_closeReqSubmitted v) (cf_isStableBufSize v) (cf_isFdOpen v)
    (cf_lastErrno v) (cf_taskQueue v) (cf_transferConfig v) x (cf_openFd v) (cf_sandboxMode v)
    (cf_isOtherSideSandboxSupported v).
Definition set_cf_openFd (x : Z) (v : CtxFile) : CtxFile :=
  mkCtxFile (cf_fileSize v) (cf_dirSize v) (cf_indexIO v) (cf_fileCnt v) (cf_isDir v) (cf_localName v)
    (cf_localPath v) (cf_remotePath v) (cf_localDirName v) (cf_fileModeSync v) (cf_master v)
    (cf_closeNotify v) (cf_ioFinish v) (cf_closeReqSubmitted v) (cf_isStableBufSize v) (cf_isFdOpen v)
    (cf_lastErrno v) (cf_taskQueue v) (cf_transferConfig v) (cf_fileMode v) x (cf_sandboxMode v)
    (cf_isOtherSideSandboxSupported v).
Definition set_cf_isOtherSideSandboxSupported (x : bool) (v : CtxFile) : CtxFile :=
  mkCtxFile (cf_fileSize v) (cf_dirSize v) (cf_indexIO v) (cf_fileCnt v) (cf_isDir v) (cf_localName v)
    (cf_localPath v) (cf_remotePath v) (cf_localDirName v) (cf_fileModeSync v) (cf_master v)
    (cf_closeNotify v) (cf_ioFinish v) (cf_closeReqSubmitted v) (cf_isStableBufSize v) (cf_isFdOpen v)
    (cf_lastErrno v) (cf_taskQueue v) (cf_transferConfig v) (cf_fileMode v) (cf_openFd v) (cf_sandboxMode v) x.

(** A request in flight: [uv_fs_read], [uv_fs_write] or [uv_fs_open]. *)
Inductive FsReq :=
| FsRead (index nbytes : Z)
| FsWrite (index : Z) (data : bytes)
| FsOpen (path : bytes).

(** What the task does to the outside: packets to the peer, and the final report. *)
Inductive Event :=
| Sent (command : Z) (payload : bytes)
| Report (ok : bool) (size count : Z)
| Failed.

Record Transfer := mkTransfer {
  t_ctx : CtxFile;
  t_refCount : Z;
  t_reqs : list FsReq;
  t_bufs : Z;
  t_out : list Event;
  t_singalStop : bool;
  t_sendOk : bool;
  t_channelTask : bool;
  t_hdcHost : bool;
  t_queuedPackages : Z;
  t_isStableBuf : bool
}.

Definition set_t_ctx (x : CtxFile) (v : Transfer) : Transfer :=
  mkTransfer x (t_refCount v) (t_reqs v) (t_bufs v) (t_out v) (t_singalStop v) (t_sendOk v) (t_channelTask v)
    (t_hdcHost v) (t_queuedPackages v) (t_isStableBuf v).
Definition set_t_refCount (x : Z) (v : Transfer) : Transfer :=
  mkTransfer (t_ctx v) x (t_reqs v) (t_bufs v) (t_out v) (t_singalStop v) (t_sendOk v) (t_channelTask v)
    (t_hdcHost v) (t_queuedPackages v) (t_isStableBuf v).
Definition set_t_reqs (x : list FsReq) (v : Transfer) : Transfer :=
  mkTransfer (t_ctx v) (t_refCount v) x (t_bufs v) (t_out v) (t_singalStop v) (t_sendOk v) (t_channelTask v)
    (t_hdcHost v) (t_queuedPackages v) (t_isStableBuf v).
Definition set_t_bufs (x : Z) (v : Transfer) : Transfer :=
  mkTransfer (t_ctx v) (t_refCount v) (t_reqs v) x (t_out v) (t_singalStop v) (t_sendOk v) (t_channelTask v)
    (t_hdcHost v) (t_queuedPackages v) (t_isStableBuf v).
Definition set_t_out (x : list Event) (v : Transfer) : Transfer :=
  mkTransfer (t_ctx v) (t_refCount v) (t_reqs v) (t_bufs v) x (t_singalStop v) (t_sendOk v) (t_channelTask v)
    (t_hdcHost v) (t_queuedPackages v) (t_isStableBuf v).
Definition set_t_queuedPackages (x : Z) (v : Transfer) : Transfer :=
  mkTransfer (t_ctx v) (t_refCount v) (t_reqs v) (t_bufs v) (t_out v) (t_singalStop v) (t_sendOk v)
    (t_channelTask v) (t_hdcHost v) x (t_isStableBuf v).

Definition on_ctx (f : CtxFile -> CtxFile) (st : Transfer) : Transfer := set_t_ctx (f (t_ctx st)) st.
Definition emit (e : Event) (st : Transfer) : Transfer := set_t_out (t_out st ++ [e]) st.

(** A request is submitted: it holds a reference to the task. *)
Definition submit (r : FsReq) (st : Transfer) : Transfer :=
  set_t_refCount (t_refCount st + 1) (set_t_reqs (t_reqs st ++ [r]) st).

Definition ResetCtx (c : CtxFile) : CtxFile :=
  set_cf_openFd (-1) (set_cf_closeReqSubmitted false (set_cf_ioFinish false
    (set_cf_lastErrno 0 (set_cf_indexIO 0 (set_cf_closeNotify false c))))).

Definition CloseCtxFd (c : CtxFile) : CtxFile :=
  if negb (cf_isFdOpen c) then c else set_cf_isFdOpen false c.

(** ** [HdcTaskBase] *)

Definition SendToAnother (command : Z) (payload : bytes) (st : Transfer) : bool * Transfer :=
  if t_singalStop st then (false, st)
  else if t_channelTask st then (true, emit (Sent command payload) st)
  else if t_sendOk st then (true, emit (Sent command payload) st)
  else (false, st).

Definition TaskFinish (st : Transfer) : Transfer := (SendToAnother CMD_KERNEL_CHANNEL_CLOSE [1] st).2.

Definition ReadyForRelease (st : Transfer) : bool := t_refCount st =? 0.

(** ** Finishing a file ([file.cpp]) *)

Definition WhenTransferFinish (st : Transfer) : Transfer :=
  let st1 := on_ctx (fun c => set_cf_dirSize (u64 (cf_dirSize c + cf_indexIO c)) (set_cf_fileCnt (u32 (cf_fileCnt c + 1)) c)) st in
  (SendToAnother CMD_FILE_FINISH [1] st1).2.

Definition TransferSummary (st : Transfer) : Transfer :=
  let c := t_ctx st in
  let fSize := if 1 <? cf_fileCnt c then cf_dirSize c else cf_indexIO c in
  if (cf_fileSize c <=? cf_indexIO c) || (cf_lastErrno c =? 0)
  then emit (Report true fSize (cf_fileCnt c)) st
  else emit (Report false (cf_indexIO c) (cf_fileSize c)) st.

(** [back()] of an empty queue is undefined; the caller tests for it. *)
Definition TransferNext (st : Transfer) : res Transfer :=
  match rev (cf_taskQueue (t_ctx st)) with
  | [] => Undefined
  | name :: _ =>
      let path := cf_localDirName (t_ctx st) ++ name in
      Ok (submit (FsOpen path)
            (on_ctx (fun c => set_cf_taskQueue (removelast (cf_taskQueue c)) (set_cf_localPath path (set_cf_localName name c))) st))
  end.

(** [CMD_FILE_FINISH] with its one-byte payload. *)
Definition FileFinish (payload : Z) (st : Transfer) : res Transfer :=
  if negb (payload =? 0) then
    let st := on_ctx CloseCtxFd st in
    if cf_isDir (t_ctx st) && negb (bool_decide (cf_taskQueue (t_ctx st) = [])) then TransferNext st
    else Ok (SendToAnother CMD_FILE_FINISH [u8 (payload - 1)] (on_ctx (set_cf_ioFinish true) st)).2
  else Ok (TaskFinish (TransferSummary st)).

(** ** Features and opening ([transfer.cpp]) *)

(** The bit fields of the first of eight bytes: [hugeBuf] is bit 0,
    [reserveBits1] are bits 2 to 7. *)
Definition AddFeatures (st : Transfer) : bytes :=
  [Z.lor (if t_isStableBuf st then 0 else 1) (Z.shiftl 1 2); 0; 0; 0; 0; 0; 0; 0].

Definition CheckFeatures (payload : bytes) (st : Transfer) : bool * Transfer :=
  if zlen payload =? FEATURE_FLAG_MAX_SIZE then
    let raw0 := nth 0 payload 0 in
    let hugeBuf := Z.testbit raw0 0 in
    let c := set_cf_isStableBufSize (if t_isStableBuf st then true else negb hugeBuf) (t_ctx st) in
    (true, set_t_ctx (set_cf_isOtherSideSandboxSupported (0 <? Z.land (Z.shiftr raw0 2) 63) c) st)
  else if zlen payload =? 0 then
    (true, set_t_ctx (set_cf_isOtherSideSandboxSupported false (set_cf_isStableBufSize true (t_ctx st))) st)
  else (false, st).

Definition OnFileOpenFailed (st : Transfer) : res Transfer :=
  if cf_isDir (t_ctx st) && cf_master (t_ctx st) then FileFinish 1 st
  else if cf_isDir (t_ctx st) && negb (cf_master (t_ctx st)) then Ok (SendToAnother CMD_FILE_FINISH [1] st).2
  else Ok (TaskFinish st).

(** Called with the bundle option. *)
Definition CheckSandboxOptionCompatibility (st : Transfer) : res (bool * Transfer) :=
  if negb (cf_isOtherSideSandboxSupported (t_ctx st)) && cf_sandboxMode (t_ctx st) then
    st' ← OnFileOpenFailed (emit Failed st);
    Ok (false, TaskFinish st')
  else Ok (true, st).

Definition CheckMaster (st : Transfer) : Transfer :=
  let c := t_ctx st in
  if cf_fileModeSync c then (SendToAnother CMD_FILE_MODE (SerializeToString FileMode_type (cf_fileMode c)) st).2
  else (SendToAnother CMD_FILE_CHECK (SerializeToString TransferConfig_type (cf_transferConfig c)) st).2.

(** The fields of [uv_fs_fstat] used; the times in nanoseconds. *)
Record StatBuf := mkStatBuf { sb_size : Z; sb_atime : Z; sb_mtime : Z; sb_mode : Z; sb_uid : Z; sb_gid : Z }.

Definition OnFileOpen (result : Z) (sb : StatBuf) (st : Transfer) : res Transfer :=
  let st := set_t_refCount (t_refCount st - 1) st in
  if result <=? 0 then OnFileOpenFailed (emit Failed st)
  else
    let st := on_ctx (fun c => set_cf_openFd result (set_cf_isFdOpen true (ResetCtx c))) st in
    if cf_master (t_ctx st) then
      let c := t_ctx st in
      let tc := set_tc_optionalName (cf_localName c) (set_tc_fileSize (sb_size sb) (cf_transferConfig c)) in
      let tc := if tc_holdTimestamp tc then set_tc_mtime (sb_mtime sb) (set_tc_atime (sb_atime sb) tc) else tc in
      let tc := set_tc_path (cf_remotePath c) tc in
      let fm := mkFileMode (sb_mode sb) (sb_uid sb) (sb_gid sb) (fm_context (cf_fileMode c)) (fm_fullName (cf_fileMode c)) in
      Ok (CheckMaster (set_t_ctx (set_cf_fileMode fm (set_cf_fileSize (sb_size sb) (set_cf_transferConfig tc c))) st))
    else Ok (SendToAnother CMD_FILE_BEGIN (AddFeatures st) st).2.

(** ** Chunks *)

(** Outcomes the code does not control: the two allocations and the submission of
    [SimpleFileIO], the compression buffer, and [uv_fs_statfs] (an error or the
    number of free bytes). *)
Record IoEnv := mkIoEnv { io_buf : bool; io_ctx : bool; io_rc : bool; io_lz4buf : bool; io_statfs : Z + Z }.

(** The result, and the state with the request submitted; on failure the buffer
    and the context are released again. *)
Definition SimpleFileIO (e : IoEnv) (index : Z) (sendBuf : bytes) (nbytes : Z) (st : Transfer) : Z * Transfer :=
  let c := t_ctx st in
  if negb (io_buf e) then (-1, st)
  else if negb (io_ctx e) then (-1, st)
  else
    let bufMaxSize := (if cf_isStableBufSize c then MAX_USBFFS_BULK_STABLE else MAX_USBFFS_BULK) - payloadPrefixReserve in
    if (nbytes <? 0) || (bufMaxSize <? nbytes) then (-1, st)
    else if cf_ioFinish c then (-1, st)
    else if cf_master c then
      if negb (io_rc e) then (-1, st)
      else (nbytes, submit (FsRead index nbytes) (set_t_bufs (t_bufs st + 1) st))
    else if (0 <? nbytes) && negb (memcpy_ok nbytes nbytes) then (-1, st)
    else if negb (io_rc e) then (-1, st)
    else (nbytes, submit (FsWrite index (ztake nbytes sendBuf)) (set_t_bufs (t_bufs st + 1) st)).

Section Lz4.
(** [LZ4_compress_default(src, dst, srcSize, dstCapacity)]: [None] when the result
    is not positive.  [LZ4_decompress_safe]: [None] when it is negative. *)
Context (LZ4_compress_default LZ4_decompress_safe : bytes -> Z -> option bytes).

(** The chunk as [SendIOPayload] encodes it: the type and the bytes sent. *)
Definition compress_chunk (compressType : Z) (data : bytes) : Z * bytes :=
  if 0 <? zlen data then
    if compressType =? COMPRESS_LZ4 then
      match LZ4_compress_default data (zlen data) with
      | Some c => (COMPRESS_LZ4, c)
      | None => (COMPRESS_NONE, data)
      end
    else (compressType, data)
  else (compressType, []).

(** The prefix lies in a buffer that is zero up to the data. *)
Definition SendIOPayload (e : IoEnv) (index : Z) (data : bytes) (st : Transfer) : bool * Transfer :=
  let ct := tc_compressType (cf_transferConfig (t_ctx st)) in
  if (0 <? zlen data) && (ct =? COMPRESS_LZ4) && negb (io_lz4buf e) then (false, st)
  else
    let '(ct', body) := compress_chunk ct data in
    let head := SerializeToString TransferPayload_type (mkTransferPayload index ct' (u32 (zlen body)) (u32 (zlen data))) in
    if (payloadPrefixReserve <? zlen head + 1) || negb (memcpy_ok (payloadPrefixReserve + zlen data) (zlen head + 1))
    then (false, st)
    else
      let prefix := head ++ repeat 0 (Z.to_nat (payloadPrefixReserve - zlen head)) in
      SendToAnother CMD_FILE_DATA (prefix ++ body) st.

Definition RecvIOPayload (e : IoEnv) (data : bytes) (st : Transfer) : bool * Transfer :=
  let dataSize := zlen data in
  if dataSize <? payloadPrefixReserve then (false, st)
  else
    let pld := (ParseFromString TransferPayload_type TransferPayload_zero (ztake payloadPrefixReserve data)).2 in
    if (u32 dataSize - payloadPrefixReserve <? tp_compressSize pld) || (MAX_SIZE_IOBUF <? tp_uncompressSize pld)
    then (false, st)
    else
      let body := ztake (tp_compressSize pld) (zdrop payloadPrefixReserve data) in
      let clearBuf :=
        if 0 <? tp_compressSize pld then
          if tp_compressType pld =? COMPRESS_LZ4 then LZ4_decompress_safe body (tp_uncompressSize pld) else Some body
        else Some [] in
      match clearBuf with
      | None => (false, st)
      | Some clear =>
          if negb (zlen clear =? tp_uncompressSize pld) then (false, st)
          else if (tp_compressType pld =? COMPRESS_NONE) && (dataSize - payloadPrefixReserve <? zlen clear) then (false, st)
          else
            let '(r, st') := SimpleFileIO e (tp_index pld) clear (zlen clear) st in
            if r <? 0 then (false, st') else (true, st')
      end.

(** ** Commands *)

Definition TransferBase_CommandDispatch (e : IoEnv) (command : Z) (payload : bytes) (st : Transfer) : res (bool * Transfer) :=
  if command =? CMD_FILE_BEGIN then
    let '(ok, st) := CheckFeatures payload st in
    if negb ok then Ok (false, st)
    else
      r ← CheckSandboxOptionCompatibility st;
      let '(ok, st) := r in
      match ok with
      | false => Ok (false, st)
      | true =>
          let '(ioRet, st) := SimpleFileIO e (cf_indexIO (t_ctx st)) [] (maxReadSize (cf_isStableBufSize (t_ctx st))) st in
          Ok (negb (ioRet <? 0), st)
      end
  else if command =? CMD_FILE_DATA then
    if HDC_BUF_MAX_BYTES <? zlen payload then Ok (false, st)
    else
      let '(ok, st) := RecvIOPayload e payload st in
      if ok then Ok (true, st) else Ok (false, on_ctx CloseCtxFd st)
  else Ok (true, st).

Section Negotiation.
(** [BeginTransfer], [SlaveCheck] and [FileModeSync]. *)
Context (negotiate : Z -> bytes -> Transfer -> res (bool * Transfer)).

Definition HdcFile_CommandDispatch (e : IoEnv) (command : Z) (payload : bytes) (st : Transfer) : res (bool * Transfer) :=
  r ← TransferBase_CommandDispatch e command payload st;
  let '(ret, st) := r in
  if bool_decide (command ∈ [CMD_FILE_INIT; CMD_FILE_CHECK; CMD_FILE_MODE; CMD_DIR_MODE]) then negotiate command payload st
  else if command =? CMD_FILE_FINISH then
    match payload with
    | [] => Undefined
    | flag :: _ => st' ← FileFinish flag st; Ok (ret, st')
    end
  else Ok (ret, st).
End Negotiation.

(** ** Completion of a read or a write *)

Definition ProcressFileIOIsSuccess (e : IoEnv) (nbytes result : Z) (st : Transfer) : bool * Transfer :=
  if result <? 0 then (false, on_ctx (set_cf_lastErrno (u32 (Z.abs result))) st)
  else if cf_master (t_ctx st) then (true, st)
  else if nbytes =? result then (true, st)
  else
    match io_statfs e with
    | inl err => (false, on_ctx (set_cf_lastErrno (u32 (Z.abs err))) st)
    | inr freeBytes => (false, on_ctx (set_cf_lastErrno (if freeBytes =? 0 then ENOSPC else EIO)) st)
    end.

(** [OnFileClose]; the count of references drops by one. *)
Definition OnFileClose (st : Transfer) : Transfer :=
  let st := on_ctx (set_cf_closeReqSubmitted false) st in
  let st := if cf_closeNotify (t_ctx st) then WhenTransferFinish st else st in
  set_t_refCount (t_refCount st - 1) st.

Definition ProcressFileIOFinish (st : Transfer) : Transfer :=
  let st := on_ctx CloseCtxFd (set_t_refCount (t_refCount st + 1) st) in
  if (cf_lastErrno (t_ctx st) =? 0) && negb (cf_closeReqSubmitted (t_ctx st)) then
    OnFileClose (on_ctx (set_cf_closeReqSubmitted true) st)
  else
    let st := WhenTransferFinish st in set_t_refCount (t_refCount st - 1) st.

Definition ProcressFileIOWrite (result : Z) (st : Transfer) : bool * Transfer :=
  if (cf_fileSize (t_ctx st) <=? cf_indexIO (t_ctx st)) || (result =? 0) then (true, on_ctx (set_cf_closeNotify true) st)
  else (false, st).

Definition ProcressFileIORead (e : IoEnv) (data : bytes) (st : Transfer) : bool * Transfer :=
  let result := zlen data in
  let '(ok, st) := SendIOPayload e (u64 (cf_indexIO (t_ctx st) - result)) data st in
  if negb ok then (true, st)
  else if result =? 0 then (true, st)
  else if cf_indexIO (t_ctx st) <? cf_fileSize (t_ctx st) then
    (false, (SimpleFileIO e (cf_indexIO (t_ctx st)) [] (maxReadSize (cf_isStableBufSize (t_ctx st))) st).2)
  else (true, st).

(** [nbytes] is the size of the request and [result] its result; [data] are the
    bytes a successful read delivered. *)
Definition ProcressFileIO (e : IoEnv) (req : FsReq) (nbytes result : Z) (data : bytes) (st : Transfer) : res (bool * Transfer) :=
  if cf_ioFinish (t_ctx st) then Ok (true, st)
  else
    let '(ok, st) := ProcressFileIOIsSuccess e nbytes result st in
    if negb ok then
      let st := on_ctx (set_cf_closeNotify true) st in
      if negb (cf_master (t_ctx st)) then st' ← FileFinish 0 st; Ok (true, st')
      else Ok (true, st)
    else
      let st := on_ctx (fun c => set_cf_indexIO (u64 (cf_indexIO c + result)) c) st in
      match req with
      | FsRead _ _ => Ok (ProcressFileIORead e data st)
      | FsWrite _ _ => Ok (ProcressFileIOWrite result st)
      | FsOpen _ => Ok (true, st)
      end.

(** The host throttles reads while 64 packages of the channel are queued. *)
Definition IODelayed (req : FsReq) (st : Transfer) : bool * Transfer :=
  if negb (t_hdcHost st) then (false, st)
  else
    match req with
    | FsRead _ _ =>
        if t_channelTask st then
          if 64 <=? t_queuedPackages st then (true, st)
          else (false, set_t_queuedPackages (t_queuedPackages st + 1) st)
        else (false, st)
    | _ => (false, st)
    end.

Definition req_bytes (req : FsReq) : Z :=
  match req with FsRead _ n => n | FsWrite _ d => zlen d | FsOpen _ => 0 end.

(** The callback of request [req], which libuv has removed from the requests in
    flight; a delayed request is put back, to be tried again by a timer. *)
Definition OnFileIO (e : IoEnv) (req : FsReq) (result : Z) (data : bytes) (st : Transfer) : res Transfer :=
  let '(delayed, st) := IODelayed req st in
  if delayed then Ok (set_t_reqs (t_reqs st ++ [req]) st)
  else
    r ← ProcressFileIO e req (req_bytes req) result data st;
    let '(fin, st) := r in
    let st := on_ctx (set_cf_ioFinish fin) st in
    let st := match fin with true => ProcressFileIOFinish st | false => st end in
    Ok (set_t_refCount (t_refCount st - 1) (set_t_bufs (t_bufs st - 1) st)).
End Lz4.
