(* ===== verification/TransferProps.v ===== *)
(** * TransferProps: the theorems about file transfer

    A master and a slave task connected by their packet streams, a file to send
    and the file being written.  Requests complete in any order, reads may be
    short, packets arrive in order; allocations, submissions and writes succeed. *)

From Stdlib Require Import String ZArith Lia List Bool.
From stdpp Require Import base list numbers option sorting.
From S2P Require Import Prelude Defs Serial SerialFacts Messages Transfer.

Definition env_ok (e : IoEnv) : Prop := io_buf e = true /\ io_ctx e = true /\ io_rc e = true /\ io_lz4buf e = true.
Definition env_good : IoEnv := mkIoEnv true true true true (inr 0).

(** The task can still send. *)
Definition link_ok (st : Transfer) : Prop := t_singalStop st = false /\ t_sendOk st = true.

Lemma SendToAnother_ok command payload st :
  link_ok st -> SendToAnother command payload st = (true, emit (Sent command payload) st).
Proof. intros [H1 H2]. unfold SendToAnother. rewrite H1, H2. by destruct (t_channelTask st). Qed.

(** The documented contract of the compressor: what it produces fits and is
    decompressed to the original. *)
Class Lz4Ok (compress decompress : bytes -> Z -> option bytes) : Prop :=
  lz4_roundtrip : forall data c, compress data (zlen data) = Some c ->
    0 < zlen c <= zlen data /\ decompress c (zlen data) = Some data.

(** The fields no operation of a running transfer changes. *)
Definition same_task (st st' : Transfer) : Prop :=
  cf_master (t_ctx st') = cf_master (t_ctx st) /\ cf_fileSize (t_ctx st') = cf_fileSize (t_ctx st) /\
  cf_isDir (t_ctx st') = cf_isDir (t_ctx st) /\ cf_sandboxMode (t_ctx st') = cf_sandboxMode (t_ctx st) /\
  cf_transferConfig (t_ctx st') = cf_transferConfig (t_ctx st) /\ cf_lastErrno (t_ctx st') = cf_lastErrno (t_ctx st) /\
  t_singalStop st' = t_singalStop st /\ t_sendOk st' = t_sendOk st.

(** Healthy: no error, nothing being closed, able to send, one file. *)
Definition healthy (st : Transfer) : Prop :=
  link_ok st /\ cf_lastErrno (t_ctx st) = 0 /\ cf_closeReqSubmitted (t_ctx st) = false /\
  cf_isDir (t_ctx st) = false /\ cf_sandboxMode (t_ctx st) = false.

(** The counts of requests, buffers and references move together. *)
Definition balanced (st : Transfer) : Prop :=
  t_refCount st = zlen (t_reqs st) /\ t_bufs st = zlen (t_reqs st).

Definition finished_at (st : Transfer) (len : Z) : bool :=
  (cf_fileSize (t_ctx st) <=? cf_indexIO (t_ctx st) + len) || (len =? 0).

(** Compute the field accesses of updated states. *)
Ltac tsimp :=
  cbn [fst snd negb orb andb app
    cf_fileSize cf_dirSize cf_indexIO cf_fileCnt cf_isDir cf_localName cf_localPath cf_remotePath
    cf_localDirName cf_fileModeSync cf_master cf_closeNotify cf_ioFinish cf_closeReqSubmitted
    cf_isStableBufSize cf_isFdOpen cf_lastErrno cf_taskQueue cf_transferConfig cf_fileMode cf_openFd
    cf_sandboxMode cf_isOtherSideSandboxSupported t_ctx t_refCount t_reqs t_bufs t_out t_singalStop t_sendOk
    t_channelTask t_hdcHost t_queuedPackages t_isStableBuf set_cf_fileSize set_cf_indexIO set_cf_closeNotify
    set_cf_ioFinish set_cf_closeReqSubmitted set_cf_isStableBufSize set_cf_isFdOpen set_cf_lastErrno
    set_cf_fileCnt set_cf_dirSize set_cf_localName set_cf_localPath set_cf_taskQueue set_cf_transferConfig
    set_cf_fileMode set_cf_openFd set_cf_isOtherSideSandboxSupported set_t_ctx set_t_refCount set_t_reqs
    set_t_bufs set_t_out set_t_queuedPackages on_ctx emit submit].
Tactic Notation "tsimp_all" :=
  cbn [fst snd negb orb andb app
    cf_fileSize cf_dirSize cf_indexIO cf_fileCnt cf_isDir cf_localName cf_localPath cf_remotePath
    cf_localDirName cf_fileModeSync cf_master cf_closeNotify cf_ioFinish cf_closeReqSubmitted
    cf_isStableBufSize cf_isFdOpen cf_lastErrno cf_taskQueue cf_transferConfig cf_fileMode cf_openFd
    cf_sandboxMode cf_isOtherSideSandboxSupported t_ctx t_refCount t_reqs t_bufs t_out t_singalStop t_sendOk
    t_channelTask t_hdcHost t_queuedPackages t_isStableBuf set_cf_fileSize set_cf_indexIO set_cf_closeNotify
    set_cf_ioFinish set_cf_closeReqSubmitted set_cf_isStableBufSize set_cf_isFdOpen set_cf_lastErrno
    set_cf_fileCnt set_cf_dirSize set_cf_localName set_cf_localPath set_cf_taskQueue set_cf_transferConfig
    set_cf_fileMode set_cf_openFd set_cf_isOtherSideSandboxSupported set_t_ctx set_t_refCount set_t_reqs
    set_t_bufs set_t_out set_t_queuedPackages on_ctx emit submit] in *.

(** Also use the flags known of the state. *)
Ltac tnorm :=
  tsimp;
  repeat (match goal with
          | H : ?f (t_ctx ?st) = ?b |- context [?f (t_ctx ?st)] =>
              first [constr_eq b true | constr_eq b false | constr_eq b 0]; rewrite H
          | H : ?f ?st = ?b |- context [?f ?st] => first [constr_eq b true | constr_eq b false]; rewrite H
          | |- context [?x =? ?x] => rewrite (Z.eqb_refl x)
          end; tsimp).

(** The resulting state of an operation, field by field. *)
Ltac tresult :=
  eexists; split; [reflexivity|]; unfold same_task, healthy, link_ok; tnorm;
  repeat match goal with H : uwrap _ _ = _ |- _ => progress rewrite H end; split_and!; first [done|cbn [length]; lia].

Section Chunks.
Context (compress decompress : bytes -> Z -> option bytes) `{!Lz4Ok compress decompress}.

(** ** One chunk *)

Definition chunk_payload (ct index : Z) (data : bytes) : bytes :=
  let '(ct', body) := compress_chunk compress ct data in
  let head := SerializeToString TransferPayload_type (mkTransferPayload index ct' (zlen body) (zlen data)) in
  head ++ repeat 0 (Z.to_nat (payloadPrefixReserve - zlen head)) ++ body.

Lemma compress_chunk_size ct data : in_u 8 ct ->
  in_u 8 (compress_chunk compress ct data).1 /\ zlen (compress_chunk compress ct data).2 <= zlen data.
Proof.
  intros Hct. unfold compress_chunk. destruct (0 <? zlen data); [|split; [done|cbn; lia]].
  destruct (ct =? COMPRESS_LZ4); [|done].
  destruct (compress data (zlen data)) as [c|] eqn:E; [|split; [vm_compute; split; [discriminate|reflexivity]|cbn; lia]].
  apply lz4_roundtrip in E as [[_ ?] _]. split; [vm_compute; split; [discriminate|reflexivity]|done].
Qed.

(** The serialized prefix always fits. *)
Lemma payload_head_length v : TransferPayload_wf v -> zlen (SerializeToString TransferPayload_type v) <= 45.
Proof.
  intros Hv. destruct (message_roundtrip _ _ v v TransferPayload_ok (TransferPayload_dom v Hv)) as [-> _].
  unfold msg_enc, TransferPayload_specs, field_spec_of. cbn [map concat fs_enc]. rewrite app_nil_r, !length_app.
  unfold tag_bytes.
  pose proof (varint_length_le 10 (tp_index v)). pose proof (varint_length_le 5 (tp_compressType v)).
  pose proof (varint_length_le 5 (tp_compressSize v)). pose proof (varint_length_le 5 (tp_uncompressSize v)).
  pose proof (varint_length_le 5 (8 * 1 + VARINT)). pose proof (varint_length_le 5 (8 * 2 + VARINT)).
  pose proof (varint_length_le 5 (8 * 3 + VARINT)). pose proof (varint_length_le 5 (8 * 4 + VARINT)). lia.
Qed.

Lemma payload_wf ct index data : in_u 8 ct -> in_u 64 index -> zlen data <= MAX_SIZE_IOBUF ->
  TransferPayload_wf (mkTransferPayload index (compress_chunk compress ct data).1
    (zlen (compress_chunk compress ct data).2) (zlen data)).
Proof.
  intros Hct Hi Hd. destruct (compress_chunk_size ct data Hct). unfold MAX_SIZE_IOBUF in Hd.
  unfold TransferPayload_wf, in_u in *. cbn [tp_index tp_compressType tp_compressSize tp_uncompressSize]. lia.
Qed.

Lemma SendIOPayload_ok e index data st :
  env_ok e -> in_u 8 (tc_compressType (cf_transferConfig (t_ctx st))) -> in_u 64 index -> zlen data <= MAX_SIZE_IOBUF ->
  SendIOPayload compress e index data st
  = SendToAnother CMD_FILE_DATA (chunk_payload (tc_compressType (cf_transferConfig (t_ctx st))) index data) st.
Proof.
  intros (_ & _ & _ & He) Hct Hi Hd. unfold SendIOPayload, chunk_payload. rewrite He, andb_false_r.
  pose proof (payload_wf _ index data Hct Hi Hd) as Hwf. pose proof (payload_head_length _ Hwf) as Hl.
  destruct (compress_chunk_size _ data Hct) as [_ Hs].
  destruct (compress_chunk compress _ data) as [ct' body]. cbn [fst snd] in *. unfold MAX_SIZE_IOBUF in *.
  rewrite !(uwrap_small 32) by (unfold in_u; lia). rewrite (proj2 (Z.ltb_ge _ _)) by (unfold payloadPrefixReserve; lia).
  cbn [orb]. assert (memcpy_ok (payloadPrefixReserve + zlen data)
    (zlen (SerializeToString TransferPayload_type (mkTransferPayload index ct' (zlen body) (zlen data))) + 1) = true) as ->.
  { unfold memcpy_ok, payloadPrefixReserve, RSIZE_MAX. rewrite !andb_true_iff, Z.ltb_lt, !Z.leb_le. lia. }
  cbn [negb]. by rewrite <- app_assoc.
Qed.

Lemma chunk_payload_length ct index data : in_u 8 ct -> in_u 64 index -> zlen data <= MAX_SIZE_IOBUF ->
  zlen (chunk_payload ct index data) <= payloadPrefixReserve + zlen data.
Proof.
  intros Hct Hi Hd. unfold chunk_payload. pose proof (payload_head_length _ (payload_wf ct index data Hct Hi Hd)) as Hl.
  destruct (compress_chunk_size ct data Hct) as [_ Hs]. destruct (compress_chunk compress ct data) as [ct' body]. cbn [fst snd] in *.
  rewrite !length_app, repeat_length. unfold payloadPrefixReserve. lia.
Qed.

(** Receiving an encoded chunk submits its data at its offset. *)
Lemma RecvIOPayload_chunk e ct index data st :
  in_u 8 ct -> in_u 64 index -> zlen data <= MAX_SIZE_IOBUF ->
  RecvIOPayload decompress e (chunk_payload ct index data) st
  = let '(r, st') := SimpleFileIO e index data (zlen data) st in (negb (r <? 0), st').
Proof.
  intros Hct Hi Hd. unfold RecvIOPayload, chunk_payload. pose proof (payload_wf ct index data Hct Hi Hd) as Hwf.
  pose proof (payload_head_length _ Hwf) as Hl. destruct (compress_chunk_size ct data Hct) as [_ Hs].
  assert (Hdec : (if 0 <? zlen (compress_chunk compress ct data).2 then
      if (compress_chunk compress ct data).1 =? COMPRESS_LZ4 then decompress (compress_chunk compress ct data).2 (zlen data)
      else Some (compress_chunk compress ct data).2 else Some []) = Some data).
  { unfold compress_chunk. destruct (0 <? zlen data) eqn:E0; breflect; [|destruct data; [done|cbn in *; lia]].
    destruct (ct =? COMPRESS_LZ4) eqn:E1; cbn [fst snd].
    - destruct (compress data (zlen data)) as [c|] eqn:E2; cbn [fst snd].
      + apply lz4_roundtrip in E2 as [? ?]. rewrite (proj2 (Z.ltb_lt 0 (zlen c))) by lia. done.
      + by rewrite (proj2 (Z.ltb_lt 0 (zlen data))) by lia.
    - by rewrite (proj2 (Z.ltb_lt 0 (zlen data))), E1 by lia. }
  destruct (compress_chunk compress ct data) as [ct' body]. cbn [fst snd] in *.
  set (pld := mkTransferPayload index ct' (zlen body) (zlen data)) in *.
  set (head := SerializeToString TransferPayload_type pld) in *.
  set (k := Z.to_nat (payloadPrefixReserve - zlen head)).
  assert (Hlen : zlen (head ++ repeat 0 k) = payloadPrefixReserve)
    by (rewrite length_app, repeat_length; unfold k, payloadPrefixReserve; lia).
  rewrite app_assoc. assert (Htot : zlen ((head ++ repeat 0 k) ++ body) = payloadPrefixReserve + zlen body)
    by (rewrite length_app; lia).
  rewrite Htot, (proj2 (Z.ltb_ge _ _)), ztake_app, zdrop_app by lia.
  assert (Hp : ParseFromString TransferPayload_type TransferPayload_zero (head ++ repeat 0 k) = (true, pld)).
  { unfold head. rewrite (parse_padded _ _ pld TransferPayload_zero k TransferPayload_ok (TransferPayload_dom _ Hwf)).
    by rewrite TransferPayload_complete. }
  rewrite Hp. unfold pld. cbn [snd tp_index tp_compressType tp_compressSize tp_uncompressSize].
  unfold MAX_SIZE_IOBUF in *. rewrite uwrap_small by (unfold in_u, payloadPrefixReserve; lia).
  rewrite (proj2 (Z.ltb_ge _ (zlen body))), (proj2 (Z.ltb_ge _ (zlen data))) by lia. cbn [orb].
  rewrite (ztake_ge body) by lia. rewrite Hdec, Z.eqb_refl. cbn [negb].
  assert ((ct' =? COMPRESS_NONE) && (payloadPrefixReserve + zlen body - payloadPrefixReserve <? zlen data) = false) as ->.
  { destruct (ct' =? COMPRESS_NONE) eqn:E; [|done]. breflect. subst ct'. cbn [andb]. apply Z.ltb_ge.
    destruct (0 <? zlen body) eqn:E0; [injection Hdec as ->|injection Hdec as <-; cbn]; lia. }
  destruct (SimpleFileIO e index data (zlen data) st) as [r st']. by destruct (r <? 0).
Qed.

(** ** What each operation does to a task in a healthy transfer *)

Lemma write_completes e o d st :
  healthy st -> cf_master (t_ctx st) = false -> cf_ioFinish (t_ctx st) = false -> cf_closeNotify (t_ctx st) = false ->
  0 <= cf_indexIO (t_ctx st) -> cf_indexIO (t_ctx st) + zlen d < 2 ^ 64 ->
  exists st', OnFileIO compress e (FsWrite o d) (zlen d) [] st = Ok st' /\ same_task st st' /\ healthy st' /\
    t_reqs st' = t_reqs st /\ t_refCount st' = t_refCount st - 1 /\ t_bufs st' = t_bufs st - 1 /\
    cf_indexIO (t_ctx st') = cf_indexIO (t_ctx st) + zlen d /\
    cf_isStableBufSize (t_ctx st') = cf_isStableBufSize (t_ctx st) /\
    cf_ioFinish (t_ctx st') = finished_at st (zlen d) /\
    (finished_at st (zlen d) = false -> cf_closeNotify (t_ctx st') = false) /\
    t_out st' = t_out st ++ (if finished_at st (zlen d) then [Sent CMD_FILE_FINISH [1]] else []).
Proof.
  intros ((Hl & Hs) & He & Hq & Hd & Hb) Hm Hf Hc Hi Hw. unfold finished_at.
  assert (Hu : u64 (cf_indexIO (t_ctx st) + zlen d) = cf_indexIO (t_ctx st) + zlen d) by (apply uwrap_small; unfold in_u; lia).
  assert (Hdel : IODelayed (FsWrite o d) st = (false, st)) by (unfold IODelayed; by destruct (t_hdcHost st)).
  unfold OnFileIO. rewrite Hdel. unfold ProcressFileIO, ProcressFileIOIsSuccess. cbn [req_bytes].
  rewrite Hf, (proj2 (Z.ltb_ge (zlen d) 0)), Hm, Z.eqb_refl by lia. tsimp. unfold ProcressFileIOWrite. tsimp. rewrite Hu.
  destruct ((cf_fileSize (t_ctx st) <=? _) || _) eqn:E; cbn [mbind res_bind].
  - unfold ProcressFileIOFinish, OnFileClose, CloseCtxFd, WhenTransferFinish, SendToAnother. tsimp.
    destruct (cf_isFdOpen (t_ctx st)) eqn:Ho, (t_channelTask st) eqn:Hn; tnorm; tresult.
  - rewrite app_nil_r. tresult.
Qed.

(** A read that is not throttled: the chunk is sent, and the next read submitted
    unless the file is finished. *)
Lemma read_completes e i n data st0 st :
  env_ok e -> healthy st -> cf_master (t_ctx st) = true -> cf_ioFinish (t_ctx st) = false -> cf_closeNotify (t_ctx st) = false ->
  in_u 8 (tc_compressType (cf_transferConfig (t_ctx st))) -> zlen data <= MAX_SIZE_IOBUF ->
  0 <= cf_indexIO (t_ctx st) -> cf_indexIO (t_ctx st) + zlen data < 2 ^ 64 ->
  IODelayed (FsRead i n) st0 = (false, st) ->
  exists st', OnFileIO compress e (FsRead i n) (zlen data) data st0 = Ok st' /\ same_task st st' /\ healthy st' /\
    cf_indexIO (t_ctx st') = cf_indexIO (t_ctx st) + zlen data /\
    cf_closeNotify (t_ctx st') = false /\ t_queuedPackages st' = t_queuedPackages st /\
    cf_ioFinish (t_ctx st') = finished_at st (zlen data) /\
    t_out st' = t_out st ++ [Sent CMD_FILE_DATA (chunk_payload (tc_compressType (cf_transferConfig (t_ctx st))) (cf_indexIO (t_ctx st)) data)] /\
    let more := if finished_at st (zlen data) then [] else
      [FsRead (cf_indexIO (t_ctx st) + zlen data) (maxReadSize (cf_isStableBufSize (t_ctx st)))] in
    t_reqs st' = t_reqs st ++ more /\ t_refCount st' = t_refCount st - 1 + zlen more /\ t_bufs st' = t_bufs st - 1 + zlen more.
Proof.
  intros Henv ((Hl & Hs) & He & Hq & Hd & Hb) Hm Hf Hc Hct Hlen Hi Hw Hdel. unfold finished_at.
  assert (Hu : u64 (cf_indexIO (t_ctx st) + zlen data) = cf_indexIO (t_ctx st) + zlen data) by (apply uwrap_small; unfold in_u; lia).
  unfold OnFileIO. rewrite Hdel. unfold ProcressFileIO, ProcressFileIOIsSuccess. cbn [req_bytes].
  rewrite Hf, (proj2 (Z.ltb_ge (zlen data) 0)), Hm by lia. tsimp. unfold ProcressFileIORead. tsimp. rewrite Hu.
  replace (u64 (cf_indexIO (t_ctx st) + zlen data - zlen data)) with (cf_indexIO (t_ctx st))
    by (rewrite uwrap_small; unfold in_u; lia).
  rewrite SendIOPayload_ok by (tsimp; auto; unfold in_u; lia). rewrite SendToAnother_ok by (split; done). tsimp.
  assert (Hmax : forall b : bool, (maxReadSize b <? 0) || ((if b then MAX_USBFFS_BULK_STABLE else MAX_USBFFS_BULK) - payloadPrefixReserve <? maxReadSize b) = false)
    by (intros []; reflexivity).
  destruct Henv as (E1 & E2 & E3 & _). rewrite ?Hu.
  destruct (zlen data =? 0) eqn:E0; [rewrite orb_true_r|rewrite orb_false_r; destruct (cf_indexIO (t_ctx st) + zlen data <? cf_fileSize (t_ctx st)) eqn:E4];
    cbn [mbind res_bind].
  2: { rewrite (proj2 (Z.leb_gt _ _)) by (breflect; lia). unfold SimpleFileIO. tsimp. rewrite E1, E2, E3, Hmax. tnorm. rewrite ?Hu. tresult. }
  all: rewrite ?(proj2 (Z.leb_le _ _)) by (breflect; lia).
  all: unfold ProcressFileIOFinish, OnFileClose, CloseCtxFd.
  all: destruct (cf_isFdOpen (t_ctx st)) eqn:Ho; tnorm; rewrite ?Hu, ?app_nil_r; tresult.
Qed.

(** ** Commands *)

(** [CMD_FILE_BEGIN] starts the first read. *)
Lemma begin_dispatch negotiate e st peer :
  env_ok e -> healthy st -> cf_master (t_ctx st) = true -> cf_ioFinish (t_ctx st) = false -> cf_closeNotify (t_ctx st) = false ->
  exists st', HdcFile_CommandDispatch decompress negotiate e CMD_FILE_BEGIN (AddFeatures peer) st = Ok (true, st') /\
    same_task st st' /\ healthy st' /\
    cf_indexIO (t_ctx st') = cf_indexIO (t_ctx st) /\ cf_ioFinish (t_ctx st') = false /\ cf_closeNotify (t_ctx st') = false /\
    cf_isStableBufSize (t_ctx st') = t_isStableBuf st || t_isStableBuf peer /\
    t_queuedPackages st' = t_queuedPackages st /\ t_out st' = t_out st /\
    t_reqs st' = t_reqs st ++ [FsRead (cf_indexIO (t_ctx st)) (maxReadSize (t_isStableBuf st || t_isStableBuf peer))] /\
    t_refCount st' = t_refCount st + 1 /\ t_bufs st' = t_bufs st + 1.
Proof.
  intros (E1 & E2 & E3 & _) ((Hl & Hs) & He & Hq & Hd & Hb) Hm Hf Hc.
  unfold HdcFile_CommandDispatch, TransferBase_CommandDispatch. rewrite Z.eqb_refl.
  unfold CheckFeatures, AddFeatures, CheckSandboxOptionCompatibility.
  change (zlen [_; _; _; _; _; _; _; _] =? FEATURE_FLAG_MAX_SIZE) with true. cbv iota zeta. cbn [nth].
  assert (Hbit : (if t_isStableBuf st then true else negb (Z.testbit (Z.lor (if t_isStableBuf peer then 0 else 1) (Z.shiftl 1 2)) 0))
    = t_isStableBuf st || t_isStableBuf peer) by (by destruct (t_isStableBuf st), (t_isStableBuf peer)).
  rewrite Hbit. tnorm. rewrite andb_false_r. cbn [mbind res_bind]. unfold SimpleFileIO. tsimp. rewrite E1, E2, E3. tnorm.
  assert (Hmax : forall b : bool, (maxReadSize b <? 0) || ((if b then MAX_USBFFS_BULK_STABLE else MAX_USBFFS_BULK) - payloadPrefixReserve <? maxReadSize b) = false)
    by (intros []; reflexivity).
  rewrite Hmax. assert (Hpos : forall b, (maxReadSize b <? 0) = false) by (intros []; reflexivity). rewrite Hpos.
  change (bool_decide (CMD_FILE_BEGIN ∈ [CMD_FILE_INIT; CMD_FILE_CHECK; CMD_FILE_MODE; CMD_DIR_MODE])) with false.
  change (CMD_FILE_BEGIN =? CMD_FILE_FINISH) with false. cbv iota. tresult.
Qed.

(** [CMD_FILE_DATA] submits the write of the chunk. *)
Lemma data_dispatch negotiate e ct index data st :
  env_ok e -> healthy st -> cf_master (t_ctx st) = false -> cf_ioFinish (t_ctx st) = false ->
  cf_isStableBufSize (t_ctx st) = false -> in_u 8 ct -> in_u 64 index -> zlen data <= MAX_SIZE_IOBUF ->
  exists st', HdcFile_CommandDispatch decompress negotiate e CMD_FILE_DATA (chunk_payload ct index data) st = Ok (true, st') /\
    same_task st st' /\ healthy st' /\
    cf_indexIO (t_ctx st') = cf_indexIO (t_ctx st) /\ cf_ioFinish (t_ctx st') = false /\
    cf_closeNotify (t_ctx st') = cf_closeNotify (t_ctx st) /\ cf_isStableBufSize (t_ctx st') = false /\ t_out st' = t_out st /\
    t_reqs st' = t_reqs st ++ [FsWrite index data] /\ t_refCount st' = t_refCount st + 1 /\ t_bufs st' = t_bufs st + 1.
Proof.
  intros (E1 & E2 & E3 & _) ((Hl & Hs) & He & Hq & Hd & Hb) Hm Hf Hst Hct Hi Hlen.
  unfold HdcFile_CommandDispatch, TransferBase_CommandDispatch.
  change (CMD_FILE_DATA =? CMD_FILE_BEGIN) with false. rewrite Z.eqb_refl.
  rewrite RecvIOPayload_chunk by done. unfold SimpleFileIO. rewrite E1, E2, E3, Hst, Hm, Hf. cbn [negb].
  unfold MAX_SIZE_IOBUF in Hlen. rewrite (proj2 (Z.ltb_ge (zlen data) 0)), (proj2 (Z.ltb_ge _ (zlen data))) by (unfold MAX_USBFFS_BULK, payloadPrefixReserve; lia).
  assert ((0 <? zlen data) && negb (memcpy_ok (zlen data) (zlen data)) = false) as ->.
  { destruct (0 <? zlen data) eqn:E; [|done]. breflect. cbn [andb]. apply negb_false_iff. unfold memcpy_ok, RSIZE_MAX.
    rewrite !andb_true_iff, Z.ltb_lt, !Z.leb_le. lia. }
  cbn [orb]. rewrite ztake_ge, (proj2 (Z.ltb_ge (zlen data) 0)) by lia. cbn [negb].
  pose proof (chunk_payload_length ct index data Hct Hi Hlen) as Hp. unfold MAX_SIZE_IOBUF, payloadPrefixReserve in Hp.
  rewrite (proj2 (Z.ltb_ge HDC_BUF_MAX_BYTES _)) by (unfold HDC_BUF_MAX_BYTES; lia).
  cbn [mbind res_bind].
  change (bool_decide (CMD_FILE_DATA ∈ [CMD_FILE_INIT; CMD_FILE_CHECK; CMD_FILE_MODE; CMD_DIR_MODE])) with false.
  change (CMD_FILE_DATA =? CMD_FILE_FINISH) with false. cbv iota. tresult.
Qed.

(** [CMD_FILE_FINISH] from the slave: the master answers. *)
Lemma finish_dispatch_master negotiate e st :
  healthy st ->
  exists st', HdcFile_CommandDispatch decompress negotiate e CMD_FILE_FINISH [1] st = Ok (true, st') /\
    same_task st st' /\ healthy st' /\ cf_indexIO (t_ctx st') = cf_indexIO (t_ctx st) /\ cf_ioFinish (t_ctx st') = true /\
    cf_closeNotify (t_ctx st') = cf_closeNotify (t_ctx st) /\ t_queuedPackages st' = t_queuedPackages st /\
    t_out st' = t_out st ++ [Sent CMD_FILE_FINISH [0]] /\
    t_reqs st' = t_reqs st /\ t_refCount st' = t_refCount st /\ t_bufs st' = t_bufs st.
Proof.
  intros ((Hl & Hs) & He & Hq & Hd & Hb). unfold HdcFile_CommandDispatch, TransferBase_CommandDispatch.
  change (CMD_FILE_FINISH =? CMD_FILE_BEGIN) with false. change (CMD_FILE_FINISH =? CMD_FILE_DATA) with false. cbn [mbind res_bind].
  change (bool_decide (CMD_FILE_FINISH ∈ [CMD_FILE_INIT; CMD_FILE_CHECK; CMD_FILE_MODE; CMD_DIR_MODE])) with false.
  rewrite Z.eqb_refl. cbv iota. unfold FileFinish. change (negb (1 =? 0)) with true. cbv iota zeta.
  change (u8 (1 - 1)) with 0. unfold CloseCtxFd, SendToAnother.
  destruct (cf_isFdOpen (t_ctx st)) eqn:Ho, (t_channelTask st) eqn:Hn; tnorm; cbn [mbind res_bind]; tresult.
Qed.

(** The answer ends the transfer on the slave, with a report of success. *)
Lemma finish_dispatch_slave negotiate e st :
  healthy st ->
  exists st' size, HdcFile_CommandDispatch decompress negotiate e CMD_FILE_FINISH [0] st = Ok (true, st') /\
    same_task st st' /\ healthy st' /\ cf_indexIO (t_ctx st') = cf_indexIO (t_ctx st) /\
    cf_ioFinish (t_ctx st') = cf_ioFinish (t_ctx st) /\ cf_isStableBufSize (t_ctx st') = cf_isStableBufSize (t_ctx st) /\
    t_out st' = t_out st ++ [Report true size (cf_fileCnt (t_ctx st)); Sent CMD_KERNEL_CHANNEL_CLOSE [1]] /\
    t_reqs st' = t_reqs st /\ t_refCount st' = t_refCount st /\ t_bufs st' = t_bufs st.
Proof.
  intros ((Hl & Hs) & He & Hq & Hd & Hb). unfold HdcFile_CommandDispatch, TransferBase_CommandDispatch.
  change (CMD_FILE_FINISH =? CMD_FILE_BEGIN) with false. change (CMD_FILE_FINISH =? CMD_FILE_DATA) with false. cbn [mbind res_bind].
  change (bool_decide (CMD_FILE_FINISH ∈ [CMD_FILE_INIT; CMD_FILE_CHECK; CMD_FILE_MODE; CMD_DIR_MODE])) with false.
  rewrite Z.eqb_refl. cbv iota. unfold FileFinish. change (negb (0 =? 0)) with false. cbv iota zeta.
  unfold TaskFinish, TransferSummary, SendToAnother. rewrite He, Z.eqb_refl, orb_true_r.
  destruct (t_channelTask st) eqn:Hn; tnorm; cbn [mbind res_bind]; (eexists; eexists; split; [reflexivity|]);
    unfold same_task, healthy, link_ok; tnorm; rewrite <- app_assoc; split_and!; done.
Qed.

(** ** Errors *)

(** The error number a failed request leaves behind. *)
Definition io_errno (e : IoEnv) (result : Z) : Z :=
  if result <? 0 then u32 (Z.abs result)
  else match io_statfs e with
       | inl err => u32 (Z.abs err)
       | inr freeBytes => if freeBytes =? 0 then ENOSPC else EIO
       end.

Lemma finish_error st : link_ok st -> cf_lastErrno (t_ctx st) <> 0 ->
  let st' := ProcressFileIOFinish st in
  link_ok st' /\ t_out st' = t_out st ++ [Sent CMD_FILE_FINISH [1]] /\ cf_lastErrno (t_ctx st') = cf_lastErrno (t_ctx st) /\
  cf_ioFinish (t_ctx st') = cf_ioFinish (t_ctx st) /\ cf_isFdOpen (t_ctx st') = false /\ t_refCount st' = t_refCount st /\
  t_bufs st' = t_bufs st /\ t_hdcHost st' = t_hdcHost st /\ cf_indexIO (t_ctx st') = cf_indexIO (t_ctx st) /\
  cf_fileSize (t_ctx st') = cf_fileSize (t_ctx st).
Proof.
  intros [Hl Hs] He. unfold ProcressFileIOFinish, CloseCtxFd. destruct (cf_isFdOpen (t_ctx st)) eqn:Ho; tnorm;
    rewrite (proj2 (Z.eqb_neq _ 0)) by done; tsimp; unfold WhenTransferFinish;
    rewrite SendToAnother_ok by (split; done); unfold link_ok; tnorm; split_and!; first [done|lia].
Qed.

Lemma report_failure st : link_ok st -> cf_lastErrno (t_ctx st) <> 0 -> cf_indexIO (t_ctx st) < cf_fileSize (t_ctx st) ->
  FileFinish 0 st = Ok (emit (Sent CMD_KERNEL_CHANNEL_CLOSE [1]) (emit (Report false (cf_indexIO (t_ctx st)) (cf_fileSize (t_ctx st))) st)).
Proof.
  intros Hl He Hi. unfold FileFinish. change (negb (0 =? 0)) with false. cbv iota zeta. unfold TaskFinish, TransferSummary.
  rewrite (proj2 (Z.leb_gt _ _)), (proj2 (Z.eqb_neq _ 0)) by done. cbn [orb]. by rewrite SendToAnother_ok.
Qed.

Lemma write_not_delayed o d st : IODelayed (FsWrite o d) st = (false, st).
Proof. unfold IODelayed. by destruct (t_hdcHost st). Qed.

Lemma io_fails e nbytes result st : result < 0 \/ (cf_master (t_ctx st) = false /\ result <> nbytes) ->
  ProcressFileIOIsSuccess e nbytes result st = (false, on_ctx (set_cf_lastErrno (io_errno e result)) st).
Proof.
  intros H. unfold ProcressFileIOIsSuccess, io_errno. destruct (result <? 0) eqn:E; [done|]. breflect.
  destruct H as [?|[Hm Hr]]; [lia|]. rewrite Hm, (proj2 (Z.eqb_neq nbytes result)) by done. by destruct (io_statfs e).
Qed.

(** A request that completes after an error was recorded asks for the end again. *)
Lemma late_completion e o d r st : link_ok st -> cf_ioFinish (t_ctx st) = true -> cf_lastErrno (t_ctx st) <> 0 ->
  exists st2, OnFileIO compress e (FsWrite o d) r [] st = Ok st2 /\ t_out st2 = t_out st ++ [Sent CMD_FILE_FINISH [1]].
Proof.
  intros Hl Hf He. unfold OnFileIO. rewrite write_not_delayed. unfold ProcressFileIO. rewrite Hf. cbn [mbind res_bind].
  match goal with |- context [ProcressFileIOFinish ?s] => destruct (finish_error s) as (_ & G2 & _); [done..|];
    set (st2 := ProcressFileIOFinish s) in *; clearbody st2 end.
  tsimp_all. eexists. split; [reflexivity|]. tsimp. exact G2.
Qed.

Lemma write_error e o d result st :
  link_ok st -> cf_ioFinish (t_ctx st) = false -> cf_indexIO (t_ctx st) < cf_fileSize (t_ctx st) ->
  io_errno e result <> 0 -> cf_master (t_ctx st) = false -> result <> zlen d ->
  exists st', OnFileIO compress e (FsWrite o d) result [] st = Ok st' /\ link_ok st' /\
     cf_lastErrno (t_ctx st') = io_errno e result /\ cf_ioFinish (t_ctx st') = true /\ cf_isFdOpen (t_ctx st') = false /\
     t_refCount st' = t_refCount st - 1 /\ t_bufs st' = t_bufs st - 1 /\
     t_out st' = t_out st ++ [Report false (cf_indexIO (t_ctx st)) (cf_fileSize (t_ctx st));
                              Sent CMD_KERNEL_CHANNEL_CLOSE [1]; Sent CMD_FILE_FINISH [1]].
Proof.
  intros Hlk Hf Hidx He Hm Hr. unfold OnFileIO. rewrite write_not_delayed. unfold ProcressFileIO. cbn [req_bytes].
  rewrite Hf, io_fails by auto. tnorm. rewrite report_failure by done. cbn [mbind res_bind].
  match goal with |- context [ProcressFileIOFinish ?s] => destruct (finish_error s) as (F1 & F2 & F3 & F4 & F5 & F6 & F7 & _); [done..|];
    set (st1 := ProcressFileIOFinish s) in *; clearbody st1 end.
  tsimp_all. eexists. split; [reflexivity|]. unfold link_ok in *. tsimp. rewrite F2, <- !app_assoc. split_and!; first [apply F1|done|lia].
Qed.

Lemma read_error e o n result st :
  link_ok st -> cf_ioFinish (t_ctx st) = false -> io_errno e result <> 0 ->
  cf_master (t_ctx st) = true -> result < 0 -> t_hdcHost st = false ->
  exists st', OnFileIO compress e (FsRead o n) result [] st = Ok st' /\ link_ok st' /\
     cf_lastErrno (t_ctx st') = io_errno e result /\ cf_isFdOpen (t_ctx st') = false /\
     t_out st' = t_out st ++ [Sent CMD_FILE_FINISH [1]] /\
     cf_indexIO (t_ctx st') = cf_indexIO (t_ctx st) /\ cf_fileSize (t_ctx st') = cf_fileSize (t_ctx st).
Proof.
  intros Hlk Hf He Hm Hr Hh. assert (Hdel : IODelayed (FsRead o n) st = (false, st)) by (unfold IODelayed; by rewrite Hh).
  unfold OnFileIO. rewrite Hdel. unfold ProcressFileIO. cbn [req_bytes]. rewrite Hf, io_fails by auto. tnorm. cbn [mbind res_bind].
  match goal with |- context [ProcressFileIOFinish ?s] => destruct (finish_error s) as (F1 & F2 & F3 & F4 & F5 & F6 & F7 & F8 & F9 & F10); [done..|];
    set (st1 := ProcressFileIOFinish s) in *; clearbody st1 end.
  tsimp_all. eexists. split; [reflexivity|]. unfold link_ok in *. tsimp. split_and!; first [apply F1|done|lia].
Qed.

Lemma finish_dispatch_failure negotiate e st :
  link_ok st -> cf_lastErrno (t_ctx st) <> 0 -> cf_indexIO (t_ctx st) < cf_fileSize (t_ctx st) ->
  exists st', HdcFile_CommandDispatch decompress negotiate e CMD_FILE_FINISH [0] st = Ok (true, st') /\
    t_out st' = t_out st ++ [Report false (cf_indexIO (t_ctx st)) (cf_fileSize (t_ctx st)); Sent CMD_KERNEL_CHANNEL_CLOSE [1]].
Proof.
  intros Hl He Hi. unfold HdcFile_CommandDispatch, TransferBase_CommandDispatch.
  change (CMD_FILE_FINISH =? CMD_FILE_BEGIN) with false. change (CMD_FILE_FINISH =? CMD_FILE_DATA) with false. cbn [mbind res_bind].
  change (bool_decide (CMD_FILE_FINISH ∈ [CMD_FILE_INIT; CMD_FILE_CHECK; CMD_FILE_MODE; CMD_DIR_MODE])) with false.
  rewrite Z.eqb_refl. cbv iota. rewrite report_failure by done. cbn [mbind res_bind].
  eexists. split; [reflexivity|]. tsimp. by rewrite <- !app_assoc.
Qed.


End Chunks.

Definition sample_slave : Transfer :=
  mkTransfer (mkCtxFile 10 0 4 0 false [] [] [] [] false false false false false false true 0 [] TransferConfig_zero FileMode_zero 7 false false)
    1 [] 1 [] false true false false 0 false.

