(* ===== verification/TransferSystem.v ===== *)
(** * TransferSystem: a complete file transfer between two tasks

    The master and the slave of [Transfer], the packets on their way (those a task
    has logged as sent and the peer has not handled yet), and the file being
    written.  A step completes a request of either side, in any order, delivers
    the next packet, or drains the host's package queue. *)

From Stdlib Require Import String ZArith Lia List Bool.
From stdpp Require Import base list numbers option relations.
From S2P Require Import Prelude Defs Serial SerialFacts Messages Transfer TransferProps.

(** The packets in a log. *)
Definition packet_of (e : Event) : option (Z * bytes) := match e with Sent c p => Some (c, p) | _ => None end.
Definition packets (l : list Event) : list (Z * bytes) := omap packet_of l.

Lemma packets_app l k : packets (l ++ k) = packets l ++ packets k.
Proof. apply omap_app. Qed.

(** [pwrite]: a gap before the offset reads as zeros. *)
Definition pwrite (file : bytes) (o : Z) (d : bytes) : bytes :=
  if bool_decide (d = []) then file
  else
    let k := Z.to_nat o in
    take k (file ++ repeat 0 (k - length file)) ++ d ++ drop (k + length d) file.

Definition slice (F : bytes) (o len : Z) : bytes := ztake len (zdrop o F).

Lemma length_slice F o len : 0 <= o -> 0 <= len -> o + len <= zlen F -> zlen (slice F o len) = len.
Proof. intros. unfold slice. rewrite length_ztake; rewrite ?length_zdrop; lia. Qed.

Lemma lookup_slice F o len (i : nat) : 0 <= o -> (Z.of_nat i < len) -> slice F o len !! i = F !! (Z.to_nat o + i)%nat.
Proof. intros. unfold slice, ztake, zdrop. rewrite lookup_take_lt by lia. by rewrite lookup_drop. Qed.

(** Writing a piece of [F] where it belongs makes those positions agree with [F]
    and keeps every position that already does. *)
Lemma pwrite_slice F file o len :
  0 <= o -> 0 <= len -> o + len <= zlen F -> (length file <= length F)%nat ->
  (length (pwrite file o (slice F o len)) <= length F)%nat /\
  (forall i : nat, o <= Z.of_nat i < o + len -> pwrite file o (slice F o len) !! i = F !! i) /\
  (forall i : nat, (i < length F)%nat -> file !! i = F !! i -> pwrite file o (slice F o len) !! i = F !! i).
Proof.
  intros Ho Hl Hn Hf. pose proof (length_slice F o len Ho Hl Hn) as Hs. unfold pwrite.
  case_bool_decide as He; [rewrite He in Hs; cbn in Hs; split_and!; [done| |done]; intros; lia|].
  set (k := Z.to_nat o). set (d := slice F o len) in *.
  assert (Hpre : length (take k (file ++ repeat 0 (k - length file))) = k)
    by (rewrite length_take, length_app, repeat_length; lia).
  split_and!.
  - rewrite !length_app, Hpre, length_drop. lia.
  - intros i Hi. rewrite lookup_app_r by lia. rewrite Hpre, lookup_app_l by lia.
    unfold d. rewrite lookup_slice by lia. f_equal. lia.
  - intros i Hi Hfi. destruct (decide (i < k)%nat) as [Hk|Hk].
    + rewrite lookup_app_l by lia. rewrite lookup_take_lt by lia. rewrite lookup_app_l; [done|].
      rewrite <- (lookup_lt_is_Some file), Hfi. by apply lookup_lt_is_Some.
    + rewrite lookup_app_r by lia. rewrite Hpre. destruct (decide (i - k < length d)%nat) as [Hd|Hd].
      * rewrite lookup_app_l by lia. unfold d. rewrite lookup_slice by lia. f_equal. lia.
      * rewrite lookup_app_r by lia. rewrite lookup_drop. rewrite <- Hfi. f_equal. lia.
Qed.

Record Sys := mkSys { s_master : Transfer; s_slave : Transfer; s_nm : nat; s_ns : nat; s_file : bytes }.

Definition to_slave (S : Sys) : list (Z * bytes) := drop (s_nm S) (packets (t_out (s_master S))).
Definition to_master (S : Sys) : list (Z * bytes) := drop (s_ns S) (packets (t_out (s_slave S))).

(** ** Streams *)

Lemma drop_next {A} n (l : list A) x k : drop n l = x :: k -> drop (1 + n) l = k /\ (1 + n <= length l)%nat.
Proof.
  intros H. split.
  - replace (1 + n)%nat with (n + 1)%nat by lia. by rewrite <- drop_drop, H.
  - apply (f_equal length) in H. rewrite length_drop in H. cbn in H. lia.
Qed.

Lemma drop_app_more {A} n (l k : list A) : (n <= length l)%nat -> drop n (l ++ k) = drop n l ++ k.
Proof. intros. rewrite drop_app. replace (n - length l)%nat with 0%nat by lia. done. Qed.

(** ** Chunks *)

(** A chunk is an offset and a length. *)
Fixpoint tiles (a : Z) (cs : list (Z * Z)) (b : Z) : Prop :=
  match cs with
  | [] => a = b
  | c :: cs => c.1 = a /\ 0 <= c.2 /\ tiles (a + c.2) cs b
  end.
Definition total (cs : list (Z * Z)) : Z := fold_right (fun c a => c.2 + a) 0 cs.

Lemma total_app cs ds : total (cs ++ ds) = total cs + total ds.
Proof. induction cs as [|c cs IH]; cbn; [done|]. fold (total (cs ++ ds)) (total cs). lia. Qed.

Lemma total_perm cs ds : cs ≡ₚ ds -> total cs = total ds.
Proof. induction 1; cbn; unfold total in *; lia. Qed.

Lemma tiles_total cs : forall a b, tiles a cs b -> b = a + total cs /\ 0 <= total cs.
Proof.
  induction cs as [|c cs IH]; cbn; intros a b H; [lia|]. destruct H as (_ & Hc & H). apply IH in H. unfold total in *. lia.
Qed.

Lemma tiles_range cs : forall a b c, tiles a cs b -> c ∈ cs -> a <= c.1 /\ 0 <= c.2 /\ c.1 + c.2 <= b.
Proof.
  induction cs as [|x cs IH]; intros a b c H Hin; [by apply not_elem_of_nil in Hin|]. cbn in H. destruct H as (Hx & Hc & H).
  pose proof (tiles_total _ _ _ H). apply elem_of_cons in Hin as [->|Hin]; [lia|]. pose proof (IH _ _ _ H Hin). lia.
Qed.

Lemma tiles_snoc cs l : forall a b, tiles a cs b -> 0 <= l -> tiles a (cs ++ [(b, l)]) (b + l).
Proof. induction cs as [|c cs IH]; cbn; intros a b H Hl; [subst; auto|]. destruct H as (? & ? & H). auto. Qed.

Lemma tiles_cover cs : forall a b i, tiles a cs b -> a <= i < b -> exists c, c ∈ cs /\ c.1 <= i < c.1 + c.2.
Proof.
  induction cs as [|c cs IH]; cbn; intros a b i H Hi; [lia|]. destruct H as (Ha & Hc & H).
  destruct (decide (i < a + c.2)) as [Hlt|Hge].
  - exists c. split; [left|lia].
  - destruct (IH _ _ i H ltac:(lia)) as (c' & Hin & Hr). exists c'. split; [by right|done].
Qed.

Section System.
Context (compress decompress : bytes -> Z -> option bytes) `{!Lz4Ok compress decompress}.
Context (negotiate : Z -> bytes -> Transfer -> res (bool * Transfer)).
Context (F : bytes).

Inductive step : Sys -> Sys -> Prop :=
| step_read S e i index n result m' :
    env_ok e -> t_reqs (s_master S) !! i = Some (FsRead index n) ->
    0 <= result <= n -> index + result <= zlen F -> (result = 0 -> zlen F <= index) ->
    OnFileIO compress e (FsRead index n) result (slice F index result)
      (set_t_reqs (delete i (t_reqs (s_master S))) (s_master S)) = Ok m' ->
    step S (mkSys m' (s_slave S) (s_nm S) (s_ns S) (s_file S))
| step_write S e i o d s' :
    env_ok e -> t_reqs (s_slave S) !! i = Some (FsWrite o d) ->
    OnFileIO compress e (FsWrite o d) (zlen d) [] (set_t_reqs (delete i (t_reqs (s_slave S))) (s_slave S)) = Ok s' ->
    step S (mkSys (s_master S) s' (s_nm S) (s_ns S) (pwrite (s_file S) o d))
| step_to_slave S e command payload r s' :
    env_ok e -> head (to_slave S) = Some (command, payload) ->
    HdcFile_CommandDispatch decompress negotiate e command payload (s_slave S) = Ok (r, s') ->
    step S (mkSys (s_master S) s' (1 + s_nm S) (s_ns S) (s_file S))
| step_to_master S e command payload r m' :
    env_ok e -> head (to_master S) = Some (command, payload) ->
    HdcFile_CommandDispatch decompress negotiate e command payload (s_master S) = Ok (r, m') ->
    step S (mkSys m' (s_slave S) (s_nm S) (1 + s_ns S) (s_file S))
| step_drain S :
    0 < t_queuedPackages (s_master S) ->
    step S (mkSys (set_t_queuedPackages (t_queuedPackages (s_master S) - 1) (s_master S)) (s_slave S) (s_nm S) (s_ns S) (s_file S)).

(** Both sides have opened their files: the master has been told the size, and
    the slave has announced itself with [CMD_FILE_BEGIN]. *)
Definition opening (st : Transfer) : Prop :=
  link_ok st /\ cf_isDir (t_ctx st) = false /\ cf_sandboxMode (t_ctx st) = false /\ t_reqs st = [] /\
  t_refCount st = 1 /\ t_bufs st = 0 /\ 0 <= t_queuedPackages st /\ t_out st = [].

Definition started (S : Sys) : Prop :=
  exists fd fd' sb sb' m0 s0, 0 < fd /\ 0 < fd' /\ sb_size sb = zlen F /\
    opening m0 /\ cf_master (t_ctx m0) = true /\ in_u 8 (tc_compressType (cf_transferConfig (t_ctx m0))) /\
    opening s0 /\ cf_master (t_ctx s0) = false /\ cf_fileSize (t_ctx s0) = zlen F /\ cf_isStableBufSize (t_ctx s0) = false /\
    OnFileOpen fd sb m0 = Ok (s_master S) /\ OnFileOpen fd' sb' s0 = Ok (s_slave S) /\
    s_nm S = length (packets (t_out (s_master S))) /\ s_ns S = 0%nat /\ s_file S = [].

Definition reachable (S : Sys) : Prop := exists S0, started S0 /\ rtc step S0 S.

(** The slave has reported success. *)
Definition reported (S : Sys) : Prop := exists size count, Report true size count ∈ t_out (s_slave S).

(** ** The invariant *)

Definition chunk_data (c : Z * Z) : bytes := slice F c.1 c.2.
Definition chunk_msg (ct : Z) (c : Z * Z) : Z * bytes := (CMD_FILE_DATA, chunk_payload compress ct c.1 (chunk_data c)).
Definition chunk_req (c : Z * Z) : FsReq := FsWrite c.1 (chunk_data c).

Inductive phase := Waiting | Reading (n : Z) | Done.
Inductive closing := Running | Asked | Answered | Closed.

Record Inv (S : Sys) (ct : Z) (cs done pend fly : list (Z * Z)) (ph : phase) (cl : closing) : Prop := {
  iv_small : zlen F < 2 ^ 63;
  iv_ct : in_u 8 ct;
  (* the master *)
  iv_m : healthy (s_master S) /\ cf_master (t_ctx (s_master S)) = true /\ cf_fileSize (t_ctx (s_master S)) = zlen F /\
         cf_closeNotify (t_ctx (s_master S)) = false /\ tc_compressType (cf_transferConfig (t_ctx (s_master S))) = ct;
  iv_m_bal : balanced (s_master S) /\ 0 <= t_queuedPackages (s_master S);
  iv_ph : match ph with
          | Waiting => t_reqs (s_master S) = [] /\ cf_ioFinish (t_ctx (s_master S)) = false /\
                       cf_indexIO (t_ctx (s_master S)) = 0 /\ cs = []
          | Reading n => t_reqs (s_master S) = [FsRead (cf_indexIO (t_ctx (s_master S))) n] /\
                       cf_ioFinish (t_ctx (s_master S)) = false /\ 0 < n <= MAX_SIZE_IOBUF /\
                       (cf_indexIO (t_ctx (s_master S)) < zlen F \/ zlen F = 0 /\ cs = [])
          | Done => t_reqs (s_master S) = [] /\ cf_ioFinish (t_ctx (s_master S)) = true /\
                       cf_indexIO (t_ctx (s_master S)) = zlen F /\ (zlen F = 0 -> length cs = 1%nat)
          end;
  (* the chunks sent so far: written, being written, on their way *)
  iv_tiles : tiles 0 cs (cf_indexIO (t_ctx (s_master S)));
  iv_index : 0 <= cf_indexIO (t_ctx (s_master S)) <= zlen F;
  iv_chunk : Forall (fun c => c.2 <= MAX_SIZE_IOBUF /\ (0 < c.2 \/ zlen F = 0)) cs;
  iv_perm : cs ≡ₚ done ++ pend ++ fly;
  (* the slave *)
  iv_s : healthy (s_slave S) /\ cf_master (t_ctx (s_slave S)) = false /\ cf_fileSize (t_ctx (s_slave S)) = zlen F /\
         cf_isStableBufSize (t_ctx (s_slave S)) = false;
  iv_s_bal : balanced (s_slave S);
  iv_s_reqs : t_reqs (s_slave S) = map chunk_req pend;
  iv_s_index : cf_indexIO (t_ctx (s_slave S)) = total done;
  iv_file : (length (s_file S) <= length F)%nat /\
            forall c (i : nat), c ∈ done -> c.1 <= Z.of_nat i < c.1 + c.2 -> s_file S !! i = F !! i;
  (* the packets *)
  iv_to_slave : to_slave S = map (chunk_msg ct) fly ++ match cl with Answered => [(CMD_FILE_FINISH, [0])] | _ => [] end;
  iv_to_master : match cl, ph with
                 | Running, Waiting => exists peer, to_master S = [(CMD_FILE_BEGIN, AddFeatures peer)]
                 | Running, _ => to_master S = []
                 | Asked, _ => to_master S = [(CMD_FILE_FINISH, [1])]
                 | Answered, _ => to_master S = []
                 | Closed, _ => Forall (fun p => p.1 = CMD_KERNEL_CHANNEL_CLOSE) (to_master S)
                 end;
  iv_cl : match cl with
          | Running => cf_ioFinish (t_ctx (s_slave S)) = false /\ cf_closeNotify (t_ctx (s_slave S)) = false /\
                       (total done < zlen F \/ zlen F = 0 /\ done = [])
          | _ => cf_ioFinish (t_ctx (s_slave S)) = true /\ pend = [] /\ fly = [] /\ ph = Done
          end;
  iv_rep : cl = Closed -> reported S;
  iv_sent : (s_nm S <= length (packets (t_out (s_master S))))%nat /\ (s_ns S <= length (packets (t_out (s_slave S))))%nat
}.

Lemma CheckMaster_ok st : link_ok st -> exists c p, CheckMaster st = emit (Sent c p) st.
Proof. intros Hl. unfold CheckMaster. destruct (cf_fileModeSync _); rewrite SendToAnother_ok by done; by do 2 eexists. Qed.

Lemma open_master fd sb m0 : 0 < fd -> opening m0 -> cf_master (t_ctx m0) = true ->
  exists m, OnFileOpen fd sb m0 = Ok m /\ healthy m /\ cf_master (t_ctx m) = true /\ cf_fileSize (t_ctx m) = sb_size sb /\
    cf_closeNotify (t_ctx m) = false /\ tc_compressType (cf_transferConfig (t_ctx m)) = tc_compressType (cf_transferConfig (t_ctx m0)) /\
    balanced m /\ 0 <= t_queuedPackages m /\ t_reqs m = [] /\ cf_ioFinish (t_ctx m) = false /\ cf_indexIO (t_ctx m) = 0.
Proof.
  intros Hfd ((Ml & Ms) & Md & Mb & Mr & Mc & Mu & Mq & Mo) Hm.
  unfold OnFileOpen. rewrite (proj2 (Z.leb_gt fd 0)) by lia. cbv zeta. unfold ResetCtx. tnorm.
  match goal with |- context [CheckMaster ?st] => destruct (CheckMaster_ok st) as (c & p & ->); [split; tsimp; done|] end.
  eexists. split; [reflexivity|]. unfold healthy, link_ok, balanced. tnorm. rewrite Mr, Mc, Mu.
  destruct (tc_holdTimestamp _); split_and!; done.
Qed.

Lemma open_slave fd sb s0 : 0 < fd -> opening s0 -> cf_master (t_ctx s0) = false -> cf_isStableBufSize (t_ctx s0) = false ->
  exists s, OnFileOpen fd sb s0 = Ok s /\ healthy s /\ cf_master (t_ctx s) = false /\ cf_fileSize (t_ctx s) = cf_fileSize (t_ctx s0) /\
    cf_isStableBufSize (t_ctx s) = false /\ balanced s /\ t_reqs s = [] /\ cf_ioFinish (t_ctx s) = false /\
    cf_closeNotify (t_ctx s) = false /\ cf_indexIO (t_ctx s) = 0 /\ exists peer, t_out s = [Sent CMD_FILE_BEGIN (AddFeatures peer)].
Proof.
  intros Hfd ((Ml & Ms) & Md & Mb & Mr & Mc & Mu & Mq & Mo) Hm Hst.
  unfold OnFileOpen. rewrite (proj2 (Z.leb_gt fd 0)) by lia. cbv zeta. unfold ResetCtx, SendToAnother.
  destruct (t_channelTask s0) eqn:Hn; tnorm;
    (eexists; split; [reflexivity|]); unfold healthy, link_ok, balanced; tnorm; rewrite Mr, Mc, Mu, Mo; split_and!; try done; by exists s0.
Qed.

Lemma inv_started S : zlen F < 2 ^ 63 -> started S -> exists ct, Inv S ct [] [] [] [] Waiting Running.
Proof.
  intros HF (fd & fd' & sb & sb' & m0 & s0 & Hfd & Hfd' & Hsz & Hm0 & Hmm & Hct & Hs0 & Hsm & Hsf & Hst & Hm & Hs & Hnm & Hns & Hfile).
  destruct (open_master fd sb m0 Hfd Hm0 Hmm) as (m & Hm' & M1 & M2 & M3 & M4 & M5 & M6 & M7 & M8 & M9 & M10).
  destruct (open_slave fd' sb' s0 Hfd' Hs0 Hsm Hst) as (s & Hs' & S1 & S2 & S3 & S4 & S5 & S6 & S7 & S8 & S9 & peer & S10).
  rewrite Hm in Hm'. injection Hm' as <-. rewrite Hs in Hs'. injection Hs' as <-.
  exists (tc_compressType (cf_transferConfig (t_ctx m0))). constructor; try done; try (split_and!; congruence).
  - rewrite M10. lia.
  - rewrite Hfile. split; [cbn; lia|]. intros c i Hin. by apply not_elem_of_nil in Hin.
  - unfold to_slave. rewrite Hnm, drop_all. done.
  - exists peer. unfold to_master. by rewrite Hns, S10.
  - split_and!; try done. destruct (Z.eq_dec (zlen F) 0); [by right|left; cbn; lia].
  - rewrite Hnm, Hns. lia.
Qed.

Lemma total_zero cs : Forall (fun c : Z * Z => 0 < c.2) cs -> total cs <= 0 -> cs = [].
Proof.
  intros Hc. assert (Hn : forall l, Forall (fun c : Z * Z => 0 < c.2) l -> 0 <= total l).
  { induction 1; cbn; [lia|]. unfold total in *. lia. }
  destruct Hc as [|c cs Hc Hcs]; [done|]. specialize (Hn cs Hcs). cbn. unfold total in *. lia.
Qed.

Lemma perm_move (cs done pend fly rest : list (Z * Z)) c :
  cs ≡ₚ done ++ pend ++ fly -> pend ≡ₚ c :: rest -> cs ≡ₚ (done ++ [c]) ++ rest ++ fly.
Proof. intros -> ->. by rewrite <- app_assoc. Qed.

Lemma total_nonneg cs : (forall c : Z * Z, c ∈ cs -> 0 <= c.2) -> 0 <= total cs.
Proof.
  induction cs as [|c cs IH]; intros H; cbn; [lia|]. fold (total cs). assert (0 <= c.2) by (apply H; left).
  assert (0 <= total cs) by (apply IH; intros; apply H; by right). lia.
Qed.

(** All that was sent has been written once the count reaches the file size. *)
Lemma inv_all_done S ct cs done pend fly ph cl done' rest :
  Inv S ct cs done pend fly ph cl -> cs ≡ₚ done' ++ rest -> done' <> [] ->
  zlen F <= total done' \/ zlen F = 0 -> rest = [] /\ ph = Done.
Proof.
  intros I Hp Hne Hlen. pose proof (iv_tiles _ _ _ _ _ _ _ _ I) as Ht. pose proof (tiles_total _ _ _ Ht) as [Htot _].
  pose proof (iv_index _ _ _ _ _ _ _ _ I) as Hi. pose proof (iv_ph _ _ _ _ _ _ _ _ I) as Hph.
  pose proof (iv_chunk _ _ _ _ _ _ _ _ I) as Hc. pose proof (total_perm _ _ Hp) as Hsum. rewrite total_app in Hsum.
  assert (Hcs : cs <> []) by (intros ->; apply Permutation_nil, app_eq_nil in Hp as [? _]; done).
  destruct (Z.eq_dec (zlen F) 0) as [HF|HF].
  - destruct ph as [|n|]; [destruct Hph as (_ & _ & _ & ?); done|destruct Hph as (_ & _ & _ & [?|[_ ?]]); [lia|done]|].
    split; [|done]. destruct Hph as (_ & _ & _ & Hl). specialize (Hl HF). apply Permutation_length in Hp.
    rewrite length_app, Hl in Hp. destruct done'; [done|]. destruct rest; [done|cbn in Hp; lia].
  - assert (Hpos : Forall (fun c : Z * Z => 0 < c.2) rest).
    { rewrite Hp in Hc. apply Forall_app in Hc as [_ Hc]. eapply List.Forall_impl; [|exact Hc]. cbn. intros c [_ [?|?]]; [done|lia]. }
    assert (rest = []) as -> by (apply total_zero; [done|lia]). split; [done|]. cbn in Hsum.
    destruct ph as [|n|]; [destruct Hph as (_ & _ & _ & ?); done|destruct Hph as (_ & _ & _ & [?|[? _]]); lia|done].
Qed.

(** A write completes. *)
Lemma inv_write S ct cs done pend fly ph cl e i o d s' :
  Inv S ct cs done pend fly ph cl -> t_reqs (s_slave S) !! i = Some (FsWrite o d) ->
  OnFileIO compress e (FsWrite o d) (zlen d) [] (set_t_reqs (delete i (t_reqs (s_slave S))) (s_slave S)) = Ok s' ->
  exists done' pend' fly' cl', Inv (mkSys (s_master S) s' (s_nm S) (s_ns S) (pwrite (s_file S) o d)) ct cs done' pend' fly' ph cl'.
Proof.
  intros I Hi Hio. pose proof I as [].
  rewrite iv_s_reqs0, list_lookup_fmap in Hi. apply fmap_Some in Hi as (c & Hc & Hreq). injection Hreq as -> ->.
  assert (Hpend : pend ≡ₚ c :: delete i pend) by by apply delete_Permutation.
  assert (Hin : c ∈ cs) by (rewrite iv_perm0, Hpend; apply elem_of_app; right; left).
  pose proof (tiles_range _ _ _ _ iv_tiles0 Hin) as (R1 & R2 & R3).
  assert (Hlen : zlen (chunk_data c) = c.2) by (apply length_slice; lia).
  destruct cl; [|destruct iv_cl0 as (_ & -> & _); done..]. destruct iv_cl0 as (Hf & Hn & _).
  pose proof (total_perm _ _ iv_perm0) as Hsum. rewrite !total_app, (total_perm _ _ Hpend) in Hsum.
  destruct (tiles_total _ _ _ iv_tiles0) as [Htot _].
  assert (Hnn : forall l, (forall x, x ∈ l -> x ∈ cs) -> 0 <= total l).
  { intros l Hl. apply total_nonneg. intros x Hx. by apply (tiles_range _ _ _ _ iv_tiles0), Hl. }
  assert (0 <= total done) by (apply Hnn; intros x Hx; rewrite iv_perm0; apply elem_of_app; by left).
  assert (0 <= total (delete i pend) + total fly).
  { rewrite <- total_app. apply Hnn. intros x Hx. rewrite iv_perm0, Hpend. apply elem_of_app. right. by right. }
  cbn in Hsum. fold (total (delete i pend)) in Hsum. destruct iv_s0 as (Hh & Hm & Hsz & Hst).
  destruct (write_completes compress e c.1 (chunk_data c) (set_t_reqs (delete i (t_reqs (s_slave S))) (s_slave S)))
    as (s'' & Heq & Hsame & Hh' & Hreqs & Hrc & Hbf & Hidx & Hst' & Hfin & Hcn & Hout); try done; tsimp; try lia.
  rewrite Hio in Heq. injection Heq as <-. unfold same_task in Hsame. tsimp_all.
  destruct Hsame as (T1 & T2 & _).
  change (finished_at (set_t_reqs _ (s_slave S))) with (finished_at (s_slave S)) in *. rewrite Hlen in *.
  pose proof (lookup_lt_Some _ _ _ Hc) as Hil.
  assert (Hperm' : cs ≡ₚ (done ++ [c]) ++ delete i pend ++ fly) by by apply (perm_move cs done pend).
  assert (Hne : done ++ [c] <> []) by (by destruct done).
  destruct (pwrite_slice F (s_file S) c.1 c.2 ltac:(lia) ltac:(lia) ltac:(lia) (proj1 iv_file0)) as (P1 & P2 & P3).
  assert (Hcase : (finished_at (s_slave S) c.2 = true /\ delete i pend ++ fly = [] /\ ph = Done) \/
                  (finished_at (s_slave S) c.2 = false /\ total done + c.2 < zlen F)).
  { unfold finished_at. rewrite Hsz, iv_s_index0. destruct ((zlen F <=? total done + c.2) || (c.2 =? 0)) eqn:E; [left|right].
    - split; [done|]. apply (inv_all_done S ct cs done pend fly ph Running (done ++ [c]) _ I Hperm' Hne).
      rewrite total_app. cbn. apply orb_true_iff in E as [E|E]; breflect; [left; lia|right].
      rewrite List.Forall_forall in iv_chunk0. destruct (iv_chunk0 c) as [_ [?|?]]; [by apply list_elem_of_In|lia|done].
    - split; [done|]. breflect. lia. }
  exists (done ++ [c]), (delete i pend), fly, (if finished_at (s_slave S) c.2 then Asked else Running).
  assert (Hsent : drop (s_ns S) (packets (t_out s')) = to_master S ++
    (if finished_at (s_slave S) c.2 then [(CMD_FILE_FINISH, [1])] else [])).
  { rewrite Hout, packets_app, drop_app_more by apply iv_sent0. unfold to_master. by destruct (finished_at _ _). }
  assert (Hw : ph <> Waiting) by (intros ->; destruct iv_ph0 as (_ & _ & _ & ->); by apply not_elem_of_nil in Hin).
  constructor; cbn [s_master s_slave s_nm s_ns s_file]; try done.
  - split_and!; congruence.
  - destruct iv_s_bal0 as [B1 B2]. unfold balanced. rewrite Hreqs, Hrc, Hbf, B1, B2, iv_s_reqs0, length_delete;
      [|by rewrite list_lookup_fmap, Hc]. rewrite length_map. lia.
  - rewrite Hreqs, iv_s_reqs0. by rewrite list_fmap_delete.
  - rewrite Hidx, iv_s_index0, total_app. cbn. lia.
  - split; [exact P1|]. intros c' j Hc' Hj. apply elem_of_app in Hc' as [Hc'|Hc'%list_elem_of_singleton]; [|subst c'; by apply P2].
    assert (Hcs : c' ∈ cs) by (rewrite iv_perm0; apply elem_of_app; by left).
    pose proof (tiles_range _ _ _ _ iv_tiles0 Hcs). apply P3; [lia|]. by apply (proj2 iv_file0 c').
  - change (to_slave _) with (to_slave S). rewrite iv_to_slave0. by destruct (finished_at _ _).
  - unfold to_master. cbn [s_slave s_ns]. rewrite Hsent. destruct Hcase as [(-> & _)|(-> & _)]; [|rewrite app_nil_r];
      destruct ph; try done; by rewrite iv_to_master0.
  - destruct Hcase as [(Hfa & Hnil & ->)|(Hfa & Hlt)]; rewrite Hfa in *.
    + apply app_eq_nil in Hnil as [-> ->]. done.
    + split_and!; [done|by apply Hcn|]. left. rewrite total_app. cbn. lia.
  - destruct (finished_at _ _); done.
  - rewrite Hout, packets_app, length_app. lia.
Qed.

(** Changing only the master's queue count or request list keeps the invariant. *)
Lemma inv_queue S ct cs done pend fly ph cl q :
  Inv S ct cs done pend fly ph cl -> 0 <= q ->
  Inv (mkSys (set_t_queuedPackages q (s_master S)) (s_slave S) (s_nm S) (s_ns S) (s_file S)) ct cs done pend fly ph cl.
Proof. intros [] Hq. destruct iv_m_bal0 as [Hb _]. by constructor. Qed.

(** What [IODelayed] does to a read. *)
Lemma IODelayed_read i n st : 0 <= t_queuedPackages st ->
  (IODelayed (FsRead i n) st = (true, st)) \/
  (exists q, IODelayed (FsRead i n) st = (false, set_t_queuedPackages q st) /\ 0 <= q <= t_queuedPackages st + 1).
Proof.
  intros Hq. unfold IODelayed. destruct (t_hdcHost st); cbn [negb].
  - destruct (t_channelTask st); [destruct (64 <=? t_queuedPackages st); [by left|]|]; right.
    + exists (t_queuedPackages st + 1). split; [done|lia].
    + exists (t_queuedPackages st). split; [by destruct st|lia].
  - right. exists (t_queuedPackages st). split; [by destruct st|lia].
Qed.

Lemma maxReadSize_range b : 0 < maxReadSize b <= MAX_SIZE_IOBUF.
Proof. destruct b; vm_compute; split; congruence. Qed.

(** A read completes. *)
Lemma inv_read S ct cs done pend fly ph cl e i index n result m' :
  Inv S ct cs done pend fly ph cl -> env_ok e -> t_reqs (s_master S) !! i = Some (FsRead index n) ->
  0 <= result <= n -> index + result <= zlen F -> (result = 0 -> zlen F <= index) ->
  OnFileIO compress e (FsRead index n) result (slice F index result)
    (set_t_reqs (delete i (t_reqs (s_master S))) (s_master S)) = Ok m' ->
  exists cs' fly' ph', Inv (mkSys m' (s_slave S) (s_nm S) (s_ns S) (s_file S)) ct cs' done pend fly' ph' cl.
Proof.
  intros I He Hi Hres Hmax Hzero Hio. pose proof I as [].
  destruct ph as [|n'|]; [destruct iv_ph0 as (Hr & _); by rewrite Hr in Hi| |destruct iv_ph0 as (Hr & _); by rewrite Hr in Hi].
  destruct iv_ph0 as (Hr & Hf & Hn & Hrun). rewrite Hr in Hi. destruct i as [|i]; [|done]. injection Hi as <- <-.
  destruct cl; [|by destruct iv_cl0 as (_ & _ & _ & ?)..].
  set (m1 := set_t_reqs (delete 0%nat (t_reqs (s_master S))) (s_master S)) in *.
  set (index := cf_indexIO (t_ctx (s_master S))) in *.
  destruct iv_m_bal0 as [[B1 B2] Hq]. destruct iv_m0 as (Hh & Hm & Hsz & Hcn & Hct).
  assert (Hlen : zlen (slice F index result) = result) by (apply length_slice; lia).
  destruct (IODelayed_read index n' m1 Hq) as [Hdel|(q & Hdel & Hq')].
  - exists cs, fly, (Reading n'). unfold OnFileIO in Hio. rewrite Hdel in Hio. injection Hio as <-. unfold m1. rewrite Hr.
    cbn [delete list_delete]. constructor; cbn [s_master s_slave s_nm s_ns s_file]; try done; unfold balanced; tsimp; rewrite Hr in *; done.
  - destruct (read_completes compress decompress e index n' (slice F index result) m1 (set_t_queuedPackages q m1))
      as (m2 & Heq & Hsame & Hh' & Hidx & Hcn' & Hqq & Hfin & Hout & Hreqs & Hrc & Hbf); try done; unfold m1; tsimp; rewrite ?Hlen; try lia;
      [congruence|].
    rewrite Hlen in Heq. rewrite Hio in Heq. injection Heq as <-.
    unfold m1 in *. tsimp_all. change (finished_at (set_t_queuedPackages _ _)) with (finished_at (s_master S)) in *.
    rewrite Hlen, Hr in *. cbn [delete list_delete app] in *. fold index in Hidx, Hout, Hreqs, Hrc, Hbf. rewrite Hct in Hout.
    assert (Hcase : finished_at (s_master S) result = true /\ index + result = zlen F /\ (zlen F = 0 -> cs = []) \/
                    finished_at (s_master S) result = false /\ index + result < zlen F).
    { unfold finished_at. rewrite Hsz. fold index. destruct (_ || _) eqn:E; [left|right; breflect; split; [done|lia]].
      split; [done|]. apply orb_true_iff in E as [E|E]; breflect; (split; [lia|]); intros HF; (destruct Hrun as [?|[_ ?]]; [lia|done]). }
    destruct Hsame as (T1 & T2 & _ & _ & T5 & _). tsimp_all.
    exists (cs ++ [(index, result)]), (fly ++ [(index, result)]),
      (if finished_at (s_master S) result then Done else Reading (maxReadSize (cf_isStableBufSize (t_ctx (s_master S))))).
    constructor; cbn [s_master s_slave s_nm s_ns s_file]; try done.
    + rewrite T1, T2, T5. done.
    + rewrite Hqq. unfold balanced. rewrite Hreqs, Hrc, Hbf, B1, B2. destruct (finished_at _ _); cbn; lia.
    + destruct Hcase as [(Hfa & Hend & Hz)|(Hfa & Hlt)]; rewrite Hfa in *; rewrite Hidx.
      * split_and!; try done. intros HF. rewrite Hz by done. done.
      * split_and!; try done; [apply maxReadSize_range..|by left].
    + rewrite Hidx. apply tiles_snoc; [done|lia].
    + lia.
    + apply Forall_app. split; [done|]. constructor; [|constructor]. cbn. split; [lia|].
      destruct (Z.eq_dec result 0); [right; lia|left; lia].
    + rewrite iv_perm0. by rewrite <- !app_assoc.
    + unfold to_slave. cbn [s_master s_nm]. rewrite Hout, packets_app, drop_app_more by apply iv_sent0.
      fold (to_slave S). rewrite iv_to_slave0, !app_nil_r, map_app. done.
    + by destruct (finished_at _ _).
    + rewrite Hout, packets_app, length_app. lia.
Qed.

(** The next packet reaches the slave. *)
Lemma inv_to_slave S ct cs done pend fly ph cl e command payload r s' :
  Inv S ct cs done pend fly ph cl -> env_ok e -> head (to_slave S) = Some (command, payload) ->
  HdcFile_CommandDispatch decompress negotiate e command payload (s_slave S) = Ok (r, s') ->
  exists pend' fly' cl', Inv (mkSys (s_master S) s' (1 + s_nm S) (s_ns S) (s_file S)) ct cs done pend' fly' ph cl'.
Proof.
  intros I He Hhd Hd. pose proof I as []. destruct iv_s0 as (Hh & Hm & Hsz & Hst). destruct iv_s_bal0 as [B1 B2].
  destruct fly as [|c fly].
  - destruct cl; cbn in iv_to_slave0; rewrite iv_to_slave0 in Hhd; try done. injection Hhd as <- <-.
    destruct (drop_next _ _ _ _ iv_to_slave0) as [Hnext Hn].
    destruct (finish_dispatch_slave decompress negotiate e (s_slave S) Hh) as (s2 & size & Heq & Hsame & Hh' & Hidx & Hf & Hst' & Hout & Hreqs & Hrc & Hbf).
    rewrite Hd in Heq. injection Heq as -> <-. destruct Hsame as (T1 & T2 & _).
    exists pend, [], Closed. constructor; cbn [s_master s_slave s_nm s_ns s_file]; try done.
    + split_and!; congruence.
    + unfold balanced. rewrite Hreqs, Hrc, Hbf. done.
    + congruence.
    + congruence.
    + unfold to_master. cbn [s_slave s_ns]. rewrite Hout, packets_app, drop_app_more by apply iv_sent0.
      fold (to_master S). rewrite iv_to_master0. cbn. repeat constructor.
    + rewrite Hf. done.
    + intros _. exists size, (cf_fileCnt (t_ctx (s_slave S))). cbn [s_slave]. rewrite Hout. apply elem_of_app. right. left.
    + split; [exact Hn|]. rewrite Hout, packets_app, length_app. lia.
  - assert (Hcl : cl = Running) by (destruct cl; [done|by destruct iv_cl0 as (_ & _ & ? & _)..]). subst cl.
    cbn in iv_to_slave0. rewrite iv_to_slave0 in Hhd. injection Hhd as <- <-.
    destruct (drop_next _ _ _ _ iv_to_slave0) as [Hnext Hn]. destruct iv_cl0 as (Hf & Hcn & Hrun).
    assert (Hin : c ∈ cs) by (rewrite iv_perm0, !elem_of_app; right; right; left).
    pose proof (tiles_range _ _ _ _ iv_tiles0 Hin) as (R1 & R2 & R3).
    assert (Hlen : zlen (chunk_data c) = c.2) by (apply length_slice; lia).
    assert (Hmax : c.2 <= MAX_SIZE_IOBUF) by (rewrite List.Forall_forall in iv_chunk0; by apply iv_chunk0, list_elem_of_In).
    destruct (data_dispatch compress decompress negotiate e ct c.1 (chunk_data c) (s_slave S))
      as (s2 & Heq & Hsame & Hh' & Hidx & Hf' & Hcn' & Hst' & Hout & Hreqs & Hrc & Hbf); try done; [unfold in_u; lia|lia|].
    rewrite Hd in Heq. injection Heq as -> <-. destruct Hsame as (T1 & T2 & _).
    exists (pend ++ [c]), fly, Running. constructor; cbn [s_master s_slave s_nm s_ns s_file]; try done.
    + rewrite iv_perm0. by rewrite <- app_assoc.
    + split_and!; congruence.
    + unfold balanced. rewrite Hreqs, Hrc, Hbf, length_app. cbn. lia.
    + rewrite Hreqs, iv_s_reqs0, map_app. done.
    + congruence.
    + unfold to_master. cbn [s_slave s_ns]. rewrite Hout. exact iv_to_master0.
    + split_and!; congruence || done.
    + split; [exact Hn|]. rewrite Hout. apply iv_sent0.
Qed.

(** The next packet reaches the master. *)
Lemma inv_to_master S ct cs done pend fly ph cl e command payload r m' :
  Inv S ct cs done pend fly ph cl -> env_ok e -> head (to_master S) = Some (command, payload) ->
  HdcFile_CommandDispatch decompress negotiate e command payload (s_master S) = Ok (r, m') ->
  exists ph' cl', Inv (mkSys m' (s_slave S) (s_nm S) (1 + s_ns S) (s_file S)) ct cs done pend fly ph' cl'.
Proof.
  intros I He Hhd Hd. pose proof I as []. destruct iv_m0 as (Hh & Hm & Hsz & Hcn & Hct). destruct iv_m_bal0 as [[B1 B2] Hq].
  destruct cl.
  - destruct ph as [|n|]; [|rewrite iv_to_master0 in Hhd; done..]. destruct iv_to_master0 as [peer Hto]. rewrite Hto in Hhd.
    injection Hhd as <- <-. destruct (drop_next _ _ _ _ Hto) as [Hnext Hn]. destruct iv_ph0 as (Hr & Hf & Hidx0 & ->).
    destruct (begin_dispatch decompress negotiate e (s_master S) peer He Hh Hm Hf Hcn)
      as (m2 & Heq & Hsame & Hh' & Hidx & Hf' & Hcn' & Hst & Hqq & Hout & Hreqs & Hrc & Hbf).
    rewrite Hd in Heq. injection Heq as -> <-. destruct Hsame as (T1 & T2 & _ & _ & T5 & _).
    eexists (Reading _), Running. constructor; cbn [s_master s_slave s_nm s_ns s_file]; try done.
    + rewrite T1, T2, T5. done.
    + unfold balanced. rewrite Hreqs, Hrc, Hbf, Hqq, length_app, B1, B2. cbn. lia.
    + rewrite Hreqs, Hr, Hidx. split_and!; [reflexivity|done|apply maxReadSize_range..|].
      destruct (Z.eq_dec (zlen F) 0); [by right|left; lia].
    + by rewrite Hidx.
    + by rewrite Hidx.
    + unfold to_slave. cbn [s_master s_nm]. rewrite Hout. exact iv_to_slave0.
    + rewrite Hout. split; [apply iv_sent0|exact Hn].
  - rewrite iv_to_master0 in Hhd. injection Hhd as <- <-. destruct (drop_next _ _ _ _ iv_to_master0) as [Hnext Hn].
    destruct iv_cl0 as (Hsf & -> & -> & ->). destruct iv_ph0 as (Hr & Hf & Hidx0 & Hone).
    destruct (finish_dispatch_master decompress negotiate e (s_master S) Hh)
      as (m2 & Heq & Hsame & Hh' & Hidx & Hf' & Hcn' & Hqq & Hout & Hreqs & Hrc & Hbf).
    rewrite Hd in Heq. injection Heq as -> <-. destruct Hsame as (T1 & T2 & _ & _ & T5 & _).
    exists Done, Answered. constructor; cbn [s_master s_slave s_nm s_ns s_file]; try done.
    + rewrite T1, T2, T5, Hcn'. done.
    + unfold balanced. rewrite Hreqs, Hrc, Hbf, Hqq. done.
    + rewrite Hreqs, Hidx. done.
    + by rewrite Hidx.
    + by rewrite Hidx.
    + unfold to_slave. cbn [s_master s_nm]. rewrite Hout, packets_app, drop_app_more by apply iv_sent0.
      fold (to_slave S). by rewrite iv_to_slave0.
    + rewrite Hout, packets_app, length_app. split; [destruct iv_sent0; lia|exact Hn].
  - rewrite iv_to_master0 in Hhd. done.
  - destruct (to_master S) as [|[c0 p0] k] eqn:Hto; [done|]. injection Hhd as -> ->. inversion iv_to_master0 as [|? ? Hc Hk]. cbn in Hc. subst.
    destruct (drop_next _ _ _ _ Hto) as [Hnext Hn].
    assert (Heq : HdcFile_CommandDispatch decompress negotiate e CMD_KERNEL_CHANNEL_CLOSE payload (s_master S) = Ok (true, s_master S)) by done.
    rewrite Hd in Heq. injection Heq as -> ->. exists ph, Closed. constructor; cbn [s_master s_slave s_nm s_ns s_file]; try done.
    + unfold to_master. cbn [s_slave s_ns]. by rewrite Hnext.
    + split; [apply iv_sent0|exact Hn].
Qed.

Lemma inv_step S S' ct cs done pend fly ph cl :
  Inv S ct cs done pend fly ph cl -> step S S' -> exists cs' done' pend' fly' ph' cl', Inv S' ct cs' done' pend' fly' ph' cl'.
Proof.
  intros I Hs. destruct Hs as [S e i index n result m' He Hi Hr Hmx Hz Hio|S e i o d s' He Hi Hio|S e c p r s' He Hh Hd|S e c p r m' He Hh Hd|S Hq].
  - destruct (inv_read S ct cs done pend fly ph cl e i index n result m') as (? & ? & ? & ?); eauto 10.
  - destruct (inv_write S ct cs done pend fly ph cl e i o d s') as (? & ? & ? & ? & ?); eauto 10.
  - destruct (inv_to_slave S ct cs done pend fly ph cl e c p r s') as (? & ? & ? & ?); eauto 10.
  - destruct (inv_to_master S ct cs done pend fly ph cl e c p r m') as (? & ? & ?); eauto 10.
  - exists cs, done, pend, fly, ph, cl. apply inv_queue; [done|lia].
Qed.

Lemma inv_reachable S : zlen F < 2 ^ 63 -> reachable S -> exists ct cs done pend fly ph cl, Inv S ct cs done pend fly ph cl.
Proof.
  intros HF (S0 & H0 & Hrtc). destruct (inv_started S0 HF H0) as (ct & I). exists ct.
  assert (Hex : exists cs done pend fly ph cl, Inv S0 ct cs done pend fly ph cl) by (do 6 eexists; exact I). clear I H0.
  induction Hrtc as [|S1 S2 S3 Hst _ IH]; [exact Hex|]. apply IH. destruct Hex as (? & ? & ? & ? & ? & ? & I). exact (inv_step S1 S2 _ _ _ _ _ _ _ I Hst).
Qed.

(** Once the slave has finished, its file is the file sent. *)
Lemma inv_finished S ct cs done pend fly ph cl :
  Inv S ct cs done pend fly ph cl -> cl <> Running -> s_file S = F.
Proof.
  intros [] Hcl. destruct cl; [done|..]; destruct iv_cl0 as (_ & -> & -> & ->); destruct iv_ph0 as (_ & _ & Hidx & _);
    rewrite Hidx in iv_tiles0; rewrite !app_nil_r in iv_perm0; destruct iv_file0 as [Hl Hag];
    apply list_eq; intros i; (destruct (decide (i < length F)%nat) as [Hi|Hi];
      [|rewrite !lookup_ge_None_2 by lia; done]);
    destruct (tiles_cover _ _ _ (Z.of_nat i) iv_tiles0 ltac:(lia)) as (c & Hc & Hr); (apply (Hag c); [by rewrite <- iv_perm0|done]).
Qed.

(** ** Progress *)

Definition is_finish (p : Z * bytes) : bool := p.1 =? CMD_FILE_FINISH.

(** Work left: bytes to read, packets and writes on their way, and the closing
    handshake. *)
Definition closing_left (S : Sys) : Z :=
  if negb (cf_ioFinish (t_ctx (s_slave S))) then 12
  else if existsb is_finish (to_master S) then 8
  else if existsb is_finish (to_slave S) then 4 else 0.
Definition reading_left (m : Transfer) : Z :=
  if cf_ioFinish (t_ctx m) then 0 else if bool_decide (t_reqs m = []) then 11 else 6.
Definition work (S : Sys) : Z :=
  8 * (zlen F - cf_indexIO (t_ctx (s_master S))) + reading_left (s_master S) + 3 * zlen (to_slave S) +
  2 * zlen (t_reqs (s_slave S)) + t_queuedPackages (s_master S) + closing_left S.

Lemma work_nonneg S ct cs done pend fly ph cl : Inv S ct cs done pend fly ph cl -> 0 <= work S.
Proof.
  intros []. destruct iv_m_bal0 as [_ Hq]. unfold work, reading_left, closing_left.
  repeat case_if_goal; lia.
Qed.

Lemma chunk_msgs_no_finish ct fly : existsb is_finish (map (chunk_msg ct) fly) = false.
Proof. induction fly as [|c fly IH]; [done|]. cbn [map existsb]. by rewrite IH. Qed.

(** A packet on its way to the slave can be delivered. *)
Lemma progress_to_slave S ct cs done pend c fly ph cl :
  Inv S ct cs done pend (c :: fly) ph cl -> exists S', step S S' /\ work S' < work S.
Proof.
  intros I. pose proof I as []. destruct iv_s0 as (Hh & Hm & Hsz & Hst).
  assert (Hcl : cl = Running) by (destruct cl; [done|by destruct iv_cl0 as (_ & _ & ? & _)..]). subst cl.
  cbn in iv_to_slave0. destruct iv_cl0 as (Hf & Hcn & _).
  assert (Hin : c ∈ cs) by (rewrite iv_perm0, !elem_of_app; right; right; left).
  pose proof (tiles_range _ _ _ _ iv_tiles0 Hin) as (R1 & R2 & R3).
  assert (Hlen : zlen (chunk_data c) = c.2) by (apply length_slice; lia).
  assert (Hmax : c.2 <= MAX_SIZE_IOBUF) by (rewrite List.Forall_forall in iv_chunk0; by apply iv_chunk0, list_elem_of_In).
  destruct (data_dispatch compress decompress negotiate env_good ct c.1 (chunk_data c) (s_slave S))
    as (s2 & Heq & _ & _ & _ & Hf' & _ & _ & Hout & Hreqs & _); try done; [unfold in_u; lia|lia|].
  eexists. split; [eapply step_to_slave; [|by rewrite iv_to_slave0|exact Heq]; done|].
  destruct (drop_next _ _ _ _ iv_to_slave0) as [Hnext _].
  unfold work, closing_left. cbn [s_master s_slave]. rewrite Hf, Hf'. cbn [negb]. rewrite Hreqs, length_app.
  unfold to_slave at 1. cbn [s_master s_nm]. rewrite Hnext, iv_to_slave0. cbn [length]. lia.
Qed.

(** A write in flight can complete. *)
Lemma progress_write S ct cs done c pend fly ph cl :
  Inv S ct cs done (c :: pend) fly ph cl -> exists S', step S S' /\ work S' < work S.
Proof.
  intros I. pose proof I as []. destruct iv_s0 as (Hh & Hm & Hsz & Hst).
  destruct cl; [|by destruct iv_cl0 as (_ & ? & _)..]. destruct iv_cl0 as (Hf & Hcn & _).
  assert (Hin : c ∈ cs) by (rewrite iv_perm0, elem_of_app; right; left).
  pose proof (tiles_range _ _ _ _ iv_tiles0 Hin) as (R1 & R2 & R3).
  assert (Hlen : zlen (chunk_data c) = c.2) by (apply length_slice; lia).
  assert (0 <= total done <= zlen F).
  { pose proof (total_perm _ _ iv_perm0) as Hs. destruct (tiles_total _ _ _ iv_tiles0) as [Ht _]. rewrite total_app in Hs.
    assert (Hnn : forall l, (forall x, x ∈ l -> x ∈ cs) -> 0 <= total l).
    { intros l Hl. apply total_nonneg. intros x Hx. by apply (tiles_range _ _ _ _ iv_tiles0), Hl. }
    pose proof (Hnn done ltac:(intros x Hx; rewrite iv_perm0; apply elem_of_app; by left)).
    pose proof (Hnn ((c :: pend) ++ fly) ltac:(intros x Hx; rewrite iv_perm0; apply elem_of_app; by right)). lia. }
  set (st := set_t_reqs (delete 0%nat (t_reqs (s_slave S))) (s_slave S)).
  destruct (write_completes compress env_good c.1 (chunk_data c) st)
    as (s2 & Heq & _ & _ & Hreqs & _ & _ & _ & _ & Hfin & _ & Hout); try done; unfold st; tsimp; try lia.
  eexists. split; [eapply (step_write S env_good 0); [done|by rewrite iv_s_reqs0|exact Heq]|].
  unfold work, closing_left. cbn [s_master s_slave]. rewrite Hf, Hfin, Hreqs. cbn [negb]. unfold st. tsimp. rewrite iv_s_reqs0.
  change (to_slave (mkSys _ _ _ _ _)) with (to_slave S). cbn [map delete list_delete length].
  repeat case_if_goal; lia.
Qed.

(** A read in flight can complete, or the queue that holds it back can drain. *)
Lemma progress_read S ct cs done n cl :
  Inv S ct cs done [] [] (Reading n) cl -> exists S', step S S' /\ work S' < work S.
Proof.
  intros I. pose proof I as []. destruct iv_ph0 as (Hr & Hf & Hn & Hrun). destruct iv_m_bal0 as [_ Hq]. destruct iv_m0 as (Hh & Hm & Hsz & Hcn & Hct).
  destruct cl; [|by destruct iv_cl0 as (_ & _ & _ & ?)..]. destruct iv_cl0 as (Hsf & _).
  set (index := cf_indexIO (t_ctx (s_master S))) in *. set (m1 := set_t_reqs (delete 0%nat (t_reqs (s_master S))) (s_master S)).
  destruct (IODelayed_read index n m1 Hq) as [Hdel|(q & Hdel & Hq')].
  - assert (64 <= t_queuedPackages (s_master S)).
    { unfold IODelayed in Hdel. change (t_hdcHost m1) with (t_hdcHost (s_master S)) in Hdel. change (t_channelTask m1) with (t_channelTask (s_master S)) in Hdel.
      change (t_queuedPackages m1) with (t_queuedPackages (s_master S)) in Hdel.
      destruct (t_hdcHost (s_master S)); [|done]. cbn [negb] in Hdel. destruct (t_channelTask (s_master S)); [|done].
      destruct (64 <=? _) eqn:E; [breflect; lia|done]. }
    eexists. split; [apply step_drain; lia|]. unfold work, closing_left, reading_left. cbn [s_master s_slave]. tsimp.
    change (to_slave (mkSys _ _ _ _ _)) with (to_slave S). change (to_master (mkSys _ _ _ _ _)) with (to_master S). lia.
  - set (result := Z.min n (zlen F - index)).
    assert (Hlen : zlen (slice F index result) = result) by (apply length_slice; lia).
    destruct (read_completes compress decompress env_good index n (slice F index result) m1 (set_t_queuedPackages q m1))
      as (m2 & Heq & _ & _ & Hidx & _ & Hqq & Hfin & Hout & Hreqs & _); try done; unfold m1; tsimp; rewrite ?Hlen; try lia; [congruence|].
    rewrite Hlen in Heq.
    eexists. split; [eapply (step_read S env_good 0 index n result); [done|by rewrite Hr|lia|lia|lia|exact Heq]|].
    unfold m1 in *. tsimp_all. change (finished_at (set_t_queuedPackages _ _)) with (finished_at (s_master S)) in *.
    rewrite Hlen, Hr in *. cbn [delete list_delete app] in *. fold index in Hidx, Hreqs.
    unfold work, closing_left, reading_left. cbn [s_master s_slave]. rewrite Hsf, Hfin, Hidx, Hqq, Hf, Hr. cbn [negb].
    unfold to_slave. cbn [s_master s_nm]. rewrite Hout, packets_app, drop_app_more, length_app by apply iv_sent0. fold (to_slave S).
    rewrite (bool_decide_false ([FsRead index n] = [])) by done. cbn [packets omap list_omap packet_of length]. fold index.
    change (t_queuedPackages m1) with (t_queuedPackages (s_master S)) in Hq'.
    assert (finished_at (s_master S) result = true \/ 0 < result).
    { unfold finished_at. rewrite Hsz. fold index. destruct (Z.eq_dec result 0) as [->|]; [left; by rewrite orb_true_r|right; lia]. }
    destruct (finished_at (s_master S) result); [lia|]. rewrite Hreqs. rewrite bool_decide_false by done. destruct H as [|]; [done|lia].
Qed.

Lemma progress S ct cs done pend fly ph cl :
  Inv S ct cs done pend fly ph cl -> cl = Closed \/ exists S', step S S' /\ work S' < work S.
Proof.
  intros I. destruct fly as [|c fly]; [|right; by apply (progress_to_slave S ct cs done pend c fly ph cl)].
  destruct pend as [|c pend]; [|right; by apply (progress_write S ct cs done c pend [] ph cl)].
  destruct ph as [|n|]; [|right; by apply (progress_read S ct cs done n cl)|]; pose proof I as [];
    destruct iv_m0 as (Hh & Hm & Hsz & Hcn & Hct).
  - right. destruct cl; [|by destruct iv_cl0 as (_ & _ & _ & ?)..]. destruct iv_to_master0 as [peer Hto]. destruct iv_cl0 as (Hsf & _).
    destruct iv_ph0 as (Hr & Hf & _).
    destruct (begin_dispatch decompress negotiate env_good (s_master S) peer) as (m2 & Heq & _ & _ & Hidx & Hf' & _ & _ & Hqq & Hout & Hreqs & _); try done.
    eexists. split; [eapply step_to_master; [|by rewrite Hto|exact Heq]; done|].
    unfold work, closing_left, reading_left. cbn [s_master s_slave]. rewrite Hsf, Hidx, Hqq, Hf, Hf', Hr, Hreqs, Hr. cbn [negb app].
    unfold to_slave. cbn [s_master s_nm]. rewrite Hout. rewrite bool_decide_false, bool_decide_true by done. lia.
  - destruct cl.
    + exfalso. destruct iv_ph0 as (_ & _ & Hidx & Hone). destruct iv_cl0 as (_ & _ & Hrun). rewrite !app_nil_r in iv_perm0.
      pose proof (total_perm _ _ iv_perm0) as Hs. destruct (tiles_total _ _ _ iv_tiles0) as [Ht _].
      destruct Hrun as [?|[HF ->]]; [lia|]. apply Permutation_length in iv_perm0. rewrite (Hone HF) in iv_perm0. done.
    + right. destruct iv_cl0 as (Hsf & _). destruct iv_ph0 as (Hr & Hf & _).
      destruct (finish_dispatch_master decompress negotiate env_good (s_master S) Hh) as (m2 & Heq & _ & _ & Hidx & Hf' & _ & Hqq & Hout & Hreqs & _).
      eexists. split; [eapply step_to_master; [|by rewrite iv_to_master0|exact Heq]; done|].
      destruct (drop_next _ _ _ _ iv_to_master0) as [Hnext _].
      unfold work, closing_left, reading_left. cbn [s_master s_slave]. rewrite Hsf, Hidx, Hqq, Hf, Hf'. cbn [negb].
      unfold to_master at 1. cbn [s_slave s_ns]. rewrite Hnext, iv_to_master0, iv_to_slave0.
      unfold to_slave. cbn [s_master s_nm]. rewrite Hout, packets_app, drop_app_more by apply iv_sent0. fold (to_slave S). rewrite iv_to_slave0.
      cbn. lia.
    + right. destruct iv_s0 as (Hsh & _). destruct iv_cl0 as (Hsf & _). cbn in iv_to_slave0.
      destruct (finish_dispatch_slave decompress negotiate env_good (s_slave S) Hsh) as (s2 & size & Heq & _ & _ & _ & Hf' & _ & Hout & Hreqs & _).
      eexists. split; [eapply step_to_slave; [|by rewrite iv_to_slave0|exact Heq]; done|].
      destruct (drop_next _ _ _ _ iv_to_slave0) as [Hnext _].
      unfold work, closing_left. cbn [s_master s_slave]. rewrite Hf', Hsf, Hreqs. cbn [negb].
      unfold to_master at 1. cbn [s_slave s_ns]. rewrite Hout, packets_app, drop_app_more by apply iv_sent0. fold (to_master S).
      unfold to_slave at 1 2. cbn [s_master s_nm]. rewrite Hnext, iv_to_slave0, iv_to_master0. cbn. lia.
    + by left.
Qed.

Lemma can_finish S ct cs done pend fly ph cl :
  Inv S ct cs done pend fly ph cl -> exists S', rtc step S S' /\ reported S' /\ s_file S' = F.
Proof.
  remember (Z.to_nat (work S)) as k eqn:Hk. revert S cs done pend fly ph cl Hk.
  induction (lt_wf k) as [k _ IH]. intros S cs done pend fly ph cl Hk I.
  destruct (progress S ct cs done pend fly ph cl I) as [->|(S1 & Hst & Hw)].
  - exists S. split; [constructor|]. split; [by apply (iv_rep _ _ _ _ _ _ _ _ I)|by apply (inv_finished _ _ _ _ _ _ _ _ I)].
  - destruct (inv_step _ _ _ _ _ _ _ _ _ I Hst) as (? & ? & ? & ? & ? & ? & I1).
    pose proof (work_nonneg _ _ _ _ _ _ _ _ I1).
    destruct (IH (Z.to_nat (work S1)) ltac:(lia) S1 _ _ _ _ _ _ eq_refl I1) as (S2 & Hr & Hrep & Hfile).
    exists S2. split; [by apply (rtc_l _ _ S1)|done].
Qed.

(** C1. A file arrives intact however the two tasks, the disk operations and the
    packets interleave.  In every reachable state of a transfer of [F]: as soon as
    the slave considers the file complete, what it wrote is exactly [F]; neither
    side has recorded an error; each task is referenced once per request in flight
    and holds one buffer per request, so it is not released while a callback is
    due; and the transfer can still be completed, ending with the slave's report
    of success. *)
Theorem file_transfer_correct (S : Sys) :
  zlen F < 2 ^ 63 -> reachable S ->
  (cf_ioFinish (t_ctx (s_slave S)) = true -> s_file S = F) /\
  cf_lastErrno (t_ctx (s_master S)) = 0 /\ cf_lastErrno (t_ctx (s_slave S)) = 0 /\
  balanced (s_master S) /\ balanced (s_slave S) /\
  (ReadyForRelease (s_slave S) = true -> t_reqs (s_slave S) = []) /\
  exists S', rtc step S S' /\ reported S' /\ s_file S' = F.
Proof.
  intros HF Hr. destruct (inv_reachable S HF Hr) as (ct & cs & done & pend & fly & ph & cl & I). pose proof I as [].
  destruct iv_m0 as ((_ & Hme & _) & _), iv_s0 as ((_ & Hse & _) & _), iv_m_bal0 as [Hmb _]. split_and!; try done.
  - intros Hf. apply (inv_finished _ _ _ _ _ _ _ _ I). intros ->. destruct iv_cl0 as [Hc _]. congruence.
  - unfold ReadyForRelease. destruct iv_s_bal0 as [-> _]. intros Hz. breflect. destruct (t_reqs (s_slave S)); [done|cbn in Hz; lia].
  - by apply (can_finish S ct cs done pend fly ph cl).
Qed.
End System.

(** A concrete transfer: a codec that stores its input, and a five-byte file. *)
Definition store_codec (data : bytes) (n : Z) : option bytes := if 0 <? zlen data then Some data else None.

#[export] Instance store_codec_ok : Lz4Ok store_codec (fun c _ => Some c).
Proof.
  intros data c. unfold store_codec. destruct (0 <? zlen data) eqn:E; [|done]. intros Hc. injection Hc as <-. breflect. split; [lia|done].
Qed.

Definition sample_ctx (master : bool) (size : Z) : CtxFile :=
  mkCtxFile size 0 0 0 false (str "a.txt") (str "/data/a.txt") (str "/tmp/a.txt") [] false master false false false false false 0
    [] (set_tc_compressType COMPRESS_LZ4 TransferConfig_zero) FileMode_zero (-1) false false.
Definition sample_task (master : bool) (size : Z) : Transfer :=
  mkTransfer (sample_ctx master size) 1 [] 0 [] false true false false 0 false.

Definition unwrap (r : res Transfer) : Transfer := match r with Ok st => st | _ => sample_task true 0 end.

Definition sample_sys : Sys :=
  mkSys (unwrap (OnFileOpen 3 (mkStatBuf 5 0 0 0 0 0) (sample_task true 0)))
        (unwrap (OnFileOpen 4 (mkStatBuf 0 0 0 0 0 0) (sample_task false 5))) 1 0 [].

Lemma file_transfer_correct_witness :
  exists S', rtc (step store_codec (fun c _ => Some c) (fun _ _ st => Ok (true, st)) (str "hello")) sample_sys S' /\
    reported S' /\ s_file S' = str "hello".
Proof.
  apply (file_transfer_correct store_codec (fun c _ => Some c) (fun _ _ st => Ok (true, st)) (str "hello") sample_sys).
  - vm_compute. reflexivity.
  - exists sample_sys. split; [|constructor].
    exists 3, 4, (mkStatBuf 5 0 0 0 0 0), (mkStatBuf 0 0 0 0 0 0), (sample_task true 0), (sample_task false 5).
    unfold opening, link_ok, in_u. vm_compute. repeat split; discriminate.
Defined.
