(* ===== verification/ChannelIo.v ===== *)
(** * ChannelIo: the byte stream between client and server ([channel.cpp])

    A channel is a socket between a client and the server.  Messages are framed
    by a 32-bit length in network order.  [ChannelFrame] and [ChannelFrameCmd]
    are the buffers [SendChannel] and [SendChannelWithCmd] write;
    [AllocCallback], [funcChannelHeaderAlloc] and [ReadStream] are the receiving
    side, which hands complete messages to the virtual [ReadChannel].

    Accesses outside the receive buffer have the outcome [Undefined].  The
    channel layer exists in host builds only, so [isSuccess] and [faultInfo] are
    part of the state. *)

From Stdlib Require Import String ZArith Lia List Bool.
From stdpp Require Import base list numbers option.
From S2P Require Import Prelude Defs Packet.

(** ** What the stream needs of the rest of the channel

    [W] is all the handlers see and change.  [ReadChannel] returns the new
    world, its result and whether it has set [availTailIndex] to 0 (the
    handshakes do on failure). *)
Class ChannelSink (W : Type) := {
  keepAlive : W -> bool;
  ReadChannel : W -> bytes -> res (W * Z * bool);
  FreeChannel : W -> W;
  TryCloseHandle : W -> W
}.

(** [libuv]'s codes and texts. *)
Definition UV_ENOBUFS : Z := -105.

Record IoChannel (W : Type) := mkCh {
  c_ioBuf : bytes; c_bufSize : Z; c_avail : Z; c_isSuccess : bool; c_faultInfo : bytes; c_world : W
}.
Arguments mkCh {W}. Arguments c_ioBuf {W}. Arguments c_bufSize {W}. Arguments c_avail {W}.
Arguments c_isSuccess {W}. Arguments c_faultInfo {W}. Arguments c_world {W}.

(** ** Sending *)

Definition GetMaxBufSize : Z := MAX_SIZE_IOBUF.

(** The buffer of [SendChannel]; [None] when nothing is sent. *)
Definition ChannelFrame (buf : bytes) : option bytes :=
  let size := zlen buf in
  if (size <? 0) || (2147483647 - DWORD_SERIALIZE_SIZE <? size) then None
  else
    let sizeNewBuf := size + DWORD_SERIALIZE_SIZE in
    if negb (memcpy_ok (sizeNewBuf - DWORD_SERIALIZE_SIZE) size) then None
    else Some (be_split 4 size ++ buf).

(** [SendChannelWithCmd] puts the command in front, in the byte order of the host. *)
Definition ChannelFrameCmd (commandFlag : Z) (buf : bytes) : option bytes :=
  let size := zlen buf in
  if negb (memcpy_ok (size + 2) 2) then None
  else if (0 <? size) && negb (memcpy_ok size size) then None
  else ChannelFrame (le_split 2 commandFlag ++ buf).

(** ** Receiving *)

Section Receive.
Context {W : Type} `{ChannelSink W}.
Context (fresh : Z -> bytes) (uv_strerror uv_err_name : Z -> bytes).

Definition set_world (w : W) (s : IoChannel W) : IoChannel W :=
  mkCh (c_ioBuf s) (c_bufSize s) (c_avail s) (c_isSuccess s) (c_faultInfo s) w.
Definition set_avail (n : Z) (s : IoChannel W) : IoChannel W :=
  mkCh (c_ioBuf s) (c_bufSize s) n (c_isSuccess s) (c_faultInfo s) (c_world s).
Definition FillChannelResult (isSuccess : bool) (faultInfo : bytes) (s : IoChannel W) : IoChannel W :=
  mkCh (c_ioBuf s) (c_bufSize s) (c_avail s) isSuccess (c_faultInfo s ++ faultInfo) (c_world s).

(** The offset and length of the space offered to libuv, if any. *)
Definition AllocCallback (sizeWanted : Z) (s : IoChannel W) : option (Z * Z) * IoChannel W :=
  let '(b, n) := ReallocBuf fresh (c_ioBuf s) (c_bufSize s) (GetMaxBufSize * BUF_EXTEND_SIZE) in
  let s := mkCh b n (c_avail s) (c_isSuccess s) (c_faultInfo s) (c_world s) in
  let availSize := n - c_avail s in
  if availSize <=? 0 then (None, s)
  else (Some (c_avail s, Z.min availSize (Z.min sizeWanted 2147483647)), s).

(** [sizeof(ChannelHandShake)] and the offset of its [version]. *)
Definition sizeof_ChannelHandShake : Z := 12 + MAX_CONNECTKEY_SIZE + BUF_SIZE_TINY.
Definition offsetof_version : Z := 12 + MAX_CONNECTKEY_SIZE.

(** The server's allocator before the channel is bound to a session ([AcceptClient]);
    [versionCheck] is [HDC_VERSION_CHECK]. *)
Definition funcChannelHeaderAlloc (versionCheck : bool) (s : IoChannel W) : (Z * Z) * IoChannel W :=
  let '(b, n) := ReallocBuf fresh (c_ioBuf s) (c_bufSize s) (GetMaxBufSize * BUF_EXTEND_SIZE) in
  let s := mkCh b n (c_avail s) (c_isSuccess s) (c_faultInfo s) (c_world s) in
  ((c_avail s, (if versionCheck then sizeof_ChannelHandShake else offsetof_version) + DWORD_SERIALIZE_SIZE), s).

(** The [while] of [ReadStream]: [indexBuf], [needExit] and the channel. *)
Fixpoint ReadStream_loop (fuel : nat) (indexBuf : Z) (s : IoChannel W) : res (Z * bool * IoChannel W) :=
  match fuel with
  | O => Stuck
  | S fuel =>
      if DWORD_SERIALIZE_SIZE <? c_avail s then
        sizeField ← deref (slice indexBuf DWORD_SERIALIZE_SIZE (c_ioBuf s));
        let size := be_combine sizeField in
        if (size =? 0) || (HDC_BUF_MAX_BYTES <? size) then
          Ok (indexBuf, true, FillChannelResult false (str "parse error: size field is too big") s)
        else if u32 (c_avail s - DWORD_SERIALIZE_SIZE) <? size then Ok (indexBuf, false, s)
        else
          msg ← deref (slice (indexBuf + DWORD_SERIALIZE_SIZE) size (c_ioBuf s));
          '((w, childRet, emptied) : W * Z * bool) ← ReadChannel (c_world s) msg;
          let s := set_avail (if (emptied : bool) then 0 else c_avail s) (set_world w s) in
          if (childRet <? 0) && negb (keepAlive w) then Ok (indexBuf, true, s)
          else
            ReadStream_loop fuel (u32 (indexBuf + u32 (DWORD_SERIALIZE_SIZE + size)))
              (set_avail (c_avail s - DWORD_SERIALIZE_SIZE - size) s)
      else Ok (indexBuf, false, s)
  end.

(** What is left moves to the front of the buffer. *)
Definition ReadStream_compact (indexBuf : Z) (needExit : bool) (s : IoChannel W) : res (bool * IoChannel W) :=
  if (0 <? indexBuf) && (0 <? c_avail s) then
    if negb (memcpy_ok (c_bufSize s) (c_avail s)) then Ok (true, s)
    else
      keep ← deref (slice indexBuf (c_avail s) (c_ioBuf s));
      Ok (needExit, mkCh (keep ++ zdrop (c_avail s) (c_ioBuf s)) (c_bufSize s) (c_avail s)
                      (c_isSuccess s) (c_faultInfo s) (c_world s))
  else Ok (needExit, s).

Definition ReadStream_finish (needExit : bool) (s : IoChannel W) : IoChannel W :=
  if needExit then set_world (FreeChannel (c_world s)) s
  else mkCh (c_ioBuf s) (c_bufSize s) (c_avail s) (bool_decide (c_faultInfo s = [])) (c_faultInfo s) (c_world s).

Definition ReadStream (nread : Z) (s : IoChannel W) : res (IoChannel W) :=
  if nread =? UV_ENOBUFS then Ok (FillChannelResult false (uv_strerror nread) s)
  else if nread =? 0 then Ok s
  else if nread <? 0 then
    Ok (ReadStream_finish true
          (FillChannelResult false (uv_err_name nread) (set_world (TryCloseHandle (c_world s)) s)))
  else
    let s := set_avail (c_avail s + nread) s in
    '(indexBuf, needExit, s) ← ReadStream_loop (S (Z.to_nat (c_avail s))) 0 s;
    '(needExit, s) ← ReadStream_compact indexBuf needExit s;
    Ok (ReadStream_finish needExit s).

(** libuv stores [chunk] at the offered place. *)
Definition store (off : Z) (chunk : bytes) (s : IoChannel W) : res (IoChannel W) :=
  if off + zlen chunk <=? zlen (c_ioBuf s) then
    Ok (mkCh (ztake off (c_ioBuf s) ++ chunk ++ zdrop (off + zlen chunk) (c_ioBuf s))
          (c_bufSize s) (c_avail s) (c_isSuccess s) (c_faultInfo s) (c_world s))
  else Undefined.

(** One round of the event loop on a readable socket, with the buffer [alloc]
    offers: libuv reads what is there, at most that much, and calls [ReadStream]. *)
Definition ReadRound (alloc : IoChannel W -> option (Z * Z) * IoChannel W) (stream : bytes) (s : IoChannel W)
    : res (IoChannel W * bytes) :=
  match alloc s with
  | (None, s) => s ← ReadStream UV_ENOBUFS s; Ok (s, stream)
  | (Some (off, len), s) =>
      let n := Z.min len (zlen stream) in
      s ← store off (ztake n stream) s;
      s ← ReadStream n s;
      Ok (s, zdrop n stream)
  end.

Fixpoint ReadRounds (allocs : list (IoChannel W -> option (Z * Z) * IoChannel W)) (stream : bytes) (s : IoChannel W)
    : res (IoChannel W * bytes) :=
  match allocs with
  | [] => Ok (s, stream)
  | alloc :: allocs => '(s, stream) ← ReadRound alloc stream s; ReadRounds allocs stream s
  end.

(** The reference: messages handled one after the other; [None] when a handler
    fails, empties the buffer or wants the channel closed. *)
Fixpoint deliver (ms : list bytes) (w : W) : option W :=
  match ms with
  | [] => Some w
  | m :: ms =>
      match ReadChannel w m with
      | Ok (w, childRet, false) => if (childRet <? 0) && negb (keepAlive w) then None else deliver ms w
      | _ => None
      end
  end.
End Receive.
