(* ===== verification/ChannelIoProps.v ===== *)
(** * ChannelIoProps: the theorems about the channel's byte stream

    [read_stream_bounds] covers arbitrary input, [channel_stream_reassembly] what
    a correct peer sends; [oversized_message_stalls] and [header_alloc_overflows]
    show what happens to messages that do not fit the buffer. *)

From Stdlib Require Import String ZArith Lia List Bool.
From stdpp Require Import base list numbers option.
From S2P Require Import Prelude Defs Packet PacketProps ChannelIo.

(** The size of the receive buffer. *)
Definition chan_buf : Z := GetMaxBufSize * BUF_EXTEND_SIZE.

Definition ch_wf {W} (s : IoChannel W) : Prop :=
  wf_bytes (c_ioBuf s) /\ zlen (c_ioBuf s) = c_bufSize s /\ 0 <= c_avail s <= c_bufSize s /\ c_bufSize s <= RSIZE_MAX.

Definition c_unread {W} (s : IoChannel W) : bytes := ztake (c_avail s) (c_ioBuf s).

(** What [ReadStream] relies on: a handler returns, and one that empties the
    buffer wants the channel closed. *)
Class ChannelSinkOk (W : Type) `{ChannelSink W} : Prop := {
  handler_ok : forall w m, exists w' r emptied, ReadChannel w m = Ok (w', r, emptied) /\
    (emptied = true -> r < 0 /\ keepAlive w' = false)
}.

(** [fresh] is what [new uint8_t[n]] returns. *)
Definition fresh_ok (fresh : Z -> bytes) : Prop := forall n, 0 <= n -> zlen (fresh n) = n /\ wf_bytes (fresh n).

Section Safety.
Context {W : Type} `{ChannelSinkOk W}.
Context (uv_strerror uv_err_name : Z -> bytes).

Lemma ReadStream_loop_safe fuel : forall idx (s : IoChannel W),
  wf_bytes (c_ioBuf s) -> zlen (c_ioBuf s) <= RSIZE_MAX -> 0 <= idx -> 0 <= c_avail s ->
  idx + c_avail s <= zlen (c_ioBuf s) -> (Z.to_nat (c_avail s) < fuel)%nat ->
  exists idx' ex s', ReadStream_loop fuel idx s = Ok (idx', ex, s') /\
    c_ioBuf s' = c_ioBuf s /\ c_bufSize s' = c_bufSize s /\ idx <= idx' /\ 0 <= c_avail s' /\
    (idx' + c_avail s' = idx + c_avail s \/ ex = true /\ c_avail s' = 0 /\ idx' <= idx + c_avail s).
Proof.
  induction fuel as [|fuel IH]; intros idx s Hb Hmax Hi Ha Hle Hf; [lia|]. unfold RSIZE_MAX in Hmax.
  cbn [ReadStream_loop]. case_if_goal; [|do 3 eexists; split; [done|]; split_and!; auto; lia]. breflect.
  unfold DWORD_SERIALIZE_SIZE in *. rewrite slice_Some by lia. cbn [mbind res_bind deref].
  set (size := be_combine _).
  assert (Hsz : 0 <= size < 2 ^ 32).
  { unfold size. pose proof (be_combine_bound (ztake 4 (zdrop idx (c_ioBuf s))) ltac:(auto with hdc)) as Hc.
    rewrite length_ztake in Hc by (rewrite length_zdrop; lia). exact Hc. }
  case_if_goal; [do 3 eexists; split; [done|]; cbn; split_and!; auto; lia|]. breflect.
  rewrite (uwrap_small 32) by (unfold in_u; lia).
  case_if_goal; [do 3 eexists; split; [done|]; cbn; split_and!; auto; lia|]. breflect.
  rewrite slice_Some by lia. cbn [mbind res_bind deref].
  destruct (handler_ok (c_world s) (ztake size (zdrop (idx + 4) (c_ioBuf s)))) as (w' & r & e & -> & He).
  cbn [mbind res_bind]. destruct ((r <? 0) && negb (keepAlive w')) eqn:Ex.
  - do 3 eexists; split; [done|]. cbn. split_and!; auto; [lia|destruct e; lia|].
    destruct e; [right; split_and!; auto; lia|left; lia].
  - destruct e; [destruct (He eq_refl) as [Hr Hk]; rewrite Hk in Ex; apply andb_false_iff in Ex as [Ex|Ex]; [breflect; lia|done]|].
    rewrite !(uwrap_small 32) by (unfold in_u; rewrite ?(uwrap_small 32); unfold in_u; lia).
    edestruct (IH (idx + (4 + size)) (set_avail (c_avail s - 4 - size) (set_avail (c_avail s) (set_world w' s))))
      as (i & ex & s' & He' & L1 & L2 & L3 & L4 & L5); cbn [c_ioBuf c_avail set_avail set_world] in *; auto; try lia.
    rewrite He'. do 3 eexists; split; [done|]. cbn in *. split_and!; auto; [lia|].
    destruct L5 as [L5|(? & ? & ?)]; [left|right; split_and!; auto]; lia.
Qed.

Lemma ReadStream_compact_ok (s : IoChannel W) i ex n :
  ch_wf s -> 0 <= i -> i + c_avail s <= n -> n <= c_bufSize s -> (n = i + c_avail s \/ c_avail s = 0) ->
  exists s', ReadStream_compact i ex s = Ok (ex, s') /\ ch_wf s' /\ c_bufSize s' = c_bufSize s /\
    c_avail s' = c_avail s /\ c_world s' = c_world s /\ c_faultInfo s' = c_faultInfo s /\
    c_unread s' = ztake (c_avail s) (zdrop i (c_ioBuf s)).
Proof.
  intros (Hb & Hlen & Ha & Hmax) Hi Hn Hle Hcase. unfold ReadStream_compact. case_if_goal; breflect.
  - assert (memcpy_ok (c_bufSize s) (c_avail s) = true) as ->.
    { unfold memcpy_ok, RSIZE_MAX in *. rewrite !andb_true_iff, Z.ltb_lt, !Z.leb_le. lia. }
    cbn [negb]. rewrite slice_Some by lia. cbn [mbind res_bind deref].
    assert (zlen (ztake (c_avail s) (zdrop i (c_ioBuf s))) = c_avail s)
      by (rewrite length_ztake; rewrite ?length_zdrop; lia).
    eexists; split; [done|]. split_and!; try done.
    + repeat split; cbn; try lia; [apply Forall_app_2; auto with hdc|].
      rewrite length_app. rewrite Nat2Z.inj_add, length_zdrop; lia.
    + unfold c_unread. cbn. by rewrite ztake_app by lia.
  - eexists; split; [done|]. split_and!; try done. unfold c_unread.
    apply andb_false_iff in E as [E|E]; breflect.
    + by replace i with 0 by lia.
    + by replace (c_avail s) with 0 by lia.
Qed.

(** C25. Whatever a peer sends, [ReadStream] terminates without touching memory
    outside the buffer and keeps the buffer state in its bounds; the bytes it has
    not consumed are the last ones received, in order, unless a handler emptied
    the buffer. *)
Theorem read_stream_bounds (s : IoChannel W) (nread : Z) :
  ch_wf s -> nread <= c_bufSize s - c_avail s ->
  exists s', ReadStream uv_strerror uv_err_name nread s = Ok s' /\ ch_wf s' /\ c_bufSize s' = c_bufSize s /\
    (0 < nread -> exists consumed, 0 <= consumed <= c_avail s + nread /\
       c_unread s' = ztake (c_avail s') (zdrop consumed (c_ioBuf s)) /\
       (consumed + c_avail s' = c_avail s + nread \/ c_avail s' = 0)).
Proof.
  intros Hwf Hn. pose proof Hwf as (Hb & Hlen & Ha & Hmax). unfold ReadStream.
  case_if_goal; [eexists; split; [done|]; split_and!; try done; breflect; unfold UV_ENOBUFS in *; lia|].
  case_if_goal; [eexists; split; [done|]; split_and!; try done; breflect; lia|].
  case_if_goal; [eexists; split; [done|]; split_and!; try done; breflect; lia|]. breflect.
  cbv zeta. change (c_avail (set_avail (c_avail s + nread) s)) with (c_avail s + nread).
  destruct (ReadStream_loop_safe (S (Z.to_nat (c_avail s + nread))) 0 (set_avail (c_avail s + nread) s))
    as (i & ex & s1 & -> & Hb1 & Hs1 & Hi & Ha1 & Hc); cbn [c_ioBuf c_avail c_bufSize set_avail] in *; auto; try lia.
  cbn [mbind res_bind].
  assert (Hwf1 : ch_wf s1) by (repeat split; rewrite ?Hb1, ?Hs1; auto; destruct Hc as [?|(_ & ? & ?)]; lia).
  destruct (ReadStream_compact_ok s1 i ex (c_avail s + nread) Hwf1) as (s2 & -> & Hwf2 & Hs2 & Ha2 & _ & _ & Hu2);
    [lia|destruct Hc as [?|(_ & ? & ?)]; lia..|].
  cbn [mbind res_bind]. exists (ReadStream_finish ex s2). split; [done|].
  assert (HF : c_ioBuf (ReadStream_finish ex s2) = c_ioBuf s2 /\ c_avail (ReadStream_finish ex s2) = c_avail s2 /\
    c_bufSize (ReadStream_finish ex s2) = c_bufSize s2) by (by destruct ex). destruct HF as (F1 & F2 & F3).
  unfold ch_wf, c_unread in *. rewrite F1, F2, F3. split; [exact Hwf2|]. split; [congruence|].
  intros _. exists i. rewrite Hu2, Hb1, Ha2. split_and!; try done; destruct Hc as [?|(_ & ? & ?)]; lia.
Qed.
End Safety.

(** Handlers that count the messages and close the channel at an empty one. *)
#[export] Instance counting_sink : ChannelSink (Z * bool) := {|
  keepAlive := fun _ => false;
  ReadChannel := fun w _ => Ok ((fst w + 1, snd w), 0, false);
  FreeChannel := fun w => (fst w, true);
  TryCloseHandle := fun w => w
|}.
#[export] Instance counting_sink_ok : ChannelSinkOk (Z * bool).
Proof. constructor. intros w m. do 3 eexists. split; [reflexivity|discriminate]. Defined.

(** Two messages and a third one with size 0: the first two are handled. *)
Lemma read_stream_bounds_witness :
  exists s', ReadStream (W := Z * bool) (fun _ => []) (fun _ => []) 16
    (mkCh ([0; 0; 0; 1; 7; 0; 0; 0; 2; 8; 9; 0; 0; 0; 0; 5] ++ [3; 3]) 18 0 true [] (0, false)) = Ok s' /\
    c_world s' = (2, true).
Proof.
  set (s := mkCh _ _ _ _ _ _).
  destruct (read_stream_bounds (fun _ => []) (fun _ => []) s 16) as (s' & E & _).
  - repeat split; try (vm_compute; congruence). apply (bool_decide_unpack _). vm_compute. exact I.
  - vm_compute. discriminate.
  - exists s'. split; [exact E|]. vm_compute in E. injection E as <-. reflexivity.
Defined.

(** ** Reassembly *)

Definition cframe (m : bytes) : bytes := be_split 4 (zlen m) ++ m.
Abbreviation cframes ms := (concat (map cframe ms)).

Lemma length_cframe m : zlen (cframe m) = 4 + zlen m.
Proof. unfold cframe. rewrite length_app, length_be_split. lia. Qed.

Lemma ChannelFrame_Some m f : ChannelFrame m = Some f -> f = cframe m /\ 0 < zlen m <= 2147483643.
Proof.
  unfold ChannelFrame, DWORD_SERIALIZE_SIZE. case_if_goal; [done|]. case_if_goal; [done|]. breflect.
  intros [= <-]. unfold memcpy_ok, RSIZE_MAX in *. breflect. split; [done|lia].
Qed.

Lemma cframes_wf ms : Forall wf_bytes ms -> wf_bytes (cframes ms).
Proof.
  induction 1 as [|m ms Hm _ IH]; cbn [map concat]; [constructor|].
  apply Forall_app_2; [apply Forall_app_2; auto with hdc|exact IH].
Qed.

Lemma deliver_app {W} `{ChannelSink W} ms1 ms2 (w : W) :
  deliver (ms1 ++ ms2) w = match deliver ms1 w with Some w1 => deliver ms2 w1 | None => None end.
Proof.
  revert w. induction ms1 as [|m ms IH]; intros w; [done|]. cbn [app deliver].
  destruct (ReadChannel w m) as [[[w' r] [] ]| | |]; try done. case_if_goal; [done|]. apply IH.
Qed.

Section Reassembly.
Context {W : Type} {SK : ChannelSink W}.
Context (fresh : Z -> bytes) (Hfresh : fresh_ok fresh) (uv_strerror uv_err_name : Z -> bytes).

Definition fits (m : bytes) : Prop := 0 < zlen m /\ zlen (cframe m) <= chan_buf.

(** The size field of a frame of which more than the size is there. *)
Lemma size_field m p q junk : p ++ q = cframe m -> 4 < zlen p -> zlen m < 2 ^ 32 ->
  be_combine (ztake 4 (p ++ junk)) = zlen m.
Proof.
  intros Hpq Hp Hm.
  assert (ztake 4 (p ++ junk) = be_split 4 (zlen m)) as ->.
  { transitivity (ztake 4 (cframe m)).
    - rewrite <- Hpq. unfold ztake. rewrite !take_app_le by lia. done.
    - apply ztake_app. by rewrite length_be_split. }
  rewrite be_combine_split. apply Z.mod_small. lia.
Qed.

Lemma ReadStream_loop_frames ms1 : forall fuel idx (s : IoChannel W) p junk w1,
  Forall fits ms1 ->
  (p <> [] -> exists m q, fits m /\ p ++ q = cframe m /\ q <> []) ->
  deliver ms1 (c_world s) = Some w1 -> 0 <= idx -> zlen (c_ioBuf s) <= chan_buf -> idx <= zlen (c_ioBuf s) ->
  zdrop idx (c_ioBuf s) = cframes ms1 ++ p ++ junk -> c_avail s = zlen (cframes ms1) + zlen p ->
  (length ms1 < fuel)%nat ->
  ReadStream_loop fuel idx s = Ok (idx + zlen (cframes ms1), false, set_avail (zlen p) (set_world w1 s)).
Proof.
  assert (Hcb : chan_buf < 2 ^ 31) by (vm_compute; reflexivity).
  induction ms1 as [|m ms IH]; intros fuel idx s p junk w1 Hms Hp Hd Hi Hbuf Hidx Hm Ha Hf;
    (destruct fuel as [|fuel]; [simpl in Hf; lia|]); cbn [ReadStream_loop].
  - cbn [map concat app length] in *. injection Hd as <-. rewrite Z.add_0_l in Ha.
    assert (Hs : s = set_avail (zlen p) (set_world (c_world s) s)) by (rewrite <- Ha; by destruct s).
    change (Z.of_nat 0) with 0. rewrite Z.add_0_r, <- Hs. unfold DWORD_SERIALIZE_SIZE.
    destruct (4 <? c_avail s) eqn:E; [|done]. breflect. rewrite Ha in *.
    destruct Hp as (m & q & (Hm1 & Hm2) & Hpq & Hq); [intros ->; simpl in E; lia|].
    pose proof (length_cframe m) as Hl. pose proof (f_equal length Hpq) as Hl2. rewrite length_app in Hl2.
    assert (0 < zlen q) by (destruct q; [done|simpl; lia]).
    pose proof (f_equal length Hm) as Hlm. rewrite length_app in Hlm.
    pose proof (length_zdrop idx (c_ioBuf s) ltac:(lia)).
    rewrite slice_Some by lia. cbn [mbind res_bind deref]. rewrite Hm, (size_field m p q junk Hpq) by lia.
    rewrite (proj2 (Z.eqb_neq (zlen m) 0)), (proj2 (Z.ltb_ge HDC_BUF_MAX_BYTES _)) by (unfold HDC_BUF_MAX_BYTES; lia).
    cbn [orb]. rewrite uwrap_small by (unfold in_u; lia). rewrite (proj2 (Z.ltb_lt _ _)) by lia. done.
  - apply List.Forall_cons_iff in Hms as [[Hm1 Hm2] Hms]. cbn [map concat] in *.
    pose proof (length_cframe m) as Hl.
    rewrite length_app, Nat2Z.inj_add in Ha. rewrite <- app_assoc in Hm.
    pose proof (f_equal length Hm) as Hlm. rewrite !length_app in Hlm.
    pose proof (length_zdrop idx (c_ioBuf s) ltac:(lia)).
    unfold DWORD_SERIALIZE_SIZE. rewrite (proj2 (Z.ltb_lt 4 _)) by lia.
    rewrite slice_Some by lia. cbn [mbind res_bind deref].
    rewrite Hm. rewrite (size_field m (cframe m) []) by (rewrite ?app_nil_r; done || lia).
    rewrite (proj2 (Z.eqb_neq (zlen m) 0)), (proj2 (Z.ltb_ge HDC_BUF_MAX_BYTES _)) by (unfold HDC_BUF_MAX_BYTES; lia).
    cbn [orb]. rewrite uwrap_small by (unfold in_u; lia). rewrite (proj2 (Z.ltb_ge _ _)) by lia.
    rewrite slice_Some by lia. rewrite <- zdrop_zdrop, Hm by lia. unfold cframe at 1. rewrite <- app_assoc.
    rewrite zdrop_app, ztake_app by (rewrite ?length_be_split; done). cbn [mbind res_bind deref].
    cbn [deliver] in Hd. destruct (ReadChannel (c_world s) m) as [[[w r] [] ]| | |]; try done.
    cbn [mbind res_bind]. destruct ((r <? 0) && negb (keepAlive w)); [done|].
    cbn [set_avail set_world c_avail].
    rewrite !(uwrap_small 32) by (unfold in_u; rewrite ?(uwrap_small 32); unfold in_u; lia).
    rewrite (IH fuel (idx + (4 + zlen m)) _ p junk w1);
      cbn [c_world c_ioBuf c_avail set_avail set_world]; auto; try (simpl in Hf; lia).
    + f_equal. f_equal. f_equal. rewrite length_app. lia.
    + rewrite <- zdrop_zdrop, Hm by lia. apply zdrop_app. lia.
Qed.

(** Between two rounds: [ms] is still to be delivered, its first bytes are in the
    buffer and the rest is under way. *)
Record cpending (s : IoChannel W) (stream : bytes) (ms : list bytes) (wend : W) : Prop := {
  cp_wf : ch_wf s;
  cp_size : c_bufSize s = 0 \/ c_bufSize s = chan_buf;
  cp_fits : Forall fits ms;
  cp_bytes : Forall wf_bytes ms;
  cp_stream : c_unread s ++ stream = cframes ms;
  cp_part : c_unread s <> [] -> exists m q, List.In m ms /\ c_unread s ++ q = cframe m /\ q <> [];
  cp_deliver : deliver ms (c_world s) = Some wend;
  cp_fault : c_faultInfo s = []
}.

Lemma cpending_room s stream ms wend : cpending s stream ms wend -> 0 <= c_avail s < chan_buf.
Proof.
  intros [(Hb & Hlen & Ha & Hmax) Hsz Hfit Hwf Hst Hpart _ _].
  assert (Hlu : zlen (c_unread s) = c_avail s) by (unfold c_unread; rewrite length_ztake; lia).
  assert (0 < chan_buf) by (vm_compute; reflexivity).
  destruct (c_unread s) as [|x l] eqn:Eu; [cbn in Hlu; lia|].
  destruct Hpart as (m & q & Hin & Hq & Hqn); [done|].
  rewrite List.Forall_forall in Hfit. destruct (Hfit m Hin) as [_ Hm]. rewrite <- Hq, length_app in Hm.
  destruct q; [done|]. simpl (length (_ :: q)) in Hm. lia.
Qed.

Lemma AllocCallback_spec want (s : IoChannel W) : ch_wf s -> c_bufSize s = 0 \/ c_bufSize s = chan_buf -> c_avail s < chan_buf ->
  exists s1, AllocCallback fresh want s = (Some (c_avail s, Z.min (chan_buf - c_avail s) (Z.min want 2147483647)), s1) /\
    c_bufSize s1 = chan_buf /\ c_avail s1 = c_avail s /\ c_world s1 = c_world s /\ c_faultInfo s1 = c_faultInfo s /\
    zlen (c_ioBuf s1) = chan_buf /\ wf_bytes (c_ioBuf s1) /\ ztake (c_avail s) (c_ioBuf s1) = c_unread s.
Proof.
  intros (Hb & Hlen & Ha & Hmax) Hsz Hroom. unfold AllocCallback, ReallocBuf, c_unread. fold chan_buf.
  destruct Hsz as [Hsz|Hsz]; rewrite Hsz.
  - change (0 <? 0) with false. change ((chan_buf <=? 0) || (HDC_BUF_MAX_BYTES <=? chan_buf)) with false. cbv iota zeta.
    cbn [c_avail]. rewrite (proj2 (Z.leb_gt _ 0)) by lia.
    eexists; split; [done|]. destruct (Hfresh chan_buf ltac:(vm_compute; discriminate)).
    cbn. split_and!; auto. replace (c_avail s) with 0 by lia. by rewrite !ztake_0.
  - change (0 <? chan_buf) with true. cbv iota zeta. cbn [c_avail]. rewrite (proj2 (Z.leb_gt _ 0)) by lia.
    eexists; split; [done|]. cbn. rewrite Hsz in Hlen. by split_and!.
Qed.

Lemma cframes_count ms : Forall fits ms -> zlen ms <= zlen (cframes ms).
Proof.
  induction 1 as [|m ms [Hm _] _ IH]; [done|]. cbn [map concat]. rewrite length_app.
  pose proof (length_cframe m). simpl (length (m :: ms)). lia.
Qed.

(** [ReadStream] on a buffer of complete frames and a partial one. *)
Lemma ReadStream_frames (s : IoChannel W) n ms1 p w1 :
  ch_wf s -> c_bufSize s = chan_buf -> 0 < n <= chan_buf - c_avail s ->
  ztake (c_avail s + n) (c_ioBuf s) = cframes ms1 ++ p -> Forall fits ms1 ->
  (p <> [] -> exists m q, fits m /\ p ++ q = cframe m /\ q <> []) ->
  deliver ms1 (c_world s) = Some w1 -> c_faultInfo s = [] ->
  exists s', ReadStream uv_strerror uv_err_name n s = Ok s' /\ ch_wf s' /\ c_bufSize s' = chan_buf /\
    c_world s' = w1 /\ c_unread s' = p /\ c_faultInfo s' = [].
Proof.
  intros (Hb & Hlen & Ha & Hmax) Hsz Hn Hx Hms Hp Hd Hfi. unfold ReadStream, UV_ENOBUFS.
  rewrite (proj2 (Z.eqb_neq n (-105))), (proj2 (Z.eqb_neq n 0)), (proj2 (Z.ltb_ge n 0)) by lia. cbv zeta.
  assert (Htot : zlen (cframes ms1) + zlen p = c_avail s + n)
    by (rewrite <- Nat2Z.inj_add, <- length_app, <- Hx, length_ztake; lia).
  pose proof (cframes_count ms1 Hms).
  rewrite (ReadStream_loop_frames ms1 _ 0 (set_avail (c_avail s + n) s) p (zdrop (c_avail s + n) (c_ioBuf s)) w1);
    cbn [c_world c_ioBuf c_avail set_avail]; auto; try lia.
  2: { by rewrite zdrop_0, app_assoc, <- Hx, ztake_zdrop. }
  cbn [mbind res_bind]. set (s1 := set_avail _ _).
  assert (Hwf1 : ch_wf s1) by (unfold s1; repeat split; cbn; auto; lia).
  destruct (ReadStream_compact_ok s1 (0 + zlen (cframes ms1)) false (c_avail s + n) Hwf1)
    as (s2 & -> & Hwf2 & Hs2 & Ha2 & Hw2 & Hf2 & Hu2); [cbn in *; lia..|]. cbn [mbind res_bind ReadStream_finish].
  eexists; split; [done|]. unfold c_unread in *. cbn [c_ioBuf c_avail c_bufSize c_world c_faultInfo].
  cbn in Hs2, Ha2, Hw2, Hf2, Hu2. split_and!; try congruence; [exact Hwf2|].
  rewrite Hu2. rewrite <- (ztake_zdrop (c_avail s + n) (c_ioBuf s)), Hx, <- app_assoc.
  rewrite zdrop_app by lia. by apply ztake_app.
Qed.

Lemma ReadRound_cpending want stream s ms wend : 0 < want -> cpending s stream ms wend ->
  exists s' rest ms2, ReadRound uv_strerror uv_err_name (AllocCallback fresh want) stream s = Ok (s', rest) /\
    cpending s' rest ms2 wend /\ (zlen rest < zlen stream \/ stream = [] /\ rest = []).
Proof.
  intros Hw Hpd. pose proof (cpending_room _ _ _ _ Hpd) as Hroom.
  destruct Hpd as [Hwf Hsz Hfit Hbs Hst Hpart Hd Hfi]. unfold ReadRound.
  destruct (AllocCallback_spec want s Hwf Hsz ltac:(lia)) as (s1 & -> & Hsz1 & Ha1 & Hw1 & Hf1 & Hl1 & Hb1 & Hu1).
  set (n := Z.min _ (zlen stream)). assert (Hn : 0 <= n <= zlen stream /\ c_avail s + n <= chan_buf) by lia.
  assert (Hlc : zlen (ztake n stream) = n) by (apply length_ztake; lia).
  unfold store. rewrite Hlc, (proj2 (Z.leb_le _ _)) by lia. cbn [mbind res_bind].
  destruct (unread_fill (c_ioBuf s1) (ztake n stream) (c_avail s)) as [Hfill Hflen]; [lia|lia|]. rewrite Hlc in Hfill, Hflen.
  destruct (chunks_prefix cframe ms (c_unread s ++ ztake n stream) (zdrop n stream)) as (ms1 & ms2 & p & Ems & Hx & Hy & Hp).
  { by rewrite <- app_assoc, ztake_zdrop. }
  subst ms. rewrite deliver_app in Hd. destruct (deliver ms1 (c_world s)) as [w1|] eqn:Hd1; [|done].
  pose proof (cframes_wf _ Hbs) as Hall. rewrite <- Hst in Hall. apply Forall_app in Hall as [_ Hws].
  apply Forall_app in Hfit as [Hfit1 Hfit2]. apply Forall_app in Hbs as [Hbs1 Hbs2].
  set (s2 := mkCh _ _ _ _ _ _).
  assert (Hwf2 : ch_wf s2).
  { unfold s2. repeat split; cbn; rewrite ?Hsz1, ?Ha1; try lia.
    - rewrite !Forall_app. auto with hdc.
    - vm_compute. discriminate. }
  destruct (Z.eq_dec n 0) as [Hz|Hz].
  - assert (stream = []) as -> by (destruct stream; [done|]; simpl (length _) in *; lia).
    rewrite Hz. cbn [ReadStream]. unfold ReadStream. cbn [mbind res_bind]. exists s2, [], (ms1 ++ ms2). split; [done|]. split; [|by right].
    assert (Hus : c_unread s2 = c_unread s).
    { unfold s2, c_unread at 1. cbn. rewrite Hz, !Z.add_0_r in *. rewrite Ha1. by rewrite Hfill, app_nil_r, Hu1. }
    split; rewrite ?Hus; auto; [by apply Forall_app_2|by apply Forall_app_2|unfold s2; cbn; rewrite deliver_app, Hw1, Hd1; done|].
    unfold s2; cbn; congruence.
  - destruct (ReadStream_frames s2 n ms1 p w1) as (s' & -> & Hwf' & Hsz' & Hw' & Hu' & Hf'); auto.
    + unfold s2; cbn. rewrite Ha1. lia.
    + unfold s2; cbn. by rewrite Ha1, Hfill, Hu1.
    + intros Hne. destruct (Hp Hne) as (m & q & Hin & Hq & Hqn). exists m, q. split_and!; auto.
      rewrite List.Forall_forall in Hfit2. auto.
    + unfold s2; cbn. by rewrite Hw1.
    + unfold s2; cbn. congruence.
    + cbn [mbind res_bind]. exists s', (zdrop n stream), ms2. split; [done|]. split; [|left; rewrite length_zdrop; lia].
      split; rewrite ?Hu', ?Hw'; auto.
Qed.

(** C24. A channel's stream is a faithful sequence of messages: whatever pieces the
    socket delivers the buffers of [SendChannel] in, the receiving end reaches
    exactly the state in which its handlers have seen these messages, one after the
    other and nothing else, as long as each fits the receive buffer; nothing is
    left over and no fault is recorded. *)
Theorem channel_stream_reassembly (ms sent : list bytes) (wants : list Z) (w wend : W) :
  Forall2 (fun m f => ChannelFrame m = Some f) ms sent -> Forall wf_bytes ms ->
  Forall (fun f => zlen f <= chan_buf) sent ->
  Forall (fun want => 0 < want) wants -> zlen (concat sent) <= zlen wants ->
  deliver ms w = Some wend ->
  exists s', ReadRounds uv_strerror uv_err_name (map (AllocCallback fresh) wants) (concat sent)
      (mkCh [] 0 0 false [] w) = Ok (s', []) /\
    c_world s' = wend /\ c_unread s' = [] /\ c_faultInfo s' = [].
Proof.
  intros Hsent Hb Hfit Hw Hlen Hd.
  assert (Hsf : sent = map cframe ms /\ Forall (fun m => 0 < zlen m) ms).
  { clear - Hsent. induction Hsent as [|m f ms fs Hf _ [-> IH]]; [done|].
    apply ChannelFrame_Some in Hf as [-> ?]. split; [done|]. constructor; [lia|done]. }
  destruct Hsf as [-> Hpos]. rewrite List.Forall_map in Hfit.
  assert (Hp : cpending (mkCh [] 0 0 false [] w) (cframes ms) ms wend).
  { split; cbn; auto; [repeat split; cbn; auto; unfold RSIZE_MAX; lia| |done].
    apply List.Forall_forall. intros m Hin. rewrite List.Forall_forall in Hfit, Hpos. split; auto. }
  revert Hp Hlen. generalize (mkCh [] 0 0 false [] w) (cframes ms). clear Hsent Hb Hfit Hd Hpos.
  revert ms. induction Hw as [|want wants Hw _ IH]; intros ms s stream Hp Hlen.
  - destruct stream; [|simpl in Hlen; lia]. exists s. split; [done|].
    destruct Hp as [(Hb & Hl & Ha & Hm) _ Hfit _ Hst Hpart Hd Hfi]. rewrite app_nil_r in Hst.
    assert (ms = []) as ->.
    { destruct (c_unread s) as [|x l] eqn:Eu.
      - destruct ms as [|m ms]; [done|]. apply (f_equal length) in Hst. cbn [map concat] in Hst.
        rewrite length_app in Hst. pose proof (length_cframe m). simpl (length []) in Hst. lia.
      - destruct Hpart as (m & q & Hin & Hq & Hqn); [done|]. exfalso.
        assert (Hle : (length (cframe m) <= length (cframes ms))%nat).
        { clear - Hin. induction ms as [|d ms IH]; [done|]. cbn [map concat]. rewrite length_app.
          destruct Hin as [->|Hin]; [lia|]. specialize (IH Hin). lia. }
        rewrite <- Hst, <- Hq, length_app in Hle. destruct q; [done|]. simpl (length (_ :: q)) in Hle. lia. }
    injection Hd as ->. by split_and!.
  - destruct (ReadRound_cpending want stream s ms wend Hw Hp) as (s1 & rest & ms2 & He & Hp1 & Hprog).
    cbn [map ReadRounds]. rewrite He. cbn [mbind res_bind]. apply (IH ms2); [exact Hp1|].
    simpl (length (_ :: wants)) in Hlen. destruct Hprog as [?|[-> ->]]; simpl; lia.
Qed.
End Reassembly.

Lemma replicate_fresh : fresh_ok (fun n => replicate (Z.to_nat n) 0).
Proof. intros n Hn. split; [rewrite length_replicate; lia|]. apply Forall_replicate. unfold in_u. lia. Qed.

(** Three messages, five bytes at a time. *)
Lemma channel_stream_witness :
  exists s', ReadRounds (W := Z * bool) (fun _ => []) (fun _ => []) (map (AllocCallback (fun n => replicate (Z.to_nat n) 0)) (replicate 24 5))
    (concat [cframe (str "list"); cframe (str "ls -l"); cframe [0]]) (mkCh [] 0 0 false [] (0, false)) = Ok (s', []) /\
    c_world s' = (3, false).
Proof.
  destruct (channel_stream_reassembly (W := Z * bool) _ replicate_fresh (fun _ => []) (fun _ => [])
    [str "list"; str "ls -l"; [0]] [cframe (str "list"); cframe (str "ls -l"); cframe [0]] (replicate 24 5) (0, false) (3, false))
    as (s' & He & Hw & _).
  - repeat constructor.
  - repeat constructor; vm_compute; congruence.
  - repeat constructor; vm_compute; discriminate.
  - apply Forall_replicate. reflexivity.
  - vm_compute. discriminate.
  - reflexivity.
  - exists s'. split; [exact He|exact Hw].
Defined.

(** ** Messages that do not fit the buffer *)

Section Oversized.
Context {W : Type} {SK : ChannelSink W}.
Context (fresh : Z -> bytes) (Hfresh : fresh_ok fresh) (uv_strerror uv_err_name : Z -> bytes).
Abbreviation Read := (ReadStream uv_strerror uv_err_name).
Abbreviation Round := (ReadRound uv_strerror uv_err_name).
Abbreviation Rounds := (ReadRounds uv_strerror uv_err_name).

(** The announced size exceeds what has arrived: nothing happens. *)
Lemma ReadStream_waits (s : IoChannel W) n size :
  zlen (c_ioBuf s) <= chan_buf -> 0 <= c_avail s -> 0 < n -> 4 < c_avail s + n <= zlen (c_ioBuf s) ->
  ztake 4 (c_ioBuf s) = be_split 4 size -> c_avail s + n - 4 < size <= HDC_BUF_MAX_BYTES ->
  Read n s = Ok (mkCh (c_ioBuf s) (c_bufSize s) (c_avail s + n) (bool_decide (c_faultInfo s = [])) (c_faultInfo s) (c_world s)).
Proof.
  assert (Hcb : chan_buf < 2 ^ 31) by (vm_compute; reflexivity).
  intros Hlen Ha Hn Hfull Hsz Hsize. unfold HDC_BUF_MAX_BYTES in Hsize. unfold ReadStream, UV_ENOBUFS.
  rewrite (proj2 (Z.eqb_neq n (-105))), (proj2 (Z.eqb_neq n 0)), (proj2 (Z.ltb_ge n 0)) by lia. cbv zeta.
  cbn [ReadStream_loop c_avail c_ioBuf set_avail]. unfold DWORD_SERIALIZE_SIZE.
  rewrite (proj2 (Z.ltb_lt 4 _)) by lia. rewrite slice_Some by lia. cbn [mbind res_bind deref].
  rewrite zdrop_0, Hsz, be_combine_split. change (2 ^ (8 * Z.of_nat 4)) with (2 ^ 32). rewrite Z.mod_small by lia.
  rewrite (proj2 (Z.eqb_neq size 0)), (proj2 (Z.ltb_ge HDC_BUF_MAX_BYTES _)) by (unfold HDC_BUF_MAX_BYTES; lia).
  cbn [orb]. rewrite uwrap_small by (unfold in_u; lia). rewrite (proj2 (Z.ltb_lt _ size)) by lia. done.
Qed.

(** Storing behind the unread bytes keeps the size field. *)
Lemma store_spec off chunk (s : IoChannel W) : off = c_avail s -> 0 <= off -> off + zlen chunk <= zlen (c_ioBuf s) ->
  exists s', store off chunk s = Ok s' /\ c_bufSize s' = c_bufSize s /\ c_avail s' = c_avail s /\ c_world s' = c_world s /\
    c_faultInfo s' = c_faultInfo s /\ zlen (c_ioBuf s') = zlen (c_ioBuf s) /\
    ztake (off + zlen chunk) (c_ioBuf s') = c_unread s ++ chunk.
Proof.
  intros -> Ha Hle. unfold store. rewrite (proj2 (Z.leb_le _ _)) by lia. eexists; split; [done|]. cbn.
  destruct (unread_fill (c_ioBuf s) chunk (c_avail s)) as [H1 H2]; [lia..|]. by split_and!.
Qed.

(** A full buffer: libuv is offered nothing and the channel is left as it is. *)
Lemma full_rounds wants : forall stream (s : IoChannel W),
  c_bufSize s = chan_buf -> c_avail s = chan_buf ->
  exists s', Rounds (map (AllocCallback fresh) wants) stream s = Ok (s', stream) /\
    c_world s' = c_world s /\ c_avail s' = chan_buf.
Proof.
  induction wants as [|want wants IH]; intros stream s Hs Ha; [by exists s|].
  assert (AllocCallback fresh want s = (None, s)) as Hnone.
  { unfold AllocCallback, ReallocBuf. rewrite Hs. change (0 <? chan_buf) with true. cbv iota zeta. cbn [c_avail].
    rewrite Ha, Z.sub_diag. cbn [Z.leb]. f_equal. rewrite <- Hs, <- Ha at 1. rewrite Hs. destruct s; cbn in *; congruence. }
  cbn [map ReadRounds]. unfold ReadRound. rewrite Hnone. unfold ReadStream at 1. rewrite Z.eqb_refl. cbn [mbind res_bind].
  match goal with |- context [ReadRounds _ _ _ stream ?t] => destruct (IH stream t) as (s' & -> & Hw & Ha') end; try done.
  exists s'. split; [done|]. split; [exact Hw|exact Ha'].
Qed.

(** A message whose announced size does not fit the receive buffer is
    neither refused nor handled: once the buffer is full no space is offered to
    libuv, every further round reports [UV_ENOBUFS], consumes nothing and leaves
    handlers and channel alone, for ever. *)
Theorem oversized_message_stalls (size : Z) (body : bytes) (want : Z) (wants : list Z) (w : W) :
  chan_buf - 4 < size <= HDC_BUF_MAX_BYTES -> chan_buf <= 4 + zlen body -> chan_buf <= want ->
  exists s' rest, Rounds (map (AllocCallback fresh) (want :: wants)) (be_split 4 size ++ body) (mkCh [] 0 0 false [] w)
      = Ok (s', rest) /\
    c_world s' = w /\ c_avail s' = chan_buf /\ rest = zdrop (chan_buf - 4) body.
Proof.
  assert (Hcb : 4 < chan_buf < 2 ^ 31) by (vm_compute; split; reflexivity).
  intros Hsize Hbody Hwant. cbn [map ReadRounds]. unfold ReadRound.
  destruct (AllocCallback_spec fresh Hfresh want (mkCh [] 0 0 false [] w))
    as (s1 & -> & Hs1 & Ha1 & Hw1 & _ & Hl1 & _ & _);
    [repeat split; cbn; auto; unfold RSIZE_MAX; lia|by left|cbn; lia|].
  cbn [c_avail] in *. rewrite length_app, length_be_split.
  replace (Z.min _ _) with chan_buf by lia.
  set (st := be_split 4 size ++ body).
  assert (Hst : zlen st = 4 + zlen body) by (unfold st; rewrite length_app, length_be_split; lia).
  assert (Hlc : zlen (ztake chan_buf st) = chan_buf) by (apply length_ztake; lia).
  destruct (store_spec 0 (ztake chan_buf st) s1) as (s2 & -> & Hs2 & Ha2 & Hw2 & _ & Hl2 & Hu2); [lia..|].
  cbn [mbind res_bind]. rewrite (ReadStream_waits s2 chan_buf size); try lia.
  2: { rewrite Hlc, ztake_ge in Hu2 by lia. rewrite Hu2. unfold c_unread. rewrite Ha1, ztake_0. cbn [app].
       unfold ztake. rewrite take_take, Nat.min_l by lia. unfold st. rewrite take_app_le by (rewrite length_be_split; lia).
       apply take_ge. by rewrite length_be_split. }
  cbn [mbind res_bind].
  match goal with |- context [ReadRounds _ _ _ ?r ?t] => destruct (full_rounds wants r t) as (s' & -> & Hw' & Ha') end;
    [cbn; lia..|]. exists s', (zdrop chan_buf st).
  split_and!; [done|rewrite Hw'; cbn; rewrite Hw2; exact Hw1|done|].
  replace chan_buf with (4 + (chan_buf - 4)) at 1 by lia. rewrite <- zdrop_zdrop by lia. unfold st.
  by rewrite zdrop_app by (by rewrite length_be_split).
Qed.

Definition header_alloc (vc : bool) (s : IoChannel W) : option (Z * Z) * IoChannel W :=
  let '(o, s) := funcChannelHeaderAlloc fresh vc s in (Some o, s).

Lemma header_rounds vc size k : chan_buf - 4 < size <= HDC_BUF_MAX_BYTES -> forall (s : IoChannel W) stream,
  zlen (c_ioBuf s) = chan_buf -> c_bufSize s = chan_buf -> 0 <= c_avail s <= chan_buf ->
  ztake 4 (c_unread s ++ stream) = be_split 4 size -> chan_buf + 112 <= c_avail s + zlen stream ->
  chan_buf - c_avail s < Z.of_nat k * 48 ->
  exists n, Rounds (replicate n (header_alloc vc)) stream s = Undefined.
Proof.
  intros Hsize. assert (Hcb : 4 < chan_buf < 2 ^ 31) by (vm_compute; split; reflexivity).
  induction k as [|k IH]; intros s stream Hl Hs Ha Hfield Hstr Hk; [lia|].
  assert (Halloc : exists len, 48 <= len <= 116 /\ header_alloc vc s = (Some (c_avail s, len), s)).
  { unfold header_alloc, funcChannelHeaderAlloc, ReallocBuf. rewrite Hs. change (0 <? chan_buf) with true. cbv iota zeta.
    exists ((if vc then sizeof_ChannelHandShake else offsetof_version) + DWORD_SERIALIZE_SIZE).
    split; [destruct vc; vm_compute; split; discriminate|]. rewrite <- Hs. by destruct s. }
  destruct Halloc as (len & Hlen & Halloc).
  destruct (Z.lt_ge_cases chan_buf (c_avail s + len)) as [Hover|Hfits].
  - exists 1%nat. cbn [replicate ReadRounds]. unfold ReadRound. rewrite Halloc.
    unfold store. rewrite length_ztake by lia. rewrite (proj2 (Z.leb_gt _ _)) by lia. done.
  - set (chunk := ztake len stream). assert (Hlc : zlen chunk = len) by (apply length_ztake; lia).
    destruct (store_spec (c_avail s) chunk s) as (s2 & Hst & Hs2 & Ha2 & _ & _ & Hl2 & Hu2); [lia..|].
    assert (Hf2 : ztake 4 (c_ioBuf s2) = be_split 4 size).
    { rewrite <- Hfield, <- (ztake_zdrop len stream). fold chunk. rewrite app_assoc, <- Hu2, Hlc. unfold ztake.
      rewrite take_app_le, take_take, Nat.min_l; [done|lia|]. rewrite length_take. lia. }
    pose proof (ReadStream_waits s2 len size ltac:(lia) ltac:(lia) ltac:(lia) ltac:(lia) Hf2 ltac:(lia)) as Hread.
    edestruct (IH (mkCh (c_ioBuf s2) (c_bufSize s2) (c_avail s2 + len) (bool_decide (c_faultInfo s2 = [])) (c_faultInfo s2) (c_world s2))
      (zdrop len stream)) as (n & Hn); cbn [c_ioBuf c_bufSize c_avail]; rewrite ?Ha2; try lia.
    + unfold c_unread. cbn [c_ioBuf c_avail]. replace (c_avail s + len) with (c_avail s + zlen chunk) by lia. rewrite Hu2, <- app_assoc. unfold chunk. by rewrite ztake_zdrop.
    + rewrite length_zdrop; lia.
    + exists (S n). cbn [replicate ReadRounds]. unfold ReadRound at 1. rewrite Halloc.
      rewrite Z.min_l by lia. fold chunk. rewrite Hst. cbn [mbind res_bind]. rewrite Hread. cbn [mbind res_bind]. exact Hn.
Qed.

(** The allocator the server uses until a channel is bound to a session
    offers the same number of bytes in every round, whatever is in the buffer: a
    peer that announces a message larger than the buffer and keeps sending makes
    libuv write behind the buffer's end. *)
Theorem header_alloc_overflows (versionCheck : bool) (size : Z) (body : bytes) (w : W) :
  chan_buf - 4 < size <= HDC_BUF_MAX_BYTES -> chan_buf + 112 <= zlen body ->
  exists n, Rounds (replicate n (header_alloc versionCheck)) (be_split 4 size ++ body) (mkCh [] 0 0 false [] w) = Undefined.
Proof.
  intros Hsize Hbody. destruct (Hfresh chan_buf) as [Hfl _]; [vm_compute; discriminate|].
  set (s1 := mkCh (fresh chan_buf) chan_buf 0 false [] w).
  assert (0 < chan_buf) by (vm_compute; reflexivity).
  destruct (header_rounds versionCheck size (Z.to_nat chan_buf) Hsize s1 (be_split 4 size ++ body)) as (n & Hn);
    cbn [c_ioBuf c_bufSize c_avail s1]; try lia.
  - unfold c_unread. cbn [c_ioBuf c_avail s1]. rewrite ztake_0. cbn [app]. apply (ztake_app (be_split 4 size)). by rewrite length_be_split.
  - rewrite length_app, length_be_split. lia.
  - exists n. rewrite <- Hn. destruct n as [|n]; [done|]. cbn [replicate ReadRounds]. done.
Qed.
End Oversized.

Lemma oversized_message_stalls_witness :
  exists s' rest, ReadRounds (W := Z * bool) (fun _ => []) (fun _ => [])
      (map (AllocCallback (fun n => replicate (Z.to_nat n) 0)) (replicate 3 chan_buf))
      (be_split 4 chan_buf ++ replicate (Z.to_nat chan_buf) 0) (mkCh [] 0 0 false [] (0, false)) = Ok (s', rest) /\
    c_world s' = (0, false) /\ zlen rest = 4.
Proof.
  destruct (oversized_message_stalls (W := Z * bool) _ replicate_fresh (fun _ => []) (fun _ => []) chan_buf
    (replicate (Z.to_nat chan_buf) 0) chan_buf (replicate 2 chan_buf) (0, false)) as (s' & rest & He & Hw & _ & ->).
  - vm_compute. split; [reflexivity|discriminate].
  - rewrite length_replicate. vm_compute. discriminate.
  - lia.
  - exists s', (zdrop (chan_buf - 4) (replicate (Z.to_nat chan_buf) 0)). split_and!; [exact He|exact Hw|].
    assert (4 < chan_buf) by (vm_compute; reflexivity).
    rewrite length_zdrop by (rewrite length_replicate; lia). rewrite length_replicate. lia.
Defined.

Lemma header_alloc_overflows_witness :
  exists n, ReadRounds (W := Z * bool) (fun _ => []) (fun _ => [])
    (replicate n (header_alloc (fun n => replicate (Z.to_nat n) 0) true))
    (be_split 4 HDC_BUF_MAX_BYTES ++ replicate (Z.to_nat (chan_buf + 112)) 0) (mkCh [] 0 0 false [] (0, false)) = Undefined.
Proof.
  apply (header_alloc_overflows (W := Z * bool) _ replicate_fresh (fun _ => []) (fun _ => []) true HDC_BUF_MAX_BYTES).
  - vm_compute. split; [reflexivity|discriminate].
  - rewrite length_replicate. vm_compute. discriminate.
Defined.
