(* ===== verification/ChannelHandshake.v ===== *)
(** * ChannelHandshake: the first messages of a channel

    The server greets a client with a [ChannelHandShake] that carries the channel
    id; the client answers with the same struct, the channel id replaced by its
    connect key; the server then binds the channel to the device the key names.
    Server side: [AcceptClient], [ChannelHandShake] and [CheckAutoFillTarget] of
    [host/server_for_client.cpp]; client side: [PreHandshake] and its parts of
    [host/client.cpp]; [GetChannelHandshake] is in [channel.cpp].

    A message is the byte list the stream layer delivers; the packed struct is
    read and written at its offsets.  Reading behind the message is [Undefined]. *)

From Stdlib Require Import String ZArith Lia List Bool.
From stdpp Require Import base list numbers option.
From S2P Require Import Prelude Defs Packet ChannelIo.

(** ** C strings *)

(** [strcpy_s(dest, destMax, src)] on a zeroed array. *)
Definition strcpy_s (destMax : Z) (src : bytes) : option bytes :=
  let s := cstr src in
  if zlen s + 1 <=? destMax then Some (s ++ replicate (Z.to_nat (destMax - zlen s)) 0) else None.

(** [!strncmp(a, b, n)] for strings that end in a NUL or have [n] characters. *)
Definition strncmp_eq (a b : bytes) (n : Z) : bool := bytes_eqb (cstr (ztake n a)) (cstr (ztake n b)).

Definition put (off : Z) (x : bytes) (buf : bytes) : bytes :=
  ztake off buf ++ x ++ zdrop (off + zlen x) buf.

(** ** The server's greeting *)

Definition offsetof_connectKey : Z := 12.
Definition SERVICE_KILL_OFFSET : Z := 10.
Definition SERVICE_KILL_TAG : Z := 75.

(** The message [AcceptClient] sends; [hostOhos] and [versionCheck] are the build
    options [HOST_OHOS] and [HDC_VERSION_CHECK], [ver] the server's version. *)
Definition AcceptClient_hello (hostOhos versionCheck : bool) (channelId : Z) (ver : bytes) : option bytes :=
  banner ← strcpy_s 12 HANDSHAKE_MESSAGE;
  let banner := put BANNER_FEATURE_TAG_OFFSET [HUGE_BUF_TAG] banner in
  let banner := if hostOhos then put SERVICE_KILL_OFFSET [SERVICE_KILL_TAG] banner else banner in
  let key := be_split 4 channelId ++ replicate (Z.to_nat (MAX_CONNECTKEY_SIZE - 4)) 0 in
  version ← strcpy_s BUF_SIZE_TINY ver;
  let handShake := banner ++ key ++ version in
  Some (if versionCheck then handShake else ztake offsetof_version handShake).

(** ** The client *)

Record Client := mkClient {
  cl_channelId : Z; cl_isStableBuf : bool; cl_handshakeOK : bool; cl_connectKey : bytes;
  cl_command : bytes; cl_isCheckVersionCmd : bool; cl_connectionError : bytes
}.

(** The result, the client and the greeting, whose banner may get the wait tag. *)
Definition ValidateHandshakeBanner (buf : bytes) (c : Client) : res (Z * Client * bytes) :=
  if zlen buf <? offsetof_version then Ok (ERR_BUF_SIZE, c, buf)
  else if negb (strncmp_eq (ztake 12 buf) HANDSHAKE_MESSAGE (zlen HANDSHAKE_MESSAGE)) then Ok (ERR_BUF_CHECK, c, buf)
  else
    tag ← deref (slice BANNER_FEATURE_TAG_OFFSET 1 buf);
    let c := mkClient (cl_channelId c) (negb (bytes_eqb tag [HUGE_BUF_TAG])) (cl_handshakeOK c) (cl_connectKey c)
               (cl_command c) (cl_isCheckVersionCmd c) (cl_connectionError c) in
    Ok (RET_SUCCESS, c,
        if bytes_eqb (cl_command c) CMDSTR_WAIT_FOR && negb (bytes_eqb (cl_connectKey c) [])
        then put WAIT_TAG_OFFSET [WAIT_DEVICE_TAG] buf else buf).

Definition SyncChannelId (buf : bytes) (c : Client) : res Client :=
  id ← deref (slice offsetof_connectKey 4 buf);
  Ok (mkClient (be_combine id) (cl_isStableBuf c) (cl_handshakeOK c) (cl_connectKey c) (cl_command c)
        (cl_isCheckVersionCmd c) (cl_connectionError c)).

(** The result and the answer to send. *)
Definition FillConnectKeyAndCheckVersion (versionCheck : bool) (clientVer : bytes) (buf : bytes) (c : Client)
    : res (Z * option bytes) :=
  if negb (memcpy_ok MAX_CONNECTKEY_SIZE (zlen (cl_connectKey c))) then Ok (ERR_BUF_COPY, None)
  else
    let key := cl_connectKey c ++ replicate (Z.to_nat (MAX_CONNECTKEY_SIZE - zlen (cl_connectKey c))) 0 in
    let buf := put offsetof_connectKey key buf in
    if versionCheck then
      version ← deref (slice offsetof_version BUF_SIZE_TINY buf);
      if negb (cl_isCheckVersionCmd c) && negb (bytes_eqb clientVer (cstr version)) then Ok (ERR_CHECK_VERSION, None)
      else Ok (RET_SUCCESS, Some (ztake sizeof_ChannelHandShake buf))
    else Ok (RET_SUCCESS, Some (ztake offsetof_version buf)).

(** The result, the client, the answer and whether [availTailIndex] was reset. *)
Definition PreHandshake (versionCheck : bool) (clientVer : bytes) (buf : bytes) (c : Client)
    : res (Z * Client * option bytes * bool) :=
  '((ret, c, buf) : Z * Client * bytes) ← ValidateHandshakeBanner buf c;
  if negb (ret =? RET_SUCCESS) then
    Ok (ret, mkClient (cl_channelId c) (cl_isStableBuf c) (cl_handshakeOK c) (cl_connectKey c) (cl_command c)
               (cl_isCheckVersionCmd c) (str "handshake failed"), None, ret =? ERR_BUF_CHECK)
  else
    c ← SyncChannelId buf c;
    '((ret, answer) : Z * option bytes) ← FillConnectKeyAndCheckVersion versionCheck clientVer buf c;
    if negb (ret =? RET_SUCCESS) then Ok (ret, c, None, true)
    else
      Ok (RET_SUCCESS, mkClient (cl_channelId c) (cl_isStableBuf c) true (cl_connectKey c) (cl_command c)
                         (cl_isCheckVersionCmd c) [], answer, false).

(** ** The server *)

(** [GetChannelHandshake]: the greeting of a server that acts as a client. *)
Definition GetChannelHandshake (connectKey : bytes) : bytes :=
  match strcpy_s 12 HANDSHAKE_MESSAGE, strcpy_s MAX_CONNECTKEY_SIZE connectKey with
  | Some banner, Some key => banner ++ key ++ replicate (Z.to_nat BUF_SIZE_TINY) 0
  | _, _ => []
  end.

Record SChannel := mkSChannel { sc_channelId : Z; sc_connectKey : bytes; sc_handshakeOK : bool }.

Section Server.
(** The device [AdminDaemonMap(OP_GET_ONLY)] finds: its connect key and, if it has
    a session, whether that session has finished its handshake. *)
Context (only_daemon : option (bytes * option bool)).
(** [BindChannelToSession] for the device with the key. *)
Context (BindChannelToSession : bytes -> Z).

Definition CheckAutoFillTarget (h : SChannel) : bool * SChannel :=
  if bytes_eqb (sc_connectKey h) [] then (false, h)
  else if bytes_eqb (sc_connectKey h) CMDSTR_CONNECT_ANY then
    match only_daemon with
    | Some (key, Some true) => (true, mkSChannel (sc_channelId h) key (sc_handshakeOK h))
    | _ => (false, h)
    end
  else (true, h).

(** The result, the channel and whether [availTailIndex] was reset. *)
Definition ChannelHandShake (bufPtr : bytes) (h : SChannel) : res (Z * SChannel * bool) :=
  let rebuildHandshake := bufPtr ++ [0] in
  if negb (strncmp_eq rebuildHandshake HANDSHAKE_MESSAGE (zlen HANDSHAKE_MESSAGE)) then
    Ok (ERR_HANDSHAKE_NOTMATCH, h, true)
  else
    _ ← deref (slice offsetof_connectKey 1 rebuildHandshake);
    let connectKey := cstr (zdrop offsetof_connectKey rebuildHandshake) in
    if MAX_CONNECTKEY_SIZE <? zlen connectKey then Ok (ERR_HANDSHAKE_CONNECTKEY_FAILED, h, true)
    else
      let h := mkSChannel (sc_channelId h) connectKey true in
      tag ← deref (slice WAIT_TAG_OFFSET 1 rebuildHandshake);
      if bytes_eqb tag [WAIT_DEVICE_TAG] then Ok (0, h, false)
      else
        let '(fill, h) := CheckAutoFillTarget h in
        if negb fill then Ok (0, h, false)
        else if negb (BindChannelToSession (sc_connectKey h) =? 0) then Ok (ERR_GENERIC, h, true)
        else Ok (0, h, false).
End Server.

(** ** Facts about the struct *)

Lemma put_mid (a b x c : bytes) off : off = zlen a -> zlen x = zlen b -> put off x (a ++ b ++ c) = a ++ x ++ c.
Proof.
  intros -> Hx. unfold put. rewrite ztake_app by done. rewrite (app_assoc a b c), zdrop_app; [done|].
  rewrite length_app, Nat2Z.inj_add. lia.
Qed.

Lemma put_nil (a b x c : bytes) off : off = zlen a -> zlen x = zlen b -> put off x (a ++ b) = a ++ x.
Proof. intros Ha Hx. rewrite <- (app_nil_r b), put_mid by done. by rewrite app_nil_r. Qed.

(** A string padded with zeros. *)
Definition padded (n : Z) (s : bytes) : bytes := s ++ replicate (Z.to_nat (n - zlen s)) 0.

Lemma length_padded n s : zlen s <= n -> zlen (padded n s) = n.
Proof. intros. unfold padded. rewrite length_app, length_replicate. lia. Qed.

Lemma cstr_padded n s k : no_nul s -> zlen s < n -> cstr (padded n s ++ k) = s.
Proof.
  intros Hs Hn. unfold padded. replace (Z.to_nat (n - zlen s)) with (S (Z.to_nat (n - zlen s) - 1)) by lia.
  cbn [replicate]. rewrite <- app_assoc. by apply cstr_app_nul.
Qed.

Lemma cstr_app_nonul a b : no_nul a -> cstr (a ++ b) = a ++ cstr b.
Proof.
  induction 1 as [|x a Hx _ IH]; [done|]. cbn [app cstr]. rewrite (proj2 (Z.eqb_neq x 0)) by done. by rewrite IH.
Qed.

Lemma strcpy_s_padded n s : no_nul s -> zlen s < n -> strcpy_s n s = Some (padded n s).
Proof. intros Hs Hn. unfold strcpy_s. rewrite cstr_id by done. by rewrite (proj2 (Z.leb_le _ _)) by lia. Qed.

(** The first twelve bytes of the greeting. *)
Definition banner_of (hostOhos wait : bool) : bytes :=
  HANDSHAKE_MESSAGE ++ [0; 0; if hostOhos then SERVICE_KILL_TAG else 0; if wait then WAIT_DEVICE_TAG else HUGE_BUF_TAG].

Definition hello_of (o vc : bool) (channelId : Z) (ver : bytes) : bytes :=
  banner_of o false ++ (be_split 4 channelId ++ replicate 28 0) ++ (if vc then padded BUF_SIZE_TINY ver else []).

Lemma AcceptClient_hello_spec o vc channelId ver : no_nul ver -> zlen ver < BUF_SIZE_TINY ->
  AcceptClient_hello o vc channelId ver = Some (hello_of o vc channelId ver).
Proof.
  intros Hv Hl. unfold AcceptClient_hello. rewrite (strcpy_s_padded BUF_SIZE_TINY ver Hv Hl).
  assert (strcpy_s 12 HANDSHAKE_MESSAGE = Some (HANDSHAKE_MESSAGE ++ [0; 0; 0; 0])) as -> by reflexivity.
  cbn [mbind option_bind]. unfold hello_of. f_equal.
  assert (Hb : (if o then put SERVICE_KILL_OFFSET [SERVICE_KILL_TAG]
      (put BANNER_FEATURE_TAG_OFFSET [HUGE_BUF_TAG] (HANDSHAKE_MESSAGE ++ [0; 0; 0; 0]))
      else put BANNER_FEATURE_TAG_OFFSET [HUGE_BUF_TAG] (HANDSHAKE_MESSAGE ++ [0; 0; 0; 0])) = banner_of o false)
    by (destruct o; reflexivity).
  rewrite Hb. change (Z.to_nat (MAX_CONNECTKEY_SIZE - 4)) with 28%nat.
  destruct vc; [done|]. rewrite app_assoc, app_nil_r. apply ztake_app.
  rewrite !length_app, length_be_split, length_replicate. by destruct o.
Qed.

(** A message of the three parts of the struct. *)
Section Parts.
Context (banner key rest : bytes).
Hypothesis Hbanner : zlen banner = 12.
Hypothesis Hkey : zlen key = 32.
Abbreviation msg := (banner ++ key ++ rest).

Lemma parts_length : zlen msg = 44 + zlen rest.
Proof. rewrite !length_app. lia. Qed.

Lemma parts_banner : ztake 12 msg = banner.
Proof. apply ztake_app. lia. Qed.

Lemma parts_tag : slice WAIT_TAG_OFFSET 1 msg = Some (zdrop 11 banner).
Proof.
  unfold WAIT_TAG_OFFSET. rewrite slice_Some by (rewrite ?parts_length; lia). f_equal.
  rewrite <- (ztake_zdrop 11 banner) at 1. rewrite <- app_assoc.
  rewrite zdrop_app by (rewrite length_ztake; lia). apply ztake_app. rewrite length_zdrop; lia.
Qed.

Lemma parts_put_key key' : zlen key' = 32 -> put offsetof_connectKey key' msg = banner ++ key' ++ rest.
Proof. intros. apply put_mid; [done|lia]. Qed.
End Parts.

Lemma length_banner o w : zlen (banner_of o w) = 12.
Proof. by destruct o, w. Qed.

Lemma banner_accepted o w : strncmp_eq (banner_of o w) HANDSHAKE_MESSAGE (zlen HANDSHAKE_MESSAGE) = true.
Proof. by destruct o, w. Qed.

Lemma banner_accepted_app o w rest : strncmp_eq (banner_of o w ++ rest) HANDSHAKE_MESSAGE (zlen HANDSHAKE_MESSAGE) = true.
Proof. by destruct o, w. Qed.

(** Whether the client waits for a device. *)
Definition waits (c : Client) : bool :=
  bytes_eqb (cl_command c) CMDSTR_WAIT_FOR && negb (bytes_eqb (cl_connectKey c) []).

Lemma ValidateHandshakeBanner_hello o vc channelId ver c : zlen ver < BUF_SIZE_TINY ->
  ValidateHandshakeBanner (hello_of o vc channelId ver) c
  = Ok (RET_SUCCESS,
        mkClient (cl_channelId c) false (cl_handshakeOK c) (cl_connectKey c) (cl_command c)
          (cl_isCheckVersionCmd c) (cl_connectionError c),
        banner_of o (waits c) ++ (be_split 4 channelId ++ replicate 28 0) ++ (if vc then padded BUF_SIZE_TINY ver else [])).
Proof.
  intros Hv. unfold hello_of.
  set (key := be_split 4 channelId ++ replicate 28 0). set (rest := if vc then _ else _).
  assert (Hk : zlen key = 32) by (unfold key; by rewrite length_app, length_be_split, length_replicate).
  unfold ValidateHandshakeBanner.
  rewrite (proj2 (Z.ltb_ge _ _)) by (rewrite (parts_length _ _ _ (length_banner o false) Hk); unfold offsetof_version, MAX_CONNECTKEY_SIZE; lia).
  rewrite (parts_banner _ _ _ (length_banner o false)). rewrite banner_accepted. cbn [negb].
  change BANNER_FEATURE_TAG_OFFSET with WAIT_TAG_OFFSET.
  rewrite (parts_tag _ _ _ (length_banner o false) Hk). cbn [deref mbind res_bind].
  assert (bytes_eqb (zdrop 11 (banner_of o false)) [HUGE_BUF_TAG] = true) as -> by (by destruct o).
  cbn [negb cl_command cl_connectKey]. do 2 f_equal. unfold waits.
  destruct (_ && _); [|done]. by destruct o.
Qed.

(** The answer of a client with a key of at most 32 characters. *)
Definition answer_of (o vc : bool) (ver : bytes) (c : Client) : bytes :=
  banner_of o (waits c) ++ padded MAX_CONNECTKEY_SIZE (cl_connectKey c) ++ (if vc then padded BUF_SIZE_TINY ver else []).

Definition client_bound (channelId : Z) (c : Client) : Client :=
  mkClient channelId false true (cl_connectKey c) (cl_command c) (cl_isCheckVersionCmd c) [].

Lemma PreHandshake_hello o vc channelId ver clientVer c :
  in_u 32 channelId -> no_nul ver -> zlen ver < BUF_SIZE_TINY -> zlen (cl_connectKey c) <= MAX_CONNECTKEY_SIZE ->
  (vc = true -> cl_isCheckVersionCmd c = false -> clientVer = ver) ->
  PreHandshake vc clientVer (hello_of o vc channelId ver) c
  = Ok (RET_SUCCESS, client_bound channelId c, Some (answer_of o vc ver c), false).
Proof.
  intros Hid Hv Hvl Hkey Hver. unfold PreHandshake. rewrite ValidateHandshakeBanner_hello by done.
  cbn [mbind res_bind]. change (RET_SUCCESS =? RET_SUCCESS) with true. cbn [negb].
  set (key0 := be_split 4 channelId ++ replicate 28 0). set (rest := if vc then _ else _).
  assert (Hk : zlen key0 = 32) by (unfold key0; by rewrite length_app, length_be_split, length_replicate).
  pose proof (length_banner o (waits c)) as Hb.
  assert (slice offsetof_connectKey 4 (banner_of o (waits c) ++ key0 ++ rest) = Some (be_split 4 channelId)) as Hs.
  { unfold key0. rewrite <- app_assoc. apply slice_mid; [by rewrite Hb|by rewrite length_be_split]. }
  unfold SyncChannelId. rewrite Hs. cbn [deref mbind res_bind]. rewrite be_combine_split, Z.mod_small by exact Hid.
  unfold FillConnectKeyAndCheckVersion. cbn [cl_connectKey cl_isCheckVersionCmd].
  assert (memcpy_ok MAX_CONNECTKEY_SIZE (zlen (cl_connectKey c)) = true) as ->.
  { unfold memcpy_ok. rewrite !andb_true_iff, Z.ltb_lt, !Z.leb_le. by repeat split. }
  cbn [negb]. fold (padded MAX_CONNECTKEY_SIZE (cl_connectKey c)).
  assert (Hk' : zlen (padded MAX_CONNECTKEY_SIZE (cl_connectKey c)) = 32) by (by apply length_padded).
  rewrite (parts_put_key _ _ _ Hb Hk _ Hk'). unfold answer_of. fold rest.
  destruct vc; unfold rest.
  - rewrite app_assoc. assert (slice offsetof_version BUF_SIZE_TINY
       ((banner_of o (waits c) ++ padded MAX_CONNECTKEY_SIZE (cl_connectKey c)) ++ padded BUF_SIZE_TINY ver)
       = Some (padded BUF_SIZE_TINY ver)) as ->.
    { rewrite <- (app_nil_r (padded BUF_SIZE_TINY ver)) at 1. apply slice_mid.
      - rewrite length_app, Nat2Z.inj_add, Hb, Hk'. done.
      - symmetry. apply length_padded. lia. }
    cbn [deref mbind res_bind].
    rewrite <- (app_nil_r (padded BUF_SIZE_TINY ver)) at 1. rewrite cstr_padded by done.
    assert (negb (cl_isCheckVersionCmd c) && negb (bytes_eqb clientVer ver) = false) as ->.
    { destruct (cl_isCheckVersionCmd c); [done|]. rewrite Hver by done. unfold bytes_eqb. by rewrite bool_decide_true. }
    cbn [mbind res_bind]. change (RET_SUCCESS =? RET_SUCCESS) with true. cbn [negb]. unfold client_bound. do 4 f_equal.
    rewrite <- app_assoc. apply ztake_ge. rewrite (parts_length _ _ _ Hb Hk'). rewrite length_padded by lia. reflexivity.
  - cbn [mbind res_bind]. change (RET_SUCCESS =? RET_SUCCESS) with true. cbn [negb]. unfold client_bound. do 4 f_equal.
    apply ztake_ge. rewrite (parts_length _ _ _ Hb Hk'). reflexivity.
Qed.

Section ServerFacts.
Context (only_daemon : option (bytes * option bool)) (Bind : bytes -> Z).

(** What the server does with a key it accepts. *)
Definition server_bound (wait : bool) (channelId : Z) (key : bytes) : Z * SChannel * bool :=
  let h := mkSChannel channelId key true in
  if wait then (0, h, false)
  else
    let '(fill, h) := CheckAutoFillTarget only_daemon h in
    if negb fill then (0, h, false)
    else if negb (Bind (sc_connectKey h) =? 0) then (ERR_GENERIC, h, true) else (0, h, false).

(** The server reads the answer up to the first NUL behind the banner. *)
Lemma ChannelHandShake_answer (o vc : bool) ver c h : zlen ver < BUF_SIZE_TINY -> zlen (cl_connectKey c) <= MAX_CONNECTKEY_SIZE ->
  let key := cstr ((padded MAX_CONNECTKEY_SIZE (cl_connectKey c) ++ (if vc then padded BUF_SIZE_TINY ver else [])) ++ [0]) in
  ChannelHandShake only_daemon Bind (answer_of o vc ver c) h
  = Ok (if MAX_CONNECTKEY_SIZE <? zlen key then (ERR_HANDSHAKE_CONNECTKEY_FAILED, h, true)
        else server_bound (waits c) (sc_channelId h) key).
Proof.
  intros Hv Hk key. unfold ChannelHandShake, answer_of.
  pose proof (length_banner o (waits c)) as Hb.
  assert (Hk' : zlen (padded MAX_CONNECTKEY_SIZE (cl_connectKey c)) = 32) by (by apply length_padded).
  set (rest := if vc then _ else _) in *. rewrite <- !app_assoc. rewrite banner_accepted_app. cbn [negb].
  pose proof (parts_length _ _ (rest ++ [0]) Hb Hk') as Hpl.
  rewrite (slice_Some offsetof_connectKey 1) by (unfold offsetof_connectKey; rewrite ?Hpl; lia). cbn [deref mbind res_bind].
  rewrite (zdrop_app (banner_of o (waits c))) by (by rewrite Hb). rewrite app_assoc. fold key.
  destruct (MAX_CONNECTKEY_SIZE <? zlen key); [done|].
  rewrite <- app_assoc, (parts_tag _ _ _ Hb Hk'). cbn [deref mbind res_bind]. unfold server_bound.
  assert (bytes_eqb (zdrop 11 (banner_of o (waits c))) [WAIT_DEVICE_TAG] = waits c) as -> by (by destruct o, (waits c)).
  destruct (waits c); [done|]. destruct (CheckAutoFillTarget _ _) as [fill h']. by destruct fill, (Bind _ =? 0).
Qed.

(** A key the server gets is kept, unless it asks for any device. *)
Lemma server_bound_key wait channelId key r h e : server_bound wait channelId key = (r, h, e) ->
  sc_handshakeOK h = true /\ sc_channelId h = channelId /\
  (sc_connectKey h = key \/ key = CMDSTR_CONNECT_ANY /\ only_daemon = Some (sc_connectKey h, Some true)) /\
  (r = 0 \/ r = ERR_GENERIC /\ Bind (sc_connectKey h) <> 0).
Proof.
  unfold server_bound, CheckAutoFillTarget. cbn [sc_connectKey sc_channelId sc_handshakeOK].
  assert (Hfin : forall k r0 e0, (r0 = 0 \/ r0 = ERR_GENERIC /\ Bind k <> 0) ->
    (k = key \/ key = CMDSTR_CONNECT_ANY /\ only_daemon = Some (k, Some true)) ->
    (r0, mkSChannel channelId k true, e0) = (r, h, e) ->
    sc_handshakeOK h = true /\ sc_channelId h = channelId /\
    (sc_connectKey h = key \/ key = CMDSTR_CONNECT_ANY /\ only_daemon = Some (sc_connectKey h, Some true)) /\
    (r = 0 \/ r = ERR_GENERIC /\ Bind (sc_connectKey h) <> 0)) by (intros k r0 e0 ? ? [= <- <- <-]; cbn; auto).
  destruct wait; [apply Hfin; auto|]. destruct (bytes_eqb key []); [apply Hfin; auto|].
  destruct (bytes_eqb key CMDSTR_CONNECT_ANY) eqn:Ea.
  - apply bytes_eqb_eq in Ea as ->. destruct only_daemon as [[k [[]|] ]|]; cbn [negb]; try (apply Hfin; auto).
    cbn [sc_connectKey]. destruct (Bind k =? 0) eqn:Eb; cbn [negb]; breflect; apply Hfin; auto.
  - cbn [negb sc_connectKey]. destruct (Bind key =? 0) eqn:Eb; cbn [negb]; breflect; apply Hfin; auto.
Qed.

(** C26. The handshake of a channel makes both ends agree: the client ends with the
    channel id the server chose and with large buffers enabled, the server with the
    client's connect key (or, for the key "any", with that of the only ready
    device), and a failure to bind the device is the only error; this holds for
    every build, and every connect key that leaves room for its terminator. *)
Theorem channel_handshake_agrees (o vc : bool) (channelId : Z) (ver clientVer : bytes) (c : Client) (h : SChannel) :
  in_u 32 channelId -> no_nul ver -> zlen ver < BUF_SIZE_TINY ->
  no_nul (cl_connectKey c) -> zlen (cl_connectKey c) < MAX_CONNECTKEY_SIZE ->
  (vc = true -> cl_isCheckVersionCmd c = false -> clientVer = ver) ->
  exists hello answer c' h' r e,
    AcceptClient_hello o vc channelId ver = Some hello /\
    PreHandshake vc clientVer hello c = Ok (RET_SUCCESS, c', Some answer, false) /\
    ChannelHandShake only_daemon Bind answer h = Ok (r, h', e) /\
    cl_channelId c' = channelId /\ cl_handshakeOK c' = true /\ cl_isStableBuf c' = false /\
    sc_handshakeOK h' = true /\
    (sc_connectKey h' = cl_connectKey c \/
     cl_connectKey c = CMDSTR_CONNECT_ANY /\ only_daemon = Some (sc_connectKey h', Some true)) /\
    (r = 0 \/ r = ERR_GENERIC /\ Bind (sc_connectKey h') <> 0).
Proof.
  intros Hid Hv Hvl Hkn Hkl Hver.
  destruct (server_bound (waits c) (sc_channelId h) (cl_connectKey c)) as [[r h'] e] eqn:Eb.
  destruct (server_bound_key _ _ _ _ _ _ Eb) as (Hok & _ & Hkey & Hr).
  exists (hello_of o vc channelId ver), (answer_of o vc ver c), (client_bound channelId c), h', r, e.
  split_and!; try done; [by apply AcceptClient_hello_spec|apply PreHandshake_hello; auto; lia|].
  rewrite ChannelHandShake_answer by (done || lia). cbv zeta. rewrite <- app_assoc.
  rewrite (cstr_padded _ _ _ Hkn Hkl), (proj2 (Z.ltb_ge _ _)) by lia. by rewrite Eb.
Qed.

(** Two greetings the server does not survive as intended: a message that is
    the banner alone makes it read behind the copied message, and in builds with
    version checks a connect key of the full 32 characters, which the client
    accepts, runs into the version text and is refused. *)
Theorem channel_handshake_edges (o : bool) (n : nat) (ver : bytes) (c : Client) (h : SChannel) :
  (n < 4)%nat -> no_nul ver -> 0 < zlen ver < BUF_SIZE_TINY ->
  no_nul (cl_connectKey c) -> zlen (cl_connectKey c) = MAX_CONNECTKEY_SIZE ->
  ChannelHandShake only_daemon Bind (HANDSHAKE_MESSAGE ++ replicate n 0) h = Undefined /\
  (exists c', PreHandshake true ver (hello_of o true 7 ver) c = Ok (RET_SUCCESS, c', Some (answer_of o true ver c), false)) /\
  ChannelHandShake only_daemon Bind (answer_of o true ver c) h = Ok (ERR_HANDSHAKE_CONNECTKEY_FAILED, h, true).
Proof.
  intros Hn Hv Hvl Hkn Hkl. split_and!.
  - do 4 (destruct n as [|n]; [reflexivity|]). lia.
  - eexists. apply PreHandshake_hello; auto; try lia. unfold in_u. lia.
  - rewrite ChannelHandShake_answer by lia. cbv zeta.
    assert (padded MAX_CONNECTKEY_SIZE (cl_connectKey c) = cl_connectKey c) as ->
      by (unfold padded; rewrite Hkl, Z.sub_diag; apply app_nil_r).
    rewrite <- app_assoc, cstr_app_nonul, cstr_padded by (done || lia).
    by rewrite length_app, (proj2 (Z.ltb_lt _ _)) by lia.
Qed.
End ServerFacts.

Definition sample_client (key : bytes) : Client := mkClient 5 true false key (str "shell") false [].

Lemma channel_handshake_agrees_witness :
  exists hello answer c' h', AcceptClient_hello false true 77 (str "Ver: 3.2.0g") = Some hello /\
    PreHandshake true (str "Ver: 3.2.0g") hello (sample_client (str "usb1")) = Ok (RET_SUCCESS, c', Some answer, false) /\
    ChannelHandShake None (fun _ => 0) answer (mkSChannel 77 [] false) = Ok (0, h', false) /\
    sc_connectKey h' = str "usb1" /\ cl_channelId c' = 77.
Proof.
  destruct (channel_handshake_agrees None (fun _ => 0) false true 77 (str "Ver: 3.2.0g") (str "Ver: 3.2.0g")
    (sample_client (str "usb1")) (mkSChannel 77 [] false)) as (hello & answer & c' & h' & r & e & H1 & H2 & H3 & H4 & _ & _ & _ & [H5|[H5 _]] & H6).
  - unfold in_u. lia.
  - repeat constructor; vm_compute; discriminate.
  - vm_compute. reflexivity.
  - repeat constructor; vm_compute; discriminate.
  - vm_compute. reflexivity.
  - reflexivity.
  - exists hello, answer, c', h'. destruct H6 as [->|[_ H6]]; [|by destruct H6].
    split_and!; auto. vm_compute in H1. injection H1 as <-. vm_compute in H2. injection H2 as <- <-. vm_compute in H3. by injection H3 as <- <-.
  - vm_compute in H5. discriminate.
Defined.

Lemma channel_handshake_edges_witness :
  ChannelHandShake None (fun _ => 0) HANDSHAKE_MESSAGE (mkSChannel 7 [] false) = Undefined.
Proof.
  apply (channel_handshake_edges None (fun _ => 0) false 0 (str "Ver: 3.2.0g") (sample_client (replicate 32 65)) (mkSChannel 7 [] false)).
  - lia.
  - repeat constructor; vm_compute; discriminate.
  - vm_compute. split; reflexivity.
  - apply Forall_replicate. discriminate.
  - reflexivity.
Defined.
