(* ===== verification/ShellOption.v ===== *)
(** * ShellOption: shell commands with options

    [host/host_shell_option.cpp] turns the text of [shell -b bundle command] into
    a TLV buffer; [ExecuteShellExtend] of [daemon/daemon_unity.cpp] takes it apart
    on the device.  The splitting of the text and the TLV buffers are those of
    [Args] and [Tlv]; the theorem composes all of them. *)

From Stdlib Require Import String ZArith Lia List Bool.
From stdpp Require Import base list numbers option.
From S2P Require Import Prelude Defs OrdMap Tlv Args Strings.

Definition REGISTERD_TAG_SET : list Z := [TAG_SHELL_BUNDLE; TAG_SHELL_CMD].

(** ** On the host *)

(** The words from [startIndex] on, separated by blanks. *)
Fixpoint ConstructShellCommand (argv : list bytes) : bytes :=
  match argv with
  | [] => []
  | [a] => a
  | a :: argv => a ++ [32] ++ ConstructShellCommand argv
  end.

(** Success, [errMsg] and the buffer. *)
Definition TlvAppendParameter (tag : Z) (shellCommand : bytes) (errMsg : bytes) (b : TlvBuf) : bool * bytes * TlvBuf :=
  if (tag =? TAG_SHELL_CMD) && bytes_eqb shellCommand [] then
    (false, str "[E003002] Unsupport interactive shell command option", b)
  else if (tag =? TAG_SHELL_BUNDLE) && negb (CheckBundleName shellCommand) then
    (false, str "[E003001] Invalid bundle name: " ++ shellCommand, b)
  else
    let '(ok, b) := Append_string tag shellCommand b in
    if negb ok then (false, str "[E003008] Internal error: Failed to add value to TLV buffer", b)
    else (true, errMsg, b).

Definition missing_parameter : bytes :=
  str "[E003005] The parameter is missing, correct your input by referring below:" ++ [10] ++
  str "Usage: hdc shell [-b bundlename] [COMMAND...]".

(** The [for] loop; an option consumes two words ([skipNext]). *)
Fixpoint ParameterToTlv_loop (argv : list bytes) (ret : bool) (errMsg : bytes) (b : TlvBuf) : bool * bytes * TlvBuf :=
  match argv with
  | [] => (ret, errMsg, b)
  | a :: argv =>
      if bytes_eqb a (str "-b") then
        match argv with
        | [] => (ret, missing_parameter, b)
        | bundlePath :: argv =>
            let '(ok, errMsg, b) := TlvAppendParameter TAG_SHELL_BUNDLE bundlePath errMsg b in
            if negb ok then (ret, errMsg, b) else ParameterToTlv_loop argv true errMsg b
        end
      else if (1 <=? zlen a) && bytes_eqb (ztake 1 a) [45] then
        (ret, str "[E003003] Unsupport shell option: " ++ a, b)
      else
        let '(ok, errMsg, b) := TlvAppendParameter TAG_SHELL_CMD (ConstructShellCommand (a :: argv)) errMsg b in
        (if ok then true else ret, errMsg, b)
  end.

Definition ParameterToTlv (argv : list bytes) (errMsg : bytes) (b : TlvBuf) : bool * bytes * TlvBuf :=
  ParameterToTlv_loop argv false errMsg b.

Definition CopyToString (b : TlvBuf) (output : bytes) : bool * bytes :=
  let bufSize := GetBufSize b in
  if bufSize <=? 0 then (false, output)
  else
    match CopyToBuf b (Some (replicate (Z.to_nat bufSize) 0)) bufSize with
    | (true, Some tlvs) => (true, ztake bufSize tlvs)
    | _ => (false, output)
    end.

Definition invalid_parameters : bytes := str "[E003007] Internal error: Invalid option parameters".

(** The result, [formatOutput], [errMsg] and [hasCommand]. *)
Definition FormatParametersToTlv (parameters : bytes) (startPos : Z) (formatOutput errMsg : bytes) (hasCommand : bool)
    : res (bool * bytes * bytes * bool) :=
  if bytes_eqb parameters [] || (zlen parameters <=? startPos) then Ok (false, formatOutput, invalid_parameters, hasCommand)
  else
    r ← SplitCommandToArgs (zdrop startPos parameters ++ [0]);
    match r with
    | None => Ok (false, formatOutput, invalid_parameters, hasCommand)
    | Some r =>
        let argv := arg_strings r in
        if zlen argv <=? 0 then Ok (false, formatOutput, invalid_parameters, hasCommand)
        else
          let '(ok, errMsg, tb) := ParameterToTlv argv errMsg (TlvBuf_new REGISTERD_TAG_SET) in
          let '(ret, formatOutput, errMsg) :=
            if negb ok then (false, formatOutput, errMsg)
            else
              let '(copied, out) := CopyToString tb formatOutput in
              if negb copied then (false, formatOutput, str "[E003009] Internal error: Invalid tlv buffer")
              else (true, out, errMsg) in
          Ok (ret, formatOutput, errMsg, match FindTlv_string TAG_SHELL_CMD tb with Some _ => true | None => false end)
    end.

(** ** On the device *)

(** The command and the bundle [ExecuteOptionShell] is called with; the inner
    [None] is the error reply, the outer one an invalid access. *)
Definition ExecuteShellExtend (payload : bytes) : option (option (bytes * bytes)) :=
  match TlvBuf_parse_tags (Some payload) (zlen payload) REGISTERD_TAG_SET with
  | None => None
  | Some tlvbuf =>
      Some (if ContainInvalidTag tlvbuf then None
            else match FindTlv_string TAG_SHELL_BUNDLE tlvbuf with
                 | None => None
                 | Some bundleName =>
                     match FindTlv_string TAG_SHELL_CMD tlvbuf with
                     | None => None
                     | Some command => Some (command, bundleName)
                     end
                 end)
  end.

(** ** Facts *)

(** What [GetBufSize], [CopyToBuf] and the parser do with a small map. *)
Lemma CopyToString_parse m out : wf_tlv (mkTlvBuf m REGISTERD_TAG_SET) -> m <> [] -> zlen (enc_map m) <= RSIZE_MAX ->
  exists s, CopyToString (mkTlvBuf m REGISTERD_TAG_SET) out = (true, s) /\
    TlvBuf_parse_tags (Some s) (zlen s) REGISTERD_TAG_SET = Some (mkTlvBuf m REGISTERD_TAG_SET).
Proof.
  intros Hwf Hne Hlen. unfold RSIZE_MAX in Hlen. set (b := mkTlvBuf m REGISTERD_TAG_SET) in *.
  assert (Hsz : GetBufSize b = zlen (enc_map m)) by (apply GetBufSize_enc; cbn [mTlvMap b]; lia).
  assert (Hpos : 0 < zlen (enc_map m)).
  { destruct m as [|p m']; [done|]. rewrite zlen_enc_map_cons. lia. }
  destruct (CopyToBuf_parse b (replicate (Z.to_nat (GetBufSize b)) 0)) as (o & He & Hl & _ & Hp);
    rewrite ?length_replicate, ?Hsz, ?Z2Nat.id; unfold RSIZE_MAX; cbn [mTlvMap b]; try lia; [exact Hwf|].
  rewrite length_replicate, Z2Nat.id in He, Hl by lia.
  unfold CopyToString. rewrite (proj2 (Z.leb_gt _ 0)) by lia. rewrite He.
  exists (ztake (GetBufSize b) o). split; [done|]. unfold TlvBuf_parse_tags.
  rewrite length_ztake by lia. rewrite Hp. done.
Qed.

Lemma bytes_eqb_refl (a : bytes) : bytes_eqb a a = true.
Proof. unfold bytes_eqb. by rewrite bool_decide_true. Qed.

Lemma bytes_eqb_ne (a b : bytes) : a <> b -> bytes_eqb a b = false.
Proof. unfold bytes_eqb. intros. by rewrite bool_decide_false. Qed.

(** A valid bundle name is short and a legal TLV value. *)
Lemma CheckBundleName_len n : CheckBundleName n = true -> 7 <= zlen n <= 128.
Proof. unfold CheckBundleName, BUNDLE_MIN_SIZE, BUNDLE_MAX_SIZE. repeat case_if_goal; try done. breflect. lia. Qed.

Definition bundle_map (bundle : bytes) : list (Z * bytes) := [(TAG_SHELL_BUNDLE, bundle)].

Lemma append_bundle bundle err : CheckBundleName bundle = true ->
  TlvAppendParameter TAG_SHELL_BUNDLE bundle err (TlvBuf_new REGISTERD_TAG_SET)
  = (true, err, mkTlvBuf (bundle_map bundle) REGISTERD_TAG_SET).
Proof.
  intros Hb. pose proof (CheckBundleName_len _ Hb). unfold TlvAppendParameter. rewrite Hb. cbn [Z.eqb TAG_SHELL_BUNDLE TAG_SHELL_CMD andb negb Pos.eqb].
  unfold Append_string, Append. rewrite uwrap_small by (unfold in_u; lia).
  rewrite (proj2 (Z.eqb_neq _ 0)), (proj2 (Z.ltb_ge _ _)) by (unfold TLV_VALUE_MAX_LEN; lia).
  cbn. by rewrite ztake_ge by lia.
Qed.

Definition command_map (bundle command : bytes) : list (Z * bytes) :=
  [(TAG_SHELL_CMD, command); (TAG_SHELL_BUNDLE, bundle)].

Lemma append_command bundle command err : command <> [] -> zlen command <= TLV_VALUE_MAX_LEN ->
  TlvAppendParameter TAG_SHELL_CMD command err (mkTlvBuf (bundle_map bundle) REGISTERD_TAG_SET)
  = (true, err, mkTlvBuf (command_map bundle command) REGISTERD_TAG_SET).
Proof.
  intros Hne Hl. assert (0 < zlen command) by (destruct command; [done|simpl; lia]). unfold TLV_VALUE_MAX_LEN in Hl.
  unfold TlvAppendParameter. rewrite (bytes_eqb_ne command []) by done. rewrite andb_false_r.
  cbn [Z.eqb TAG_SHELL_BUNDLE TAG_SHELL_CMD andb].
  unfold Append_string, Append. rewrite uwrap_small by (unfold in_u; lia).
  rewrite (proj2 (Z.eqb_neq _ 0)), (proj2 (Z.ltb_ge _ _)) by (unfold TLV_VALUE_MAX_LEN; lia).
  cbn. by rewrite ztake_ge by lia.
Qed.

Lemma maps_wf bundle command : 1 <= zlen bundle <= 128 -> 1 <= zlen command <= TLV_VALUE_MAX_LEN ->
  wf_tlv (mkTlvBuf (bundle_map bundle) REGISTERD_TAG_SET) /\ wf_tlv (mkTlvBuf (command_map bundle command) REGISTERD_TAG_SET).
Proof.
  intros Hb Hc. unfold TLV_VALUE_MAX_LEN in Hc.
  assert (entry_ok (TAG_SHELL_BUNDLE, bundle) /\ entry_ok (TAG_SHELL_CMD, command)) as [H1 H2]
    by (unfold entry_ok, in_u, TLV_VALUE_MAX_LEN, TAG_SHELL_BUNDLE, TAG_SHELL_CMD; cbn [fst snd]; lia).
  unfold bundle_map, command_map. split; (split; cbn [mTlvMap]; [|auto using List.Forall_cons, List.Forall_nil]); unfold om_sorted, om_keys; cbn [map fst].
  - apply Sorted.SSorted_cons; [apply Sorted.SSorted_nil|constructor].
  - apply Sorted.SSorted_cons; [apply Sorted.SSorted_cons; [apply Sorted.SSorted_nil|constructor]|].
    constructor; [reflexivity|constructor].
Qed.

Lemma cstr_end s : cstr (s ++ [0]) = cstr s.
Proof. induction s as [|c s IH]; [done|]. cbn [app cstr]. by rewrite IH. Qed.

(** The words the options are read from. *)
Definition option_words (parameters : bytes) (startPos : Z) : list bytes :=
  words false None (cstr (zdrop startPos parameters)).

Lemma FormatParametersToTlv_words parameters startPos out err hc :
  0 <= startPos < zlen parameters -> option_words parameters startPos <> [] ->
  FormatParametersToTlv parameters startPos out err hc =
    let '(ok, errMsg, tb) := ParameterToTlv (option_words parameters startPos) err (TlvBuf_new REGISTERD_TAG_SET) in
    let '(ret, formatOutput, errMsg) :=
      if negb ok then (false, out, errMsg)
      else
        let '(copied, o) := CopyToString tb out in
        if negb copied then (false, out, str "[E003009] Internal error: Invalid tlv buffer") else (true, o, errMsg) in
    Ok (ret, formatOutput, errMsg, match FindTlv_string TAG_SHELL_CMD tb with Some _ => true | None => false end).
Proof.
  intros Hs Hw. unfold FormatParametersToTlv.
  rewrite (bytes_eqb_ne parameters []) by (intros ->; simpl in Hs; lia).
  rewrite (proj2 (Z.leb_gt _ _)) by lia. cbn [orb].
  pose proof (SplitCommandToArgs_words (zdrop startPos parameters ++ [0])) as Ha. rewrite cstr_end in Ha.
  unfold option_words in *. destruct (zlen (cstr (zdrop startPos parameters)) <? 1) eqn:E; breflect.
  - exfalso. apply Hw. destruct (cstr (zdrop startPos parameters)); [done|simpl in E; lia].
  - destruct Ha as (r & -> & Hr). cbn [mbind res_bind]. rewrite Hr.
    rewrite (proj2 (Z.leb_gt _ 0)); [done|]. destruct (words _ _ _); [done|simpl; lia].
Qed.

(** A refused option leaves a message. *)
Lemma TlvAppendParameter_err tag v err b : (TlvAppendParameter tag v err b).1.1 = false -> (TlvAppendParameter tag v err b).1.2 <> [].
Proof.
  unfold TlvAppendParameter. repeat case_if_goal; cbn [fst snd]; try done.
  destruct (Append_string tag v b) as [[] b']; done.
Qed.

Lemma ParameterToTlv_err a argv err b : (ParameterToTlv (a :: argv) err b).1.1 = false ->
  (ParameterToTlv (a :: argv) err b).1.2 <> [].
Proof.
  assert (Htrue : forall n argv err b, (length argv < n)%nat -> (ParameterToTlv_loop argv true err b).1.1 = true).
  { induction n as [|n IH]; [lia|]. intros [|x l] e c Hl; [done|]. cbn [ParameterToTlv_loop].
    case_if_goal.
    - destruct l as [|y l]; [done|]. destruct (TlvAppendParameter _ _ _ _) as [[[] e'] c']; cbn [negb]; [|done].
      apply IH. simpl in Hl. lia.
    - case_if_goal; [done|]. destruct (TlvAppendParameter _ _ _ _) as [[[] e'] c']; done. }
  unfold ParameterToTlv. cbn [ParameterToTlv_loop]. case_if_goal.
  - destruct argv as [|y l]; [done|]. pose proof (TlvAppendParameter_err TAG_SHELL_BUNDLE y err b) as He.
    destruct (TlvAppendParameter _ _ _ _) as [[[] e'] c']; cbn [negb fst snd] in *; [|intros _; by apply He].
    rewrite (Htrue (S (length l))) by lia. done.
  - case_if_goal; [done|]. pose proof (TlvAppendParameter_err TAG_SHELL_CMD (ConstructShellCommand (a :: argv)) err b) as He.
    destruct (TlvAppendParameter _ _ _ _) as [[[] e'] c']; cbn [fst snd] in *; [done|]. intros _. by apply He.
Qed.

(** The formatting always returns, and says why when it fails. *)
Lemma FormatParametersToTlv_total parameters startPos out hc :
  exists ret o err h, FormatParametersToTlv parameters startPos out [] hc = Ok (ret, o, err, h) /\ (ret = false -> err <> []).
Proof.
  unfold FormatParametersToTlv. case_if_goal; [by do 4 eexists|].
  pose proof (SplitCommandToArgs_words (zdrop startPos parameters ++ [0])) as Ha.
  destruct (_ <? 1); [rewrite Ha; by do 4 eexists|]. destruct Ha as (r & -> & _). cbn [mbind res_bind].
  destruct (arg_strings r) as [|a argv]; [by do 4 eexists|]. rewrite (proj2 (Z.leb_gt _ 0)) by (simpl; lia).
  pose proof (ParameterToTlv_err a argv [] (TlvBuf_new REGISTERD_TAG_SET)) as He.
  destruct (ParameterToTlv _ _ _) as [[[] e] tb]; cbn [negb fst snd] in *.
  - destruct (CopyToString tb out) as [[] o]; by do 4 eexists.
  - do 4 eexists. split; [done|]. auto.
Qed.

Definition is_option (w : bytes) : bool := (1 <=? zlen w) && bytes_eqb (ztake 1 w) [45].

Lemma not_option_b w : is_option w = false -> bytes_eqb w (str "-b") = false.
Proof. intros Hw. apply bytes_eqb_ne. intros ->. done. Qed.

(** C36. A shell command for an application's sandbox reaches the device: whatever
    blanks and quotes the text of [shell -b bundle command] has, the device
    executes in that bundle exactly the words of the command, joined by single
    blanks. *)
Theorem shell_options_delivered (parameters : bytes) (startPos : Z) (bundle w : bytes) (ws : list bytes) :
  0 <= startPos < zlen parameters ->
  option_words parameters startPos = str "-b" :: bundle :: w :: ws ->
  CheckBundleName bundle = true -> is_option w = false ->
  1 <= zlen (ConstructShellCommand (w :: ws)) <= TLV_VALUE_MAX_LEN ->
  exists out, FormatParametersToTlv parameters startPos [] [] false = Ok (true, out, [], true) /\
    ExecuteShellExtend out = Some (Some (ConstructShellCommand (w :: ws), bundle)).
Proof.
  intros Hs Hw Hb Ho Hc. set (command := ConstructShellCommand (w :: ws)) in *.
  pose proof (CheckBundleName_len _ Hb) as Hbl. unfold TLV_VALUE_MAX_LEN in Hc.
  rewrite FormatParametersToTlv_words by (rewrite ?Hw; done || lia). rewrite Hw.
  unfold ParameterToTlv. cbn [ParameterToTlv_loop]. rewrite bytes_eqb_refl, (append_bundle bundle) by done. cbn [negb].
  rewrite (not_option_b w Ho). fold (is_option w). rewrite Ho.
  fold command.
  assert (Hne : command <> []) by (intros Hn; rewrite Hn in Hc; cbn [length] in Hc; lia).
  rewrite (append_command bundle command [] Hne) by (unfold TLV_VALUE_MAX_LEN; lia). cbn [negb].
  destruct (maps_wf bundle command) as [_ Hwf]; [lia|unfold TLV_VALUE_MAX_LEN; lia|].
  destruct (CopyToString_parse (command_map bundle command) [] Hwf) as (s & -> & Hp); [done| |].
  { unfold command_map. rewrite !zlen_enc_map_cons. cbn [snd enc_map map concat length]. unfold RSIZE_MAX. lia. }
  exists s. split; [done|]. unfold ExecuteShellExtend. rewrite Hp. done.
Qed.

(** A second option that is not supported sets an error message, but the first one
    has made the result true. *)
Lemma unsupported_option_accepted parameters startPos bundle w ws :
  0 <= startPos < zlen parameters ->
  option_words parameters startPos = str "-b" :: bundle :: w :: ws ->
  CheckBundleName bundle = true -> is_option w = true -> w <> str "-b" ->
  exists out, FormatParametersToTlv parameters startPos [] [] false
    = Ok (true, out, str "[E003003] Unsupport shell option: " ++ w, false).
Proof.
  intros Hs Hw Hb Ho Hne. pose proof (CheckBundleName_len _ Hb) as Hbl.
  rewrite FormatParametersToTlv_words by (rewrite ?Hw; done || lia). rewrite Hw.
  unfold ParameterToTlv. cbn [ParameterToTlv_loop]. rewrite bytes_eqb_refl, (append_bundle bundle) by done. cbn [negb].
  rewrite (bytes_eqb_ne w (str "-b")) by done. fold (is_option w). rewrite Ho. cbn [negb].
  destruct (maps_wf bundle [0]) as [Hwf _]; [lia|done|].
  destruct (CopyToString_parse (bundle_map bundle) [] Hwf) as (s & -> & _); [done| |by exists s].
  unfold bundle_map. rewrite !zlen_enc_map_cons. cbn [snd enc_map map concat length]. unfold RSIZE_MAX. lia.
Qed.

Lemma shell_options_delivered_witness :
  exists out, FormatParametersToTlv (str "shell -b com.example.app  ls  -l ") 6 [] [] false = Ok (true, out, [], true) /\
    ExecuteShellExtend out = Some (Some (str "ls -l", str "com.example.app")).
Proof.
  apply (shell_options_delivered (str "shell -b com.example.app  ls  -l ") 6 (str "com.example.app") (str "ls") [str "-l"]).
  - vm_compute. split; [discriminate|reflexivity].
  - vm_compute. reflexivity.
  - vm_compute. reflexivity.
  - vm_compute. reflexivity.
  - vm_compute. split; discriminate.
Defined.
