(* ===== verification/Translate.v ===== *)
(** * Translate: from the text of a command to its code ([host/translate.cpp])

    [String2FormatCommand] decides what a client's request is.  The text is a
    [std::string] of the bytes received; where the code works on [c_str()], the
    model works on the characters before the first NUL, and a pointer behind the
    terminator is [Undefined].

    The texts of [Usage] and [Verbose] and libuv's [uv_ip4_addr] are arguments;
    [ohos] is the build option [HOST_OHOS]. *)

From Stdlib Require Import String ZArith Lia List Bool.
From stdpp Require Import base list numbers option.
From S2P Require Import Prelude Defs OrdMap Tlv Args Strings Numbers ShellOption.

(** ** C strings *)

Definition strcmp_eq (s lit : bytes) : bool := bytes_eqb (cstr s) lit.

(** [!strncmp(s, lit, n)] where [n] is the length of the literal. *)
Definition starts (s lit : bytes) : bool := is_prefix lit (cstr s).

Definition strstr (s pat : bytes) : bool := match find pat (cstr s) 0 with Some _ => true | None => false end.

(** The C string at [s.c_str() + k]. *)
Definition c_str_from (s : bytes) (k : Z) : res bytes := if k <=? zlen s then Ok (cstr (zdrop k s)) else Undefined.

Record FormatCommand := mkFormat { cmdFlag : Z; parameters : bytes; bJumpDo : bool }.

Definition FormatCommand_new : FormatCommand := mkFormat 0 [] false.
Definition flag_ (f : Z) (c : FormatCommand) : FormatCommand := mkFormat f (parameters c) (bJumpDo c).
Definition par_ (p : bytes) (c : FormatCommand) : FormatCommand := mkFormat (cmdFlag c) p (bJumpDo c).
Definition jump_ (c : FormatCommand) : FormatCommand := mkFormat (cmdFlag c) (parameters c) true.

(** ** [GetVersion] of [base.cpp] *)

Definition hex_digit (d : Z) : Z := if d <? 10 then 48 + d else 87 + d.
Fixpoint hex (fuel : nat) (n : Z) : bytes :=
  match fuel with
  | O => []
  | S fuel => if n <? 16 then [hex_digit n] else hex fuel (n / 16) ++ [hex_digit (n mod 16)]
  end.

Definition GetVersion : bytes :=
  let n := HDC_VERSION_NUMBER in
  let major := Z.land (Z.shiftr n 28) 255 in
  let minor := Z.land (Z.shiftr (u32 (Z.shiftl n 4)) 24) 255 in
  let version := Z.land (Z.shiftr (u32 (Z.shiftl n 12)) 24) 255 in
  let fix_ := Z.land (Z.shiftr (u32 (Z.shiftl n 20)) 28) 255 in
  str "Ver: " ++ hex 8 major ++ str "." ++ hex 8 minor ++ str "." ++ hex 8 version ++ [97 + fix_].

(** ** Parts of the translation *)

Definition IsWholeCommandOrHasParameter (input command : bytes) : bool :=
  if bytes_eqb input command then true
  else if (zlen input <=? zlen command) || negb (is_prefix command input) then false
  else match zdrop (zlen command) input with c :: _ => (c =? 32) || (c =? 0) | [] => false end.

Section Translate.
Context (Usage Verbose : bytes) (uv_ip4_addr : bytes -> Z -> Z) (ohos : bool).

Definition maxKeyLength : Z := 50.

(** [stringError] and the command. *)
Definition TargetConnect (c : FormatCommand) : bytes * FormatCommand :=
  let '(stringError, c) :=
    if negb (StringEndsWith (parameters c) (str " -remove") =? 0) then
      ([], flag_ CMD_KERNEL_TARGET_DISCONNECT
             (par_ (substr (parameters c) 0 (u64 (zlen (parameters c) - CMD_REMOTE_SIZE))) c))
    else
      let c := flag_ CMD_KERNEL_TARGET_CONNECT c in
      if maxKeyLength <? zlen (parameters c) then (str "Error connect key's size", jump_ c) else ([], c) in
  match find (str ":") (parameters c) 0 with
  | None => (stringError, c)
  | Some pos =>
      let ip := substr (parameters c) 0 pos in
      let '(ip, c) := if bytes_eqb ip (str "localhost")
        then (str "127.0.0.1", par_ (str "127.0.0.1" ++ zdrop pos (parameters c)) c) else (ip, c) in
      if negb (IsValidIpv4 ip) then (str "[E001104]:IP address incorrect", jump_ c)
      else
        let sport := zdrop (pos + 1) (parameters c) in
        if bytes_eqb sport [] || negb (IsDigitString sport) then (str "Port incorrect", jump_ c)
        else
          let port := i32 (strtol (cstr sport)).1.1 in
          if (port <=? 0) || (MAX_IP_PORT <? port) || (uv_ip4_addr ip port <? 0)
          then (str "IP:Port incorrect", jump_ c) else (stringError, c)
  end.

Definition forward_schemas : list bytes :=
  [str "tcp:"; str "localabstract:"; str "localreserved:"; str "localfilesystem:"; str "dev:"; str "jdwp:"; str "ark:"].

(** [input] is the C string of the request. *)
Definition ForwardPort (input : bytes) (c : FormatCommand) : res (bytes * FormatCommand) :=
  pExtra ← c_str_from input 6;
  if starts input CMDSTR_FORWARD_FPORT && bytes_eqb pExtra (str "ls") then Ok ([], flag_ CMD_FORWARD_LIST c)
  else if starts input CMDSTR_FORWARD_FPORT && is_prefix (str "rm") pExtra then
    let c := flag_ CMD_FORWARD_REMOVE c in
    if bytes_eqb pExtra (str "rm") then Ok ([], c)
    else p ← c_str_from input FORWORD_PORT_RM_BUF_SIZE; Ok ([], par_ p c)
  else
    p ← c_str_from input FORWORD_PORT_OTHER_BUF_SIZE;
    let bad := forallb (fun schema => negb (is_prefix schema p)) forward_schemas in
    let c := if bad then jump_ c else c in
    Ok (if bad then str "Incorrect forward command" else [], par_ input (flag_ CMD_FORWARD_INIT c)).

Definition RunMode (input : bytes) (c : FormatCommand) : res (bytes * FormatCommand) :=
  let c := flag_ CMD_UNITY_RUNMODE c in
  if zlen input <=? zlen CMDSTR_TARGET_MODE then Ok (str "Error input parameter", jump_ c)
  else
    p ← c_str_from input (zlen CMDSTR_TARGET_MODE + 1);
    let c := par_ p c in
    if negb (is_prefix (str "port") p) && negb (bytes_eqb p CMDSTR_TMODE_USB) then Ok (str "Error tmode command", jump_ c)
    else if is_prefix (str "port ") p then
      tmp ← c_str_from input (zlen (str "tmode port "));
      if bytes_eqb tmp (str "close") then Ok ([], c)
      else
        let port := atoi tmp in
        if (MAX_IP_PORT <? port) || (port <=? 0) then Ok (str "Incorrect port range", jump_ c) else Ok ([], c)
    else Ok ([], c).

Definition TargetReboot (input : bytes) (c : FormatCommand) : res FormatCommand :=
  let c := flag_ CMD_UNITY_REBOOT c in
  if bytes_eqb input CMDSTR_TARGET_REBOOT then Ok c
  else
    p ← c_str_from input (zlen CMDSTR_TARGET_REBOOT + 1);
    Ok (par_ (if bytes_eqb p (str "-bootloader") || bytes_eqb p (str "-recovery") || bytes_eqb p (str "-flashd")
              then zdrop 1 p else p) c).

(** [HostUpdater::CheckMatchUpdate]. *)
Definition FLASHD_CMD : list (bytes * Z) :=
  [(str "update ", CMD_FLASHD_UPDATE_INIT); (str "flash ", CMD_FLASHD_FLASH_INIT);
   (str "erase ", CMD_FLASHD_ERASE); (str "format ", CMD_FLASHD_FORMAT)].
Definition CheckMatchUpdate (input : bytes) : option Z :=
  match List.find (fun e => is_prefix e.1 input && (zlen e.1 <? zlen input)) FLASHD_CMD with
  | Some e => Some e.2
  | None => None
  end.

(** The parameter of [reconnect]: the first word. *)
Definition reconnect_parameter (input : bytes) : res bytes :=
  if zlen CMDSTR_TARGET_RECONNECT + 1 <? zlen input then
    p ← c_str_from input (zlen CMDSTR_TARGET_RECONNECT + 1);
    let rest := (fix skip s := match s with 32 :: s => skip s | _ => s end) p in
    Ok (match rest with [] => [] | _ => match find (str " ") rest 0 with Some e => ztake e rest | None => rest end end)
  else Ok [].

(** The chain of tests, before the line end is added. *)
Definition String2FormatCommand_body (input : bytes) : res (bytes * FormatCommand) :=
  let c := FormatCommand_new in
  let plain f := Ok ([], flag_ f c) in
  let flagged f pat p := Ok ([], flag_ f (if strstr input pat then par_ p c else c)) in
  if starts input CMDSTR_SOFTWARE_HELP then
    Ok (if strstr input (str " verbose") then Verbose else Usage, jump_ (flag_ CMD_KERNEL_HELP c))
  else if strcmp_eq input CMDSTR_SOFTWARE_VERSION then Ok (GetVersion, jump_ (flag_ CMD_KERNEL_HELP c))
  else if strcmp_eq input CMDSTR_TARGET_DISCOVER then plain CMD_KERNEL_TARGET_DISCOVER
  else if starts input CMDSTR_LIST_TARGETS then flagged CMD_KERNEL_TARGET_LIST (str " -v") (str "v")
  else if starts input CMDSTR_SERVICE_START then plain CMD_SERVICE_START
  else if ohos && starts input CMDSTR_SERVICE_KILL then plain CMD_SERVER_KILL
  else if starts input CMDSTR_CHECK_SERVER then plain CMD_CHECK_SERVER
  else if starts input CMDSTR_CHECK_DEVICE then
    p ← c_str_from input (zlen CMDSTR_CHECK_DEVICE + 1); Ok ([], flag_ CMD_CHECK_DEVICE (par_ p c))
  else if starts input CMDSTR_WAIT_FOR then plain CMD_WAIT_FOR
  else if strcmp_eq input CMDSTR_CONNECT_ANY then plain CMD_KERNEL_TARGET_ANY
  else if IsWholeCommandOrHasParameter input CMDSTR_TARGET_RECONNECT then
    p ← reconnect_parameter input; Ok ([], par_ p (flag_ CMD_KERNEL_TARGET_RECONNECT c))
  else if starts input CMDSTR_CONNECT_TARGET then
    p ← c_str_from input (zlen CMDSTR_CONNECT_TARGET + 1); Ok (TargetConnect (par_ p c))
  else if starts input CMDSTR_SHELL_EX then
    '((ok, out, err, hasCommand) : bool * bytes * bytes * bool)
       ← FormatParametersToTlv input (zlen CMDSTR_SHELL_EX - 1) (parameters c) [] false;
    let c := par_ out (if negb ok then jump_ c else c) in
    Ok (err, flag_ (if hasCommand then CMD_UNITY_EXECUTE_EX else CMD_SHELL_INIT) c)
  else if starts input (CMDSTR_SHELL ++ [32]) then
    p ← c_str_from input (zlen CMDSTR_SHELL + 1); Ok ([], par_ p (flag_ CMD_UNITY_EXECUTE c))
  else if strcmp_eq input CMDSTR_SHELL then plain CMD_SHELL_INIT
  else if starts input CMDSTR_FILE_SEND || starts input CMDSTR_FILE_RECV then
    p ← c_str_from input (zlen (str "file ")); Ok ([], par_ p (flag_ CMD_FILE_INIT c))
  else if starts input (CMDSTR_FORWARD_FPORT ++ [32]) || starts input (CMDSTR_FORWARD_RPORT ++ [32]) then
    ForwardPort (cstr input) c
  else if starts input CMDSTR_APP_INSTALL then Ok ([], par_ input (flag_ CMD_APP_INIT c))
  else if starts input CMDSTR_APP_UNINSTALL then
    let c := par_ input (flag_ CMD_APP_UNINSTALL c) in
    if (MAX_APP_PARAM_SIZE <? zlen input) || (zlen input <? MIN_APP_PARAM_SIZE)
    then Ok (str "Package's path incorrect", jump_ c) else Ok ([], c)
  else if strcmp_eq input CMDSTR_TARGET_MOUNT then plain CMD_UNITY_REMOUNT
  else if strcmp_eq input CMDSTR_LIST_JDWP then plain CMD_JDWP_LIST
  else if starts input CMDSTR_TRACK_JDWP then
    Ok ([], flag_ CMD_JDWP_TRACK (if strstr input (str " -p") then par_ (str "p") c
                                  else if strstr input (str " -a") then par_ (str "a") c else c))
  else if starts input CMDSTR_TARGET_REBOOT then c ← TargetReboot (cstr input) c; Ok ([], c)
  else if starts input CMDSTR_TARGET_MODE then RunMode (cstr input) c
  else if starts input CMDSTR_HILOG then flagged CMD_UNITY_HILOG (str " -h") (str "h")
  else if starts input CMDSTR_STARTUP_MODE then flagged CMD_UNITY_ROOTRUN (str " -r") (str "r")
  else if starts input CMDSTR_APP_SIDELOAD then
    let bare := zlen (cstr input) =? zlen CMDSTR_APP_SIDELOAD in
    Ok (if bare then str "Incorrect command, please with local path" else [],
        par_ input (flag_ CMD_APP_SIDELOAD (if bare then jump_ c else c)))
  else if starts input CMDSTR_BUGREPORT then
    Ok ([], par_ (if zlen input =? zlen CMDSTR_BUGREPORT + 1 then CMDSTR_BUGREPORT ++ [32] else input)
              (flag_ CMD_UNITY_BUGREPORT_INIT c))
  else if starts input CMDSTR_INNER_ENABLE_KEEPALIVE then plain CMD_KERNEL_ENABLE_KEEPALIVE
  else match CheckMatchUpdate input with
  | Some f => Ok ([], par_ input (flag_ f c))
  | None =>
      if negb ohos && starts input CMDSTR_SPAWN_SUB then Ok ([], par_ input (flag_ CMD_SPAWN_SUB c))
      else Ok (str "Unknown command...", jump_ c)
  end.

Definition String2FormatCommand (input : bytes) : res (bytes * FormatCommand) :=
  '((stringError, c) : bytes * FormatCommand) ← String2FormatCommand_body input;
  Ok (if bytes_eqb stringError [] then [] else stringError ++ [10], c).
End Translate.

Example version_text : GetVersion = str "Ver: 3.2.0g".
Proof. reflexivity. Qed.

Example translate_examples :
  let tr s := String2FormatCommand (str "usage") (str "verbose") (fun _ _ => 0) false (s ++ [0]) in
  tr (str "list targets -v") = Ok ([], mkFormat CMD_KERNEL_TARGET_LIST (str "v") false) /\
  tr (str "shell ls -l") = Ok ([], mkFormat CMD_UNITY_EXECUTE (str "ls -l") false) /\
  tr (str "fport tcp:1 tcp:2") = Ok ([], mkFormat CMD_FORWARD_INIT (str "fport tcp:1 tcp:2") false) /\
  tr (str "fport rm tcp:1 tcp:2") = Ok ([], mkFormat CMD_FORWARD_REMOVE (str "tcp:1 tcp:2") false) /\
  tr (str "fport udp:1 tcp:2") = Ok (str "Incorrect forward command" ++ [10], mkFormat CMD_FORWARD_INIT (str "fport udp:1 tcp:2") true) /\
  tr (str "tconn localhost:10178") = Ok ([], mkFormat CMD_KERNEL_TARGET_CONNECT (str "127.0.0.1:10178") false) /\
  tr (str "tconn 10.0.0.5:0") = Ok (str "IP:Port incorrect" ++ [10], mkFormat CMD_KERNEL_TARGET_CONNECT (str "10.0.0.5:0") true) /\
  tr (str "tmode port 70000") = Ok (str "Incorrect port range" ++ [10], mkFormat CMD_UNITY_RUNMODE (str "port 70000") true) /\
  tr (str "target boot -recovery") = Ok ([], mkFormat CMD_UNITY_REBOOT (str "recovery") false) /\
  tr (str "reconnect  abc def") = Ok ([], mkFormat CMD_KERNEL_TARGET_RECONNECT (str "abc") false) /\
  tr (str "frobnicate") = Ok (str "Unknown command..." ++ [10], mkFormat 0 [] true).
Proof. vm_compute. repeat split; reflexivity. Qed.

(** ** What is a command *)

(** The codes a translated command can have. *)
Definition command_codes : list Z :=
  [CMD_KERNEL_TARGET_DISCOVER; CMD_KERNEL_TARGET_LIST; CMD_SERVICE_START; CMD_SERVER_KILL; CMD_CHECK_SERVER;
   CMD_CHECK_DEVICE; CMD_WAIT_FOR; CMD_KERNEL_TARGET_ANY; CMD_KERNEL_TARGET_RECONNECT; CMD_KERNEL_TARGET_CONNECT;
   CMD_KERNEL_TARGET_DISCONNECT; CMD_UNITY_EXECUTE_EX; CMD_SHELL_INIT; CMD_UNITY_EXECUTE; CMD_FILE_INIT;
   CMD_FORWARD_LIST; CMD_FORWARD_REMOVE; CMD_FORWARD_INIT; CMD_APP_INIT; CMD_APP_UNINSTALL; CMD_UNITY_REMOUNT;
   CMD_JDWP_LIST; CMD_JDWP_TRACK; CMD_UNITY_REBOOT; CMD_UNITY_RUNMODE; CMD_UNITY_HILOG; CMD_UNITY_ROOTRUN;
   CMD_APP_SIDELOAD; CMD_UNITY_BUGREPORT_INIT; CMD_KERNEL_ENABLE_KEEPALIVE; CMD_FLASHD_UPDATE_INIT;
   CMD_FLASHD_FLASH_INIT; CMD_FLASHD_ERASE; CMD_FLASHD_FORMAT; CMD_SPAWN_SUB].

(** A translation: an error text for a command that is not to be run, and a known
    code for one that is. *)
Definition well_translated (r : bytes * FormatCommand) : Prop :=
  (bJumpDo r.2 = true -> r.1 <> []) /\ (bJumpDo r.2 = false -> cmdFlag r.2 ∈ command_codes).

Definition translates (r : res (bytes * FormatCommand)) : Prop := exists x, r = Ok x /\ well_translated x.

Lemma translates_ok err c : (bJumpDo c = true -> err <> []) -> cmdFlag c ∈ command_codes -> translates (Ok (err, c)).
Proof. intros. exists (err, c). by repeat split. Qed.

Lemma translates_error err c : err <> [] -> bJumpDo c = true -> translates (Ok (err, c)).
Proof. intros He Hj. exists (err, c). repeat split; [done|]. cbn. by rewrite Hj. Qed.

Ltac known_code := apply list_elem_of_In; cbn [cmdFlag flag_ par_ jump_ command_codes List.In]; tauto.

Lemma zlen_cstr s : zlen (cstr s) <= zlen s.
Proof. induction s as [|c s IH]; [done|]. cbn [cstr]. destruct (c =? 0); cbn [length]; lia. Qed.

Lemma is_prefix_len p s : is_prefix p s = true -> zlen p <= zlen s.
Proof. intros [k ->]%is_prefix_spec. rewrite length_app. lia. Qed.

Lemma c_str_from_ok s k : k <= zlen s -> c_str_from s k = Ok (cstr (zdrop k s)).
Proof. intros. unfold c_str_from. by rewrite (proj2 (Z.leb_le _ _)) by lia. Qed.

(** Where a literal matches a terminated text, the character behind it exists. *)
Lemma starts_from s lit : starts (s ++ [0]) lit = true ->
  exists p, c_str_from (s ++ [0]) (zlen lit + 1) = Ok p.
Proof.
  unfold starts, c_str_from. rewrite cstr_end. intros H%is_prefix_len. pose proof (zlen_cstr s).
  rewrite (proj2 (Z.leb_le _ _)); [by eexists|]. rewrite length_app. cbn [length]. lia.
Qed.

Section WellTranslated.
Context (Usage Verbose : bytes) (uv_ip4_addr : bytes -> Z -> Z) (ohos : bool).
Context (HUsage : Usage <> []) (HVerbose : Verbose <> []).

Lemma TargetConnect_translates c : bJumpDo c = false -> translates (Ok (TargetConnect uv_ip4_addr c)).
Proof.
  intros Hj. unfold TargetConnect. case_if_goal.
  - cbn [parameters par_ flag_]. destruct (find _ _ _) as [pos|]; [|apply translates_ok; [cbn; congruence|known_code]].
    case_if_goal; (case_if_goal; [apply translates_error; done|]); (case_if_goal; [apply translates_error; done|]);
      (case_if_goal; [apply translates_error; done|]); (apply translates_ok; [cbn; congruence|known_code]).
  - case_if_goal; cbn [parameters par_ flag_ jump_]; (destruct (find _ _ _) as [pos|]; [|apply translates_ok; [cbn; congruence|known_code]]);
    case_if_goal; (case_if_goal; [apply translates_error; done|]); (case_if_goal; [apply translates_error; done|]);
      (case_if_goal; [apply translates_error; done|]); (apply translates_ok; [cbn; congruence|known_code]).
Qed.

Lemma ForwardPort_translates s c : 6 <= zlen s -> bJumpDo c = false -> translates (ForwardPort s c).
Proof.
  intros Hl Hj. unfold ForwardPort. rewrite !(c_str_from_ok s 6) by lia. cbn [mbind res_bind].
  case_if_goal; [apply translates_ok; [cbn; congruence|known_code]|].
  case_if_goal.
  - case_if_goal; [apply translates_ok; [cbn; congruence|known_code]|]. breflect.
    unfold FORWORD_PORT_RM_BUF_SIZE.
    assert (9 <= zlen s).
    { apply is_prefix_spec in H0 as [k Hk]. destruct k as [|x k].
      - exfalso. unfold bytes_eqb in E1. rewrite Hk, app_nil_r, bool_decide_true in E1; done.
      - pose proof (zlen_cstr (zdrop 6 s)) as Hz. rewrite Hk in Hz. rewrite length_zdrop in Hz by lia. rewrite length_app in Hz.
        change (length (str "rm")) with 2%nat in Hz. simpl (length (_ :: k)) in Hz. lia. }
    rewrite (c_str_from_ok s 9) by lia. apply translates_ok; [cbn; congruence|known_code].
  - unfold FORWORD_PORT_OTHER_BUF_SIZE. rewrite (c_str_from_ok s 6) by lia. cbn [mbind res_bind].
    case_if_goal; [apply translates_error; done|apply translates_ok; [cbn; congruence|known_code]].
Qed.

Lemma RunMode_translates s c : bJumpDo c = false -> translates (RunMode s c).
Proof.
  intros Hj. unfold RunMode. case_if_goal; [apply translates_error; done|]. breflect.
  change (zlen CMDSTR_TARGET_MODE) with 5 in *. rewrite (c_str_from_ok s (5 + 1)) by lia. cbn [mbind res_bind].
  case_if_goal; [apply translates_error; done|].
  case_if_goal; [|apply translates_ok; [cbn; congruence|known_code]].
  assert (11 <= zlen s).
  { apply is_prefix_len in E1. pose proof (zlen_cstr (zdrop (5 + 1) s)) as Hz. rewrite length_zdrop in Hz by lia.
    change (zlen (str "port ")) with 5 in E1. lia. }
  change (zlen (str "tmode port ")) with 11. rewrite (c_str_from_ok s 11) by lia. cbn [mbind res_bind].
  case_if_goal; [apply translates_ok; [cbn; congruence|known_code]|].
  case_if_goal; [apply translates_error; done|apply translates_ok; [cbn; congruence|known_code]].
Qed.

Lemma TargetReboot_ok s c : is_prefix CMDSTR_TARGET_REBOOT s = true ->
  exists c', TargetReboot s c = Ok c' /\ bJumpDo c' = bJumpDo c /\ cmdFlag c' = CMD_UNITY_REBOOT.
Proof.
  intros Hp. unfold TargetReboot. case_if_goal; [by eexists|].
  apply is_prefix_spec in Hp as [k ->]. destruct k as [|x k].
  { rewrite app_nil_r in E. unfold bytes_eqb in E. rewrite bool_decide_true in E; done. }
  change (zlen CMDSTR_TARGET_REBOOT) with 11. rewrite c_str_from_ok; [by eexists|].
  rewrite length_app. change (length CMDSTR_TARGET_REBOOT) with 11%nat. simpl (length (x :: k)). lia.
Qed.

Lemma reconnect_parameter_ok s : exists p, reconnect_parameter s = Ok p.
Proof.
  unfold reconnect_parameter. case_if_goal; [|by eexists]. breflect. rewrite c_str_from_ok by lia. by eexists.
Qed.

Lemma CheckMatchUpdate_code s f : CheckMatchUpdate s = Some f -> f ∈ command_codes.
Proof.
  unfold CheckMatchUpdate. destruct (List.find _ _) as [e|] eqn:E; [|done]. intros [= <-].
  apply List.find_some in E as [Hin _]. cbn in Hin. apply list_elem_of_In. cbn [command_codes List.In].
  destruct Hin as [<-|[<-|[<-|[<-|[] ] ] ] ]; cbn [snd]; tauto.
Qed.

Lemma cstr_starts_len t lit : starts (t ++ [0]) lit = true -> zlen lit <= zlen (cstr (t ++ [0])).
Proof. apply is_prefix_len. Qed.

Ltac one_branch :=
  match goal with
  | H : starts (?t ++ [0]) ?lit = true |- context [c_str_from (?t ++ [0]) (zlen ?lit + 1)] =>
      destruct (starts_from t lit H) as (? & ->); cbn [mbind res_bind]
  | |- translates (Ok (TargetConnect _ _)) => by apply TargetConnect_translates
  | |- translates (RunMode _ _) => by apply RunMode_translates
  | |- translates (ForwardPort _ _) => apply ForwardPort_translates; [|done]
  | |- translates (Ok (?e, _)) => first
      [ apply translates_ok; [cbn; (congruence || discriminate)|known_code] | apply translates_error; done ]
  | |- translates (if ?b then _ else _) => let E := fresh "E" in destruct b eqn:E
  | |- translates (Ok (if ?b then _ else _, _)) => let E := fresh "E" in destruct b eqn:E
  | |- translates (Ok (_, flag_ _ (if ?b then _ else _))) => let E := fresh "E" in destruct b eqn:E
  end.

Lemma body_translates s : translates (String2FormatCommand_body Usage Verbose uv_ip4_addr ohos (s ++ [0])).
Proof.
  unfold String2FormatCommand_body. cbv zeta. repeat one_branch.
  - destruct (reconnect_parameter_ok (s ++ [0])) as (p & ->). cbn [mbind res_bind]. by one_branch.
  - match goal with |- context [FormatParametersToTlv ?a ?b ?c [] ?d] =>
      destruct (FormatParametersToTlv_total a b c d) as (ret & o & err & h & -> & Herr) end.
    cbn [mbind res_bind]. destruct ret; cbn [negb].
    + apply translates_ok; [cbn; congruence|]. destruct h; known_code.
    + apply translates_error; [auto|done].
  - match goal with H : starts _ (CMDSTR_SHELL ++ [32]) = true |- _ => destruct (starts_from _ _ H) as (p & Hp); pose proof (cstr_starts_len _ _ H) end.
    rewrite c_str_from_ok by (pose proof (zlen_cstr (s ++ [0])); rewrite length_app in *; cbn [length] in *; lia).
    cbn [mbind res_bind]. by one_branch.
  - rewrite c_str_from_ok; [cbn [mbind res_bind]; by one_branch|].
    pose proof (zlen_cstr (s ++ [0])).
    match goal with H : _ || _ = true |- _ => apply orb_true_iff in H as [H1%cstr_starts_len|H1%cstr_starts_len] end;
      (etransitivity; [|etransitivity; [exact H1|done]]); vm_compute; discriminate.
  - match goal with H : _ || _ = true |- _ => apply orb_true_iff in H as [H1%cstr_starts_len|H1%cstr_starts_len] end;
      (etransitivity; [|exact H1]); vm_compute; discriminate.
  - match goal with H : starts _ CMDSTR_TARGET_REBOOT = true |- _ => destruct (TargetReboot_ok _ FormatCommand_new H) as (c & -> & Hj & Hf) end.
    cbn [mbind res_bind]. apply translates_ok; [rewrite Hj; discriminate|]. rewrite Hf. known_code.
  - destruct (CheckMatchUpdate (s ++ [0])) as [f|] eqn:Ef; [|by repeat one_branch].
    apply translates_ok; [discriminate|]. exact (CheckMatchUpdate_code _ _ Ef).
Qed.

(** C27. Every request a client terminates with a NUL is translated, without
    touching memory behind the text: to a command with one of the known codes, or
    to an error that has a text, ends in a line break and is not executed. *)
Theorem translation_well_formed (s : bytes) :
  exists err c, String2FormatCommand Usage Verbose uv_ip4_addr ohos (s ++ [0]) = Ok (err, c) /\
    (bJumpDo c = true -> err <> []) /\ (bJumpDo c = false -> cmdFlag c ∈ command_codes) /\
    (err <> [] -> exists text, err = text ++ [10]).
Proof.
  destruct (body_translates s) as ([e c] & He & Hj & Hc). unfold String2FormatCommand. rewrite He. cbn [mbind res_bind fst snd] in *.
  do 2 eexists. split; [reflexivity|]. unfold bytes_eqb. destruct (decide (e = [])) as [->|Hne].
  - rewrite bool_decide_true by done. by split_and!.
  - rewrite bool_decide_false by done. split_and!; [intros _ H; by apply app_nil in H as [_ ?]|done|eauto].
Qed.
End WellTranslated.

Lemma translation_well_formed_witness :
  exists err c, String2FormatCommand (str "u") (str "v") (fun _ _ => 0) false (str "target boot" ++ [0]) = Ok (err, c) /\
    cmdFlag c ∈ command_codes.
Proof.
  destruct (translation_well_formed (str "u") (str "v") (fun _ _ => 0) false ltac:(discriminate) ltac:(discriminate) (str "target boot"))
    as (err & c & He & _ & Hc & _).
  exists err, c. split; [exact He|]. apply Hc. vm_compute in He. injection He as <- <-. reflexivity.
Defined.

(** The suffix test succeeds for every text one character shorter than the suffix. *)
Lemma ends_with_short s sub : zlen sub = zlen s + 1 -> StringEndsWith s sub = 1.
Proof.
  intros Hl. assert (Hr : forall t i, zlen t < zlen sub -> rfind_aux sub t i = None).
  { induction t as [|x t IH]; intros i Ht; cbn [rfind_aux].
    - destruct (is_prefix sub []) eqn:E; [|done]. apply is_prefix_len in E. cbn [length] in *. lia.
    - rewrite IH by (cbn [length] in Ht; lia). destruct (is_prefix sub (x :: t)) eqn:E; [|done]. apply is_prefix_len in E. lia. }
  unfold StringEndsWith, rfind. rewrite Hr by lia. rewrite Hl. unfold npos, uwrap.
  replace (zlen s - (zlen s + 1)) with (-1) by lia. reflexivity.
Qed.

(** Three slips of the translation: a connect key of seven characters (the
    address 1.2.3.4, for one) is taken for a request to disconnect; a shell command
    with an option that is not supported after a valid one is reported as an error
    and executed all the same; and [tconn] without a terminator reads behind the
    text. *)
Theorem translation_slips (key : bytes) (bundle opt : bytes) (Usage Verbose : bytes) (uv_ip4_addr : bytes -> Z -> Z) (ohos : bool) :
  zlen key = 7 -> find (str ":") key 0 = None ->
  CheckBundleName bundle = true -> is_option opt = true -> opt <> str "-b" ->
  option_words (str "shell -b " ++ bundle ++ [32] ++ opt) 6 = [str "-b"; bundle; opt] ->
  TargetConnect uv_ip4_addr (mkFormat 0 key false) = ([], mkFormat CMD_KERNEL_TARGET_DISCONNECT key false) /\
  (exists out, String2FormatCommand_body Usage Verbose uv_ip4_addr ohos (str "shell -b " ++ bundle ++ [32] ++ opt)
     = Ok (str "[E003003] Unsupport shell option: " ++ opt, mkFormat CMD_SHELL_INIT out false)) /\
  String2FormatCommand_body Usage Verbose uv_ip4_addr ohos (str "tconn") = Undefined.
Proof.
  intros Hk Hc Hb Ho Hne Hw. split_and!.
  - unfold TargetConnect. cbn [parameters]. rewrite ends_with_short by (rewrite Hk; reflexivity). cbn [Z.eqb negb].
    cbn [parameters par_ flag_ cmdFlag bJumpDo]. rewrite Hk. change (u64 (7 - CMD_REMOTE_SIZE)) with (2 ^ 64 - 1).
    unfold substr. rewrite zdrop_0, ztake_ge by lia. by rewrite Hc.
  - set (cmd := str "shell -b " ++ bundle ++ [32] ++ opt) in *.
    destruct (unsupported_option_accepted cmd 6 bundle opt []) as (out & Hf); auto.
    { unfold cmd. rewrite length_app. change (length (str "shell -b ")) with 9%nat. lia. }
    exists out. unfold String2FormatCommand_body. cbv zeta.
    repeat match goal with
    | |- context [starts cmd ?lit] => first [change (starts cmd lit) with false | change (starts cmd lit) with true]
    | |- context [strcmp_eq cmd ?lit] => change (strcmp_eq cmd lit) with false
    end.
    assert (IsWholeCommandOrHasParameter cmd CMDSTR_TARGET_RECONNECT = false) as ->.
    { unfold IsWholeCommandOrHasParameter. change (bytes_eqb cmd CMDSTR_TARGET_RECONNECT) with false.
      change (is_prefix CMDSTR_TARGET_RECONNECT cmd) with false. cbn [negb]. by rewrite orb_true_r. }
    rewrite andb_false_r. change (zlen CMDSTR_SHELL_EX - 1) with 6. cbn [parameters FormatCommand_new]. by rewrite Hf.
  - destruct ohos; reflexivity.
Qed.

Lemma translation_slips_witness :
  TargetConnect (fun _ _ => 0) (mkFormat 0 (str "1.2.3.4") false) = ([], mkFormat CMD_KERNEL_TARGET_DISCONNECT (str "1.2.3.4") false).
Proof.
  refine (proj1 (translation_slips (str "1.2.3.4") (str "com.example.app") (str "-x") [] [] (fun _ _ => 0) false _ _ _ _ _ _)).
  - reflexivity.
  - vm_compute. reflexivity.
  - vm_compute. reflexivity.
  - vm_compute. reflexivity.
  - vm_compute. discriminate.
  - vm_compute. reflexivity.
Defined.

(** ** Every documented command is recognised *)

(** The commands that take parameters, with their codes. *)
Definition documented_commands : list (bytes * Z) :=
  [(CMDSTR_LIST_TARGETS, CMD_KERNEL_TARGET_LIST); (CMDSTR_SERVICE_START, CMD_SERVICE_START);
   (CMDSTR_CHECK_SERVER, CMD_CHECK_SERVER); (CMDSTR_CHECK_DEVICE, CMD_CHECK_DEVICE); (CMDSTR_WAIT_FOR, CMD_WAIT_FOR);
   (CMDSTR_TARGET_RECONNECT, CMD_KERNEL_TARGET_RECONNECT); (CMDSTR_FILE_SEND, CMD_FILE_INIT); (CMDSTR_FILE_RECV, CMD_FILE_INIT);
   (CMDSTR_FORWARD_RPORT, CMD_FORWARD_INIT); (CMDSTR_APP_INSTALL, CMD_APP_INIT); (CMDSTR_APP_UNINSTALL, CMD_APP_UNINSTALL);
   (CMDSTR_TRACK_JDWP, CMD_JDWP_TRACK); (CMDSTR_TARGET_REBOOT, CMD_UNITY_REBOOT); (CMDSTR_TARGET_MODE, CMD_UNITY_RUNMODE);
   (CMDSTR_HILOG, CMD_UNITY_HILOG); (CMDSTR_STARTUP_MODE, CMD_UNITY_ROOTRUN); (CMDSTR_APP_SIDELOAD, CMD_APP_SIDELOAD);
   (CMDSTR_BUGREPORT, CMD_UNITY_BUGREPORT_INIT); (CMDSTR_INNER_ENABLE_KEEPALIVE, CMD_KERNEL_ENABLE_KEEPALIVE);
   (str "update", CMD_FLASHD_UPDATE_INIT); (str "flash", CMD_FLASHD_FLASH_INIT); (str "erase", CMD_FLASHD_ERASE);
   (str "format", CMD_FLASHD_FORMAT)].

Lemma IsWhole_other input command : is_prefix command input = false -> bytes_eqb input command = false ->
  IsWholeCommandOrHasParameter input command = false.
Proof. intros Hp He. unfold IsWholeCommandOrHasParameter. rewrite He, Hp. cbn [negb]. by rewrite orb_true_r. Qed.

Lemma IsWhole_blank command rest : IsWholeCommandOrHasParameter (command ++ 32 :: rest) command = true.
Proof.
  unfold IsWholeCommandOrHasParameter. case_if_goal; [done|].
  rewrite (proj2 (is_prefix_spec command _)) by (by eexists). rewrite (proj2 (Z.leb_gt _ _)) by (rewrite length_app; simpl; lia).
  cbn [negb orb]. by rewrite zdrop_app.
Qed.

Section Documented.
Context (Usage Verbose : bytes) (uv_ip4_addr : bytes -> Z -> Z) (ohos : bool).
Context (HUsage : Usage <> []) (HVerbose : Verbose <> []).

Definition recognised (lit : bytes) (code : Z) : Prop := forall arg : bytes,
  exists err c, String2FormatCommand_body Usage Verbose uv_ip4_addr ohos ((lit ++ 32 :: arg) ++ [0]) = Ok (err, c) /\ cmdFlag c = code.

(** Decide the tests on a text of which the beginning is known. *)
Ltac settle cmd arg :=
  repeat match goal with
  | |- context [starts cmd ?lit] => first [change (starts cmd lit) with false | change (starts cmd lit) with true]
  | |- context [strcmp_eq cmd ?lit] => change (strcmp_eq cmd lit) with false
  | |- context [IsWholeCommandOrHasParameter cmd ?lit] =>
      first [rewrite (IsWhole_other cmd lit) by reflexivity
            |rewrite (IsWhole_blank lit (arg ++ [0]) : IsWholeCommandOrHasParameter cmd lit = true)]
  end; rewrite ?andb_false_r; cbn [orb]; cbv iota.

Lemma Ok_snd {A B} (a a' : A) (b b' : B) : Ok (a, b) = Ok (a', b') -> b' = b.
Proof. congruence. Qed.

Lemma RunMode_flag s c e c' : RunMode s c = Ok (e, c') -> cmdFlag c' = CMD_UNITY_RUNMODE.
Proof.
  unfold RunMode. case_if_goal; [by intros ->%Ok_snd|].
  destruct (c_str_from s (zlen CMDSTR_TARGET_MODE + 1)) as [p| | |]; try done. cbn [mbind res_bind]. case_if_goal; [by intros ->%Ok_snd|].
  case_if_goal; [|by intros ->%Ok_snd]. destruct (c_str_from s (zlen (str "tmode port "))) as [q| | |]; try done. cbn [mbind res_bind].
  case_if_goal; [by intros ->%Ok_snd|]. case_if_goal; by intros ->%Ok_snd.
Qed.

Lemma ForwardPort_rport s c e c' : starts s CMDSTR_FORWARD_FPORT = false -> ForwardPort s c = Ok (e, c') -> cmdFlag c' = CMD_FORWARD_INIT.
Proof.
  intros Hs. unfold ForwardPort. rewrite Hs. cbn [andb]. destruct (c_str_from s 6) as [p| | |]; try done. cbn [mbind res_bind].
  destruct (c_str_from s FORWORD_PORT_OTHER_BUF_SIZE) as [q| | |]; try done. cbn [mbind res_bind]. by intros ->%Ok_snd.
Qed.

Ltac recognise :=
  let arg := fresh "arg" in
  intros arg; cbn [fst snd];
  match goal with |- context [String2FormatCommand_body _ _ _ _ ?t] =>
    let cmd := fresh "cmd" in set (cmd := t);
    let e := fresh "e" in let c := fresh "c" in let He := fresh "He" in
    assert (exists e c, String2FormatCommand_body Usage Verbose uv_ip4_addr ohos cmd = Ok (e, c)) as (e & c & He)
      by (match t with ?l ++ _ => destruct (body_translates Usage Verbose uv_ip4_addr ohos HUsage HVerbose l) as ([e c] & He & _) end;
          by exists e, c);
    exists e, c; split; [exact He|]; revert He;
    unfold String2FormatCommand_body; cbv zeta; settle cmd arg end.

Lemma CheckMatchUpdate_first pre lit f post cmd : FLASHD_CMD = pre ++ (lit, f) :: post ->
  forallb (fun e => negb (is_prefix e.1 cmd)) pre = true -> is_prefix lit cmd = true -> zlen lit < zlen cmd ->
  CheckMatchUpdate cmd = Some f.
Proof.
  unfold CheckMatchUpdate. intros -> Hpre Hp Hl. induction pre as [|e pre IH]; cbn [app List.find fst].
  - rewrite Hp, (proj2 (Z.ltb_lt _ _)) by lia. done.
  - cbn [forallb] in Hpre. apply andb_true_iff in Hpre as [He%negb_true_iff Hpre]. rewrite He. by apply IH.
Qed.

Lemma documented_recognised : Forall (fun e => recognised e.1 e.2) documented_commands.
Proof.
  unfold documented_commands. repeat (apply List.Forall_cons; [recognise|]); [..|apply List.Forall_nil].
  all: try (intros ->%Ok_snd; reflexivity).
  all: try (match goal with |- c_str_from ?s ?k ≫= _ = _ -> _ => destruct (c_str_from s k) as [p| | |] end; try done; by intros ->%Ok_snd).
  - destruct (reconnect_parameter_ok cmd) as (p & ->). by intros ->%Ok_snd.
  - apply ForwardPort_rport. unfold starts. rewrite (cstr_id (cstr cmd)) by apply cstr_no_nul. reflexivity.
  - case_if_goal; by intros ->%Ok_snd.
  - destruct (TargetReboot_ok (cstr cmd) FormatCommand_new) as (c' & -> & _ & Hf); [reflexivity|]. by intros ->%Ok_snd.
  - apply RunMode_flag.
  - rewrite (CheckMatchUpdate_first [] (str "update ") CMD_FLASHD_UPDATE_INIT (drop 1 FLASHD_CMD) cmd); [by intros ->%Ok_snd|reflexivity..|].
    unfold cmd. rewrite !length_app. cbn [length]. change (length (str "update ")) with (length (str "update") + 1)%nat. lia.
  - rewrite (CheckMatchUpdate_first (take 1 FLASHD_CMD) (str "flash ") CMD_FLASHD_FLASH_INIT (drop 2 FLASHD_CMD) cmd); [by intros ->%Ok_snd|reflexivity..|].
    unfold cmd. rewrite !length_app. cbn [length]. change (length (str "flash ")) with (length (str "flash") + 1)%nat. lia.
  - rewrite (CheckMatchUpdate_first (take 2 FLASHD_CMD) (str "erase ") CMD_FLASHD_ERASE (drop 3 FLASHD_CMD) cmd); [by intros ->%Ok_snd|reflexivity..|].
    unfold cmd. rewrite !length_app. cbn [length]. change (length (str "erase ")) with (length (str "erase") + 1)%nat. lia.
  - rewrite (CheckMatchUpdate_first (take 3 FLASHD_CMD) (str "format ") CMD_FLASHD_FORMAT (drop 4 FLASHD_CMD) cmd); [by intros ->%Ok_snd|reflexivity..|].
    unfold cmd. rewrite !length_app. cbn [length]. change (length (str "format ")) with (length (str "format") + 1)%nat. lia.
Qed.
End Documented.

(** Each documented command that takes parameters is recognised by its words,
    whatever parameters follow: none of the tests made before its own captures it. *)
Theorem documented_commands_recognised (Usage Verbose : bytes) (uv_ip4_addr : bytes -> Z -> Z) (ohos : bool) :
  Usage <> [] -> Verbose <> [] ->
  Forall (fun e => forall arg, exists err c,
    String2FormatCommand Usage Verbose uv_ip4_addr ohos ((e.1 ++ 32 :: arg) ++ [0]) = Ok (err, c) /\ cmdFlag c = e.2)
    documented_commands.
Proof.
  intros HU HV. eapply List.Forall_impl; [|exact (documented_recognised Usage Verbose uv_ip4_addr ohos HU HV)].
  intros e He arg. destruct (He arg) as (err & c & Hr & Hf). unfold String2FormatCommand. rewrite Hr. cbn [mbind res_bind].
  by do 2 eexists.
Qed.

Lemma documented_commands_recognised_witness :
  exists err c, String2FormatCommand (str "u") (str "v") (fun _ _ => 0) false ((CMDSTR_LIST_TARGETS ++ 32 :: str "-v") ++ [0]) = Ok (err, c) /\
    cmdFlag c = CMD_KERNEL_TARGET_LIST.
Proof.
  pose proof (documented_commands_recognised (str "u") (str "v") (fun _ _ => 0) false ltac:(discriminate) ltac:(discriminate)) as H.
  inversion H as [|e l He _]. exact (He (str "-v")).
Defined.
