(* ===== verification/AuthKeys.v ===== *)
(** * AuthKeys: signing and verifying the authentication token
    ([auth.cpp], the verification of [daemon.cpp], the Base64 helpers of
    [base.cpp])

    OpenSSL is a class: the operations the code calls, each with the failures
    the code tests for.  What OpenSSL documents about them is the class
    [OpenSSLLaws], instantiated by [toy_openssl] to show the laws can hold.
    A write behind an array is [Undefined]. *)

From Stdlib Require Import String ZArith Lia List Bool.
From stdpp Require Import base list numbers.
From S2P Require Import Prelude Defs Numbers.

Class OpenSSL := {
  RSA : Type;                                            (* a public key *)
  EVP_PKEY : Type;                                       (* a key pair *)
  public_half : EVP_PKEY -> RSA;
  PEM_read_bio_RSA_PUBKEY : bytes -> option RSA;
  PEM_write_bio_PUBKEY : RSA -> bytes;
  RSA_size : RSA -> Z;                                   (* also EVP_PKEY_size *)
  SHA512 : bytes -> bytes;
  EVP_PKEY_sign : EVP_PKEY -> bytes -> option bytes;     (* PSS padding, SHA-512 *)
  EVP_PKEY_verify : RSA -> bytes -> bytes -> bool;
  RSA_private_encrypt : EVP_PKEY -> bytes -> option bytes;
  RSA_public_decrypt : RSA -> bytes -> option bytes;
  EVP_EncodeBlock : bytes -> bytes;
  EVP_DecodeBlock : bytes -> option bytes                (* None: negative *)
}.

(** Documented behaviour: a key pair's public half reads back from its PEM text
    and undoes what the private half did, results of RSA have the size of the
    modulus, PKCS1 padding takes 11 bytes, Base64 turns 3 bytes into 4, the
    decoder keeps the zero bytes that fill up the last group. *)
Class OpenSSLLaws `{OpenSSL} := {
  pem_read_write : forall r, PEM_read_bio_RSA_PUBKEY (PEM_write_bio_PUBKEY r) = Some r;
  verify_sign : forall k d s, EVP_PKEY_sign k d = Some s ->
    EVP_PKEY_verify (public_half k) s d = true /\ zlen s = RSA_size (public_half k);
  decrypt_encrypt : forall k m c, RSA_private_encrypt k m = Some c ->
    RSA_public_decrypt (public_half k) c = Some m /\ zlen c = RSA_size (public_half k);
  decrypt_length : forall r c m, RSA_public_decrypt r c = Some m -> zlen m <= RSA_size r - 11;
  encode_length : forall x, zlen (EVP_EncodeBlock x) = (zlen x + 2) / 3 * 4;
  decode_encode : forall x, EVP_DecodeBlock (EVP_EncodeBlock x) =
    Some (x ++ replicate (Z.to_nat ((zlen x + 2) / 3 * 3 - zlen x)) 0);
  decode_length : forall s x, EVP_DecodeBlock s = Some x -> zlen x <= zlen s / 4 * 3
}.

Definition BUF_SIZE_DEFAULT : Z := 1024.
Definition BUF_SIZE_DEFAULT2 : Z := BUF_SIZE_DEFAULT * 2.
Definition RSA_KEY_BITS : Z := 3072.

(** A write of [n] bytes into an array of [size]. *)
Definition write_to (size n : Z) : res unit := if n <=? size then Ok tt else Undefined.

Section Keys.
Context `{OpenSSL}.

(** ** The host's side *)

(** [None]: signing failed.  [EVP_EncodeBlock] also writes a terminator. *)
Definition MakeRsaSign (key : EVP_PKEY) (digest : bytes) : res (option bytes) :=
  match EVP_PKEY_sign key digest with
  | None => Ok None
  | Some signResult =>
      let signOut := EVP_EncodeBlock signResult in
      _ ← write_to (zlen signResult * 2) (zlen signOut + 1);
      Ok (Some signOut)
  end.

(** [ctxOk]: the context could be made and configured. *)
Definition RsaSign (ctxOk : bool) (signKey : EVP_PKEY) (buf : bytes) : res (option bytes) :=
  if ctxOk then MakeRsaSign signKey (SHA512 buf) else Ok None.

(** [allocOk]: the output buffer could be allocated. *)
Definition RsaEncrypt (allocOk : bool) (key : EVP_PKEY) (buf : bytes) : res (option bytes) :=
  match RSA_private_encrypt key buf with
  | None => Ok None
  | Some signOri =>
      _ ← write_to BUF_SIZE_DEFAULT2 (zlen signOri);
      if zlen signOri <=? 0 then Ok None
      else if negb allocOk then Ok None
      else
        let signOut := EVP_EncodeBlock signOri in
        _ ← write_to (zlen signOri * 2) (zlen signOut + 1);
        if zlen signOut <=? 0 then Ok None else Ok (Some signOut)
  end.

(** [key]: what [GetUserKeyPath] and [LoadPrivateKey] found. *)
Definition RsaSignAndBase64 (ok : bool) (key : option EVP_PKEY) (type : Z) (buf : bytes) : res (option bytes) :=
  match key with
  | None => Ok None
  | Some k => if type =? RSA_3072_SHA512 then RsaSign ok k buf else RsaEncrypt ok k buf
  end.

(** ** The daemon's side *)

Definition RsaSignVerify (rsa : RSA) (tokenSignBase64 token : bytes) : res bool :=
  if bytes_eqb tokenSignBase64 [] || negb (zlen tokenSignBase64 mod 4 =? 0) then Ok false
  else
    let maxDecodedLen := zlen tokenSignBase64 / 4 * 3 in
    match EVP_DecodeBlock tokenSignBase64 with
    | None => Ok false
    | Some tokenRsaSign =>
        _ ← write_to maxDecodedLen (zlen tokenRsaSign);
        if zlen tokenRsaSign <=? 0 then Ok false
        else Ok (EVP_PKEY_verify rsa tokenRsaSign (SHA512 token))
    end.

Definition AuthVerifyRsaSign (ctxOk : bool) (tokenSign token : bytes) (rsa : RSA) : res bool :=
  if RSA_size rsa * 2 <? zlen tokenSign then Ok false
  else if negb ctxOk then Ok false
  else RsaSignVerify rsa tokenSign token.

Definition AuthVerifyRsa (encryptToken token : bytes) (rsa : RSA) : res bool :=
  if BUF_SIZE_DEFAULT / 3 * 4 <? zlen encryptToken then Ok false
  else
    match EVP_DecodeBlock encryptToken with
    | None => Ok false
    | Some tokenDecode =>
        _ ← write_to BUF_SIZE_DEFAULT (zlen tokenDecode);
        if zlen tokenDecode <=? 0 then Ok false
        else
          match RSA_public_decrypt rsa tokenDecode with
          | None => Ok false
          | Some decryptToken =>
              _ ← write_to BUF_SIZE_DEFAULT (zlen decryptToken);
              Ok (bytes_eqb decryptToken token)
          end
    end.

(** [bioOk]: the memory BIO could be made and filled. *)
Definition AuthVerify (bioOk ctxOk : bool) (verifyType : Z) (encryptToken token pubkey : bytes) : res bool :=
  if negb bioOk then Ok false
  else
    match PEM_read_bio_RSA_PUBKEY pubkey with
    | None => Ok false
    | Some rsa =>
        if verifyType =? RSA_3072_SHA512 then AuthVerifyRsaSign ctxOk encryptToken token rsa
        else AuthVerifyRsa encryptToken token rsa
    end.

(** ** Key files of the host

    The private key file is absent, in clear or encrypted; the public key file
    holds the PEM text of some key.  [newKey] is what [GenerateNewKey] makes. *)
Inductive PrivateFile := Absent | PlainKey (k : EVP_PKEY) | EncryptedKey (k : EVP_PKEY).
Record KeyFiles := mkKeyFiles { f_private : PrivateFile; f_public : option bytes }.

Definition private_of (f : PrivateFile) : option EVP_PKEY :=
  match f with Absent => None | PlainKey k | EncryptedKey k => Some k end.

(** [encrypt]: built with [HDC_SUPPORT_ENCRYPT_PRIVATE_KEY]. *)
Definition WritePrivateFile (encrypt writeOk : bool) (k : EVP_PKEY) (f : KeyFiles) : bool * KeyFiles :=
  if writeOk then (true, mkKeyFiles (if encrypt then EncryptedKey k else PlainKey k) (f_public f)) else (false, f).
Definition WritePublicFile (writeOk : bool) (k : EVP_PKEY) (f : KeyFiles) : bool * KeyFiles :=
  if writeOk then (true, mkKeyFiles (f_private f) (Some (PEM_write_bio_PUBKEY (public_half k)))) else (false, f).

Definition GenerateKeyPair (encrypt writeOk : bool) (newKey : option EVP_PKEY) (f : KeyFiles) : bool * KeyFiles :=
  match newKey with
  | None => (false, f)
  | Some k =>
      let '(ok, f) := WritePublicFile writeOk k f in
      if negb ok then (false, f) else WritePrivateFile encrypt writeOk k f
  end.

(** Reads the PEM text and writes it again, into an array of [RSA_KEY_BITS]. *)
Definition LoadPublicKey (pem : option bytes) : option bytes :=
  match pem with
  | None => None
  | Some p =>
      match PEM_read_bio_RSA_PUBKEY p with
      | None => None
      | Some r => Some (ztake RSA_KEY_BITS (PEM_write_bio_PUBKEY r))
      end
  end.

Definition TryLoadPublicKey (encrypt writeOk : bool) (newKey : option EVP_PKEY) (f : KeyFiles)
    : option bytes * KeyFiles :=
  match f_private f with
  | Absent =>
      let '(ok, f) := GenerateKeyPair encrypt writeOk newKey f in
      if ok then (LoadPublicKey (f_public f), f) else (None, f)
  | _ => (LoadPublicKey (f_public f), f)
  end.

(** [hostname]: [None] when it cannot be read. *)
Definition GetPublicKeyinfo (encrypt writeOk : bool) (newKey : option EVP_PKEY) (hostname : option bytes) (f : KeyFiles)
    : option bytes * KeyFiles :=
  match hostname with
  | None => (None, f)
  | Some h =>
      let '(pub, f) := TryLoadPublicKey encrypt writeOk newKey f in
      match pub with
      | None => (None, f)
      | Some p => (Some (h ++ [12] ++ p), f)
      end
  end.

(** Called when the server starts, in builds that encrypt the private key. *)
Definition CheckPrivateKeyFile (writeOk : bool) (newKey : option EVP_PKEY) (f : KeyFiles) : bool * KeyFiles :=
  match f_private f with
  | PlainKey _ =>
      match newKey with
      | None => (false, f)
      | Some k => WritePrivateFile true writeOk k f
      end
  | _ => (true, f)
  end.
End Keys.

(** ** Host and daemon agree *)

Section Laws.
Context `{Laws : OpenSSLLaws}.

Lemma div3_round n : n mod 3 = 0 -> (n + 2) / 3 = n / 3 /\ n / 3 * 3 = n.
Proof. intros. Z.div_mod_to_equations. lia. Qed.

(** A result of RSA whose size is a multiple of 3 survives Base64. *)
Lemma base64_exact x : zlen x mod 3 = 0 -> EVP_DecodeBlock (EVP_EncodeBlock x) = Some x.
Proof.
  intros Hm. rewrite decode_encode. replace ((zlen x + 2) / 3 * 3 - zlen x) with 0; [by rewrite app_nil_r|].
  pose proof (div3_round (zlen x) Hm). lia.
Qed.

Lemma encode_size x : zlen x mod 3 = 0 -> zlen (EVP_EncodeBlock x) = zlen x / 3 * 4.
Proof.
  intros Hm. rewrite encode_length. pose proof (div3_round (zlen x) Hm). lia.
Qed.

Lemma write_to_ok size n : n <= size -> write_to size n = Ok tt.
Proof. intros. unfold write_to. by rewrite (proj2 (Z.leb_le _ _)). Qed.

(** The Base64 text of an RSA result of 384 bytes. *)
Lemma encode_384 x : zlen x = 384 -> EVP_DecodeBlock (EVP_EncodeBlock x) = Some x /\ zlen (EVP_EncodeBlock x) = 512.
Proof. intros Hx. split; [by apply base64_exact; rewrite Hx|]. rewrite encode_size; by rewrite Hx. Qed.

Lemma RsaSign_verify k token s : RSA_size (public_half k) = 384 -> EVP_PKEY_sign k (SHA512 token) = Some s ->
  RsaSign true k token = Ok (Some (EVP_EncodeBlock s)) /\
  AuthVerifyRsaSign true (EVP_EncodeBlock s) token (public_half k) = Ok true.
Proof.
  intros Hsz Hs. destruct (verify_sign k _ s Hs) as [Hv Hl]. rewrite Hsz in Hl.
  destruct (encode_384 s Hl) as [Hd Hn]. unfold RsaSign, MakeRsaSign, AuthVerifyRsaSign, RsaSignVerify.
  rewrite Hs, Hsz, Hd, Hn, Hl. split; [done|].
  change (384 * 2 <? 512) with false. change (512 mod 4 =? 0) with true. cbn [negb orb]. rewrite orb_false_r.
  replace (bytes_eqb (EVP_EncodeBlock s) []) with false.
  - change (write_to _ _) with (Ok (A := ()) tt). cbn [mbind res_bind]. by rewrite Hv.
  - symmetry. apply bool_decide_eq_false. intros E. by rewrite E in Hn.
Qed.

Lemma RsaEncrypt_verify k token c : RSA_size (public_half k) = 384 -> RSA_private_encrypt k token = Some c ->
  RsaEncrypt true k token = Ok (Some (EVP_EncodeBlock c)) /\
  AuthVerifyRsa (EVP_EncodeBlock c) token (public_half k) = Ok true.
Proof.
  intros Hsz Hc. destruct (decrypt_encrypt k _ c Hc) as [Hv Hl]. rewrite Hsz in Hl.
  destruct (encode_384 c Hl) as [Hd Hn]. unfold RsaEncrypt, AuthVerifyRsa.
  pose proof (decrypt_length _ _ _ Hv) as Ht. rewrite Hc, Hd, Hn, Hl.
  split; [done|]. change (_ <? 512) with false. change (write_to BUF_SIZE_DEFAULT 384) with (Ok (A := ()) tt).
  cbn [mbind res_bind]. change (384 <=? 0) with false. cbn iota. rewrite Hv.
  rewrite write_to_ok by (unfold BUF_SIZE_DEFAULT; lia). cbn. f_equal. by apply bytes_eqb_eq.
Qed.

(** With a 3072-bit key pair, what the host's [RsaSignAndBase64] makes of a
    token is accepted by the daemon's [AuthVerify] against the PEM text of the
    public half, in both authentication methods, and no array is overrun on
    either side.  The only failures are those OpenSSL reports while signing. *)
Theorem auth_token_roundtrip (k : EVP_PKEY) (type : Z) (token : bytes) :
  RSA_size (public_half k) = RSA_KEY_BITS / 8 ->
  exists o, RsaSignAndBase64 true (Some k) type token = Ok o /\
    match o with
    | Some proof => AuthVerify true true type proof token (PEM_write_bio_PUBKEY (public_half k)) = Ok true
    | None => EVP_PKEY_sign k (SHA512 token) = None \/ RSA_private_encrypt k token = None
    end.
Proof.
  intros Hsz. change (RSA_KEY_BITS / 8) with 384 in Hsz. unfold RsaSignAndBase64, AuthVerify. rewrite pem_read_write.
  destruct (type =? RSA_3072_SHA512) eqn:E; cbn [negb].
  - destruct (EVP_PKEY_sign k (SHA512 token)) as [s|] eqn:Hs.
    + destruct (RsaSign_verify k token s Hsz Hs) as [-> Hv]. by eexists.
    + exists None. unfold RsaSign, MakeRsaSign. rewrite Hs. auto.
  - destruct (RSA_private_encrypt k token) as [c|] eqn:Hc.
    + destruct (RsaEncrypt_verify k token c Hsz Hc) as [-> Hv]. by eexists.
    + exists None. unfold RsaEncrypt. rewrite Hc. auto.
Qed.

(** Whatever the peer sends, the arrays of the daemon's verification hold the
    data as long as the modulus has at most 8280 bits. *)
Lemma auth_verify_bounds bioOk ctxOk type enc token pubkey :
  (forall r, PEM_read_bio_RSA_PUBKEY pubkey = Some r -> RSA_size r <= 1035) ->
  exists b, AuthVerify bioOk ctxOk type enc token pubkey = Ok b.
Proof.
  intros Hsz. unfold AuthVerify. destruct bioOk; [|by eexists]. cbn [negb].
  destruct (PEM_read_bio_RSA_PUBKEY pubkey) as [r|]; [|by eexists]. specialize (Hsz r eq_refl).
  destruct (type =? RSA_3072_SHA512).
  - unfold AuthVerifyRsaSign, RsaSignVerify. case_if_goal; [by eexists|]. destruct ctxOk; [|by eexists]. cbn [negb].
    case_if_goal; [by eexists|]. destruct (EVP_DecodeBlock enc) as [x|] eqn:Hd; [|by eexists].
    rewrite write_to_ok by by apply decode_length. cbn [mbind res_bind]. case_if_goal; by eexists.
  - unfold AuthVerifyRsa. case_if_goal; [by eexists|]. destruct (EVP_DecodeBlock enc) as [x|] eqn:Hd; [|by eexists].
    apply decode_length in Hd. breflect. change (BUF_SIZE_DEFAULT / 3 * 4) with 1364 in *.
    assert (zlen enc / 4 <= 341) by (apply Z.div_le_upper_bound; lia).
    rewrite write_to_ok by (unfold BUF_SIZE_DEFAULT; lia). cbn [mbind res_bind]. case_if_goal; [by eexists|].
    destruct (RSA_public_decrypt r x) as [m|] eqn:Hm; [|by eexists]. apply decrypt_length in Hm.
    rewrite write_to_ok by (unfold BUF_SIZE_DEFAULT; lia). by eexists.
Qed.

(** The two key files belong together. *)
Definition keys_match (f : KeyFiles) : Prop :=
  match private_of (f_private f) with
  | Some k => f_public f = Some (PEM_write_bio_PUBKEY (public_half k))
  | None => True
  end.

(** Loading the public key, which creates the pair the first time, keeps the
    files together and yields the text of the public half. *)
Lemma TryLoadPublicKey_matches enc newKey f :
  keys_match f -> let '(pub, f') := TryLoadPublicKey enc true newKey f in
  keys_match f' /\ (forall p, pub = Some p -> exists k, private_of (f_private f') = Some k /\
     p = ztake RSA_KEY_BITS (PEM_write_bio_PUBKEY (public_half k))).
Proof.
  intros Hm. unfold TryLoadPublicKey.
  assert (Hload : forall k g, private_of (f_private g) = Some k -> keys_match g ->
    forall p, LoadPublicKey (f_public g) = Some p -> exists k, private_of (f_private g) = Some k /\
     p = ztake RSA_KEY_BITS (PEM_write_bio_PUBKEY (public_half k))).
  { intros k g Hk Hg p. unfold keys_match in Hg. rewrite Hk in Hg. rewrite Hg. cbn. rewrite pem_read_write.
    intros [= <-]. by exists k. }
  destruct (f_private f) as [|k|k] eqn:Ef; [|split; [done|]; apply (Hload k); [by rewrite Ef|done]..].
  unfold GenerateKeyPair. destruct newKey as [k|]; [|done]. cbn.
  rewrite pem_read_write. destruct enc; (split; [done|]); intros p [= <-]; by exists k.
Qed.
End Laws.

(** ** Instances *)

Definition toy_pad (n : Z) (x : bytes) : bytes := x ++ replicate (Z.to_nat (n - zlen x)) 0.

(** Key pairs are numbers, the modulus has [n] bytes. *)
Definition toy_openssl (n : Z) : OpenSSL := {|
  RSA := Z; EVP_PKEY := Z; public_half := fun k => k;
  PEM_read_bio_RSA_PUBKEY := fun t => match t with [k] => Some k | _ => None end;
  PEM_write_bio_PUBKEY := fun k => [k];
  RSA_size := fun _ => n;
  SHA512 := fun x => x;
  EVP_PKEY_sign := fun k d => Some (ztake n (toy_pad n (k :: d)));
  EVP_PKEY_verify := fun r s d => bytes_eqb s (ztake n (toy_pad n (r :: d)));
  RSA_private_encrypt := fun k m => if zlen m <=? n - 11 then Some (toy_pad n (k :: zlen m :: m)) else None;
  RSA_public_decrypt := fun r c =>
    match c with
    | k :: l :: rest => if (k =? r) && (0 <=? l) && (l <=? n - 11) then Some (ztake l (toy_pad n rest)) else None
    | _ => None
    end;
  EVP_EncodeBlock := fun x => toy_pad ((zlen x + 2) / 3 * 4) x;
  EVP_DecodeBlock := fun s => if zlen s mod 4 =? 0 then Some (ztake (zlen s / 4 * 3) s) else None
|}.

Lemma length_toy_pad n x : zlen x <= n -> zlen (toy_pad n x) = n.
Proof. intros. unfold toy_pad. rewrite length_app, length_replicate. lia. Qed.

Lemma toy_laws n : 11 <= n -> @OpenSSLLaws (toy_openssl n).
Proof.
  intros Hn. constructor; cbn.
  - done.
  - intros k d s [= <-]. split; [by apply bytes_eqb_eq|]. unfold toy_pad, ztake.
    rewrite length_take. cbn [app length]. rewrite length_app, length_replicate. cbn [length]. lia.
  - intros k m c Hc. destruct (zlen m <=? n - 11) eqn:E; [|done]. breflect. injection Hc as <-. cbn.
    rewrite Z.eqb_refl. split.
    + rewrite (proj2 (Z.leb_le 0 _)), (proj2 (Z.leb_le (zlen m) _)) by lia. cbn [andb]. f_equal.
      unfold toy_pad, ztake. rewrite <- !app_assoc, Nat2Z.id. by rewrite take_app_length.
    + apply (length_toy_pad n (k :: zlen m :: m)). cbn [length]. lia.
  - intros r [|k [|l rest]] m Hm; try done. destruct (_ && _) eqn:E; [|done]. breflect. injection Hm as <-.
    unfold ztake. rewrite length_take. lia.
  - intros x. rewrite length_toy_pad; [done|]. Z.div_mod_to_equations. lia.
  - intros x. assert (H3 : zlen x <= (zlen x + 2) / 3 * 3) by (Z.div_mod_to_equations; lia).
    rewrite length_toy_pad by lia. rewrite Z.mod_mul, Z.div_mul by lia. cbn. f_equal.
    unfold toy_pad, ztake. rewrite take_app. rewrite take_ge by lia. f_equal.
    rewrite take_replicate. f_equal. lia.
  - intros s x Hx. destruct (_ =? 0); [|done]. injection Hx as <-. pose proof (Z.div_pos (zlen s) 4).
    unfold ztake. rewrite length_take. lia.
Qed.

Lemma auth_token_roundtrip_witness : exists proof,
  @RsaSignAndBase64 (toy_openssl 384) true (Some 5) RSA_ENCRYPT [1; 2; 3] = Ok (Some proof) /\
  @AuthVerify (toy_openssl 384) true true RSA_ENCRYPT proof [1; 2; 3] [5] = Ok true.
Proof.
  destruct (@auth_token_roundtrip (toy_openssl 384) (toy_laws 384 ltac:(lia)) 5 RSA_ENCRYPT [1; 2; 3] eq_refl)
    as ([proof|] & Ho & Hv).
  - exists proof. split; [exact Ho|exact Hv].
  - exfalso. vm_compute in Ho. discriminate.
Defined.

(** In builds that encrypt the private key, [CheckPrivateKeyFile] meets a key
    in clear by writing a new key pair's private half ("Re encrypt") and leaves
    the public key file as it is.  From then on the server announces the public
    half of the old pair and signs with the new one: the daemon's verification
    is against a key that no longer exists. *)
Theorem reencrypt_breaks_key_pair `{OpenSSLLaws} (old new : EVP_PKEY) (anyKey : option EVP_PKEY) (host : bytes) :
  let f := mkKeyFiles (PlainKey old) (Some (PEM_write_bio_PUBKEY (public_half old))) in
  keys_match f /\
  exists f', CheckPrivateKeyFile true (Some new) f = (true, f') /\
    private_of (f_private f') = Some new /\
    GetPublicKeyinfo true true anyKey (Some host) f' =
      (Some (host ++ [12] ++ ztake RSA_KEY_BITS (PEM_write_bio_PUBKEY (public_half old))), f') /\
    (PEM_write_bio_PUBKEY (public_half old) <> PEM_write_bio_PUBKEY (public_half new) -> ~ keys_match f').
Proof.
  cbn. split; [done|]. eexists; split; [done|]. cbn. rewrite pem_read_write. split_and!; try done.
  intros Hne Hm. unfold keys_match in Hm. cbn in Hm. congruence.
Qed.

Lemma reencrypt_breaks_key_pair_witness :
  exists f' proof, @CheckPrivateKeyFile (toy_openssl 384) true (Some 8) (@mkKeyFiles (toy_openssl 384) (@PlainKey (toy_openssl 384) 7) (Some [7])) = (true, f') /\
    @RsaSignAndBase64 (toy_openssl 384) true (private_of (f_private f')) RSA_3072_SHA512 [1; 2] = Ok (Some proof) /\
    @AuthVerify (toy_openssl 384) true true RSA_3072_SHA512 proof [1; 2] [7] = Ok false.
Proof.
  destruct (@reencrypt_breaks_key_pair (toy_openssl 384) (toy_laws 384 ltac:(lia)) 7 8 None [65]) as (_ & f' & Hc & Hp & _).
  exists f'. rewrite Hp. eexists. split; [exact Hc|]. split; [reflexivity|]. vm_compute. reflexivity.
Defined.

(** The array for the decrypted token has 1024 bytes whatever the modulus: with
    a key of 16384 bits a short ciphertext can decrypt to more. *)
Lemma auth_verify_rsa_overflow : exists enc,
  zlen enc <= BUF_SIZE_DEFAULT / 3 * 4 /\ @AuthVerifyRsa (toy_openssl 2048) enc [1] 5 = Undefined.
Proof. exists [5; 1100; 0; 0]. by vm_compute. Qed.
