(* ===== verification/Daemon.v ===== *)
(** * Daemon: the session handshake, authorisation and command dispatch of the
    daemon ([daemon.cpp], [connect_validation.cpp], [session.cpp])

    [Daemon] holds the session table of [Session], the fields of each session
    that only the handshake uses, the authorisation table [mapAuthStatus] (by
    session id, not by session), the file of known keys, and what was sent and
    what reached a task.  [Env] is what the system answers while one packet is
    handled.  The fixed message texts contain no format directives, so
    [LogMsg] sends them as they are.

    Built without [HDC_CHECK_CHECK] and with [HARMONY_PROJECT]; the switch
    [HDC_SUPPORT_ENCRYPT_TCP] is the argument [encryptTcp], the TLS object's
    answers are part of [Env]. *)

From Stdlib Require Import String ZArith Lia List Bool.
From stdpp Require Import base list numbers option gmap.
From S2P Require Import Prelude Defs OrdMap Serial Messages Heartbeat Session Task Strings Numbers Translate AuthKeys.

(** ** Enumerations *)

Definition AUTH_NONE : Z := 0.
Definition AUTH_TOKEN : Z := 1.
Definition AUTH_SIGNATURE : Z := 2.
Definition AUTH_PUBLICKEY : Z := 3.
Definition AUTH_OK : Z := 4.
Definition AUTH_FAIL : Z := 5.
Definition AUTH_SSL_TLS_PSK : Z := 6.

Inductive UserPermit := REFUSE | ALLOWONCE | ALLOWFORVER.

Definition VALIDATION_CLOSE : Z := 0.
Definition VALIDATION_HDC_HOST : Z := 1.
Definition VALIDATION_HDC_DAEMON : Z := 2.
Definition VALIDATION_HDC_HOST_AND_DAEMON : Z := 3.

Definition MSG_FAIL : Z := 0.
Definition MSG_INFO : Z := 1.

Definition TYPE_UNITY : Z := 0.
Definition TYPE_SHELL : Z := 1.
Definition TASK_FILE : Z := 2.
Definition TASK_FORWARD : Z := 3.
Definition TASK_APP : Z := 4.

Definition TAG_DEVNAME : bytes := str "devname".
Definition TAG_EMGMSG : bytes := str "emgmsg".
Definition TAG_DAEOMN_AUTHSTATUS : bytes := str "daemonauthstatus".
Definition TAG_AUTH_TYPE : bytes := str "authtype".
Definition TAG_FEATURE_SHELL_OPT : bytes := str "1200".
Definition TAG_SUPPORT_FEATURE : bytes := str "supportfeatures".
Definition TAG_ENCRYPT_TCP : bytes := str "encrypttcp".
Definition FEATURE_HEARTBEAT : bytes := str "heartbeat".
Definition FEATURE_ENCRYPT_TCP : bytes := str "encrypt_tcp".
Definition FEATURE_CONN_VALIDATION : bytes := str "conn_validation".
Definition DAEOMN_AUTH_SUCCESS : bytes := str "SUCCESS".
Definition DAEOMN_UNAUTHORIZED : bytes := str "DAEMON_UNAUTH".
Definition GetSupportFeature : list bytes := [FEATURE_HEARTBEAT; FEATURE_ENCRYPT_TCP].

(** [handshake.version < "Ver: 3.0.0b"], a comparison of strings. *)
Definition low_version (version : bytes) : bool := bytes_ltb version (str "Ver: 3.0.0b").

(** ** State *)

Record HdcDaemonAuthInfo := mkAuthInfo { authtype : Z; token : bytes; pubkey : bytes; authmsg : bytes }.

(** The fields of [HdcSession] that the handshake uses besides those of
    [Session]; [d_classSSL]: not null. *)
Record DSession := mkDSession {
  d_connectKey : bytes; d_verifyType : Z; d_tokenRSA : bytes; d_handshakeOK : bool;
  d_supportEncrypt : bool; d_supportConnValidation : bool; d_heartbeat : HdcHeartbeat;
  d_classSSL : bool; d_tasks : Tasks
}.

Definition set_connectKey v x := mkDSession v (d_verifyType x) (d_tokenRSA x) (d_handshakeOK x)
  (d_supportEncrypt x) (d_supportConnValidation x) (d_heartbeat x) (d_classSSL x) (d_tasks x).
Definition set_verifyType v x := mkDSession (d_connectKey x) v (d_tokenRSA x) (d_handshakeOK x)
  (d_supportEncrypt x) (d_supportConnValidation x) (d_heartbeat x) (d_classSSL x) (d_tasks x).
Definition set_tokenRSA v x := mkDSession (d_connectKey x) (d_verifyType x) v (d_handshakeOK x)
  (d_supportEncrypt x) (d_supportConnValidation x) (d_heartbeat x) (d_classSSL x) (d_tasks x).
Definition set_handshakeOK v x := mkDSession (d_connectKey x) (d_verifyType x) (d_tokenRSA x) v
  (d_supportEncrypt x) (d_supportConnValidation x) (d_heartbeat x) (d_classSSL x) (d_tasks x).
Definition set_features enc conn hb x := mkDSession (d_connectKey x) (d_verifyType x) (d_tokenRSA x) (d_handshakeOK x)
  enc conn hb (d_classSSL x) (d_tasks x).
Definition set_classSSL v x := mkDSession (d_connectKey x) (d_verifyType x) (d_tokenRSA x) (d_handshakeOK x)
  (d_supportEncrypt x) (d_supportConnValidation x) (d_heartbeat x) v (d_tasks x).
Definition set_heartbeat v x := mkDSession (d_connectKey x) (d_verifyType x) (d_tokenRSA x) (d_handshakeOK x)
  (d_supportEncrypt x) (d_supportConnValidation x) v (d_classSSL x) (d_tasks x).
Definition set_tasks v x := mkDSession (d_connectKey x) (d_verifyType x) (d_tokenRSA x) (d_handshakeOK x)
  (d_supportEncrypt x) (d_supportConnValidation x) (d_heartbeat x) (d_classSSL x) v.

(** The fields of a new session. *)
Definition new_dsession (now : Z) : DSession :=
  mkDSession [] RSA_3072_SHA512 [] false false false (HdcHeartbeat_new now) false (mkTasks ∅ [] [] 0).

(** A packet handed to [Send]: session id, channel id, command, payload. *)
Record Packet := mkPacket { k_sessionId : Z; k_channelId : Z; k_command : Z; k_data : bytes }.

(** A command that reached a task object: the session it came from, the task,
    the class the command belongs to and the class the object was made with. *)
Record Delivery := mkDelivery {
  v_session : addr; v_task : addr; v_wanted : Z; v_class : Z; v_command : Z; v_data : bytes
}.

#[export] Instance Delivery_eq_dec : EqDecision Delivery.
Proof. solve_decision. Defined.

Record Daemon := mkDaemon {
  base : SessionBase;
  ext : gmap addr DSession;
  mapAuthStatus : omap HdcDaemonAuthInfo;
  authEnable : bool;
  hdc_keys : option bytes;     (* None: cannot be opened *)
  usb_currentSessionId : Z;
  uart_currentSessionId : Z;
  sent : list Packet;
  delivered : list Delivery
}.

Definition set_base v d := mkDaemon v (ext d) (mapAuthStatus d) (authEnable d) (hdc_keys d)
  (usb_currentSessionId d) (uart_currentSessionId d) (sent d) (delivered d).
Definition set_ext v d := mkDaemon (base d) v (mapAuthStatus d) (authEnable d) (hdc_keys d)
  (usb_currentSessionId d) (uart_currentSessionId d) (sent d) (delivered d).
Definition set_mapAuthStatus v d := mkDaemon (base d) (ext d) v (authEnable d) (hdc_keys d)
  (usb_currentSessionId d) (uart_currentSessionId d) (sent d) (delivered d).
Definition set_hdc_keys v d := mkDaemon (base d) (ext d) (mapAuthStatus d) (authEnable d) v
  (usb_currentSessionId d) (uart_currentSessionId d) (sent d) (delivered d).
Definition set_usb v d := mkDaemon (base d) (ext d) (mapAuthStatus d) (authEnable d) (hdc_keys d)
  v (uart_currentSessionId d) (sent d) (delivered d).
Definition set_uart v d := mkDaemon (base d) (ext d) (mapAuthStatus d) (authEnable d) (hdc_keys d)
  (usb_currentSessionId d) v (sent d) (delivered d).
Definition set_sent v d := mkDaemon (base d) (ext d) (mapAuthStatus d) (authEnable d) (hdc_keys d)
  (usb_currentSessionId d) (uart_currentSessionId d) v (delivered d).
Definition set_delivered v d := mkDaemon (base d) (ext d) (mapAuthStatus d) (authEnable d) (hdc_keys d)
  (usb_currentSessionId d) (uart_currentSessionId d) (sent d) v.

(** [hSession->f = ...] for a field of [DSession], and reading a session. *)
Definition upd_ext (p : addr) (f : DSession -> DSession) (d : Daemon) : res Daemon :=
  x ← deref (ext d !! p); Ok (set_ext (<[p := f x]> (ext d)) d).
Definition sess (p : addr) (d : Daemon) : res HdcSession := deref (heap (base d) !! p).
Definition dsess (p : addr) (d : Daemon) : res DSession := deref (ext d !! p).

Definition set_sessionId n (s : HdcSession) := mkSession (s_serverOrDaemon s) (s_isDead s) (s_voteReset s)
  (s_connType s) n (s_ref s) (s_uvHandleRef s) (s_childCleared s) (s_workLoop s)
  (s_classModule s) (s_ioBuf s) (s_availTailIndex s) (s_hUSB s) (s_hUART s).
Definition set_availTailIndex n (s : HdcSession) := mkSession (s_serverOrDaemon s) (s_isDead s) (s_voteReset s)
  (s_connType s) (s_sessionId s) (s_ref s) (s_uvHandleRef s) (s_childCleared s) (s_workLoop s)
  (s_classModule s) (s_ioBuf s) n (s_hUSB s) (s_hUART s).

(** ** What the system answers *)

(** The TLS object of a session ([hdc_ssl.cpp]). *)
Record SslEnv := mkSslEnv {
  ssl_new : bool; ssl_GenPsk : bool; ssl_GetPskEncrypt : Z * bytes; ssl_DoBIOWrite : Z;
  ssl_PerformHandshake : Z * bytes; ssl_SetHandshakeLabel : bool; ssl_ClearPsk : bool
}.

Record Env := mkEnv {
  e_GetParameter : bytes -> Z * bytes;       (* syspara: result and text *)
  e_SetParameter : bytes -> bytes -> bool;
  e_validation : bytes;      (* persist.hdc.control.enterprise_connect_validation *)
  e_dialog : bool;           (* ShowPermitDialog *)
  e_auth_result : Z * bytes; (* persist.hdc.daemon.auth_result after the dialog *)
  e_late : bool;             (* the notifying thread runs after the user's answer *)
  e_hostname : bytes;
  e_random : option bytes;   (* bytes of /dev/random *)
  e_daemon_keys : option bytes;   (* daemon_public_key.pem *)
  e_append : bool;           (* hdc_keys can be opened for writing *)
  e_sha256 : bytes -> option bytes;
  e_bioOk : bool; e_ctxOk : bool;
  e_junk : Z * Z;            (* authType and sessionId of an uninitialised message *)
  e_report : bool;           (* the command event was reported *)
  e_now : Z;
  e_timerOk : bool; e_fresh : option addr; e_taskNew : bool;
  e_ssl : SslEnv
}.

Definition GetDevItem (env : Env) (key : bytes) : option bytes :=
  let '(res, text) := e_GetParameter env key in if res <=? 0 then None else Some (cstr text).

(** ["^(0|[1-9]\d?|1\d\d|2[0-4]\d|25[0-5])$"] *)
Definition is_octet_text (s : bytes) : bool :=
  match s with
  | [a] => isdigit a
  | [a; b] => isdigit a && negb (a =? 48) && isdigit b
  | [a; b; c] =>
      ((a =? 49) && isdigit b && isdigit c) || ((a =? 50) && (48 <=? b) && (b <=? 52) && isdigit c) ||
      ((a =? 50) && (b =? 53) && (48 <=? c) && (c <=? 53))
  | _ => false
  end.

Definition GetConnectValidationParam (parameterValue : bytes) : Z :=
  if bytes_eqb parameterValue [] then VALIDATION_CLOSE
  else if negb (is_octet_text parameterValue) then VALIDATION_CLOSE
  else if digits_val parameterValue <=? VALIDATION_HDC_HOST_AND_DAEMON then digits_val parameterValue
  else VALIDATION_CLOSE.

Definition connectstatus (env : Env) : bool :=
  let v := GetConnectValidationParam (e_validation env) in
  (v =? VALIDATION_HDC_DAEMON) || (v =? VALIDATION_HDC_HOST_AND_DAEMON).

(** [WHITE_SPACES] *)
Definition is_white (c : Z) : bool := (c =? 32) || (c =? 9) || (c =? 10) || (c =? 13).
Fixpoint LeftTrim (s : bytes) : bytes :=
  match s with
  | [] => []
  | c :: t => if is_white c then LeftTrim t else s
  end.
Definition RightTrim (s : bytes) : bytes := rev (LeftTrim (rev s)).
Definition Trim (s : bytes) : bytes := LeftTrim (RightTrim s).

(** The value [authEnable] gets when the daemon starts; [ospmDisable]:
    [CONFIG_HDC_OSPM_AUTH_DISABLE]. *)
Definition GetAuthByPassValue (ospmDisable : bool) (env : Env) : bool :=
  if connectstatus env then true
  else if ospmDisable then false
  else
    match GetDevItem env (str "const.hdc.secure") with
    | None => true
    | Some secure =>
        if negb (bytes_eqb (Trim secure) (str "1")) then false
        else
          match GetDevItem env (str "const.boot.oemmode") with
          | None => true
          | Some oemmode =>
              if negb (bytes_eqb (Trim oemmode) (str "rd")) then true
              else
                match GetDevItem env (str "persist.hdc.auth_bypass") with
                | None => true
                | Some authbypass => negb (bytes_eqb (Trim authbypass) (str "1"))
                end
          end
    end.

Definition HandDaemonAuthBypass (env : Env) : bool :=
  bytes_eqb (Trim (match GetDevItem env (str "persist.hdc.auth_bypass") with Some v => v | None => [] end)) (str "1").

Definition IsExpectedParam (env : Env) (param expect : bytes) : bool :=
  let out := match GetDevItem env param with Some v => v | None => [] end in
  bytes_eqb out [] || bytes_eqb out expect.

(** ** The authorisation table *)

Definition auth_of (sessionid : Z) (d : Daemon) : HdcDaemonAuthInfo :=
  match om_find sessionid (mapAuthStatus d) with Some i => i | None => mkAuthInfo AUTH_NONE [] [] [] end.

Definition GetSessionAuthStatus sessionid d := authtype (auth_of sessionid d).
Definition GetSessionAuthToken sessionid d := token (auth_of sessionid d).
Definition GetSessionAuthPubkey sessionid d := pubkey (auth_of sessionid d).
Definition GetSessionAuthmsg sessionid d := authmsg (auth_of sessionid d).

Definition put_auth (sessionid : Z) (i : HdcDaemonAuthInfo) (d : Daemon) : Daemon :=
  set_mapAuthStatus (om_set sessionid i (mapAuthStatus d)) d.
Definition InitSessionAuthInfo (sessionid : Z) (tok : bytes) (d : Daemon) : Daemon :=
  put_auth sessionid (mkAuthInfo AUTH_NONE tok [] []) d.
Definition UpdateSessionAuthOk (sessionid : Z) (d : Daemon) : Daemon :=
  put_auth sessionid (mkAuthInfo AUTH_OK [] [] (authmsg (auth_of sessionid d))) d.
Definition UpdateSessionAuthPubkey (sessionid : Z) (key : bytes) (d : Daemon) : Daemon :=
  let i := auth_of sessionid d in put_auth sessionid (mkAuthInfo AUTH_PUBLICKEY (token i) key (authmsg i)) d.
Definition UpdateSessionAuthmsg (sessionid : Z) (msg : bytes) (d : Daemon) : Daemon :=
  let i := auth_of sessionid d in put_auth sessionid (mkAuthInfo AUTH_FAIL (token i) (pubkey i) msg) d.
Definition DeleteSessionAuthStatus (sessionid : Z) (d : Daemon) : Daemon :=
  set_mapAuthStatus (om_erase sessionid (mapAuthStatus d)) d.

(** ** Sending *)

Definition Send_ (sessionId channelId command : Z) (data : bytes) (d : Daemon) : Daemon :=
  set_sent (sent d ++ [mkPacket sessionId channelId command data]) d.
Definition LogMsg (sessionId channelId level : Z) (msg : bytes) (d : Daemon) : Daemon :=
  Send_ sessionId channelId CMD_KERNEL_ECHO (level :: msg) d.
Definition SendHandshake (sessionId channelId : Z) (hs : SessionHandShake) (d : Daemon) : Daemon :=
  Send_ sessionId channelId CMD_KERNEL_HANDSHAKE (SerializeToString SessionHandShake_type hs) d.

Definition AddFeatureTagToEmgmsg (emgmsg : bytes) : bytes :=
  (TlvAppend (TlvAppend emgmsg TAG_FEATURE_SHELL_OPT (str "enable")).2
     TAG_SUPPORT_FEATURE (FeatureToString GetSupportFeature)).2.

(** ** Known keys and the user's answer *)

Definition contains (s pat : bytes) : bool := match find pat s 0 with Some _ => true | None => false end.

(** The key text a file must contain: 625 characters. *)
Definition key_in_file (key : bytes) (file : option bytes) : bool :=
  match file with
  | None => false
  | Some keys => (zlen key =? 625) && contains keys key
  end.
Definition AlreadyInKnownHosts (key : bytes) (d : Daemon) : bool := key_in_file key (hdc_keys d).
Definition CheckAuthPubKeyIsValid (env : Env) (key : bytes) : bool := key_in_file key (e_daemon_keys env).

Definition UpdateKnownHosts (env : Env) (key : bytes) (d : Daemon) : Daemon :=
  if e_append env then
    set_hdc_keys (Some (match hdc_keys d with Some k => k | None => [] end ++ key ++ [10])) d
  else d.

Definition ClearKnownHosts (env : Env) (d : Daemon) : Daemon :=
  if negb (authEnable d) || HandDaemonAuthBypass env then d
  else
    match GetDevItem env (str "persist.hdc.daemon.auth_cancel") with
    | None => d
    | Some authcancel =>
        if negb (bytes_eqb authcancel (str "true")) then d
        else if e_append env then set_hdc_keys (Some []) d else d
    end.

Definition GetHostPubkeyInfo (buf : bytes) : bool * bytes * bytes :=
  match find [12] buf 0 with
  | None => (false, [], [])
  | Some tmp =>
      let hostname := substr buf 0 tmp in
      let key := zdrop (tmp + 1) buf in
      (negb (bytes_eqb hostname []) && negb (bytes_eqb key []), hostname, key)
  end.

(** U+0085, U+2028 and U+2029 in UTF-8. *)
Definition multiBytes : list bytes := [[194; 133]; [226; 128; 168]; [226; 128; 169]].

Fixpoint SanitizeHostname_loop (fuel : nat) (s : bytes) : res bytes :=
  match fuel with
  | O => Stuck
  | S fuel =>
      match s with
      | [] => Ok []
      | c :: t =>
          match List.find (fun seq => is_prefix seq s) multiBytes with
          | Some seq => r ← SanitizeHostname_loop fuel (zdrop (zlen seq) s); Ok (32 :: r)
          | None =>
              r ← SanitizeHostname_loop fuel t;
              Ok ((if (c <=? 31) || (c =? 127) then 32 else c) :: r)
          end
      end
  end.

(** The cut moves left while it would split a UTF-8 sequence. *)
Fixpoint utf8_cut (result : bytes) (cutLen : nat) : nat :=
  match cutLen with
  | O => O
  | S n => if Z.land (nth cutLen result 0) 192 =? 128 then utf8_cut result n else cutLen
  end.

Definition SanitizeHostname (hostname : bytes) : res bytes :=
  result ← SanitizeHostname_loop (S (length hostname)) hostname;
  if 95 <? zlen result then Ok (take (utf8_cut result 92) result ++ str "...") else Ok result.

Definition toupper (c : Z) : Z := if (97 <=? c) && (c <=? 122) then c - 32 else c.
Fixpoint Convert2HexStr_loop (arr : bytes) : bytes :=
  match arr with
  | [] => []
  | [b] => [hex_digit (b / 16); hex_digit (b mod 16)]
  | b :: arr => hex_digit (b / 16) :: hex_digit (b mod 16) :: 58 :: Convert2HexStr_loop arr
  end.
Definition Convert2HexStr (arr : bytes) : bytes := map toupper (Convert2HexStr_loop arr).

(** [substr] behind the end throws [std::out_of_range], which nobody catches. *)
Definition PostUIConfirm (env : Env) (hostname key : bytes) : res UserPermit :=
  if negb (e_SetParameter env (str "persist.hdc.daemon.auth_result") (str "auth_result_none")) then Ok REFUSE
  else
    hostname ← SanitizeHostname hostname;
    if negb (e_SetParameter env (str "persist.hdc.client.hostname") (cstr hostname)) then Ok REFUSE
    else
      match e_sha256 env key with
      | None => Ok REFUSE
      | Some sha256Result =>
          if negb (e_SetParameter env (str "persist.hdc.client.pubkey_sha256") (Convert2HexStr sha256Result))
          then Ok REFUSE
          else if negb (e_dialog env) then Ok REFUSE
          else
            let '(r, text) := e_auth_result env in
            if r <=? 0 then Ok REFUSE
            else
              let authResult := cstr text in
              if zlen authResult <? zlen (str "auth_result:") then Exited
              else
                let result := zdrop (zlen (str "auth_result:")) authResult in
                if bytes_eqb result (str "1") then Ok ALLOWONCE
                else if bytes_eqb result (str "2") then Ok ALLOWFORVER
                else Ok REFUSE
      end.

(** One hexadecimal digit per byte read, or the digit 0 throughout when the
    device cannot be opened. *)
Definition GetSecureRandomString (random : option bytes) (expectedLen : nat) : bytes :=
  match random with
  | None => replicate expectedLen 48
  | Some r => map (fun i => hex_digit (nth i r 0 mod BUF_SIZE_MICRO)) (seq 0 expectedLen)
  end.
Definition SHA_DIGEST_LENGTH : nat := 20.

(** ** Answers of the handshake *)

Section Handshake.
Context `{OpenSSL} (encryptTcp : bool) (env : Env).

Definition SendAuthOkMsg (p : addr) (channelid : Z) (msg daemonAuthResult : bytes) (hs : SessionHandShake) (d : Daemon)
    : res (SessionHandShake * Daemon) :=
  s ← sess p d; x ← dsess p d;
  let hostname := cstr (e_hostname env) in
  '((buf, d1) : bytes * Daemon) ←
    (if low_version (hs_version hs) then
       d1 ← upd_ext p (set_handshakeOK true) d;
       Ok (if bytes_eqb msg [] then hostname else msg, d1)
     else
       let emgmsg := (TlvAppend [] TAG_EMGMSG msg).2 in
       let emgmsg := (TlvAppend emgmsg TAG_DEVNAME hostname).2 in
       let emgmsg := (TlvAppend emgmsg TAG_DAEOMN_AUTHSTATUS daemonAuthResult).2 in
       if negb (connectstatus env) || d_supportConnValidation x then
         d1 ← upd_ext p (set_handshakeOK true) d; Ok (AddFeatureTagToEmgmsg emgmsg, d1)
       else Ok (emgmsg, d));
  let hs' := set_hs_authType AUTH_OK (set_hs_buf buf hs) in
  let d2 := SendHandshake (s_sessionId s) channelid hs' d1 in
  Ok (hs', Send_ (s_sessionId s) channelid CMD_KERNEL_CHANNEL_CLOSE [1] d2).

Definition HandleAuthFailed (p : addr) (channelid : Z) (msg : bytes) (hs : SessionHandShake) (d : Daemon)
    : res (SessionHandShake * Daemon) :=
  s ← sess p d;
  '((hs', d1) : SessionHandShake * Daemon) ← SendAuthOkMsg p channelid msg DAEOMN_UNAUTHORIZED hs d;
  let d2 := LogMsg (s_sessionId s) channelid MSG_FAIL msg d1 in
  Ok (hs', UpdateSessionAuthmsg (s_sessionId s) msg d2).

Definition LOW_CLIENT : bytes :=
  str "[E000001]:The sdk hdc.exe version is too low, please upgrade to the latest version.".
Definition NOT_VALIDATED : bytes :=
  str "[E000006]:The current computer has not obtained the permission to debug the control device.".
Definition AUTH_FAILED : bytes := str "[E000010]:Auth failed, cannt login the device.".
Definition crlf : bytes := [13; 10].
Definition CONFIRM : bytes := str "[E000002]:The device unauthorized." ++ crlf ++
  str "This server's public key is not set." ++ crlf ++
  str "Please check for a confirmation dialog on your device." ++ crlf ++
  str "Otherwise try 'hdc kill' if that seems wrong.".
Definition DENIED : bytes := str "[E000003]:The device unauthorized." ++ crlf ++
  str "The user denied the access for the device." ++ crlf ++
  str "Please execute 'hdc kill' and redo your command," ++ crlf ++
  str "then check for a confirmation dialog on your device.".

Definition AuthRejectLowClient p channelid := HandleAuthFailed p channelid LOW_CLIENT.
Definition AuthRejectNotSupportConnValidation p channelid := HandleAuthFailed p channelid NOT_VALIDATED.

Definition SendAuthSignMsg (channelId sessionid : Z) (key tok : bytes) (hs : SessionHandShake) (d : Daemon)
    : SessionHandShake * Daemon :=
  let d1 := UpdateSessionAuthPubkey sessionid key d in
  let hs' := set_hs_buf tok (set_hs_authType AUTH_SIGNATURE hs) in
  (hs', SendHandshake sessionid channelId hs' d1).

Definition SendAuthEncryptPsk (p : addr) (channelId : Z) (key : bytes) (hs : SessionHandShake) (d : Daemon)
    : res (SessionHandShake * Daemon) :=
  s ← sess p d; x ← dsess p d;
  let d1 := UpdateSessionAuthPubkey (s_sessionId s) key d in
  let hs1 := set_hs_authType AUTH_SSL_TLS_PSK hs in
  if negb (d_classSSL x) && negb (ssl_new (e_ssl env)) then Ok (hs1, d1)
  else
    d2 ← upd_ext p (set_classSSL true) d1;
    if negb (ssl_GenPsk (e_ssl env)) then Ok (hs1, d2)
    else
      let '(payloadSize, payload) := ssl_GetPskEncrypt (e_ssl env) in
      if payloadSize <=? 0 then Ok (hs1, d2)
      else
        let hs2 := set_hs_buf (ztake payloadSize payload) hs1 in
        Ok (hs2, SendHandshake (s_sessionId s) channelId hs2 d2).

Definition SendAuthMsg (p : addr) (channelId : Z) (key : bytes) (hs : SessionHandShake) (d : Daemon)
    : res (SessionHandShake * Daemon) :=
  s ← sess p d; x ← dsess p d;
  if encryptTcp && (s_connType s =? CONN_TCP) && d_supportEncrypt x then SendAuthEncryptPsk p channelId key hs d
  else Ok (SendAuthSignMsg channelId (s_sessionId s) key (d_tokenRSA x) hs d).

(** ** The steps of the authentication *)

Definition HandDaemonAuthInit (p : addr) (channelId : Z) (hs : SessionHandShake) (d : Daemon) : res (bool * Daemon) :=
  s ← sess p d;
  let tok := GetSecureRandomString (e_random env) SHA_DIGEST_LENGTH in
  d1 ← upd_ext p (set_tokenRSA tok) d;
  x ← dsess p d1;
  let hs1 := set_hs_authType AUTH_PUBLICKEY hs in
  let hs2 :=
    if d_verifyType x =? RSA_3072_SHA512 then
      let buf := (TlvAppend [] TAG_AUTH_TYPE (to_string RSA_3072_SHA512)).2 in
      set_hs_buf (if encryptTcp && (s_connType s =? CONN_TCP) && d_supportEncrypt x
                  then (TlvAppend buf TAG_ENCRYPT_TCP (str "1")).2 else buf) hs1
    else hs1 in
  Ok (true, InitSessionAuthInfo (s_sessionId s) tok (SendHandshake (s_sessionId s) channelId hs2 d1)).

Definition HandConnectValidationPubkey (p : addr) (channelId : Z) (hs : SessionHandShake) (d : Daemon)
    : res (bool * Daemon) :=
  let '(ok, hostname, key) := GetHostPubkeyInfo (hs_buf hs) in
  if negb ok then Ok (false, d)
  else if CheckAuthPubKeyIsValid env key then
    '((_, d1) : SessionHandShake * Daemon) ← SendAuthMsg p channelId key hs d; Ok (true, d1)
  else
    s ← sess p d;
    '((_, d1) : SessionHandShake * Daemon) ← HandleAuthFailed p channelId AUTH_FAILED hs d;
    Ok (false, LogMsg (s_sessionId s) channelId MSG_INFO
                 (str "Please remove public key and private key, then try again") d1).

(** A thread that tells the host about the dialog runs beside the dialog, with
    references to the message and the session: [e_late] says whether it runs
    before the user answers or after the answer was processed. *)
Definition HandDaemonAuthPubkey (p : addr) (channelId : Z) (hs : SessionHandShake) (d : Daemon) : res (bool * Daemon) :=
  if connectstatus env then HandConnectValidationPubkey p channelId hs d
  else
    let '(ok, hostname, key) := GetHostPubkeyInfo (hs_buf hs) in
    let answer (ret : bool) (hs : SessionHandShake) (d : Daemon) : res (SessionHandShake * Daemon) :=
      if ret then SendAuthMsg p channelId key hs d else HandleAuthFailed p channelId DENIED hs d in
    if negb ok then '((_, d1) : SessionHandShake * Daemon) ← answer false hs d; Ok (true, d1)
    else if AlreadyInKnownHosts key d then '((_, d1) : SessionHandShake * Daemon) ← answer true hs d; Ok (true, d1)
    else
      '((hs1, d1) : SessionHandShake * Daemon) ←
        (if e_late env then Ok (hs, d) else HandleAuthFailed p channelId CONFIRM hs d);
      permit ← PostUIConfirm env hostname key;
      '((hs2, d2) : SessionHandShake * Daemon) ←
        match permit with
        | ALLOWONCE => answer true hs1 d1
        | ALLOWFORVER => answer true hs1 (UpdateKnownHosts env key d1)
        | REFUSE => answer false hs1 d1
        end;
      if e_late env then '((_, d3) : SessionHandShake * Daemon) ← HandleAuthFailed p channelId CONFIRM hs2 d2; Ok (true, d3)
      else Ok (true, d2).

Definition HandDaemonAuthSignature (p : addr) (channelId : Z) (hs : SessionHandShake) (d : Daemon) : res (bool * Daemon) :=
  s ← sess p d; x ← dsess p d;
  let sid := s_sessionId s in
  verified ← AuthVerify (e_bioOk env) (e_ctxOk env) (d_verifyType x) (hs_buf hs) (GetSessionAuthToken sid d)
               (GetSessionAuthPubkey sid d);
  match verified with
  | false => '((_, d1) : SessionHandShake * Daemon) ← HandleAuthFailed p channelId AUTH_FAILED hs d; Ok (true, d1)
  | true =>
      '((_, d1) : SessionHandShake * Daemon) ←
        SendAuthOkMsg p channelId [] DAEOMN_AUTH_SUCCESS hs (UpdateSessionAuthOk sid d);
      Ok (true, d1)
  end.

Definition DaemonSSLHandshake (p : addr) (channelId : Z) (hs : SessionHandShake) (d : Daemon) : res (bool * Daemon) :=
  s ← sess p d; x ← dsess p d;
  let sid := s_sessionId s in
  if negb (d_classSSL x) then Ok (false, d)
  else if (0 <? zlen (hs_buf hs)) && negb (ssl_DoBIOWrite (e_ssl env) =? zlen (hs_buf hs)) then Ok (false, d)
  else
    let '(ret, buf) := ssl_PerformHandshake (e_ssl env) in
    if (ret =? RET_SUCCESS) && bytes_eqb buf [] then Ok (false, d)
    else
      let '(hs1, d1) :=
        if ret =? RET_SUCCESS then (set_hs_buf buf hs, SendHandshake sid channelId (set_hs_buf buf hs) d) else (hs, d) in
      if ssl_SetHandshakeLabel (e_ssl env) then
        '((_, d2) : SessionHandShake * Daemon) ←
          SendAuthOkMsg p channelId [] DAEOMN_AUTH_SUCCESS hs1 (UpdateSessionAuthOk sid d1);
        Ok ((if ssl_ClearPsk (e_ssl env) then ret else ERR_GENERIC) =? RET_SUCCESS, d2)
      else Ok (ret =? RET_SUCCESS, d1).

Definition HandDaemonAuth (p : addr) (channelId : Z) (hs : SessionHandShake) (d : Daemon) : res (bool * Daemon) :=
  s ← sess p d; x ← dsess p d;
  let sid := s_sessionId s in
  if negb (connectstatus env) && negb (authEnable d) then
    '((_, d1) : SessionHandShake * Daemon) ←
      SendAuthOkMsg p channelId [] DAEOMN_AUTH_SUCCESS hs (UpdateSessionAuthOk sid d);
    Ok (true, d1)
  else if low_version (hs_version hs) then
    '((_, d1) : SessionHandShake * Daemon) ← AuthRejectLowClient p channelId hs d; Ok (true, d1)
  else if connectstatus env && negb (d_supportConnValidation x) then
    '((_, d1) : SessionHandShake * Daemon) ← AuthRejectNotSupportConnValidation p channelId hs d; Ok (true, d1)
  else if GetSessionAuthStatus sid d =? AUTH_OK then Ok (true, d)
  else if hs_authType hs =? AUTH_NONE then HandDaemonAuthInit p channelId hs d
  else if (GetSessionAuthStatus sid d =? AUTH_NONE) && (0 <? zlen (GetSessionAuthToken sid d)) &&
          (hs_authType hs =? AUTH_PUBLICKEY) then HandDaemonAuthPubkey p channelId hs d
  else if (GetSessionAuthStatus sid d =? AUTH_PUBLICKEY) && (hs_authType hs =? AUTH_SIGNATURE)
       then HandDaemonAuthSignature p channelId hs d
  else if encryptTcp && (GetSessionAuthStatus sid d =? AUTH_PUBLICKEY) && (hs_authType hs =? AUTH_SSL_TLS_PSK)
       then DaemonSSLHandshake p channelId hs d
  else Ok (false, d).

(** ** The handshake packet *)

Definition ParsePeerSupportFeatures (p : addr) (tlvMap : list (bytes * bytes)) (d : Daemon) : res Daemon :=
  match om_find TAG_SUPPORT_FEATURE tlvMap with
  | None => Ok d
  | Some text =>
      features ← SplitString text (str ",") [];
      upd_ext p (fun x => set_features
        (if encryptTcp then IsSupportFeature features FEATURE_ENCRYPT_TCP else d_supportEncrypt x)
        (if connectstatus env then IsSupportFeature features FEATURE_CONN_VALIDATION else d_supportConnValidation x)
        (SetSupportHeartbeat (IsSupportFeature features FEATURE_HEARTBEAT) (d_heartbeat x)) x) d
  end.

Definition GetServerCapability (p : addr) (hs : SessionHandShake) (d : Daemon) : res Daemon :=
  d1 ← upd_ext p (set_verifyType RSA_ENCRYPT) d;
  '((ok, tlvMap) : bool * list (bytes * bytes)) ← TlvToStringMap (hs_buf hs) [];
  match ok with
  | false => Ok d1
  | true =>
      d2 ← (if bool_decide (om_find TAG_AUTH_TYPE tlvMap = Some (to_string RSA_3072_SHA512))
            then upd_ext p (set_verifyType RSA_3072_SHA512) d1 else Ok d1);
      ParsePeerSupportFeatures p tlvMap d2
  end.

Definition DaemonSessionHandshakeInit (p : addr) (hs : SessionHandShake) (d : Daemon) : res (SessionHandShake * Daemon) :=
  s ← sess p d;
  let unOld := s_sessionId s in
  b1 ← upd p (set_sessionId (hs_sessionId hs)) (base d);
  d1 ← upd_ext p (fun x => set_handshakeOK false (set_connectKey (hs_connectKey hs) x)) (set_base b1 d);
  '((_, b2) : option addr * SessionBase) ← AdminSession OP_UPDATE unOld (Some p) (base d1);
  let d2 := set_base b2 d1 in
  let d3 := if s_connType s =? CONN_SERIAL then set_uart (hs_sessionId hs) d2
            else if s_connType s =? CONN_USB then set_usb (hs_sessionId hs) d2 else d2 in
  let hs' := set_hs_connectKey [] (set_hs_sessionId 0 hs) in
  d4 ← GetServerCapability p hs' d3;
  Ok (hs', d4).

Definition DaemonSessionHandshake (p : addr) (channelId : Z) (payload : bytes) (d : Daemon) : res (bool * Daemon) :=
  let '(_, hs) := ParseFromString SessionHandShake_type
    (mkSessionHandShake [] (e_junk env).1 (e_junk env).2 [] [] []) payload in
  if negb (bytes_eqb (hs_banner hs) HANDSHAKE_MESSAGE) then
    b1 ← upd p (set_availTailIndex 0) (base d); Ok (false, set_base b1 d)
  else if (hs_authType hs =? AUTH_NONE) && negb (GetSessionAuthStatus (hs_sessionId hs) d =? AUTH_NONE) then Ok (false, d)
  else
    '((hs1, d1) : SessionHandShake * Daemon) ←
      (if hs_authType hs =? AUTH_NONE then DaemonSessionHandshakeInit p hs d else Ok (hs, d));
    HandDaemonAuth p channelId hs1 d1.

(** ** Commands *)

Definition control_item (command : Z) : option bytes :=
  if bool_decide (command ∈ [CMD_UNITY_EXECUTE; CMD_UNITY_EXECUTE_EX; CMD_UNITY_REMOUNT; CMD_UNITY_REBOOT;
       CMD_UNITY_RUNMODE; CMD_UNITY_HILOG; CMD_UNITY_ROOTRUN; CMD_UNITY_BUGREPORT_INIT; CMD_JDWP_LIST; CMD_JDWP_TRACK;
       CMD_SHELL_INIT; CMD_SHELL_DATA]) then Some (str "persist.hdc.control.shell")
  else if bool_decide (command ∈ [CMD_FILE_CHECK; CMD_FILE_DATA; CMD_FILE_FINISH; CMD_FILE_INIT; CMD_FILE_BEGIN;
       CMD_FILE_MODE; CMD_DIR_MODE; CMD_APP_CHECK; CMD_APP_DATA; CMD_APP_UNINSTALL])
       then Some (str "persist.hdc.control.file")
  else if bool_decide (command ∈ [CMD_FORWARD_INIT; CMD_FORWARD_CHECK; CMD_FORWARD_ACTIVE_MASTER;
       CMD_FORWARD_ACTIVE_SLAVE; CMD_FORWARD_DATA; CMD_FORWARD_FREE_CONTEXT; CMD_FORWARD_CHECK_RESULT])
       then Some (str "persist.hdc.control.fport")
  else None.

Definition CheckControl (command : Z) : bool :=
  match control_item command with
  | Some item => IsExpectedParam env item (str "true")
  | None => true
  end.

(** The class a command is for; other commands are ignored. *)
Definition task_class (command : Z) : option Z :=
  if bool_decide (command ∈ [CMD_UNITY_EXECUTE; CMD_UNITY_REMOUNT; CMD_UNITY_REBOOT; CMD_UNITY_RUNMODE;
       CMD_UNITY_HILOG; CMD_UNITY_ROOTRUN; CMD_UNITY_BUGREPORT_INIT; CMD_JDWP_LIST; CMD_JDWP_TRACK;
       CMD_UNITY_EXECUTE_EX]) then Some TYPE_UNITY
  else if bool_decide (command ∈ [CMD_SHELL_INIT; CMD_SHELL_DATA]) then Some TYPE_SHELL
  else if bool_decide (command ∈ [CMD_FILE_CHECK; CMD_FILE_DATA; CMD_FILE_FINISH; CMD_FILE_INIT; CMD_FILE_BEGIN;
       CMD_FILE_MODE; CMD_DIR_MODE]) then Some TASK_FILE
  else if bool_decide (command ∈ [CMD_APP_CHECK; CMD_APP_DATA; CMD_APP_UNINSTALL]) then Some TASK_APP
  else if bool_decide (command ∈ [CMD_FORWARD_INIT; CMD_FORWARD_CHECK; CMD_FORWARD_ACTIVE_MASTER;
       CMD_FORWARD_ACTIVE_SLAVE; CMD_FORWARD_DATA; CMD_FORWARD_FREE_CONTEXT; CMD_FORWARD_CHECK_RESULT])
       then Some TASK_FORWARD
  else None.

Definition set_initial (type : Z) (t : TaskInformation) : TaskInformation :=
  mkTask type (t_sessionId t) (t_channelId t) true (t_taskStop t) (t_taskFree t) (t_serverOrDaemon t)
    (t_masterSlave t) (t_closeRetryCount t) (t_isCleared t).

(** The object is made at the first command and used for all later ones. *)
Definition TaskCommandDispatch (p t : addr) (taskType command : Z) (payload : bytes) (d : Daemon) : res (bool * Daemon) :=
  x ← dsess p d;
  i ← deref (tasks (d_tasks x) !! t);
  if negb (t_hasInitial i) && negb (e_taskNew env) then
    ts ← upd_task t (fun i => mkTask taskType (t_sessionId i) (t_channelId i) false (t_taskStop i) (t_taskFree i)
      (t_serverOrDaemon i) (t_masterSlave i) (t_closeRetryCount i) (t_isCleared i)) (d_tasks x);
    d1 ← upd_ext p (set_tasks ts) d; Ok (false, d1)
  else
    ts ← (if t_hasInitial i then Ok (d_tasks x) else upd_task t (set_initial taskType) (d_tasks x));
    d1 ← upd_ext p (set_tasks ts) d;
    let class := if t_hasInitial i then t_taskType i else taskType in
    Ok (true, set_delivered (delivered d1 ++ [mkDelivery p t taskType class command payload]) d1).

Definition RedirectToTask (p t : addr) (command : Z) (payload : bytes) (d : Daemon) : res (bool * Daemon) :=
  match task_class command with
  | None => Ok (true, d)
  | Some taskType => TaskCommandDispatch p t taskType command payload d
  end.

(** [DispatchTaskData] with the daemon's [RedirectToTask]. *)
Definition DispatchToTask (p : addr) (channelId command : Z) (payload : bytes) (d : Daemon) : res (bool * Daemon) :=
  s ← sess p d; x ← dsess p d;
  '((ret, ts, target) : bool * Tasks * option addr) ←
    DispatchTaskData false (e_fresh env) (fun _ => true) (s_sessionId s) channelId command (d_tasks x);
  d1 ← upd_ext p (set_tasks ts) d;
  match target with
  | None => Ok (ret, d1)
  | Some t => RedirectToTask p t command payload d1
  end.

Definition CheckAuthStatus (p : addr) (channelId command : Z) (d : Daemon) : res (bool * Daemon) :=
  s ← sess p d;
  let sid := s_sessionId s in
  if authEnable d && negb (GetSessionAuthStatus sid d =? AUTH_OK) && negb (command =? CMD_KERNEL_HANDSHAKE) &&
     negb (command =? CMD_KERNEL_CHANNEL_CLOSE) && negb (command =? CMD_SSL_HANDSHAKE) then
    let msg := GetSessionAuthmsg sid d in
    let d1 := if bytes_eqb msg [] then d else LogMsg sid channelId MSG_FAIL msg d in
    Ok (false, Send_ sid channelId CMD_KERNEL_CHANNEL_CLOSE [1] d1)
  else Ok (true, d).

(** The commands that are reported as events. *)
Definition DaemonReportMap : list Z :=
  [CMD_UNITY_EXECUTE; CMD_UNITY_EXECUTE_EX; CMD_KERNEL_TARGET_CONNECT; CMD_SHELL_INIT; CMD_UNITY_RUNMODE; CMD_APP_CHECK;
   CMD_APP_UNINSTALL; CMD_FORWARD_INIT; CMD_UNITY_HILOG; CMD_JDWP_LIST; CMD_JDWP_TRACK; CMD_UNITY_REMOUNT;
   CMD_UNITY_REBOOT; CMD_UNITY_BUGREPORT_INIT].
Definition ReportCommandEvent (command : Z) : bool :=
  if bool_decide (command ∈ DaemonReportMap) then e_report env else true.

Definition FetchCommand (p : addr) (channelId command : Z) (payload : bytes) (d : Daemon) : res (bool * Daemon) :=
  s ← sess p d;
  let sid := s_sessionId s in
  let isNotIntercepted := CheckControl command in
  if negb (ReportCommandEvent command) then
    Ok (false, LogMsg sid channelId MSG_FAIL
      (str "[E00C002]Execution intercepted due to inaccessibility of reporting command event.") d)
  else
    '((pass, d1) : bool * Daemon) ← CheckAuthStatus p channelId command d;
    if negb pass then Ok (true, d1)
    else if command =? CMD_KERNEL_HANDSHAKE then DaemonSessionHandshake p channelId payload d1
    else if command =? CMD_KERNEL_CHANNEL_CLOSE then
      x ← dsess p d1;
      ts ← ClearOwnTasks (e_timerOk env) channelId (d_tasks x);
      d2 ← upd_ext p (set_tasks ts) d1;
      match payload with
      | count :: _ => Ok (true, if negb (count =? 0) then Send_ sid channelId CMD_KERNEL_CHANNEL_CLOSE [count - 1] d2 else d2)
      | [] => Ok (true, d2)
      end
    else if command =? CMD_HEARTBEAT_MSG then
      d2 ← upd_ext p (fun x => set_heartbeat
             (HandleRecvHeartbeatMsg (e_now env) payload (zlen payload) (d_heartbeat x)).2 x) d1;
      Ok (true, d2)
    else if isNotIntercepted then DispatchToTask p channelId command payload d1
    else
      let d2 := LogMsg sid channelId MSG_FAIL (str "debugging is not allowed") d1 in
      Ok (true, Send_ sid channelId CMD_KERNEL_CHANNEL_CLOSE [1] d2).
End Handshake.

(** ** Sessions of the USB module ([daemon_usb.cpp]) *)

(** The flag [isSoftReset] only changes what the USB module logs and stops. *)
Definition ResetOldSession (sessionId : Z) (d : Daemon) : res Daemon :=
  let sessionId := if sessionId =? 0 then usb_currentSessionId d else sessionId in
  '((h, _) : option addr * SessionBase) ← AdminSession OP_QUERY sessionId None (base d);
  match h with
  | None => Ok d
  | Some _ => b ← FreeSession false true sessionId (base d); Ok (set_base b d)
  end.

Definition PrepareNewSession (menv : MallocEnv) (now sessionId : Z) (d : Daemon) : res (option addr * Daemon) :=
  '((h, b) : option addr * SessionBase) ← MallocSession menv false CONN_USB true sessionId (base d);
  match h with
  | None => Ok (None, set_base b d)
  | Some p => Ok (Some p, set_usb sessionId (set_ext (<[p := new_dsession now]> (ext d)) (set_base b d)))
  end.

(** The session the bytes read from the bulk endpoint go to, or an error;
    [sessionId] comes from the USB header. *)
Definition DispatchToWorkThread (menv : MallocEnv) (now sessionId : Z) (d : Daemon) : res ((Z + addr) * Daemon) :=
  let sessionId := if sessionId =? 0 then usb_currentSessionId d else sessionId in
  d1 ← (if negb (usb_currentSessionId d =? 0) && negb (sessionId =? usb_currentSessionId d) then
          d1 ← ResetOldSession (usb_currentSessionId d) d; Ok (set_usb 0 d1)
        else Ok d);
  '((h, _) : option addr * SessionBase) ← AdminSession OP_QUERY sessionId None (base d1);
  '((h2, d2) : option addr * Daemon) ←
    match h with Some p => Ok (Some p, d1) | None => PrepareNewSession menv now sessionId d1 end;
  match h2 with
  | None => Ok (inl ERR_SESSION_NOFOUND, d2)
  | Some p => s ← sess p d2; Ok (if s_childCleared s || s_isDead s then inl ERR_SESSION_DEAD else inr p, d2)
  end.
