(* ===== verification/DaemonProps.v ===== *)
(** * DaemonProps: who may command the daemon

    The authorisation table refines a small machine per session id: a token is
    issued, a key accepted, the key's owner proves itself with the token.  On
    runs of packets, a command reaches a task only after those three steps. *)

From Stdlib Require Import String ZArith Lia List Bool.
From stdpp Require Import base list numbers option gmap.
From S2P Require Import Prelude Defs OrdMap Serial Messages Heartbeat Session SessionProps Task Strings Numbers Translate AuthKeys Daemon.

(** ** The abstract machine *)

Inductive AuthState := Unknown | Issued (tok : bytes) | Accepted (tok key : bytes) | Authorised | Refused.

Definition abs_info (i : HdcDaemonAuthInfo) : AuthState :=
  if authtype i =? AUTH_NONE then if bytes_eqb (token i) [] then Unknown else Issued (token i)
  else if authtype i =? AUTH_PUBLICKEY then Accepted (token i) (pubkey i)
  else if authtype i =? AUTH_OK then Authorised else Refused.
Definition abs (d : Daemon) (sid : Z) : AuthState := abs_info (auth_of sid d).

Section Spec.
Context `{OpenSSL} (encryptTcp : bool) (env : Env).

(** The key may be used: it is in the file of validated keys, or known, or the
    user agreed. *)
Definition permitted (keys : option bytes) (host key : bytes) : Prop :=
  if connectstatus env then key_in_file key (e_daemon_keys env) = true
  else key_in_file key keys = true \/ PostUIConfirm env host key = Ok ALLOWONCE \/
       PostUIConfirm env host key = Ok ALLOWFORVER.

(** [keys]: the file of known keys; [verifyType], [buf]: of the session and the
    message. *)
Inductive auth_trans (keys : option bytes) (verifyType : Z) (buf : bytes) : AuthState -> AuthState -> Prop :=
| tr_issue st : (st = Unknown \/ exists t, st = Issued t) ->
    auth_trans keys verifyType buf st (Issued (GetSecureRandomString (e_random env) SHA_DIGEST_LENGTH))
| tr_accept tok host key : GetHostPubkeyInfo buf = (true, host, key) -> permitted keys host key ->
    auth_trans keys verifyType buf (Issued tok) (Accepted tok key)
| tr_prove tok key : AuthVerify (e_bioOk env) (e_ctxOk env) verifyType buf tok key = Ok true ->
    auth_trans keys verifyType buf (Accepted tok key) Authorised
| tr_tls tok key : encryptTcp = true -> ssl_SetHandshakeLabel (e_ssl env) = true ->
    auth_trans keys verifyType buf (Accepted tok key) Authorised
| tr_refuse st : auth_trans keys verifyType buf st Refused.
End Spec.

(** ** What the handlers leave alone *)

(** The session table, the switch and the deliveries. *)
Record frame (d d' : Daemon) : Prop := {
  fr_base : base d' = base d; fr_enable : authEnable d' = authEnable d; fr_delivered : delivered d' = delivered d
}.
#[export] Instance frame_pre : PreOrder frame.
Proof. split; [by constructor|]. intros a b c [] []. split; congruence. Qed.

Lemma token_length r : length (GetSecureRandomString r SHA_DIGEST_LENGTH) = 20%nat.
Proof. by destruct r. Qed.

Lemma auth_put sid sid' i d :
  auth_of sid' (put_auth sid i d) = if decide (sid' = sid) then i else auth_of sid' d.
Proof.
  unfold auth_of, put_auth. cbn. destruct (decide (sid' = sid)) as [->|Hne].
  - by rewrite om_find_set_eq.
  - by rewrite om_find_set_ne.
Qed.

Lemma auth_of_map d d' sid : mapAuthStatus d' = mapAuthStatus d -> auth_of sid d' = auth_of sid d.
Proof. intros E. unfold auth_of. by rewrite E. Qed.

(** [sid]'s entry becomes [i], everything else but outputs stays. *)
Definition auth_set (sid : Z) (i : HdcDaemonAuthInfo) (d d' : Daemon) : Prop :=
  frame d d' /\ forall sid', auth_of sid' d' = if decide (sid' = sid) then i else auth_of sid' d.
Definition auth_keep (d d' : Daemon) : Prop := frame d d' /\ mapAuthStatus d' = mapAuthStatus d.

Lemma upd_ext_keep p f d d' : upd_ext p f d = Ok d' -> auth_keep d d'.
Proof. unfold upd_ext. intros. inv_res. by split. Qed.

#[export] Instance auth_keep_pre : PreOrder auth_keep.
Proof. split; [by split|]. intros a b c [? ?] [? ?]. split; [by etrans|congruence]. Qed.

Lemma auth_keep_set sid i d d1 d2 d' : auth_keep d d1 -> auth_set sid i d1 d2 -> auth_keep d2 d' -> auth_set sid i d d'.
Proof.
  intros [F1 M1] [F2 M2] [F3 M3]. split; [by repeat (etrans; [eassumption|])|].
  intros sid'. rewrite (auth_of_map d2 d') by done. rewrite M2. by rewrite (auth_of_map d d1).
Qed.

Lemma put_auth_set sid i d : auth_set sid i d (put_auth sid i d).
Proof. split; [by constructor|]. intros sid'. apply auth_put. Qed.

Lemma Send_keep sid c cmd data d : auth_keep d (Send_ sid c cmd data d).
Proof. by split. Qed.

Lemma auth_set_eq sid i d d' : auth_set sid i d d' -> auth_of sid d' = i.
Proof. intros [_ Hs]. rewrite Hs. by rewrite decide_True. Qed.

#[local] Hint Resolve upd_ext_keep Send_keep put_auth_set : hdc.

Lemma abs_none sid d : GetSessionAuthStatus sid d = AUTH_NONE ->
  abs d sid = if bytes_eqb (GetSessionAuthToken sid d) [] then Unknown else Issued (GetSessionAuthToken sid d).
Proof. unfold GetSessionAuthStatus, abs, abs_info. by intros ->. Qed.

Lemma abs_pubkey sid d : GetSessionAuthStatus sid d = AUTH_PUBLICKEY ->
  abs d sid = Accepted (GetSessionAuthToken sid d) (GetSessionAuthPubkey sid d).
Proof. unfold GetSessionAuthStatus, abs, abs_info. by intros ->. Qed.

Section Handlers.
Context `{OpenSSL} (encryptTcp : bool) (env : Env).

Lemma SendAuthOkMsg_keep p c msg r hs d hs' d' : SendAuthOkMsg env p c msg r hs d = Ok (hs', d') ->
  auth_keep d d' /\ hs_version hs' = hs_version hs.
Proof.
  unfold SendAuthOkMsg. intros Hr. inv_res.
  destruct (low_version (hs_version hs)); [|destruct (_ || _)]; inv_res; (split; [|done]);
    unfold SendHandshake; (etrans; [|apply Send_keep]); (etrans; [|apply Send_keep]); eauto with hdc; done.
Qed.

Lemma HandleAuthFailed_spec p c msg hs d hs' d' : HandleAuthFailed env p c msg hs d = Ok (hs', d') ->
  exists s, heap (base d) !! p = Some s /\ let i := auth_of (s_sessionId s) d in
    auth_set (s_sessionId s) (mkAuthInfo AUTH_FAIL (token i) (pubkey i) msg) d d'.
Proof.
  unfold HandleAuthFailed, sess. intros Hr. inv_res. exists x. split; [done|].
  apply SendAuthOkMsg_keep in E0 as [K _]. unfold UpdateSessionAuthmsg.
  set (d2 := LogMsg _ _ _ _ _). assert (K2 : auth_keep d d2) by (etrans; [exact K|apply Send_keep]).
  rewrite (auth_of_map d d2) by apply K2. eapply auth_keep_set; [apply K2|apply put_auth_set|done].
Qed.

Lemma SendAuthMsg_spec p c key hs d hs' d' : SendAuthMsg encryptTcp env p c key hs d = Ok (hs', d') ->
  exists s, heap (base d) !! p = Some s /\ let i := auth_of (s_sessionId s) d in
    auth_set (s_sessionId s) (mkAuthInfo AUTH_PUBLICKEY (token i) key (authmsg i)) d d'.
Proof.
  unfold SendAuthMsg, SendAuthEncryptPsk, SendAuthSignMsg, UpdateSessionAuthPubkey, sess, dsess. intros Hr. inv_res.
  exists x. split; [done|]. set (i := mkAuthInfo _ _ _ _) in *.
  assert (P : auth_set (s_sessionId x) i d (put_auth (s_sessionId x) i d)) by apply put_auth_set.
  destruct (encryptTcp && _ && _); inv_res.
  - simplify_eq. destruct (negb (d_classSSL _) && _); inv_res; [done|].
    match goal with U : upd_ext _ _ _ = Ok _ |- _ => apply upd_ext_keep in U as K end.
    destruct (negb (ssl_GenPsk _)); inv_res; [by eapply auth_keep_set; [reflexivity|exact P|]|].
    destruct (ssl_GetPskEncrypt (e_ssl env)) as [n data]. destruct (n <=? 0); inv_res;
      (eapply auth_keep_set; [reflexivity|exact P|]); [done|]. etrans; [exact K|apply Send_keep].
  - eapply auth_keep_set; [reflexivity|exact P|apply Send_keep].
Qed.

(** One abstract step of [sid], or none; no other id moves. *)
Definition auth_step (keys : option bytes) (verifyType : Z) (buf : bytes) (sid : Z) (d d' : Daemon) : Prop :=
  frame d d' /\ (forall sid', sid' <> sid -> auth_of sid' d' = auth_of sid' d) /\
  (abs d' sid = abs d sid \/ auth_trans encryptTcp env keys verifyType buf (abs d sid) (abs d' sid)).

Lemma auth_keep_step keys vt buf sid d d' : auth_keep d d' -> auth_step keys vt buf sid d d'.
Proof.
  intros [F M]. split; [done|]. split; [intros; by apply auth_of_map|].
  left. unfold abs. by rewrite (auth_of_map d d').
Qed.

Lemma auth_set_step keys vt buf sid i d d' : auth_set sid i d d' ->
  auth_trans encryptTcp env keys vt buf (abs d sid) (abs_info i) -> auth_step keys vt buf sid d d'.
Proof.
  intros [F M] T. split; [done|]. split; [intros sid' Hne; rewrite M; by rewrite decide_False|].
  right. unfold abs. rewrite (M sid), decide_True by done. exact T.
Qed.

Lemma fail_step keys vt buf p c msg hs d hs' d' s : heap (base d) !! p = Some s ->
  HandleAuthFailed env p c msg hs d = Ok (hs', d') -> auth_step keys vt buf (s_sessionId s) d d'.
Proof.
  intros Hp Hf. apply HandleAuthFailed_spec in Hf as (s' & Hp' & Hs). simplify_eq.
  eapply auth_set_step; [exact Hs|]. apply tr_refuse.
Qed.

(** Two changes of one id in a row. *)
Lemma auth_set_twice sid i1 i2 d d1 d2 : auth_set sid i1 d d1 -> auth_set sid i2 d1 d2 -> auth_set sid i2 d d2.
Proof.
  intros [F1 M1] [F2 M2]. split; [by etrans|]. intros sid'. rewrite M2. case_decide; [done|]. rewrite M1.
  by rewrite decide_False.
Qed.

Lemma HandDaemonAuthInit_step p c hs d b d' s x : heap (base d) !! p = Some s -> ext d !! p = Some x ->
  GetSessionAuthStatus (s_sessionId s) d = AUTH_NONE ->
  HandDaemonAuthInit encryptTcp env p c hs d = Ok (b, d') ->
  auth_step (hdc_keys d) (d_verifyType x) (hs_buf hs) (s_sessionId s) d d'.
Proof.
  unfold HandDaemonAuthInit, sess, dsess. intros Hp Hx Hst Hr. inv_res. simplify_eq.
  match goal with U : upd_ext _ _ _ = Ok _ |- _ => apply upd_ext_keep in U as K end.
  eapply auth_set_step; [eapply auth_keep_set; [|apply put_auth_set|done]|].
  - etrans; [exact K|apply Send_keep].
  - unfold abs_info. cbn [authtype token Z.eqb AUTH_NONE].
    replace (bytes_eqb _ []) with false.
    + apply tr_issue. rewrite (abs_none _ _ Hst). destruct (bytes_eqb _ _); eauto.
    + symmetry. apply bool_decide_eq_false. intros E%(f_equal length). by rewrite token_length in E.
Qed.

Lemma HandDaemonAuthSignature_step p c hs d b d' s x : heap (base d) !! p = Some s -> ext d !! p = Some x ->
  GetSessionAuthStatus (s_sessionId s) d = AUTH_PUBLICKEY ->
  HandDaemonAuthSignature env p c hs d = Ok (b, d') ->
  auth_step (hdc_keys d) (d_verifyType x) (hs_buf hs) (s_sessionId s) d d'.
Proof.
  unfold HandDaemonAuthSignature, sess, dsess. intros Hp Hx Hst Hr. inv_res. simplify_eq.
  match goal with V : AuthVerify _ _ _ _ _ _ = Ok ?v |- _ => destruct v eqn:Ev; rename V into Hv end; inv_res.
  - match goal with U : SendAuthOkMsg _ _ _ _ _ _ _ = Ok _ |- _ => apply SendAuthOkMsg_keep in U as [K _] end.
    eapply auth_set_step; [eapply auth_keep_set; [reflexivity|apply put_auth_set|exact K]|].
    rewrite (abs_pubkey _ _ Hst). by apply tr_prove.
  - by eapply fail_step.
Qed.

Lemma DaemonSSLHandshake_step p c hs d b d' s x : heap (base d) !! p = Some s -> ext d !! p = Some x ->
  GetSessionAuthStatus (s_sessionId s) d = AUTH_PUBLICKEY -> encryptTcp = true ->
  DaemonSSLHandshake env p c hs d = Ok (b, d') ->
  auth_step (hdc_keys d) (d_verifyType x) (hs_buf hs) (s_sessionId s) d d'.
Proof.
  unfold DaemonSSLHandshake, sess, dsess. intros Hp Hx Hst Het Hr. inv_res. simplify_eq.
  destruct (negb (d_classSSL x)); inv_res; [by apply auth_keep_step|].
  destruct (_ && _); inv_res; [by apply auth_keep_step|].
  destruct (ssl_PerformHandshake (e_ssl env)) as [ret buf]. destruct (_ && _); inv_res; [by apply auth_keep_step|].
  set (q := if ret =? RET_SUCCESS then _ else _) in Hr.
  assert (K1 : auth_keep d q.2) by (unfold q; destruct (ret =? RET_SUCCESS); [apply Send_keep|done]).
  destruct q as [hs1 d1]. cbn in K1. destruct (ssl_SetHandshakeLabel (e_ssl env)) eqn:El; inv_res; [|by apply auth_keep_step].
  match goal with U : SendAuthOkMsg _ _ _ _ _ _ _ = Ok _ |- _ => apply SendAuthOkMsg_keep in U as [K _] end.
  eapply auth_set_step; [eapply auth_keep_set; [exact K1|apply put_auth_set|exact K]|].
  rewrite (abs_pubkey _ _ Hst). by apply tr_tls.
Qed.

(** Between two states only outputs, the known keys and [sid]'s entry differ,
    and [sid] still has its token. *)
Definition quiet (sid : Z) (d d' : Daemon) : Prop :=
  frame d d' /\ (forall sid', sid' <> sid -> auth_of sid' d' = auth_of sid' d) /\
  GetSessionAuthToken sid d' = GetSessionAuthToken sid d.

Lemma quiet_refl sid d : quiet sid d d.
Proof. by split. Qed.

Lemma quiet_trans sid d1 d2 d3 : quiet sid d1 d2 -> quiet sid d2 d3 -> quiet sid d1 d3.
Proof.
  intros (F1 & O1 & T1) (F2 & O2 & T2). split; [by etrans|]. split; [|congruence].
  intros sid' Hne. by rewrite O2, O1.
Qed.

Lemma auth_set_quiet sid i d d' : auth_set sid i d d' -> token i = GetSessionAuthToken sid d -> quiet sid d d'.
Proof.
  intros [F M] Ht. split; [done|]. split.
  - intros sid' Hne. by rewrite M, decide_False.
  - unfold GetSessionAuthToken at 1. by rewrite M, decide_True.
Qed.

Lemma UpdateKnownHosts_quiet sid key d : quiet sid d (UpdateKnownHosts env key d).
Proof. unfold UpdateKnownHosts. destruct (e_append env); by repeat split. Qed.

Lemma fail_quiet p c msg hs d hs' d' s : heap (base d) !! p = Some s ->
  HandleAuthFailed env p c msg hs d = Ok (hs', d') -> quiet (s_sessionId s) d d'.
Proof.
  intros Hp Hf. apply HandleAuthFailed_spec in Hf as (s' & Hp' & Hs). simplify_eq. by eapply auth_set_quiet.
Qed.

Lemma quiet_sess sid d d' p : quiet sid d d' -> heap (base d') !! p = heap (base d) !! p.
Proof. intros (F & _). by rewrite (fr_base _ _ F). Qed.

Lemma refuse_step keys vt buf p c msg hs d d1 hs' d' s : heap (base d) !! p = Some s -> quiet (s_sessionId s) d d1 ->
  HandleAuthFailed env p c msg hs d1 = Ok (hs', d') -> auth_step keys vt buf (s_sessionId s) d d'.
Proof.
  intros Hp Q Hf. rewrite <- (quiet_sess _ _ _ p Q) in Hp.
  pose proof (fail_quiet _ _ _ _ _ _ _ s Hp Hf) as Q2. destruct (quiet_trans _ _ _ _ Q Q2) as (F & O & _).
  apply HandleAuthFailed_spec in Hf as (s' & Hp' & Hs). simplify_eq.
  split; [done|]. split; [done|]. right. unfold abs at 2. rewrite (auth_set_eq _ _ _ _ Hs). apply tr_refuse.
Qed.

Lemma accept_step vt p c hs d d1 hs' d' s host key buf :
  heap (base d) !! p = Some s -> quiet (s_sessionId s) d d1 ->
  abs d (s_sessionId s) = Issued (GetSessionAuthToken (s_sessionId s) d) ->
  GetHostPubkeyInfo buf = (true, host, key) -> permitted env (hdc_keys d) host key ->
  SendAuthMsg encryptTcp env p c key hs d1 = Ok (hs', d') ->
  auth_step (hdc_keys d) vt buf (s_sessionId s) d d' /\ quiet (s_sessionId s) d d'.
Proof.
  intros Hp Q Ha Hk Hok Hr. rewrite <- (quiet_sess _ _ _ p Q) in Hp.
  apply SendAuthMsg_spec in Hr as (s' & Hp' & Hs). simplify_eq.
  pose proof (quiet_trans _ _ _ _ Q (auth_set_quiet _ _ _ _ Hs eq_refl)) as Q2. split; [|done].
  destruct Q2 as (F & O & _). split; [done|]. split; [done|]. right. unfold abs at 2.
  rewrite (auth_set_eq _ _ _ _ Hs), Ha. destruct Q as (_ & _ & <-). by eapply tr_accept.
Qed.

Lemma HandDaemonAuthPubkey_step p c hs d b d' s x : heap (base d) !! p = Some s -> ext d !! p = Some x ->
  GetSessionAuthStatus (s_sessionId s) d = AUTH_NONE -> 0 < zlen (GetSessionAuthToken (s_sessionId s) d) ->
  HandDaemonAuthPubkey encryptTcp env p c hs d = Ok (b, d') ->
  auth_step (hdc_keys d) (d_verifyType x) (hs_buf hs) (s_sessionId s) d d'.
Proof.
  intros Hp Hx Hst Htok. set (sid := s_sessionId s) in *.
  assert (Ha : abs d sid = Issued (GetSessionAuthToken sid d)).
  { rewrite (abs_none _ _ Hst). destruct (bytes_eqb _ _) eqn:Eb; [|done]. apply bytes_eqb_eq in Eb.
    rewrite Eb in Htok. cbn in Htok. lia. }
  unfold HandDaemonAuthPubkey. destruct (connectstatus env) eqn:Ec.
  { unfold HandConnectValidationPubkey. destruct (GetHostPubkeyInfo (hs_buf hs)) as [[[] host] key] eqn:Eg;
      cbn [negb]; intros Hr; inv_res; [|by apply auth_keep_step].
    destruct (CheckAuthPubKeyIsValid env key) eqn:Ev; inv_res.
    - eapply accept_step; eauto using quiet_refl. unfold permitted. by rewrite Ec.
    - unfold sess in *. inv_res. simplify_eq.
      match goal with U : HandleAuthFailed _ _ _ _ _ _ = Ok _ |- _ => apply (refuse_step (hdc_keys d) (d_verifyType x) (hs_buf hs) _ _ _ _ d _ _ _ s Hp (quiet_refl _ _)) in U as (F & O & T) end.
      split; [etrans; [exact F|apply Send_keep]|]. done. }
  destruct (GetHostPubkeyInfo (hs_buf hs)) as [[[] host] key] eqn:Eg; cbn [negb]; intros Hr; inv_res;
    [|eapply (refuse_step _ _ _ p _ _ _ d); eauto using quiet_refl].
  destruct (AlreadyInKnownHosts key d) eqn:Ek; inv_res.
  { eapply accept_step; eauto using quiet_refl. unfold permitted. rewrite Ec. by left. }
  assert (Q0 : quiet sid d d0) by (destruct (e_late env); inv_res; [apply quiet_refl|by eapply fail_quiet]).
  assert (S1 : auth_step (hdc_keys d) (d_verifyType x) (hs_buf hs) sid d d1 /\ quiet sid d d1).
  { assert (Hp0 : heap (base d0) !! p = Some s) by (by rewrite (quiet_sess _ _ _ p Q0)).
    destruct x0.
    - split; [by eapply refuse_step|]. eapply quiet_trans; [exact Q0|by eapply fail_quiet].
    - eapply accept_step; eauto. unfold permitted. rewrite Ec. auto.
    - eapply accept_step; [exact Hp|eapply quiet_trans; [exact Q0|apply UpdateKnownHosts_quiet]|done|exact Eg| |exact E1].
      unfold permitted. rewrite Ec. auto. }
  destruct S1 as [S1 Q1]. destruct (e_late env); inv_res; [|exact S1].
  eapply refuse_step; [exact Hp|exact Q1|eassumption].
Qed.

Lemma HandDaemonAuth_step p c hs d b d' s x : heap (base d) !! p = Some s -> ext d !! p = Some x ->
  authEnable d = true -> (hs_authType hs = AUTH_NONE -> GetSessionAuthStatus (s_sessionId s) d = AUTH_NONE) ->
  HandDaemonAuth encryptTcp env p c hs d = Ok (b, d') ->
  auth_step (hdc_keys d) (d_verifyType x) (hs_buf hs) (s_sessionId s) d d'.
Proof.
  intros Hp Hx Hen Hnone. unfold HandDaemonAuth, sess, dsess. rewrite Hp, Hx, Hen.
  cbn [deref mbind res_bind negb]. rewrite andb_false_r.
  destruct (low_version _). { intros. inv_res. by eapply fail_step. }
  destruct (connectstatus env && _). { intros. inv_res. by eapply fail_step. }
  destruct (_ =? AUTH_OK). { intros. inv_res. by apply auth_keep_step. }
  destruct (hs_authType hs =? AUTH_NONE) eqn:En; breflect. { by eapply HandDaemonAuthInit_step; eauto. }
  destruct (_ && _ && _) eqn:E1. { breflect. by eapply HandDaemonAuthPubkey_step. }
  destruct (_ && _) eqn:E2 in |- *. { breflect. by eapply HandDaemonAuthSignature_step. }
  destruct (_ && _) eqn:E3 in |- *. { breflect. by eapply DaemonSSLHandshake_step. }
  intros. inv_res. by apply auth_keep_step.
Qed.
End Handlers.

(** ** One packet *)

(** Only fields of the session [p] changed. *)
Definition touched (p : addr) (d d' : Daemon) : Prop :=
  auth_keep d d' /\ hdc_keys d' = hdc_keys d /\ is_Some (ext d' !! p).

Lemma upd_ext_touched p f d d' : upd_ext p f d = Ok d' -> touched p d d'.
Proof. unfold upd_ext. intros. inv_res. split; [by split|]. cbn. rewrite lookup_insert_eq. eauto. Qed.

Lemma touched_trans p d1 d2 d3 : touched p d1 d2 -> touched p d2 d3 -> touched p d1 d3.
Proof. intros (K1 & H1 & _) (K2 & H2 & S2). split; [by etrans|]. split; [congruence|done]. Qed.

Definition message (env : Env) (payload : bytes) : SessionHandShake :=
  (ParseFromString SessionHandShake_type (mkSessionHandShake [] (e_junk env).1 (e_junk env).2 [] [] []) payload).2.

Section Fetch.
Context `{OpenSSL} (encryptTcp : bool) (env : Env).

Lemma ParsePeerSupportFeatures_touched p l d d' : is_Some (ext d !! p) ->
  ParsePeerSupportFeatures encryptTcp env p l d = Ok d' -> touched p d d'.
Proof.
  intros Hs. unfold ParsePeerSupportFeatures. destruct (om_find _ _); intros Hr; inv_res; [by eapply upd_ext_touched|].
  by repeat split.
Qed.

Lemma GetServerCapability_touched p hs d d' : GetServerCapability encryptTcp env p hs d = Ok d' -> touched p d d'.
Proof.
  unfold GetServerCapability. intros Hr. inv_res.
  match goal with U : upd_ext _ _ d = Ok _ |- _ => apply upd_ext_touched in U as T end.
  match type of Hr with (if ?b then _ else _) = _ => destruct b end; inv_res; [|done].
  eapply touched_trans; [exact T|]. case_bool_decide.
  - match goal with U : upd_ext _ _ _ = Ok _ |- _ => apply upd_ext_touched in U as T2 end.
    eapply touched_trans; [exact T2|]. by eapply ParsePeerSupportFeatures_touched; [apply T2|].
  - inv_res. by eapply ParsePeerSupportFeatures_touched; [apply T|].
Qed.

(** The first packet moves the session to the id the host chose. *)
Lemma DaemonSessionHandshakeInit_spec p hs d hs' d' :
  DaemonSessionHandshakeInit encryptTcp env p hs d = Ok (hs', d') ->
  (exists s x, heap (base d') !! p = Some s /\ s_sessionId s = hs_sessionId hs /\ ext d' !! p = Some x) /\
  mapAuthStatus d' = mapAuthStatus d /\ authEnable d' = authEnable d /\ hdc_keys d' = hdc_keys d /\
  delivered d' = delivered d /\ hs_authType hs' = hs_authType hs /\ hs_buf hs' = hs_buf hs.
Proof.
  unfold DaemonSessionHandshakeInit, sess, upd. intros Hr. inv_res.
  match goal with U : upd_ext _ _ _ = Ok _ |- _ => apply upd_ext_touched in U as ((F1 & M1) & K1 & _) end.
  match goal with U : GetServerCapability _ _ _ _ _ = Ok _ |- _ => apply GetServerCapability_touched in U as ((F2 & M2) & K2 & (x' & Hx')) end.
  match goal with A : AdminSession _ _ _ _ = Ok (_, ?b) |- _ => assert (Hb : heap b = heap (base x1));
    [unfold AdminSession in A; cbn in A; by inv_res|] end.
  set (y := if s_connType x =? CONN_SERIAL then _ else _) in *.
  assert (Hy : base y = s /\ mapAuthStatus y = mapAuthStatus x1 /\ authEnable y = authEnable x1 /\
    hdc_keys y = hdc_keys x1 /\ delivered y = delivered x1)
    by (unfold y; destruct (s_connType x =? CONN_SERIAL), (s_connType x =? CONN_USB); done).
  destruct Hy as (Y1 & Y2 & Y3 & Y4 & Y5), F1 as [B1 N1 D1], F2 as [B2 N2 D2]. cbn in *.
  split_and!; try congruence; [|done..]. exists (set_sessionId (hs_sessionId hs) x3), x'.
  rewrite B2, Y1, Hb, B1. cbn. by rewrite lookup_insert_eq.
Qed.

(** The id a handshake message is about. *)
Definition handshake_id (p : addr) (hs : SessionHandShake) (d : Daemon) : option Z :=
  if hs_authType hs =? AUTH_NONE then Some (hs_sessionId hs) else s_sessionId <$> heap (base d) !! p.

Lemma DaemonSessionHandshake_step p c payload d b d' : authEnable d = true ->
  DaemonSessionHandshake encryptTcp env p c payload d = Ok (b, d') ->
  authEnable d' = true /\ delivered d' = delivered d /\
  (mapAuthStatus d' = mapAuthStatus d \/
   exists sid vt, handshake_id p (message env payload) d = Some sid /\
     (hs_authType (message env payload) <> AUTH_NONE -> d_verifyType <$> ext d !! p = Some vt) /\
     (forall sid', sid' <> sid -> abs d' sid' = abs d sid') /\
     (abs d' sid = abs d sid \/
      auth_trans encryptTcp env (hdc_keys d) vt (hs_buf (message env payload)) (abs d sid) (abs d' sid))).
Proof.
  intros Hen. unfold DaemonSessionHandshake. unfold message, handshake_id.
  destruct (ParseFromString _ _ payload) as [ok hs]. cbn [snd].
  destruct (negb (bytes_eqb _ _)). { intros. unfold upd in *. inv_res. auto. }
  destruct (hs_authType hs =? AUTH_NONE) eqn:En; cbn [andb].
  - destruct (negb (_ =? AUTH_NONE)) eqn:Es. { intros. inv_res. auto. }
    intros. inv_res. breflect.
    match goal with U : DaemonSessionHandshakeInit _ _ _ _ _ = Ok _ |- _ => apply DaemonSessionHandshakeInit_spec in U
      as ((si & x & Hp & Hsid & Hx) & M & A & K & D & Ht & Hbuf) end.
    match goal with U : HandDaemonAuth _ _ _ _ _ _ = Ok _ |- _ => apply (HandDaemonAuth_step _ _ _ _ _ _ _ _ si x) in U
      as (F & O & T); [|done|done|congruence|] end.
    + split; [by rewrite (fr_enable _ _ F), A|]. split; [by rewrite (fr_delivered _ _ F)|]. right.
      exists (hs_sessionId hs), (d_verifyType x). split; [done|]. split; [done|]. rewrite Hsid in *.
      unfold abs in *. split; [intros sid' Hne; by rewrite O, (auth_of_map d)|].
      rewrite K, Hbuf, (auth_of_map d d0) in T by done. done.
    + intros _. unfold GetSessionAuthStatus in *. by rewrite (auth_of_map d), Hsid.
  - breflect. cbn [mbind res_bind]. intros Hr.
    assert (exists si x, heap (base d) !! p = Some si /\ ext d !! p = Some x) as (si & x & Hp & Hx)
      by (unfold HandDaemonAuth, sess, dsess in Hr; inv_res; eauto).
    destruct (HandDaemonAuth_step _ _ _ _ _ _ _ _ si x Hp Hx Hen ltac:(done) Hr) as (F & O & T).
    split; [by rewrite (fr_enable _ _ F)|]. split; [by rewrite (fr_delivered _ _ F)|]. right.
    exists (s_sessionId si), (d_verifyType x). rewrite Hp, Hx. split; [done|]. split; [done|]. unfold abs in *.
    split; [intros sid' Hne; by rewrite O|done].
Qed.

(** [d'] extends [d]'s deliveries by at most the given command. *)
Definition may_deliver (p : addr) (command : Z) (payload : bytes) (d d' : Daemon) : Prop :=
  base d' = base d /\ mapAuthStatus d' = mapAuthStatus d /\ authEnable d' = authEnable d /\
  (delivered d' = delivered d \/ exists t wanted class, task_class command = Some wanted /\
     delivered d' = delivered d ++ [mkDelivery p t wanted class command payload]).

Lemma keep_may_deliver p command payload d d' : auth_keep d d' -> may_deliver p command payload d d'.
Proof. intros [[B A D] M]. by repeat split; auto. Qed.

Lemma DispatchToTask_may p c command payload d b d' :
  DispatchToTask env p c command payload d = Ok (b, d') -> may_deliver p command payload d d'.
Proof.
  unfold DispatchToTask, RedirectToTask. intros Hr. inv_res.
  match goal with U : upd_ext _ _ d = Ok _ |- _ => apply upd_ext_keep in U as K1 end.
  match type of Hr with match ?o with _ => _ end = _ => destruct o as [tk|] end; inv_res; [|by apply keep_may_deliver].
  destruct (task_class command) as [w|] eqn:Ew; inv_res; [|by apply keep_may_deliver].
  unfold TaskCommandDispatch in Hr. inv_res. destruct (_ && _); inv_res.
  - match goal with U : upd_ext _ _ _ = Ok d' |- _ => apply upd_ext_keep in U as K2 end.
    apply keep_may_deliver. by etrans.
  - match goal with U : upd_ext _ (set_tasks _) ?d1 = Ok ?d2 |- _ => first [constr_eq d2 d'|apply upd_ext_keep in U as K2] end.
    assert (K3 : auth_keep d x5) by (by etrans). destruct K3 as [[B A D] M].
    split; [done|]. split; [done|]. split; [done|]. right. do 3 eexists. split; [exact Ew|]. cbn. by rewrite D.
Qed.

Lemma CheckAuthStatus_spec p c command d b d' s : heap (base d) !! p = Some s ->
  CheckAuthStatus p c command d = Ok (b, d') ->
  auth_keep d d' /\ (b = true -> d' = d /\ (authEnable d = true -> GetSessionAuthStatus (s_sessionId s) d = AUTH_OK \/
    command = CMD_KERNEL_HANDSHAKE \/ command = CMD_KERNEL_CHANNEL_CLOSE \/ command = CMD_SSL_HANDSHAKE)).
Proof.
  unfold CheckAuthStatus, sess. intros -> Hr. cbn [deref mbind res_bind] in Hr.
  destruct (_ && _) eqn:E; inv_res.
  - split; [|done]. etrans; [|apply Send_keep]. destruct (bytes_eqb _ _); [done|apply Send_keep].
  - split; [done|]. intros _. split; [done|]. intros Hen. rewrite Hen in E. cbn [andb] in E.
    destruct (_ =? AUTH_OK) eqn:E1; [left; by breflect|]. destruct (_ =? CMD_KERNEL_HANDSHAKE) eqn:E2; [right; left; by breflect|].
    destruct (_ =? CMD_KERNEL_CHANNEL_CLOSE) eqn:E3; [right; right; left; by breflect|].
    destruct (_ =? CMD_SSL_HANDSHAKE) eqn:E4; [right; right; right; by breflect|done].
Qed.

(** Any packet but a handshake. *)
Lemma FetchCommand_other p c command payload d b d' s : heap (base d) !! p = Some s ->
  command <> CMD_KERNEL_HANDSHAKE -> FetchCommand encryptTcp env p c command payload d = Ok (b, d') ->
  may_deliver p command payload d d' /\
  (delivered d' <> delivered d ->
   (authEnable d = true -> GetSessionAuthStatus (s_sessionId s) d = AUTH_OK) /\ CheckControl env command = true).
Proof.
  intros Hp Hne. unfold FetchCommand. unfold sess at 1. rewrite Hp. cbn [deref mbind res_bind].
  destruct (negb (ReportCommandEvent _ _)). { intros. inv_res. split; [apply keep_may_deliver, Send_keep|done]. }
  intros Hr. inv_res.
  match goal with U : CheckAuthStatus _ _ _ _ = Ok (?v, _) |- _ =>
    pose proof (CheckAuthStatus_spec _ _ _ _ _ _ s Hp U) as [K Hpass]; destruct v; cbn [negb] in Hr; inv_res end.
  2:{ split; [by apply keep_may_deliver|]. by destruct K as [[_ _ ->] _]. }
  destruct (Hpass eq_refl) as [-> Hok].
  rewrite (proj2 (Z.eqb_neq command CMD_KERNEL_HANDSHAKE)) in Hr by done.
  destruct (command =? CMD_KERNEL_CHANNEL_CLOSE) eqn:E2; [|destruct (command =? CMD_HEARTBEAT_MSG) eqn:E3].
  - inv_res. match goal with U : upd_ext _ _ _ = Ok ?d2 |- _ => apply upd_ext_keep in U as K2 end.
    assert (K3 : auth_keep d d').
    { destruct payload as [|n rest]; inv_res; [done|]. destruct (negb _); [etrans; [exact K2|apply Send_keep]|done]. }
    split; [by apply keep_may_deliver|]. by destruct K3 as [[_ _ ->] _].
  - inv_res. match goal with U : upd_ext _ _ _ = Ok ?d2 |- _ => apply upd_ext_keep in U as K2 end.
    split; [by apply keep_may_deliver|]. by destruct K2 as [[_ _ ->] _].
  - destruct (CheckControl env command) eqn:Ec; inv_res.
    + pose proof (DispatchToTask_may _ _ _ _ _ _ _ Hr) as M. split; [done|]. intros Hd. split; [|done]. intros Hen.
      breflect. destruct (Hok Hen) as [?|[?|[?| ->]]]; [done..|].
      destruct M as (_ & _ & _ & [?|(t & w & cl & Hw & _)]); [done|]. by vm_compute in Hw.
    + split; [|done]. apply keep_may_deliver. etrans; apply Send_keep.
Qed.

(** A handshake packet passes all the filters. *)
Lemma FetchCommand_handshake p c payload d s : heap (base d) !! p = Some s ->
  FetchCommand encryptTcp env p c CMD_KERNEL_HANDSHAKE payload d = DaemonSessionHandshake encryptTcp env p c payload d.
Proof.
  intros Hp. unfold FetchCommand, CheckAuthStatus, sess at 1 2. rewrite Hp. cbn [deref mbind res_bind].
  change (ReportCommandEvent env CMD_KERNEL_HANDSHAKE) with true. cbn [negb].
  change (CMD_KERNEL_HANDSHAKE =? CMD_KERNEL_HANDSHAKE) with true. cbn [negb]. by rewrite !andb_false_r.
Qed.

Lemma FetchCommand_sess p c cmd payload d r : FetchCommand encryptTcp env p c cmd payload d = Ok r ->
  exists s, heap (base d) !! p = Some s.
Proof. unfold FetchCommand, sess. intros Hr. apply bind_Ok in Hr as (s & Hs & _). apply deref_Ok in Hs. eauto. Qed.

(** What any packet does to the authorisation of any id. *)
Lemma FetchCommand_step p c cmd payload d b d' : authEnable d = true ->
  FetchCommand encryptTcp env p c cmd payload d = Ok (b, d') ->
  authEnable d' = true /\
  ((forall sid, abs d' sid = abs d sid) \/
   cmd = CMD_KERNEL_HANDSHAKE /\
   exists sid vt, handshake_id p (message env payload) d = Some sid /\
     (hs_authType (message env payload) <> AUTH_NONE -> d_verifyType <$> ext d !! p = Some vt) /\
     (forall sid', sid' <> sid -> abs d' sid' = abs d sid') /\
     auth_trans encryptTcp env (hdc_keys d) vt (hs_buf (message env payload)) (abs d sid) (abs d' sid)).
Proof.
  intros Hen Hf. destruct (FetchCommand_sess _ _ _ _ _ _ Hf) as [s Hp].
  destruct (decide (cmd = CMD_KERNEL_HANDSHAKE)) as [->|Hne].
  - rewrite (FetchCommand_handshake _ _ _ _ s Hp) in Hf.
    destruct (DaemonSessionHandshake_step _ _ _ _ _ _ Hen Hf) as (A & _ & [M|(sid & vt & Hid & Hvt & O & T)]).
    + split; [done|]. left. intros sid. unfold abs. by rewrite (auth_of_map d d').
    + split; [done|]. destruct T as [T|T]; [left|right; split; [done|]; by exists sid, vt].
      intros sid'. destruct (decide (sid' = sid)) as [->|Hn]; auto.
  - destruct (FetchCommand_other _ _ _ _ _ _ _ s Hp Hne Hf) as [(_ & M & A & _) _].
    split; [congruence|]. left. intros sid. unfold abs. by rewrite (auth_of_map d d').
Qed.
End Fetch.

(** C6. The authorisation table refines the abstract machine: with authentication
    switched on, a packet changes the state of at most one id, only if it is a
    handshake packet, and then by a transition of the machine: a fresh token,
    the acceptance of a permitted key (validated, known or agreed to by the
    user), the proof of possession of that key for that token, or a refusal.
    Nothing else, in particular no other command and no malformed message,
    moves an id towards authorisation. *)
Theorem daemon_auth_refines `{OpenSSL} (encryptTcp : bool) (env : Env) (p : addr) (c cmd : Z) (payload : bytes)
    (d d' : Daemon) (b : bool) :
  authEnable d = true -> FetchCommand encryptTcp env p c cmd payload d = Ok (b, d') ->
  (forall sid, abs d' sid = abs d sid) \/
  (cmd = CMD_KERNEL_HANDSHAKE /\
   exists sid vt, handshake_id p (message env payload) d = Some sid /\
     (hs_authType (message env payload) <> AUTH_NONE -> d_verifyType <$> ext d !! p = Some vt) /\
     (forall sid', sid' <> sid -> abs d' sid' = abs d sid') /\
     auth_trans encryptTcp env (hdc_keys d) vt (hs_buf (message env payload)) (abs d sid) (abs d' sid)).
Proof. intros Hen Hf. by apply (FetchCommand_step encryptTcp env p c cmd payload d b d' Hen Hf). Qed.

(** ** Runs *)

Section Run.
Context `{OpenSSL} (encryptTcp : bool).

(** A packet as it was handled: the state before, the system's answers, the
    session and its message. *)
Record Event := mkEvent { v_before : Daemon; v_env : Env; v_p : addr; v_channel : Z; v_cmd : Z; v_payload : bytes }.

(** Packets arrive in any sessions and order; between them the session layer
    may do anything to its own state.  The history has the newest event first. *)
Inductive run (d0 : Daemon) : list Event -> Daemon -> Prop :=
| run_start : run d0 [] d0
| run_packet h d env p c cmd payload b d' : run d0 h d ->
    FetchCommand encryptTcp env p c cmd payload d = Ok (b, d') ->
    run d0 (mkEvent d env p c cmd payload :: h) d'
| run_other h d d' : run d0 h d -> mapAuthStatus d' = mapAuthStatus d -> authEnable d' = authEnable d ->
    delivered d' = delivered d -> run d0 h d'.

Definition e_message (e : Event) : SessionHandShake := message (v_env e) (v_payload e).
Definition about (sid : Z) (e : Event) : Prop :=
  v_cmd e = CMD_KERNEL_HANDSHAKE /\ handshake_id (v_p e) (e_message e) (v_before e) = Some sid.

(** [sid] was given the token [tok]. *)
Definition issued (sid : Z) (tok : bytes) (h : list Event) : Prop :=
  exists e, e ∈ h /\ about sid e /\ tok = GetSecureRandomString (e_random (v_env e)) SHA_DIGEST_LENGTH.

(** After that, the key [key] was presented for [sid] and permitted. *)
Definition accepted (sid : Z) (tok key : bytes) (h : list Event) : Prop :=
  exists h1 e h2 host, h = h1 ++ e :: h2 /\ about sid e /\ issued sid tok h2 /\
    GetHostPubkeyInfo (hs_buf (e_message e)) = (true, host, key) /\
    permitted (v_env e) (hdc_keys (v_before e)) host key.

(** After that, the owner of [key] signed the token, or completed a TLS
    handshake with the secret encrypted for [key]. *)
Definition proved (sid : Z) (h : list Event) : Prop :=
  exists h1 e h2 tok key, h = h1 ++ e :: h2 /\ about sid e /\ accepted sid tok key h2 /\
    ((exists vt, (hs_authType (e_message e) <> AUTH_NONE -> d_verifyType <$> ext (v_before e) !! v_p e = Some vt) /\
        AuthVerify (e_bioOk (v_env e)) (e_ctxOk (v_env e)) vt (hs_buf (e_message e)) tok key = Ok true) \/
     (encryptTcp = true /\ ssl_SetHandshakeLabel (e_ssl (v_env e)) = true)).

(** What the history must contain for a state of [sid]. *)
Definition justified (sid : Z) (h : list Event) (st : AuthState) : Prop :=
  match st with
  | Unknown | Refused => True
  | Issued tok => issued sid tok h
  | Accepted tok key => accepted sid tok key h
  | Authorised => proved sid h
  end.

Lemma justified_cons sid e h st : justified sid h st -> justified sid (e :: h) st.
Proof.
  destruct st; cbn; try done.
  - intros (e' & Hin & Hr). exists e'. split; [by right|done].
  - intros (h1 & e' & h2 & host & -> & Hr). exists (e :: h1), e', h2, host. by split.
  - intros (h1 & e' & h2 & tok & key & -> & Hr). exists (e :: h1), e', h2, tok, key. by split.
Qed.

(** The abstract machine only reaches justified states. *)
Lemma justified_step sid e h st st' vt : about sid e -> justified sid h st ->
  (hs_authType (e_message e) <> AUTH_NONE -> d_verifyType <$> ext (v_before e) !! v_p e = Some vt) ->
  auth_trans encryptTcp (v_env e) (hdc_keys (v_before e)) vt (hs_buf (e_message e)) st st' ->
  justified sid (e :: h) st'.
Proof.
  intros Ha Hj Hvt T. destruct T; cbn in *.
  - exists e. split; [left|]. by split.
  - exists [], e, h, host. by split_and!.
  - exists [], e, h, tok, key. split_and!; [done..|]. left. by exists vt.
  - exists [], e, h, tok, key. split_and!; [done..|]. by right.
  - done.
Qed.

Lemma run_justified d0 h d : mapAuthStatus d0 = [] -> authEnable d0 = true -> run d0 h d ->
  authEnable d = true /\ forall sid, justified sid h (abs d sid).
Proof.
  intros Hm Hen. induction 1 as [|h d env p c cmd payload b d' Hrun [IHe IH] Hf|h d d' Hrun [IHe IH] M A D].
  - split; [done|]. intros sid. unfold abs, auth_of. by rewrite Hm.
  - destruct (FetchCommand_step _ _ _ _ _ _ _ _ _ IHe Hf) as [A [E|(-> & sid & vt & Hid & Hvt & O & T)]];
      (split; [done|]); intros sid'.
    + rewrite E. by apply justified_cons.
    + destruct (decide (sid' = sid)) as [->|Hne]; [|rewrite O by done; by apply justified_cons].
      eapply (justified_step sid (mkEvent d env p c _ payload)); [by split|apply IH|exact Hvt|exact T].
  - split; [congruence|]. intros sid. unfold abs. by rewrite (auth_of_map d d').
Qed.

(** C5. No command without proof: start a daemon that requires authentication
    with an empty authorisation table, and let packets arrive in any sessions
    and any order, interleaved with anything the session layer does.  Every
    command that reached a task came in a session whose id had, in this order,
    been given a token, presented a key that was validated, already known or
    agreed to by the user, and proved to own that key by a signature of that
    token (or by completing TLS with the secret encrypted for it); the control
    switch of the command's class was on, too. *)
Theorem commands_need_proof (d0 d : Daemon) (h : list Event) (v : Delivery) :
  mapAuthStatus d0 = [] -> authEnable d0 = true -> delivered d0 = [] -> run d0 h d -> v ∈ delivered d ->
  exists h1 e h2 s, h = h1 ++ e :: h2 /\ v_p e = v_session v /\ v_cmd e = v_command v /\ v_payload e = v_data v /\
    heap (base (v_before e)) !! v_p e = Some s /\ proved (s_sessionId s) h2 /\ CheckControl (v_env e) (v_cmd e) = true.
Proof.
  intros Hm Hen Hd. induction 1 as [|h d env p c cmd payload b d' Hrun IH Hf|h d d' Hrun IH M A D].
  - rewrite Hd. by intros ?%not_elem_of_nil.
  - intros Hv. destruct (run_justified _ _ _ Hm Hen Hrun) as [He Hj].
    assert (Hold : v ∈ delivered d -> exists h1 e h2 s, mkEvent d env p c cmd payload :: h = h1 ++ e :: h2 /\
      v_p e = v_session v /\ v_cmd e = v_command v /\ v_payload e = v_data v /\
      heap (base (v_before e)) !! v_p e = Some s /\ proved (s_sessionId s) h2 /\ CheckControl (v_env e) (v_cmd e) = true).
    { intros Hin. destruct (IH Hin) as (h1 & e & h2 & s & -> & Hr). by exists (mkEvent d env p c cmd payload :: h1), e, h2, s. }
    destruct (FetchCommand_sess _ _ _ _ _ _ _ _ Hf) as [s Hp].
    destruct (decide (cmd = CMD_KERNEL_HANDSHAKE)) as [->|Hne].
    + rewrite (FetchCommand_handshake _ _ _ _ _ _ s Hp) in Hf.
      destruct (DaemonSessionHandshake_step _ _ _ _ _ _ _ _ He Hf) as (_ & Hdl & _). rewrite Hdl in Hv. auto.
    + destruct (FetchCommand_other _ _ _ _ _ _ _ _ _ s Hp Hne Hf) as [(_ & _ & _ & Hdl) Hok].
      destruct Hdl as [Hdl|(t & w & cl & _ & Hdl)]; [rewrite Hdl in Hv; auto|].
      rewrite Hdl in Hv. apply elem_of_app in Hv as [Hv| ->%list_elem_of_singleton]; [auto|].
      destruct Hok as [Hst Hc]; [rewrite Hdl; intros E%(f_equal length); rewrite length_app in E; cbn in E; lia|].
      exists [], (mkEvent d env p c cmd payload), h, s. cbn. split_and!; try done.
      specialize (Hj (s_sessionId s)). specialize (Hst He). unfold abs, abs_info, GetSessionAuthStatus in *.
      by rewrite Hst in Hj.
  - rewrite D. auto.
Qed.
End Run.

(** ** A run *)

#[local] Instance toy384 : OpenSSL := toy_openssl 384.

(** The user agrees to any key; nothing is switched off. *)
Definition demo_env : Env := mkEnv (fun _ => (0, [])) (fun _ _ => true) [] true (13, str "auth_result:1") false
  (str "device") (Some [1; 2; 3]) None true (fun k => Some k) true true (0, 0) true 0 true (Some 100) true
  (mkSslEnv true true (0, []) 0 (0, []) false true).

(** A daemon with one USB session that has not shaken hands. *)
Definition demo_daemon : Daemon :=
  let s := mkSession false false false CONN_USB 3 0 2 false false true false 0 None false in
  mkDaemon (mkBase false {[ 1 := s ]} [(3, 1)] 1 [] [] false false [] [] []) {[ 1 := new_dsession 0 ]} [] true None 3 0 [] [].

Definition demo_message (authType : Z) (buf : bytes) : bytes :=
  SerializeToString SessionHandShake_type (mkSessionHandShake HANDSHAKE_MESSAGE authType 7 (str "key") buf (str "Ver: 3.1.0e")).

Definition demo_token : bytes := GetSecureRandomString (e_random demo_env) SHA_DIGEST_LENGTH.
Definition demo_sign (k : Z) (tok : bytes) : bytes :=
  match @RsaSignAndBase64 toy384 true (Some k) RSA_3072_SHA512 tok with Ok (Some p) => p | _ => [] end.

(** The host's three messages and a command. *)
Definition demo_packets : list (Z * bytes) :=
  [(CMD_KERNEL_HANDSHAKE, demo_message AUTH_NONE (TlvAppend [] TAG_AUTH_TYPE (str "1")).2);
   (CMD_KERNEL_HANDSHAKE, demo_message AUTH_PUBLICKEY (str "pc" ++ [12; 5]));
   (CMD_KERNEL_HANDSHAKE, demo_message AUTH_SIGNATURE (demo_sign 5 demo_token));
   (CMD_UNITY_EXECUTE, str "ls")].

Fixpoint demo_run (packets : list (Z * bytes)) (d : Daemon) : res Daemon :=
  match packets with
  | [] => Ok d
  | (cmd, payload) :: rest => '((_, d') : bool * Daemon) ← FetchCommand false demo_env 1 9 cmd payload d; demo_run rest d'
  end.

Lemma demo_run_run d0 h d packets d' : run false d0 h d -> demo_run packets d = Ok d' ->
  exists h', run false d0 (h' ++ h) d'.
Proof.
  revert h d. induction packets as [|[cmd payload] rest IH]; cbn [demo_run]; intros h d Hr He; inv_res.
  - by exists [].
  - eapply run_packet in Hr; [|eassumption]. destruct (IH _ _ Hr He) as [h' Hh].
    eexists (h' ++ [_]). by rewrite <- app_assoc.
Qed.

Lemma commands_need_proof_witness : exists d v h e h2 s, demo_run demo_packets demo_daemon = Ok d /\
  v ∈ delivered d /\ v_command v = CMD_UNITY_EXECUTE /\ run false demo_daemon h d /\
  heap (base (v_before e)) !! v_p e = Some s /\ proved false (s_sessionId s) h2.
Proof.
  destruct (demo_run demo_packets demo_daemon) as [d| | |] eqn:E; [|exfalso; vm_compute in E; discriminate..].
  assert (Hv : exists v, v ∈ delivered d /\ v_command v = CMD_UNITY_EXECUTE).
  { vm_compute in E. injection E as <-. eexists. split; [left|reflexivity]. }
  destruct Hv as (v & Hv & Hcmd). destruct (demo_run_run demo_daemon [] demo_daemon _ _ (run_start _ _) E) as [h Hrun].
  destruct (commands_need_proof false demo_daemon d (h ++ []) v eq_refl eq_refl eq_refl Hrun Hv)
    as (h1 & e & h2 & s & _ & _ & _ & _ & Hs & Hp & _).
  exists d, v, (h ++ []), e, h2, s. auto 10.
Defined.

Lemma daemon_auth_refines_witness : exists d b d' sid vt,
  demo_run (take 1 demo_packets) demo_daemon = Ok d /\
  FetchCommand false demo_env 1 9 CMD_KERNEL_HANDSHAKE (demo_message AUTH_PUBLICKEY (str "pc" ++ [12; 5])) d = Ok (b, d') /\
  auth_trans false demo_env None vt (str "pc" ++ [12; 5]) (abs d sid) (abs d' sid) /\ abs d' sid = Accepted demo_token [5].
Proof.
  destruct (demo_run (take 1 demo_packets) demo_daemon) as [d| | |] eqn:E; [|exfalso; vm_compute in E; discriminate..].
  vm_compute in E. injection E as <-.
  match goal with |- context [Ok ?s] => set (d := s) end.
  destruct (FetchCommand false demo_env 1 9 CMD_KERNEL_HANDSHAKE (demo_message AUTH_PUBLICKEY (str "pc" ++ [12; 5])) d)
    as [[b d']| | |] eqn:E; [|exfalso; vm_compute in E; discriminate..].
  pose proof E as Hd'. vm_compute in Hd'. injection Hd' as Hb Hd'.
  destruct (daemon_auth_refines false demo_env 1 9 CMD_KERNEL_HANDSHAKE _ d d' b eq_refl E)
    as [Hsame|(_ & sid & vt & Hid & _ & _ & T)].
  - exfalso. specialize (Hsame 7). rewrite <- Hd' in Hsame. vm_compute in Hsame. discriminate.
  - vm_compute in Hid. injection Hid as <-. exists d, b, d', 7, vt. split; [done|]. split; [exact E|]. split; [exact T|].
    rewrite <- Hd'. vm_compute. reflexivity.
Defined.

(** ** Authorisation follows the id *)

(** Every allocation for a USB session succeeds. *)
Definition usb_malloc_ok (menv : MallocEnv) : bool :=
  e_new menv && e_mapTask menv && e_listKey menv && e_poll menv && e_pollInit menv && e_dataFd menv && e_usb menv.

Lemma MallocSession_usb menv sid b : sid <> 0 -> usb_malloc_ok menv = true ->
  exists s b', MallocSession menv false CONN_USB true sid b = Ok (Some (e_addr menv), b') /\
    heap b' !! e_addr menv = Some s /\ s_sessionId s = sid /\ s_childCleared s = false /\ s_isDead s = false.
Proof.
  unfold usb_malloc_ok. intros Hz He. breflect. unfold MallocSession.
  rewrite (proj2 (Z.eqb_neq sid 0)) by done.
  repeat match goal with E : ?f menv = true |- _ => rewrite E; revert E end. intros.
  cbn [negb orb mbind res_bind]. set (b0 := set_sessionRef _ b). set (s0 := mkSession _ _ _ _ _ _ _ _ _ _ _ _ _ _).
  change (set_heap (<[e_addr menv := s0]> (heap b0)) b0) with (at_ b0 (e_addr menv) s0 (loopMain b0)).
  rewrite at_upd. cbn [mbind res_bind]. rewrite at_upd. cbn [mbind res_bind]. unfold MallocSessionByConnectType.
  rewrite at_lookup. cbn [deref mbind res_bind s_connType set_uvHandleRef s0]. change (CONN_USB =? CONN_TCP) with false.
  change (CONN_USB =? CONN_USB) with true. match goal with E : e_usb menv = true |- _ => rewrite E end.
  rewrite at_upd. cbn [mbind res_bind deref negb Z.eqb]. unfold AdminSession. cbn [OP_ADD Z.eqb deref mbind res_bind].
  do 2 eexists. split; [done|]. cbn [heap set_mapSession]. by rewrite at_lookup.
Qed.

(** A new USB session with an id that has no session. *)
Lemma DispatchToWorkThread_new menv now sid d : sid <> 0 -> om_find sid (mapSession (base d)) = None ->
  (usb_currentSessionId d = 0 \/ usb_currentSessionId d = sid) -> usb_malloc_ok menv = true ->
  exists s d', DispatchToWorkThread menv now sid d = Ok (inr (e_addr menv), d') /\
    mapAuthStatus d' = mapAuthStatus d /\ authEnable d' = authEnable d /\ delivered d' = delivered d /\
    ext d' !! e_addr menv = Some (new_dsession now) /\
    heap (base d') !! e_addr menv = Some s /\ s_sessionId s = sid.
Proof.
  intros Hz Hf Hcur He. unfold DispatchToWorkThread. rewrite (proj2 (Z.eqb_neq sid 0)) by done.
  replace (negb (usb_currentSessionId d =? 0) && negb (sid =? usb_currentSessionId d)) with false.
  2:{ symmetry. destruct Hcur as [-> | ->]; [done|]. rewrite Z.eqb_refl. by rewrite andb_false_r. }
  cbn [mbind res_bind]. change (AdminSession OP_QUERY sid None (base d)) with (Ok (om_find sid (mapSession (base d)), base d)).
  cbn [mbind res_bind]. rewrite Hf. unfold PrepareNewSession.
  destruct (MallocSession_usb menv sid (base d) Hz He) as (s & b' & -> & Hs & Hsid & Hc & Hd). cbn [mbind res_bind].
  unfold sess. cbn [base set_usb set_ext set_base]. rewrite Hs. cbn [deref mbind res_bind]. rewrite Hc, Hd.
  do 2 eexists. split; [done|]. cbn. rewrite lookup_insert_eq. by split_and!.
Qed.

(** An authorised session's first command on a channel reaches its task. *)
Lemma authorised_command_delivered `{OpenSSL} et env p c payload d s x t :
  heap (base d) !! p = Some s -> ext d !! p = Some x -> d_tasks x = mkTasks ∅ [] [] 0 ->
  GetSessionAuthStatus (s_sessionId s) d = AUTH_OK -> CheckControl env CMD_UNITY_EXECUTE = true ->
  e_report env = true -> e_fresh env = Some t -> e_taskNew env = true ->
  exists d', FetchCommand et env p c CMD_UNITY_EXECUTE payload d = Ok (true, d') /\
    delivered d' = delivered d ++ [mkDelivery p t TYPE_UNITY TYPE_UNITY CMD_UNITY_EXECUTE payload].
Proof.
  intros Hp Hx Ht Hst Hc Hr Hf Hn. unfold FetchCommand.
  assert (CheckAuthStatus p c CMD_UNITY_EXECUTE d = Ok (true, d)) as ->.
  { unfold CheckAuthStatus, sess. rewrite Hp. cbn [deref mbind res_bind]. rewrite Hst.
    change (AUTH_OK =? AUTH_OK) with true. cbn [negb]. by rewrite andb_false_r. }
  assert (ReportCommandEvent env CMD_UNITY_EXECUTE = true) as -> by (unfold ReportCommandEvent; rewrite Hr; by case_bool_decide).
  unfold sess at 1. rewrite Hp, Hc. cbn [deref mbind res_bind negb].
  change (CMD_UNITY_EXECUTE =? CMD_KERNEL_HANDSHAKE) with false. change (CMD_UNITY_EXECUTE =? CMD_KERNEL_CHANNEL_CLOSE) with false.
  change (CMD_UNITY_EXECUTE =? CMD_HEARTBEAT_MSG) with false. cbn iota.
  unfold DispatchToTask, sess, dsess. rewrite Hp, Hx. cbn [deref mbind res_bind]. rewrite Ht.
  unfold DispatchTaskData. change (NeedNewTaskInfo false CMD_UNITY_EXECUTE) with (true, false). cbn iota beta. rewrite Hf.
  unfold AddTaskWithRetry. cbn [AddTaskWithRetry_loop tasks]. rewrite lookup_insert_eq. cbn. rewrite lookup_insert_eq. cbn.
  unfold upd_ext at 1. rewrite Hx. cbn.
  unfold RedirectToTask. change (task_class CMD_UNITY_EXECUTE) with (Some TYPE_UNITY). unfold TaskCommandDispatch, dsess.
  cbn. rewrite lookup_insert_eq. cbn. rewrite lookup_insert_eq. cbn. rewrite Hn. cbn.
  unfold upd_task. cbn. rewrite lookup_insert_eq. cbn. unfold upd_ext. cbn. rewrite lookup_insert_eq. cbn. by eexists.
Qed.

(** Authorisation belongs to the session id, which the host chooses, and is
    never withdrawn: [DeleteSessionAuthStatus] has no caller.  When the session
    of an authorised id is gone, whoever opens a USB session under that id, the
    id being read from the USB header, commands the daemon without any
    handshake.  The same holds for a second session that asked for the id
    before its owner was authorised (the witness runs both). *)
Theorem authorisation_follows_id `{OpenSSL} (et : bool) (env : Env) (menv : MallocEnv) (now sid c : Z) (payload : bytes)
    (t : addr) (d : Daemon) :
  abs d sid = Authorised -> om_find sid (mapSession (base d)) = None -> sid <> 0 ->
  (usb_currentSessionId d = 0 \/ usb_currentSessionId d = sid) -> usb_malloc_ok menv = true ->
  CheckControl env CMD_UNITY_EXECUTE = true -> e_report env = true -> e_fresh env = Some t -> e_taskNew env = true ->
  exists d1 d2, DispatchToWorkThread menv now sid d = Ok (inr (e_addr menv), d1) /\
    FetchCommand et env (e_addr menv) c CMD_UNITY_EXECUTE payload d1 = Ok (true, d2) /\
    delivered d2 = delivered d ++ [mkDelivery (e_addr menv) t TYPE_UNITY TYPE_UNITY CMD_UNITY_EXECUTE payload].
Proof.
  intros Ha Hf Hz Hcur Hm Hc Hr Ht Hn.
  destruct (DispatchToWorkThread_new menv now sid d Hz Hf Hcur Hm) as (s & d1 & -> & M & A & D & Hx & Hp & Hs).
  assert (Hst : GetSessionAuthStatus (s_sessionId s) d1 = AUTH_OK).
  { rewrite Hs. unfold GetSessionAuthStatus. rewrite (auth_of_map d d1) by done. unfold abs, abs_info in Ha.
    destruct (_ =? AUTH_NONE); [by destruct (bytes_eqb _ _)|]. destruct (_ =? AUTH_PUBLICKEY); [done|].
    destruct (_ =? AUTH_OK) eqn:E; [by breflect|done]. }
  destruct (authorised_command_delivered et env _ c payload d1 s _ t Hp Hx eq_refl Hst Hc Hr Ht Hn) as (d2 & Hfc & Hd).
  exists d1, d2. split; [done|]. split; [done|]. by rewrite Hd, D.
Qed.

(** The owner shakes hands, its session is freed by the main loop, and an
    intruder sends a command under the same id; and two sessions that ask for
    one id, of which only the second proves anything. *)
Definition demo_free (d : Daemon) : res Daemon :=
  b1 ← FreeSession false true 7 (base d);
  b2 ← FreeSessionOpeate false (true, true, true) 1 b1;
  b3 ← closeSessionTCPHandle 1 b2;
  b4 ← closeSessionTCPHandle 1 b3;
  b5 ← FreeSessionFinally 1 b4; Ok (set_base b5 d).

Definition demo_two : Daemon :=
  let s i := mkSession false false false CONN_TCP i 0 0 false false true false 0 None false in
  mkDaemon (mkBase false {[ 1 := s 3; 2 := s 4 ]} [(3, 1); (4, 2)] 2 [] [] false false [] [] [])
    {[ 1 := new_dsession 0; 2 := new_dsession 0 ]} [] true None 0 0 [] [].

Definition demo_menv : MallocEnv := mkMallocEnv 50 true true true true true true true true [].

Lemma authorisation_follows_id_witness :
  (exists d d1 d2, (demo_run (take 3 demo_packets) demo_daemon ≫= demo_free) = Ok d /\ heap (base d) = ∅ /\
     DispatchToWorkThread demo_menv 0 7 d = Ok (inr 50, d1) /\
     FetchCommand false demo_env 50 9 CMD_UNITY_EXECUTE (str "id") d1 = Ok (true, d2) /\
     v_session <$> delivered d2 = [50]) /\
  (exists d1 d2 d3, FetchCommand false demo_env 2 9 CMD_KERNEL_HANDSHAKE (demo_message AUTH_NONE []) demo_two = Ok (true, d1) /\
     demo_run (take 3 demo_packets) d1 = Ok d2 /\
     FetchCommand false demo_env 2 9 CMD_UNITY_EXECUTE (str "id") d2 = Ok (true, d3) /\ v_session <$> delivered d3 = [2]).
Proof.
  split.
  - destruct (demo_run (take 3 demo_packets) demo_daemon ≫= demo_free) as [d| | |] eqn:E;
      [|exfalso; vm_compute in E; discriminate..].
    vm_compute in E. injection E as <-. match goal with |- context [Ok ?s = Ok _] => set (d := s) end.
    destruct (authorisation_follows_id false demo_env demo_menv 0 7 9 (str "id") 100 d) as (d1 & d2 & H1 & H2 & H3);
      [by vm_compute|by vm_compute|done|right; by vm_compute|by vm_compute..|].
    exists d, d1, d2. split; [done|]. split; [by vm_compute|]. split; [exact H1|]. split; [exact H2|]. by rewrite H3.
  - do 3 eexists. split; [vm_compute; reflexivity|]. split; [vm_compute; reflexivity|].
    split; [vm_compute; reflexivity|]. vm_compute. reflexivity.
Defined.
