(* ===== verification/DaemonFacts.v ===== *)
(** * DaemonFacts: the switches, the known keys and the dialog of the daemon *)

From Stdlib Require Import String ZArith Lia List Bool.
From stdpp Require Import base list numbers option gmap.
From S2P Require Import Prelude Defs OrdMap Serial Messages Heartbeat Session SessionProps Task Strings Numbers Translate.
From S2P Require Import AuthKeys Daemon DaemonProps.

(** ** The control switches *)

(** The commands a task class takes. *)
Definition task_commands : list Z :=
  [CMD_UNITY_EXECUTE; CMD_UNITY_REMOUNT; CMD_UNITY_REBOOT; CMD_UNITY_RUNMODE; CMD_UNITY_HILOG; CMD_UNITY_ROOTRUN;
   CMD_UNITY_BUGREPORT_INIT; CMD_JDWP_LIST; CMD_JDWP_TRACK; CMD_UNITY_EXECUTE_EX; CMD_SHELL_INIT; CMD_SHELL_DATA;
   CMD_FILE_CHECK; CMD_FILE_DATA; CMD_FILE_FINISH; CMD_FILE_INIT; CMD_FILE_BEGIN; CMD_FILE_MODE; CMD_DIR_MODE;
   CMD_APP_CHECK; CMD_APP_DATA; CMD_APP_UNINSTALL; CMD_FORWARD_INIT; CMD_FORWARD_CHECK; CMD_FORWARD_ACTIVE_MASTER;
   CMD_FORWARD_ACTIVE_SLAVE; CMD_FORWARD_DATA; CMD_FORWARD_FREE_CONTEXT; CMD_FORWARD_CHECK_RESULT].

Lemma sublist_decide (x : Z) (l m : list Z) : forallb (fun y => bool_decide (y ∈ m)) l = true -> x ∈ l -> x ∈ m.
Proof.
  intros Hall Hx. rewrite forallb_forall in Hall. apply list_elem_of_In in Hx. specialize (Hall x Hx). by breflect.
Qed.

Ltac by_sublist := eapply sublist_decide; [|eassumption]; vm_compute; reflexivity.

Ltac off_list Hin :=
  exfalso; unfold task_commands in Hin;
  repeat match goal with
  | H : _ ∉ _ |- _ => apply not_elem_of_cons in H as [? H]
  | H : _ ∈ _ :: _ |- _ => apply elem_of_cons in H as [->|H]; [done|]
  end; by apply not_elem_of_nil in Hin.

Lemma task_class_commands command : is_Some (task_class command) <-> command ∈ task_commands.
Proof.
  unfold task_class. repeat case_bool_decide; (split; [|eauto]); try (intros _; by_sublist); [by intros [? ?]|].
  intros Hin. off_list Hin.
Qed.

Lemma control_item_commands command : is_Some (control_item command) <-> command ∈ task_commands.
Proof.
  unfold control_item. repeat case_bool_decide; (split; [|eauto]); try (intros _; by_sublist); [by intros [? ?]|].
  intros Hin. off_list Hin.
Qed.



(** ** Known keys *)

Lemma find_aux_app a k b i : is_Some (find_aux k (a ++ k ++ b) i).
Proof.
  revert i. induction a as [|x a IH]; intros i; cbn [app find_aux].
  - destruct (k ++ b) eqn:E; cbn [find_aux]; rewrite <- E, (proj2 (is_prefix_spec _ _)); eauto.
  - destruct (is_prefix k _); eauto.
Qed.

Lemma find_aux_Some k s i : is_Some (find_aux k s i) -> exists a b, s = a ++ k ++ b.
Proof.
  revert i. induction s as [|x s IH]; intros i; cbn [find_aux]; destruct (is_prefix k _) eqn:E.
  - apply is_prefix_spec in E as [b Hb]. intros _. by exists [], b.
  - by intros [? ?].
  - apply is_prefix_spec in E as [b Hb]. intros _. by exists [], b.
  - intros Hs. destruct (IH _ Hs) as (a & b & ->). by exists (x :: a), b.
Qed.

Lemma contains_spec s k : contains s k = true <-> exists a b, s = a ++ k ++ b.
Proof.
  unfold contains, find. rewrite (proj2 (Z.ltb_ge (zlen s) 0)) by lia. change (zdrop 0 s) with s. split.
  - intros Hc. apply (find_aux_Some k s 0). destruct (find_aux k s 0); [eauto|done].
  - intros (a & b & ->). by destruct (find_aux_app a k b 0) as [? ->].
Qed.

(** A key allowed forever is known from then on and no other key is forgotten,
    provided it has the 625 characters of a 3072-bit key; a key of any other
    length is asked for again at every connection. *)
Lemma known_hosts_spec env key other d : e_append env = true ->
  (zlen key = 625 -> AlreadyInKnownHosts key (UpdateKnownHosts env key d) = true) /\
  (zlen key <> 625 -> AlreadyInKnownHosts key (UpdateKnownHosts env key d) = false) /\
  (AlreadyInKnownHosts other d = true -> AlreadyInKnownHosts other (UpdateKnownHosts env key d) = true).
Proof.
  intros He. unfold AlreadyInKnownHosts, UpdateKnownHosts, key_in_file. rewrite He. cbn. split_and!.
  - intros ->. cbn. apply contains_spec. eexists _, _. done.
  - intros Hne. by rewrite (proj2 (Z.eqb_neq _ _)).
  - destruct (hdc_keys d) as [keys|]; [|done]. intros Hk. breflect. rewrite (proj2 (Z.eqb_eq _ _)) by done. cbn.
    apply contains_spec. match goal with C : contains _ _ = true |- _ => apply contains_spec in C as (a & b & ->) end.
    exists a, (b ++ key ++ [10]). by rewrite <- !app_assoc.
Qed.

(** ** The name shown in the dialog *)

Definition printable (c : Z) : Prop := 31 < c /\ c <> 127.

Lemma SanitizeHostname_loop_spec fuel s : (length s < fuel)%nat ->
  exists r, SanitizeHostname_loop fuel s = Ok r /\ (length r <= length s)%nat /\ Forall printable r.
Proof.
  revert s. induction fuel as [|fuel IH]; intros s Hf; [lia|]. cbn [SanitizeHostname_loop].
  destruct s as [|c t]; [exists []; repeat split; auto|].
  destruct (List.find _ multiBytes) as [seq|] eqn:E.
  - assert (0 < length seq)%nat.
    { apply List.find_some in E as [Hin _]. cbn in Hin. destruct Hin as [<-|[<-|[<-|[]]]]; cbn; lia. }
    destruct (IH (zdrop (zlen seq) (c :: t))) as (r & -> & Hl & Hp).
    { unfold zdrop. rewrite length_drop. cbn in *. lia. }
    cbn [mbind res_bind]. eexists. split; [done|]. split; [|constructor; [split; lia|done]].
    unfold zdrop in Hl. rewrite length_drop in Hl. cbn in *. lia.
  - destruct (IH t) as (r & -> & Hl & Hp); [cbn in Hf; lia|]. cbn [mbind res_bind]. eexists. split; [done|].
    split; [cbn; lia|]. constructor; [|done]. destruct (_ || _) eqn:Ec; [split; lia|]. breflect. split; lia.
Qed.

Lemma utf8_cut_le r n : (utf8_cut r n <= n)%nat.
Proof. induction n as [|n IH]; cbn [utf8_cut]; [lia|]. destruct (_ =? 128); lia. Qed.

(** The name a host gives itself is shown in the device's permission dialog
    and stored as a system parameter.  Whatever bytes the host sends,
    [SanitizeHostname] terminates with at most 95 bytes (the room of a
    parameter value) and without control characters, so the name cannot break
    the dialog into lines or overlong text. *)
Theorem sanitized_hostname_bounds (hostname : bytes) :
  exists r, SanitizeHostname hostname = Ok r /\ zlen r <= 95 /\ Forall printable r.
Proof.
  unfold SanitizeHostname. destruct (SanitizeHostname_loop_spec (S (length hostname)) hostname) as (r & -> & _ & Hp); [lia|].
  cbn [mbind res_bind]. destruct (95 <? zlen r) eqn:E; breflect; eexists; (split; [done|]).
  - split.
    + rewrite length_app, length_take. pose proof (utf8_cut_le r 92). change (length (str "...")) with 3%nat. lia.
    + apply Forall_app. split; [by apply Forall_take|]. repeat constructor; cbn; lia.
  - split; [lia|done].
Qed.

(** ** The thread beside the dialog *)

(** When the notifying thread is late, the id ends refused even though the user
    agreed and the host was asked for its signature. *)
Lemma late_notice_revokes `{OpenSSL} et env p c hs d b d' s host key :
  heap (base d) !! p = Some s -> e_late env = true -> connectstatus env = false ->
  GetHostPubkeyInfo (hs_buf hs) = (true, host, key) -> AlreadyInKnownHosts key d = false ->
  HandDaemonAuthPubkey et env p c hs d = Ok (b, d') -> abs d' (s_sessionId s) = Refused.
Proof.
  intros Hp Hl Hc Hk Ha Hr. unfold HandDaemonAuthPubkey in Hr. rewrite Hc, Hk, Hl, Ha in Hr. cbn [negb] in Hr. inv_res.
  assert (Hb : base d1 = base d0).
  { destruct x.
    - apply HandleAuthFailed_spec in E1 as (? & _ & [F _]). by rewrite (fr_base _ _ F).
    - apply SendAuthMsg_spec in E1 as (? & _ & [F _]). by rewrite (fr_base _ _ F).
    - apply SendAuthMsg_spec in E1 as (? & _ & [F _]). rewrite (fr_base _ _ F). unfold UpdateKnownHosts. by destruct (e_append env). }
  apply HandleAuthFailed_spec in E2 as (s' & Hs' & Hset). rewrite Hb in Hs'. simplify_eq.
  unfold abs. by rewrite (auth_set_eq _ _ _ _ Hset).
Qed.
