(* ===== verification/ServerTables.v ===== *)
(** * ServerTables: the devices and the forwarding rules the server knows
    ([host/server.cpp], [host/server_for_client.cpp])

    [mapDaemon] and [mapForward] are [std::map]s from texts to objects that the
    server owns; a lookup hands out the object's content.  Pointers kept beyond
    the lock are not modelled.  [di_hSession] is the session's address. *)

From Stdlib Require Import String ZArith Lia List Bool.
From stdpp Require Import base list numbers option.
From S2P Require Import Prelude Defs OrdMap Strings Session Daemon.

Record HdcDaemonInformation := mkDI {
  di_connType : Z; di_connStatus : Z; di_connectKey : bytes; di_usbMountPoint : bytes; di_devName : bytes;
  di_hSession : option addr; di_version : bytes; di_emgmsg : bytes; di_daemonAuthStatus : bytes;
  di_daemonFeature : list (bytes * bytes); di_inited : bool; di_faultInfo : bytes
}.

Record HdcForwardInformation := mkFI {
  fi_taskString : bytes; fi_forwardDirection : bool; fi_sessionId : Z; fi_channelId : Z; fi_connectKey : bytes
}.

Abbreviation daemon_map := (list (bytes * HdcDaemonInformation)).
Abbreviation forward_map := (list (bytes * HdcForwardInformation)).

(** ** Devices *)

Definition AdminDaemonMapAdd (di : HdcDaemonInformation) (m : daemon_map) : daemon_map :=
  match om_find (di_connectKey di) m with
  | None => om_set (di_connectKey di) di m
  | Some _ => m
  end.
Definition AdminDaemonMapRemove (connectKey : bytes) (m : daemon_map) : daemon_map := om_erase connectKey m.
Definition AdminDaemonMapUpdate (di : HdcDaemonInformation) (m : daemon_map) : daemon_map :=
  match om_find (di_connectKey di) m with
  | None => m
  | Some _ => om_set (di_connectKey di) di m
  end.
Definition AdminDaemonMapQuery (connectKey : bytes) (m : daemon_map) : option HdcDaemonInformation := om_find connectKey m.

(** The first device that is ready or connected. *)
Fixpoint AdminDaemonMapAny (m : daemon_map) : option HdcDaemonInformation :=
  match m with
  | [] => None
  | (_, di) :: m =>
      if (di_connStatus di =? STATUS_READY) || (di_connStatus di =? STATUS_CONNECTED) then Some di else AdminDaemonMapAny m
  end.

Fixpoint AdminDaemonMapForWait (connectKey : bytes) (m : daemon_map) : option HdcDaemonInformation :=
  match m with
  | [] => None
  | (_, di) :: m =>
      if di_connStatus di =? STATUS_CONNECTED then
        if negb (bytes_eqb connectKey []) && negb (bytes_eqb connectKey (di_connectKey di))
        then AdminDaemonMapForWait connectKey m else Some di
      else AdminDaemonMapForWait connectKey m
  end.

Fixpoint only_key (key : bytes) (m : daemon_map) : bytes :=
  match m with
  | [] => key
  | (k, di) :: m =>
      if di_connStatus di =? STATUS_CONNECTED then if bytes_eqb key [] then only_key k m else []
      else only_key key m
  end.
Definition GetDaemonMapOnlyOne (m : daemon_map) : option HdcDaemonInformation :=
  let key := only_key [] m in if 0 <? zlen key then om_find key m else None.

Definition conTypeDetail : list bytes := [str "USB"; str "TCP"; str "UART"; str "BT"; str "UNKNOWN"].
Definition conStatusDetail : list bytes := [str "Unknown"; str "Ready"; str "Connected"; str "Offline"; str "Unauthorized"].
Definition detail (l : list bytes) (i : Z) : bytes := nth (Z.to_nat i) l [].

Definition BuildDaemonVisableLine (fullDisplay : bool) (hdi : HdcDaemonInformation) : bytes :=
  let unauth := bytes_eqb (di_daemonAuthStatus hdi) DAEOMN_UNAUTHORIZED in
  if fullDisplay then
    let sConn := detail conTypeDetail (if di_connType hdi <? CONN_UNKNOWN then di_connType hdi else CONN_UNKNOWN) in
    let sStatus :=
      if di_connStatus hdi <? STATUS_UNAUTH then
        if (di_connStatus hdi =? STATUS_CONNECTED) && unauth then detail conStatusDetail STATUS_UNAUTH
        else detail conStatusDetail (di_connStatus hdi)
      else detail conStatusDetail STATUS_UNKNOW in
    let devname := if bytes_eqb (di_devName hdi) [] then str "unknown..." else di_devName hdi in
    cstr (di_connectKey hdi) ++ [9; 9] ++ sConn ++ [9] ++ sStatus ++ [9] ++ cstr devname ++ [10]
  else if di_connStatus hdi =? STATUS_CONNECTED then
    cstr (di_connectKey hdi) ++ (if unauth then 9 :: str "Unauthorized" else []) ++ [10]
  else [].

Definition GetDaemonMapList (fullDisplay : bool) (m : daemon_map) : bytes :=
  concat (map (fun kd => BuildDaemonVisableLine fullDisplay kd.2) m).

(** [AdminDaemonMap] by operation: the text, the device found and the table. *)
Definition AdminDaemonMap (op : Z) (connectKey : bytes) (h : option HdcDaemonInformation) (m : daemon_map)
    : res (bytes * option HdcDaemonInformation * daemon_map) :=
  let found o := match o with Some d => Some d | None => h end in
  if op =? OP_ADD then di ← deref h; Ok ([], h, AdminDaemonMapAdd di m)
  else if (op =? OP_GET_STRLIST) || (op =? OP_GET_STRLIST_FULL) then
    Ok (GetDaemonMapList (op =? OP_GET_STRLIST_FULL) m, h, m)
  else if op =? OP_QUERY then Ok ([], found (AdminDaemonMapQuery connectKey m), m)
  else if op =? OP_REMOVE then Ok ([], h, AdminDaemonMapRemove connectKey m)
  else if op =? OP_GET_ANY then Ok ([], found (AdminDaemonMapAny m), m)
  else if op =? OP_WAIT_FOR_ANY then Ok ([], found (AdminDaemonMapForWait connectKey m), m)
  else if op =? OP_GET_ONLY then Ok ([], found (GetDaemonMapOnlyOne m), m)
  else if op =? OP_UPDATE then di ← deref h; Ok ([], h, AdminDaemonMapUpdate di m)
  else Ok ([], h, m).

(** ** Forwarding rules *)

Definition BuildForwardVisableLine (fullOrSimble : bool) (hfi : HdcForwardInformation) : bytes :=
  if fullOrSimble then
    match rfind (str "|") (fi_taskString hfi) with
    | Some pos =>
        if pos + 1 <? zlen (fi_taskString hfi) then
          cstr (fi_connectKey hfi) ++ str "    " ++ cstr (zdrop (pos + 1) (fi_taskString hfi)) ++ str "    " ++
          (if fi_forwardDirection hfi then str "[Forward]" else str "[Reverse]") ++ [10]
        else []
    | None => []
    end
  else cstr (fi_taskString hfi) ++ [10].

Definition AdminForwardMapAdd (fi : HdcForwardInformation) (m : forward_map) : forward_map :=
  match om_find (fi_taskString fi) m with
  | None => om_set (fi_taskString fi) fi m
  | Some _ => m
  end.
Definition AdminForwardMapList (full : bool) (m : forward_map) : bytes :=
  concat (map (fun kf => BuildForwardVisableLine full kf.2) m).

Definition AdminForwardMap (op : Z) (taskString : bytes) (h : option HdcForwardInformation) (m : forward_map)
    : res (bytes * option HdcForwardInformation * forward_map) :=
  if op =? OP_ADD then fi ← deref h; Ok ([], h, AdminForwardMapAdd fi m)
  else if (op =? OP_GET_STRLIST) || (op =? OP_GET_STRLIST_FULL) then
    Ok (AdminForwardMapList (op =? OP_GET_STRLIST_FULL) m, h, m)
  else if op =? OP_QUERY then Ok ([], match om_find taskString m with Some f => Some f | None => h end, m)
  else if op =? OP_REMOVE then Ok ([], h, om_erase taskString m)
  else Ok ([], h, m).

Fixpoint CleanForwardMap (sessionId : Z) (m : forward_map) : forward_map :=
  match m with
  | [] => []
  | (k, fi) :: m =>
      if (sessionId =? 0) || (sessionId =? fi_sessionId fi) then CleanForwardMap sessionId m
      else (k, fi) :: CleanForwardMap sessionId m
  end.

(** The rule a [CMD_FORWARD_SUCCESS] registers. *)
Definition HandleForwardSuccess (sessionId channelId : Z) (connectKey payload : bytes) (m : forward_map) : forward_map :=
  match cstr payload with
  | [] => m
  | c :: _ as payloadStr =>
      AdminForwardMapAdd (mkFI (connectKey ++ str "|" ++ payloadStr) (c =? 49) sessionId channelId connectKey) m
  end.

(** [RemoveFportkey]; [live]: the session of the rule exists, then the tasks and
    the channel of the rule are cleared as well. *)
Definition RemoveFportkey (live : Z -> bool) (forwardKey : bytes) (m : forward_map)
    : bool * list (Z * Z) * forward_map :=
  match om_find forwardKey m with
  | None => (false, [], m)
  | Some hfi =>
      (true, if live (fi_sessionId hfi) then [(fi_sessionId hfi, fi_channelId hfi)] else [], om_erase forwardKey m)
  end.

Fixpoint RemoveForward_loop (live : Z -> bool) (parameterString : bytes) (filterStrings : list bytes) (ret : bool)
    (cleared : list (Z * Z)) (m : forward_map) : bool * list (Z * Z) * forward_map :=
  match filterStrings with
  | [] => (ret, cleared, m)
  | s :: rest =>
      match rfind (str "|") s with
      | Some pos =>
          if pos + 1 <? zlen s then
            if negb (bytes_eqb (zdrop (pos + 1) s) parameterString)
            then RemoveForward_loop live parameterString rest ret cleared m
            else
              let '(r, c, m') := RemoveFportkey live s m in
              RemoveForward_loop live parameterString rest (ret || r) (cleared ++ c) m'
          else (false, cleared, m)
      | None => (false, cleared, m)
      end
  end.

(** [hdc fport rm RULE] in a channel for the device [connectKey]. *)
Definition RemoveForward (live : Z -> bool) (connectKey parameterString : bytes) (m : forward_map)
    : res (bool * list (Z * Z) * forward_map) :=
  '((echo, _, _) : bytes * option HdcForwardInformation * forward_map) ← AdminForwardMap OP_GET_STRLIST connectKey None m;
  filterStrings ← SplitString echo [10] [];
  Ok (RemoveForward_loop live parameterString filterStrings false [] m).

(** ** A session ends *)

(** [conError]: [GetConnectionError], [defaultError]: what the connection type
    gives when the session never worked. *)
Definition NotifyInstanceSessionFree (freeOrClear : bool) (sessionId : Z) (connectKey conError defaultError : bytes)
    (runningOk handshakeOK : bool) (m : daemon_map) (f : forward_map) : daemon_map * forward_map :=
  match AdminDaemonMapQuery connectKey m with
  | None => (m, f)
  | Some hdi =>
      if freeOrClear then (m, f)
      else
        let fault := if bytes_eqb conError [] && (negb runningOk || negb handshakeOK) then defaultError else conError in
        (AdminDaemonMapUpdate
           (mkDI (di_connType hdi) STATUS_OFFLINE (di_connectKey hdi) (di_usbMountPoint hdi) (di_devName hdi) None
              (di_version hdi) (di_emgmsg hdi) (di_daemonAuthStatus hdi) (di_daemonFeature hdi) false fault) m,
         CleanForwardMap sessionId f)
  end.

(** ** [hdc tconn] *)

(** [connect]: the session a transport module makes. *)
Definition CreateConnect (uart : bool) (connect : Z -> option addr) (connectKey : bytes) (m : daemon_map) : Z * daemon_map :=
  let begins pre := is_prefix (str pre) connectKey in
  let connType :=
    if contains connectKey (str ":") then Some CONN_TCP
    else if uart && (begins "COM" || begins "/dev/ttyUSB" || begins "/dev/cu.")%string then Some CONN_SERIAL
    else None in
  match connType with
  | None => (ERR_NO_SUPPORT, m)
  | Some ct =>
      if bytes_eqb connectKey (str "any") then (RET_SUCCESS, m)
      else
        let m1 :=
          match AdminDaemonMapQuery connectKey m with
          | Some _ => m
          | None => AdminDaemonMapAdd (mkDI ct STATUS_UNKNOW connectKey [] [] None [] [] [] [] false []) m
          end in
        match AdminDaemonMapQuery connectKey m1 with
        | None => (ERR_GENERIC, m1)
        | Some hdi =>
            if di_connStatus hdi =? STATUS_CONNECTED then (ERR_GENERIC, m1)
            else if di_inited hdi then (ERR_GENERIC, m1)
            else
              match connect ct with
              | None => (ERR_BUF_ALLOC, m1)
              | Some hSession =>
                  (RET_SUCCESS, AdminDaemonMapUpdate
                     (mkDI (di_connType hdi) (di_connStatus hdi) (di_connectKey hdi) (di_usbMountPoint hdi) (di_devName hdi)
                        (Some hSession) (di_version hdi) (di_emgmsg hdi) (di_daemonAuthStatus hdi) (di_daemonFeature hdi)
                        true []) m1)
              end
        end
  end.
