(* ===== verification/ServerTablesProps.v ===== *)
(** * ServerTablesProps: what the server's tables guarantee *)

From Stdlib Require Import String ZArith Lia List Bool.
From stdpp Require Import base list numbers option gmap.
From S2P Require Import Prelude Defs OrdMap Strings Session Daemon ServerTables.

(** ** Devices *)

(** Devices are found under their own key. *)
Definition devices_ok (m : daemon_map) : Prop := om_sorted m /\ Forall (fun kd => di_connectKey kd.2 = kd.1) m.

Lemma devices_set di m : devices_ok m -> devices_ok (om_set (di_connectKey di) di m).
Proof. intros [Hs Hf]. split; [by apply om_sorted_set|]. by apply om_set_Forall. Qed.

Lemma devices_erase k m : devices_ok m -> devices_ok (om_erase k m).
Proof. intros [Hs Hf]. split; [by apply om_sorted_erase|]. apply List.Forall_forall. intros x Hx.
  apply list_elem_of_In, list_elem_of_filter in Hx as [_ Hx]. rewrite List.Forall_forall in Hf. by apply Hf, list_elem_of_In. Qed.

Lemma devices_add di m : devices_ok m -> devices_ok (AdminDaemonMapAdd di m).
Proof. intros Hm. unfold AdminDaemonMapAdd. destruct (om_find _ _); [done|by apply devices_set]. Qed.

Lemma devices_update di m : devices_ok m -> devices_ok (AdminDaemonMapUpdate di m).
Proof. intros Hm. unfold AdminDaemonMapUpdate. destruct (om_find _ _); [by apply devices_set|done]. Qed.

Definition connected (kd : bytes * HdcDaemonInformation) : bool := di_connStatus kd.2 =? STATUS_CONNECTED.

Lemma only_key_spec m : Forall (fun kd => kd.1 <> []) m -> forall key,
  only_key key m =
    match List.filter connected m with
    | [] => key
    | [(k, _)] => if bytes_eqb key [] then k else []
    | _ => []
    end.
Proof.
  induction 1 as [|[k di] m Hk Hm IH]; intros key; [done|]. cbn [only_key List.filter]. unfold connected at 1. cbn [snd fst].
  destruct (di_connStatus di =? STATUS_CONNECTED); [|apply IH].
  destruct (bytes_eqb key []) eqn:Ek.
  - rewrite IH. destruct (List.filter connected m) as [|[k2 d2] [|]]; try done.
    assert (bytes_eqb k [] = false) as -> by (by apply bool_decide_eq_false). done.
  - by destruct (List.filter connected m) as [|[k2 d2] [|]].
Qed.

Lemma for_wait_spec key m :
  match AdminDaemonMapForWait key m with
  | Some di => di_connStatus di = STATUS_CONNECTED /\ (key = [] \/ di_connectKey di = key) /\ exists k, List.In (k, di) m
  | None => forall k di, List.In (k, di) m -> (key = [] \/ di_connectKey di = key) -> di_connStatus di <> STATUS_CONNECTED
  end.
Proof.
  induction m as [|[k di] m IH]; [by intros k di []|]. cbn [AdminDaemonMapForWait].
  destruct (di_connStatus di =? STATUS_CONNECTED) eqn:E1; breflect.
  - destruct (negb (bytes_eqb key []) && negb (bytes_eqb key (di_connectKey di))) eqn:E2.
    + destruct (AdminDaemonMapForWait key m) as [d|].
      * destruct IH as (H1 & H2 & k' & Hin). split_and!; [done..|]. exists k'. by right.
      * intros k' di' [[= <- <-]|Hin] Hk; [|by eapply IH]. breflect. unfold bytes_eqb in *. breflect. destruct Hk; congruence.
    + split; [done|]. split; [|exists k; by left]. apply andb_false_iff in E2. rewrite !negb_false_iff in E2.
      destruct E2 as [E2|E2]; apply bytes_eqb_eq in E2; auto.
  - destruct (AdminDaemonMapForWait key m) as [d|].
    + destruct IH as (H1 & H2 & k' & Hin). split_and!; [done..|]. exists k'. by right.
    + intros k' di' [[= <- <-]|Hin] Hk; [done|by eapply IH].
Qed.


Definition demo_devices : daemon_map :=
  let di k st := mkDI CONN_TCP st k [] [] None [] [] [] [] false [] in
  [(str "127.0.0.1:1", di (str "127.0.0.1:1") STATUS_CONNECTED); (str "127.0.0.1:2", di (str "127.0.0.1:2") STATUS_OFFLINE)].


Lemma session_free_devices free sid key e1 e2 r1 r2 m f : devices_ok m ->
  devices_ok (NotifyInstanceSessionFree free sid key e1 e2 r1 r2 m f).1.
Proof.
  intros Hm. unfold NotifyInstanceSessionFree. destruct (AdminDaemonMapQuery _ _); [|done]. destruct free; [done|].
  by apply devices_update.
Qed.

Lemma create_connect_devices uart connect key m : devices_ok m -> devices_ok (CreateConnect uart connect key m).2.
Proof.
  intros Hm. unfold CreateConnect. destruct (if contains _ _ then _ else _) as [ct|]; [|done].
  destruct (bytes_eqb _ _); [done|].
  assert (Htail : forall m1, devices_ok m1 -> forall ct',
    devices_ok (match AdminDaemonMapQuery key m1 with
      | None => (ERR_GENERIC, m1)
      | Some hdi => if di_connStatus hdi =? STATUS_CONNECTED then (ERR_GENERIC, m1)
          else if di_inited hdi then (ERR_GENERIC, m1)
          else match connect ct' with
               | None => (ERR_BUF_ALLOC, m1)
               | Some hSession => (RET_SUCCESS, AdminDaemonMapUpdate
                     (mkDI (di_connType hdi) (di_connStatus hdi) (di_connectKey hdi) (di_usbMountPoint hdi) (di_devName hdi)
                        (Some hSession) (di_version hdi) (di_emgmsg hdi) (di_daemonAuthStatus hdi) (di_daemonFeature hdi)
                        true []) m1)
               end
      end).2).
  { intros m1 H1 ct'. destruct (AdminDaemonMapQuery key m1) as [hdi|]; [|done]. destruct (_ =? _); [done|].
    destruct (di_inited hdi); [done|]. destruct (connect ct'); [by apply devices_update|done]. }
  apply Htail. destruct (AdminDaemonMapQuery key m); auto using devices_add.
Qed.

(** ** Forwarding rules *)

(** The rule in a task string: what follows the last bar. *)
Definition rule_parts (k b : bytes) : Prop :=
  (exists a, k = a ++ [124] ++ b) /\ b <> [] /\ ~ (124 ∈ b) /\ ~ (10 ∈ k) /\ ~ (0 ∈ k).

Lemma rule_rfind k b : rule_parts k b -> exists pos, rfind (str "|") k = Some pos /\ pos + 1 < zlen k /\ zdrop (pos + 1) k = b.
Proof.
  intros ((a & ->) & Hne & Hbar & _). pose proof (rfind_aux_spec [124] (a ++ [124] ++ b) 0) as Hr. unfold rfind.
  change (str "|") with [124]. destruct (rfind_aux [124] _ 0) as [j|]; [|by destruct (Hr a b)].
  destruct Hr as (a' & b' & He & -> & Hmax). specialize (Hmax a b eq_refl).
  assert (a' = a /\ b' = b) as [-> ->].
  { destruct (decide (length a' = length a)) as [Hl|Hl].
    - apply app_inj_1 in He as [-> He]; [|lia]. by injection He.
    - exfalso. apply Hbar. assert (Hlt : (length a < length a')%nat) by lia. clear - He Hlt.
      revert a' He Hlt. induction a as [|x a IH]; intros [|y a'] He Hlt; cbn in *; [lia| |lia|].
      + injection He as _ He. rewrite He. apply elem_of_app. right. left.
      + injection He as _ He. by apply (IH a' He); lia. }
  exists (0 + zlen a). split; [done|]. rewrite !length_app. cbn [length]. destruct b; [done|]. cbn [length]. split; [lia|].
  unfold zdrop. replace (Z.to_nat (0 + zlen a + 1)) with (S (length a)) by lia.
  rewrite drop_app_ge by lia. replace (S (length a) - length a)%nat with 1%nat by lia. done.
Qed.

Definition forwards_ok (m : forward_map) : Prop :=
  om_sorted m /\ Forall (fun kf => fi_taskString kf.2 = kf.1 /\ exists b, rule_parts kf.1 b) m.

Definition rule_of (k : bytes) : bytes := match rfind (str "|") k with Some pos => zdrop (pos + 1) k | None => [] end.

Lemma sorted_NoDup {V} (m : list (bytes * V)) : om_sorted m -> NoDup (om_keys m).
Proof.
  unfold om_sorted. induction 1 as [|k l Hs IH Hf]; constructor; [|done]. intros Hin. apply list_elem_of_In in Hin.
  rewrite List.Forall_forall in Hf. specialize (Hf k Hin). by rewrite less_irrefl in Hf.
Qed.

(** What one round removes and which tasks it clears. *)
Definition hit (p : bytes) (kf : bytes * HdcForwardInformation) : bool := bytes_eqb (rule_of kf.1) p.
Definition cleared_by (live : Z -> bool) (p : bytes) (kf : bytes * HdcForwardInformation) : list (Z * Z) :=
  if hit p kf && live (fi_sessionId kf.2) then [(fi_sessionId kf.2, fi_channelId kf.2)] else [].

Lemma erase_middle (pre : forward_map) k (fi : HdcForwardInformation) suf : NoDup (om_keys (pre ++ (k, fi) :: suf)) ->
  om_find k (pre ++ (k, fi) :: suf) = Some fi /\ om_erase k (pre ++ (k, fi) :: suf) = pre ++ suf.
Proof.
  unfold om_keys. rewrite map_app. cbn [map fst]. intros Hn. apply NoDup_app in Hn as (_ & Hx & Hn).
  apply NoDup_cons in Hn as [Hk _].
  assert (Hkeep : forall l : forward_map, k ∉ map fst l -> filter (fun p => p.1 <> k) l = l).
  { induction l as [|[k' v] l IH]; [done|]. cbn [map fst]. intros [H1 H2]%not_elem_of_cons.
    rewrite filter_cons_True by (cbn; congruence). by rewrite IH. }
  assert (Hpre : k ∉ map fst pre) by (intros Hin; apply (Hx k Hin); left).
  split.
  - clear - Hpre. induction pre as [|[k' v] pre IH]; cbn [app om_find]; [by rewrite bool_decide_true|].
    cbn [map fst] in Hpre. apply not_elem_of_cons in Hpre as [H1 H2]. rewrite bool_decide_false by done. by apply IH.
  - unfold om_erase. rewrite filter_app, filter_cons_False by (cbn; tauto). by rewrite !Hkeep.
Qed.

Lemma RemoveForward_loop_spec live p : forall suf pre ret cl, om_sorted (pre ++ suf) ->
  Forall (fun kf => exists b, rule_parts kf.1 b) suf ->
  RemoveForward_loop live p (om_keys suf) ret cl (pre ++ suf) =
    (ret || existsb (hit p) suf, cl ++ concat (map (cleared_by live p) suf), pre ++ List.filter (fun kf => negb (hit p kf)) suf).
Proof.
  induction suf as [|[k fi] suf IH]; intros pre ret cl Hs Hf.
  { cbn. by rewrite orb_false_r, !app_nil_r. }
  apply List.Forall_cons_iff in Hf as [(b & Hb) Hf]. cbn [om_keys map fst RemoveForward_loop] in *.
  destruct (rule_rfind k b Hb) as (pos & Hr & Hlt & Hd). rewrite Hr, Hd, (proj2 (Z.ltb_lt _ _)) by done.
  assert (Hh : hit p (k, fi) = bytes_eqb b p) by (unfold hit, rule_of; cbn [fst]; by rewrite Hr, Hd).
  cbn [existsb List.filter map concat]. unfold cleared_by at 1. rewrite !Hh. cbn [snd].
  destruct (bytes_eqb b p) eqn:E; cbn [negb andb orb].
  - unfold RemoveFportkey. destruct (erase_middle pre k fi suf (sorted_NoDup _ Hs)) as [-> He].
    rewrite He, orb_true_r. rewrite (IH pre true _) by (try done; rewrite <- He; by apply om_sorted_erase).
    by rewrite <- app_assoc.
  - replace (pre ++ (k, fi) :: suf) with ((pre ++ [(k, fi)]) ++ suf) by (by rewrite <- app_assoc).
    rewrite IH by (rewrite <- ?app_assoc; done). rewrite <- app_assoc. done.
Qed.

Lemma forward_lines m : forwards_ok m -> List.filter nonempty (split_on 10 (AdminForwardMapList false m)) = om_keys m.
Proof.
  intros [_ Hf]. unfold AdminForwardMapList. induction Hf as [|[k fi] m (Hk & b & Ha & Hne & _ & Hnl & Hnul) _ IH]; [done|].
  cbn [map concat om_keys fst snd] in *. unfold BuildForwardVisableLine at 1. rewrite Hk, cstr_id.
  - rewrite <- app_assoc. cbn [app]. rewrite split_on_app by done. cbn [List.filter]. rewrite IH.
    unfold nonempty at 1. rewrite bool_decide_false; [done|]. intros ->. by destruct Ha as [[] ?].
  - apply List.Forall_forall. intros x Hx ->. by apply Hnul, list_elem_of_In.
Qed.

(** [hdc fport rm RULE] removes the rules with exactly that text, reports
    success when there was one, and clears the tasks of those whose session
    lives; every other rule stays.  The device the channel addresses plays no
    part in it although its key is passed on: a rule with the same text on
    another device is removed as well. *)
Theorem remove_forward_spec (live : Z -> bool) (connectKey rule : bytes) (m : forward_map) :
  forwards_ok m ->
  RemoveForward live connectKey rule m =
    Ok (existsb (hit rule) m, concat (map (cleared_by live rule) m), List.filter (fun kf => negb (hit rule kf)) m).
Proof.
  intros Hm. unfold RemoveForward. change (AdminForwardMap OP_GET_STRLIST connectKey None m)
    with (Ok (AdminForwardMapList false m, @None HdcForwardInformation, m)). cbn [mbind res_bind].
  rewrite split_string_fields. cbn [mbind res_bind app]. rewrite forward_lines by done. destruct Hm as [Hs Hf].
  f_equal. apply (RemoveForward_loop_spec live rule m [] false [] Hs).
  eapply List.Forall_impl; [|exact Hf]. by intros ? [_ ?].
Qed.

Definition demo_rule (dev : string) (sid : Z) : bytes * HdcForwardInformation :=
  let t := str dev ++ str "|0|tcp:80 tcp:90" in (t, mkFI t false sid 5 (str dev)).

Lemma remove_forward_spec_witness :
  RemoveForward (fun _ => true) (str "A") (str "tcp:80 tcp:90") [demo_rule "A" 1; demo_rule "B" 2] =
    Ok (true, [(1, 5); (2, 5)], []).
Proof.
  assert (Hr : forall dev, bool_decide (10 ∉ str dev) = true -> bool_decide (0 ∉ str dev) = true ->
    rule_parts (str dev ++ str "|0|tcp:80 tcp:90") (str "tcp:80 tcp:90")).
  { intros dev H1 H2. breflect. split; [exists (str dev ++ str "|0"); by rewrite <- app_assoc|]. split; [discriminate|].
    split; [apply (bool_decide_unpack _); vm_compute; exact I|].
    split; intros [Hin|Hin]%elem_of_app; [done| |done|]; revert Hin; apply (bool_decide_unpack _); vm_compute; exact I. }
  rewrite remove_forward_spec; [reflexivity|]. split; [repeat constructor|].
  apply List.Forall_cons; [split; [reflexivity|eexists; by apply (Hr "A"%string)]|].
  apply List.Forall_cons; [split; [reflexivity|eexists; by apply (Hr "B"%string)]|]. apply List.Forall_nil.
Defined.
