(* ===== verification/ServerAuth.v ===== *)
(** * ServerAuth: the host's side of the session handshake ([host/server.cpp],
    [WorkThreadInitSession] of [session.cpp])

    One session as a value, the table of devices, the key files and the packets
    sent.  [HEnv] is what the system answers while one packet is handled;
    [hostOhos] is the build for OpenHarmony hosts, where keys may come from the
    credential service, [encryptTcp] the build with TLS. *)

From Stdlib Require Import String ZArith Lia List Bool.
From stdpp Require Import base list numbers option gmap.
From S2P Require Import Prelude Defs OrdMap Serial Messages Heartbeat Session Strings Numbers Translate AuthKeys Daemon.
From S2P Require Import ServerTables.

Record SSession := mkSSession {
  h_sessionId : Z; h_connType : Z; h_connectKey : bytes; h_isCheck : bool; h_verifyType : Z; h_supportEncrypt : bool;
  h_supportConnValidation : bool; h_handshakeOK : bool; h_sslHandshake : bool; h_classSSL : bool;
  h_heartbeat : HdcHeartbeat
}.

Definition h_verify v s := mkSSession (h_sessionId s) (h_connType s) (h_connectKey s) (h_isCheck s) v (h_supportEncrypt s)
  (h_supportConnValidation s) (h_handshakeOK s) (h_sslHandshake s) (h_classSSL s) (h_heartbeat s).
Definition h_encrypt v s := mkSSession (h_sessionId s) (h_connType s) (h_connectKey s) (h_isCheck s) (h_verifyType s) v
  (h_supportConnValidation s) (h_handshakeOK s) (h_sslHandshake s) (h_classSSL s) (h_heartbeat s).
Definition h_conn v s := mkSSession (h_sessionId s) (h_connType s) (h_connectKey s) (h_isCheck s) (h_verifyType s)
  (h_supportEncrypt s) v (h_handshakeOK s) (h_sslHandshake s) (h_classSSL s) (h_heartbeat s).
Definition h_done v s := mkSSession (h_sessionId s) (h_connType s) (h_connectKey s) (h_isCheck s) (h_verifyType s)
  (h_supportEncrypt s) (h_supportConnValidation s) v (h_sslHandshake s) (h_classSSL s) (h_heartbeat s).
Definition h_ssl hand class s := mkSSession (h_sessionId s) (h_connType s) (h_connectKey s) (h_isCheck s) (h_verifyType s)
  (h_supportEncrypt s) (h_supportConnValidation s) (h_handshakeOK s) hand class (h_heartbeat s).
Definition h_beat v s := mkSSession (h_sessionId s) (h_connType s) (h_connectKey s) (h_isCheck s) (h_verifyType s)
  (h_supportEncrypt s) (h_supportConnValidation s) (h_handshakeOK s) (h_sslHandshake s) (h_classSSL s) v.

(** The TLS object of the host. *)
Record HSslEnv := mkHSslEnv {
  hs_new : bool; hs_decrypt : Z; hs_InputPsk : bool; hs_InitSSL : Z; hs_DoBIOWrite : Z; hs_Perform : Z * bytes;
  hs_label : bool; hs_ClearPsk : bool
}.

Section Server.
Context `{OpenSSL} (hostOhos encryptTcp : bool).

Record HEnv := mkHEnv {
  he_hostname : option bytes; he_newKey : option EVP_PKEY; he_writeOk : bool; he_encryptKey : bool; he_signOk : bool;
  he_validation : bytes;            (* the connect validation parameter *)
  he_credPub : option bytes;        (* GetPublicKeyHashInfo *)
  he_credKey : option EVP_PKEY;     (* GetPrivateKeyInfo and its PEM text *)
  he_encrptSwitch : bool; he_heartbeatSwitch : bool; he_os : bytes; he_hash : bytes;
  he_junk : Z * Z; he_ssl : HSslEnv
}.

Record Server := mkServer { mapDaemon : daemon_map; keyFiles : KeyFiles; lastErrorNum : Z; out : list Packet }.

Definition set_mapDaemon m s := mkServer m (keyFiles s) (lastErrorNum s) (out s).
Definition set_keyFiles k s := mkServer (mapDaemon s) k (lastErrorNum s) (out s).
Definition set_lastErrorNum e s := mkServer (mapDaemon s) (keyFiles s) e (out s).
Definition send_out (sid : Z) (hs : SessionHandShake) (s : Server) : Server :=
  mkServer (mapDaemon s) (keyFiles s) (lastErrorNum s)
    (out s ++ [mkPacket sid 0 CMD_KERNEL_HANDSHAKE (SerializeToString SessionHandShake_type hs)]).

Context (env : HEnv).

Definition host_validation : bool :=
  if hostOhos then
    let v := GetConnectValidationParam (he_validation env) in
    (v =? VALIDATION_HDC_HOST) || (v =? VALIDATION_HDC_HOST_AND_DAEMON)
  else false.

(** ** The first message *)

Definition SetFeature (connType : Z) (buf : bytes) : bytes :=
  let feature := [GetVersion; detail conTypeDetail (if CONN_UNKNOWN <=? connType then CONN_UNKNOWN else connType); he_os env] ++
    (if he_heartbeatSwitch env then [FEATURE_HEARTBEAT] else []) ++
    (if encryptTcp && he_encrptSwitch env then [FEATURE_ENCRYPT_TCP] else []) ++
    (if host_validation then [FEATURE_CONN_VALIDATION] else []) in
  (TlvAppend buf TAG_SUPPORT_FEATURE (FeatureToString feature)).2.

Definition WorkThreadInitSession (h : SSession) : SessionHandShake :=
  mkSessionHandShake HANDSHAKE_MESSAGE AUTH_NONE (h_sessionId h) (h_connectKey h)
    (SetFeature (h_connType h) (TlvAppend [] TAG_AUTH_TYPE (to_string RSA_3072_SHA512)).2)
    (if h_isCheck h then [] else GetVersion ++ he_hash env).

(** ** Answers to the daemon *)

Definition GetDaemonAuthType (h : SSession) (hs : SessionHandShake) : res SSession :=
  let h := h_verify RSA_ENCRYPT h in
  '((ok, tlvmap) : bool * list (bytes * bytes)) ← TlvToStringMap (hs_buf hs) [];
  match ok with
  | false => Ok h
  | true =>
      if negb (bool_decide (om_find TAG_AUTH_TYPE tlvmap = Some (to_string RSA_3072_SHA512))) then Ok h
      else
        h ← (if host_validation then
               match om_find TAG_SUPPORT_FEATURE tlvmap with
               | Some text => features ← SplitString text (str ",") []; Ok (h_conn (IsSupportFeature features FEATURE_CONN_VALIDATION) h)
               | None => Ok h
               end
             else Ok h);
        let h := h_verify RSA_3072_SHA512 h in
        Ok (if encryptTcp then h_encrypt (bool_decide (om_find TAG_ENCRYPT_TCP tlvmap = Some (str "1"))) h else h)
  end.

Definition HandleAuthPubkeyMsg (h : SSession) (hs : SessionHandShake) (s : Server) : res (bool * SSession * Server) :=
  h ← GetDaemonAuthType h hs;
  let '(buf, s1, err) :=
    if host_validation then (he_credPub env, s, false)
    else
      let '(pub, f) := GetPublicKeyinfo (he_encryptKey env) (he_writeOk env) (he_newKey env) (he_hostname env) (keyFiles s) in
      (pub, set_keyFiles f s, true) in
  match buf with
  | None => Ok (false, h, if err then set_lastErrorNum 5 s1 else s1)
  | Some b =>
      let hs' := set_hs_authType AUTH_PUBLICKEY (set_hs_buf b hs) in
      Ok (true, h, send_out (h_sessionId h) hs' s1)
  end.

Definition HandleAuthSignatureMsg (h : SSession) (hs : SessionHandShake) (s : Server) : res (bool * SSession * Server) :=
  let key := if host_validation then he_credKey env else private_of (f_private (keyFiles s)) in
  signed ← RsaSignAndBase64 (he_signOk env) key (h_verifyType h) (hs_buf hs);
  match signed with
  | None => Ok (false, h, s)
  | Some b =>
      let hs' := set_hs_authType AUTH_SIGNATURE (set_hs_buf b hs) in
      Ok (true, h, send_out (h_sessionId h) hs' s)
  end.

(** [BUF_SIZE_PSK] and [BUF_SIZE_PSK_ENCRYPTED] bound the encrypted secret. *)
Definition ServerSessionSSLInit (h : SSession) (hs : SessionHandShake) : bool * SSession * SessionHandShake :=
  let ssl := he_ssl env in
  if (zlen (hs_buf hs) <? 32) || (512 <? zlen (hs_buf hs)) then (false, h, hs)
  else if negb (hs_new ssl) then (false, h, hs)
  else
    let h := h_ssl (h_sslHandshake h) true h in
    if hs_decrypt ssl <=? 0 then (false, h, hs)
    else if negb (hs_InputPsk ssl) then (false, h, hs)
    else if negb (hs_InitSSL ssl =? RET_SUCCESS) then (false, h, hs)
    else (true, h, set_hs_buf [] hs).

Definition ServerSSLHandshake (h : SSession) (hs : SessionHandShake) (s : Server) : bool * SSession * Server :=
  let ssl := he_ssl env in
  if negb (h_classSSL h) then (false, h, s)
  else if negb (bytes_eqb (hs_buf hs) []) && negb (hs_DoBIOWrite ssl =? zlen (hs_buf hs)) then (false, h, s)
  else
    let '(ret, buf) := hs_Perform ssl in
    if (ret =? RET_SUCCESS) && bytes_eqb buf [] then (false, h, s)
    else
      let s1 := if ret =? RET_SUCCESS then send_out (h_sessionId h) (set_hs_buf buf hs) s else s in
      if ret =? RET_SSL_HANDSHAKE_FINISHED then
        let h1 := if hs_label ssl then h_ssl true (h_classSSL h) h else h in
        (RET_SUCCESS <=? (if hs_ClearPsk ssl then ret else ERR_GENERIC), h1, s1)
      else (RET_SUCCESS <=? ret, h, s1).

Definition HandServerAuth (h : SSession) (hs : SessionHandShake) (s : Server) : res (bool * SSession * Server) :=
  if encryptTcp && (h_connType h =? CONN_TCP) && he_encrptSwitch env && (hs_authType hs =? AUTH_SIGNATURE) then Ok (false, h, s)
  else if hs_authType hs =? AUTH_PUBLICKEY then HandleAuthPubkeyMsg h hs s
  else if hs_authType hs =? AUTH_SIGNATURE then HandleAuthSignatureMsg h hs s
  else if encryptTcp && (hs_authType hs =? AUTH_SSL_TLS_PSK) then
    let '(ok, h, hs) := if h_classSSL h then (true, h, hs) else ServerSessionSSLInit h hs in
    if ok then Ok (ServerSSLHandshake h hs s) else Ok (false, h, s)
  else Ok (false, h, s).

(** [ParsePeerSupportFeatures] on the host. *)
Definition HostPeerFeatures (tlvmap : list (bytes * bytes)) (h : SSession) : res SSession :=
  match om_find TAG_SUPPORT_FEATURE tlvmap with
  | None => Ok h
  | Some text =>
      features ← SplitString text (str ",") [];
      let h := h_beat (SetSupportHeartbeat (IsSupportFeature features FEATURE_HEARTBEAT) (h_heartbeat h)) h in
      Ok (if encryptTcp then h_encrypt (IsSupportFeature features FEATURE_ENCRYPT_TCP) h else h)
  end.

Definition UpdateHdiInfo (h : SSession) (hs : SessionHandShake) (s : Server) : res (SSession * Server) :=
  match AdminDaemonMapQuery (h_connectKey h) (mapDaemon s) with
  | None => Ok (h, s)
  | Some di =>
      let fill dev emg auth feat := mkDI (di_connType di) STATUS_CONNECTED (di_connectKey di) (di_usbMountPoint di) dev
        (di_hSession di) (hs_version hs) emg auth feat false [] in
      let store h d := Ok (h, set_mapDaemon (AdminDaemonMapUpdate d (mapDaemon s)) s) in
      if low_version (hs_version hs) then
        store h (fill (if bytes_eqb (hs_buf hs) [] then di_devName di else hs_buf hs) (di_emgmsg di)
                   (di_daemonAuthStatus di) (di_daemonFeature di))
      else
        '((ok, tlvmap) : bool * list (bytes * bytes)) ← TlvToStringMap (hs_buf hs) [];
        match ok with
        | false => store h (fill (di_devName di) (di_emgmsg di) (di_daemonAuthStatus di) (di_daemonFeature di))
        | true =>
            let get tag dflt := match om_find tag tlvmap with Some v => v | None => dflt end in
            h ← HostPeerFeatures tlvmap h;
            store h (fill (get TAG_DEVNAME (di_devName di)) (get TAG_EMGMSG (di_emgmsg di))
              (get TAG_DAEOMN_AUTHSTATUS (di_daemonAuthStatus di))
              (match om_find TAG_FEATURE_SHELL_OPT tlvmap with
               | Some v => om_set TAG_FEATURE_SHELL_OPT v (di_daemonFeature di)
               | None => di_daemonFeature di
               end))
        end
  end.

Definition HANDSHAKE_FAILED : bytes := str "HS FAILED".

Definition ServerSessionHandshake (h : SSession) (payload : bytes) (s : Server) : res (bool * SSession * Server) :=
  let '(_, hs) := ParseFromString SessionHandShake_type
    (mkSessionHandShake [] (he_junk env).1 (he_junk env).2 [] [] []) payload in
  if bytes_eqb (hs_banner hs) HANDSHAKE_FAILED then Ok (false, h, s)
  else if negb (bytes_eqb (hs_banner hs) HANDSHAKE_MESSAGE) then Ok (false, h, s)
  else if negb (hs_authType hs =? AUTH_OK) then HandServerAuth h hs s
  else if encryptTcp && (h_connType h =? CONN_TCP) && he_encrptSwitch env && negb (h_sslHandshake h) then Ok (false, h, s)
  else '((h, s) : SSession * Server) ← UpdateHdiInfo h hs s; Ok (true, h_done true h, s).
End Server.
