(* ===== verification/AuthSystem.v ===== *)
(** * AuthSystem: host and daemon shake hands

    The messages of [ServerAuth] and [Daemon] put together: what one side sends
    is the packet the other handles. *)

From Stdlib Require Import String ZArith Lia List Bool.
From stdpp Require Import base list numbers option gmap.
From S2P Require Import Prelude Defs OrdMap Serial SerialFacts Messages Heartbeat Session Task Strings Numbers Translate.
From S2P Require Import AuthKeys Daemon DaemonProps ServerTables ServerAuth.

(** ** No downgrade to plain text *)

Lemma GetDaemonAuthType_keeps `{OpenSSL} (ohos enc : bool) (env : HEnv) (h h' : SSession) (hs : SessionHandShake) :
  GetDaemonAuthType ohos enc env h hs = Ok h' ->
  h_handshakeOK h' = h_handshakeOK h /\ h_sslHandshake h' = h_sslHandshake h /\ h_connType h' = h_connType h /\
  h_sessionId h' = h_sessionId h /\ h_connectKey h' = h_connectKey h.
Proof.
  unfold GetDaemonAuthType. destruct (TlvToStringMap _ _) as [[ok m]| | |]; cbn [mbind res_bind]; try discriminate.
  destruct ok; [|intros; inv_res; auto].
  destruct (negb _); [intros; inv_res; auto|].
  intros E. inv_res.
  enough (h_handshakeOK x = h_handshakeOK h /\ h_sslHandshake x = h_sslHandshake h /\ h_connType x = h_connType h /\
    h_sessionId x = h_sessionId h /\ h_connectKey x = h_connectKey h) by (destruct enc; done).
  destruct (host_validation _ _); [|by inv_res].
  destruct (om_find TAG_SUPPORT_FEATURE m) as [text|]; by inv_res.
Qed.

Lemma ServerSessionSSLInit_keeps `{OpenSSL} (env : HEnv) (h h' : SSession) (hs hs' : SessionHandShake) (b : bool) :
  ServerSessionSSLInit env h hs = (b, h', hs') ->
  h_handshakeOK h' = h_handshakeOK h /\ hs_authType hs' = hs_authType hs.
Proof.
  unfold ServerSessionSSLInit. intros E.
  repeat match type of E with (if ?c then _ else _) = _ => destruct c end; injection E as <- <- <-; auto.
Qed.

(** What one message may add to the host's output: nothing, or one handshake
    message that is not a signature. *)
Definition sends_no_signature `{OpenSSL} (s s' : Server) : Prop :=
  mapDaemon s' = mapDaemon s /\
  (out s' = out s \/ exists data hs, out s' = out s ++ [data] /\
     k_data data = SerializeToString SessionHandShake_type hs /\ hs_authType hs <> AUTH_SIGNATURE).

Lemma sends_no_signature_refl `{OpenSSL} (s : Server) : sends_no_signature s s.
Proof. split; auto. Qed.

Lemma sends_no_signature_send `{OpenSSL} (s : Server) (sid : Z) (hs : SessionHandShake) :
  hs_authType hs <> AUTH_SIGNATURE -> sends_no_signature s (send_out sid hs s).
Proof. intros Hn. split; [done|]. right. eexists _, hs. split; [reflexivity|]. split; [reflexivity|done]. Qed.

Lemma ServerSSLHandshake_keeps `{OpenSSL} (env : HEnv) (h h' : SSession) (hs : SessionHandShake) (s s' : Server) (b : bool) :
  hs_authType hs <> AUTH_SIGNATURE ->
  ServerSSLHandshake env h hs s = (b, h', s') ->
  h_handshakeOK h' = h_handshakeOK h /\ sends_no_signature s s'.
Proof.
  unfold ServerSSLHandshake. intros Hn E.
  destruct (negb (h_classSSL h)); [injection E as <- <- <-; split; [done|apply sends_no_signature_refl]|].
  destruct (negb _ && _); [injection E as <- <- <-; split; [done|apply sends_no_signature_refl]|].
  destruct (hs_Perform _) as [ret buf].
  destruct ((ret =? _) && _); [injection E as <- <- <-; split; [done|apply sends_no_signature_refl]|].
  destruct (ret =? RET_SSL_HANDSHAKE_FINISHED); injection E as <- <- <-;
    (split; [try destruct (hs_label (he_ssl env)); reflexivity|
             destruct (ret =? RET_SUCCESS); [by apply sends_no_signature_send|apply sends_no_signature_refl]]).
Qed.

Lemma HandleAuthPubkeyMsg_keeps `{OpenSSL} (ohos enc : bool) (env : HEnv) (h h' : SSession) (hs : SessionHandShake)
    (s s' : Server) (b : bool) :
  HandleAuthPubkeyMsg ohos enc env h hs s = Ok (b, h', s') ->
  h_handshakeOK h' = h_handshakeOK h /\ sends_no_signature s s'.
Proof.
  unfold HandleAuthPubkeyMsg. destruct (GetDaemonAuthType _ _ _ _ _) as [h1| | |] eqn:Eg; cbn [mbind res_bind]; try discriminate.
  apply GetDaemonAuthType_keeps in Eg as (Ek & _).
  destruct (host_validation _ _).
  - destruct (he_credPub env); intros; inv_res; split; try done.
    + by apply sends_no_signature_send.
    + apply sends_no_signature_refl.
  - destruct (GetPublicKeyinfo _ _ _ _ _) as [[pub|] f]; intros; inv_res; (split; [done|]).
    + split; [done|]. right. eexists _, _. split; [reflexivity|]. split; [reflexivity|done].
    + split; [done|]. by left.
Qed.

(** C28. On a TCP connection for which the user asked for encryption, the host
    neither signs a token in plain text nor takes the session into use before
    the TLS handshake is complete, whatever messages the device sends. *)
Theorem no_plaintext_downgrade `{OpenSSL} (ohos : bool) (env : HEnv) (h h' : SSession) (payload : bytes) (s s' : Server)
    (b : bool) :
  h_connType h = CONN_TCP -> he_encrptSwitch env = true -> h_sslHandshake h = false ->
  ServerSessionHandshake ohos true env h payload s = Ok (b, h', s') ->
  h_handshakeOK h' = h_handshakeOK h /\ mapDaemon s' = mapDaemon s /\
  (out s' = out s \/ exists data hs, out s' = out s ++ [data] /\
     k_data data = SerializeToString SessionHandShake_type hs /\ hs_authType hs <> AUTH_SIGNATURE).
Proof.
  intros Hc Hsw Hssl. unfold ServerSessionHandshake. destruct (ParseFromString _ _ payload) as [ok hs].
  destruct (bytes_eqb _ _). { intros. inv_res. auto. }
  destruct (negb (bytes_eqb _ _)). { intros. inv_res. auto. }
  rewrite Hc, Hsw, Hssl, Z.eqb_refl. cbn [andb negb].
  destruct (negb (hs_authType hs =? AUTH_OK)) eqn:Eok; [|intros; inv_res; auto].
  unfold HandServerAuth. rewrite Hc, Hsw, Z.eqb_refl. cbn [andb].
  destruct (hs_authType hs =? AUTH_SIGNATURE) eqn:Esig; [intros; inv_res; auto|]. apply Z.eqb_neq in Esig.
  destruct (hs_authType hs =? AUTH_PUBLICKEY) eqn:Epub; [apply HandleAuthPubkeyMsg_keeps|].
  destruct (hs_authType hs =? AUTH_SSL_TLS_PSK); [|intros; inv_res; auto].
  destruct (if h_classSSL h then _ else _) as [[ok1 h1] hs1] eqn:Ei.
  assert (h_handshakeOK h1 = h_handshakeOK h /\ hs_authType hs1 = hs_authType hs) as [E1 E2].
  { destruct (h_classSSL h); [by injection Ei as <- <- <-|by eapply ServerSessionSSLInit_keeps]. }
  destruct ok1; [|intros; inv_res; auto]. intros E. injection E as E.
  apply ServerSSLHandshake_keeps in E; [|by rewrite E2]. by rewrite <- E1.
Qed.

(** ** The whole exchange *)

Section Exchange.
Context `{Laws : OpenSSLLaws} (hostOhos : bool) (henv : HEnv) (denv : Env).
Context (k : EVP_PKEY) (name ver keys : bytes).

#[local] Abbreviation pem := (PEM_write_bio_PUBKEY (public_half k)).
#[local] Abbreviation tok := (GetSecureRandomString (e_random denv) SHA_DIGEST_LENGTH).

(** A message after the first: the daemon clears the id and the key. *)
Definition hs_msg (t : Z) (buf : bytes) : SessionHandShake := mkSessionHandShake HANDSHAKE_MESSAGE t 0 [] buf ver.
Definition wire (t : Z) (buf : bytes) : bytes := SerializeToString SessionHandShake_type (hs_msg t buf).

Definition authtype_text : bytes := (TlvAppend [] TAG_AUTH_TYPE (to_string RSA_3072_SHA512)).2.
Definition ok_options : list (bytes * bytes) :=
  [(TAG_EMGMSG, []); (TAG_DEVNAME, cstr (e_hostname denv)); (TAG_DAEOMN_AUTHSTATUS, DAEOMN_AUTH_SUCCESS);
   (TAG_FEATURE_SHELL_OPT, str "enable"); (TAG_SUPPORT_FEATURE, FeatureToString GetSupportFeature)].
Definition ok_text : bytes := fold_left (fun t p => (TlvAppend t p.1 p.2).2) ok_options [].

(** Nothing but the token decides: a key of 3072 bits the device knows, files
    that belong together, no enterprise validation, no failure of OpenSSL. *)
Record peaceful (s : Server) : Prop := {
  pc_ver : low_version ver = false; pc_verlen : zlen ver <= 1024;
  pc_name : name <> [] /\ ~ (12 ∈ name) /\ zlen name <= 1024; pc_devname : zlen (cstr (e_hostname denv)) <= 1024;
  pc_size : RSA_size (public_half k) = 384; pc_pem : zlen pem = 625; pc_known : contains keys pem = true;
  pc_private : private_of (f_private (keyFiles s)) = Some k; pc_public : f_public (keyFiles s) = Some pem;
  pc_hostname : he_hostname henv = Some name; pc_validation : host_validation hostOhos henv = false;
  pc_sign : forall d, is_Some (EVP_PKEY_sign k d); pc_signOk : he_signOk henv = true;
  pc_connect : connectstatus denv = false; pc_bio : e_bioOk denv = true; pc_ctx : e_ctxOk denv = true
}.

(** The daemon's view of the session while the exchange goes on. *)
Record dstate (d : Daemon) (p : addr) (sid : Z) (i : HdcDaemonAuthInfo) : Prop := {
  ds_sess : exists s, heap (base d) !! p = Some s /\ s_sessionId s = sid;
  ds_ext : exists x, ext d !! p = Some x /\ d_verifyType x = RSA_3072_SHA512 /\ d_tokenRSA x = tok;
  ds_auth : auth_of sid d = i; ds_enable : authEnable d = true; ds_keys : hdc_keys d = Some keys
}.

Lemma wire_wf t buf : 0 <= t <= 6 -> zlen buf <= 65536 -> zlen ver <= 1024 -> SessionHandShake_wf (hs_msg t buf).
Proof.
  intros Ht Hb Hv. unfold SessionHandShake_wf, hs_msg, string_dom, in_u, MAX_STRING_SIZE. cbn. lia.
Qed.

(** While a session exists, a handshake packet reaches the handshake. *)
Lemma fetch_handshake p c payload d s : heap (base d) !! p = Some s ->
  FetchCommand false denv p c CMD_KERNEL_HANDSHAKE payload d = DaemonSessionHandshake false denv p c payload d.
Proof.
  intros Hp. unfold FetchCommand, CheckAuthStatus, sess. rewrite Hp. cbn [deref mbind res_bind].
  change (ReportCommandEvent denv CMD_KERNEL_HANDSHAKE) with true.
  change (CMD_KERNEL_HANDSHAKE =? CMD_KERNEL_HANDSHAKE) with true. cbn [negb andb]. rewrite andb_false_r. done.
Qed.

Lemma daemon_parse t buf : 0 <= t <= 6 -> zlen buf <= 65536 -> zlen ver <= 1024 ->
  forall v0, ParseFromString SessionHandShake_type v0 (wire t buf) = (true, hs_msg t buf).
Proof. intros. apply SessionHandShake_rt. by apply wire_wf. Qed.

Definition tag_ok (tag : bytes) : bool :=
  negb (bytes_eqb tag []) && (zlen tag <=? TLV_TAG_LEN) && forallb (fun c => negb (c =? 32)) tag.

Lemma tlv_option_intro tag val : tag_ok tag = true -> zlen val <= INT_MAX -> tlv_option (tag, val).
Proof.
  unfold tag_ok. intros Ht Hv. breflect. split_and!; cbn [fst snd]; try done.
  - by intros ->.
  - intros Hin%list_elem_of_In. rewrite forallb_forall in *. by specialize (H1 _ Hin).
Qed.

(** The options of the host's first message. *)
Lemma first_message_options (h : SSession) : h_isCheck h = false ->
  SessionHandShake_wf (WorkThreadInitSession hostOhos false henv h) ->
  exists features, TlvToStringMap (hs_buf (WorkThreadInitSession hostOhos false henv h)) [] = Ok (true,
    fold_left (fun m p => om_set p.1 p.2 m)
      [(TAG_AUTH_TYPE, to_string RSA_3072_SHA512); (TAG_SUPPORT_FEATURE, features)] []).
Proof.
  intros Hc Hwf. destruct Hwf as (_ & _ & _ & _ & Hb & _). unfold WorkThreadInitSession, SetFeature in *. cbn [hs_buf] in *.
  match goal with |- context [FeatureToString ?f] => set (features := FeatureToString f) in *; clearbody features end.
  exists features.
  apply (TlvToStringMap_appended [(TAG_AUTH_TYPE, to_string RSA_3072_SHA512); (TAG_SUPPORT_FEATURE, features)]); [done|].
  repeat apply Forall_cons_2; [by apply tlv_option_intro| |by constructor]. apply tlv_option_intro; [done|].
  unfold string_dom, MAX_STRING_SIZE in Hb. unfold TlvAppend in Hb. rewrite !bool_decide_false in Hb by done. cbn [snd] in Hb.
  rewrite !length_app in Hb. unfold INT_MAX. lia.
Qed.

(** What the exchange needs of two states around a step that only touches the
    session [p]. *)
Definition same_tables (d d' : Daemon) : Prop :=
  mapAuthStatus d' = mapAuthStatus d /\ authEnable d' = authEnable d /\ hdc_keys d' = hdc_keys d /\ sent d' = sent d.

Lemma upd_ext_ok p f d x : ext d !! p = Some x ->
  exists d', upd_ext p f d = Ok d' /\ ext d' !! p = Some (f x) /\ base d' = base d /\ same_tables d d'.
Proof.
  intros Hx. unfold upd_ext. rewrite Hx. cbn [deref mbind res_bind]. eexists. split; [done|].
  split; [apply lookup_insert_eq|]. by split_and!.
Qed.

Lemma server_capability p hs d x features : ext d !! p = Some x ->
  TlvToStringMap (hs_buf hs) [] = Ok (true, fold_left (fun m p => om_set p.1 p.2 m)
      [(TAG_AUTH_TYPE, to_string RSA_3072_SHA512); (TAG_SUPPORT_FEATURE, features)] []) ->
  exists d' x', GetServerCapability false denv p hs d = Ok d' /\ ext d' !! p = Some x' /\ d_verifyType x' = RSA_3072_SHA512 /\
    base d' = base d /\ same_tables d d'.
Proof.
  intros Hx Hopt. unfold GetServerCapability, ParsePeerSupportFeatures.
  destruct (upd_ext_ok p (set_verifyType RSA_ENCRYPT) d x Hx) as (d1 & -> & Hx1 & Hb1 & T1). cbn [mbind res_bind].
  rewrite Hopt. cbn [mbind res_bind fold_left fst snd].
  change (om_find TAG_AUTH_TYPE _) with (Some (to_string RSA_3072_SHA512)).
  change (om_find TAG_SUPPORT_FEATURE _) with (Some features). rewrite bool_decide_true by done.
  destruct (upd_ext_ok p (set_verifyType RSA_3072_SHA512) d1 _ Hx1) as (d2 & -> & Hx2 & Hb2 & T2). cbn [mbind res_bind].
  change (str ",") with [44]. rewrite split_string_fields. cbn [mbind res_bind].
  match goal with |- context [upd_ext p ?f d2] => destruct (upd_ext_ok p f d2 _ Hx2) as (d3 & -> & Hx3 & Hb3 & T3) end.
  eexists d3, _. split; [done|]. split; [exact Hx3|]. split; [done|].
  split; [by rewrite Hb3, Hb2|]. unfold same_tables in *. intuition congruence.
Qed.

Lemma handshake_init p hs d s x features : heap (base d) !! p = Some s -> ext d !! p = Some x ->
  TlvToStringMap (hs_buf hs) [] = Ok (true, fold_left (fun m p => om_set p.1 p.2 m)
      [(TAG_AUTH_TYPE, to_string RSA_3072_SHA512); (TAG_SUPPORT_FEATURE, features)] []) ->
  exists d' x', DaemonSessionHandshakeInit false denv p hs d = Ok (set_hs_connectKey [] (set_hs_sessionId 0 hs), d') /\
    heap (base d') !! p = Some (set_sessionId (hs_sessionId hs) s) /\ ext d' !! p = Some x' /\
    d_verifyType x' = RSA_3072_SHA512 /\ same_tables d d'.
Proof.
  intros Hp Hx Hopt. unfold DaemonSessionHandshakeInit, sess, upd. rewrite Hp. cbn [deref mbind res_bind].
  match goal with |- context [upd_ext p ?f ?e] => destruct (upd_ext_ok p f e x Hx) as (d1 & -> & Hx1 & Hb1 & T1) end.
  cbn [mbind res_bind]. rewrite Hb1. cbn [base set_base].
  unfold AdminSession. change (OP_UPDATE =? OP_ADD) with false. change (OP_UPDATE =? OP_REMOVE) with false.
  change (OP_UPDATE =? OP_QUERY) with false. change (OP_UPDATE =? OP_QUERY_REF) with false.
  change (OP_UPDATE =? OP_UPDATE) with true. cbn [deref mbind res_bind heap set_heap]. rewrite lookup_insert_eq.
  cbn [deref mbind res_bind].
  match goal with |- context [GetServerCapability _ _ p ?h ?e] =>
    destruct (server_capability p h e (set_handshakeOK false (set_connectKey (hs_connectKey hs) x)) features)
      as (d2 & x2 & -> & Hx2 & Hv & Hb2 & T2) end; [|exact Hopt|].
  - destruct (s_connType s =? CONN_SERIAL); [exact Hx1|]. destruct (s_connType s =? CONN_USB); exact Hx1.
  - cbn [mbind res_bind]. exists d2, x2. split; [done|]. split; [|split; [done|]; split; [done|]].
    + rewrite Hb2. destruct (s_connType s =? CONN_SERIAL); [|destruct (s_connType s =? CONN_USB)];
        cbn [base set_uart set_usb set_base heap set_mapSession set_heap]; by rewrite lookup_insert_eq.
    + destruct T1 as (? & ? & ? & ?), T2 as (? & ? & ? & ?).
      destruct (s_connType s =? CONN_SERIAL); [|destruct (s_connType s =? CONN_USB)]; split_and!; etrans; eassumption.
Qed.

(** The daemon answers the first message with a token kept for the session and
    a request for the public key. *)
Lemma daemon_init p c h d s x : let m := WorkThreadInitSession hostOhos false henv h in
  h_isCheck h = false -> SessionHandShake_wf m -> hs_version m = ver -> low_version ver = false -> connectstatus denv = false ->
  heap (base d) !! p = Some s -> ext d !! p = Some x -> authEnable d = true -> hdc_keys d = Some keys ->
  GetSessionAuthStatus (h_sessionId h) d = AUTH_NONE ->
  exists d', FetchCommand false denv p c CMD_KERNEL_HANDSHAKE (SerializeToString SessionHandShake_type m) d = Ok (true, d') /\
    dstate d' p (h_sessionId h) (mkAuthInfo AUTH_NONE tok [] []) /\
    sent d' = sent d ++ [mkPacket (h_sessionId h) c CMD_KERNEL_HANDSHAKE (wire AUTH_PUBLICKEY authtype_text)].
Proof.
  intros m Hck Hwf Hver Hlow Hcs Hp Hx Hen Hk Hst. destruct (first_message_options h Hck Hwf) as [features Hopt].
  rewrite (fetch_handshake p c _ d s Hp). unfold DaemonSessionHandshake. rewrite SessionHandShake_rt by done.
  change (hs_banner m) with HANDSHAKE_MESSAGE. change (hs_authType m) with AUTH_NONE. change (hs_sessionId m) with (h_sessionId h).
  rewrite Hst. change (bytes_eqb HANDSHAKE_MESSAGE HANDSHAKE_MESSAGE) with true. change (AUTH_NONE =? AUTH_NONE) with true.
  cbn [negb andb].
  destruct (handshake_init p m d s x features Hp Hx Hopt) as (d1 & x1 & -> & Hp1 & Hx1 & Hv1 & M1 & E1 & K1 & S1).
  cbn [mbind res_bind]. unfold HandDaemonAuth, sess, dsess. rewrite Hp1, Hx1. cbn [deref mbind res_bind].
  rewrite Hcs, E1, Hen. cbn [negb andb set_hs_connectKey set_hs_sessionId hs_version].
  change (hs_version m) with (hs_version m). rewrite Hver, Hlow. change (s_sessionId (set_sessionId _ s)) with (h_sessionId h).
  unfold GetSessionAuthStatus at 1. rewrite (auth_of_map d d1) by done. fold (GetSessionAuthStatus (h_sessionId h) d).
  rewrite Hst. change (AUTH_NONE =? AUTH_OK) with false. change (hs_authType _ =? AUTH_NONE) with true. cbn iota.
  unfold HandDaemonAuthInit, sess, dsess. rewrite Hp1. cbn [deref mbind res_bind].
  destruct (upd_ext_ok p (set_tokenRSA tok) d1 x1 Hx1) as (d2 & -> & Hx2 & Hb2 & M2 & E2 & K2 & S2).
  cbn [mbind res_bind]. rewrite Hx2. cbn [deref mbind res_bind]. change (d_verifyType (set_tokenRSA tok x1)) with (d_verifyType x1).
  rewrite Hv1. change (RSA_3072_SHA512 =? RSA_3072_SHA512) with true. cbn [andb].
  eexists. split; [reflexivity|]. split.
  - split.
    + exists (set_sessionId (h_sessionId h) s). cbn [base InitSessionAuthInfo put_auth set_mapAuthStatus SendHandshake Send_ set_sent].
      by rewrite Hb2.
    + by exists (set_tokenRSA tok x1).
    + unfold InitSessionAuthInfo. by rewrite auth_put, decide_True.
    + cbn. by rewrite E2, E1.
    + cbn. by rewrite K2, K1.
  - cbn [sent InitSessionAuthInfo put_auth set_mapAuthStatus SendHandshake Send_ set_sent]. rewrite S2, S1.
    do 2 f_equal. unfold wire, hs_msg, authtype_text. by rewrite <- Hver.
Qed.

Lemma dstate_handshake p sid i c t buf d : dstate d p sid i -> 0 <= t <= 6 -> zlen buf <= 65536 -> zlen ver <= 1024 ->
  t <> AUTH_NONE ->
  FetchCommand false denv p c CMD_KERNEL_HANDSHAKE (wire t buf) d = HandDaemonAuth false denv p c (hs_msg t buf) d.
Proof.
  intros [(s & Hp & Hs) _ _ _ _] Ht Hb Hv Hn. rewrite (fetch_handshake p c _ d s Hp). unfold DaemonSessionHandshake.
  rewrite daemon_parse by done. change (bytes_eqb _ _) with true. cbn [negb hs_msg hs_authType].
  rewrite (proj2 (Z.eqb_neq t AUTH_NONE)) by done. done.
Qed.

Lemma pubkey_message : name <> [] /\ ~ (12 ∈ name) /\ zlen name <= 1024 -> zlen pem = 625 ->
  GetHostPubkeyInfo (name ++ [12] ++ pem) = (true, name, pem).
Proof.
  intros (Hne & Hni & _) Hpem. unfold GetHostPubkeyInfo, find. rewrite (proj2 (Z.ltb_ge _ 0)) by lia. rewrite zdrop_0.
  pose proof (find_aux_char 12 (name ++ [12] ++ pem) 0) as Hf. destruct (find_aux _ _ _) as [j|].
  - destruct Hf as (a & b & E & Ha & ->). destruct (app_first_char 12 name pem a b Hni E) as [[-> ->]|(a2 & Hx & _)]; [|by rewrite Hx in Ha; set_solver].
    unfold substr. rewrite zdrop_0, Z.add_0_l, ztake_app by done.
    rewrite app_assoc, zdrop_app by (rewrite length_app; cbn; lia).
    assert (bytes_eqb name [] = false) as -> by by apply bool_decide_eq_false.
    assert (bytes_eqb pem [] = false) as -> by (apply bool_decide_eq_false; intros E0; by rewrite E0 in Hpem). done.
  - exfalso. apply Hf, elem_of_app. right. by left.
Qed.

(** A known key is accepted and its owner asked to sign the token. *)
Lemma daemon_pubkey p sid c d s : peaceful s -> dstate d p sid (mkAuthInfo AUTH_NONE tok [] []) ->
  exists d', FetchCommand false denv p c CMD_KERNEL_HANDSHAKE (wire AUTH_PUBLICKEY (name ++ [12] ++ pem)) d = Ok (true, d') /\
    dstate d' p sid (mkAuthInfo AUTH_PUBLICKEY tok pem []) /\
    sent d' = sent d ++ [mkPacket sid c CMD_KERNEL_HANDSHAKE (wire AUTH_SIGNATURE tok)].
Proof.
  intros P D. rewrite (dstate_handshake p sid _ c _ _ d D); [|unfold AUTH_PUBLICKEY; lia| |apply P|done].
  2:{ rewrite !length_app. pose proof (pc_pem _ P). destruct (pc_name _ P) as (_ & _ & ?). cbn. lia. }
  destruct D as [(ss & Hp & Hs) (x & Hx & Hv & Ht) Ha He Hk]. unfold HandDaemonAuth, sess, dsess. rewrite Hp, Hx.
  cbn [deref mbind res_bind]. rewrite (pc_connect _ P), He, Hs. cbn [negb andb].
  change (hs_version (hs_msg AUTH_PUBLICKEY _)) with ver. rewrite (pc_ver _ P).
  unfold GetSessionAuthStatus, GetSessionAuthToken. rewrite Ha. cbn [authtype token].
  change (AUTH_NONE =? AUTH_OK) with false. change (AUTH_NONE =? AUTH_NONE) with true. rewrite token_length.
  change (hs_authType (hs_msg AUTH_PUBLICKEY _)) with AUTH_PUBLICKEY. change (AUTH_PUBLICKEY =? AUTH_NONE) with false.
  change (AUTH_PUBLICKEY =? AUTH_PUBLICKEY) with true. change (0 <? Z.of_nat 20) with true. cbn [andb].
  unfold HandDaemonAuthPubkey. rewrite (pc_connect _ P). change (hs_buf (hs_msg _ ?b)) with b.
  rewrite pubkey_message by apply P. cbn [negb]. unfold AlreadyInKnownHosts, key_in_file. rewrite Hk, (pc_pem _ P), (pc_known _ P).
  change ((625 =? 625) && true) with true. cbn iota. unfold SendAuthMsg, sess, dsess. rewrite Hp, Hx. cbn [deref mbind res_bind andb].
  rewrite Ht, Hs. eexists. split; [reflexivity|]. split; [|done]. unfold UpdateSessionAuthPubkey. rewrite Ha. cbn [token authmsg].
  split; [by exists ss|by exists x| |done|done].
  rewrite (auth_of_map (put_auth sid (mkAuthInfo AUTH_PUBLICKEY tok pem []) d)) by done. by rewrite auth_put, decide_True.
Qed.

(** A good signature authorises the session. *)
Lemma daemon_signature p sid c d s sig : peaceful s -> dstate d p sid (mkAuthInfo AUTH_PUBLICKEY tok pem []) ->
  EVP_PKEY_sign k (SHA512 tok) = Some sig ->
  exists d', FetchCommand false denv p c CMD_KERNEL_HANDSHAKE (wire AUTH_SIGNATURE (EVP_EncodeBlock sig)) d = Ok (true, d') /\
    abs d' sid = Authorised /\
    sent d' = sent d ++ [mkPacket sid c CMD_KERNEL_HANDSHAKE (wire AUTH_OK ok_text); mkPacket sid c CMD_KERNEL_CHANNEL_CLOSE [1]].
Proof.
  intros P D Hsig. destruct (verify_sign k _ sig Hsig) as [_ Hl]. rewrite (pc_size _ P) in Hl.
  destruct (encode_384 sig Hl) as [_ Hn].
  destruct (RsaSign_verify k tok sig (pc_size _ P) Hsig) as [_ Hver].
  rewrite (dstate_handshake p sid _ c _ _ d D); [|unfold AUTH_SIGNATURE; lia|lia|apply P|done].
  destruct D as [(ss & Hp & Hs) (x & Hx & Hv & Ht) Ha He Hk]. unfold HandDaemonAuth, sess, dsess. rewrite Hp, Hx.
  cbn [deref mbind res_bind]. rewrite (pc_connect _ P), He, Hs. cbn [negb andb].
  change (hs_version (hs_msg AUTH_SIGNATURE _)) with ver. rewrite (pc_ver _ P).
  unfold GetSessionAuthStatus, GetSessionAuthToken. rewrite Ha. cbn [authtype token].
  change (hs_authType (hs_msg AUTH_SIGNATURE _)) with AUTH_SIGNATURE. change (AUTH_PUBLICKEY =? AUTH_OK) with false.
  change (AUTH_SIGNATURE =? AUTH_NONE) with false. change (AUTH_PUBLICKEY =? AUTH_NONE) with false.
  change ((AUTH_PUBLICKEY =? AUTH_PUBLICKEY) && (AUTH_SIGNATURE =? AUTH_SIGNATURE)) with true. cbn [andb].
  unfold HandDaemonAuthSignature, sess, dsess. rewrite Hp, Hx. cbn [deref mbind res_bind].
  rewrite Hs, Hv. unfold GetSessionAuthToken, GetSessionAuthPubkey. rewrite Ha. cbn [token pubkey].
  unfold AuthVerify. rewrite (pc_bio _ P), (pc_ctx _ P), pem_read_write. cbn [negb].
  change (RSA_3072_SHA512 =? RSA_3072_SHA512) with true. change (hs_buf (hs_msg _ ?b)) with b. rewrite Hver.
  cbn [mbind res_bind]. unfold SendAuthOkMsg, sess, dsess. cbn [base ext UpdateSessionAuthOk put_auth set_mapAuthStatus].
  rewrite Hp, Hx. cbn [deref mbind res_bind]. change (hs_version (hs_msg AUTH_SIGNATURE _)) with ver.
  rewrite (pc_ver _ P), (pc_connect _ P), Hs. cbn [negb orb].
  match goal with |- context [upd_ext p ?f ?e] => destruct (upd_ext_ok p f e x Hx) as (d1 & -> & Hx1 & Hb1 & M1 & E1 & K1 & S1) end.
  cbn [mbind res_bind]. eexists. split; [reflexivity|]. split.
  - unfold abs. rewrite (auth_of_map (UpdateSessionAuthOk sid d)).
    + unfold UpdateSessionAuthOk. by rewrite auth_put, decide_True.
    + cbn [mapAuthStatus SendHandshake Send_ set_sent]. by rewrite M1.
  - cbn [sent SendHandshake Send_ set_sent]. rewrite S1. cbn [sent set_mapAuthStatus]. by rewrite <- app_assoc.
Qed.

(** ** The host's steps *)

(** The request for the public key is answered with the host's name and key. *)
Lemma host_pubkey h s : peaceful s ->
  exists h' s', ServerSessionHandshake hostOhos false henv h (wire AUTH_PUBLICKEY authtype_text) s = Ok (true, h', s') /\
    h_verifyType h' = RSA_3072_SHA512 /\ h_sessionId h' = h_sessionId h /\ h_connectKey h' = h_connectKey h /\
    mapDaemon s' = mapDaemon s /\ keyFiles s' = keyFiles s /\
    out s' = out s ++ [mkPacket (h_sessionId h) 0 CMD_KERNEL_HANDSHAKE (wire AUTH_PUBLICKEY (name ++ [12] ++ pem))].
Proof.
  intros P. unfold ServerSessionHandshake. rewrite daemon_parse; [|unfold AUTH_PUBLICKEY; lia|vm_compute; discriminate|apply P].
  change (bytes_eqb (hs_banner _) HANDSHAKE_FAILED) with false. change (bytes_eqb (hs_banner _) HANDSHAKE_MESSAGE) with true.
  cbn [negb]. change (hs_authType (hs_msg AUTH_PUBLICKEY _)) with AUTH_PUBLICKEY. change (AUTH_PUBLICKEY =? AUTH_OK) with false.
  cbn [negb]. unfold HandServerAuth. cbn [andb hs_msg hs_authType]. change (AUTH_PUBLICKEY =? AUTH_PUBLICKEY) with true.
  unfold HandleAuthPubkeyMsg, GetDaemonAuthType. change (hs_buf (hs_msg _ ?b)) with b.
  unfold authtype_text.
  pose proof (TlvToStringMap_appended [(TAG_AUTH_TYPE, to_string RSA_3072_SHA512)]) as Ht. cbn [fold_left fst snd] in Ht.
  rewrite Ht; [|done|repeat constructor; by apply tlv_option_intro]. clear Ht. cbn [mbind res_bind].
  change (om_find TAG_AUTH_TYPE _) with (Some (to_string RSA_3072_SHA512)). rewrite bool_decide_true by done.
  rewrite (pc_validation _ P). cbn [negb mbind res_bind].
  unfold GetPublicKeyinfo, TryLoadPublicKey, LoadPublicKey. rewrite (pc_hostname _ P), (pc_public _ P), pem_read_write.
  pose proof (pc_private _ P) as Hpr.
  replace (ztake RSA_KEY_BITS pem) with pem by (symmetry; apply ztake_ge; rewrite (pc_pem _ P); unfold RSA_KEY_BITS; lia).
  destruct (f_private (keyFiles s)); [done|..];
    (eexists _, _; split; [reflexivity|]; by split_and!).
Qed.

(** The token is signed with the private key. *)
Lemma host_sign h s sig : peaceful s -> h_verifyType h = RSA_3072_SHA512 -> EVP_PKEY_sign k (SHA512 tok) = Some sig ->
  exists s', ServerSessionHandshake hostOhos false henv h (wire AUTH_SIGNATURE tok) s = Ok (true, h, s') /\
    mapDaemon s' = mapDaemon s /\ keyFiles s' = keyFiles s /\
    out s' = out s ++ [mkPacket (h_sessionId h) 0 CMD_KERNEL_HANDSHAKE (wire AUTH_SIGNATURE (EVP_EncodeBlock sig))].
Proof.
  intros P Hv Hsig. unfold ServerSessionHandshake.
  rewrite daemon_parse; [|unfold AUTH_SIGNATURE; lia|rewrite token_length; lia|apply P].
  change (bytes_eqb (hs_banner _) HANDSHAKE_FAILED) with false. change (bytes_eqb (hs_banner _) HANDSHAKE_MESSAGE) with true.
  cbn [negb]. change (hs_authType (hs_msg AUTH_SIGNATURE _)) with AUTH_SIGNATURE. change (AUTH_SIGNATURE =? AUTH_OK) with false.
  cbn [negb]. unfold HandServerAuth. cbn [andb hs_msg hs_authType]. change (AUTH_SIGNATURE =? AUTH_PUBLICKEY) with false.
  change (AUTH_SIGNATURE =? AUTH_SIGNATURE) with true. cbn iota. unfold HandleAuthSignatureMsg, RsaSignAndBase64.
  rewrite (pc_validation _ P), (pc_private _ P), Hv, (pc_signOk _ P).
  change (negb (RSA_3072_SHA512 =? RSA_3072_SHA512)) with false. change (hs_buf (hs_msg _ ?b)) with b.
  destruct (RsaSign_verify k tok sig (pc_size _ P) Hsig) as [Hr _]. 
  change (RSA_3072_SHA512 =? RSA_3072_SHA512) with true. cbn iota. rewrite Hr. cbn [mbind res_bind].
  eexists. split; [reflexivity|]. by split_and!.
Qed.

Lemma ok_options_parse : zlen (cstr (e_hostname denv)) <= 1024 ->
  TlvToStringMap ok_text [] = Ok (true, fold_left (fun m p => om_set p.1 p.2 m) ok_options []) /\ zlen ok_text <= 65536.
Proof.
  intros Hh. assert (Hall : Forall tlv_option ok_options).
  { unfold ok_options. repeat apply Forall_cons_2; try by apply tlv_option_intro.
    - apply tlv_option_intro; [done|unfold INT_MAX; lia].
    - by constructor. }
  split; [by apply TlvToStringMap_appended|].
  unfold ok_text. rewrite TlvAppend_entries by done. unfold ok_options, tlv_entry. cbn [map concat fst snd app].
  rewrite !length_app.
  assert (length (pad_to TLV_VAL_LEN (to_string (zlen (cstr (e_hostname denv))))) <= 16)%nat.
  { assert (length (to_string (zlen (cstr (e_hostname denv)))) <= 10)%nat by (apply dec_length; cbn; lia).
    pose proof (length_pad TLV_VAL_LEN (to_string (zlen (cstr (e_hostname denv)))) ltac:(unfold TLV_VAL_LEN; lia)).
    unfold TLV_VAL_LEN in *. lia. }
  repeat match goal with |- context [length ?l] => lazymatch l with
    | cstr _ => fail | pad_to _ (to_string (zlen (cstr _))) => fail
    | _ => let n := eval vm_compute in (length l) in change (length l) with n end end.
  lia.
Qed.

(** The last message marks the session and the device as connected. *)
Lemma host_finish h s di : peaceful s -> om_find (h_connectKey h) (mapDaemon s) = Some di -> di_connectKey di = h_connectKey h ->
  exists h' s' di', ServerSessionHandshake hostOhos false henv h (wire AUTH_OK ok_text) s = Ok (true, h', s') /\
    h_handshakeOK h' = true /\ om_find (h_connectKey h) (mapDaemon s') = Some di' /\ di_connStatus di' = STATUS_CONNECTED /\
    di_daemonAuthStatus di' = DAEOMN_AUTH_SUCCESS /\ di_devName di' = cstr (e_hostname denv) /\ di_version di' = ver.
Proof.
  intros P Hdi Hck. destruct (ok_options_parse (pc_devname _ P)) as [Hopt Hlen]. unfold ServerSessionHandshake.
  rewrite daemon_parse; [|unfold AUTH_OK; lia|done|apply P].
  change (bytes_eqb (hs_banner _) HANDSHAKE_FAILED) with false. change (bytes_eqb (hs_banner _) HANDSHAKE_MESSAGE) with true.
  cbn [negb]. change (hs_authType (hs_msg AUTH_OK _) =? AUTH_OK) with true. cbn [negb andb].
  unfold UpdateHdiInfo, AdminDaemonMapQuery. rewrite Hdi. change (hs_version (hs_msg AUTH_OK _)) with ver. rewrite (pc_ver _ P).
  change (hs_buf (hs_msg _ ?b)) with b. rewrite Hopt. cbn [mbind res_bind].
  set (m := fold_left _ _ _).
  assert (Hget : forall tag val, (tag, val) ∈ ok_options -> om_find tag m = Some val).
  { intros tag val Hin. apply om_find_fold; [|done]. apply (bool_decide_unpack _). vm_compute. exact I. }
  unfold HostPeerFeatures. rewrite (Hget TAG_SUPPORT_FEATURE (FeatureToString GetSupportFeature)) by (unfold ok_options; set_solver).
  change (str ",") with [44]. rewrite split_string_fields. cbn [mbind res_bind].
  rewrite (Hget TAG_DEVNAME (cstr (e_hostname denv))), (Hget TAG_DAEOMN_AUTHSTATUS DAEOMN_AUTH_SUCCESS)
    by (unfold ok_options; set_solver).
  eexists _, _, _. split; [reflexivity|]. split; [done|]. cbn [set_mapDaemon mapDaemon]. unfold AdminDaemonMapUpdate.
  cbn [di_connectKey]. rewrite Hck, Hdi, om_find_set_eq. split; [done|]. by split_and!.
Qed.

(** C7. Host and daemon reach agreement: when the device knows the host's
    3072-bit key and nothing fails underneath, the host's first message is
    answered, each answer is understood by the other side, and after six
    messages the daemon has authorised the session and the host lists the
    device as connected, under the name it reported. *)
Theorem handshake_completes (h : SSession) (s : Server) (d : Daemon) (p : addr) (hs : HdcSession) (x : DSession)
    (di : HdcDaemonInformation) :
  let first := WorkThreadInitSession hostOhos false henv h in
  let sid := h_sessionId h in
  let to_daemon m d := FetchCommand false denv p 0 CMD_KERNEL_HANDSHAKE m d in
  let to_host m h s := ServerSessionHandshake hostOhos false henv h m s in
  let packet m := mkPacket sid 0 CMD_KERNEL_HANDSHAKE m in
  peaceful s -> h_isCheck h = false -> SessionHandShake_wf first -> hs_version first = ver ->
  om_find (h_connectKey h) (mapDaemon s) = Some di -> di_connectKey di = h_connectKey h ->
  heap (base d) !! p = Some hs -> ext d !! p = Some x -> authEnable d = true -> hdc_keys d = Some keys ->
  GetSessionAuthStatus sid d = AUTH_NONE ->
  exists d1 m1 h1 s1 m2 d2 m3 s2 m4 d3 m5 h3 s3 di',
    to_daemon (SerializeToString SessionHandShake_type first) d = Ok (true, d1) /\ sent d1 = sent d ++ [packet m1] /\
    to_host m1 h s = Ok (true, h1, s1) /\ out s1 = out s ++ [packet m2] /\
    to_daemon m2 d1 = Ok (true, d2) /\ sent d2 = sent d1 ++ [packet m3] /\
    to_host m3 h1 s1 = Ok (true, h1, s2) /\ out s2 = out s1 ++ [packet m4] /\
    to_daemon m4 d2 = Ok (true, d3) /\ sent d3 = sent d2 ++ [packet m5; mkPacket sid 0 CMD_KERNEL_CHANNEL_CLOSE [1]] /\
    to_host m5 h1 s2 = Ok (true, h3, s3) /\
    abs d3 sid = Authorised /\ h_handshakeOK h3 = true /\
    om_find (h_connectKey h) (mapDaemon s3) = Some di' /\ di_connStatus di' = STATUS_CONNECTED /\
    di_daemonAuthStatus di' = DAEOMN_AUTH_SUCCESS /\ di_devName di' = cstr (e_hostname denv).
Proof.
  intros first sid to_daemon to_host packet P Hc Hwf Hver Hdi Hck Hp Hx Hen Hk Hst.
  destruct (daemon_init p 0 h d hs x Hc Hwf Hver (pc_ver _ P) (pc_connect _ P) Hp Hx Hen Hk Hst) as (d1 & F1 & D1 & S1).
  destruct (host_pubkey h s P) as (h1 & s1 & G1 & Hv & Hsid & Hkey & Hm1 & Hf1 & O1).
  destruct (daemon_pubkey p sid 0 d1 s P D1) as (d2 & F2 & D2 & S2).
  destruct (pc_sign _ P (SHA512 tok)) as [sig Hsig].
  assert (P1 : peaceful s1) by (destruct P; split; rewrite ?Hf1; done).
  destruct (host_sign h1 s1 sig P1 Hv Hsig) as (s2 & G2 & Hm2 & Hf2 & O2). rewrite Hsid in O2.
  destruct (daemon_signature p sid 0 d2 s sig P D2 Hsig) as (d3 & F3 & A3 & S3).
  assert (Hdi2 : om_find (h_connectKey h1) (mapDaemon s2) = Some di) by by rewrite Hm2, Hm1, Hkey.
  assert (P2 : peaceful s2) by (destruct P1; split; rewrite ?Hf2; done).
  destruct (host_finish h1 s2 di P2 Hdi2) as (h3 & s3 & di' & G3 & Hok & Hdi' & Hst' & Hau & Hdev & _); [by rewrite Hkey|].
  rewrite Hkey in Hdi'. eexists d1, _, h1, s1, _, d2, _, s2, _, d3, _, h3, s3, di'.
  repeat (split; [eassumption|]). done.
Qed.
End Exchange.

(** ** Witnesses *)

(** Keys are numbers below 256, their PEM text has 625 bytes, the modulus 384. *)
Definition toy625 : OpenSSL := {|
  RSA := Z; EVP_PKEY := Z; public_half := fun k => k;
  PEM_read_bio_RSA_PUBKEY := fun t => match t with k :: _ => Some k | _ => None end;
  PEM_write_bio_PUBKEY := fun k => toy_pad 625 [k];
  RSA_size := fun _ => 384; SHA512 := fun x => x;
  EVP_PKEY_sign := @EVP_PKEY_sign (toy_openssl 384); EVP_PKEY_verify := @EVP_PKEY_verify (toy_openssl 384);
  RSA_private_encrypt := @RSA_private_encrypt (toy_openssl 384); RSA_public_decrypt := @RSA_public_decrypt (toy_openssl 384);
  EVP_EncodeBlock := @EVP_EncodeBlock (toy_openssl 384); EVP_DecodeBlock := @EVP_DecodeBlock (toy_openssl 384)
|}.

Lemma toy625_laws : @OpenSSLLaws toy625.
Proof.
  destruct (toy_laws 384 ltac:(lia)) as [_ L2 L3 L4 L5 L6 L7]. by split.
Qed.

Definition demo_henv (encrypt : bool) : @HEnv toy625 := @mkHEnv toy625 (Some (str "pc")) None true false true [] None None encrypt true
  (str "Linux") (str " abc") (0, 0) (mkHSslEnv true 1 true 0 0 (0, []) false true).
Definition demo_h (connType : Z) : SSession :=
  mkSSession 7 connType (str "key") false RSA_3072_SHA512 false false false false false (HdcHeartbeat_new 0).
Definition demo_pem : bytes := toy_pad 625 [5].
Definition demo_server : @Server toy625 := @mkServer toy625
  [(str "key", mkDI CONN_USB STATUS_READY (str "key") [] [] None [] [] [] [] false [])]
  (@mkKeyFiles toy625 (@PlainKey toy625 5) (Some demo_pem)) 0 [].
Definition demo_known : Daemon := set_hdc_keys (Some (str "old" ++ demo_pem ++ [10])) demo_daemon.
Definition demo_ver : bytes := GetVersion ++ str " abc".

Lemma handshake_completes_witness : exists d3 h3 di s3 d2 m4,
  @FetchCommand toy625 false demo_env 1 0 CMD_KERNEL_HANDSHAKE m4 d2 = Ok (true, d3) /\
  abs d3 7 = Authorised /\ h_handshakeOK h3 = true /\ om_find (str "key") (@mapDaemon toy625 s3) = Some di /\
  di_connStatus di = STATUS_CONNECTED /\ di_devName di = str "device".
Proof.
  destruct (@handshake_completes toy625 toy625_laws false (demo_henv false) demo_env 5 (str "pc") demo_ver
    (str "old" ++ demo_pem ++ [10]) (demo_h CONN_USB) demo_server demo_known 1
    (mkSession false false false CONN_USB 3 0 2 false false true false 0 None false) (new_dsession 0)
    (mkDI CONN_USB STATUS_READY (str "key") [] [] None [] [] [] [] false []))
    as (d1 & m1 & h1 & s1 & m2 & d2 & m3 & s2 & m4 & d3 & m5 & h3 & s3 & di' & _ & _ & _ & _ & _ & _ & _ & _ & F3 & _ & _ & A & Hok & Hdi & Hst & _ & Hn).
  - split; try (vm_compute; (reflexivity || discriminate)).
    + split_and!; [discriminate| |vm_compute; discriminate]. apply (bool_decide_unpack _). vm_compute. exact I.
    + intros dd. eexists. reflexivity.
  - reflexivity.
  - unfold SessionHandShake_wf, string_dom, in_u. split_and!; vm_compute; (reflexivity || discriminate).
  - reflexivity.
  - reflexivity.
  - reflexivity.
  - reflexivity.
  - reflexivity.
  - reflexivity.
  - reflexivity.
  - reflexivity.
  - exists d3, h3, di', s3, d2, m4. split_and!; assumption.
Defined.

(** The device asks an encrypting host for a signature in plain text. *)
Lemma no_plaintext_downgrade_witness : exists b h s,
  @ServerSessionHandshake toy625 false true (demo_henv true) (demo_h CONN_TCP) (wire demo_ver AUTH_SIGNATURE demo_token) demo_server
    = Ok (b, h, s) /\ h_handshakeOK h = false /\ @mapDaemon toy625 s = @mapDaemon toy625 demo_server.
Proof.
  destruct (@ServerSessionHandshake toy625 false true (demo_henv true) (demo_h CONN_TCP)
    (wire demo_ver AUTH_SIGNATURE demo_token) demo_server) as [[[b h] s]| | |] eqn:E; [|vm_compute in E; discriminate..].
  destruct (@no_plaintext_downgrade toy625 false (demo_henv true) (demo_h CONN_TCP) h _ demo_server s b eq_refl eq_refl eq_refl E)
    as (H1 & H2 & _).
  exists b, h, s. split; [reflexivity|]. split; [exact H1|exact H2].
Defined.
