(* ===== verification/Forward.v ===== *)
(** * Forward: port forwarding ([forward.cpp], [forward.h], [daemon/daemon_forward.cpp])

    One forwarding task.  Its contexts are objects on a heap; [mapCtxPoint] and
    every pending callback hold addresses, so that a callback on a deleted
    context is [Undefined].  A context embeds two libuv handles; deleting it
    while the loop still knows one of them is [Undefined] too.  [FEnv] is what
    the system answers during one callback.  Built for a system with Unix
    sockets ([_WIN32] not defined). *)

From Stdlib Require Import String ZArith Lia List Bool.
From stdpp Require Import base list numbers option gmap.
From S2P Require Import Prelude Defs OrdMap Session Args Strings Numbers.

Inductive FORWARD_TYPE :=
| FORWARD_TCP | FORWARD_DEVICE | FORWARD_JDWP | FORWARD_ARK | FORWARD_ABSTRACT | FORWARD_RESERVED | FORWARD_FILESYSTEM.

#[export] Instance FORWARD_TYPE_eq_dec : EqDecision FORWARD_TYPE.
Proof. solve_decision. Defined.

(** A [uv_tcp_t] or [uv_pipe_t]: not initialised ([loop] is null), in use, being
    closed, closed. *)
Inductive Handle := HNone | HLive (listening reading : bool) | HClosing | HClosed.

#[export] Instance Handle_eq_dec : EqDecision Handle.
Proof. solve_decision. Defined.

Record ContextForward := mkCtx {
  type : FORWARD_TYPE; masterSlave : bool; checkPoint : bool; ready : bool; finish : bool; fd : Z; id : Z;
  tcp : Handle; pipe : Handle; fdClass : bool; lastError : bytes; localArgs : bytes * bytes; remoteArgs : bytes * bytes;
  remoteParamenters : bytes; releaseRetryCount : Z
}.

Definition set_type v c := mkCtx v (masterSlave c) (checkPoint c) (ready c) (finish c) (fd c) (id c) (tcp c) (pipe c)
  (fdClass c) (lastError c) (localArgs c) (remoteArgs c) (remoteParamenters c) (releaseRetryCount c).
Definition set_checkPoint v c := mkCtx (type c) (masterSlave c) v (ready c) (finish c) (fd c) (id c) (tcp c) (pipe c)
  (fdClass c) (lastError c) (localArgs c) (remoteArgs c) (remoteParamenters c) (releaseRetryCount c).
Definition set_ready v c := mkCtx (type c) (masterSlave c) (checkPoint c) v (finish c) (fd c) (id c) (tcp c) (pipe c)
  (fdClass c) (lastError c) (localArgs c) (remoteArgs c) (remoteParamenters c) (releaseRetryCount c).
Definition set_finish v c := mkCtx (type c) (masterSlave c) (checkPoint c) (ready c) v (fd c) (id c) (tcp c) (pipe c)
  (fdClass c) (lastError c) (localArgs c) (remoteArgs c) (remoteParamenters c) (releaseRetryCount c).
Definition set_fd v c := mkCtx (type c) (masterSlave c) (checkPoint c) (ready c) (finish c) v (id c) (tcp c) (pipe c)
  (fdClass c) (lastError c) (localArgs c) (remoteArgs c) (remoteParamenters c) (releaseRetryCount c).
Definition set_id v c := mkCtx (type c) (masterSlave c) (checkPoint c) (ready c) (finish c) (fd c) v (tcp c) (pipe c)
  (fdClass c) (lastError c) (localArgs c) (remoteArgs c) (remoteParamenters c) (releaseRetryCount c).
Definition set_tcp v c := mkCtx (type c) (masterSlave c) (checkPoint c) (ready c) (finish c) (fd c) (id c) v (pipe c)
  (fdClass c) (lastError c) (localArgs c) (remoteArgs c) (remoteParamenters c) (releaseRetryCount c).
Definition set_pipe v c := mkCtx (type c) (masterSlave c) (checkPoint c) (ready c) (finish c) (fd c) (id c) (tcp c) v
  (fdClass c) (lastError c) (localArgs c) (remoteArgs c) (remoteParamenters c) (releaseRetryCount c).
Definition set_fdClass v c := mkCtx (type c) (masterSlave c) (checkPoint c) (ready c) (finish c) (fd c) (id c) (tcp c) (pipe c)
  v (lastError c) (localArgs c) (remoteArgs c) (remoteParamenters c) (releaseRetryCount c).
Definition set_lastError v c := mkCtx (type c) (masterSlave c) (checkPoint c) (ready c) (finish c) (fd c) (id c) (tcp c) (pipe c)
  (fdClass c) v (localArgs c) (remoteArgs c) (remoteParamenters c) (releaseRetryCount c).
Definition set_localArgs v c := mkCtx (type c) (masterSlave c) (checkPoint c) (ready c) (finish c) (fd c) (id c) (tcp c) (pipe c)
  (fdClass c) (lastError c) v (remoteArgs c) (remoteParamenters c) (releaseRetryCount c).
Definition set_remote args par c := mkCtx (type c) (masterSlave c) (checkPoint c) (ready c) (finish c) (fd c) (id c) (tcp c)
  (pipe c) (fdClass c) (lastError c) (localArgs c) args par (releaseRetryCount c).
Definition set_releaseRetryCount v c := mkCtx (type c) (masterSlave c) (checkPoint c) (ready c) (finish c) (fd c) (id c) (tcp c)
  (pipe c) (fdClass c) (lastError c) (localArgs c) (remoteArgs c) (remoteParamenters c) v.

(** Pending callbacks of the task's loop.  [CbDelete] is the timer of
    [DoNextLoop] in [FreeContextCallBack], [CbIdleFree] and [CbIdleClosed] the
    idle handle of [FreeJDWP], [CbIdleSetup] that of the daemon's setup. *)
Inductive FCb := CbClose (p : addr) (isTcp : bool) | CbDelete (p : addr) | CbConnect (p : addr) | CbWrite (p : addr)
  | CbIdleFree (p : addr) | CbIdleClosed (p : addr) | CbIdleSetup (p : addr).

#[export] Instance FCb_eq_dec : EqDecision FCb.
Proof. solve_decision. Defined.

Definition cb_ctx (c : FCb) : addr :=
  match c with
  | CbClose p _ | CbDelete p | CbConnect p | CbWrite p | CbIdleFree p | CbIdleClosed p | CbIdleSetup p => p
  end.

(** [f_sent]: command and payload; [f_written]: what was handed to a context's
    stream or descriptor. *)
Record HdcForward := mkForward {
  f_heap : gmap addr ContextForward; mapCtxPoint : omap addr; refCount : Z; fds0 : Z; taskCommand : bytes;
  f_serverOrDaemon : bool; f_loop : list FCb; f_sent : list (Z * bytes); f_log : list (Z * bytes);
  f_server : list (Z * bytes); f_written : list (addr * bytes)
}.

Definition set_heap v s := mkForward v (mapCtxPoint s) (refCount s) (fds0 s) (taskCommand s) (f_serverOrDaemon s) (f_loop s)
  (f_sent s) (f_log s) (f_server s) (f_written s).
Definition set_map v s := mkForward (f_heap s) v (refCount s) (fds0 s) (taskCommand s) (f_serverOrDaemon s) (f_loop s)
  (f_sent s) (f_log s) (f_server s) (f_written s).
Definition set_refCount v s := mkForward (f_heap s) (mapCtxPoint s) v (fds0 s) (taskCommand s) (f_serverOrDaemon s) (f_loop s)
  (f_sent s) (f_log s) (f_server s) (f_written s).
Definition set_fds0 v s := mkForward (f_heap s) (mapCtxPoint s) (refCount s) v (taskCommand s) (f_serverOrDaemon s) (f_loop s)
  (f_sent s) (f_log s) (f_server s) (f_written s).
Definition set_taskCommand v s := mkForward (f_heap s) (mapCtxPoint s) (refCount s) (fds0 s) v (f_serverOrDaemon s) (f_loop s)
  (f_sent s) (f_log s) (f_server s) (f_written s).
Definition set_loop v s := mkForward (f_heap s) (mapCtxPoint s) (refCount s) (fds0 s) (taskCommand s) (f_serverOrDaemon s) v
  (f_sent s) (f_log s) (f_server s) (f_written s).
Definition set_sent v s := mkForward (f_heap s) (mapCtxPoint s) (refCount s) (fds0 s) (taskCommand s) (f_serverOrDaemon s)
  (f_loop s) v (f_log s) (f_server s) (f_written s).
Definition set_log v s := mkForward (f_heap s) (mapCtxPoint s) (refCount s) (fds0 s) (taskCommand s) (f_serverOrDaemon s)
  (f_loop s) (f_sent s) v (f_server s) (f_written s).
Definition set_server v s := mkForward (f_heap s) (mapCtxPoint s) (refCount s) (fds0 s) (taskCommand s) (f_serverOrDaemon s)
  (f_loop s) (f_sent s) (f_log s) v (f_written s).
Definition set_written v s := mkForward (f_heap s) (mapCtxPoint s) (refCount s) (fds0 s) (taskCommand s) (f_serverOrDaemon s)
  (f_loop s) (f_sent s) (f_log s) (f_server s) v.

Definition push (c : FCb) (s : HdcForward) : HdcForward := set_loop (f_loop s ++ [c]) s.
Definition ctx (p : addr) (s : HdcForward) : res ContextForward := deref (f_heap s !! p).
Definition upd_ctx (p : addr) (f : ContextForward -> ContextForward) (s : HdcForward) : res HdcForward :=
  c ← ctx p s; Ok (set_heap (<[p := f c]> (f_heap s)) s).

Record FEnv := mkFEnv {
  v_new : addr; v_random : Z;      (* the next object, [GetRandomU32] *)
  v_send : Z -> bool;              (* whether [SendToAnother] of a command succeeds *)
  v_host : bool; v_listenIp : bytes; v_ip6 : Z; v_bind6 : Z; v_ip4 : Z; v_bind : Z;   (* [HDC_HOST] and binding *)
  v_tcpInit : bool; v_listen : bool; v_conn : bool; v_connect : bool;
  v_resolve : bytes -> bytes; v_isDevice : bytes -> bool; v_open : Z; v_fdClass : bool;
  v_abstract : bool; v_pipeBind : bool; v_pipeListen : bool;
  v_accept : bool; v_readStart : bool; v_tcpOpen : bool;
  v_alloc : bool; v_write : bool;
  v_pidExist : Z -> bool; v_sockets : Z; v_ctrl : bool;
  v_ready : bool                   (* [HdcFileDescriptor::ReadyForRelease] *)
}.

Definition forwardParameterBufSize : Z := 8.
Definition filesystemSocketPrefix : bytes := str "/tmp/".
Definition harmonyReservedSocketPrefix : bytes := str "/dev/socket/".
Definition IPV4_MAPPING_PREFIX : bytes := str "::ffff:".
Definition BUF_SIZE_SMALL : Z := 256.
Definition BUF_SIZE_DEFAULT : Z := 1024.
Definition BUF_MULTIPLE : Z := 2.
Definition MAX_IP_PORT : Z := 65535.
Definition MAX_USBFFS_BULK : Z := 512 * 1024.
Definition MSG_FAIL : Z := 0.
Definition MSG_OK : Z := 2.
Definition EAFNOSUPPORT : Z := 97.

(** A C string inside a buffer that ends where the list ends. *)
Definition read_cstr (b : bytes) : res bytes := if bool_decide (0 ∈ b) then Ok (cstr b) else Undefined.

(** [snprintf_s(dest, max, max - 1, "%s", s)]: -1 when the text is cut. *)
Definition snprintf_fits (max : Z) (s : bytes) : bool := zlen s <=? max - 1.

(** A text used as a format without arguments. *)
Fixpoint format_only (s : bytes) : res bytes :=
  match s with
  | [] => Ok []
  | 37 :: 37 :: s => r ← format_only s; Ok (37 :: r)
  | 37 :: _ => Undefined
  | c :: s => r ← format_only s; Ok (c :: r)
  end.

Section Forward.
Context (env : FEnv).

(** ** Sending *)

Definition SendToAnother (command : Z) (payload : bytes) (s : HdcForward) : bool * HdcForward :=
  if v_send env command then (true, set_sent (f_sent s ++ [(command, payload)]) s) else (false, s).
Definition TaskFinish (s : HdcForward) : HdcForward := (SendToAnother CMD_KERNEL_CHANNEL_CLOSE [1] s).2.
Definition LogMsg (level : Z) (msg : bytes) (s : HdcForward) : HdcForward := set_log (f_log s ++ [(level, msg)]) s.
Definition ServerCommand (command : Z) (payload : bytes) (s : HdcForward) : HdcForward :=
  set_server (f_server s ++ [(command, payload)]) s.

Definition SendToTask (cid command : Z) (buf : bytes) (s : HdcForward) : bool * HdcForward :=
  if MAX_SIZE_IOBUF_STABLE * BUF_MULTIPLE <? zlen buf then (false, s)
  else SendToAnother command (be_split 4 cid ++ buf) s.

(** ** Contexts *)

Definition AdminContext (op cid : Z) (hInput : option addr) (s : HdcForward) : res (option addr * HdcForward) :=
  if op =? OP_ADD then p ← deref hInput; Ok (None, set_map (om_set cid p (mapCtxPoint s)) s)
  else if op =? OP_REMOVE then Ok (None, set_map (om_erase cid (mapCtxPoint s)) s)
  else if op =? OP_QUERY then Ok (om_find cid (mapCtxPoint s), s)
  else if op =? OP_UPDATE then
    p ← deref hInput; c ← ctx p s;
    Ok (None, set_map (om_set (id c) p (om_erase cid (mapCtxPoint s))) s)
  else Ok (None, s).

(** [new ContextForward()] sets every plain member to zero. *)
Definition new_ctx (cid : Z) (master : bool) : ContextForward :=
  mkCtx FORWARD_TCP master false false false (-1) cid HNone HNone false [] ([], []) ([], []) [] 0.

Definition MallocContext (master : bool) (s : HdcForward) : res (addr * HdcForward) :=
  let p := v_new env in
  let s := set_heap (<[p := new_ctx (v_random env) master]> (f_heap s)) s in
  '((_, s) : option addr * HdcForward) ← AdminContext OP_ADD (v_random env) (Some p) s;
  Ok (p, set_refCount (u32 (refCount s + 1)) s).

(** The timer runs in the next round of the loop. *)
Definition FreeContextCallBack (p : addr) (s : HdcForward) : HdcForward := push (CbDelete p) s.

(** The body of the timer. *)
Definition in_loop (h : Handle) : bool := match h with HLive _ _ | HClosing => true | _ => false end.
Definition DeleteContext (p : addr) (s : HdcForward) : res HdcForward :=
  c ← ctx p s;
  '((_, s) : option addr * HdcForward) ← AdminContext OP_REMOVE (id c) None s;
  if in_loop (tcp c) || in_loop (pipe c) then Undefined
  else
    let s := set_heap (delete p (f_heap s)) s in
    Ok (if 0 <? refCount s then set_refCount (refCount s - 1) s else s).

(** [TryCloseHandle(handle, true, funcHandleClose)]. *)
Definition TryCloseHandle (p : addr) (isTcp : bool) (s : HdcForward) : res HdcForward :=
  c ← ctx p s;
  match (if isTcp then tcp c else pipe c) with
  | HLive _ _ => s ← upd_ctx p (if isTcp then set_tcp HClosing else set_pipe HClosing) s; Ok (push (CbClose p isTcp) s)
  | _ => Ok (FreeContextCallBack p s)
  end.

Definition FreeJDWP (p : addr) (s : HdcForward) : res HdcForward :=
  s ← upd_ctx p (fun c => set_fd (-1) (if fdClass c then set_releaseRetryCount 0 c else c)) s;
  Ok (push (CbIdleFree p) s).

(** One run of the idle callback of [FreeJDWP]; it stays in the loop until the
    descriptor's thread has ended or was waited for 100 times. *)
Definition IdleFree (p : addr) (s : HdcForward) : res HdcForward :=
  c ← ctx p s;
  if fdClass c then
    let n := releaseRetryCount c + 1 in
    if v_ready env || (100 <=? n) then
      s ← upd_ctx p (fun c => set_fdClass false (set_releaseRetryCount n c)) s; Ok (push (CbIdleClosed p) s)
    else s ← upd_ctx p (set_releaseRetryCount n) s; Ok (push (CbIdleFree p) s)
  else Ok (push (CbIdleClosed p) s).

Definition FreeContext (ctxIn : option addr) (cid : Z) (bNotifyRemote : bool) (s : HdcForward) : res HdcForward :=
  '((found, s) : option addr * HdcForward) ←
    match ctxIn with Some p => Ok (Some p, s) | None => AdminContext OP_QUERY cid None s end;
  match found with
  | None => Ok s
  | Some p =>
      c ← ctx p s;
      if finish c then Ok s
      else
        let s := if bNotifyRemote then (SendToTask (id c) CMD_FORWARD_FREE_CONTEXT [] s).2 else s in
        s ← match type c with
            | FORWARD_TCP | FORWARD_JDWP | FORWARD_ARK => TryCloseHandle p true s
            | FORWARD_ABSTRACT | FORWARD_RESERVED | FORWARD_FILESYSTEM => TryCloseHandle p false s
            | FORWARD_DEVICE => FreeJDWP p s
            end;
        upd_ctx p (set_finish true) s
  end.

(** In key order, with the map already empty. *)
Fixpoint free_all (l : list addr) (s : HdcForward) : res HdcForward :=
  match l with
  | [] => Ok s
  | p :: l => s ← FreeContext (Some p) 0 false s; free_all l s
  end.
Definition StopTask (s : HdcForward) : res HdcForward :=
  let ctxs := map snd (mapCtxPoint s) in
  free_all ctxs (set_map [] (set_fds0 (-1) s)).

Definition ReadyForRelease (s : HdcForward) : bool := refCount s =? 0.

(** ** Data *)

Definition AllocForwardBuf (sizeSuggested : Z) : option Z :=
  let size := if MAX_USBFFS_BULK <? sizeSuggested then MAX_USBFFS_BULK else sizeSuggested in
  if v_alloc env then Some (if 0 <? size then size - 1 else 0) else None.

(** [inl]: a negative result. *)
Definition ReadForwardBuf (p : addr) (data : Z + bytes) (s : HdcForward) : res HdcForward :=
  match data with
  | inl _ => FreeContext (Some p) 0 true s
  | inr [] => Ok s
  | inr d => c ← ctx p s; Ok (SendToTask (id c) CMD_FORWARD_DATA d s).2
  end.

Definition is_tcp_type (t : FORWARD_TYPE) : bool :=
  match t with FORWARD_TCP | FORWARD_JDWP | FORWARD_ARK => true | _ => false end.
Definition GetForwardStream (c : ContextForward) : Handle := if is_tcp_type (type c) then tcp c else pipe c.

(** libuv refuses to write to a handle that is not connected. *)
Definition writable (h : Handle) : bool := match h with HLive false _ => true | _ => false end.

Definition SendForwardBuf (p : addr) (buf : bytes) (s : HdcForward) : res (Z * HdcForward) :=
  c ← ctx p s;
  if INT_MAX - 1 <? zlen buf then Ok (-1, s)
  else if zlen buf <=? 0 then Ok (-1, s)
  else if negb (v_alloc env) then Ok (-1, s)
  else if bool_decide (type c = FORWARD_DEVICE) then
    if fdClass c then Ok (zlen buf, set_written (f_written s ++ [(p, buf)]) s) else Undefined
  else if writable (GetForwardStream c) && v_write env then
    Ok (zlen buf, push (CbWrite p) (set_written (f_written s ++ [(p, buf)]) s))
  else Ok (-1, s).

Definition SendCallbackForwardBuf (p : addr) (status : Z) (s : HdcForward) : res HdcForward :=
  c ← ctx p s;
  if (status <? 0) && negb (finish c) then FreeContext (Some p) 0 true s else Ok s.

(** ** Beginning to forward *)

(** [uv_read_start]: a connected handle that is not closing. *)
Definition read_start (h : Handle) : option Handle :=
  match h with HLive false false => if v_readStart env then Some (HLive false true) else None | _ => None end.

Definition BeginForwardTcp (p : addr) (s : HdcForward) : res (bool * HdcForward) :=
  c ← ctx p s;
  match read_start (tcp c) with
  | Some h => s ← upd_ctx p (set_tcp h) s; Ok (true, s)
  | None => Ok (false, s)
  end.
Definition BeginForwardPipe (p : addr) (s : HdcForward) : res (bool * HdcForward) :=
  c ← ctx p s;
  match read_start (pipe c) with
  | Some h => s ← upd_ctx p (set_pipe h) s; Ok (true, s)
  | None => Ok (false, s)
  end.
(** [uv_tcp_init] on a handle the loop already has would corrupt the loop. *)
Definition tcp_init (p : addr) (s : HdcForward) : res HdcForward :=
  c ← ctx p s; if in_loop (tcp c) then Undefined else upd_ctx p (set_tcp (HLive false false)) s.
Definition pipe_init (p : addr) (s : HdcForward) : res HdcForward :=
  c ← ctx p s; if in_loop (pipe c) then Undefined else upd_ctx p (set_pipe (HLive false false)) s.
Definition BeginForwardArk (p : addr) (s : HdcForward) : res (bool * HdcForward) :=
  if fds0 s <=? 0 then Ok (false, s)
  else if negb (v_tcpInit env) then Ok (false, s)
  else
    s ← tcp_init p s;
    if negb (v_tcpOpen env) then Ok (false, s)
    else
      '((ok, s) : bool * HdcForward) ← BeginForwardTcp p s;
      if ok then Ok (true, set_fds0 (-1) s) else Ok (false, s).
Definition BeginForwardDevice (p : addr) (s : HdcForward) : res (bool * HdcForward) :=
  c ← ctx p s; if fdClass c then Ok (true, s) else Undefined.

Definition DoForwardBegin (p : addr) (s : HdcForward) : res (bool * HdcForward) :=
  c ← ctx p s;
  '((ret, s) : bool * HdcForward) ←
    match type c with
    | FORWARD_TCP | FORWARD_JDWP => BeginForwardTcp p s
    | FORWARD_ARK => BeginForwardArk p s
    | FORWARD_ABSTRACT | FORWARD_RESERVED | FORWARD_FILESYSTEM => BeginForwardPipe p s
    | FORWARD_DEVICE => BeginForwardDevice p s
    end;
  if ret then s ← upd_ctx p (set_ready true) s; Ok (true, s) else Ok (false, s).

Definition SetupPointContinue (p : addr) (status : Z) (s : HdcForward) : res (bool * HdcForward) :=
  c ← ctx p s;
  if checkPoint c then
    let '(sent, s) := SendToTask (id c) CMD_FORWARD_CHECK_RESULT [if 0 <? status then 1 else 0] s in
    if negb sent then s ← FreeContext (Some p) 0 true s; Ok (false, s)
    else s ← FreeContext (Some p) 0 false s; Ok (true, s)
  else if status <? 0 then s ← FreeContext (Some p) 0 true s; Ok (false, s)
  else
    let '(sent, s) := SendToTask (id c) CMD_FORWARD_ACTIVE_MASTER [] s in
    if negb sent then s ← FreeContext (Some p) 0 true s; Ok (false, s)
    else DoForwardBegin p s.

Definition ConnectTarget (p : addr) (status : Z) (s : HdcForward) : res HdcForward :=
  '((_, s) : bool * HdcForward) ← SetupPointContinue p status s; Ok s.

(** ** Accepting *)

Definition OnAccept (listen client : addr) (isTcp : bool) (s : HdcForward) : res HdcForward :=
  l ← ctx listen s;
  if negb (v_accept env) then FreeContext (Some client) 0 false s
  else
    s ← upd_ctx client (fun c => set_type (type l) (set_remote (remoteArgs c) (remoteParamenters l) c)) s;
    if negb (snprintf_fits (BUF_SIZE_DEFAULT - forwardParameterBufSize) (cstr (remoteParamenters l))) then
      FreeContext (Some client) 0 false s
    else
      c ← ctx client s;
      Ok (SendToTask (id c) CMD_FORWARD_ACTIVE_SLAVE (replicate 8 0 ++ cstr (remoteParamenters l) ++ [0]) s).2.

Definition ListenCallback (p : addr) (status : Z) (s : HdcForward) : res HdcForward :=
  c ← ctx p s;
  if (status =? -1) || negb (ready c) then s ← FreeContext (Some p) 0 false s; Ok (TaskFinish s)
  else
    '((client, s) : addr * HdcForward) ← MallocContext true s;
    let isTcp := bool_decide (type c = FORWARD_TCP) in
    s ← (if isTcp then tcp_init client s else pipe_init client s);
    OnAccept p client isTcp s.

(** ** Setting up a point *)

Definition CheckNodeInfo (nodeInfo : bytes) (as_ : bytes * bytes) : bool * (bytes * bytes) :=
  if zlen nodeInfo <? 1 then (false, as_)
  else
    match find [58] nodeInfo 0 with
    | None => (false, as_)
    | Some pos =>
        if (pos =? 0) || (pos =? zlen nodeInfo - 1) then (false, as_)
        else
          let a0 := substr nodeInfo 0 pos in
          let a1 := zdrop (pos + 1) nodeInfo in
          if bytes_eqb a0 (str "tcp") then
            if zlen (to_string MAX_IP_PORT) <? zlen a1 then (false, (a0, a1))
            else let port := atoi a1 in (negb ((port <=? 0) || (MAX_IP_PORT <? port)), (a0, a1))
          else (true, (a0, a1))
    end.

Definition INVALID_PATH : bytes := str "Invalid path: path traversal not allowed".
Definition DetechForwardType (p : addr) (s : HdcForward) : res (bool * HdcForward) :=
  c ← ctx p s;
  let '(sFType, sNodeCfg) := localArgs c in
  let become t cfg := s ← upd_ctx p (fun c => set_type t (set_localArgs (sFType, cfg) c)) s; Ok (true, s) in
  let checked t cfg :=
    if negb (CheckPathTraversal sNodeCfg) then s ← upd_ctx p (set_lastError INVALID_PATH) s; Ok (false, s)
    else become t cfg in
  if bytes_eqb sFType (str "tcp") then become FORWARD_TCP sNodeCfg
  else if bytes_eqb sFType (str "dev") then checked FORWARD_DEVICE sNodeCfg
  else if bytes_eqb sFType (str "localabstract") then become FORWARD_ABSTRACT sNodeCfg
  else if bytes_eqb sFType (str "localreserved") then checked FORWARD_RESERVED (harmonyReservedSocketPrefix ++ sNodeCfg)
  else if bytes_eqb sFType (str "localfilesystem") then checked FORWARD_FILESYSTEM (filesystemSocketPrefix ++ sNodeCfg)
  else if bytes_eqb sFType (str "jdwp") then become FORWARD_JDWP sNodeCfg
  else if bytes_eqb sFType (str "ark") then become FORWARD_ARK sNodeCfg
  else Ok (false, s).

(** The result of the last call; the return value is only logged. *)
Definition SetupTcpListenAllIp : bool * Z :=
  if negb (v_ip6 env =? 0) then (false, v_ip6 env)
  else if v_bind6 env =? 0 then (true, 0)
  else if v_bind6 env =? - EAFNOSUPPORT then
    match find IPV4_MAPPING_PREFIX (v_listenIp env) 0 with
    | None => (false, v_bind6 env)
    | Some _ =>
        if negb (v_ip4 env =? 0) then (false, v_ip4 env)
        else if negb (v_bind env =? 0) then (false, v_bind env) else (true, 0)
    end
  else (false, v_bind6 env).

Definition SetupTCPPoint (p : addr) (s : HdcForward) : res (bool * HdcForward) :=
  c ← ctx p s;
  if negb (v_tcpInit env) then Ok (false, s)
  else
    s ← tcp_init p s;
    if masterSlave c then
      let rc := if v_host env then SetupTcpListenAllIp.2 else v_bind env in
      if rc <? 0 then Ok (false, s)
      else if negb (v_listen env) then
        s ← upd_ctx p (set_lastError (str "TCP Port listen failed at " ++ (localArgs c).2)) s; Ok (false, s)
      else s ← upd_ctx p (set_tcp (HLive true false)) s; Ok (true, s)
    else if negb (v_conn env) then Ok (false, s)
    else Ok (true, if v_connect env then push (CbConnect p) s else s).

(** [flag] is a [uint8_t]. *)
Definition SetupDevicePoint (p : addr) (s : HdcForward) : res (bool * HdcForward) :=
  c ← ctx p s;
  let resolvedPath := v_resolve env (localArgs c).2 in
  if bytes_eqb resolvedPath [] then
    s ← upd_ctx p (set_lastError (str "Invalid path : failed to resolve path")) s; Ok (false, s)
  else if negb (v_isDevice env resolvedPath) then
    s ← upd_ctx p (set_lastError (str "Invalid path : stat failed or not a device file")) s; Ok (false, s)
  else
    s ← upd_ctx p (set_fd (v_open env)) s;
    '((flag, s) : Z * HdcForward) ←
      (if v_open env <? 0 then s ← upd_ctx p (set_lastError (str "Open unix-dev failed")) s; Ok (u8 (-1), s) else Ok (1, s));
    if negb (v_fdClass env) then Ok (false, s)
    else
      s ← upd_ctx p (set_fdClass true) s;
      '((_, s) : bool * HdcForward) ← SetupPointContinue p flag s; Ok (true, s).

Definition SetupFilePoint (p : addr) (s : HdcForward) : res (bool * HdcForward) :=
  s ← pipe_init p s;
  c ← ctx p s;
  if masterSlave c then
    if negb (v_pipeBind env) then s ← upd_ctx p (set_lastError (str "Unix pipe bind failed")) s; Ok (false, s)
    else if negb (v_pipeListen env) then s ← upd_ctx p (set_lastError (str "Unix pipe listen failed")) s; Ok (false, s)
    else s ← upd_ctx p (set_pipe (HLive true false)) s; Ok (true, s)
  else if bool_decide (type c = FORWARD_ABSTRACT) then
    '((_, s) : bool * HdcForward) ← SetupPointContinue p (if v_abstract env then 0 else -1) s;
    if v_abstract env then Ok (true, s)
    else s ← upd_ctx p (set_lastError (str "LocalAbstractConnect failed")) s; Ok (false, s)
  else if negb (v_conn env) then Ok (false, s)
  else Ok (true, push (CbConnect p) s).
End Forward.

(** ** The virtual functions *)

(** What the host's and the daemon's classes add. *)
Class ForwardPoints := {
  SetupJdwpPoint : FEnv -> addr -> HdcForward -> res (bool * HdcForward);
  SetupArkPoint : FEnv -> addr -> HdcForward -> res (bool * HdcForward)
}.

(** [HdcHostForward] keeps the functions of the base class. *)
Definition host_points : ForwardPoints := {| SetupJdwpPoint _ _ s := Ok (false, s); SetupArkPoint _ _ s := Ok (false, s) |}.

(** [HdcDaemonForward]: the point is set up in the next round of the loop. *)
Definition later_setup (p : addr) (s : HdcForward) : HdcForward :=
  push (CbIdleSetup p) (set_refCount (u32 (refCount s + 1)) s).

Definition SetupJdwpPointCallBack (env : FEnv) (p : addr) (s : HdcForward) : res HdcForward :=
  _ ← ctx p s;
  '((_, s) : bool * HdcForward) ← SetupPointContinue env p 1 s;
  Ok (set_refCount (u32 (refCount s - 1)) s).

Definition daemon_SetupJdwpPoint (env : FEnv) (p : addr) (s : HdcForward) : res (bool * HdcForward) :=
  c ← ctx p s;
  let pid := u32 (strtol (localArgs c).2).1.1 in
  if checkPoint c then
    '((_, s) : bool * HdcForward) ← SetupPointContinue env p (if v_pidExist env pid then 1 else 0) s; Ok (true, s)
  else if negb (v_tcpInit env) then Ok (false, s)
  else
    s ← tcp_init p s;
    if negb (v_tcpOpen env) then Ok (false, s)
    else if negb (v_ctrl env) then Ok (false, s)
    else Ok (true, later_setup p s).

Definition daemon_SetupArkPoint (env : FEnv) (p : addr) (s : HdcForward) : res (bool * HdcForward) :=
  c ← ctx p s;
  let '(ark, svr) := localArgs c in
  match find [64] svr 0 with
  | None =>
      '((_, s) : bool * HdcForward) ← SetupPointContinue env p 1 s;
      s ← upd_ctx p (set_lastError (ark ++ [58] ++ svr ++ str " parameter invalid")) s; Ok (false, s)
  | Some found =>
      let pid := u32 (atoi (substr svr 0 found)) in
      if negb (v_pidExist env pid) then
        '((_, s) : bool * HdcForward) ← SetupPointContinue env p 0 s;
        s ← upd_ctx p (set_lastError (ark ++ [58] ++ svr ++ str " pid invalid")) s; Ok (false, s)
      else if negb (v_alloc env) then Ok (false, s)
      else if negb (v_ctrl env) then Ok (false, set_fds0 (-1) s)
      else Ok (true, later_setup p (set_fds0 (v_sockets env) s))
  end.

Definition daemon_points : ForwardPoints :=
  {| SetupJdwpPoint := daemon_SetupJdwpPoint; SetupArkPoint := daemon_SetupArkPoint |}.

Section Dispatch.
Context `{ForwardPoints} (env : FEnv).

Definition SetupPoint (p : addr) (s : HdcForward) : res (bool * HdcForward) :=
  '((ok, s) : bool * HdcForward) ← DetechForwardType p s;
  if negb ok then Ok (false, s)
  else
    c ← ctx p s;
    match type c with
    | FORWARD_TCP => SetupTCPPoint env p s
    | FORWARD_DEVICE => SetupDevicePoint env p s
    | FORWARD_JDWP => SetupJdwpPoint env p s
    | FORWARD_ABSTRACT | FORWARD_RESERVED | FORWARD_FILESYSTEM => SetupFilePoint env p s
    | FORWARD_ARK => s ← upd_ctx p (set_lastError (str "Not supoort forward-type")) s; Ok (false, s)
    end.

(** The loop in the middle of [BeginForward]: the result, the second argument,
    the state. *)
Definition BeginArgs (p : addr) (args : list bytes) (s : HdcForward) : res (bool * bytes * HdcForward) :=
  match args with
  | a0 :: a1 :: _ =>
      if (BUF_SIZE_SMALL <? zlen a0) || (BUF_SIZE_SMALL <? zlen a1) then Ok (false, a1, s)
      else
        c ← ctx p s;
        let '(ok, loc) := CheckNodeInfo a0 (localArgs c) in
        s ← upd_ctx p (set_localArgs loc) s;
        if negb ok then Ok (false, a1, s)
        else
          let '(ok, rem) := CheckNodeInfo a1 (remoteArgs c) in
          s ← upd_ctx p (fun c => set_remote rem (remoteParamenters c) c) s;
          if negb ok then Ok (false, a1, s)
          else
            s ← upd_ctx p (set_remote rem a1) s;
            '((ret, s) : bool * HdcForward) ← SetupPoint p s; Ok (ret, a1, s)
  | _ => Ok (false, [], s)
  end.

(** The result, the error text and the state. *)
Definition BeginForward (command : bytes) (s : HdcForward) : res (bool * bytes * HdcForward) :=
  '((p, s) : addr * HdcForward) ← MallocContext env true s;
  args ← SplitCommandToArgs command;
  match args with
  | None => Ok (false, [], s)
  | Some r =>
      '((ret, arg1, s) : bool * bytes * HdcForward) ←
        BeginArgs p (arg_strings r) s;
      c ← ctx p s;
      let sError := lastError c in
      if ret && snprintf_fits (BUF_SIZE_SMALL - forwardParameterBufSize) arg1 && (0 <? zlen arg1) then
        let s := (SendToTask env (id c) CMD_FORWARD_CHECK (replicate 8 0 ++ arg1 ++ [0]) s).2 in
        Ok (true, sError, set_taskCommand command s)
      else Ok (ret, sError, s)
  end.

(** Reads four bytes. *)
Definition FilterCommand (bufCmdIn : bytes) : res (Z * bytes) :=
  if DWORD_SERIALIZE_SIZE <=? zlen bufCmdIn then Ok (be_combine (ztake 4 bufCmdIn), zdrop 4 bufCmdIn) else Undefined.

(** The middle of [SlaveConnect]: the result, the error text, the state. *)
Definition SlaveSetup (p : addr) (s : HdcForward) : res (bool * bytes * HdcForward) :=
  '((ok, s) : bool * HdcForward) ← DetechForwardType p s;
  if negb ok then Ok (false, [], s)
  else
    c ← ctx p s;
    let setup (f : HdcForward -> res (bool * HdcForward)) :=
      '((ok, s) : bool * HdcForward) ← f s;
      c ← ctx p s; Ok (ok, if ok then [] else lastError c, s) in
    let continue := '((_, s) : bool * HdcForward) ← SetupPointContinue env p 0 s; Ok (true, [], s) in
    if bool_decide (type c = FORWARD_ARK) then
      if checkPoint c then setup (SetupArkPoint env p) else continue
    else if negb (checkPoint c) then setup (SetupPoint p) else continue.

Definition SlaveConnect (bufCmd : bytes) (bCheckPoint : bool) (s : HdcForward) : res (bool * bytes * HdcForward) :=
  if zlen bufCmd <=? DWORD_SERIALIZE_SIZE + forwardParameterBufSize then Ok (false, [], s)
  else
    '((p, s) : addr * HdcForward) ← MallocContext env false s;
    let idSlaveOld := v_random env in
    '((cid, content) : Z * bytes) ← FilterCommand bufCmd;
    s ← upd_ctx p (fun c => set_id cid (set_checkPoint bCheckPoint c)) s;
    '((_, s) : option addr * HdcForward) ← AdminContext OP_UPDATE idSlaveOld (Some p) s;
    content ← read_cstr (zdrop forwardParameterBufSize content);
    c ← ctx p s;
    let '(ok, loc) := CheckNodeInfo content (localArgs c) in
    s ← upd_ctx p (set_localArgs loc) s;
    '((ret, sError, s) : bool * bytes * HdcForward) ←
      (if negb ok then Ok (false, [], s) else SlaveSetup p s);
    if ret then Ok (true, sError, s)
    else s ← FreeContext env (Some p) 0 true s; Ok (false, sError, s).

(** The test is of the pointer [payload], not of the flag it points to. *)
Definition CommandForwardCheckResult (p : addr) (payload : bytes) (s : HdcForward) : res (bool * HdcForward) :=
  let s := LogMsg MSG_OK (str "Forwardport result:OK") s in
  let mapInfo := (if f_serverOrDaemon s then str "1|" else str "0|") ++ taskCommand s in
  s ← upd_ctx p (set_ready true) s;
  Ok (true, ServerCommand CMD_FORWARD_SUCCESS (mapInfo ++ [0]) s).

Definition ForwardCommandDispatch (command : Z) (payload : bytes) (s : HdcForward) : res (bool * HdcForward) :=
  if (zlen payload <=? DWORD_SERIALIZE_SIZE) && negb (command =? CMD_FORWARD_FREE_CONTEXT) &&
     negb (command =? CMD_FORWARD_ACTIVE_MASTER) then Ok (false, s)
  else
    '((cid, content) : Z * bytes) ← FilterCommand payload;
    '((found, s) : option addr * HdcForward) ← AdminContext OP_QUERY cid None s;
    match found with
    | None => Ok (true, s)
    | Some p =>
        '((ret, s) : bool * HdcForward) ←
          (if command =? CMD_FORWARD_CHECK_RESULT then CommandForwardCheckResult p content s
           else if command =? CMD_FORWARD_ACTIVE_MASTER then DoForwardBegin env p s
           else if command =? CMD_FORWARD_DATA then
             c ← ctx p s;
             if finish c then Ok (true, s)
             else
               '((n, s) : Z * HdcForward) ← SendForwardBuf env p content s;
               if n <? 0 then s ← FreeContext env (Some p) 0 true s; Ok (true, s) else Ok (true, s)
           else if command =? CMD_FORWARD_FREE_CONTEXT then s ← FreeContext env (Some p) 0 false s; Ok (true, s)
           else Ok (false, s));
        if ret then Ok (true, s) else s ← FreeContext env (Some p) 0 true s; Ok (false, s)
    end.

Definition CommandDispatch (command : Z) (payload : bytes) (s : HdcForward) : res (bool * HdcForward) :=
  '((ret, sError, s) : bool * bytes * HdcForward) ←
    (if command =? CMD_FORWARD_INIT then BeginForward payload s
     else if command =? CMD_FORWARD_CHECK then SlaveConnect payload true s
     else if command =? CMD_FORWARD_ACTIVE_SLAVE then SlaveConnect payload false s
     else '((ret, s) : bool * HdcForward) ← ForwardCommandDispatch command payload s; Ok (ret, [], s));
  if ret then Ok (true, s)
  else if bytes_eqb sError [] then Ok (false, LogMsg MSG_FAIL (str "Forward parament failed") s)
  else text ← format_only sError; Ok (false, LogMsg MSG_FAIL text s).
End Dispatch.

(** ** The loop *)

Definition run_cb (env : FEnv) (cb : FCb) (status : Z) (s : HdcForward) : res HdcForward :=
  match cb with
  | CbClose p isTcp =>
      s ← upd_ctx p (if isTcp then set_tcp HClosed else set_pipe HClosed) s; Ok (FreeContextCallBack p s)
  | CbDelete p => DeleteContext p s
  | CbConnect p => ConnectTarget env p status s
  | CbWrite p => SendCallbackForwardBuf env p status s
  | CbIdleFree p => IdleFree env p s
  | CbIdleClosed p => _ ← ctx p s; Ok (FreeContextCallBack p s)
  | CbIdleSetup p => SetupJdwpPointCallBack env p s
  end.

(** What can happen to a task.  [EvDevRead] and [EvDevFinish] are the callbacks
    of a device's descriptor. *)
Inductive FEvent := EvCb (cb : FCb) (status : Z) | EvAccept (p : addr) (status : Z) | EvRead (p : addr) (data : Z + bytes)
  | EvDevRead (p : addr) (data : bytes) | EvDevFinish (p : addr) | EvPacket (command : Z) (payload : bytes) | EvStop.

Definition handle_event `{ForwardPoints} (env : FEnv) (e : FEvent) (s : HdcForward) : res HdcForward :=
  match e with
  | EvCb cb status => run_cb env cb status (set_loop (remove_one cb (f_loop s)) s)
  | EvAccept p status => ListenCallback env p status s
  | EvRead p data => ReadForwardBuf env p data s
  | EvDevRead p data => c ← ctx p s; Ok (SendToTask env (id c) CMD_FORWARD_DATA data s).2
  | EvDevFinish p => FreeContext env (Some p) 0 true s
  | EvPacket command payload => '((_, s) : bool * HdcForward) ← CommandDispatch env command payload s; Ok s
  | EvStop => StopTask env s
  end.

(** When an event can occur.  libuv completes the requests on a handle, with an
    error, before it reports that the handle is closed. *)
Definition may_happen (e : FEvent) (s : HdcForward) : bool :=
  match e with
  | EvCb cb _ =>
      bool_decide (cb ∈ f_loop s) &&
      match cb with
      | CbClose p _ => negb (bool_decide (CbConnect p ∈ f_loop s)) && negb (bool_decide (CbWrite p ∈ f_loop s))
      | _ => true
      end
  | EvAccept p _ =>
      match f_heap s !! p with Some c => match GetForwardStream c with HLive true _ => true | _ => false end | None => false end
  | EvRead p _ =>
      match f_heap s !! p with Some c => match GetForwardStream c with HLive _ true => true | _ => false end | None => false end
  | EvDevRead p _ | EvDevFinish p => match f_heap s !! p with Some c => fdClass c | None => false end
  | EvPacket _ _ | EvStop => true
  end.

(** A new object has an address of its own. *)
Definition env_ok (env : FEnv) (s : HdcForward) : Prop :=
  f_heap s !! v_new env = None /\ Z.of_nat (size (f_heap s)) < 2 ^ 32 - 1.

Definition start (server : bool) : HdcForward := mkForward ∅ [] 0 (-1) [] server [] [] [] [] [].
