(* ===== verification/ForwardProps.v ===== *)
(** * ForwardProps: contexts of a forwarding task live as long as they are used

    The invariant of the contexts and of the callbacks that hold them, and that
    each handler keeps it. *)

From Stdlib Require Import String ZArith Lia List Bool.
From stdpp Require Import base list numbers option gmap.
From S2P Require Import Prelude Defs OrdMap Session Args Strings Numbers Forward.

(** ** The invariant *)

Definition is_pipe_type (t : FORWARD_TYPE) : bool :=
  match t with FORWARD_ABSTRACT | FORWARD_RESERVED | FORWARD_FILESYSTEM => true | _ => false end.

(** The callbacks that lead to the deletion of a context. *)
Definition is_td (cb : FCb) : bool :=
  match cb with CbClose _ _ | CbDelete _ | CbIdleFree _ | CbIdleClosed _ => true | _ => false end.
Definition td (cbs : list FCb) : nat := length (List.filter is_td cbs).

Definition cb_ok (c : ContextForward) (cb : FCb) : Prop :=
  match cb with
  | CbClose _ true => tcp c = HClosing
  | CbClose _ false => pipe c = HClosing
  | CbDelete _ | CbIdleFree _ | CbIdleClosed _ => in_loop (tcp c) = false /\ in_loop (pipe c) = false
  | CbConnect _ | CbWrite _ => in_loop (GetForwardStream c) = true
  | CbIdleSetup _ => False
  end.

(** A context and the callbacks that hold it: one callback of the teardown when
    it is finished, none before; handles that fit the type. *)
Record ctx_ok (c : ContextForward) (cbs : list FCb) : Prop := {
  ok_td : td cbs = if finish c then 1%nat else 0%nat;
  ok_calm : finish c = false -> tcp c <> HClosing /\ pipe c <> HClosing;
  ok_tcp : in_loop (tcp c) = true -> is_tcp_type (type c) = true;
  ok_pipe : in_loop (pipe c) = true -> is_pipe_type (type c) = true;
  ok_listen : forall r, tcp c = HLive true r -> type c = FORWARD_TCP;
  ok_cb : Forall (cb_ok c) cbs
}.

Definition cbs_of (p : addr) (l : list FCb) : list FCb := filter (fun cb => cb_ctx cb = p) l.

Record InvC (h : gmap addr ContextForward) (m : omap addr) (n fd0 : Z) (l : list FCb) : Prop := {
  iv_ctx : forall p c, h !! p = Some c -> ctx_ok c (cbs_of p l);
  iv_held : forall p, h !! p = None -> cbs_of p l = [];
  iv_map : forall k p, om_find k m = Some p -> exists c, h !! p = Some c /\ id c = k;
  iv_sorted : om_sorted m;
  iv_ref : n = Z.of_nat (size h) /\ n < 2 ^ 32;
  iv_fds : fd0 <= 0
}.
Definition Inv (s : HdcForward) : Prop := InvC (f_heap s) (mapCtxPoint s) (refCount s) (fds0 s) (f_loop s).

(** ** Callbacks of one context *)

Lemma cbs_of_app p l k : cbs_of p (l ++ k) = cbs_of p l ++ cbs_of p k.
Proof. apply filter_app. Qed.

Lemma cbs_of_all p k : Forall (fun cb => cb_ctx cb = p) k -> cbs_of p k = k.
Proof. unfold cbs_of. induction 1; [done|]. rewrite filter_cons_True by done. by f_equal. Qed.

Lemma cbs_of_none p q k : q <> p -> Forall (fun cb => cb_ctx cb = p) k -> cbs_of q k = [].
Proof. unfold cbs_of. intros Hne. induction 1; [done|]. rewrite filter_cons_False; [done|congruence]. Qed.

Lemma cbs_of_remove_ne p cb l : cb_ctx cb <> p -> cbs_of p (remove_one cb l) = cbs_of p l.
Proof.
  intros Hc. unfold cbs_of. induction l as [|x l IH]; [done|]. cbn [remove_one]. case_decide as E.
  - subst x. by rewrite filter_cons_False.
  - rewrite !filter_cons. case_decide; [by rewrite IH|done].
Qed.

Lemma cbs_of_remove_eq p cb l : cb_ctx cb = p -> cbs_of p (remove_one cb l) = remove_one cb (cbs_of p l).
Proof.
  intros Hc. unfold cbs_of. induction l as [|x l IH]; [done|]. cbn [remove_one]. case_decide as E.
  - subst x. rewrite filter_cons_True by done. cbn [remove_one]. by rewrite decide_True.
  - rewrite !filter_cons. case_decide; [|done]. cbn [remove_one]. rewrite decide_False by done. by rewrite IH.
Qed.

Lemma td_app l k : td (l ++ k) = (td l + td k)%nat.
Proof. unfold td. by rewrite List.filter_app, length_app. Qed.

Lemma td_remove cb l : cb ∈ l -> td l = ((if is_td cb then 1 else 0) + td (remove_one cb l))%nat.
Proof.
  induction l as [|x l IH]; intros Hin; [by apply not_elem_of_nil in Hin|]. cbn [remove_one]. case_decide as E.
  - subst x. unfold td. cbn [List.filter]. destruct (is_td cb); cbn; lia.
  - apply elem_of_cons in Hin as [->|Hin]; [done|]. specialize (IH Hin). unfold td in *. cbn [List.filter].
    destruct (is_td x); cbn [length]; lia.
Qed.

Lemma remove_Forall {P : FCb -> Prop} cb l : Forall P l -> Forall P (remove_one cb l).
Proof. induction 1; cbn [remove_one]; [constructor|]. case_decide; [done|by constructor]. Qed.

(** A pending callback has its context. *)
Lemma cb_has_ctx s cb : Inv s -> cb ∈ f_loop s ->
  exists c, f_heap s !! cb_ctx cb = Some c /\ cb ∈ cbs_of (cb_ctx cb) (f_loop s) /\ ctx_ok c (cbs_of (cb_ctx cb) (f_loop s)).
Proof.
  intros I Hin. assert (Hc : cb ∈ cbs_of (cb_ctx cb) (f_loop s)) by (apply list_elem_of_filter; done).
  destruct (f_heap s !! cb_ctx cb) as [c|] eqn:E.
  - exists c. split; [done|]. split; [done|]. by apply (iv_ctx _ _ _ _ _ I).
  - rewrite (iv_held _ _ _ _ _ I _ E) in Hc. by apply not_elem_of_nil in Hc.
Qed.

(** Changing one context, keeping its id, and adding callbacks for it. *)
Lemma InvC_upd h m n fd0 l p c c' l' : InvC h m n fd0 l -> h !! p = Some c -> id c' = id c ->
  (forall q, q <> p -> cbs_of q l' = cbs_of q l) -> ctx_ok c' (cbs_of p l') -> InvC (<[p := c']> h) m n fd0 l'.
Proof.
  intros [I1 I2 I3 I4 I5 I6] Hp Hid Ho Hok. split; try done.
  - intros q x. destruct (decide (q = p)) as [->|Hne].
    + rewrite lookup_insert_eq. by intros [= <-].
    + rewrite lookup_insert_ne by done. intros Hq. rewrite Ho by done. by apply I1.
  - intros q. destruct (decide (q = p)) as [->|Hne]; [by rewrite lookup_insert_eq|].
    rewrite lookup_insert_ne by done. intros Hq. rewrite Ho by done. by apply I2.
  - intros k q Hk. destruct (I3 k q Hk) as (x & Hx & Hi). destruct (decide (q = p)) as [->|Hne].
    + exists c'. rewrite lookup_insert_eq. split; [done|]. congruence.
    + exists x. by rewrite lookup_insert_ne.
  - rewrite map_size_insert_Some by done. done.
Qed.

Lemma InvC_push h m n fd0 l p c c' k : InvC h m n fd0 l -> h !! p = Some c -> id c' = id c ->
  Forall (fun cb => cb_ctx cb = p) k -> ctx_ok c' (cbs_of p l ++ k) -> InvC (<[p := c']> h) m n fd0 (l ++ k).
Proof.
  intros I Hp Hid Hk Hok. eapply InvC_upd; [exact I|exact Hp|done| |].
  - intros q Hne. rewrite cbs_of_app, (cbs_of_none p q k) by done. apply app_nil_r.
  - by rewrite cbs_of_app, (cbs_of_all p k).
Qed.

(** Only these fields matter. *)
Lemma ctx_ok_same c c' cbs : finish c' = finish c -> tcp c' = tcp c -> pipe c' = pipe c -> type c' = type c ->
  ctx_ok c cbs -> ctx_ok c' cbs.
Proof.
  intros Ef Et Ep Ey [O1 O2 O3 O4 O5 O6]. split; rewrite ?Ef, ?Et, ?Ep, ?Ey; try done.
  eapply Forall_impl; [exact O6|]. intros cb. unfold cb_ok, GetForwardStream. by rewrite Et, Ep, Ey.
Qed.

(** ** What the operations do to one context *)

Definition same_core (s s' : HdcForward) : Prop :=
  f_heap s' = f_heap s /\ mapCtxPoint s' = mapCtxPoint s /\ refCount s' = refCount s /\ fds0 s' = fds0 s /\ f_loop s' = f_loop s.

(** No percent sign in the texts that may become a message. *)
Definition nopct (c : ContextForward) : Prop := ~ (37 ∈ lastError c) /\ ~ (37 ∈ (localArgs c).1) /\ ~ (37 ∈ (localArgs c).2).

(** [s'] comes from [s] by work on the context [p], which is still there. *)
Record kept (p : addr) (s s' : HdcForward) : Prop := {
  kp_inv : Inv s';
  kp_ctx : exists c c', f_heap s !! p = Some c /\ f_heap s' !! p = Some c' /\ id c' = id c /\ (nopct c -> nopct c') /\ (finish c = true -> finish c' = true);
  kp_other : forall q, q <> p -> f_heap s' !! q = f_heap s !! q;
  kp_map : mapCtxPoint s' = mapCtxPoint s
}.

Lemma same_core_inv s s' : same_core s s' -> Inv s -> Inv s'.
Proof. intros (E1 & E2 & E3 & E4 & E5). unfold Inv. by rewrite E1, E2, E3, E4, E5. Qed.

Lemma SendToTask_core env cid command buf s b s' : SendToTask env cid command buf s = (b, s') -> same_core s s'.
Proof.
  unfold SendToTask, SendToAnother. destruct (_ <? _); [by intros [= _ <-]|]. destruct (v_send env command); by intros [= _ <-].
Qed.

Lemma kept_refl p s c : Inv s -> f_heap s !! p = Some c -> kept p s s.
Proof. intros I Hp. split; try done. exists c, c. auto. Qed.

Lemma kept_trans p s1 s2 s3 : kept p s1 s2 -> kept p s2 s3 -> kept p s1 s3.
Proof.
  intros [_ (a & b & Ha & Hb & Hab & Rab & Fab) O1 M1] [I (b' & c & Hb' & Hc & Hbc & Rbc & Fbc) O2 M2]. simplify_eq. split; [done| | |congruence].
  - exists a, c. split; [done|]. split; [done|]. split; [congruence|]. auto.
  - intros q Hne. by rewrite O2, O1.
Qed.

Lemma kept_core p s s1 s2 : same_core s1 s2 -> kept p s s1 -> kept p s s2.
Proof.
  intros E [I C O M]. pose proof (same_core_inv _ _ E I) as I2. destruct E as (E1 & E2 & E3 & E4 & E5).
  split; rewrite ?E1, ?E2; done.
Qed.

Lemma same_core_kept p s s' c : same_core s s' -> Inv s -> f_heap s !! p = Some c -> kept p s s'.
Proof. intros E I Hp. eapply kept_core; [exact E|]. by eapply kept_refl. Qed.

(** Every context that is not finished can be found by its id, and ids are
    distinct. *)
Definition Reg (s : HdcForward) : Prop :=
  (forall p c, f_heap s !! p = Some c -> finish c = false -> om_find (id c) (mapCtxPoint s) = Some p) /\
  (forall p q c d, f_heap s !! p = Some c -> f_heap s !! q = Some d -> id c = id d -> p = q).
Definition id_fresh (k : Z) (s : HdcForward) : Prop := forall p c, f_heap s !! p = Some c -> id c <> k.

(** The invariant holds after a step; ids stay in order when [P] does. *)
Definition evolves (P : Prop) (s s' : HdcForward) : Prop := Inv s' /\ (P -> Reg s -> Reg s').

Lemma Reg_upd s p c c' : Reg s -> f_heap s !! p = Some c -> id c' = id c -> (finish c = true -> finish c' = true) ->
  forall h m, h = <[p := c']> (f_heap s) -> m = mapCtxPoint s ->
  (forall q x, h !! q = Some x -> finish x = false -> om_find (id x) m = Some q) /\
  (forall q r x y, h !! q = Some x -> h !! r = Some y -> id x = id y -> q = r).
Proof.
  intros [R1 R2] Hp Hid Hf h m -> ->.
  assert (Hback : forall q x, <[p := c']> (f_heap s) !! q = Some x ->
    exists y, f_heap s !! q = Some y /\ id y = id x /\ (finish x = false -> finish y = false)).
  { intros q x. destruct (decide (q = p)) as [->|Hne].
    - rewrite lookup_insert_eq. intros [= <-]. exists c. split; [done|]. split; [done|]. destruct (finish c); [by rewrite Hf|done].
    - rewrite lookup_insert_ne by done. intros Hq. by exists x. }
  split.
  - intros q x Hq Hfx. destruct (Hback _ _ Hq) as (y & Hy & Hi & Hfy). rewrite <- Hi. apply R1; auto.
  - intros q r x y Hq Hr He. destruct (Hback _ _ Hq) as (x' & Hx' & Hi & _). destruct (Hback _ _ Hr) as (y' & Hy' & Hj & _).
    eapply R2; [exact Hx'|exact Hy'|congruence].
Qed.

Lemma kept_evolves P p s s' : kept p s s' -> evolves P s s'.
Proof.
  intros [I (c & c' & Hc & Hc' & Hid & _ & Hf) O M]. split; [done|]. intros _ R.
  apply (Reg_upd s p c c' R Hc Hid Hf); [|done]. apply map_eq. intros q. destruct (decide (q = p)) as [->|Hne].
  - by rewrite lookup_insert_eq.
  - rewrite lookup_insert_ne by done. by apply O.
Qed.

Lemma evolves_trans P s1 s2 s3 : evolves P s1 s2 -> evolves P s2 s3 -> evolves P s1 s3.
Proof. intros [_ R1] [I2 R2]. split; [done|auto]. Qed.

Lemma evolves_kept P p s1 s2 s3 : evolves P s1 s2 -> kept p s2 s3 -> evolves P s1 s3.
Proof. intros E K. eapply evolves_trans; [exact E|]. by eapply kept_evolves. Qed.

Lemma core_evolves P s s1 s2 : same_core s1 s2 -> evolves P s s1 -> evolves P s s2.
Proof.
  intros E [I R]. split; [by eapply same_core_inv|]. intros HP HR. specialize (R HP HR). destruct E as (E1 & E2 & _).
  unfold Reg. by rewrite E1, E2.
Qed.

Lemma evolves_weaken (P Q : Prop) s s' : (Q -> P) -> evolves P s s' -> evolves Q s s'.
Proof. intros H [I R]. split; auto. Qed.

Lemma kept_get p s s' : kept p s s' -> exists c', f_heap s' !! p = Some c'.
Proof. intros [_ (_ & c' & _ & Hc' & _) _ _]. by exists c'. Qed.

Lemma ctx_get p s c : f_heap s !! p = Some c -> ctx p s = Ok c.
Proof. unfold ctx. by intros ->. Qed.

Lemma upd_get p f s c : f_heap s !! p = Some c -> upd_ctx p f s = Ok (set_heap (<[p := f c]> (f_heap s)) s).
Proof. intros Hp. unfold upd_ctx. by rewrite (ctx_get _ _ _ Hp). Qed.

Lemma heap_ok s p c : Inv s -> f_heap s !! p = Some c -> ctx_ok c (cbs_of p (f_loop s)).
Proof. intros I. apply (iv_ctx _ _ _ _ _ I). Qed.

(** One assignment, with callbacks added. *)
Lemma kept_step p s c c' k : Inv s -> f_heap s !! p = Some c -> id c' = id c -> (nopct c -> nopct c') ->
  (finish c = true -> finish c' = true) -> Forall (fun cb => cb_ctx cb = p) k -> ctx_ok c' (cbs_of p (f_loop s) ++ k) ->
  kept p s (set_loop (f_loop s ++ k) (set_heap (<[p := c']> (f_heap s)) s)).
Proof.
  intros I Hp Hid Hr Hf Hk Hok. split.
  - eapply InvC_push; [exact I|exact Hp|done|done|done].
  - exists c, c'. split; [done|]. split; [apply lookup_insert_eq|done].
  - intros q Hne. cbn. by rewrite lookup_insert_ne.
  - done.
Qed.

Lemma kept_upd p s c c' : Inv s -> f_heap s !! p = Some c -> id c' = id c -> (nopct c -> nopct c') ->
  (finish c = true -> finish c' = true) -> ctx_ok c' (cbs_of p (f_loop s)) -> kept p s (set_heap (<[p := c']> (f_heap s)) s).
Proof.
  intros I Hp Hid Hr Hf Hok. split.
  - eapply InvC_upd; [exact I|exact Hp|done|done|done].
  - exists c, c'. split; [done|]. split; [apply lookup_insert_eq|done].
  - intros q Hne. cbn. by rewrite lookup_insert_ne.
  - done.
Qed.

(** A field that the invariant does not look at. *)
Lemma upd_plain p f s c : Inv s -> f_heap s !! p = Some c -> id (f c) = id c -> (nopct c -> nopct (f c)) ->
  finish (f c) = finish c -> tcp (f c) = tcp c -> pipe (f c) = pipe c -> type (f c) = type c ->
  exists s', upd_ctx p f s = Ok s' /\ kept p s s' /\ f_heap s' !! p = Some (f c) /\ fds0 s' = fds0 s /\ f_loop s' = f_loop s.
Proof.
  intros I Hp Hi Hr Hf Ht Hpi Hy. rewrite (upd_get _ _ _ _ Hp). eexists. split; [done|]. split; [|by cbn; rewrite lookup_insert_eq].
  eapply kept_upd; try done; [by rewrite Hf|]. eapply ctx_ok_same; [..|by eapply heap_ok]; done.
Qed.

Lemma td_snoc l cb : td (l ++ [cb]) = (td l + if is_td cb then 1 else 0)%nat.
Proof. rewrite td_app. unfold td at 2. cbn. by destruct (is_td cb). Qed.

Lemma types_exclude t : is_tcp_type t = true -> is_pipe_type t = true -> False.
Proof. by destruct t. Qed.

(** A finished context: the callback that starts the teardown. *)
Lemma ok_finish_close c cbs p (isTcp : bool) : ctx_ok c cbs -> finish c = false ->
  (exists li r, (if isTcp then tcp c else pipe c) = HLive li r) ->
  ctx_ok (set_finish true ((if isTcp then set_tcp HClosing else set_pipe HClosing) c)) (cbs ++ [CbClose p isTcp]).
Proof.
  intros [O1 O2 O3 O4 O5 O6] Hf (li & r & Hl). rewrite Hf in O1. destruct isTcp.
  - assert (Hp : in_loop (pipe c) = false).
    { destruct (in_loop (pipe c)) eqn:E; [|done]. exfalso. eapply (types_exclude (type c)); [apply O3; by rewrite Hl|by apply O4]. }
    split; cbn; try done.
    + by rewrite td_snoc, O1.
    + intros _. apply O3. by rewrite Hl.
    + apply Forall_app_2; [|by repeat constructor]. rewrite Forall_forall in *. intros cb Hcb. specialize (O6 _ Hcb).
      destruct cb as [? []|?|?|?|?|?|?]; cbn in *; try done; try (by rewrite Hl in O6); try (apply proj1 in O6; by rewrite Hl in O6).
      * unfold GetForwardStream in *. cbn. destruct (is_tcp_type (type c)); [done|exact O6].
      * unfold GetForwardStream in *. cbn. destruct (is_tcp_type (type c)); [done|exact O6].
  - assert (Hp : in_loop (tcp c) = false).
    { destruct (in_loop (tcp c)) eqn:E; [|done]. exfalso. eapply (types_exclude (type c)); [by apply O3|apply O4; by rewrite Hl]. }
    split; cbn; try done.
    + by rewrite td_snoc, O1.
    + intros _. apply O4. by rewrite Hl.
    + apply Forall_app_2; [|by repeat constructor]. rewrite Forall_forall in *. intros cb Hcb. specialize (O6 _ Hcb).
      destruct cb as [? []|?|?|?|?|?|?]; cbn in *; try done; try (by rewrite Hl in O6); try (apply proj2 in O6; by rewrite Hl in O6).
      * unfold GetForwardStream in *. cbn. destruct (is_tcp_type (type c)); [exact O6|done].
      * unfold GetForwardStream in *. cbn. destruct (is_tcp_type (type c)); [exact O6|done].
Qed.

Lemma ok_finish_now c cbs cb : ctx_ok c cbs -> finish c = false -> in_loop (tcp c) = false -> in_loop (pipe c) = false ->
  (exists p, cb = CbDelete p \/ cb = CbIdleFree p) -> ctx_ok (set_finish true c) (cbs ++ [cb]).
Proof.
  intros [O1 O2 O3 O4 O5 O6] Hf Ht Hp Hcb. rewrite Hf in O1. split; cbn; try done.
  - rewrite td_snoc, O1. by destruct Hcb as [? [-> | ->]].
  - apply Forall_app_2; [|destruct Hcb as [? [-> | ->]]; by repeat constructor].
    eapply Forall_impl; [exact O6|]. intros x. by destruct x as [? []|?|?|?|?|?|?].
Qed.

Lemma handle_cases (h : Handle) : (exists li r, h = HLive li r) \/ h = HClosing \/ in_loop h = false.
Proof. destruct h; eauto. Qed.

(** Closing a handle and marking the context, as [FreeContext] does. *)
Lemma close_finish p (isTcp : bool) s c : Inv s -> f_heap s !! p = Some c -> finish c = false ->
  (if isTcp then is_tcp_type (type c) else is_pipe_type (type c)) = true ->
  exists s', (s1 ← TryCloseHandle p isTcp s; upd_ctx p (set_finish true) s1) = Ok s' /\ kept p s s' /\
    exists c', f_heap s' !! p = Some c' /\ finish c' = true.
Proof.
  intros I Hp Hf Hy. pose proof (heap_ok _ _ _ I Hp) as Ok_. destruct (ok_calm _ _ Ok_ Hf) as [Ct Cp].
  assert (Hother : in_loop (if isTcp then pipe c else tcp c) = false).
  { destruct (in_loop _) eqn:E; [|done]. exfalso. destruct isTcp.
    - eapply types_exclude; [exact Hy|by eapply ok_pipe].
    - eapply types_exclude; [by eapply ok_tcp|exact Hy]. }
  unfold TryCloseHandle. rewrite (ctx_get _ _ _ Hp). cbn [mbind res_bind].
  destruct (handle_cases (if isTcp then tcp c else pipe c)) as [(li & r & E)|[E|E]].
  - rewrite E, (upd_get _ _ _ _ Hp). cbn [mbind res_bind].
    rewrite (upd_get p _ _ ((if isTcp then set_tcp HClosing else set_pipe HClosing) c)) by (cbn; apply lookup_insert_eq).
    eexists. split; [reflexivity|]. cbn. rewrite insert_insert_eq. split.
    + apply (kept_step p s c (set_finish true ((if isTcp then set_tcp HClosing else set_pipe HClosing) c)) [CbClose p isTcp]); try done.
      * by destruct isTcp.
      * by destruct isTcp.
      * by repeat constructor.
      * apply ok_finish_close; eauto.
    + rewrite lookup_insert_eq. by eexists.
  - exfalso. destruct isTcp; [by apply Ct|by apply Cp].
  - assert (Hn : match (if isTcp then tcp c else pipe c) with
      | HLive _ _ => s0 ← upd_ctx p (if isTcp then set_tcp HClosing else set_pipe HClosing) s; Ok (push (CbClose p isTcp) s0)
      | _ => Ok (FreeContextCallBack p s) end = Ok (FreeContextCallBack p s)) by by destruct (if isTcp then tcp c else pipe c).
    rewrite Hn. cbn [mbind res_bind]. rewrite (upd_get p _ _ c) by done.
    eexists. split; [reflexivity|]. split; [|by exists (set_finish true c); cbn; rewrite lookup_insert_eq].
    apply (kept_step p s c (set_finish true c) [CbDelete p]); try done; [by repeat constructor|].
    apply ok_finish_now; eauto; by destruct isTcp.
Qed.

Lemma FreeContext_ok env p i b s c : Inv s -> f_heap s !! p = Some c ->
  exists s', FreeContext env (Some p) i b s = Ok s' /\ kept p s s' /\ exists c', f_heap s' !! p = Some c' /\ finish c' = true.
Proof.
  intros I Hp. unfold FreeContext. cbn [mbind res_bind]. rewrite (ctx_get _ _ _ Hp). cbn [mbind res_bind].
  destruct (finish c) eqn:Hf; [exists s; split; [done|]; split; [by eapply kept_refl|by exists c]|].
  set (s1 := if b then _ else _).
  assert (E : same_core s s1).
  { unfold s1. destruct b; [|by split_and!]. destruct (SendToTask _ _ _ _ _) as [x s2] eqn:E. by apply SendToTask_core in E. }
  assert (I1 : Inv s1) by by eapply same_core_inv. assert (Hp1 : f_heap s1 !! p = Some c) by (by destruct E as (-> & _)).
  assert (Hk : forall s', kept p s1 s' -> kept p s s').
  { intros s' K. eapply kept_trans; [by eapply same_core_kept|done]. }
  clearbody s1.
  assert (Hc : forall t : bool, (if t then is_tcp_type (type c) else is_pipe_type (type c)) = true ->
    exists s', (s2 ← TryCloseHandle p t s1; upd_ctx p (set_finish true) s2) = Ok s' /\ kept p s s' /\
      exists c', f_heap s' !! p = Some c' /\ finish c' = true).
  { intros t Ht. destruct (close_finish p t s1 c I1 Hp1 Hf Ht) as (s' & Hs' & K & Hc'). exists s'. auto. }
  destruct (type c) eqn:Ey; try exact (Hc true eq_refl); try exact (Hc false eq_refl).
  { unfold FreeJDWP. rewrite (upd_get p _ _ c) by done. cbn [mbind res_bind].
      set (c1 := set_fd _ _). rewrite (upd_get p _ _ c1) by (cbn; apply lookup_insert_eq).
      eexists. split; [reflexivity|]. cbn. rewrite insert_insert_eq. split.
      - apply Hk. pose proof (heap_ok _ _ _ I1 Hp1) as O.
        assert (O' : ctx_ok c1 (cbs_of p (f_loop s1))).
        { eapply ctx_ok_same; [..|exact O]; unfold c1; by destruct (fdClass c). }
        apply (kept_step p s1 c (set_finish true c1) [CbIdleFree p]); try done.
        + unfold c1. by destruct (fdClass c).
        + unfold c1. by destruct (fdClass c).
        + by repeat constructor.
        + assert (type c1 = FORWARD_DEVICE) as Hy by (unfold c1; by destruct (fdClass c)).
          apply ok_finish_now; eauto.
          * unfold c1. by destruct (fdClass c).
          * destruct (in_loop (tcp c1)) eqn:E1; [|done]. apply (ok_tcp _ _ O') in E1. by rewrite Hy in E1.
          * destruct (in_loop (pipe c1)) eqn:E1; [|done]. apply (ok_pipe _ _ O') in E1. by rewrite Hy in E1.
      - rewrite lookup_insert_eq. by eexists. }
Qed.

(** A live handle that changes what it does. *)
Lemma ok_relive c cbs (isTcp : bool) li r li' r' : ctx_ok c cbs -> (if isTcp then tcp c else pipe c) = HLive li r ->
  (isTcp = true -> li' = true -> type c = FORWARD_TCP) ->
  ctx_ok ((if isTcp then set_tcp (HLive li' r') else set_pipe (HLive li' r')) c) cbs.
Proof.
  intros [O1 O2 O3 O4 O5 O6] Hl Hy. destruct isTcp.
  - split; cbn; try done.
    + intros Hf. split; [done|by apply O2].
    + intros _. apply O3. by rewrite Hl.
    + intros r0 [= -> _]. by apply Hy.
    + eapply Forall_impl; [exact O6|]. intros cb. unfold cb_ok, GetForwardStream. cbn.
      destruct cb as [? []|?|?|?|?|?|?]; rewrite ?Hl; try done; by destruct (is_tcp_type (type c)).
  - split; cbn; try done.
    + intros Hf. split; [by apply O2|done].
    + intros _. apply O4. by rewrite Hl.
    + eapply Forall_impl; [exact O6|]. intros cb. unfold cb_ok, GetForwardStream. cbn.
      destruct cb as [? []|?|?|?|?|?|?]; rewrite ?Hl; try done; by destruct (is_tcp_type (type c)).
Qed.

Lemma read_start_Some env h h' : read_start env h = Some h' -> h = HLive false false /\ h' = HLive false true.
Proof. unfold read_start. destruct h as [|[] []| |]; try done. destruct (v_readStart env); [|done]. by intros [= <-]. Qed.

Lemma begin_tcp_ok env p s c : Inv s -> f_heap s !! p = Some c ->
  exists b s', BeginForwardTcp env p s = Ok (b, s') /\ kept p s s'.
Proof.
  intros I Hp. unfold BeginForwardTcp. rewrite (ctx_get _ _ _ Hp). cbn [mbind res_bind].
  destruct (read_start env (tcp c)) as [h|] eqn:E; [|exists false, s; split; [done|by eapply kept_refl]].
  apply read_start_Some in E as [El ->]. rewrite (upd_get _ _ _ _ Hp). cbn [mbind res_bind]. do 2 eexists. split; [done|].
  eapply kept_upd; try done. apply (ok_relive c _ true false false false true); [by eapply heap_ok|done|done].
Qed.

Lemma begin_pipe_ok env p s c : Inv s -> f_heap s !! p = Some c ->
  exists b s', BeginForwardPipe env p s = Ok (b, s') /\ kept p s s'.
Proof.
  intros I Hp. unfold BeginForwardPipe. rewrite (ctx_get _ _ _ Hp). cbn [mbind res_bind].
  destruct (read_start env (pipe c)) as [h|] eqn:E; [|exists false, s; split; [done|by eapply kept_refl]].
  apply read_start_Some in E as [El ->]. rewrite (upd_get _ _ _ _ Hp). cbn [mbind res_bind]. do 2 eexists. split; [done|].
  eapply kept_upd; try done. apply (ok_relive c _ false false false false true); [by eapply heap_ok|done|done].
Qed.

Lemma DoForwardBegin_ok env p s c : Inv s -> f_heap s !! p = Some c -> (type c = FORWARD_DEVICE -> fdClass c = true) ->
  exists b s', DoForwardBegin env p s = Ok (b, s') /\ kept p s s'.
Proof.
  intros I Hp Hd. unfold DoForwardBegin. rewrite (ctx_get _ _ _ Hp). cbn [mbind res_bind].
  assert (Hb : exists b s', match type c with
    | FORWARD_TCP | FORWARD_JDWP => BeginForwardTcp env p s
    | FORWARD_ARK => BeginForwardArk env p s
    | FORWARD_ABSTRACT | FORWARD_RESERVED | FORWARD_FILESYSTEM => BeginForwardPipe env p s
    | FORWARD_DEVICE => BeginForwardDevice p s end = Ok (b, s') /\ kept p s s').
  { destruct (type c); try (by eapply begin_tcp_ok); try (by eapply begin_pipe_ok).
    - unfold BeginForwardDevice. rewrite (ctx_get _ _ _ Hp). cbn [mbind res_bind]. rewrite Hd by done.
      exists true, s. split; [done|by eapply kept_refl].
    - unfold BeginForwardArk. rewrite (proj2 (Z.leb_le _ 0)) by apply (iv_fds _ _ _ _ _ I).
      exists false, s. split; [done|by eapply kept_refl]. }
  destruct Hb as (b & s1 & -> & K). cbn [mbind res_bind]. destruct b; [|by exists false, s1].
  destruct (kept_get _ _ _ K) as [c1 Hp1].
  destruct (upd_plain p (set_ready true) s1 c1 (kp_inv _ _ _ K) Hp1) as (s2 & -> & K2 & _); try done.
  cbn [mbind res_bind]. exists true, s2. split; [done|by eapply kept_trans].
Qed.

Lemma free_then env p i b s0 s c v : kept p s0 s -> f_heap s !! p = Some c ->
  exists s', (s' ← FreeContext env (Some p) i b s; Ok (v : bool, s')) = Ok (v, s') /\ kept p s0 s'.
Proof.
  intros K Hp. destruct (FreeContext_ok env p i b s c (kp_inv _ _ _ K) Hp) as (s' & -> & K2 & _). cbn [mbind res_bind].
  exists s'. split; [done|by eapply kept_trans].
Qed.

Lemma SetupPointContinue_ok env p st s c : Inv s -> f_heap s !! p = Some c ->
  (checkPoint c = false -> type c = FORWARD_DEVICE -> fdClass c = true) ->
  exists b s', SetupPointContinue env p st s = Ok (b, s') /\ kept p s s'.
Proof.
  intros I Hp Hd. unfold SetupPointContinue. rewrite (ctx_get _ _ _ Hp). cbn [mbind res_bind].
  assert (Hsend : forall cid cmd buf b s1, SendToTask env cid cmd buf s = (b, s1) -> kept p s s1 /\ f_heap s1 !! p = Some c).
  { intros * E. apply SendToTask_core in E. split; [by eapply same_core_kept|]. by destruct E as (-> & _). }
  destruct (checkPoint c) eqn:Ec.
  - destruct (SendToTask _ _ _ _ _) as [b s1] eqn:E. apply Hsend in E as [K1 Hp1].
    destruct b; cbn [negb]; destruct (free_then env p 0 true s s1 c false K1 Hp1) as (s2 & E2 & K2);
      destruct (free_then env p 0 false s s1 c true K1 Hp1) as (s3 & E3 & K3); [rewrite E3|rewrite E2]; eauto.
  - destruct (st <? 0).
    + destruct (free_then env p 0 true s s c false (kept_refl _ _ _ I Hp) Hp) as (s2 & E2 & K2). rewrite E2. eauto.
    + destruct (SendToTask _ _ _ _ _) as [b s1] eqn:E. apply Hsend in E as [K1 Hp1]. destruct b; cbn [negb].
      * destruct (DoForwardBegin_ok env p s1 c (kp_inv _ _ _ K1) Hp1 (Hd eq_refl)) as (b & s2 & -> & K2).
        exists b, s2. split; [done|by eapply kept_trans].
      * destruct (free_then env p 0 true s s1 c false K1 Hp1) as (s2 & E2 & K2). rewrite E2. eauto.
Qed.

(** ** Callbacks of the loop *)

Definition without (cb : FCb) (s : HdcForward) : HdcForward := set_loop (remove_one cb (f_loop s)) s.

(** A callback that is not part of a teardown leaves the invariant. *)
Lemma without_request cb s : Inv s -> is_td cb = false -> Inv (without cb s).
Proof.
  intros I Ht. destruct I as [I1 I2 I3 I4 I5 I6]. split; try done.
  - intros p c Hp. change (f_loop (without cb s)) with (remove_one cb (f_loop s)). specialize (I1 _ _ Hp). destruct (decide (cb_ctx cb = p)) as [E|E].
    + rewrite cbs_of_remove_eq by done. destruct I1 as [O1 O2 O3 O4 O5 O6]. split; try done; [|by apply remove_Forall].
      destruct (decide (cb ∈ cbs_of p (f_loop s))) as [Hin|Hin].
      * pose proof (td_remove cb _ Hin) as Et. rewrite Ht, O1 in Et. by rewrite Et.
      * assert (Hr : forall l, cb ∉ l -> remove_one cb l = l).
        { clear. induction l as [|x l IH]; [done|]. intros [Hne Hl]%not_elem_of_cons. cbn [remove_one].
          rewrite decide_False by done. by rewrite IH. }
        by rewrite Hr.
    + by rewrite cbs_of_remove_ne.
  - intros p Hp. change (f_loop (without cb s)) with (remove_one cb (f_loop s)). specialize (I2 _ Hp). destruct (decide (cb_ctx cb = p)) as [E|E].
    + rewrite cbs_of_remove_eq, I2 by done. done.
    + by rewrite cbs_of_remove_ne.
Qed.

(** A teardown callback is the only one left, unless it closes a handle with
    requests under way. *)
Lemma teardown_alone c cbs cb : ctx_ok c cbs -> cb ∈ cbs -> is_td cb = true ->
  (forall p b, cb = CbClose p b -> forall x, x ∈ cbs -> match x with CbConnect _ | CbWrite _ => False | _ => True end) ->
  finish c = true /\ remove_one cb cbs = [].
Proof.
  intros [O1 O2 O3 O4 O5 O6] Hin Htd Hreq. pose proof (td_remove cb _ Hin) as Et. rewrite Htd, O1 in Et.
  destruct (finish c) eqn:Ef; [|lia]. split; [done|].
  destruct (remove_one cb cbs) as [|x l] eqn:El; [done|]. exfalso.
  assert (Hx : x ∈ cbs).
  { assert (Hsub : forall l, x ∈ remove_one cb l -> x ∈ l).
    { clear. induction l as [|y l IH]; [done|]. cbn [remove_one]. case_decide; [by right|].
      intros [->|?]%elem_of_cons; [left|right; by apply IH]. }
    apply Hsub. rewrite El. left. }
  rewrite Forall_forall in O6. pose proof (O6 _ Hin) as Hcb. specialize (O6 _ Hx).
  assert (is_td x = false) as Hntd.
  { unfold td in Et. cbn [List.filter] in Et. destruct (is_td x); [cbn in Et; lia|done]. }
  destruct x; try done.
  all: cbn in O6; unfold GetForwardStream in O6.
  all: destruct cb as [q []|q|q|q|q|q|q]; try done; try (by eapply (Hreq _ _ eq_refl)); try (by eapply (Hreq _ _ eq_refl _ Hx)).
  all: destruct Hcb as [H1 H2]; destruct (is_tcp_type (type c)); congruence.
Qed.

Lemma InvC_delete h m n fd0 l p c : InvC h m n fd0 l -> h !! p = Some c -> remove_one (CbDelete p) (cbs_of p l) = [] ->
  InvC (delete p h) (om_erase (id c) m) (n - 1) fd0 (remove_one (CbDelete p) l).
Proof.
  intros [I1 I2 I3 I4 I5 I6] Hp Hnil. split; try done.
  - intros q x. destruct (decide (q = p)) as [->|Hne]; [by rewrite lookup_delete_eq|].
    rewrite lookup_delete_ne by done. intros Hq. rewrite cbs_of_remove_ne by done. by apply I1.
  - intros q. destruct (decide (q = p)) as [->|Hne].
    + intros _. by rewrite cbs_of_remove_eq.
    + rewrite lookup_delete_ne by done. intros Hq. rewrite cbs_of_remove_ne by done. by apply I2.
  - intros k q. destruct (decide (k = id c)) as [->|Hne].
    + by rewrite om_find_erase_eq.
    + rewrite om_find_erase_ne by done. intros Hk. destruct (I3 _ _ Hk) as (x & Hx & Hi). exists x. split; [|done].
      rewrite lookup_delete_ne; [done|]. intros <-. congruence.
  - by apply om_sorted_erase.
  - assert (size h <> 0%nat) by (intros E; apply map_size_empty_iff in E; subst h; by rewrite lookup_empty in Hp).
    rewrite map_size_delete_Some by eauto. lia.
Qed.

(** A teardown callback replaced by the next one. *)
Lemma teardown_next s p c c' cb next : Inv s -> f_heap s !! p = Some c -> cb_ctx cb = p -> remove_one cb (cbs_of p (f_loop s)) = [] ->
  cb_ctx next = p -> id c' = id c -> finish c' = finish c -> ctx_ok c' [next] ->
  forall P, evolves P s (push next (set_heap (<[p := c']> (f_heap s)) (without cb s))).
Proof.
  intros I Hp Hcb Hnil Hnext Hid Hf Hok P. split; [|intros _ R; apply (Reg_upd s p c c' R Hp Hid); [by rewrite Hf|done|done]]. unfold Inv.
  change (InvC (<[p := c']> (f_heap s)) (mapCtxPoint s) (refCount s) (fds0 s) (remove_one cb (f_loop s) ++ [next])).
  eapply InvC_upd; [exact I|exact Hp|done| |].
  - intros q Hne. rewrite cbs_of_app, cbs_of_remove_ne by congruence.
    rewrite (cbs_of_none p q [next]) by (done || by repeat constructor). apply app_nil_r.
  - rewrite cbs_of_app, cbs_of_remove_eq, Hnil by done. by rewrite (cbs_of_all p [next]) by by repeat constructor.
Qed.

Lemma ctx_ok_next c next : finish c = true -> in_loop (tcp c) = false -> in_loop (pipe c) = false ->
  (exists p, next = CbDelete p \/ next = CbIdleFree p \/ next = CbIdleClosed p) -> ctx_ok c [next].
Proof.
  intros Hf Ht Hp (p & Hn). split.
  - rewrite Hf. by destruct Hn as [->|[->| ->]].
  - by rewrite Hf.
  - by rewrite Ht.
  - by rewrite Hp.
  - intros r E. by rewrite E in Ht.
  - constructor; [|constructor]. by destruct Hn as [->|[->| ->]].
Qed.

Lemma run_close env p b st s : Inv s -> CbClose p b ∈ f_loop s -> may_happen (EvCb (CbClose p b) st) s = true ->
  exists s', run_cb env (CbClose p b) st (without (CbClose p b) s) = Ok s' /\ evolves True s s'.
Proof.
  intros I Hin Hmay. destruct (cb_has_ctx s _ I Hin) as (c & Hp & Hc & O). cbn [cb_ctx] in *.
  cbn [may_happen] in Hmay. breflect.
  destruct (teardown_alone c _ _ O Hc eq_refl) as [Hf Hnil].
  { intros p' b' [= -> ->] x Hx. unfold cbs_of in Hx. apply list_elem_of_filter in Hx as [E Hx].
    destruct x; try done; cbn in E; subst; repeat match goal with H : bool_decide _ = false |- _ => apply bool_decide_eq_false in H end; done. }
  cbn [run_cb]. rewrite (upd_get p _ _ c) by done. cbn [mbind res_bind]. eexists. split; [reflexivity|].
  apply (teardown_next s p c); try done; [by destruct b|by destruct b|]. pose proof (ok_cb _ _ O) as F. rewrite Forall_forall in F.
  specialize (F _ Hc). destruct O as [O1 O2 O3 O4 O5 O6]. destruct b; cbn in F.
  - apply ctx_ok_next; eauto. destruct (in_loop (pipe c)) eqn:E; [|done].
    exfalso. eapply types_exclude; [apply O3; by rewrite F|by apply O4].
  - apply ctx_ok_next; eauto. cbn. destruct (in_loop (tcp c)) eqn:E; [|done].
    exfalso. eapply types_exclude; [by apply O3|apply O4; by rewrite F].
Qed.

Lemma run_delete env p st s : Inv s -> CbDelete p ∈ f_loop s ->
  exists s', run_cb env (CbDelete p) st (without (CbDelete p) s) = Ok s' /\ evolves True s s'.
Proof.
  intros I Hin. destruct (cb_has_ctx s _ I Hin) as (c & Hp & Hc & O). cbn [cb_ctx] in *.
  destruct (teardown_alone c _ _ O Hc eq_refl) as [Hf Hnil]; [done|].
  pose proof (ok_cb _ _ O) as F. rewrite Forall_forall in F. specialize (F _ Hc) as [Ft Fp].
  cbn [run_cb]. unfold DeleteContext. rewrite (ctx_get p _ c) by done. cbn [mbind res_bind].
  change (AdminContext OP_REMOVE (id c) None (without (CbDelete p) s)) with
    (Ok (A := option addr * HdcForward) (None, set_map (om_erase (id c) (mapCtxPoint s)) (without (CbDelete p) s))).
  cbn [mbind res_bind]. rewrite Ft, Fp. cbn [orb]. eexists. split; [reflexivity|].
  assert (Hpos : 0 < refCount s).
  { destruct (iv_ref _ _ _ _ _ I) as [-> _].
    assert (size (f_heap s) <> 0%nat) by (intros E; apply map_size_empty_iff in E; rewrite E in Hp; by rewrite lookup_empty in Hp).
    lia. }
  cbn [refCount set_heap set_map without set_loop]. rewrite (proj2 (Z.ltb_lt 0 _)) by done.
  split; [by apply (InvC_delete _ _ _ _ _ p c I)|]. intros _ [R1 R2]. split; cbn.
  - intros q x. destruct (decide (q = p)) as [->|Hne]; [by rewrite lookup_delete_eq|]. rewrite lookup_delete_ne by done.
    intros Hq Hfx. rewrite om_find_erase_ne; [by apply R1|]. intros Ei. apply Hne. by eapply R2.
  - intros q r x y [_ Hq]%lookup_delete_Some [_ Hr]%lookup_delete_Some. by eapply R2.
Qed.

Lemma run_idle env p st s cb : Inv s -> cb ∈ f_loop s -> cb = CbIdleFree p \/ cb = CbIdleClosed p ->
  exists s', run_cb env cb st (without cb s) = Ok s' /\ evolves True s s'.
Proof.
  intros I Hin Hcase. destruct (cb_has_ctx s _ I Hin) as (c & Hp & Hc & O).
  assert (E : cb_ctx cb = p) by by destruct Hcase as [-> | ->]. rewrite E in *.
  destruct (teardown_alone c _ _ O Hc) as [Hf Hnil]; [by destruct Hcase as [-> | ->]|by destruct Hcase as [-> | ->]|].
  pose proof (ok_cb _ _ O) as F. rewrite Forall_forall in F. specialize (F _ Hc).
  assert (Fh : in_loop (tcp c) = false /\ in_loop (pipe c) = false) by by destruct Hcase as [-> | ->]. destruct Fh as [Ft Fp].
  assert (Hmove : forall c' next, id c' = id c -> finish c' = finish c -> tcp c' = tcp c -> pipe c' = pipe c -> cb_ctx next = p ->
    (exists q, next = CbDelete q \/ next = CbIdleFree q \/ next = CbIdleClosed q) ->
    evolves True s (push next (set_heap (<[p := c']> (f_heap s)) (without cb s)))).
  { intros c' next Hi Hfi Ht Hpi Hn Hq. apply (teardown_next s p c); try done. apply ctx_ok_next; congruence || done. }
  destruct Hcase as [-> | ->]; cbn [run_cb].
  - unfold IdleFree. rewrite (ctx_get p _ c) by done. cbn [mbind res_bind]. destruct (fdClass c).
    + destruct (_ || _); rewrite (upd_get p _ _ c) by done; cbn [mbind res_bind]; eexists; (split; [reflexivity|]);
        apply Hmove; eauto.
    + eexists. split; [reflexivity|]. pose proof (Hmove c (CbIdleClosed p)) as Hm. rewrite insert_id in Hm by done. apply Hm; eauto.
  - rewrite (ctx_get p _ c) by done. cbn [mbind res_bind]. eexists. split; [reflexivity|].
    pose proof (Hmove c (CbDelete p)) as Hm. rewrite insert_id in Hm by done. apply Hm; eauto.
Qed.

Lemma run_cb_ok env cb st s : Inv s -> may_happen (EvCb cb st) s = true ->
  exists s', run_cb env cb st (without cb s) = Ok s' /\ evolves True s s'.
Proof.
  intros I Hmay. assert (Hin : cb ∈ f_loop s) by (cbn [may_happen] in Hmay; by breflect).
  destruct cb as [p b|p|p|p|p|p|p]; [by eapply run_close|by eapply run_delete| | |eapply run_idle; eauto..|].
  - destruct (cb_has_ctx s _ I Hin) as (c & Hp & Hc & O). cbn [cb_ctx] in *.
    pose proof (without_request _ s I (eq_refl : is_td (CbConnect p) = false)) as I1. cbn [run_cb]. unfold ConnectTarget.
    destruct (SetupPointContinue_ok env p st (without (CbConnect p) s) c I1 Hp) as (b & s' & -> & K).
    + intros _ Hd. pose proof (ok_cb _ _ O) as F. rewrite Forall_forall in F. specialize (F _ Hc). cbn in F.
      unfold GetForwardStream in F. rewrite Hd in F. cbn in F. apply (ok_pipe _ _ O) in F. by rewrite Hd in F.
    + cbn [mbind res_bind]. exists s'. split; [done|]. exact (kept_evolves True p _ _ K).
  - destruct (cb_has_ctx s _ I Hin) as (c & Hp & Hc & O). cbn [cb_ctx] in *.
    pose proof (without_request _ s I (eq_refl : is_td (CbWrite p) = false)) as I1. cbn [run_cb].
    unfold SendCallbackForwardBuf. rewrite (ctx_get p _ c) by done. cbn [mbind res_bind]. destruct (_ && _).
    + destruct (FreeContext_ok env p 0 true (without (CbWrite p) s) c I1 Hp) as (s' & -> & K & _). exists s'. split; [done|].
      exact (kept_evolves True p _ _ K).
    + eexists. split; [done|]. by split.
  - destruct (cb_has_ctx s _ I Hin) as (c & Hp & Hc & O). pose proof (ok_cb _ _ O) as F. rewrite Forall_forall in F.
    by specialize (F _ Hc).
Qed.

(** ** New contexts *)

Lemma InvC_new h m n fd0 l p c k : InvC h m n fd0 l -> h !! p = None -> Z.of_nat (size h) < 2 ^ 32 - 1 -> id c = k ->
  ctx_ok c [] -> InvC (<[p := c]> h) (om_set k p m) (n + 1) fd0 l.
Proof.
  intros [I1 I2 I3 I4 I5 I6] Hp Hsz Hid Hok. split; try done.
  - intros q x. destruct (decide (q = p)) as [->|Hne].
    + rewrite lookup_insert_eq. intros [= <-]. by rewrite I2.
    + rewrite lookup_insert_ne by done. apply I1.
  - intros q. destruct (decide (q = p)) as [->|Hne]; [by rewrite lookup_insert_eq|]. rewrite lookup_insert_ne by done. apply I2.
  - intros k' q. destruct (decide (k' = k)) as [->|Hne].
    + rewrite om_find_set_eq. intros [= <-]. exists c. by rewrite lookup_insert_eq.
    + rewrite om_find_set_ne by done. intros Hq. destruct (I3 _ _ Hq) as (x & Hx & Hi). exists x.
      rewrite lookup_insert_ne; [done|congruence].
  - by apply om_sorted_set.
  - rewrite map_size_insert_None by done. lia.
Qed.

(** Fresh handles, not finished. *)
Definition blank (c : ContextForward) : Prop := finish c = false /\ tcp c = HNone /\ pipe c = HNone.

Lemma MallocContext_ok env master s : Inv s -> env_ok env s ->
  exists s', MallocContext env master s = Ok (v_new env, s') /\ evolves (id_fresh (v_random env) s) s s' /\
    f_heap s' = <[v_new env := new_ctx (v_random env) master]> (f_heap s) /\
    mapCtxPoint s' = om_set (v_random env) (v_new env) (mapCtxPoint s).
Proof.
  intros I [Hf Hsz]. eexists. split; [reflexivity|]. split; [|done]. split.
  2:{ intros Hid [R1 R2]. assert (Hn : forall q x, <[v_new env := new_ctx (v_random env) master]> (f_heap s) !! q = Some x ->
        (q = v_new env /\ x = new_ctx (v_random env) master) \/ (q <> v_new env /\ f_heap s !! q = Some x)).
      { intros q x [[<- <-]|[Hne Hq]]%lookup_insert_Some; auto. }
      split; cbn.
      - intros q x Hq Hfx. destruct (Hn _ _ Hq) as [[-> ->]|[Hne Hq1]]; [by rewrite om_find_set_eq|].
        rewrite om_find_set_ne; [by apply R1|]. by eapply Hid.
      - intros q r x y Hq Hr He. destruct (Hn _ _ Hq) as [[-> ->]|[Hne Hq1]], (Hn _ _ Hr) as [[-> ->]|[Hne2 Hr1]]; try done.
        + exfalso. by eapply (Hid _ _ Hr1).
        + exfalso. by eapply (Hid _ _ Hq1).
        + by eapply R2. }
  unfold Inv. cbn.
  destruct (iv_ref _ _ _ _ _ I) as [Hn _].
  replace (u32 (refCount s + 1)) with (refCount s + 1) by (symmetry; apply Z.mod_small; lia).
  apply InvC_new; try done.
Qed.

Lemma blank_cbs c cbs : ctx_ok c cbs -> blank c -> cbs = [].
Proof.
  intros [O1 O2 O3 O4 O5 O6] (Hf & Ht & Hp). destruct cbs as [|cb cbs]; [done|]. exfalso. rewrite Hf in O1.
  apply List.Forall_cons_iff in O6 as [O6 _]. unfold td in O1. cbn [List.filter] in O1.
  destruct cb as [? []|?|?|?|?|?|?]; cbn in O1, O6; try done; try congruence.
  all: unfold GetForwardStream in O6; destruct (is_tcp_type (type c)); by rewrite ?Ht, ?Hp in O6.
Qed.

Lemma blank_ok c : blank c -> ctx_ok c [].
Proof. intros (Hf & Ht & Hp). split; rewrite ?Hf, ?Ht, ?Hp; try done. Qed.

(** Assignments to a blank context. *)
Lemma upd_blank p f s c : Inv s -> f_heap s !! p = Some c -> blank c -> blank (f c) -> id (f c) = id c -> (nopct c -> nopct (f c)) ->
  exists s', upd_ctx p f s = Ok s' /\ kept p s s' /\ f_heap s' !! p = Some (f c).
Proof.
  intros I Hp Hb Hb' Hid Hn. rewrite (upd_get _ _ _ _ Hp). eexists. split; [done|]. split; [|apply lookup_insert_eq].
  eapply kept_upd; try done; [by rewrite (proj1 Hb)|]. rewrite (blank_cbs c _ (heap_ok _ _ _ I Hp) Hb). by apply blank_ok.
Qed.

Lemma tcp_init_ok p s c : Inv s -> f_heap s !! p = Some c -> blank c -> is_tcp_type (type c) = true ->
  exists s', tcp_init p s = Ok s' /\ kept p s s' /\ f_heap s' !! p = Some (set_tcp (HLive false false) c) /\ f_loop s' = f_loop s.
Proof.
  intros I Hp Hb Hy. unfold tcp_init. rewrite (ctx_get _ _ _ Hp). cbn [mbind res_bind]. destruct (Hb) as (Hf & Ht & Hpi).
  rewrite Ht. cbn [in_loop]. rewrite (upd_get _ _ _ _ Hp). eexists. split; [done|]. split; [|split; [apply lookup_insert_eq|done]].
  eapply kept_upd; try done. rewrite (blank_cbs c _ (heap_ok _ _ _ I Hp) Hb). split; cbn; rewrite ?Hf, ?Hpi; try done.
Qed.

Lemma pipe_init_ok p s c : Inv s -> f_heap s !! p = Some c -> blank c -> is_pipe_type (type c) = true ->
  exists s', pipe_init p s = Ok s' /\ kept p s s' /\ f_heap s' !! p = Some (set_pipe (HLive false false) c) /\ f_loop s' = f_loop s.
Proof.
  intros I Hp Hb Hy. unfold pipe_init. rewrite (ctx_get _ _ _ Hp). cbn [mbind res_bind]. destruct (Hb) as (Hf & Ht & Hpi).
  rewrite Hpi. cbn [in_loop]. rewrite (upd_get _ _ _ _ Hp). eexists. split; [done|]. split; [|split; [apply lookup_insert_eq|done]].
  eapply kept_upd; try done. rewrite (blank_cbs c _ (heap_ok _ _ _ I Hp) Hb). split; cbn; rewrite ?Hf, ?Ht; try done.
Qed.

(** ** Setting up a point *)

Lemma notin_app (c : Z) (u v : bytes) : ~ (c ∈ u) -> ~ (c ∈ v) -> ~ (c ∈ u ++ v).
Proof. intros. rewrite elem_of_app. tauto. Qed.

Ltac no_percent := apply (bool_decide_unpack _); vm_compute; exact Logic.I.

Lemma DetechForwardType_ok p s c : Inv s -> f_heap s !! p = Some c -> blank c ->
  exists b s' c', DetechForwardType p s = Ok (b, s') /\ kept p s s' /\ f_heap s' !! p = Some c' /\ blank c' /\
    masterSlave c' = masterSlave c /\ checkPoint c' = checkPoint c.
Proof.
  intros I Hp Hb. unfold DetechForwardType. rewrite (ctx_get _ _ _ Hp). cbn [mbind res_bind].
  destruct (localArgs c) as [ft cfg] eqn:Ea.
  assert (Hbecome : forall t cfg', (nopct c -> ~ (37 ∈ cfg')) ->
    exists b s' c', (s' ← upd_ctx p (fun c => set_type t (set_localArgs (ft, cfg') c)) s; Ok (true, s')) = Ok (b, s') /\ kept p s s' /\
      f_heap s' !! p = Some c' /\ blank c' /\ masterSlave c' = masterSlave c /\ checkPoint c' = checkPoint c).
  { intros t cfg' Hn. destruct (upd_blank p (fun c => set_type t (set_localArgs (ft, cfg') c)) s c I Hp Hb) as (s' & -> & K & Hp'); try done.
    - intros Hc. destruct (Hc) as (N1 & N2 & N3). rewrite Ea in N2. split; [done|]. split; [done|]. by apply Hn.
    - cbn [mbind res_bind]. do 3 eexists. split; [reflexivity|]. split; [done|]. split; [exact Hp'|]. done. }
  assert (Hchecked : forall t cfg', (nopct c -> ~ (37 ∈ cfg')) ->
    exists b s' c', (if negb (CheckPathTraversal cfg) then s' ← upd_ctx p (set_lastError INVALID_PATH) s; Ok (false, s')
      else s' ← upd_ctx p (fun c => set_type t (set_localArgs (ft, cfg') c)) s; Ok (true, s')) = Ok (b, s') /\ kept p s s' /\
      f_heap s' !! p = Some c' /\ blank c' /\ masterSlave c' = masterSlave c /\ checkPoint c' = checkPoint c).
  { intros t cfg' Hn. destruct (negb _); [|by apply Hbecome].
    destruct (upd_blank p (set_lastError INVALID_PATH) s c I Hp Hb) as (s' & -> & K & Hp'); try done.
    - intros (N1 & N2 & N3). split; [no_percent|done].
    - cbn [mbind res_bind]. do 3 eexists. split; [reflexivity|]. split; [done|]. split; [exact Hp'|]. done. }
  assert (Hcfg : nopct c -> ~ (37 ∈ cfg)) by (intros (_ & _ & N); by rewrite Ea in N).
  repeat (case_if_goal; [first [apply Hbecome|apply Hchecked]; first [done | intros Hn; apply notin_app; [no_percent|auto]]|]).
  exists false, s, c. split; [done|]. split; [by eapply kept_refl|done].
Qed.

(** Finishing a setup with an error text. *)
Lemma fail_with p s0 s c e : kept p s0 s -> f_heap s !! p = Some c -> ~ (37 ∈ e) ->
  exists b s', (s' ← upd_ctx p (set_lastError e) s; Ok (false, s')) = Ok (b, s') /\ kept p s0 s'.
Proof.
  intros K Hp He. destruct (upd_plain p (set_lastError e) s c (kp_inv _ _ _ K) Hp) as (s' & -> & K' & _); try done.
  - intros (_ & N). by split.
  - cbn [mbind res_bind]. do 2 eexists. split; [done|by eapply kept_trans].
Qed.

Lemma push_connect p s c : Inv s -> f_heap s !! p = Some c -> in_loop (GetForwardStream c) = true -> kept p s (push (CbConnect p) s).
Proof.
  intros I Hp Hl. pose proof (heap_ok _ _ _ I Hp) as [O1 O2 O3 O4 O5 O6].
  assert (K : kept p s (set_loop (f_loop s ++ [CbConnect p]) (set_heap (<[p := c]> (f_heap s)) s))).
  { apply (kept_step p s c c [CbConnect p]); try done; [by repeat constructor|]. split; try done.
    - by rewrite td_snoc, O1, Nat.add_0_r.
    - apply Forall_app_2; [done|by repeat constructor]. }
  rewrite insert_id in K by done. by destruct s.
Qed.

Lemma SetupTCPPoint_ok env p s c : Inv s -> f_heap s !! p = Some c -> blank c -> type c = FORWARD_TCP -> nopct c ->
  exists b s', SetupTCPPoint env p s = Ok (b, s') /\ kept p s s'.
Proof.
  intros I Hp Hb Hy Hn. unfold SetupTCPPoint. rewrite (ctx_get _ _ _ Hp). cbn [mbind res_bind].
  destruct (v_tcpInit env); cbn [negb]; [|exists false, s; split; [done|by eapply kept_refl]].
  destruct (tcp_init_ok p s c I Hp Hb) as (s1 & -> & K1 & Hp1 & Hl1); [by rewrite Hy|]. cbn [mbind res_bind].
  destruct (masterSlave c).
  - case_if_goal; [by exists false, s1|]. destruct (v_listen env); cbn [negb].
    + rewrite (upd_get _ _ _ _ Hp1). cbn [mbind res_bind]. do 2 eexists. split; [done|]. eapply kept_trans; [exact K1|].
      eapply kept_upd; [apply K1|exact Hp1|done|done|done|].
      apply (ok_relive (set_tcp (HLive false false) c) _ true false false true false); [eapply heap_ok; [apply K1|done]|done|done].
    + eapply fail_with; [exact K1|exact Hp1|]. destruct Hn as (_ & _ & Hn). apply notin_app; [no_percent|done].
  - destruct (v_conn env); cbn [negb]; [|by exists false, s1]. do 2 eexists. split; [done|].
    destruct (v_connect env); [|done]. eapply kept_trans; [exact K1|]. eapply push_connect; [apply K1|exact Hp1|].
    unfold GetForwardStream. cbn. by rewrite Hy.
Qed.

Lemma SetupDevicePoint_ok env p s c : Inv s -> f_heap s !! p = Some c -> blank c -> type c = FORWARD_DEVICE ->
  exists b s', SetupDevicePoint env p s = Ok (b, s') /\ kept p s s'.
Proof.
  intros I Hp Hb Hy. unfold SetupDevicePoint. rewrite (ctx_get _ _ _ Hp). cbn [mbind res_bind].
  case_if_goal; [eapply fail_with; [by eapply kept_refl|done|no_percent]|].
  case_if_goal; [eapply fail_with; [by eapply kept_refl|done|no_percent]|].
  destruct (upd_blank p (set_fd (v_open env)) s c I Hp Hb) as (s1 & -> & K1 & Hp1); try done. cbn [mbind res_bind].
  assert (H2 : exists flag s2 c2, (if v_open env <? 0 then s2 ← upd_ctx p (set_lastError (str "Open unix-dev failed")) s1; Ok (u8 (-1), s2)
    else Ok (1, s1)) = Ok (flag, s2) /\ kept p s s2 /\ f_heap s2 !! p = Some c2 /\ type c2 = FORWARD_DEVICE /\ blank c2).
  { case_if_goal.
    - destruct (upd_blank p (set_lastError (str "Open unix-dev failed")) s1 _ (kp_inv _ _ _ K1) Hp1) as (s2 & -> & K2 & Hp2); try done.
      + intros (_ & N). split; [no_percent|done].
      + cbn [mbind res_bind]. do 3 eexists. split; [done|]. split; [by eapply kept_trans|]. split; [exact Hp2|]. done.
    - do 3 eexists. split; [done|]. split; [done|]. split; [exact Hp1|]. done. }
  destruct H2 as (flag & s2 & c2 & -> & K2 & Hp2 & Hy2 & Hb2). cbn [mbind res_bind].
  destruct (v_fdClass env); cbn [negb]; [|by exists false, s2].
  destruct (upd_blank p (set_fdClass true) s2 c2 (kp_inv _ _ _ K2) Hp2 Hb2) as (s3 & -> & K3 & Hp3); try done. cbn [mbind res_bind].
  destruct (SetupPointContinue_ok env p flag s3 _ (kp_inv _ _ _ K3) Hp3) as (b & s4 & -> & K4); [done|]. cbn [mbind res_bind].
  do 2 eexists. split; [done|]. eapply kept_trans; [exact K2|]. by eapply kept_trans.
Qed.

Lemma SetupFilePoint_ok env p s c : Inv s -> f_heap s !! p = Some c -> blank c -> is_pipe_type (type c) = true ->
  exists b s', SetupFilePoint env p s = Ok (b, s') /\ kept p s s'.
Proof.
  intros I Hp Hb Hy. unfold SetupFilePoint. destruct (pipe_init_ok p s c I Hp Hb Hy) as (s1 & -> & K1 & Hp1 & Hl1).
  cbn [mbind res_bind]. rewrite (ctx_get _ _ _ Hp1). cbn [mbind res_bind masterSlave type set_pipe].
  destruct (masterSlave c).
  - case_if_goal; [eapply fail_with; [exact K1|done|no_percent]|]. case_if_goal; [eapply fail_with; [exact K1|done|no_percent]|].
    rewrite (upd_get _ _ _ _ Hp1). cbn [mbind res_bind]. do 2 eexists. split; [done|]. eapply kept_trans; [exact K1|].
    eapply kept_upd; [apply K1|exact Hp1|done|done|done|].
    apply (ok_relive (set_pipe (HLive false false) c) _ false false false true false); [eapply heap_ok; [apply K1|done]|done|done].
  - case_bool_decide as Ey.
    + destruct (SetupPointContinue_ok env p (if v_abstract env then 0 else -1) s1 _ (kp_inv _ _ _ K1) Hp1) as (b & s2 & -> & K2);
        [cbn; by rewrite Ey|]. cbn [mbind res_bind]. pose proof (kept_trans _ _ _ _ K1 K2) as K.
      destruct (v_abstract env); [by exists true, s2|]. destruct (kept_get _ _ _ K) as [c2 Hp2].
      eapply fail_with; [exact K|exact Hp2|no_percent].
    + case_if_goal; [by exists false, s1|]. do 2 eexists. split; [done|]. eapply kept_trans; [exact K1|].
      eapply push_connect; [apply K1|exact Hp1|]. unfold GetForwardStream. cbn. by destruct (type c).
Qed.

Lemma SetupPoint_ok env p s c : Inv s -> f_heap s !! p = Some c -> blank c -> nopct c ->
  exists b s', @SetupPoint host_points env p s = Ok (b, s') /\ kept p s s'.
Proof.
  intros I Hp Hb Hn. unfold SetupPoint.
  destruct (DetechForwardType_ok p s c I Hp Hb) as (b & s1 & c1 & -> & K1 & Hp1 & Hb1 & _). cbn [mbind res_bind].
  destruct b; cbn [negb]; [|by exists false, s1]. rewrite (ctx_get _ _ _ Hp1). cbn [mbind res_bind].
  assert (Hn1 : nopct c1) by (destruct K1 as [_ (x & y & Hx & Hy & _ & Hxy & _) _ _]; simplify_eq; auto).
  assert (Hk : forall r : res (bool * HdcForward), (exists b s', r = Ok (b, s') /\ kept p s1 s') -> exists b s', r = Ok (b, s') /\ kept p s s').
  { intros r (b & s' & -> & K'). exists b, s'. split; [done|by eapply kept_trans]. }
  destruct (type c1) eqn:Ey.
  - apply Hk. eapply SetupTCPPoint_ok; try done. apply K1.
  - apply Hk. eapply SetupDevicePoint_ok; try done. apply K1.
  - by exists false, s1.
  - eapply fail_with; [exact K1|exact Hp1|no_percent].
  - apply Hk. eapply SetupFilePoint_ok; try done; [apply K1|by rewrite Ey].
  - apply Hk. eapply SetupFilePoint_ok; try done; [apply K1|by rewrite Ey].
  - apply Hk. eapply SetupFilePoint_ok; try done; [apply K1|by rewrite Ey].
Qed.

(** ** Commands *)

Lemma words_chars (P : Z -> Prop) q cur l : Forall P l -> (forall w, cur = Some w -> Forall P w) -> Forall (Forall P) (words q cur l).
Proof.
  intros Hl. revert q cur. induction Hl as [|a l Ha Hl IH]; intros q cur Hc; cbn [words].
  - destruct cur as [w|]; [|constructor]. constructor; [by apply Hc|constructor].
  - assert (Hd : Forall P (default [] cur)) by (destruct cur; [by apply Hc|constructor]).
    destruct q; [|destruct (a =? 34)].
    + destruct (a =? 34); apply IH; [done|]. intros w [= <-]. by apply Forall_app_2; [|constructor].
    + apply IH. by intros w [= <-].
    + destruct (is_blank a).
      * destruct cur as [w|]; [constructor; [by apply Hc|]|]; apply IH; done.
      * apply IH. intros w [= <-]. by apply Forall_app_2; [|constructor].
Qed.

Lemma cstr_chars (P : Z -> Prop) l : Forall P l -> Forall P (cstr l).
Proof. induction 1 as [|x l Hx _ IH]; cbn; [constructor|]. destruct x; try (by constructor). Qed.

Lemma notin_Forall (c : Z) (l : bytes) : ~ (c ∈ l) <-> Forall (fun x => x <> c) l.
Proof.
  rewrite Forall_forall. split.
  - intros Hn x Hx ->. done.
  - intros Hf Hc. by apply (Hf c).
Qed.

Lemma notin_zdrop (c n : Z) (l : bytes) : ~ (c ∈ l) -> ~ (c ∈ zdrop n l).
Proof. rewrite !notin_Forall. unfold zdrop. intros. by apply Forall_drop. Qed.
Lemma notin_ztake (c n : Z) (l : bytes) : ~ (c ∈ l) -> ~ (c ∈ ztake n l).
Proof. rewrite !notin_Forall. unfold ztake. intros. by apply Forall_take. Qed.

Lemma CheckNodeInfo_chars n as_ b as' : CheckNodeInfo n as_ = (b, as') -> ~ (37 ∈ n) -> ~ (37 ∈ as_.1) -> ~ (37 ∈ as_.2) ->
  ~ (37 ∈ as'.1) /\ ~ (37 ∈ as'.2).
Proof.
  unfold CheckNodeInfo. intros E Hn H1 H2. destruct (_ <? 1); [by injection E as _ <-|]. destruct (find [58] n 0) as [k|]; [|by injection E as _ <-].
  destruct (_ || _); [by injection E as _ <-|].
  assert (Hs : ~ (37 ∈ substr n 0 k) /\ ~ (37 ∈ zdrop (k + 1) n)).
  { split; [unfold substr; by apply notin_ztake, notin_zdrop|by apply notin_zdrop]. }
  destruct (bytes_eqb _ _); [destruct (_ <? _)|]; by injection E as _ <-.
Qed.

Lemma format_only_plain e : ~ (37 ∈ e) -> format_only e = Ok e.
Proof.
  induction e as [|c e IH]; [done|]. intros [Hc He]%not_elem_of_cons. cbn [format_only].
  rewrite IH by done. destruct c as [|c|c]; try done. repeat (destruct c as [c|c|]; try done).
Qed.

Lemma BeginArgs_ok env p s c args : Inv s -> f_heap s !! p = Some c -> blank c -> nopct c -> Forall (fun w => ~ (37 ∈ w)) args ->
  exists ret a1 s', @BeginArgs host_points env p args s = Ok (ret, a1, s') /\ kept p s s'.
Proof.
  intros I Hp Hb Hn Hargs. pose proof (kept_refl _ _ _ I Hp) as K0. unfold BeginArgs.
  destruct args as [|a0 [|a1 args]]; [by do 3 eexists..|]. case_if_goal; [by do 3 eexists|].
  rewrite (ctx_get _ _ _ Hp). cbn [mbind res_bind]. apply List.Forall_cons_iff in Hargs as [H0 _].
  destruct (CheckNodeInfo a0 (localArgs c)) as [ok loc] eqn:Ec.
  pose proof (CheckNodeInfo_chars _ _ _ _ Ec H0 (proj1 (proj2 Hn)) (proj2 (proj2 Hn))) as Hloc.
  destruct (upd_blank p (set_localArgs loc) s c I Hp Hb) as (s1 & -> & K1 & Hp1); try done; [intros (? & _); by split|].
  cbn [mbind res_bind]. destruct ok; cbn [negb]; [|by do 3 eexists].
  destruct (CheckNodeInfo a1 (remoteArgs c)) as [ok rem].
  destruct (upd_blank p (fun c => set_remote rem (remoteParamenters c) c) s1 _ (kp_inv _ _ _ K1) Hp1) as (s2 & -> & K2 & Hp2); try done.
  cbn [mbind res_bind]. pose proof (kept_trans _ _ _ _ K1 K2) as K12. destruct ok; cbn [negb]; [|by do 3 eexists].
  destruct (upd_blank p (set_remote rem a1) s2 _ (kp_inv _ _ _ K2) Hp2) as (s3 & -> & K3 & Hp3); try done. cbn [mbind res_bind].
  pose proof (kept_trans _ _ _ _ K12 K3) as K13.
  destruct (SetupPoint_ok env p s3 _ (kp_inv _ _ _ K3) Hp3) as (ret & s4 & -> & K4); try done; [split; [apply Hn|done]|].
  cbn [mbind res_bind]. do 3 eexists. split; [done|by eapply kept_trans].
Qed.

Lemma kept_nopct p s s' c c' : kept p s s' -> f_heap s !! p = Some c -> nopct c -> f_heap s' !! p = Some c' -> nopct c'.
Proof. intros [_ (x & y & Hx & Hy & _ & Hxy & _) _ _] Hc Hn Hc'. simplify_eq. auto. Qed.

Lemma BeginForward_ok env command s : Inv s -> env_ok env s -> ~ (37 ∈ command) ->
  exists b e s', @BeginForward host_points env command s = Ok (b, e, s') /\ evolves (id_fresh (v_random env) s) s s' /\ ~ (37 ∈ e).
Proof.
  intros I E Hpc. unfold BeginForward. destruct (MallocContext_ok env true s I E) as (s1 & -> & V1 & Hh & _). cbn [mbind res_bind]. pose proof (proj1 V1) as I1.
  set (p := v_new env) in *. set (c := new_ctx _ true) in *.
  assert (Hp : f_heap s1 !! p = Some c) by (rewrite Hh; apply lookup_insert_eq). assert (Hb : blank c) by done.
  assert (Hn : nopct c) by (split_and!; apply not_elem_of_nil).
  pose proof (SplitCommandToArgs_words command) as Hw. destruct (zlen (cstr command) <? 1).
  { rewrite Hw. cbn [mbind res_bind]. do 3 eexists. split; [done|]. split; [done|apply not_elem_of_nil]. }
  destruct Hw as (r & -> & Hr). cbn [mbind res_bind]. rewrite Hr.
  assert (Hchars : Forall (fun w => ~ (37 ∈ w)) (words false None (cstr command))).
  { eapply Forall_impl; [apply (words_chars (fun x => x <> 37)); [by apply cstr_chars, notin_Forall|done]|]. intros w. apply notin_Forall. }
  destruct (BeginArgs_ok env p s1 c _ I1 Hp Hb Hn Hchars) as (ret & arg1 & s2 & -> & K). cbn [mbind res_bind].
  destruct (kept_get _ _ _ K) as [c2 Hp2]. rewrite (ctx_get _ _ _ Hp2). cbn [mbind res_bind].
  destruct (kept_nopct _ _ _ _ _ K Hp Hn Hp2) as [He _]. destruct (_ && _).
  - destruct (SendToTask _ _ _ _ _) as [b s3] eqn:Es. apply SendToTask_core in Es. do 3 eexists. split; [done|].
    split; [|done]. apply (core_evolves _ s s3); [done|]. eapply core_evolves; [exact Es|]. by eapply evolves_kept.
  - do 3 eexists. split; [done|]. split; [by eapply evolves_kept|done].
Qed.

(** The id of a context changes together with its entry. *)
Lemma InvC_rename h m n fd0 l p c cid old : InvC h m n fd0 l -> h !! p = Some c -> id c = old ->
  forall c', id c' = cid -> ctx_ok c' (cbs_of p l) -> InvC (<[p := c']> h) (om_set cid p (om_erase old m)) n fd0 l.
Proof.
  intros [I1 I2 I3 I4 I5 I6] Hp Hold c' Hid Hok. split; try done.
  - intros q x. destruct (decide (q = p)) as [->|Hne]; [rewrite lookup_insert_eq; by intros [= <-]|].
    rewrite lookup_insert_ne by done. apply I1.
  - intros q. destruct (decide (q = p)) as [->|Hne]; [by rewrite lookup_insert_eq|]. rewrite lookup_insert_ne by done. apply I2.
  - intros k q. destruct (decide (k = cid)) as [->|Hne].
    + rewrite om_find_set_eq. intros [= <-]. exists c'. by rewrite lookup_insert_eq.
    + rewrite om_find_set_ne by done. destruct (decide (k = old)) as [->|Hne2]; [by rewrite om_find_erase_eq|].
      rewrite om_find_erase_ne by done. intros Hq. destruct (I3 _ _ Hq) as (x & Hx & Hi). exists x.
      rewrite lookup_insert_ne; [done|]. intros <-. congruence.
  - by apply om_sorted_set, om_sorted_erase.
  - by rewrite map_size_insert_Some by eauto.
Qed.

(** The part of [SlaveConnect] that sets the point up. *)
Lemma slave_setup_ok env p s c : Inv s -> f_heap s !! p = Some c -> blank c -> nopct c ->
  exists ret e s', @SlaveSetup host_points env p s = Ok (ret, e, s') /\ kept p s s' /\ ~ (37 ∈ e).
Proof.
  intros I Hp Hb Hn. unfold SlaveSetup. destruct (DetechForwardType_ok p s c I Hp Hb) as (ok & s1 & c1 & -> & K1 & Hp1 & Hb1 & _ & _). cbn [mbind res_bind].
  destruct ok; cbn [negb]; [|do 3 eexists; split; [done|]; split; [done|apply not_elem_of_nil]].
  rewrite (ctx_get _ _ _ Hp1). cbn [mbind res_bind]. pose proof (kept_nopct _ _ _ _ _ K1 Hp Hn Hp1) as Hn1.
  assert (Hsetup : forall r : res (bool * HdcForward), (exists b s', r = Ok (b, s') /\ kept p s1 s') ->
    exists ret e s', ('((ok, s) : bool * HdcForward) ← r; c ← ctx p s; Ok (ok, if ok then [] else lastError c, s)) = Ok (ret, e, s') /\
      kept p s s' /\ ~ (37 ∈ e)).
  { intros r (b & s2 & -> & K2). cbn [mbind res_bind]. destruct (kept_get _ _ _ K2) as [c2 Hp2]. rewrite (ctx_get _ _ _ Hp2).
    cbn [mbind res_bind]. do 3 eexists. split; [done|]. split; [by eapply kept_trans|].
    destruct b; [apply not_elem_of_nil|]. by destruct (kept_nopct _ _ _ _ _ K2 Hp1 Hn1 Hp2). }
  assert (Hcont : (checkPoint c1 = false -> type c1 = FORWARD_DEVICE -> fdClass c1 = true) ->
    exists ret e s', ('((_, s) : bool * HdcForward) ← SetupPointContinue env p 0 s1; Ok (true, [], s)) = Ok (ret, e, s') /\
      kept p s s' /\ ~ (37 ∈ e)).
  { intros Hd. destruct (SetupPointContinue_ok env p 0 s1 c1 (kp_inv _ _ _ K1) Hp1 Hd) as (b & s2 & -> & K2). cbn [mbind res_bind].
    do 3 eexists. split; [done|]. split; [by eapply kept_trans|apply not_elem_of_nil]. }
  case_bool_decide as Ey.
  - destruct (checkPoint c1); [|apply Hcont; by rewrite Ey]. apply Hsetup. exists false, s1. split; [done|].
    eapply kept_refl; [apply K1|exact Hp1].
  - destruct (checkPoint c1) eqn:Ec; cbn [negb]; [by apply Hcont|]. apply Hsetup. eapply SetupPoint_ok; try done. apply K1.
Qed.

Lemma SlaveConnect_ok env buf check s : Inv s -> env_ok env s -> ~ (37 ∈ buf) -> (12 < zlen buf -> 0 ∈ zdrop 12 buf) ->
  exists b e s', @SlaveConnect host_points env buf check s = Ok (b, e, s') /\
    evolves (id_fresh (v_random env) s /\ id_fresh (be_combine (ztake 4 buf)) s) s s' /\ ~ (37 ∈ e).
Proof.
  intros I E Hpc Hnul. unfold SlaveConnect. change (DWORD_SERIALIZE_SIZE + forwardParameterBufSize) with 12.
  destruct (zlen buf <=? 12) eqn:El; [do 3 eexists; split; [done|]; split; [by split|apply not_elem_of_nil]|]. breflect.
  destruct (MallocContext_ok env false s I E) as (s1 & -> & V1 & Hh & Hm). cbn [mbind res_bind]. pose proof (proj1 V1) as I1.
  set (p := v_new env) in *. set (c := new_ctx _ false) in *.
  assert (Hp : f_heap s1 !! p = Some c) by (rewrite Hh; apply lookup_insert_eq).
  unfold FilterCommand. rewrite (proj2 (Z.leb_le DWORD_SERIALIZE_SIZE _)) by (unfold DWORD_SERIALIZE_SIZE; lia). cbn [mbind res_bind].
  set (cid := be_combine _). rewrite (upd_get _ _ _ _ Hp). cbn [mbind res_bind].
  set (c1 := set_id cid (set_checkPoint check c)). unfold AdminContext. change (OP_UPDATE =? OP_ADD) with false.
  change (OP_UPDATE =? OP_REMOVE) with false. change (OP_UPDATE =? OP_QUERY) with false. change (OP_UPDATE =? OP_UPDATE) with true.
  cbn [deref mbind res_bind]. rewrite (ctx_get p _ c1) by (cbn; apply lookup_insert_eq). cbn [mbind res_bind].
  set (s2 := set_map _ _). assert (I2 : Inv s2).
  { unfold Inv, s2. cbn. apply (InvC_rename _ _ _ _ _ p c cid (v_random env) I1 Hp eq_refl); [done|].
    rewrite (blank_cbs c _ (heap_ok _ _ _ I1 Hp) ltac:(done)). by apply blank_ok. }
  assert (Hp2 : f_heap s2 !! p = Some c1) by apply lookup_insert_eq.
  assert (V2 : evolves (id_fresh (v_random env) s /\ id_fresh cid s) s s2).
  { split; [done|]. intros [F1 F2] R. destruct (proj2 V1 F1 R) as [R1 R2]. split; cbn -[om_erase om_set om_find].
    - intros q x [[<- <-]|[Hne Hq]]%lookup_insert_Some Hfx; [apply om_find_set_eq|].
      assert (Hne1 : id x <> cid) by (rewrite Hh in Hq; apply lookup_insert_Some in Hq as [[? _]|[_ Hq]]; [done|by eapply F2]).
      rewrite om_find_set_ne by done. rewrite om_find_erase_ne; [by apply R1|]. intros Ei. apply Hne. symmetry. by eapply R2.
    - intros q r x y [[<- <-]|[Hne Hq]]%lookup_insert_Some [[<- <-]|[Hne2 Hr]]%lookup_insert_Some He; try done.
      + exfalso. rewrite Hh in Hr. apply lookup_insert_Some in Hr as [[? _]|[_ Hr]]; [done|]. by apply (F2 _ _ Hr).
      + exfalso. rewrite Hh in Hq. apply lookup_insert_Some in Hq as [[? _]|[_ Hq]]; [done|]. by apply (F2 _ _ Hq).
      + by eapply R2. }
  unfold read_cstr, forwardParameterBufSize. rewrite zdrop_zdrop by lia. change (4 + 8) with 12.
  rewrite bool_decide_true by (apply Hnul; lia). cbn [mbind res_bind]. rewrite (ctx_get _ _ _ Hp2). cbn [mbind res_bind].
  assert (Hcont : ~ (37 ∈ cstr (zdrop 12 buf))) by (apply notin_Forall, cstr_chars, notin_Forall, notin_zdrop, Hpc).
  destruct (CheckNodeInfo _ _) as [ok loc] eqn:Ec.
  pose proof (CheckNodeInfo_chars _ _ _ _ Ec Hcont (not_elem_of_nil _) (not_elem_of_nil _)) as Hloc.
  destruct (upd_blank p (set_localArgs loc) s2 c1 I2 Hp2) as (s3 & -> & K3 & Hp3); try done; [intros (? & _); by split|].
  cbn [mbind res_bind].
  assert (Hn3 : nopct (set_localArgs loc c1)) by (split; [apply not_elem_of_nil|done]).
  assert (Hfin : forall (ret : bool) (e : bytes) s4, kept p s3 s4 -> ~ (37 ∈ e) -> exists b e' s',
    (if ret then Ok (true, e, s4) else s ← FreeContext env (Some p) 0 true s4; Ok (false, e, s)) = Ok (b, e', s') /\
    evolves (id_fresh (v_random env) s /\ id_fresh cid s) s s' /\ ~ (37 ∈ e')).
  { intros ret e s4 K4' He. pose proof (kept_trans _ _ _ _ K3 K4') as K4. clear K4'.
    destruct ret; [do 3 eexists; split; [done|]; split; [by eapply evolves_kept|done]|].
    destruct (kept_get _ _ _ K4) as [c4 Hp4]. destruct (FreeContext_ok env p 0 true s4 c4 (kp_inv _ _ _ K4) Hp4) as (s5 & -> & K5 & _).
    cbn [mbind res_bind]. do 3 eexists. split; [done|]. split; [|done]. eapply evolves_kept; [exact V2|]. by eapply kept_trans. }
  destruct ok; cbn [negb].
  - destruct (slave_setup_ok env p s3 _ (kp_inv _ _ _ K3) Hp3 ltac:(done) Hn3) as (ret & e & s4 & Es & K4 & He).
    rewrite Es. cbn [mbind res_bind]. by apply Hfin.
  - cbn [mbind res_bind]. apply (Hfin false); [eapply kept_refl; [apply K3|exact Hp3]|apply not_elem_of_nil].
Qed.

Lemma push_write p s c : Inv s -> f_heap s !! p = Some c -> in_loop (GetForwardStream c) = true ->
  forall w, kept p s (push (CbWrite p) (set_written w s)).
Proof.
  intros I Hp Hl w. pose proof (heap_ok _ _ _ I Hp) as [O1 O2 O3 O4 O5 O6].
  assert (K : kept p s (set_loop (f_loop s ++ [CbWrite p]) (set_heap (<[p := c]> (f_heap s)) s))).
  { apply (kept_step p s c c [CbWrite p]); try done; [by repeat constructor|]. split; try done.
    - by rewrite td_snoc, O1, Nat.add_0_r.
    - apply Forall_app_2; [done|by repeat constructor]. }
  rewrite insert_id in K by done. eapply kept_core; [|exact K]. by destruct s.
Qed.

Lemma SendForwardBuf_ok env p buf s c : Inv s -> f_heap s !! p = Some c -> (type c = FORWARD_DEVICE -> fdClass c = true) ->
  exists n s', SendForwardBuf env p buf s = Ok (n, s') /\ kept p s s'.
Proof.
  intros I Hp Hd. pose proof (kept_refl _ _ _ I Hp) as K0. unfold SendForwardBuf. rewrite (ctx_get _ _ _ Hp). cbn [mbind res_bind].
  do 3 (case_if_goal; [by do 2 eexists|]). case_bool_decide as Ey.
  - rewrite Hd by done. do 2 eexists. split; [done|]. eapply kept_core; [|exact K0]. by split_and!.
  - destruct (writable (GetForwardStream c) && v_write env) eqn:Ew; [|by do 2 eexists]. breflect.
    do 2 eexists. split; [done|]. eapply push_write; [done|exact Hp|]. by destruct (GetForwardStream c).
Qed.

(** Packets the handlers are prepared for: complete headers, a terminated text,
    no percent signs in texts, no data for a device that has no descriptor. *)
Definition packet_sane (s : HdcForward) (command : Z) (payload : bytes) : Prop :=
  (command = CMD_FORWARD_INIT \/ command = CMD_FORWARD_CHECK \/ command = CMD_FORWARD_ACTIVE_SLAVE -> ~ (37 ∈ payload)) /\
  (command = CMD_FORWARD_CHECK \/ command = CMD_FORWARD_ACTIVE_SLAVE -> 12 < zlen payload -> 0 ∈ zdrop 12 payload) /\
  (command = CMD_FORWARD_FREE_CONTEXT \/ command = CMD_FORWARD_ACTIVE_MASTER -> 4 <= zlen payload) /\
  (command = CMD_FORWARD_DATA \/ command = CMD_FORWARD_ACTIVE_MASTER -> forall p c,
     om_find (be_combine (ztake 4 payload)) (mapCtxPoint s) = Some p -> f_heap s !! p = Some c -> type c = FORWARD_DEVICE ->
     fdClass c = true).

Lemma ForwardCommandDispatch_ok env command payload s : Inv s -> packet_sane s command payload ->
  exists b s', ForwardCommandDispatch env command payload s = Ok (b, s') /\ evolves True s s'.
Proof.
  intros I (_ & _ & Hlen & Hdev). unfold ForwardCommandDispatch.
  assert (V0 : evolves True s s) by by split.
  destruct (_ && _ && _) eqn:Eh; [by do 2 eexists|].
  assert (H4 : 4 <= zlen payload).
  { unfold DWORD_SERIALIZE_SIZE in Eh. destruct (zlen payload <=? 4) eqn:E; [|breflect; lia]. cbn [andb] in Eh.
    apply Hlen. destruct (command =? CMD_FORWARD_FREE_CONTEXT) eqn:E1; [left; by breflect|].
    destruct (command =? CMD_FORWARD_ACTIVE_MASTER) eqn:E2; [right; by breflect|done]. }
  unfold FilterCommand. rewrite (proj2 (Z.leb_le DWORD_SERIALIZE_SIZE _)) by (unfold DWORD_SERIALIZE_SIZE; lia). cbn [mbind res_bind].
  set (cid := be_combine _) in *. change (AdminContext OP_QUERY cid None s) with (Ok (A := option addr * HdcForward) (om_find cid (mapCtxPoint s), s)).
  cbn [mbind res_bind]. destruct (om_find cid (mapCtxPoint s)) as [p|] eqn:Ef; [|by do 2 eexists].
  destruct (iv_map _ _ _ _ _ I _ _ Ef) as (c & Hp & Hid).
  assert (Hr : exists b s', (if command =? CMD_FORWARD_CHECK_RESULT then CommandForwardCheckResult p (zdrop 4 payload) s
           else if command =? CMD_FORWARD_ACTIVE_MASTER then DoForwardBegin env p s
           else if command =? CMD_FORWARD_DATA then
             c ← ctx p s;
             if finish c then Ok (true, s)
             else
               '((n, s) : Z * HdcForward) ← SendForwardBuf env p (zdrop 4 payload) s;
               if n <? 0 then s ← FreeContext env (Some p) 0 true s; Ok (true, s) else Ok (true, s)
           else if command =? CMD_FORWARD_FREE_CONTEXT then s ← FreeContext env (Some p) 0 false s; Ok (true, s)
           else Ok (false, s)) = Ok (b, s') /\ kept p s s').
  { pose proof (kept_refl _ _ _ I Hp) as K0.
    destruct (command =? CMD_FORWARD_CHECK_RESULT) eqn:E1.
    { unfold CommandForwardCheckResult. set (s1 := LogMsg _ _ _). assert (K1 : kept p s s1) by (eapply kept_core; [|exact K0]; by split_and!).
      destruct (upd_plain p (set_ready true) s1 c (kp_inv _ _ _ K1) Hp) as (s2 & -> & K2 & _); try done. cbn [mbind res_bind].
      do 2 eexists. split; [done|]. eapply kept_core; [|eapply kept_trans; [exact K1|exact K2]]. by split_and!. }
    destruct (command =? CMD_FORWARD_ACTIVE_MASTER) eqn:E2.
    { eapply DoForwardBegin_ok; [done|exact Hp|]. intros Hy. eapply Hdev; [right; by breflect|done|done|done]. }
    destruct (command =? CMD_FORWARD_DATA) eqn:E3.
    { rewrite (ctx_get _ _ _ Hp). cbn [mbind res_bind]. destruct (finish c); [by do 2 eexists|].
      destruct (SendForwardBuf_ok env p (zdrop 4 payload) s c I Hp) as (n & s1 & -> & K1).
      - intros Hy. eapply Hdev; [left; by breflect|done|done|done].
      - cbn [mbind res_bind]. destruct (n <? 0); [|by do 2 eexists]. destruct (kept_get _ _ _ K1) as [c1 Hp1].
        destruct (free_then env p 0 true s s1 c1 true K1 Hp1) as (s2 & E4 & K2). rewrite E4. eauto. }
    destruct (command =? CMD_FORWARD_FREE_CONTEXT); [|by do 2 eexists].
    destruct (free_then env p 0 false s s c true K0 Hp) as (s2 & E4 & K2). rewrite E4. eauto. }
  destruct Hr as (b & s1 & -> & K1). cbn [mbind res_bind]. destruct b; [by do 2 eexists; split; [done|eapply kept_evolves]|].
  destruct (kept_get _ _ _ K1) as [c1 Hp1]. destruct (free_then env p 0 true s s1 c1 false K1 Hp1) as (s2 & E4 & K2).
  rewrite E4. do 2 eexists. split; [done|by eapply kept_evolves].
Qed.

(** The ids of new contexts are new. *)
Definition packet_fresh (env : FEnv) (s : HdcForward) (command : Z) (payload : bytes) : Prop :=
  (command = CMD_FORWARD_INIT \/ command = CMD_FORWARD_CHECK \/ command = CMD_FORWARD_ACTIVE_SLAVE -> id_fresh (v_random env) s) /\
  (command = CMD_FORWARD_CHECK \/ command = CMD_FORWARD_ACTIVE_SLAVE -> id_fresh (be_combine (ztake 4 payload)) s).

Lemma CommandDispatch_ok env command payload s : Inv s -> env_ok env s -> packet_sane s command payload ->
  exists b s', @CommandDispatch host_points env command payload s = Ok (b, s') /\ evolves (packet_fresh env s command payload) s s'.
Proof.
  intros I E P. unfold CommandDispatch. destruct (P) as (Hpc & Hnul & _).
  assert (Hr : exists b e s', (if command =? CMD_FORWARD_INIT then @BeginForward host_points env payload s
     else if command =? CMD_FORWARD_CHECK then @SlaveConnect host_points env payload true s
     else if command =? CMD_FORWARD_ACTIVE_SLAVE then @SlaveConnect host_points env payload false s
     else '((ret, s) : bool * HdcForward) ← ForwardCommandDispatch env command payload s; Ok (ret, [], s)) = Ok (b, e, s') /\
     evolves (packet_fresh env s command payload) s s' /\ ~ (37 ∈ e)).
  { destruct (command =? CMD_FORWARD_INIT) eqn:E1.
    { breflect. destruct (BeginForward_ok env payload s I E) as (b & e & s' & Hs & V & He); [auto|].
      exists b, e, s'. split; [done|]. split; [|done]. eapply evolves_weaken; [|exact V]. intros [F _]. auto. }
    assert (Hslave : forall ck, command = CMD_FORWARD_CHECK \/ command = CMD_FORWARD_ACTIVE_SLAVE ->
      exists b e s', @SlaveConnect host_points env payload ck s = Ok (b, e, s') /\
        evolves (packet_fresh env s command payload) s s' /\ ~ (37 ∈ e)).
    { intros ck Hc. destruct (SlaveConnect_ok env payload ck s I E) as (b & e & s' & Hs & V & He); [apply Hpc; tauto|auto|].
      exists b, e, s'. split; [done|]. split; [|done]. eapply evolves_weaken; [|exact V]. intros [F1 F2]. split; [apply F1|apply F2]; tauto. }
    destruct (command =? CMD_FORWARD_CHECK) eqn:E2; [breflect; auto|].
    destruct (command =? CMD_FORWARD_ACTIVE_SLAVE) eqn:E3; [breflect; auto|].
    destruct (ForwardCommandDispatch_ok env command payload s I P) as (b & s1 & -> & I1). cbn [mbind res_bind].
    do 3 eexists. split; [done|]. split; [eapply evolves_weaken; [|exact I1]; done|apply not_elem_of_nil]. }
  destruct Hr as (b & e & s1 & -> & I1 & He). cbn [mbind res_bind]. destruct b; [by do 2 eexists|].
  destruct (bytes_eqb e []); [|rewrite format_only_plain by done; cbn [mbind res_bind]]; do 2 eexists; (split; [done|]);
    (eapply core_evolves; [|exact I1]; by split_and!).
Qed.

(** ** Accepting, reading, stopping *)

Lemma kept_core_after p s s' c cid command buf env : kept p s s' -> f_heap s' !! p = Some c ->
  forall P, evolves P s (SendToTask env cid command buf s').2.
Proof.
  intros K _ P. destruct (SendToTask env cid command buf s') as [b s1] eqn:E. apply SendToTask_core in E.
  eapply core_evolves; [exact E|by eapply kept_evolves].
Qed.

(** [OnAccept] once the client's context is in order. *)
Lemma accept_rest env q s c text : Inv s -> f_heap s !! q = Some c ->
  exists s', (if negb (snprintf_fits (BUF_SIZE_DEFAULT - forwardParameterBufSize) text) then FreeContext env (Some q) 0 false s
     else c ← ctx q s; Ok (SendToTask env (id c) CMD_FORWARD_ACTIVE_SLAVE (replicate 8 0 ++ text ++ [0]) s).2) = Ok s' /\ forall P, evolves P s s'.
Proof.
  intros I Hq. case_if_goal.
  - destruct (FreeContext_ok env q 0 false s c I Hq) as (s' & -> & K & _). exists s'. split; [done|]. intros P. by eapply kept_evolves.
  - rewrite (ctx_get _ _ _ Hq). cbn [mbind res_bind]. eexists. split; [done|]. intros P.
    eapply kept_core_after; [by eapply kept_refl|exact Hq].
Qed.

Lemma ListenCallback_ok env p st s c r : Inv s -> env_ok env s -> f_heap s !! p = Some c -> GetForwardStream c = HLive true r ->
  (type c = FORWARD_TCP \/ v_accept env = true) ->
  exists s', ListenCallback env p st s = Ok s' /\ evolves (id_fresh (v_random env) s) s s'.
Proof.
  intros I E Hp Hl Hacc. unfold ListenCallback. rewrite (ctx_get _ _ _ Hp). cbn [mbind res_bind]. case_if_goal.
  { destruct (FreeContext_ok env p 0 false s c I Hp) as (s1 & -> & K & _). cbn [mbind res_bind]. eexists. split; [done|].
    unfold TaskFinish, SendToAnother. destruct (v_send env _); (eapply core_evolves; [|by eapply kept_evolves]); by split_and!. }
  destruct (MallocContext_ok env true s I E) as (s1 & -> & V1 & Hh & _). cbn [mbind res_bind]. pose proof (proj1 V1) as I1.
  set (q := v_new env) in *. set (c0 := new_ctx _ true) in *.
  assert (Hpq : p <> q) by (intros ->; destruct E as [E _]; unfold q in Hp; congruence).
  assert (Hq : f_heap s1 !! q = Some c0) by (rewrite Hh; apply lookup_insert_eq).
  assert (Hp1 : f_heap s1 !! p = Some c) by (rewrite Hh, lookup_insert_ne by done; done).
  pose proof (heap_ok _ _ _ I Hp) as O. case_bool_decide as Ey.
  - destruct (tcp_init_ok q s1 c0 I1 Hq) as (s2 & -> & K2 & Hq2 & _); [done|done|]. cbn [mbind res_bind]. unfold OnAccept.
    assert (Hp2 : f_heap s2 !! p = Some c) by (by rewrite (kp_other _ _ _ K2)). rewrite (ctx_get _ _ _ Hp2). cbn [mbind res_bind].
    destruct (v_accept env); cbn [negb].
    + rewrite (upd_get _ _ _ _ Hq2). cbn [mbind res_bind]. set (c3 := set_type _ _).
      assert (K3 : kept q s2 (set_heap (<[q := c3]> (f_heap s2)) s2)).
      { eapply kept_upd; [apply K2|exact Hq2|done|done|done|]. eapply ctx_ok_same; [..|eapply heap_ok; [apply K2|exact Hq2]]; done. }
      destruct (accept_rest env q (set_heap (<[q := c3]> (f_heap s2)) s2) c3 (cstr (remoteParamenters c)) (kp_inv _ _ _ K3)) as (s4 & E4 & V4); [cbn; apply lookup_insert_eq|].
      rewrite E4. exists s4. split; [done|]. eapply evolves_trans; [|apply V4]. eapply evolves_kept; [|exact K3]. by eapply evolves_kept.
    + destruct (FreeContext_ok env q 0 false s2 _ (kp_inv _ _ _ K2) Hq2) as (s3 & -> & K3 & _). exists s3. split; [done|].
      eapply evolves_kept; [|exact K3]. by eapply evolves_kept.
  - destruct Hacc as [?|Ha]; [done|]. unfold pipe_init. rewrite (ctx_get _ _ _ Hq). cbn [mbind res_bind in_loop pipe c0 new_ctx].
    rewrite (upd_get _ _ _ _ Hq). cbn [mbind res_bind]. unfold OnAccept.
    rewrite (ctx_get p _ c) by (cbn; by rewrite lookup_insert_ne). cbn [mbind res_bind]. rewrite Ha. cbn [negb].
    rewrite (upd_get q _ _ (set_pipe (HLive false false) c0)) by (cbn; apply lookup_insert_eq). cbn [mbind res_bind].
    set (c3 := set_type _ _). cbn [f_heap set_heap]. rewrite insert_insert_eq.
    assert (Hpipe : is_pipe_type (type c) = true).
    { unfold GetForwardStream in Hl. destruct (is_tcp_type (type c)); [|by apply (ok_pipe _ _ O); rewrite Hl].
      by apply (ok_listen _ _ O) in Hl. }
    assert (K3 : kept q s1 (set_heap (<[q := c3]> (f_heap s1)) s1)).
    { eapply kept_upd; [done|exact Hq|done|done|done|]. rewrite (blank_cbs c0 _ (heap_ok _ _ _ I1 Hq) ltac:(done)). split; cbn; done. }
    destruct (accept_rest env q (set_heap (<[q := c3]> (f_heap s1)) s1) c3 (cstr (remoteParamenters c)) (kp_inv _ _ _ K3))
      as (s4 & E4 & V4); [cbn; apply lookup_insert_eq|].
    exists s4. split; [exact E4|]. eapply evolves_trans; [|apply V4]. by eapply evolves_kept.
Qed.

Lemma free_all_ok env l s : Inv s -> Forall (fun p => is_Some (f_heap s !! p)) l ->
  exists s', free_all env l s = Ok s' /\ Inv s' /\ mapCtxPoint s' = mapCtxPoint s /\ dom (f_heap s') = dom (f_heap s) /\
    (forall p c, f_heap s' !! p = Some c -> p ∈ l \/ f_heap s !! p = Some c) /\
    (forall p c, f_heap s' !! p = Some c -> p ∈ l -> finish c = true).
Proof.
  revert s. induction l as [|p l IH]; intros s I Hl; cbn [free_all].
  { exists s. split; [done|]. split; [done|]. split; [done|]. split; [done|]. split; [by right|].
    intros q c _ Hq. by apply not_elem_of_nil in Hq. }
  apply List.Forall_cons_iff in Hl as [[c Hp] Hl].
  destruct (FreeContext_ok env p 0 false s c I Hp) as (s1 & -> & K & (c1 & Hp1 & Hf1)). cbn [mbind res_bind].
  destruct (IH s1) as (s2 & -> & I2 & M2 & D2 & O2 & F2); [apply K| |].
  { eapply Forall_impl; [exact Hl|]. intros q [x Hx]. destruct (decide (q = p)) as [->|Hne]; [by eexists|].
    rewrite (kp_other _ _ _ K) by done. by eexists. }
  exists s2. split; [done|]. split; [done|]. split; [by rewrite M2, (kp_map _ _ _ K)|]. split.
  { rewrite D2. apply set_eq. intros q. rewrite !elem_of_dom. destruct (decide (q = p)) as [->|Hne]; [by rewrite Hp, Hp1|].
    by rewrite (kp_other _ _ _ K). }
  split.
  - intros q x Hx. destruct (O2 _ _ Hx) as [?|Hq]; [left; by right|]. destruct (decide (q = p)) as [->|Hne]; [left; left|].
    right. by rewrite (kp_other _ _ _ K) in Hq.
  - intros q x Hx Hin. destruct (decide (q ∈ l)) as [Hq|Hq]; [by eapply F2|].
    destruct (O2 _ _ Hx) as [?|Hq1]; [done|]. apply elem_of_cons in Hin as [->|?]; [|done]. congruence.
Qed.

Lemma map_values s p : Inv s -> p ∈ map snd (mapCtxPoint s) <-> exists k, om_find k (mapCtxPoint s) = Some p.
Proof.
  intros I. rewrite list_elem_of_In, in_map_iff. split.
  - intros ([k q] & <- & Hin). exists k. apply om_find_sorted; [apply (iv_sorted _ _ _ _ _ I)|done].
  - intros [k Hk]. exists (k, p). split; [done|by apply om_find_In].
Qed.

Lemma StopTask_ok env s : Inv s ->
  exists s', StopTask env s = Ok s' /\ Inv s' /\ mapCtxPoint s' = [] /\
    (forall p c, f_heap s' !! p = Some c -> finish c = true \/ f_heap s !! p = Some c /\ ~ exists k, om_find k (mapCtxPoint s) = Some p).
Proof.
  intros I. unfold StopTask. set (s1 := set_map [] (set_fds0 (-1) s)).
  assert (I1 : Inv s1).
  { destruct I as [I1 I2 I3 I4 I5 I6]. split; try done. constructor. }
  destruct (free_all_ok env (map snd (mapCtxPoint s)) s1 I1) as (s2 & -> & I2 & M2 & _ & O2 & F2).
  { apply Forall_forall. intros p Hp. apply map_values in Hp as [k Hk]; [|done]. destruct (iv_map _ _ _ _ _ I _ _ Hk) as (c & Hc & _).
    by exists c. }
  exists s2. split; [done|]. split; [done|]. split; [done|]. intros p c Hp.
  destruct (decide (p ∈ map snd (mapCtxPoint s))) as [Hin|Hin]; [left; by eapply F2|]. right.
  destruct (O2 _ _ Hp) as [?|Hq]; [done|]. split; [done|]. by rewrite <- map_values.
Qed.
