(* ===== verification/ForwardSystem.v ===== *)
(** * ForwardSystem: a forwarding task among its events

    Every event of a host's task keeps the invariant of [ForwardProps]; draining
    the loop after [StopTask] leaves nothing behind; bytes read at one end of a
    connection are written at the other; what goes wrong outside the hypotheses. *)

From Stdlib Require Import String ZArith Lia List Bool.
From stdpp Require Import base list numbers option gmap.
From S2P Require Import Prelude Defs OrdMap Session Args Strings Numbers Forward ForwardProps.

(** ** Every event of a host's task *)

(** Accepting on a pipe succeeds (a failure there frees the new context as if
    its handle were a TCP one); packets are sane. *)
Definition event_sane (env : FEnv) (e : FEvent) (s : HdcForward) : Prop :=
  match e with
  | EvAccept p _ => (exists c, f_heap s !! p = Some c /\ type c = FORWARD_TCP) \/ v_accept env = true
  | EvPacket command payload => packet_sane s command payload
  | _ => True
  end.
Definition event_fresh (env : FEnv) (e : FEvent) (s : HdcForward) : Prop :=
  match e with
  | EvAccept _ _ => id_fresh (v_random env) s
  | EvPacket command payload => packet_fresh env s command payload
  | _ => True
  end.

Lemma free_all_ids env l s s' : Inv s -> Forall (fun p => is_Some (f_heap s !! p)) l -> free_all env l s = Ok s' ->
  forall p c, f_heap s' !! p = Some c -> exists c0, f_heap s !! p = Some c0 /\ id c0 = id c.
Proof.
  revert s. induction l as [|q l IH]; intros s I Hl; cbn [free_all]; [intros [= <-]; eauto|].
  apply List.Forall_cons_iff in Hl as [[c Hq] Hl].
  destruct (FreeContext_ok env q 0 false s c I Hq) as (s1 & -> & K & _). cbn [mbind res_bind]. intros Hs p c' Hp.
  destruct (IH s1) with (p := p) (c := c') as (c1 & Hp1 & <-); [apply K| |done|done|].
  { eapply Forall_impl; [exact Hl|]. intros r [x Hx]. destruct (kept_get _ _ _ K) as [d Hd].
    destruct (decide (r = q)) as [->|Hne]; [by eexists|]. rewrite (kp_other _ _ _ K) by done. by eexists. }
  destruct (decide (p = q)) as [->|Hne]; [|by rewrite (kp_other _ _ _ K) in Hp1 by done; eauto].
  destruct (kp_ctx _ _ _ K) as (a & b & Ha & Hb & Hid & _). simplify_eq. eauto.
Qed.

(** After [StopTask] every context is finished. *)
Definition Stopped (s : HdcForward) : Prop := forall p c, f_heap s !! p = Some c -> finish c = true.

Lemma Stopped_Reg s : Stopped s -> (forall p q c d, f_heap s !! p = Some c -> f_heap s !! q = Some d -> id c = id d -> p = q) -> Reg s.
Proof. intros Hs Hd. split; [|done]. intros p c Hp Hf. by rewrite (Hs _ _ Hp) in Hf. Qed.

Lemma StopTask_stops env s : Inv s -> exists s', StopTask env s = Ok s' /\ Inv s' /\ (Reg s -> Stopped s' /\ Reg s').
Proof.
  intros I. destruct (StopTask_ok env s I) as (s' & Es & I' & _ & Hs). exists s'. split; [done|]. split; [done|]. intros [R1 R2].
  assert (S' : Stopped s').
  { intros p c Hp. destruct (Hs _ _ Hp) as [?|[Hq Hn]]; [done|]. destruct (finish c) eqn:Hf; [done|]. exfalso. eauto. }
  split; [done|]. apply Stopped_Reg; [done|]. unfold StopTask in Es.
  assert (I1 : Inv (set_map [] (set_fds0 (-1) s))) by (destruct I as [J1 J2 J3 J4 J5 J6]; split; try done; constructor).
  assert (Hl : Forall (fun p => is_Some (f_heap (set_map [] (set_fds0 (-1) s)) !! p)) (map snd (mapCtxPoint s))).
  { apply Forall_forall. intros p Hp. apply map_values in Hp as [k Hk]; [|done]. destruct (iv_map _ _ _ _ _ I _ _ Hk) as (c & Hc & _).
    by exists c. }
  intros p q c d Hp Hq He. destruct (free_all_ids _ _ _ _ I1 Hl Es _ _ Hp) as (c0 & Hc0 & E1).
  destruct (free_all_ids _ _ _ _ I1 Hl Es _ _ Hq) as (d0 & Hd0 & E2). eapply R2; [exact Hc0|exact Hd0|congruence].
Qed.

Lemma send_evolves P env cid command buf s : Inv s -> evolves P s (SendToTask env cid command buf s).2.
Proof.
  intros I. destruct (SendToTask env cid command buf s) as [b s1] eqn:E. apply SendToTask_core in E.
  eapply core_evolves; [exact E|by split].
Qed.

Lemma handle_event_ok env e s : Inv s -> env_ok env s -> may_happen e s = true -> event_sane env e s ->
  exists s', @handle_event host_points env e s = Ok s' /\ evolves (event_fresh env e s) s s'.
Proof.
  intros I E M S. destruct e as [cb st|p st|p d|p d|p|command payload|]; cbn [handle_event event_fresh].
  - by apply run_cb_ok.
  - cbn [may_happen event_sane] in *. destruct (f_heap s !! p) as [c|] eqn:Hp; [|done].
    destruct (GetForwardStream c) as [|[] r| |] eqn:Eg; try done. eapply ListenCallback_ok; try done.
    destruct S as [(c' & Hc & Hy)|?]; [left|by right]. congruence.
  - cbn [may_happen] in M. destruct (f_heap s !! p) as [c|] eqn:Hp; [|done]. destruct d as [z|[|x d]]; cbn [ReadForwardBuf].
    + destruct (FreeContext_ok env p 0 true s c I Hp) as (s1 & -> & K & _). exists s1. split; [done|by eapply kept_evolves].
    + by exists s.
    + rewrite (ctx_get _ _ _ Hp). cbn [mbind res_bind]. eexists. split; [done|by apply send_evolves].
  - cbn [may_happen] in M. destruct (f_heap s !! p) as [c|] eqn:Hp; [|done]. rewrite (ctx_get _ _ _ Hp). cbn [mbind res_bind].
    eexists. split; [done|by apply send_evolves].
  - cbn [may_happen] in M. destruct (f_heap s !! p) as [c|] eqn:Hp; [|done].
    destruct (FreeContext_ok env p 0 true s c I Hp) as (s1 & -> & K & _). exists s1. split; [done|by eapply kept_evolves].
  - destruct (CommandDispatch_ok env command payload s I E S) as (b & s1 & -> & V). cbn [mbind res_bind]. by exists s1.
  - destruct (StopTask_stops env s I) as (s1 & -> & I1 & R1). exists s1. split; [done|]. split; [done|]. intros _ R. by apply R1.
Qed.

(** The states of a host's task.  [fresh]: ids that are drawn are new. *)
Inductive Reachable (fresh : bool) : HdcForward -> Prop :=
  | R_start server : Reachable fresh (start server)
  | R_step env e s s' : Reachable fresh s -> env_ok env s -> may_happen e s = true -> event_sane env e s ->
      (fresh = true -> event_fresh env e s) -> @handle_event host_points env e s = Ok s' -> Reachable fresh s'.

Lemma start_Inv server : Inv (start server).
Proof.
  split; cbn; try done. constructor.
Qed.

Lemma reachable_Inv fresh s : Reachable fresh s -> Inv s /\ (fresh = true -> Reg s).
Proof.
  induction 1 as [server|env e s s' _ [I R] E M S F Hs].
  - split; [apply start_Inv|]. intros _. split; intros *; cbn; by rewrite lookup_empty.
  - destruct (handle_event_ok env e s I E M S) as (s1 & Hs1 & I1 & R1). rewrite Hs1 in Hs. injection Hs as <-. split; [done|]. intros Hf. auto.
Qed.

(** ** Draining the loop of a stopped task *)

(** How many callbacks a pending callback can still lead to: the idle callback
    of a device runs at most 100 times before it gives up waiting. *)
Definition wt (h : gmap addr ContextForward) (cb : FCb) : nat :=
  match cb with
  | CbDelete _ | CbConnect _ | CbWrite _ | CbIdleSetup _ => 1
  | CbClose _ _ | CbIdleClosed _ => 2
  | CbIdleFree p => 3 + match h !! p with Some c => Z.to_nat (100 - releaseRetryCount c) | None => 0 end
  end%nat.
Definition weight (h : gmap addr ContextForward) (l : list FCb) : nat := sum_list_with (wt h) l.

Lemma weight_remove h cb l : cb ∈ l -> weight h l = (wt h cb + weight h (remove_one cb l))%nat.
Proof.
  unfold weight. induction l as [|x l IH]; intros Hin; [by apply not_elem_of_nil in Hin|]. cbn [remove_one].
  case_decide as E; [by subst|]. apply elem_of_cons in Hin as [->|Hin]; [done|]. cbn. specialize (IH Hin). lia.
Qed.

(** Contexts are only removed, and wait longer. *)
Definition waits (h h' : gmap addr ContextForward) : Prop := forall p c', h' !! p = Some c' ->
  exists c, h !! p = Some c /\ releaseRetryCount c <= releaseRetryCount c' /\ finish c' = finish c.

Lemma waits_weight h h' l : waits h h' -> (weight h' l <= weight h l)%nat.
Proof.
  intros W. unfold weight. induction l as [|cb l IH]; [done|]. cbn. apply Nat.add_le_mono; [|done].
  destruct cb as [| | | |p| |]; try done. cbn. destruct (h' !! p) as [c'|] eqn:E; [|lia].
  destruct (W _ _ E) as (c & -> & Hr & _). lia.
Qed.

Lemma waits_refl h : waits h h.
Proof. intros p c Hp. exists c. split; [done|]. split; [lia|done]. Qed.

Lemma waits_insert h p c c' : h !! p = Some c -> releaseRetryCount c <= releaseRetryCount c' -> finish c' = finish c ->
  waits h (<[p := c']> h).
Proof. intros Hp Hr Hf q x [[<- <-]|[_ Hq]]%lookup_insert_Some; [eauto|by apply waits_refl]. Qed.

Lemma waits_delete h p : waits h (delete p h).
Proof. intros q x [_ Hq]%lookup_delete_Some. by apply waits_refl. Qed.

Lemma drains h h' cb l k : cb ∈ l -> waits h h' -> (weight h' k < wt h cb)%nat -> (weight h' (remove_one cb l ++ k) < weight h l)%nat.
Proof.
  intros Hin W Hk. rewrite (weight_remove h cb l Hin). pose proof (waits_weight h h' (remove_one cb l) W).
  unfold weight in *. rewrite sum_list_with_app. lia.
Qed.

Lemma td_exists cbs : td cbs = 1%nat -> exists x, x ∈ cbs /\ is_td x = true.
Proof.
  unfold td. induction cbs as [|x l IH]; [done|]. cbn [List.filter]. destruct (is_td x) eqn:E; [exists x; by split; [left|]|].
  intros Hl. destruct (IH Hl) as (y & Hy & Hty). exists y. split; [by right|done].
Qed.

(** A request of a finished context is on a handle that is being closed. *)
Lemma finished_closing c cbs cb : ctx_ok c cbs -> finish c = true -> cb ∈ cbs -> in_loop (GetForwardStream c) = true ->
  GetForwardStream c = HClosing.
Proof.
  intros [O1 O2 O3 O4 O5 O6] Hf _ Hs. rewrite Hf in O1. destruct (td_exists _ O1) as (x & Hx & Ht).
  rewrite Forall_forall in O6. specialize (O6 _ Hx). unfold GetForwardStream in *.
  destruct x as [q []|q|q|q|q|q|q]; try done; cbn in O6.
  - by rewrite O3 by by rewrite O6.
  - destruct (is_tcp_type (type c)) eqn:Ey; [|done]. exfalso. eapply types_exclude; [exact Ey|]. apply O4. by rewrite O6.
  - destruct O6 as [H1 H2]. destruct (is_tcp_type _); congruence.
  - destruct O6 as [H1 H2]. destruct (is_tcp_type _); congruence.
  - destruct O6 as [H1 H2]. destruct (is_tcp_type _); congruence.
Qed.

Lemma begin_closing env p s c : Inv s -> f_heap s !! p = Some c -> GetForwardStream c = HClosing ->
  DoForwardBegin env p s = Ok (false, s).
Proof.
  intros I Hp Hs. pose proof (heap_ok _ _ _ I Hp) as O. unfold GetForwardStream in Hs. unfold DoForwardBegin.
  rewrite (ctx_get _ _ _ Hp). cbn [mbind res_bind]. destruct (type c) eqn:Ey; cbn in Hs;
    unfold BeginForwardTcp, BeginForwardPipe, BeginForwardArk; rewrite ?(ctx_get _ _ _ Hp); cbn [mbind res_bind]; rewrite ?Hs; try done.
  - pose proof (ok_pipe _ _ O) as H. rewrite Hs, Ey in H. by specialize (H eq_refl).
  - by rewrite (proj2 (Z.leb_le _ _) (iv_fds _ _ _ _ _ I)).
Qed.

Lemma FreeContext_finished env p i b s c : f_heap s !! p = Some c -> finish c = true -> FreeContext env (Some p) i b s = Ok s.
Proof. intros Hp Hf. unfold FreeContext. cbn [mbind res_bind]. rewrite (ctx_get _ _ _ Hp). cbn [mbind res_bind]. by rewrite Hf. Qed.

Lemma connect_finished env p st s c : Inv s -> f_heap s !! p = Some c -> finish c = true -> GetForwardStream c = HClosing ->
  exists s', ConnectTarget env p st s = Ok s' /\ same_core s s'.
Proof.
  intros I Hp Hf Hs. unfold ConnectTarget, SetupPointContinue. rewrite (ctx_get _ _ _ Hp). cbn [mbind res_bind].
  assert (Hsend : forall cid cmd buf b s1, SendToTask env cid cmd buf s = (b, s1) -> same_core s s1 /\ f_heap s1 !! p = Some c).
  { intros * E. apply SendToTask_core in E. split; [done|]. by destruct E as (-> & _). }
  destruct (checkPoint c).
  - destruct (SendToTask _ _ _ _ _) as [b s1] eqn:E. apply Hsend in E as [K1 Hp1].
    destruct b; cbn [negb]; rewrite (FreeContext_finished _ _ _ _ _ _ Hp1 Hf); cbn [mbind res_bind]; eauto.
  - destruct (st <? 0); [rewrite (FreeContext_finished _ _ _ _ _ _ Hp Hf); cbn [mbind res_bind]; exists s; by split_and!|].
    destruct (SendToTask _ _ _ _ _) as [b s1] eqn:E. apply Hsend in E as [K1 Hp1]. destruct b; cbn [negb].
    + rewrite (begin_closing env p s1 c (same_core_inv _ _ K1 I) Hp1 Hs). cbn [mbind res_bind]. eauto.
    + rewrite (FreeContext_finished _ _ _ _ _ _ Hp1 Hf); cbn [mbind res_bind]; eauto.
Qed.

Definition total_weight (s : HdcForward) : nat := weight (f_heap s) (f_loop s).
Definition drained_from (s s' : HdcForward) : Prop := Stopped s' /\ (total_weight s' < total_weight s)%nat.

Lemma drained cb k s s' : Stopped s -> cb ∈ f_loop s -> waits (f_heap s) (f_heap s') -> f_loop s' = remove_one cb (f_loop s) ++ k ->
  (weight (f_heap s') k < wt (f_heap s) cb)%nat -> drained_from s s'.
Proof.
  intros S Hin W El Hk. split.
  - intros p c' Hp. destruct (W _ _ Hp) as (c & Hc & _ & ->). by eapply S.
  - unfold total_weight. rewrite El. by apply drains.
Qed.

Lemma drain_idle env p s c s' : Stopped s -> CbIdleFree p ∈ f_loop s -> f_heap s !! p = Some c ->
  IdleFree env p (without (CbIdleFree p) s) = Ok s' -> drained_from s s'.
Proof.
  intros S Hin Hp. unfold IdleFree. rewrite (ctx_get p _ c) by done. cbn [mbind res_bind]. destruct (fdClass c).
  - destruct (v_ready env || _) eqn:E; rewrite (upd_get p _ _ c) by done; cbn [mbind res_bind]; intros [= <-].
    + apply (drained (CbIdleFree p) [CbIdleClosed p]); try done; [eapply waits_insert; [exact Hp|cbn; lia|done]|].
      cbn. rewrite Hp. lia.
    + apply orb_false_iff in E as [_ E]. breflect. apply (drained (CbIdleFree p) [CbIdleFree p]); try done.
      * eapply waits_insert; [exact Hp|cbn; lia|done].
      * cbn. rewrite Hp, lookup_insert_eq. cbn. lia.
  - intros [= <-]. apply (drained (CbIdleFree p) [CbIdleClosed p]); try done; [apply waits_refl|]. cbn. rewrite Hp. lia.
Qed.

Lemma drain_step env cb st s s' : Inv s -> Stopped s -> may_happen (EvCb cb st) s = true ->
  run_cb env cb st (without cb s) = Ok s' -> drained_from s s'.
Proof.
  intros I S Hmay. assert (Hin : cb ∈ f_loop s) by (cbn [may_happen] in Hmay; by breflect).
  destruct (cb_has_ctx s _ I Hin) as (c & Hp & Hc & O). pose proof (ok_cb _ _ O) as F. rewrite Forall_forall in F. specialize (F _ Hc).
  destruct cb as [p b|p|p|p|p|p|p]; cbn [cb_ctx run_cb] in *; [| | | |by eapply drain_idle| |done].
  - rewrite (upd_get p _ _ c) by done. cbn [mbind res_bind]. intros [= <-]. apply (drained (CbClose p b) [CbDelete p]); try done; [|cbn; lia].
    cbn. eapply waits_insert; [exact Hp|destruct b; cbn; lia|by destruct b].
  - unfold DeleteContext. rewrite (ctx_get p _ c) by done. cbn [mbind res_bind].
    change (AdminContext OP_REMOVE (id c) None (without (CbDelete p) s)) with
      (Ok (A := option addr * HdcForward) (None, set_map (om_erase (id c) (mapCtxPoint s)) (without (CbDelete p) s))).
    cbn [mbind res_bind]. destruct (_ || _); [done|]. intros [= <-].
    apply (drained (CbDelete p) []); try done; [| |cbn; lia].
    + destruct (0 <? _); apply waits_delete.
    + rewrite app_nil_r. by destruct (0 <? _).
  - destruct (connect_finished env p st (without (CbConnect p) s) c) as (s1 & -> & (E1 & _ & _ & _ & E5)); try done.
    + by apply without_request.
    + by eapply S.
    + eapply finished_closing; [exact O|by eapply S|exact Hc|done].
    + intros [= <-]. apply (drained (CbConnect p) []); [done|done|rewrite E1; apply waits_refl|by rewrite E5, app_nil_r|cbn; lia].
  - unfold SendCallbackForwardBuf. rewrite (ctx_get p _ c) by done. cbn [mbind res_bind]. rewrite (S _ _ Hp). rewrite andb_false_r. intros [= <-].
    apply (drained (CbWrite p) []); [done|done|apply waits_refl|by rewrite app_nil_r|cbn; lia].
  - rewrite (ctx_get p _ c) by done. cbn [mbind res_bind]. intros [= <-].
    apply (drained (CbIdleClosed p) [CbDelete p]); try done; [apply waits_refl|cbn; lia].
Qed.

(** While a context is left, some callback can run. *)
Lemma drain_progress s : Inv s -> Stopped s -> f_heap s = ∅ \/ exists cb, may_happen (EvCb cb 0) s = true.
Proof.
  intros I S. destruct (decide (f_heap s = ∅)) as [?|Hne]; [by left|right]. apply map_choose in Hne as (p & c & Hp).
  pose proof (heap_ok _ _ _ I Hp) as [O1 _ _ _ _ _]. rewrite (S _ _ Hp) in O1. destruct (td_exists _ O1) as (x & Hx & Ht).
  apply list_elem_of_filter in Hx as [_ Hx].
  assert (Hgo : forall cb, cb ∈ f_loop s -> (forall q b, cb <> CbClose q b) -> may_happen (EvCb cb 0) s = true).
  { intros cb Hin Hcl. cbn [may_happen]. rewrite bool_decide_true by done. destruct cb; try done. by edestruct Hcl. }
  destruct x as [q b|q|q|q|q|q|q]; [|by eexists; apply Hgo..].
  destruct (decide (CbConnect q ∈ f_loop s)) as [Hc|Hc]; [exists (CbConnect q); by apply Hgo|].
  destruct (decide (CbWrite q ∈ f_loop s)) as [Hw|Hw]; [exists (CbWrite q); by apply Hgo|].
  exists (CbClose q b). cbn [may_happen]. by rewrite bool_decide_true, !bool_decide_false.
Qed.

(** One callback of the loop runs, whichever libuv chooses. *)
Definition cb_step (s s' : HdcForward) : Prop :=
  exists env cb st, may_happen (EvCb cb st) s = true /\ @handle_event host_points env (EvCb cb st) s = Ok s'.

Definition released (s : HdcForward) : Prop := f_heap s = ∅ /\ f_loop s = [] /\ ReadyForRelease s = true.

Lemma empty_released s : Inv s -> f_heap s = ∅ -> released s.
Proof.
  intros I Hh. destruct I as [I1 I2 I3 I4 [I5 _] I6]. split; [done|]. split.
  - destruct (f_loop s) as [|cb l] eqn:El; [done|]. exfalso. specialize (I2 (cb_ctx cb)). rewrite Hh, lookup_empty in I2.
    specialize (I2 eq_refl). unfold cbs_of in I2. rewrite filter_cons_True in I2 by done. done.
  - unfold ReadyForRelease. rewrite I5, Hh. by rewrite map_size_empty.
Qed.

(** ** Relaying *)

(** A context that takes data. *)
Definition takes_data (c : ContextForward) : bool :=
  negb (finish c) && (if bool_decide (type c = FORWARD_DEVICE) then fdClass c else writable (GetForwardStream c)).

(** The context [p] of the task [hs] is joined to the context [q] of its peer. *)
Definition joined (hs ds : HdcForward) (p q : addr) : Prop :=
  exists c c', f_heap hs !! p = Some c /\ in_u 32 (id c) /\ om_find (id c) (mapCtxPoint ds) = Some q /\
    f_heap ds !! q = Some c' /\ takes_data c' = true.

(** A sequence of reads, each on some context; a sequence of packets. *)
Fixpoint read_all (env : FEnv) (l : list (addr * bytes)) (s : HdcForward) : res HdcForward :=
  match l with [] => Ok s | (p, d) :: l => s ← ReadForwardBuf env p (inr d) s; read_all env l s end.
Fixpoint deliver `{ForwardPoints} (env : FEnv) (l : list (Z * bytes)) (s : HdcForward) : res HdcForward :=
  match l with [] => Ok s | (command, payload) :: l => s ← handle_event env (EvPacket command payload) s; deliver env l s end.

(** A chunk the reader can have read. *)
Definition chunk (d : bytes) : Prop := 0 < zlen d <= MAX_SIZE_IOBUF_STABLE * BUF_MULTIPLE.

Lemma read_chunk env p d s c : chunk d -> v_send env CMD_FORWARD_DATA = true -> f_heap s !! p = Some c ->
  ReadForwardBuf env p (inr d) s = Ok (set_sent (f_sent s ++ [(CMD_FORWARD_DATA, be_split 4 (id c) ++ d)]) s).
Proof.
  intros [Hd Hm] Hv Hp. destruct d as [|x d]; [done|]. cbn [ReadForwardBuf]. rewrite (ctx_get _ _ _ Hp). cbn [mbind res_bind].
  unfold SendToTask, SendToAnother. rewrite (proj2 (Z.ltb_ge _ _)) by done. by rewrite Hv.
Qed.

Lemma deliver_chunk `{ForwardPoints} env q d k s c : chunk d -> v_alloc env = true -> v_write env = true -> in_u 32 k ->
  om_find k (mapCtxPoint s) = Some q -> f_heap s !! q = Some c -> takes_data c = true ->
  exists s', handle_event env (EvPacket CMD_FORWARD_DATA (be_split 4 k ++ d)) s = Ok s' /\
    f_heap s' = f_heap s /\ mapCtxPoint s' = mapCtxPoint s /\ f_written s' = f_written s ++ [(q, d)].
Proof.
  intros [Hd Hm] Ha Hw Hk Hq Hc Ht. unfold takes_data in Ht. apply andb_true_iff in Ht as [Hf Ht]. apply negb_true_iff in Hf.
  assert (L : zlen (be_split 4 k ++ d) = 4 + zlen d) by (rewrite length_app, length_be_split; lia).
  cbn [handle_event]. unfold CommandDispatch. change (CMD_FORWARD_DATA =? CMD_FORWARD_INIT) with false.
  change (CMD_FORWARD_DATA =? CMD_FORWARD_CHECK) with false. change (CMD_FORWARD_DATA =? CMD_FORWARD_ACTIVE_SLAVE) with false.
  cbn [mbind res_bind]. unfold ForwardCommandDispatch, DWORD_SERIALIZE_SIZE, FilterCommand. rewrite L.
  rewrite (proj2 (Z.leb_gt _ _)) by lia. cbn [andb]. rewrite (proj2 (Z.leb_le _ _)) by (unfold DWORD_SERIALIZE_SIZE; lia).
  cbn [mbind res_bind]. rewrite ztake_app, zdrop_app by (rewrite length_be_split; lia).
  rewrite be_combine_split. change (2 ^ (8 * Z.of_nat 4)) with (2 ^ 32). rewrite Z.mod_small by exact Hk.
  change (AdminContext OP_QUERY k None s) with (Ok (A := option addr * HdcForward) (om_find k (mapCtxPoint s), s)).
  cbn [mbind res_bind]. rewrite Hq. change (CMD_FORWARD_DATA =? CMD_FORWARD_CHECK_RESULT) with false.
  change (CMD_FORWARD_DATA =? CMD_FORWARD_ACTIVE_MASTER) with false. change (CMD_FORWARD_DATA =? CMD_FORWARD_DATA) with true.
  cbn [mbind res_bind]. rewrite (ctx_get _ _ _ Hc). cbn [mbind res_bind]. rewrite Hf. unfold SendForwardBuf.
  rewrite (ctx_get _ _ _ Hc). cbn [mbind res_bind].
  rewrite (proj2 (Z.ltb_ge (INT_MAX - 1) _)) by (unfold INT_MAX, MAX_SIZE_IOBUF_STABLE, BUF_MULTIPLE in *; lia).
  rewrite (proj2 (Z.leb_gt (zlen d) 0)) by lia. rewrite Ha. cbn [negb].
  case_bool_decide.
  - rewrite Ht. cbn [mbind res_bind]. rewrite (proj2 (Z.ltb_ge _ 0)) by lia. eexists. split; [done|]. by split_and!.
  - rewrite Ht, Hw. cbn [andb mbind res_bind]. rewrite (proj2 (Z.ltb_ge _ 0)) by lia. eexists. split; [done|]. by split_and!.
Qed.

Lemma relay_all `{ForwardPoints} env env' peer l : v_send env CMD_FORWARD_DATA = true -> v_alloc env' = true -> v_write env' = true ->
  forall hs ds, (forall p d, (p, d) ∈ l -> chunk d /\ joined hs ds p (peer p)) ->
  exists hs' ds' ps, read_all env l hs = Ok hs' /\ f_sent hs' = f_sent hs ++ ps /\ deliver env' ps ds = Ok ds' /\
    f_written ds' = f_written ds ++ map (fun x => (peer x.1, x.2)) l.
Proof.
  intros Hs Ha Hw. induction l as [|[p d] l IH]; intros hs ds Hl; cbn [read_all map].
  { exists hs, ds, []. split; [done|]. split; [by rewrite app_nil_r|]. split; [done|]. by rewrite app_nil_r. }
  destruct (Hl p d) as [Hd (c & c' & Hp & Hid & Hf & Hq & Ht)]; [left|]. rewrite (read_chunk env p d hs c) by done. cbn [mbind res_bind].
  destruct (deliver_chunk env' (peer p) d (id c) ds c' Hd Ha Hw Hid Hf Hq Ht) as (ds1 & E1 & Hh1 & Hm1 & Hw1).
  set (hs1 := set_sent _ hs). destruct (IH hs1 ds1) as (hs2 & ds2 & ps & R2 & S2 & D2 & W2).
  { intros p' d' Hin. destruct (Hl p' d') as [Hd' (x & x' & Hx)]; [by right|]. split; [done|]. exists x, x'. by rewrite Hh1, Hm1. }
  exists hs2, ds2, ((CMD_FORWARD_DATA, be_split 4 (id c) ++ d) :: ps). split; [done|]. split.
  - rewrite S2. cbn. by rewrite <- app_assoc.
  - cbn [deliver]. rewrite E1. cbn [mbind res_bind]. split; [done|]. rewrite W2, Hw1. by rewrite <- app_assoc.
Qed.

(** ** A task at work *)

Module Scenario.
(** A system on which everything succeeds: the next object is [p], the next
    random number [r]. *)
Definition sys (p r : Z) : FEnv :=
  mkFEnv p r (fun _ => true) false [] 0 0 0 0 true true true true (fun x => x) (fun _ => true) 5 true true true true true true
    true true true (fun _ => true) 7 true true.
Definition from {A} (d : A) (r : res A) : A := match r with Ok a => a | _ => d end.
Definition go (env : FEnv) (e : FEvent) (s : HdcForward) : HdcForward := from s (@handle_event host_points env e s).

(** [hdc fport tcp:1000 tcp:2000]; the peer's answer; one client connects; the
    peer is connected. *)
Definition s1 := go (sys 1 100) (EvPacket CMD_FORWARD_INIT (str "tcp:1000 tcp:2000")) (start true).
Definition s2 := go (sys 2 200) (EvPacket CMD_FORWARD_CHECK_RESULT (be_split 4 100 ++ [1])) s1.
Definition s3 := go (sys 2 200) (EvAccept 1 0) s2.
Definition s4 := go (sys 3 300) (EvPacket CMD_FORWARD_ACTIVE_MASTER (be_split 4 200)) s3.

(** The peer: connecting to its port 2000, connected. *)
Definition d1 := go (sys 7 700) (EvPacket CMD_FORWARD_ACTIVE_SLAVE (be_split 4 200 ++ replicate 8 0 ++ str "tcp:2000" ++ [0])) (start false).
Definition d2 := go (sys 8 800) (EvCb (CbConnect 7) 0) d1.
End Scenario.
Import Scenario.

(** Conditions on every context, by evaluation. *)
Lemma fresh_eval k s : bool_decide (map_Forall (fun _ c => id c <> k) (f_heap s)) = true -> id_fresh k s.
Proof. by intros Hall%bool_decide_eq_true. Qed.
Lemma devices_eval s : bool_decide (map_Forall (fun _ c => type c = FORWARD_DEVICE -> fdClass c = true) (f_heap s)) = true ->
  forall p c, f_heap s !! p = Some c -> type c = FORWARD_DEVICE -> fdClass c = true.
Proof. by intros Hall%bool_decide_eq_true. Qed.

Ltac evaluated := vm_compute; first [reflexivity | congruence | done].
Ltac nopercent := match goal with |- ~ (_ ∈ _) => apply (bool_decide_unpack _); evaluated end.
Ltac sane_packet := split_and!; intros Hcommand;
  lazymatch goal with
  | |- forall _ _, _ => intros ? ? _; apply devices_eval; evaluated
  | |- ~ (_ ∈ _) => nopercent
  | |- _ -> _ => by destruct Hcommand as [[=]|[=]]
  | |- _ => evaluated
  end.

Lemma s1_reachable : Reachable true s1.
Proof.
  eapply (R_step true (sys 1 100) (EvPacket CMD_FORWARD_INIT (str "tcp:1000 tcp:2000"))); [apply (R_start true true)|split; evaluated|evaluated|sane_packet| |vm_compute; reflexivity].
  intros _. split; [intros _; apply fresh_eval; evaluated|by intros [[=]|[=]]].
Qed.

Lemma s2_reachable : Reachable true s2.
Proof.
  eapply (R_step true (sys 2 200) (EvPacket CMD_FORWARD_CHECK_RESULT (be_split 4 100 ++ [1]))); [apply s1_reachable|split; evaluated|evaluated|sane_packet| |vm_compute; reflexivity].
  intros _. split; [by intros [[=]|[[=]|[=]]]|by intros [[=]|[=]]].
Qed.

Lemma s3_reachable : Reachable true s3.
Proof.
  eapply (R_step true (sys 2 200) (EvAccept 1 0)); [apply s2_reachable|split; evaluated|evaluated|right; reflexivity| |vm_compute; reflexivity].
  intros _. apply fresh_eval. evaluated.
Qed.

Lemma s4_reachable : Reachable true s4.
Proof.
  eapply (R_step true (sys 3 300) (EvPacket CMD_FORWARD_ACTIVE_MASTER (be_split 4 200))); [apply s3_reachable|split; evaluated|evaluated|sane_packet| |vm_compute; reflexivity].
  intros _. split; [by intros [[=]|[[=]|[=]]]|by intros [[=]|[=]]].
Qed.

(** ** Outside the hypotheses *)

Section Slips.
Definition slave_packet (cid : Z) (node : bytes) : bytes := be_split 4 cid ++ replicate 8 0 ++ node ++ [0].
Definition daemon_go (env : FEnv) (e : FEvent) (s : HdcForward) : res HdcForward := @handle_event daemon_points env e s.

(** The slave finds the type of its node twice, and puts the prefix of a file
    socket in front of the path each time. *)
Theorem socket_prefix_twice : exists s' c,
  daemon_go (sys 7 700) (EvPacket CMD_FORWARD_ACTIVE_SLAVE (slave_packet 200 (str "localfilesystem:sock"))) (start false) = Ok s' /\
  f_heap s' !! 7 = Some c /\ (localArgs c).2 = str "/tmp//tmp/sock".
Proof. do 2 eexists. split; [vm_compute; reflexivity|]. split; vm_compute; reflexivity. Qed.

(** The answer to a check is reported as success whatever it says. *)
Theorem check_result_ignored p payload s c : f_heap s !! p = Some c ->
  exists s', CommandForwardCheckResult p payload s = Ok (true, s') /\
    f_log s' = f_log s ++ [(MSG_OK, str "Forwardport result:OK")] /\ (exists c', f_heap s' !! p = Some c' /\ ready c' = true).
Proof.
  intros Hp. unfold CommandForwardCheckResult. rewrite (upd_get p _ _ c) by done. cbn [mbind res_bind]. eexists. split; [done|].
  split; [done|]. eexists. cbn. by rewrite lookup_insert_eq.
Qed.

(** A device that cannot be opened is set up all the same: the peer is told to
    go ahead. *)
Theorem device_open_failure_ignored : exists s',
  daemon_go (let e := sys 7 700 in mkFEnv (v_new e) (v_random e) (v_send e) (v_host e) (v_listenIp e) (v_ip6 e) (v_bind6 e) (v_ip4 e)
    (v_bind e) (v_tcpInit e) (v_listen e) (v_conn e) (v_connect e) (v_resolve e) (v_isDevice e) (-1) (v_fdClass e) (v_abstract e)
    (v_pipeBind e) (v_pipeListen e) (v_accept e) (v_readStart e) (v_tcpOpen e) (v_alloc e) (v_write e) (v_pidExist e) (v_sockets e)
    (v_ctrl e) (v_ready e)) (EvPacket CMD_FORWARD_ACTIVE_SLAVE (slave_packet 200 (str "dev:/dev/null"))) (start false) = Ok s' /\
  f_sent s' = [(CMD_FORWARD_ACTIVE_MASTER, be_split 4 200)].
Proof. eexists. split; vm_compute; reflexivity. Qed.

(** The daemon's error text for an [ark] node holds what the peer sent, and is
    used as a format. *)
Theorem error_text_as_format :
  daemon_go (sys 7 700) (EvPacket CMD_FORWARD_CHECK (slave_packet 200 (str "ark:%s%n"))) (start false) = Undefined.
Proof. vm_compute. reflexivity. Qed.

(** The idle callback of the daemon's setup keeps a context that the peer can
    have freed meanwhile. *)
Theorem setup_after_free : exists s1 s2 s3 s4,
  daemon_go (sys 7 700) (EvPacket CMD_FORWARD_ACTIVE_SLAVE (slave_packet 200 (str "jdwp:42"))) (start false) = Ok s1 /\
  daemon_go (sys 8 800) (EvPacket CMD_FORWARD_FREE_CONTEXT (be_split 4 200)) s1 = Ok s2 /\
  daemon_go (sys 8 800) (EvCb (CbClose 7 true) 0) s2 = Ok s3 /\ daemon_go (sys 8 800) (EvCb (CbDelete 7) 0) s3 = Ok s4 /\
  may_happen (EvCb (CbIdleSetup 7) 0) s4 = true /\ daemon_go (sys 8 800) (EvCb (CbIdleSetup 7) 0) s4 = Undefined.
Proof. do 4 eexists. do 5 (split; [vm_compute; reflexivity|]). vm_compute. reflexivity. Qed.

(** Payloads shorter than the id they should hold are read past their end. *)
Theorem short_packet_over_read b s : zlen b < 4 -> daemon_go (sys 7 700) (EvPacket CMD_FORWARD_FREE_CONTEXT b) s = Undefined.
Proof.
  intros Hb. unfold daemon_go. cbn [handle_event]. unfold CommandDispatch.
  change (CMD_FORWARD_FREE_CONTEXT =? CMD_FORWARD_INIT) with false. change (CMD_FORWARD_FREE_CONTEXT =? CMD_FORWARD_CHECK) with false.
  change (CMD_FORWARD_FREE_CONTEXT =? CMD_FORWARD_ACTIVE_SLAVE) with false. unfold ForwardCommandDispatch.
  change (CMD_FORWARD_FREE_CONTEXT =? CMD_FORWARD_FREE_CONTEXT) with true. rewrite andb_false_r. cbn [andb]. unfold FilterCommand.
  by rewrite (proj2 (Z.leb_gt _ _)).
Qed.

(** A pipe listener that cannot accept frees the new context as a TCP one: its
    pipe is still in the loop when it is deleted. *)
Theorem pipe_accept_failure : exists s1 s2 s3,
  @handle_event host_points (sys 1 100) (EvPacket CMD_FORWARD_INIT (str "localabstract:a tcp:2000")) (start true) = Ok s1 /\
  @handle_event host_points (sys 2 200) (EvPacket CMD_FORWARD_CHECK_RESULT (be_split 4 100 ++ [1])) s1 = Ok s2 /\
  @handle_event host_points (let e := sys 2 200 in mkFEnv (v_new e) (v_random e) (v_send e) (v_host e) (v_listenIp e) (v_ip6 e)
    (v_bind6 e) (v_ip4 e) (v_bind e) (v_tcpInit e) (v_listen e) (v_conn e) (v_connect e) (v_resolve e) (v_isDevice e) (v_open e)
    (v_fdClass e) (v_abstract e) (v_pipeBind e) (v_pipeListen e) false (v_readStart e) (v_tcpOpen e) (v_alloc e) (v_write e)
    (v_pidExist e) (v_sockets e) (v_ctrl e) (v_ready e)) (EvAccept 1 0) s2 = Ok s3 /\
  may_happen (EvCb (CbDelete 2) 0) s3 = true /\ @handle_event host_points (sys 3 300) (EvCb (CbDelete 2) 0) s3 = Undefined.
Proof. do 3 eexists. do 4 (split; [vm_compute; reflexivity|]). vm_compute. reflexivity. Qed.

(** An id the peer repeats hides the context that had it: [StopTask] does not
    free that one, and the task never becomes ready for release. *)
Theorem repeated_id_leaks : exists s1 s2 s3,
  daemon_go (sys 7 700) (EvPacket CMD_FORWARD_ACTIVE_SLAVE (slave_packet 200 (str "tcp:2000"))) (start false) = Ok s1 /\
  daemon_go (sys 8 800) (EvPacket CMD_FORWARD_ACTIVE_SLAVE (slave_packet 200 (str "tcp:2000"))) s1 = Ok s2 /\
  daemon_go (sys 9 900) EvStop s2 = Ok s3 /\ (exists c, f_heap s3 !! 7 = Some c /\ finish c = false) /\ mapCtxPoint s3 = [].
Proof. do 3 eexists. do 3 (split; [vm_compute; reflexivity|]). split; [eexists; split|]; vm_compute; reflexivity. Qed.
End Slips.

(** ** Claims *)

Section Claims.
Context (env : FEnv).



(** C10. Connections do not mix: whatever a task reads on its connections, in
    any interleaving, its peer writes to the connections joined to them, the
    same bytes in the same order. *)
Theorem forward_relays `{ForwardPoints} env' peer l hs ds :
  v_send env CMD_FORWARD_DATA = true -> v_alloc env' = true -> v_write env' = true ->
  (forall p d, (p, d) ∈ l -> chunk d /\ joined hs ds p (peer p)) ->
  exists hs' ds' ps, read_all env l hs = Ok hs' /\ f_sent hs' = f_sent hs ++ ps /\ deliver env' ps ds = Ok ds' /\
    f_written ds' = f_written ds ++ map (fun x => (peer x.1, x.2)) l.
Proof. intros Hs Ha Hw Hl. by apply relay_all. Qed.
End Claims.



Lemma forward_relays_witness : exists hs' ds' ps, read_all (sys 3 300) [(2, str "GET "); (2, str "/")] s4 = Ok hs' /\
  f_sent hs' = f_sent s4 ++ ps /\ @deliver host_points (sys 8 800) ps d2 = Ok ds' /\
  f_written ds' = f_written d2 ++ [(7, str "GET "); (7, str "/")].
Proof.
  apply (@forward_relays (sys 3 300) host_points (sys 8 800) (fun _ => 7) [(2, str "GET "); (2, str "/")] s4 d2); try reflexivity.
  intros p d Hin. rewrite !elem_of_cons, elem_of_nil in Hin. destruct Hin as [[= -> ->]|[[= -> ->]|[]]];
    (split; [split; vm_compute; congruence|]); (do 2 eexists; split_and!; [vm_compute; reflexivity|split; vm_compute; congruence|..]; vm_compute; reflexivity).
Defined.
