(* ===== verification/Channel.v ===== *)
(** * Channel: the life cycle of channels ([channel.cpp], the attachment of
    channels to sessions in [host/server.cpp] and [host/server_for_client.cpp])

    Channels are objects on a heap; the table, pending callbacks and threads in the
    middle of [Send] hold addresses, so that a use after [delete] is [Undefined],
    and so is a [delete] while an event loop still knows a handle of the channel.
    A channel has handles on two loops: its own on the main loop, the child on the
    loop of the session it is attached to, which runs in another thread.  Each
    callback is one step; [Send] is also split where a thread holds the pointer.
    Built for the host ([HDC_HOST]) without Unix sockets ([HOST_OHOS] not defined).
    Reference counts are unbounded integers. *)

From Stdlib Require Import String ZArith Lia List Bool.
From stdpp Require Import base list numbers option gmap.
From S2P Require Import Prelude Defs OrdMap Session ChannelIo.

(** A libuv handle: [loop] is null, in use, being closed, closed. *)
Inductive UvHandle := UvNone | UvLive | UvClosing | UvClosed.
#[export] Instance UvHandle_eq_dec : EqDecision UvHandle.
Proof. solve_decision. Defined.

Inductive HId := Work | Child | Stdin | Stdout.
#[export] Instance HId_eq_dec : EqDecision HId.
Proof. solve_decision. Defined.

(** Only what the life cycle looks at. *)
Record HdcChannel := mkChannel {
  channelId : Z; hWork : UvHandle; hChild : UvHandle; hStdin : UvHandle; hStdout : UvHandle; uvHandleRef : Z; handshakeOK : bool;
  isDead : bool; serverOrClient : bool; childCleared : bool; ref : Z; targetSessionId : Z; writeFailedTimes : Z; c_ioBuf : bool
}.

Definition get_h (h : HId) (c : HdcChannel) : UvHandle :=
  match h with Work => hWork c | Child => hChild c | Stdin => hStdin c | Stdout => hStdout c end.
Definition set_h (h : HId) (v : UvHandle) (c : HdcChannel) : HdcChannel :=
  mkChannel (channelId c) (match h with Work => v | _ => hWork c end) (match h with Child => v | _ => hChild c end)
    (match h with Stdin => v | _ => hStdin c end) (match h with Stdout => v | _ => hStdout c end) (uvHandleRef c) (handshakeOK c)
    (isDead c) (serverOrClient c) (childCleared c) (ref c) (targetSessionId c) (writeFailedTimes c) (c_ioBuf c).
Definition set_uvHandleRef v c := mkChannel (channelId c) (hWork c) (hChild c) (hStdin c) (hStdout c) v (handshakeOK c)
  (isDead c) (serverOrClient c) (childCleared c) (ref c) (targetSessionId c) (writeFailedTimes c) (c_ioBuf c).
Definition set_handshakeOK v c := mkChannel (channelId c) (hWork c) (hChild c) (hStdin c) (hStdout c) (uvHandleRef c) v
  (isDead c) (serverOrClient c) (childCleared c) (ref c) (targetSessionId c) (writeFailedTimes c) (c_ioBuf c).
Definition set_isDead v c := mkChannel (channelId c) (hWork c) (hChild c) (hStdin c) (hStdout c) (uvHandleRef c) (handshakeOK c)
  v (serverOrClient c) (childCleared c) (ref c) (targetSessionId c) (writeFailedTimes c) (c_ioBuf c).
Definition set_childCleared v c := mkChannel (channelId c) (hWork c) (hChild c) (hStdin c) (hStdout c) (uvHandleRef c) (handshakeOK c)
  (isDead c) (serverOrClient c) v (ref c) (targetSessionId c) (writeFailedTimes c) (c_ioBuf c).
Definition set_ref v c := mkChannel (channelId c) (hWork c) (hChild c) (hStdin c) (hStdout c) (uvHandleRef c) (handshakeOK c)
  (isDead c) (serverOrClient c) (childCleared c) v (targetSessionId c) (writeFailedTimes c) (c_ioBuf c).
Definition set_target v c := mkChannel (channelId c) (hWork c) (hChild c) (hStdin c) (hStdout c) (uvHandleRef c) (handshakeOK c)
  (isDead c) (serverOrClient c) (childCleared c) (ref c) v (writeFailedTimes c) (c_ioBuf c).
Definition set_writeFailed v c := mkChannel (channelId c) (hWork c) (hChild c) (hStdin c) (hStdout c) (uvHandleRef c) (handshakeOK c)
  (isDead c) (serverOrClient c) (childCleared c) (ref c) (targetSessionId c) v (c_ioBuf c).
Definition set_ioBuf v c := mkChannel (channelId c) (hWork c) (hChild c) (hStdin c) (hStdout c) (uvHandleRef c) (handshakeOK c)
  (isDead c) (serverOrClient c) (childCleared c) (ref c) (targetSessionId c) (writeFailedTimes c) v.

Definition uv_is_closing (v : UvHandle) : bool := match v with UvClosing | UvClosed => true | _ => false end.
Definition has_loop (v : UvHandle) : bool := match v with UvNone => false | _ => true end.
(** An event loop still has the handle in its lists. *)
Definition in_loop (v : UvHandle) : bool := match v with UvLive | UvClosing => true | _ => false end.

(** What [uv_close] calls: nothing, [closeChannelHandle], [funcWorkTcpClose], the
    callback of [DetachChannelInnerForTcp], [deleteChannel]. *)
Inductive CloseCb := NoCb | CloseHandle | DecRef | SetCleared | DeleteCh.
#[export] Instance CloseCb_eq_dec : EqDecision CloseCb.
Proof. solve_decision. Defined.

(** Pending callbacks.  [CbOperate] and [CbCheck] are the two repeating timers of
    [FreeChannelOpeate], [CbFinally] the idle handle of [FreeChannelContinue],
    [CbNextBind] and [CbNextCleared] the timers of [DoNextLoop]. *)
Inductive CCb := CbClosed (a : addr) (h : HId) (k : CloseCb) | CbWrote (a : addr) (h : HId) (file : bool) | CbOperate (a : addr)
  | CbCheck (a : addr) | CbFinally (a : addr) | CbNextBind (a : addr) | CbNextCleared (a : addr).
#[export] Instance CCb_eq_dec : EqDecision CCb.
Proof. solve_decision. Defined.

Definition cb_addr (c : CCb) : addr :=
  match c with
  | CbClosed a _ _ | CbWrote a _ _ | CbOperate a | CbCheck a | CbFinally a | CbNextBind a | CbNextCleared a => a
  end.

(** Messages of the main thread to a session's thread. *)
Inductive Ctrl := CtrlAttach (sessionId channelId : Z) | CtrlDetach (sessionId channelId : Z).
#[export] Instance Ctrl_eq_dec : EqDecision Ctrl.
Proof. solve_decision. Defined.
Definition ctrl_session (m : Ctrl) : Z := match m with CtrlAttach s _ | CtrlDetach s _ => s end.
Definition ctrl_channel (m : Ctrl) : Z := match m with CtrlAttach _ c | CtrlDetach _ c => c end.

(** [ch_async]: the ids of [lstMainThreadOP]; [ch_holders]: the channels that
    threads hold between [AdminChannel(OP_QUERY_REF)] and [--hChannel->ref];
    [ch_written]: what was handed to a stream. *)
Record Channels := mkChannels {
  ch_heap : gmap addr HdcChannel; mapChannel : omap addr; ch_loop : list CCb; ch_async : list Z; ch_ctrl : list Ctrl;
  ch_holders : list addr; ch_stopped : bool; queuedPackages : Z; ch_written : list (addr * HId * bytes)
}.

Definition set_heap v s := mkChannels v (mapChannel s) (ch_loop s) (ch_async s) (ch_ctrl s) (ch_holders s) (ch_stopped s)
  (queuedPackages s) (ch_written s).
Definition set_map v s := mkChannels (ch_heap s) v (ch_loop s) (ch_async s) (ch_ctrl s) (ch_holders s) (ch_stopped s)
  (queuedPackages s) (ch_written s).
Definition set_loop v s := mkChannels (ch_heap s) (mapChannel s) v (ch_async s) (ch_ctrl s) (ch_holders s) (ch_stopped s)
  (queuedPackages s) (ch_written s).
Definition set_async v s := mkChannels (ch_heap s) (mapChannel s) (ch_loop s) v (ch_ctrl s) (ch_holders s) (ch_stopped s)
  (queuedPackages s) (ch_written s).
Definition set_ctrl v s := mkChannels (ch_heap s) (mapChannel s) (ch_loop s) (ch_async s) v (ch_holders s) (ch_stopped s)
  (queuedPackages s) (ch_written s).
Definition set_holders v s := mkChannels (ch_heap s) (mapChannel s) (ch_loop s) (ch_async s) (ch_ctrl s) v (ch_stopped s)
  (queuedPackages s) (ch_written s).
Definition set_stopped v s := mkChannels (ch_heap s) (mapChannel s) (ch_loop s) (ch_async s) (ch_ctrl s) (ch_holders s) v
  (queuedPackages s) (ch_written s).
Definition set_queued v s := mkChannels (ch_heap s) (mapChannel s) (ch_loop s) (ch_async s) (ch_ctrl s) (ch_holders s) (ch_stopped s)
  v (ch_written s).
Definition set_written v s := mkChannels (ch_heap s) (mapChannel s) (ch_loop s) (ch_async s) (ch_ctrl s) (ch_holders s) (ch_stopped s)
  (queuedPackages s) v.

Definition push (c : CCb) (s : Channels) : Channels := set_loop (ch_loop s ++ [c]) s.
Definition chan (a : addr) (s : Channels) : res HdcChannel := deref (ch_heap s !! a).
Definition upd (a : addr) (f : HdcChannel -> HdcChannel) (s : Channels) : res Channels :=
  c ← chan a s; Ok (set_heap (<[a := f c]> (ch_heap s)) s).

(** What the system answers during one step. *)
Record CEnv := mkCEnv {
  v_new : addr; v_randoms : list Z; v_tcpInit : bool;
  v_alloc : bool; v_writable : bool; v_write : bool;      (* [new], [uv_is_writable], [SendToStreamEx] *)
  v_timer : bool; v_idle : bool; v_async : bool;          (* [TimerUvTask], [IdleUvTask], [asyncMainLoop] is open *)
  v_ctrl : bool;                                          (* [ChannelSendSessionCtrlMsg] *)
  v_alive : option Z;                                     (* [FindAliveSessionFromDaemonMap] *)
  v_dup : bool; v_open : bool;                            (* [DuplicateUvSocket], [uv_tcp_open] *)
  v_ttyOut : bool; v_ttyIn : bool                         (* [uv_tty_init] of the two terminal handles *)
}.

(** ** The table *)

Definition AdminChannel (op channelId : Z) (hInput : option addr) (s : Channels) : res (option addr * Channels) :=
  if op =? OP_ADD then
    match hInput with Some a => Ok (None, set_map (om_set channelId a (mapChannel s)) s) | None => Undefined end
  else if op =? OP_REMOVE then Ok (None, set_map (om_erase channelId (mapChannel s)) s)
  else if op =? OP_QUERY then Ok (om_find channelId (mapChannel s), s)
  else if op =? OP_QUERY_REF then
    match om_find channelId (mapChannel s) with
    | Some a => s ← upd a (fun c => set_ref (ref c + 1) c) s; Ok (Some a, s)
    | None => Ok (None, s)
    end
  else if op =? OP_UPDATE then
    match hInput with
    | Some a => c ← chan a s; Ok (None, set_map (om_set (Channel.channelId c) a (om_erase channelId (mapChannel s))) s)
    | None => Undefined
    end
  else Ok (None, s).

Definition unref (a : addr) (s : Channels) : res Channels := upd a (fun c => set_ref (ref c - 1) c) s.

(** ** Closing handles *)

(** [delete hChannel]. *)
Definition delete_channel (a : addr) (s : Channels) : res Channels :=
  c ← chan a s;
  if in_loop (hWork c) || in_loop (hChild c) || in_loop (hStdin c) || in_loop (hStdout c) then Undefined
  else Ok (set_heap (delete a (ch_heap s)) s).

Definition run_close (k : CloseCb) (a : addr) (s : Channels) : res Channels :=
  match k with
  | NoCb => Ok s
  | CloseHandle => upd a (fun c => set_uvHandleRef (u8 (uvHandleRef c - 1)) c) s
  | DecRef => unref a s
  | SetCleared => upd a (set_childCleared true) s
  | DeleteCh => delete_channel a s
  end.

Definition TryCloseHandle (a : addr) (h : HId) (alwaysCallback : bool) (k : CloseCb) (s : Channels) : res Channels :=
  c ← chan a s;
  if has_loop (get_h h c) && negb (uv_is_closing (get_h h c)) then
    s ← upd a (set_h h UvClosing) s; Ok (push (CbClosed a h k) s)
  else if alwaysCallback then run_close k a s else Ok s.

(** The end of [uv_close]. *)
Definition closed (a : addr) (h : HId) (k : CloseCb) (s : Channels) : res Channels :=
  s ← upd a (set_h h UvClosed) s; run_close k a s.

(** ** Freeing *)

Definition PushAsyncMessage (env : CEnv) (channelId : Z) (s : Channels) : Channels :=
  if v_async env then set_async (ch_async s ++ [channelId]) s else s.

(** [main]: the calling thread is [threadChanneMain]. *)
Definition FreeChannel (env : CEnv) (main : bool) (channelId : Z) (s : Channels) : res Channels :=
  if negb main then Ok (PushAsyncMessage env channelId s)
  else
    '((h, s) : option addr * Channels) ← AdminChannel OP_QUERY channelId None s;
    match h with
    | None => Ok s
    | Some a =>
        c ← chan a s;
        if isDead c then Ok s
        else if negb (v_timer env) then Ok s
        else upd a (set_isDead true) (push (CbOperate a) s)
    end.

(** [MainAsyncCallback] makes an idle task of each entry, [AsyncMainLoopTask]. *)
Definition AsyncMainLoopTask (env : CEnv) (channelId : Z) (s : Channels) : res Channels := FreeChannel env true channelId s.

Fixpoint clear_each (env : CEnv) (l : list (Z * addr)) (s : Channels) : res Channels :=
  match l with
  | [] => Ok s
  | (_, a) :: l =>
      c ← chan a s;
      s ← (if isDead c then Ok s else FreeChannel env true (channelId c) s);
      clear_each env l s
  end.
Definition ClearChannels (env : CEnv) (s : Channels) : res Channels := clear_each env (mapChannel s) s.

Definition FreeChannelContinue (env : CEnv) (a : addr) (s : Channels) : res Channels :=
  s ← upd a (set_ioBuf false) s;
  c ← chan a s;
  s ← (if serverOrClient c then Ok s
       else s ← TryCloseHandle a Stdin false CloseHandle s; TryCloseHandle a Stdout false CloseHandle s);
  c ← chan a s;
  s ← (if uv_is_closing (hWork c) then upd a (fun c => set_uvHandleRef (u8 (uvHandleRef c - 1)) c) s
       else TryCloseHandle a Work false CloseHandle s);
  Ok (if v_idle env then push (CbFinally a) s else s).

Definition callbackCheckFreeChannelContinue (env : CEnv) (a : addr) (s : Channels) : res Channels :=
  c ← chan a s;
  if negb (childCleared c) then Ok (push (CbCheck a) s) else FreeChannelContinue env a s.

Definition FreeChannelOpeate (env : CEnv) (a : addr) (s : Channels) : res Channels :=
  c ← chan a s;
  if 0 <? ref c then Ok (push (CbOperate a) s)
  else if has_loop (hChild c) then
    s ← (if v_ctrl env then Ok (set_ctrl (ch_ctrl s ++ [CtrlDetach (targetSessionId c) (channelId c)]) s)
         else upd a (set_childCleared true) s);
    Ok (if v_timer env then push (CbCheck a) s else s)
  else FreeChannelContinue env a s.

(** [NotifyInstanceChannelFree] of the server forgets permits, that of the client
    restores the terminal. *)
Definition FreeChannelFinally (a : addr) (s : Channels) : res Channels :=
  c ← chan a s;
  if 0 <? uvHandleRef c then Ok (push (CbFinally a) s)
  else
    '((_, s) : option addr * Channels) ← AdminChannel OP_REMOVE (channelId c) None s;
    let s := if serverOrClient c then s else set_stopped true s in
    TryCloseHandle a Child true DeleteCh s.

(** ** Creating *)

(** The first random number that is not an id; [Stuck] without one. *)
Fixpoint GetChannelPseudoUid (randoms : list Z) (s : Channels) : res Z :=
  match randoms with
  | [] => Stuck
  | uid :: randoms => match om_find uid (mapChannel s) with None => Ok uid | Some _ => GetChannelPseudoUid randoms s end
  end.

Definition new_channel (id : Z) (server : bool) : HdcChannel :=
  mkChannel id UvLive UvNone UvNone UvNone 1 false false server false 0 0 0 false.

Definition MallocChannel (env : CEnv) (isServerOrClient : bool) (s : Channels) : res (Z * Channels) :=
  uid ← GetChannelPseudoUid (v_randoms env) s;
  let id := if isServerOrClient then u32 (uid + 1) else uid in
  if negb (v_tcpInit env) then Ok (0, s)
  else
    let s := set_heap (<[v_new env := new_channel id isServerOrClient]> (ch_heap s)) s in
    '((_, s) : option addr * Channels) ← AdminChannel OP_ADD id (Some (v_new env)) s; Ok (id, s).

(** [HdcClient]: the terminal handles of an interactive shell. *)
Definition BindLocalStd (env : CEnv) (a : addr) (s : Channels) : res Channels :=
  if negb (v_ttyOut env) then Ok s
  else if negb (v_ttyIn env) then s ← upd a (set_h Stdout UvClosing) s; Ok (push (CbClosed a Stdout NoCb) s)
  else upd a (fun c => set_uvHandleRef (u8 (u8 (uvHandleRef c + 1) + 1)) (set_h Stdin UvLive (set_h Stdout UvLive c))) s.

(** ** Sending *)

Definition is_file_data (commandFlag : Z) : bool := (commandFlag =? CMD_FILE_DATA) || (commandFlag =? CMD_APP_DATA).

(** [GetSendStream]: the main thread uses [hWorkTCP], any other [hChildWorkTCP]. *)
Definition GetSendStream (main : bool) : HId := if main then Work else Child.

Definition write_to (env : CEnv) (a : addr) (h : HId) (file : bool) (data : bytes) (s : Channels) : res Channels :=
  c ← chan a s;
  match get_h h c with
  | UvLive =>
      if v_writable env then
        s ← upd a (fun c => set_ref (ref c + 1) c) s;
        if v_write env then Ok (push (CbWrote a h file) (set_written (ch_written s ++ [(a, h, data)]) s)) else unref a s
      else Ok s
  | _ => Ok s
  end.

Definition SendChannel (env : CEnv) (main : bool) (a : addr) (buf : bytes) (commandFlag : Z) (s : Channels) : res Channels :=
  match ChannelFrame buf with
  | Some data => if v_alloc env then write_to env a (GetSendStream main) (is_file_data commandFlag) data s else Ok s
  | None => Ok s
  end.

Definition SendChannelWithCmd (env : CEnv) (main : bool) (a : addr) (commandFlag : Z) (buf : bytes) (s : Channels) : res Channels :=
  if v_alloc env then SendChannel env main a (le_split 2 commandFlag ++ buf) commandFlag s else Ok s.

(** The beginning and the end of [Send] and [SendWithCmd]. *)
Definition SendBegin (channelId : Z) (s : Channels) : res (option addr * Channels) := AdminChannel OP_QUERY_REF channelId None s.

Definition Send (env : CEnv) (main : bool) (channelId : Z) (buf : bytes) (s : Channels) : res Channels :=
  '((h, s) : option addr * Channels) ← SendBegin channelId s;
  match h with
  | None => Ok s
  | Some a => c ← chan a s; s ← (if isDead c then Ok s else SendChannel env main a buf 0 s); unref a s
  end.

Definition SendWithCmd (env : CEnv) (main : bool) (channelId commandFlag : Z) (buf : bytes) (s : Channels) : res Channels :=
  '((h, s) : option addr * Channels) ← SendBegin channelId s;
  match h with
  | None => Ok s
  | Some a => c ← chan a s; s ← (if isDead c then Ok s else SendChannelWithCmd env main a commandFlag buf s); unref a s
  end.

Definition EchoToClient (env : CEnv) (a : addr) (buf : bytes) (s : Channels) : res Channels :=
  match ChannelFrame buf with
  | Some data => if v_alloc env then write_to env a Child false data s else Ok s
  | None => Ok s
  end.

Fixpoint echo_each (env : CEnv) (sid : Z) (echo : bytes) (l : list (Z * addr)) (s : Channels) : res Channels :=
  match l with
  | [] => Ok s
  | (_, a) :: l =>
      c ← chan a s;
      s ← (if negb (isDead c) && (targetSessionId c =? sid) then EchoToClient env a echo s else Ok s);
      echo_each env sid echo l s
  end.
Definition EchoToAllChannelsViaSessionId (env : CEnv) (sid : Z) (echo : bytes) (s : Channels) : res Channels :=
  echo_each env sid echo (mapChannel s) s.

(** Callbacks on the child's handle run in the session's thread. *)
Definition main_handle (h : HId) : bool := match h with Child => false | _ => true end.

Definition WriteCallback (env : CEnv) (a : addr) (h : HId) (status : Z) (s : Channels) : res Channels :=
  s ← unref a s;
  if status <? 0 then
    s ← upd a (fun c => set_writeFailed (u32 (writeFailedTimes c + 1)) c) s;
    s ← TryCloseHandle a h false NoCb s;
    c ← chan a s;
    if negb (isDead c) && (ref c =? 0) then FreeChannel env (main_handle h) (channelId c) s else Ok s
  else Ok s.

Definition FileCmdWriteCallback (env : CEnv) (a : addr) (h : HId) (status : Z) (s : Channels) : res Channels :=
  _ ← chan a s; WriteCallback env a h status (set_queued (queuedPackages s - 1) s).

(** ** Reading *)

(** [ReadStream] as far as the life of the channel is concerned: on an error the
    stream is closed and the channel freed; otherwise the handler of the messages
    sends some answers, and an error there frees the channel. *)
Definition ReadStream_error (env : CEnv) (a : addr) (h : HId) (s : Channels) : res Channels :=
  s ← TryCloseHandle a h false NoCb s; c ← chan a s; FreeChannel env (main_handle h) (channelId c) s.

Fixpoint send_each (env : CEnv) (main : bool) (a : addr) (out : list (Z * bytes)) (s : Channels) : res Channels :=
  match out with
  | [] => Ok s
  | (cmd, buf) :: out => s ← SendChannelWithCmd env main a cmd buf s; send_each env main a out s
  end.
Definition ReadStream_data (env : CEnv) (a : addr) (h : HId) (out : list (Z * bytes)) (needExit : bool) (s : Channels) : res Channels :=
  s ← send_each env (main_handle h) a out s;
  if needExit then c ← chan a s; FreeChannel env (main_handle h) (channelId c) s else Ok s.

(** ** Attaching a channel to a session *)

(** [ChannelHandShake] from [handshakeOK = true] on; the number is the result of
    [BindChannelToSession]. *)
Definition BindChannelToSession (env : CEnv) (a : addr) (s : Channels) : res (Z * Channels) :=
  s ← upd a (set_handshakeOK true) s;
  match v_alive env with
  | None => Ok (ERR_SESSION_NOFOUND, s)
  | Some _ =>
      c ← chan a s;
      let isClosing := uv_is_closing (hWork c) in
      if negb isClosing && negb (v_dup env) then Ok (ERR_SOCKET_DUPLICATE, s)
      else
        s ← upd a (fun c => set_ref (ref c + 1) c) s;
        s ← (if isClosing then Ok s else s ← upd a (set_h Work UvClosing) s; Ok (push (CbClosed a Work DecRef) s));
        Ok (RET_SUCCESS, push (CbNextBind a) s)
  end.

Definition NextBind (env : CEnv) (a : addr) (s : Channels) : res Channels :=
  c ← chan a s;
  Ok match v_alive env with
     | Some sid => set_ctrl (ch_ctrl s ++ [CtrlAttach sid (channelId c)]) s
     | None => s
     end.

(** In the session's thread.  Initialising a handle that a loop knows is
    [Undefined]. *)
Definition AttachChannelInnerForTcp (env : CEnv) (sid channelId : Z) (s : Channels) : res Channels :=
  '((h, s) : option addr * Channels) ← AdminChannel OP_QUERY_REF channelId None s;
  match h with
  | None => Ok s
  | Some a =>
      c ← chan a s;
      if in_loop (hChild c) then Undefined
      else
        s ← upd a (fun c => set_target sid (set_h Child UvLive c)) s;
        s ← (if v_open env then Ok s else TryCloseHandle a Child false NoCb s);
        unref a s
  end.

Definition DetachChannelInnerForTcp (channelId : Z) (s : Channels) : res Channels :=
  '((h, s) : option addr * Channels) ← AdminChannel OP_QUERY channelId None s;
  match h with
  | None => Ok s
  | Some a =>
      c ← chan a s;
      if childCleared c then Ok s
      else if uv_is_closing (hChild c) then Ok (push (CbNextCleared a) s)
      else TryCloseHandle a Child false SetCleared s
  end.

(** ** Events *)

Inductive CEvent :=
| EvMalloc (server : bool) | EvStd (a : addr)
| EvRun (cb : CCb) (status : Z) | EvAsync (id : Z) | EvCtrl (m : Ctrl) | EvLost (m : Ctrl)
| EvReadError (a : addr) (h : HId) | EvRead (a : addr) (h : HId) (out : list (Z * bytes)) (needExit : bool) | EvBind (a : addr)
| EvSend (main : bool) (id : Z) (buf : bytes) | EvSendCmd (main : bool) (id cmd : Z) (buf : bytes) | EvEcho (sid : Z) (echo : bytes)
| EvHold (id : Z) | EvRelease (main : bool) (a : addr) (buf : option bytes)
| EvFree (main : bool) (id : Z) | EvClear | EvCloseChild (a : addr).

Definition run_cb (env : CEnv) (cb : CCb) (status : Z) (s : Channels) : res Channels :=
  match cb with
  | CbClosed a h k => closed a h k s
  | CbWrote a h file => if file then FileCmdWriteCallback env a h status s else WriteCallback env a h status s
  | CbOperate a => FreeChannelOpeate env a s
  | CbCheck a => callbackCheckFreeChannelContinue env a s
  | CbFinally a => FreeChannelFinally a s
  | CbNextBind a => NextBind env a s
  | CbNextCleared a => upd a (set_childCleared true) s
  end.

(** [EvHold] and [EvRelease] are the two halves of a [Send] in a thread of its own,
    which sends unless it has seen the channel dead; [EvCloseChild] is any other place that closes the child's handle
    ([HandleForwardSuccess], the end of the session's loop); [EvLost] a message to a
    session that has ended. *)
Definition handle_event (env : CEnv) (e : CEvent) (s : Channels) : res Channels :=
  match e with
  | EvMalloc server => '((_, s) : Z * Channels) ← MallocChannel env server s; Ok s
  | EvStd a => BindLocalStd env a s
  | EvRun cb status => run_cb env cb status (set_loop (remove_one cb (ch_loop s)) s)
  | EvAsync id => AsyncMainLoopTask env id (set_async (remove_one id (ch_async s)) s)
  | EvCtrl m =>
      let s := set_ctrl (remove_one m (ch_ctrl s)) s in
      match m with CtrlAttach sid id => AttachChannelInnerForTcp env sid id s | CtrlDetach _ id => DetachChannelInnerForTcp id s end
  | EvLost m => Ok (set_ctrl (remove_one m (ch_ctrl s)) s)
  | EvReadError a h => ReadStream_error env a h s
  | EvRead a h out needExit => ReadStream_data env a h out needExit s
  | EvBind a => '((_, s) : Z * Channels) ← BindChannelToSession env a s; Ok s
  | EvSend main id buf => Send env main id buf s
  | EvSendCmd main id cmd buf => SendWithCmd env main id cmd buf s
  | EvEcho sid echo => EchoToAllChannelsViaSessionId env sid echo s
  | EvHold id =>
      '((h, s) : option addr * Channels) ← SendBegin id s;
      Ok match h with Some a => set_holders (a :: ch_holders s) s | None => s end
  | EvRelease main a buf =>
      let s := set_holders (remove_one a (ch_holders s)) s in
      s ← match buf with Some b => SendChannel env main a b 0 s | None => Ok s end; unref a s
  | EvFree main id => FreeChannel env main id s
  | EvClear => ClearChannels env s
  | EvCloseChild a => TryCloseHandle a Child false NoCb s
  end.
