(* ===== verification/ChannelProps.v ===== *)
(** * ChannelProps: no callback and no thread holds a deleted channel *)

From Stdlib Require Import String ZArith Lia List Bool.
From stdpp Require Import base list numbers option gmap.
From S2P Require Import Prelude Defs OrdMap Session SessionProps ChannelIo Channel.

(** ** Counting *)

(** Callbacks without their address. *)
Inductive CKind := KCl (h : HId) (k : CloseCb) | KWr (h : HId) | KOp | KCk | KFi | KNb | KNc.
Definition kind (cb : CCb) : CKind :=
  match cb with
  | CbClosed _ h k => KCl h k | CbWrote _ h _ => KWr h | CbOperate _ => KOp | CbCheck _ => KCk | CbFinally _ => KFi
  | CbNextBind _ => KNb | CbNextCleared _ => KNc
  end.
Definition h_eqb (x y : HId) : bool :=
  match x, y with Work, Work | Child, Child | Stdin, Stdin | Stdout, Stdout => true | _, _ => false end.
Definition c_eqb (x y : CloseCb) : bool :=
  match x, y with
  | NoCb, NoCb | CloseHandle, CloseHandle | DecRef, DecRef | SetCleared, SetCleared | DeleteCh, DeleteCh => true
  | _, _ => false
  end.
Definition k_eqb (x y : CKind) : bool :=
  match x, y with
  | KCl h k, KCl h' k' => h_eqb h h' && c_eqb k k'
  | KWr h, KWr h' => h_eqb h h'
  | KOp, KOp | KCk, KCk | KFi, KFi | KNb, KNb | KNc, KNc => true
  | _, _ => false
  end.

Definition num {A} (f : A -> bool) (l : list A) : nat := length (List.filter f l).
Lemma num_app {A} (f : A -> bool) l m : num f (l ++ m) = (num f l + num f m)%nat.
Proof. unfold num. by rewrite List.filter_app, length_app. Qed.
Lemma num_remove {A} `{EqDecision A} (f : A -> bool) x l : x ∈ l -> num f l = ((if f x then 1 else 0) + num f (remove_one x l))%nat.
Proof.
  unfold num. induction l as [|y l IH]; intros Hx; [by apply not_elem_of_nil in Hx|]. cbn [remove_one].
  destruct (decide (y = x)) as [->|Hne]; [cbn; by destruct (f x)|]. apply elem_of_cons in Hx as [?|Hx]; [congruence|].
  cbn. specialize (IH Hx). destruct (f y); cbn; lia.
Qed.
Lemma num_zero {A} (f : A -> bool) l : num f l = 0%nat <-> forall x, x ∈ l -> f x = false.
Proof.
  unfold num. induction l as [|y l IH].
  { split; [intros _ x Hx; by apply not_elem_of_nil in Hx|done]. }
  cbn [List.filter]. destruct (f y) eqn:E; cbn [length].
  - split; [done|]. intros H. by rewrite (H y ltac:(left)) in E.
  - rewrite IH. split; [intros H x [->|Hx]%elem_of_cons; auto|intros H x Hx; apply H; by right].
Qed.
Lemma remove_one_in {A} `{EqDecision A} (x y : A) l : y ∈ remove_one x l -> y ∈ l.
Proof.
  induction l as [|z l IH]; [done|]. cbn [remove_one]. destruct (decide (z = x)) as [->|]; [by right|].
  intros [->|Hy]%elem_of_cons; [left|right; auto].
Qed.

Definition of_kind (a : addr) (K : CKind) (cb : CCb) : bool := (cb_addr cb =? a) && k_eqb (kind cb) K.
Definition cnt (a : addr) (s : Channels) (K : CKind) : nat := num (of_kind a K) (ch_loop s).
Definition held (a : addr) (s : Channels) : nat := num (Z.eqb a) (ch_holders s).
Definition att (id : Z) (s : Channels) : nat := num (fun m => match m with CtrlAttach _ c => c =? id | _ => false end) (ch_ctrl s).
Definition det (id : Z) (s : Channels) : nat := num (fun m => match m with CtrlDetach _ c => c =? id | _ => false end) (ch_ctrl s).

(** ** The invariant of one channel *)

Definition clo (v : UvHandle) : nat := match v with UvClosing => 1 | _ => 0 end.
Definition liv (v : UvHandle) : nat := match v with UvLive => 1 | _ => 0 end.
Definition ini (v : UvHandle) : nat := match v with UvNone => 0 | _ => 1 end.
Definition b2n (b : bool) : nat := if b then 1 else 0.

(** [n] counts the pending callbacks of each kind, [ho] the threads that hold the
    channel, [at_], [de] the messages to sessions about it. *)
Record ok (c : HdcChannel) (n : CKind -> nat) (ho at_ de : nat) : Prop := {
  (* one callback for each handle that is being closed *)
  k_close : forall h, (n (KCl h NoCb) + n (KCl h CloseHandle) + n (KCl h DecRef) + n (KCl h SetCleared) + n (KCl h DeleteCh)
    = clo (get_h h c))%nat;
  (* writes only on handles in use *)
  k_write : forall h, (clo (get_h h c) + liv (get_h h c) = 0 -> n (KWr h) = 0)%nat;
  (* the reference count *)
  k_ref : ref c = Z.of_nat (n (KWr Work) + n (KWr Child) + n (KWr Stdin) + n (KWr Stdout) + n (KCl Work DecRef) + ho);
  (* which callback a handle may be closed with *)
  k_kinds : (n (KCl Child DecRef) + n (KCl Stdin DecRef) + n (KCl Stdout DecRef) + n (KCl Child CloseHandle) + n (KCl Work SetCleared) +
    n (KCl Stdin SetCleared) + n (KCl Stdout SetCleared) + n (KCl Work DeleteCh) + n (KCl Stdin DeleteCh) + n (KCl Stdout DeleteCh) = 0)%nat;
  (* one stage of freeing at a time, and none before the channel is dead *)
  k_phase : (n KOp + n KCk + n KFi + n (KCl Child DeleteCh) <= b2n (isDead c))%nat;
  (* who holds the channel holds back the first stage *)
  k_hold : (0 < ho + n KNb -> b2n (isDead c) = 0 \/ 0 < n KOp)%nat;
  (* [uvHandleRef] until [FreeChannelContinue] and after it *)
  k_cont : (b2n (isDead c) = 0 \/ 0 < n KOp + n KCk)%nat ->
    (n (KCl Work CloseHandle) + n (KCl Stdin CloseHandle) + n (KCl Stdout CloseHandle) = 0)%nat /\
    uvHandleRef c = 1 + 2 * Z.of_nat (ini (hStdin c));
  k_fin : (0 < n KFi)%nat -> (liv (hWork c) + liv (hStdin c) + liv (hStdout c) = 0)%nat /\
    (n (KCl Work NoCb) + n (KCl Work DecRef) + n (KCl Stdin NoCb) + n (KCl Stdout NoCb) = 0)%nat /\
    Z.of_nat (n (KCl Work CloseHandle) + n (KCl Stdin CloseHandle) + n (KCl Stdout CloseHandle)) <= uvHandleRef c < 256;
  k_del : (0 < n (KCl Child DeleteCh))%nat -> (clo (hWork c) + liv (hWork c) + clo (hStdin c) + liv (hStdin c) + clo (hStdout c) +
    liv (hStdout c) = 0)%nat;
  k_std : (b2n (serverOrClient c) = 1 -> ini (hStdin c) + ini (hStdout c) = 0)%nat /\ (ini (hStdin c) <= ini (hStdout c) /\ liv (hStdout c) <= ini (hStdin c))%nat;
  (* the child's handle is initialised once *)
  k_att : (n KNb + at_ + ini (hChild c) <= b2n (handshakeOK c))%nat;
  (* and reported closed once *)
  k_det : (de + n (KCl Child SetCleared) + n KNc <= 1)%nat /\
    (0 < de + n (KCl Child SetCleared) + n KNc -> b2n (isDead c) = 1 /\ b2n (childCleared c) = 0 /\ n KOp = 0 /\ n KFi = 0 /\
      n (KCl Child DeleteCh) = 0)%nat;
  (* a channel past the first stage is bound or no longer read *)
  k_late : (b2n (isDead c) = 1 -> n KOp = 0 -> liv (hWork c) = 1 -> b2n (handshakeOK c) = 1)%nat;
  (* the child is not reported closed before *)
  k_early : (b2n (isDead c) = 0 \/ 0 < n KOp -> b2n (childCleared c) = 0)%nat
}.

Lemma b2n_bound b : (b2n b <= 1)%nat.
Proof. destruct b; cbn; lia. Qed.
Lemma uv_cases v : (clo v + liv v <= 1 /\ clo v + liv v <= ini v <= 1)%nat.
Proof. destruct v; cbn; lia. Qed.

(** ** The invariant *)

Record Inv (s : Channels) : Prop := {
  iv_ok : forall a c, ch_heap s !! a = Some c -> ok c (cnt a s) (held a s) (att (channelId c) s) (det (channelId c) s);
  iv_loop : forall cb, cb ∈ ch_loop s -> is_Some (ch_heap s !! cb_addr cb);
  iv_held : forall a, a ∈ ch_holders s -> is_Some (ch_heap s !! a);
  iv_map : forall k a, In (k, a) (mapChannel s) -> exists c, ch_heap s !! a = Some c /\ channelId c = k /\ cnt a s (KCl Child DeleteCh) = 0%nat;
  iv_ids : forall a b c d, ch_heap s !! a = Some c -> ch_heap s !! b = Some d -> channelId c = channelId d -> a = b
}.

(** A step that only touches the channel at [a]. *)
Record local (a : addr) (c c' : HdcChannel) (s s' : Channels) : Prop := {
  l_heap : ch_heap s' = <[a := c']> (ch_heap s);
  l_id : channelId c' = channelId c;
  l_map : mapChannel s' = mapChannel s;
  l_cnt : forall b K, b <> a -> cnt b s' K = cnt b s K;
  l_loop : forall cb, cb ∈ ch_loop s' -> cb_addr cb = a \/ cb ∈ ch_loop s;
  l_held : forall b, b <> a -> held b s' = held b s;
  l_holders : forall b, b ∈ ch_holders s' -> b = a \/ b ∈ ch_holders s;
  l_att : forall id, id <> channelId c -> att id s' = att id s /\ det id s' = det id s
}.

Lemma local_inv a c c' s s' : Inv s -> ch_heap s !! a = Some c -> local a c c' s s' ->
  ok c' (cnt a s') (held a s') (att (channelId c) s') (det (channelId c) s') ->
  ((exists k, In (k, a) (mapChannel s)) -> cnt a s' (KCl Child DeleteCh) = 0%nat) -> Inv s'.
Proof.
  intros I Ha L O D.
  assert (Hget : forall b d, ch_heap s' !! b = Some d -> (b = a /\ d = c') \/ (b <> a /\ ch_heap s !! b = Some d)).
  { intros b d. rewrite (l_heap _ _ _ _ _ L). intros [[<- <-]|[? ?]]%lookup_insert_Some; auto. }
  assert (Hsome : forall b, is_Some (ch_heap s !! b) -> is_Some (ch_heap s' !! b)).
  { intros b Hb. rewrite (l_heap _ _ _ _ _ L). apply lookup_insert_is_Some'. by right. }
  assert (Hid : forall b d, ch_heap s' !! b = Some d -> exists d0, ch_heap s !! b = Some d0 /\ channelId d0 = channelId d).
  { intros b d [[-> ->]|[_ Hb]]%Hget; [exists c; split; [done|symmetry; apply L]|by exists d]. }
  split.
  - intros b d [[-> ->]|[Hne Hb]]%Hget; [by rewrite (l_id _ _ _ _ _ L)|].
    assert (Hi : channelId d <> channelId c) by (intros E; by apply Hne, (iv_ids _ I _ _ _ _ Hb Ha E)).
    destruct (l_att _ _ _ _ _ L _ Hi) as [-> ->]. rewrite (l_held _ _ _ _ _ L) by done.
    pose proof (iv_ok _ I _ _ Hb) as [H1 H2 H3 H4 H5 H6 H7 H8 H9 H10 H11 H12 H13 H14].
    split; intros *; rewrite ?(l_cnt _ _ _ _ _ L) by done; auto.
  - intros cb [->|Hc]%(l_loop _ _ _ _ _ L); [rewrite (l_heap _ _ _ _ _ L), lookup_insert_eq; by eexists|]. apply Hsome. by apply (iv_loop _ I).
  - intros b [->|Hb]%(l_holders _ _ _ _ _ L); [rewrite (l_heap _ _ _ _ _ L), lookup_insert_eq; by eexists|]. apply Hsome. by apply (iv_held _ I).
  - rewrite (l_map _ _ _ _ _ L). intros k b Hin. destruct (iv_map _ I _ _ Hin) as (d & Hb & Hk & Hd).
    destruct (decide (b = a)) as [->|Hne].
    + exists c'. rewrite (l_heap _ _ _ _ _ L), lookup_insert_eq. split; [done|]. split; [rewrite (l_id _ _ _ _ _ L); congruence|]. apply D. by exists k.
    + exists d. rewrite (l_heap _ _ _ _ _ L), lookup_insert_ne by done. rewrite (l_cnt _ _ _ _ _ L) by done. done.
  - intros b1 b2 d1 d2 H1 H2 E. destruct (Hid _ _ H1) as (e1 & G1 & E1), (Hid _ _ H2) as (e2 & G2 & E2).
    eapply (iv_ids _ I); [exact G1|exact G2|congruence].
Qed.

(** ** Steps of one channel *)

Fixpoint add (ks : list CKind) (n : CKind -> nat) (K : CKind) : nat :=
  match ks with [] => n K | k :: ks => ((if k_eqb k K then 1 else 0) + add ks n K)%nat end.

Lemma ok_ext c n n' ho at_ de : (forall K, n K = n' K) -> ok c n ho at_ de -> ok c n' ho at_ de.
Proof. intros E [H1 H2 H3 H4 H5 H6 H7 H8 H9 H10 H11 H12 H13 H14]. split; intros *; rewrite <- ?E; auto. Qed.

(** Keeps the implications from [lia] until they are needed. *)
Definition hide (k : nat) (P : Prop) : Prop := P.
Ltac unhide k := match goal with H : hide k _ |- _ => unfold hide in H end.
Lemma hide_intro k (P : Prop) : P -> hide k P.
Proof. done. Qed.
Ltac open_ok O c :=
  let Oc := fresh in let Ow := fresh in let H6 := fresh in let H7 := fresh in let H8 := fresh in let H9 := fresh in
  let H10 := fresh in let H12 := fresh in let H13 := fresh in let H14 := fresh in
  destruct O as [Oc Ow ? ? ? H6 H7 H8 H9 [H10 ?] ? [? H12] H13 H14];
  pose proof (Oc Work); pose proof (Oc Child); pose proof (Oc Stdin); pose proof (Oc Stdout);
  pose proof (hide_intro 1 _ (Ow Work)); pose proof (hide_intro 2 _ (Ow Child)); pose proof (hide_intro 3 _ (Ow Stdin));
  pose proof (hide_intro 4 _ (Ow Stdout));
  apply (hide_intro 6) in H6; apply (hide_intro 7) in H7; apply (hide_intro 8) in H8; apply (hide_intro 9) in H9;
  apply (hide_intro 10) in H10; apply (hide_intro 12) in H12; apply (hide_intro 13) in H13; apply (hide_intro 14) in H14; clear Oc Ow;
  pose proof (uv_cases (hWork c)); pose proof (uv_cases (hChild c)); pose proof (uv_cases (hStdin c));
  pose proof (uv_cases (hStdout c)); pose proof (b2n_bound (isDead c)); pose proof (b2n_bound (handshakeOK c));
  pose proof (b2n_bound (childCleared c)).
Ltac simp_ok := cbn [add k_eqb h_eqb c_eqb andb get_h set_h clo liv ini b2n hWork hChild hStdin hStdout isDead serverOrClient childCleared
  handshakeOK ref uvHandleRef set_ref set_isDead set_uvHandleRef set_childCleared set_handshakeOK set_target set_writeFailed set_ioBuf] in *.
(** Opens the invariant of [c] and proves the one in the goal by arithmetic. *)
Ltac fields_ok := split;
  [ intros []; simp_ok; lia
  | intros []; simp_ok; [unhide 1%nat|unhide 2%nat|unhide 3%nat|unhide 4%nat]; lia
  | simp_ok; lia | simp_ok; lia | simp_ok; lia
  | simp_ok; unhide 6%nat; lia | simp_ok; unhide 7%nat; lia | simp_ok; unhide 8%nat; lia
  | simp_ok; unhide 9%nat; lia | simp_ok; unhide 10%nat; lia | simp_ok; lia | simp_ok; unhide 12%nat; unhide 14%nat; lia
  | simp_ok; unhide 13%nat; lia | simp_ok; unhide 14%nat; first [lia|unhide 12%nat; lia] ].
Ltac solve_ok O c := open_ok O c; destruct c; simp_ok; subst; simp_ok; fields_ok.

Lemma ok_close_none c n ho at_ de h : ok c n ho at_ de -> get_h h c = UvLive -> ok (set_h h UvClosing c) (add [KCl h NoCb] n) ho at_ de.
Proof. intros O E. destruct h; cbn [get_h] in E; solve_ok O c. Qed.

(** A write starts, and ends. *)
Lemma ok_write c n ho at_ de h : ok c n ho at_ de -> get_h h c = UvLive -> ok (set_ref (ref c + 1) c) (add [KWr h] n) ho at_ de.
Proof. intros O E. destruct h; cbn [get_h] in E; solve_ok O c. Qed.
Lemma ok_wrote c n ho at_ de h : ok c (add [KWr h] n) ho at_ de -> ok (set_ref (ref c - 1) c) n ho at_ de.
Proof. intros O. destruct h; solve_ok O c. Qed.

(** A thread takes the channel, and lets it go. *)
Lemma ok_hold c n ho at_ de : ok c n ho at_ de -> isDead c = false -> ok (set_ref (ref c + 1) c) n (S ho) at_ de.
Proof. intros O E. solve_ok O c. Qed.
Lemma ok_release c n ho at_ de : ok c n (S ho) at_ de -> ok (set_ref (ref c - 1) c) n ho at_ de.
Proof. intros O. solve_ok O c. Qed.

(** [FreeChannel]. *)
Lemma ok_free c n ho at_ de : ok c n ho at_ de -> isDead c = false -> ok (set_isDead true c) (add [KOp] n) ho at_ de.
Proof. intros O E. solve_ok O c. Qed.

(** Fields that the invariant does not mention. *)
Lemma ok_same c c' n ho at_ de : ok c n ho at_ de -> (forall h, get_h h c' = get_h h c) -> ref c' = ref c -> isDead c' = isDead c ->
  serverOrClient c' = serverOrClient c -> childCleared c' = childCleared c -> handshakeOK c' = handshakeOK c ->
  uvHandleRef c' = uvHandleRef c -> ok c' n ho at_ de.
Proof.
  intros [H1 H2 H3 H4 H5 H6 H7 H8 H9 H10 H11 H12 H13 H14] Eh E1 E2 E3 E4 E5 E6.
  pose proof (Eh Work) as EW. pose proof (Eh Child) as EC. pose proof (Eh Stdin) as EI. pose proof (Eh Stdout) as EO. cbn [get_h] in *.
  split; intros *; rewrite ?Eh, ?EW, ?EC, ?EI, ?EO, ?E1, ?E2, ?E3, ?E4, ?E5, ?E6; auto.
Qed.

(** The first stage goes on: nobody holds the channel, no close of the main loop
    and no binding is pending. *)
Definition quiet (n : CKind -> nat) : Prop :=
  n KNb = 0%nat /\ forall k, n (KCl Work k) = 0%nat /\ n (KCl Stdin k) = 0%nat /\ n (KCl Stdout k) = 0%nat.

Ltac use_quiet Q := let Qk := fresh in destruct Q as [? Qk]; pose proof (Qk NoCb); pose proof (Qk CloseHandle); pose proof (Qk DecRef); clear Qk.

Lemma ok_detach c n ho at_ de : ok c (add [KOp] n) ho at_ de -> quiet n -> ref c <= 0 -> hChild c <> UvNone ->
  ok c n ho at_ (S de) /\ ok c (add [KCk] n) ho at_ (S de) /\
  ok (set_childCleared true c) n ho at_ de /\ ok (set_childCleared true c) (add [KCk] n) ho at_ de.
Proof.
  intros O Q Hr Hc. use_quiet Q. assert (ini (hChild c) = 1%nat) by (by destruct (hChild c)). clear Hc. simp_ok.
  split_and!; solve_ok O c.
Qed.


(** [FreeChannelContinue]: every live handle of the main loop is being closed. *)
Definition close1 (h : HId) (p : HdcChannel * list CKind) : HdcChannel * list CKind :=
  match get_h h p.1 with UvLive => (set_h h UvClosing p.1, p.2 ++ [KCl h CloseHandle]) | _ => p end.
Definition cont (c : HdcChannel) : HdcChannel * list CKind :=
  let p := (set_ioBuf false c, []) in
  let p := if serverOrClient c then p else close1 Stdout (close1 Stdin p) in
  if uv_is_closing (hWork c) then (set_uvHandleRef (u8 (uvHandleRef p.1 - 1)) p.1, p.2) else close1 Work p.

Lemma ok_continue_gen c c' n n' ho at_ de K : ok c (add [K] n) ho at_ de -> K = KOp \/ K = KCk -> quiet n ->
  (K = KOp -> ref c <= 0 /\ hChild c = UvNone) -> (K = KCk -> childCleared c = true) ->
  (forall h, h <> Child -> liv (get_h h c') = 0%nat /\ clo (get_h h c') = liv (get_h h c) /\ ini (get_h h c') = ini (get_h h c)) ->
  hChild c' = hChild c -> ref c' = ref c -> isDead c' = isDead c -> serverOrClient c' = serverOrClient c ->
  childCleared c' = childCleared c -> handshakeOK c' = handshakeOK c ->
  (forall h, h <> Child -> n' (KCl h CloseHandle) = clo (get_h h c')) -> (n' KFi <= 1 + n KFi)%nat ->
  (forall K, K <> KFi -> (forall h, h <> Child -> K <> KCl h CloseHandle) -> n' K = n K) ->
  Z.of_nat (clo (hWork c') + clo (hStdin c') + clo (hStdout c')) <= uvHandleRef c' < 256 ->
  ok c' n' ho at_ de.
Proof.
  intros O HK Q HOp HCk Hh EC ER ED ES ECl EH Hn HF Ho Huv.
  pose proof (Hh Work ltac:(done)). pose proof (Hh Stdin ltac:(done)). pose proof (Hh Stdout ltac:(done)).
  pose proof (Hn Work ltac:(done)). pose proof (Hn Stdin ltac:(done)). pose proof (Hn Stdout ltac:(done)). clear Hh Hn. cbn [get_h] in *.
  assert (En : forall K, match K with KFi | KCl Work CloseHandle | KCl Stdin CloseHandle | KCl Stdout CloseHandle => True | _ => n' K = n K end).
  { intros [[] []|[]| | | | |]; try done; apply Ho; try done; intros [] ?; try done; congruence. }
  pose proof (fun h => En (KWr h)) as EnW. pose proof (En (KCl Work NoCb)). pose proof (En (KCl Work DecRef)). pose proof (En (KCl Work SetCleared)).
  pose proof (En (KCl Work DeleteCh)). pose proof (En (KCl Stdin NoCb)). pose proof (En (KCl Stdin DecRef)). pose proof (En (KCl Stdin SetCleared)).
  pose proof (En (KCl Stdin DeleteCh)). pose proof (En (KCl Stdout NoCb)). pose proof (En (KCl Stdout DecRef)).
  pose proof (En (KCl Stdout SetCleared)). pose proof (En (KCl Stdout DeleteCh)). pose proof (fun k => En (KCl Child k)) as EnC.
  pose proof (EnC NoCb). pose proof (EnC CloseHandle). pose proof (EnC DecRef). pose proof (EnC SetCleared). pose proof (EnC DeleteCh).
  pose proof (EnW Work). pose proof (EnW Child). pose proof (EnW Stdin). pose proof (EnW Stdout).
  pose proof (En KOp). pose proof (En KCk). pose proof (En KNb). pose proof (En KNc). clear En EnW EnC Ho. cbn iota in *.
  destruct HK as [-> | ->]; [destruct HOp as [Href Hnone]; [done|]; clear HCk|pose proof (HCk eq_refl) as Hcl; clear HOp HCk];
    use_quiet Q; open_ok O c; simp_ok; try rewrite Hnone in *; try rewrite Hcl in *; simp_ok; (split;
    [ intros []; simp_ok; rewrite ?EC; simp_ok; lia
    | intros []; simp_ok; rewrite ?EC; simp_ok; [unhide 1%nat|unhide 2%nat|unhide 3%nat|unhide 4%nat]; lia
    | .. ]); rewrite ?EC, ?ER, ?ED, ?ES, ?ECl, ?EH; simp_ok.
  all: first [lia | unhide 6%nat; lia | unhide 10%nat; lia | unhide 12%nat; lia | unhide 12%nat; unhide 14%nat; lia | unhide 9%nat; lia].
Qed.

Lemma cont_handles c : (forall h, h <> Child -> clo (get_h h c) = 0%nat) ->
  (b2n (serverOrClient c) = 1 -> ini (hStdin c) + ini (hStdout c) = 0)%nat ->
  let '(c', ks) := cont c in
  (forall h, h <> Child -> liv (get_h h c') = 0%nat /\ clo (get_h h c') = liv (get_h h c) /\ ini (get_h h c') = ini (get_h h c)) /\
  (forall h n, h <> Child -> n (KCl h CloseHandle) = 0%nat -> add ks n (KCl h CloseHandle) = clo (get_h h c')) /\
  (forall K n, (forall h, h <> Child -> K <> KCl h CloseHandle) -> add ks n K = n K) /\
  hChild c' = hChild c /\ ref c' = ref c /\ isDead c' = isDead c /\ serverOrClient c' = serverOrClient c /\
  childCleared c' = childCleared c /\ handshakeOK c' = handshakeOK c /\ channelId c' = channelId c /\
  uvHandleRef c' = (if uv_is_closing (hWork c) then u8 (uvHandleRef c - 1) else uvHandleRef c).
Proof.
  intros Hc Hs. destruct c as [cid w ch si so uv hs de_ sv cc rf ts wf io]. unfold cont, close1.
  cbn [hWork serverOrClient hStdin hStdout] in *. specialize (Hc Work ltac:(done)) as HW. pose proof (Hc Stdin ltac:(done)) as HI.
  pose proof (Hc Stdout ltac:(done)) as HO. cbn [get_h hWork hStdin hStdout] in *. clear Hc.
  destruct w, sv, si, so; try discriminate; cbn [b2n ini] in Hs; try (by specialize (Hs eq_refl));
    cbn [set_ioBuf get_h hWork hStdin hStdout hChild fst snd set_h app uv_is_closing uvHandleRef set_uvHandleRef];
    (split_and!; [intros []; done|intros [] n; cbn; intros; try done; lia| |done..]);
    (intros [[] []|[]| | | | |] n Hh; cbn; first [done|exfalso; eapply Hh; [|reflexivity]; done]).
Qed.

Lemma ok_continue c n ho at_ de K (idle : bool) : ok c (add [K] n) ho at_ de -> K = KOp \/ K = KCk -> quiet n ->
  (K = KOp -> ref c <= 0 /\ hChild c = UvNone) -> (K = KCk -> childCleared c = true) ->
  ok (cont c).1 (add ((cont c).2 ++ (if idle then [KFi] else [])) n) ho at_ de.
Proof.
  intros O HK Q HOp HCk.
  assert (Hclo : forall h, h <> Child -> clo (get_h h c) = 0%nat).
  { intros h Hne. pose proof (k_close _ _ _ _ _ O h) as E. destruct Q as [_ Q]. pose proof (k_kinds _ _ _ _ _ O) as E2.
    destruct (Q NoCb) as (? & ? & ?), (Q CloseHandle) as (? & ? & ?), (Q DecRef) as (? & ? & ?).
    destruct HK as [-> | ->], h; try done; simp_ok; lia. }
  pose proof (cont_handles c Hclo (proj1 (k_std _ _ _ _ _ O))) as Hcont. destruct (cont c) as [c' ks]. cbn [fst snd].
  destruct Hcont as (H1 & H2 & H3 & E1 & E2 & E3 & E4 & E5 & E6 & _ & Huv).
  assert (Hadd : forall l K', add (ks ++ l) n K' = (add ks n K' + add l (fun _ => 0%nat) K')%nat).
  { intros l K'. clear. induction ks as [|k ks IH]; cbn [add app]; [|rewrite IH; lia]. induction l as [|x l IH]; cbn [add]; [lia|].
    rewrite IH. lia. }
  destruct (k_cont _ _ _ _ _ O) as [Hch Huv0]; [right; destruct HK as [-> | ->]; simp_ok; lia|].
  assert (Hz : forall h, h <> Child -> n (KCl h CloseHandle) = 0%nat).
  { intros h Hne. destruct Q as [_ Q]. destruct (Q CloseHandle) as (? & ? & ?). by destruct h. }
  eapply (ok_continue_gen c); try done.
  - intros h Hne. rewrite Hadd, H2 by auto. destruct idle; cbn; lia.
  - rewrite Hadd, H3 by done. destruct idle; cbn; lia.
  - intros K' HF Hno. rewrite Hadd, H3 by done. destruct idle; cbn [add]; [|lia].
    assert (k_eqb KFi K' = false) as -> by (destruct K'; done). lia.
  - pose proof (H1 Work ltac:(done)) as (_ & W2 & _). pose proof (H1 Stdin ltac:(done)) as (_ & I2 & _). pose proof (H1 Stdout ltac:(done)) as (_ & O2 & _).
    pose proof (Hclo Stdin ltac:(done)). pose proof (Hclo Stdout ltac:(done)). cbn [get_h] in *. rewrite W2, I2, O2, Huv, Huv0.
    pose proof (uv_cases (hStdin c)). pose proof (uv_cases (hStdout c)). pose proof (k_std _ _ _ _ _ O) as [_ Hst].
    destruct (hWork c) eqn:EW; cbn [uv_is_closing liv]; rewrite ?uwrap_small; unfold in_u; lia.
Qed.

(** A handle is closed. *)
Lemma ok_closed c n ho at_ de h k : ok c (add [KCl h k] n) ho at_ de -> n (KWr h) = 0%nat ->
  match k with
  | NoCb => ok (set_h h UvClosed c) n ho at_ de
  | CloseHandle => ok (set_uvHandleRef (u8 (uvHandleRef c - 1)) (set_h h UvClosed c)) n ho at_ de
  | DecRef => ok (set_ref (ref c - 1) (set_h h UvClosed c)) n ho at_ de
  | SetCleared => ok (set_childCleared true (set_h h UvClosed c)) n ho at_ de
  | DeleteCh => h = Child /\ in_loop (hWork c) = false /\ in_loop (hStdin c) = false /\ in_loop (hStdout c) = false /\
      (n KOp + n KCk + n KFi = 0)%nat
  end.
Proof.
  intros O Hw. assert (Hu : 0 <= u8 (uvHandleRef c - 1) < 256) by (pose proof (uwrap_range 8 (uvHandleRef c - 1)); unfold in_u in *; lia).
  assert (Hv : 1 <= uvHandleRef c < 256 -> u8 (uvHandleRef c - 1) = uvHandleRef c - 1) by (intros; rewrite uwrap_small; unfold in_u; lia).
  destruct k; [destruct h; solve_ok O c|..].
  - open_ok O c; destruct c; simp_ok.
    destruct h; simp_ok; [|lia|..]; (split;
      [ intros []; simp_ok; lia
      | intros []; simp_ok; [unhide 1%nat|unhide 2%nat|unhide 3%nat|unhide 4%nat]; lia
      | simp_ok ..]); first [lia|unhide 6%nat; lia|unhide 7%nat; lia|unhide 8%nat; lia|unhide 9%nat; lia|unhide 10%nat; lia|unhide 12%nat; lia|unhide 13%nat; lia|unhide 14%nat; lia].
  - destruct h; [solve_ok O c|..]; open_ok O c; simp_ok; lia.
  - destruct h; [|solve_ok O c|..]; open_ok O c; simp_ok; lia.
  - destruct h; [open_ok O c; simp_ok; lia| |open_ok O c; simp_ok; lia..]. open_ok O c. simp_ok. unhide 9%nat.
    assert (forall v, (clo v + liv v = 0)%nat -> in_loop v = false) as Hin by (by intros []). split_and!; [done|apply Hin; lia..|lia].
Qed.

(** Binding to a session, its second half, and the two messages. *)
Lemma ok_bind c n ho at_ de : ok c n ho at_ de -> hWork c = UvLive -> handshakeOK c = false ->
  ok (set_handshakeOK true c) n ho at_ de /\
  ok (set_h Work UvClosing (set_ref (ref c + 1) (set_handshakeOK true c))) (add [KCl Work DecRef; KNb] n) ho at_ de.
Proof. intros O E1 E2. split; [solve_ok O c|]. pose proof (k_late _ _ _ _ _ O) as HL. rewrite E1, E2 in HL. cbn in HL. solve_ok O c. Qed.
Lemma ok_next_bind c n ho at_ de : ok c (add [KNb] n) ho at_ de -> ok c n ho at_ de /\ ok c n ho (S at_) de.
Proof. intros O. split; solve_ok O c. Qed.
Lemma ok_attach c n ho at_ de sid : ok c n ho (S at_) de ->
  hChild c = UvNone /\ ok (set_target sid (set_h Child UvLive c)) n ho at_ de.
Proof.
  intros O. assert (E : hChild c = UvNone).
  { pose proof (k_att _ _ _ _ _ O). pose proof (b2n_bound (handshakeOK c)). destruct (hChild c); [done|cbn in *; lia..]. }
  split; [done|]. solve_ok O c.
Qed.
Lemma ok_lost_attach c n ho at_ de : ok c n ho (S at_) de -> ok c n ho at_ de.
Proof. intros O. solve_ok O c. Qed.
Lemma ok_lost_detach c n ho at_ de : ok c n ho at_ (S de) -> ok c n ho at_ de.
Proof. intros O. solve_ok O c. Qed.
Lemma ok_detached c n ho at_ de : ok c n ho at_ (S de) ->
  ok c (add [KNc] n) ho at_ de /\ (hChild c = UvLive -> ok (set_h Child UvClosing c) (add [KCl Child SetCleared] n) ho at_ de).
Proof. intros O. split; [solve_ok O c|intros E; solve_ok O c]. Qed.
Lemma ok_cleared c n ho at_ de : ok c (add [KNc] n) ho at_ de -> ok (set_childCleared true c) n ho at_ de.
Proof. intros O. solve_ok O c. Qed.

Lemma ok_std c n ho at_ de : ok c n ho at_ de -> isDead c = false -> serverOrClient c = false -> hStdin c = UvNone -> hStdout c = UvNone ->
  ok (set_uvHandleRef (u8 (u8 (uvHandleRef c + 1) + 1)) (set_h Stdin UvLive (set_h Stdout UvLive c))) n ho at_ de /\
  ok (set_h Stdout UvClosing c) (add [KCl Stdout NoCb] n) ho at_ de.
Proof.
  intros O E1 E2 E3 E4. pose proof (k_cont _ _ _ _ _ O) as [_ Hu]; [left; by rewrite E1|]. rewrite E3 in Hu. change (1 + 2 * Z.of_nat (ini UvNone)) with 1 in Hu. split; [rewrite Hu; change (u8 (u8 (1 + 1) + 1)) with 3|]; solve_ok O c.
Qed.

(** The last stage. *)
Lemma ok_finally c n ho at_ de : ok c (add [KFi] n) ho at_ de -> uvHandleRef c <= 0 ->
  in_loop (hWork c) = false /\ in_loop (hStdin c) = false /\ in_loop (hStdout c) = false /\
  (n KOp + n KCk + n KFi + n (KCl Child DeleteCh) + n KNb + ho = 0)%nat /\ (de + n (KCl Child SetCleared) + n KNc = 0)%nat /\
  (hChild c = UvLive -> ok (set_h Child UvClosing c) (add [KCl Child DeleteCh] n) ho at_ de).
Proof.
  intros O Hu. assert (Hin : forall v, (clo v + liv v = 0)%nat -> in_loop v = false) by (by intros []).
  split_and!; [open_ok O c; simp_ok; unhide 8%nat; apply Hin; lia..|open_ok O c; simp_ok; unhide 6%nat; lia| |].
  - open_ok O c. simp_ok. unhide 12%nat. lia.
  - intros E. assert ((clo (hWork c) + liv (hWork c) + clo (hStdin c) + liv (hStdin c) + clo (hStdout c) + liv (hStdout c) = 0)%nat)
      by (open_ok O c; simp_ok; unhide 8%nat; lia). solve_ok O c.
Qed.

Lemma ok_new id server : ok (new_channel id server) (fun _ => 0%nat) 0 0 0.
Proof. split; try (intros []; cbn; lia); cbn; lia. Qed.
