(* ===== verification/ChannelSystem.v ===== *)
(** * ChannelSystem: channels among their events *)

From Stdlib Require Import String ZArith Lia List Bool.
From stdpp Require Import base list numbers option gmap.
From S2P Require Import Prelude Defs OrdMap Session SessionProps ChannelIo Channel ChannelProps.

(** ** What a handler does to one channel *)

(** The channel at [a] becomes [c'], the callbacks [l] and messages [m] are added. *)
Record ev (a : addr) (c' : HdcChannel) (l : list CCb) (m : list Ctrl) (s s' : Channels) : Prop := {
  e_heap : ch_heap s' = <[a := c']> (ch_heap s);
  e_map : mapChannel s' = mapChannel s;
  e_loop : ch_loop s' = ch_loop s ++ l;
  e_ctrl : ch_ctrl s' = ch_ctrl s ++ m;
  e_hold : ch_holders s' = ch_holders s
}.

Lemma ev_refl a c s : ch_heap s !! a = Some c -> ev a c [] [] s s.
Proof. intros Ha. split; rewrite ?app_nil_r; try done. by rewrite insert_id. Qed.

Lemma ev_trans a c1 c2 l1 l2 m1 m2 s s1 s2 : ev a c1 l1 m1 s s1 -> ev a c2 l2 m2 s1 s2 -> ev a c2 (l1 ++ l2) (m1 ++ m2) s s2.
Proof.
  intros [H1 H2 H3 H4 H5] [G1 G2 G3 G4 G5]. split; try congruence; [by rewrite G1, H1, insert_insert_eq|by rewrite G3, H3, app_assoc|].
  by rewrite G4, H4, app_assoc.
Qed.

Lemma ev_get a c l m s s' : ev a c l m s s' -> ch_heap s' !! a = Some c.
Proof. intros E. by rewrite (e_heap _ _ _ _ _ _ E), lookup_insert_eq. Qed.

(** It keeps the invariant of the channel, whatever else is pending. *)
Record keeps (a : addr) (c c' : HdcChannel) (l : list CCb) : Prop := {
  kp_addr : Forall (fun cb => cb_addr cb = a /\ kind cb <> KCl Child DeleteCh) l;
  kp_id : channelId c' = channelId c;
  kp_ok : forall n ho at_ de, ok c n ho at_ de -> ok c' (add (map kind l) n) ho at_ de
}.

Lemma add_app l m n K : add (l ++ m) n K = add l (add m n) K.
Proof. induction l as [|k l IH]; [done|]. cbn [app add]. by rewrite IH. Qed.
Lemma add_comm l m n K : add l (add m n) K = add m (add l n) K.
Proof.
  revert n. induction l as [|k l IH]; intros n; [done|]. cbn [add]. rewrite IH. clear IH. induction m as [|x m IH]; [done|]. cbn [add]. rewrite <- IH. lia.
Qed.

Lemma keeps_refl a c : keeps a c c [].
Proof. by split. Qed.
Lemma keeps_trans a c c1 c2 l1 l2 : keeps a c c1 l1 -> keeps a c1 c2 l2 -> keeps a c c2 (l1 ++ l2).
Proof.
  intros [H1 H2 H3] [G1 G2 G3]. split; [by apply Forall_app|congruence|]. intros n ho at_ de O. apply H3, G3 in O.
  eapply ok_ext; [|exact O]. intros K. rewrite map_app, add_app. apply add_comm.
Qed.

(** The table is about channels of the heap. *)
Record tabled (s : Channels) : Prop := {
  tb_map : forall k a, In (k, a) (mapChannel s) -> exists c, ch_heap s !! a = Some c /\ channelId c = k;
  tb_ids : forall a b c d, ch_heap s !! a = Some c -> ch_heap s !! b = Some d -> channelId c = channelId d -> a = b
}.

Lemma ev_tabled a c c' l m s s' : tabled s -> ch_heap s !! a = Some c -> channelId c' = channelId c -> ev a c' l m s s' -> tabled s'.
Proof.
  intros [T1 T2] Ha Hi E.
  assert (Hid : forall b d, ch_heap s' !! b = Some d -> exists d0, ch_heap s !! b = Some d0 /\ channelId d0 = channelId d).
  { intros b d. rewrite (e_heap _ _ _ _ _ _ E). intros [[<- <-]|[? ?]]%lookup_insert_Some; eauto. }
  split.
  - rewrite (e_map _ _ _ _ _ _ E). intros k b Hin. destruct (T1 _ _ Hin) as (d & Hb & Hk). rewrite (e_heap _ _ _ _ _ _ E).
    destruct (decide (b = a)) as [->|Hne]; [exists c'; rewrite lookup_insert_eq; split; [done|congruence]|].
    exists d. by rewrite lookup_insert_ne.
  - intros b1 b2 d1 d2 H1 H2 Ed. destruct (Hid _ _ H1) as (e1 & G1 & E1), (Hid _ _ H2) as (e2 & G2 & E2). eapply T2; [exact G1|exact G2|congruence].
Qed.

(** A handler that succeeds and keeps the invariant. *)
Definition does (a : addr) (s : Channels) (r : res Channels) : Prop :=
  forall c, tabled s -> ch_heap s !! a = Some c -> exists s' c' l, r = Ok s' /\ ev a c' l [] s s' /\ keeps a c c' l.

Lemma does_ret a s : does a s (Ok s).
Proof. intros c T Ha. exists s, c, []. split; [done|]. split; [by apply ev_refl|apply keeps_refl]. Qed.

Lemma does_bind a s r (k : Channels -> res Channels) : does a s r -> (forall s', does a s' (k s')) -> does a s (s' ← r; k s').
Proof.
  intros H1 H2 c T Ha. destruct (H1 c T Ha) as (s1 & c1 & l1 & -> & E1 & K1). cbn [mbind res_bind].
  destruct (H2 s1 c1 (ev_tabled _ _ _ _ _ _ _ T Ha (kp_id _ _ _ _ K1) E1) (ev_get _ _ _ _ _ _ E1)) as (s2 & c2 & l2 & -> & E2 & K2).
  exists s2, c2, (l1 ++ l2). split; [done|]. split; [by apply (ev_trans _ c1 c2 l1 l2 [] [] s s1 s2)|by eapply keeps_trans].
Qed.

Lemma upd_ev a c f s : ch_heap s !! a = Some c -> exists s', upd a f s = Ok s' /\ ev a (f c) [] [] s s'.
Proof. intros Ha. unfold upd, chan. rewrite Ha. eexists. split; [reflexivity|]. by split; rewrite ?app_nil_r. Qed.

Lemma TryClose_ev a c h k s : ch_heap s !! a = Some c -> exists s', TryCloseHandle a h false k s = Ok s' /\
  (if has_loop (get_h h c) && negb (uv_is_closing (get_h h c)) then get_h h c = UvLive /\ ev a (set_h h UvClosing c) [CbClosed a h k] [] s s'
   else s' = s).
Proof.
  intros Ha. unfold TryCloseHandle, chan. rewrite Ha. cbn [deref mbind res_bind]. destruct (get_h h c) eqn:E; cbn [has_loop uv_is_closing andb negb]; eauto.
  destruct (upd_ev a c (set_h h UvClosing) s Ha) as (s1 & -> & E1). cbn [mbind res_bind]. eexists. split; [reflexivity|]. split; [done|].
  destruct E1. split; cbn; try done. by rewrite e_loop0, app_nil_r.
Qed.

Lemma does_close a h s : does a s (TryCloseHandle a h false NoCb s).
Proof.
  intros c T Ha. destruct (TryClose_ev a c h NoCb s Ha) as (s1 & -> & H). destruct (_ && _).
  - destruct H as [Hl E]. exists s1, (set_h h UvClosing c), [CbClosed a h NoCb]. split; [done|]. split; [done|]. split.
    + repeat constructor. done.
    + done.
    + intros n ho at_ de O. by apply ok_close_none.
  - subst. by apply (does_ret a s).
Qed.

Lemma does_same a f s : (forall c, channelId (f c) = channelId c /\ (forall h, get_h h (f c) = get_h h c) /\ ref (f c) = ref c /\ isDead (f c) = isDead c /\
  serverOrClient (f c) = serverOrClient c /\ childCleared (f c) = childCleared c /\ handshakeOK (f c) = handshakeOK c /\
  uvHandleRef (f c) = uvHandleRef c) -> does a s (upd a f s).
Proof.
  intros Hf c T Ha. destruct (upd_ev a c f s Ha) as (s1 & -> & E). destruct (Hf c) as (E0 & E1 & E2 & E3 & E4 & E5 & E6 & E7).
  exists s1, (f c), []. split; [done|]. split; [done|]. split; [done|done|]. intros n ho at_ de O. by eapply ok_same.
Qed.

Lemma does_get a s (k : HdcChannel -> res Channels) : (forall c, ch_heap s !! a = Some c -> does a s (k c)) -> does a s (c ← chan a s; k c).
Proof. intros H c T Ha. unfold chan. rewrite Ha. cbn [deref mbind res_bind]. by apply H. Qed.

Lemma does_write env a h file d s : does a s (write_to env a h file d s).
Proof.
  apply does_get. intros c Ha. destruct (get_h h c) eqn:Eh; try apply does_ret. destruct (v_writable env); [|apply does_ret].
  intros c' T Ha'. rewrite Ha in Ha'. injection Ha' as <-.
  destruct (upd_ev a c (fun c => set_ref (ref c + 1) c) s Ha) as (s1 & -> & E1). cbn [mbind res_bind]. destruct (v_write env).
  - eexists _, _, [CbWrote a h file]. split; [reflexivity|]. split.
    { destruct E1. split; cbn; try done. by rewrite e_loop0, app_nil_r. }
    split; [by repeat constructor|done|]. intros n ho at_ de O. by apply ok_write.
  - destruct (upd_ev a _ (fun c => set_ref (ref c - 1) c) s1 (ev_get _ _ _ _ _ _ E1)) as (s2 & E & E2). unfold unref. rewrite E.
    exists s2, c, []. split; [done|]. split; [|apply keeps_refl]. pose proof (ev_trans _ _ _ _ _ _ _ _ _ _ E1 E2) as E3.
    assert (Ec : set_ref (ref (set_ref (ref c + 1) c) - 1) (set_ref (ref c + 1) c) = c).
    { destruct c. unfold set_ref. cbn. f_equal. lia. }
    by rewrite Ec in E3.
Qed.

Lemma does_send env main a buf cmd s : does a s (SendChannel env main a buf cmd s).
Proof. unfold SendChannel. destruct (ChannelFrame buf); [|apply does_ret]. destruct (v_alloc env); [apply does_write|apply does_ret]. Qed.
Lemma does_send_cmd env main a cmd buf s : does a s (SendChannelWithCmd env main a cmd buf s).
Proof. unfold SendChannelWithCmd. destruct (v_alloc env); [apply does_send|apply does_ret]. Qed.
Lemma does_echo env a buf s : does a s (EchoToClient env a buf s).
Proof. unfold EchoToClient. destruct (ChannelFrame buf); [|apply does_ret]. destruct (v_alloc env); [apply does_write|apply does_ret]. Qed.
Lemma does_send_each env main a out s : does a s (send_each env main a out s).
Proof.
  revert s. induction out as [|[cmd buf] out IH]; intros s; [apply does_ret|]. cbn [send_each]. apply does_bind; [apply does_send_cmd|done].
Qed.

(** [FreeChannel] of a channel in the table. *)
Lemma does_free_at env a id s : om_find id (mapChannel s) = Some a -> does a s (FreeChannel env true id s).
Proof.
  intros Hf. unfold FreeChannel. cbn [negb]. change (AdminChannel OP_QUERY id None s) with (Ok (om_find id (mapChannel s), s) : res (option addr * Channels)).
  cbn [mbind res_bind]. rewrite Hf. apply does_get. intros c Ha. destruct (isDead c) eqn:Ed; [apply does_ret|].
  destruct (v_timer env); cbn [negb]; [|apply does_ret]. intros c' T Ha'. rewrite Ha in Ha'. injection Ha' as <-.
  destruct (upd_ev a c (set_isDead true) (push (CbOperate a) s) Ha) as (s1 & -> & E1).
  exists s1, (set_isDead true c), [CbOperate a]. split; [done|]. split.
  - destruct E1. split; cbn in *; try done. by rewrite e_loop0, app_nil_r.
  - split; [by repeat constructor|done|]. intros n ho at_ de O. by apply ok_free.
Qed.

Lemma does_async a env id s : does a s (FreeChannel env false id s).
Proof.
  intros c T Ha. unfold FreeChannel. cbn [negb]. eexists _, c, []. split; [reflexivity|]. split; [|apply keeps_refl]. unfold PushAsyncMessage.
  destruct (v_async env); split; cbn; rewrite ?app_nil_r; try done; by rewrite insert_id.
Qed.

Lemma does_free a env main s : does a s (c ← chan a s; FreeChannel env main (channelId c) s).
Proof.
  apply does_get. intros c Ha. destruct main; [|apply does_async]. destruct (om_find (channelId c) (mapChannel s)) as [b|] eqn:Hf.
  - intros c' T Ha'. rewrite Ha in Ha'. injection Ha' as <-. apply om_find_In in Hf as Hin. destruct (tb_map _ T _ _ Hin) as (d & Hb & Hk).
    assert (b = a) as -> by (eapply (tb_ids _ T); [exact Hb|exact Ha|congruence]). by apply (does_free_at env a (channelId c) s Hf).
  - unfold FreeChannel. cbn [negb]. change (AdminChannel OP_QUERY (channelId c) None s) with (Ok (om_find (channelId c) (mapChannel s), s) : res (option addr * Channels)).
    cbn [mbind res_bind]. rewrite Hf. apply does_ret.
Qed.

Lemma does_read_error env a h s : does a s (ReadStream_error env a h s).
Proof. unfold ReadStream_error. apply does_bind; [apply does_close|]. intros s'. apply does_free. Qed.
Lemma does_read env a h out ex s : does a s (ReadStream_data env a h out ex s).
Proof. unfold ReadStream_data. apply does_bind; [apply does_send_each|]. intros s'. destruct ex; [apply does_free|apply does_ret]. Qed.

(** ** Steps of the system *)

Lemma of_kind_eq a K cb : cb_addr cb = a -> of_kind a K cb = k_eqb (kind cb) K.
Proof. intros E. unfold of_kind. by rewrite E, Z.eqb_refl. Qed.
Lemma of_kind_ne a K cb : cb_addr cb <> a -> of_kind a K cb = false.
Proof. intros E. unfold of_kind. by rewrite (proj2 (Z.eqb_neq _ _)). Qed.

Lemma num_kinds a K l : Forall (fun cb => cb_addr cb = a) l -> num (of_kind a K) l = add (map kind l) (fun _ => 0%nat) K.
Proof.
  induction 1 as [|cb l Hc _ IH]; [done|]. cbn [map add]. rewrite <- IH. unfold num. cbn [List.filter]. rewrite of_kind_eq by done.
  by destruct (k_eqb _ _).
Qed.
Lemma num_other a b K l : Forall (fun cb => cb_addr cb = a) l -> b <> a -> num (of_kind b K) l = 0%nat.
Proof.
  intros Hl Hne. apply num_zero. intros cb Hcb. rewrite Forall_forall in Hl. apply of_kind_ne. rewrite (Hl cb) by done. congruence.
Qed.
Lemma add_zero ks n K : add ks n K = (n K + add ks (fun _ => 0) K)%nat.
Proof. induction ks as [|k ks IH]; cbn [add]; [lia|]. rewrite IH. lia. Qed.

Definition natt (id : Z) (m : list Ctrl) : nat := num (fun m => match m with CtrlAttach _ c => c =? id | _ => false end) m.
Definition ndet (id : Z) (m : list Ctrl) : nat := num (fun m => match m with CtrlDetach _ c => c =? id | _ => false end) m.

(** [s0] is [s] without what the step takes from the channel at [a]. *)
Record minus (a : addr) (c : HdcChannel) (s s0 : Channels) : Prop := {
  mn_heap : ch_heap s0 = ch_heap s;
  mn_map : mapChannel s0 = mapChannel s;
  mn_cnt : forall b K, b <> a -> cnt b s0 K = cnt b s K;
  mn_loop : forall cb, cb ∈ ch_loop s0 -> cb ∈ ch_loop s;
  mn_held : forall b, b <> a -> held b s0 = held b s;
  mn_holders : forall b, b ∈ ch_holders s0 -> b ∈ ch_holders s;
  mn_ctrl : forall id, id <> channelId c -> att id s0 = att id s /\ det id s0 = det id s
}.

Lemma channel_step_inv a c c' l m s s0 s' : Inv s -> ch_heap s !! a = Some c -> minus a c s s0 -> ev a c' l m s0 s' ->
  Forall (fun cb => cb_addr cb = a) l -> Forall (fun x => ctrl_channel x = channelId c) m -> channelId c' = channelId c ->
  ok c' (add (map kind l) (cnt a s0)) (held a s0) (att (channelId c) s0 + natt (channelId c) m) (det (channelId c) s0 + ndet (channelId c) m) ->
  ((exists k, In (k, a) (mapChannel s)) -> add (map kind l) (cnt a s0) (KCl Child DeleteCh) = 0%nat) -> Inv s'.
Proof.
  intros I Ha [M1 M2 M3 M4 M5 M6 M7] [E1 E2 E3 E4 E5] Hl Hm Hi O HD.
  assert (Hcnt : forall K, cnt a s' K = add (map kind l) (cnt a s0) K).
  { intros K. unfold cnt at 1. rewrite E3, num_app, (num_kinds a K l Hl). by rewrite (add_zero _ (cnt a s0)). }
  assert (Hatt : forall id, att id s' = (att id s0 + natt id m)%nat /\ det id s' = (det id s0 + ndet id m)%nat).
  { intros id. unfold att, det. by rewrite E4, !num_app. }
  apply (local_inv a c c' s s' I Ha).
  - split.
    + congruence.
    + done.
    + congruence.
    + intros b K Hne. unfold cnt at 1. rewrite E3, num_app, (num_other a b K l Hl Hne). rewrite Nat.add_0_r. by apply M3.
    + rewrite E3. intros cb [Hc|Hc]%elem_of_app; [right; auto|left]. rewrite Forall_forall in Hl. by apply Hl.
    + intros b Hne. unfold held. rewrite E5. by apply M5.
    + rewrite E5. intros b Hb. right. auto.
    + intros id Hne. destruct (Hatt id) as [-> ->]. destruct (M7 id Hne) as [-> ->].
      assert (natt id m = 0%nat /\ ndet id m = 0%nat) as [-> ->]; [|lia].
      split; apply num_zero; intros x Hx; rewrite Forall_forall in Hm; specialize (Hm x Hx); destruct x; cbn in Hm; try done;
        apply Z.eqb_neq; congruence.
  - destruct (Hatt (channelId c)) as [-> ->]. unfold held at 1. rewrite E5. eapply ok_ext; [|exact O]. by intros K.
  - intros Hk. rewrite Hcnt. by apply HD.
Qed.

Lemma minus_refl a c s : minus a c s s.
Proof. by split. Qed.
Lemma Inv_tabled s : Inv s -> tabled s.
Proof. intros I. split; [|apply I]. intros k a Hin. destruct (iv_map _ I _ _ Hin) as (c & ? & ? & _). eauto. Qed.

Lemma no_delete a l : Forall (fun cb => cb_addr cb = a /\ kind cb <> KCl Child DeleteCh) l -> forall n,
  Forall (fun cb => cb_addr cb = a) l /\ add (map kind l) n (KCl Child DeleteCh) = n (KCl Child DeleteCh).
Proof.
  induction 1 as [|cb l [H1 H2] _ IH]; intros n; [done|]. destruct (IH n) as [G1 G2]. split; [by constructor|]. cbn [map add]. rewrite G2.
  assert (k_eqb (kind cb) (KCl Child DeleteCh) = false) as ->; [|done]. by destruct (kind cb) as [[] []|[]| | | | |].
Qed.

(** A handler that keeps the invariant of a channel keeps the invariant. *)
Lemma does_inv a c s r : Inv s -> ch_heap s !! a = Some c -> does a s r -> exists s', r = Ok s' /\ Inv s'.
Proof.
  intros I Ha D. destruct (D c (Inv_tabled s I) Ha) as (s' & c' & l & -> & E & [K1 K2 K3]). exists s'. split; [done|].
  destruct (no_delete a l K1 (cnt a s)) as [Hl Hd].
  apply (channel_step_inv a c c' l [] s s s' I Ha (minus_refl a c s) E Hl); [by constructor|done|..].
  - rewrite !Nat.add_0_r. apply K3, (iv_ok _ I), Ha.
  - intros [k Hk]. rewrite Hd. destruct (iv_map _ I _ _ Hk) as (d & _ & _ & ?). done.
Qed.

(** What a handler that takes something from a channel makes of it. *)
Definition lands (a : addr) (c : HdcChannel) (s : Channels) (r : res Channels) (n : CKind -> nat) (ho at_ de : nat) : Prop :=
  exists s' c' l m, r = Ok s' /\ ev a c' l m s s' /\ Forall (fun x => cb_addr x = a) l /\ Forall (fun x => ctrl_channel x = channelId c) m /\
    channelId c' = channelId c /\ ok c' (add (map kind l) n) ho (at_ + natt (channelId c) m) (de + ndet (channelId c) m) /\
    add (map kind l) n (KCl Child DeleteCh) = n (KCl Child DeleteCh).

(** Taking a callback from the loop. *)
Lemma take_cb a c s cb : cb ∈ ch_loop s -> cb_addr cb = a ->
  let s0 := set_loop (remove_one cb (ch_loop s)) s in
  minus a c s s0 /\ (forall K, cnt a s K = add [kind cb] (cnt a s0) K).
Proof.
  intros Hin Hc. split.
  - split; try done; cbn.
    + intros b K Hne. unfold cnt. cbn. rewrite (num_remove (of_kind b K) cb (ch_loop s) Hin), of_kind_ne by congruence. done.
    + intros x Hx. by eapply remove_one_in.
  - intros K. unfold cnt at 1. rewrite (num_remove (of_kind a K) cb (ch_loop s) Hin), of_kind_eq by done. done.
Qed.

(** A callback: its handler, started without it, leaves a channel that is in order. *)
Lemma cb_inv a c s cb (r : Channels -> res Channels) : Inv s -> ch_heap s !! a = Some c -> cb ∈ ch_loop s -> cb_addr cb = a ->
  let s0 := set_loop (remove_one cb (ch_loop s)) s in
  (forall n ho at_ de, cnt a s0 = n -> ok c (add [kind cb] n) ho at_ de -> tabled s0 -> ch_heap s0 !! a = Some c ->
    held a s = ho -> att (channelId c) s = at_ -> det (channelId c) s = de ->
    lands a c s0 (r s0) n ho at_ de) ->
  exists s', r s0 = Ok s' /\ Inv s'.
Proof.
  intros I Ha Hin Hc s0 H. destruct (take_cb a c s cb Hin Hc) as [M Hn]. fold s0 in M, Hn.
  pose proof (iv_ok _ I _ _ Ha) as O. assert (O' : ok c (add [kind cb] (cnt a s0)) (held a s) (att (channelId c) s) (det (channelId c) s)).
  { eapply ok_ext; [|exact O]. exact Hn. }
  assert (T0 : tabled s0) by (destruct (Inv_tabled _ I) as [T1 T2]; by split).
  destruct (H _ _ _ _ eq_refl O' T0 Ha eq_refl eq_refl eq_refl) as (s' & c' & l & m & Hr & E & Hl & Hm & Hi & Ok' & Hd).
  exists s'. split; [done|]. eapply (channel_step_inv a c c' l m s s0); try done. intros [k Hk]. rewrite Hd. destruct (iv_map _ I _ _ Hk) as (d & _ & _ & Hz).
  rewrite Hn in Hz. cbn [add] in Hz. lia.
Qed.

(** After a first change of the channel, a handler that keeps the invariant. *)
Lemma then_does a c c1 l1 s s1 (r : Channels -> res Channels) n ho at_ de : tabled s -> ch_heap s !! a = Some c -> ev a c1 l1 [] s s1 ->
  channelId c1 = channelId c -> Forall (fun cb => cb_addr cb = a /\ kind cb <> KCl Child DeleteCh) l1 ->
  ok c1 (add (map kind l1) n) ho at_ de -> does a s1 (r s1) ->
  lands a c s (r s1) n ho at_ de.
Proof.
  intros T Ha E1 Hi Hl1 O D. destruct (D c1 (ev_tabled _ _ _ _ _ _ _ T Ha Hi E1) (ev_get _ _ _ _ _ _ E1)) as (s2 & c2 & l2 & -> & E2 & [K1 K2 K3]).
  assert (Hl : Forall (fun cb => cb_addr cb = a /\ kind cb <> KCl Child DeleteCh) (l1 ++ l2)) by by apply Forall_app.
  destruct (no_delete a _ Hl n) as [G1 G2]. exists s2, c2, (l1 ++ l2), []. split; [done|]. split; [by apply (ev_trans _ c1 c2 l1 l2 [] [] s s1 s2)|].
  split; [done|]. split; [constructor|]. split; [congruence|]. split; [|done]. rewrite !Nat.add_0_r. eapply ok_ext; [|apply K3, O].
  intros K. rewrite map_app, add_app. apply add_comm.
Qed.

Lemma WriteCallback_inv env a c h file status s : Inv s -> ch_heap s !! a = Some c -> CbWrote a h file ∈ ch_loop s ->
  exists s', run_cb env (CbWrote a h file) status (set_loop (remove_one (CbWrote a h file) (ch_loop s)) s) = Ok s' /\ Inv s'.
Proof.
  intros I Ha Hin. eapply (cb_inv a c s _ (run_cb env (CbWrote a h file) status) I Ha Hin eq_refl).
  intros n ho at_ de _ O T Ha0 _ _ _. set (s0 := set_loop _ s) in *. apply ok_wrote in O.
  assert (W : forall s1, ch_heap s1 = ch_heap s0 -> mapChannel s1 = mapChannel s0 -> ch_loop s1 = ch_loop s0 -> ch_ctrl s1 = ch_ctrl s0 ->
    ch_holders s1 = ch_holders s0 -> lands a c s0 (WriteCallback env a h status s1) n ho at_ de).
  { intros s1 Q1 Q2 Q3 Q4 Q5. unfold WriteCallback. assert (Ha1 : ch_heap s1 !! a = Some c) by by rewrite Q1.
    destruct (upd_ev a c (fun c => set_ref (ref c - 1) c) s1 Ha1) as (s2 & E & [F1 F2 F3 F4 F5]). unfold unref. rewrite E. cbn [mbind res_bind].
    assert (V : ev a (set_ref (ref c - 1) c) [] [] s0 s2) by (split; congruence).
    destruct (then_does a c _ [] s0 s2 (fun s => if status <? 0 then
       s ← upd a (fun c => set_writeFailed (u32 (writeFailedTimes c + 1)) c) s; s ← TryCloseHandle a h false NoCb s; c ← chan a s;
       if negb (isDead c) && (ref c =? 0) then FreeChannel env (main_handle h) (channelId c) s else Ok s else Ok s) n ho at_ de T Ha0 V eq_refl (Forall_nil_2 _) O)
      as (s3 & c3 & l3 & m3 & E3 & R); [|by exists s3, c3, l3, m3].
    destruct (status <? 0); [|apply does_ret]. apply does_bind; [by apply does_same|]. intros s3. apply does_bind; [apply does_close|]. intros s4.
    apply does_get. intros c4 Hc4. destruct (_ && _); [|apply does_ret].
    intros c5 T5 Hc5. assert (c5 = c4) as -> by congruence. pose proof (does_free a env (main_handle h) s4 c4 T5 Hc4) as G.
    unfold chan in G. rewrite Hc4 in G. exact G. }
  cbn [run_cb]. destruct file; [|by apply W]. unfold FileCmdWriteCallback, chan. rewrite Ha0. cbn [deref mbind res_bind]. by apply W.
Qed.

Lemma lands_upd a c f s n ho at_ de : ch_heap s !! a = Some c -> channelId (f c) = channelId c -> ok (f c) n ho at_ de ->
  lands a c s (upd a f s) n ho at_ de.
Proof.
  intros Ha Hi O. destruct (upd_ev a c f s Ha) as (s1 & -> & E). exists s1, (f c), [], []. rewrite !Nat.add_0_r. split_and!; first [done|constructor].
Qed.

Lemma lands_push a c cb s n ho at_ de : ch_heap s !! a = Some c -> cb_addr cb = a -> kind cb <> KCl Child DeleteCh -> ok c (add [kind cb] n) ho at_ de ->
  lands a c s (Ok (push cb s)) n ho at_ de.
Proof.
  intros Ha Hc Hk O. exists (push cb s), c, [cb], []. rewrite !Nat.add_0_r. destruct (no_delete a [cb] (List.Forall_cons _ _ _ (conj Hc Hk) (List.Forall_nil _)) n) as [G1 G2].
  split; [done|]. split; [split; cbn; rewrite ?app_nil_r; try done; by rewrite insert_id|]. split_and!; first [done|constructor].
Qed.

(** *** Handles that are closed *)

Lemma closed_inv env a c h k status s : Inv s -> ch_heap s !! a = Some c -> CbClosed a h k ∈ ch_loop s -> k <> DeleteCh ->
  (forall f, CbWrote a h f ∉ ch_loop s) ->
  exists s', run_cb env (CbClosed a h k) status (set_loop (remove_one (CbClosed a h k) (ch_loop s)) s) = Ok s' /\ Inv s'.
Proof.
  intros I Ha Hin Hk Hw. eapply (cb_inv a c s _ (run_cb env (CbClosed a h k) status) I Ha Hin eq_refl).
  intros n ho at_ de Hn O T Ha0 _ _ _. set (s0 := set_loop _ s) in *.
  assert (Hz : n (KWr h) = 0%nat).
  { rewrite <- Hn. apply num_zero. intros cb Hcb%remove_one_in. destruct (of_kind a (KWr h) cb) eqn:E; [|done]. exfalso.
    unfold of_kind in E. apply andb_true_iff in E as [E1 E2]. apply Z.eqb_eq in E1. destruct cb as [| b h' f| | | | |]; try done. cbn in *. subst b.
    assert (h' = h) as -> by (by destruct h, h'). by apply (Hw f). }
  pose proof (ok_closed c n ho at_ de h k O Hz) as O'. cbn [run_cb]. unfold closed.
  destruct (upd_ev a c (set_h h UvClosed) s0 Ha0) as (s1 & -> & E1). cbn [mbind res_bind].
  assert (L : forall f, channelId (f (set_h h UvClosed c)) = channelId c -> ok (f (set_h h UvClosed c)) n ho at_ de -> lands a c s0 (upd a f s1) n ho at_ de).
  { intros f Hi Of. destruct (upd_ev a _ f s1 (ev_get _ _ _ _ _ _ E1)) as (s2 & -> & E2). exists s2, (f (set_h h UvClosed c)), [], [].
    rewrite !Nat.add_0_r. split; [done|]. split; [by apply (ev_trans _ (set_h h UvClosed c) _ [] [] [] [] s0 s1 s2)|]. split_and!; first [done|constructor]. }
  destruct k; try done; cbn [run_close].
  - exists s1, (set_h h UvClosed c), [], []. rewrite !Nat.add_0_r. split_and!; first [done|constructor].
  - by apply (L (fun c => set_uvHandleRef (u8 (uvHandleRef c - 1)) c)).
  - by apply (L (fun c => set_ref (ref c - 1) c)).
  - by apply (L (set_childCleared true)).
Qed.

(** *** Deleting a channel *)

Lemma delete_inv a c s s' : Inv s -> ch_heap s !! a = Some c -> ch_heap s' = delete a (ch_heap s) ->
  (forall k b, In (k, b) (mapChannel s') -> In (k, b) (mapChannel s) /\ b <> a) ->
  (forall cb, cb ∈ ch_loop s' -> cb ∈ ch_loop s /\ cb_addr cb <> a) -> (forall b K, b <> a -> cnt b s' K = cnt b s K) ->
  ch_ctrl s' = ch_ctrl s -> ch_holders s' = ch_holders s -> a ∉ ch_holders s -> Inv s'.
Proof.
  intros I Ha Hh Hm Hl Hc Hct Hho Hna. assert (Hget : forall b d, ch_heap s' !! b = Some d -> b <> a /\ ch_heap s !! b = Some d).
  { intros b d. rewrite Hh. intros H%lookup_delete_Some. destruct H as [? ?]. auto. }
  split.
  - intros b d [Hne Hb]%Hget. unfold held, att, det. rewrite Hct, Hho. eapply ok_ext; [|apply (iv_ok _ I), Hb]. intros K. symmetry. by apply Hc.
  - intros cb Hcb. destruct (Hl _ Hcb) as [Hin Hne]. destruct (iv_loop _ I _ Hin) as [d Hd]. exists d. by rewrite Hh, lookup_delete_ne.
  - rewrite Hho. intros b Hb. destruct (iv_held _ I _ Hb) as [d Hd]. exists d. rewrite Hh, lookup_delete_ne; [done|]. by intros ->.
  - intros k b Hin. destruct (Hm _ _ Hin) as [Hin' Hne]. destruct (iv_map _ I _ _ Hin') as (d & Hd & Hk & Hz). exists d.
    rewrite Hh, lookup_delete_ne by done. rewrite Hc by done. done.
  - intros b1 b2 d1 d2 [? H1]%Hget [? H2]%Hget. by apply (iv_ids _ I).
Qed.

Lemma map_entry a c s k : Inv s -> ch_heap s !! a = Some c -> In (k, a) (mapChannel s) -> k = channelId c.
Proof. intros I Ha Hin. destruct (iv_map _ I _ _ Hin) as (d & Hd & <- & _). congruence. Qed.

(** The rest of a channel that can be deleted: no other callback, no holder. *)
Lemma nothing_left a c s cb : Inv s -> ch_heap s !! a = Some c -> cb ∈ ch_loop s -> cb_addr cb = a ->
  let s0 := set_loop (remove_one cb (ch_loop s)) s in
  (forall K, cnt a s0 K = 0%nat) -> forall x, x ∈ ch_loop s0 -> x ∈ ch_loop s /\ cb_addr x <> a.
Proof.
  intros I Ha Hin Hc s0 Hz x Hx. split; [by apply (remove_one_in cb)|]. intros E. specialize (Hz (kind x)). unfold cnt in Hz.
  pose proof (proj1 (num_zero _ _) Hz x Hx) as Hf. rewrite of_kind_eq in Hf by done. by destruct (kind x) as [[] []|[]| | | | |].
Qed.

Lemma held_zero a s : held a s = 0%nat -> a ∉ ch_holders s.
Proof. unfold held. rewrite num_zero. intros H Hin. specialize (H a Hin). by rewrite Z.eqb_refl in H. Qed.

Lemma ok_done c n ho at_ de : ok c n ho at_ de -> (forall h, in_loop (get_h h c) = false) ->
  (n KOp + n KCk + n KFi + n KNb + n KNc = 0)%nat -> forall K, n K = 0%nat.
Proof.
  intros O Hh Hz. assert (Hv : forall h, (clo (get_h h c) = 0 /\ liv (get_h h c) = 0)%nat) by (intros h; specialize (Hh h); by destruct (get_h h c)).
  intros [h k|h| | | | |]; [|apply (k_write _ _ _ _ _ O); destruct (Hv h); lia|lia..].
  pose proof (k_close _ _ _ _ _ O h). destruct (Hv h). destruct k; lia.
Qed.

Lemma minus_other a s cb b K : cb ∈ ch_loop s -> cb_addr cb = a -> b <> a -> cnt b (set_loop (remove_one cb (ch_loop s)) s) K = cnt b s K.
Proof. intros Hin Hc Hne. destruct (take_cb a (new_channel 0 true) s cb Hin Hc) as [M _]. by apply M. Qed.

(** [deleteChannel] as the callback of [uv_close]. *)
Lemma delete_cb_inv env a c status s : Inv s -> ch_heap s !! a = Some c -> CbClosed a Child DeleteCh ∈ ch_loop s ->
  (forall f, CbWrote a Child f ∉ ch_loop s) ->
  exists s', run_cb env (CbClosed a Child DeleteCh) status (set_loop (remove_one (CbClosed a Child DeleteCh) (ch_loop s)) s) = Ok s' /\ Inv s'.
Proof.
  intros I Ha Hin Hw. set (cb := CbClosed a Child DeleteCh) in *. set (s0 := set_loop (remove_one cb (ch_loop s)) s).
  destruct (take_cb a c s cb Hin eq_refl) as [M Hn]. fold s0 in M, Hn. pose proof (iv_ok _ I _ _ Ha) as O0.
  assert (O : ok c (add [KCl Child DeleteCh] (cnt a s0)) (held a s) (att (channelId c) s) (det (channelId c) s)) by (eapply ok_ext; [exact Hn|exact O0]).
  assert (Hz : cnt a s0 (KWr Child) = 0%nat).
  { apply num_zero. intros x Hx%remove_one_in. destruct (of_kind a (KWr Child) x) eqn:E; [|done]. exfalso.
    unfold of_kind in E. apply andb_true_iff in E as [E1 E2]. apply Z.eqb_eq in E1. destruct x as [| b h' f| | | | |]; try done. cbn in *. subst b.
    destruct h'; try done. by apply (Hw f). }
  destruct (ok_closed c _ _ _ _ Child DeleteCh O Hz) as (_ & H1 & H2 & H3 & H4).
  pose proof (k_det _ _ _ _ _ O) as [_ Hdet]. pose proof (k_hold _ _ _ _ _ O) as Hhold. pose proof (k_phase _ _ _ _ _ O) as Hph.
  pose proof (b2n_bound (isDead c)). simp_ok.
  assert (Hc0 : forall K, cnt a s0 K = 0%nat).
  { intros K. assert (Oc : ok (set_h Child UvClosed c) (cnt a s0) (held a s) (att (channelId c) s) (det (channelId c) s)) by solve_ok O c.
    eapply (ok_done _ _ _ _ _ Oc); [|lia]. intros []; cbn; done. }
  change (run_cb env cb status _) with (closed a Child DeleteCh s0). unfold closed.
  destruct (upd_ev a c (set_h Child UvClosed) s0 Ha) as (s1 & -> & [E1 E2 E3 E4 E5]). cbn [mbind res_bind run_close]. unfold delete_channel, chan. rewrite E1, lookup_insert_eq. cbn [deref mbind res_bind set_h hWork hChild hStdin hStdout in_loop].
  rewrite H1, H2, H3. cbn [orb]. eexists. split; [reflexivity|]. apply (delete_inv a c s); try done; cbn.
  - by rewrite delete_insert_eq.
  - rewrite E2. intros k b Hk. split; [done|]. intros ->. destruct (iv_map _ I _ _ Hk) as (d & _ & _ & Hd). rewrite Hn in Hd. cbn in Hd. done.
  - rewrite E3, app_nil_r. by apply (nothing_left a c s cb I Ha Hin eq_refl).
  - intros b K Hne. unfold cnt. cbn. rewrite E3, app_nil_r. by apply (minus_other a).
  - by rewrite E4, app_nil_r.
  - apply held_zero. lia.
Qed.

(** *** The stages of freeing *)

(** What holds back a timer of the main loop: a close of the same loop, a timer
    that was started before. *)
Definition blocks (a : addr) (cb : CCb) : bool :=
  match cb with CbClosed b h _ => (b =? a) && main_handle h | CbNextBind b => b =? a | _ => false end.

Lemma quiet_loop a s l : (forall cb, cb ∈ l -> blocks a cb = false) -> ch_loop s = l -> quiet (cnt a s).
Proof.
  intros Hb El. assert (Hz : forall K, (forall cb, kind cb = K -> cb_addr cb = a -> blocks a cb = true) -> cnt a s K = 0%nat).
  { intros K HK. apply num_zero. rewrite El. intros cb Hcb. destruct (of_kind a K cb) eqn:E; [|done]. unfold of_kind in E.
    apply andb_true_iff in E as [E1 E2]. apply Z.eqb_eq in E1. rewrite <- (Hb cb Hcb). symmetry. apply HK; [|done].
    destruct (kind cb) as [[] []|[]| | | | |], K as [[] []|[]| | | | |]; done. }
  assert (Hk : forall h k, main_handle h = true -> cnt a s (KCl h k) = 0%nat).
  { intros h k Hm. apply Hz. intros [] [=] Ha; subst; cbn in *; by rewrite Z.eqb_refl, Hm. }
  split; [apply Hz; intros [] Hc Ha; try discriminate; cbn in *; subst; by rewrite Z.eqb_refl|]. intros k. split_and!; by apply Hk.
Qed.

Lemma close1_work h p : h <> Work -> hWork (close1 h p).1 = hWork p.1.
Proof. intros Hh. unfold close1. destruct (get_h h p.1); [done| |done..]. by destruct h. Qed.

Lemma Continue_ev env a c s : ch_heap s !! a = Some c -> exists s' l, FreeChannelContinue env a s = Ok s' /\ ev a (cont c).1 l [] s s' /\
  map kind l = (cont c).2 ++ (if v_idle env then [KFi] else []) /\ Forall (fun x => cb_addr x = a /\ kind x <> KCl Child DeleteCh) l.
Proof.
  intros Ha. unfold FreeChannelContinue, cont. destruct (upd_ev a c (set_ioBuf false) s Ha) as (s1 & -> & E1). cbn [mbind res_bind].
  pose proof (ev_get _ _ _ _ _ _ E1) as H1. unfold chan. rewrite H1. cbn [deref mbind res_bind]. change (serverOrClient (set_ioBuf false c)) with (serverOrClient c).
  assert (Hclose : forall h c0 l0 s0, ev a c0 l0 [] s s0 -> Forall (fun x => cb_addr x = a /\ kind x <> KCl Child DeleteCh) l0 ->
    exists s' l, TryCloseHandle a h false CloseHandle s0 = Ok s' /\ ev a (close1 h (c0, map kind l0)).1 l [] s s' /\
      map kind l = (close1 h (c0, map kind l0)).2 /\ Forall (fun x => cb_addr x = a /\ kind x <> KCl Child DeleteCh) l).
  { intros h c0 l0 s0 E0 F0. destruct (TryClose_ev a c0 h CloseHandle s0 (ev_get _ _ _ _ _ _ E0)) as (s' & -> & H). unfold close1. cbn [fst snd].
    destruct (get_h h c0) eqn:Eh; cbn [has_loop uv_is_closing andb negb] in H; try (subst s'; exists s0, l0; by split_and!).
    destruct H as [_ H]. exists s', (l0 ++ [CbClosed a h CloseHandle]). split; [done|]. split; [by apply (ev_trans _ c0 _ l0 _ [] [] s s0 s')|].
    split; [by rewrite map_app|]. apply Forall_app. split; [done|]. by repeat constructor. }
  assert (H2 : exists s2 l2, (if serverOrClient c then Ok s1 else s ← TryCloseHandle a Stdin false CloseHandle s1; TryCloseHandle a Stdout false CloseHandle s) = Ok s2 /\
    let p := (if serverOrClient c then (set_ioBuf false c, []) else close1 Stdout (close1 Stdin (set_ioBuf false c, []))) in
    ev a p.1 l2 [] s s2 /\ map kind l2 = p.2 /\ Forall (fun x => cb_addr x = a /\ kind x <> KCl Child DeleteCh) l2).
  { destruct (serverOrClient c); [exists s1, []; by split_and!|].
    destruct (Hclose Stdin _ [] s1 E1 (Forall_nil_2 _)) as (s2 & l2 & -> & E2 & K2 & F2). cbn [mbind res_bind map] in *.
    destruct (Hclose Stdout _ l2 s2 E2 F2) as (s3 & l3 & -> & E3 & K3 & F3). exists s3, l3. split; [done|]. rewrite K2 in E3, K3.
    destruct (close1 Stdin (set_ioBuf false c, [])) as [x y]. by split_and!. }
  destruct H2 as (s2 & l2 & -> & H2). cbv zeta in H2. set (p := if serverOrClient c then _ else _) in *. destruct H2 as (E2 & K2 & F2).
  cbn [mbind res_bind]. pose proof (ev_get _ _ _ _ _ _ E2) as G2. rewrite G2. cbn [deref mbind res_bind].
  assert (Ew : hWork p.1 = hWork c) by (subst p; destruct (serverOrClient c); [done|]; by rewrite !close1_work).
  rewrite Ew. cbn iota.
  assert (H3 : exists s3 l3, (if uv_is_closing (hWork c) then upd a (fun c => set_uvHandleRef (u8 (uvHandleRef c - 1)) c) s2
       else TryCloseHandle a Work false CloseHandle s2) = Ok s3 /\
    let q := if uv_is_closing (hWork c) then (set_uvHandleRef (u8 (uvHandleRef p.1 - 1)) p.1, p.2) else close1 Work p in
    ev a q.1 l3 [] s s3 /\ map kind l3 = q.2 /\ Forall (fun x => cb_addr x = a /\ kind x <> KCl Child DeleteCh) l3).
  { destruct (uv_is_closing (hWork c)).
    - destruct (upd_ev a _ (fun c => set_uvHandleRef (u8 (uvHandleRef c - 1)) c) s2 G2) as (s3 & -> & E3). exists s3, l2. split; [done|].
      split; [|by split]. pose proof (ev_trans _ _ _ _ _ _ _ _ _ _ E2 E3) as E. by rewrite app_nil_r in E.
    - destruct (Hclose Work _ l2 s2 E2 F2) as (s3 & l3 & -> & E3 & K3 & F3). exists s3, l3. split; [done|]. rewrite K2 in E3, K3.
      destruct p as [x y]. by split_and!. }
  destruct H3 as (s3 & l3 & -> & H3). cbv zeta in H3. destruct H3 as (E3 & K3 & F3). cbn [mbind res_bind].
  destruct (v_idle env).
  - exists (push (CbFinally a) s3), (l3 ++ [CbFinally a]). split; [done|]. split.
    + destruct E3 as [X1 X2 X3 X4 X5]. split; cbn; try done. by rewrite X3, app_assoc.
    + split; [by rewrite map_app, K3|]. apply Forall_app. split; [done|]. by repeat constructor.
  - exists s3, l3. split; [done|]. split; [done|]. split; [by rewrite K3, app_nil_r|done].
Qed.

Lemma close1_id h p : channelId (close1 h p).1 = channelId p.1.
Proof. unfold close1. by destruct (get_h h p.1). Qed.
Lemma cont_id c : channelId (cont c).1 = channelId c.
Proof.
  unfold cont. assert (E : channelId (if serverOrClient c then (set_ioBuf false c, []) else close1 Stdout (close1 Stdin (set_ioBuf false c, []))).1 = channelId c)
    by (destruct (serverOrClient c); [done|]; by rewrite !close1_id).
  destruct (uv_is_closing _); [exact E|]. by rewrite close1_id.
Qed.

Lemma lands_continue env a c s n ho at_ de K : ch_heap s !! a = Some c -> ok c (add [K] n) ho at_ de -> K = KOp \/ K = KCk -> quiet n ->
  (K = KOp -> ref c <= 0 /\ hChild c = UvNone) -> (K = KCk -> childCleared c = true) ->
  lands a c s (FreeChannelContinue env a s) n ho at_ de.
Proof.
  intros Ha O HK Q H1 H2. destruct (Continue_ev env a c s Ha) as (s' & l & -> & E & Hk & F). destruct (no_delete a l F n) as [G1 G2].
  exists s', (cont c).1, l, []. rewrite !Nat.add_0_r. split; [done|]. split; [done|]. split; [done|]. split; [constructor|]. split; [apply cont_id|].
  split; [|done]. rewrite Hk. by eapply ok_continue.
Qed.

Lemma ChOperate_inv env a c status s : Inv s -> ch_heap s !! a = Some c -> CbOperate a ∈ ch_loop s -> (forall cb, cb ∈ ch_loop s -> blocks a cb = false) ->
  exists s', run_cb env (CbOperate a) status (set_loop (remove_one (CbOperate a) (ch_loop s)) s) = Ok s' /\ Inv s'.
Proof.
  intros I Ha Hin Hb. eapply (cb_inv a c s _ (run_cb env (CbOperate a) status) I Ha Hin eq_refl).
  intros n ho at_ de Hn O T Ha0 _ _ _. set (s0 := set_loop _ s) in *.
  assert (Q : quiet n) by (rewrite <- Hn; eapply quiet_loop; [|reflexivity]; intros cb Hcb; by apply Hb, (remove_one_in (CbOperate a))).
  cbn [run_cb]. unfold FreeChannelOpeate, chan. rewrite Ha0. cbn [deref mbind res_bind]. destruct (0 <? ref c) eqn:Er; breflect.
  { by apply lands_push. }
  destruct (has_loop (hChild c)) eqn:Ec.
  - assert (Hne : hChild c <> UvNone) by (intros E; by rewrite E in Ec). destruct (ok_detach c n ho at_ de O Q ltac:(lia) Hne) as (D1 & D2 & D3 & D4).
    destruct (v_ctrl env); cbn [mbind res_bind].
    + set (m := [CtrlDetach (targetSessionId c) (channelId c)]).
      assert (Hm : natt (channelId c) m = 0%nat /\ ndet (channelId c) m = 1%nat) by (unfold natt, ndet, num; cbn; by rewrite Z.eqb_refl).
      destruct Hm as [Hm1 Hm2]. destruct (v_timer env).
      * eexists _, c, [CbCheck a], m. rewrite Hm1, Hm2, Nat.add_0_r, Nat.add_1_r. split; [reflexivity|]. split; [split; cbn; try done; by rewrite insert_id|].
        split_and!; first [done|by repeat constructor].
      * eexists _, c, [], m. rewrite Hm1, Hm2, Nat.add_0_r, Nat.add_1_r. split; [reflexivity|]. split; [split; cbn; rewrite ?app_nil_r; try done; by rewrite insert_id|].
        split_and!; first [done|by repeat constructor].
    + destruct (upd_ev a c (set_childCleared true) s0 Ha0) as (s1 & -> & E1). cbn [mbind res_bind]. destruct (v_timer env).
      * eexists _, (set_childCleared true c), [CbCheck a], []. rewrite !Nat.add_0_r. split; [reflexivity|].
        split; [destruct E1; split; cbn; try done; by rewrite e_loop0, app_nil_r|]. split_and!; first [done|by repeat constructor].
      * exists s1, (set_childCleared true c), [], []. rewrite !Nat.add_0_r. split_and!; first [done|by repeat constructor].
  - apply (lands_continue env a c s0 n ho at_ de KOp); try done; [by left|]. intros _. split; [lia|]. by destruct (hChild c).
Qed.

Lemma ChCheck_inv env a c status s : Inv s -> ch_heap s !! a = Some c -> CbCheck a ∈ ch_loop s -> (forall cb, cb ∈ ch_loop s -> blocks a cb = false) ->
  exists s', run_cb env (CbCheck a) status (set_loop (remove_one (CbCheck a) (ch_loop s)) s) = Ok s' /\ Inv s'.
Proof.
  intros I Ha Hin Hb. eapply (cb_inv a c s _ (run_cb env (CbCheck a) status) I Ha Hin eq_refl).
  intros n ho at_ de Hn O T Ha0 _ _ _. set (s0 := set_loop _ s) in *.
  assert (Q : quiet n) by (rewrite <- Hn; eapply quiet_loop; [|reflexivity]; intros cb Hcb; by apply Hb, (remove_one_in (CbCheck a))).
  cbn [run_cb]. unfold callbackCheckFreeChannelContinue, chan. rewrite Ha0. cbn [deref mbind res_bind]. destruct (childCleared c) eqn:Ecl; cbn [negb].
  - apply (lands_continue env a c s0 n ho at_ de KCk); try done. by right.
  - by apply lands_push.
Qed.

Lemma om_erase_In {V} k (m : list (Z * V)) p : In p (om_erase k m) -> In p m /\ p.1 <> k.
Proof.
  unfold om_erase. rewrite <- !list_elem_of_In. intros H. apply list_elem_of_filter in H as [H1 H2]. done.
Qed.

Lemma erase_inv k s : Inv s -> Inv (set_map (om_erase k (mapChannel s)) s).
Proof.
  intros [H1 H2 H3 H4 H5]. split; try done. intros k' a [Hin _]%om_erase_In. destruct (H4 _ _ Hin) as (c & ?). by exists c.
Qed.

Lemma erased a c s k : Inv s -> ch_heap s !! a = Some c -> ~ In (k, a) (om_erase (channelId c) (mapChannel s)).
Proof. intros I Ha [Hin Hne]%om_erase_In. by apply Hne, (map_entry a c s k I Ha). Qed.

(** The last stage ends: the channel leaves the table and is deleted, at once
    without a child. *)
Lemma Finally_last a c s : Inv s -> ch_heap s !! a = Some c -> CbFinally a ∈ ch_loop s -> uvHandleRef c <= 0 -> hChild c <> UvClosing ->
  let s0 := set_loop (remove_one (CbFinally a) (ch_loop s)) s in
  forall s1, ch_heap s1 = ch_heap s -> mapChannel s1 = om_erase (channelId c) (mapChannel s) -> ch_loop s1 = ch_loop s0 ->
  ch_ctrl s1 = ch_ctrl s -> ch_holders s1 = ch_holders s -> exists s', TryCloseHandle a Child true DeleteCh s1 = Ok s' /\ Inv s'.
Proof.
  intros I Ha Hin Hu Hcl s0 s1 S1 S2 S3 S4 S5. destruct (take_cb a c s (CbFinally a) Hin eq_refl) as [M Hn]. fold s0 in M, Hn.
  pose proof (iv_ok _ I _ _ Ha) as O0.
  assert (O : ok c (add [KFi] (cnt a s0)) (held a s) (att (channelId c) s) (det (channelId c) s)) by (eapply ok_ext; [exact Hn|exact O0]).
  destruct (ok_finally c _ _ _ _ O Hu) as (H1 & H2 & H3 & H4 & H5 & H6).
  assert (Hh1 : ch_heap s1 !! a = Some c) by by rewrite S1.
  unfold TryCloseHandle, chan. rewrite Hh1. cbn [deref mbind res_bind get_h].
  assert (Hdel : in_loop (hChild c) = false -> exists s', run_close DeleteCh a s1 = Ok s' /\ Inv s').
  { intros Hc. cbn [run_close]. unfold delete_channel, chan. rewrite Hh1. cbn [deref mbind res_bind]. rewrite H1, H2, H3, Hc. cbn [orb].
    eexists. split; [reflexivity|].
    assert (Hc0 : forall K, cnt a s0 K = 0%nat).
    { intros K. assert (Oc : ok c (cnt a s0) (held a s) (att (channelId c) s) (det (channelId c) s)) by (clear - O H4 H5; solve_ok O c).
      eapply (ok_done _ _ _ _ _ Oc); [|lia]. by intros []. }
    apply (delete_inv a c s); try done; cbn.
    - by rewrite S1.
    - rewrite S2. intros k b Hk. split; [by apply om_erase_In in Hk as [? _]|]. intros ->. by apply (erased a c s k I Ha).
    - rewrite S3. by apply (nothing_left a c s (CbFinally a) I Ha Hin eq_refl).
    - intros b K Hne. unfold cnt. cbn. rewrite S3. by apply (minus_other a).
    - apply held_zero. lia. }
  destruct (hChild c) eqn:Ech; cbn [has_loop uv_is_closing negb andb]; [by apply Hdel| |done|by apply Hdel].
  destruct (upd_ev a c (set_h Child UvClosing) s1 Hh1) as (s2 & -> & [E1 E2 E3 E4 E5]). cbn [mbind res_bind]. eexists. split; [reflexivity|].
  pose (sE := set_map (om_erase (channelId c) (mapChannel s)) s).
  apply (channel_step_inv a c (set_h Child UvClosing c) [CbClosed a Child DeleteCh] [] sE (set_map (mapChannel sE) s0)); try done.
  - by apply erase_inv.
  - destruct M. by split.
  - split; cbn; [by rewrite E1, S1|by rewrite E2, S2|by rewrite E3, app_nil_r, S3|by rewrite E4, S4|by rewrite E5, S5].
  - by repeat constructor.
  - rewrite !Nat.add_0_r. by apply H6.
  - intros [k Hk]. exfalso. by apply (erased a c s k I Ha).
Qed.

(** The child's handle is not being closed by its own loop at this moment. *)
Lemma ChFinally_inv env a c status s : Inv s -> ch_heap s !! a = Some c -> CbFinally a ∈ ch_loop s -> (uvHandleRef c <= 0 -> hChild c <> UvClosing) ->
  exists s', run_cb env (CbFinally a) status (set_loop (remove_one (CbFinally a) (ch_loop s)) s) = Ok s' /\ Inv s'.
Proof.
  intros I Ha Hin Hcl. set (cb := CbFinally a) in *. set (s0 := set_loop (remove_one cb (ch_loop s)) s).
  destruct (0 <? uvHandleRef c) eqn:Eu; breflect.
  { eapply (cb_inv a c s cb (run_cb env (CbFinally a) status) I Ha Hin eq_refl). intros n ho at_ de Hn O T Ha0 _ _ _.
    cbn [run_cb]. unfold FreeChannelFinally, chan. rewrite Ha0. cbn [deref mbind res_bind]. rewrite (proj2 (Z.ltb_lt _ _) Eu). by apply lands_push. }
  change (run_cb env cb status s0) with (FreeChannelFinally a s0). unfold FreeChannelFinally, chan. change (ch_heap s0) with (ch_heap s). rewrite Ha.
  cbn [deref mbind res_bind]. rewrite (proj2 (Z.ltb_ge _ _) Eu). change (AdminChannel OP_REMOVE (channelId c) None s0) with
    (Ok (None, set_map (om_erase (channelId c) (mapChannel s0)) s0) : res (option addr * Channels)). cbn [mbind res_bind].
  apply (Finally_last a c s I Ha Hin Eu (Hcl Eu)); by destruct (serverOrClient c).
Qed.

(** *** The two tasks of [DoNextLoop] *)

Lemma NextBind_inv env a c status s : Inv s -> ch_heap s !! a = Some c -> CbNextBind a ∈ ch_loop s ->
  exists s', run_cb env (CbNextBind a) status (set_loop (remove_one (CbNextBind a) (ch_loop s)) s) = Ok s' /\ Inv s'.
Proof.
  intros I Ha Hin. eapply (cb_inv a c s _ (run_cb env (CbNextBind a) status) I Ha Hin eq_refl). intros n ho at_ de _ O T Ha0 _ _ _.
  set (s0 := set_loop _ s) in *. destruct (ok_next_bind c n ho at_ de O) as [O1 O2]. cbn [run_cb]. unfold NextBind, chan. rewrite Ha0. cbn [deref mbind res_bind].
  destruct (v_alive env) as [sid|].
  - eexists _, c, [], [CtrlAttach sid (channelId c)]. split; [reflexivity|]. split; [split; cbn; rewrite ?app_nil_r; try done; by rewrite insert_id|].
    split_and!; first [done|by repeat constructor|idtac]. unfold natt, ndet, num. cbn [List.filter]. rewrite Z.eqb_refl. cbn [length].
    by rewrite Nat.add_0_r, Nat.add_1_r.
  - exists s0, c, [], []. rewrite !Nat.add_0_r. split; [done|]. split; [by apply ev_refl|]. split_and!; first [done|constructor].
Qed.

Lemma NextCleared_inv env a c status s : Inv s -> ch_heap s !! a = Some c -> CbNextCleared a ∈ ch_loop s ->
  exists s', run_cb env (CbNextCleared a) status (set_loop (remove_one (CbNextCleared a) (ch_loop s)) s) = Ok s' /\ Inv s'.
Proof.
  intros I Ha Hin. eapply (cb_inv a c s _ (run_cb env (CbNextCleared a) status) I Ha Hin eq_refl). intros n ho at_ de _ O T Ha0 _ _ _.
  cbn [run_cb]. apply lands_upd; [done|done|]. by apply ok_cleared.
Qed.

(** ** Messages to sessions *)

Lemma att_remove id m s : m ∈ ch_ctrl s -> let s0 := set_ctrl (remove_one m (ch_ctrl s)) s in
  att id s = (natt id [m] + att id s0)%nat /\ det id s = (ndet id [m] + det id s0)%nat.
Proof.
  intros Hin s0. unfold att, det, natt, ndet. rewrite !(num_remove _ m (ch_ctrl s) Hin). unfold num at 2 5. cbn [List.filter].
  split; destruct m as [? x|? x]; try destruct (x =? id); done.
Qed.

Lemma drop_ctrl_inv m s : Inv s -> m ∈ ch_ctrl s -> Inv (set_ctrl (remove_one m (ch_ctrl s)) s).
Proof.
  intros [H1 H2 H3 H4 H5] Hin. split; try done. intros a c Ha. specialize (H1 _ _ Ha).
  destruct (att_remove (channelId c) m s Hin) as [E1 E2]. rewrite E1, E2 in H1. unfold natt, ndet, num in H1. cbn [List.filter] in H1.
  change (ok c (cnt a s) (held a s) (att (channelId c) (set_ctrl (remove_one m (ch_ctrl s)) s)) (det (channelId c) (set_ctrl (remove_one m (ch_ctrl s)) s))).
  destruct m as [sid x|sid x]; destruct (x =? channelId c); cbn [length Nat.add] in H1; try done; [by apply ok_lost_attach|by apply ok_lost_detach].
Qed.

(** A handler of a message about the channel at [a]. *)
Lemma ctrl_inv a c m s (r : Channels -> res Channels) : Inv s -> ch_heap s !! a = Some c -> m ∈ ch_ctrl s -> ctrl_channel m = channelId c ->
  let s0 := set_ctrl (remove_one m (ch_ctrl s)) s in
  (forall n ho at_ de, ok c n ho (natt (channelId c) [m] + at_) (ndet (channelId c) [m] + de) -> tabled s0 -> ch_heap s0 !! a = Some c ->
    lands a c s0 (r s0) n ho at_ de) ->
  exists s', r s0 = Ok s' /\ Inv s'.
Proof.
  intros I Ha Hin Hm s0 H. destruct (att_remove (channelId c) m s Hin) as [E1 E2]. fold s0 in E1, E2. pose proof (iv_ok _ I _ _ Ha) as O. rewrite E1, E2 in O.
  assert (T0 : tabled s0) by (destruct (Inv_tabled _ I) as [T1 T2]; by split).
  destruct (H _ _ _ _ O T0 Ha) as (s' & c' & l & ms & Hr & E & Hl & Hms & Hi & Ok' & Hd). exists s'. split; [done|].
  eapply (channel_step_inv a c c' l ms s s0); try done.
  - split; try done. intros id Hne. destruct (att_remove id m s Hin) as [F1 F2]. fold s0 in F1, F2. unfold natt, ndet, num in F1, F2. cbn [List.filter] in *.
    destruct m as [? x|? x]; cbn in Hm; subst x; rewrite (proj2 (Z.eqb_neq (channelId c) id)) in * by congruence; cbn in *; lia.
  - intros [k Hk]. destruct (iv_map _ I _ _ Hk) as (d & _ & _ & Hz). etransitivity; [exact Hd|exact Hz].
Qed.

Lemma found_at id a s : Inv s -> om_find id (mapChannel s) = Some a -> exists c, ch_heap s !! a = Some c /\ channelId c = id.
Proof. intros I Hf%om_find_In. destruct (iv_map _ I _ _ Hf) as (c & ? & ? & _). eauto. Qed.

Lemma query_ref id s : AdminChannel OP_QUERY_REF id None s =
  match om_find id (mapChannel s) with
  | Some a => s ← upd a (fun c => set_ref (ref c + 1) c) s; Ok (Some a, s)
  | None => Ok (None, s)
  end.
Proof. reflexivity. Qed.

Lemma Attach_inv env sid id s : Inv s -> CtrlAttach sid id ∈ ch_ctrl s ->
  exists s', AttachChannelInnerForTcp env sid id (set_ctrl (remove_one (CtrlAttach sid id) (ch_ctrl s)) s) = Ok s' /\ Inv s'.
Proof.
  intros I Hin. pose proof (drop_ctrl_inv _ s I Hin) as ID. destruct (om_find id (mapChannel s)) as [a|] eqn:Hf.
  2:{ unfold AttachChannelInnerForTcp. rewrite query_ref. cbn [mapChannel set_ctrl]. rewrite Hf. by eexists. }
  destruct (found_at id a s I Hf) as (c & Ha & Hid).
  apply (ctrl_inv a c (CtrlAttach sid id) s (AttachChannelInnerForTcp env sid id) I Ha Hin (eq_sym Hid)).
  intros n ho at_ de O T Ha0. set (s0 := set_ctrl _ s) in *. unfold natt, ndet, num in O. cbn [List.filter] in O. rewrite Hid, Z.eqb_refl in O. cbn [length Nat.add] in O.
  destruct (ok_attach c n ho at_ de sid O) as [Ech O1]. unfold AttachChannelInnerForTcp. rewrite query_ref. change (mapChannel s0) with (mapChannel s). rewrite Hf.
  destruct (upd_ev a c (fun c => set_ref (ref c + 1) c) s0 Ha0) as (s1 & -> & E1). cbn [mbind res_bind]. pose proof (ev_get _ _ _ _ _ _ E1) as H1.
  unfold chan. rewrite H1. cbn [deref mbind res_bind hChild set_ref]. rewrite Ech. cbn [in_loop].
  destruct (upd_ev a _ (fun c => set_target sid (set_h Child UvLive c)) s1 H1) as (s2 & -> & E2). cbn [mbind res_bind].
  pose proof (ev_trans _ _ _ _ _ _ _ _ _ _ E1 E2) as E12. set (c2 := set_target _ _) in E12.
  assert (Hend : forall c3 l s3, ev a c3 l [] s0 s3 -> channelId c3 = channelId c -> Forall (fun x => cb_addr x = a /\ kind x <> KCl Child DeleteCh) l ->
    ok (set_ref (ref c3 - 1) c3) (add (map kind l) n) ho at_ de -> lands a c s0 (unref a s3) n ho at_ de).
  { intros c3 l s3 E3 Hi F O3. destruct (upd_ev a c3 (fun c => set_ref (ref c - 1) c) s3 (ev_get _ _ _ _ _ _ E3)) as (s4 & E & E4). unfold unref. rewrite E.
    pose proof (ev_trans _ _ _ _ _ _ _ _ _ _ E3 E4) as E34. rewrite app_nil_r in E34. destruct (no_delete a l F n) as [G1 G2].
    exists s4, (set_ref (ref c3 - 1) c3), l, []. rewrite !Nat.add_0_r. split_and!; first [done|constructor]. }
  assert (Er : ref c + 1 - 1 = ref c) by lia.
  destruct (v_open env); cbn [mbind res_bind].
  - apply (Hend c2 [] s2 E12); [done|constructor|]. cbn. rewrite Er. by destruct c.
  - destruct (TryClose_ev a c2 Child NoCb s2 (ev_get _ _ _ _ _ _ E12)) as (s3 & -> & H). cbn in H. destruct H as [_ E3]. cbn [mbind res_bind].
    pose proof (ev_trans _ _ _ _ _ _ _ _ _ _ E12 E3) as E13. eapply (Hend _ _ s3 E13); [done|by repeat constructor|].
    pose proof (ok_close_none _ _ _ _ _ Child O1 eq_refl) as O2. cbn. rewrite Er. by destruct c.
Qed.

Lemma Detach_inv sid id s : Inv s -> CtrlDetach sid id ∈ ch_ctrl s ->
  exists s', DetachChannelInnerForTcp id (set_ctrl (remove_one (CtrlDetach sid id) (ch_ctrl s)) s) = Ok s' /\ Inv s'.
Proof.
  intros I Hin. pose proof (drop_ctrl_inv _ s I Hin) as ID. unfold DetachChannelInnerForTcp. cbv beta.
  assert (Hq : forall s0, AdminChannel OP_QUERY id None s0 = Ok (om_find id (mapChannel s0), s0)) by done.
  destruct (om_find id (mapChannel s)) as [a|] eqn:Hf.
  2:{ rewrite Hq. cbn [mbind res_bind mapChannel set_ctrl]. rewrite Hf. by eexists. }
  destruct (found_at id a s I Hf) as (c & Ha & Hid).
  apply (ctrl_inv a c (CtrlDetach sid id) s (DetachChannelInnerForTcp id) I Ha Hin (eq_sym Hid)).
  intros n ho at_ de O T Ha0. set (s0 := set_ctrl _ s) in *. unfold natt, ndet, num in O. cbn [List.filter] in O. rewrite Hid, Z.eqb_refl in O. cbn [length Nat.add] in O.
  destruct (ok_detached c n ho at_ de O) as [O1 O2]. unfold DetachChannelInnerForTcp. rewrite Hq. cbn [mbind res_bind]. change (mapChannel s0) with (mapChannel s). rewrite Hf.
  unfold chan. rewrite Ha0. cbn [deref mbind res_bind].
  assert (Hsame : ok c n ho at_ de -> lands a c s0 (Ok s0) n ho at_ de).
  { intros Oc. exists s0, c, [], []. rewrite !Nat.add_0_r. split; [done|]. split; [by apply ev_refl|]. split_and!; first [done|constructor]. }
  destruct (childCleared c); [by apply Hsame, ok_lost_detach|]. destruct (uv_is_closing (hChild c)) eqn:Ecl; [by apply lands_push|].
  destruct (TryClose_ev a c Child SetCleared s0 Ha0) as (s1 & -> & H). cbn [get_h] in H. rewrite Ecl in H. destruct (hChild c) eqn:Eh; try done; cbn in H.
  - subst s1. by apply Hsame, ok_lost_detach.
  - destruct H as [_ E]. exists s1, (set_h Child UvClosing c), [CbClosed a Child SetCleared], []. rewrite !Nat.add_0_r.
    split_and!; first [done|by repeat constructor|by apply O2].
Qed.

(** ** Sending *)

Lemma lands_inv a c s r : Inv s -> ch_heap s !! a = Some c ->
  lands a c s r (cnt a s) (held a s) (att (channelId c) s) (det (channelId c) s) -> exists s', r = Ok s' /\ Inv s'.
Proof.
  intros I Ha (s' & c' & l & m & Hr & E & Hl & Hm & Hi & O & Hd). exists s'. split; [done|].
  eapply (channel_step_inv a c c' l m s s); try done. intros [k Hk]. rewrite Hd. by destruct (iv_map _ I _ _ Hk) as (d & _ & _ & Hz).
Qed.

Lemma lands_release a c s s0 r n ho at_ de : ok c n (S ho) at_ de -> tabled s0 -> ch_heap s0 !! a = Some c ->
  (exists cs, channelId cs = channelId c /\ ev a c [] [] s s0 /\ ch_heap s !! a = Some cs) ->
  does a s0 r -> lands a c s (s ← r; unref a s) n ho at_ de.
Proof.
  intros O T Ha (cs & Hcs & E0 & _) D. destruct (D c T Ha) as (s1 & c1 & l & -> & E1 & [K1 K2 K3]). cbn [mbind res_bind].
  destruct (upd_ev a c1 (fun c => set_ref (ref c - 1) c) s1 (ev_get _ _ _ _ _ _ E1)) as (s2 & E & E2). unfold unref. rewrite E.
  pose proof (ev_trans _ _ _ _ _ _ _ _ _ _ E1 E2) as E12. rewrite app_nil_r in E12. destruct (no_delete a l K1 n) as [G1 G2].
  exists s2, (set_ref (ref c1 - 1) c1), l, []. rewrite !Nat.add_0_r. split; [done|].
  split; [by apply (ev_trans _ c _ [] l [] [] s s0 s2)|]. split_and!; first [done|by constructor|idtac]. by apply ok_release, K3.
Qed.

(** A [Send] in one step. *)
Lemma Send_gen a s (f : addr -> Channels -> res Channels) id : Inv s -> (forall s, does a s (f a s)) -> om_find id (mapChannel s) = Some a ->
  exists s', ('((h, s) : option addr * Channels) ← SendBegin id s;
    match h with None => Ok s | Some a => c ← chan a s; s ← (if isDead c then Ok s else f a s); unref a s end) = Ok s' /\ Inv s'.
Proof.
  intros I D Hf. destruct (found_at id a s I Hf) as (c & Ha & Hid). unfold SendBegin. rewrite query_ref, Hf.
  destruct (upd_ev a c (fun c => set_ref (ref c + 1) c) s Ha) as (s1 & -> & E1). cbn [mbind res_bind]. pose proof (ev_get _ _ _ _ _ _ E1) as H1.
  unfold chan. rewrite H1. cbn [deref mbind res_bind isDead set_ref]. destruct (isDead c) eqn:Ed; cbn [mbind res_bind].
  - destruct (upd_ev a _ (fun c => set_ref (ref c - 1) c) s1 H1) as (s2 & E & E2). unfold unref. rewrite E. exists s2. split; [done|].
    pose proof (ev_trans _ _ _ _ _ _ _ _ _ _ E1 E2) as E3. assert (Ec : set_ref (ref (set_ref (ref c + 1) c) - 1) (set_ref (ref c + 1) c) = c).
    { destruct c. unfold set_ref. cbn. f_equal. lia. }
    rewrite Ec in E3. apply (channel_step_inv a c c [] [] s s s2 I Ha (minus_refl a c s) E3); try done; [rewrite !Nat.add_0_r; by apply (iv_ok _ I)|].
    intros [k Hk]. by destruct (iv_map _ I _ _ Hk) as (d & _ & _ & Hz).
  - pose proof (ok_hold c _ _ _ _ (iv_ok _ I _ _ Ha) Ed) as O1.
    assert (T1 : tabled s1) by (eapply (ev_tabled a c); [by apply Inv_tabled|done| |exact E1]; done).
    apply (lands_inv a c s _ I Ha).
    destruct (lands_release a (set_ref (ref c + 1) c) s s1 (f a s1) _ _ _ _ O1 T1 H1) as (s' & c' & l & m & R); [by exists c|apply D|].
    exists s', c', l, m. exact R.
Qed.

Lemma Send_inv env main id buf s : Inv s -> exists s', Send env main id buf s = Ok s' /\ Inv s'.
Proof.
  intros I. destruct (om_find id (mapChannel s)) as [a|] eqn:Hf; [|unfold Send, SendBegin; rewrite query_ref, Hf; by eexists].
  apply (Send_gen a s (fun a s => SendChannel env main a buf 0 s) id I); [intros; apply does_send|done].
Qed.
Lemma SendWithCmd_inv env main id cmd buf s : Inv s -> exists s', SendWithCmd env main id cmd buf s = Ok s' /\ Inv s'.
Proof.
  intros I. destruct (om_find id (mapChannel s)) as [a|] eqn:Hf; [|unfold SendWithCmd, SendBegin; rewrite query_ref, Hf; by eexists].
  apply (Send_gen a s (fun a s => SendChannelWithCmd env main a cmd buf s) id I); [intros; apply does_send_cmd|done].
Qed.

(** The two halves of a [Send] in a thread. *)
Lemma Hold_inv a c s s1 : Inv s -> ch_heap s !! a = Some c -> isDead c = false -> ev a (set_ref (ref c + 1) c) [] [] s s1 ->
  Inv (set_holders (a :: ch_holders s1) s1).
Proof.
  intros I Ha Ed [E1 E2 E3 E4 E5]. rewrite app_nil_r in E3, E4.
  assert (Hc : forall b K, cnt b (set_holders (a :: ch_holders s1) s1) K = cnt b s K) by (intros b K; unfold cnt; cbn; by rewrite E3).
  assert (Hat : forall id, att id (set_holders (a :: ch_holders s1) s1) = att id s /\ det id (set_holders (a :: ch_holders s1) s1) = det id s)
    by (intros id; unfold att, det; cbn; by rewrite E4).
  apply (local_inv a c (set_ref (ref c + 1) c) s _ I Ha).
  - split; try done; cbn [ch_loop ch_holders set_holders].
    + rewrite E3. auto.
    + intros b Hne. unfold held, num. cbn [ch_holders set_holders List.filter]. by rewrite (proj2 (Z.eqb_neq _ _) Hne), E5.
    + rewrite E5. intros b [->|Hb]%elem_of_cons; auto.
  - destruct (Hat (channelId c)) as [-> ->].
    assert (held a (set_holders (a :: ch_holders s1) s1) = S (held a s)) as ->.
    { unfold held, num. cbn [ch_holders set_holders List.filter]. by rewrite Z.eqb_refl, E5. }
    eapply ok_ext; [intros K; symmetry; apply Hc|]. apply ok_hold; [|done]. by apply (iv_ok _ I).
  - intros [k Hk]. rewrite Hc. by destruct (iv_map _ I _ _ Hk) as (d & _ & _ & Hz).
Qed.

Lemma Release_inv a c s r : Inv s -> ch_heap s !! a = Some c -> a ∈ ch_holders s ->
  let s0 := set_holders (remove_one a (ch_holders s)) s in does a s0 r -> exists s', (s ← r; unref a s) = Ok s' /\ Inv s'.
Proof.
  intros I Ha Hin s0 D. assert (T0 : tabled s0) by (destruct (Inv_tabled _ I) as [T1 T2]; by split).
  assert (Hh : forall b, held b s = ((if (b =? a)%Z then 1 else 0) + held b s0)%nat).
  { intros b. unfold held. rewrite (num_remove _ a (ch_holders s) Hin). done. }
  pose proof (iv_ok _ I _ _ Ha) as O. rewrite Hh, Z.eqb_refl in O. cbn [Nat.add] in O.
  destruct (lands_release a c s0 s0 r _ _ _ _ O T0 Ha) as (s' & c' & l & m & Hr & E & Hl & Hm & Hi & O' & Hd);
    [exists c; split; [done|]; split; [by apply ev_refl|done]|done|].
  exists s'. split; [done|]. eapply (channel_step_inv a c c' l m s s0); try done.
  - split; try done.
    + intros b Hne. by rewrite (Hh b), (proj2 (Z.eqb_neq _ _) Hne).
    + intros b Hb. by apply (remove_one_in a).
  - intros [k Hk]. destruct (iv_map _ I _ _ Hk) as (d & _ & _ & Hz). etransitivity; [exact Hd|exact Hz].
Qed.

(** ** Events over all channels *)

Lemma does_inv_dom a c s r : Inv s -> ch_heap s !! a = Some c -> does a s r ->
  exists s', r = Ok s' /\ Inv s' /\ (forall b, is_Some (ch_heap s !! b) -> is_Some (ch_heap s' !! b)).
Proof.
  intros I Ha D. destruct (does_inv a c s r I Ha D) as (s' & -> & I'). exists s'. split; [done|]. split; [done|]. intros b Hb.
  destruct (D c (Inv_tabled s I) Ha) as (s2 & c2 & l2 & [= <-] & E & _). rewrite (e_heap _ _ _ _ _ _ E). apply lookup_insert_is_Some'. by right.
Qed.

Lemma map_in_heap s k a : Inv s -> In (k, a) (mapChannel s) -> is_Some (ch_heap s !! a).
Proof. intros I Hin. destruct (iv_map _ I _ _ Hin) as (c & -> & _). by eexists. Qed.

Lemma Echo_inv env sid echo s : Inv s -> exists s', EchoToAllChannelsViaSessionId env sid echo s = Ok s' /\ Inv s'.
Proof.
  intros I. unfold EchoToAllChannelsViaSessionId. assert (Hl : forall k a, In (k, a) (mapChannel s) -> is_Some (ch_heap s !! a)) by (intros; by eapply map_in_heap).
  revert Hl. generalize (mapChannel s) as l. intros l. revert s I. induction l as [|[k a] l IH]; intros s I Hl; [by eexists|]. cbn [echo_each].
  destruct (Hl k a) as [c Ha]; [by left|]. unfold chan. rewrite Ha. cbn [deref mbind res_bind].
  destruct (does_inv_dom a c s (if negb (isDead c) && (targetSessionId c =? sid) then EchoToClient env a echo s else Ok s) I Ha) as (s1 & -> & I1 & Hd).
  { destruct (_ && _); [apply does_echo|apply does_ret]. }
  cbn [mbind res_bind]. apply (IH s1 I1). intros k' a' Hin. apply Hd, (Hl k'). by right.
Qed.

Lemma Clear_inv env s : Inv s -> exists s', ClearChannels env s = Ok s' /\ Inv s'.
Proof.
  intros I. unfold ClearChannels. assert (Hl : forall k a, In (k, a) (mapChannel s) -> is_Some (ch_heap s !! a)) by (intros; by eapply map_in_heap).
  revert Hl. generalize (mapChannel s) as l. intros l. revert s I. induction l as [|[k a] l IH]; intros s I Hl; [by eexists|]. cbn [clear_each].
  destruct (Hl k a) as [c Ha]; [by left|]. unfold chan. rewrite Ha. cbn [deref mbind res_bind].
  destruct (does_inv_dom a c s (if isDead c then Ok s else FreeChannel env true (channelId c) s) I Ha) as (s1 & -> & I1 & Hd).
  { destruct (isDead c); [apply does_ret|]. pose proof (does_free a env true s) as D. unfold chan in D. by rewrite Ha in D. }
  cbn [mbind res_bind]. apply (IH s1 I1). intros k' a' Hin. apply Hd, (Hl k'). by right.
Qed.

(** ** Binding, creating, freeing *)

Lemma Bind_inv env a c s : Inv s -> ch_heap s !! a = Some c -> hWork c = UvLive -> handshakeOK c = false ->
  exists s', handle_event env (EvBind a) s = Ok s' /\ Inv s'.
Proof.
  intros I Ha Ew Eh. destruct (ok_bind c _ _ _ _ (iv_ok _ I _ _ Ha) Ew Eh) as [O1 O2]. apply (lands_inv a c s _ I Ha). cbn [handle_event]. unfold BindChannelToSession.
  destruct (upd_ev a c (set_handshakeOK true) s Ha) as (s1 & -> & E1). cbn [mbind res_bind].
  assert (L : lands a c s (Ok s1) (cnt a s) (held a s) (att (channelId c) s) (det (channelId c) s)).
  { exists s1, (set_handshakeOK true c), [], []. rewrite !Nat.add_0_r. split_and!; first [done|constructor]. }
  destruct (v_alive env); [|exact L]. pose proof (ev_get _ _ _ _ _ _ E1) as H1. unfold chan. rewrite H1. cbn [deref mbind res_bind hWork set_handshakeOK].
  rewrite Ew. cbn [uv_is_closing negb andb]. destruct (v_dup env); cbn [negb]; [|exact L].
  destruct (upd_ev a _ (fun c => set_ref (ref c + 1) c) s1 H1) as (s2 & -> & E2). cbn [mbind res_bind].
  destruct (upd_ev a _ (set_h Work UvClosing) s2 (ev_get _ _ _ _ _ _ E2)) as (s3 & -> & E3). cbn [mbind res_bind].
  pose proof (ev_trans _ _ _ _ _ _ _ _ _ _ (ev_trans _ _ _ _ _ _ _ _ _ _ E1 E2) E3) as [F1 F2 F3 F4 F5].
  eexists _, _, [CbClosed a Work DecRef; CbNextBind a], []. rewrite !Nat.add_0_r. split; [reflexivity|].
  split; [split; cbn; [exact F1|done|rewrite F3; by rewrite app_nil_r, <- app_assoc|done|done]|]. split_and!; first [done|by repeat constructor].
Qed.

(** The id of a new channel is not in use, nor in a message. *)
Definition fresh (id : Z) (s : Channels) : Prop :=
  (forall a c, ch_heap s !! a = Some c -> channelId c <> id) /\ (forall m, m ∈ ch_ctrl s -> ctrl_channel m <> id).

Lemma om_set_In (k : Z) (a : addr) m p : In p (om_set k a m) -> p = (k, a) \/ In p m.
Proof.
  induction m as [|[k' a'] m IH]; cbn [om_set]; [intros [<-|[]]; auto|]. destruct (bool_decide (k = k')); [intros [<-|?]; cbn; auto|].
  destruct (less k k'); [intros [<-|?]; cbn; auto|]. intros [<-|H]; [right; by left|]. apply IH in H as [->|H]; [by left|right; by right].
Qed.

Lemma New_inv a id server s : Inv s -> ch_heap s !! a = None -> fresh id s ->
  Inv (set_map (om_set id a (mapChannel s)) (set_heap (<[a := new_channel id server]> (ch_heap s)) s)).
Proof.
  intros I Ha [F1 F2]. set (s' := set_map _ _).
  assert (Hc : forall K, cnt a s K = 0%nat).
  { intros K. apply num_zero. intros cb Hcb. apply of_kind_ne. intros E. destruct (iv_loop _ I _ Hcb) as [d Hd]. congruence. }
  assert (Hh : held a s = 0%nat).
  { apply num_zero. intros b Hb. apply Z.eqb_neq. intros ->. destruct (iv_held _ I _ Hb) as [d Hd]. congruence. }
  assert (Hct : att id s = 0%nat /\ det id s = 0%nat) by (split; apply num_zero; intros m Hm; specialize (F2 m Hm); destruct m; cbn in *; try done; by apply Z.eqb_neq).
  assert (Hsome : forall b, is_Some (ch_heap s !! b) -> is_Some (ch_heap s' !! b)) by (intros b Hb; cbn; apply lookup_insert_is_Some'; by right).
  split.
  - intros b d. cbn. intros [[<- <-]|[Hne Hb]]%lookup_insert_Some; [|by apply (iv_ok _ I)]. cbn [channelId new_channel].
    assert (O : ok (new_channel id server) (cnt a s) (held a s) (att id s) (det id s)); [|exact O].
    destruct Hct as [-> ->]. rewrite Hh. eapply ok_ext; [intros K; symmetry; apply Hc|]. apply ok_new.
  - intros cb Hcb. by apply Hsome, (iv_loop _ I).
  - intros b Hb. by apply Hsome, (iv_held _ I).
  - change (mapChannel s') with (om_set id a (mapChannel s)). intros k b [[= -> ->]|Hin]%om_set_In; [exists (new_channel id server); cbn; rewrite lookup_insert_eq; split_and!; [done|done|apply Hc]|].
    destruct (iv_map _ I _ _ Hin) as (d & Hd & Hk & Hz). exists d. split; [|by split]. cbn. rewrite lookup_insert_ne; [done|congruence].
  - intros b1 b2 d1 d2. cbn. intros [[<- <-]|[N1 H1]]%lookup_insert_Some [[<- <-]|[N2 H2]]%lookup_insert_Some E; cbn in E.
    + done.
    + by destruct (F1 _ _ H2).
    + by destruct (F1 _ _ H1).
    + by eapply (iv_ids _ I).
Qed.

Lemma ChMalloc_inv env (server : bool) uid s : Inv s -> GetChannelPseudoUid (v_randoms env) s = Ok uid -> ch_heap s !! v_new env = None ->
  fresh (if server then u32 (uid + 1) else uid) s -> exists s', handle_event env (EvMalloc server) s = Ok s' /\ Inv s'.
Proof.
  intros I Hu Hn F. cbn [handle_event]. unfold MallocChannel. rewrite Hu. cbn [mbind res_bind]. destruct (v_tcpInit env); cbn [negb mbind res_bind]; [|by eexists].
  eexists. split; [reflexivity|]. exact (New_inv (v_new env) _ server s I Hn F).
Qed.

Lemma Free_inv env main id s : Inv s -> exists s', FreeChannel env main id s = Ok s' /\ Inv s'.
Proof.
  intros I. destruct main.
  - destruct (om_find id (mapChannel s)) as [a|] eqn:Hf.
    + destruct (found_at id a s I Hf) as (c & Ha & _). eapply (does_inv a c s _ I Ha). by apply does_free_at.
    + unfold FreeChannel. cbn [negb]. change (AdminChannel OP_QUERY id None s) with (Ok (om_find id (mapChannel s), s) : res (option addr * Channels)).
      cbn [mbind res_bind]. rewrite Hf. by eexists.
  - unfold FreeChannel. cbn [negb]. eexists. split; [reflexivity|]. unfold PushAsyncMessage. destruct (v_async env); [|done].
    destruct I. by split.
Qed.

Lemma Std_inv env a c s : Inv s -> ch_heap s !! a = Some c -> isDead c = false -> serverOrClient c = false -> hStdin c = UvNone -> hStdout c = UvNone ->
  exists s', handle_event env (EvStd a) s = Ok s' /\ Inv s'.
Proof.
  intros I Ha E1 E2 E3 E4. destruct (ok_std c _ _ _ _ (iv_ok _ I _ _ Ha) E1 E2 E3 E4) as [O1 O2]. cbn [handle_event]. unfold BindLocalStd.
  destruct (v_ttyOut env); cbn [negb]; [|by eexists]. apply (lands_inv a c s _ I Ha). destruct (v_ttyIn env); cbn [negb]; [by apply lands_upd|].
  destruct (upd_ev a c (set_h Stdout UvClosing) s Ha) as (s1 & -> & [E5 E6 E7 E8 E9]). cbn [mbind res_bind]. eexists _, _, [CbClosed a Stdout NoCb], [].
  rewrite !Nat.add_0_r. split; [reflexivity|]. split; [split; cbn; try done; by rewrite E7, app_nil_r|]. split_and!; first [done|by repeat constructor].
Qed.

(** ** The system *)

(** When a pending callback can run.  A timer of the main loop runs after the
    closes of that loop, and after the timer of [DoNextLoop], which was started
    before it; libuv ends the writes of a handle before it reports the handle
    closed; [CbNextCleared] follows the close on the same loop.  The last stage of
    freeing does not meet a child's handle that is just being closed by the
    session's thread. *)
Definition runs (cb : CCb) (s : Channels) : Prop :=
  match cb with
  | CbOperate a | CbCheck a => forall cb', cb' ∈ ch_loop s -> blocks a cb' = false
  | CbClosed a h _ => forall f, CbWrote a h f ∉ ch_loop s
  | CbNextCleared a => forall k, CbClosed a Child k ∉ ch_loop s
  | CbFinally a => forall c, ch_heap s !! a = Some c -> uvHandleRef c <= 0 -> hChild c <> UvClosing
  | _ => True
  end.

(** When an event can happen.  A thread that begins a [Send] sees a channel that
    is not dead; the id of a new channel is new. *)
Definition possible (env : CEnv) (e : CEvent) (s : Channels) : Prop :=
  match e with
  | EvMalloc server => exists uid, GetChannelPseudoUid (v_randoms env) s = Ok uid /\ ch_heap s !! v_new env = None /\
      fresh (if server then u32 (uid + 1) else uid) s
  | EvStd a => exists c, ch_heap s !! a = Some c /\ isDead c = false /\ serverOrClient c = false /\ hStdin c = UvNone /\ hStdout c = UvNone
  | EvRun cb _ => cb ∈ ch_loop s /\ runs cb s
  | EvAsync id => id ∈ ch_async s
  | EvCtrl m | EvLost m => m ∈ ch_ctrl s
  | EvReadError a h | EvRead a h _ _ => exists c, ch_heap s !! a = Some c /\ get_h h c = UvLive
  | EvBind a => exists c, ch_heap s !! a = Some c /\ hWork c = UvLive /\ handshakeOK c = false
  | EvHold id => forall a c, om_find id (mapChannel s) = Some a -> ch_heap s !! a = Some c -> isDead c = false
  | EvRelease _ a _ => a ∈ ch_holders s
  | EvCloseChild a => exists c, ch_heap s !! a = Some c /\ hChild c = UvLive
  | _ => True
  end.

Definition start : Channels := mkChannels ∅ [] [] [] [] [] false 0 [].

Inductive Reached : Channels -> Prop :=
| r_start : Reached start
| r_step env e s s' : Reached s -> possible env e s -> handle_event env e s = Ok s' -> Reached s'.

Lemma run_inv env cb status s : Inv s -> cb ∈ ch_loop s -> runs cb s ->
  exists s', run_cb env cb status (set_loop (remove_one cb (ch_loop s)) s) = Ok s' /\ Inv s'.
Proof.
  intros I Hin Hr. destruct (iv_loop _ I _ Hin) as [c Ha]. destruct cb as [a h k|a h file|a|a|a|a|a]; cbn [cb_addr runs] in *.
  - destruct (decide (k = DeleteCh)) as [->|Hk]; [|by eapply closed_inv].
    assert (h = Child) as ->; [|by eapply delete_cb_inv].
    pose proof (k_kinds _ _ _ _ _ (iv_ok _ I _ _ Ha)) as Hz. assert (Hp : cnt a s (KCl h DeleteCh) <> 0%nat).
    { intros E. pose proof (proj1 (num_zero _ _) E _ Hin) as E'. rewrite of_kind_eq in E' by done. by destruct h. }
    destruct h; [lia|done|lia..].
  - by eapply WriteCallback_inv.
  - by eapply ChOperate_inv.
  - by eapply ChCheck_inv.
  - eapply ChFinally_inv; [done|exact Ha|done|]. by apply Hr.
  - by eapply NextBind_inv.
  - by eapply NextCleared_inv.
Qed.

Lemma event_inv env e s : Inv s -> possible env e s -> exists s', handle_event env e s = Ok s' /\ Inv s'.
Proof.
  intros I P. destruct e; cbn [possible] in P; cbn [handle_event].
  - destruct P as (uid & ? & ? & ?). by eapply ChMalloc_inv.
  - destruct P as (c & ? & ? & ? & ? & ?). by eapply (Std_inv env).
  - destruct P. by apply run_inv.
  - unfold AsyncMainLoopTask. apply Free_inv. destruct I. by split.
  - destruct m; [by apply Attach_inv|by eapply Detach_inv].
  - eexists. split; [reflexivity|]. by apply drop_ctrl_inv.
  - destruct P as (c & Ha & _). eapply (does_inv a c s _ I Ha), does_read_error.
  - destruct P as (c & Ha & _). eapply (does_inv a c s _ I Ha), does_read.
  - destruct P as (c & ? & ? & ?). by eapply Bind_inv.
  - by apply Send_inv.
  - by apply SendWithCmd_inv.
  - by apply Echo_inv.
  - unfold SendBegin. rewrite query_ref. destruct (om_find id (mapChannel s)) as [a|] eqn:Hf; [|by eexists].
    destruct (found_at id a s I Hf) as (c & Ha & _). destruct (upd_ev a c (fun c => set_ref (ref c + 1) c) s Ha) as (s1 & -> & E1). cbn [mbind res_bind].
    eexists. split; [reflexivity|]. eapply (Hold_inv a c s s1 I Ha); [by apply (P a c)|done].
  - destruct (iv_held _ I _ P) as [c Ha]. eapply (Release_inv a c s _ I Ha P). destruct buf; [apply does_send|apply does_ret].
  - by apply Free_inv.
  - by apply Clear_inv.
  - destruct P as (c & Ha & _). eapply (does_inv a c s _ I Ha), does_close.
Qed.

Lemma channels_inv s : Reached s -> Inv s.
Proof.
  induction 1 as [|env e s s' _ IH P E].
  - split; cbn; try done; intros x Hx; by apply not_elem_of_nil in Hx.
  - destruct (event_inv env e s IH P) as (s2 & E2 & I2). congruence.
Qed.


(** ** Runs *)

(** A system in which everything works; [r] is the next random number and [a]
    the next address. *)
Definition good (r a : Z) : CEnv := mkCEnv a [r] true true true true true true true true (Some 7) true true true true.
Definition no_session : CEnv := mkCEnv 0 [] true true true true true true true true None true true true true.

Fixpoint run (l : list (CEnv * CEvent)) (s : Channels) : res Channels :=
  match l with [] => Ok s | (env, e) :: l => s ← handle_event env e s; run l s end.
Definition after (l : list (CEnv * CEvent)) : Channels := match run l start with Ok s => s | _ => start end.

(** A thread sends on a channel that the main thread frees meanwhile. *)
Definition send_during_free : list (CEnv * CEvent) :=
  [(good 5 1, EvMalloc true); (good 5 1, EvHold 6); (good 5 1, EvFree true 6)].

Lemma send_during_free_reached : Reached (after send_during_free).
Proof.
  refine (r_step (good 5 1) (EvFree true 6) (after [(good 5 1, EvMalloc true); (good 5 1, EvHold 6)]) _ _ I eq_refl).
  refine (r_step (good 5 1) (EvHold 6) (after [(good 5 1, EvMalloc true)]) _ _ _ eq_refl).
  - refine (r_step (good 5 1) (EvMalloc true) start _ r_start _ eq_refl). exists 5. split; [done|]. split; [done|].
    split; [by intros a c Ha|]. by intros m Hm%not_elem_of_nil.
  - intros a c Ha Hc. vm_compute in Ha. injection Ha as <-. vm_compute in Hc. by injection Hc as <-.
Qed.


(** A channel that is served and goes: it is bound to a session, answers, loses
    its client and is deleted. *)
Definition served : list (CEnv * CEvent) :=
  [(good 5 1, EvMalloc true); (good 5 1, EvBind 1); (good 5 1, EvRun (CbNextBind 1) 0); (good 5 1, EvRun (CbClosed 1 Work DecRef) 0);
   (good 5 1, EvCtrl (CtrlAttach 7 6)); (good 5 1, EvRead 1 Child [(1, [65])] false); (good 5 1, EvRun (CbWrote 1 Child false) 0);
   (good 5 1, EvReadError 1 Child); (good 5 1, EvAsync 6); (good 5 1, EvRun (CbClosed 1 Child NoCb) 0); (good 5 1, EvRun (CbOperate 1) 0);
   (good 5 1, EvCtrl (CtrlDetach 7 6)); (good 5 1, EvRun (CbNextCleared 1) 0); (good 5 1, EvRun (CbCheck 1) 0); (good 5 1, EvRun (CbFinally 1) 0)].
Lemma served_ends : run served start = Ok (mkChannels ∅ [] [] [] [] [] false 0 (ch_written (after served))).
Proof. vm_compute. reflexivity. Qed.

(** ** What the code does not prevent *)

(** [Send] takes a reference of a dead channel too, and nothing looks at the count
    after [FreeChannelOpeate]: the channel is deleted under the thread. *)
Lemma send_can_outlive_channel : exists s, run
  [(good 5 1, EvMalloc true); (good 5 1, EvFree true 6); (good 5 1, EvRun (CbOperate 1) 0); (good 5 1, EvHold 6);
   (good 5 1, EvRun (CbClosed 1 Work CloseHandle) 0); (good 5 1, EvRun (CbFinally 1) 0)] start = Ok s /\
  ch_holders s = [1] /\ handle_event (good 5 1) (EvRelease false 1 None) s = Undefined.
Proof. eexists. split; [vm_compute; reflexivity|]. by split. Qed.

(** A channel that is freed before its message to the session's thread arrives:
    the child's handle is initialised when the main thread is past the stage that
    would detach it, and the channel is deleted while that handle is closing. *)
Lemma late_attach_deletes_in_use : exists s, run
  [(good 5 1, EvMalloc true); (good 5 1, EvBind 1); (good 5 1, EvRun (CbNextBind 1) 0); (good 5 1, EvRun (CbClosed 1 Work DecRef) 0);
   (good 5 1, EvFree true 6); (good 5 1, EvRun (CbOperate 1) 0); (good 5 1, EvCtrl (CtrlAttach 7 6)); (good 5 1, EvReadError 1 Child)] start = Ok s /\
  handle_event (good 5 1) (EvRun (CbFinally 1) 0) s = Undefined.
Proof. eexists. split; [vm_compute; reflexivity|]. vm_compute. reflexivity. Qed.

(** [MallocChannel] of the server increments the id that [GetChannelPseudoUid]
    found unused: two channels can have one id, and the table forgets the first. *)
Lemma channel_ids_can_collide : exists s c d, run [(good 5 1, EvMalloc true); (good 5 2, EvMalloc true)] start = Ok s /\
  ch_heap s !! 1 = Some c /\ ch_heap s !! 2 = Some d /\ channelId c = channelId d /\ mapChannel s = [(channelId d, 2)].
Proof. eexists _, _, _. split; [vm_compute; reflexivity|]. by vm_compute. Qed.

(** A session that ends between the two halves of the binding: nothing is pending,
    no handle is open, and the channel stays. *)
Lemma binding_can_be_lost : exists s c, run
  [(good 5 1, EvMalloc true); (good 5 1, EvBind 1); (no_session, EvRun (CbNextBind 1) 0); (good 5 1, EvRun (CbClosed 1 Work DecRef) 0)] start = Ok s /\
  ch_heap s !! 1 = Some c /\ isDead c = false /\ hWork c = UvClosed /\ hChild c = UvNone /\ ch_loop s = [] /\ ch_async s = [] /\ ch_ctrl s = [].
Proof. eexists _, _. split; [vm_compute; reflexivity|]. by vm_compute. Qed.

(** A detach message that the session's thread never reads: the second stage waits
    for ever. *)
Lemma lost_detach_waits_forever : exists s, run
  [(good 5 1, EvMalloc true); (good 5 1, EvBind 1); (good 5 1, EvRun (CbNextBind 1) 0); (good 5 1, EvRun (CbClosed 1 Work DecRef) 0);
   (good 5 1, EvCtrl (CtrlAttach 7 6)); (good 5 1, EvFree true 6); (good 5 1, EvRun (CbOperate 1) 0); (good 5 1, EvLost (CtrlDetach 7 6))] start = Ok s /\
  ch_loop s = [CbCheck 1] /\ forall env, handle_event env (EvRun (CbCheck 1) 0) s = Ok s.
Proof. eexists. split; [vm_compute; reflexivity|]. split; [reflexivity|]. intros env. vm_compute. reflexivity. Qed.
