(* ===== verification/ServerRequest.v ===== *)
(** * ServerRequest: what the server does for its clients and for the devices
    ([host/server_for_client.cpp], [FetchCommand] of [host/server.cpp])

    A request of a client is translated and carried out by the server itself, sent
    to the device, or given to a task; a command of a device is checked against
    what the client asked for and passed to the client or to a task.  What leaves
    these handlers is recorded in [sv_out].

    Built for a host that is not itself an OpenHarmony device ([__OHOS__] and
    [HOST_OHOS] not defined).  The usage texts and libuv's [uv_ip4_addr] are
    arguments as in [Translate]; what other parts of the server answer during one
    step is a record.  A request ends with a NUL, as the client sends it. *)

From Stdlib Require Import String ZArith Lia List Bool.
From stdpp Require Import base list numbers option gmap pretty.
From S2P Require Import Prelude Defs OrdMap Serial Messages Args Strings Session Sandbox ChannelHandshake Translate ServerTables Forward.

(** ** State *)

Definition REMOTE_NONE : Z := 0.
Definition REMOTE_FILE : Z := 1.
Definition REMOTE_APP : Z := 2.
Definition MSG_FAIL : Z := 0.
Definition MSG_INFO : Z := 1.
Definition MSG_OK : Z := 2.
Definition MESSAGE_FAIL : bytes := str "[Fail]".
Definition MESSAGE_INFO : bytes := str "[Info]".
Definition EMPTY_ECHO : bytes := str "[Empty]".
Definition CMDSTR_REMOTE_PARAMETER : bytes := str "remote".
Definition STR_FEATURE_ENABLE : bytes := str "enable".
Definition MAX_CONNECT_DEVICE_RETRY_COUNT : Z := 100.

(** A channel; [q_attached]: [hChildWorkTCP.loop] is set; [q_retry], [q_poll]: the
    counter and the key that [bufStd] holds. *)
Record ReqChannel := mkReq {
  q_hs : SChannel; q_attached : bool; q_isDead : bool; q_target : Z; q_remote : Z; q_fromClient : bool; q_interactive : bool;
  q_keepAlive : bool; q_isCheck : bool; q_key : bytes; q_localDevice : bool; q_retry : Z; q_poll : bytes; q_isSuccess : bool;
  q_faultInfo : bytes; q_commandFlag : Z; q_commandParameters : bytes
}.

Definition set_q_hs v q := mkReq v (q_attached q) (q_isDead q) (q_target q) (q_remote q) (q_fromClient q) (q_interactive q) (q_keepAlive q)
  (q_isCheck q) (q_key q) (q_localDevice q) (q_retry q) (q_poll q) (q_isSuccess q) (q_faultInfo q) (q_commandFlag q) (q_commandParameters q).
Definition set_q_attached v sid q := mkReq (q_hs q) v (q_isDead q) sid (q_remote q) (q_fromClient q) (q_interactive q) (q_keepAlive q)
  (q_isCheck q) (q_key q) (q_localDevice q) (q_retry q) (q_poll q) (q_isSuccess q) (q_faultInfo q) (q_commandFlag q) (q_commandParameters q).
Definition set_q_isDead v q := mkReq (q_hs q) (q_attached q) v (q_target q) (q_remote q) (q_fromClient q) (q_interactive q) (q_keepAlive q)
  (q_isCheck q) (q_key q) (q_localDevice q) (q_retry q) (q_poll q) (q_isSuccess q) (q_faultInfo q) (q_commandFlag q) (q_commandParameters q).
Definition set_q_remote v f q := mkReq (q_hs q) (q_attached q) (q_isDead q) (q_target q) v f (q_interactive q) (q_keepAlive q)
  (q_isCheck q) (q_key q) (q_localDevice q) (q_retry q) (q_poll q) (q_isSuccess q) (q_faultInfo q) (q_commandFlag q) (q_commandParameters q).
Definition set_q_interactive v q := mkReq (q_hs q) (q_attached q) (q_isDead q) (q_target q) (q_remote q) (q_fromClient q) v (q_keepAlive q)
  (q_isCheck q) (q_key q) (q_localDevice q) (q_retry q) (q_poll q) (q_isSuccess q) (q_faultInfo q) (q_commandFlag q) (q_commandParameters q).
Definition set_q_keepAlive v q := mkReq (q_hs q) (q_attached q) (q_isDead q) (q_target q) (q_remote q) (q_fromClient q) (q_interactive q) v
  (q_isCheck q) (q_key q) (q_localDevice q) (q_retry q) (q_poll q) (q_isSuccess q) (q_faultInfo q) (q_commandFlag q) (q_commandParameters q).
Definition set_q_check v q := mkReq (q_hs q) (q_attached q) (q_isDead q) (q_target q) (q_remote q) (q_fromClient q) (q_interactive q) (q_keepAlive q)
  true v (q_localDevice q) (q_retry q) (q_poll q) (q_isSuccess q) (q_faultInfo q) (q_commandFlag q) (q_commandParameters q).
Definition set_q_localDevice v q := mkReq (q_hs q) (q_attached q) (q_isDead q) (q_target q) (q_remote q) (q_fromClient q) (q_interactive q) (q_keepAlive q)
  (q_isCheck q) (q_key q) v (q_retry q) (q_poll q) (q_isSuccess q) (q_faultInfo q) (q_commandFlag q) (q_commandParameters q).
Definition set_q_poll n v q := mkReq (q_hs q) (q_attached q) (q_isDead q) (q_target q) (q_remote q) (q_fromClient q) (q_interactive q) (q_keepAlive q)
  (q_isCheck q) (q_key q) (q_localDevice q) n v (q_isSuccess q) (q_faultInfo q) (q_commandFlag q) (q_commandParameters q).
Definition set_q_isSuccess v q := mkReq (q_hs q) (q_attached q) (q_isDead q) (q_target q) (q_remote q) (q_fromClient q) (q_interactive q) (q_keepAlive q)
  (q_isCheck q) (q_key q) (q_localDevice q) (q_retry q) (q_poll q) v (q_faultInfo q) (q_commandFlag q) (q_commandParameters q).
Definition FillChannelResult v fault q := mkReq (q_hs q) (q_attached q) (q_isDead q) (q_target q) (q_remote q) (q_fromClient q) (q_interactive q)
  (q_keepAlive q) (q_isCheck q) (q_key q) (q_localDevice q) (q_retry q) (q_poll q) v (q_faultInfo q ++ fault) (q_commandFlag q) (q_commandParameters q).
Definition set_q_command f p q := mkReq (q_hs q) (q_attached q) (q_isDead q) (q_target q) (q_remote q) (q_fromClient q) (q_interactive q) (q_keepAlive q)
  (q_isCheck q) (q_key q) (q_localDevice q) (q_retry q) (q_poll q) (q_isSuccess q) (q_faultInfo q) f p.

Definition new_req (id : Z) : ReqChannel := mkReq (mkSChannel id [] false) false false 0 REMOTE_NONE false false false false [] false 0 [] false [] 0 [].
Definition q_connectKey (q : ReqChannel) : bytes := sc_connectKey (q_hs q).

Record ReqSession := mkReqSession { w_sessionId : Z; w_connectKey : bytes; w_isDead : bool; w_handshakeOK : bool; w_isRunningOk : bool }.
Record HostReceivePermit := mkPermit { pm_sessionId : Z; pm_target : bytes }.

(** What the handlers bring about: a message to the client, a command to the
    device, a command to a task of a session, and calls of other parts. *)
Inductive Eff :=
| ToClient (cid : Z) (cmd : option Z) (data : bytes) | ToDaemon (sid cid cmd : Z) (data : bytes) | ToTask (sid cid cmd : Z) (data : bytes)
| OpenShake (sid : Z) (data : bytes) | OpenBeat (sid : Z) (data : bytes) | BindTo (sid cid : Z) | ClearTasks (sid cid : Z) | FreeCh (cid : Z)
| FreeChAsync (cid : Z) | FreeSess (sid : Z) | CloseChild (cid : Z) | PollConnect (cid : Z) | Rescan (mount : bytes).

(** [sv_sessions]: the session objects; [sv_mapSession]: [mapSession]. *)
Record Srv := mkSrv {
  sv_daemons : daemon_map; sv_forwards : forward_map; sv_sessions : gmap addr ReqSession; sv_mapSession : omap addr;
  sv_channels : omap ReqChannel; sv_permits : omap HostReceivePermit; sv_lastErrorNum : Z; sv_out : list Eff
}.

Definition set_daemons v s := mkSrv v (sv_forwards s) (sv_sessions s) (sv_mapSession s) (sv_channels s) (sv_permits s) (sv_lastErrorNum s) (sv_out s).
Definition set_forwards v s := mkSrv (sv_daemons s) v (sv_sessions s) (sv_mapSession s) (sv_channels s) (sv_permits s) (sv_lastErrorNum s) (sv_out s).
Definition set_sessions v w s := mkSrv (sv_daemons s) (sv_forwards s) v w (sv_channels s) (sv_permits s) (sv_lastErrorNum s) (sv_out s).
Definition set_channels v s := mkSrv (sv_daemons s) (sv_forwards s) (sv_sessions s) (sv_mapSession s) v (sv_permits s) (sv_lastErrorNum s) (sv_out s).
Definition set_permits v s := mkSrv (sv_daemons s) (sv_forwards s) (sv_sessions s) (sv_mapSession s) (sv_channels s) v (sv_lastErrorNum s) (sv_out s).
Definition set_lastError v s := mkSrv (sv_daemons s) (sv_forwards s) (sv_sessions s) (sv_mapSession s) (sv_channels s) (sv_permits s) v (sv_out s).
Definition emit (e : Eff) s := mkSrv (sv_daemons s) (sv_forwards s) (sv_sessions s) (sv_mapSession s) (sv_channels s) (sv_permits s) (sv_lastErrorNum s)
  (sv_out s ++ [e]).

Definition chan (cid : Z) (s : Srv) : res ReqChannel := deref (om_find cid (sv_channels s)).
Definition upd (cid : Z) (f : ReqChannel -> ReqChannel) (s : Srv) : res Srv :=
  q ← chan cid s; Ok (set_channels (om_set cid (f q) (sv_channels s)) s).

(** [AdminSession(OP_QUERY)]. *)
Definition AdminSession_query (sid : Z) (s : Srv) : res (option ReqSession) :=
  match om_find sid (sv_mapSession s) with None => Ok None | Some a => w ← deref (sv_sessions s !! a); Ok (Some w) end.

(** What the rest of the system answers in one step. *)
Record REnv := mkREnv {
  v_send : bool;                                        (* [HdcSessionBase::Send] succeeds *)
  v_uart : bool; v_connect : Z -> option addr;          (* of [CreateConnect] *)
  v_timer : bool; v_dup : bool;                         (* [TimerUvTask], [DuplicateUvSocket] *)
  v_lan : list bytes;                                   (* [lstDaemonResult] after [FindLanDaemon] *)
  v_sub : bytes;                                        (* [GetSubserverStatusStr] of [HandleCommand] *)
  v_usb : bool;                                         (* [clsUSBClt] exists *)
  v_stale : Z;                                          (* the byte behind the request in the buffer *)
  v_shake : bool; v_task : bool                         (* [ServerSessionHandshake], [DispatchTaskData] *)
}.

(** ** Messages to the client *)

(** [StringFormat] gives nothing when the text does not fit. *)
Definition format_limit (text : bytes) : bytes := if zlen text <=? MAX_SIZE_IOBUF_STABLE - 1 then text else [].

(** [EchoClient] with a string, and with a text that is used as a format.  The
    last character of an empty string is [Undefined]. *)
Definition echo_line (level : Z) (info : bytes) : res bytes :=
  let log := (if level =? MSG_FAIL then MESSAGE_FAIL else if level =? MSG_INFO then MESSAGE_INFO else []) ++ info in
  c ← deref (last log); Ok (if c =? 10 then log else log ++ [13; 10]).
Definition EchoClient (cid level : Z) (info : bytes) (s : Srv) : res Srv := log ← echo_line level info; Ok (emit (ToClient cid None log) s).
Definition EchoClientFormat (cid level : Z) (msg : bytes) (s : Srv) : res Srv :=
  text ← format_only (cstr msg); EchoClient cid level (format_limit text) s.
(** A format of the code's own whose arguments are filled in. *)
Definition EchoClientText (cid level : Z) (text : bytes) (s : Srv) : res Srv := EchoClient cid level (format_limit text) s.

Definition EchoClientRaw (cid : Z) (payload : bytes) (s : Srv) : Srv := emit (ToClient cid None payload) s.
Definition SendCommandToClient (cid commandFlag : Z) (payload : bytes) (s : Srv) : Srv := emit (ToClient cid (Some commandFlag) payload) s.

Definition GetConnectionErrorInfo (connType : Z) : option bytes :=
  if connType =? CONN_USB then Some (str "[E001003] USB communication abnormal, please check the USB communication link.")
  else if connType =? CONN_SERIAL then Some (str "[E001408] UART communication abnormal, please check the UART communication link.")
  else None.

Definition GetDaemonConnectionError (hdi : option HdcDaemonInformation) : bytes :=
  let base := str "[E002106] Failed to communicate with daemon" in
  match hdi with
  | None => base
  | Some d =>
      match GetConnectionErrorInfo (di_connType d) with
      | Some e => e
      | None => if bytes_eqb (di_faultInfo d) [] then base else base ++ str ": " ++ di_faultInfo d
      end
  end.

(** ** What the client may receive *)

Definition ResolveHostReceiveTargetPath (cwd path : bytes) : option bytes :=
  if bytes_eqb path [] then None else Some (if IsAbsolutePath path then path else cwd ++ path).

(** [cur]: the component read so far, reversed. *)
Fixpoint child_path (cur path : bytes) : bool :=
  let component_ok := negb (bytes_eqb (rev cur) (str "..")) in
  match path with
  | [] => component_ok
  | c :: path =>
      if (c =? 47) || (c =? 92) then component_ok && child_path [] path
      else if c =? 0 then false else child_path (c :: cur) path
  end.
Definition IsHostReceiveChildPath (path : bytes) : bool := child_path [] path.

(** The working directory, the last path and the number of paths. *)
Fixpoint receive_args (args : list bytes) (cwd lastPath : bytes) (pathCount : Z) : option (bytes * bytes * Z) :=
  match args with
  | [] => if pathCount =? 0 then None else Some (cwd, lastPath, pathCount)
  | a :: args =>
      if bytes_eqb a (str "-cwd") then match args with [] => None | c :: args => receive_args args c lastPath pathCount end
      else if bytes_eqb a (str "-z") || bytes_eqb a (str "-sync") || bytes_eqb a (str "-a") || bytes_eqb a (str "-m")
      then receive_args args cwd lastPath pathCount
      else if bytes_eqb a (str "-b") then match args with [] => None | _ :: args => receive_args args cwd lastPath pathCount end
      else if match a with c :: _ => c =? 45 | [] => false end then None
      else receive_args args cwd a (pathCount + 1)
  end.
Definition ParseHostReceiveArguments (argv : list bytes) : option (bytes * bytes * Z) := receive_args (tail argv) [] [] 0.

(** [emplace]: does not replace. *)
Definition StoreHostPermit (channelId : Z) (permit : HostReceivePermit) (s : Srv) : bool * Srv :=
  match om_find channelId (sv_permits s) with
  | Some _ => (false, s)
  | None => (true, set_permits (om_set channelId permit (sv_permits s)) s)
  end.
Definition RemoveHostReceivePermit (channelId : Z) (s : Srv) : Srv := set_permits (om_erase channelId (sv_permits s)) s.
Definition RemoveHostReceivePermitsBySession (sessionId : Z) (s : Srv) : Srv :=
  set_permits (List.filter (fun p => negb (pm_sessionId p.2 =? sessionId)) (sv_permits s)) s.

Definition RegisterRecvPermit (cid target : Z) (argv : list bytes) (s : Srv) : bool * Srv :=
  match ParseHostReceiveArguments argv with
  | None => (false, s)
  | Some (cwd, lastPath, pathCount) =>
      match ResolveHostReceiveTargetPath cwd (if pathCount =? 1 then str "." else lastPath) with
      | None => (false, s)
      | Some targetPath => StoreHostPermit cid (mkPermit target targetPath) s
      end
  end.

Definition RegisterForwardPermit (cid target : Z) (argv : list bytes) (s : Srv) : bool * Srv :=
  match argv with _ :: _ :: e :: _ => StoreHostPermit cid (mkPermit target e) s | _ => (false, s) end.

Definition RegisterHostPermit (cid target : Z) (parameters : bytes) (s : Srv) : res (bool * Srv) :=
  r ← SplitCommandToArgs parameters;
  let argv := match r with Some r => arg_strings r | None => [] end in
  let '(valid, s) :=
    match argv with
    | [] => (false, s)
    | command :: _ =>
        if bytes_eqb command (str "recv") then RegisterRecvPermit cid target argv s
        else if bytes_eqb command (str "rport") || bytes_eqb command (str "fport") then RegisterForwardPermit cid target argv s
        else (false, s)
    end in
  Ok (valid, if valid then s else RemoveHostReceivePermit cid s).

Definition MatchHostPermit (cid : Z) (q : ReqChannel) (sessionId : Z) (s : Srv) : option HostReceivePermit :=
  match om_find cid (sv_permits s) with
  | Some permit => if negb (pm_sessionId permit =? sessionId) || negb (q_target q =? sessionId) then None else Some permit
  | None => None
  end.

Definition CheckHostReceivePermit (cid : Z) (q : ReqChannel) (sessionId : Z) (payload : bytes) (s : Srv) : bool :=
  match MatchHostPermit cid q sessionId s with
  | None => false
  | Some permit =>
      let '(ok, config) := ParseFromString TransferConfig_type TransferConfig_zero payload in
      if negb ok then false
      else if negb (IsHostReceiveChildPath (tc_optionalName config)) then false
      else match ResolveHostReceiveTargetPath (tc_clientCwd config) (tc_path config) with
           | None => false
           | Some targetPath => bytes_eqb targetPath (pm_target permit)
           end
  end.

Definition CheckForwardEndpoint (cid : Z) (q : ReqChannel) (sessionId : Z) (payload : bytes) (s : Srv) : bool :=
  if zlen payload <? 4 + 8 + 1 then false
  else
    let endpoint := zdrop 12 payload in
    if negb (bool_decide (0 ∈ endpoint)) then false
    else match MatchHostPermit cid q sessionId s with
         | None => false
         | Some permit => bytes_eqb (pm_target permit) (cstr endpoint)
         end.

(** ** Commands the server carries out *)

Section Request.
Context (Usage Verbose : bytes) (uv_ip4_addr : bytes -> Z -> Z) (env : REnv).

Definition daemon_of (key : bytes) (s : Srv) : option HdcDaemonInformation := AdminDaemonMapQuery key (sv_daemons s).

Definition SendToDaemon (cid commandFlag : Z) (data : bytes) (s : Srv) : res (bool * Srv) :=
  q ← chan cid s;
  match daemon_of (q_connectKey q) s with
  | None => Ok (false, s)
  | Some hdi =>
      if negb (di_connStatus hdi =? STATUS_CONNECTED) then Ok (false, s)
      else match di_hSession hdi with
           | None => Ok (false, s)
           | Some a => w ← deref (sv_sessions s !! a); if v_send env then Ok (true, emit (ToDaemon (w_sessionId w) cid commandFlag data) s) else Ok (false, s)
           end
  end.

Definition decimal (n : Z) : bytes := str (pretty.pretty n).

Definition OrderFindTargets (cid : Z) (s : Srv) : res Srv :=
  s ← EchoClientText cid MSG_INFO (str "Please add HDC server's firewall ruler to allow udp incoming, udpport:8710") s;
  let add m key := AdminDaemonMapAdd (mkDI CONN_TCP STATUS_READY key [] [] None [] [] [] [] false []) m in
  let s := set_daemons (fold_left add (v_lan env) (sv_daemons s)) s in
  EchoClientText cid MSG_INFO (str "Broadcast find daemon, total:" ++ decimal (zlen (v_lan env))) s.

Definition GetTargetList (cid : Z) (parameters : bytes) (s : Srv) : res Srv :=
  let sRet := GetDaemonMapList (bytes_eqb parameters (str "v")) (sv_daemons s) in
  EchoClient cid MSG_OK (if zlen sRet =? 0 then EMPTY_ECHO else sRet) s.

(** [NewConnectTry]: [bufStd] has room for 125 characters of the key. *)
Definition NewConnectTry (cid : Z) (connectKey : bytes) (s : Srv) : res (bool * Srv) :=
  let '(childRet, daemons) := CreateConnect (v_uart env) (v_connect env) connectKey (sv_daemons s) in
  let s := set_daemons daemons s in
  if childRet =? -1 then s ← EchoClientText cid MSG_INFO (str "Target is connected, repeat operation") s; Ok (false, s)
  else if childRet =? RET_SUCCESS then
    s ← match find (str ":") connectKey 0 with
        | Some pos => if bytes_eqb (ztake pos connectKey) (str "127.0.0.1") then upd cid (set_q_localDevice true) s else Ok s
        | None => Ok s
        end;
    let fits := zlen (cstr connectKey) <=? 125 in
    s ← upd cid (set_q_poll 0 (if fits then cstr connectKey else ztake 125 (cstr connectKey))) s;
    if fits && (0 <? zlen (cstr connectKey)) then Ok (true, if v_timer env then emit (PollConnect cid) s else s) else Ok (false, s)
  else
    s ← (if childRet =? ERR_NO_SUPPORT then EchoClientText cid MSG_FAIL (str "CreateConnect failed") s else Ok s);
    s ← EchoClient cid MSG_OK (GetDaemonConnectionError (daemon_of connectKey s)) s; Ok (false, s).

Definition GetAnyTarget (cid : Z) (s : Srv) : res (bool * Srv) :=
  match AdminDaemonMapAny (sv_daemons s) with
  | None => s ← EchoClientText cid MSG_FAIL (str "No target available") s; Ok (false, s)
  | Some hdi => NewConnectTry cid (di_connectKey hdi) s
  end.

Definition WaitForAny (cid : Z) (s : Srv) : res (bool * Srv) :=
  q ← chan cid s;
  match AdminDaemonMapForWait (q_connectKey q) (sv_daemons s) with
  | None => s ← EchoClientText cid MSG_FAIL (str "No any connected target") s; Ok (false, s)
  | Some hdi => s ← EchoClientText cid MSG_OK (str "Wait for connected target is " ++ cstr (di_connectKey hdi)) s; Ok (true, s)
  end.

Definition CommandRemoveSession (cid : Z) (connectKey : bytes) (s : Srv) : res (bool * Srv) :=
  match daemon_of connectKey s with
  | Some hdi =>
      match di_hSession hdi with
      | Some a => w ← deref (sv_sessions s !! a); Ok (true, emit (FreeSess (w_sessionId w)) s)
      | None => s ← EchoClientText cid MSG_FAIL (str "No target available") s; Ok (false, s)
      end
  | None => s ← EchoClientText cid MSG_FAIL (str "No target available") s; Ok (false, s)
  end.

Definition CommandReconnectTarget (cid : Z) (key : bytes) (s : Srv) : res (bool * Srv) :=
  if bytes_eqb key [] then s ← EchoClientText cid MSG_FAIL (str "Usage: reconnect <target-key>") s; Ok (false, s)
  else
    let unavailable := s ← EchoClientText cid MSG_FAIL (str "Target device " ++ key ++ str " not available") s; Ok (false, s) in
    match daemon_of key s with
    | None => unavailable
    | Some hdi =>
        if negb (di_connStatus hdi =? STATUS_CONNECTED) then unavailable
        else if negb (di_connType hdi =? CONN_USB) then
          s ← EchoClientText cid MSG_FAIL (str "Reconnect only supports USB devices") s; Ok (false, s)
        else
          sessionId ← match di_hSession hdi with Some a => w ← deref (sv_sessions s !! a); Ok (w_sessionId w) | None => Ok 0 end;
          let s := if 0 <? sessionId then emit (FreeSess sessionId) s else s in
          let s := if negb (bytes_eqb (di_usbMountPoint hdi) []) && v_usb env then emit (Rescan (di_usbMountPoint hdi)) s else s in
          s ← EchoClientFormat cid MSG_OK (str "Reconnecting " ++ key ++ str " ...") s; Ok (true, s)
    end.

(** [RemoveForward] of [ServerTables] with what it clears and says. *)
Definition RemoveForwardRule (cid : Z) (parameterString : bytes) (s : Srv) : res (bool * Srv) :=
  q ← chan cid s;
  let live sid := match om_find sid (sv_mapSession s) with Some _ => true | None => false end in
  '((ret, cleared, m) : bool * list (Z * Z) * forward_map) ← RemoveForward live (q_connectKey q) parameterString (sv_forwards s);
  let s := fold_left (fun s p => emit (FreeCh p.2) (emit (ClearTasks p.1 p.2) s)) cleared (set_forwards m s) in
  s ← (if ret : bool then EchoClientText cid MSG_OK (str "Remove forward ruler success, ruler:" ++ parameterString) s
       else EchoClientText cid MSG_FAIL (str "Remove forward ruler failed, ruler is not exist " ++ parameterString) s);
  Ok (ret, s).

(** The error numbers that have a text. *)
Definition GetErrorString (errorCode : Z) : bytes :=
  if errorCode =? 5 then
    str "Failed to load the authorization pub key!" ++ [13; 10] ++ str "Please check the public key directory:[~/.harmony]" ++ [13; 10] ++
    str "Alternatively, delete the public key directory and re-run the command." ++ [13; 10] ++
    str "Delete command: " ++ [34] ++ str "rm -r ~/.harmony" ++ [34]
  else if errorCode =? 8451 then
    str "Failed to start the HDC server process!" ++ [13; 10] ++
    str "Please check the HDC server process port is occupied or used as an exception port." ++ [13; 10] ++
    str "Alternatively, change the OHOS_HDC_SERVER_PORT environment variable and re-run the command."
  else str "Unknown error".

(** [%06x]. *)
Definition hex6 (n : Z) : bytes := let h := hex 8 n in replicate (6 - length h) 48 ++ h.

Definition PrintLastError (cid : Z) (s : Srv) : res Srv :=
  if 0 <? sv_lastErrorNum s then
    s' ← EchoClientText cid MSG_FAIL (str "[E" ++ hex6 (sv_lastErrorNum s) ++ str "]" ++ GetErrorString (sv_lastErrorNum s)) s;
    Ok (set_lastError 0 s')
  else Ok s.

Definition ReportServerVersion (cid : Z) (s : Srv) : Srv := SendCommandToClient cid CMD_CHECK_SERVER GetVersion s.

Definition DoCommandLocal (cid : Z) (f : FormatCommand) (s : Srv) : res (bool * Srv) :=
  let p := parameters f in
  let done b v (s : Srv) := s ← upd cid (set_q_isSuccess b) s; Ok (v : bool, s) in
  let flag := cmdFlag f in
  if flag =? CMD_KERNEL_TARGET_DISCOVER then s ← OrderFindTargets cid s; done true false s
  else if flag =? CMD_KERNEL_TARGET_LIST then s ← GetTargetList cid p s; done true false s
  else if flag =? CMD_SERVICE_START then s ← PrintLastError cid s; done true false s
  else if flag =? CMD_CHECK_SERVER then done true false (ReportServerVersion cid s)
  else if flag =? CMD_WAIT_FOR then '((r, s) : bool * Srv) ← WaitForAny cid s; done true (negb r) s
  else if flag =? CMD_KERNEL_TARGET_ANY then '((r, s) : bool * Srv) ← GetAnyTarget cid s; done r r s
  else if flag =? CMD_KERNEL_TARGET_CONNECT then '((r, s) : bool * Srv) ← NewConnectTry cid (cstr p) s; done r r s
  else if flag =? CMD_CHECK_DEVICE then
    s ← upd cid (set_q_check (cstr p)) s; '((r, s) : bool * Srv) ← NewConnectTry cid (cstr p) s; done r r s
  else if flag =? CMD_KERNEL_TARGET_DISCONNECT then '((_, s) : bool * Srv) ← CommandRemoveSession cid (cstr p) s; done true false s
  else if flag =? CMD_KERNEL_TARGET_RECONNECT then '((r, s) : bool * Srv) ← CommandReconnectTarget cid (cstr p) s; done r false s
  else if flag =? CMD_FORWARD_LIST then
    let echo := AdminForwardMapList true (sv_forwards s) in
    s ← EchoClient cid MSG_OK (if zlen echo =? 0 then EMPTY_ECHO else echo) s; done true false s
  else if flag =? CMD_FORWARD_REMOVE then '((_, s) : bool * Srv) ← RemoveForwardRule cid (cstr p) s; done true false s
  else if flag =? CMD_KERNEL_ENABLE_KEEPALIVE then s ← upd cid (set_q_keepAlive true) s; done true true s
  else if flag =? CMD_SPAWN_SUB then s ← EchoClientText cid MSG_OK (v_sub env) s; done true true s
  else
    s ← EchoClientText cid MSG_FAIL (str "ExecuteCommand need connect-key? please confirm a device by help info") s;
    s ← upd cid (FillChannelResult false (str "found no devices")) s; Ok (false, s).

(** The timer that waits for a connection; it answers whether it is over. *)
Definition IsDisconnect (hdi : option HdcDaemonInformation) (count : Z) (s : Srv) : res bool :=
  match hdi with
  | None => Ok true
  | Some d =>
      if v_uart env && (di_connType d =? CONN_SERIAL) then Ok (500 <? count)
      else match di_hSession d with
           | None => Ok true
           | Some a => w ← deref (sv_sessions s !! a); Ok (negb (w_isRunningOk w))
           end
  end.

Definition OnConnectTargetSuccess (cid : Z) (hdi : HdcDaemonInformation) (s : Srv) : res Srv :=
  q ← chan cid s;
  if q_isCheck q then '((_, s) : bool * Srv) ← CommandRemoveSession cid (cstr (q_key q)) s; EchoClientFormat cid MSG_OK (di_version hdi) s
  else EchoClientFormat cid MSG_OK (str "Connect OK") s.

Definition OrderConnecTargetResult (cid : Z) (s : Srv) : res (bool * Srv) :=
  q ← chan cid s;
  let target := q_poll q in
  let hdi := if bytes_eqb target (str "any") then AdminDaemonMapAny (sv_daemons s) else daemon_of target s in
  let connected := match hdi with Some d => di_connStatus d =? STATUS_CONNECTED | None => false end in
  '((bExitRepet, s) : bool * Srv) ←
    match hdi with
    | Some d =>
        if connected then s ← OnConnectTargetSuccess cid d s; Ok (true, s)
        else
          let n := u16 (q_retry q + 1) in
          s ← upd cid (set_q_poll n target) s;
          stop ← (if q_localDevice q && (MAX_CONNECT_DEVICE_RETRY_COUNT <? n) then Ok true else IsDisconnect hdi n s);
          if stop : bool then
            s ← EchoClient cid MSG_FAIL (str "Connect failed" ++ [13; 10] ++ GetDaemonConnectionError hdi) s;
            Ok (true, set_daemons (AdminDaemonMapUpdate
              (mkDI (di_connType d) STATUS_OFFLINE (di_connectKey d) (di_usbMountPoint d) (di_devName d) (di_hSession d) (di_version d)
                 (di_emgmsg d) (di_daemonAuthStatus d) (di_daemonFeature d) false (di_faultInfo d)) (sv_daemons s)) s)
          else Ok (false, s)
    | None =>
        s ← upd cid (set_q_poll (u16 (q_retry q + 1)) target) s;
        s ← EchoClient cid MSG_FAIL (str "Connect failed" ++ [13; 10] ++ GetDaemonConnectionError None) s; Ok (true, s)
    end;
  Ok (bExitRepet, if bExitRepet then emit (FreeCh cid) s else s).

(** ** Commands for the device *)

Definition FindAliveSession (sid : Z) (s : Srv) : res (option ReqSession) :=
  w ← AdminSession_query sid s; Ok match w with Some w => if w_isDead w then None else Some w | None => None end.

(** [HandleRemote]: the channel, and the parameters without the first ["remote "]. *)
Definition HandleRemote (cid : Z) (p : bytes) (flag : Z) (s : Srv) : res (bytes * Srv) :=
  q ← chan cid s;
  r ← SplitCommandToArgs p;
  let argv := match r with Some r => arg_strings r | None => [] end in
  let fromClient := q_fromClient q || existsb (fun a => bytes_eqb a CMDSTR_REMOTE_PARAMETER) argv in
  s ← upd cid (set_q_remote flag fromClient) s;
  let word := CMDSTR_REMOTE_PARAMETER ++ [32] in
  Ok (if fromClient then match find word p 0 with Some k => ztake k p ++ zdrop (k + zlen word) p | None => p end else p, s).

(** The word that keeps a command on the host. *)
Definition task_word (flag : Z) : bytes :=
  if flag =? CMD_FILE_INIT then str "send "
  else if flag =? CMD_FORWARD_INIT then str "fport "
  else if flag =? CMD_APP_INIT then str "install "
  else if flag =? CMD_APP_UNINSTALL then str "uninstall "
  else if flag =? CMD_UNITY_BUGREPORT_INIT then str "bugreport "
  else if flag =? CMD_APP_SIDELOAD then str "sideload "
  else if flag =? CMD_FLASHD_UPDATE_INIT then str "update "
  else if flag =? CMD_FLASHD_FLASH_INIT then str "flash "
  else [].

(** A command of fewer characters than the word has a negative size. *)
Definition TaskCommand (cid : Z) (f : FormatCommand) (s : Srv) : res (bool * Srv) :=
  let flag := cmdFlag f in
  '((p, s) : bytes * Srv) ← (if flag =? CMD_FILE_INIT then HandleRemote cid (parameters f) REMOTE_FILE s
                             else if flag =? CMD_APP_INIT then HandleRemote cid (parameters f) REMOTE_APP s
                             else Ok (parameters f, s));
  q ← chan cid s;
  '((_, s) : bool * Srv) ← (if (flag =? CMD_FILE_INIT) || (flag =? CMD_FORWARD_INIT) then RegisterHostPermit cid (q_target q) p s
                            else Ok (false, s));
  let word := task_word flag in
  let local := is_prefix word (cstr p) in
  if zlen p <? zlen word then Undefined
  else
    let data := zdrop (zlen word) p in
    if local then
      w ← FindAliveSession (q_target q) s;
      match w with
      | None => Ok (false, s)
      | Some w =>
          if ((flag =? CMD_FILE_INIT) || (flag =? CMD_APP_INIT)) && q_fromClient q then Ok (false, SendCommandToClient cid flag data s)
          else Ok (true, emit (ToTask (w_sessionId w) cid flag data) s)
      end
    else '((_, s) : bool * Srv) ← SendToDaemon cid flag data s; Ok (true, s).

Definition plain_commands : list Z :=
  [CMD_SHELL_INIT; CMD_SHELL_DATA; CMD_UNITY_EXECUTE; CMD_UNITY_EXECUTE_EX; CMD_UNITY_REMOUNT; CMD_UNITY_REBOOT; CMD_UNITY_RUNMODE;
   CMD_UNITY_HILOG; CMD_UNITY_ROOTRUN; CMD_JDWP_TRACK; CMD_JDWP_LIST].
Definition task_commands : list Z :=
  [CMD_FILE_INIT; CMD_FORWARD_INIT; CMD_APP_INIT; CMD_APP_UNINSTALL; CMD_UNITY_BUGREPORT_INIT; CMD_APP_SIDELOAD; CMD_FLASHD_UPDATE_INIT;
   CMD_FLASHD_FLASH_INIT; CMD_FLASHD_ERASE; CMD_FLASHD_FORMAT].

Definition DoCommandRemote (cid : Z) (f : FormatCommand) (s : Srv) : res (bool * Srv) :=
  let flag := cmdFlag f in
  '((ret, s) : bool * Srv) ←
    (if bool_decide (flag ∈ plain_commands) then
       '((sent, s) : bool * Srv) ← SendToDaemon cid flag (parameters f) s;
       if sent && (flag =? CMD_SHELL_INIT) then s ← upd cid (set_q_interactive true) s; Ok (true, s) else Ok (sent, s)
     else if bool_decide (flag ∈ task_commands) then '((_, s) : bool * Srv) ← TaskCommand cid f s; Ok (true, s)
     else Ok (false, s));
  if ret : bool then Ok (true, s)
  else s ← EchoClientText cid MSG_FAIL (str "[E002106] Failed to communicate with daemon") s; Ok (false, s).

Definition FEATURE_CHECK_SET : list Z := [CMD_UNITY_EXECUTE_EX].
Definition CommandMatchDaemonFeature (flag : Z) (hdi : option HdcDaemonInformation) : bool :=
  match hdi with
  | None => false
  | Some d =>
      if negb (bool_decide (flag ∈ FEATURE_CHECK_SET)) then true
      else match om_find (decimal flag) (di_daemonFeature d) with Some v => bytes_eqb v STR_FEATURE_ENABLE | None => false end
  end.

Definition DoCommand (cid : Z) (f : FormatCommand) (hdi : option HdcDaemonInformation) (s : Srv) : res (bool * Srv) :=
  q ← chan cid s;
  let flag := cmdFlag f in
  if negb (q_attached q) || (flag =? CMD_FORWARD_REMOVE) || (flag =? CMD_SPAWN_SUB) || (flag =? CMD_SERVICE_START) then
    s ← upd cid (set_q_command flag (parameters f)) s; DoCommandLocal cid f s
  else if negb (CommandMatchDaemonFeature flag hdi) then
    s ← EchoClientText cid MSG_FAIL (str "[E002105] Unsupport command") s; Ok (false, s)
  else
    s ← (if flag =? CMD_SHELL_DATA then Ok s else upd cid (set_q_command flag (parameters f)) s);
    DoCommandRemote cid f s.

(** ** The requests of a client *)

Definition BIND_DEAD : bytes := str "Bind tartget session is dead".

(** The session a channel is bound to, or why there is none: for the record and
    for the client. *)
Definition alive_session (key : bytes) (s : Srv) : res (addr + bytes * bytes) :=
  match daemon_of key s with
  | None => Ok (inr (str "no match targets found", str "Not match target founded, check connect-key please"))
  | Some hdi =>
      if negb (di_connStatus hdi =? STATUS_CONNECTED) then
        Ok (inr (str "device not found or connected",
                 str "[E001005] Device not found or connected" ++
                 (if bytes_eqb (di_faultInfo hdi) [] then [] else [13; 10] ++ GetDaemonConnectionError (Some hdi))))
      else match di_hSession hdi with
           | None => Ok (inr (str "bind target session is null", BIND_DEAD))
           | Some a =>
               w ← deref (sv_sessions s !! a);
               if w_isDead w then Ok (inr (str "bind target session is dead", BIND_DEAD))
               else if negb (w_handshakeOK w) then
                 Ok (inr (str "handshake is not ready", str "[E000004]:The communication channel is being established." ++ [13; 10] ++
                          str "Please wait for several seconds and try again."))
               else Ok (inl a)
           end
  end.

Definition FindAliveSessionFromDaemonMap (cid : Z) (s : Srv) : res (option addr * Srv) :=
  q ← chan cid s;
  r ← alive_session (q_connectKey q) s;
  match r with
  | inl a => Ok (Some a, s)
  | inr (fault, text) => s ← upd cid (FillChannelResult false fault) s; s ← EchoClient cid MSG_FAIL text s; Ok (None, s)
  end.

(** The device that [CheckAutoFillTarget] asks for. *)
Definition only_daemon (s : Srv) : res (option (bytes * option bool)) :=
  match GetDaemonMapOnlyOne (sv_daemons s) with
  | None => Ok None
  | Some d => match di_hSession d with
              | None => Ok (Some (di_connectKey d, None))
              | Some a => w ← deref (sv_sessions s !! a); Ok (Some (di_connectKey d, Some (w_handshakeOK w)))
              end
  end.

(** [ChannelHandShake] of [ChannelHandshake] up to the binding, which is reached
    when it answers [ERR_GENERIC]; then the binding. *)
Definition Handshake (cid : Z) (buf : bytes) (s : Srv) : res (Z * Srv) :=
  q ← chan cid s;
  only ← only_daemon s;
  '((r, hs, _) : Z * SChannel * bool) ← ChannelHandShake only (fun _ => ERR_GENERIC) buf (q_hs q);
  s ← upd cid (set_q_hs hs) s;
  if negb (r =? ERR_GENERIC) then Ok (r, s)
  else
    '((a, s) : option addr * Srv) ← FindAliveSessionFromDaemonMap cid s;
    match a with
    | None => Ok (ERR_GENERIC, s)
    | Some a => w ← deref (sv_sessions s !! a); if v_dup env then Ok (0, emit (BindTo (w_sessionId w) cid) s) else Ok (ERR_GENERIC, s)
    end.

Definition ReadChannel (cid : Z) (buf : bytes) (s : Srv) : res (Z * Srv) :=
  q ← chan cid s;
  if negb (sc_handshakeOK (q_hs q)) then Handshake cid buf s
  else
    let hdi := daemon_of (q_connectKey q) s in
    match hdi with
    | Some d =>
        if negb (bytes_eqb (di_emgmsg d) []) then s ← EchoClientFormat cid MSG_FAIL (di_emgmsg d) s; Ok (ERR_GENERIC, s)
        else Ok (0, s)
    | None => Ok (0, s)
    end ≫= fun '((stop, s) : Z * Srv) =>
    if negb (stop =? 0) then Ok (stop, s)
    else
      let command := le_combine (ztake 2 (buf ++ [v_stale env])) in
      if negb (command =? 0) && (REMOTE_NONE <? q_remote q) then
        if zlen buf <? 2 then Undefined
        else '((_, s) : bool * Srv) ← SendToDaemon cid command (zdrop 2 buf) s; Ok (0, s)
      else
        '((f, s) : option FormatCommand * Srv) ←
          (if negb (q_interactive q) then
             '((retEcho, f) : bytes * FormatCommand) ← String2FormatCommand Usage Verbose uv_ip4_addr false buf;
             s ← (if bytes_eqb retEcho [] then Ok s
                  else EchoClientFormat cid (if starts buf CMDSTR_SOFTWARE_HELP || strcmp_eq buf CMDSTR_SOFTWARE_VERSION ||
                                                strcmp_eq buf (str "flash") then MSG_OK else MSG_FAIL) retEcho s);
             Ok (if bJumpDo f then None else Some f, s)
           else Ok (Some (mkFormat CMD_SHELL_DATA buf false), s));
        match f with
        | None => Ok (-10, s)
        | Some f => '((ok, s) : bool * Srv) ← DoCommand cid f hdi s; Ok (if ok : bool then zlen buf else -3, s)
        end.

(** ** The commands of a device *)

Definition CheckHostCommandPermission (cid : Z) (q : ReqChannel) (sessionId command : Z) (payload : bytes) (s : Srv) : bool :=
  if command =? CMD_FILE_INIT then false
  else if (command =? CMD_FILE_CHECK) && negb (CheckHostReceivePermit cid q sessionId payload s) then false
  else if (command =? CMD_FORWARD_ACTIVE_SLAVE) && negb (CheckForwardEndpoint cid q sessionId payload s) then false
  else if command =? CMD_UNITY_BUGREPORT_INIT then false
  else true.

Definition HandleKernelEcho (cid : Z) (payload : bytes) (s : Srv) : res Srv :=
  match payload with [] => Ok s | level :: text => EchoClientFormat cid level text s end.

Definition SendDaemon (sid cid command : Z) (data : bytes) (s : Srv) : Srv := if v_send env then emit (ToDaemon sid cid command data) s else s.

Definition HandleChannelClose (sid cid : Z) (payload : bytes) (s : Srv) : Srv :=
  let s := emit (FreeChAsync cid) (emit (ClearTasks sid cid) s) in
  match payload with
  | [] => s
  | c :: _ => if negb (c =? 0) then SendDaemon sid cid CMD_KERNEL_CHANNEL_CLOSE [c - 1] s else s
  end.

Definition ForwardSuccess (w : ReqSession) (cid : Z) (payload : bytes) (s : Srv) : Srv :=
  let s := set_forwards (HandleForwardSuccess (w_sessionId w) cid (w_connectKey w) payload (sv_forwards s)) s in
  match cstr payload with [] => s | _ => emit (CloseChild cid) s end.

Definition passed_commands : list Z :=
  [CMD_FILE_INIT; CMD_FILE_CHECK; CMD_FILE_BEGIN; CMD_FILE_DATA; CMD_FILE_FINISH; CMD_FILE_MODE; CMD_DIR_MODE; CMD_APP_INIT; CMD_APP_CHECK;
   CMD_APP_BEGIN; CMD_APP_DATA; CMD_APP_FINISH].

Definition DispatchPassthroughTask (cid : Z) (q : ReqChannel) (command : Z) (payload : bytes) (s : Srv) : res (bool * Srv) :=
  w ← AdminSession_query (q_target q) s;
  Ok match w with None => (false, s) | Some w => (v_task env, emit (ToTask (w_sessionId w) cid command payload) s) end.

Definition DispatchChannelCommand (cid : Z) (q : ReqChannel) (w : ReqSession) (command : Z) (payload : bytes) (s : Srv) : res (bool * Srv) :=
  if command =? CMD_KERNEL_ECHO_RAW then Ok (true, EchoClientRaw cid payload s)
  else if command =? CMD_KERNEL_ECHO then s ← HandleKernelEcho cid payload s; Ok (true, s)
  else if command =? CMD_KERNEL_CHANNEL_CLOSE then Ok (true, HandleChannelClose (w_sessionId w) cid payload s)
  else if command =? CMD_FORWARD_SUCCESS then Ok (true, ForwardSuccess w cid payload s)
  else if bool_decide (command ∈ passed_commands) && q_fromClient q then Ok (true, SendCommandToClient cid command payload s)
  else DispatchPassthroughTask cid q command payload s.

(** [FetchCommand] in the thread of the session [w]. *)
Definition FetchCommand (w : ReqSession) (cid command : Z) (payload : bytes) (s : Srv) : res (bool * Srv) :=
  if command =? CMD_KERNEL_HANDSHAKE then Ok (v_shake env, emit (OpenShake (w_sessionId w) payload) s)
  else if command =? CMD_HEARTBEAT_MSG then Ok (true, emit (OpenBeat (w_sessionId w) payload) s)
  else
    match om_find cid (sv_channels s) with
    | None => Ok (true, SendDaemon (w_sessionId w) cid CMD_KERNEL_CHANNEL_CLOSE [0] s)
    | Some q =>
        if q_isDead q then Ok (true, SendDaemon (w_sessionId w) cid CMD_KERNEL_CHANNEL_CLOSE [0] s)
        else if negb (CheckHostCommandPermission cid q (w_sessionId w) command payload s) then Ok (true, s)
        else DispatchChannelCommand cid q w command payload s
    end.

(** [ServerCommand]: a task of the host sends a command to the server itself. *)
Definition ServerCommand (sid cid command : Z) (payload : bytes) (s : Srv) : res (bool * Srv) :=
  w ← AdminSession_query sid s;
  match om_find cid (sv_channels s), w with Some _, Some w => FetchCommand w cid command payload s | _, _ => Ok (false, s) end.
End Request.
