(* ===== verification/ServerRequestProps.v ===== *)
(** * ServerRequestProps: requests reach their device, devices only what was asked for *)

From Stdlib Require Import String ZArith Lia List Bool.
From stdpp Require Import base list numbers option gmap.
From S2P Require Import Prelude Defs OrdMap Serial Messages Args Strings Session Sandbox ChannelHandshake Translate ServerTables Forward ServerRequest.

(** ** What a handler adds *)

(** The handler succeeded: it added effects that satisfy [P] and changed, of what
    other channels see, nothing: their records and their permits stay; with [k], no
    permit changes at all. *)
Record adds (k : bool) (cid : Z) (P : Eff -> Prop) (s s' : Srv) : Prop := {
  ad_out : exists l, sv_out s' = sv_out s ++ l /\ Forall P l;
  ad_chan : forall c, c <> cid -> om_find c (sv_channels s') = om_find c (sv_channels s);
  ad_permit : forall c, c <> cid -> om_find c (sv_permits s') = om_find c (sv_permits s);
  ad_own : k = true -> sv_permits s' = sv_permits s;
  ad_sess : sv_sessions s' = sv_sessions s /\ sv_mapSession s' = sv_mapSession s
}.

Lemma adds_refl k cid P s : adds k cid P s s.
Proof. split; try done. exists []. by rewrite app_nil_r. Qed.
Lemma adds_trans k cid P s1 s2 s3 : adds k cid P s1 s2 -> adds k cid P s2 s3 -> adds k cid P s1 s3.
Proof.
  intros [(l1 & E1 & F1) H1 G1 K1 [A1 B1]] [(l2 & E2 & F2) H2 G2 K2 [A2 B2]]. split.
  - exists (l1 ++ l2). rewrite E2, E1, app_assoc. split; [done|by apply Forall_app].
  - intros c Hc. by rewrite H2, H1.
  - intros c Hc. by rewrite G2, G1.
  - intros Hk. by rewrite K2, K1.
  - split; congruence.
Qed.
Lemma adds_weaken k cid (P Q : Eff -> Prop) s s' : (forall e, P e -> Q e) -> adds k cid P s s' -> adds k cid Q s s'.
Proof. intros HPQ [(l & E & F) H1 H2 H3 H4]. split; try done. exists l. split; [done|]. eapply Forall_impl; [exact F|done]. Qed.
Lemma adds_emit k cid (P : Eff -> Prop) e s : P e -> adds k cid P s (emit e s).
Proof. intros He. split; try done. exists [e]. split; [done|]. by constructor. Qed.
Lemma adds_daemons k cid P d s : adds k cid P s (set_daemons d s).
Proof. split; try done. exists []. by rewrite app_nil_r. Qed.
Lemma adds_forwards k cid P d s : adds k cid P s (set_forwards d s).
Proof. split; try done. exists []. by rewrite app_nil_r. Qed.
Lemma adds_error k cid P d s : adds k cid P s (set_lastError d s).
Proof. split; try done. exists []. by rewrite app_nil_r. Qed.

Lemma upd_inv cid f s s' : upd cid f s = Ok s' -> exists q, om_find cid (sv_channels s) = Some q /\ s' = set_channels (om_set cid (f q) (sv_channels s)) s.
Proof. unfold upd, chan. destruct (om_find cid (sv_channels s)); cbn; [|done]. intros [= <-]. eauto. Qed.
Lemma adds_upd k cid P f s s' : upd cid f s = Ok s' -> adds k cid P s s'.
Proof.
  intros (q & _ & ->)%upd_inv. split; try done; cbn; [exists []; by rewrite app_nil_r|]. intros c Hc. by rewrite om_find_set_ne.
Qed.

Lemma echo_adds k cid (P : Eff -> Prop) level info s s' : (forall d, P (ToClient cid None d)) -> EchoClient cid level info s = Ok s' -> adds k cid P s s'.
Proof. intros HP H. unfold EchoClient in H. bind_ok H. injection H as <-. by apply adds_emit. Qed.
Lemma echo_text_adds k cid (P : Eff -> Prop) level info s s' : (forall d, P (ToClient cid None d)) -> EchoClientText cid level info s = Ok s' -> adds k cid P s s'.
Proof. apply echo_adds. Qed.
Lemma echo_format_adds k cid (P : Eff -> Prop) level info s s' : (forall d, P (ToClient cid None d)) -> EchoClientFormat cid level info s = Ok s' -> adds k cid P s s'.
Proof. intros HP H. unfold EchoClientFormat in H. bind_ok H. by eapply echo_adds. Qed.

(** ** The server's own commands *)

(** Messages to the client and calls of the server's tables; nothing for a device
    and nothing for a task. *)
Definition own (cid : Z) (e : Eff) : Prop :=
  match e with
  | ToClient c _ _ | PollConnect c => c = cid
  | FreeSess _ | Rescan _ | ClearTasks _ _ | FreeCh _ => True
  | _ => False
  end.

(** Takes apart what is known of a handler. *)
Ltac dissect H := repeat first
  [ bind_ok H
  | match type of H with
    | (if ?b then _ else _) = Ok _ => destruct b eqn:?
    | (match ?x with _ => _ end) = Ok _ => destruct x eqn:?
    end ].
Ltac dissect_all := repeat match goal with
  | H : (_ ≫= _) = Ok _ |- _ => bind_ok H
  | H : (if ?b then _ else _) = Ok _ |- _ => destruct b eqn:?
  | H : (match ?x with _ => _ end) = Ok _ |- _ => destruct x eqn:?
  | H : Ok _ = Ok _ |- _ => injection H as ?; subst
  | H : Undefined = Ok _ |- _ => discriminate H
  end.
Ltac gather k cid P := repeat match goal with
  | H : EchoClient cid _ _ _ = Ok _ |- _ => apply (echo_adds k cid P) in H; [|by intros]
  | H : EchoClientText cid _ _ _ = Ok _ |- _ => apply (echo_text_adds k cid P) in H; [|by intros]
  | H : EchoClientFormat cid _ _ _ = Ok _ |- _ => apply (echo_format_adds k cid P) in H; [|by intros]
  | H : upd cid _ _ = Ok _ |- _ => apply (adds_upd k cid P) in H
  end.
Ltac chain := repeat first
  [ eassumption | apply adds_refl
  | match goal with
    | |- adds _ _ _ _ (emit _ _) => eapply adds_trans; [|apply adds_emit; done]
    | |- adds _ _ _ _ (set_lastError _ _) => eapply adds_trans; [|apply adds_error]
    | |- adds _ _ _ _ (set_daemons _ _) => eapply adds_trans; [|apply adds_daemons]
    | |- adds _ _ _ _ (set_forwards _ _) => eapply adds_trans; [|apply adds_forwards]
    | H : adds _ _ _ ?a ?b |- adds _ _ _ _ ?b => eapply adds_trans; [|exact H]; clear H
    | |- adds _ _ _ _ (if ?b then _ else _) => destruct b
    end ].
Ltac handler k cid := dissect_all; gather k cid (own cid); chain.

Section Own.
Context (env : REnv).

Lemma OrderFindTargets_own k cid s s' : OrderFindTargets env cid s = Ok s' -> adds k cid (own cid) s s'.
Proof. unfold OrderFindTargets. intros H. handler k cid. Qed.
Lemma GetTargetList_own k cid p s s' : GetTargetList cid p s = Ok s' -> adds k cid (own cid) s s'.
Proof. unfold GetTargetList. intros H. handler k cid. Qed.
Lemma NewConnectTry_own k cid key s r s' : NewConnectTry env cid key s = Ok (r, s') -> adds k cid (own cid) s s'.
Proof.
  unfold NewConnectTry. destruct (CreateConnect _ _ _ _) as [c d]. intros H. handler k cid.
Qed.
Lemma GetAnyTarget_own k cid s r s' : GetAnyTarget env cid s = Ok (r, s') -> adds k cid (own cid) s s'.
Proof. unfold GetAnyTarget. intros H. destruct (AdminDaemonMapAny _); [by eapply NewConnectTry_own|]. handler k cid. Qed.
Lemma WaitForAny_own k cid s r s' : WaitForAny cid s = Ok (r, s') -> adds k cid (own cid) s s'.
Proof. unfold WaitForAny. intros H. handler k cid. Qed.
Lemma CommandRemoveSession_own k cid key s r s' : CommandRemoveSession cid key s = Ok (r, s') -> adds k cid (own cid) s s'.
Proof. unfold CommandRemoveSession. intros H. handler k cid. Qed.
Lemma CommandReconnectTarget_own k cid key s r s' : CommandReconnectTarget env cid key s = Ok (r, s') -> adds k cid (own cid) s s'.
Proof. unfold CommandReconnectTarget. intros H. handler k cid. Qed.
Lemma PrintLastError_own k cid s s' : PrintLastError cid s = Ok s' -> adds k cid (own cid) s s'.
Proof. unfold PrintLastError. intros H. handler k cid. Qed.

Lemma clears_own k cid l s : adds k cid (own cid) s (fold_left (fun s p => emit (FreeCh p.2) (emit (ClearTasks p.1 p.2) s)) l s).
Proof.
  revert s. induction l as [|p l IH]; intros s; [apply adds_refl|]. cbn [fold_left]. eapply adds_trans; [|apply IH].
  eapply adds_trans; apply adds_emit; done.
Qed.

Lemma RemoveForwardRule_own k cid p s r s' : RemoveForwardRule cid p s = Ok (r, s') -> adds k cid (own cid) s s'.
Proof.
  unfold RemoveForwardRule. intros H. do 2 bind_ok H. set (s0 := fold_left _ _ _) in H.
  assert (A : adds k cid (own cid) s s0) by (eapply adds_trans; [apply adds_forwards|apply clears_own]). clearbody s0. handler k cid.
Qed.

Lemma done_own k cid (b v r : bool) s s' : (s ← upd cid (set_q_isSuccess b) s; Ok (v, s)) = Ok (r, s') -> adds k cid (own cid) s s'.
Proof. intros H. handler k cid. Qed.

Lemma DoCommandLocal_own k cid f s r s' : DoCommandLocal env cid f s = Ok (r, s') -> adds k cid (own cid) s s'.
Proof.
  unfold DoCommandLocal. intros H.
  repeat match type of H with (if ?b then _ else _) = Ok _ => destruct b end; repeat bind_ok H;
    try (injection H as <- <-);
    repeat match goal with
    | H : OrderFindTargets _ _ _ = Ok _ |- _ => apply (OrderFindTargets_own k) in H
    | H : GetTargetList _ _ _ = Ok _ |- _ => apply (GetTargetList_own k) in H
    | H : PrintLastError _ _ = Ok _ |- _ => apply (PrintLastError_own k) in H
    | H : WaitForAny _ _ = Ok _ |- _ => apply (WaitForAny_own k) in H
    | H : GetAnyTarget _ _ _ = Ok _ |- _ => apply (GetAnyTarget_own k) in H
    | H : NewConnectTry _ _ _ _ = Ok _ |- _ => apply (NewConnectTry_own k) in H
    | H : CommandRemoveSession _ _ _ = Ok _ |- _ => apply (CommandRemoveSession_own k) in H
    | H : CommandReconnectTarget _ _ _ _ = Ok _ |- _ => apply (CommandReconnectTarget_own k) in H
    | H : RemoveForwardRule _ _ _ = Ok _ |- _ => apply (RemoveForwardRule_own k) in H
    end; gather k cid (own cid); unfold ReportServerVersion, SendCommandToClient in *; chain.
Qed.
End Own.

(** ** Commands for the device *)

(** The session of the device with the key, as the table has it. *)
Definition to_device (key : bytes) (s : Srv) (sid : Z) : Prop :=
  exists d a w, daemon_of key s = Some d /\ di_connStatus d = STATUS_CONNECTED /\ di_hSession d = Some a /\ sv_sessions s !! a = Some w /\ w_sessionId w = sid.
(** The session with the id, alive. *)
Definition to_session (target : Z) (s : Srv) (sid : Z) : Prop :=
  exists a w, om_find target (sv_mapSession s) = Some a /\ sv_sessions s !! a = Some w /\ w_isDead w = false /\ w_sessionId w = sid.

(** What a request on the channel [cid] may bring about: messages to its own
    client; commands to the device of its connect key, once it is attached; tasks
    of the session it is attached to. *)
Definition proper (cid : Z) (q : ReqChannel) (s0 : Srv) (e : Eff) : Prop :=
  match e with
  | ToDaemon sid c _ _ => c = cid /\ (q_attached q = true \/ REMOTE_NONE < q_remote q) /\ to_device (q_connectKey q) s0 sid
  | ToTask sid c cmd _ => c = cid /\ q_attached q = true /\ to_session (q_target q) s0 sid /\ cmd ∈ task_commands
  | BindTo sid c => c = cid /\ sc_handshakeOK (q_hs q) = false
  | _ => own cid e
  end.

Lemma own_proper cid q s0 e : own cid e -> proper cid q s0 e.
Proof. by destruct e. Qed.

(** In the middle of a request: the channel has its key and its session, the
    tables are as they were. *)
Record sees (cid : Z) (q : ReqChannel) (s0 s : Srv) : Prop := {
  se_chan : exists q', om_find cid (sv_channels s) = Some q' /\ q_hs q' = q_hs q /\ q_target q' = q_target q;
  se_daemons : sv_daemons s = sv_daemons s0;
  se_sessions : sv_sessions s = sv_sessions s0 /\ sv_mapSession s = sv_mapSession s0
}.

Lemma sees_refl cid q s : om_find cid (sv_channels s) = Some q -> sees cid q s s.
Proof. intros Hq. split; eauto. Qed.
Lemma sees_upd cid q s0 s f s' : (forall q, q_hs (f q) = q_hs q /\ q_target (f q) = q_target q) -> sees cid q s0 s -> upd cid f s = Ok s' -> sees cid q s0 s'.
Proof.
  intros Hf [(q' & E1 & E2 & E3) Hd Hs] (q1 & Eq1 & ->)%upd_inv. destruct (Hf q1) as [F1 F2]. split; cbn; try done. exists (f q1).
  rewrite om_find_set_eq. split; [done|]. split; congruence.
Qed.

Section Remote.
Context (env : REnv).

Lemma SendToDaemon_ok cid q s0 s cmd data r s' : sees cid q s0 s -> (q_attached q = true \/ REMOTE_NONE < q_remote q) ->
  SendToDaemon env cid cmd data s = Ok (r, s') -> adds false cid (proper cid q s0) s s' /\ sees cid q s0 s' /\
  (r = true -> exists sid, sv_out s' = sv_out s ++ [ToDaemon sid cid cmd data]).
Proof.
  intros [(q' & Hq & E1 & E2) Hd [Hs Hm]] Ha H. unfold SendToDaemon, chan in H. rewrite Hq in H. cbn [deref mbind res_bind] in H.
  assert (Ek : q_connectKey q' = q_connectKey q) by (unfold q_connectKey; congruence).
  assert (Hsame : Ok (false, s) = Ok (r, s') -> adds false cid (proper cid q s0) s s' /\ sees cid q s0 s' /\
    (r = true -> exists sid, sv_out s' = sv_out s ++ [ToDaemon sid cid cmd data])).
  { intros [= <- <-]. split; [apply adds_refl|]. split; [|done]. split; eauto. }
  rewrite Ek in H. destruct (daemon_of (q_connectKey q) s) as [d|] eqn:Ed; [|by apply Hsame].
  destruct (di_connStatus d =? STATUS_CONNECTED) eqn:Es; cbn [negb] in H; breflect; [|by apply Hsame].
  destruct (di_hSession d) as [a|] eqn:Eh; [|by apply Hsame]. bind_ok H. apply deref_Ok in Hx. destruct (v_send env); [|by apply Hsame].
  injection H as <- <-. split; [apply adds_emit|].
  - split; [done|]. split; [done|]. exists d, a, x. unfold daemon_of in *. rewrite <- Hd, <- Hs. done.
  - split; [split; cbn; eauto|eauto].
Qed.

(** What changes no table and adds nothing. *)
Lemma permit_keeps cid target p s r s' : RegisterHostPermit cid target p s = Ok (r, s') ->
  sv_channels s' = sv_channels s /\ sv_daemons s' = sv_daemons s /\ sv_sessions s' = sv_sessions s /\ sv_mapSession s' = sv_mapSession s /\ sv_out s' = sv_out s /\
  (forall c, c <> cid -> om_find c (sv_permits s') = om_find c (sv_permits s)).
Proof.
  unfold RegisterHostPermit. intros H. bind_ok H. set (argv := match x with Some r => _ | None => _ end) in H. clearbody argv. clear Hx x.
  assert (St : forall perm, let '(b, t) := StoreHostPermit cid perm s in sv_channels t = sv_channels s /\ sv_daemons t = sv_daemons s /\
    sv_sessions t = sv_sessions s /\ sv_mapSession t = sv_mapSession s /\ sv_out t = sv_out s /\ (forall c, c <> cid -> om_find c (sv_permits t) = om_find c (sv_permits s))).
  { intros perm. unfold StoreHostPermit. destruct (om_find cid (sv_permits s)); cbn; split_and!; try done. intros c Hc. by rewrite om_find_set_ne. }
  destruct (match argv with [] => (false, s) | _ => _ end) as [valid t] eqn:Ev.
  assert (Ht : sv_channels t = sv_channels s /\ sv_daemons t = sv_daemons s /\ sv_sessions t = sv_sessions s /\ sv_mapSession t = sv_mapSession s /\ sv_out t = sv_out s /\
    (forall c, c <> cid -> om_find c (sv_permits t) = om_find c (sv_permits s))).
  { destruct argv as [|command argv]; [by injection Ev as <- <-|]. unfold RegisterRecvPermit, RegisterForwardPermit in Ev.
    repeat match type of Ev with
    | (if ?b then _ else _) = _ => destruct b
    | match ?x with _ => _ end = _ => destruct x
    end; try (by injection Ev as <- <-); (match type of Ev with StoreHostPermit _ ?perm _ = _ => specialize (St perm); by rewrite Ev in St end). }
  injection H as <- <-. destruct Ht as (H1 & H2 & H3 & H4 & H5 & H6). destruct valid; [done|]. cbn. split_and!; try done.
  intros c Hc. by rewrite om_find_erase_ne, H6.
Qed.

Lemma HandleRemote_ok cid q s0 s p flag p' s' : sees cid q s0 s -> HandleRemote cid p flag s = Ok (p', s') -> adds false cid (proper cid q s0) s s' /\ sees cid q s0 s'.
Proof.
  intros S H. unfold HandleRemote in H. bind_ok H. bind_ok H. bind_ok H. injection H as _ <-. split; [by eapply adds_upd|].
  eapply sees_upd; [|exact S|exact Hx1]. by intros.
Qed.

Lemma TaskCommand_ok cid q s0 s f r s' : sees cid q s0 s -> q_attached q = true -> cmdFlag f ∈ task_commands ->
  TaskCommand env cid f s = Ok (r, s') -> adds false cid (proper cid q s0) s s'.
Proof.
  intros S Ha Hf H. unfold TaskCommand in H. bind_ok H.
  match type of Hx with _ = Ok (?b, ?t) => rename b into p, t into s1 end.
  assert (S1 : adds false cid (proper cid q s0) s s1 /\ sees cid q s0 s1).
  { destruct (cmdFlag f =? CMD_FILE_INIT); [by eapply HandleRemote_ok|]. destruct (cmdFlag f =? CMD_APP_INIT); [by eapply HandleRemote_ok|].
    injection Hx as <- <-. split; [apply adds_refl|done]. }
  destruct S1 as [A1 S1]. clear Hx. bind_ok H. rename x into q1. apply deref_Ok in Hx. bind_ok H.
  match type of Hx0 with _ = Ok (?b, ?t) => rename t into s2 end.
  assert (S2 : adds false cid (proper cid q s0) s1 s2 /\ sees cid q s0 s2).
  { destruct (_ || _); [|injection Hx0 as <- <-; split; [apply adds_refl|done]].
    destruct (permit_keeps _ _ _ _ _ _ Hx0) as (K1 & K2 & K3 & K4 & K5 & K6). destruct S1 as [Sc Sd [Ss Sm]]. split.
    - split; [exists []; by rewrite K5, app_nil_r|by rewrite K1|done|done|by rewrite K3, K4].
    - split; [by rewrite K1|congruence|split; congruence]. }
  destruct S2 as [A2 S2]. assert (A : adds false cid (proper cid q s0) s s2) by by eapply adds_trans. clear A1 A2.
  assert (Eq1 : q_target q1 = q_target q) by (destruct (se_chan _ _ _ _ S1) as (q' & E1 & E2 & E3); congruence).
  destruct (_ <? _); [done|]. destruct (is_prefix _ _).
  - bind_ok H. unfold FindAliveSession, AdminSession_query in Hx1. rewrite Eq1 in Hx1. destruct x as [w|]; [|injection H as <- <-; done].
    assert (Hw : to_session (q_target q) s0 (w_sessionId w)).
    { destruct (se_sessions _ _ _ _ S2) as [Es Em]. rewrite Es, Em in Hx1. bind_ok Hx1. destruct (om_find (q_target q) (sv_mapSession s0)) as [a|] eqn:Eo; [|injection Hx2 as <-; done].
      bind_ok Hx2. injection Hx2 as <-. apply deref_Ok in Hx3. destruct (w_isDead x0) eqn:Ed; [done|]. injection Hx1 as <-. by exists a, x0. }
    destruct (_ && _); injection H as <- <-; (eapply adds_trans; [exact A|]); apply adds_emit; [done|]. by split_and!.
  - bind_ok H. injection H as <- <-. eapply adds_trans; [exact A|]. eapply SendToDaemon_ok; [exact S2|by left|exact Hx1].
Qed.

Lemma DoCommandRemote_ok cid q s0 s f r s' : sees cid q s0 s -> q_attached q = true -> DoCommandRemote env cid f s = Ok (r, s') -> adds false cid (proper cid q s0) s s'.
Proof.
  intros S Ha H. unfold DoCommandRemote in H. bind_ok H. match type of Hx with _ = Ok (_, ?t) => rename t into s1 end.
  assert (A : adds false cid (proper cid q s0) s s1).
  { case_bool_decide.
    - bind_ok Hx. destruct (SendToDaemon_ok _ _ _ _ _ _ _ _ S (or_introl Ha) Hx0) as (A & S1 & _). destruct (_ && _).
      + bind_ok Hx. injection Hx as <- <-. eapply adds_trans; [exact A|by eapply adds_upd].
      + injection Hx as <- <-. exact A.
    - case_bool_decide as Hf; [bind_ok Hx; injection Hx as <- <-; by eapply TaskCommand_ok|]. injection Hx as <- <-. apply adds_refl. }
  match type of H with (if ?b then _ else _) = _ => destruct b end; [injection H as <- <-; done|].
  bind_ok H. injection H as <- <-. eapply adds_trans; [exact A|]. by eapply echo_text_adds.
Qed.

Lemma DoCommand_ok cid q s f hdi r s' : om_find cid (sv_channels s) = Some q -> DoCommand env cid f hdi s = Ok (r, s') -> adds false cid (proper cid q s) s s'.
Proof.
  intros Hq H. unfold DoCommand, chan in H. rewrite Hq in H. cbn [deref mbind res_bind] in H. destruct (_ || _) eqn:El.
  - bind_ok H. apply (adds_upd false cid (proper cid q s)) in Hx. eapply adds_trans; [exact Hx|]. eapply adds_weaken; [by intros; apply own_proper|].
    by eapply DoCommandLocal_own.
  - rewrite !orb_false_iff in El. destruct El as [[[Ea _] _] _]. apply negb_false_iff in Ea. destruct (negb _).
    + bind_ok H. injection H as <- <-. by eapply echo_text_adds.
    + bind_ok H. assert (S : sees cid q s x /\ adds false cid (proper cid q s) s x).
      { destruct (_ =? _); [injection Hx as <-; split; [by apply sees_refl|apply adds_refl]|].
        split; [|by eapply adds_upd]. eapply sees_upd; [|by apply sees_refl|exact Hx]. by intros. }
      destruct S as [S A]. eapply adds_trans; [exact A|]. by eapply DoCommandRemote_ok.
Qed.
End Remote.

(** ** Requests *)

Section Read.
Context (Usage Verbose : bytes) (uv_ip4_addr : bytes -> Z -> Z) (env : REnv).

Lemma FindAlive_ok cid q s0 s a s' : FindAliveSessionFromDaemonMap cid s = Ok (a, s') -> adds false cid (proper cid q s0) s s'.
Proof.
  unfold FindAliveSessionFromDaemonMap. intros H. bind_ok H. bind_ok H. destruct x0 as [b|[fault text]]; [injection H as <- <-; apply adds_refl|].
  bind_ok H. bind_ok H. injection H as <- <-. eapply adds_trans; [by eapply adds_upd|by eapply echo_adds].
Qed.

Lemma Handshake_ok cid q s buf r s' : om_find cid (sv_channels s) = Some q -> sc_handshakeOK (q_hs q) = false ->
  Handshake env cid buf s = Ok (r, s') -> adds false cid (proper cid q s) s s'.
Proof.
  intros Hq Hh H. unfold Handshake, chan in H. rewrite Hq in H. cbn [deref mbind res_bind] in H. do 3 bind_ok H.
  apply (adds_upd false cid (proper cid q s)) in Hx1. destruct (negb _); [injection H as <- <-; done|]. bind_ok H.
  apply (FindAlive_ok cid q s) in Hx2. pose proof (adds_trans _ _ _ _ _ _ Hx1 Hx2) as A.
  match type of H with match ?o with _ => _ end = _ => destruct o as [a|]; [|injection H as <- <-; done] end.
  bind_ok H. destruct (v_dup env); injection H as <- <-; [|done]. eapply adds_trans; [exact A|]. by apply adds_emit.
Qed.

Lemma proper_same cid q s s2 e : sv_daemons s2 = sv_daemons s -> sv_sessions s2 = sv_sessions s -> sv_mapSession s2 = sv_mapSession s ->
  proper cid q s2 e -> proper cid q s e.
Proof. intros E1 E2 E3. destruct e; cbn [proper]; try done; unfold to_device, to_session, daemon_of; by rewrite ?E1, ?E2, ?E3. Qed.

Lemma echo_same cid level msg s s' : EchoClientFormat cid level msg s = Ok s' -> exists d, s' = emit (ToClient cid None d) s.
Proof. unfold EchoClientFormat, EchoClient. intros H. do 2 bind_ok H. injection H as <-. eauto. Qed.

(** The first test of a request: a device with an emergency message refuses. *)
Lemma emergency_stops cid (hdi : option HdcDaemonInformation) s stop s1 :
  match hdi with
  | Some d => if negb (bytes_eqb (di_emgmsg d) []) then s ← EchoClientFormat cid MSG_FAIL (di_emgmsg d) s; Ok (ERR_GENERIC, s) else Ok (0, s)
  | None => Ok (0, s)
  end = Ok (stop, s1) -> (stop = 0 /\ s1 = s) \/ (stop = ERR_GENERIC /\ exists d, s1 = emit (ToClient cid None d) s).
Proof.
  intros H. destruct hdi as [d|]; [|injection H as <- <-; by left]. destruct (negb _); [|injection H as <- <-; by left].
  bind_ok H. injection H as <- <-. right. split; [done|]. by eapply echo_same.
Qed.

Lemma ReadChannel_proper cid q s buf r s' : om_find cid (sv_channels s) = Some q ->
  ReadChannel Usage Verbose uv_ip4_addr env cid buf s = Ok (r, s') -> adds false cid (proper cid q s) s s'.
Proof.
  intros Hq H. unfold ReadChannel in H. unfold chan in H at 1. rewrite Hq in H. cbn [deref mbind res_bind] in H.
  destruct (sc_handshakeOK (q_hs q)) eqn:Eh; cbn [negb] in H; [|by eapply Handshake_ok].
  bind_ok H. apply emergency_stops in Hx as [[-> ->]|[-> [d ->]]]; [|injection H as <- <-; by apply adds_emit].
  cbn [negb Z.eqb] in H. destruct (negb _ && _) eqn:Er.
  { apply andb_true_iff in Er as [_ Er]. breflect. destruct (_ <? _); [done|]. bind_ok H. injection H as <- <-.
    eapply SendToDaemon_ok; [by apply sees_refl|by right|exact Hx]. }
  bind_ok H. match type of Hx with _ = Ok (_, ?t) => rename t into s1 end.
  assert (A : adds false cid (proper cid q s) s s1 /\ sv_daemons s1 = sv_daemons s /\ sv_channels s1 = sv_channels s).
  { destruct (negb (q_interactive q)); [|injection Hx as <- <-; split; [apply adds_refl|done]]. do 2 bind_ok Hx. injection Hx as <- <-.
    destruct (bytes_eqb _ _); [injection Hx1 as <-; split; [apply adds_refl|done]|].
    apply echo_same in Hx1 as [t ->]. split; [by apply adds_emit|done]. }
  destruct A as (A & Ed & Ec). match type of H with match ?o with _ => _ end = _ => destruct o as [f|]; [|injection H as <- <-; done] end.
  bind_ok H. injection H as _ <-. eapply adds_trans; [exact A|]. destruct (ad_sess _ _ _ _ _ A) as [E1 E2].
  eapply adds_weaken; [|eapply DoCommand_ok; [by rewrite Ec|exact Hx0]]. intros e. by apply proper_same.
Qed.
End Read.

(** ** Refused requests *)

(** The client was sent a message. *)
Definition says (cid : Z) (s s' : Srv) : Prop := exists l cmd d, sv_out s' = sv_out s ++ l /\ ToClient cid cmd d ∈ l.
Definition grows (s s' : Srv) : Prop := exists l, sv_out s' = sv_out s ++ l.

Lemma adds_grows k cid P s s' : adds k cid P s s' -> grows s s'.
Proof. intros [(l & E & _) _ _ _ _]. by exists l. Qed.
Lemma says_later cid s s1 s' : says cid s s1 -> grows s1 s' -> says cid s s'.
Proof. intros (l & c & d & E & Hin) [l' E']. exists (l ++ l'), c, d. rewrite E', E, app_assoc. split; [done|]. apply elem_of_app. by left. Qed.
Lemma says_before cid s s1 s' : grows s s1 -> says cid s1 s' -> says cid s s'.
Proof. intros [l' E'] (l & c & d & E & Hin). exists (l' ++ l), c, d. rewrite E, E', app_assoc. split; [done|]. apply elem_of_app. by right. Qed.
Lemma says_emit cid cmd d s : says cid s (emit (ToClient cid cmd d) s).
Proof. exists [ToClient cid cmd d], cmd, d. split; [done|]. left. Qed.
Lemma echo_says cid level info s s' : EchoClient cid level info s = Ok s' -> says cid s s'.
Proof. unfold EchoClient. intros H. bind_ok H. injection H as <-. apply says_emit. Qed.
Lemma echo_format_says cid level info s s' : EchoClientFormat cid level info s = Ok s' -> says cid s s'.
Proof. intros [d ->]%echo_same. apply says_emit. Qed.
Lemma upd_grows cid f s s' : upd cid f s = Ok s' -> grows s s'.
Proof. intros (q & _ & ->)%upd_inv. exists []. by rewrite app_nil_r. Qed.
Lemma grows_refl s : grows s s.
Proof. exists []. by rewrite app_nil_r. Qed.
Lemma grows_trans s1 s2 s3 : grows s1 s2 -> grows s2 s3 -> grows s1 s3.
Proof. intros [l1 E1] [l2 E2]. exists (l1 ++ l2). by rewrite E2, E1, app_assoc. Qed.

(** A connect key that [bufStd] cannot hold. *)
Definition unpollable (key : bytes) : Prop := cstr key = [] \/ 125 < zlen (cstr key).

Section Refused.
Context (env : REnv).

Lemma NewConnectTry_says cid key s s' : NewConnectTry env cid key s = Ok (false, s') -> says cid s s' \/ unpollable key.
Proof.
  unfold NewConnectTry. destruct (CreateConnect _ _ _ _) as [c d]. set (s0 := set_daemons d s). assert (G0 : grows s s0) by (exists []; cbn; by rewrite app_nil_r).
  clearbody s0. intros H. destruct (c =? -1).
  { bind_ok H. injection H as <-. left. eapply says_before; [exact G0|]. by eapply echo_says. }
  destruct (c =? RET_SUCCESS).
  - do 2 bind_ok H. destruct (zlen (cstr key) <=? 125) eqn:E1; breflect; [|right; right; lia]. cbn [andb] in H.
    destruct (0 <? zlen (cstr key)) eqn:E2; [done|]. breflect. right. left. destruct (cstr key); [done|]. cbn [length] in E2. lia.
  - do 2 bind_ok H. injection H as <-. left. eapply says_before; [exact G0|]. eapply says_before; [|by eapply echo_says].
    destruct (_ =? _); [|injection Hx as <-; apply grows_refl]. apply (echo_text_adds false cid (own cid)) in Hx; [by eapply adds_grows|by intros].
Qed.

(** Requests that end without a message: starting the service without an error to
    report, disconnecting a device, a key that cannot be polled. *)
Definition silent (f : FormatCommand) (s : Srv) : Prop :=
  (cmdFlag f = CMD_SERVICE_START /\ sv_lastErrorNum s <= 0) \/ cmdFlag f = CMD_KERNEL_TARGET_DISCONNECT \/
  (cmdFlag f = CMD_KERNEL_TARGET_ANY /\ exists hdi, AdminDaemonMapAny (sv_daemons s) = Some hdi /\ unpollable (di_connectKey hdi)) \/
  ((cmdFlag f = CMD_KERNEL_TARGET_CONNECT \/ cmdFlag f = CMD_CHECK_DEVICE) /\ unpollable (cstr (parameters f))).

Lemma done_says cid (b v : bool) s s1 s' : says cid s s1 -> (s ← upd cid (set_q_isSuccess b) s1; Ok (v, s)) = Ok (false, s') -> says cid s s'.
Proof. intros Hs H. bind_ok H. injection H as _ <-. eapply says_later; [exact Hs|by eapply upd_grows]. Qed.

Lemma DoCommandLocal_says cid f s s' : DoCommandLocal env cid f s = Ok (false, s') -> says cid s s' \/ silent f s.
Proof.
  unfold DoCommandLocal, silent. intros H.
  destruct (cmdFlag f =? CMD_KERNEL_TARGET_DISCOVER).
  { bind_ok H. left. eapply done_says; [|exact H]. unfold OrderFindTargets in Hx. bind_ok Hx. eapply says_later; [by eapply echo_says|].
    apply (echo_text_adds false cid (own cid)) in Hx; [|by intros]. apply (adds_grows false cid (own cid)). eapply adds_trans; [apply adds_daemons|exact Hx]. }
  destruct (cmdFlag f =? CMD_KERNEL_TARGET_LIST); [bind_ok H; left; eapply done_says; [by eapply echo_says|exact H]|].
  destruct (cmdFlag f =? CMD_SERVICE_START) eqn:E3; breflect.
  { bind_ok H. unfold PrintLastError in Hx. destruct (0 <? sv_lastErrorNum s) eqn:El; breflect; [|right; left; split; [done|lia]].
    bind_ok Hx. injection Hx as <-. left. eapply done_says; [|exact H]. eapply says_later; [by eapply echo_says|]. exists []. cbn. by rewrite app_nil_r. }
  destruct (cmdFlag f =? CMD_CHECK_SERVER); [left; eapply done_says; [apply says_emit|exact H]|].
  destruct (cmdFlag f =? CMD_WAIT_FOR).
  { bind_ok H. left. eapply done_says; [|exact H]. unfold WaitForAny in Hx. bind_ok Hx.
    destruct (AdminDaemonMapForWait _ _); bind_ok Hx; injection Hx as _ <-; by eapply echo_says. }
  destruct (cmdFlag f =? CMD_KERNEL_TARGET_ANY) eqn:E6; breflect.
  { bind_ok H. bind_ok H. injection H as -> <-. unfold GetAnyTarget in Hx. destruct (AdminDaemonMapAny _) as [hdi|] eqn:Eh.
    - apply NewConnectTry_says in Hx as [Hs|Hu]; [left; eapply says_later; [exact Hs|by eapply upd_grows]|]. right. right. right. left. eauto.
    - bind_ok Hx. injection Hx as <-. left. eapply says_later; [by eapply echo_says|by eapply upd_grows]. }
  destruct (cmdFlag f =? CMD_KERNEL_TARGET_CONNECT) eqn:E7; breflect.
  { bind_ok H. bind_ok H. injection H as -> <-.
    apply NewConnectTry_says in Hx as [Hs|Hu]; [left; eapply says_later; [exact Hs|by eapply upd_grows]|]. right. right. right. right. auto. }
  destruct (cmdFlag f =? CMD_CHECK_DEVICE) eqn:E8; breflect.
  { do 3 bind_ok H. injection H as -> <-. apply NewConnectTry_says in Hx0 as [Hs|Hu]; [|right; right; right; right; auto].
    left. eapply says_later; [eapply says_before; [by eapply upd_grows|exact Hs]|by eapply upd_grows]. }
  destruct (cmdFlag f =? CMD_KERNEL_TARGET_DISCONNECT) eqn:E9; breflect; [by right; right; left|].
  destruct (cmdFlag f =? CMD_KERNEL_TARGET_RECONNECT).
  { bind_ok H. left. eapply done_says; [|exact H]. unfold CommandReconnectTarget in Hx. dissect_all; try (by eapply echo_says).
    all: eapply says_before; [|by eapply echo_format_says]; repeat match goal with |- context [if ?b then _ else _] => destruct b end;
      first [apply grows_refl|eexists; cbn; rewrite <- ?app_assoc; reflexivity]. }
  destruct (cmdFlag f =? CMD_FORWARD_LIST); [bind_ok H; left; eapply done_says; [by eapply echo_says|exact H]|].
  destruct (cmdFlag f =? CMD_FORWARD_REMOVE).
  { bind_ok H. left. eapply done_says; [|exact H]. unfold RemoveForwardRule in Hx. do 3 bind_ok Hx. injection Hx as _ <-.
    eapply says_before; [|match goal with H : (if _ then _ else _) = Ok _ |- _ => destruct (_ : bool) in H; by eapply echo_says end].
    apply (adds_grows false cid (own cid)). eapply adds_trans; [apply adds_forwards|apply clears_own]. }
  destruct (cmdFlag f =? CMD_KERNEL_ENABLE_KEEPALIVE); [by do 2 bind_ok H|].
  destruct (cmdFlag f =? CMD_SPAWN_SUB); [by do 2 bind_ok H|].
  do 2 bind_ok H. injection H as <-. left. eapply says_later; [by eapply echo_says|by eapply upd_grows].
Qed.

Lemma DoCommand_says cid f hdi s s' : DoCommand env cid f hdi s = Ok (false, s') -> says cid s s' \/ silent f s.
Proof.
  unfold DoCommand. intros H. bind_ok H. destruct (_ || _).
  - bind_ok H. destruct (upd_inv _ _ _ _ Hx0) as (q & Hq & ->). apply DoCommandLocal_says in H as [H|H]; [|by right].
    left. eapply says_before; [|exact H]. by eapply upd_grows.
  - left. destruct (negb _); [bind_ok H; injection H as <-; by eapply echo_says|]. bind_ok H. unfold DoCommandRemote in H. bind_ok H.
    match type of H with (if ?b then _ else _) = _ => destruct b; [done|] end. bind_ok H. injection H as <-.
    eapply says_before; [|by eapply echo_says]. eapply grows_trans.
    + destruct (_ =? _); [injection Hx0 as <-; apply grows_refl|by eapply upd_grows].
    + case_bool_decide; [|case_bool_decide].
      * bind_ok Hx1. match type of Hx1 with (if ?b && ?c then _ else _) = _ => destruct (b && c) end; [by bind_ok Hx1|]. injection Hx1 as -> <-.
        unfold SendToDaemon in Hx3. dissect_all; first [done|apply grows_refl].
      * by bind_ok Hx1.
      * injection Hx1 as <-. apply grows_refl.
Qed.
End Refused.

Section Answers.
Context (Usage Verbose : bytes) (uv_ip4_addr : bytes -> Z -> Z) (env : REnv) (Husage : Usage <> []) (Hverbose : Verbose <> []).

Lemma ReadChannel_says cid q s req r s' : om_find cid (sv_channels s) = Some q -> sc_handshakeOK (q_hs q) = true ->
  ReadChannel Usage Verbose uv_ip4_addr env cid (req ++ [0]) s = Ok (r, s') -> r < 0 ->
  says cid s s' \/ exists err f, String2FormatCommand Usage Verbose uv_ip4_addr false (req ++ [0]) = Ok (err, f) /\ silent f s.
Proof.
  intros Hq Eh H Hr. unfold ReadChannel in H. unfold chan in H at 1. rewrite Hq in H. cbn [deref mbind res_bind] in H.
  rewrite Eh in H. cbn [negb] in H. bind_ok H. apply emergency_stops in Hx as [[-> ->]|[-> [d ->]]]; [|injection H as <- <-; left; apply says_emit].
  cbn [negb Z.eqb] in H. destruct (negb _ && _); [destruct (_ <? _); [done|]; bind_ok H; injection H as <- <-; lia|].
  bind_ok H. destruct (negb (q_interactive q)) eqn:Ei.
  - bind_ok Hx. bind_ok Hx. injection Hx as <- <-.
    match goal with H : String2FormatCommand _ _ _ _ _ = Ok (?e, ?c) |- _ => rename e into err, c into f, H into Ht end.
    match goal with H : (if bytes_eqb err [] then _ else _) = Ok ?t |- _ => rename t into s1, H into He end.
    destruct (bJumpDo f) eqn:Ej.
    + injection H as <- <-. left. destruct (body_translates Usage Verbose uv_ip4_addr false Husage Hverbose req) as ([e c] & Hb & Hj & _).
      unfold String2FormatCommand in Ht. rewrite Hb in Ht. cbn [mbind res_bind fst snd] in *. injection Ht as Hee ->. specialize (Hj Ej).
      destruct (bytes_eqb err []) eqn:Ee; [|by eapply echo_format_says]. exfalso. apply bytes_eqb_eq in Ee. subst err.
      destruct (bytes_eqb e []) eqn:E2; [apply bytes_eqb_eq in E2; contradiction|by destruct e].
    + bind_ok H. match type of H with Ok (if ?b then _ else _, _) = _ => destruct b end; injection H as <- <-; [lia|].
      destruct (bytes_eqb err []) eqn:Ee.
      * injection He as <-. apply DoCommand_says in Hx as [Hs|Hs]; [by left|]. right. eauto.
      * left. eapply says_later; [by eapply echo_format_says|]. apply echo_same in He as [t ->].
        eapply (adds_grows false cid). eapply DoCommand_ok; [|exact Hx]. exact Hq.
  - injection Hx as <- <-. bind_ok H. match type of H with Ok (if ?b then _ else _, _) = _ => destruct b end; injection H as <- <-; [lia|].
    apply DoCommand_says in Hx as [Hs|Hs]; [by left|]. exfalso. unfold silent in Hs. cbn [cmdFlag] in Hs.
    destruct Hs as [[E _]|[E|[[E _]|[[E|E] _]]]]; discriminate E.
Qed.
End Answers.

(** ** Permits *)

(** What a client's command asks to receive: the host path of [file recv], the host
    endpoint of a forwarding command. *)
Definition requested (argv : list bytes) : option bytes :=
  match argv with
  | [] => None
  | command :: _ =>
      if bytes_eqb command (str "recv") then
        match ParseHostReceiveArguments argv with
        | Some (cwd, lastPath, pathCount) => ResolveHostReceiveTargetPath cwd (if pathCount =? 1 then str "." else lastPath)
        | None => None
        end
      else if bytes_eqb command (str "rport") || bytes_eqb command (str "fport") then
        match argv with _ :: _ :: e :: _ => Some e | _ => None end
      else None
  end.

Lemma om_set_in {V} (k : Z) (v : V) m p : In p (om_set k v m) -> p = (k, v) \/ In p m.
Proof.
  induction m as [|[k' v'] m IH]; cbn [om_set]; [intros [<-|[]]; auto|]. destruct (bool_decide (k = k')); [intros [<-|?]; cbn; auto|].
  destruct (less k k'); [intros [<-|?]; cbn; auto|]. intros [<-|H]; [right; by left|]. apply IH in H as [->|H]; [by left|right; by right].
Qed.
Lemma om_erase_in {V} (k : Z) (m : omap V) p : In p (om_erase k m) -> In p m /\ p.1 <> k.
Proof. unfold om_erase. rewrite <- !list_elem_of_In. intros H. apply list_elem_of_filter in H as [H1 H2]. done. Qed.

(** A permit that registering adds is the one that was asked for. *)
Lemma RegisterHostPermit_spec cid target p s r s' c perm : RegisterHostPermit cid target p s = Ok (r, s') -> In (c, perm) (sv_permits s') ->
  In (c, perm) (sv_permits s) \/ (c = cid /\ pm_sessionId perm = target /\ requested (words false None (cstr p)) = Some (pm_target perm)).
Proof.
  unfold RegisterHostPermit. intros H Hp. bind_ok H. pose proof (SplitCommandToArgs_words p) as Hw.
  assert (Ea : match x with Some r => arg_strings r | None => [] end = words false None (cstr p)).
  { destruct (zlen (cstr p) <? 1) eqn:El; [|destruct Hw as (t & E & <-); rewrite E in Hx; by injection Hx as <-].
    rewrite Hw in Hx. injection Hx as <-. breflect. destruct (cstr p); [done|cbn [length] in El; lia]. }
  rewrite Ea in H. clear Ea Hx Hw x. set (argv := words _ _ _) in *. clearbody argv.
  assert (St : forall q b t, StoreHostPermit cid q s = (b, t) -> In (c, perm) (sv_permits t) -> In (c, perm) (sv_permits s) \/ (c = cid /\ perm = q)).
  { intros q b t. unfold StoreHostPermit. destruct (om_find cid (sv_permits s)); intros [= <- <-]; [auto|]. cbn. intros [[= -> ->]|H1]%om_set_in; auto. }
  destruct (match argv with [] => (false, s) | _ => _ end) as [valid t] eqn:Ev. injection H as <- <-.
  assert (Hp' : In (c, perm) (sv_permits t)) by (destruct valid; [done|]; cbn in Hp; by apply om_erase_in in Hp as [? _]). clear Hp.
  unfold requested, RegisterRecvPermit, RegisterForwardPermit in *. destruct argv as [|command argv]; [injection Ev as _ <-; by left|].
  destruct (bytes_eqb command (str "recv")).
  - destruct (ParseHostReceiveArguments _) as [[[cwd lp] n]|]; [|injection Ev as _ <-; by left].
    destruct (ResolveHostReceiveTargetPath _ _) as [tp|]; [|injection Ev as _ <-; by left].
    destruct (St _ _ _ Ev Hp') as [?|[-> ->]]; auto.
  - destruct (_ || _); [|injection Ev as _ <-; by left]. destruct argv as [|x1 [|x2 argv]]; try (injection Ev as _ <-; by left).
    destruct (St _ _ _ Ev Hp') as [?|[-> ->]]; auto.
Qed.

Definition without_remote (p : bytes) : bytes :=
  let word := CMDSTR_REMOTE_PARAMETER ++ [32] in match find word p 0 with Some k => ztake k p ++ zdrop (k + zlen word) p | None => p end.

Section Permits.
Context (Usage Verbose : bytes) (uv_ip4_addr : bytes -> Z -> Z) (env : REnv).

(** The permits after a command: as before, or as [RegisterHostPermit] leaves them. *)
Definition registers (cid : Z) (q : ReqChannel) (f : FormatCommand) (s s' : Srv) : Prop :=
  (cmdFlag f = CMD_FILE_INIT \/ cmdFlag f = CMD_FORWARD_INIT) /\
  exists p b t t', (p = parameters f \/ p = without_remote (parameters f)) /\ sv_permits t = sv_permits s /\
    RegisterHostPermit cid (q_target q) p t = Ok (b, t') /\ sv_permits s' = sv_permits t'.

Lemma registers_same cid q f s s1 s' : sv_permits s1 = sv_permits s -> registers cid q f s1 s' -> registers cid q f s s'.
Proof. intros E (Hf & p & b & t & t' & Hp & Et & R). split; [done|]. exists p, b, t, t'. split; [done|]. split; [congruence|done]. Qed.

Lemma SendToDaemon_permits cid cmd data s r s' : SendToDaemon env cid cmd data s = Ok (r, s') -> sv_permits s' = sv_permits s.
Proof. unfold SendToDaemon. intros H. by dissect_all. Qed.

Lemma TaskCommand_permits cid q s f r s' : om_find cid (sv_channels s) = Some q -> TaskCommand env cid f s = Ok (r, s') ->
  sv_permits s' = sv_permits s \/ registers cid q f s s'.
Proof.
  intros Hq H. unfold TaskCommand in H. bind_ok H. match type of Hx with _ = Ok (?b, ?t) => rename b into p, t into s1 end.
  assert (H1 : sv_permits s1 = sv_permits s /\ (p = parameters f \/ p = without_remote (parameters f)) /\
    exists q1, om_find cid (sv_channels s1) = Some q1 /\ q_target q1 = q_target q).
  { assert (HR : forall flag, HandleRemote cid (parameters f) flag s = Ok (p, s1) -> sv_permits s1 = sv_permits s /\
      (p = parameters f \/ p = without_remote (parameters f)) /\ exists q1, om_find cid (sv_channels s1) = Some q1 /\ q_target q1 = q_target q).
    { intros flag HH. unfold HandleRemote, chan in HH. rewrite Hq in HH. cbn [deref mbind res_bind] in HH. do 2 bind_ok HH. injection HH as <- <-.
      apply upd_inv in Hx1 as (q1 & Eq1 & ->). rewrite Hq in Eq1. injection Eq1 as <-. split; [done|]. split; [destruct (_ || _); [right|left]; done|].
      eexists. split; [cbn; apply om_find_set_eq|done]. }
    destruct (cmdFlag f =? CMD_FILE_INIT); [by eapply HR|]. destruct (cmdFlag f =? CMD_APP_INIT); [by eapply HR|]. injection Hx as <- <-. split; [done|]. split; [by left|eauto]. }
  destruct H1 as (E1 & Ep & q1 & Eq1 & Et). bind_ok H. unfold chan in Hx0. rewrite Eq1 in Hx0. injection Hx0 as <-. bind_ok H.
  match goal with H : (if _ then RegisterHostPermit _ _ _ _ else _) = Ok (?b, ?t) |- _ => rename t into s2, H into Hr end.
  assert (E2 : sv_permits s' = sv_permits s2).
  { destruct (_ <? _); [done|]. destruct (is_prefix _ _).
    - bind_ok H. match type of H with match ?o with _ => _ end = _ => destruct o end; [|by injection H as _ <-]. destruct (_ && _); by injection H as _ <-.
    - bind_ok H. injection H as _ <-. by eapply SendToDaemon_permits. }
  destruct (_ || _) eqn:Ef; [|injection Hr as _ <-; left; congruence]. right. split; [|rewrite Et in Hr; by eexists p, _, s1, s2].
  apply orb_true_iff in Ef as [Ef|Ef]; breflect; auto.
Qed.

Lemma DoCommand_permits cid q s f hdi r s' : om_find cid (sv_channels s) = Some q -> DoCommand env cid f hdi s = Ok (r, s') ->
  sv_permits s' = sv_permits s \/ (q_attached q = true /\ registers cid q f s s').
Proof.
  intros Hq H. unfold DoCommand, chan in H. rewrite Hq in H. cbn [deref mbind res_bind] in H. destruct (_ || _) eqn:El.
  - bind_ok H. left. apply (DoCommandLocal_own env true) in H. apply upd_inv in Hx as (q1 & _ & ->). by rewrite (ad_own _ _ _ _ _ H).
  - rewrite !orb_false_iff in El. destruct El as [[[Ea _] _] _]. apply negb_false_iff in Ea.
    destruct (negb _); [bind_ok H; injection H as <- <-; left; apply (echo_text_adds true cid (own cid)) in Hx; [by apply Hx|by intros]|].
    bind_ok H. rename x into s1. assert (H1 : sv_permits s1 = sv_permits s /\ exists q1, om_find cid (sv_channels s1) = Some q1 /\ q_target q1 = q_target q).
    { destruct (_ =? _); [injection Hx as <-; eauto|]. apply upd_inv in Hx as (q1 & Eq1 & ->). rewrite Hq in Eq1. injection Eq1 as <-. split; [done|].
      eexists. split; [cbn; apply om_find_set_eq|done]. }
    destruct H1 as (E1 & q1 & Eq1 & Et). unfold DoCommandRemote in H. bind_ok H. match type of Hx0 with _ = Ok (_, ?t) => rename t into s2 end.
    assert (E2 : sv_permits s' = sv_permits s2).
    { match type of H with (if ?b then _ else _) = _ => destruct b end; [by injection H as _ <-|]. bind_ok H. injection H as _ <-.
      apply (echo_text_adds true cid (own cid)) in Hx1; [by apply Hx1|by intros]. }
    case_bool_decide; [|case_bool_decide].
    + left. bind_ok Hx0. apply SendToDaemon_permits in Hx1. destruct (_ && _); [bind_ok Hx0; injection Hx0 as _ <-; apply upd_inv in Hx2 as (? & _ & ->)|injection Hx0 as _ <-]; cbn in *; congruence.
    + bind_ok Hx0. injection Hx0 as _ <-. apply (TaskCommand_permits cid q1) in Hx1 as [E|[Hf (p & b1 & t & t' & Hp & Et' & Hr & E)]]; [left; congruence| |done].
      right. split; [done|]. split; [done|]. exists p, b1, t, t'. rewrite <- Et. split; [done|]. split; [congruence|]. split; [done|congruence].
    + injection Hx0 as _ <-. left. congruence.
Qed.

Lemma FindAlive_permits cid s a s' : FindAliveSessionFromDaemonMap cid s = Ok (a, s') -> sv_permits s' = sv_permits s.
Proof.
  unfold FindAliveSessionFromDaemonMap. intros H. do 2 bind_ok H. destruct x0 as [b|[fault text]]; [by injection H as _ <-|]. do 2 bind_ok H. injection H as _ <-.
  apply upd_inv in Hx1 as (q2 & _ & ->). apply (echo_adds true cid (own cid)) in Hx2; [|by intros]. by rewrite (ad_own _ _ _ _ _ Hx2).
Qed.

Lemma Handshake_permits cid buf s r s' : Handshake env cid buf s = Ok (r, s') -> sv_permits s' = sv_permits s.
Proof.
  unfold Handshake. intros H. do 4 bind_ok H. apply upd_inv in Hx2 as (q1 & _ & ->). destruct (negb _); [by injection H as _ <-|]. bind_ok H.
  apply FindAlive_permits in Hx2. match type of H with match ?o with _ => _ end = _ => destruct o end; [|injection H as _ <-; done].
  bind_ok H. destruct (v_dup env); injection H as _ <-; done.
Qed.

Lemma ReadChannel_permits cid q s buf r s' : om_find cid (sv_channels s) = Some q ->
  ReadChannel Usage Verbose uv_ip4_addr env cid buf s = Ok (r, s') -> sv_permits s' = sv_permits s \/
  (q_attached q = true /\ exists err f, String2FormatCommand Usage Verbose uv_ip4_addr false buf = Ok (err, f) /\ registers cid q f s s').
Proof.
  intros Hq H. unfold ReadChannel in H. unfold chan in H at 1. rewrite Hq in H. cbn [deref mbind res_bind] in H.
  destruct (sc_handshakeOK (q_hs q)) eqn:Eh; cbn [negb] in H.
  2:{ left. by eapply Handshake_permits. }
  bind_ok H. apply emergency_stops in Hx as [[-> ->]|[-> [d ->]]]; [|injection H as <- <-; by left].
  cbn [negb Z.eqb] in H. destruct (negb _ && _) eqn:Er.
  { left. clear Er. destruct (_ <? _); [discriminate|]. bind_ok H. injection H as _ <-. by eapply SendToDaemon_permits. }
  bind_ok H. match type of Hx with _ = Ok (_, ?t) => rename t into s1 end. destruct (negb (q_interactive q)).
  - do 2 bind_ok Hx. injection Hx as <- <-. match goal with H : String2FormatCommand _ _ _ _ _ = Ok (?e, ?c) |- _ => rename e into err, c into f, H into Ht end.
    match goal with H : (if bytes_eqb err [] then _ else _) = Ok ?t |- _ => rename t into s1, H into He end.
    assert (E1 : sv_permits s1 = sv_permits s /\ sv_channels s1 = sv_channels s).
    { destruct (bytes_eqb err []); [by injection He as <-|]. by apply echo_same in He as [d ->]. }
    destruct E1 as [E1 Ec]. destruct (bJumpDo f); [injection H as _ <-; by left|]. bind_ok H. injection H as _ <-.
    apply (DoCommand_permits cid q) in Hx; [|by rewrite Ec]. destruct Hx as [E|[Ha Hr]]; [left; congruence|]. right. split; [done|]. exists err, f. split; [done|]. by eapply registers_same.
  - injection Hx as <- <-. bind_ok H. injection H as _ <-. apply (DoCommand_permits cid q) in Hx; [|done]. destruct Hx as [E|[_ [[E|E] _]]]; [by left|discriminate E..].
Qed.
End Permits.
