(* ===== verification/ServerSystem.v ===== *)
(** * ServerSystem: clients, devices and the server among their events *)

From Stdlib Require Import String ZArith Lia List Bool.
From stdpp Require Import base list numbers option gmap.
From S2P Require Import Prelude Defs OrdMap Serial Messages Args Strings Session Sandbox ChannelHandshake Translate ServerTables Forward ServerRequest ServerRequestProps.

(** ** Events *)

(** [EvWorld]: what the rest of the server does to its tables; [EvDevice]: a command
    from the device of the session at an address; [EvTask]: one from a task of the
    host. *)
Inductive REvent :=
| EvAccept (cid : Z) | EvRequest (cid : Z) (buf : bytes) | EvAttach (cid sid : Z) | EvDie (cid : Z) | EvFreed (cid : Z) | EvPoll (cid : Z)
| EvDevice (a : addr) (cid command : Z) (payload : bytes) | EvTask (sid cid command : Z) (payload : bytes)
| EvSessionEnd (a : addr) (conError defaultError : bytes)
| EvWorld (d : daemon_map) (f : forward_map) (ss : gmap addr ReqSession) (ms : omap addr) (e : Z).

(** [NotifyInstanceChannelFree], and the channel leaves the table. *)
Definition NotifyInstanceChannelFree (cid : Z) (s : Srv) : Srv := RemoveHostReceivePermit cid s.
Definition SessionEnd (w : ReqSession) (conError defaultError : bytes) (s : Srv) : Srv :=
  let s := RemoveHostReceivePermitsBySession (w_sessionId w) s in
  let '(m, f) := NotifyInstanceSessionFree false (w_sessionId w) (w_connectKey w) conError defaultError (w_isRunningOk w) (w_handshakeOK w)
                   (sv_daemons s) (sv_forwards s) in
  set_forwards f (set_daemons m s).

Section System.
Context (Usage Verbose : bytes) (uv_ip4_addr : bytes -> Z -> Z).

Definition handle (env : REnv) (e : REvent) (s : Srv) : res Srv :=
  match e with
  | EvAccept cid => Ok (set_channels (om_set cid (new_req cid) (sv_channels s)) s)
  | EvRequest cid buf => '((_, s) : Z * Srv) ← ReadChannel Usage Verbose uv_ip4_addr env cid buf s; Ok s
  | EvAttach cid sid => upd cid (set_q_attached true sid) s
  | EvDie cid => upd cid (set_q_isDead true) s
  | EvFreed cid => let s := NotifyInstanceChannelFree cid s in Ok (set_channels (om_erase cid (sv_channels s)) s)
  | EvPoll cid => '((_, s) : bool * Srv) ← OrderConnecTargetResult env cid s; Ok s
  | EvDevice a cid command payload =>
      w ← deref (sv_sessions s !! a); '((_, s) : bool * Srv) ← FetchCommand env w cid command payload s; Ok s
  | EvTask sid cid command payload => '((_, s) : bool * Srv) ← ServerCommand env sid cid command payload s; Ok s
  | EvSessionEnd a conError defaultError => w ← deref (sv_sessions s !! a); Ok (SessionEnd w conError defaultError s)
  | EvWorld d f ss ms e => Ok (set_lastError e (set_sessions ss ms (set_forwards f (set_daemons d s))))
  end.

Definition server_start : Srv := mkSrv [] [] ∅ [] [] [] 0 [].

(** The table of sessions is about their own ids. *)
Definition sessions_ok (ss : gmap addr ReqSession) (ms : omap addr) : Prop :=
  forall id a w, om_find id ms = Some a -> ss !! a = Some w -> w_sessionId w = id.

(** A history, the latest event first. *)
Inductive Runs : list REvent -> Srv -> Prop :=
| runs_start : Runs [] server_start
| runs_step env e tr s s' : Runs tr s -> (forall d f ss ms n, e = EvWorld d f ss ms n -> sessions_ok ss ms) -> handle env e s = Ok s' -> Runs (e :: tr) s'.

(** In the history [tr], on the channel [cid], while it was attached to the session
    [sid], its client asked for [target]; since then the channel was not freed. *)
Definition asked (tr : list REvent) (cid sid : Z) (target : bytes) : Prop :=
  exists tr2 buf tr1 s q err f p, tr = tr2 ++ (EvRequest cid buf :: tr1) /\ (EvFreed cid ∉ tr2) /\
    Runs tr1 s /\ om_find cid (sv_channels s) = Some q /\ q_attached q = true /\ q_target q = sid /\
    String2FormatCommand Usage Verbose uv_ip4_addr false buf = Ok (err, f) /\ (cmdFlag f = CMD_FILE_INIT \/ cmdFlag f = CMD_FORWARD_INIT) /\
    (p = parameters f \/ p = without_remote (parameters f)) /\ requested (words false None (cstr p)) = Some target.

Lemma asked_later e tr cid sid target : e <> EvFreed cid -> asked tr cid sid target -> asked (e :: tr) cid sid target.
Proof.
  intros He (tr2 & buf & tr1 & s & q & err & f & p & -> & Hf & R). exists (e :: tr2), buf, tr1, s, q, err, f, p. split; [done|]. split; [|exact R].
  intros [H|H]%elem_of_cons; [by apply He|done].
Qed.

(** ** The permits are what was asked for *)

Definition permits_ok (tr : list REvent) (s : Srv) : Prop :=
  (forall cid perm, In (cid, perm) (sv_permits s) -> asked tr cid (pm_sessionId perm) (pm_target perm)) /\ sessions_ok (sv_sessions s) (sv_mapSession s).

Lemma permits_step e tr s s' : permits_ok tr s -> (forall cid, e <> EvFreed cid) -> sv_permits s' = sv_permits s ->
  sv_sessions s' = sv_sessions s /\ sv_mapSession s' = sv_mapSession s -> permits_ok (e :: tr) s'.
Proof. intros [H1 H2] He Ep [Es Em]. split; [|by rewrite Es, Em]. intros cid perm. rewrite Ep. intros Hp. apply asked_later; [done|]. by apply H1. Qed.

(** What a device brings about: its commands reach a task, or a client that carries
    out transfers itself, only with permission. *)
Definition permitted (w : ReqSession) (cid command : Z) (payload : bytes) (s : Srv) (e : Eff) : Prop :=
  match e with
  | ToTask sid c cmd d =>
      c = cid /\ cmd = command /\ d = payload /\ exists q, om_find cid (sv_channels s) = Some q /\
      CheckHostCommandPermission cid q (w_sessionId w) command payload s = true /\
      exists a u, om_find (q_target q) (sv_mapSession s) = Some a /\ sv_sessions s !! a = Some u /\ sid = w_sessionId u
  | ToClient c (Some cmd) d =>
      c = cid /\ cmd = command /\ d = payload /\ exists q, om_find cid (sv_channels s) = Some q /\
      CheckHostCommandPermission cid q (w_sessionId w) command payload s = true
  | _ => True
  end.

Lemma FetchCommand_permitted env w cid command payload s r s' : FetchCommand env w cid command payload s = Ok (r, s') ->
  adds true cid (permitted w cid command payload s) s s'.
Proof.
  set (P := permitted w cid command payload s). unfold FetchCommand. intros H.
  destruct (command =? CMD_KERNEL_HANDSHAKE); [injection H as _ <-; by apply adds_emit|].
  destruct (command =? CMD_HEARTBEAT_MSG); [injection H as _ <-; by apply adds_emit|].
  assert (Hclose : forall d t, adds true cid P t (SendDaemon env (w_sessionId w) cid CMD_KERNEL_CHANNEL_CLOSE d t)).
  { intros d t. unfold SendDaemon. destruct (v_send env); [by apply adds_emit|apply adds_refl]. }
  destruct (om_find cid (sv_channels s)) as [q|] eqn:Eq; [|by injection H as _ <-]. destruct (q_isDead q); [by injection H as _ <-|].
  destruct (CheckHostCommandPermission _ _ _ _ _ _) eqn:Ec; cbn [negb] in H; [|injection H as _ <-; apply adds_refl]. unfold DispatchChannelCommand in H.
  destruct (command =? CMD_KERNEL_ECHO_RAW); [injection H as _ <-; by apply adds_emit|].
  destruct (command =? CMD_KERNEL_ECHO).
  { bind_ok H. injection H as _ <-. unfold HandleKernelEcho in Hx. destruct payload; [injection Hx as <-; apply adds_refl|]. by eapply echo_format_adds. }
  destruct (command =? CMD_KERNEL_CHANNEL_CLOSE).
  { injection H as _ <-. unfold HandleChannelClose. assert (A : adds true cid P s (emit (FreeChAsync cid) (emit (ClearTasks (w_sessionId w) cid) s)))
      by (eapply adds_trans; by apply adds_emit). destruct payload as [|c p]; [done|]. destruct (negb _); [|done]. by eapply adds_trans. }
  destruct (command =? CMD_FORWARD_SUCCESS).
  { injection H as _ <-. unfold ForwardSuccess. destruct (cstr payload); [apply adds_forwards|]. eapply adds_trans; [apply adds_forwards|by apply adds_emit]. }
  destruct (_ && _); [injection H as _ <-; apply adds_emit; subst P; cbn; eauto 10|].
  unfold DispatchPassthroughTask, AdminSession_query in H. bind_ok H. destruct (om_find (q_target q) (sv_mapSession s)) as [a|] eqn:Eo.
  - bind_ok Hx. apply deref_Ok in Hx0. injection Hx as <-. injection H as _ <-. apply adds_emit. subst P. cbn. split; [done|]. split; [done|]. split; [done|].
    exists q. split; [done|]. split; [done|]. eauto 10.
  - injection Hx as <-. injection H as _ <-. apply adds_refl.
Qed.

Lemma Poll_keeps env cid s r s' : OrderConnecTargetResult env cid s = Ok (r, s') -> adds true cid (own cid) s s'.
Proof.
  unfold OrderConnecTargetResult. intros H. bind_ok H. bind_ok H. injection H as _ <-.
  match goal with H : match _ with _ => _ end = Ok (_, ?t) |- _ => rename t into s1, H into H1 end.
  eapply adds_trans; [|match goal with |- adds _ _ _ _ (if ?b then _ else _) => destruct b; [by apply adds_emit|apply adds_refl] end].
  match type of H1 with match ?o with _ => _ end = _ => destruct o as [d|] end.
  - match type of H1 with (if ?b then _ else _) = _ => destruct b end.
    + bind_ok H1. injection H1 as _ <-. unfold OnConnectTargetSuccess in Hx0. bind_ok Hx0. destruct (q_isCheck x1).
      * bind_ok Hx0. apply (CommandRemoveSession_own true) in Hx2. eapply adds_trans; [exact Hx2|by eapply echo_format_adds].
      * by eapply echo_format_adds.
    + do 2 bind_ok H1. apply (adds_upd true cid (own cid)) in Hx0. match type of H1 with (if ?b then _ else _) = _ => destruct b end.
      * bind_ok H1. injection H1 as _ <-. apply (echo_adds true cid (own cid)) in Hx2; [|by intros].
        eapply adds_trans; [exact Hx0|]. eapply adds_trans; [exact Hx2|apply adds_daemons].
      * injection H1 as _ <-. done.
  - do 2 bind_ok H1. injection H1 as _ <-. apply (adds_upd true cid (own cid)) in Hx0. eapply adds_trans; [exact Hx0|by eapply echo_adds].
Qed.

Lemma adds_step cid P e tr s s' : permits_ok tr s -> (forall cid, e <> EvFreed cid) -> adds true cid P s s' -> permits_ok (e :: tr) s'.
Proof. intros H He A. apply (permits_step e tr s s' H He); [by apply A|by apply A]. Qed.

Lemma request_step cid buf env tr s s' : Runs tr s -> permits_ok tr s ->
  handle env (EvRequest cid buf) s = Ok s' -> permits_ok (EvRequest cid buf :: tr) s'.
Proof.
  intros R O H. cbn [handle] in H. bind_ok H. injection H as <-. match type of Hx with _ = Ok (_, ?t) => rename t into s' end.
  destruct (om_find cid (sv_channels s)) as [q|] eqn:Eq; [|unfold ReadChannel, chan in Hx; by rewrite Eq in Hx].
  pose proof (ReadChannel_proper _ _ _ _ _ _ _ _ _ _ Eq Hx) as A.
  destruct (ReadChannel_permits _ _ _ _ _ _ _ _ _ _ Eq Hx) as [E|(Ha & err & f & Ht & Hf & p & b & t & t' & Hp & Et & Hr & E)].
  - apply (permits_step _ tr s s' O); [done|done|by apply A].
  - split; [|destruct (ad_sess _ _ _ _ _ A) as [-> ->]; apply O]. intros c perm Hc. rewrite E in Hc.
    destruct (RegisterHostPermit_spec _ _ _ _ _ _ _ _ Hr Hc) as [H1|(-> & H1 & H2)].
    + apply asked_later; [done|]. apply O. by rewrite <- Et.
    + exists [], buf, tr, s, q, err, f, p. split; [done|]. split; [by intros ?%not_elem_of_nil|]. by split_and!.
Qed.

Lemma runs_permits tr s : Runs tr s -> permits_ok tr s.
Proof.
  induction 1 as [|env e tr s s' R O Hw H]; [by split; [intros ? ? []|]|]. destruct e; cbn [handle] in H.
  - injection H as <-. by apply (permits_step _ tr s).
  - exact (request_step cid buf env tr s s' R O H).
  - eapply (adds_step cid (fun _ => True)); [exact O|done|by eapply adds_upd].
  - eapply (adds_step cid (fun _ => True)); [exact O|done|by eapply adds_upd].
  - injection H as <-. split; [|apply O]. cbn. intros c perm [Hp Hne]%om_erase_in. apply asked_later; [intros [= ->]; by apply Hne|]. by apply O.
  - bind_ok H. injection H as <-. eapply adds_step; [exact O|done|by eapply Poll_keeps].
  - bind_ok H. bind_ok H. injection H as <-. eapply adds_step; [exact O|done|by eapply FetchCommand_permitted].
  - bind_ok H. injection H as <-. unfold ServerCommand in Hx. bind_ok Hx.
    destruct (om_find cid (sv_channels s)); [|injection Hx as _ <-; by apply (permits_step _ tr s)].
    match type of Hx with match ?o with _ => _ end = _ => destruct o end; [|injection Hx as _ <-; by apply (permits_step _ tr s)].
    eapply adds_step; [exact O|done|by eapply FetchCommand_permitted].
  - bind_ok H. injection H as <-. unfold SessionEnd. destruct (NotifyInstanceSessionFree _ _ _ _ _ _ _ _ _) as [m f]. split; [|apply O]. cbn.
    intros c perm [Hp _]%List.filter_In. apply asked_later; [done|]. by apply O.
  - injection H as <-. split; [|cbn; by eapply Hw]. cbn. intros c perm Hp. apply asked_later; [done|]. by apply O.
Qed.
End System.

(** ** Names below a directory *)

Lemma child_path_sound path : forall cur, child_path cur path = true ->
  (forall w b, path = w ++ b -> rev cur ++ w = str ".." -> Forall (fun c => is_sep c = false) w -> (b = [] \/ exists c b', b = c :: b' /\ is_sep c = true) -> False) /\
  (forall a c b, path = a ++ c :: str ".." ++ b -> is_sep c = true -> (b = [] \/ exists c b', b = c :: b' /\ is_sep c = true) -> False).
Proof.
  induction path as [|x path IH]; intros cur H; cbn [child_path] in H.
  - apply negb_true_iff in H. split; [|by intros [|? ?]]. intros w b Hp Hc _ _. symmetry in Hp. apply app_eq_nil in Hp as [-> ->].
    rewrite app_nil_r in Hc. by rewrite Hc in H.
  - change ((x =? 47) || (x =? 92)) with (is_sep x) in H. destruct (is_sep x) eqn:Ex.
    + apply andb_true_iff in H as [H1 H2]. apply negb_true_iff in H1. destruct (IH [] H2) as [I1 I2]. split.
      * intros [|y w] b Hp Hc Hw _; [rewrite app_nil_r in Hc; by rewrite Hc in H1|]. injection Hp as <- _. inversion Hw; congruence.
      * intros [|y a] c b Hp Hs Hb; injection Hp as <- Hp; [eapply (I1 (str "..") b); try done; by repeat constructor|by eapply (I2 a c b)].
    + destruct (x =? 0); [done|]. destruct (IH (x :: cur) H) as [I1 I2]. split.
      * intros [|y w] b Hp Hc Hw Hb; [destruct b as [|z b]; [done|]; injection Hp as <- _; destruct Hb as [?|(c & b' & [= -> _] & ?)]; congruence|].
        injection Hp as <- Hp. inversion Hw; subst. eapply (I1 w b); try done. cbn [rev]. by rewrite <- app_assoc.
      * intros [|y a] c b Hp Hs Hb; injection Hp as <- Hp; [congruence|by eapply (I2 a c b)].
Qed.

Lemma child_path_no_nul path : forall cur, child_path cur path = true -> ~ (0 ∈ path).
Proof.
  induction path as [|x path IH]; intros cur H; [by intros ?%not_elem_of_nil|]. cbn [child_path] in H. intros [<-|Hin]%elem_of_cons; [done|].
  destruct (_ || _); [apply andb_true_iff in H as [_ H]; by eapply IH|]. destruct (x =? 0); [done|by eapply IH].
Qed.

(** A name that does not leave the directory it is put in. *)
Definition stays_below (name : bytes) : Prop := ~ has_component (str "..") name /\ ~ (0 ∈ name).
Lemma IsHostReceiveChildPath_sound name : IsHostReceiveChildPath name = true -> stays_below name.
Proof.
  intros H. destruct (child_path_sound name [] H) as [H1 H2]. split; [|by apply (child_path_no_nul name [])].
  intros (a & b & -> & Hw & [->|(a' & c & -> & Hc)] & Hb); [by eapply (H1 (str "..") b)|]. rewrite <- app_assoc in H2. by eapply (H2 a' c b).
Qed.

(** ** What devices can do *)

(** A command that reaches a task, or a client that carries out transfers itself. *)
Definition carries (e : Eff) (cid cmd : Z) (data : bytes) : Prop :=
  (exists sid, e = ToTask sid cid cmd data) \/ e = ToClient cid (Some cmd) data.

Section Claims.
Context (Usage Verbose : bytes) (uv_ip4_addr : bytes -> Z -> Z).

Lemma permit_asked tr s cid q sid perm : Runs Usage Verbose uv_ip4_addr tr s -> MatchHostPermit cid q sid s = Some perm ->
  q_target q = sid /\ asked Usage Verbose uv_ip4_addr tr cid sid (pm_target perm).
Proof.
  intros [O _]%runs_permits H. unfold MatchHostPermit in H. destruct (om_find cid (sv_permits s)) as [p|] eqn:E; [|done].
  destruct (_ || _) eqn:Eb; [done|]. injection H as <-. apply orb_false_iff in Eb as [E1 E2]. apply negb_false_iff in E1, E2. breflect.
  apply om_find_In in E. apply O in E. subst. done.
Qed.



(** C32. A refused request is explained.  With usage texts that are not empty, when
    the server refuses a request of a client that is past the handshake (it answers
    with an error and the connection is closed), it has sent that client a message,
    except for four requests: starting a service that has no error to report,
    disconnecting a device, and connecting to or checking a device whose key does
    not fit in the buffer that keeps it. *)
Theorem refusals_are_explained env cid q s req r s' : Usage <> [] -> Verbose <> [] ->
  om_find cid (sv_channels s) = Some q -> sc_handshakeOK (q_hs q) = true ->
  ReadChannel Usage Verbose uv_ip4_addr env cid (req ++ [0]) s = Ok (r, s') -> r < 0 ->
  says cid s s' \/ exists err f, String2FormatCommand Usage Verbose uv_ip4_addr false (req ++ [0]) = Ok (err, f) /\ silent f s.
Proof. intros Hu Hv. by apply ReadChannel_says. Qed.
End Claims.

(** ** A host with a device *)

Definition sample_env : REnv := mkREnv true true (fun _ => None) true true [] [] false 0 true true.
Definition sample_world : REvent :=
  EvWorld [(str "usb1", mkDI CONN_USB STATUS_CONNECTED (str "usb1") [] [] (Some 1) [] [] [] [] true [])] []
    {[1 := mkReqSession 5 (str "usb1") false true true]} [(5, 1)] 0.
(** The greeting of a client that wants [usb1]. *)
Definition sample_greeting : bytes := padded offsetof_connectKey HANDSHAKE_MESSAGE ++ padded MAX_CONNECTKEY_SIZE (str "usb1").
Definition sample_recv : bytes := str "file recv -cwd /tmp/ /data/a b" ++ [0].
(** The announcement of a file. *)
Definition sample_check (path name : bytes) : bytes :=
  SerializeToString TransferConfig_type (mkTransferConfig 4 0 0 [] path name false 0 false [] (str "/tmp/") [] []).

Definition sample_handle : REvent -> Srv -> res Srv := handle (str "usage") (str "verbose") (fun _ _ => 0) sample_env.
Definition sample_run (es : list REvent) : res Srv := fold_left (fun s e => s ≫= sample_handle e) es (Ok server_start).
(** What the last of the events brings about. *)
Definition sample_last (es : list REvent) (e : REvent) : res (list Eff) :=
  s ← sample_run es; s' ← sample_handle e s; Ok (drop (length (sv_out s)) (sv_out s')).
Definition sample_attached : list REvent := [EvAccept 7; sample_world; EvRequest 7 sample_greeting; EvAttach 7 5].
Definition sample_receiving : list REvent := sample_attached ++ [EvRequest 7 sample_recv].

Lemma sample_run_Runs es : forall s, sample_run es = Ok s ->
  Forall (fun e => match e with EvWorld _ _ ss ms _ => sessions_ok ss ms | _ => True end) es ->
  Runs (str "usage") (str "verbose") (fun _ _ => 0) (rev es) s.
Proof.
  induction es as [|e es IH] using rev_ind; intros s H F; [injection H as <-; apply runs_start|].
  unfold sample_run in H. rewrite fold_left_app in H. cbn [fold_left] in H. bind_ok H. apply Forall_app in F as [F1 F2]. rewrite rev_app_distr.
  apply (runs_step _ _ _ sample_env e (rev es) x s); [by apply IH| |exact H]. intros d f ss ms n ->. by inversion F2.
Qed.

Lemma sample_world_ok : sessions_ok {[1 := mkReqSession 5 (str "usb1") false true true]} [(5, 1)].
Proof.
  intros id a w Hm Hs. cbn [om_find] in Hm. case_bool_decide; [|done]. injection Hm as <-. subst.
  rewrite lookup_singleton_eq in Hs. by injection Hs as <-.
Qed.

Lemma sample_receiving_Runs : exists s, sample_run sample_receiving = Ok s /\ Runs (str "usage") (str "verbose") (fun _ _ => 0) (rev sample_receiving) s.
Proof.
  destruct (sample_run sample_receiving) as [s| | |] eqn:E; [|by vm_compute in E..]. exists s. split; [done|]. apply sample_run_Runs; [done|].
  unfold sample_receiving, sample_attached, sample_world. repeat constructor. apply sample_world_ok.
Qed.



(** A client whose device is gone. *)
Lemma refusals_are_explained_witness : exists s s' q r, om_find 7 (sv_channels s) = Some q /\
  ReadChannel (str "usage") (str "verbose") (fun _ _ => 0) sample_env 7 (str "shell ls" ++ [0]) s = Ok (r, s') /\ r < 0 /\ says 7 s s'.
Proof.
  destruct (sample_run (sample_attached ++ [EvWorld [] [] ∅ [] 0])) as [s| | |] eqn:Es; [|by vm_compute in Es..].
  assert (E : exists s' q r, om_find 7 (sv_channels s) = Some q /\ sc_handshakeOK (q_hs q) = true /\
    ReadChannel (str "usage") (str "verbose") (fun _ _ => 0) sample_env 7 (str "shell ls" ++ [0]) s = Ok (r, s') /\ r < 0).
  { vm_compute in Es. injection Es as <-. do 3 eexists. split_and!; vm_compute; reflexivity. }
  destruct E as (s' & q & r & Eq & Eh & E & Hr). exists s, s', q, r. split; [exact Eq|]. split; [exact E|]. split; [exact Hr|].
  assert (Hne : forall c x, str (String c x) <> []) by by intros.
  destruct (refusals_are_explained (str "usage") (str "verbose") (fun _ _ => 0) sample_env 7 q s (str "shell ls") r s' (Hne _ _) (Hne _ _) Eq Eh E Hr)
    as [H|(err & f & Hf & Hs)]; [exact H|].
  exfalso. revert Hf Hs. vm_compute. intros [= <- <-]. cbn. intros [[? _]|[?|[[? _]|[[?|?] _]]]]; done.
Defined.

(** ** What the handlers do in corner cases *)

(** The text a device sends for its client is used as a format, and the last
    character of an empty one is looked at. *)
Lemma device_text_is_a_format :
  sample_last sample_attached (EvDevice 1 7 CMD_KERNEL_ECHO (MSG_OK :: str "done")) = Ok [ToClient 7 None (str "done" ++ [13; 10])] /\
  sample_last sample_attached (EvDevice 1 7 CMD_KERNEL_ECHO (MSG_OK :: str "100%s")) = Undefined /\
  sample_last sample_attached (EvDevice 1 7 CMD_KERNEL_ECHO [MSG_OK]) = Undefined.
Proof. vm_compute. by repeat split. Qed.

(** [file recv] and [file send] without arguments: the size sent is [-1]. *)
Lemma bare_transfer_has_negative_size :
  sample_last sample_attached (EvRequest 7 (str "file recv" ++ [0])) = Undefined /\
  sample_last sample_attached (EvRequest 7 (str "file send" ++ [0])) = Undefined /\
  sample_last sample_attached (EvRequest 7 (str "file recv a" ++ [0])) = Ok [ToDaemon 5 7 CMD_FILE_INIT (str "a")].
Proof. vm_compute. by repeat split. Qed.

(** Transfers cannot be started by a device, forwarding and installation can. *)
Lemma device_starts_tasks :
  sample_last sample_attached (EvDevice 1 7 CMD_FILE_INIT (str "/etc/passwd /data")) = Ok [] /\
  sample_last sample_attached (EvDevice 1 7 CMD_FORWARD_INIT (str "tcp:1 tcp:2")) = Ok [ToTask 5 7 CMD_FORWARD_INIT (str "tcp:1 tcp:2")] /\
  sample_last sample_attached (EvDevice 1 7 CMD_APP_INIT (str "/x.hap")) = Ok [ToTask 5 7 CMD_APP_INIT (str "/x.hap")].
Proof. vm_compute. by repeat split. Qed.

(** A second device, on whose session the channel is not. *)
Definition sample_second : REvent :=
  EvWorld [(str "usb1", mkDI CONN_USB STATUS_CONNECTED (str "usb1") [] [] (Some 1) [] [] [] [] true [])] []
    (<[2 := mkReqSession 6 (str "usb2") false true true]> {[1 := mkReqSession 5 (str "usb1") false true true]}) [(5, 1); (6, 2)] 0.
(** Its texts reach the client of the first, and so do its commands the first's
    tasks, except those that need a permit. *)
Lemma other_device_reaches_channel :
  sample_last (sample_receiving ++ [sample_second]) (EvDevice 2 7 CMD_KERNEL_ECHO_RAW (str "hello")) = Ok [ToClient 7 None (str "hello")] /\
  sample_last (sample_receiving ++ [sample_second]) (EvDevice 2 7 CMD_FILE_DATA (str "data")) = Ok [ToTask 5 7 CMD_FILE_DATA (str "data")] /\
  sample_last (sample_receiving ++ [sample_second]) (EvDevice 2 7 CMD_FILE_CHECK (sample_check (str "b") (str "x"))) = Ok [].
Proof. vm_compute. by repeat split. Qed.

(** The endpoint of a forwarding command admits a file of that name. *)
Lemma permit_has_no_kind :
  sample_last (sample_attached ++ [EvRequest 7 (str "fport tcp:1 /tmp/b" ++ [0])]) (EvDevice 1 7 CMD_FILE_CHECK (sample_check (str "b") (str "x"))) =
  Ok [ToTask 5 7 CMD_FILE_CHECK (sample_check (str "b") (str "x"))].
Proof. vm_compute. reflexivity. Qed.

(** With [fport] the second endpoint is one of the device; the permit lets the
    device have the host connect to its own endpoint of that name. *)
Lemma fport_permits_host_endpoint :
  let ask payload := sample_last (sample_attached ++ [EvRequest 7 (str "fport tcp:1 tcp:22" ++ [0])]) (EvDevice 1 7 CMD_FORWARD_ACTIVE_SLAVE payload) in
  let connect endpoint := replicate 12 0 ++ endpoint ++ [0] in
  ask (connect (str "tcp:22")) = Ok [ToTask 5 7 CMD_FORWARD_ACTIVE_SLAVE (connect (str "tcp:22"))] /\ ask (connect (str "tcp:23")) = Ok [].
Proof. vm_compute. by repeat split. Qed.

(** A second request removes the permit of the first: neither is received. *)
Lemma second_request_revokes :
  let ask := EvRequest 7 (str "rport tcp:1 tcp:22" ++ [0]) in
  let connect := replicate 12 0 ++ str "tcp:22" ++ [0] in
  sample_last (sample_attached ++ [ask]) (EvDevice 1 7 CMD_FORWARD_ACTIVE_SLAVE connect) = Ok [ToTask 5 7 CMD_FORWARD_ACTIVE_SLAVE connect] /\
  sample_last (sample_attached ++ [ask; ask]) (EvDevice 1 7 CMD_FORWARD_ACTIVE_SLAVE connect) = Ok [].
Proof. vm_compute. by repeat split. Qed.
