(* ===== verification/Negotiate.v ===== *)
(** * Negotiate: what is transferred and where it is put ([file.cpp], [transfer.cpp])

    The master reads the command's arguments, lists the files of a directory and
    announces each file with its name; the two sides first exchange the modes of the
    directories when asked to.  The slave decides which path to open, creates the
    directories that lead to it, and opens it.  This is what [Transfer] leaves to an
    argument of its dispatcher.

    The file system belongs to the operating system and is a class of operations;
    paths reach it as C strings.  Times of day and statistics are left out. *)

From Stdlib Require Import String ZArith Lia List Bool.
From stdpp Require Import base list numbers option gmap pretty.
From S2P Require Import Prelude Defs Serial Messages Args Strings Sandbox Transfer.

(** ** The file system *)

Definition S_IFMT : Z := 0xF000.
Definition S_IFDIR : Z := 0x4000.
Definition S_IFREG : Z := 0x8000.
Definition UV_DIRENT_FILE : Z := 1.
Definition has_bits (mode bits : Z) : bool := negb (Z.land mode bits =? 0).

(** [fs_lstat]: the mode; [fs_mkdir]: the new state or the text of the error;
    [fs_access]: [R_OK] or [W_OK]; [fs_scandir]: names and types, without the two dot
    entries; [fs_realpath]: empty when it fails; [fs_setmode]: mode, owner and
    label. *)
Class FileSystem (F : Type) := {
  fs_lstat : bytes -> F -> option Z;
  fs_stat : bytes -> F -> option StatBuf;
  fs_access : bytes -> bool -> F -> bool;
  fs_exists : bytes -> F -> bool;
  fs_mkdir : bytes -> F -> F + bytes;
  fs_scandir : bytes -> F -> option (list (bytes * Z));
  fs_realpath : bytes -> F -> bytes;
  fs_context : bytes -> F -> bytes;
  fs_setmode : bytes -> FileMode -> F -> F
}.

(** ** State *)

(** The task of [Transfer] with the rest of [ctxNow], the messages to the user and
    the file system. *)
Record Neg (F : Type) := mkNeg {
  g_t : Transfer; g_inputLocalPath : bytes; g_bundleName : bytes; g_targetDirNotExist : bool;
  g_dirMode : list FileMode; g_dirModeMap : gmap bytes FileMode; g_isSend : bool; g_log : list bytes; g_fs : F
}.
Arguments mkNeg {F}. Arguments g_t {F}. Arguments g_inputLocalPath {F}. Arguments g_bundleName {F}. Arguments g_targetDirNotExist {F}.
Arguments g_dirMode {F}. Arguments g_dirModeMap {F}. Arguments g_isSend {F}. Arguments g_log {F}. Arguments g_fs {F}.

Section Setters.
Context {F : Type}.
Definition set_g_t v (g : Neg F) : Neg F := mkNeg v (g_inputLocalPath g) (g_bundleName g) (g_targetDirNotExist g) (g_dirMode g) (g_dirModeMap g) (g_isSend g) (g_log g) (g_fs g).
Definition set_g_inputLocalPath v (g : Neg F) : Neg F := mkNeg (g_t g) v (g_bundleName g) (g_targetDirNotExist g) (g_dirMode g) (g_dirModeMap g) (g_isSend g) (g_log g) (g_fs g).
Definition set_g_bundleName v (g : Neg F) : Neg F := mkNeg (g_t g) (g_inputLocalPath g) v (g_targetDirNotExist g) (g_dirMode g) (g_dirModeMap g) (g_isSend g) (g_log g) (g_fs g).
Definition set_g_targetDirNotExist v (g : Neg F) : Neg F := mkNeg (g_t g) (g_inputLocalPath g) (g_bundleName g) v (g_dirMode g) (g_dirModeMap g) (g_isSend g) (g_log g) (g_fs g).
Definition set_g_dirMode v (g : Neg F) : Neg F := mkNeg (g_t g) (g_inputLocalPath g) (g_bundleName g) (g_targetDirNotExist g) v (g_dirModeMap g) (g_isSend g) (g_log g) (g_fs g).
Definition set_g_dirModeMap v (g : Neg F) : Neg F := mkNeg (g_t g) (g_inputLocalPath g) (g_bundleName g) (g_targetDirNotExist g) (g_dirMode g) v (g_isSend g) (g_log g) (g_fs g).
Definition set_g_isSend v (g : Neg F) : Neg F := mkNeg (g_t g) (g_inputLocalPath g) (g_bundleName g) (g_targetDirNotExist g) (g_dirMode g) (g_dirModeMap g) v (g_log g) (g_fs g).
Definition set_g_log v (g : Neg F) : Neg F := mkNeg (g_t g) (g_inputLocalPath g) (g_bundleName g) (g_targetDirNotExist g) (g_dirMode g) (g_dirModeMap g) (g_isSend g) v (g_fs g).
Definition set_g_fs v (g : Neg F) : Neg F := mkNeg (g_t g) (g_inputLocalPath g) (g_bundleName g) (g_targetDirNotExist g) (g_dirMode g) (g_dirModeMap g) (g_isSend g) (g_log g) v.
Definition on_cf (f : CtxFile -> CtxFile) (g : Neg F) : Neg F := set_g_t (on_ctx f (g_t g)) g.
(** [LogMsg(MSG_FAIL, ...)]. *)
Definition LogFail (msg : bytes) (g : Neg F) : Neg F := set_g_log (g_log g ++ [msg]) g.
Definition cf (g : Neg F) : CtxFile := t_ctx (g_t g).
Definition tc (g : Neg F) : TransferConfig := cf_transferConfig (cf g).
End Setters.

Definition set_cf_isDir (x : bool) (v : CtxFile) : CtxFile :=
  mkCtxFile (cf_fileSize v) (cf_dirSize v) (cf_indexIO v) (cf_fileCnt v) x (cf_localName v) (cf_localPath v) (cf_remotePath v) (cf_localDirName v) (cf_fileModeSync v) (cf_master v) (cf_closeNotify v) (cf_ioFinish v) (cf_closeReqSubmitted v) (cf_isStableBufSize v) (cf_isFdOpen v) (cf_lastErrno v) (cf_taskQueue v) (cf_transferConfig v) (cf_fileMode v) (cf_openFd v) (cf_sandboxMode v) (cf_isOtherSideSandboxSupported v).
Definition set_cf_remotePath (x : bytes) (v : CtxFile) : CtxFile :=
  mkCtxFile (cf_fileSize v) (cf_dirSize v) (cf_indexIO v) (cf_fileCnt v) (cf_isDir v) (cf_localName v) (cf_localPath v) x (cf_localDirName v) (cf_fileModeSync v) (cf_master v) (cf_closeNotify v) (cf_ioFinish v) (cf_closeReqSubmitted v) (cf_isStableBufSize v) (cf_isFdOpen v) (cf_lastErrno v) (cf_taskQueue v) (cf_transferConfig v) (cf_fileMode v) (cf_openFd v) (cf_sandboxMode v) (cf_isOtherSideSandboxSupported v).
Definition set_cf_localDirName (x : bytes) (v : CtxFile) : CtxFile :=
  mkCtxFile (cf_fileSize v) (cf_dirSize v) (cf_indexIO v) (cf_fileCnt v) (cf_isDir v) (cf_localName v) (cf_localPath v) (cf_remotePath v) x (cf_fileModeSync v) (cf_master v) (cf_closeNotify v) (cf_ioFinish v) (cf_closeReqSubmitted v) (cf_isStableBufSize v) (cf_isFdOpen v) (cf_lastErrno v) (cf_taskQueue v) (cf_transferConfig v) (cf_fileMode v) (cf_openFd v) (cf_sandboxMode v) (cf_isOtherSideSandboxSupported v).
Definition set_cf_fileModeSync (x : bool) (v : CtxFile) : CtxFile :=
  mkCtxFile (cf_fileSize v) (cf_dirSize v) (cf_indexIO v) (cf_fileCnt v) (cf_isDir v) (cf_localName v) (cf_localPath v) (cf_remotePath v) (cf_localDirName v) x (cf_master v) (cf_closeNotify v) (cf_ioFinish v) (cf_closeReqSubmitted v) (cf_isStableBufSize v) (cf_isFdOpen v) (cf_lastErrno v) (cf_taskQueue v) (cf_transferConfig v) (cf_fileMode v) (cf_openFd v) (cf_sandboxMode v) (cf_isOtherSideSandboxSupported v).
Definition set_cf_master (x : bool) (v : CtxFile) : CtxFile :=
  mkCtxFile (cf_fileSize v) (cf_dirSize v) (cf_indexIO v) (cf_fileCnt v) (cf_isDir v) (cf_localName v) (cf_localPath v) (cf_remotePath v) (cf_localDirName v) (cf_fileModeSync v) x (cf_closeNotify v) (cf_ioFinish v) (cf_closeReqSubmitted v) (cf_isStableBufSize v) (cf_isFdOpen v) (cf_lastErrno v) (cf_taskQueue v) (cf_transferConfig v) (cf_fileMode v) (cf_openFd v) (cf_sandboxMode v) (cf_isOtherSideSandboxSupported v).
Definition set_cf_sandboxMode (x : bool) (v : CtxFile) : CtxFile :=
  mkCtxFile (cf_fileSize v) (cf_dirSize v) (cf_indexIO v) (cf_fileCnt v) (cf_isDir v) (cf_localName v) (cf_localPath v) (cf_remotePath v) (cf_localDirName v) (cf_fileModeSync v) (cf_master v) (cf_closeNotify v) (cf_ioFinish v) (cf_closeReqSubmitted v) (cf_isStableBufSize v) (cf_isFdOpen v) (cf_lastErrno v) (cf_taskQueue v) (cf_transferConfig v) (cf_fileMode v) (cf_openFd v) x (cf_isOtherSideSandboxSupported v).
Definition on_tc (f : TransferConfig -> TransferConfig) (v : CtxFile) : CtxFile := set_cf_transferConfig (f (cf_transferConfig v)) v.

Definition MaskString (s : bytes) : bytes :=
  match s with
  | [] => []
  | c :: _ =>
      let len := zlen s in
      if len <=? 6 then [c] ++ replicate (length s) 42 ++ [List.last s 0]
      else ztake 3 s ++ replicate 6 42 ++ zdrop (len - 3) s ++ str "(L:" ++ str (pretty.pretty len) ++ str ")"
  end.

Section Negotiation.
Context `{FileSystem F} (serverOrDaemon : bool).

(** ** Paths on disk ([base.cpp]) *)

Definition NOT_IFMT : Z := 0xFFFF0FFF.

(** With [pathOrDir]; the result and the mode found. *)
Definition CheckDirectoryOrPath (localPath : bytes) (readWrite : bool) (fs : F) : bool * Z :=
  match fs_lstat (cstr localPath) fs with
  | None => (false, NOT_IFMT)
  | Some mode =>
      if has_bits mode S_IFDIR then (false, S_IFDIR)
      else if has_bits mode S_IFREG then (fs_access (cstr localPath) readWrite fs, NOT_IFMT)
      else (false, NOT_IFMT)
  end.

Definition TryCreateDirectory (path : bytes) (fs : F) : F + bytes :=
  match fs_lstat (cstr path) fs with
  | None =>
      match fs_mkdir (cstr path) fs with
      | inl fs => inl fs
      | inr err => inr (str "[E005005] Error create directory: " ++ err ++ str ", path:" ++ MaskString path)
      end
  | Some mode => if Z.land mode S_IFMT =? S_IFDIR then inl fs else inr (str "File exists, path:" ++ MaskString path)
  end.

(** ** Bundles *)

Definition IsValidBundlePath (bundleName : bytes) (fs : F) : bool :=
  CheckBundleName bundleName && fs_exists (SANDBOX_ROOT_DIR ++ bundleName ++ [GetPathSep]) fs.

Definition RemoveSandboxRootPath (srcStr bundleName : bytes) (fs : F) : bytes :=
  if serverOrDaemon || negb (IsValidBundlePath bundleName fs) then srcStr
  else
    let fullPath := SANDBOX_ROOT_DIR ++ bundleName ++ [GetPathSep] in
    if is_prefix fullPath srcStr then zdrop (zlen fullPath) srcStr else srcStr.

Definition CheckSandboxSubPath (g : Neg F) : res (bool * bytes * Neg F) :=
  let input := g_inputLocalPath g in
  '((ok, resolvedPath) : bool * bytes) ← Sandbox.CheckSandboxSubPath (fun p => fs_realpath (cstr p) (g_fs g)) (g_bundleName g) input;
  if ok : bool then Ok (true, resolvedPath, g)
  else
    Ok (false, resolvedPath,
        LogFail (str "[E005102] Remote path: " ++ input ++
                 (if CheckPathTraversal input then str " is invalid, no such file/directory or it's out of the application directory."
                  else str " is invalid, path traversal detected.")) g).

Definition CheckBlacklistPath (g : Neg F) : bool * Neg F :=
  if Sandbox.CheckBlacklistPath (cf_localPath (cf g)) then (true, g) else (false, LogFail (str "[E005008] Operation not allowed") g).

(** ** The master: arguments *)

Definition MISSING_BUNDLE : bytes :=
  str "[E005003] The parameter is missing, correct your input by referring below:" ++ [10] ++
  (if serverOrDaemon then str "Usage: hdc file send [-b bundlename] local remote" else str "Usage: hdc file recv [-b bundlename] remote local").

(** The loop of [ParseMasterParameters]: [srcArgvIndex], or [None] for a failure.
    The word behind an option that takes one is looked at as well. *)
Fixpoint parse_options (argc : Z) (argv : list bytes) (srcArgvIndex : Z) (g : Neg F) : option Z * Neg F :=
  match argv with
  | [] => (Some srcArgvIndex, g)
  | a :: rest =>
      if bytes_eqb a (str "-z") then parse_options argc rest (srcArgvIndex + 1) (on_cf (on_tc (set_tc_compressType COMPRESS_LZ4)) g)
      else if bytes_eqb a (str "-sync") then parse_options argc rest (srcArgvIndex + 1) (on_cf (on_tc (set_tc_updateIfNew true)) g)
      else if bytes_eqb a (str "-a") then parse_options argc rest (srcArgvIndex + 1) (on_cf (on_tc (set_tc_holdTimestamp true)) g)
      else if bytes_eqb a (str "-cwd") && negb (bool_decide (rest = [])) then
        parse_options argc rest (srcArgvIndex + 2) (on_cf (on_tc (set_tc_clientCwd (hd [] rest))) g)
      else if bytes_eqb a (str "-m") then parse_options argc rest (srcArgvIndex + 1) (on_cf (set_cf_fileModeSync true) g)
      else if bytes_eqb a (str "remote") then parse_options argc rest (srcArgvIndex + 1) g
      else if bytes_eqb a (str "-b") then
        let g := on_cf (set_cf_sandboxMode true) g in
        match rest with
        | [] => (None, LogFail MISSING_BUNDLE g)
        | b :: _ =>
            if argc =? srcArgvIndex + 1 then (None, LogFail MISSING_BUNDLE g)
            else parse_options argc rest (srcArgvIndex + 2) (set_g_bundleName b (on_cf (on_tc (set_tc_reserve1 b)) g))
        end
      else if match a with c :: _ => c =? 45 | [] => false end then (None, LogFail (str "Unknown file option: " ++ a) g)
      else parse_options argc rest srcArgvIndex g
  end.

Definition set_paths (local remote : bytes) (g : Neg F) : Neg F :=
  set_g_inputLocalPath local (on_cf (fun c => set_cf_localPath local (set_cf_remotePath remote c)) g).

Definition ValidateAndSetPaths (argv : list bytes) (srcArgvIndex : Z) (g : Neg F) : res (bool * Neg F) :=
  let argc := zlen argv in
  if argc =? srcArgvIndex then Ok (false, LogFail (str "There is no local and remote path") g)
  else
    last1 ← deref (argv !! Z.to_nat (argc - 1));
    if cf_sandboxMode (cf g) && (srcArgvIndex + 1 =? argc) then Ok (true, set_paths last1 (str ".") g)
    else if argc <? 2 then Undefined
    else last2 ← deref (argv !! Z.to_nat (argc - 2)); Ok (true, set_paths last2 last1 g).

Definition ParseMasterParameters (argv : list bytes) (g : Neg F) : res (option Z * Neg F) :=
  match parse_options (zlen argv) argv 0 g with
  | (None, g) => Ok (None, g)
  | (Some src, g) => '((ok, g) : bool * Neg F) ← ValidateAndSetPaths argv src g; Ok (if ok : bool then Some src else None, g)
  end.

(** [localName], with [localPath] cut as [GetFullFilePath] does. *)
Definition set_localName (g : Neg F) : res (Neg F) :=
  '((name, path) : bytes * bytes) ← GetFullFilePath (cf_localPath (cf g)); Ok (on_cf (fun c => set_cf_localName name (set_cf_localPath path c)) g).

Definition SetMasterParametersOnDaemon (argv : list bytes) (srcArgvIndex : Z) (g : Neg F) : res (bool * Neg F) :=
  let bundle := tc_reserve1 (tc g) in
  if cf_sandboxMode (cf g) && (0 <? zlen bundle) && negb (IsValidBundlePath bundle (g_fs g)) then
    Ok (false, LogFail (str "[E005101] Invalid bundle name: " ++ bundle) g)
  else
    g ← (if srcArgvIndex + 1 =? zlen argv then
           last1 ← deref (last argv); Ok (on_cf (fun c => set_cf_localPath last1 (set_cf_remotePath (str ".") c)) g)
         else Ok g);
    g ← set_localName g;
    if cf_sandboxMode (cf g) && IsValidBundlePath bundle (g_fs g) then
      '((ok, resolvedPath, g) : bool * bytes * Neg F) ← CheckSandboxSubPath g;
      if ok : bool then Ok (true, on_cf (fun c => set_cf_localPath (resolvedPath ++ [GetPathSep] ++ cf_localName c) c) g) else Ok (false, g)
    else Ok (true, g).

(** The files below a directory in the order found, the directories' modes. *)
Fixpoint GetSubFilesRecursively (fuel : nat) (path currentDirname : bytes) (fs : F) (out : list bytes) (modes : list FileMode)
    : res (list bytes * list FileMode) :=
  match fuel with
  | O => Stuck
  | S fuel =>
      if bytes_eqb path [] then Ok (out, modes)
      else
        match fs_scandir (cstr path) fs with
        | None => Ok (out, modes)
        | Some entries =>
            let modes := match fs_stat (cstr path) fs with
                         | Some sb => modes ++ [mkFileMode (sb_mode sb) (sb_uid sb) (sb_gid sb) (fs_context (cstr path) fs) currentDirname]
                         | None => modes
                         end in
            fold_left (fun acc e => '((out, modes) : list bytes * list FileMode) ← acc;
              if bytes_eqb e.1 (str ".") || bytes_eqb e.1 (str "..") then Ok (out, modes)
              else if negb (has_bits e.2 UV_DIRENT_FILE) then
                GetSubFilesRecursively fuel (path ++ [GetPathSep] ++ e.1) (currentDirname ++ [GetPathSep] ++ e.1) fs out modes
              else Ok (out ++ [currentDirname ++ [GetPathSep] ++ e.1], modes)) entries (Ok (out, modes))
        end
  end.

Definition SetMasterParameters (fuel : nat) (argv : list bytes) (g : Neg F) : res (bool * Neg F) :=
  '((src, g) : option Z * Neg F) ← ParseMasterParameters argv g;
  match src with
  | None => Ok (false, g)
  | Some src =>
      '((ok, g) : bool * Neg F) ←
        (if serverOrDaemon then
           if src + 1 =? zlen argv then Ok (false, LogFail (str "There is no remote path") g)
           else Ok (true, on_cf (fun c => set_cf_localPath (ExtractRelativePath (tc_clientCwd (cf_transferConfig c)) (cf_localPath c)) c) g)
         else SetMasterParametersOnDaemon argv src g);
      if negb ok then Ok (false, g)
      else
        g ← set_localName g;
        let '(exists_, mode) := CheckDirectoryOrPath (cf_localPath (cf g)) true (g_fs g) in
        if negb exists_ && has_bits mode S_IFDIR then
          let g := on_cf (set_cf_isDir true) g in
          '((queue, modes) : list bytes * list FileMode) ←
            GetSubFilesRecursively fuel (cf_localPath (cf g)) (cf_localName (cf g)) (g_fs g) (cf_taskQueue (cf g)) (g_dirMode g);
          let g := set_g_dirMode modes (on_cf (set_cf_taskQueue queue) g) in
          match last queue with
          | None => Ok (false, LogFail (str "Operation failed, because the source folder is empty.") g)
          | Some name =>
              let dir := GetPathWithoutFilename (cf_localPath (cf g)) in
              Ok (true, on_cf (fun c => set_cf_taskQueue (removelast queue) (set_cf_localPath (dir ++ name) (set_cf_localName name
                (set_cf_localDirName dir (set_cf_dirSize 0 (set_cf_fileCnt 0 c)))))) g)
          end
        else Ok (true, g)
  end.

Definition open_file (g : Neg F) : Neg F := set_g_t (submit (FsOpen (cstr (cf_localPath (cf g)))) (g_t g)) g.

Definition BeginTransfer (fuel : nat) (command : bytes) (g : Neg F) : res (bool * Neg F) :=
  r ← SplitCommandToArgs command;
  let argv := match r with Some r => arg_strings r | None => [] end in
  if zlen argv <? 2 then Ok (false, LogFail (str "Transfer path split failed") g)
  else
    '((ok, g) : bool * Neg F) ← SetMasterParameters fuel argv g;
    if negb ok then Ok (false, g)
    else
      let '(ok, g) := CheckBlacklistPath g in
      if negb ok then Ok (false, g) else Ok (true, on_cf (set_cf_master true) (open_file g)).

(** ** The slave: where a file is put *)

Definition has_sep (name : bytes) : bool := bool_decide (47 ∈ name) || bool_decide (92 ∈ name).

(** Each layer is added to the path and created. *)
Fixpoint make_layers (dirs : list bytes) (makedirPath : bytes) (fs : F) : F * option bytes :=
  match dirs with
  | [] => (fs, None)
  | dir :: dirs =>
      if bytes_eqb dir (str ".") then make_layers dirs makedirPath fs
      else
        let makedirPath := makedirPath ++ [GetPathSep] ++ dir in
        match TryCreateDirectory makedirPath fs with
        | inl fs => make_layers dirs makedirPath fs
        | inr err => (fs, Some err)
        end
  end.

(** The error, if any. *)
Definition CheckLocalPath (localPath optName : bytes) (g : Neg F) : res (option bytes * Neg F) :=
  if negb (has_sep optName) then Ok (None, g)
  else
    let g := on_cf (set_cf_isDir true) g in
    match fs_lstat (cstr localPath) (g_fs g) with
    | None =>
        dirs ← SplitString localPath [GetPathSep] [];
        let '(fs, err) := make_layers dirs (if IsAbsolutePath localPath then [] else str ".") (g_fs g) in
        let g := set_g_fs fs g in
        match err with Some err => Ok (Some err, g) | None => Ok (None, set_g_targetDirNotExist true g) end
    | Some mode => if has_bits mode S_IFDIR then Ok (None, g) else Ok (Some (str "Not a directory, path:" ++ localPath), g)
    end.

(** The mode a directory had on the other side; the first character of an empty
    rest is [Exited], [at] throws. *)
Definition sync_mode (backup localPath : bytes) (modes : gmap bytes FileMode) (fs : F) : res F :=
  let resolvedPath := fs_realpath (cstr localPath) fs in
  if is_prefix backup resolvedPath then
    match zdrop (zlen backup) resolvedPath with
    | [] => Exited
    | c :: rest =>
        let shortPath := if c =? GetPathSep then rest else c :: rest in
        Ok match modes !! shortPath with Some mode => fs_setmode (cstr localPath) mode fs | None => fs end
    end
  else Ok fs.

Fixpoint name_layers (sync : bool) (modes : gmap bytes FileMode) (backup : bytes) (dirs : list bytes) (localPath : bytes) (fs : F)
    : res (bytes * F * option bytes) :=
  match dirs with
  | [] => Ok (localPath, fs, None)
  | s :: dirs =>
      let localPath := localPath ++ [GetPathSep] ++ s in
      match TryCreateDirectory localPath fs with
      | inr err => Ok (localPath, fs, Some err)
      | inl fs => fs ← (if sync then sync_mode backup localPath modes fs else Ok fs); name_layers sync modes backup dirs localPath fs
      end
  end.

Definition cut_first (c : Z) (name : bytes) : bytes := match find [c] name 0 with Some i => zdrop (i + 1) name | None => name end.

(** [CheckFilename] on [localPath] and [optionalName] of the context. *)
Definition CheckFilename (g : Neg F) : res (option bytes * Neg F) :=
  let optName := tc_optionalName (tc g) in
  let optName := if g_targetDirNotExist g then if bool_decide (47 ∈ optName) then cut_first 47 optName else cut_first 92 optName else optName in
  let g := on_cf (on_tc (set_tc_optionalName optName)) g in
  if negb (has_sep optName) then Ok (None, g)
  else
    dirs ← SplitString optName [if bool_decide (47 ∈ optName) then 47 else 92] [];
    name ← deref (last dirs);
    let g := on_cf (on_tc (set_tc_optionalName name)) g in
    '((localPath, fs, err) : bytes * F * option bytes) ←
      name_layers (cf_fileModeSync (cf g)) (g_dirModeMap g) (cf_localPath (cf g)) (removelast dirs) (cf_localPath (cf g)) (g_fs g);
    Ok (err, set_g_fs fs (on_cf (set_cf_localPath localPath) g)).

(** Whether the file exists, and the path. *)
Definition SmartSlavePath (cwd localPath optName : bytes) (fs : F) : bool * bytes :=
  let localPath := if serverOrDaemon then ExtractRelativePath cwd localPath else localPath in
  if (CheckDirectoryOrPath localPath false fs).1 then (true, localPath)
  else
    match fs_lstat (cstr localPath) fs with
    | Some mode => (false, if has_bits mode S_IFDIR then localPath ++ [GetPathSep] ++ cstr optName else localPath)
    | None => (false, if bool_decide (last localPath = Some GetPathSep) then localPath ++ cstr optName else localPath)
    end.

Definition ParseAndValidateOptions (payload : bytes) (g : Neg F) : bool * Neg F :=
  let '(ok, stat) := ParseFromString TransferConfig_type (tc g) payload in
  let g := on_cf (set_cf_transferConfig stat) g in
  if negb ok then (false, g)
  else
    (true, set_g_bundleName (tc_reserve1 stat) (set_g_inputLocalPath (tc_path stat)
       (on_cf (fun c => set_cf_master false (set_cf_localPath (tc_path stat) (set_cf_fileSize (tc_fileSize stat) c))) g))).

Definition CheckBundleAndPath (g : Neg F) : res (bool * Neg F) :=
  if negb serverOrDaemon && IsValidBundlePath (g_bundleName g) (g_fs g) then
    let g := on_cf (set_cf_localPath (SANDBOX_ROOT_DIR ++ g_bundleName g ++ [GetPathSep] ++ g_inputLocalPath g)) g in
    '((ok, _, g) : bool * bytes * Neg F) ← CheckSandboxSubPath g; Ok (ok, g)
  else if negb serverOrDaemon && (0 <? zlen (g_bundleName g)) then
    Ok (false, LogFail (str "[E005101] Invalid bundle name: " ++ g_bundleName g) g)
  else Ok (true, g).

Definition report_error (err : bytes) (g : Neg F) : Neg F := LogFail (RemoveSandboxRootPath err (tc_reserve1 (tc g)) (g_fs g)) g.

Definition CheckLocalPathAndFilename (g : Neg F) : res (bool * Neg F) :=
  let '(ok, g) := CheckBlacklistPath g in
  if negb ok then Ok (false, g)
  else
    '((err, g) : option bytes * Neg F) ← CheckLocalPath (cf_localPath (cf g)) (tc_optionalName (tc g)) g;
    match err with
    | Some err => Ok (false, report_error err g)
    | None =>
        '((err, g) : option bytes * Neg F) ← CheckFilename g;
        match err with
        | Some err => Ok (false, report_error err g)
        | None =>
            if negb (CheckPathTraversal (cf_localPath (cf g))) then Ok (false, LogFail (str "Path traversal not allowed in final path") g)
            else Ok (true, g)
        end
    end.

Definition HDC_TIME_CONVERT_BASE : Z := 1000000000.

(** The modification time in seconds is compared with the one announced. *)
Definition HandleFileExistenceAndNewness (g : Neg F) : bool * Neg F :=
  let '(childRet, localPath) := SmartSlavePath (tc_clientCwd (tc g)) (cf_localPath (cf g)) (tc_optionalName (tc g)) (g_fs g) in
  let g := on_cf (set_cf_localPath localPath) g in
  if childRet && tc_updateIfNew (tc g) then
    match fs_stat (cstr localPath) (g_fs g) with
    | None => (false, g)
    | Some sb =>
        if tc_mtime (tc g) <=? u64 (sb_mtime sb / HDC_TIME_CONVERT_BASE) then
          (false, LogFail (str "Target file is the same date or newer,path: " ++ cstr localPath) g)
        else (true, g)
    end
  else (true, g).

Definition SlaveCheck (payload : bytes) (g : Neg F) : res (bool * Neg F) :=
  let '(ok, g) := ParseAndValidateOptions payload g in
  if negb ok then Ok (false, g)
  else
    '((ok, g) : bool * Neg F) ← CheckBundleAndPath g;
    if negb ok then Ok (false, g)
    else
      '((ok, g) : bool * Neg F) ← CheckLocalPathAndFilename g;
      if negb ok then Ok (false, g)
      else
        let '(ok, g) := HandleFileExistenceAndNewness g in
        if negb ok then Ok (false, g) else Ok (true, open_file g).

(** ** Modes of directories *)

Definition send (command : Z) (payload : bytes) (g : Neg F) : Neg F := set_g_t (SendToAnother command payload (g_t g)).2 g.

(** The components of a directory's name, joined by this side's separator. *)
Definition local_name (fullName : bytes) : res bytes :=
  dirs ← (if bool_decide (47 ∈ fullName) then SplitString fullName [47] []
          else if bool_decide (92 ∈ fullName) then SplitString fullName [92] [] else Ok [fullName]);
  Ok (fold_left (fun name s => if bytes_eqb name [] then s else name ++ [GetPathSep] ++ s) dirs []).

Definition FileModeSync (cmd : Z) (payload : bytes) (g : Neg F) : res (bool * Neg F) :=
  if cf_master (cf g) then
    match last (g_dirMode g) with
    | Some mode => Ok (true, send CMD_DIR_MODE (SerializeToString FileMode_type mode) (set_g_dirMode (removelast (g_dirMode g)) g))
    | None => Ok (true, send CMD_FILE_CHECK (SerializeToString TransferConfig_type (tc g)) g)
    end
  else
    let g := on_cf (set_cf_fileModeSync true) g in
    g ← (if cmd =? CMD_FILE_MODE then Ok (on_cf (set_cf_fileMode (ParseFromString FileMode_type (cf_fileMode (cf g)) payload).2) g)
         else
           let dirMode := (ParseFromString FileMode_type FileMode_zero payload).2 in
           name ← local_name (fm_fullName dirMode);
           Ok (set_g_dirModeMap (match g_dirModeMap g !! name with
                                 | Some _ => g_dirModeMap g
                                 | None => <[name := set_fm_fullName name dirMode]> (g_dirModeMap g)
                                 end) g));
    Ok (true, send CMD_FILE_MODE [] g).

(** ** The task's commands *)

(** [reported]: whether the report of the command was delivered, where reports are
    built in. *)
Definition CommandDispatch (LZ4_decompress_safe : bytes -> Z -> option bytes) (e : IoEnv) (reported : bool) (fuel : nat)
    (command : Z) (payload : bytes) (g : Neg F) : res (bool * Neg F) :=
  '((ret, t) : bool * Transfer) ← TransferBase_CommandDispatch LZ4_decompress_safe e command payload (g_t g);
  let g := set_g_t t g in
  if command =? CMD_FILE_INIT then BeginTransfer fuel payload (set_g_isSend false g)
  else if command =? CMD_FILE_CHECK then
    '((ret, g) : bool * Neg F) ← SlaveCheck payload (set_g_isSend true g); Ok (ret && reported, g)
  else if (command =? CMD_FILE_MODE) || (command =? CMD_DIR_MODE) then FileModeSync command payload g
  else if command =? CMD_FILE_FINISH then
    match payload with
    | [] => Undefined
    | flag :: _ => t ← FileFinish flag (g_t g); Ok (ret, set_g_t t g)
    end
  else Ok (ret, g).
End Negotiation.
