(* ===== verification/NegotiateProps.v ===== *)
(** * NegotiateProps: a file system, and what the negotiation guarantees *)

From Stdlib Require Import String ZArith Lia List Bool.
From stdpp Require Import base list numbers option gmap.
From S2P Require Import Prelude Defs Serial SerialProps Messages Args Strings Sandbox Transfer Negotiate.

(** ** A file system *)

(** Nodes by the names on the way from the root, which is the working directory;
    no symbolic links. *)
Record Node := mkNode { nd_mode : Z; nd_mtime : Z; nd_uid : Z; nd_gid : Z }.
Abbreviation disk := (gmap (list bytes) Node).

Definition dir_node : Node := mkNode (Z.lor S_IFDIR 448) 0 0 0.
Definition file_node (mtime : Z) : Node := mkNode (Z.lor S_IFREG 420) mtime 0 0.
Definition is_dir (n : Node) : bool := Z.land (nd_mode n) S_IFMT =? S_IFDIR.

Definition locate (path : bytes) : list bytes := simplified path [].
Definition children (k : list bytes) (d : disk) : list (bytes * Z) :=
  omap (fun p => match last p.1 with
                 | Some name => if bool_decide (removelast p.1 = k) then Some (name, if is_dir p.2 then 2 else 1) else None
                 | None => None
                 end) (map_to_list d).

#[export] Instance disk_fs : FileSystem disk := {
  fs_lstat p d := match p with [] => None | _ => nd_mode <$> d !! locate p end;
  fs_stat p d := match p with
                 | [] => None
                 | _ => (fun n => mkStatBuf 0 0 (nd_mtime n) (nd_mode n) (nd_uid n) (nd_gid n)) <$> d !! locate p
                 end;
  fs_access p _ d := bool_decide (is_Some (d !! locate p));
  fs_exists p d := bool_decide (is_Some (d !! locate p));
  fs_mkdir p d :=
    match d !! locate p, d !! removelast (locate p) with
    | None, Some n => if is_dir n then inl (<[locate p := dir_node]> d) else inr (str "not a directory")
    | None, None => inr (str "no such file or directory")
    | Some _, _ => inr (str "file already exists")
    end;
  fs_scandir p d := match d !! locate p with
                    | Some n => if is_dir n then Some (children (locate p) d) else None
                    | None => None
                    end;
  fs_realpath p d := match d !! locate p with Some _ => render (locate p) | None => [] end;
  fs_context _ _ := [];
  fs_setmode p m d :=
    match d !! locate p with
    | Some n => <[locate p := mkNode (Z.lor (Z.land (nd_mode n) S_IFMT) (Z.land (fm_perm m) 0xFFF)) (nd_mtime n) (fm_uId m) (fm_gId m)]> d
    | None => d
    end
}.

(** ** Runs on small disks *)

Definition tree (l : list bytes) : disk := list_to_map (([], dir_node) :: map (fun p => (locate p, dir_node)) l).
Definition sample_task : Transfer :=
  mkTransfer (mkCtxFile 0 0 0 0 false [] [] [] [] false false false false false false false 0 [] TransferConfig_zero FileMode_zero (-1) false false)
    0 [] 0 [] false true false false 0 false.
Definition sample_neg (d : disk) : Neg disk := mkNeg sample_task [] [] false [] ∅ false [] d.
Definition announce (path name : bytes) : bytes :=
  SerializeToString TransferConfig_type (mkTransferConfig 4 0 0 [] path name false 0 false [] (str "/home/") [] []).
(** The result, the files opened and the messages. *)
Definition outcome (r : res (bool * Neg disk)) : res (bool * list FsReq * list bytes) :=
  '((ok, g) : bool * Neg disk) ← r; Ok (ok, t_reqs (g_t g), g_log g).

(** ** Names and paths *)

Lemma split_part_notin c x s w : w ∈ split_on c s -> x ∉ s -> x ∉ w.
Proof. intros Hw%list_elem_of_In Hx. apply split_on_In in Hw as (a & b & -> & _). rewrite !not_elem_of_app in Hx. apply Hx. Qed.

Lemma SplitString_parts s c : SplitString s [c] [] = Ok (List.filter nonempty (split_on c s)).
Proof. apply split_string_fields. Qed.

(** The part of a path up to its last separator. *)
Lemma dirname_app a w : 47 ∉ w -> GetPathWithoutFilename (a ++ [47] ++ w) = a ++ [47].
Proof.
  intros Hw. unfold GetPathWithoutFilename, GetPathSep, rfind. pose proof (rfind_aux_spec [47] (a ++ [47] ++ w) 0) as H.
  destruct (rfind_aux [47] (a ++ [47] ++ w) 0) as [j|]; [|by destruct (H a w)].
  destruct H as (u & v & E & -> & Hm). specialize (Hm a w eq_refl). rewrite (app_assoc a), (app_assoc u) in E.
  assert (Hu : zlen u <= zlen a).
  { destruct (Z_le_gt_dec (zlen u) (zlen a)); [done|exfalso]. apply app_eq_inv in E as [(k & E1 & E2)|(k & E1 & E2)].
    - destruct k as [|x k]; [|apply (f_equal length) in E1; rewrite !length_app in E1; cbn [length] in E1; lia].
      rewrite app_nil_r in E1. apply app_inj_tail in E1 as [-> _]. lia.
    - destruct k as [|x k] using rev_ind; [rewrite app_nil_r in E1; apply app_inj_tail in E1 as [-> _]; lia|].
      rewrite app_assoc in E1. apply app_inj_tail in E1 as [_ <-]. apply Hw. rewrite E2. apply elem_of_app. left. apply elem_of_app. right. left. }
  assert (El : zlen u = zlen a) by lia. rewrite <- !app_assoc in E. rewrite El, app_assoc. apply ztake_app. rewrite length_app. cbn [length]. lia.
Qed.

Lemma dirname_prefix p : (exists k w, p = k ++ [47] ++ w /\ 47 ∉ w) \/ 47 ∉ p.
Proof.
  induction p as [|x p IH] using rev_ind; [right; apply not_elem_of_nil|]. destruct (decide (x = 47)) as [->|Hx].
  - left. exists p, []. split; [done|apply not_elem_of_nil].
  - destruct IH as [(k & w & -> & Hw)|Hp]; [left|right].
    + exists k, (w ++ [x]). split; [by rewrite <- !app_assoc|]. rewrite not_elem_of_app, list_elem_of_singleton. by split.
    + rewrite not_elem_of_app, list_elem_of_singleton. by split.
Qed.

(** A path that begins with a directory passes the test if the directory does. *)
Lemma traversal_prefix d k : CheckPathTraversal (d ++ [47] ++ k) = true -> CheckPathTraversal (d ++ [47]) = true.
Proof.
  rewrite !path_traversal_complete. intros H (a & b & E & Hw & Ha & Hb). apply H. destruct Hb as [->|(c & b' & -> & Hc)].
  - exfalso. rewrite app_nil_r in E. change (str "..") with ([46] ++ [46]) in E. rewrite app_assoc in E. by apply app_inj_tail in E as [_ ?].
  - exists a, (c :: b' ++ k). split; [|split; [done|]; split; [done|]; right; eauto].
    rewrite app_assoc, E. by rewrite <- !app_assoc.
Qed.

Lemma cstr_prefix s : exists k, s = cstr s ++ k.
Proof. induction s as [|x s [k IH]]; [by exists []|]. cbn [cstr]. destruct (x =? 0); [by exists (x :: s)|]. exists k. cbn [app]. by rewrite <- IH. Qed.

Lemma cstr_app s k : no_nul s -> cstr (s ++ k) = s ++ cstr k.
Proof. induction s as [|x s IH]; intros Hn; [done|]. apply List.Forall_cons_iff in Hn as [Hx Hn]. cbn [app cstr]. rewrite (proj2 (Z.eqb_neq x 0)) by done. by rewrite IH. Qed.

(** ** What the slave's checks leave alone *)

Section Checks.
Context `{FileSystem F} (serverOrDaemon : bool).

(** No request is submitted, nothing is sent, and the messages grow. *)
Record keeps (g g' : Neg F) : Prop := {
  kp_reqs : t_reqs (g_t g') = t_reqs (g_t g);
  kp_ref : t_refCount (g_t g') = t_refCount (g_t g);
  kp_out : t_out (g_t g') = t_out (g_t g);
  kp_bundle : g_bundleName g' = g_bundleName g;
  kp_config : exists name, tc g' = set_tc_optionalName name (tc g);
  kp_log : exists l, g_log g' = g_log g ++ l
}.
Definition told (g g' : Neg F) : Prop := exists m l, g_log g' = g_log g ++ m :: l.

Lemma set_name_id v : exists name, v = set_tc_optionalName name v.
Proof. exists (tc_optionalName v). by destruct v. Qed.

Lemma keep_refl g : keeps g g.
Proof. split; try done; [apply set_name_id|exists []; by rewrite app_nil_r]. Qed.
Lemma keep_trans a b c : keeps a b -> keeps b c -> keeps a c.
Proof.
  intros [A1 A2 A3 A4 [n A5] [l A6]] [B1 B2 B3 B4 [m B5] [k B6]]. split; try congruence.
  - exists m. by rewrite B5, A5.
  - exists (l ++ k). by rewrite B6, A6, app_assoc.
Qed.
Lemma keeps_same g g' : g_t g' = g_t g -> g_bundleName g' = g_bundleName g -> g_log g' = g_log g -> keeps g g'.
Proof.
  intros E1 E2 E3. split; try congruence; [unfold tc, cf; rewrite E1; apply set_name_id|]. exists []. by rewrite app_nil_r.
Qed.
Lemma keeps_fail m (g : Neg F) : keeps g (LogFail m g).
Proof. split; try done; [apply set_name_id|by exists [m]]. Qed.
Lemma told_fail m (g : Neg F) : told g (LogFail m g).
Proof. by exists m, []. Qed.
Lemma told_later a b c : keeps a b -> told b c -> told a c.
Proof. intros [_ _ _ _ _ [l E]] (m & k & E'). unfold told. rewrite E', E, <- app_assoc. destruct l; cbn; eauto. Qed.
Lemma keeps_cf f (g : Neg F) : (forall c, exists n, cf_transferConfig (f c) = set_tc_optionalName n (cf_transferConfig c)) -> keeps g (on_cf f g).
Proof. intros Hf. split; try done; [apply Hf|exists []; by rewrite app_nil_r]. Qed.
Lemma keeps_cf_same f (g : Neg F) : (forall c, cf_transferConfig (f c) = cf_transferConfig c) -> keeps g (on_cf f g).
Proof. intros Hf. apply keeps_cf. intros c. rewrite Hf. apply set_name_id. Qed.

Lemma CheckSandboxSubPath_keeps (g : Neg F) ok r g' : CheckSandboxSubPath g = Ok (ok, r, g') ->
  keeps g g' /\ cf g' = cf g /\ (ok = true -> g' = g) /\ (ok = false -> told g g').
Proof.
  unfold CheckSandboxSubPath. intros E. bind_ok E. destruct b; injection E as <- <- <-; [split_and!; auto using keep_refl; done|].
  split_and!; auto using keeps_fail, told_fail; done.
Qed.

Lemma CheckLocalPath_keeps lp name (g : Neg F) err g' : CheckLocalPath lp name g = Ok (err, g') ->
  keeps g g' /\ cf_localPath (cf g') = cf_localPath (cf g) /\ tc g' = tc g.
Proof.
  unfold CheckLocalPath. intros E. destruct (negb _); [injection E as <- <-; auto using keep_refl|].
  set (g0 := on_cf (set_cf_isDir true) g) in *. assert (K : keeps g g0 /\ cf_localPath (cf g0) = cf_localPath (cf g) /\ tc g0 = tc g) by (split; [by apply keeps_cf_same|done]).
  destruct (fs_lstat _ _) as [mode|].
  - destruct (has_bits _ _); injection E as <- <-; done.
  - bind_ok E. destruct (make_layers _ _ _) as [fs e]. destruct e; injection E as <- <-; (split; [|apply K]);
      (eapply keep_trans; [apply K|by apply keeps_same]).
Qed.

Lemma name_layers_extends sync modes backup dirs : forall lp fs lp' fs' err,
  name_layers sync modes backup dirs lp fs = Ok (lp', fs', err) -> exists k, lp' = lp ++ k.
Proof.
  induction dirs as [|s dirs IH]; intros lp fs lp' fs' err E; cbn [name_layers] in E; [injection E as <- <- <-; exists []; by rewrite app_nil_r|].
  destruct (TryCreateDirectory _ _); [|injection E as <- <- <-; by eexists]. bind_ok E. apply IH in E as [k ->].
  rewrite <- !app_assoc. by eexists.
Qed.

(** The path grows, and the name that is left is one component. *)
Lemma CheckFilename_keeps (g : Neg F) err g' : CheckFilename g = Ok (err, g') ->
  keeps g g' /\ (exists k, cf_localPath (cf g') = cf_localPath (cf g) ++ k) /\ (err = None -> 47 ∉ tc_optionalName (tc g')).
Proof.
  unfold CheckFilename. intros E. cbv zeta in E. match type of E with context [has_sep ?o] => set (name := o) in * end.
  assert (K : forall n (h : Neg F), keeps h (on_cf (on_tc (set_tc_optionalName n)) h)) by (intros; apply keeps_cf; intros c; by eexists).
  destruct (negb (has_sep name)) eqn:Es.
  { injection E as <- <-. split; [apply K|]. split; [exists []; by rewrite app_nil_r|]. intros _. unfold has_sep in Es. breflect. done. }
  do 2 bind_ok E. bind_ok E. injection E as <- <-. rewrite SplitString_parts in Hx. injection Hx as <-. apply deref_Ok in Hx0.
  apply name_layers_extends in Hx1 as [k Ek]. split; [|split].
  - apply (keep_trans _ _ _ (K name g)). eapply (keep_trans _ _ _ (K x0 _)). eapply keep_trans; [exact (keeps_cf_same (set_cf_localPath l) _ (fun _ => eq_refl))|by apply keeps_same].
  - exists k. exact Ek.
  - intros _. cbn. apply last_Some_elem_of, list_elem_of_In, List.filter_In in Hx0 as [Hin _]. apply list_elem_of_In in Hin.
    case_bool_decide; [|by eapply split_part_notin]. pose proof (split_on_nosep_all 47 name) as A. rewrite Forall_forall in A. by apply A.
Qed.

Lemma blacklist_keeps (g : Neg F) ok g' : CheckBlacklistPath g = (ok, g') -> keeps g g' /\ (ok = true -> g' = g) /\ (ok = false -> told g g').
Proof.
  unfold CheckBlacklistPath. destruct (Sandbox.CheckBlacklistPath _); intros [= <- <-]; [split_and!; auto using keep_refl; done|].
  split_and!; auto using keeps_fail, told_fail; done.
Qed.

Lemma CheckLocalPathAndFilename_keeps (g : Neg F) ok g' : CheckLocalPathAndFilename serverOrDaemon g = Ok (ok, g') ->
  keeps g g' /\ (ok = false -> told g g') /\
  (ok = true -> CheckPathTraversal (cf_localPath (cf g')) = true /\ (47 ∉ tc_optionalName (tc g')) /\ exists k, cf_localPath (cf g') = cf_localPath (cf g) ++ k).
Proof.
  unfold CheckLocalPathAndFilename. intros E. destruct (CheckBlacklistPath g) as [b g1] eqn:Eb. apply blacklist_keeps in Eb as (K1 & T1 & F1).
  destruct b; cbn [negb] in E; [rewrite (T1 eq_refl) in E; clear dependent g1|injection E as <- <-; by auto].
  bind_ok E. apply CheckLocalPath_keeps in Hx as (K1 & L1 & _). destruct o as [err|].
  { injection E as <- <-. split; [eapply keep_trans; [exact K1|apply keeps_fail]|]. split; [|done]. intros _. eapply told_later; [exact K1|apply told_fail]. }
  bind_ok E. apply CheckFilename_keeps in Hx as (K2 & [k L2] & Hn). destruct o as [err|].
  { injection E as <- <-. split; [eapply keep_trans; [exact K1|eapply keep_trans; [exact K2|apply keeps_fail]]|]. split; [|done].
    intros _. eapply told_later; [eapply keep_trans; [exact K1|exact K2]|apply told_fail]. }
  destruct (CheckPathTraversal _) eqn:Et; cbn [negb] in E; injection E as <- <-.
  - split; [by eapply keep_trans|]. split; [done|]. intros _. split; [done|]. split; [by apply Hn|]. exists k. congruence.
  - split; [eapply keep_trans; [exact K1|eapply keep_trans; [exact K2|apply keeps_fail]]|]. split; [|done].
    intros _. eapply told_later; [eapply keep_trans; [exact K1|exact K2]|apply told_fail].
Qed.

Lemma Newness_keeps (g : Neg F) ok g' : HandleFileExistenceAndNewness serverOrDaemon g = (ok, g') ->
  keeps g g' /\ cf_localPath (cf g') = (SmartSlavePath serverOrDaemon (tc_clientCwd (tc g)) (cf_localPath (cf g)) (tc_optionalName (tc g)) (g_fs g)).2 /\
  g_fs g' = g_fs g /\
  (ok = false -> told g g' \/ (tc_updateIfNew (tc g') = true /\ fs_stat (cstr (cf_localPath (cf g'))) (g_fs g') = None)).
Proof.
  unfold HandleFileExistenceAndNewness. destruct (SmartSlavePath _ _ _ _ _) as [childRet lp]. cbv zeta.
  assert (K : keeps g (on_cf (set_cf_localPath lp) g)) by by apply keeps_cf_same. intros E.
  destruct (childRet && _) eqn:Eu; [|by injection E as <- <-]. apply andb_true_iff in Eu as [_ Eu].
  destruct (fs_stat _ _) as [sb|] eqn:Es; [|injection E as <- <-; split_and!; auto].
  destruct (_ <=? _); injection E as <- <-; [|by split_and!].
  split; [eapply keep_trans; [exact K|apply keeps_fail]|]. split; [done|]. split; [done|]. intros _. left. eapply told_later; [exact K|apply told_fail].
Qed.

Lemma CheckBundleAndPath_keeps (g : Neg F) ok g' : CheckBundleAndPath serverOrDaemon g = Ok (ok, g') ->
  keeps g g' /\ (ok = false -> told g g') /\
  (ok = true -> serverOrDaemon = false -> g_bundleName g <> [] -> CheckBundleName (g_bundleName g) = true /\
     cf_localPath (cf g') = SANDBOX_ROOT_DIR ++ g_bundleName g ++ [GetPathSep] ++ g_inputLocalPath g).
Proof.
  unfold CheckBundleAndPath. intros E. destruct (negb serverOrDaemon && IsValidBundlePath _ _) eqn:Ev.
  - bind_ok E. injection E as <- <-. apply CheckSandboxSubPath_keeps in Hx as (K & Ec & _ & T).
    match type of K with keeps ?h _ => assert (K0 : keeps g h) by by apply keeps_cf_same end.
    split; [by eapply keep_trans|]. split; [intros Hf; eapply told_later; [exact K0|by apply T]|]. intros _ _ _.
    apply andb_true_iff in Ev as [_ Ev]. apply andb_true_iff in Ev as [Ev _]. split; [done|]. by rewrite Ec.
  - destruct (negb serverOrDaemon && (0 <? _)) eqn:El; injection E as <- <-; [split_and!; auto using keeps_fail, told_fail; done|].
    split; [apply keep_refl|]. split; [done|]. intros _ -> Hb. cbn [negb andb] in El. breflect. destruct (g_bundleName g); [done|]. cbn [length] in El. lia.
Qed.

(** The context after the announcement was read. *)
Lemma Parse_spec payload (g : Neg F) : exists stat g1, ParseAndValidateOptions payload g = (true, g1) /\ tc g1 = stat /\
  g_bundleName g1 = tc_reserve1 stat /\ t_reqs (g_t g1) = t_reqs (g_t g) /\ t_refCount (g_t g1) = t_refCount (g_t g) /\ t_out (g_t g1) = t_out (g_t g) /\
  g_log g1 = g_log g.
Proof.
  unfold ParseAndValidateOptions. destruct (parse_never_fails payload) as (_ & _ & _ & Hp & _). specialize (Hp (tc g)).
  destruct (ParseFromString _ _ _) as [ok stat]. cbn in Hp. subst ok. cbn [negb]. eexists stat, _. by split_and!.
Qed.
End Checks.

(** ** The path that is opened *)

Lemma cstr_app_cases a b : (no_nul a /\ cstr (a ++ b) = a ++ cstr b) \/ (cstr (a ++ b) = cstr a).
Proof.
  induction a as [|x a IH]; [left; by repeat constructor|]. cbn [app cstr]. destruct (x =? 0) eqn:E; [by right|]. breflect.
  destruct IH as [[Hn ->]| ->]; [left|by right]. split; [by constructor|done].
Qed.

Lemma traversal_sep d : CheckPathTraversal d = true -> CheckPathTraversal (d ++ [47]) = true.
Proof.
  rewrite !path_traversal_complete. intros H (a & b & E & Hw & Ha & Hb). apply H. destruct Hb as [->|(c & b' & -> & Hc)].
  - exfalso. rewrite app_nil_r in E. change (str "..") with ([46] ++ [46]) in E. rewrite app_assoc in E. by apply app_inj_tail in E as [_ ?].
  - destruct b' as [|x b' _] using rev_ind.
    + exists a, []. rewrite app_assoc in E. apply app_inj_tail in E as [-> _]. rewrite app_nil_r. auto.
    + exists a, (c :: b'). change (c :: b' ++ [x]) with ((c :: b') ++ [x]) in E. rewrite !app_assoc in E. apply app_inj_tail in E as [-> _].
      rewrite <- !app_assoc. split; [done|]. split; [done|]. split; [done|]. right. eauto.
Qed.

Lemma dirname_traversal L : CheckPathTraversal L = true -> 47 ∈ cstr L -> CheckPathTraversal (GetPathWithoutFilename (cstr L)) = true.
Proof.
  intros Ht Hin. destruct (dirname_prefix (cstr L)) as [(k & w & E & Hw)|]; [|done]. rewrite E, dirname_app by done.
  destruct (cstr_prefix L) as [r Er]. rewrite E, <- !app_assoc in Er. rewrite Er in Ht. by eapply traversal_prefix.
Qed.

(** Below what was checked, one component is added at most. *)
Lemma smart_path_dir {F} `{FileSystem F} cwd L name (fs : F) : CheckPathTraversal L = true -> 47 ∉ name -> 47 ∈ cstr L ->
  let p := cstr (SmartSlavePath false cwd L name fs).2 in (exists k, p = cstr L ++ k) /\ CheckPathTraversal (GetPathWithoutFilename p) = true.
Proof.
  intros Ht Hn Hin. assert (Hc : 47 ∉ cstr name) by (intros Hx; destruct (cstr_prefix name) as [k E]; apply Hn; rewrite E; apply elem_of_app; by left).
  assert (Base : (exists k, cstr L = cstr L ++ k) /\ CheckPathTraversal (GetPathWithoutFilename (cstr L)) = true).
  { split; [exists []; by rewrite app_nil_r|by apply dirname_traversal]. }
  unfold SmartSlavePath. destruct (CheckDirectoryOrPath L false fs).1; [done|]. destruct (fs_lstat (cstr L) fs) as [mode|].
  - cbn [snd]. destruct (has_bits _ _); [|done]. destruct (cstr_app_cases L ([GetPathSep] ++ cstr name)) as [[Hl E]|E]; rewrite E; [|done].
    cbn [app cstr GetPathSep Z.eqb]. rewrite (cstr_id L), (cstr_id (cstr name)) by (done || apply cstr_no_nul). split; [by eexists|].
    change (L ++ GetPathSep :: cstr name) with (L ++ [47] ++ cstr name). rewrite (dirname_app L (cstr name)) by done. by apply traversal_sep.
  - cbn [snd]. case_bool_decide as El; [|done]. destruct (cstr_app_cases L (cstr name)) as [[Hl E]|E]; rewrite E; [|done].
    rewrite (cstr_id L), (cstr_id (cstr name)) by (done || apply cstr_no_nul). split; [by eexists|].
    apply last_Some in El as [L1 ->]. unfold GetPathSep in *. rewrite <- app_assoc, dirname_app by done. done.
Qed.

(** ** Theorems *)

Lemma root_no_nul : no_nul SANDBOX_ROOT_DIR.
Proof. unfold SANDBOX_ROOT_DIR. repeat constructor; done. Qed.
Lemma bundle_no_nul b : CheckBundleName b = true -> no_nul b.
Proof.
  unfold CheckBundleName. intros H. repeat match type of H with (if ?c then _ else _) = _ => destruct c; [try done|try done] end.
  apply List.Forall_forall. intros c Hc. rewrite forallb_forall in H. apply H in Hc. unfold is_bundle_char in Hc. intros ->. done.
Qed.

(** C15. A file sent to an application stays in its directory.  Whatever file system
    the device has and whatever the announcement says, when the daemon accepts it and
    it names a bundle, exactly one file is opened; its path begins with the directory
    of that bundle, whose name is valid, and no directory on the way to it is a parent
    reference. *)
Theorem sandboxed_slave_confined `{FileSystem F} payload (g g' : Neg F) :
  SlaveCheck false payload g = Ok (true, g') -> g_bundleName g' <> [] ->
  exists path rest, t_reqs (g_t g') = t_reqs (g_t g) ++ [FsOpen path] /\
    path = SANDBOX_ROOT_DIR ++ g_bundleName g' ++ [47] ++ rest /\ CheckBundleName (g_bundleName g') = true /\
    ~ has_component (str "..") (GetPathWithoutFilename path).
Proof.
  unfold SlaveCheck. intros E Hb. destruct (Parse_spec payload g) as (stat & g1 & Ep & _ & _ & R1 & _). rewrite Ep in E. cbn [negb] in E.
  bind_ok E. destruct b; cbn [negb] in E; [|done]. apply CheckBundleAndPath_keeps in Hx as (K2 & _ & B). rename n into g2.
  bind_ok E. destruct b; cbn [negb] in E; [|done]. apply CheckLocalPathAndFilename_keeps in Hx as (K3 & _ & T). rename n into g3.
  destruct (HandleFileExistenceAndNewness false g3) as [ok g4] eqn:E4. apply Newness_keeps in E4 as (K4 & L4 & _).
  destruct ok; cbn [negb] in E; [|done]. injection E as <-. destruct (T eq_refl) as (Ht & Hn & [k L3]).
  assert (Eb : g_bundleName g4 = g_bundleName g1) by (rewrite (kp_bundle _ _ K4), (kp_bundle _ _ K3); apply K2).
  change (g_bundleName (open_file g4)) with (g_bundleName g4) in *. rewrite Eb in *. destruct (B eq_refl eq_refl Hb) as [Bn L2].
  rewrite L2, <- !app_assoc in L3. set (b := g_bundleName g1) in *.
  assert (Hpre : exists r, cstr (cf_localPath (cf g3)) = SANDBOX_ROOT_DIR ++ b ++ [47] ++ r).
  { rewrite L3, cstr_app by apply root_no_nul. rewrite cstr_app by by apply bundle_no_nul. eexists. by rewrite cstr_app by by repeat constructor. }
  destruct Hpre as [r Hr]. destruct (smart_path_dir (tc_clientCwd (tc g3)) (cf_localPath (cf g3)) (tc_optionalName (tc g3)) (g_fs g3) Ht Hn) as [[k' P1] P2].
  { rewrite Hr. apply elem_of_app. right. apply elem_of_app. right. left. }
  rewrite <- L4 in P1, P2. exists (cstr (cf_localPath (cf g4))), (r ++ k'). split_and!; [|rewrite P1, Hr; by rewrite <- !app_assoc|done|by apply path_traversal_complete].
  cbn. rewrite (kp_reqs _ _ K4), (kp_reqs _ _ K3), (kp_reqs _ _ K2), R1. done.
Qed.

(** C33. A file that is refused is not touched, and the user is told.  When the slave
    does not accept an announcement, it opens no file, holds no new reference, sends
    nothing to the master, and has given the user a message; the one exception is a
    file that exists but whose time cannot be read. *)
Theorem refused_file_untouched `{FileSystem F} serverOrDaemon payload (g g' : Neg F) :
  SlaveCheck serverOrDaemon payload g = Ok (false, g') ->
  t_reqs (g_t g') = t_reqs (g_t g) /\ t_refCount (g_t g') = t_refCount (g_t g) /\ t_out (g_t g') = t_out (g_t g) /\
  (told g g' \/ (tc_updateIfNew (tc g') = true /\ fs_stat (cstr (cf_localPath (cf g'))) (g_fs g') = None)).
Proof.
  unfold SlaveCheck. intros E. destruct (Parse_spec payload g) as (stat & g1 & Ep & _ & _ & R1 & F1 & O1 & G1). rewrite Ep in E. cbn [negb] in E.
  assert (Done : forall h, keeps g1 h -> (told g1 h \/ (tc_updateIfNew (tc h) = true /\ fs_stat (cstr (cf_localPath (cf h))) (g_fs h) = None)) ->
    t_reqs (g_t h) = t_reqs (g_t g) /\ t_refCount (g_t h) = t_refCount (g_t g) /\ t_out (g_t h) = t_out (g_t g) /\
    (told g h \/ (tc_updateIfNew (tc h) = true /\ fs_stat (cstr (cf_localPath (cf h))) (g_fs h) = None))).
  { intros h [A1 A2 A3 _ _ _] Ht. split_and!; try congruence. destruct Ht as [(m & l & Ht)|Ht]; [left|by right]. exists m, l. congruence. }
  bind_ok E. apply CheckBundleAndPath_keeps in Hx as (K2 & T2 & _). destruct b; cbn [negb] in E; [|injection E as <-; apply Done; auto].
  bind_ok E. apply CheckLocalPathAndFilename_keeps in Hx as (K3 & T3 & _). destruct b; cbn [negb] in E.
  2: { injection E as <-. apply Done; [by eapply keep_trans|]. left. eapply told_later; [exact K2|auto]. }
  destruct (HandleFileExistenceAndNewness serverOrDaemon n0) as [ok g4] eqn:E4. apply Newness_keeps in E4 as (K4 & _ & _ & T4).
  destruct ok; cbn [negb] in E; [done|]. injection E as <-. assert (K : keeps g1 n0) by by eapply keep_trans.
  apply Done; [by eapply keep_trans|]. destruct (T4 eq_refl) as [T|T]; [left; by eapply told_later|by right].
Qed.

Definition bundle_disk : disk := tree [str "/mnt"; str "/mnt/debug"; str "/mnt/debug/100"; str "/mnt/debug/100/debug_hap";
  str "/mnt/debug/100/debug_hap/com.example.app"].
Definition announce_bundle (path name : bytes) : bytes :=
  SerializeToString TransferConfig_type (mkTransferConfig 4 0 0 [] path name false 0 false [] [] (str "com.example.app") []).

(** The daemon accepts a file of the bundle and refuses one outside. *)
Lemma bundle_runs :
  match SlaveCheck false (announce_bundle (str "data") (str "d/log.txt")) (sample_neg bundle_disk) with
  | Ok (ok, g) => ok = true /\ g_bundleName g = str "com.example.app"
  | _ => False
  end /\
  match SlaveCheck false (announce_bundle (str "../x") (str "log.txt")) (sample_neg bundle_disk) with
  | Ok (ok, g) => ok = false /\ tc_updateIfNew (tc g) = false
  | _ => False
  end.
Proof. vm_compute. by repeat split. Qed.

Lemma sandboxed_slave_confined_witness : exists g' path rest,
  SlaveCheck false (announce_bundle (str "data") (str "d/log.txt")) (sample_neg bundle_disk) = Ok (true, g') /\
  t_reqs (g_t g') = [FsOpen path] /\ path = SANDBOX_ROOT_DIR ++ g_bundleName g' ++ [47] ++ rest /\ g_bundleName g' = str "com.example.app" /\
  ~ has_component (str "..") (GetPathWithoutFilename path).
Proof.
  destruct bundle_runs as [R _]. destruct (SlaveCheck false _ _) as [[ok g']| | |] eqn:E in R; [|destruct R..]. destruct R as [-> Eb].
  assert (Hb : g_bundleName g' <> []) by (rewrite Eb; discriminate).
  destruct (sandboxed_slave_confined _ _ _ E Hb) as (path & rest & H1 & H2 & _ & H3).
  exists g', path, rest. split; [exact E|]. split; [exact H1|]. split; [exact H2|]. split; [exact Eb|exact H3].
Defined.

Lemma refused_file_untouched_witness : exists g',
  SlaveCheck false (announce_bundle (str "../x") (str "log.txt")) (sample_neg bundle_disk) = Ok (false, g') /\
  t_reqs (g_t g') = t_reqs (g_t (sample_neg bundle_disk)) /\ told (sample_neg bundle_disk) g'.
Proof.
  destruct bundle_runs as [_ R]. destruct (SlaveCheck false _ _) as [[ok g']| | |] eqn:E in R; [|destruct R..]. destruct R as [-> Eu].
  exists g'. split; [exact E|]. destruct (refused_file_untouched _ _ _ _ E) as (R & _ & _ & [T|[T _]]); [split; [exact R|exact T]|].
  rewrite Eu in T. discriminate T.
Defined.

(** ** What the negotiation does in corner cases *)

(** A directory's name can lead into the directories that are refused by path. *)
Lemma blacklist_misses_names :
  let d := tree [str "/data"; str "/data/service"; str "/data/service/el1"; str "/data/service/el1/public"] in
  outcome (SlaveCheck false (announce (str "/data/service/el1/public/hdc") (str "key")) (sample_neg d)) = Ok (false, [], [str "[E005008] Operation not allowed"]) /\
  outcome (SlaveCheck false (announce (str "/data/service/el1/public") (str "hdc/key")) (sample_neg d)) =
    Ok (true, [FsOpen (str "/data/service/el1/public/hdc/key")], []).
Proof. vm_compute. by split. Qed.

(** Directories are created before the path is found to climb. *)
Lemma refused_name_creates_directories :
  match SlaveCheck false (announce_bundle (str "data") (str "../../../other/x/f")) (sample_neg bundle_disk) with
  | Ok (ok, g) => ok = false /\ fs_lstat (str "/mnt/debug/100/debug_hap/other/x") bundle_disk = None /\ fs_lstat (str "/mnt/debug/100/debug_hap/other/x") (g_fs g) <> None
  | _ => False
  end.
Proof. vm_compute. by split. Qed.

(** A name without components, and the directory itself when modes are kept. *)
Lemma empty_names_fail :
  SlaveCheck false (announce (str "/data") (str "/")) (sample_neg (tree [str "/data"])) = Undefined /\
  SlaveCheck false (announce (str "/data") (str "./f")) (on_cf (set_cf_fileModeSync true) (sample_neg (tree [str "/data"]))) = Exited.
Proof. vm_compute. by split. Qed.

(** Seconds are compared with nanoseconds, or with 0 when times are not kept. *)
Lemma sync_compares_wrong_units :
  let old := <[[str "data"; str "f"] := file_node (100 * HDC_TIME_CONVERT_BASE)]> (tree [str "/data"]) in
  let check keep mtime := r ← outcome (SlaveCheck false (SerializeToString TransferConfig_type
    (mkTransferConfig 4 mtime mtime [] (str "/data/f") (str "f") true 0 keep [] [] [] [])) (sample_neg old)); Ok r.1.1 in
  check true (99 * HDC_TIME_CONVERT_BASE) = Ok true /\ check false 0 = Ok false.
Proof. vm_compute. by split. Qed.

(** A relative directory: its name comes twice. *)
Lemma relative_directory_doubled :
  let d := <[[str "data"; str "f"] := file_node 0]> (tree [str "/data"]) in
  outcome (BeginTransfer false 9 (str "data x") (sample_neg d)) = Ok (true, [FsOpen (str "datadata/f")], []) /\
  outcome (BeginTransfer false 9 (str "/data x") (sample_neg d)) = Ok (true, [FsOpen (str "/data/f")], []).
Proof. vm_compute. by split. Qed.

(** A file called [remote] is taken for an option. *)
Lemma file_called_remote_refused :
  outcome (BeginTransfer true 9 (str "-cwd /home/ remote /data/x") (sample_neg (tree []))) = Ok (false, [], [str "There is no remote path"]) /\
  outcome (BeginTransfer true 9 (str "-cwd /home/ local /data/x") (sample_neg (tree []))) = Ok (true, [FsOpen (str "/home/local")], []).
Proof. vm_compute. by split. Qed.

(** All other commands are those of [Transfer]: the theorems about the data path
    hold of the whole dispatcher. *)
Lemma CommandDispatch_data `{FileSystem F} sd lz4 negotiate e reported fuel command payload (g : Neg F) :
  command ∉ [CMD_FILE_INIT; CMD_FILE_CHECK; CMD_FILE_MODE; CMD_DIR_MODE] ->
  CommandDispatch sd lz4 e reported fuel command payload g =
  ('((ret, t) : bool * Transfer) ← HdcFile_CommandDispatch lz4 negotiate e command payload (g_t g); Ok (ret, set_g_t t g)).
Proof.
  intros Hc. unfold CommandDispatch, HdcFile_CommandDispatch. rewrite bool_decide_false by done.
  rewrite !not_elem_of_cons in Hc. destruct Hc as (H1 & H2 & H3 & H4 & _).
  rewrite (proj2 (Z.eqb_neq _ _) H1), (proj2 (Z.eqb_neq _ _) H2), (proj2 (Z.eqb_neq _ _) H3), (proj2 (Z.eqb_neq _ _) H4). cbn [orb].
  destruct (TransferBase_CommandDispatch _ _ _ _ _) as [[ret t]| | |]; cbn [mbind res_bind]; try done.
  destruct (command =? CMD_FILE_FINISH); [|done]. destruct payload as [|flag payload]; [done|]. cbn [g_t set_g_t]. by destruct (FileFinish flag t).
Qed.
