(* ===== verification/NegotiateTree.v ===== *)
(** * NegotiateTree: whole directories, their modes, and the master's arguments *)

From Stdlib Require Import String ZArith Lia List Bool.
From stdpp Require Import base list numbers option gmap.
From S2P Require Import Prelude Defs Serial SerialFacts SerialProps Messages Args Strings Sandbox Transfer Negotiate NegotiateProps.

(** ** Plain names *)

Definition plain (w : bytes) : Prop := name_ok w /\ (92 ∉ w) /\ no_nul w.

(** [a/b/c]. *)
Definition joined (names : list bytes) : bytes := match names with [] => [] | w :: names => w ++ render names end.

Lemma render_app a b : render (a ++ b) = render a ++ render b.
Proof. unfold render. by rewrite map_app, concat_app. Qed.
Lemma render_cons w names : render (w :: names) = 47 :: joined (w :: names).
Proof. done. Qed.
Lemma render_snoc names w : render (names ++ [w]) = render names ++ [GetPathSep] ++ w.
Proof. rewrite render_app. unfold render at 2. cbn. by rewrite app_nil_r. Qed.

Lemma split_joined w names : Forall plain (w :: names) -> split_on 47 (joined (w :: names)) = w :: names.
Proof.
  revert w. induction names as [|v names IH]; intros w Hp; apply List.Forall_cons_iff in Hp as [((_ & _ & _ & Hw) & _) Hp]; cbn [joined].
  - unfold render. cbn. rewrite app_nil_r. by apply split_on_nosep.
  - rewrite render_cons, split_on_app by done. f_equal. by apply IH.
Qed.

Lemma plain_nonempty names : Forall plain names -> List.filter nonempty names = names.
Proof.
  induction 1 as [|w names ((Hw & _) & _) _ IH]; [done|]. cbn [List.filter]. unfold nonempty at 1. rewrite bool_decide_false by done. cbn [negb]. by rewrite IH.
Qed.

Lemma parts_joined names : Forall plain names -> List.filter nonempty (split_on 47 (joined names)) = names.
Proof. intros Hp. destruct names as [|w names]; [done|]. rewrite split_joined by done. by apply plain_nonempty. Qed.
Lemma parts_render names : Forall plain names -> List.filter nonempty (split_on 47 (render names)) = names.
Proof.
  intros Hp. destruct names as [|w names]; [done|]. rewrite render_cons. cbn [split_on Z.eqb]. change (47 =? 47) with true. cbn [List.filter]. 
  change (nonempty []) with false. cbv iota. by apply parts_joined.
Qed.

Lemma locate_render names : Forall plain names -> locate (render names) = names.
Proof.
  intros Hp. unfold locate, simplified. destruct names as [|w names]; [done|]. rewrite render_cons. cbn [split_on]. change (47 =? 47) with true.
  cbv iota. cbn [fold_left]. change (simplify_group [] []) with (@nil bytes). rewrite split_joined by done.
  assert (G : forall l acc, Forall plain l -> fold_left simplify_group l acc = acc ++ l); [|by apply G].
  intros l. induction l as [|v l IH]; intros acc Hl; [by rewrite app_nil_r|]. apply List.Forall_cons_iff in Hl as [((H1 & H2 & H3 & _) & _) Hl].
  cbn [fold_left]. rewrite IH by done. unfold simplify_group, bytes_eqb. rewrite !bool_decide_false by done. cbn. by rewrite <- app_assoc.
Qed.

Lemma plain_no_nul_render names : Forall plain names -> no_nul (render names).
Proof.
  unfold render. induction 1 as [|w names (_ & _ & Hn) _ IH]; [constructor|]. cbn [map concat app]. constructor; [done|]. by apply Forall_app.
Qed.

Lemma joined_notin c names : c <> 47 -> Forall (fun w => c ∉ w) names -> c ∉ joined names.
Proof.
  intros Hc Hf. destruct names as [|w names]; [apply not_elem_of_nil|]. apply List.Forall_cons_iff in Hf as [Hw Hf]. cbn [joined]. rewrite not_elem_of_app. split; [done|].
  unfold render. clear Hw. induction Hf as [|v names Hv _ IH]; [apply not_elem_of_nil|]. cbn [map concat app]. rewrite not_elem_of_cons, not_elem_of_app. by split.
Qed.
Lemma joined_sep w v names : 47 ∈ joined (w :: v :: names).
Proof. cbn [joined]. apply elem_of_app. right. rewrite render_cons. left. Qed.

Lemma traversal_render names : Forall plain names -> CheckPathTraversal (render names) = true.
Proof.
  intros Hp. unfold CheckPathTraversal. set (norm := fun c => if c =? 92 then GetPathSep else c).
  assert (En : map norm (render names) = render names).
  { assert (G : forall s, 92 ∉ s -> map norm s = s).
    { induction s as [|x s IH]; intros Hx; [done|]. apply not_elem_of_cons in Hx as [H1 H2]. cbn [map]. rewrite IH by done. unfold norm.
      by rewrite (proj2 (Z.eqb_neq x 92)) by congruence. }
    apply G. destruct names as [|w names]; [apply not_elem_of_nil|]. rewrite render_cons, not_elem_of_cons. split; [done|]. apply joined_notin; [done|].
    eapply List.Forall_impl; [|exact Hp]. by intros ? (_ & ? & _). }
  rewrite En. apply forallb_forall. intros x Hx. unfold getlines in Hx. apply negb_true_iff, bool_decide_eq_false. intros ->.
  apply (proj1 (drop_last_empty_In (str "..") _ ltac:(done))) in Hx. assert (Hin : str ".." ∈ names).
  { rewrite <- (parts_render names Hp). apply list_elem_of_In, List.filter_In. split; [exact Hx|done]. }
  rewrite Forall_forall in Hp. apply Hp in Hin as ((_ & _ & ? & _) & _). done.
Qed.

(** ** Directories on a disk *)

Definition open_dir (d : disk) (k : list bytes) : Prop := exists n, d !! k = Some n /\ is_dir n = true.
Definition free_dir (d : disk) (k : list bytes) : Prop := d !! k = None \/ open_dir d k.

Lemma dir_bits n : is_dir n = true -> has_bits (nd_mode n) S_IFDIR = true.
Proof.
  unfold is_dir, has_bits. intros E. apply Z.eqb_eq in E. apply negb_true_iff, Z.eqb_neq. intros H0.
  assert (A : Z.land (Z.land (nd_mode n) S_IFMT) S_IFDIR = Z.land (nd_mode n) S_IFDIR) by by rewrite <- Z.land_assoc.
  rewrite E, H0 in A. done.
Qed.
Lemma dir_node_dir : is_dir dir_node = true.
Proof. done. Qed.

(** Directories were added between [base] and [base ++ dirs], nothing else. *)
Record grows (base dirs : list bytes) (d d' : disk) : Prop := {
  gr_dir : open_dir d' (base ++ dirs);
  gr_old : forall k n, d !! k = Some n -> d' !! k = Some n;
  gr_new : forall k, d !! k = None -> d' !! k = None \/ (d' !! k = Some dir_node /\ exists l, l <> [] /\ l `prefix_of` dirs /\ k = base ++ l)
}.
Lemma layers_refl base d : open_dir d base -> grows base [] d d.
Proof. intros Ho. split; [by rewrite app_nil_r|done|auto]. Qed.
Lemma grows_open base dirs d d' k : grows base dirs d d' -> open_dir d k -> open_dir d' k.
Proof. intros G (n & E & Hn). exists n. split; [by apply (gr_old _ _ _ _ G)|done]. Qed.
Lemma grows_free base dirs d d' k : grows base dirs d d' -> free_dir d k -> free_dir d' k.
Proof.
  intros G [E|O]; [|right; by eapply grows_open]. destruct (gr_new _ _ _ _ G k E) as [?|[E' _]]; [by left|right]. by exists dir_node.
Qed.
Lemma layers_trans base dirs dirs' d d1 d2 : grows base dirs d d1 -> grows (base ++ dirs) dirs' d1 d2 -> grows base (dirs ++ dirs') d d2.
Proof.
  intros G1 G2. split; [rewrite app_assoc; apply G2| |].
  - intros k n E. by apply (gr_old _ _ _ _ G2), (gr_old _ _ _ _ G1).
  - intros k E. destruct (gr_new _ _ _ _ G1 k E) as [E1|(E1 & l & Hl & Hp & ->)].
    + destruct (gr_new _ _ _ _ G2 k E1) as [?|(E2 & l & Hl & Hp & ->)]; [by left|right]. split; [done|]. exists (dirs ++ l).
      split; [by destruct dirs|]. split; [by apply prefix_app|by rewrite app_assoc].
    + right. split; [by apply (gr_old _ _ _ _ G2)|]. exists l. split_and!; try done. by apply prefix_app_r.
Qed.

Lemma lstat_render k d : Forall plain k -> k <> [] -> fs_lstat (cstr (render k)) d = nd_mode <$> d !! k.
Proof. intros Hp Hk. rewrite cstr_id by by apply plain_no_nul_render. cbn. rewrite locate_render by done. by destruct k. Qed.

Lemma try_create k w d : Forall plain (k ++ [w]) -> open_dir d k -> free_dir d (k ++ [w]) ->
  exists d', TryCreateDirectory (render (k ++ [w])) d = inl d' /\ grows k [w] d d'.
Proof.
  intros Hp (n & En & Hn) Hf. assert (Hne : k ++ [w] <> []) by by destruct k. unfold TryCreateDirectory. rewrite lstat_render by done.
  destruct Hf as [E|(m & E & Hm)]; rewrite E; cbn [fmap option_fmap option_map].
  - rewrite cstr_id by by apply plain_no_nul_render. cbn [fs_mkdir disk_fs]. rewrite locate_render by done. rewrite E, removelast_last, En, Hn.
    eexists. split; [done|]. split.
    + exists dir_node. by rewrite lookup_insert_eq.
    + intros j x Hx. rewrite lookup_insert_ne; [done|]. intros <-. by rewrite E in Hx.
    + intros j Hj. destruct (decide (j = k ++ [w])) as [->|Hjk]; [right|left; by rewrite lookup_insert_ne].
      rewrite lookup_insert_eq. split; [done|]. by exists [w].
  - unfold is_dir in Hm. rewrite Hm. exists d. split; [done|]. split; [by exists m|done|auto].
Qed.

(** Both loops that create directories. *)
Lemma make_layers_grows dirs : forall base d, Forall plain (base ++ dirs) -> open_dir d base ->
  (forall l, l `prefix_of` dirs -> free_dir d (base ++ l)) ->
  exists d', make_layers dirs (render base) d = (d', None) /\ grows base dirs d d'.
Proof.
  induction dirs as [|w dirs IH]; intros base d Hp Ho Hf; [exists d; split; [done|by apply layers_refl]|]. cbn [make_layers].
  rewrite cons_middle, app_assoc in Hp. assert (Hpw : Forall plain (base ++ [w])) by by apply Forall_app in Hp as [? _].
  assert (Hw : plain w) by by (apply Forall_app in Hpw as [_ ?]; apply List.Forall_cons_iff in H as [? _]).
  replace (bytes_eqb w (str ".")) with false by (symmetry; apply bool_decide_eq_false; apply Hw). rewrite <- render_snoc.
  destruct (try_create base w d Hpw Ho) as (d1 & -> & G1); [apply (Hf [w]), prefix_cons, prefix_nil|].
  destruct (IH (base ++ [w]) d1 Hp (gr_dir _ _ _ _ G1)) as (d2 & -> & G2).
  { intros l Hl. eapply grows_free; [exact G1|]. rewrite <- app_assoc. apply Hf. by apply prefix_cons. }
  exists d2. split; [done|]. exact (layers_trans base [w] dirs d d1 d2 G1 G2).
Qed.

Lemma name_layers_grows modes backup dirs : forall base d, Forall plain (base ++ dirs) -> open_dir d base ->
  (forall l, l `prefix_of` dirs -> free_dir d (base ++ l)) ->
  exists d', name_layers false modes backup dirs (render base) d = Ok (render (base ++ dirs), d', None) /\ grows base dirs d d'.
Proof.
  induction dirs as [|w dirs IH]; intros base d Hp Ho Hf; [exists d; rewrite app_nil_r; split; [done|by apply layers_refl]|]. cbn [name_layers].
  rewrite cons_middle, app_assoc in Hp. assert (Hpw : Forall plain (base ++ [w])) by by apply Forall_app in Hp as [? _]. rewrite <- render_snoc.
  destruct (try_create base w d Hpw Ho) as (d1 & -> & G1); [apply (Hf [w]), prefix_cons, prefix_nil|]. cbn [mbind res_bind].
  destruct (IH (base ++ [w]) d1 Hp (gr_dir _ _ _ _ G1)) as (d2 & -> & G2).
  { intros l Hl. eapply grows_free; [exact G1|]. rewrite <- app_assoc. apply Hf. by apply prefix_cons. }
  exists d2. rewrite <- app_assoc. split; [done|]. exact (layers_trans base [w] dirs d d1 d2 G1 G2).
Qed.

(** ** One file of a directory *)

Lemma cut_first_joined w v names : 47 ∉ w -> cut_first 47 (joined (w :: v :: names)) = joined (v :: names).
Proof.
  intros Hw. unfold cut_first, find. rewrite (proj2 (Z.ltb_ge _ 0)) by lia. rewrite zdrop_0.
  pose proof (find_aux_char 47 (joined (w :: v :: names)) 0) as Hf. destruct (find_aux [47] _ 0) as [j|]; [|by destruct (Hf (joined_sep w v names))].
  destruct Hf as (a & b & E & Ha & ->). cbn [joined] in E. rewrite render_cons in E.
  assert (a = w) as -> by (symmetry; by eapply (app_split_char 47 w)). clear E.
  cbn [joined]. rewrite render_cons. change (w ++ 47 :: joined (v :: names)) with (w ++ [47] ++ joined (v :: names)). rewrite app_assoc. apply zdrop_app.
  rewrite length_app. cbn. lia.
Qed.

Definition announces (pn : list bytes) (top : bytes) (p : list bytes * bytes) (c : TransferConfig) : Prop :=
  TransferConfig_wf c /\ tc_path c = render pn /\ tc_optionalName c = joined (top :: p.1 ++ [p.2]) /\ tc_reserve1 c = [] /\ tc_updateIfNew c = false.

Section File.
Context (sd : bool) (pn : list bytes) (top : bytes) (ds : list bytes) (f : bytes).
Context (Hplain : Forall plain (pn ++ top :: ds ++ [f])) (Hpn : pn <> []).

Lemma plain_pn : Forall plain pn.
Proof. by apply Forall_app in Hplain as [? _]. Qed.
Lemma plain_rest : plain top /\ Forall plain ds /\ plain f.
Proof.
  apply Forall_app in Hplain as [_ H]. apply List.Forall_cons_iff in H as [H1 H]. apply Forall_app in H as [H2 H]. by apply List.Forall_cons_iff in H as [? _].
Qed.
Lemma name_has_sep : has_sep (joined (top :: ds ++ [f])) = true.
Proof. unfold has_sep. apply orb_true_iff. left. apply bool_decide_eq_true. destruct ds; apply joined_sep. Qed.

Lemma CheckLocalPath_tree (g : Neg disk) : open_dir (g_fs g) [] ->
  (open_dir (g_fs g) pn \/ (g_fs g !! pn = None /\ forall l, l `prefix_of` pn -> free_dir (g_fs g) l)) ->
  exists d', CheckLocalPath (render pn) (joined (top :: ds ++ [f])) g =
      Ok (None, set_g_targetDirNotExist (bool_decide (g_fs g !! pn = None) || g_targetDirNotExist g) (set_g_fs d' (on_cf (set_cf_isDir true) g))) /\
    open_dir d' pn /\ (d' = g_fs g \/ grows [] pn (g_fs g) d').
Proof.
  intros Hr Hd. unfold CheckLocalPath. rewrite name_has_sep. cbn [negb]. change (g_fs (on_cf (set_cf_isDir true) g)) with (g_fs g).
  rewrite (lstat_render pn (g_fs g) plain_pn Hpn). destruct Hd as [(n & E & Hn)|[E Hf]].
  - rewrite E. cbn [fmap option_fmap option_map]. rewrite dir_bits by done. exists (g_fs g). rewrite bool_decide_false by done.
    split; [by destruct g|]. split; [by exists n|by left].
  - rewrite E. cbn [fmap option_fmap option_map]. rewrite SplitString_parts, parts_render by apply plain_pn. cbn [mbind res_bind].
    assert (Ha : IsAbsolutePath (render pn) = true) by by destruct pn. rewrite Ha.
    destruct (make_layers_grows pn [] (g_fs g) plain_pn Hr Hf) as (d' & Em & G). change (@nil Z) with (render []). rewrite Em.
    exists d'. rewrite bool_decide_true by done. split; [done|]. split; [apply G|by right].
Qed.

Definition base_of (flag : bool) : list bytes := if flag then pn else pn ++ [top].

Lemma CheckFilename_tree (g : Neg disk) : cf_localPath (cf g) = render pn -> tc_optionalName (tc g) = joined (top :: ds ++ [f]) ->
  cf_fileModeSync (cf g) = false -> open_dir (g_fs g) pn ->
  (forall l, l `prefix_of` (base_of (g_targetDirNotExist g) ++ ds) -> free_dir (g_fs g) l) ->
  exists g' rel, CheckFilename g = Ok (None, g') /\ cf_localPath (cf g') = render (base_of (g_targetDirNotExist g) ++ ds) /\
    tc g' = set_tc_optionalName f (tc g) /\ g_targetDirNotExist g' = g_targetDirNotExist g /\ cf_fileModeSync (cf g') = false /\
    pn ++ rel = base_of (g_targetDirNotExist g) ++ ds /\ grows pn rel (g_fs g) (g_fs g').
Proof.
  intros El En Es Ho Hf. destruct plain_rest as (Pt & Pd & Pf). unfold CheckFilename. rewrite En. cbv zeta. 
  assert (Hsep : bool_decide (47 ∈ joined (top :: ds ++ [f])) = true) by (apply bool_decide_eq_true; destruct ds; apply joined_sep).
  set (rel := if g_targetDirNotExist g then ds else top :: ds).
  assert (Erel : pn ++ rel = base_of (g_targetDirNotExist g) ++ ds) by (unfold rel, base_of; destruct (g_targetDirNotExist g); [done|by rewrite <- app_assoc]).
  assert (Prel : Forall plain (rel ++ [f])).
  { unfold rel. apply Forall_app. split; [destruct (g_targetDirNotExist g); [done|by constructor]|constructor; [done|constructor]]. }
  assert (Ename : (if g_targetDirNotExist g then if bool_decide (47 ∈ joined (top :: ds ++ [f])) then cut_first 47 (joined (top :: ds ++ [f]))
    else cut_first 92 (joined (top :: ds ++ [f])) else joined (top :: ds ++ [f])) = joined (rel ++ [f])).
  { unfold rel. destruct (g_targetDirNotExist g); [rewrite Hsep|done]. destruct ds as [|v l]; apply cut_first_joined; apply Pt. }
  rewrite Ename. rewrite <- Erel in *. clear Ename Erel. clearbody rel. destruct rel as [|w l] eqn:Erl.
  - assert (Hn : has_sep (joined [f]) = false).
    { unfold has_sep. cbn [joined]. unfold render. cbn. rewrite app_nil_r. destruct Pf as ((_ & _ & _ & ?) & ? & _). by rewrite !bool_decide_false. }
    cbn [app] in *. rewrite Hn. cbn [negb]. eexists _, []. split; [done|]. rewrite app_nil_r. split; [exact El|]. split; [cbn; unfold joined, render; cbn; by rewrite app_nil_r|].
    split_and!; try done. by apply layers_refl.
  - assert (Hin : 47 ∈ joined ((w :: l) ++ [f])) by (destruct l; apply joined_sep).
    assert (Hn : has_sep (joined ((w :: l) ++ [f])) = true) by (unfold has_sep; by rewrite bool_decide_true).
    rewrite Hn. cbn [negb]. rewrite (bool_decide_true _ Hin), SplitString_parts, parts_joined by done. cbn [mbind res_bind]. rewrite last_snoc. cbn [deref mbind res_bind].
    match goal with |- context [name_layers (cf_fileModeSync (cf ?h)) _ _ _ _ _] => assert (E1 : cf_fileModeSync (cf h) = false) by exact Es;
      assert (E2 : cf_localPath (cf h) = render pn) by exact El; assert (E3 : g_fs h = g_fs g) by reflexivity; rewrite E1, E2, E3 end. rewrite removelast_last.
    match goal with |- context [name_layers false ?m ?b _ _ _] => destruct (name_layers_grows m b (w :: l) pn (g_fs g)) as (d' & Em & G) end.
    { apply Forall_app. split; [apply plain_pn|]. by apply Forall_app in Prel as [? _]. }
    { done. }
    { intros k Hk. apply Hf. by apply prefix_app. }
    rewrite Em. cbn [mbind res_bind]. eexists _, (w :: l). split; [done|]. by split_and!.
Qed.

(** Between two disks only directories on the way to [lim] were added. *)
Definition extends (lim : list bytes) (d d' : disk) : Prop :=
  (forall k n, d !! k = Some n -> d' !! k = Some n) /\ (forall k, d !! k = None -> d' !! k = None \/ (d' !! k = Some dir_node /\ k `prefix_of` lim)).
Lemma extends_refl lim d : extends lim d d.
Proof. split; auto. Qed.
Lemma extends_trans lim d1 d2 d3 : extends lim d1 d2 -> extends lim d2 d3 -> extends lim d1 d3.
Proof.
  intros [A1 A2] [B1 B2]. split; [auto|]. intros k E. destruct (A2 k E) as [E1|[E1 Hp]]; [by apply B2|right]. split; [by apply B1|done].
Qed.
Lemma grows_extends base dirs lim d d' : grows base dirs d d' -> (base ++ dirs) `prefix_of` lim -> extends lim d d'.
Proof.
  intros G Hl. split; [apply G|]. intros k E. destruct (gr_new _ _ _ _ G k E) as [?|(E' & l & _ & Hp & ->)]; [by left|right]. split; [done|].
  etrans; [by apply prefix_app|done].
Qed.
Lemma extends_free lim d d' k : extends lim d d' -> free_dir d k -> free_dir d' k.
Proof. intros [A B] [E|(n & E & Hn)]; [destruct (B k E) as [?|[? _]]; [by left|right; by exists dir_node]|right]. exists n. auto. Qed.

Lemma smart_tree cwd k d : Forall plain (k ++ [f]) -> k <> [] -> open_dir d k -> SmartSlavePath sd cwd (render k) f d = (false, render (k ++ [f])).
Proof.
  intros Hp Hk (n & E & Hn). apply Forall_app in Hp as [Hp Hf]. unfold SmartSlavePath.
  assert (Ha : (if sd then ExtractRelativePath cwd (render k) else render k) = render k) by (destruct sd; [|done]; unfold ExtractRelativePath; by destruct k). rewrite Ha.
  unfold CheckDirectoryOrPath. rewrite (lstat_render k d Hp Hk), E. cbn [fmap option_fmap option_map]. rewrite dir_bits by done. cbn [fst].
  rewrite render_snoc, (cstr_id f); [done|]. apply List.Forall_cons_iff in Hf as [(_ & _ & ?) _]. done.
Qed.

Lemma slave_file (g : Neg disk) c : announces pn top (ds, f) c -> Sandbox.CheckBlacklistPath (render pn) = true -> cf_fileModeSync (cf g) = false ->
  open_dir (g_fs g) [] -> (open_dir (g_fs g) pn \/ g_fs g !! pn = None) ->
  let flag := bool_decide (g_fs g !! pn = None) || g_targetDirNotExist g in
  (forall l, l `prefix_of` (base_of flag ++ ds) -> free_dir (g_fs g) l) ->
  exists g', SlaveCheck sd (SerializeToString TransferConfig_type c) g = Ok (true, g') /\
    t_reqs (g_t g') = t_reqs (g_t g) ++ [FsOpen (render (base_of flag ++ ds ++ [f]))] /\ cf_localPath (cf g') = render (base_of flag ++ ds ++ [f]) /\
    g_targetDirNotExist g' = flag /\ cf_fileModeSync (cf g') = false /\ open_dir (g_fs g') pn /\ extends (base_of flag ++ ds) (g_fs g) (g_fs g').
Proof.
  intros (Hwf & Ep & En & Er & Eu) Hbl Es Hroot Hd flag Hf. unfold SlaveCheck, ParseAndValidateOptions. rewrite TransferConfig_rt by done. cbn [negb].
  set (g1 := set_g_bundleName _ _). assert (G1 : cf_localPath (cf g1) = render pn /\ tc g1 = c /\ g_bundleName g1 = [] /\ t_reqs (g_t g1) = t_reqs (g_t g) /\
    g_fs g1 = g_fs g /\ g_targetDirNotExist g1 = g_targetDirNotExist g /\ cf_fileModeSync (cf g1) = false) by (subst g1; split_and!; try done).
  clearbody g1. destruct G1 as (L1 & C1 & B1 & R1 & F1 & T1 & S1).
  unfold CheckBundleAndPath, IsValidBundlePath. rewrite B1. change (CheckBundleName []) with false. cbn [andb]. rewrite andb_false_r. change (0 <? zlen (@nil Z)) with false.
  rewrite andb_false_r. cbn [mbind res_bind negb]. unfold CheckLocalPathAndFilename, CheckBlacklistPath. rewrite L1, Hbl. cbn [negb]. rewrite L1, C1, En. cbn [fst snd].
  assert (Hpre : forall l, l `prefix_of` pn -> free_dir (g_fs g) l).
  { intros l Hl. apply Hf. apply prefix_app_r. unfold base_of. destruct flag; [done|by apply prefix_app_r]. }
  destruct (CheckLocalPath_tree g1) as (d1 & -> & O1 & X1); [by rewrite F1|rewrite F1; destruct Hd; auto|]. cbn [mbind res_bind]. rewrite F1, T1. fold flag.
  set (g2 := set_g_targetDirNotExist _ _).
  assert (E1 : extends (base_of flag ++ ds) (g_fs g) d1).
  { destruct X1 as [->|G]; rewrite F1 in *; [apply extends_refl|]. apply (grows_extends [] pn); [done|]. cbn [app]. apply prefix_app_r.
    unfold base_of. destruct flag; [done|by apply prefix_app_r]. }
  destruct (CheckFilename_tree g2) as (g3 & rel & E3 & L3 & C3 & T3 & S3 & Erel & G3); try done.
  { change (tc g2) with (tc g1). by rewrite C1. }
  { intros l Hl. eapply extends_free; [exact E1|]. by apply Hf. }
  pose proof (kp_reqs _ _ (proj1 (CheckFilename_keeps _ _ _ E3))) as R3. rewrite E3. change (t_reqs (g_t g2)) with (t_reqs (g_t g1)) in R3. rewrite R1 in R3.
  change (g_targetDirNotExist g2) with flag in *. change (g_fs g2) with d1 in *. cbn [mbind res_bind].
  assert (Pk : Forall plain ((base_of flag ++ ds) ++ [f])).
  { destruct plain_rest as (Pt & Pd & Pf). apply Forall_app. split; [apply Forall_app; split; [|done]|by constructor].
    unfold base_of. destruct flag; [apply plain_pn|]. apply Forall_app. split; [apply plain_pn|by constructor]. }
  rewrite L3, traversal_render by by apply Forall_app in Pk as [? _]. cbn [negb mbind res_bind]. unfold HandleFileExistenceAndNewness. rewrite L3, C3. cbn [tc_optionalName set_tc_optionalName].
  assert (Hk : base_of flag ++ ds <> []) by (unfold base_of; destruct flag, pn; done).
  assert (O3 : open_dir (g_fs g3) (base_of flag ++ ds)) by (rewrite <- Erel; apply G3).
  rewrite smart_tree by done. cbn [andb negb]. eexists. split; [done|].
  split_and!.
  - cbn. rewrite R3, cstr_id by by apply plain_no_nul_render. by rewrite <- app_assoc.
  - cbn. by rewrite <- app_assoc.
  - exact T3.
  - exact S3.
  - cbn. by eapply grows_open.
  - cbn. eapply extends_trans; [exact E1|]. by eapply grows_extends; [exact G3|rewrite Erel].
Qed.
End File.

(** ** A whole directory *)

(** The slave checks the files one after the other; each is created when it is
    opened. *)
Definition created (g : Neg disk) : Neg disk := set_g_fs (<[locate (cf_localPath (cf g)) := file_node 0]> (g_fs g)) g.
Fixpoint receive (sd : bool) (cs : list TransferConfig) (g : Neg disk) : res (bool * Neg disk) :=
  match cs with
  | [] => Ok (true, g)
  | c :: cs =>
      '((ok, g) : bool * Neg disk) ← SlaveCheck sd (SerializeToString TransferConfig_type c) g;
      if ok : bool then receive sd cs (created g) else Ok (false, g)
  end.

(** A list of files can be put below [base]: the ways are free, no directory has
    the name of a file, and no file is on the way of another. *)
Definition not_dir (d : disk) (k : list bytes) : Prop := forall n, d !! k = Some n -> is_dir n = false.
Record room (base : list bytes) (files : list (list bytes * bytes)) (d : disk) : Prop := {
  rm_way : forall p l, p ∈ files -> l `prefix_of` (base ++ p.1) -> free_dir d l;
  rm_file : forall p, p ∈ files -> not_dir d (base ++ p.1 ++ [p.2]);
  rm_clash : forall p q, p ∈ files -> q ∈ files -> ~ (p.1 ++ [p.2]) `prefix_of` q.1
}.

Lemma room_step base p files d d' : room base (p :: files) d -> extends (base ++ p.1) d d' ->
  room base files (<[base ++ p.1 ++ [p.2] := file_node 0]> d').
Proof.
  intros [W N C] X. split.
  - intros q l Hq Hl. assert (Hne : base ++ p.1 ++ [p.2] <> l).
    { intros <-. apply (C p q); [left|by right|]. by apply prefix_app_inv in Hl. }
    destruct (extends_free _ _ _ l X) as [E|(n & E & Hn)]; [apply (W q); [by right|done]|left|right; exists n]; rewrite lookup_insert_ne by done; auto.
  - intros q Hq n. rewrite lookup_insert_Some. intros [[_ <-]|[_ E]]; [done|]. destruct (d !! (base ++ q.1 ++ [q.2])) as [m|] eqn:Ed.
    + rewrite (proj1 X _ _ Ed) in E. injection E as <-. by apply (N q); [right|].
    + exfalso. destruct (proj2 X _ Ed) as [E'|[_ Hp]]; [by rewrite E' in E|]. apply prefix_app_inv in Hp. apply (C q p); [by right|left|done].
  - intros q r Hq Hr. apply C; by right.
Qed.

Lemma receive_all sd pn top base files cs : Forall2 (announces pn top) files cs -> (forall p, p ∈ files -> Forall plain (pn ++ top :: p.1 ++ [p.2])) ->
  pn <> [] -> Sandbox.CheckBlacklistPath (render pn) = true -> forall g : Neg disk, cf_fileModeSync (cf g) = false ->
  open_dir (g_fs g) [] -> (open_dir (g_fs g) pn \/ g_fs g !! pn = None) ->
  base = base_of pn top (bool_decide (g_fs g !! pn = None) || g_targetDirNotExist g) -> room base files (g_fs g) ->
  exists g', receive sd cs g = Ok (true, g') /\
    t_reqs (g_t g') = t_reqs (g_t g) ++ map (fun p => FsOpen (render (base ++ p.1 ++ [p.2]))) files /\
    (forall p, p ∈ files -> g_fs g' !! (base ++ p.1 ++ [p.2]) = Some (file_node 0)) /\
    (forall k, g_fs g !! k = Some (file_node 0) -> g_fs g' !! k = Some (file_node 0)).
Proof.
  intros HF Hp Hpn Hbl. induction HF as [|[ds f] c files cs Ha HF IH]; intros g Es Hr Hd Hb Hroom.
  { exists g. cbn. rewrite app_nil_r. split_and!; try done. by intros p ?%not_elem_of_nil. }
  assert (P1 : Forall plain (pn ++ top :: ds ++ [f])) by exact (Hp (ds, f) (list_elem_of_here _ _)).
  destruct (slave_file sd pn top ds f P1 Hpn g c Ha Hbl Es Hr Hd) as (g1 & E1 & R1 & L1 & T1 & S1 & O1 & X1).
  { intros l Hl. apply (rm_way _ _ _ Hroom (ds, f)); [left|]. by rewrite Hb. }
  rewrite <- Hb in *. cbn [receive]. rewrite E1. cbn [mbind res_bind].
  assert (Pb : Forall plain (base ++ ds ++ [f])).
  { rewrite Hb. apply Forall_app in P1 as [A B]. apply List.Forall_cons_iff in B as [B1 B2]. unfold base_of.
    destruct (_ || _); [by apply Forall_app|]. rewrite <- app_assoc. apply Forall_app. split; [done|]. by constructor. }
  assert (Ef : g_fs (created g1) = <[base ++ ds ++ [f] := file_node 0]> (g_fs g1)) by (cbn; by rewrite L1, locate_render).
  assert (Hk : forall k, k `prefix_of` pn -> base ++ ds ++ [f] <> k).
  { intros k Hk E. apply prefix_length in Hk. rewrite <- E, Hb, !length_app in Hk. unfold base_of in Hk. destruct (_ || _); rewrite ?length_app in Hk; cbn [length] in Hk; lia. }
  assert (Hopen : forall k, k `prefix_of` pn -> open_dir (g_fs g1) k -> open_dir (g_fs (created g1)) k).
  { intros k Hl (n & E & Hn). exists n. rewrite Ef, lookup_insert_ne by by apply Hk. done. }
  assert (O2 : open_dir (g_fs (created g1)) pn) by by apply Hopen.
  destruct (IH (fun p Hin => Hp p (list_elem_of_further _ _ _ Hin)) (created g1)) as (g' & E2 & R2 & A2 & B2); try done.
  - apply Hopen; [apply prefix_nil|]. destruct Hr as (n & E & Hn). exists n. split; [by apply X1|done].
  - by left.
  - assert (Eb : bool_decide (g_fs (created g1) !! pn = None) = false) by (apply bool_decide_eq_false; destruct O2 as (n & E & _); by rewrite E).
    rewrite Eb. change (g_targetDirNotExist (created g1)) with (g_targetDirNotExist g1). rewrite T1. exact Hb.
  - rewrite Ef. by eapply (room_step base (ds, f)).
  - exists g'. split; [exact E2|]. split; [|split].
    + rewrite R2. change (t_reqs (g_t (created g1))) with (t_reqs (g_t g1)). rewrite R1, <- app_assoc. done.
    + intros p [->|Hin]%elem_of_cons; [|by apply A2]. apply B2. rewrite Ef. by rewrite lookup_insert_eq.
    + intros k Ek. apply B2. rewrite Ef. destruct (decide (base ++ ds ++ [f] = k)) as [<-|Hne]; [by rewrite lookup_insert_eq|].
      rewrite lookup_insert_ne by done. by apply X1.
Qed.


(** Deciding the hypotheses on concrete disks. *)
Definition plainb (w : bytes) : bool :=
  negb (bytes_eqb w [] || bytes_eqb w (str ".") || bytes_eqb w (str "..")) && forallb (fun c => negb ((c =? 47) || (c =? 92) || (c =? 0))) w.
Lemma plainb_ok w : plainb w = true -> plain w.
Proof.
  unfold plainb. intros H. apply andb_true_iff in H as [H1 H2]. apply negb_true_iff in H1. rewrite !orb_false_iff in H1. destruct H1 as [[H1 H3] H4].
  rewrite forallb_forall in H2. assert (Hc : forall c, c ∈ w -> c <> 47 /\ c <> 92 /\ c <> 0).
  { intros c Hin%list_elem_of_In. apply H2, negb_true_iff in Hin. rewrite !orb_false_iff in Hin. destruct Hin as [[? ?] ?]. breflect. done. }
  split; [|split].
  - apply bool_decide_eq_false in H1, H3, H4. split_and!; try done. intros Hin. by apply Hc in Hin as (? & _ & _).
  - intros Hin. by apply Hc in Hin as (_ & ? & _).
  - apply List.Forall_forall. intros c Hin%list_elem_of_In. by apply Hc in Hin as (_ & _ & ?).
Qed.
Lemma all_plain names : forallb plainb names = true -> Forall plain names.
Proof. rewrite forallb_forall. intros H. apply List.Forall_forall. intros w Hw. by apply plainb_ok, H. Qed.

Definition free_dirb (d : disk) (k : list bytes) : bool := match d !! k with None => true | Some n => is_dir n end.
Definition roomb (base : list bytes) (files : list (list bytes * bytes)) (d : disk) : bool :=
  forallb (fun p => forallb (fun i => free_dirb d (take i (base ++ p.1))) (seq 0 (S (length (base ++ p.1)))) &&
    match d !! (base ++ p.1 ++ [p.2]) with Some n => negb (is_dir n) | None => true end &&
    forallb (fun q => negb (bool_decide (p.1 ++ [p.2] = take (length p.1 + 1) q.1))) files) files.
Lemma roomb_ok base files d : roomb base files d = true -> room base files d.
Proof.
  unfold roomb. rewrite forallb_forall. intros H. split.
  - intros p l Hp%list_elem_of_In [r Hl]. apply H in Hp. rewrite !andb_true_iff in Hp. destruct Hp as [[Hp _] _]. rewrite forallb_forall in Hp.
    assert (El : l = take (length l) (base ++ p.1)) by by rewrite Hl, take_app_length. rewrite El. specialize (Hp (length l)).
    unfold free_dir, open_dir. unfold free_dirb in Hp. destruct (d !! take (length l) _); [right|by left]. eexists. split; [done|]. apply Hp.
    apply in_seq. rewrite Hl, length_app. lia.
  - intros p Hp%list_elem_of_In n E. apply H in Hp. rewrite !andb_true_iff, E in Hp. destruct Hp as [[_ Hp] _]. by apply negb_true_iff in Hp.
  - intros p q Hp%list_elem_of_In Hq%list_elem_of_In [r Hr]. apply H in Hp. rewrite !andb_true_iff in Hp. destruct Hp as [_ Hp]. rewrite forallb_forall in Hp.
    apply Hp in Hq. apply negb_true_iff, bool_decide_eq_false in Hq. apply Hq. rewrite Hr. rewrite take_app_length'; [done|]. by rewrite length_app.
Qed.

Definition sample_files : list (list bytes * bytes) := [([str "s"; str "t"], str "f"); ([], str "g"); ([str "s"], str "h")].
Definition sample_config (name : bytes) : TransferConfig := mkTransferConfig 4 0 0 [] (str "/data/x") name false 0 false [] [] [] [].
Definition sample_configs : list TransferConfig := map (fun p => sample_config (joined (str "d" :: p.1 ++ [p.2]))) sample_files.


(** ** Modes of directories *)

(** The master is answered until it announces the file: the announcement, and both
    sides.  The slave answers each mode with an empty [CMD_FILE_MODE]. *)
Fixpoint exchange {F G} (fuel : nat) (m : Neg F) (s : Neg G) : res (bytes * Neg F * Neg G) :=
  match fuel with
  | O => Stuck
  | S fuel =>
      '((_, m) : bool * Neg F) ← FileModeSync CMD_FILE_MODE [] m;
      match last (t_out (g_t m)) with
      | Some (Sent cmd p) =>
          if cmd =? CMD_FILE_CHECK then Ok (p, m, s)
          else
            '((_, s) : bool * Neg G) ← FileModeSync cmd p s;
            match last (t_out (g_t s)) with Some (Sent _ _) => exchange fuel m s | _ => Stuck end
      | _ => Stuck
      end
  end.

(** A task whose messages go out. *)
Definition sending (t : Transfer) : Prop := t_singalStop t = false /\ (t_channelTask t = true \/ t_sendOk t = true).
Lemma SendToAnother_out cmd p t : sending t -> (SendToAnother cmd p t).2 = emit (Sent cmd p) t.
Proof. intros [H1 H2]. unfold SendToAnother. rewrite H1. destruct (t_channelTask t), (t_sendOk t); try done. by destruct H2. Qed.

Lemma last_emitted e t : last (t_out (emit e t)) = Some e.
Proof. apply last_snoc. Qed.

Lemma local_name_joined names : names <> [] -> Forall plain names -> local_name (joined names) = Ok (joined names).
Proof.
  intros Hne Hp. unfold local_name.
  assert (G : forall l acc, acc <> [] -> fold_left (fun name s => if bytes_eqb name [] then s else name ++ [GetPathSep] ++ s) l acc = acc ++ render l).
  { induction l as [|w l IH]; intros acc Ha; [by rewrite app_nil_r|]. cbn [fold_left]. unfold bytes_eqb at 2. rewrite bool_decide_false by done.
    rewrite IH by by destruct acc. rewrite <- !app_assoc. done. }
  assert (Hfold : fold_left (fun name s => if bytes_eqb name [] then s else name ++ [GetPathSep] ++ s) names [] = joined names).
  { destruct names as [|w names]; [done|]. cbn [fold_left]. rewrite G; [done|]. apply List.Forall_cons_iff in Hp as [((? & _) & _) _]. done. }
  case_bool_decide as H47.
  - rewrite SplitString_parts, parts_joined by done. cbn [mbind res_bind]. by rewrite Hfold.
  - destruct names as [|w [|v names]]; [done| |by destruct (H47 (joined_sep w v names))].
    rewrite bool_decide_false; [|apply joined_notin; [done|]; eapply List.Forall_impl; [|exact Hp]; by intros ? (_ & ? & _)].
    cbn [mbind res_bind]. unfold joined, render. cbn. by rewrite app_nil_r.
Qed.

Definition dir_mode_ok (m : FileMode) : Prop := FileMode_wf m /\ exists names, names <> [] /\ Forall plain names /\ fm_fullName m = joined names.

Lemma slave_takes_mode {G} m (s : Neg G) : dir_mode_ok m -> cf_master (cf s) = false -> sending (g_t s) -> g_dirModeMap s !! fm_fullName m = None ->
  exists s', FileModeSync CMD_DIR_MODE (SerializeToString FileMode_type m) s = Ok (true, s') /\ g_dirModeMap s' = <[fm_fullName m := m]> (g_dirModeMap s) /\
    cf_master (cf s') = false /\ sending (g_t s') /\ last (t_out (g_t s')) = Some (Sent CMD_FILE_MODE []) /\ cf_fileModeSync (cf s') = true /\
    cf_fileMode (cf s') = cf_fileMode (cf s).
Proof.
  intros [Hwf (names & Hne & Hp & En)] Hm Hs Hmap. unfold FileModeSync. rewrite Hm. change (CMD_DIR_MODE =? CMD_FILE_MODE) with false. cbv iota.
  rewrite FileMode_rt by done. cbn [snd]. rewrite En, local_name_joined by done. cbn [mbind res_bind]. rewrite <- En.
  change (g_dirModeMap (on_cf (set_cf_fileModeSync true) s)) with (g_dirModeMap s). rewrite Hmap. eexists. split; [done|].
  assert (Ef : set_fm_fullName (fm_fullName m) m = m) by by destruct m. rewrite Ef. unfold send. cbn [g_dirModeMap set_g_t].
  rewrite SendToAnother_out by exact Hs. split; [done|]. split; [done|]. split; [exact Hs|]. split; [apply last_snoc|]. by split.
Qed.

(** C23. The modes of all directories reach the slave before the file is announced.
    Let the master have the modes of directories with different names, and both sides
    be able to send.  Then, starting from the slave's empty answer, exactly one round
    per directory and a last one end with the master's announcement; the master has
    no modes left, and the slave has each of them under the directory's name. *)
Theorem directory_modes_arrive {F G} (ms : list FileMode) : forall (m : Neg F) (s : Neg G),
  cf_master (cf m) = true -> sending (g_t m) -> g_dirMode m = ms -> cf_master (cf s) = false -> sending (g_t s) ->
  Forall dir_mode_ok ms -> NoDup (map fm_fullName ms) -> (forall x, x ∈ ms -> g_dirModeMap s !! fm_fullName x = None) ->
  exists m' s', exchange (S (length ms)) m s = Ok (SerializeToString TransferConfig_type (tc m), m', s') /\ g_dirMode m' = [] /\
    g_dirModeMap s' = list_to_map (map (fun x => (fm_fullName x, x)) ms) ∪ g_dirModeMap s.
Proof.
  induction ms as [|x ms IH] using rev_ind; intros m s Hm Sm Em Hs Ss Hok Hnd Hfree.
  - unfold exchange, FileModeSync. rewrite Hm, Em. cbn [last mbind res_bind]. unfold send. rewrite SendToAnother_out by done. cbn [g_t set_g_t].
    rewrite last_emitted. change (CMD_FILE_CHECK =? CMD_FILE_CHECK) with true. cbv iota. eexists _, s. split; [done|]. split; [done|]. cbn [map list_to_map]. symmetry. apply (left_id_L ∅ (∪)).
  - apply Forall_app in Hok as [Hok Hx]. apply List.Forall_cons_iff in Hx as [Hx _]. rewrite map_app in Hnd. apply NoDup_app in Hnd as (Hnd & Hdis & _).
    rewrite length_app, Nat.add_comm. change (S (length [x] + length ms)) with (S (S (length ms))). remember (S (length ms)) as fuel eqn:Ef. cbn [exchange].
    set (m1 := set_g_t (emit (Sent CMD_DIR_MODE (SerializeToString FileMode_type x)) (g_t m)) (set_g_dirMode ms m)).
    assert (E1 : FileModeSync CMD_FILE_MODE [] m = Ok (true, m1)).
    { unfold FileModeSync. rewrite Hm, Em, last_snoc, removelast_last. unfold send. by rewrite SendToAnother_out. }
    rewrite E1. cbn [mbind res_bind]. assert (L1 : last (t_out (g_t m1)) = Some (Sent CMD_DIR_MODE (SerializeToString FileMode_type x))) by apply last_emitted.
    rewrite L1. change (CMD_DIR_MODE =? CMD_FILE_CHECK) with false. cbv iota.
    destruct (slave_takes_mode x s Hx Hs Ss) as (s1 & -> & M1 & A1 & B1 & C1 & _); [apply Hfree, elem_of_app; right; left|]. cbn [mbind res_bind]. rewrite C1.
    destruct (IH m1 s1) as (m' & s' & E & D & Mx); try done.
    + intros y Hy. rewrite M1, lookup_insert_ne; [by apply Hfree, elem_of_app; left|]. intros Eq. apply (Hdis (fm_fullName y)); [by apply list_elem_of_fmap_2|].
      rewrite <- Eq. left.
    + subst fuel. exists m', s'. split; [exact E|]. split; [done|]. rewrite Mx, M1, map_app. cbn [map].
      rewrite list_to_map_app, <- (assoc_L (∪)). cbn. by rewrite (insert_union_singleton_l (g_dirModeMap s)).
Qed.

Definition sample_modes : list FileMode := [mkFileMode 16877 0 0 [] (str "d"); mkFileMode 16832 20 30 [] (str "d/s")].
Definition sample_master : Neg disk := set_g_dirMode sample_modes (on_cf (set_cf_master true) (sample_neg ∅)).

Lemma directory_modes_arrive_witness : exists m' s', exchange 3 sample_master (sample_neg ∅) = Ok (SerializeToString TransferConfig_type (tc sample_master), m', s') /\
  g_dirModeMap s' !! str "d/s" = Some (mkFileMode 16832 20 30 [] (str "d/s")).
Proof.
  assert (Ho : Forall dir_mode_ok sample_modes).
  { repeat constructor; cbn; try (unfold FileMode_wf, string_dom, MAX_STRING_SIZE, in_u; vm_compute; intuition discriminate).
    - exists [str "d"]. split; [discriminate|]. split; [apply all_plain|]; reflexivity.
    - exists [str "d"; str "s"]. split; [discriminate|]. split; [apply all_plain|]; reflexivity. }
  assert (Hn : NoDup (map fm_fullName sample_modes)) by (apply (bool_decide_unpack _); vm_compute; exact I).
  assert (Hs : sending sample_task) by (split; [reflexivity|right; reflexivity]).
  destruct (directory_modes_arrive sample_modes sample_master (sample_neg ∅) eq_refl Hs eq_refl eq_refl Hs Ho Hn (fun _ _ => lookup_empty _)) as (m' & s' & E & _ & M).
  exists m', s'. split; [exact E|]. rewrite M. reflexivity.
Defined.

(** The names of the modes keep the first layer, which is left out of the paths
    when the target was created: the modes are not found then. *)
Lemma modes_lost_when_created :
  let modes := list_to_map (map (fun x => (fm_fullName x, x)) sample_modes) in
  let sync d := set_g_dirModeMap modes (on_cf (set_cf_fileModeSync true) (sample_neg d)) in
  let owner path r := '((ok, g) : bool * Neg disk) ← r; Ok (nd_uid <$> g_fs g !! locate path) in
  owner (str "/data/d/s") (SlaveCheck false (announce (str "/data") (str "d/s/f")) (sync (tree [str "/data"]))) = Ok (Some 20) /\
  owner (str "/data/x/s") (SlaveCheck false (announce (str "/data/x") (str "d/s/f")) (sync (tree [str "/data"]))) = Ok (Some 0).
Proof. vm_compute. by split. Qed.

(** ** The master's arguments *)

Inductive FileOption := OptZip | OptSync | OptTimes | OptModes | OptCwd (dir : bytes) | OptBundle (name : bytes).
Definition option_words (o : FileOption) : list bytes :=
  match o with
  | OptZip => [str "-z"] | OptSync => [str "-sync"] | OptTimes => [str "-a"] | OptModes => [str "-m"]
  | OptCwd d => [str "-cwd"; d] | OptBundle b => [str "-b"; b]
  end.
Definition option_effect {F} (o : FileOption) (g : Neg F) : Neg F :=
  match o with
  | OptZip => on_cf (on_tc (set_tc_compressType COMPRESS_LZ4)) g
  | OptSync => on_cf (on_tc (set_tc_updateIfNew true)) g
  | OptTimes => on_cf (on_tc (set_tc_holdTimestamp true)) g
  | OptModes => on_cf (set_cf_fileModeSync true) g
  | OptCwd d => on_cf (on_tc (set_tc_clientCwd d)) g
  | OptBundle b => set_g_bundleName b (on_cf (on_tc (set_tc_reserve1 b)) (on_cf (set_cf_sandboxMode true) g))
  end.
(** A word that is no option. *)
Definition neutral (w : bytes) : Prop := w <> str "remote" /\ forall c r, w = c :: r -> c <> 45.
Definition option_value (o : FileOption) : Prop := match o with OptCwd d | OptBundle d => neutral d | _ => True end.

Section Options.
Context {F : Type} (serverOrDaemon : bool).

Lemma parse_neutral argc w rest src (g : Neg F) : neutral w -> parse_options serverOrDaemon argc (w :: rest) src g = parse_options serverOrDaemon argc rest src g.
Proof.
  intros [Hr Hc]. cbn [parse_options]. assert (Hne : forall x : bytes, hd 0 x = 45 -> bytes_eqb w x = false).
  { intros x Hx. apply bool_decide_eq_false. intros ->. destruct x as [|c r]; [done|]. by apply (Hc c r). }
  replace (bytes_eqb w (str "remote")) with false by (symmetry; by apply bool_decide_eq_false). rewrite !Hne by done.
  destruct w as [|c r]; [done|]. rewrite (proj2 (Z.eqb_neq c 45)) by by apply (Hc c r). done.
Qed.

Lemma parse_all os : forall argc src tail (g : Neg F), Forall option_value os -> Forall neutral tail -> tail <> [] ->
  argc = src + zlen (concat (map option_words os) ++ tail) ->
  parse_options serverOrDaemon argc (concat (map option_words os) ++ tail) src g = (Some (src + zlen (concat (map option_words os))), fold_left (fun g o => option_effect o g) os g).
Proof.
  induction os as [|o os IH]; intros argc src tail g Ho Ht Hne Hargc.
  - cbn [map concat app length fold_left]. rewrite Z.add_0_r. clear Hne Hargc. induction Ht as [|w tail Hw _ IH]; [done|]. by rewrite parse_neutral.
  - apply List.Forall_cons_iff in Ho as [Hv Ho]. cbn [map concat fold_left]. rewrite <- app_assoc.
    assert (Hrest : forall n, src + Z.of_nat n + zlen (concat (map option_words os)) = src + Z.of_nat (n + length (concat (map option_words os)))) by lia.
    set (rest := concat (map option_words os) ++ tail) in *.
    assert (Hl : zlen rest = zlen (concat (map option_words os)) + zlen tail) by (unfold rest; rewrite length_app; lia).
    assert (Hz : 0 < zlen tail) by (destruct tail; [done|cbn [length]; lia]).
    cbn [map concat] in Hargc. rewrite <- app_assoc in Hargc. fold rest in Hargc. rewrite length_app in Hargc.
    destruct o; cbn [option_words app length] in *; rewrite ?length_app; cbn [length].
    1-4: match goal with |- parse_options ?sd ?n (_ :: ?r) ?k ?h = (_, fold_left _ _ (option_effect ?o _)) =>
      transitivity (parse_options sd n r (k + 1) (option_effect o h)); [reflexivity|subst r] end;
      match goal with I : context [parse_options] |- _ => rewrite I by (try done; lia) end; f_equal; f_equal; lia.
    + change (parse_options serverOrDaemon argc (str "-cwd" :: dir :: rest) src g) with
        (parse_options serverOrDaemon argc (dir :: rest) (src + 2) (on_cf (on_tc (set_tc_clientCwd dir)) g)).
      rewrite parse_neutral by done. subst rest. rewrite IH by (try done; lia). f_equal; f_equal; lia.
    + assert (Hb : parse_options serverOrDaemon argc (str "-b" :: name :: rest) src g = parse_options serverOrDaemon argc (name :: rest) (src + 2)
        (set_g_bundleName name (on_cf (on_tc (set_tc_reserve1 name)) (on_cf (set_cf_sandboxMode true) g)))).
      { cbn [parse_options]. rewrite (proj2 (Z.eqb_neq argc (src + 1))) by lia. done. }
      rewrite Hb, parse_neutral by done. subst rest. rewrite IH by (try done; lia). f_equal; f_equal; lia.
Qed.

(** Options in any order and number, then the two paths: every option has its
    effect and the paths are the last two words. *)
Theorem transfer_options_understood os local remote (g : Neg F) : Forall option_value os -> neutral local -> neutral remote ->
  ParseMasterParameters serverOrDaemon (concat (map option_words os) ++ [local; remote]) g =
  Ok (Some (zlen (concat (map option_words os))), set_paths local remote (fold_left (fun g o => option_effect o g) os g)).
Proof.
  intros Ho Hl Hr. unfold ParseMasterParameters. set (ws := concat (map option_words os)). set (argv := ws ++ [local; remote]).
  assert (Hn : Forall neutral [local; remote]) by (constructor; [done|constructor; [done|constructor]]).
  unfold argv, ws. rewrite (parse_all os _ 0 [local; remote] g Ho Hn) by done. fold ws argv. rewrite Z.add_0_l.
  assert (Ha : zlen argv = zlen ws + 2) by (unfold argv; rewrite length_app; cbn [length]; lia).
  unfold ValidateAndSetPaths. rewrite (proj2 (Z.eqb_neq _ _)) by lia. unfold argv at 1.
  assert (A1 : argv !! Z.to_nat (zlen argv - 1) = Some remote).
  { unfold argv. rewrite lookup_app_r by (rewrite length_app; cbn [length]; lia). rewrite length_app. cbn [length]. by replace (Z.to_nat _ - length ws)%nat with 1%nat by lia. }
  assert (A2 : argv !! Z.to_nat (zlen argv - 2) = Some local).
  { unfold argv. rewrite lookup_app_r by (rewrite length_app; cbn [length]; lia). rewrite length_app. cbn [length]. by replace (Z.to_nat _ - length ws)%nat with 0%nat by lia. }
  fold argv. rewrite A1. cbn [deref mbind res_bind]. rewrite (proj2 (Z.eqb_neq (zlen ws + 1) (zlen argv))) by lia. rewrite andb_false_r.
  rewrite (proj2 (Z.ltb_ge (zlen argv) 2)) by lia. rewrite A2. done.
Qed.
End Options.
