(* ===== verification/Jdwp.v ===== *)
(** * Jdwp: the processes that can be debugged ([daemon/jdwp.cpp], [daemon/jdwp.h], [register/hdc_jdwp.cpp])

    Applications connect to an abstract socket of the daemon and announce their
    process; trackers ([track-jpid]) are told the list whenever it changes, and
    debugger connections are handed to the process as descriptors.  Contexts and
    task information are heap objects: an access to a deleted one is [Undefined],
    as is deleting a context while the loop still knows its [jvmTCP].  [JEnv] is
    what the system answers during one call.  Built as for a device
    ([JS_JDWP_CONNECT], not [HDC_EMULATOR], not [HDC_PCDEBUG]).  Every function
    that takes the mutex holds it to its end, so that one call is one step. *)

From Stdlib Require Import String ZArith Lia List Bool.
From stdpp Require Import base list numbers option gmap.
From S2P Require Import Prelude Defs OrdMap Session Strings Numbers Translate Forward.

(** ** Constants and data *)

Definition JS_PKG_MIN_SIZE : Z := 7.
Definition JS_PKG_MAX_SIZE : Z := 512.
Definition sizeof_JsMsgHeader : Z := 12.
Definition sizeof_buf : Z := JS_PKG_MAX_SIZE + sizeof_JsMsgHeader.
Definition UV_ENOBUFS : Z := -105.
Definition UV_EOF : Z := -4095.
Definition POLLIN : Z := 1.
Definition POLLERR : Z := 8.
Definition POLLHUP : Z := 16.
Definition POLLNVAL : Z := 32.
Definition POLLRDHUP : Z := 8192.
Definition POLL_GONE : Z := Z.lor (Z.lor (Z.lor POLLNVAL POLLRDHUP) POLLHUP) POLLERR.
Definition maxMapSize : Z := 1024.
Definition headerLen : Z := 5.
Definition jpidTrackListSize : Z := 1024 * 4.
Definition EMPTY_ECHO : bytes := str "[Empty]".
Definition RET_SUCCESS : Z := 0.
Definition ERR_GENERIC : Z := -1.
Definition ERR_MODULE_JDWP_FAILED : Z := -18000.

(** The header of an announcement: 32-bit length and process id, the debug flag
    and three bytes of padding. *)
Record JsMsgHeader := mkJsMsg { msgLen : Z; jm_pid : Z; jm_isDebug : Z }.
Definition read_header (buf : bytes) : JsMsgHeader :=
  mkJsMsg (le_combine (ztake 4 buf)) (le_combine (ztake 4 (zdrop 4 buf))) (le_combine (ztake 1 (zdrop 8 buf))).
Definition write_header (m : JsMsgHeader) : bytes :=
  le_split 4 (msgLen m) ++ le_split 4 (jm_pid m) ++ le_split 1 (jm_isDebug m) ++ [0; 0; 0].

(** [j_fd]: the descriptor of [pipe]; [j_closing]: [uv_close] was called on it;
    [j_jvm]: [jvmTCP] was initialised. *)
Record ContextJdwp := mkJCtx {
  j_pid : Z; j_finish : bool; j_pkgName : bytes; j_isDebug : Z; j_dummy : Z; j_fd : Z; j_closing : bool; j_jvm : bool
}.
Definition ContextJdwp_new : ContextJdwp := mkJCtx 0 false [] 0 0 (-1) false false.

Record PollFd := mkPollFd { pf_fd : Z; pf_events : Z; pf_revents : Z }.
Record PollNode := mkPollNode { pollfd : PollFd; ppid : Z }.
Definition PollNode_new (fd pid : Z) : PollNode := mkPollNode (mkPollFd fd POLL_GONE 0) pid.

(** The fields of [TaskInformation] that are read here. *)
Record JTask := mkJTask {
  t_sessionId : Z; t_channelId : Z; t_taskStop : bool; t_taskFree : bool; t_taskClass : bool; t_owner : bool; t_debugRelease : Z
}.

(** Pending callbacks: [funcReqClose], the close callback of a pipe, the write
    callback of [SendJdwpNewFD], the close callback of the listening pipe. *)
Inductive JCb := JIdle (p : addr) | JClosed (p : addr) | JWrite (p : addr) | JListenClosed.

(** The iteration order of a [std::unordered_map]. *)
Class HashOrder := {
  hash_order : gmap Z PollNode -> list (Z * PollNode);
  hash_order_perm : forall m, hash_order m ≡ₚ map_to_list m
}.

(** [j_sent]: session, channel and payload of [CMD_KERNEL_ECHO]; [j_passed]: the
    socket, the data and the descriptor of [sendmsg]; [j_written]: the pipe and the
    data of [uv_write2]; [j_closedFds]: descriptors given to [CloseFd];
    [j_event]: the counter of [awakenPollFd]; [j_listen]: [listenPipe] is initialised
    and not being closed. *)
Record HdcJdwp := mkJdwp {
  j_heap : gmap addr ContextJdwp; mapCtxJdwp : omap addr; pollNodeMap : gmap Z PollNode; jdwpTrackers : list addr;
  j_tasks : gmap addr JTask; j_refCount : Z; awakenPollFd : Z; j_event : Z; j_stop : bool; j_listen : bool;
  j_loop : list JCb; j_sent : list (Z * Z * bytes); j_passed : list (Z * bytes * Z); j_written : list (addr * bytes);
  j_closedFds : list Z
}.

Definition HdcJdwp_new : HdcJdwp := mkJdwp ∅ [] ∅ [] ∅ 0 (-1) 0 false false [] [] [] [] [].

Definition jset_heap v s := mkJdwp v (mapCtxJdwp s) (pollNodeMap s) (jdwpTrackers s) (j_tasks s) (j_refCount s) (awakenPollFd s)
  (j_event s) (j_stop s) (j_listen s) (j_loop s) (j_sent s) (j_passed s) (j_written s) (j_closedFds s).
Definition jset_map v s := mkJdwp (j_heap s) v (pollNodeMap s) (jdwpTrackers s) (j_tasks s) (j_refCount s) (awakenPollFd s)
  (j_event s) (j_stop s) (j_listen s) (j_loop s) (j_sent s) (j_passed s) (j_written s) (j_closedFds s).
Definition jset_poll v s := mkJdwp (j_heap s) (mapCtxJdwp s) v (jdwpTrackers s) (j_tasks s) (j_refCount s) (awakenPollFd s)
  (j_event s) (j_stop s) (j_listen s) (j_loop s) (j_sent s) (j_passed s) (j_written s) (j_closedFds s).
Definition jset_trackers v s := mkJdwp (j_heap s) (mapCtxJdwp s) (pollNodeMap s) v (j_tasks s) (j_refCount s) (awakenPollFd s)
  (j_event s) (j_stop s) (j_listen s) (j_loop s) (j_sent s) (j_passed s) (j_written s) (j_closedFds s).
Definition jset_tasks v s := mkJdwp (j_heap s) (mapCtxJdwp s) (pollNodeMap s) (jdwpTrackers s) v (j_refCount s) (awakenPollFd s)
  (j_event s) (j_stop s) (j_listen s) (j_loop s) (j_sent s) (j_passed s) (j_written s) (j_closedFds s).
Definition jset_refCount v s := mkJdwp (j_heap s) (mapCtxJdwp s) (pollNodeMap s) (jdwpTrackers s) (j_tasks s) v (awakenPollFd s)
  (j_event s) (j_stop s) (j_listen s) (j_loop s) (j_sent s) (j_passed s) (j_written s) (j_closedFds s).
Definition jset_awaken v e s := mkJdwp (j_heap s) (mapCtxJdwp s) (pollNodeMap s) (jdwpTrackers s) (j_tasks s) (j_refCount s) v
  e (j_stop s) (j_listen s) (j_loop s) (j_sent s) (j_passed s) (j_written s) (j_closedFds s).
Definition jset_stop v s := mkJdwp (j_heap s) (mapCtxJdwp s) (pollNodeMap s) (jdwpTrackers s) (j_tasks s) (j_refCount s)
  (awakenPollFd s) (j_event s) v (j_listen s) (j_loop s) (j_sent s) (j_passed s) (j_written s) (j_closedFds s).
Definition jset_listen v s := mkJdwp (j_heap s) (mapCtxJdwp s) (pollNodeMap s) (jdwpTrackers s) (j_tasks s) (j_refCount s)
  (awakenPollFd s) (j_event s) (j_stop s) v (j_loop s) (j_sent s) (j_passed s) (j_written s) (j_closedFds s).
Definition jset_loop v s := mkJdwp (j_heap s) (mapCtxJdwp s) (pollNodeMap s) (jdwpTrackers s) (j_tasks s) (j_refCount s)
  (awakenPollFd s) (j_event s) (j_stop s) (j_listen s) v (j_sent s) (j_passed s) (j_written s) (j_closedFds s).
Definition jset_sent v s := mkJdwp (j_heap s) (mapCtxJdwp s) (pollNodeMap s) (jdwpTrackers s) (j_tasks s) (j_refCount s)
  (awakenPollFd s) (j_event s) (j_stop s) (j_listen s) (j_loop s) v (j_passed s) (j_written s) (j_closedFds s).
Definition jset_passed v s := mkJdwp (j_heap s) (mapCtxJdwp s) (pollNodeMap s) (jdwpTrackers s) (j_tasks s) (j_refCount s)
  (awakenPollFd s) (j_event s) (j_stop s) (j_listen s) (j_loop s) (j_sent s) v (j_written s) (j_closedFds s).
Definition jset_written v s := mkJdwp (j_heap s) (mapCtxJdwp s) (pollNodeMap s) (jdwpTrackers s) (j_tasks s) (j_refCount s)
  (awakenPollFd s) (j_event s) (j_stop s) (j_listen s) (j_loop s) (j_sent s) (j_passed s) v (j_closedFds s).
Definition jset_closed v s := mkJdwp (j_heap s) (mapCtxJdwp s) (pollNodeMap s) (jdwpTrackers s) (j_tasks s) (j_refCount s)
  (awakenPollFd s) (j_event s) (j_stop s) (j_listen s) (j_loop s) (j_sent s) (j_passed s) (j_written s) v.

Definition jset_finish c := mkJCtx (j_pid c) true (j_pkgName c) (j_isDebug c) (j_dummy c) (j_fd c) (j_closing c) (j_jvm c).
Definition jset_app pkg dbg c := mkJCtx (j_pid c) (j_finish c) pkg dbg (j_dummy c) (j_fd c) (j_closing c) (j_jvm c).
Definition jset_pid v c := mkJCtx v (j_finish c) (j_pkgName c) (j_isDebug c) (j_dummy c) (j_fd c) (j_closing c) (j_jvm c).
Definition jset_fd v c := mkJCtx (j_pid c) (j_finish c) (j_pkgName c) (j_isDebug c) (j_dummy c) v (j_closing c) (j_jvm c).
Definition jset_closing c := mkJCtx (j_pid c) (j_finish c) (j_pkgName c) (j_isDebug c) (j_dummy c) (j_fd c) true (j_jvm c).
Definition jset_dummy v c := mkJCtx (j_pid c) (j_finish c) (j_pkgName c) (j_isDebug c) v (j_fd c) (j_closing c) (j_jvm c).
Definition jset_jvm c := mkJCtx (j_pid c) (j_finish c) (j_pkgName c) (j_isDebug c) (j_dummy c) (j_fd c) (j_closing c) true.

Definition jpush (c : JCb) (s : HdcJdwp) : HdcJdwp := jset_loop (j_loop s ++ [c]) s.
Definition jctx (p : addr) (s : HdcJdwp) : res ContextJdwp := deref (j_heap s !! p).
Definition jupd (p : addr) (f : ContextJdwp -> ContextJdwp) (s : HdcJdwp) : res HdcJdwp :=
  c ← jctx p s; Ok (jset_heap (<[p := f c]> (j_heap s)) s).
Definition CloseFd (fd : Z) (s : HdcJdwp) : HdcJdwp := jset_closed (j_closedFds s ++ [fd]) s.

Record JEnv := mkJEnv {
  jv_new : option addr;            (* [new ContextJdwp] *)
  jv_accept : option Z;            (* the descriptor [uv_accept] gives the pipe *)
  jv_fileno : bool; jv_idle : bool; jv_alloc : bool; jv_sendmsg : bool;
  jv_tcpInit : bool; jv_tcpOpen : bool; jv_write : bool;
  jv_socket : Z; jv_bind : bool; jv_uvListen : bool; jv_eventfd : Z; jv_thread : Z
}.

(** ** The list of processes *)

Definition releaseApp : Z := 2.
Definition allAppWithDr : Z := 3.

(** One line of the list, as [dr] asks for. *)
Definition app_line (dr pid : Z) (pkgName : bytes) (isDebug : Z) : bytes :=
  let plain := to_string pid ++ [32] ++ pkgName ++ [10] in
  if dr =? 0 then plain
  else if dr =? 1 then (if isDebug =? 0 then [] else plain)
  else if dr =? releaseApp then (if isDebug =? 0 then plain else [])
  else if dr =? allAppWithDr then
    to_string pid ++ [32] ++ pkgName ++ [32] ++ (if isDebug =? 0 then str "release" else str "debug") ++ [10]
  else [].

(** The context is only read for the four values of [dr]. *)
Fixpoint list_apps (dr : Z) (m : omap addr) (h : gmap addr ContextJdwp) : res bytes :=
  match m with
  | [] => Ok []
  | (k, p) :: m =>
      line ← (if (0 <=? dr) && (dr <=? allAppWithDr) then c ← deref (h !! p); Ok (app_line dr k (j_pkgName c) (j_isDebug c))
              else Ok []);
      rest ← list_apps dr m h; Ok (line ++ rest)
  end.
Definition GetProcessListExtendPkgName (dr : Z) (s : HdcJdwp) : res bytes := list_apps dr (mapCtxJdwp s) (j_heap s).

Definition GetProcessList (s : HdcJdwp) : bytes := concat (map (fun kp => to_string kp.1 ++ [10]) (mapCtxJdwp s)).

(** ["%04zx"]. *)
Definition hex4 (n : Z) : bytes := let d := hex 16 n in repeat 48 (4 - length d) ++ d.

(** [None]: the function returns 0.  The head has room for six characters. *)
Definition JdwpProcessListMsg (bufferlen dr : Z) (s : HdcJdwp) : res (option bytes) :=
  result ← GetProcessListExtendPkgName dr s;
  let len := if bufferlen <? zlen result + headerLen then bufferlen else zlen result in
  let head := hex4 len ++ [10] in
  if headerLen + 1 <? zlen head then Ok None
  else if negb (memcpy_ok bufferlen headerLen) then Ok None
  else if negb (memcpy_ok (bufferlen - headerLen) len) then Ok None
  else Ok (Some (ztake headerLen head ++ ztake len result)).

(** [LogMsg] of the session and of a task: the text is a format, and nothing is
    left of it when it does not fit the buffer. *)
Definition log_msg (i : JTask) (level : Z) (msg : bytes) (s : HdcJdwp) : res HdcJdwp :=
  text ← format_only (cstr msg);
  let log := if zlen text <=? MAX_SIZE_IOBUF_STABLE - 1 then text else [] in
  Ok (jset_sent (j_sent s ++ [(t_sessionId i, t_channelId i, level :: log)]) s).

Definition SendProcessList (i : JTask) (data : bytes) (s : HdcJdwp) : res HdcJdwp :=
  if zlen data =? 0 then Ok s
  else if negb (t_owner i) then Ok s
  else log_msg i MSG_OK data s.

Definition send_list (i : JTask) (s : HdcJdwp) : res HdcJdwp :=
  data ← JdwpProcessListMsg jpidTrackListSize (t_debugRelease i) s;
  match data with Some data => SendProcessList i data s | None => Ok s end.

(** [erase(remove(begin, end, t), end)].  The value is a reference into the
    vector; as the entries differ that makes no difference. *)
Definition remove_tracker (t : addr) (l : list addr) : list addr := filter (fun x => x <> t) l.

(** The loop over the trackers.  The iterator [erase] returns is the end. *)
Fixpoint notify (l : list addr) (s : HdcJdwp) : res HdcJdwp :=
  match l with
  | [] => Ok s
  | t :: l =>
      i ← deref (j_tasks s !! t);
      if t_taskStop i || t_taskFree i || negb (t_taskClass i) then Ok (jset_trackers (remove_tracker t (jdwpTrackers s)) s)
      else s ← send_list i s; notify l s
  end.

Definition ProcessListUpdated (task : option addr) (s : HdcJdwp) : res HdcJdwp :=
  if bool_decide (jdwpTrackers s = []) then Ok s
  else match task with
       | Some t => i ← deref (j_tasks s !! t); send_list i s
       | None => notify (jdwpTrackers s) s
       end.

Section Service.
Context `{HashOrder} (env : JEnv).

Definition RemoveFdFromPollList (pid : Z) (s : HdcJdwp) : HdcJdwp :=
  match list_find (fun kn => ppid kn.2 = pid) (hash_order (pollNodeMap s)) with
  | Some (_, (_, n)) => jset_poll (delete (pf_fd (pollfd n)) (pollNodeMap s)) s
  | None => s
  end.

(** ** [AdminContext] *)

Definition AdminContext (op pid : Z) (ctxJdwp : addr) (s : HdcJdwp) : res (option addr * HdcJdwp) :=
  let '(hRet, s) :=
    if op =? OP_ADD then (None, if zlen (mapCtxJdwp s) <? maxMapSize then jset_map (om_set pid ctxJdwp (mapCtxJdwp s)) s else s)
    else if op =? OP_REMOVE then (None, RemoveFdFromPollList pid (jset_map (om_erase pid (mapCtxJdwp s)) s))
    else if op =? OP_QUERY then (om_find pid (mapCtxJdwp s), s)
    else if op =? OP_CLEAR then (None, jset_poll ∅ (jset_map [] s))
    else (None, s) in
  if (op =? OP_ADD) || (op =? OP_REMOVE) || (op =? OP_CLEAR) then s ← ProcessListUpdated None s; Ok (hRet, s)
  else Ok (hRet, s).

(** ** Contexts *)

Definition MallocContext (s : HdcJdwp) : option addr * HdcJdwp :=
  match jv_new env with
  | None => (None, s)
  | Some p => (Some p, jset_refCount (u32 (j_refCount s + 1)) (jset_heap (<[p := ContextJdwp_new]> (j_heap s)) s))
  end.

(** [FreeContext] and [FreeContextRaw], which differ in who holds the mutex. *)
Definition FreeContext (p : addr) (s : HdcJdwp) : res HdcJdwp :=
  c ← jctx p s;
  if j_finish c then Ok s
  else
    s ← jupd p jset_finish s;
    s ← (if j_stop s then Ok s else '((_, s) : option addr * HdcJdwp) ← AdminContext OP_REMOVE (j_pid c) 0 s; Ok s);
    Ok (if jv_idle env then jpush (JIdle p) s else s).
Definition FreeContextRaw := FreeContext.

(** [funcReqClose]: the pipe is closed unless it already is. *)
Definition funcReqClose (p : addr) (s : HdcJdwp) : res HdcJdwp :=
  c ← jctx p s;
  let s := jset_refCount (u32 (j_refCount s - 1)) s in
  if j_closing c then Ok s
  else s ← jupd p jset_closing s; Ok (jpush (JClosed p) s).

(** The close callback: [delete]. *)
Definition pipe_closed (p : addr) (s : HdcJdwp) : res HdcJdwp :=
  c ← jctx p s; if j_jvm c then Undefined else Ok (jset_heap (delete p (j_heap s)) s).

Definition WakePollThread (s : HdcJdwp) : HdcJdwp :=
  if awakenPollFd s <? 0 then s else jset_awaken (awakenPollFd s) (j_event s + 1) s.

(** What [ReadStream] does with a process id: [ret] is true, unless it is not positive. *)
Definition accept_pid (p : addr) (pid : Z) (s : HdcJdwp) : res (bool * HdcJdwp) :=
  if pid <=? 0 then Ok (false, s)
  else
    s ← jupd p (jset_pid (u32 pid)) s;
    '((_, s) : option addr * HdcJdwp) ← AdminContext OP_ADD (u32 pid) p s;
    c ← jctx p s;
    if negb (jv_fileno env) then Ok (true, s)
    else
      let poll := match pollNodeMap s !! j_fd c with
                  | Some _ => pollNodeMap s
                  | None => <[j_fd c := PollNode_new (j_fd c) (u32 pid)]> (pollNodeMap s)
                  end in
      Ok (true, WakePollThread (jset_poll poll s)).

Definition valid_nread (nread : Z) : bool :=
  negb (nread =? UV_ENOBUFS) &&
  negb ((nread <? JS_PKG_MIN_SIZE + sizeof_JsMsgHeader) || (JS_PKG_MAX_SIZE + sizeof_JsMsgHeader <? nread)).

(** [buf]: the bytes read into the context's buffer, which is zero behind them. *)
Definition ReadStream (p : addr) (nread : Z) (buf : bytes) (s : HdcJdwp) : res HdcJdwp :=
  _ ← jctx p s;
  if negb (nread =? UV_ENOBUFS) && (nread =? 0) then Ok s
  else
    '((ret, s) : bool * HdcJdwp) ←
      (if valid_nread nread then
         if nread =? 4 then accept_pid p (atoi (ztake 4 buf)) s
         else
           let jsMsg := read_header buf in
           if msgLen jsMsg =? u32 nread then
             let pkgName := substr buf sizeof_JsMsgHeader (u32 (msgLen jsMsg - sizeof_JsMsgHeader)) in
             s ← jupd p (jset_app pkgName (jm_isDebug jsMsg)) s;
             accept_pid p (i32 (jm_pid jsMsg)) s
           else accept_pid p 0 s
       else Ok (false, s));
    if ret then Ok s else FreeContext p s.

Definition AcceptClient (s : HdcJdwp) : res HdcJdwp :=
  let '(o, s) := MallocContext s in
  match o with
  | None => Ok s
  | Some p =>
      match jv_accept env with
      | None => FreeContext p s
      | Some fd => jupd p (jset_fd fd) s
      end
  end.

(** ** Handing descriptors to a process *)

Definition SendJdwpNewFD (targetPID fd : Z) (s : HdcJdwp) : res (bool * HdcJdwp) :=
  '((o, s) : option addr * HdcJdwp) ← AdminContext OP_QUERY targetPID 0 s;
  match o with
  | None => Ok (false, s)
  | Some p =>
      s ← jupd p (jset_dummy 33) s;
      if negb (jv_tcpInit env) then Ok (false, s)
      else
        s ← jupd p jset_jvm s;
        if negb (jv_tcpOpen env) then Ok (false, s)
        else if negb (jv_write env) then Ok (false, s)
        else Ok (true, jset_refCount (u32 (j_refCount s + 1)) (jpush (JWrite p) (jset_written (j_written s ++ [(p, [33])]) s)))
  end.

(** The context is only logged. *)
Definition SendCallbackJdwpNewFD (p : addr) (s : HdcJdwp) : res HdcJdwp := _ ← jctx p s; Ok s.

Definition SendFdToApp (sockfd : Z) (buf : bytes) (fd : Z) (s : HdcJdwp) : bool * HdcJdwp :=
  if jv_sendmsg env then (true, jset_passed (j_passed s ++ [(sockfd, buf, fd)]) s) else (false, s).

(** The process id in "ark:pid\@tid\@Debugger"; without the separator, the
    position after it is 0. *)
Definition ark_pid (text : bytes) : Z :=
  let right := match find [58] text 0 with Some pos => zdrop (pos + 1) text | None => text end in
  let pidstr := match find [64] right 0 with Some pos => ztake pos right | None => right end in
  u32 (atoi pidstr).

Definition SendArkNewFD (text : bytes) (fd : Z) (s : HdcJdwp) : res (bool * HdcJdwp) :=
  '((o, s) : option addr * HdcJdwp) ← AdminContext OP_QUERY (ark_pid text) 0 s;
  match o with
  | None => Ok (false, s)
  | Some p =>
      let size := u32 (4 + zlen text) in
      if negb (jv_alloc env) then Ok (false, CloseFd fd s)
      else if negb (memcpy_ok size 4) then Ok (false, CloseFd fd s)
      else if negb (memcpy_ok (size - 4) (zlen text)) then Ok (false, CloseFd fd s)
      else
        c ← jctx p s;
        let '(_, s) := SendFdToApp (j_fd c) (le_split 4 (u32 fd) ++ text) fd s in
        Ok (true, CloseFd fd s)
  end.

Definition CheckPIDExist (targetPID : Z) (s : HdcJdwp) : bool := bool_decide (is_Some (om_find targetPID (mapCtxJdwp s))).

(** [HdcDaemon::JdwpNewFileDescriptor]: [buf] has at least its first byte. *)
Definition JdwpNewFileDescriptor (buf : bytes) (s : HdcJdwp) : res HdcJdwp :=
  spcmd ← deref (buf !! 0%nat);
  if spcmd =? SP_JDWP_NEWFD then
    if zlen buf <? 1 + 4 * 2 then Ok s
    else '((_, s) : bool * HdcJdwp) ← SendJdwpNewFD (le_combine (ztake 4 (zdrop 1 buf))) (le_combine (ztake 4 (zdrop 5 buf))) s;
         Ok s
  else if spcmd =? SP_ARK_NEWFD then
    if zlen buf <? 1 + 4 then Ok s
    else '((_, s) : bool * HdcJdwp) ← SendArkNewFD (zdrop 5 buf) (i32 (le_combine (ztake 4 (zdrop 1 buf)))) s; Ok s
  else Ok s.

(** ** Trackers, and the commands of [daemon_unity.cpp] *)

Definition CreateJdwpTracker (taskInfo : option addr) (s : HdcJdwp) : res (bool * HdcJdwp) :=
  match taskInfo with
  | None => Ok (false, s)
  | Some t =>
      let s := if bool_decide (t ∈ jdwpTrackers s) then s else jset_trackers (jdwpTrackers s ++ [t]) s in
      s ← ProcessListUpdated (Some t) s; Ok (true, s)
  end.

Definition RemoveJdwpTracker (taskInfo : option addr) (s : HdcJdwp) : HdcJdwp :=
  match taskInfo with
  | None => s
  | Some t => if bool_decide (t ∈ jdwpTrackers s) then jset_trackers (remove_tracker t (jdwpTrackers s)) s else s
  end.

Definition ListJdwpProcess (t : addr) (s : HdcJdwp) : res HdcJdwp :=
  i ← deref (j_tasks s !! t);
  let result := GetProcessList s in
  log_msg i MSG_OK (if zlen result =? 0 then EMPTY_ECHO else ztake (zlen result - 1) result) s.

Definition track_kind (param : bytes) : Z :=
  if bytes_eqb param (str "p") then 0 else if bytes_eqb param (str "a") then allAppWithDr else 1.

Definition TrackJdwpProcess (t : addr) (param : bytes) (s : HdcJdwp) : res (bool * HdcJdwp) :=
  i ← deref (j_tasks s !! t);
  let i := mkJTask (t_sessionId i) (t_channelId i) (t_taskStop i) (t_taskFree i) (t_taskClass i) (t_owner i) (track_kind param) in
  CreateJdwpTracker (Some t) (jset_tasks (<[t := i]> (j_tasks s)) s).

(** ** The thread that polls, start and stop *)

Definition DrainAwakenPollThread (s : HdcJdwp) : HdcJdwp := jset_awaken (awakenPollFd s) 0 s.

Definition GetPollFd (pollfds : list PollFd) (s : HdcJdwp) : list PollFd :=
  let n := Z.of_nat (size (pollNodeMap s)) in
  if (zlen pollfds =? n) || (n =? 0) then pollfds
  else map (fun kn => pollfd kn.2) (hash_order (pollNodeMap s)) ++ [mkPollFd (awakenPollFd s) POLLIN 0].

(** One entry after [poll]. *)
Definition poll_entry (f : PollFd) (s : HdcJdwp) : res HdcJdwp :=
  if negb (Z.land (uwrap 16 (pf_revents f)) POLL_GONE =? 0) then
    match pollNodeMap s !! pf_fd f with
    | None => Ok s
    | Some n =>
        '((o, s) : option addr * HdcJdwp) ← AdminContext OP_QUERY (ppid n) 0 s;
        match o with
        | Some _ => '((_, s) : option addr * HdcJdwp) ← AdminContext OP_REMOVE (ppid n) 0 s; Ok s
        | None => Ok s
        end
    end
  else if negb (Z.land (uwrap 16 (pf_revents f)) POLLIN =? 0) then
    Ok (if pf_fd f =? awakenPollFd s then DrainAwakenPollThread s else s)
  else Ok s.

Fixpoint poll_entries (l : list PollFd) (s : HdcJdwp) : res HdcJdwp :=
  match l with [] => Ok s | f :: l => s ← poll_entry f s; poll_entries l s end.

(** One turn of [FdEventPollThread]: the vector is kept between turns, and
    [poll] is told that it has [size] entries.  The address of the first entry of
    an empty vector is not followed. *)
Definition poll_size : Z := 0.
Definition FdEventPollThread_turn (poll : list PollFd -> Z -> list PollFd) (pollfds : list PollFd) (s : HdcJdwp)
    : res (list PollFd * HdcJdwp) :=
  if j_stop s then Ok (pollfds, s)
  else
    let pollfds := poll (GetPollFd pollfds s) poll_size in
    s ← poll_entries pollfds s; Ok (pollfds, s).

(** The name in the socket address, up to the length given to [bind]. *)
Definition sizeof_sun_path : Z := 108.
Definition jdwpCtrlName : bytes := 0 :: str "ohjpid-control" ++ [0].
Definition bind_name (name : bytes) (size : Z) : bytes :=
  let min := if size <? sizeof_sun_path then size else sizeof_sun_path in
  let sun_path := ztake (sizeof_sun_path - 1) (ztake min name ++ repeat 0 (Z.to_nat (sizeof_sun_path - min))) ++ [0] in
  let saddrLen := 2 + min - 1 in
  ztake (saddrLen - 2) sun_path.

(** [handleFd]: the descriptor the handle already has. *)
Definition UvPipeBind (handleFd : Z) : bool := negb (0 <=? handleFd) && (0 <=? jv_socket env) && jv_bind env.

(** [uv_pipe_init] leaves the handle without a descriptor. *)
Definition JdwpListen (s : HdcJdwp) : bool * HdcJdwp :=
  let s := jset_listen true s in
  if negb (UvPipeBind (-1)) then (false, s)
  else if negb (jv_uvListen env) then (false, s)
  else (true, jset_refCount (u32 (j_refCount s + 1)) s).

Definition CreateFdEventPoll (s : HdcJdwp) : Z * HdcJdwp :=
  let s := CloseFd (awakenPollFd s) s in
  let s := jset_awaken (jv_eventfd env) 0 s in
  if jv_eventfd env <? 0 then (ERR_GENERIC, s)
  else if negb (jv_thread env =? 0) then (jv_thread env, jset_awaken (-1) 0 (CloseFd (jv_eventfd env) s))
  else (RET_SUCCESS, s).

Definition Initial (s : HdcJdwp) : Z * HdcJdwp :=
  let s := jset_poll ∅ s in
  let '(ok, s) := JdwpListen s in
  if negb ok then (ERR_MODULE_JDWP_FAILED, s)
  else let '(ret, s) := CreateFdEventPoll s in if ret <? 0 then (ERR_MODULE_JDWP_FAILED, s) else (RET_SUCCESS, s).

Fixpoint free_listed (l : list addr) (s : HdcJdwp) : res HdcJdwp :=
  match l with [] => Ok s | p :: l => s ← FreeContextRaw p s; free_listed l s end.

Definition Stop (s : HdcJdwp) : res HdcJdwp :=
  let s := WakePollThread (jset_stop true s) in
  let s := if j_listen s then jpush JListenClosed (jset_listen false s) else s in
  s ← free_listed (map snd (mapCtxJdwp s)) s;
  '((_, s) : option addr * HdcJdwp) ← AdminContext OP_CLEAR 0 0 s; Ok s.

(** ** Callbacks of the loop *)

Definition run_callback (c : JCb) (s : HdcJdwp) : res HdcJdwp :=
  match c with
  | JIdle p => funcReqClose p s
  | JClosed p => pipe_closed p s
  | JWrite p => SendCallbackJdwpNewFD p s
  | JListenClosed => Ok (jset_refCount (u32 (j_refCount s - 1)) s)
  end.

End Service.

(** ** The application's side: [HdcJdwpSimulator] *)

Definition Connect2Jdwp_name : bytes :=
  let caddrLen := 2 + zlen jdwpCtrlName - 1 in ztake (caddrLen - 2) (jdwpCtrlName ++ repeat 0 (Z.to_nat (sizeof_sun_path - zlen jdwpCtrlName))).

(** The text after the header: the package, and the process when it has a name. *)
Definition pkg_process (pkgName processName : bytes) : bytes :=
  if bool_decide (processName = []) then pkgName else pkgName ++ [47] ++ processName.

(** Results of [write]. *)
Inductive WriteRc := WrInterrupted | WrError | WrDone (rc : Z).

(** [SendBuf]: the writes that are made, and whether everything was written.  A
    [write] that is not listed fails. *)
Fixpoint SendBuf (rcs : list WriteRc) (buf : bytes) (out : list bytes) : bool * list bytes :=
  if zlen buf =? 0 then (true, out)
  else match rcs with
       | WrInterrupted :: rcs => SendBuf rcs buf out
       | WrDone rc :: rcs => if rc <=? 0 then (false, out) else SendBuf rcs (zdrop rc buf) (out ++ [ztake rc buf])
       | WrError :: _ | [] => (false, out)
       end.

Definition Send2Jdwp_msg (pid : Z) (pkgName processName : bytes) (isDebug : bool) : bytes :=
  let pp := pkg_process pkgName processName in
  let ppSize := u32 (zlen pp + sizeof_JsMsgHeader) in
  write_header (mkJsMsg ppSize (u32 pid) (if isDebug then 1 else 0)) ++ pp.

Definition Send2Jdwp (alloc : bool) (rcs : list WriteRc) (pid : Z) (pkgName processName : bytes) (isDebug : bool)
    : bool * list bytes :=
  let pp := pkg_process pkgName processName in
  if negb alloc then (false, [])
  else if negb (memcpy_ok (zlen pp) (zlen pp)) then (false, [])
  else SendBuf rcs (Send2Jdwp_msg pid pkgName processName isDebug) [].

(** One turn of [ReadFromJdwp] on the result of [recvmsg]: the bytes, and the
    descriptor of a well-formed control message.  [None] leaves the loop; the
    arguments of the callback otherwise, when it is called. *)
Definition read_size : Z := 256.
Definition ReadFromJdwp_turn (buf : bytes) (control : option Z) : option (option (Z * bytes)) :=
  let cnt := zlen buf in
  if cnt =? 0 then None
  else if cnt <? 4 then Some None
  else match control with None => Some None | Some newfd => Some (Some (newfd, zdrop 4 buf)) end.
