(* ===== verification/JdwpProps.v ===== *)
(** * JdwpProps: what the process service keeps

    [process_table_refined]: among the events of the daemon's loop the service is a
    table from process ids to names, no deleted object is touched, and the
    trackers' lists are printed from that table.  [registration_tracked]: what an
    application announces is what a tracker is told.  [ark_descriptor_delivered]:
    a debugger's descriptor and its text reach the process.  The rest is what goes
    wrong outside the hypotheses. *)

From Stdlib Require Import String ZArith Lia List Bool Sorting.Sorted.
From stdpp Require Import base list numbers option gmap.
From S2P Require Import Prelude Defs OrdMap Session Strings Numbers Translate Forward Jdwp.

(** ** Formats without conversions *)

Definition no_percent (t : bytes) : Prop := Forall (fun c => c <> 37) t.
#[export] Instance no_percent_dec t : Decision (no_percent t).
Proof. unfold no_percent. apply _. Defined.

Lemma format_plain t : no_percent t -> format_only t = Ok t.
Proof.
  induction 1 as [|c t Hc Ht IH]; [done|]. cbn [format_only]. rewrite IH. cbn [mbind res_bind].
  destruct c as [|c|c]; try done. do 6 (destruct c; try done).
Qed.

Lemma cstr_percent t : no_percent t -> no_percent (cstr t).
Proof. induction 1 as [|c t Hc Ht IH]; cbn [cstr]; [constructor|]. destruct (c =? 0); [constructor|by constructor]. Qed.

Lemma digits_percent n : 0 <= n -> no_percent (to_string n).
Proof.
  intros Hn. eapply Forall_impl; [apply to_string_digits; exact Hn|]. intros c Hc. cbn beta in Hc. intros ->. discriminate.
Qed.

(** ** The table of processes *)

Abbreviation table := (omap (bytes * Z)).

Definition entry_of (h : gmap addr ContextJdwp) (kp : Z * addr) : Z * (bytes * Z) :=
  (kp.1, match h !! kp.2 with Some c => (j_pkgName c, j_isDebug c) | None => ([], 0) end).
Definition table_in (m : omap addr) (h : gmap addr ContextJdwp) : table := map (entry_of h) m.
Definition table_of (s : HdcJdwp) : table := table_in (mapCtxJdwp s) (j_heap s).

Definition print_table (dr : Z) (T : table) : bytes := concat (map (fun e => app_line dr e.1 e.2.1 e.2.2) T).

(** The message of a list: its length in four hexadecimal digits, a new line, the lines. *)
Definition frame (l : bytes) : bytes := hex4 (zlen l) ++ [10] ++ l.

(** What one tracker is told of a table. *)
Definition told (T : table) (i : JTask) : list (Z * Z * bytes) :=
  let l := print_table (t_debugRelease i) T in
  if (zlen l + headerLen <=? jpidTrackListSize) && t_owner i then [(t_sessionId i, t_channelId i, MSG_OK :: cstr (frame l))] else [].

Definition alive (i : JTask) : bool := negb (t_taskStop i || t_taskFree i || negb (t_taskClass i)).

(** The trackers up to the first that has ended, and that one. *)
Fixpoint live_prefix (tasks : gmap addr JTask) (l : list addr) : list JTask :=
  match l with
  | [] => []
  | t :: l => match tasks !! t with Some i => if alive i then i :: live_prefix tasks l else [] | None => [] end
  end.
Fixpoint first_ended (tasks : gmap addr JTask) (l : list addr) : option addr :=
  match l with
  | [] => None
  | t :: l => match tasks !! t with Some i => if alive i then first_ended tasks l else Some t | None => None end
  end.
Definition pruned (tasks : gmap addr JTask) (l : list addr) : list addr :=
  match first_ended tasks l with Some t => remove_tracker t l | None => l end.

Definition entries_ok (m : omap addr) (h : gmap addr ContextJdwp) : Prop :=
  forall k p, In (k, p) m -> 0 < k /\ exists c, h !! p = Some c /\ no_percent (j_pkgName c).

Lemma entries_tail kp m h : entries_ok (kp :: m) h -> entries_ok m h.
Proof. intros He k p Hin. apply He. by right. Qed.

Lemma table_cons k p m h c : h !! p = Some c -> table_in ((k, p) :: m) h = (k, (j_pkgName c, j_isDebug c)) :: table_in m h.
Proof. intros Hp. unfold table_in. cbn [map]. f_equal. unfold entry_of. cbn [fst snd]. by rewrite Hp. Qed.

Lemma list_apps_ok dr m h : entries_ok m h -> list_apps dr m h = Ok (print_table dr (table_in m h)).
Proof.
  induction m as [|[k p] m IH]; intros He; [done|]. cbn [list_apps].
  destruct (He k p ltac:(by left)) as (_ & c & Hp & _). rewrite Hp. cbn [deref mbind res_bind].
  rewrite (IH (entries_tail _ _ _ He)).
  rewrite (table_cons _ _ _ _ c Hp). unfold print_table. cbn [map concat fst snd].
  destruct ((0 <=? dr) && (dr <=? allAppWithDr)) eqn:Ed; cbn [mbind res_bind]; [done|]. f_equal. f_equal.
  unfold app_line, releaseApp, allAppWithDr in *. apply andb_false_iff in Ed.
  assert (dr < 0 \/ 3 < dr) as Hd by (destruct Ed as [Ed|Ed]; breflect; lia).
  rewrite !(proj2 (Z.eqb_neq dr _)) by lia. done.
Qed.

Lemma app_line_percent dr k n d : 0 <= k -> no_percent n -> no_percent (app_line dr k n d).
Proof.
  intros Hk Hn. pose proof (digits_percent k Hk) as Hd. unfold app_line, no_percent in *.
  repeat case_match; repeat (apply Forall_app; split); try done; by repeat constructor.
Qed.

Lemma print_percent dr m h : entries_ok m h -> no_percent (print_table dr (table_in m h)).
Proof.
  induction m as [|[k p] m IH]; intros He; [constructor|]. destruct (He k p ltac:(by left)) as (Hk & c & Hp & Hn).
  rewrite (table_cons _ _ _ _ c Hp). unfold print_table. cbn [map concat fst snd].
  apply Forall_app. split; [apply app_line_percent; [lia|done]|]. apply IH. by eapply entries_tail.
Qed.

(** ** Lists in hexadecimal frames *)

Lemma hex_small n : 0 <= n < 65536 -> exists a b c d, hex4 n = [a; b; c; d] /\
  Forall (fun x => exists v, 0 <= v < 16 /\ x = hex_digit v) [a; b; c; d].
Proof.
  intros Hn. unfold hex4.
  assert (D : forall x, 0 <= x mod 16 < 16) by (intros; apply Z.mod_pos_bound; lia).
  assert (Z0 : exists v, 0 <= v < 16 /\ 48 = hex_digit v) by (exists 0; split; [lia|done]).
  assert (Q : forall x, 0 <= x -> 0 <= x / 16) by (intros; apply Z.div_pos; lia).
  assert (L : forall x y, x < 16 * y -> x / 16 < y) by (intros; apply Z.div_lt_upper_bound; lia).
  cbn [hex]. destruct (n <? 16) eqn:E1; breflect;
    [|destruct (n / 16 <? 16) eqn:E2; breflect; [|destruct (n / 16 / 16 <? 16) eqn:E3; breflect]];
    try (cbn [app length Nat.sub repeat]; do 4 eexists; split; [done|]; repeat constructor; solve [done|eexists; (split; [|done]); auto with lia]).
  assert (n / 16 < 4096) by (apply L; lia). assert (n / 16 / 16 < 256) by (apply L; lia). assert (n / 16 / 16 / 16 < 16) by (apply L; lia).
  rewrite (proj2 (Z.ltb_lt (n / 16 / 16 / 16) 16)) by lia. cbn [app length Nat.sub repeat].
  do 4 eexists. split; [done|]. repeat constructor; eexists; (split; [|done]); auto with lia.
Qed.

Lemma length_hex4 n : 0 <= n < 65536 -> zlen (hex4 n) = 4.
Proof. intros Hn. destruct (hex_small n Hn) as (a & b & c & d & -> & _). done. Qed.

Lemma hex4_percent n : 0 <= n < 65536 -> no_percent (hex4 n).
Proof.
  intros Hn. destruct (hex_small n Hn) as (a & b & c & d & -> & Hf). eapply Forall_impl; [exact Hf|]. cbn beta.
  intros x (v & Hv & ->). unfold hex_digit. destruct (v <? 10) eqn:E; breflect; lia.
Qed.

(** ** Telling the trackers *)

Lemma JdwpProcessListMsg_ok dr s : entries_ok (mapCtxJdwp s) (j_heap s) ->
  let l := print_table dr (table_of s) in
  JdwpProcessListMsg jpidTrackListSize dr s =
  Ok (if zlen l + headerLen <=? jpidTrackListSize then Some (frame l) else None).
Proof.
  intros He l. unfold JdwpProcessListMsg, GetProcessListExtendPkgName. rewrite list_apps_ok by done. fold (table_of s). fold l.
  cbn [mbind res_bind]. unfold jpidTrackListSize, headerLen in *. pose proof (Zle_0_nat (length l)) as Hl.
  destruct (zlen l + 5 <=? 1024 * 4) eqn:E; breflect.
  - rewrite (proj2 (Z.ltb_ge (1024 * 4) (zlen l + 5))) by lia.
    pose proof (length_hex4 (zlen l) ltac:(lia)) as Hh. rewrite (proj2 (Z.ltb_ge _ _)) by (rewrite length_app; cbn [length]; lia).
    unfold memcpy_ok, RSIZE_MAX. rewrite (proj2 (Z.leb_le (zlen l) (1024 * 4 - 5))) by lia. cbn [andb negb Z.ltb Z.leb].
    change (0 <? 1024 * 4 - 5) with true. change (1024 * 4 - 5 <=? 2147483647) with true. cbn [andb negb].
    change (0 <? 1024 * 4) with true. change (1024 * 4 <=? 2147483647) with true. change (5 <=? 1024 * 4) with true. cbn [andb negb].
    rewrite (ztake_ge l) by lia. rewrite ztake_ge by (rewrite length_app; cbn [length]; lia). unfold frame. by rewrite <- (assoc_L (++)).
  - rewrite (proj2 (Z.ltb_lt (1024 * 4) (zlen l + 5))) by lia. vm_compute (zlen (hex4 (1024 * 4) ++ [10])). cbn.
    done.
Qed.

Lemma frame_percent l : zlen l < 65536 -> no_percent l -> no_percent (frame l).
Proof. intros Hl Hn. unfold frame. apply Forall_app. split; [apply hex4_percent; lia|]. apply Forall_app. split; [by repeat constructor|done]. Qed.

Lemma send_list_ok i s : entries_ok (mapCtxJdwp s) (j_heap s) -> send_list i s = Ok (jset_sent (j_sent s ++ told (table_of s) i) s).
Proof.
  intros He. unfold send_list, told. rewrite JdwpProcessListMsg_ok by done. set (l := print_table _ _). cbn [mbind res_bind].
  assert (E0 : jset_sent (j_sent s ++ []) s = s) by (rewrite app_nil_r; by destruct s).
  destruct (zlen l + headerLen <=? jpidTrackListSize) eqn:E; cbn [andb]; [|by rewrite E0].
  unfold headerLen, jpidTrackListSize in E. breflect. pose proof (length_hex4 (zlen l) ltac:(lia)) as Hh.
  unfold SendProcessList. rewrite (proj2 (Z.eqb_neq _ _)) by (unfold frame; rewrite !length_app; cbn [length]; lia).
  destruct (t_owner i); cbn [negb]; [|by rewrite E0]. unfold log_msg.
  rewrite format_plain by (apply cstr_percent, frame_percent; [lia|by apply print_percent]). cbn [mbind res_bind].
  rewrite (proj2 (Z.leb_le _ _)); [done|]. assert (C : forall t, zlen (cstr t) <= zlen t).
  { induction t as [|x t IH]; cbn [cstr length]; [lia|]. destruct (x =? 0); cbn [length]; lia. }
  specialize (C (frame l)). unfold frame in C at 2. rewrite !length_app in C. cbn [length] in C. unfold MAX_SIZE_IOBUF_STABLE. lia.
Qed.

(** The service after its list has changed. *)
Definition updated (s : HdcJdwp) : HdcJdwp :=
  jset_sent (j_sent s ++ flat_map (told (table_of s)) (live_prefix (j_tasks s) (jdwpTrackers s)))
    (jset_trackers (pruned (j_tasks s) (jdwpTrackers s)) s).

Lemma notify_ok l s : entries_ok (mapCtxJdwp s) (j_heap s) -> Forall (fun t => is_Some (j_tasks s !! t)) l ->
  notify l s = Ok (jset_sent (j_sent s ++ flat_map (told (table_of s)) (live_prefix (j_tasks s) l))
    (jset_trackers (match first_ended (j_tasks s) l with Some t => remove_tracker t (jdwpTrackers s) | None => jdwpTrackers s end) s)).
Proof.
  revert s. induction l as [|t l IH]; intros s He Hl; cbn [notify live_prefix first_ended].
  - cbn [flat_map]. rewrite app_nil_r. by destruct s.
  - apply List.Forall_cons_iff in Hl as [[i Ht] Hl]. rewrite Ht. cbn [deref mbind res_bind]. unfold alive.
    destruct (t_taskStop i || t_taskFree i || negb (t_taskClass i)); cbn [negb].
    + cbn [flat_map]. rewrite app_nil_r. by destruct s.
    + rewrite send_list_ok by done. cbn [mbind res_bind]. rewrite IH by (by destruct s). destruct s. cbn.
      unfold table_of. cbn. by rewrite <- (assoc_L (++)).
Qed.

Definition trackers_ok (s : HdcJdwp) : Prop :=
  NoDup (jdwpTrackers s) /\ Forall (fun t => is_Some (j_tasks s !! t)) (jdwpTrackers s).

Lemma ProcessListUpdated_ok s : entries_ok (mapCtxJdwp s) (j_heap s) -> trackers_ok s -> ProcessListUpdated None s = Ok (updated s).
Proof.
  intros He [_ Ht]. unfold ProcessListUpdated, updated, pruned. case_bool_decide as Hn.
  - rewrite Hn. cbn. rewrite app_nil_r. destruct s. cbn in *. by subst.
  - by rewrite notify_ok.
Qed.

Lemma pruned_ok s : trackers_ok s -> trackers_ok (updated s).
Proof.
  intros [Hn Ht]. unfold trackers_ok, updated, pruned. destruct s as [h m poll tr tasks rc aw ev st li lo se pa wr cl]. cbn in *.
  destruct (first_ended tasks tr) as [t|]; [|done]. split; [by apply NoDup_filter|].
  apply Forall_forall. intros x Hx. unfold remove_tracker in Hx. apply list_elem_of_filter in Hx as [_ Hx].
  rewrite Forall_forall in Ht. by apply Ht.
Qed.

(** ** Events *)

Inductive JEvent :=
| JAccept
| JRead (p : addr) (nread : Z) (buf : bytes)
| JCallback (n : nat)
| JSetTask (t : addr) (i : option JTask)
| JTrack (t : addr) (param : bytes)
| JUntrack (t : addr)
| JNewFd (buf : bytes)
| JStop.

(** The process an announcement registers. *)
Definition registers (nread : Z) (buf : bytes) : option (Z * bytes * Z) :=
  let m := read_header buf in
  if valid_nread nread && (msgLen m =? u32 nread) && (0 <? i32 (jm_pid m))
  then Some (i32 (jm_pid m), substr buf sizeof_JsMsgHeader (u32 (msgLen m - sizeof_JsMsgHeader)), jm_isDebug m) else None.

(** ** The abstract service: a table that changes *)

Inductive Change := Register (pid : Z) (name : bytes) (debug : Z) | Gone (pid : Z) | Cleared | Same.

Definition apply_change (ch : Change) (T : table) : table :=
  match ch with
  | Register pid name debug => if zlen T <? maxMapSize then om_set pid (name, debug) T else T
  | Gone pid => om_erase pid T
  | Cleared => []
  | Same => T
  end.

Definition change_of (env : JEnv) (e : JEvent) (s : HdcJdwp) : Change :=
  match e with
  | JAccept => match jv_new env, jv_accept env with Some _, None => if j_stop s then Same else Gone 0 | _, _ => Same end
  | JRead p nread buf =>
      if nread =? 0 then Same
      else match registers nread buf with
           | Some (pid, name, debug) => Register pid name debug
           | None => match j_heap s !! p with
                     | Some c => if j_finish c || j_stop s then Same else Gone (j_pid c)
                     | None => Same
                     end
           end
  | JStop => Cleared
  | _ => Same
  end.

(** What is sent to the host during an event, given the table after it. *)
Definition sent_in (env : JEnv) (e : JEvent) (s : HdcJdwp) (T : table) : list (Z * Z * bytes) :=
  match change_of env e s with
  | Same => match e with
            | JTrack t param => match j_tasks s !! t with
                | Some i => told T (mkJTask (t_sessionId i) (t_channelId i) (t_taskStop i) (t_taskFree i) (t_taskClass i) (t_owner i)
                                      (track_kind param))
                | None => []
                end
            | _ => []
            end
  | _ => flat_map (told T) (live_prefix (j_tasks s) (jdwpTrackers s))
  end.

Section System.
Context `{HashOrder}.

Definition jstep (env : JEnv) (e : JEvent) (s : HdcJdwp) : res HdcJdwp :=
  match e with
  | JAccept => AcceptClient env s
  | JRead p nread buf => ReadStream env p nread buf s
  | JCallback n => c ← deref (j_loop s !! n); run_callback c (jset_loop (delete n (j_loop s)) s)
  | JSetTask t i => Ok (jset_tasks (partial_alter (fun _ => i) t (j_tasks s)) s)
  | JTrack t param => '((_, s) : bool * HdcJdwp) ← TrackJdwpProcess t param s; Ok s
  | JUntrack t => Ok (RemoveJdwpTracker (Some t) s)
  | JNewFd buf => JdwpNewFileDescriptor env buf s
  | JStop => Stop env s
  end.

(** The loop reads from pipes that are open; [new] gives fresh memory.  A
    connection announces one process, once, before it failed and before the service
    stopped, under a name without conversions.  Task information outlives its
    tracker.  No descriptor goes through [jvmTCP]. *)
Definition orderly (env : JEnv) (e : JEvent) (s : HdcJdwp) : Prop :=
  match e with
  | JAccept => match jv_new env with Some p => j_heap s !! p = None | None => True end
  | JRead p nread buf => exists c, j_heap s !! p = Some c /\ j_closing c = false /\
      match registers nread buf with
      | Some (_, name, _) => j_finish c = false /\ j_stop s = false /\ j_pid c = 0 /\ no_percent name
      | None => True
      end
  | JCallback n => is_Some (j_loop s !! n)
  | JSetTask t i => i = None -> t ∉ jdwpTrackers s
  | JTrack t _ => is_Some (j_tasks s !! t)
  | JNewFd buf => exists c, buf !! 0%nat = Some c /\ c <> SP_JDWP_NEWFD
  | _ => True
  end.

(** ** The invariant *)

Definition cb_target (c : JCb) : list addr := match c with JIdle p | JClosed p => [p] | _ => [] end.
Definition targets (l : list JCb) : list addr := flat_map cb_target l.

Definition cb_ok (h : gmap addr ContextJdwp) (c : JCb) : Prop :=
  match c with
  | JIdle p | JClosed p => exists x, h !! p = Some x /\ j_finish x = true
  | JWrite _ => False
  | JListenClosed => True
  end.

Definition entry_ok (h : gmap addr ContextJdwp) (k : Z) (p : addr) : Prop :=
  0 < k /\ exists c, h !! p = Some c /\ j_pid c = k /\ j_finish c = false /\ no_percent (j_pkgName c).

Record JInv (s : HdcJdwp) : Prop := {
  ji_sorted : om_sorted (mapCtxJdwp s);
  ji_map : forall k p, In (k, p) (mapCtxJdwp s) -> entry_ok (j_heap s) k p;
  ji_loop : Forall (cb_ok (j_heap s)) (j_loop s);
  ji_once : NoDup (targets (j_loop s));
  ji_jvm : forall p c, j_heap s !! p = Some c -> j_jvm c = false;
  ji_trackers : trackers_ok s;
  ji_stop : j_stop s = true -> mapCtxJdwp s = []
}.

Lemma JInv_entries s : JInv s -> entries_ok (mapCtxJdwp s) (j_heap s).
Proof. intros I k p Hin. destruct (ji_map _ I k p Hin) as (Hk & c & Hp & _ & _ & Hn). eauto. Qed.

(** The fields the invariant reads, but for the trackers. *)
Lemma JInv_updated s : JInv s -> JInv (updated s).
Proof. intros [I1 I2 I3 I4 I5 I6 I7]. pose proof (pruned_ok s I6). split; try done; by destruct s. Qed.

Lemma entries_distinct s k k' p : JInv s -> In (k, p) (mapCtxJdwp s) -> In (k', p) (mapCtxJdwp s) -> k = k'.
Proof. intros I H1 H2. destruct (ji_map _ I _ _ H1) as (_ & c & Hc & <- & _), (ji_map _ I _ _ H2) as (_ & d & Hd & <- & _). congruence. Qed.

Lemma table_keys m h : om_keys (table_in m h) = om_keys m.
Proof. unfold table_in, om_keys. rewrite map_map. by apply map_ext. Qed.

(** The table only depends on the contexts it lists. *)
Lemma table_frame m h p c : (forall k, ~ In (k, p) m) -> table_in m (<[p := c]> h) = table_in m h.
Proof.
  intros Hn. unfold table_in. apply map_ext_in. intros [k q] Hin. unfold entry_of. cbn [fst snd].
  rewrite lookup_insert_ne; [done|]. intros ->. by apply (Hn k).
Qed.

Lemma table_erase k m h : table_in (om_erase k m) h = om_erase k (table_in m h).
Proof.
  unfold table_in, om_erase. induction m as [|[k' p] m IH]; [done|]. cbn [map]. rewrite !filter_cons.
  case_decide as Hd; case_decide as Hd'; cbn in Hd, Hd'; try done. cbn [map]. by rewrite IH.
Qed.

Lemma table_set k p m h c : h !! p = Some c -> table_in (om_set k p m) h = om_set k (j_pkgName c, j_isDebug c) (table_in m h).
Proof.
  intros Hp. assert (Hkp : entry_of h (k, p) = (k, (j_pkgName c, j_isDebug c))) by (unfold entry_of; cbn [fst snd]; by rewrite Hp).
  unfold table_in. induction m as [|[k' q] m IH]; cbn [om_set map]; [by rewrite Hkp|].
  unfold entry_of at 2. cbn [fst snd]. case_bool_decide; [cbn [map]; by rewrite Hkp|].
  destruct (less k k'); cbn [map]; [by rewrite Hkp|]. by rewrite IH.
Qed.

(** Contexts that are replaced by contexts with the same entry. *)
Lemma table_same m h h' : (forall k p, In (k, p) m -> entry_of h' (k, p) = entry_of h (k, p)) -> table_in m h' = table_in m h.
Proof. intros Hs. apply map_ext_in. intros [k p] Hin. by apply Hs. Qed.

(** ** Steps keep the invariant *)

Lemma targets_app l l' : targets (l ++ l') = targets l ++ targets l'.
Proof. apply flat_map_app. Qed.

Lemma targets_finished s p c : JInv s -> j_heap s !! p = Some c -> j_finish c = false -> p ∉ targets (j_loop s).
Proof.
  intros I Hp Hf Hin. pose proof (ji_loop _ I) as L. rewrite Forall_forall in L. apply list_elem_of_In, in_flat_map in Hin as (cb & Hcb & Hin).
  apply list_elem_of_In in Hcb. specialize (L cb Hcb). destruct cb as [q|q|q|]; cbn in Hin; try done; destruct Hin as [->|[]];
    destruct L as (x & Hx & Hfx); congruence.
Qed.

Lemma JInv_push s cb : JInv s -> cb_ok (j_heap s) cb -> (forall p, p ∈ cb_target cb -> p ∉ targets (j_loop s)) -> JInv (jpush cb s).
Proof.
  intros [I1 I2 I3 I4 I5 I6 I7] Hc Hn. split; try done.
  - apply Forall_app. by split; [|constructor].
  - change (NoDup (targets (j_loop s ++ [cb]))). rewrite targets_app. unfold targets at 2. cbn [flat_map]. rewrite app_nil_r.
    apply NoDup_app. split; [done|]. split; [intros x Hx Hx'; by apply (Hn x)|].
    destruct cb; cbn; try constructor; try apply NoDup_nil_2. all: try set_solver. 
Qed.

(** A context that is finished leaves the table. *)
Lemma JInv_finish s p c c' : JInv s -> j_heap s !! p = Some c -> j_finish c = false -> j_jvm c' = j_jvm c ->
  let s' := jset_heap (<[p := c']> (j_heap s)) (jset_map (om_erase (j_pid c) (mapCtxJdwp s)) s) in
  JInv s' /\ table_of s' = om_erase (j_pid c) (table_of s).
Proof.
  intros I Hp Hf Hj s'. assert (Hin : forall k q, In (k, q) (om_erase (j_pid c) (mapCtxJdwp s)) -> q <> p /\ In (k, q) (mapCtxJdwp s)).
  { intros k q Hi. apply list_elem_of_In in Hi. unfold om_erase in Hi. apply list_elem_of_filter in Hi as [Hk Hi]. cbn in Hk.
    apply list_elem_of_In in Hi. split; [|done]. intros ->. destruct (ji_map _ I _ _ Hi) as (_ & d & Hd & Hpid & _). congruence. }
  destruct I as [I1 I2 I3 I4 I5 I6 I7]. split; [split; try done|].
  - apply om_sorted_erase. exact I1.
  - intros k q Hi. destruct (Hin k q Hi) as [Hne Hi']. destruct (I2 k q Hi') as (Hk & d & Hd & Hr). split; [done|]. exists d.
    split; [|done]. cbn. by rewrite lookup_insert_ne.
  - eapply Forall_impl; [exact I3|]. intros [q|q|q|]; cbn; try done; intros (x & Hx & Hfx);
      (destruct (decide (q = p)) as [->|Hne]; [simplify_eq; congruence|]); exists x; by rewrite lookup_insert_ne.
  - intros q d Hq. cbn in Hq. apply lookup_insert_Some in Hq as [[-> <-]|[_ Hq]]; [rewrite Hj; by eapply I5|by eapply I5].
  - intros Hs. cbn in Hs. cbn. by rewrite I7.
  - change (table_in (om_erase (j_pid c) (mapCtxJdwp s)) (<[p := c']> (j_heap s)) = om_erase (j_pid c) (table_of s)).
    rewrite table_frame; [apply table_erase|]. intros k Hi. destruct (Hin k p Hi). done.
Qed.

(** A finished context may be written to. *)
Lemma JInv_finished s p c c' : JInv s -> j_heap s !! p = Some c -> j_finish c = true -> j_finish c' = true -> j_jvm c' = false ->
  JInv (jset_heap (<[p := c']> (j_heap s)) s) /\ table_of (jset_heap (<[p := c']> (j_heap s)) s) = table_of s.
Proof.
  intros I Hp Hf Hf' Hj. assert (Hno : forall k, ~ In (k, p) (mapCtxJdwp s)).
  { intros k Hin. destruct (ji_map _ I _ _ Hin) as (_ & d & Hd & _ & Hd' & _). simplify_eq. congruence. }
  destruct I as [I1 I2 I3 I4 I5 I6 I7]. split; [split; try done|by apply table_frame].
  - intros k q Hin. destruct (I2 _ _ Hin) as (Hk & d & Hd & Hr). split; [done|]. exists d. split; [|done]. cbn.
    rewrite lookup_insert_ne; [done|]. intros ->. by apply (Hno k).
  - eapply Forall_impl; [exact I3|]. intros [q|q|q|]; cbn; try done; intros (x & Hx & Hfx);
      (destruct (decide (q = p)) as [->|Hne]; [exists c'; by rewrite lookup_insert_eq|]); exists x; by rewrite lookup_insert_ne.
  - intros q d Hq. cbn in Hq. apply lookup_insert_Some in Hq as [[-> <-]|[_ Hq]]; [done|by eapply I5].
Qed.

Lemma RemoveFd_poll pid s : exists v, RemoveFdFromPollList pid s = jset_poll v s.
Proof.
  unfold RemoveFdFromPollList. destruct (list_find _ _) as [[? [? n]]|]; [by eexists|]. exists (pollNodeMap s). by destruct s.
Qed.

Lemma JInv_poll v s : JInv s -> JInv (jset_poll v s).
Proof. by intros [I1 I2 I3 I4 I5 I6 I7]; split. Qed.

Definition sent_change (ch : Change) (s : HdcJdwp) (T : table) : list (Z * Z * bytes) :=
  match ch with Same => [] | _ => flat_map (told T) (live_prefix (j_tasks s) (jdwpTrackers s)) end.

(** [s'] is [s] after a change of its table. *)
Definition changed (ch : Change) (s s' : HdcJdwp) : Prop :=
  JInv s' /\ table_of s' = apply_change ch (table_of s) /\ j_sent s' = j_sent s ++ sent_change ch s (table_of s').

Lemma changed_same s s' : JInv s' -> table_of s' = table_of s -> j_sent s' = j_sent s -> changed Same s s'.
Proof. intros I Ht Hs. split; [done|]. split; [done|]. cbn. by rewrite app_nil_r. Qed.

(** [FreeContext] on a context whose name and flag may have been overwritten. *)
Lemma FreeContext_over env p s c c1 : JInv s -> j_heap s !! p = Some c ->
  j_finish c1 = j_finish c -> j_pid c1 = j_pid c -> j_jvm c1 = j_jvm c ->
  exists s', FreeContext env p (jset_heap (<[p := c1]> (j_heap s)) s) = Ok s' /\
    changed (if j_finish c || j_stop s then Same else Gone (j_pid c)) s s' /\ j_stop s' = j_stop s.
Proof.
  intros I Hp Hf1 Hpid Hj. unfold FreeContext, jupd, jctx. cbn [j_heap jset_heap]. rewrite lookup_insert_eq. cbn [deref mbind res_bind].
  rewrite insert_insert_eq, Hf1, Hpid. set (h := <[p := jset_finish c1]> (j_heap s)).
  destruct (j_finish c) eqn:Hf; cbn [orb].
  { destruct (JInv_finished s p c c1 I Hp Hf Hf1 ltac:(rewrite Hj; by eapply ji_jvm)) as [I1 T1]. eexists. split; [done|].
    split; [by apply changed_same|done]. }
  destruct (JInv_finish s p c (jset_finish c1) I Hp Hf Hj) as [I1 T1]. pose proof (targets_finished s p c I Hp Hf) as Hn. fold h in I1, T1.
  assert (P : forall s1, JInv s1 -> j_heap s1 = h -> j_loop s1 = j_loop s -> JInv (if jv_idle env then jpush (JIdle p) s1 else s1)).
  { intros s1 J1 Hp1 Hl1. destruct (jv_idle env); [|done]. apply JInv_push; [done| |].
    - exists (jset_finish c1). rewrite Hp1. unfold h. by rewrite lookup_insert_eq.
    - intros q ->%list_elem_of_singleton. by rewrite Hl1. }
  change (j_stop (jset_heap h (jset_heap (<[p := c1]> (j_heap s)) s))) with (j_stop s).
  change (jset_heap h (jset_heap (<[p := c1]> (j_heap s)) s)) with (jset_heap h s).
  destruct (j_stop s) eqn:Hst; cbn [mbind res_bind].
  - pose proof (ji_stop _ I Hst) as Hm. rewrite Hm in I1, T1. eexists. split; [done|].
    assert (E : jset_heap h (jset_map (om_erase (j_pid c) []) s) = jset_heap h s) by (destruct s; cbn in Hm; by subst).
    rewrite E in I1, T1. split; [apply changed_same; [by apply P| |]|]; try by destruct (jv_idle env).
    unfold table_of. rewrite Hm. destruct (jv_idle env); cbn; by rewrite Hm.
  - unfold AdminContext. change (OP_REMOVE =? OP_ADD) with false. change (OP_REMOVE =? OP_REMOVE) with true. cbn [orb]. cbv iota.
    set (s1 := jset_heap h (jset_map (om_erase (j_pid c) (mapCtxJdwp s)) s)) in *.
    change (jset_map _ (jset_heap h s)) with s1. destruct (RemoveFd_poll (j_pid c) s1) as [v ->].
    pose proof (JInv_poll v s1 I1) as I2. rewrite (ProcessListUpdated_ok _ (JInv_entries _ I2) (ji_trackers _ I2)).
    cbn [mbind res_bind]. eexists. split; [done|]. split; [|by destruct (jv_idle env)]. split; [|split].
    + apply P; [by apply JInv_updated|done|done].
    + cbn [apply_change]. rewrite <- T1. by destruct (jv_idle env).
    + cbn [sent_change]. by destruct (jv_idle env).
Qed.

Lemma jdwp_FreeContext_ok env p s c : JInv s -> j_heap s !! p = Some c ->
  exists s', FreeContext env p s = Ok s' /\ changed (if j_finish c || j_stop s then Same else Gone (j_pid c)) s s' /\
    j_stop s' = j_stop s.
Proof.
  intros I Hp. destruct (FreeContext_over env p s c c I Hp eq_refl eq_refl eq_refl) as (s' & E & R).
  rewrite insert_id in E by done. exists s'. split; [|done]. rewrite <- E. by destruct s.
Qed.

Lemma ReadStream_refused env p nread buf s c : JInv s -> j_heap s !! p = Some c -> nread <> 0 -> registers nread buf = None ->
  exists s', ReadStream env p nread buf s = Ok s' /\ changed (if j_finish c || j_stop s then Same else Gone (j_pid c)) s s' /\
    j_stop s' = j_stop s.
Proof.
  intros I Hp H0 Hr. destruct (jdwp_FreeContext_ok env p s c I Hp) as (s1 & E1 & R1).
  unfold ReadStream, jctx. rewrite Hp. cbn [deref mbind res_bind]. rewrite (proj2 (Z.eqb_neq nread 0)), andb_false_r by done.
  unfold registers in Hr. destruct (valid_nread nread) eqn:Hv; cbn [andb] in Hr; [|by exists s1].
  destruct (nread =? 4) eqn:H4; [breflect; subst; discriminate|].
  destruct (msgLen (read_header buf) =? u32 nread) eqn:Hm; cbn [andb] in Hr; [|by exists s1].
  destruct (0 <? i32 (jm_pid (read_header buf))) eqn:Hpos; [done|]. breflect.
  unfold jupd at 1, jctx. rewrite Hp. cbn [deref mbind res_bind]. unfold accept_pid. rewrite (proj2 (Z.leb_le _ 0)) by lia. cbn [mbind res_bind].
  by apply FreeContext_over.
Qed.

Lemma in_om_set {V} (k0 : Z) (v : V) m x : In x (om_set k0 v m) -> x = (k0, v) \/ In x m.
Proof.
  induction m as [|[k' v'] m IH]; cbn [om_set]; [intros [<-|[]]; by left|]. case_bool_decide; [intros [<-|?]; [by left|by right; right]|].
  destruct (less k0 k'); [intros [<-|?]; [by left|by right]|]. intros [<-|Hx]; [by right; left|]. destruct (IH Hx); [by left|by right; right].
Qed.

Lemma i32_pos_u32 x : 0 < i32 x -> u32 (i32 x) = i32 x.
Proof. intros Hx. pose proof (swrap_range 32 x ltac:(lia)) as [_ Hr]. apply uwrap_small. unfold in_u. cbn in Hr |- *. lia. Qed.

(** The state in which a new process is listed. *)
Definition listed (p : addr) (c : ContextJdwp) (pid : Z) (name : bytes) (debug : Z) (s : HdcJdwp) : HdcJdwp :=
  let h := <[p := jset_pid pid (jset_app name debug c)]> (j_heap s) in
  jset_map (if zlen (mapCtxJdwp s) <? maxMapSize then om_set pid p (mapCtxJdwp s) else mapCtxJdwp s) (jset_heap h s).

Lemma JInv_listed s p c pid name debug : JInv s -> j_heap s !! p = Some c -> j_finish c = false -> j_stop s = false ->
  j_pid c = 0 -> no_percent name -> 0 < pid ->
  JInv (listed p c pid name debug s) /\ table_of (listed p c pid name debug s) = apply_change (Register pid name debug) (table_of s).
Proof.
  intros I Hp Hf Hst H0 Hn Hpid. pose (c' := jset_pid pid (jset_app name debug c)).
  assert (Hno : forall k, ~ In (k, p) (mapCtxJdwp s)).
  { intros k Hin. destruct (ji_map _ I _ _ Hin) as (Hk & d & Hd & <- & _). simplify_eq. lia. }
  assert (Hold : forall k q, In (k, q) (mapCtxJdwp s) -> entry_ok (<[p := c']> (j_heap s)) k q).
  { intros k q Hin. destruct (ji_map _ I _ _ Hin) as (Hk & d & Hd & Hr). split; [done|]. exists d. split; [|done].
    rewrite lookup_insert_ne; [done|]. intros ->. by apply (Hno k). }
  destruct I as [I1 I2 I3 I4 I5 I6 I7]. unfold listed. split; [split; try done|].
  - cbn. destruct (_ <? _); [by apply om_sorted_set|done].
  - cbn. destruct (_ <? _); [|done]. intros k q [[= -> ->]|Hin]%in_om_set; [|by apply Hold].
    split; [done|]. exists c'. rewrite lookup_insert_eq. done.
  - eapply Forall_impl; [exact I3|]. intros [q|q|q|]; cbn; try done; intros (x & Hx & Hfx);
      (destruct (decide (q = p)) as [->|Hne]; [simplify_eq; congruence|]); exists x; by rewrite lookup_insert_ne.
  - intros q d Hq. cbn in Hq. apply lookup_insert_Some in Hq as [[-> <-]|[_ Hq]]; [cbn; by eapply I5|by eapply I5].
  - cbn. intros ?. congruence.
  - unfold table_of, apply_change. cbn [mapCtxJdwp j_heap jset_map jset_heap].
    replace (zlen (table_in (mapCtxJdwp s) (j_heap s))) with (zlen (mapCtxJdwp s)) by (unfold table_in; by rewrite length_map).
    destruct (zlen (mapCtxJdwp s) <? maxMapSize); [|by apply table_frame].
    rewrite (table_set pid p _ _ c') by apply lookup_insert_eq. by rewrite table_frame.
Qed.

Lemma ReadStream_register env p nread buf s c pid name debug : JInv s -> j_heap s !! p = Some c ->
  registers nread buf = Some (pid, name, debug) -> j_finish c = false -> j_stop s = false -> j_pid c = 0 -> no_percent name ->
  exists s', ReadStream env p nread buf s = Ok s' /\ changed (Register pid name debug) s s' /\ j_stop s' = false /\
    j_heap s' = <[p := jset_pid pid (jset_app name debug c)]> (j_heap s) /\ mapCtxJdwp s' = mapCtxJdwp (listed p c pid name debug s).
Proof.
  intros I Hp Hr Hf Hst H0 Hn. unfold registers in Hr.
  destruct (valid_nread nread) eqn:Hv; [|done]. destruct (msgLen (read_header buf) =? u32 nread) eqn:Hm; [|done].
  destruct (0 <? i32 (jm_pid (read_header buf))) eqn:Hpos; [|done]. cbn [andb] in Hr. injection Hr as <- <- <-. breflect.
  set (pid := i32 (jm_pid (read_header buf))) in *. set (name := substr buf _ _) in *. set (debug := jm_isDebug (read_header buf)) in *.
  assert (Hnr : 19 <= nread).
  { unfold valid_nread, JS_PKG_MIN_SIZE, sizeof_JsMsgHeader in Hv. destruct (nread <? 7 + 12) eqn:E; [|breflect; lia].
    cbn in Hv. by rewrite andb_false_r in Hv. }
  destruct (JInv_listed s p c pid name debug I Hp Hf Hst H0 Hn Hpos) as [I1 T1].
  pose proof (i32_pos_u32 _ Hpos) as Hu. fold pid in Hu.
  unfold ReadStream, jctx. rewrite Hp. cbn [deref mbind res_bind]. rewrite (proj2 (Z.eqb_neq nread 0)), andb_false_r by lia.
  rewrite Hv, (proj2 (Z.eqb_neq nread 4)), (proj2 (Z.eqb_eq _ _) Hm) by lia.
  fold pid name debug. unfold jupd at 1, jctx. rewrite Hp. cbn [deref mbind res_bind].
  unfold accept_pid. rewrite (proj2 (Z.leb_gt pid 0)) by lia. rewrite Hu. unfold jupd, jctx. cbn [j_heap jset_heap].
  rewrite lookup_insert_eq. cbn [deref mbind res_bind]. rewrite insert_insert_eq.
  unfold AdminContext. change (OP_ADD =? OP_ADD) with true. cbn [orb]. cbv iota.
  match goal with |- context [ProcessListUpdated None ?x] => replace x with (listed p c pid name debug s)
    by (unfold listed; cbn [mapCtxJdwp jset_heap]; destruct (zlen (mapCtxJdwp s) <? maxMapSize); by destruct s) end.
  rewrite (ProcessListUpdated_ok _ (JInv_entries _ I1) (ji_trackers _ I1)). cbn [mbind res_bind].
  pose proof (JInv_updated _ I1) as I2. change (j_heap (updated (listed p c pid name debug s)) !! p)
    with (<[p := jset_pid pid (jset_app name debug c)]> (j_heap s) !! p). rewrite lookup_insert_eq. cbn [deref mbind res_bind].
  assert (W : forall x v, j_heap (WakePollThread (jset_poll v x)) = j_heap x /\ mapCtxJdwp (WakePollThread (jset_poll v x)) = mapCtxJdwp x /\
    j_sent (WakePollThread (jset_poll v x)) = j_sent x /\ j_stop (WakePollThread (jset_poll v x)) = j_stop x /\
    (JInv x -> JInv (WakePollThread (jset_poll v x)))).
  { intros x v. unfold WakePollThread. destruct (_ <? 0); repeat (split; [done|]); intros [K1 K2 K3 K4 K5 K6 K7]; by split. }
  destruct (jv_fileno env); cbn [negb mbind res_bind].
  - eexists. split; [done|]. match goal with |- context [WakePollThread (jset_poll ?v ?x)] => destruct (W x v) as (W1 & W2 & W3 & W4 & W5) end.
    unfold changed, table_of. rewrite W1, W2, W3, W4. split; [|done]. split; [by apply W5|]. split; [exact T1|done].
  - eexists. split; [done|]. split; [|done]. split; [exact I2|]. split; [exact T1|done].
Qed.

Lemma changed_from ch s s1 s' : changed ch s1 s' -> table_of s1 = table_of s -> j_sent s1 = j_sent s -> j_tasks s1 = j_tasks s ->
  jdwpTrackers s1 = jdwpTrackers s -> changed ch s s'.
Proof. intros (I & T & S) Ht Hs Hk Hr. rewrite Ht in T. unfold sent_change in S. rewrite Hs, Hk, Hr in S. done. Qed.

Lemma JInv_fresh s p c : JInv s -> j_heap s !! p = None -> j_jvm c = false ->
  JInv (jset_heap (<[p := c]> (j_heap s)) s) /\ table_of (jset_heap (<[p := c]> (j_heap s)) s) = table_of s.
Proof.
  intros I Hp Hj. assert (Hno : forall k, ~ In (k, p) (mapCtxJdwp s)).
  { intros k Hin. destruct (ji_map _ I _ _ Hin) as (_ & d & Hd & _). congruence. }
  destruct I as [I1 I2 I3 I4 I5 I6 I7]. split; [split; try done|by apply table_frame].
  - intros k q Hin. destruct (I2 _ _ Hin) as (Hk & d & Hd & Hr). split; [done|]. exists d. split; [|done]. cbn.
    rewrite lookup_insert_ne; [done|]. intros ->. by apply (Hno k).
  - eapply Forall_impl; [exact I3|]. intros [q|q|q|]; cbn; try done; intros (x & Hx & Hfx); exists x;
      (rewrite lookup_insert_ne; [done|congruence]).
  - intros q d Hq. cbn in Hq. apply lookup_insert_Some in Hq as [[-> <-]|[_ Hq]]; [done|by eapply I5].
Qed.

Lemma JInv_refCount v s : JInv s -> JInv (jset_refCount v s).
Proof. by intros [I1 I2 I3 I4 I5 I6 I7]; split. Qed.

Lemma AcceptClient_ok env s : JInv s -> orderly env JAccept s ->
  exists s', AcceptClient env s = Ok s' /\ changed (change_of env JAccept s) s s'.
Proof.
  intros I Ho. cbn [orderly change_of] in *. unfold AcceptClient, MallocContext. destruct (jv_new env) as [p|]; [|exists s; split; [done|by apply changed_same]].
  pose proof (fun c => JInv_fresh s p c I Ho) as F. destruct (jv_accept env) as [fd|].
  - unfold jupd, jctx. cbn [j_heap jset_refCount jset_heap]. rewrite lookup_insert_eq. cbn [deref mbind res_bind]. rewrite insert_insert_eq.
    destruct (F (jset_fd fd ContextJdwp_new) eq_refl) as [I1 T1]. eexists. split; [done|]. apply changed_same; [|done|done].
    apply (JInv_refCount (u32 (j_refCount s + 1))) in I1. exact I1.
  - destruct (F ContextJdwp_new eq_refl) as [I1 T1]. apply (JInv_refCount (u32 (j_refCount s + 1))) in I1.
    destruct (jdwp_FreeContext_ok env p _ ContextJdwp_new I1) as (s' & E & C & _); [cbn; apply lookup_insert_eq|].
    exists s'. split; [exact E|]. eapply changed_from; [exact C|exact T1|done..].
Qed.

Lemma pop_callback s n cb : JInv s -> j_loop s !! n = Some cb ->
  let s0 := jset_loop (delete n (j_loop s)) s in
  JInv s0 /\ cb_ok (j_heap s) cb /\ (forall p, p ∈ cb_target cb -> p ∉ targets (delete n (j_loop s))).
Proof.
  intros [I1 I2 I3 I4 I5 I6 I7] Hn s0. pose proof (take_drop_middle _ _ _ Hn) as Hs. rewrite delete_take_drop.
  set (a := take n (j_loop s)) in *. set (b := drop (S n) (j_loop s)) in *. rewrite <- Hs in I3, I4.
  apply Forall_app in I3 as [Ia Ib]. apply List.Forall_cons_iff in Ib as [Hcb Ib].
  rewrite targets_app in I4. change (targets (cb :: b)) with (cb_target cb ++ targets b) in I4.
  apply NoDup_app in I4 as (Na & Nd & Nb). apply NoDup_app in Nb as (Nc & Ne & Nb).
  split; [|split; [done|]].
  - split; try done; unfold s0; cbn [j_loop j_heap jset_loop]; rewrite delete_take_drop; fold a b; [by apply Forall_app|].
    rewrite targets_app. apply NoDup_app. split; [done|]. split; [|done]. intros x Hx Hx'. apply (Nd x Hx). apply elem_of_app. by right.
  - intros p Hp Hin. rewrite targets_app in Hin. apply elem_of_app in Hin as [Hin|Hin]; [|by apply (Ne p)].
    apply (Nd p Hin). apply elem_of_app. by left.
Qed.

Lemma JInv_delete s p c : JInv s -> j_heap s !! p = Some c -> j_finish c = true -> p ∉ targets (j_loop s) ->
  JInv (jset_heap (delete p (j_heap s)) s) /\ table_of (jset_heap (delete p (j_heap s)) s) = table_of s.
Proof.
  intros I Hp Hf Hn. assert (Hno : forall k, ~ In (k, p) (mapCtxJdwp s)).
  { intros k Hin. destruct (ji_map _ I _ _ Hin) as (_ & d & Hd & _ & Hd' & _). simplify_eq. congruence. }
  destruct I as [I1 I2 I3 I4 I5 I6 I7]. split; [split; try done|].
  - intros k q Hin. destruct (I2 _ _ Hin) as (Hk & d & Hd & Hr). split; [done|]. exists d. split; [|done]. cbn.
    rewrite lookup_delete_ne; [done|]. intros ->. by apply (Hno k).
  - apply Forall_forall. intros cb Hcb. rewrite Forall_forall in I3. specialize (I3 cb Hcb).
    assert (Hne : forall q, q ∈ cb_target cb -> p <> q).
    { intros q Hq ->. apply Hn, list_elem_of_In, in_flat_map. exists cb. split; by apply list_elem_of_In. }
    destruct cb as [q|q|q|]; cbn in *; try done; destruct I3 as (x & Hx & Hfx); exists x;
      (rewrite lookup_delete_ne; [done|apply Hne; by apply list_elem_of_singleton]).
  - intros q d Hq. cbn in Hq. apply lookup_delete_Some in Hq as [_ Hq]. by eapply I5.
  - apply table_same. intros k q Hin. unfold entry_of. cbn [fst snd]. cbn. rewrite lookup_delete_ne; [done|]. intros ->. by apply (Hno k).
Qed.

Lemma callback_ok n s : JInv s -> is_Some (j_loop s !! n) ->
  exists s', (c ← deref (j_loop s !! n); run_callback c (jset_loop (delete n (j_loop s)) s)) = Ok s' /\ changed Same s s'.
Proof.
  intros I [cb Hn]. rewrite Hn. cbn [deref mbind res_bind]. destruct (pop_callback s n cb I Hn) as (I0 & Hc & Ht).
  set (s0 := jset_loop _ s) in *. assert (H0 : changed Same s s0) by by apply changed_same.
  destruct cb as [p|p|p|]; cbn [run_callback cb_ok] in *; [| |done|].
  - destruct Hc as (c & Hp & Hf). unfold funcReqClose, jctx. change (j_heap s0) with (j_heap s). rewrite Hp. cbn [deref mbind res_bind].
    pose proof (JInv_refCount (u32 (j_refCount s0 - 1)) s0 I0) as I1. destruct (j_closing c).
    { eexists. split; [done|]. by apply changed_same. }
    unfold jupd, jctx. change (j_heap (jset_refCount _ s0)) with (j_heap s). rewrite Hp. cbn [deref mbind res_bind].
    destruct (JInv_finished _ p c (jset_closing c) I1 Hp Hf Hf (ji_jvm _ I _ _ Hp)) as [I2 T2].
    eexists. split; [done|]. apply changed_same; [|exact T2|done]. apply JInv_push; [exact I2| |].
    + exists (jset_closing c). split; [cbn; by rewrite lookup_insert_eq|done].
    + intros q ->%list_elem_of_singleton. apply Ht. by apply list_elem_of_singleton.
  - destruct Hc as (c & Hp & Hf). unfold pipe_closed, jctx. change (j_heap s0) with (j_heap s). rewrite Hp. cbn [deref mbind res_bind].
    rewrite (ji_jvm _ I _ _ Hp). destruct (JInv_delete s0 p c I0 Hp Hf) as [I1 T1]; [apply Ht; by apply list_elem_of_singleton|].
    eexists. split; [done|]. by apply changed_same.
  - eexists. split; [done|]. apply changed_same; [by apply JInv_refCount|done|done].
Qed.

Lemma SetTask_ok t i s : JInv s -> (i = None -> t ∉ jdwpTrackers s) ->
  changed Same s (jset_tasks (partial_alter (fun _ => i) t (j_tasks s)) s).
Proof.
  intros [I1 I2 I3 I4 I5 [I6 I8] I7] Hi. apply changed_same; [|done|done]. split; try done. split; [done|]. cbn.
  apply Forall_forall. intros x Hx. rewrite Forall_forall in I8. destruct (decide (x = t)) as [->|Hne].
  - rewrite lookup_partial_alter_eq. destruct i; [by eexists|]. by destruct (Hi eq_refl).
  - rewrite lookup_partial_alter_ne by done. by apply I8.
Qed.

Lemma Untrack_ok t s : JInv s -> changed Same s (RemoveJdwpTracker (Some t) s).
Proof.
  intros I. unfold RemoveJdwpTracker. case_bool_decide; [|by apply changed_same]. destruct I as [I1 I2 I3 I4 I5 [I6 I8] I7].
  apply changed_same; [|done|done]. split; try done. split; cbn; [by apply NoDup_filter|].
  apply Forall_forall. intros x [_ Hx]%list_elem_of_filter. rewrite Forall_forall in I8. by apply I8.
Qed.

Lemma JInv_track t i s : JInv s -> JInv (jset_trackers
  (if bool_decide (t ∈ jdwpTrackers s) then jdwpTrackers s else jdwpTrackers s ++ [t]) (jset_tasks (<[t := i]> (j_tasks s)) s)).
Proof.
  intros [I1 I2 I3 I4 I5 [I6 I8] I7]. split; try done.
  assert (I9 : Forall (fun t' => is_Some (<[t := i]> (j_tasks s) !! t')) (jdwpTrackers s)).
  { eapply Forall_impl; [exact I8|]. intros x Hx. cbn in Hx. apply lookup_insert_is_Some. destruct (decide (t = x)); auto. }
  case_bool_decide as Ht; split; cbn; try done.
  - apply NoDup_app. split; [done|]. split; [|apply NoDup_singleton]. intros x Hx ->%list_elem_of_singleton. done.
  - apply Forall_app. split; [done|]. constructor; [by rewrite lookup_insert_eq|constructor].
Qed.

Lemma Track_ok env t param s : JInv s -> is_Some (j_tasks s !! t) -> exists s', TrackJdwpProcess t param s = Ok (true, s') /\
  JInv s' /\ table_of s' = table_of s /\ j_sent s' = j_sent s ++ sent_in env (JTrack t param) s (table_of s').
Proof.
  intros I [i Hi]. unfold TrackJdwpProcess, CreateJdwpTracker, sent_in. cbn [change_of]. rewrite Hi. cbn [deref mbind res_bind].
  set (i' := mkJTask _ _ _ _ _ _ _). pose proof (JInv_track t i' s I) as I1.
  set (s1 := jset_trackers _ _) in I1. change (jdwpTrackers (jset_tasks (<[t := i']> (j_tasks s)) s)) with (jdwpTrackers s).
  match goal with |- context [ProcessListUpdated (Some t) ?x] => replace x with s1 by (unfold s1; case_bool_decide; [by destruct s|done]) end.
  unfold ProcessListUpdated. rewrite bool_decide_eq_false_2.
  2: { unfold s1. cbn. case_bool_decide as Ht; [intros E; rewrite E in Ht; by apply elem_of_nil in Ht|by destruct (jdwpTrackers s)]. }
  change (j_tasks s1) with (<[t := i']> (j_tasks s)). rewrite lookup_insert_eq. cbn [deref mbind res_bind].
  rewrite (send_list_ok i' s1 (JInv_entries _ I1)). cbn [mbind res_bind]. eexists. split; [done|].
  split; [|done]. destruct I1 as [J1 J2 J3 J4 J5 J6 J7]. by split.
Qed.

Lemma AdminContext_query pid p s : AdminContext OP_QUERY pid p s = Ok (om_find pid (mapCtxJdwp s), s).
Proof. done. Qed.

Lemma Ark_ok env text fd s : JInv s -> exists b s', SendArkNewFD env text fd s = Ok (b, s') /\ changed Same s s'.
Proof.
  intros I. unfold SendArkNewFD. rewrite AdminContext_query. cbn [mbind res_bind].
  assert (K : forall x y, changed Same s (jset_closed y (jset_passed x s)) /\ changed Same s (jset_closed y s)).
  { intros x y. destruct I as [I1 I2 I3 I4 I5 I6 I7]. by split; apply changed_same. }
  destruct (om_find (ark_pid text) (mapCtxJdwp s)) as [p|] eqn:Ef; [|eexists false, s; split; [done|by apply changed_same]].
  repeat (match goal with |- context [if negb ?b then _ else _] => destruct b end; cbn [negb]; [|eexists false, _; split; [done|apply (K [])]]).
  destruct (ji_map _ I _ _ (om_find_In _ _ _ Ef)) as (_ & c & Hp & _). unfold jctx. rewrite Hp. cbn [deref mbind res_bind].
  unfold SendFdToApp. destruct (jv_sendmsg env); eexists true, _; (split; [done|apply (K (j_passed s ++ [(j_fd c, le_split 4 (u32 fd) ++ text, fd)]))]).
Qed.

Lemma NewFd_ok env buf s : JInv s -> orderly env (JNewFd buf) s -> exists s', JdwpNewFileDescriptor env buf s = Ok s' /\ changed Same s s'.
Proof.
  intros I (c & Hc & Hne). unfold JdwpNewFileDescriptor. rewrite Hc. cbn [deref mbind res_bind]. rewrite (proj2 (Z.eqb_neq _ _) Hne).
  assert (S0 : changed Same s s) by by apply changed_same.
  destruct (c =? SP_ARK_NEWFD); [|by exists s]. destruct (zlen buf <? 1 + 4); [by exists s|].
  destruct (Ark_ok env (zdrop 5 buf) (i32 (le_combine (ztake 4 (zdrop 1 buf)))) s I) as (b & s' & -> & C). by exists s'.
Qed.

(** Once the service is stopping, freeing leaves the tables alone. *)
Lemma FreeContext_stopped env p m s c : j_stop s = true -> j_heap s !! p = Some c -> exists s',
  FreeContext env p s = Ok s' /\ FreeContext env p (jset_map m s) = Ok (jset_map m s') /\ j_stop s' = true /\ j_sent s' = j_sent s /\
  j_tasks s' = j_tasks s /\ jdwpTrackers s' = jdwpTrackers s /\ mapCtxJdwp s' = mapCtxJdwp s /\
  (forall q, is_Some (j_heap s !! q) -> is_Some (j_heap s' !! q)).
Proof.
  intros Hst Hp. unfold FreeContext, jupd, jctx. cbn [j_heap jset_map]. rewrite Hp. cbn [deref mbind res_bind].
  destruct (j_finish c); [by exists s|]. cbn [j_stop jset_heap jset_map]. rewrite Hst. cbn [mbind res_bind].
  eexists. split; [done|]. split; [by destruct (jv_idle env)|].
  assert (D : forall q, is_Some (j_heap s !! q) -> is_Some (<[p := jset_finish c]> (j_heap s) !! q)).
  { intros q Hq. apply lookup_insert_is_Some. destruct (decide (p = q)); auto. }
  destruct (jv_idle env); repeat (split; [done|]); exact D.
Qed.

Lemma free_listed_ok env m l s : JInv s -> j_stop s = true -> Forall (fun p => is_Some (j_heap s !! p)) l -> exists s',
  free_listed env l (jset_map m s) = Ok (jset_map m s') /\ JInv s' /\ j_stop s' = true /\ j_sent s' = j_sent s /\
  j_tasks s' = j_tasks s /\ jdwpTrackers s' = jdwpTrackers s.
Proof.
  revert s. induction l as [|p l IH]; intros s I Hst Hl; cbn [free_listed]; [by exists s|].
  apply List.Forall_cons_iff in Hl as [[c Hp] Hl].
  destruct (FreeContext_stopped env p m s c Hst Hp) as (s1 & E1 & E2 & S1 & S2 & S3 & S4 & _ & D).
  destruct (jdwp_FreeContext_ok env p s c I Hp) as (s1' & E1' & (I1 & _) & _). rewrite E1 in E1'. injection E1' as <-.
  unfold FreeContextRaw. rewrite E2. cbn [mbind res_bind].
  destruct (IH s1 I1 S1) as (s' & E & I' & R1 & R2 & R3 & R4); [eapply Forall_impl; [exact Hl|exact D]|].
  exists s'. rewrite R2, R3, R4. done.
Qed.

Lemma Stop_ok env s : JInv s -> exists s', Stop env s = Ok s' /\ changed Cleared s s'.
Proof.
  intros I. unfold Stop.
  set (s1 := if j_listen _ then _ else _).
  assert (K : j_sent s1 = j_sent s /\ j_tasks s1 = j_tasks s /\ jdwpTrackers s1 = jdwpTrackers s /\ mapCtxJdwp s1 = mapCtxJdwp s /\
              j_heap s1 = j_heap s /\ j_stop s1 = true /\ JInv (jset_map [] s1)).
  { assert (I0 : JInv (jset_map [] (WakePollThread (jset_stop true s)))).
    { destruct I as [I1 I2 I3 I4 I5 I6 I7]. unfold WakePollThread. destruct (_ <? 0); split; try done; constructor. }
    unfold s1, WakePollThread in *. destruct (awakenPollFd (jset_stop true s) <? 0); cbn [j_listen jset_awaken jset_stop] in *;
      destruct (j_listen s); repeat (split; [done|]); try exact I0;
      (destruct I0 as [I1 I2 I3 I4 I5 I6 I7]; split; try done;
       [apply Forall_app; by split; [|constructor]|
        cbn; unfold targets in *; rewrite flat_map_app; cbn; by rewrite app_nil_r]). }
  clearbody s1. destruct K as (K1 & K2 & K3 & K4 & K5 & K6 & I1).
  destruct (free_listed_ok env (mapCtxJdwp s1) (map snd (mapCtxJdwp s1)) (jset_map [] s1) I1 K6) as (s2 & E & I2 & R1 & R2 & R3 & R4).
  { apply Forall_forall. intros p Hp. apply list_elem_of_In, in_map_iff in Hp as ([k q] & <- & Hin). rewrite K4 in Hin.
    destruct (ji_map _ I _ _ Hin) as (_ & c & Hc & _). cbn. rewrite K5. by eexists. }
  replace (jset_map (mapCtxJdwp s1) (jset_map [] s1)) with s1 in E by by destruct s1. rewrite E. cbn [mbind res_bind].
  unfold AdminContext. change (OP_CLEAR =? OP_ADD) with false. change (OP_CLEAR =? OP_REMOVE) with false.
  change (OP_CLEAR =? OP_QUERY) with false. change (OP_CLEAR =? OP_CLEAR) with true. cbn [orb]. cbv iota.
  change (jset_map [] (jset_map (mapCtxJdwp s1) s2)) with (jset_map [] s2).
  assert (I3 : JInv (jset_poll ∅ (jset_map [] s2))).
  { destruct I2 as [J1 J2 J3 J4 J5 J6 J7]. split; try done. constructor. }
  rewrite (ProcessListUpdated_ok _ (JInv_entries _ I3) (ji_trackers _ I3)). cbn [mbind res_bind]. eexists. split; [done|].
  split; [by apply JInv_updated|]. split; [done|]. cbn [sent_change].
  change (j_sent s2 ++ flat_map (told (table_of (jset_poll ∅ (jset_map [] s2)))) (live_prefix (j_tasks s2) (jdwpTrackers s2)) =
    j_sent s ++ flat_map (told []) (live_prefix (j_tasks s) (jdwpTrackers s))).
  rewrite R2, R3, R4. cbn [j_sent j_tasks jdwpTrackers jset_map]. rewrite K1, K2, K3. done.
Qed.

(** ** Every event *)

Lemma jstep_ok env e s : JInv s -> orderly env e s -> exists s', jstep env e s = Ok s' /\ JInv s' /\
  table_of s' = apply_change (change_of env e s) (table_of s) /\ j_sent s' = j_sent s ++ sent_in env e s (table_of s').
Proof.
  intros I Ho.
  assert (W : forall ch r, change_of env e s = ch -> (forall t x, e <> JTrack t x) -> (exists s', r = Ok s' /\ changed ch s s') ->
    exists s', r = Ok s' /\ JInv s' /\ table_of s' = apply_change (change_of env e s) (table_of s) /\
      j_sent s' = j_sent s ++ sent_in env e s (table_of s')).
  { intros ch r Hch Hnt (s' & E & I' & T' & S'). exists s'. rewrite Hch. repeat (split; [done|]). rewrite S'. unfold sent_in. rewrite Hch.
    destruct ch; try done. destruct e; try done. by destruct (Hnt t param). }
  destruct e as [|p nread buf|n|t i|t param|t|buf|]; cbn [jstep].
  - by eapply W; [done|done|apply AcceptClient_ok].
  - destruct Ho as (c & Hp & Hc & Hr). eapply W; [done|done|]. cbn [change_of]. rewrite Hp. destruct (nread =? 0) eqn:H0.
    + exists s. split; [|by apply changed_same]. breflect. subst. unfold ReadStream, jctx. by rewrite Hp.
    + breflect. destruct (registers nread buf) as [[[pid name] debug]|] eqn:Er.
      * destruct Hr as (Hf & Hst & Hz & Hn). destruct (ReadStream_register env p nread buf s c pid name debug) as (s' & E & C & _); eauto.
      * destruct (ReadStream_refused env p nread buf s c) as (s' & E & C & _); eauto.
  - by eapply W; [done|done|apply callback_ok].
  - eapply W; [done|done|]. eexists. split; [done|by apply SetTask_ok].
  - destruct (Track_ok env t param s I Ho) as (s' & E & R). rewrite E. cbn [mbind res_bind]. by exists s'.
  - eapply W; [done|done|]. eexists. split; [done|by apply Untrack_ok].
  - by eapply W; [done|done|apply NewFd_ok].
  - by eapply W; [done|done|apply Stop_ok].
Qed.

(** States the service reaches after it was started. *)
Inductive jreach : HdcJdwp -> Prop :=
| jr_start env s : Initial env HdcJdwp_new = (RET_SUCCESS, s) -> jreach s
| jr_step env e s s' : jreach s -> orderly env e s -> jstep env e s = Ok s' -> jreach s'.

Lemma jreach_inv s : jreach s -> JInv s.
Proof.
  induction 1 as [env s E|env e s s' _ IH Ho E].
  - unfold Initial, JdwpListen, CreateFdEventPoll in E.
    repeat (match type of E with context [if ?b then _ else _] => destruct b end; cbn in E; try discriminate);
      injection E as <-; (split; try done; try constructor; try apply NoDup_nil_2; constructor).
  - destruct (jstep_ok env e s IH Ho) as (s1 & E1 & I1 & _). congruence.
Qed.

End System.
