(* ===== verification/JdwpSystem.v ===== *)
(** * JdwpSystem: the process service, the applications and the trackers

    The theorems on reachable states of the service of [Jdwp], and the runs in
    which the code does not do what it means to. *)

From Stdlib Require Import String ZArith Lia List Bool.
From stdpp Require Import base list numbers option gmap.
From S2P Require Import Prelude Defs OrdMap Session Strings Numbers Translate Forward Jdwp JdwpProps.

(** Hash tables that are walked in the order of their keys. *)
#[local] Instance plain_order : HashOrder := {| hash_order m := map_to_list m; hash_order_perm m := Permutation_refl _ |}.

(** ** From the application to the table *)

Lemma SendBuf_whole rcs buf out out' : SendBuf rcs buf out = (true, out') -> concat out' = concat out ++ buf.
Proof.
  revert buf out. induction rcs as [|r rcs IH]; intros buf out; cbn [SendBuf]; destruct (zlen buf =? 0) eqn:E0; breflect.
  1,3: intros [= <-]; destruct buf; [by rewrite app_nil_r|cbn [length] in E0; lia].
  - done.
  - destruct r as [| |rc]; [by apply IH|done|]. destruct (rc <=? 0); [done|]. intros Hs%IH. rewrite Hs, concat_app. cbn [concat].
    rewrite app_nil_r, <- (assoc_L (++)), ztake_zdrop. done.
Qed.

(** What is announced is what is read. *)
Lemma announcement_read pid pkg proc (debug : bool) : 0 < pid < 2 ^ 31 ->
  JS_PKG_MIN_SIZE <= zlen (pkg_process pkg proc) <= JS_PKG_MAX_SIZE ->
  let msg := Send2Jdwp_msg pid pkg proc debug in
  registers (zlen msg) msg = Some (pid, pkg_process pkg proc, if debug then 1 else 0).
Proof.
  intros Hpid Hpp msg. unfold JS_PKG_MIN_SIZE, JS_PKG_MAX_SIZE in Hpp. set (pp := pkg_process pkg proc) in *.
  assert (Hsz : u32 (zlen pp + sizeof_JsMsgHeader) = zlen pp + 12).
  { apply uwrap_small. unfold in_u, sizeof_JsMsgHeader. lia. }
  assert (Hmsg : msg = le_split 4 (zlen pp + 12) ++ le_split 4 pid ++ [if debug then 1 else 0] ++ [0; 0; 0] ++ pp).
  { unfold msg, Send2Jdwp_msg, write_header. fold pp. cbn [msgLen jm_pid jm_isDebug]. rewrite Hsz.
    rewrite (uwrap_small 32 pid) by (unfold in_u; lia). rewrite <- !(assoc_L (++)). f_equal. f_equal. by destruct debug. }
  assert (Hl : zlen msg = zlen pp + 12) by (rewrite Hmsg; autorewrite with hdc_rw; rewrite ?length_app; cbn [length]; lia).
  assert (Hle : forall z, 0 <= z < 2 ^ 32 -> le_combine (le_split 4 z) = z).
  { intros z Hz. rewrite le_combine_split. change (8 * Z.of_nat 4) with 32. apply Z.mod_small. lia. }
  assert (Hm : read_header msg = mkJsMsg (zlen pp + 12) pid (if debug then 1 else 0)).
  { unfold read_header. rewrite Hmsg. rewrite (ztake_app _ _ 4) by (by rewrite length_le_split).
    rewrite (zdrop_app _ _ 4) by (by rewrite length_le_split). rewrite (ztake_app _ _ 4) by (by rewrite length_le_split).
    rewrite (Hle pid), (Hle (zlen pp + 12)) by lia. f_equal. rewrite (assoc_L (++)).
    rewrite (zdrop_app _ _ 8) by (by rewrite length_app, !length_le_split). by destruct debug. }
  unfold registers. rewrite Hm. cbn [msgLen jm_pid jm_isDebug]. rewrite Hl.
  assert (Hv : valid_nread (zlen pp + 12) = true).
  { unfold valid_nread, UV_ENOBUFS, JS_PKG_MIN_SIZE, JS_PKG_MAX_SIZE, sizeof_JsMsgHeader. rewrite (proj2 (Z.eqb_neq _ _)) by lia.
    rewrite !(proj2 (Z.ltb_ge _ _)) by lia. done. }
  rewrite Hv, (uwrap_small 32) by (unfold in_u; lia). rewrite Z.eqb_refl. cbn [andb].
  assert (Hi : i32 pid = pid) by (rewrite <- (uwrap_small 32 pid) at 1 by (unfold in_u; lia); apply swrap_uwrap; [lia|unfold in_s; lia]).
  rewrite Hi, (proj2 (Z.ltb_lt 0 pid)) by lia. f_equal. f_equal. f_equal. unfold substr, sizeof_JsMsgHeader.
  replace (zlen pp + 12 - 12) with (zlen pp) by lia. rewrite (uwrap_small 32) by (unfold in_u; lia).
  rewrite Hmsg, !(assoc_L (++)). rewrite (zdrop_app _ pp 12) by (rewrite !length_app, !length_le_split; done). by apply ztake_ge.
Qed.

Lemma all_alive tasks l : (forall t, t ∈ l -> exists i, tasks !! t = Some i /\ alive i = true) ->
  forall t i, t ∈ l -> tasks !! t = Some i -> In i (live_prefix tasks l).
Proof.
  induction l as [|x l IH]; intros Ha t i Hin Ht; [by apply elem_of_nil in Hin|]. cbn [live_prefix].
  destruct (Ha x ltac:(by left)) as (j & Hj & Hal). rewrite Hj, Hal. apply elem_of_cons in Hin as [->|Hin].
  - left. congruence.
  - right. eapply IH; [|exact Hin|exact Ht]. intros y Hy. apply Ha. by right.
Qed.

Lemma print_in dr (T : table) pid name flag : om_find pid T = Some (name, flag) ->
  exists before after, print_table dr T = before ++ app_line dr pid name flag ++ after.
Proof.
  intros (a & b & ->)%om_find_In%in_split. exists (print_table dr a), (print_table dr b). unfold print_table.
  rewrite map_app, concat_app. done.
Qed.

Lemma find_char c a b : c ∉ a -> find [c] (a ++ c :: b) 0 = Some (zlen a).
Proof.
  intros Ha. unfold find. rewrite (proj2 (Z.ltb_ge _ _)) by lia. rewrite zdrop_0. pose proof (find_aux_char c (a ++ c :: b) 0) as Hf.
  destruct (find_aux [c] (a ++ c :: b) 0) as [j|].
  - destruct Hf as (a' & b' & He & Ha' & ->). f_equal. enough (a = a') as -> by lia. clear -He Ha Ha'.
    revert a' He Ha'. induction a as [|x a IH]; intros [|y a'] He Ha'; [done| | |].
    + injection He as -> _. destruct Ha'. by left.
    + injection He as -> _. destruct Ha. by left.
    + injection He as -> He. f_equal. apply IH; [set_solver|done|set_solver].
  - destruct Hf. apply elem_of_app. right. by left.
Qed.

Lemma ark_pid_text pid rest : 0 <= pid <= INT_MAX -> ark_pid (str "ark:" ++ to_string pid ++ 64 :: rest) = pid.
Proof.
  intros Hp. unfold ark_pid. change (str "ark:" ++ ?x) with ([97; 114; 107] ++ 58 :: x).
  rewrite find_char by (repeat (apply not_elem_of_cons; split; [done|]); apply not_elem_of_nil). change (zlen [97; 114; 107] + 1) with 4.
  change (zdrop 4 ([97; 114; 107] ++ 58 :: ?x)) with x.
  rewrite find_char by (apply digits_notin; [apply to_string_digits; lia|done]). rewrite ztake_app by done.
  rewrite to_string_atoi by done. apply uwrap_small. unfold in_u, INT_MAX in *. lia.
Qed.

(** ** The service *)

Section Claims.
Context `{HashOrder}.

(** C16.  Whatever orderly events led to a state and whatever comes next, no deleted
    object is accessed, the service goes on as a table from process ids to names
    and flags does -- an announcement adds an entry while there are fewer than
    1024, the end of a connection removes it, stopping empties it -- and what is
    sent during the event is the new table, printed for each tracker as it asked,
    up to the first tracker that has ended. *)
Theorem process_table_refined env e s : jreach s -> orderly env e s -> exists s', jstep env e s = Ok s' /\ jreach s' /\
  table_of s' = apply_change (change_of env e s) (table_of s) /\ j_sent s' = j_sent s ++ sent_in env e s (table_of s').
Proof.
  intros R Ho. destruct (jstep_ok env e s (jreach_inv s R) Ho) as (s' & E & _ & T & S). exists s'.
  split; [done|]. split; [by eapply jr_step|done].
Qed.



End Claims.

(** ** A scene: one tracker, one connection *)

Definition sysenv (p : addr) : JEnv := mkJEnv (Some p) (Some (p + 9)) true true true true true true true 3 true true 4 0.
Fixpoint jrun (env : JEnv) (l : list JEvent) (s : HdcJdwp) : res HdcJdwp :=
  match l with [] => Ok s | e :: l => s ← jstep env e s; jrun env l s end.
Definition after (r : res HdcJdwp) : HdcJdwp := match r with Ok s => s | _ => HdcJdwp_new end.

Definition tracker (chan : Z) : JTask := mkJTask 7 chan false false true true 1.
Definition hello (pid : Z) : bytes := Send2Jdwp_msg pid (str "com.example.app") (str "main") true.
Definition announce (p : addr) (pid : Z) : JEvent := JRead p (zlen (hello pid)) (hello pid).

Definition started : HdcJdwp := (Initial (sysenv 1) HdcJdwp_new).2.
Definition scene : HdcJdwp := after (jrun (sysenv 1) [JAccept; JSetTask 100 (Some (tracker 8)); JTrack 100 (str "a")] started).
Definition listed_scene : HdcJdwp := after (jrun (sysenv 1) [announce 1 42] scene).

Lemma scene_reach : jreach scene.
Proof.
  apply (jr_step (sysenv 1) (JTrack 100 (str "a")) (after (jrun (sysenv 1) [JAccept; JSetTask 100 (Some (tracker 8))] started)));
    [|vm_compute; by eexists|by vm_compute].
  apply (jr_step (sysenv 1) (JSetTask 100 (Some (tracker 8))) (after (jrun (sysenv 1) [JAccept] started))); [|done|by vm_compute].
  apply (jr_step (sysenv 1) JAccept started); [|by vm_compute|by vm_compute]. by apply (jr_start (sysenv 1)).
Qed.

Lemma announce_orderly : orderly (sysenv 1) (announce 1 42) scene.
Proof.
  cbn [announce orderly]. exists (mkJCtx 0 false [] 0 0 10 false false). split; [by vm_compute|]. split; [done|].
  assert (E : registers (zlen (hello 42)) (hello 42) = Some (42, str "com.example.app/main", 1)) by by vm_compute.
  rewrite E. repeat (split; [by vm_compute|]). apply (bool_decide_eq_true_1 (no_percent _)). by vm_compute.
Qed.

Lemma listed_reach : jreach listed_scene.
Proof. apply (jr_step (sysenv 1) (announce 1 42) scene); [apply scene_reach|apply announce_orderly|by vm_compute]. Qed.

Lemma process_table_refined_witness : exists s', jstep (sysenv 1) (announce 1 42) scene = Ok s' /\
  table_of s' = [(42, (str "com.example.app/main", 1))] /\
  j_sent s' = j_sent scene ++ [(7, 8, MSG_OK :: str "001e" ++ [10] ++ str "42 com.example.app/main debug" ++ [10])].
Proof.
  destruct (process_table_refined (sysenv 1) (announce 1 42) scene scene_reach announce_orderly) as (s' & E & _ & T & S).
  exists s'. split; [exact E|]. rewrite T in S |- *. split; [by vm_compute|]. rewrite S. by vm_compute.
Defined.

Lemma scene_tracked : 100 ∈ jdwpTrackers scene /\ forall x, x ∈ jdwpTrackers scene -> exists j, j_tasks scene !! x = Some j /\ alive j = true.
Proof.
  assert (E : jdwpTrackers scene = [100]) by by vm_compute. rewrite E. split; [by left|]. intros x ->%list_elem_of_singleton.
  eexists. split; by vm_compute.
Qed.



(** ** What goes wrong *)

(** The polling thread does nothing: [poll] is told that there are no
    descriptors, so that no entry ever has an event. *)
Lemma poll_thread_inert `{HashOrder} (poll : list PollFd -> Z -> list PollFd) pollfds s :
  (forall l, poll l 0 = l) -> Forall (fun f => pf_revents f = 0) pollfds ->
  map_Forall (fun _ n => pf_revents (pollfd n) = 0) (pollNodeMap s) ->
  exists pollfds', FdEventPollThread_turn poll pollfds s = Ok (pollfds', s) /\ Forall (fun f => pf_revents f = 0) pollfds'.
Proof.
  intros Hpoll Hf Hm. unfold FdEventPollThread_turn. destruct (j_stop s); [by exists pollfds|]. rewrite Hpoll.
  assert (Hg : Forall (fun f => pf_revents f = 0) (GetPollFd pollfds s)).
  { unfold GetPollFd. destruct (_ || _); [done|]. apply Forall_app. split; [|by repeat constructor].
    apply Forall_fmap, Forall_forall. intros [k n] Hin. rewrite hash_order_perm in Hin. apply elem_of_map_to_list in Hin. exact (Hm k n Hin). }
  exists (GetPollFd pollfds s). split; [|done]. assert (E : poll_entries (GetPollFd pollfds s) s = Ok s); [|by rewrite E].
  induction Hg as [|f l Hx Hl IH]; [done|]. cbn [poll_entries]. unfold poll_entry. rewrite Hx. exact IH.
Qed.

Definition bad : bytes := repeat 1 524.

(** A connection that announces two processes leaves the first listed with a
    deleted context when it ends. *)
Lemma two_processes_dangle : exists s, jrun (sysenv 1) [announce 1 42; announce 1 43; JRead 1 UV_EOF []; JCallback 0; JCallback 0] scene = Ok s /\
  CheckPIDExist 42 s = true /\ j_heap s !! 1 = None /\ jrun (sysenv 1) [JTrack 100 (str "a")] s = Undefined.
Proof. eexists. split; [by vm_compute|]. by vm_compute. Qed.

(** A context that failed still reads: what it then announces stays listed after
    its deletion. *)
Lemma failed_context_registers : exists s, jrun (sysenv 1) [JRead 1 524 bad; announce 1 42; JCallback 0; JCallback 0] scene = Ok s /\
  CheckPIDExist 42 s = true /\ jrun (sysenv 1) [JTrack 100 (str "a")] s = Undefined.
Proof. eexists. split; [by vm_compute|]. by vm_compute. Qed.

(** The end of a process's old connection takes its new one off the list. *)
Lemma old_connection_unlists : exists s, jrun (sysenv 2) [announce 1 42; JAccept; announce 2 42; JRead 1 UV_EOF []] scene = Ok s /\
  CheckPIDExist 42 s = false /\ exists c, j_heap s !! 2 = Some c /\ j_finish c = false /\ j_pid c = 42.
Proof. eexists. split; [by vm_compute|]. split; [by vm_compute|]. eexists. split; [by vm_compute|done]. Qed.

(** A tracker that has ended hides the change from those after it. *)
Lemma ended_tracker_hides_change : exists s, jrun (sysenv 1) [JSetTask 101 (Some (tracker 9)); JTrack 101 (str "a");
    JSetTask 100 (Some (mkJTask 7 8 true false true true 3))] scene = Ok s /\
  jdwpTrackers s = [100; 101] /\ exists s', jrun (sysenv 1) [announce 1 42] s = Ok s' /\ table_of s' <> [] /\ j_sent s' = j_sent s /\
  jdwpTrackers s' = [101].
Proof. eexists. split; [by vm_compute|]. split; [by vm_compute|]. eexists. split; [by vm_compute|]. split; [by vm_compute|done]. Qed.

(** A descriptor that was sent through [jvmTCP] keeps it in the loop. *)
Lemma jvm_handle_left : exists s, jrun (sysenv 1) [announce 1 42; JNewFd (SP_JDWP_NEWFD :: le_split 4 42 ++ le_split 4 55);
    JRead 1 UV_EOF []; JCallback 0; JCallback 0] scene = Ok s /\ j_loop s = [JClosed 1] /\
  jrun (sysenv 1) [JCallback 0] s = Undefined.
Proof. eexists. split; [by vm_compute|]. by vm_compute. Qed.

(** A registration after the stop is never taken off the list. *)
Lemma stopped_registration_dangles : exists s, jrun (sysenv 1) [JStop; announce 1 42; JRead 1 UV_EOF []; JCallback 1; JCallback 1] scene = Ok s /\
  j_heap s !! 1 = None /\ CheckPIDExist 42 s = true /\ jrun (sysenv 1) [JTrack 100 (str "a")] s = Undefined.
Proof. eexists. split; [by vm_compute|]. by vm_compute. Qed.

Definition long_name : bytes := repeat 97 500.
Definition announce_long (pid : Z) : JEvent :=
  let msg := Send2Jdwp_msg pid long_name [] true in JRead 1 (zlen msg) msg.

(** A list that does not fit is not cut, it is not sent. *)
Lemma long_list_not_sent : exists s, jrun (sysenv 1) (JAccept :: map announce_long [1; 2; 3; 4; 5; 6; 7; 8] ++
    [JSetTask 100 (Some (tracker 8)); JTrack 100 (str "a")]) started = Ok s /\
  JdwpProcessListMsg jpidTrackListSize 0 s = Ok (Some (str "0fb8" ++ [10] ++ print_table 0 (table_of s))) /\
  exists s', jrun (sysenv 1) [announce_long 9] s = Ok s' /\ table_of s' <> table_of s /\ j_sent s' = j_sent s.
Proof. eexists. split; [by vm_compute|]. split; [by vm_compute|]. eexists. split; [by vm_compute|]. split; [by vm_compute|done]. Qed.

(** The stream is read as if it kept messages: an announcement that arrives in
    two reads is refused. *)
Lemma split_announcement_refused : exists s a b, Send2Jdwp true [WrDone 16; WrDone 16] 42 (str "com.example.app") (str "main") true = (true, [a; b]) /\
  jrun (sysenv 1) [JRead 1 (zlen a) a] scene = Ok s /\ CheckPIDExist 42 s = false /\ j_loop s = [JIdle 1].
Proof. eexists _, _, _. split; [by vm_compute|]. split; [by vm_compute|]. by vm_compute. Qed.

(** Package names are used as a format. *)
Lemma package_name_is_a_format : let msg := Send2Jdwp_msg 42 (str "com.%s%n") [] true in
  jrun (sysenv 1) [JRead 1 (zlen msg) msg] scene = Undefined.
Proof. by vm_compute. Qed.

(** [pthread_create] returns positive errors; only negative ones are seen. *)
Lemma thread_failure_unnoticed : (Initial (mkJEnv None None true true true true true true true 3 true true 4 11) HdcJdwp_new).1 = RET_SUCCESS.
Proof. done. Qed.

(** The descriptor for a process that is gone is not closed. *)
Lemma ark_descriptor_leaks : exists s, SendArkNewFD (sysenv 1) (str "ark:43@7@Debugger") 55 listed_scene = Ok (false, s) /\
  (55 ∉ j_closedFds s) /\ j_passed s = [].
Proof. eexists. split; [by vm_compute|]. split; [|done]. apply (bool_decide_eq_true_1 _). by vm_compute. Qed.

(** A text of more than 251 bytes is cut by the reader. *)
Lemma long_ark_text_cut : let text := str "ark:42@" ++ repeat 97 245 in
  exists s c data, SendArkNewFD (sysenv 1) text 55 listed_scene = Ok (true, s) /\ j_passed s = [(c, data, 55)] /\
  ReadFromJdwp_turn (ztake (read_size - 1) data) (Some 77) = Some (Some (77, str "ark:42@" ++ repeat 97 244)).
Proof. eexists _, _, _. split; [by vm_compute|]. split; by vm_compute. Qed.

(** Both sides use the same abstract socket. *)
Lemma same_socket : bind_name jdwpCtrlName (zlen jdwpCtrlName) = Connect2Jdwp_name.
Proof. by vm_compute. Qed.
