(* ===== verification/Credential.v ===== *)
(** * Credential: the credential service and its clients

    The fixed-width text messages of [credential_message.cpp], the service that
    answers them ([credential/main.cpp], [credential/secret_manage.cpp]), the AES
    wrappers of [hdc_huks.cpp], and the clients [password.cpp] and
    [connect_validation.cpp].  The key store and OpenSSL are classes of
    functions; [cred_alloc] says which allocations succeed. *)

From Stdlib Require Import String ZArith Lia List Bool.
From stdpp Require Import base list numbers option.
From S2P Require Import Prelude Defs Strings Numbers.

Definition MESSAGE_STR_MAX_LEN : Z := 4096.
Definition MESSAGE_VERSION_POS : Z := 0.
Definition MESSAGE_METHOD_POS : Z := 1.
Definition MESSAGE_METHOD_LEN : Z := 3.
Definition MESSAGE_LENGTH_POS : Z := 4.
Definition MESSAGE_LENGTH_LEN : Z := 4.
Definition MESSAGE_BODY_POS : Z := 8.
Definition METHOD_ENCRYPT : Z := 1.
Definition METHOD_DECRYPT : Z := 2.
Definition METHOD_COMMAND_EVENT_REPORT : Z := 1.
Definition GET_PUBKEY_SUCCESSED : Z := 0.
Definition GET_PUBKEY_FAILED : Z := 1.
Definition GET_PRIVKEY_FAILED : Z := 2.
Definition MISMATCH_PUBKEY_PRIVKEY : Z := 3.
Definition GET_PRIVATE_SUCCESSED : Z := 4.
Definition GET_PUBKEY : Z := 0.
Definition GET_SIGNATURE : Z := 1.
Definition METHOD_CRYPTO_KEY : Z := 1.
Definition METHOD_REPORT : Z := 2.
Definition METHOD_AUTHVERIFY : Z := 3.
Definition METHOD_VERSION_MAX : Z := 9.
Definition PASSWORD_LENGTH : Z := 10.
Definition AES_GCM_NONCE_BYTE_LEN : Z := 12.
Definition AES_GCM_TAG_BYTE_LEN : Z := 16.
Definition RSA_KEY_BITS : Z := 3072.

(** ** Numbers in messages *)

(** [std::to_string(int)]. *)
Definition int_to_string (n : Z) : bytes := if n <? 0 then 45 :: to_string (- n) else to_string n.

Definition IntToStringWithPadding (length maxLen : Z) : bytes :=
  let s := int_to_string length in
  if maxLen <? zlen s then [] else replicate (Z.to_nat (maxLen - zlen s)) 48 ++ s.

Definition IsNumeric (s : bytes) : bool := negb (bytes_eqb s []) && forallb isdigit s.

(** [std::from_chars] into an unsigned and into a [long] variable that is 0: the
    digits at the start, 0 without any or when they do not fit. *)
Definition from_chars_unsigned (s : bytes) : Z :=
  let v := digits_val (span_digits s).1 in if v <? 2 ^ 64 then v else 0.
Definition from_chars_long (s : bytes) : Z :=
  let v := digits_val (span_digits s).1 in if v <=? LONG_MAX then v else 0.

Fixpoint strip_zeros (s : bytes) : bytes :=
  match s with c :: r => if c =? 48 then strip_zeros r else s | [] => [] end.

Definition StripLeadingZeros (input : bytes) : Z :=
  if bytes_eqb input [] || bytes_eqb input [48] then 0
  else
    let numberStr := strip_zeros input in
    if bytes_eqb numberStr [] then 0
    else if negb (IsNumeric numberStr) then -1
    else i32 (from_chars_long numberStr).

(** ** Messages *)

(** [messageBody] with its capacity; the spare byte behind it is never written. *)
Record CredentialMessage := mkMsg {
  messageVersion : Z; messageMethodType : Z; messageBodyLen : Z; messageBody : option bytes
}.
Definition messageBodyCapacity (m : CredentialMessage) : Z := match messageBody m with Some b => zlen b | None => 0 end.
Definition new_message : CredentialMessage := mkMsg 0 0 0 None.
Definition set_version v m := mkMsg v (messageMethodType m) (messageBodyLen m) (messageBody m).
Definition SetMessageMethodType v m := mkMsg (messageVersion m) v (messageBodyLen m) (messageBody m).
Definition SetMessageBodyLen v m := mkMsg (messageVersion m) (messageMethodType m) v (messageBody m).
Definition set_body v m := mkMsg (messageVersion m) (messageMethodType m) (messageBodyLen m) v.

Definition SetMessageVersion (version : Z) (m : CredentialMessage) : CredentialMessage :=
  if (METHOD_CRYPTO_KEY <=? version) && (version <=? METHOD_VERSION_MAX) then set_version version m else m.

Definition ClearMessageBody (m : CredentialMessage) : CredentialMessage :=
  match messageBody m with Some _ => SetMessageBodyLen 0 (set_body None m) | None => m end.

Section Message.
Context (cred_alloc : Z -> bool).

Definition AllocateAndCopy (data : bytes) (m : CredentialMessage) : CredentialMessage :=
  let len := zlen data in
  if (len =? 0) || (MESSAGE_STR_MAX_LEN <? len) then m
  else
    let m1 :=
      if messageBodyCapacity m <? len then
        let m := ClearMessageBody m in
        if cred_alloc (len + 1) then set_body (Some (replicate (Z.to_nat len) 0)) m else set_body None m
      else m in
    match messageBody m1 with
    | None => m1
    | Some b => SetMessageBodyLen len (set_body (Some (data ++ replicate (Z.to_nat (zlen b - len)) 0)) m1)
    end.

Definition Init (messageStr : bytes) (m : CredentialMessage) : CredentialMessage :=
  if zlen messageStr <? MESSAGE_BODY_POS then m
  else
    let versionInt := nth 0 messageStr 0 - 48 in
    if (versionInt <? METHOD_CRYPTO_KEY) || (METHOD_VERSION_MAX <? versionInt) then m
    else
      let m := set_version versionInt m in
      let m := SetMessageMethodType (StripLeadingZeros (substr messageStr MESSAGE_METHOD_POS MESSAGE_METHOD_LEN)) m in
      let bodyLength := from_chars_unsigned (substr messageStr MESSAGE_LENGTH_POS MESSAGE_LENGTH_LEN) in
      if (bodyLength =? 0) || (MESSAGE_STR_MAX_LEN <? bodyLength) then m
      else if zlen messageStr <? MESSAGE_BODY_POS + bodyLength then m
      else AllocateAndCopy (ztake bodyLength (zdrop MESSAGE_BODY_POS messageStr)) m.
Definition message_of (messageStr : bytes) : CredentialMessage := Init messageStr new_message.

(** The copy, or null. *)
Definition GetMessageBody (m : CredentialMessage) : res (option bytes) :=
  match messageBody m with
  | None => Ok None
  | Some b =>
      let len := messageBodyLen m in
      if len =? 0 then Ok None
      else if (len <? 0) || negb (cred_alloc len) then Ok None
      else if zlen b <? len then Undefined
      else Ok (Some (ztake len b))
  end.

Definition SetMessageBody (body : bytes) (m : CredentialMessage) : CredentialMessage :=
  if MESSAGE_STR_MAX_LEN <? zlen body then m else AllocateAndCopy body m.

(** The overload on a pointer; [None] is the null pointer. *)
Definition SetMessageBodyPtr (data : option bytes) (m : CredentialMessage) : CredentialMessage :=
  match data with
  | None => m
  | Some d => if (zlen d =? 0) || (MESSAGE_STR_MAX_LEN <? zlen d) then m else AllocateAndCopy d m
  end.

Definition Construct (m : CredentialMessage) : res bytes :=
  let len := messageBodyLen m in
  let totalLength := u64 (1 + MESSAGE_METHOD_LEN + MESSAGE_LENGTH_LEN + u64 len) in
  let methodStr := IntToStringWithPadding (messageMethodType m) MESSAGE_METHOD_LEN in
  if negb (zlen methodStr =? MESSAGE_METHOD_LEN) then Ok []
  else
    let lenStr := IntToStringWithPadding len MESSAGE_LENGTH_LEN in
    if bytes_eqb lenStr [] || (MESSAGE_LENGTH_LEN <? zlen lenStr) then Ok []
    else
      body ← match messageBody m with
             | Some b => if 0 <? len then (if zlen b <? len then Undefined else Ok (ztake len b)) else Ok []
             | None => Ok []
             end;
      let result := u8 (48 + messageVersion m) :: methodStr ++ lenStr ++ body in
      Ok (if zlen result =? totalLength then result else []).
End Message.

Definition SplicMessageStr (s : bytes) (methodType methodVersion : Z) : bytes :=
  if bytes_eqb s [] then []
  else
    let methodStr := IntToStringWithPadding (i32 methodType) MESSAGE_METHOD_LEN in
    if negb (zlen methodStr =? MESSAGE_METHOD_LEN) then []
    else
      let lenStr := IntToStringWithPadding (i32 (zlen s)) MESSAGE_LENGTH_LEN in
      if bytes_eqb lenStr [] || (MESSAGE_LENGTH_LEN <? zlen lenStr) then []
      else
        let result := u8 (48 + methodVersion) :: methodStr ++ lenStr ++ s in
        if zlen result =? MESSAGE_METHOD_POS + MESSAGE_METHOD_LEN + MESSAGE_LENGTH_LEN + zlen s then result else [].

(** ** The key store *)

(** The functions of HUKS for one alias.  [hks_params]: the user id and the
    parameter set can be had. *)
Class Huks (K : Type) := {
  hks_params : K -> bool;
  HksKeyExist : K -> bool;
  HksDeleteKey : K -> bool * K;
  HksGenerateKey : K -> bool * K;
  HksGenerateRandom : K -> bytes;                          (* twelve bytes for the nonce *)
  HksEncrypt : K -> bytes -> bytes -> option bytes;         (* nonce, plain text *)
  HksDecrypt : K -> bytes -> bytes -> option bytes          (* nonce, cipher text *)
}.

(** AES-GCM: the cipher text has the length of the plain text and the tag, and
    decrypting with the same key and nonce gives the plain text back. *)
Class HuksLaws (K : Type) `{Huks K} : Prop := {
  hks_nonce : forall k, zlen (HksGenerateRandom k) = AES_GCM_NONCE_BYTE_LEN /\ wf_bytes (HksGenerateRandom k);
  hks_bytes : forall k n p c, HksEncrypt k n p = Some c -> wf_bytes c;
  hks_length : forall k n p c, HksEncrypt k n p = Some c -> zlen c = zlen p + AES_GCM_TAG_BYTE_LEN;
  hks_inverse : forall k n p c, HksEncrypt k n p = Some c -> HksDecrypt k n c = Some p
}.

Section KeyStore.
Context {K : Type} `{Huks K}.

Definition DeleteAesKey (k : K) : bool * K := if HksKeyExist k then HksDeleteKey k else (true, k).
Definition CreateAesKey (k : K) : bool * K := HksGenerateKey k.
Definition ResetHuksKey (k : K) : bool * K :=
  if negb (hks_params k) then (false, k)
  else let '(ok, k) := DeleteAesKey k in if negb ok then (false, k) else CreateAesKey k.

(** The cipher text fills the buffer from its start. *)
Definition AesGcmEncrypt (k : K) (plainData : bytes) : option bytes :=
  if negb (hks_params k) then None
  else
    let nonce := HksGenerateRandom k in
    match HksEncrypt k nonce plainData with
    | None => None
    | Some c => Some (nonce ++ c ++ replicate (Z.to_nat (zlen plainData + AES_GCM_TAG_BYTE_LEN - zlen c)) 0)
    end.

Definition AesGcmDecrypt (cred_alloc : Z -> bool) (k : K) (inputData : bytes) : option bytes :=
  if zlen inputData <=? AES_GCM_NONCE_BYTE_LEN then None
  else if negb (hks_params k) then None
  else if negb (cred_alloc (zlen inputData - AES_GCM_NONCE_BYTE_LEN)) then None
  else HksDecrypt k (ztake AES_GCM_NONCE_BYTE_LEN inputData) (zdrop AES_GCM_NONCE_BYTE_LEN inputData).

Definition CaculateGcmEncryptLen (plainDataLen : Z) : Z := plainDataLen + AES_GCM_NONCE_BYTE_LEN + AES_GCM_TAG_BYTE_LEN.
End KeyStore.

(** ** The service *)

(** The key files: whether they can be found, the text of the public key when
    it loads, whether the private key loads and fits, its text when it can be
    written to memory. *)
Record SecretFiles := mkFiles {
  pub_stat : bool; priv_stat : bool; pub_text : option bytes; priv_loads : bool; keys_fit : bool; priv_text : option bytes
}.

Definition CheckPubkeyAndPrivKeyMatch (f : SecretFiles) : bool :=
  match pub_text f with Some _ => priv_loads f && keys_fit f | None => false end.

(** The answer and [publicKeyInfo]; the text is read into [RSA_KEY_BITS] bytes. *)
Definition TryLoadPublicKeyInfo (f : SecretFiles) : Z * bytes :=
  if negb (pub_stat f) then (GET_PUBKEY_FAILED, [])
  else if negb (priv_stat f) then (GET_PRIVKEY_FAILED, [])
  else if negb (CheckPubkeyAndPrivKeyMatch f) then (MISMATCH_PUBKEY_PRIVKEY, [])
  else match pub_text f with Some t => (GET_PUBKEY_SUCCESSED, ztake RSA_KEY_BITS t) | None => (GET_PUBKEY_FAILED, []) end.

Definition HandleGetPubkeyMessage (f : SecretFiles) : Z * bytes :=
  let '(ret, info) := TryLoadPublicKeyInfo f in
  if ret =? GET_PUBKEY_SUCCESSED then (GET_PUBKEY_SUCCESSED, info) else (ret, []).

(** [return false] in a function that returns codes; [ret] is not returned. *)
Definition TryLoadPrivateKeyInfo (f : SecretFiles) : Z * bytes :=
  if negb (priv_stat f) then (GET_PRIVKEY_FAILED, [])
  else if negb (priv_loads f) then (0, [])
  else (GET_PRIVATE_SUCCESSED, match priv_text f with Some t => ztake RSA_KEY_BITS t | None => [] end).
Definition HandleGetSignatureMessage (f : SecretFiles) : Z * bytes := TryLoadPrivateKeyInfo f.

(** *** Reports of commands *)

Definition MESSAGE_PARAM_COMMAND_EVENT_REPORT_SIZE : Z := 6.
Definition EVENT_PARAM_RETURN_SUCCESS : bytes := str "success".
Definition EVENT_PARAM_RETURN_FAILED : bytes := str "failed".

(** The event that subscribers get. *)
Record Event := mkEvent { ev_userId : Z; ev_time : Z; ev_role : bytes; ev_status : bytes; ev_command : bytes; ev_content : bytes }.

(** [SplitString] of [credential_message.cpp]: at most [count] separators, unless
    [count] is negative, and always a last part. *)
Fixpoint SplitString_count_loop (fuel : nat) (orig seq : bytes) (count p1 : Z) (p2 : option Z) (splitCount : Z) (result : list bytes)
    : res (list bytes) :=
  match fuel with
  | O => Stuck
  | S fuel =>
      let rest := Ok (if p1 <=? zlen orig then result ++ [zdrop p1 orig] else result) in
      match p2 with
      | None => rest
      | Some q =>
          if (0 <=? count) && (count <=? splitCount) then rest
          else if q =? p1 then SplitString_count_loop fuel orig seq count (p1 + 1) (find seq orig (p1 + 1)) splitCount result
          else
            let p1' := q + zlen seq in
            SplitString_count_loop fuel orig seq count p1' (find seq orig p1') (splitCount + 1) (result ++ [substr orig p1 (q - p1)])
      end
  end.
Definition SplitString_count (orig seq : bytes) (count : Z) : res (list bytes) :=
  if bytes_eqb seq [] || bytes_eqb orig [] then Ok []
  else SplitString_count_loop (S (S (length orig))) orig seq count 0 (find seq orig 0) 0 [].

(** [std::from_chars] into a signed variable with the given limits. *)
Definition from_chars_signed (lo hi : Z) (s : bytes) : option Z :=
  let '(neg, s) := match s with 45 :: s => (true, s) | _ => (false, s) end in
  let d := (span_digits s).1 in
  let v := if neg : bool then - digits_val d else digits_val d in
  if bytes_eqb d [] || (v <? lo) || (hi <? v) then None else Some v.

(** [publish]: whether [NewPublishCommonEvent] succeeds. *)
Definition HandleCommandEventMessage (publish : Event -> bool) (messageStr : bytes) : res bytes :=
  if bytes_eqb messageStr [] then Ok EVENT_PARAM_RETURN_FAILED
  else
    parts ← SplitString_count messageStr (str ";") (MESSAGE_PARAM_COMMAND_EVENT_REPORT_SIZE - 1);
    Ok match parts with
       | [userId; role; time; status; command; content] =>
           match from_chars_signed INT_MIN INT_MAX userId, from_chars_signed LONG_MIN LONG_MAX time with
           | Some u, Some t => if publish (mkEvent u t role status command content) then EVENT_PARAM_RETURN_SUCCESS else EVENT_PARAM_RETURN_FAILED
           | _, _ => EVENT_PARAM_RETURN_FAILED
           end
       | _ => EVENT_PARAM_RETURN_FAILED
       end.

Section Service.
Context {K : Type} `{Huks K} (cred_alloc : Z -> bool) (files : SecretFiles) (publish : Event -> bool).

Definition CredentialEncryptPwd (k : K) (data : bytes) : option bytes :=
  if negb (zlen data =? PASSWORD_LENGTH) then None
  else
    match AesGcmEncrypt k data with
    | None => None
    | Some e => if cred_alloc (zlen e) then Some e else None
    end.

Definition EncryptPwd (k : K) (data : bytes) : option bytes * K :=
  let '(ok, k) := ResetHuksKey k in
  if negb ok then (None, k)
  else
    match CredentialEncryptPwd k data with
    | Some e => (if zlen e =? 0 then None else Some e, k)
    | None => (None, k)
    end.

Definition DecryptPwd (k : K) (data : bytes) : option bytes :=
  match AesGcmDecrypt cred_alloc k data with
  | Some p => if zlen p =? PASSWORD_LENGTH then Some p else None
  | None => None
  end.

(** The three handlers: what to send and the key store. *)
Definition HandleCryptoKeyMessage (m : CredentialMessage) (k : K) : res (bytes * K) :=
  let method := messageMethodType m in
  if negb ((method =? METHOD_ENCRYPT) || (method =? METHOD_DECRYPT)) then Ok ([], k)
  else
    body ← GetMessageBody cred_alloc m;
    match body with
    | None => Ok ([], k)
    | Some b =>
        let '(value, k) := if method =? METHOD_ENCRYPT then EncryptPwd k b else (DecryptPwd k b, k) in
        s ← Construct (SetMessageBodyPtr cred_alloc value m); Ok (s, k)
    end.

Definition HandleCommandReportMessage (m : CredentialMessage) : res bytes :=
  if negb (messageMethodType m =? METHOD_COMMAND_EVENT_REPORT) then Ok []
  else
    body ← GetMessageBody cred_alloc m;
    match body with
    | None => Ok []
    | Some b => value ← HandleCommandEventMessage publish b; Construct (SetMessageBody cred_alloc value m)
    end.

Definition HandleAuthVerifyMessage (m : CredentialMessage) : res bytes :=
  let answer (r : Z * bytes) := Construct (SetMessageBody cred_alloc r.2 (SetMessageMethodType r.1 m)) in
  if messageMethodType m =? GET_PUBKEY then answer (HandleGetPubkeyMessage files)
  else if messageMethodType m =? GET_SIGNATURE then answer (HandleGetSignatureMessage files)
  else Ok [].

Definition HandleMessage (messageStr : bytes) (k : K) : res (bool * bytes * K) :=
  let m := message_of cred_alloc messageStr in
  body ← GetMessageBody cred_alloc m;
  match body with
  | None => Ok (false, [], k)
  | Some _ =>
      if messageVersion m =? METHOD_CRYPTO_KEY then
        '((s, k) : bytes * K) ← HandleCryptoKeyMessage m k; Ok (true, s, k)
      else if messageVersion m =? METHOD_REPORT then s ← HandleCommandReportMessage m; Ok (true, s, k)
      else if messageVersion m =? METHOD_AUTHVERIFY then s ← HandleAuthVerifyMessage m; Ok (true, s, k)
      else Ok (false, [], k)
  end.

(** One connection of [CreateSocketListen]: one [read] of at most 4095 bytes, and
    what is written before the connection is closed. *)
Definition serve (request : bytes) (k : K) : res (bytes * K) :=
  let buffer := ztake (MESSAGE_STR_MAX_LEN - 1) request in
  if zlen buffer <=? 0 then Ok ([], k)
  else '((ok, s, k) : bool * bytes * K) ← HandleMessage buffer k; Ok (if (ok : bool) then s else [], k).
End Service.

(** ** Clients *)

(** [recv] until the peer closes: what is there at each call, [None] an error.
    The count is -1 on failure. *)
Fixpoint RecvMessageByUnixSocket (pieces : list (option bytes)) (size : Z) (data : bytes) : Z * bytes :=
  match pieces with
  | [] => (zlen data, data)
  | None :: _ => (-1, data)
  | Some [] :: _ => (zlen data, data)
  | Some p :: pieces =>
      let data := data ++ ztake (size - 1 - zlen data) p in
      if size - 1 <=? zlen data then (-1, data) else RecvMessageByUnixSocket pieces size data
  end.

Section Client.
Context {K : Type} `{Huks K} (cred_alloc : Z -> bool) (files : SecretFiles) (publish : Event -> bool).
(** Whether the socket could be made, connected and written to; how the kernel
    cuts the reply into pieces. *)
Context (sock_ok : bool) (cut : bytes -> list (option bytes)).

Definition GetCredential (messageStr : bytes) (size : Z) (k : K) : res (Z * bytes * K) :=
  if size <? MESSAGE_STR_MAX_LEN then Ok (-1, [], k)
  else if negb sock_ok then Ok (-1, [], k)
  else
    '((reply, k) : bytes * K) ← serve cred_alloc files publish messageStr k;
    let '(count, data) := RecvMessageByUnixSocket (cut reply) size [] in
    Ok (if count <? 0 then -1 else count, data, k).

(** The start of every client: the message that came back, if any. *)
Definition ask (body : bytes) (method version : Z) (k : K) : res (option CredentialMessage * K) :=
  let sendStr := SplicMessageStr body method version in
  if bytes_eqb sendStr [] then Ok (None, k)
  else
    '((count, data, k) : Z * bytes * K) ← GetCredential sendStr MESSAGE_STR_MAX_LEN k;
    if count <=? 0 then Ok (None, k) else Ok (Some (message_of cred_alloc data), k).

Definition EncryptGetPwdValue (password : bytes) (k : K) : res (bytes * K) :=
  '((m, k) : option CredentialMessage * K) ← ask password METHOD_ENCRYPT METHOD_CRYPTO_KEY k;
  match m with
  | None => Ok ([], k)
  | Some m =>
      if 0 <? messageBodyLen m then body ← GetMessageBody cred_alloc m; Ok (default [] body, k) else Ok ([], k)
  end.

Definition DecryptGetPwdValue (encryptData : bytes) (k : K) : res (option bytes * K) :=
  '((m, k) : option CredentialMessage * K) ← ask encryptData METHOD_DECRYPT METHOD_CRYPTO_KEY k;
  match m with
  | None => Ok (None, k)
  | Some m =>
      if messageBodyLen m <=? 0 then Ok (None, k)
      else
        body ← GetMessageBody cred_alloc m;
        Ok (match body with Some b => if cred_alloc (messageBodyLen m + 1) then Some b else None | None => None end, k)
  end.

(** *** [HdcPassword] *)

Record HdcPassword := mkPwd { pwd : bytes; encryptPwd : bytes }.

Definition SPECIAL_CHARS : bytes := str "~!@#$%^&*()-_=+\|[{}];:'" ++ [34] ++ str ",<.>/?".

(** Two random words; the second one's bytes in memory order. *)
Definition GeneratePassword (r1 r2 : Z) (p : HdcPassword) : HdcPassword :=
  let c0 := nth (Z.to_nat (Z.land r1 0xFFFF0000 mod zlen SPECIAL_CHARS)) SPECIAL_CHARS 0 in
  let c1 := 97 + Z.land r1 0x0000FFFF mod 26 in
  let digits := concat (map (fun b => [Z.shiftr b 4 mod 10 + 48; Z.land b 15 mod 10 + 48]) (le_split 4 r2)) in
  mkPwd (c0 :: c1 :: digits) (encryptPwd p).

Definition GetHexChar (data : Z) : Z := if data <? 10 then 48 + data else 65 + (data - 10).
Definition ByteToHex (byteData : bytes) : bytes :=
  concat (map (fun b => [GetHexChar (Z.shiftr b 4); GetHexChar (Z.land b 15)]) byteData).

Definition INVALID_HEX_CHAR_TO_INT_RESULT : Z := 255.
Definition HexCharToInt (data : Z) : Z :=
  if (48 <=? data) && (data <=? 57) then data - 48
  else if (65 <=? data) && (data <=? 70) then data - 65 + 10
  else INVALID_HEX_CHAR_TO_INT_RESULT.

(** What was pushed before a bad digit stays. *)
Fixpoint HexToByte_loop (hexData acc : bytes) : bool * bytes :=
  match hexData with
  | a :: b :: r =>
      let x := HexCharToInt a in let y := HexCharToInt b in
      if (x =? INVALID_HEX_CHAR_TO_INT_RESULT) || (y =? INVALID_HEX_CHAR_TO_INT_RESULT) then (false, acc)
      else HexToByte_loop r (acc ++ [u8 (Z.lor (Z.shiftl x 4) y)])
  | _ => (true, acc)
  end.
Definition HexToByte (hexData acc : bytes) : bool * bytes :=
  if negb (zlen hexData mod 2 =? 0) then (false, acc) else HexToByte_loop hexData acc.

Definition GetEncryptPwdLength : Z := CaculateGcmEncryptLen PASSWORD_LENGTH * 2.

(** [after]: the bytes of the object behind the array [pwd], which is used as a
    terminated string. *)
Definition EncryptPwd_client (after : bytes) (p : HdcPassword) (k : K) : res (bool * HdcPassword * K) :=
  if negb (bool_decide (0 ∈ pwd p ++ after)) then Undefined
  else
    '((data, k) : bytes * K) ← EncryptGetPwdValue (cstr (pwd p ++ after)) k;
    if zlen data =? 0 then Ok (false, mkPwd (pwd p) [], k) else Ok (true, mkPwd (pwd p) (ByteToHex data), k).

Definition DecryptPwd_client (encryptData : bytes) (p : HdcPassword) (k : K) : res (bool * HdcPassword * K) :=
  let '(ok, e) := HexToByte encryptData [] in
  let p := mkPwd (pwd p) e in
  if negb ok then Ok (false, p, k)
  else
    '((r, k) : option bytes * K) ← DecryptGetPwdValue e k;
    match r with
    | None => Ok (false, p, k)
    | Some d =>
        let good := zlen d =? PASSWORD_LENGTH in
        let p := if good then mkPwd d e else p in
        (* [memset_s(first, second, 0, PASSWORD_LENGTH)] fails when [second] is less *)
        Ok (good && (PASSWORD_LENGTH <=? zlen d), p, k)
    end.

(** *** Key material for the handshake ([connect_validation.cpp]) *)

(** The codes are only logged. *)
Definition key_material (m : option CredentialMessage) (info : bytes) (k : K) : res (bool * bytes * K) :=
  match m with
  | None => Ok (false, info, k)
  | Some m =>
      if 0 <? messageBodyLen m then body ← GetMessageBody cred_alloc m; Ok (true, default info body, k)
      else Ok (false, info, k)
  end.
Definition GetPubKeyHash (pubkeyInfo : bytes) (k : K) : res (bool * bytes * K) :=
  '((m, k) : option CredentialMessage * K) ← ask (str "GetPubkey") GET_PUBKEY METHOD_AUTHVERIFY k; key_material m pubkeyInfo k.
Definition GetPrivateKeyInfo (privkey_info : bytes) (k : K) : res (bool * bytes * K) :=
  '((m, k) : option CredentialMessage * K) ← ask (str "GetPrivateKey") GET_SIGNATURE METHOD_AUTHVERIFY k; key_material m privkey_info k.
End Client.
