(* ===== verification/CredentialProps.v ===== *)
(** * CredentialProps: messages, passwords and key material through the service *)

From Stdlib Require Import String ZArith Lia List Bool.
From stdpp Require Import base list numbers option.
From S2P Require Import Prelude Defs Strings Numbers Credential.

(** ** Numbers of fixed width *)

Lemma digits_val_zeros n s : digits_val (replicate n 48 ++ s) = digits_val s.
Proof. unfold digits_val. rewrite fold_left_app. f_equal. induction n as [|n IH]; [done|]. exact IH. Qed.

Lemma digits_val_strip s : digits_val (strip_zeros s) = digits_val s.
Proof.
  induction s as [|c s IH]; [done|]. cbn [strip_zeros]. destruct (c =? 48) eqn:E; [|done]. breflect. subst. rewrite IH.
  symmetry. apply (digits_val_zeros 1).
Qed.

Lemma strip_digits s : all_digits s -> all_digits (strip_zeros s).
Proof. induction 1 as [|c s Hc Hs IH]; [constructor|]. cbn [strip_zeros]. destruct (c =? 48); [done|by constructor]. Qed.

Lemma padded n k : (0 < k)%nat -> 0 <= n < 10 ^ Z.of_nat k -> n < 10 ^ 18 ->
  let s := IntToStringWithPadding n (Z.of_nat k) in zlen s = Z.of_nat k /\ all_digits s /\ digits_val s = n.
Proof.
  intros Hk Hn H18. destruct k as [|k]; [lia|]. unfold IntToStringWithPadding, int_to_string. rewrite (proj2 (Z.ltb_ge n 0)) by lia.
  pose proof (dec_length 20 n k Hn) as Hl. fold (to_string n) in Hl. rewrite (proj2 (Z.ltb_ge _ _)) by lia. cbv zeta. split_and!.
  - rewrite length_app, length_replicate. lia.
  - apply Forall_app. split; [by apply Forall_replicate|]. apply to_string_digits. lia.
  - rewrite digits_val_zeros. apply dec_val. split; [lia|]. eapply Z.lt_trans; [exact H18|]. by vm_compute.
Qed.

Lemma span_all s : all_digits s -> span_digits s = (s, []).
Proof. intros Hs. pose proof (span_digits_all s [] Hs I) as E. by rewrite app_nil_r in E. Qed.

Lemma strip_padded s : all_digits s -> digits_val s <= INT_MAX -> StripLeadingZeros s = digits_val s.
Proof.
  intros Hs Hv. unfold StripLeadingZeros. pose proof (digits_val_bound s Hs) as Hb.
  destruct (bytes_eqb s [] || bytes_eqb s [48]) eqn:E.
  { apply orb_true_iff in E as [E|E]; apply bytes_eqb_eq in E; by subst. }
  destruct (bytes_eqb (strip_zeros s) []) eqn:E1; [apply bytes_eqb_eq in E1; by rewrite <- digits_val_strip, E1|].
  unfold IsNumeric. rewrite E1. cbn [negb andb]. pose proof (strip_digits s Hs) as Hd.
  rewrite (proj2 (forallb_forall _ _)) by (by apply List.Forall_forall). cbn [negb].
  unfold from_chars_long. rewrite (span_all _ Hd). cbn [fst]. rewrite digits_val_strip.
  rewrite (proj2 (Z.leb_le _ _)) by (unfold LONG_MAX, INT_MAX in *; lia).
  unfold i32, swrap. unfold INT_MAX in Hv. rewrite Z.mod_small by lia. destruct (_ <? _) eqn:E2; breflect; lia.
Qed.

(** ** Messages *)

(** The text of a message. *)
Definition frame (version method : Z) (body : bytes) : bytes :=
  48 + version :: IntToStringWithPadding method 3 ++ IntToStringWithPadding (zlen body) 4 ++ body.
Definition sendable (version method : Z) (body : bytes) : Prop :=
  1 <= version <= 9 /\ 0 <= method <= 999 /\ 0 < zlen body <= MESSAGE_STR_MAX_LEN.

Lemma i32_small n : 0 <= n <= 9999 -> i32 n = n.
Proof. intros Hn. unfold i32, swrap. rewrite Z.mod_small by lia. destruct (_ <? _) eqn:E; breflect; lia. Qed.

Lemma frame_parts v m b : sendable v m b ->
  zlen (IntToStringWithPadding m 3) = 3 /\ all_digits (IntToStringWithPadding m 3) /\ digits_val (IntToStringWithPadding m 3) = m /\
  zlen (IntToStringWithPadding (zlen b) 4) = 4 /\ all_digits (IntToStringWithPadding (zlen b) 4) /\
  digits_val (IntToStringWithPadding (zlen b) 4) = zlen b /\ zlen (frame v m b) = 8 + zlen b.
Proof.
  intros (Hv & Hm & Hb). unfold MESSAGE_STR_MAX_LEN in Hb.
  destruct (padded m 3) as (A1 & A2 & A3); [lia|cbn; lia|lia|]. destruct (padded (zlen b) 4) as (B1 & B2 & B3); [lia|cbn; lia|lia|].
  change (Z.of_nat 3) with 3 in *. change (Z.of_nat 4) with 4 in *. split_and!; try done.
  unfold frame. cbn [length]. rewrite !length_app. lia.
Qed.

Lemma Splic_frame v m b : sendable v m b -> SplicMessageStr b m v = frame v m b.
Proof.
  intros S. destruct (frame_parts v m b S) as (A1 & A2 & A3 & B1 & B2 & B3 & L). destruct S as (Hv & Hm & Hb).
  unfold MESSAGE_STR_MAX_LEN in Hb. unfold SplicMessageStr, MESSAGE_METHOD_LEN, MESSAGE_LENGTH_LEN, MESSAGE_METHOD_POS.
  destruct (bytes_eqb b []) eqn:E; [apply bytes_eqb_eq in E; subst; cbn in Hb; lia|].
  rewrite (i32_small m), (i32_small (zlen b)) by lia. rewrite A1. cbn [negb Z.eqb Pos.eqb].
  rewrite B1. rewrite orb_false_r. destruct (bytes_eqb (IntToStringWithPadding _ _) []) eqn:E1; [apply bytes_eqb_eq in E1; by rewrite E1 in B1|].
  assert (Hu : u8 (48 + v) = 48 + v) by (unfold u8, uwrap; apply Z.mod_small; lia).
  rewrite Hu. fold (frame v m b). rewrite L. rewrite (proj2 (Z.eqb_eq _ _)) by lia. done.
Qed.

Section Messages.
Context (cred_alloc : Z -> bool) (mem : forall n, cred_alloc n = true).

(** The parts of a frame, by position. *)
Lemma frame_fields v m b : sendable v m b ->
  nth 0 (frame v m b) 0 = 48 + v /\ substr (frame v m b) 1 3 = IntToStringWithPadding m 3 /\
  substr (frame v m b) 4 4 = IntToStringWithPadding (zlen b) 4 /\ zdrop 8 (frame v m b) = b.
Proof.
  intros S. destruct (frame_parts v m b S) as (A1 & _ & _ & B1 & _ & _ & _). unfold frame, substr.
  set (x := IntToStringWithPadding m 3) in *. set (y := IntToStringWithPadding (zlen b) 4) in *. split; [done|].
  assert (D1 : zdrop 1 (48 + v :: x ++ y ++ b) = x ++ y ++ b) by done.
  assert (D4 : zdrop 4 (48 + v :: x ++ y ++ b) = y ++ b).
  { change 4 with (1 + 3). rewrite <- zdrop_zdrop by lia. rewrite D1. by apply zdrop_app. }
  split; [rewrite D1; by apply ztake_app|]. split; [rewrite D4; by apply ztake_app|].
  change 8 with (4 + 4). rewrite <- zdrop_zdrop by lia. rewrite D4. by apply zdrop_app.
Qed.

Lemma message_of_frame v m b : sendable v m b -> message_of cred_alloc (frame v m b) = mkMsg v m (zlen b) (Some b).
Proof.
  intros S. destruct (frame_parts v m b S) as (A1 & A2 & A3 & B1 & B2 & B3 & L).
  destruct (frame_fields v m b S) as (F0 & F1 & F2 & F3). destruct S as (Hv & Hm & Hb).
  unfold message_of, Init, MESSAGE_BODY_POS, MESSAGE_METHOD_POS, MESSAGE_METHOD_LEN, MESSAGE_LENGTH_POS, MESSAGE_LENGTH_LEN.
  rewrite L, F0, F1, F2, F3. rewrite (proj2 (Z.ltb_ge _ 8)) by lia. replace (48 + v - 48) with v by lia.
  unfold METHOD_CRYPTO_KEY, METHOD_VERSION_MAX. rewrite (proj2 (Z.ltb_ge v 1)), (proj2 (Z.ltb_ge 9 v)) by lia. cbn [orb].
  rewrite (strip_padded _ A2) by (rewrite A3; unfold INT_MAX; lia). rewrite A3.
  unfold from_chars_unsigned. rewrite (span_all _ B2). cbn [fst]. rewrite B3.
  assert (Hlt : zlen b < 2 ^ 64) by (unfold MESSAGE_STR_MAX_LEN in Hb; lia). rewrite (proj2 (Z.ltb_lt _ _) Hlt).
  rewrite (proj2 (Z.eqb_neq (zlen b) 0)), (proj2 (Z.ltb_ge MESSAGE_STR_MAX_LEN (zlen b))) by lia. cbn [orb].
  rewrite (proj2 (Z.ltb_ge _ _)) by lia. rewrite ztake_ge by lia.
  unfold AllocateAndCopy. rewrite (proj2 (Z.eqb_neq (zlen b) 0)), (proj2 (Z.ltb_ge MESSAGE_STR_MAX_LEN (zlen b))) by lia. cbn [orb].
  change (messageBodyCapacity _) with 0. rewrite (proj2 (Z.ltb_lt 0 _)) by lia. rewrite mem. cbn. rewrite length_replicate.
  rewrite Z2Nat.id by lia. rewrite Z.sub_diag. cbn. by rewrite app_nil_r.
Qed.

(** A body in a buffer that may be larger. *)
Lemma Construct_frame v m b rest : sendable v m b -> Construct (mkMsg v m (zlen b) (Some (b ++ rest))) = Ok (frame v m b).
Proof.
  intros S. destruct (frame_parts v m b S) as (A1 & A2 & A3 & B1 & B2 & B3 & L). destruct S as (Hv & Hm & Hb).
  unfold MESSAGE_STR_MAX_LEN in Hb. unfold Construct, MESSAGE_METHOD_LEN, MESSAGE_LENGTH_LEN. cbn [messageMethodType messageBodyLen messageBody messageVersion].
  rewrite A1. cbn [negb Z.eqb Pos.eqb]. rewrite B1, orb_false_r.
  destruct (bytes_eqb (IntToStringWithPadding _ _) []) eqn:E1; [apply bytes_eqb_eq in E1; by rewrite E1 in B1|].
  rewrite (proj2 (Z.ltb_lt 0 _)) by lia. rewrite length_app, (proj2 (Z.ltb_ge _ _)) by lia. cbn [mbind res_bind].
  rewrite ztake_app by done. assert (Hu : u8 (48 + v) = 48 + v) by (unfold u8, uwrap; apply Z.mod_small; lia).
  rewrite Hu. fold (frame v m b). rewrite L. unfold u64, uwrap. rewrite (Z.mod_small (zlen b)) by lia. rewrite Z.mod_small by lia.
  rewrite (proj2 (Z.eqb_eq _ _)) by lia. done.
Qed.

Lemma GetMessageBody_frame v m b rest : 0 < zlen b -> GetMessageBody cred_alloc (mkMsg v m (zlen b) (Some (b ++ rest))) = Ok (Some b).
Proof.
  intros Hb. unfold GetMessageBody. cbn [messageBody messageBodyLen]. rewrite (proj2 (Z.eqb_neq _ 0)), (proj2 (Z.ltb_ge _ 0)) by lia.
  rewrite mem. cbn [orb negb]. rewrite length_app, (proj2 (Z.ltb_ge _ _)) by lia. by rewrite ztake_app.
Qed.

(** Replacing the body, whatever the buffer. *)
Lemma AllocateAndCopy_ok v m len old b : 0 < zlen b <= MESSAGE_STR_MAX_LEN ->
  exists rest, AllocateAndCopy cred_alloc b (mkMsg v m len (Some old)) = mkMsg v m (zlen b) (Some (b ++ rest)).
Proof.
  intros Hb. unfold AllocateAndCopy.
  rewrite (proj2 (Z.eqb_neq (zlen b) 0)), (proj2 (Z.ltb_ge MESSAGE_STR_MAX_LEN (zlen b))) by lia. cbn [orb].
  destruct (messageBodyCapacity _ <? zlen b).
  - cbn [ClearMessageBody messageBody set_body SetMessageBodyLen]. rewrite mem. cbn. eexists. reflexivity.
  - cbn. eexists. reflexivity.
Qed.
End Messages.

(** ** Hexadecimal text *)

Lemma hex_char x : 0 <= x < 16 -> HexCharToInt (GetHexChar x) = x /\ x <> INVALID_HEX_CHAR_TO_INT_RESULT.
Proof.
  intros Hx. unfold GetHexChar, HexCharToInt, INVALID_HEX_CHAR_TO_INT_RESULT. split; [|lia]. destruct (x <? 10) eqn:E; breflect.
  - rewrite (proj2 (Z.leb_le 48 _)), (proj2 (Z.leb_le _ 57)) by lia. cbn [andb]. lia.
  - rewrite (proj2 (Z.leb_gt _ 57)) by lia. rewrite andb_false_r.
    rewrite (proj2 (Z.leb_le 65 _)), (proj2 (Z.leb_le _ 70)) by lia. cbn [andb]. lia.
Qed.

Lemma hex_byte b : in_u 8 b -> u8 (Z.lor (Z.shiftl (Z.shiftr b 4) 4) (Z.land b 15)) = b.
Proof.
  intros Hb. unfold in_u in Hb. assert (E : Z.lor (Z.shiftl (Z.shiftr b 4) 4) (Z.land b 15) = b).
  { change 15 with (Z.ones 4). rewrite land_pow2_m1, Z.shiftr_div_pow2 by lia. rewrite Z.lor_comm.
    rewrite lor_shiftl_add; [pose proof (Z.div_mod b (2 ^ 4)); lia|lia|apply Z.mod_pos_bound; lia]. }
  rewrite E. unfold u8, uwrap. apply Z.mod_small. lia.
Qed.

Lemma length_hex d : zlen (ByteToHex d) = 2 * zlen d.
Proof. unfold ByteToHex. induction d as [|b d IH]; [done|]. cbn [map concat app length] in *. lia. Qed.

Lemma hex_roundtrip d acc : wf_bytes d -> HexToByte_loop (ByteToHex d) acc = (true, acc ++ d).
Proof.
  intros Hd. revert acc. induction Hd as [|b d Hb Hd IH]; intros acc; [by rewrite app_nil_r|].
  unfold ByteToHex in *. cbn [map concat app HexToByte_loop].
  destruct (hex_char (Z.shiftr b 4)) as [-> N1].
  { unfold in_u in Hb. rewrite Z.shiftr_div_pow2 by lia. split; [apply Z.div_pos; lia|apply Z.div_lt_upper_bound; lia]. }
  destruct (hex_char (Z.land b 15)) as [-> N2].
  { change 15 with (Z.ones 4). rewrite land_pow2_m1 by lia. change 16 with (2 ^ 4). apply Z.mod_pos_bound. lia. }
  rewrite (proj2 (Z.eqb_neq _ _) N1), (proj2 (Z.eqb_neq _ _) N2). cbn [orb]. rewrite IH, hex_byte by done.
  by rewrite <- app_assoc.
Qed.

Lemma HexToByte_hex d : wf_bytes d -> HexToByte (ByteToHex d) [] = (true, d).
Proof.
  intros Hd. unfold HexToByte. rewrite length_hex, Z.mul_comm, Z.mod_mul by lia. cbn. by apply hex_roundtrip.
Qed.

(** ** The transport *)

Lemma recv_all ps size data : Forall (fun p => p <> []) ps -> zlen data + zlen (concat ps) < size - 1 ->
  RecvMessageByUnixSocket (map Some ps) size data = (zlen data + zlen (concat ps), data ++ concat ps).
Proof.
  intros Hps. revert data. induction Hps as [|p ps Hp Hps IH]; intros data Hs; cbn [map RecvMessageByUnixSocket concat].
  { rewrite app_nil_r. f_equal. cbn. lia. }
  destruct p as [|x p]; [done|]. set (q := x :: p) in *. cbn [concat] in Hs. rewrite length_app in Hs.
  rewrite ztake_ge by lia. rewrite (proj2 (Z.leb_gt _ _)) by (rewrite length_app; lia).
  rewrite IH by (rewrite length_app; lia). rewrite <- app_assoc. f_equal. rewrite !length_app. lia.
Qed.

(** The kernel delivers the reply in pieces. *)
Definition in_pieces (cut : bytes -> list (option bytes)) : Prop :=
  forall r, exists ps, cut r = map Some ps /\ concat ps = r /\ Forall (fun p => p <> []) ps.

Section System.
Context {K : Type} `{HuksLaws K} (cred_alloc : Z -> bool) (mem : forall n, cred_alloc n = true).
Context (files : SecretFiles) (report : Event -> bool) (cut : bytes -> list (option bytes)) (cut_ok : in_pieces cut).

Abbreviation serve := (serve cred_alloc files report).
Abbreviation ask := (ask cred_alloc files report true cut).

Lemma serve_frame v m b (k : K) : sendable v m b -> zlen b <= 4087 ->
  serve (frame v m b) k = (let msg := mkMsg v m (zlen b) (Some b) in
    '((ok, s, k) : bool * bytes * K) ←
      (if v =? METHOD_CRYPTO_KEY then '((s, k) : bytes * K) ← HandleCryptoKeyMessage cred_alloc msg k; Ok (true, s, k)
       else if v =? METHOD_REPORT then s ← HandleCommandReportMessage cred_alloc report msg; Ok (true, s, k)
       else if v =? METHOD_AUTHVERIFY then s ← HandleAuthVerifyMessage cred_alloc files msg; Ok (true, s, k)
       else Ok (false, [], k)); Ok (if (ok : bool) then s else [], k)).
Proof.
  intros S Hb. destruct (frame_parts v m b S) as (_ & _ & _ & _ & _ & _ & L). pose proof S as (_ & _ & Hb0).
  unfold Credential.serve, MESSAGE_STR_MAX_LEN in *. rewrite ztake_ge by lia. rewrite L, (proj2 (Z.leb_gt _ 0)) by lia.
  unfold HandleMessage. rewrite (message_of_frame cred_alloc mem v m b S).
  pose proof (GetMessageBody_frame cred_alloc mem v m b [] ltac:(lia)) as G. rewrite app_nil_r in G. rewrite G. done.
Qed.

Lemma ask_answered v m b v' m' b' (k k' : K) : sendable v m b -> sendable v' m' b' -> zlen b' < 4087 ->
  serve (frame v m b) k = Ok (frame v' m' b', k') ->
  ask b m v k = Ok (Some (mkMsg v' m' (zlen b') (Some b')), k').
Proof.
  intros S S' Hb' Hs. unfold Credential.ask. rewrite (Splic_frame v m b S).
  destruct (bytes_eqb (frame v m b) []) eqn:E; [by apply bytes_eqb_eq in E|]. unfold GetCredential.
  change (MESSAGE_STR_MAX_LEN <? MESSAGE_STR_MAX_LEN) with false. cbn [negb]. rewrite Hs. cbn [mbind res_bind].
  destruct (frame_parts v' m' b' S') as (_ & _ & _ & _ & _ & _ & L). destruct (cut_ok (frame v' m' b')) as (ps & -> & Hc & Hps).
  rewrite recv_all; [|done|rewrite Hc; unfold MESSAGE_STR_MAX_LEN; cbn [length]; lia]. rewrite Hc. cbn [app length].
  destruct S' as (Hv & Hm & Hb0). rewrite (proj2 (Z.ltb_ge _ 0)) by lia. cbn [mbind res_bind].
  rewrite (proj2 (Z.leb_gt _ 0)) by lia. by rewrite (message_of_frame cred_alloc mem v' m' b').
Qed.

Lemma body_of v m b : 0 < zlen b -> GetMessageBody cred_alloc (mkMsg v m (zlen b) (Some b)) = Ok (Some b).
Proof. intros Hb. pose proof (GetMessageBody_frame cred_alloc mem v m b [] Hb) as G. by rewrite app_nil_r in G. Qed.

(** What the service makes of a body: the new one, or the old one when there is
    no new one. *)
Lemma crypto_answer m b e (k k1 : K) : m = METHOD_ENCRYPT \/ m = METHOD_DECRYPT -> sendable 1 m b -> zlen b <= 4087 ->
  (if m =? METHOD_ENCRYPT then EncryptPwd cred_alloc k b else (DecryptPwd cred_alloc k b, k)) = (e, k1) ->
  match e with Some e => 0 < zlen e <= MESSAGE_STR_MAX_LEN | None => True end ->
  serve (frame 1 m b) k = Ok (frame 1 m (default b e), k1).
Proof.
  intros Hm S Hb He Hl. rewrite serve_frame by done. change (1 =? METHOD_CRYPTO_KEY) with true. cbn [mbind res_bind].
  unfold HandleCryptoKeyMessage. cbn [messageMethodType].
  assert (Hmm : negb ((m =? METHOD_ENCRYPT) || (m =? METHOD_DECRYPT)) = false) by by destruct Hm as [-> | ->].
  rewrite Hmm. pose proof S as (_ & _ & Hb0). rewrite body_of by lia. cbn [mbind res_bind]. rewrite He.
  destruct e as [e|]; cbn [SetMessageBodyPtr default from_option].
  - rewrite (proj2 (Z.eqb_neq (zlen e) 0)), (proj2 (Z.ltb_ge MESSAGE_STR_MAX_LEN (zlen e))) by lia. cbn [orb].
    destruct (AllocateAndCopy_ok cred_alloc mem 1 m (zlen b) b e Hl) as [rest ->].
    rewrite Construct_frame; [done|]. destruct S as (S1 & S2 & _). exact (conj S1 (conj S2 Hl)).
  - pose proof (Construct_frame 1 m b [] S) as C. rewrite app_nil_r in C. rewrite C. done.
Qed.

Lemma sendable_crypto m b : m = METHOD_ENCRYPT \/ m = METHOD_DECRYPT -> 0 < zlen b <= MESSAGE_STR_MAX_LEN -> sendable 1 m b.
Proof. intros [-> | ->] Hb; (split; [lia|]); (split; [unfold METHOD_ENCRYPT, METHOD_DECRYPT; lia|done]). Qed.

Lemma GetMessageBodyLen_pos (b : bytes) v m : 0 < zlen b -> (0 <? messageBodyLen (mkMsg v m (zlen b) (Some b))) = true.
Proof. intros Hb. by apply Z.ltb_lt. Qed.

(** The client's half of an encryption that the service answers with [e]. *)
Lemma encrypt_client p after e (k k1 : K) : zlen (pwd p) = PASSWORD_LENGTH -> no_nul (pwd p) -> 0 < zlen e < 4087 ->
  serve (frame 1 METHOD_ENCRYPT (pwd p)) k = Ok (frame 1 METHOD_ENCRYPT e, k1) ->
  EncryptPwd_client cred_alloc files report true cut (0 :: after) p k = Ok (true, mkPwd (pwd p) (ByteToHex e), k1).
Proof.
  intros Hl Hn He Hs. unfold EncryptPwd_client. rewrite bool_decide_true by (apply elem_of_app; right; left). cbn [negb].
  rewrite cstr_app_nul by done. unfold EncryptGetPwdValue. unfold PASSWORD_LENGTH in Hl.
  change METHOD_CRYPTO_KEY with 1. rewrite (ask_answered 1 METHOD_ENCRYPT (pwd p) 1 METHOD_ENCRYPT e k k1); [|apply sendable_crypto; [auto|unfold MESSAGE_STR_MAX_LEN; lia]..|lia|done].
  cbn [mbind res_bind]. rewrite GetMessageBodyLen_pos by lia. rewrite body_of by lia. cbn [mbind res_bind default from_option id].
  by rewrite (proj2 (Z.eqb_neq (zlen e) 0)) by lia.
Qed.

Lemma decrypt_client e p d (k k1 : K) : wf_bytes e -> 0 < zlen e <= 4087 -> zlen d = PASSWORD_LENGTH ->
  serve (frame 1 METHOD_DECRYPT e) k = Ok (frame 1 METHOD_DECRYPT d, k1) ->
  DecryptPwd_client cred_alloc files report true cut (ByteToHex e) p k = Ok (true, mkPwd d e, k1).
Proof.
  intros He Hl Hd Hs. unfold DecryptPwd_client. rewrite HexToByte_hex by done. cbn [negb pwd]. unfold DecryptGetPwdValue.
  unfold PASSWORD_LENGTH in Hd.
  change METHOD_CRYPTO_KEY with 1. rewrite (ask_answered 1 METHOD_DECRYPT e 1 METHOD_DECRYPT d k k1); [|apply sendable_crypto; [auto|unfold MESSAGE_STR_MAX_LEN; lia]..|lia|done].
  cbn [mbind res_bind messageBodyLen]. rewrite (proj2 (Z.leb_gt _ 0)) by lia. rewrite body_of by lia. cbn [mbind res_bind]. rewrite mem.
  unfold PASSWORD_LENGTH. rewrite Hd. done.
Qed.

(** ** Passwords *)

Lemma generated r1 r2 p : in_u 32 r1 -> in_u 32 r2 ->
  zlen (pwd (GeneratePassword r1 r2 p)) = PASSWORD_LENGTH /\ no_nul (pwd (GeneratePassword r1 r2 p)).
Proof.
  intros H1 H2. unfold GeneratePassword. cbn [pwd]. split; [reflexivity|].
  assert (Hs : no_nul SPECIAL_CHARS) by (unfold no_nul; apply (bool_decide_unpack _); by vm_compute). unfold no_nul in Hs. rewrite Forall_forall in Hs.
  constructor; [|constructor].
  - apply Hs, nth_In. assert (0 <= Z.land r1 4294901760 mod zlen SPECIAL_CHARS < zlen SPECIAL_CHARS); [|lia].
    apply Z.mod_pos_bound. reflexivity.
  - pose proof (Z.mod_pos_bound (Z.land r1 65535) 26). lia.
  - apply Forall_concat. apply Forall_map. apply Forall_true. intros b. cbn.
    pose proof (Z.mod_pos_bound (Z.shiftr b 4) 10). pose proof (Z.mod_pos_bound (Z.land b 15) 10). repeat constructor; lia.
Qed.

Lemma encrypt_service b c (k k1 : K) : zlen b = PASSWORD_LENGTH -> ResetHuksKey k = (true, k1) -> hks_params k1 = true ->
  HksEncrypt k1 (HksGenerateRandom k1) b = Some c ->
  EncryptPwd cred_alloc k b = (Some (HksGenerateRandom k1 ++ c), k1) /\ zlen (HksGenerateRandom k1 ++ c) = 38.
Proof.
  intros Hb Hr Hp He. unfold EncryptPwd. rewrite Hr. cbn [negb]. unfold CredentialEncryptPwd. rewrite Hb. cbn [Z.eqb PASSWORD_LENGTH Pos.eqb negb].
  unfold AesGcmEncrypt. rewrite Hp. cbn [negb]. rewrite He, mem. pose proof (hks_length _ _ _ _ He) as Hc. destruct (hks_nonce k1) as [Hn _].
  rewrite Hc, Z.sub_diag. cbn [Z.to_nat replicate]. rewrite app_nil_r.
  assert (L : zlen (HksGenerateRandom k1 ++ c) = 38).
  { rewrite length_app. unfold AES_GCM_NONCE_BYTE_LEN, AES_GCM_TAG_BYTE_LEN, PASSWORD_LENGTH in *. lia. }
  rewrite L. done.
Qed.

Lemma decrypt_service b c (k1 : K) : zlen b = PASSWORD_LENGTH -> hks_params k1 = true ->
  HksEncrypt k1 (HksGenerateRandom k1) b = Some c -> DecryptPwd cred_alloc k1 (HksGenerateRandom k1 ++ c) = Some b.
Proof.
  intros Hb Hp He. pose proof (hks_length _ _ _ _ He) as Hc. destruct (hks_nonce k1) as [Hn _]. unfold DecryptPwd, AesGcmDecrypt.
  assert (L : AES_GCM_NONCE_BYTE_LEN < zlen (HksGenerateRandom k1 ++ c)).
  { rewrite length_app. unfold AES_GCM_NONCE_BYTE_LEN, AES_GCM_TAG_BYTE_LEN, PASSWORD_LENGTH in *. lia. }
  rewrite (proj2 (Z.leb_gt _ _) L), Hp, mem. cbn [negb]. rewrite ztake_app, zdrop_app by done.
  rewrite (hks_inverse _ _ _ _ He), Hb. done.
Qed.
End System.

(** ** Claims *)

(** A message is read back as it was made: version, method and body survive
    [SplicMessageStr] and [Init], and [Construct] gives the text again. *)
Theorem credential_message_roundtrip cred_alloc v m b : (forall n, cred_alloc n = true) -> sendable v m b ->
  let msg := message_of cred_alloc (SplicMessageStr b m v) in
  messageVersion msg = v /\ messageMethodType msg = m /\ GetMessageBody cred_alloc msg = Ok (Some b) /\
  Construct msg = Ok (SplicMessageStr b m v).
Proof.
  intros Hm S. cbv zeta. rewrite (Splic_frame v m b S), (message_of_frame cred_alloc Hm v m b S). split_and!; try done.
  - apply body_of; [done|]. apply S.
  - pose proof (Construct_frame v m b [] S) as C. by rewrite app_nil_r in C.
Qed.

Lemma credential_message_roundtrip_witness :
  Construct (message_of (fun _ => true) (SplicMessageStr (str "GetPubkey") 0 3)) = Ok (str "30000009GetPubkey").
Proof.
  assert (S : sendable 3 0 (str "GetPubkey")) by (split; [lia|]; split; [lia|]; by vm_compute).
  destruct (credential_message_roundtrip (fun _ => true) 3 0 (str "GetPubkey") (fun _ => eq_refl) S) as (_ & _ & _ & C).
  rewrite C. vm_compute. reflexivity.
Defined.

Section Claims.
Context {K : Type} `{HuksLaws K} (cred_alloc : Z -> bool) (files : SecretFiles) (report : Event -> bool)
  (cut : bytes -> list (option bytes)).


(** A request the service cannot serve is answered with the body of the
    request.  When the key store fails, the client stores the hexadecimal form of
    the plain password as the encrypted one and reports success; when the public
    key cannot be read, the client takes the text of its request for the key. *)
Theorem failed_requests_echo p after info (k : K) : (forall n, cred_alloc n = true) -> in_pieces cut ->
  zlen (pwd p) = PASSWORD_LENGTH -> no_nul (pwd p) ->
  ((ResetHuksKey k).1 = false ->
    EncryptPwd_client cred_alloc files report true cut (0 :: after) p k = Ok (true, mkPwd (pwd p) (ByteToHex (pwd p)), (ResetHuksKey k).2)) /\
  (pub_stat files = false -> GetPubKeyHash cred_alloc files report true cut info k = Ok (true, str "GetPubkey", k)).
Proof.
  intros mem Hcut Hl Hn. unfold PASSWORD_LENGTH in Hl. split.
  - intros Hr. destruct (ResetHuksKey k) as [b k1] eqn:Er. cbn [fst snd] in *. subst b.
    apply (encrypt_client cred_alloc mem files report cut Hcut p after (pwd p) k k1 Hl Hn); [lia|].
    apply (crypto_answer cred_alloc mem files report METHOD_ENCRYPT (pwd p) None);
      [auto|apply sendable_crypto; [auto|unfold MESSAGE_STR_MAX_LEN; lia]|lia| |done].
    cbn. unfold EncryptPwd. by rewrite Er.
  - intros Hf. unfold GetPubKeyHash. set (b := str "GetPubkey").
    rewrite (ask_answered cred_alloc mem files report cut Hcut METHOD_AUTHVERIFY GET_PUBKEY b METHOD_AUTHVERIFY GET_PUBKEY_FAILED b k k).
    + cbn [mbind res_bind]. unfold key_material. rewrite GetMessageBodyLen_pos by reflexivity. rewrite body_of by done. done.
    + split; [by vm_compute|]. split; by vm_compute.
    + split; [by vm_compute|]. split; by vm_compute.
    + reflexivity.
    + rewrite serve_frame; [|done|split; [by vm_compute|]; split; by vm_compute|by vm_compute].
      cbn [Z.eqb METHOD_CRYPTO_KEY METHOD_REPORT METHOD_AUTHVERIFY Pos.eqb]. cbn [mbind res_bind].
      unfold HandleAuthVerifyMessage, HandleGetPubkeyMessage, TryLoadPublicKeyInfo. rewrite Hf. cbn [negb]. cbn [messageMethodType].
      change (GET_PUBKEY =? GET_PUBKEY) with true. cbn [fst snd].
      pose proof (Construct_frame METHOD_AUTHVERIFY GET_PUBKEY_FAILED b [] ltac:(split; [by vm_compute|]; split; by vm_compute)) as C.
      rewrite app_nil_r in C. change (SetMessageBody _ _ _) with (mkMsg METHOD_AUTHVERIFY GET_PUBKEY_FAILED (zlen b) (Some b)).
      rewrite C. done.
Qed.
End Claims.

(** ** A key store to evaluate with *)

Module Toy.
Definition is_byte (x : Z) : bool := (0 <=? x) && (x <? 256).

(** The key is whether the store works; the cipher only appends the tag. *)
#[export] Instance toy_huks : Huks bool := {|
  hks_params k := k;
  HksKeyExist k := k;
  HksDeleteKey k := (true, k);
  HksGenerateKey k := (k, k);
  HksGenerateRandom _ := replicate 12 7;
  HksEncrypt _ _ p := if forallb is_byte p then Some (p ++ replicate 16 9) else None;
  HksDecrypt _ _ c := Some (ztake (zlen c - 16) c)
|}.

#[export] Instance toy_laws : HuksLaws bool.
Proof.
  split.
  - intros k. split; [reflexivity|]. apply Forall_replicate. unfold in_u. lia.
  - intros k n p c. cbn. destruct (forallb is_byte p) eqn:E; [|done]. intros [= <-]. apply Forall_app. split.
    + apply List.Forall_forall. intros x Hx. rewrite forallb_forall in E. specialize (E x Hx). unfold is_byte in E. breflect. unfold in_u. lia.
    + repeat constructor; unfold in_u; lia.
  - intros k n p c. cbn. destruct (forallb is_byte p); [|done]. intros [= <-]. rewrite length_app. cbn. unfold AES_GCM_TAG_BYTE_LEN. lia.
  - intros k n p c. cbn. destruct (forallb is_byte p); [|done]. intros [= <-]. f_equal. rewrite length_app. cbn [length].
    apply ztake_app. lia.
Qed.

(** Replies in one piece. *)
Definition whole (r : bytes) : list (option bytes) := match r with [] => [] | _ => [Some r] end.
Lemma whole_ok : in_pieces whole.
Proof.
  intros [|x r]; [exists []; by split_and!|]. exists [x :: r]. split; [done|]. split; [cbn; by rewrite app_nil_r|]. by repeat constructor.
Qed.
Definition no_files : SecretFiles := mkFiles false false None false false None.
End Toy.
Import Toy.


(** The password [~a01234567] is stored as its own hexadecimal text. *)
Lemma failed_requests_echo_witness :
  EncryptPwd_client (fun _ => true) no_files (fun _ => true) true whole [0] (mkPwd (str "~a01234567") []) false
    = Ok (true, mkPwd (str "~a01234567") (str "7E613031323334353637"), false).
Proof.
  destruct (failed_requests_echo (K := bool) (fun _ => true) no_files (fun _ => true) whole (mkPwd (str "~a01234567") []) [] [] false)
    as [E _]; [done|apply whole_ok|reflexivity|unfold no_nul; apply (bool_decide_unpack _); by vm_compute|].
  rewrite E by reflexivity. vm_compute. reflexivity.
Defined.
