(* ===== verification/EventReport.v ===== *)
(** * EventReport: reports of commands to the device's event service
    ([command_event_report.cpp])

    The daemon publishes an event itself; the device's own client sends the report to the
    credential service, which publishes it.  The flags of the build, the system
    parameters, the user id and the clock are arguments. *)

From Stdlib Require Import String ZArith Lia List Bool.
From stdpp Require Import base list numbers option.
From S2P Require Import Prelude Defs Strings Numbers Translate Credential CredentialProps.

Definition BASE_ID : Z := 200000.
Inductive Caller := CLIENT | SERVER | DAEMON.
#[export] Instance Caller_eq_dec : EqDecision Caller.
Proof. solve_decision. Defined.

Record Platform := mkPlatform {
  HDC_HOST : bool; DAEMON_ONLY : bool; HDC_SUPPORT_REPORT_COMMAND_EVENT : bool;
  report_enable : bytes; fileguard_force_enable : bytes;   (* system parameters *)
  getuid : Z; milliseconds : Z
}.

Section Report.
Context (pf : Platform).

Definition IsSupportReport : bool :=
  bytes_eqb (report_enable pf) (str "true") || bytes_eqb (fileguard_force_enable pf) (str "true").

Definition GetCurrentTimeStamp : bytes := to_string (milliseconds pf).
Definition GetCallerName (caller : Caller) : bytes :=
  if HDC_HOST pf then match caller with SERVER => str "server" | _ => str "client" end else str "daemon".
Definition status_text (isIntercepted : bool) : bytes := if isIntercepted then str "forbidden" else str "enabled".

(** What [ss] holds. *)
Definition report_prefix (command : bytes) (caller : Caller) (isIntercepted : bool) : bytes :=
  to_string (getuid pf / BASE_ID) ++ [59] ++ GetCallerName caller ++ [59] ++ GetCurrentTimeStamp ++ [59] ++
  status_text isIntercepted ++ [59] ++ command ++ [59].

(** [substr] throws when it starts behind the end. *)
Definition FormatMessage (command raw : bytes) (caller : Caller) (isIntercepted : bool) : res bytes :=
  let result := report_prefix command caller isIntercepted in
  if MESSAGE_STR_MAX_LEN - MESSAGE_BODY_POS <=? zlen result + zlen raw then
    let maxContentSize := MESSAGE_STR_MAX_LEN - MESSAGE_BODY_POS - zlen result in
    if zlen raw <? zlen raw - maxContentSize then Exited else Ok (result ++ zdrop (zlen raw - maxContentSize) raw)
  else Ok (result ++ raw).

Definition Compare : list bytes := [CMDSTR_SOFTWARE_VERSION; CMDSTR_TARGET_MOUNT; CMDSTR_LIST_JDWP; CMDSTR_SHELL].
Definition nCompare : list bytes :=
  [CMDSTR_SOFTWARE_HELP; CMDSTR_LIST_TARGETS; CMDSTR_SERVICE_KILL; CMDSTR_CHECK_SERVER; CMDSTR_CHECK_DEVICE; CMDSTR_HILOG;
   CMDSTR_WAIT_FOR; CMDSTR_CONNECT_TARGET; CMDSTR_SHELL_EX; CMDSTR_BUGREPORT; CMDSTR_SHELL ++ [32]; CMDSTR_FILE_SEND;
   CMDSTR_FILE_RECV; CMDSTR_FORWARD_FPORT ++ [32]; CMDSTR_FORWARD_RPORT ++ [32]; CMDSTR_APP_INSTALL; CMDSTR_APP_UNINSTALL;
   CMDSTR_TRACK_JDWP; CMDSTR_TARGET_REBOOT; CMDSTR_TARGET_MODE].
Definition GetCommandFromInputRaw (inputRaw : bytes) : option bytes :=
  match List.find (fun elem => bytes_eqb (cstr inputRaw) elem) Compare with
  | Some elem => Some elem
  | None => List.find (fun elem => starts inputRaw elem) nCompare
  end.

(** The event of [Report]; a time that cannot be read is 0. *)
Definition report_event (command content : bytes) (caller : Caller) (isIntercepted : bool) : Event :=
  mkEvent (i32 (getuid pf / BASE_ID)) (default 0 (from_chars_signed LONG_MIN LONG_MAX GetCurrentTimeStamp)) (GetCallerName caller)
    (status_text isIntercepted) command content.

Context {K : Type} `{Huks K} (cred_alloc : Z -> bool) (files : SecretFiles) (publish : Event -> bool).
Context (sock_ok : bool) (cut : bytes -> list (option bytes)).

Definition Report (command content : bytes) (caller : Caller) (isIntercepted : bool) : bool :=
  if DAEMON_ONLY pf then publish (report_event command content caller isIntercepted) else true.

Definition ReportByUnixSocket (command inputRaw : bytes) (caller : Caller) (isIntercepted : bool) (k : K) : res (bool * K) :=
  s ← FormatMessage command inputRaw caller isIntercepted;
  if bytes_eqb s [] then Ok (false, k)
  else
    '((m, k) : option CredentialMessage * K) ← ask cred_alloc files publish sock_ok cut s METHOD_COMMAND_EVENT_REPORT METHOD_REPORT k;
    match m with
    | None => Ok (false, k)
    | Some m =>
        body ← GetMessageBody cred_alloc m;
        match body with
        | Some b => if zlen b =? 0 then Ok (false, k) else Ok (negb (bytes_eqb b EVENT_PARAM_RETURN_FAILED), k)
        | None => Ok (false, k)
        end
    end.

Definition ReportCommandEvent (inputRaw : bytes) (caller : Caller) (isIntercepted : bool) (command : bytes) (k : K) : res (bool * K) :=
  if negb (HDC_SUPPORT_REPORT_COMMAND_EVENT pf) then Ok (true, k)
  else if negb IsSupportReport then Ok (true, k)
  else
    match (if bytes_eqb command [] then GetCommandFromInputRaw inputRaw else Some command) with
    | None => Ok (true, k)
    | Some command =>
        if bool_decide (caller = DAEMON) then Ok (Report command inputRaw caller isIntercepted, k)
        else ReportByUnixSocket command inputRaw caller isIntercepted k
    end.

Definition ReportFileCommandEvent (localPath : bytes) (master serverOrDaemon : bool) (k : K) : res (bool * K) :=
  if negb (HDC_SUPPORT_REPORT_COMMAND_EVENT pf) then Ok (true, k)
  else if negb IsSupportReport then Ok (true, k)
  else
    let command := if (serverOrDaemon && negb master) || (negb serverOrDaemon && master) then CMDSTR_FILE_RECV else CMDSTR_FILE_SEND in
    if negb serverOrDaemon then Ok (Report command localPath DAEMON false, k)
    else ReportByUnixSocket command localPath CLIENT false k.
End Report.

(** ** Splitting *)

(** Five fields and the rest. *)
Lemma find_sep a b p : ~ (59 ∈ a) -> find [59] (p ++ a ++ 59 :: b) (zlen p) = Some (zlen p + zlen a).
Proof.
  intros Ha. unfold find. rewrite (proj2 (Z.ltb_ge _ _)) by (rewrite length_app; lia). rewrite zdrop_app by done.
  generalize (zlen p) as i. induction a as [|x a IH]; intros i; cbn [app find_aux is_prefix].
  { rewrite Z.eqb_refl. cbn. f_equal. lia. }
  assert (x <> 59) by (intros ->; apply Ha; left). rewrite (proj2 (Z.eqb_neq 59 x)) by done. cbn [andb].
  rewrite IH by (intros ?; apply Ha; by right). cbn [length]. f_equal. lia.
Qed.

Definition fields (fs : list bytes) : bytes := concat (map (fun f => f ++ [59]) fs).

Lemma split_fields fs : Forall (fun f => f <> [] /\ ~ (59 ∈ f)) fs -> forall p rest fuel n result, (length fs < fuel)%nat ->
  SplitString_count_loop fuel (p ++ fields fs ++ rest) [59] (n + zlen fs) (zlen p) (find [59] (p ++ fields fs ++ rest) (zlen p)) n result =
  Ok (result ++ fs ++ [rest]) \/ n < 0.
Proof.
  induction 1 as [|f fs [Hne Hf] _ IH]; intros p rest fuel n result Hfuel; (destruct fuel as [|fuel]; [cbn in Hfuel; lia|]);
    (destruct (Z_lt_ge_dec n 0) as [Hn|Hn]; [by right|left]).
  - cbn [fields map concat app length SplitString_count_loop]. rewrite (proj2 (Z.leb_le (zlen p) _)) by (rewrite length_app; lia).
    rewrite zdrop_app by done. rewrite (proj2 (Z.leb_le 0 _)), (proj2 (Z.leb_le (n + _) n)) by lia. by destruct (find _ _ _).
  - change (fields (f :: fs)) with ((f ++ [59]) ++ fields fs). rewrite <- !app_assoc. cbn [app].
    cbn [SplitString_count_loop]. rewrite find_sep by done. cbn [length] in *.
    rewrite (proj2 (Z.leb_le 0 _)), (proj2 (Z.leb_gt _ n)) by lia. cbn [andb].
    assert (0 < zlen f) by (destruct f; [done|cbn; lia]). rewrite (proj2 (Z.eqb_neq _ (zlen p))) by lia.
    assert (Es : substr (p ++ f ++ 59 :: fields fs ++ rest) (zlen p) (zlen p + zlen f - zlen p) = f).
    { unfold substr. rewrite zdrop_app by done. apply ztake_app. lia. }
    rewrite Es. change (Z.of_nat 1) with 1.
    destruct (IH (p ++ f ++ [59]) rest fuel (n + 1) (result ++ [f]) ltac:(lia)) as [E|]; [|lia].
    replace ((p ++ f ++ [59]) ++ fields fs ++ rest) with (p ++ f ++ 59 :: fields fs ++ rest) in E by (by rewrite <- !app_assoc).
    replace (zlen (p ++ f ++ [59])) with (zlen p + zlen f + 1) in E by (rewrite !length_app; cbn; lia).
    replace (n + Z.of_nat (S (length fs))) with (n + 1 + zlen fs) by lia.
    rewrite E. by rewrite <- app_assoc.
Qed.

(** ** The service's side *)

Lemma digits_no_sep s : all_digits s -> ~ (59 ∈ s).
Proof. intros Hs H. apply list_elem_of_In in H. unfold all_digits in Hs. rewrite List.Forall_forall in Hs. by apply Hs in H. Qed.

Lemma from_chars_to_string lo hi n : lo <= 0 -> 0 <= n <= hi -> n < 10 ^ 20 -> from_chars_signed lo hi (to_string n) = Some n.
Proof.
  intros Hlo Hn H20. pose proof (to_string_digits n ltac:(lia)) as D. pose proof (to_string_nonempty n) as Ne.
  assert (V : digits_val (to_string n) = n) by (apply dec_val; lia). unfold from_chars_signed.
  assert ((match to_string n with 45 :: s => (true, s) | _ => (false, to_string n) end) = (false, to_string n)) as ->.
  { destruct (to_string n) as [|x s]; [done|]. apply List.Forall_cons_iff in D as [D _]. assert (x <> 45) by (by intros ->).
    destruct x as [|x|x]; try done. do 6 (destruct x as [x|x|]; try done). }
  rewrite (span_all _ D). cbn [fst]. rewrite V. destruct (bytes_eqb (to_string n) []) eqn:E; [by apply bytes_eqb_eq in E|].
  rewrite (proj2 (Z.ltb_ge n lo)), (proj2 (Z.ltb_ge hi n)) by lia. done.
Qed.

Definition good_field (f : bytes) : Prop := f <> [] /\ ~ (59 ∈ f).

Lemma event_message publish u t role status command content : 0 <= u <= INT_MAX -> 0 <= t <= LONG_MAX ->
  good_field role -> good_field status -> good_field command ->
  HandleCommandEventMessage publish (fields [to_string u; role; to_string t; status; command] ++ content) =
    Ok (if publish (mkEvent u t role status command content) then EVENT_PARAM_RETURN_SUCCESS else EVENT_PARAM_RETURN_FAILED).
Proof.
  intros Hu Ht Hr Hs Hc. set (fs := [to_string u; role; to_string t; status; command]).
  assert (HF : Forall (fun f => f <> [] /\ ~ (59 ∈ f)) fs).
  { repeat constructor; try (by apply Hr); try (by apply Hs); try (by apply Hc); try apply to_string_nonempty;
      apply digits_no_sep, to_string_digits; lia. }
  unfold HandleCommandEventMessage, SplitString_count. destruct (bytes_eqb (fields fs ++ content) []) eqn:E.
  { apply bytes_eqb_eq, (f_equal length) in E. subst fs. cbn in E. rewrite !length_app in E. cbn in E. lia. }
  change (bytes_eqb (str ";") []) with false. cbn [orb].
  destruct (split_fields fs HF [] content (2 + length (fields fs ++ content)) 0 []) as [Sp|]; [|cbn [app] in Sp|lia].
  { subst fs. cbn [fields map concat length]. rewrite !length_app. cbn. lia. }
  change (0 + zlen fs) with (MESSAGE_PARAM_COMMAND_EVENT_REPORT_SIZE - 1) in Sp. change (zlen []) with 0 in Sp.
  change (2 + length ?x)%nat with (S (S (length x))) in Sp. change [59] with (str ";") in Sp. rewrite Sp. cbn [mbind res_bind fs app].
  rewrite !from_chars_to_string; [done|..]; unfold LONG_MIN, LONG_MAX, INT_MIN, INT_MAX in *; lia.
Qed.

Section Delivery.
Context (pf : Platform) {K : Type} `{HuksLaws K} (cred_alloc : Z -> bool) (mem : forall n, cred_alloc n = true).
Context (files : SecretFiles) (publish : Event -> bool) (cut : bytes -> list (option bytes)) (cut_ok : in_pieces cut).

Lemma report_served b v (k : K) : 0 < zlen b <= 4087 -> HandleCommandEventMessage publish b = Ok v -> 0 < zlen v < 4087 ->
  ask cred_alloc files publish true cut b METHOD_COMMAND_EVENT_REPORT METHOD_REPORT k = Ok (Some (mkMsg 2 1 (zlen v) (Some v)), k).
Proof.
  intros Hb Hv Hl. unfold METHOD_COMMAND_EVENT_REPORT, METHOD_REPORT.
  assert (S : sendable 2 1 b) by (unfold sendable, MESSAGE_STR_MAX_LEN; lia).
  assert (S' : sendable 2 1 v) by (unfold sendable, MESSAGE_STR_MAX_LEN; lia).
  apply (ask_answered cred_alloc mem files publish cut cut_ok 2 1 b 2 1 v); [done|done|lia|].
  rewrite serve_frame by (done || lia). change (2 =? METHOD_CRYPTO_KEY) with false. change (2 =? METHOD_REPORT) with true. cbn iota.
  unfold HandleCommandReportMessage. cbn [messageMethodType]. change (negb (1 =? METHOD_COMMAND_EVENT_REPORT)) with false. cbn iota.
  rewrite body_of by (done || lia). cbn [mbind res_bind]. rewrite Hv. cbn [mbind res_bind]. unfold SetMessageBody.
  rewrite (proj2 (Z.ltb_ge MESSAGE_STR_MAX_LEN _)) by (unfold MESSAGE_STR_MAX_LEN; lia).
  destruct (AllocateAndCopy_ok cred_alloc mem 2 1 (zlen b) b v) as [rest ->]; [unfold MESSAGE_STR_MAX_LEN; lia|].
  by rewrite Construct_frame.
Qed.

(** A message that fills the buffer reaches the service without its last byte. *)
Lemma full_message_refused b (k : K) : zlen b = 4088 ->
  ask cred_alloc files publish true cut b METHOD_COMMAND_EVENT_REPORT METHOD_REPORT k = Ok (None, k).
Proof.
  intros Hb. unfold METHOD_COMMAND_EVENT_REPORT, METHOD_REPORT. assert (S : sendable 2 1 b) by (unfold sendable, MESSAGE_STR_MAX_LEN; lia).
  unfold ask. rewrite (Splic_frame 2 1 b S). destruct (bytes_eqb (frame 2 1 b) []) eqn:E; [by apply bytes_eqb_eq in E|].
  unfold GetCredential. change (MESSAGE_STR_MAX_LEN <? MESSAGE_STR_MAX_LEN) with false. cbn [negb].
  assert (Hf : ztake (MESSAGE_STR_MAX_LEN - 1) (frame 2 1 b) = str "20014088" ++ ztake 4087 b).
  { unfold frame. rewrite Hb. reflexivity. }
  assert (Ht : zlen (ztake 4087 b) = 4087) by (apply length_ztake; lia).
  assert (Hp : message_of cred_alloc (str "20014088" ++ ztake 4087 b) = mkMsg 2 1 0 None).
  { unfold message_of, Init. rewrite length_app. change (length (str "20014088")) with 8%nat.
    rewrite (proj2 (Z.ltb_ge _ MESSAGE_BODY_POS)) by (unfold MESSAGE_BODY_POS; lia).
    generalize dependent (ztake 4087 b). intros c _ Hc. change (nth 0 (str "20014088" ++ c) 0) with 50.
    change (substr (str "20014088" ++ c) MESSAGE_METHOD_POS MESSAGE_METHOD_LEN) with (str "001").
    change (substr (str "20014088" ++ c) MESSAGE_LENGTH_POS MESSAGE_LENGTH_LEN) with (str "4088").
    change (from_chars_unsigned (str "4088")) with 4088. change (StripLeadingZeros (str "001")) with 1.
    change (50 - 48) with 2. change ((2 <? METHOD_CRYPTO_KEY) || (METHOD_VERSION_MAX <? 2)) with false. cbn iota.
    change (4088 =? 0) with false. change (MESSAGE_STR_MAX_LEN <? 4088) with false. cbn [orb].
    rewrite (proj2 (Z.ltb_lt _ _)) by (unfold MESSAGE_BODY_POS; lia). reflexivity. }
  unfold serve. rewrite Hf, length_app, Ht || rewrite Hf, length_app. change (length (str "20014088")) with 8%nat.
  rewrite (proj2 (Z.leb_gt _ 0)) by lia. unfold HandleMessage. rewrite Hp. cbn [GetMessageBody messageBody mbind res_bind].
  destruct (cut_ok []) as (ps & -> & Hc & Hps). destruct ps as [|[|x p] ps]; [reflexivity|by apply List.Forall_inv in Hps|done].
Qed.


Lemma caller_field caller : good_field (GetCallerName pf caller).
Proof. unfold GetCallerName. destruct (HDC_HOST pf), caller; split; (discriminate || (apply (bool_decide_unpack _); vm_compute; exact I)). Qed.
Lemma status_field i : good_field (status_text i).
Proof. destruct i; split; (discriminate || (apply (bool_decide_unpack _); vm_compute; exact I)). Qed.

Definition sane_platform : Prop := in_u 32 (getuid pf) /\ 0 <= milliseconds pf <= LONG_MAX.

Lemma user_id : sane_platform -> 0 <= getuid pf / BASE_ID <= INT_MAX.
Proof.
  intros [Hu _]. unfold in_u, BASE_ID, INT_MAX in *. split; [apply Z.div_pos; lia|].
  apply Z.lt_succ_r, Z.div_lt_upper_bound; lia.
Qed.

Lemma report_prefix_fields command caller i : report_prefix pf command caller i =
  fields [to_string (getuid pf / BASE_ID); GetCallerName pf caller; GetCurrentTimeStamp pf; status_text i; command].
Proof. unfold report_prefix, fields. cbn [map concat]. by rewrite <- !app_assoc, !app_nil_r. Qed.
End Delivery.

(** The commands taken from requests are fields, and start the request. *)
Lemma reported_command raw c : GetCommandFromInputRaw raw = Some c -> good_field c /\ is_prefix c (cstr raw) = true.
Proof.
  assert (G : Forall (fun c => c <> [] /\ ~ (59 ∈ c)) (Compare ++ nCompare)) by (apply (bool_decide_unpack _); vm_compute; exact I).
  rewrite List.Forall_forall in G. unfold GetCommandFromInputRaw. destruct (List.find _ Compare) as [c'|] eqn:E1.
  - intros [= ->]. apply find_some in E1 as [Hin He]. split; [apply G, in_or_app; by left|]. apply bytes_eqb_eq in He as ->.
    apply is_prefix_spec. exists []. by rewrite app_nil_r.
  - intros E2. apply find_some in E2 as [Hin He]. split; [apply G, in_or_app; by right|done].
Qed.

(** Reports through the credential service: a report that fits is published with
    exactly the user, time, role, status, command and content of the request,
    whatever separators the content contains, and the client's result is that of
    publishing; a report that is too long for the message and is cut to fill it
    never arrives, because the service reads one byte less than the client
    sends. *)
Theorem report_delivered {K : Type} `{HuksLaws K} (pf : Platform) (cred_alloc : Z -> bool) (files : SecretFiles) (publish : Event -> bool)
    (cut : bytes -> list (option bytes)) (command raw : bytes) (caller : Caller) (i : bool) (k : K) :
  (forall n, cred_alloc n = true) -> in_pieces cut -> sane_platform pf -> good_field command ->
  let size := zlen (report_prefix pf command caller i) + zlen raw in
  (size < 4088 -> ReportByUnixSocket pf cred_alloc files publish true cut command raw caller i k =
    Ok (publish (mkEvent (getuid pf / BASE_ID) (milliseconds pf) (GetCallerName pf caller) (status_text i) command raw), k)) /\
  (4088 <= size -> zlen (report_prefix pf command caller i) <= 4088 ->
    ReportByUnixSocket pf cred_alloc files publish true cut command raw caller i k = Ok (false, k)).
Proof.
  intros mem Hcut Hpf Hcmd size. unfold ReportByUnixSocket, FormatMessage. change (MESSAGE_STR_MAX_LEN - MESSAGE_BODY_POS) with 4088. fold size.
  pose proof (report_prefix_fields pf command caller i) as Hpre. pose proof (user_id pf Hpf) as Hu. destruct Hpf as [_ Ht].
  pose proof (event_message publish (getuid pf / BASE_ID) (milliseconds pf) _ _ command raw Hu Ht (caller_field pf caller) (status_field i) Hcmd) as E.
  fold (GetCurrentTimeStamp pf) in E. rewrite <- Hpre in E.
  assert (Hpos : 0 < zlen (report_prefix pf command caller i)) by (unfold report_prefix; rewrite !length_app; cbn [length]; lia).
  assert (Hne : forall s, bytes_eqb (report_prefix pf command caller i ++ s) [] = false).
  { intros s. destruct (bytes_eqb _ _) eqn:X; [|done]. apply bytes_eqb_eq, (f_equal length) in X. rewrite length_app in X. cbn [length] in X. lia. }
  split; intros Hs.
  - rewrite (proj2 (Z.leb_gt 4088 size)) by done. unfold size in Hs. cbn [mbind res_bind]. rewrite Hne.
    set (ev := mkEvent _ _ _ _ _ _) in *. destruct (publish ev);
      (erewrite report_served; [|done|done|rewrite length_app; lia|exact E|vm_compute; split; congruence]); cbn [mbind res_bind];
      (rewrite body_of; [reflexivity|done|reflexivity]).
  - intros Hp. rewrite (proj2 (Z.leb_le 4088 size)) by done. unfold size in Hs. set (m := 4088 - _). rewrite (proj2 (Z.ltb_ge (zlen raw) _)) by lia.
    cbn [mbind res_bind]. rewrite Hne, (full_message_refused cred_alloc files publish cut Hcut); [done|].
    rewrite length_app, Nat2Z.inj_add, length_zdrop by lia. lia.
Qed.


Import Toy.
Lemma report_delivered_witness :
  ReportByUnixSocket (mkPlatform true false true (str "true") [] 20010034 1700000000000) (K := bool) (fun _ => true) no_files
    (fun e => bytes_eqb (ev_content e) (str "shell ls; id")) true whole (CMDSTR_SHELL ++ [32]) (str "shell ls; id") CLIENT false true
    = Ok (true, true) /\
  ReportByUnixSocket (mkPlatform true false true (str "true") [] 20010034 1700000000000) (K := bool) (fun _ => true) no_files
    (fun _ => true) true whole (CMDSTR_SHELL ++ [32]) (repeat 97 5000) CLIENT false true = Ok (false, true).
Proof.
  set (pf := mkPlatform _ _ _ _ _ _ _). assert (Hpf : sane_platform pf) by (split; vm_compute; split; congruence).
  assert (Hc : good_field (CMDSTR_SHELL ++ [32])) by (split; [discriminate|apply (bool_decide_unpack _); vm_compute; exact I]).
  split.
  - destruct (report_delivered (K := bool) pf (fun _ => true) no_files (fun e => bytes_eqb (ev_content e) (str "shell ls; id")) whole _
      (str "shell ls; id") CLIENT false true ltac:(done) whole_ok Hpf Hc) as [D _]. rewrite D; [reflexivity|vm_compute; reflexivity].
  - destruct (report_delivered (K := bool) pf (fun _ => true) no_files (fun _ => true) whole _ (repeat 97 5000) CLIENT false true
      ltac:(done) whole_ok Hpf Hc) as [_ D]. apply D; vm_compute; congruence.
Defined.
