(* ===== verification/MemoryPool.v ===== *)
(** * MemoryPool: blocks kept for reuse ([memory_pool.cpp], with
    [MEMORY_POOL_ENABLE])

    [malloc] and [free] act on [mp_heap], the blocks the program has from the C
    library with their sizes.  Time is the steady clock; every operation takes the
    time it runs at. *)

From Stdlib Require Import ZArith Lia List Bool.
From stdpp Require Import base list numbers option sorting gmap.
From S2P Require Import Prelude Defs.

Abbreviation addr := Z.

Record MemoryBlock := mkBlock { memory : addr; size_ : Z; lastFreeTime : Z }.

Record MemoryPool := mkPool {
  freeMemoryMap_ : gmap Z (list MemoryBlock); usedMemoryMap_ : gmap addr MemoryBlock; mp_heap : gmap addr Z
}.

(** [emplace] leaves an entry that is there. *)
Definition emplace (a : addr) (b : MemoryBlock) (m : gmap addr MemoryBlock) : gmap addr MemoryBlock :=
  match m !! a with Some _ => m | None => <[a := b]> m end.

(** [fresh]: what [malloc] returns, [None] when it fails. *)
Definition Allocate (fresh : option addr) (now size : Z) (s : MemoryPool) : option addr * MemoryPool :=
  if size =? 0 then (None, s)
  else
    let malloc :=
      match fresh with
      | None => (None, s)
      | Some a => (Some a, mkPool (freeMemoryMap_ s) (emplace a (mkBlock a size now) (usedMemoryMap_ s)) (<[a := size]> (mp_heap s)))
      end in
    match freeMemoryMap_ s !! size with
    | Some l =>
        match rev l with
        | [] => malloc
        | block :: r =>
            let free := match r with [] => delete size (freeMemoryMap_ s) | _ => <[size := rev r]> (freeMemoryMap_ s) end in
            (Some (memory block), mkPool free (emplace (memory block) block (usedMemoryMap_ s)) (mp_heap s))
        end
    | None => malloc
    end.

(** [None] is the null pointer. *)
Definition Deallocate (ptr : option addr) (now : Z) (s : MemoryPool) : MemoryPool :=
  match ptr with
  | None => s
  | Some a =>
      match usedMemoryMap_ s !! a with
      | None => s
      | Some b =>
          let block := mkBlock (memory b) (size_ b) now in
          mkPool (<[size_ b := default [] (freeMemoryMap_ s !! size_ b) ++ [block]]> (freeMemoryMap_ s))
            (delete a (usedMemoryMap_ s)) (mp_heap s)
      end
  end.

Definition threshold : Z := 180.   (* three minutes, in seconds *)

(** The inner loop of [Cleanup] stops at the first block that is young enough. *)
Fixpoint old_blocks (time : Z) (l : list MemoryBlock) : list MemoryBlock :=
  match l with b :: l => if lastFreeTime b <? time then b :: old_blocks time l else [] | [] => [] end.
Fixpoint drop_old (time : Z) (l : list MemoryBlock) : list MemoryBlock :=
  match l with b :: r => if lastFreeTime b <? time then drop_old time r else l | [] => [] end.

(** Each list is treated on its own, so the order of the table does not matter. *)
Definition Cleanup (now : Z) (s : MemoryPool) : MemoryPool :=
  let time := now - threshold in
  let freed := concat (map (fun e => old_blocks time e.2) (map_to_list (freeMemoryMap_ s))) in
  mkPool (omap (fun l => match drop_old time l with [] => None | l => Some l end) (freeMemoryMap_ s)) (usedMemoryMap_ s)
    (foldr (fun b h => delete (memory b) h) (mp_heap s) freed).

Definition empty_pool : MemoryPool := mkPool ∅ ∅ ∅.

(** ** The invariant *)

Definition block_ok (s : MemoryPool) (now n : Z) (b : MemoryBlock) : Prop :=
  size_ b = n /\ mp_heap s !! memory b = Some n /\ usedMemoryMap_ s !! memory b = None /\ lastFreeTime b <= now.
Definition by_time (l : list MemoryBlock) : Prop := StronglySorted (fun a b => lastFreeTime a <= lastFreeTime b) l.

Record pool_inv (now : Z) (s : MemoryPool) : Prop := {
  pi_used : forall a b, usedMemoryMap_ s !! a = Some b -> memory b = a /\ mp_heap s !! a = Some (size_ b);
  pi_free : forall n l, freeMemoryMap_ s !! n = Some l ->
    l <> [] /\ NoDup (map memory l) /\ Forall (block_ok s now n) l /\ by_time l;
  pi_heap : forall a n, mp_heap s !! a = Some n ->
    is_Some (usedMemoryMap_ s !! a) \/ exists l b, freeMemoryMap_ s !! n = Some l /\ b ∈ l /\ memory b = a
}.

Lemma block_ok_later s now now' n b : now <= now' -> block_ok s now n b -> block_ok s now' n b.
Proof. intros Hn (H1 & H2 & H3 & H4). split_and!; try done. lia. Qed.

Lemma pool_later now now' s : now <= now' -> pool_inv now s -> pool_inv now' s.
Proof.
  intros Hn [I1 I2 I3]. split; [done| |done]. intros n l Hl. destruct (I2 n l Hl) as (N1 & N2 & N3 & N4). split_and!; try done.
  eapply Forall_impl; [exact N3|]. intros b. by apply block_ok_later.
Qed.

Lemma empty_pool_inv now : pool_inv now empty_pool.
Proof. split; intros *; cbn; by rewrite lookup_empty. Qed.

Lemma emplace_new a b m : m !! a = None -> emplace a b m = <[a := b]> m.
Proof. unfold emplace. by intros ->. Qed.

(** ** Lists in order of time *)

Lemma by_time_snoc l b : by_time l -> Forall (fun x => lastFreeTime x <= lastFreeTime b) l -> by_time (l ++ [b]).
Proof.
  induction 1 as [|x l Hl IH Hx]; intros Hb; [repeat constructor|]. apply List.Forall_cons_iff in Hb as [Hb Hr].
  cbn. constructor; [by apply IH|]. apply Forall_app. split; [done|]. by constructor.
Qed.

Lemma old_drop time l : l = old_blocks time l ++ drop_old time l.
Proof. induction l as [|b l IH]; [done|]. cbn. destruct (_ <? _); [cbn; by rewrite <- IH|done]. Qed.

(** What is left is young, what is taken is old. *)
Lemma drop_old_young time l : by_time l -> Forall (fun b => time <= lastFreeTime b) (drop_old time l).
Proof.
  induction 1 as [|b l Hl IH Hb]; [constructor|]. cbn. destruct (lastFreeTime b <? time) eqn:E; [done|]. breflect. constructor; [done|].
  eapply Forall_impl; [exact Hb|]. intros x Hx. cbn in Hx. lia.
Qed.
Lemma old_blocks_old time l : Forall (fun b => lastFreeTime b < time) (old_blocks time l).
Proof. induction l as [|b l IH]; [constructor|]. cbn. destruct (_ <? _) eqn:E; constructor; [by breflect|done]. Qed.

Lemma lookup_foldr_delete (l : list MemoryBlock) (h : gmap addr Z) a :
  foldr (fun b h => delete (memory b) h) h l !! a = if decide (a ∈ map memory l) then None else h !! a.
Proof.
  induction l as [|b l IH]; cbn [foldr map]; [by rewrite decide_False by apply not_elem_of_nil|].
  destruct (decide (a = memory b)) as [->|Hne]; [by rewrite lookup_delete_eq, decide_True by left|].
  rewrite lookup_delete_ne by done. rewrite IH. destruct (decide (a ∈ map memory l)) as [Hin|Hin].
  - by rewrite decide_True by by right.
  - rewrite decide_False; [done|]. intros [?|?]%elem_of_cons; done.
Qed.

(** ** The operations keep the invariant *)

Lemma Deallocate_inv ptr now s : pool_inv now s -> pool_inv now (Deallocate ptr now s).
Proof.
  intros [I1 I2 I3]. destruct ptr as [a|]; [|done]. cbn [Deallocate]. destruct (usedMemoryMap_ s !! a) as [b|] eqn:Ha; [|done].
  destruct (I1 a b Ha) as [Hm Hh]. split; cbn.
  - intros a' b' [_ Hb]%lookup_delete_Some. by apply I1.
  - assert (Hold : forall n l, freeMemoryMap_ s !! n = Some l ->
      l <> [] /\ NoDup (map memory l) /\ Forall (block_ok (Deallocate (Some a) now s) now n) l /\ by_time l /\ ~ (a ∈ map memory l)).
    { intros n l Hl. destruct (I2 n l Hl) as (N1 & N2 & N3 & N4). rewrite Forall_forall in N3.
      assert (Hna : ~ (a ∈ map memory l)).
      { intros (x & -> & Hx)%list_elem_of_fmap. destruct (N3 x Hx) as (_ & _ & Hu & _). congruence. }
      split_and!; try done. apply Forall_forall. intros x Hx. destruct (N3 x Hx) as (X1 & X2 & X3 & X4). unfold block_ok.
      cbn [Deallocate]. rewrite Ha. cbn. split_and!; try done. rewrite lookup_delete_ne; [done|]. intros ->. apply Hna.
      apply list_elem_of_fmap. eauto. }
    assert (Hnew : forall n, block_ok (Deallocate (Some a) now s) now n (mkBlock (memory b) (size_ b) now) <-> n = size_ b).
    { intros n. unfold block_ok. cbn [Deallocate]. rewrite Ha. cbn. rewrite Hm, lookup_delete_eq. split; [by intros (-> & _)|].
      intros ->. by split_and!. }
    cbn [Deallocate] in *. rewrite Ha in *. intros n l [[<- <-]|[Hne Hl]]%lookup_insert_Some.
    + destruct (freeMemoryMap_ s !! size_ b) as [l|] eqn:El; cbn [default from_option id].
      * destruct (Hold _ _ El) as (N1 & N2 & N3 & N4 & N5). split_and!.
        -- by destruct l.
        -- rewrite map_app. apply NoDup_app. split_and!; [done| |by apply NoDup_singleton].
           intros x Hx Hx2. cbn in Hx2. apply list_elem_of_singleton in Hx2 as ->. by rewrite Hm in Hx.
        -- apply Forall_app. split; [done|]. constructor; [by apply Hnew|constructor].
        -- apply by_time_snoc; [done|]. eapply Forall_impl; [exact N3|]. by intros x (_ & _ & _ & ?).
      * split_and!; [done|apply NoDup_singleton|constructor; [by apply Hnew|constructor]|repeat constructor].
    + destruct (Hold _ _ Hl) as (N1 & N2 & N3 & N4 & _). by split_and!.
  - intros a' n Hn. destruct (decide (a' = a)) as [->|Hne].
    + right. rewrite Hh in Hn. injection Hn as <-. eexists _, (mkBlock (memory b) (size_ b) now). rewrite lookup_insert_eq. split; [done|].
      split; [apply elem_of_app; right; left|done].
    + destruct (I3 a' n Hn) as [Hu|(l & x & Hl & Hx & Hmx)]; [left; by rewrite lookup_delete_ne|right].
      destruct (decide (n = size_ b)) as [->|Hns].
      * rewrite lookup_insert_eq. eexists _, x. split; [done|]. rewrite Hl. cbn. split; [apply elem_of_app; by left|done].
      * rewrite lookup_insert_ne by done. eauto.
Qed.

(** A block was handed out: [a], of the size asked for, held by nobody before. *)
Definition handed_out (now size : Z) (s : MemoryPool) (a : addr) (s' : MemoryPool) : Prop :=
  pool_inv now s' /\ usedMemoryMap_ s !! a = None /\ is_Some (usedMemoryMap_ s' !! a) /\ mp_heap s' !! a = Some size.

Lemma Allocate_malloc now size s a : pool_inv now s -> mp_heap s !! a = None ->
  handed_out now size s a (mkPool (freeMemoryMap_ s) (emplace a (mkBlock a size now) (usedMemoryMap_ s)) (<[a := size]> (mp_heap s))).
Proof.
  intros [I1 I2 I3] Hfresh. assert (Hu : usedMemoryMap_ s !! a = None).
  { destruct (usedMemoryMap_ s !! a) as [b|] eqn:E; [|done]. destruct (I1 a b E). congruence. }
  unfold handed_out. rewrite emplace_new by done. cbn. split_and!; [|done|rewrite lookup_insert_eq; by eexists|apply lookup_insert_eq].
  split; cbn.
  - intros a' b [[<- <-]|[Hne Hb]]%lookup_insert_Some; [split; [done|apply lookup_insert_eq]|]. rewrite lookup_insert_ne by done. by apply I1.
  - intros n l Hl. destruct (I2 n l Hl) as (N1 & N2 & N3 & N4). split_and!; try done. eapply Forall_impl; [exact N3|].
    intros b (B1 & B2 & B3 & B4). assert (a <> memory b) by congruence. unfold block_ok. cbn. by rewrite !lookup_insert_ne.
  - intros a' n [[<- <-]|[Hne Hn]]%lookup_insert_Some; [left; rewrite lookup_insert_eq; by eexists|].
    rewrite lookup_insert_ne by done. by apply I3.
Qed.

(** The last block of the list of that size. *)
Lemma Allocate_reuse now size s r b : pool_inv now s -> freeMemoryMap_ s !! size = Some (rev r ++ [b]) ->
  handed_out now size s (memory b) (mkPool (match r with [] => delete size (freeMemoryMap_ s) | _ => <[size := rev r]> (freeMemoryMap_ s) end)
    (emplace (memory b) b (usedMemoryMap_ s)) (mp_heap s)).
Proof.
  intros [I1 I2 I3] El. destruct (I2 _ _ El) as (N1 & N2 & N3 & N4).
  apply Forall_app in N3 as [N3 [(B1 & B2 & B3 & B4) _]%List.Forall_cons_iff]. rewrite map_app in N2. apply NoDup_app in N2 as (N2 & N5 & _).
  unfold handed_out. rewrite emplace_new by done. cbn.
  split_and!; [|done|rewrite lookup_insert_eq; by eexists|done]. split; cbn.
  - intros a' b' [[<- <-]|[Hne Hb]]%lookup_insert_Some; [split; [done|by rewrite B1]|by apply I1].
  - intros n l' Hl'.
    assert (Hc : l' = rev r /\ n = size /\ r <> [] \/ n <> size /\ freeMemoryMap_ s !! n = Some l').
    { destruct r as [|x r]; [right; by apply lookup_delete_Some in Hl' as [? ?]|].
      apply lookup_insert_Some in Hl' as [[<- <-]|[? ?]]; [by left|by right]. }
    destruct Hc as [(-> & -> & Hr)|[Hns Hl2]].
    + split_and!; [intros E; apply (f_equal (@rev _)) in E; by rewrite rev_involutive in E|done| |by eapply StronglySorted_app_1_l].
      rewrite Forall_forall in N3 |- *. intros x Hx. destruct (N3 x Hx) as (X1 & X2 & X3 & X4). unfold block_ok. cbn. split_and!; try done.
      rewrite lookup_insert_ne; [done|]. intros E. apply (N5 (memory x)); [apply list_elem_of_fmap; eauto|]. rewrite <- E. left.
    + destruct (I2 _ _ Hl2) as (M1 & M2 & M3 & M4). split_and!; try done. eapply Forall_impl; [exact M3|].
      intros x (X1 & X2 & X3 & X4). unfold block_ok. cbn. split_and!; try done. rewrite lookup_insert_ne; [done|]. intros E. rewrite <- E in X2. congruence.
  - intros a' n Hn. destruct (decide (a' = memory b)) as [->|Hne]; [left; rewrite lookup_insert_eq; by eexists|].
    destruct (I3 a' n Hn) as [Hu|(l' & x & Hl' & Hx & Hmx)]; [left; by rewrite lookup_insert_ne|right].
    destruct (decide (n = size)) as [->|Hns].
    + rewrite El in Hl'. injection Hl' as <-. apply elem_of_app in Hx as [Hx|Hx%list_elem_of_singleton]; [|congruence].
      exists (rev r), x. split; [|done]. destruct r as [|y r]; [by apply not_elem_of_nil in Hx|]. apply lookup_insert_eq.
    + exists l', x. split; [|done]. destruct r; [by rewrite lookup_delete_ne|by rewrite lookup_insert_ne].
Qed.

Lemma Allocate_cases fresh now size s : pool_inv now s -> (forall a, fresh = Some a -> mp_heap s !! a = None) ->
  match Allocate fresh now size s with (None, s') => s' = s | (Some a, s') => handed_out now size s a s' end.
Proof.
  intros I Hfresh. unfold Allocate. destruct (size =? 0); [done|].
  destruct (freeMemoryMap_ s !! size) as [l|] eqn:El; [destruct (rev l) as [|b r] eqn:Er|];
    [destruct fresh; [by apply Allocate_malloc; auto|done]| |destruct fresh; [by apply Allocate_malloc; auto|done]].
  apply Allocate_reuse; [done|]. rewrite El. f_equal. rewrite <- (rev_involutive l), Er. done.
Qed.

Lemma Cleanup_freed time s a : a ∈ map memory (concat (map (fun e => old_blocks time e.2) (map_to_list (freeMemoryMap_ s)))) <->
  exists n l b, freeMemoryMap_ s !! n = Some l /\ b ∈ old_blocks time l /\ memory b = a.
Proof.
  rewrite list_elem_of_fmap. setoid_rewrite list_elem_of_In. setoid_rewrite in_concat. setoid_rewrite in_map_iff. split.
  - intros (b & -> & (l' & ([n l] & <- & Hin) & Hb)). apply list_elem_of_In, elem_of_map_to_list in Hin. exists n, l, b. eauto.
  - intros (n & l & b & Hl & Hb & <-). exists b. split; [done|]. exists (old_blocks time l). split; [|done]. exists (n, l).
    split; [done|]. by apply list_elem_of_In, elem_of_map_to_list.
Qed.

Lemma Cleanup_free time s n l : freeMemoryMap_ (Cleanup (time + threshold) s) !! n = Some l <->
  exists l0, freeMemoryMap_ s !! n = Some l0 /\ drop_old time l0 = l /\ l <> [].
Proof.
  unfold Cleanup. cbn. replace (time + threshold - threshold) with time by lia. rewrite lookup_omap.
  destruct (freeMemoryMap_ s !! n) as [l0|]; cbn; [|split; [done|by intros (? & ? & _)]]. split.
  - destruct (drop_old time l0) as [|b k] eqn:E; [done|]. intros [= <-]. eauto.
  - intros (l1 & [= <-] & <- & Hne). by destruct (drop_old time l0).
Qed.

(** A block goes back to the C library exactly when it is free and old. *)
Lemma Cleanup_heap time s a n : mp_heap (Cleanup (time + threshold) s) !! a = Some n <->
  mp_heap s !! a = Some n /\ ~ exists m l b, freeMemoryMap_ s !! m = Some l /\ b ∈ old_blocks time l /\ memory b = a.
Proof.
  unfold Cleanup. cbn. replace (time + threshold - threshold) with time by lia. rewrite lookup_foldr_delete, <- Cleanup_freed.
  case_decide; naive_solver.
Qed.

Lemma Cleanup_inv now s : pool_inv now s -> pool_inv now (Cleanup now s).
Proof.
  intros [I1 I2 I3]. set (time := now - threshold). replace now with (time + threshold) at 2 by (unfold time; lia).
  assert (Hkeep : forall a n, mp_heap s !! a = Some n ->
    is_Some (usedMemoryMap_ s !! a) \/ (exists l b, freeMemoryMap_ s !! n = Some l /\ b ∈ drop_old time l /\ memory b = a) ->
    mp_heap (Cleanup (time + threshold) s) !! a = Some n).
  { intros a n Hn Hc. apply Cleanup_heap. split; [done|]. intros (m & l & b & Hl & Hb & <-).
    assert (Hbl : b ∈ l) by (rewrite (old_drop time l); apply elem_of_app; by left).
    destruct (I2 _ _ Hl) as (_ & N2 & N3 & _). rewrite Forall_forall in N3. destruct (N3 b Hbl) as (B1 & B2 & B3 & _).
    destruct Hc as [[x Hx]|(l2 & c & Hl2 & Hc & Hm)]; [congruence|]. assert (m = n) as -> by congruence. rewrite Hl in Hl2. injection Hl2 as <-.
    rewrite (old_drop time l), map_app in N2. apply NoDup_app in N2 as (_ & N2 & _). apply (N2 (memory b)); apply list_elem_of_fmap; eauto. }
  split.
  - intros a b Ha. destruct (I1 a b Ha) as [Hm Hh]. split; [done|]. apply Hkeep; [done|]. left. by eexists.
  - intros n l (l0 & Hl0 & <- & Hne)%Cleanup_free. destruct (I2 _ _ Hl0) as (_ & N2 & N3 & N4). split_and!.
    + done.
    + rewrite (old_drop time l0), map_app in N2. by apply NoDup_app in N2 as (_ & _ & N2).
    + assert (Hsub : forall b, b ∈ drop_old time l0 -> b ∈ l0) by (intros b Hb; rewrite (old_drop time l0); apply elem_of_app; by right).
      rewrite Forall_forall in N3 |- *. intros b Hb. destruct (N3 b (Hsub b Hb)) as (B1 & B2 & B3 & B4). split_and!; try done.
      apply Hkeep; [done|]. right. eauto.
    + rewrite (old_drop time l0) in N4. by eapply StronglySorted_app_1_r.
  - intros a n [Hn Hno]%Cleanup_heap. destruct (I3 a n Hn) as [Hu|(l & b & Hl & Hb & Hm)]; [by left|right].
    rewrite (old_drop time l) in Hb. apply elem_of_app in Hb as [Hb|Hb]; [exfalso; apply Hno; eauto 7|].
    exists (drop_old time l), b. split; [|done]. apply Cleanup_free. exists l. split; [done|]. split; [done|]. by intros E; rewrite E in Hb; apply not_elem_of_nil in Hb.
Qed.

(** ** Runs *)

Inductive PoolOp := OpAllocate (fresh : option addr) (size : Z) | OpDeallocate (ptr : option addr) | OpCleanup.
Definition pool_step (now : Z) (op : PoolOp) (s : MemoryPool) : MemoryPool :=
  match op with
  | OpAllocate fresh size => (Allocate fresh now size s).2
  | OpDeallocate ptr => Deallocate ptr now s
  | OpCleanup => Cleanup now s
  end.

(** Any sequence of operations, one at a time under the lock, at later and later
    times; [malloc] returns blocks that are not in use. *)
Inductive pool_runs : Z -> MemoryPool -> Prop :=
  | runs_start now : pool_runs now empty_pool
  | runs_op now now' op s : pool_runs now s -> now <= now' ->
      (forall a size, op = OpAllocate (Some a) size -> mp_heap s !! a = None) -> pool_runs now' (pool_step now' op s).

Lemma pool_runs_inv now s : pool_runs now s -> pool_inv now s.
Proof.
  induction 1 as [now|now now' op s _ IH Hn Hf]; [apply empty_pool_inv|]. pose proof (pool_later _ _ _ Hn IH) as I.
  destruct op as [fresh size|ptr|]; cbn; [|by apply Deallocate_inv|by apply Cleanup_inv].
  pose proof (Allocate_cases fresh now' size s I) as C. destruct (Allocate fresh now' size s) as [[a|] s']; cbn.
  - apply C. intros a0 ->. by eapply Hf.
  - rewrite C; [done|]. intros a0 ->. by eapply Hf.
Qed.

(** Whatever the sequence of operations, the pool hands out a block of exactly
    the requested size that nobody holds and that the program still has from the C
    library; every block of the C library is either held or free; and after a
    clean-up no free block is older than the threshold while held blocks are all
    still there. *)
Theorem memory_pool_sound now s : pool_runs now s ->
  (forall fresh size a s', (forall a, fresh = Some a -> mp_heap s !! a = None) -> Allocate fresh now size s = (Some a, s') ->
     usedMemoryMap_ s !! a = None /\ is_Some (usedMemoryMap_ s' !! a) /\ mp_heap s' !! a = Some size) /\
  (forall a n, mp_heap s !! a = Some n ->
     (exists b, usedMemoryMap_ s !! a = Some b) \/ (exists l b, freeMemoryMap_ s !! n = Some l /\ b ∈ l /\ memory b = a)) /\
  (forall n l, freeMemoryMap_ (Cleanup now s) !! n = Some l -> Forall (fun b => now - threshold <= lastFreeTime b) l) /\
  (forall a b, usedMemoryMap_ (Cleanup now s) !! a = Some b -> mp_heap (Cleanup now s) !! a = Some (size_ b)).
Proof.
  intros R. pose proof (pool_runs_inv _ _ R) as I. split_and!.
  - intros fresh size a s' Hf E. pose proof (Allocate_cases fresh now size s I Hf) as C. rewrite E in C.
    by destruct C as (_ & Hu & Hs & Hh).
  - apply (pi_heap _ _ I).
  - intros n l Hl. replace now with (now - threshold + threshold) in Hl by lia. apply Cleanup_free in Hl as (l0 & Hl0 & <- & _).
    apply drop_old_young. by apply (pi_free _ _ I) in Hl0 as (_ & _ & _ & ?).
  - intros a b Ha. by apply (pi_used _ _ (Cleanup_inv _ _ I)) in Ha as [_ ?].
Qed.

(** Two blocks, one given back and reused. *)
Lemma memory_pool_sound_witness :
  let s := pool_step 3 (OpDeallocate (Some 100)) (pool_step 2 (OpAllocate (Some 200) 64) (pool_step 1 (OpAllocate (Some 100) 64) empty_pool)) in
  (Allocate None 3 64 s).1 = Some 100 /\ usedMemoryMap_ s !! 100 = None.
Proof.
  cbv zeta. split; [vm_compute; reflexivity|].
  match goal with |- usedMemoryMap_ ?s !! _ = _ => assert (R : pool_runs 3 s) end.
  { eapply (runs_op 2); [|lia|done]. eapply (runs_op 1); [|lia|by intros a z [= <- <-]]. eapply (runs_op 0); [constructor|lia|].
    intros a z [= <- <-]. reflexivity. }
  destruct (memory_pool_sound _ _ R) as (A & _). eapply (A None 64 100); [done|vm_compute; reflexivity].
Defined.
