(* ===== verification/Archive.v ===== *)
(** * Archive: directories packed into an archive and unpacked again
    ([entry.cpp], [compress.cpp], [decompress.cpp], [TryCreateDirectory] of
    [base.cpp])

    The file system that is read is a function from paths to what is there; the
    one that is written maps paths to nodes.  An output stream keeps its failed
    state: nothing more is written after a failure. *)

From Stdlib Require Import String ZArith Lia List Bool.
From stdpp Require Import base list numbers option gmap.
From S2P Require Import Prelude Defs Strings TarHeader.

Definition S_IFMT : Z := 0xF000.
Definition S_IFDIR : Z := 0x4000.
Definition S_IFREG : Z := 0x8000.
Definition S_IFLNK : Z := 0xA000.
Definition has_bits (mode bits : Z) : bool := negb (Z.land mode bits =? 0).

Definition ENTRY_FILE_BUFSIZE : Z := 4 * 1024.
Definition ENTRY_MAX_FILE_SIZE : Z := 4 * 1024 * 1024 * 1024.

(** ** What is read *)

(** A regular file; a symbolic link with the length of its text and what opening
    it reads; a directory with its entries in the order [scandir] lists them;
    anything else. *)
Inductive Node := NFile (content : bytes) | NLink (len : Z) (content : option bytes) | NDir (entries : list (bytes * Node))
  | NOther (mode : Z).

Definition st_mode (n : Node) : Z :=
  match n with NFile _ => S_IFREG | NLink _ _ => S_IFLNK | NDir _ => S_IFDIR | NOther m => m end.
Definition st_size (n : Node) : Z :=
  match n with NFile c => zlen c | NLink len _ => len | NDir _ | NOther _ => 0 end.
(** What [ifstream] reads; [None] when it cannot be opened or read. *)
Definition readable (n : Node) : option bytes :=
  match n with NFile c => Some c | NLink _ c => c | NDir _ | NOther _ => None end.

(** ** Entries *)

Record Entry := mkEntry { e_header : Header; e_needSize : Z; e_prefix : bytes; e_data : bytes }.

Definition StripPrefix (s prefix : bytes) : option bytes :=
  if is_prefix prefix s then Some (zdrop (zlen prefix) s) else None.

Definition Entry_UpdataName (name : bytes) (e : Entry) : bool * Entry :=
  let n := if bytes_eqb (e_prefix e) [] then name else default name (StripPrefix name (e_prefix e)) in
  let '(ok, h) := UpdataName (e_header e) n in (ok, mkEntry h (e_needSize e) (e_prefix e) (e_data e)).

(** [Entry(prefix, path)].  [needSize] is not set for what is not a file; 0
    stands for it. *)
Definition Entry_path (src : bytes -> option Node) (prefix path : bytes) : Entry :=
  let '(h, need) :=
    match src path with
    | Some n =>
        if has_bits (st_mode n) S_IFDIR then (UpdataSize (UpdataFileType Header_new DIRECTORY) 0, 0)
        else if has_bits (st_mode n) S_IFREG then
          if st_size n <? ENTRY_MAX_FILE_SIZE then (UpdataFileType (UpdataSize Header_new (st_size n)) ORDINARYFILE, st_size n)
          else (Header_new, 0)
        else (Header_new, 0)
    | None => (Header_new, 0)
    end in
  (Entry_UpdataName path (mkEntry h need (prefix ++ [GetPathSep]) [])).2.

(** [Entry(data, dataLen)]. *)
Definition Entry_data (data : bytes) (dataLen : Z) : Entry :=
  let h := Header_parse (Some data) dataLen in mkEntry h (Size h) [] [].

Definition AddData (data : bytes) (e : Entry) : Entry :=
  if e_needSize e =? 0 then e
  else if zlen data <? e_needSize e then mkEntry (e_header e) (e_needSize e - zlen data) (e_prefix e) (e_data e ++ data)
  else mkEntry (e_header e) 0 (e_prefix e) (e_data e ++ ztake (e_needSize e) data).

Definition GetName (e : Entry) : bytes :=
  let n := Name (e_header e) in
  match e_prefix e with
  | [] => n
  | p => (if bool_decide (last p = Some GetPathSep) then p else p ++ [GetPathSep]) ++ n
  end.

(** ** Packing *)

Record OStream := mkOut { o_good : bool; o_bytes : bytes }.
Definition write (d : bytes) (o : OStream) : OStream := if o_good o then mkOut true (o_bytes o ++ d) else o.
(** [file << in.rdbuf()] fails when it inserts nothing. *)
Definition insert_buf (d : option bytes) (o : OStream) : OStream :=
  if o_good o then match d with Some (c :: d) => mkOut true (o_bytes o ++ c :: d) | _ => mkOut false (o_bytes o) end else o.

Definition header_out (h : Header) : bytes := (GetBytes h (zeros 512) HEADER_LEN).2.

Definition WriteToTar (src : bytes -> option Node) (e : Entry) (o : OStream) : bool * OStream :=
  let t := FileType (e_header e) in
  if t =? ORDINARYFILE then
    let o := write (header_out (e_header e)) o in
    if Size (e_header e) =? 0 then (true, o)
    else
      let o := insert_buf (src (GetName e) ≫= readable) o in
      let pading := HEADER_LEN - e_needSize e mod HEADER_LEN in
      (true, if pading <? HEADER_LEN then write (zeros (Z.to_nat pading)) o else o)
  else if t =? DIRECTORY then (true, write (header_out (e_header e)) o)
  else (false, o).

Record Compress := mkCompress { entrys : list Entry; c_prefix : bytes; maxcount : Z }.

Definition AddEntry (src : bytes -> option Node) (path : bytes) (c : Compress) : bool * Compress :=
  if (0 <? maxcount c) && (maxcount c <? zlen (entrys c)) then (false, c)
  else if (0 <? zlen (c_prefix c)) && bytes_eqb path (c_prefix c) then (true, c)
  else (true, mkCompress (entrys c ++ [Entry_path src (c_prefix c) path]) (c_prefix c) (maxcount c)).

(** [strncmp(name, ".", 1) == 0]: every name that starts with a dot. *)
Definition hidden (name : bytes) : bool := match name with 46 :: _ => true | _ => false end.

(** The loop over the entries of a directory; [add] is [AddPath]. *)
Fixpoint add_children (add : bytes -> Compress -> option (bool * Compress)) (path : bytes) (l : list (bytes * Node)) (c : Compress)
  : option (bool * Compress) :=
  match l with
  | [] => Some (true, c)
  | (name, _) :: l =>
      if hidden name then add_children add path l c
      else
        '((ok, c) : bool * Compress) ← add (path ++ [GetPathSep] ++ name) c;
        if ok : bool then add_children add path l c else Some (false, c)
  end.

(** Recursion on the depth of the tree; [None]: not deep enough. *)
Fixpoint AddPath (fuel : nat) (src : bytes -> option Node) (path : bytes) (c : Compress) : option (bool * Compress) :=
  match fuel with
  | O => None
  | S fuel =>
      match src path with
      | None => Some (false, c)
      | Some n =>
          if has_bits (st_mode n) S_IFREG then Some (AddEntry src path c)
          else
            let '(ok, c) := AddEntry src path c in
            if negb ok then Some (false, c)
            else match n with NDir l => add_children (AddPath fuel src) path l c | _ => Some (false, c) end
      end
  end.

(** The result of [WriteToTar] is not looked at.  [can_open]: whether the output
    file could be opened. *)
Definition SaveToFile (src : bytes -> option Node) (localPath : bytes) (can_open : bool) (c : Compress) : bool * option bytes :=
  let localPath := if zlen localPath <=? 0 then str "tmp.tar" else localPath in
  match src localPath with
  | Some n => if has_bits (st_mode n) S_IFDIR then (false, None)
              else if can_open then (true, Some (o_bytes (fold_left (fun o e => (WriteToTar src e o).2) (entrys c) (mkOut true []))))
              else (false, None)
  | None => if can_open then (true, Some (o_bytes (fold_left (fun o e => (WriteToTar src e o).2) (entrys c) (mkOut true []))))
            else (false, None)
  end.

Definition UpdatePrefix (pathPrefix : bytes) (c : Compress) : Compress := mkCompress (entrys c) pathPrefix (maxcount c).
Definition UpdataMaxCount (maxCount : Z) (c : Compress) : Compress := mkCompress (entrys c) (c_prefix c) maxCount.
(** [Compress()] does not set [maxcount]; [garbage] is what the memory held. *)
Definition new_compress (garbage : Z) : Compress := mkCompress [] [] garbage.

(** [HdcHostApp::Dir2Tar] for a directory: the bytes of the archive. *)
Definition Dir2Tar (fuel : nat) (src : bytes -> option Node) (garbage : Z) (dir tarpath : bytes) : option (bool * option bytes) :=
  r ← AddPath fuel src dir (UpdatePrefix dir (new_compress garbage)); Some (SaveToFile src tarpath true r.2).

(** ** What is written *)

Inductive DNode := DDir | DFile (content : bytes) | DOther (mode : Z).
#[export] Instance DNode_eq_dec : EqDecision DNode.
Proof. solve_decision. Defined.
Definition d_mode (n : DNode) : Z := match n with DDir => S_IFDIR | DFile _ => S_IFREG | DOther m => m end.

(** A slash at the end does not matter; the directory a path is in. *)
Definition key (path : bytes) : bytes :=
  if bool_decide (last path = Some GetPathSep) then ztake (zlen path - 1) path else path.
Definition parent (k : bytes) : bytes := match rfind [GetPathSep] k with Some i => ztake i k | None => [] end.
Definition lstat (path : bytes) (fs : gmap bytes DNode) : option DNode := fs !! key path.

Definition mkdir (path : bytes) (fs : gmap bytes DNode) : bool * (gmap bytes DNode) :=
  match fs !! key path, fs !! parent (key path) with
  | None, Some DDir => (true, <[key path := DDir]> fs)
  | _, _ => (false, fs)
  end.

Definition TryCreateDirectory (path : bytes) (fs : gmap bytes DNode) : bool * (gmap bytes DNode) :=
  match lstat path fs with
  | None => mkdir path fs
  | Some n => (Z.land (d_mode n) S_IFMT =? S_IFDIR, fs)
  end.

(** [ofstream(path, app)]: the file is created if need be. *)
Definition open_append (path : bytes) (fs : gmap bytes DNode) : option (gmap bytes DNode) :=
  match fs !! path, fs !! parent path with
  | Some (DFile c), _ => Some fs
  | None, Some DDir => if bool_decide (last path = Some GetPathSep) then None else Some (<[path := DFile []]> fs)
  | _, _ => None
  end.
Definition append (path d : bytes) (fs : gmap bytes DNode) : gmap bytes DNode :=
  match fs !! path with Some (DFile c) => <[path := DFile (c ++ d)]> fs | _ => fs end.

(** ** Unpacking *)

(** Whether it worked, what is left of the input, what was written. *)
Definition ReadAndWriteData (inFile : bytes) (readSize writeSize : Z) : bool * bytes * bytes :=
  let got := ztake readSize inFile in
  if zlen got =? readSize then (true, zdrop readSize inFile, ztake writeSize got) else (false, zdrop readSize inFile, []).

(** The loop over full buffers and the last, padded piece. *)
Fixpoint copy_loop (fuel : nat) (inFile : bytes) (needSize : Z) (out : bytes) : option (bool * Z * bytes * bytes) :=
  if ENTRY_FILE_BUFSIZE <=? needSize then
    match fuel with
    | O => None
    | S fuel =>
        let '(ok, inFile, d) := ReadAndWriteData inFile ENTRY_FILE_BUFSIZE ENTRY_FILE_BUFSIZE in
        if ok : bool then copy_loop fuel inFile (needSize - ENTRY_FILE_BUFSIZE) (out ++ d)
        else Some (false, needSize, inFile, out)
    end
  else Some (true, needSize, inFile, out).
Definition copy_payload (inFile : bytes) (needSize : Z) : option (bool * bytes * bytes) :=
  '((ok, need, inFile, out) : bool * Z * bytes * bytes) ← copy_loop (Z.to_nat (needSize / ENTRY_FILE_BUFSIZE)) inFile needSize [];
  if ok && (0 <? need) then
    let paddingSize := HEADER_LEN - need mod HEADER_LEN in
    let lastBufSize := if paddingSize =? HEADER_LEN then need else need + paddingSize in
    let '(ok, inFile, d) := ReadAndWriteData inFile lastBufSize need in
    Some (ok, inFile, out ++ d)
  else Some (ok, inFile, out).

Definition PayloadToFile (prefixPath : bytes) (e : Entry) (inFile : bytes) (fs : gmap bytes DNode) : option (bool * bytes * (gmap bytes DNode)) :=
  let saveFile := prefixPath ++ GetName e in
  if negb (CheckPathTraversal saveFile) then Some (false, inFile, fs)
  else
    match open_append saveFile fs with
    | None => Some (false, inFile, fs)
    | Some fs =>
        '((ret, inFile, d) : bool * bytes * bytes) ← copy_payload inFile (e_needSize e); Some (ret, inFile, append saveFile d fs)
    end.

Definition PayloadToDir (prefixPath : bytes) (e : Entry) (fs : gmap bytes DNode) : bool * (gmap bytes DNode) :=
  let dirPath := prefixPath ++ GetName e in
  if negb (CheckPathTraversal dirPath) then (false, fs) else TryCreateDirectory dirPath fs.

Definition CopyPayload (prefixPath : bytes) (e : Entry) (inFile : bytes) (fs : gmap bytes DNode) : option (bool * bytes * (gmap bytes DNode)) :=
  if negb (CheckPathTraversal (GetName e)) then Some (false, inFile, fs)
  else
    let t := FileType (e_header e) in
    if t =? ORDINARYFILE then PayloadToFile prefixPath e inFile fs
    else if t =? DIRECTORY then let '(ok, fs) := PayloadToDir prefixPath e fs in Some (ok, inFile, fs)
    else Some (false, inFile, fs).

Definition ValidateTarFile (n : DNode) : bool :=
  has_bits (d_mode n) S_IFREG &&
  match n with DFile c => negb (zlen c =? 0) && (zlen c mod HEADER_LEN =? 0) | _ => false end.
Definition ValidateDecompressPath (n : DNode) : bool :=
  negb (has_bits (d_mode n) S_IFLNK) && negb (has_bits (d_mode n) S_IFREG).

Definition CheckPath (tarPath decPath : bytes) (fs : gmap bytes DNode) : bool * (gmap bytes DNode) :=
  match lstat tarPath fs with
  | None => (false, fs)
  | Some n =>
      if negb (ValidateTarFile n) then (false, fs)
      else
        match lstat decPath fs with
        | Some d => (ValidateDecompressPath d, fs)
        | None => TryCreateDirectory decPath fs
        end
  end.

(** One header per round, at least 512 bytes; a header that is cut short ends the
    loop without an error. *)
Fixpoint unpack_loop (fuel : nat) (decPath inFile : bytes) (fs : gmap bytes DNode) : option (bool * (gmap bytes DNode)) :=
  match fuel with
  | O => None
  | S fuel =>
      let buff := ztake HEADER_LEN inFile in
      if zlen buff =? 0 then Some (true, fs)
      else if negb (zlen buff =? HEADER_LEN) then Some (true, fs)
      else
        '((ok, inFile, fs) : bool * bytes * (gmap bytes DNode)) ← CopyPayload decPath (Entry_data buff HEADER_LEN) (zdrop HEADER_LEN inFile) fs;
        if ok : bool then unpack_loop fuel decPath inFile fs else Some (false, fs)
  end.

Definition DecompressToLocal (tarPath decPath : bytes) (fs : gmap bytes DNode) : option (bool * (gmap bytes DNode)) :=
  let '(ok, fs) := CheckPath tarPath decPath fs in
  if negb ok then Some (false, fs)
  else
    match lstat tarPath fs with
    | Some (DFile tar) => unpack_loop (S (length tar)) decPath tar fs
    | _ => Some (true, fs)
    end.

(** [HdcDaemonApp::Tar2Dir]: the directory is named after what precedes the last
    ".tar"; whether the unpacking worked is not looked at. *)
Definition Tar2Dir (path : bytes) (fs : gmap bytes DNode) : option (bytes * (gmap bytes DNode)) :=
  match rfind (str ".tar") path with
  | None => Some ([], fs)
  | Some rindex =>
      let dir := ztake rindex path ++ [GetPathSep] in
      r ← DecompressToLocal path dir fs; Some (dir, r.2)
  end.
