(* ===== verification/ArchiveProps.v ===== *)
(** * ArchiveProps: unpacking restores the tree that was packed *)

From Stdlib Require Import String ZArith Lia List Bool.
From stdpp Require Import base list numbers option gmap.
From S2P Require Import Prelude Defs Strings Numbers TarHeader Archive.

(** ** Headers of entries *)

(** The header of an item: type, size and name. *)
Definition item_header (t size : Z) (rel : bytes) : Header := (UpdataName (UpdataSize (UpdataFileType Header_new t) size) rel).2.
Definition name_ok (rel : bytes) : Prop := 0 < zlen rel <= 198 /\ no_nul rel /\ wf_bytes rel.

Lemma zdrop_wf n l : wf_bytes l -> wf_bytes (zdrop n l).
Proof. apply wf_zdrop. Qed.

Lemma wf_snprintf dest count s : wf_bytes dest -> wf_bytes s -> wf_bytes (snprintf_s dest count s).2.
Proof.
  intros Hd Hs. unfold snprintf_s. cbn [snd]. apply Forall_app. split; [|by apply wf_zdrop]. apply Forall_app. split.
  - apply wf_ztake. clear -Hs. induction Hs as [|c s Hc Hs IH]; [constructor|]. cbn. destruct (c =? 0); [constructor|by constructor].
  - constructor; [unfold in_u; lia|constructor].
Qed.

Lemma zeros_wf n : wf_bytes (zeros n).
Proof. apply Forall_forall. intros x Hx. apply list_elem_of_In, repeat_spec in Hx as ->. unfold in_u. lia. Qed.

(** The name fields of a header only depend on the name fields before. *)
Definition name_fields (rel : bytes) : bytes * bytes :=
  let h := (UpdataName Header_new rel).2 in (h_name h, h_prefix h).
Lemma UpdataName_fields h rel : h_name h = zeros 100 -> h_prefix h = zeros 155 ->
  (UpdataName h rel).2 = set_name h (name_fields rel).1 (name_fields rel).2.
Proof.
  intros Hn Hp. unfold name_fields, UpdataName. rewrite Hn, Hp. destruct (_ <=? _); [by destruct h; cbn in *; subst|].
  destruct (_ <? _); [by destruct (snprintf_s _ _ rel)|].
  cbn [h_name h_prefix Header_new]. destruct (snprintf_s (zeros 100) _ _), (snprintf_s (zeros 155) _ _). done.
Qed.

Lemma name_fields_ok rel : name_ok rel ->
  let '(n, p) := name_fields rel in length n = 100%nat /\ length p = 155%nat /\ wf_bytes n /\ wf_bytes p /\ Name (set_name Header_new n p) = rel.
Proof.
  intros (Hl & Hn & Hw). pose proof (name_roundtrip rel Hn) as R. unfold name_fields.
  destruct (UpdataName Header_new rel) as [ok h] eqn:E. destruct R as [R _]. destruct R as [-> R]; [lia|]. cbn [snd].
  unfold UpdataName, HEADER_MAX_FILE_LEN, HEADER_NAME_LEN in E. rewrite (proj2 (Z.leb_gt 255 _)) in E by lia.
  destruct (zlen rel <? 100).
  - pose proof (length_snprintf (h_name Header_new) (100 - 1) rel ltac:(lia) ltac:(by vm_compute)) as L1.
    pose proof (wf_snprintf (h_name Header_new) (100 - 1) rel (zeros_wf 100) Hw) as W1.
    destruct (snprintf_s _ _ rel) as [rc name]. injection E as <-. cbn in *. split_and!; try done; [lia|exact (zeros_wf 155)].
  - set (k := zlen rel - _) in E.
    pose proof (length_snprintf (h_name Header_new) (100 - 1) (zdrop k rel) ltac:(lia) ltac:(by vm_compute)) as L1.
    pose proof (wf_snprintf (h_name Header_new) (100 - 1) (zdrop k rel) (zeros_wf 100) ltac:(by apply wf_zdrop)) as W1.
    pose proof (length_snprintf (h_prefix Header_new) (100 - 1) (ztake k rel) ltac:(lia) ltac:(by vm_compute)) as L2.
    pose proof (wf_snprintf (h_prefix Header_new) (100 - 1) (ztake k rel) (zeros_wf 155) ltac:(by apply wf_ztake)) as W2.
    destruct (snprintf_s _ _ (zdrop k rel)) as [rc1 name]. destruct (snprintf_s _ _ (ztake k rel)) as [rc2 pre]. injection E as <-.
    cbn in *. split_and!; try done; lia.
Qed.

(** The eleven octal digits and the terminator. *)
Lemma octal_size_field n : 0 <= n < 8 ^ 11 ->
  let s := (snprintf_s (zeros 12) 11 (DecimalToOctalString n 11)).2 in length s = 12%nat /\ wf_bytes s.
Proof.
  intros Hn. cbv zeta. destruct (DecimalToOctalString_spec n 11 Hn ltac:(lia)) as (_ & _ & Ho). split.
  - pose proof (length_snprintf (zeros 12) 11 (DecimalToOctalString n 11) ltac:(lia) ltac:(by vm_compute)) as L.
    change (zlen (zeros 12)) with 12 in L. lia.
  - apply wf_snprintf; [apply zeros_wf|by apply octal_wf].
Qed.

Definition entry_type (t : Z) : Prop := t = ORDINARYFILE \/ t = DIRECTORY.

Lemma item_header_eq t size rel : entry_type t ->
  item_header t size rel = set_name (set_size (set_type Header_new t) (snprintf_s (zeros 12) 11 (DecimalToOctalString size 11)).2)
    (name_fields rel).1 (name_fields rel).2.
Proof. intros [-> | ->]; unfold item_header; by rewrite UpdataName_fields. Qed.

Lemma wf_set_name h n p : wf_header h -> length n = 100%nat -> length p = 155%nat -> wf_bytes n -> wf_bytes p -> wf_header (set_name h n p).
Proof.
  intros [Hl Hb] Hn Hp Wn Wp. split.
  - unfold field_lengths in *. destruct h; unfold set_name; cbn_header. cbn [map] in *. congruence.
  - unfold Header_bytes, set_name in *. destruct h; cbn_header. rewrite !Forall_app in *. tauto.
Qed.
Lemma wf_set_size h s : wf_header h -> length s = 12%nat -> wf_bytes s -> wf_header (set_size h s).
Proof.
  intros [Hl Hb] Hs Ws. split.
  - unfold field_lengths in *. destruct h; unfold set_size; cbn_header. cbn [map] in *. congruence.
  - unfold Header_bytes, set_size in *. destruct h; cbn_header. rewrite !Forall_app in *. tauto.
Qed.
Lemma wf_set_type h t : wf_header h -> in_u 8 t -> wf_header (set_type h t).
Proof.
  intros [Hl Hb] Ht. assert (Wt : wf_bytes [t]) by (constructor; [done|constructor]). split.
  - unfold field_lengths in *. destruct h; unfold set_type; cbn_header. cbn [map] in *. change (length [t]) with 1%nat. congruence.
  - unfold Header_bytes, set_type in *. destruct h; cbn_header. rewrite !Forall_app in *. tauto.
Qed.
Lemma wf_Header_new : wf_header Header_new.
Proof. split; [vm_compute; reflexivity|]. apply (bool_decide_unpack _). vm_compute. exact I. Qed.

Lemma item_header_wf t size rel : entry_type t -> 0 <= size < 8 ^ 11 -> name_ok rel -> wf_header (item_header t size rel).
Proof.
  intros Ht Hs Hr. rewrite item_header_eq by done. destruct (octal_size_field size Hs) as [L W].
  pose proof (name_fields_ok rel Hr) as F. destruct (name_fields rel) as [n p]. destruct F as (F1 & F2 & F3 & F4 & _). cbn [fst snd].
  apply wf_set_name; try done. apply wf_set_size; try done. apply wf_set_type; [apply wf_Header_new|].
  unfold in_u. destruct Ht as [-> | ->]; unfold ORDINARYFILE, DIRECTORY; lia.
Qed.

Lemma item_header_fields t size rel : entry_type t -> 0 <= size < 8 ^ 11 -> name_ok rel ->
  FileType (item_header t size rel) = t /\ Size (item_header t size rel) = size /\ Name (item_header t size rel) = rel.
Proof.
  intros Ht Hs Hr. split_and!.
  - rewrite item_header_eq by done. by destruct Ht as [-> | ->].
  - assert (Size (item_header t size rel) = Size (UpdataSize (UpdataFileType Header_new t) size)) as ->
      by (rewrite item_header_eq by done; by destruct Ht as [-> | ->]).
    apply size_roundtrip; [destruct Ht as [-> | ->]; reflexivity|done].
  - rewrite item_header_eq by done. pose proof (name_fields_ok rel Hr) as F. destruct (name_fields rel) as [n p].
    destruct F as (_ & _ & _ & _ & F). etrans; [|exact F]. reflexivity.
Qed.

(** What a reader gets out of the 512 bytes. *)
Lemma header_out_spec t size rel : entry_type t -> 0 <= size < 8 ^ 11 -> name_ok rel ->
  let out := header_out (item_header t size rel) in
  zlen out = 512 /\ FileType (Header_parse (Some out) 512) = t /\ Size (Header_parse (Some out) 512) = size /\
  Name (Header_parse (Some out) 512) = rel.
Proof.
  intros Ht Hs Hr. cbv zeta. pose proof (item_header_wf t size rel Ht Hs Hr) as W.
  assert (Hz : h_chksum (item_header t size rel) = zeros 8) by by rewrite item_header_eq.
  pose proof (header_bytes_roundtrip (item_header t size rel) (zeros 512) W Hz ltac:(by vm_compute)) as R.
  unfold header_out, HEADER_LEN. destruct (GetBytes _ (zeros 512) 512) as [h' out] eqn:E. cbn [snd]. destruct R as (L & P & _).
  rewrite P. split; [done|]. assert (Hh : h' = UpdataCheckSum (item_header t size rel)) by (unfold GetBytes in E; by injection E as <- _).
  destruct (item_header_fields t size rel Ht Hs Hr) as (F1 & F2 & F3). rewrite <- F1 at 1. rewrite <- F2 at 2. rewrite <- F3 at 3.
  rewrite Hh. by split_and!.
Qed.

(** ** Payloads *)

(** The content as it is stored: padded to whole blocks. *)
Definition padding (c : bytes) : bytes :=
  let n := HEADER_LEN - zlen c mod HEADER_LEN in if n <? HEADER_LEN then zeros (Z.to_nat n) else [].
Definition payload (c : bytes) : bytes := if zlen c =? 0 then [] else c ++ padding c.

Lemma ReadAndWrite_ok a b w : ReadAndWriteData (a ++ b) (zlen a) w = (true, b, ztake w a).
Proof. unfold ReadAndWriteData. rewrite ztake_app, zdrop_app by done. by rewrite Z.eqb_refl. Qed.

Lemma copy_loop_spec fuel c rest out : (Z.to_nat (zlen c / ENTRY_FILE_BUFSIZE) <= fuel)%nat ->
  exists c1 c2, c = c1 ++ c2 /\ zlen c2 < ENTRY_FILE_BUFSIZE /\ zlen c mod HEADER_LEN = zlen c2 mod HEADER_LEN /\
    copy_loop fuel (c ++ rest) (zlen c) out = Some (true, zlen c2, c2 ++ rest, out ++ c1).
Proof.
  unfold ENTRY_FILE_BUFSIZE, HEADER_LEN. change (4 * 1024) with 4096.
  revert c out. induction fuel as [|fuel IH]; intros c out Hf; cbn [copy_loop]; unfold ENTRY_FILE_BUFSIZE; change (4 * 1024) with 4096.
  - assert (Hc : zlen c < 4096).
    { destruct (Z_lt_ge_dec (zlen c) 4096); [done|]. assert (1 <= zlen c / 4096) by (apply Z.div_le_lower_bound; lia). lia. }
    rewrite (proj2 (Z.leb_gt _ _)) by done. exists [], c. rewrite app_nil_r. by split_and!.
  - destruct (4096 <=? zlen c) eqn:E; breflect; [|exists [], c; rewrite app_nil_r; by split_and!].
    set (a := ztake 4096 c). set (b := zdrop 4096 c). assert (Ec : c = a ++ b) by (symmetry; apply ztake_zdrop).
    assert (La : zlen a = 4096) by (apply length_ztake; lia). assert (Lb : zlen b = zlen c - 4096) by (apply length_zdrop; lia).
    clearbody a b. replace (c ++ rest) with (a ++ (b ++ rest)) by (by rewrite Ec, app_assoc).
    pose proof (ReadAndWrite_ok a (b ++ rest) 4096) as RW. rewrite La, ztake_ge in RW by lia. rewrite RW, <- Lb. clear RW.
    destruct (IH b (out ++ a)) as (c1 & c2 & Eb & H1 & H2 & H3).
    { rewrite Lb. replace (zlen c - 4096) with (zlen c + (-1) * 4096) by lia. rewrite Z.div_add by lia. lia. }
    exists (a ++ c1), c2. split; [by rewrite Ec, Eb, app_assoc|]. split; [done|]. split; [|by rewrite H3, app_assoc].
    rewrite <- H2, Lb. replace (zlen c - 4096) with (zlen c + (-8) * 512) by lia. by rewrite Z.mod_add by lia.
Qed.

Lemma copy_payload_spec c rest : copy_payload (payload c ++ rest) (zlen c) = Some (true, rest, c).
Proof.
  unfold payload. destruct (zlen c =? 0) eqn:E0; breflect.
  { destruct c; [|cbn in E0; lia]. reflexivity. }
  unfold copy_payload. rewrite <- app_assoc.
  destruct (copy_loop_spec (Z.to_nat (zlen c / ENTRY_FILE_BUFSIZE)) c (padding c ++ rest) [] (le_n _)) as (c1 & c2 & Ec & Hl & Hm & ->).
  cbn [mbind option_bind app]. destruct (0 <? zlen c2) eqn:E2; breflect; cbn [andb].
  - set (p := HEADER_LEN - zlen c2 mod HEADER_LEN). unfold HEADER_LEN in *. pose proof (Z.mod_pos_bound (zlen c2) 512 ltac:(lia)) as Hb.
    assert (Hpad : zlen (c2 ++ padding c) = if p =? 512 then zlen c2 else zlen c2 + p).
    { rewrite length_app. unfold padding, HEADER_LEN. rewrite Hm. fold p. destruct (p =? 512) eqn:Ep; breflect.
      - rewrite (proj2 (Z.ltb_ge _ _)) by lia. cbn. lia.
      - rewrite (proj2 (Z.ltb_lt _ _)) by (unfold p in *; lia). unfold zeros. rewrite repeat_length. unfold p in *. lia. }
    rewrite <- Hpad, app_assoc, ReadAndWrite_ok. rewrite ztake_app by done. by rewrite <- Ec.
  - destruct c2; [|cbn in E2; lia]. rewrite app_nil_r in Ec. subst c1. change (zlen []) with 0 in Hm. unfold padding. rewrite Hm.
    unfold HEADER_LEN. cbn. done.
Qed.

(** ** Items *)

(** What is packed: the directory's path relative to the root, the name in it,
    the node. *)
Definition Item := (bytes * bytes * Node)%type.
Definition join (rel name : bytes) : bytes := match rel with [] => name | _ => rel ++ [GetPathSep] ++ name end.
Definition item_rel (i : Item) : bytes := join i.1.1 i.1.2.

Fixpoint visible (rel : bytes) (n : Node) : list Item :=
  match n with
  | NDir l => concat (map (fun e => if hidden e.1 then [] else (rel, e.1, e.2) :: visible (join rel e.1) e.2) l)
  | _ => []
  end.

Definition d_node (n : Node) : DNode := match n with NFile c => DFile c | NDir _ => DDir | NLink _ _ => DOther S_IFLNK | NOther m => DOther m end.
Definition item_type (n : Node) : Z := match n with NDir _ => DIRECTORY | _ => ORDINARYFILE end.
Definition item_content (n : Node) : bytes := match n with NFile c => c | _ => [] end.

(** A file below the limit or a directory, with a name that is a name and a path
    that fits the header and climbs nowhere. *)
Definition packable (dec : bytes) (i : Item) : Prop :=
  let '(rel, name, n) := i in
  name <> [] /\ ~ (GetPathSep ∈ name) /\ name_ok (join rel name) /\
  CheckPathTraversal (join rel name) = true /\ CheckPathTraversal (dec ++ [GetPathSep] ++ join rel name) = true /\
  match n with NFile c => zlen c < ENTRY_MAX_FILE_SIZE | NDir _ => True | _ => False end.

Definition block (i : Item) : bytes :=
  header_out (item_header (item_type i.2) (zlen (item_content i.2)) (item_rel i)) ++ payload (item_content i.2).

Lemma packable_header dec i : packable dec i ->
  entry_type (item_type i.2) /\ 0 <= zlen (item_content i.2) < 8 ^ 11 /\ name_ok (item_rel i).
Proof.
  destruct i as [[rel name] n]. intros (_ & _ & Hn & _ & _ & Hk). split_and!; [|lia| |done].
  - destruct n; [by left|done|by right|done].
  - cbn. destruct n; cbn; try lia. unfold ENTRY_MAX_FILE_SIZE in Hk. change (8 ^ 11) with 8589934592. lia.
Qed.

(** ** Unpacking one item *)

(** Where the contents of [rel] go. *)
Definition base (dec rel : bytes) : bytes := match rel with [] => dec | _ => dec ++ [GetPathSep] ++ rel end.
Definition dest (dec : bytes) (i : Item) : bytes := dec ++ [GetPathSep] ++ item_rel i.

Lemma dest_base dec i : dest dec i = base dec i.1.1 ++ GetPathSep :: i.1.2.
Proof.
  unfold dest, item_rel, join, base. destruct i as [[rel name] n]. cbn [fst snd]. destruct rel as [|x rel]; [done|].
  by rewrite <- !app_assoc.
Qed.

Lemma last_name (p name : bytes) : name <> [] -> ~ (GetPathSep ∈ name) -> last (p ++ GetPathSep :: name) <> Some GetPathSep.
Proof.
  intros Hne Hn Hl. apply Hn. destruct name as [|x name]; [done|]. rewrite last_app in Hl.
  destruct (last (GetPathSep :: x :: name)) as [y|] eqn:E.
  - injection Hl as ->. rewrite last_cons_cons in E. by apply last_Some_elem_of.
  - by rewrite last_None in E.
Qed.

Lemma dest_key dec i : packable dec i -> key (dest dec i) = dest dec i /\ parent (dest dec i) = base dec i.1.1 /\
  last (dest dec i) <> Some GetPathSep.
Proof.
  destruct i as [[rel name] n]. intros (Hne & Hn & _). rewrite dest_base. cbn [fst snd]. pose proof (last_name (base dec rel) name Hne Hn) as Hl.
  unfold key, parent. rewrite bool_decide_false by done. split_and!; [done| |done].
  rewrite rfind_char_app by done. by rewrite ztake_app.
Qed.

Lemma put_item (dec : bytes) (i : Item) (rest : bytes) (fs : gmap bytes DNode) : packable dec i -> fs !! dest dec i = None -> fs !! base dec i.1.1 = Some DDir ->
  let buff := ztake HEADER_LEN (block i ++ rest) in
  zlen buff = HEADER_LEN /\
  CopyPayload (dec ++ [GetPathSep]) (Entry_data buff HEADER_LEN) (zdrop HEADER_LEN (block i ++ rest)) fs =
    Some (true, rest, <[dest dec i := d_node i.2]> fs).
Proof.
  intros P Hnew Hpar. destruct (packable_header dec i P) as (Ht & Hs & Hr).
  destruct (header_out_spec _ _ _ Ht Hs Hr) as (L & T & Z & N). destruct (dest_key dec i P) as (K1 & K2 & K3).
  unfold block, HEADER_LEN. rewrite <- app_assoc. cbv zeta. rewrite ztake_app, zdrop_app by done. split; [done|].
  destruct i as [[rel name] n]. destruct P as (_ & _ & _ & Ct & Cd & Hk). cbn [fst snd] in *. unfold item_rel in *. cbn [fst snd] in *.
  unfold CopyPayload. unfold Entry_data at 1, GetName at 1. cbn [e_header e_prefix]. rewrite N, Ct. cbn [negb].
  unfold Entry_data at 1 2. cbn [e_header]. rewrite T.
  assert (Edest : (dec ++ [GetPathSep]) ++ join rel name = dest dec (rel, name, n)) by (unfold dest, item_rel; by rewrite <- app_assoc).
  assert (Cd' : CheckPathTraversal (dest dec (rel, name, n)) = true) by exact Cd.
  destruct n as [c|len c|l|m]; try done; cbn [item_type item_content d_node] in *.
  - change (ORDINARYFILE =? ORDINARYFILE) with true. cbn iota. unfold PayloadToFile, GetName, Entry_data. cbn [e_header e_prefix e_needSize].
    rewrite N, Z, Edest. rewrite Cd'. cbn [negb].
    unfold open_append. rewrite Hnew, K2, Hpar, bool_decide_false by done. rewrite copy_payload_spec. cbn [mbind option_bind].
    unfold append. rewrite lookup_insert_eq. by rewrite insert_insert_eq.
  - change (DIRECTORY =? ORDINARYFILE) with false. change (DIRECTORY =? DIRECTORY) with true. cbn iota.
    unfold PayloadToDir, GetName, Entry_data. cbn [e_header e_prefix]. rewrite T, N, Edest. change (DIRECTORY =? DIRECTORY) with true. cbn iota. rewrite Cd'.
    cbn [negb]. unfold TryCreateDirectory, lstat, mkdir. rewrite K1, Hnew, K2, Hpar. reflexivity.
Qed.

(** ** Unpacking a list of items *)

(** Every item lies in a directory that is known or comes before it. *)
Fixpoint layered (known : bytes -> Prop) (L : list Item) : Prop :=
  match L with
  | [] => True
  | i :: L => known i.1.1 /\ layered (fun r => known r \/ (r = item_rel i /\ d_node i.2 = DDir)) L
  end.

Lemma layered_mono (k k' : bytes -> Prop) L : (forall r, k r -> k' r) -> layered k L -> layered k' L.
Proof. revert k k'. induction L as [|i L IH]; intros k k' Hk; [done|]. intros [H1 H2]. split; [auto|]. eapply IH; [|exact H2].
  intros r [?|?]; [left; auto|by right]. Qed.

Lemma layered_app (k : bytes -> Prop) L M : layered k L -> layered k M -> layered k (L ++ M).
Proof.
  revert k. induction L as [|i L IH]; intros k HL HM; [done|]. destruct HL as [H1 H2]. split; [done|]. apply IH; [done|].
  eapply layered_mono; [|exact HM]. auto.
Qed.

Fixpoint put_all (dec : bytes) (L : list Item) (fs : gmap bytes DNode) : gmap bytes DNode :=
  match L with [] => fs | i :: L => put_all dec L (<[dest dec i := d_node i.2]> fs) end.

Lemma dest_inj (dec : bytes) (i j : Item) : dest dec i = dest dec j -> item_rel i = item_rel j.
Proof. unfold dest. intros E. apply app_inv_head in E. by injection E. Qed.

Lemma base_rel (dec : bytes) (i : Item) : packable dec i -> base dec (item_rel i) = dest dec i.
Proof.
  intros P. assert (Hr : item_rel i <> []).
  { destruct i as [[rel name] n]. destruct P as (_ & _ & (Hl & _) & _). unfold item_rel. cbn [fst snd]. intros E. rewrite E in Hl. cbn in Hl. lia. }
  unfold base, dest. by destruct (item_rel i).
Qed.

Lemma unpack_all (dec : bytes) L fuel known fs : (length L < fuel)%nat -> Forall (packable dec) L -> layered known L ->
  (forall r, known r -> fs !! base dec r = Some DDir) -> (forall i, i ∈ L -> fs !! dest dec i = None) -> NoDup (map item_rel L) ->
  unpack_loop fuel (dec ++ [GetPathSep]) (concat (map block L)) fs = Some (true, put_all dec L fs).
Proof.
  revert fuel known fs. induction L as [|i L IH]; intros fuel known fs Hf HP HL HK HN HD; (destruct fuel as [|fuel]; [lia|]); [done|].
  apply List.Forall_cons_iff in HP as [P HP]. destruct HL as [H1 H2]. cbn [map] in HD. apply NoDup_cons in HD as [D1 D2].
  cbn [unpack_loop map concat]. destruct (put_item dec i (concat (map block L)) fs P (HN i ltac:(left)) (HK _ H1)) as [Hz Hc].
  rewrite Hz. change (HEADER_LEN =? 0) with false. rewrite Z.eqb_refl. cbn [negb]. rewrite Hc. cbn [mbind option_bind put_all].
  cbn [length] in Hf. eapply IH; [lia|done|exact H2| | |done].
  - intros r [Hr|[-> Hd]].
    + rewrite lookup_insert_ne; [by apply HK|]. intros E. pose proof (HN i ltac:(left)) as Hi. rewrite E, (HK r Hr) in Hi. done.
    + rewrite base_rel by done. by rewrite lookup_insert_eq, Hd.
  - intros j Hj. rewrite lookup_insert_ne; [apply HN; by right|]. intros E%dest_inj. apply D1. rewrite E. by apply list_elem_of_fmap_2.
Qed.

Lemma put_all_lookup (dec : bytes) L fs : NoDup (map item_rel L) ->
  (forall i, i ∈ L -> put_all dec L fs !! dest dec i = Some (d_node i.2)) /\
  (forall k, (forall i, i ∈ L -> k <> dest dec i) -> put_all dec L fs !! k = fs !! k).
Proof.
  revert fs. induction L as [|i L IH]; intros fs HD; cbn [put_all]; [split; [intros i Hi; by apply not_elem_of_nil in Hi|done]|].
  cbn [map] in HD. apply NoDup_cons in HD as [D1 D2]. destruct (IH (<[dest dec i := d_node i.2]> fs) D2) as [H1 H2]. split.
  - intros j [->|Hj]%elem_of_cons; [|by apply H1]. rewrite H2; [apply lookup_insert_eq|]. intros j Hj E%dest_inj. apply D1. rewrite E.
    by apply list_elem_of_fmap_2.
  - intros k Hk. rewrite H2 by (intros j Hj; apply Hk; by right). rewrite lookup_insert_ne; [done|]. intros E. by apply (Hk i ltac:(left)).
Qed.

(** ** Trees *)

Section NodeInd.
Context (P : Node -> Prop) (HF : forall c, P (NFile c)) (HL : forall n c, P (NLink n c)) (HO : forall m, P (NOther m)).
Context (HD : forall l, Forall (fun e => P e.2) l -> P (NDir l)).
Fixpoint node_tree_ind (n : Node) : P n :=
  match n with
  | NFile c => HF c
  | NLink n c => HL n c
  | NOther m => HO m
  | NDir l => HD l ((fix all (l : list (bytes * Node)) : Forall (fun e => P e.2) l :=
      match l with [] => List.Forall_nil _ | e :: l => List.Forall_cons _ e l (node_tree_ind e.2) (all l) end) l)
  end.
End NodeInd.

Fixpoint depth (n : Node) : nat := match n with NDir l => S (fold_right (fun e m => Nat.max (depth e.2) m) 0 l) | _ => 1 end%nat.

Lemma depth_child l e : e ∈ l -> (depth e.2 < depth (NDir l))%nat.
Proof.
  cbn [depth]. induction l as [|x l IH]; intros He; [by apply not_elem_of_nil in He|]. cbn [fold_right].
  apply elem_of_cons in He as [->|He]; [lia|]. specialize (IH He). lia.
Qed.

Lemma visible_layered n : forall rel (known : bytes -> Prop), known rel -> layered known (visible rel n).
Proof.
  induction n as [c|len c|m|l IH] using node_tree_ind; intros rel known Hk; try done. cbn [visible].
  induction IH as [|[name t] l Ht _ IHl]; [done|]. cbn [map concat fst snd] in *. apply layered_app; [|done].
  destruct (hidden name); [done|]. split; [done|]. destruct t as [c|len c|l'|m]; try done. apply Ht. right. done.
Qed.

(** ** Packing *)

(** The children of a directory are found under its path. *)
Definition coherent (src : bytes -> option Node) : Prop :=
  forall path l name n, src path = Some (NDir l) -> (name, n) ∈ l -> src (path ++ [GetPathSep] ++ name) = Some n.

Section Pack.
Context (src : bytes -> option Node) (root dec : bytes) (Hsrc : coherent src) (Hroot : root <> []).

Definition item_entry (i : Item) : Entry := Entry_path src root (dest root i).
Definition add_all (L : list Item) (c : Compress) : Compress := mkCompress (entrys c ++ map item_entry L) (c_prefix c) (maxcount c).

(** [AddEntry] refuses once there are more than [maxcount] entries. *)
Definition room (L : list Item) (c : Compress) : Prop := maxcount c <= 0 \/ zlen (entrys c) + zlen L <= maxcount c + 1.

Lemma add_all_app L M c : add_all M (add_all L c) = add_all (L ++ M) c.
Proof. unfold add_all. cbn. by rewrite map_app, app_assoc. Qed.

Lemma room_app L M c : room (L ++ M) c -> room L c /\ room M (add_all L c).
Proof. unfold room, add_all. cbn [entrys maxcount]. rewrite !length_app, length_map. lia. Qed.

Lemma AddEntry_item (i : Item) (c : Compress) : c_prefix c = root -> room [i] c -> AddEntry src (dest root i) c = (true, add_all [i] c).
Proof.
  intros Hp Hr. unfold AddEntry. rewrite Hp. assert (bytes_eqb (dest root i) root = false) as ->.
  { destruct (bytes_eqb _ _) eqn:E; [|done]. apply bytes_eqb_eq in E. apply (f_equal length) in E. unfold dest in E.
    rewrite !length_app in E. cbn in E. lia. }
  rewrite andb_false_r. unfold room in Hr. cbn [length] in Hr.
  assert ((0 <? maxcount c) && (maxcount c <? zlen (entrys c)) = false) as ->.
  { apply andb_false_iff. destruct (Z_le_gt_dec (maxcount c) 0); [left; lia|right; lia]. }
  unfold add_all. rewrite Hp. done.
Qed.

Definition packs (n : Node) : Prop := forall fuel rel name c, (depth n <= fuel)%nat -> src (dest root (rel, name, n)) = Some n ->
  Forall (packable dec) ((rel, name, n) :: visible (join rel name) n) -> c_prefix c = root ->
  room ((rel, name, n) :: visible (join rel name) n) c ->
  AddPath fuel src (dest root (rel, name, n)) c = Some (true, add_all ((rel, name, n) :: visible (join rel name) n) c).

Lemma add_children_spec l : Forall (fun e => packs e.2) l -> forall fuel rel c, (depth (NDir l) <= S fuel)%nat ->
  (forall name n, (name, n) ∈ l -> src (base root rel ++ [GetPathSep] ++ name) = Some n) ->
  Forall (packable dec) (visible rel (NDir l)) -> c_prefix c = root -> room (visible rel (NDir l)) c ->
  add_children (AddPath fuel src) (base root rel) l c = Some (true, add_all (visible rel (NDir l)) c).
Proof.
  induction 1 as [|[name n] l Hn _ IH]; intros fuel rel c Hf Hs HP Hc Hr.
  { cbn. unfold add_all. cbn. rewrite app_nil_r. by destruct c. }
  assert (Hl : (depth (NDir l) <= S fuel)%nat) by (cbn [depth fold_right] in *; lia).
  assert (Hd : (depth n <= fuel)%nat) by (cbn [depth fold_right] in Hf; cbn in Hf; lia).
  assert (Hs' : forall name n, (name, n) ∈ l -> src (base root rel ++ [GetPathSep] ++ name) = Some n) by (intros; apply Hs; by right).
  cbn [snd] in Hn. cbn [add_children]. change (visible rel (NDir ((name, n) :: l)))
    with ((if hidden name then [] else (rel, name, n) :: visible (join rel name) n) ++ visible rel (NDir l)) in *.
  destruct (hidden name); [by apply IH|]. apply List.Forall_app in HP as [HP1 HP2]. apply room_app in Hr as [Hr1 Hr2].
  pose proof (dest_base root (rel, name, n)) as Ed. cbn [fst snd] in Ed.
  change (base root rel ++ [GetPathSep] ++ name) with (base root rel ++ GetPathSep :: name). rewrite <- Ed.
  rewrite (Hn fuel rel name c Hd); [|rewrite Ed; by apply (Hs name n); left|done..]. cbn [mbind option_bind].
  rewrite IH by done. by rewrite add_all_app.
Qed.

Lemma packs_all n : packs n.
Proof.
  induction n as [x|len x|m|l IH] using node_tree_ind; intros fuel rel name c Hf Hs HP Hc Hr;
    apply List.Forall_cons_iff in HP as [P HP]; try (by destruct P as (_ & _ & _ & _ & _ & [])).
  - destruct fuel; [cbn in Hf; lia|]. cbn [AddPath]. rewrite Hs. change (has_bits _ _) with true. cbn iota. by rewrite AddEntry_item.
  - destruct fuel as [|fuel]; [cbn in Hf; lia|]. cbn [AddPath]. rewrite Hs. change (has_bits _ _) with false. cbn iota.
    change (?i :: visible ?r ?n) with ([i] ++ visible r n) in Hr |- *. apply room_app in Hr as [Hr1 Hr2].
    rewrite AddEntry_item by done. cbn [negb]. rewrite <- add_all_app. pose proof (base_rel dec _ P) as Hb.
    assert (Hb' : base root (join rel name) = dest root (rel, name, NDir l)).
    { unfold base, dest, item_rel. cbn [fst snd]. destruct (join rel name) eqn:E; [|done].
      destruct P as (_ & _ & (Hl & _) & _). rewrite E in Hl. cbn in Hl. lia. }
    rewrite <- Hb'. apply add_children_spec; try done. intros nm t Ht. rewrite Hb'. by apply (Hsrc _ l).
Qed.

Lemma visible_src n : forall rel, src (base root rel) = Some n -> Forall (packable dec) (visible rel n) ->
  forall i, i ∈ visible rel n -> src (dest root i) = Some i.2.
Proof.
  induction n as [x|len x|m|l IH] using node_tree_ind; intros rel Hs HP i Hi; try by apply not_elem_of_nil in Hi.
  assert (Hl : forall name n, (name, n) ∈ l -> src (dest root (rel, name, n)) = Some n).
  { intros name n Hn. rewrite dest_base. by apply (Hsrc _ l). }
  clear Hs. cbn [visible] in *. induction IH as [|[name n] l Hn _ IHl]; [by apply not_elem_of_nil in Hi|].
  cbn [map concat fst snd] in *. apply List.Forall_app in HP as [HP1 HP2].
  apply elem_of_app in Hi as [Hi|Hi]; [|apply IHl; try done; intros; apply Hl; by right].
  destruct (hidden name); [by apply not_elem_of_nil in Hi|]. assert (Hd : src (dest root (rel, name, n)) = Some n) by (apply Hl; left).
  apply elem_of_cons in Hi as [->|Hi]; [done|]. apply List.Forall_cons_iff in HP1 as [P HP1]. apply (Hn (join rel name)); try done.
  rewrite <- Hd. f_equal. destruct P as (_ & _ & (Hz & _) & _). unfold base, dest, item_rel. cbn [fst snd].
  destruct (join rel name); [cbn in Hz; lia|done].
Qed.

(** The entry of an item carries its header and opens the same path again. *)
Lemma item_entry_spec (i : Item) : packable dec i -> src (dest root i) = Some i.2 ->
  e_header (item_entry i) = item_header (item_type i.2) (zlen (item_content i.2)) (item_rel i) /\
  e_needSize (item_entry i) = zlen (item_content i.2) /\ GetName (item_entry i) = dest root i.
Proof.
  intros P Hs. destruct (packable_header dec i P) as (Ht & Hz & Hn). destruct (item_header_fields _ _ _ Ht Hz Hn) as (_ & _ & N).
  assert (Hstrip : StripPrefix (dest root i) (root ++ [GetPathSep]) = Some (item_rel i)).
  { unfold StripPrefix, dest. rewrite app_assoc. rewrite (proj2 (is_prefix_spec _ _)) by by eexists. by rewrite zdrop_app. }
  assert (Hpre : bytes_eqb (root ++ [GetPathSep]) [] = false) by (by destruct root).
  set (h := UpdataSize (UpdataFileType Header_new (item_type i.2)) (zlen (item_content i.2))).
  assert (E : item_entry i = (Entry_UpdataName (dest root i) (mkEntry h (zlen (item_content i.2)) (root ++ [GetPathSep]) [])).2).
  { unfold item_entry, Entry_path. rewrite Hs. subst h. destruct i as [[rel name] n]. destruct P as (_ & _ & _ & _ & _ & Hk). cbn [snd] in *.
    destruct n as [c| |l|]; try done. cbn [st_mode st_size item_type item_content]. change (has_bits S_IFREG S_IFDIR) with false.
    change (has_bits S_IFREG S_IFREG) with true. cbn iota. by rewrite (proj2 (Z.ltb_lt _ _) Hk). }
  rewrite E. unfold Entry_UpdataName. cbn [e_prefix e_header e_needSize e_data]. rewrite Hpre, Hstrip. cbn [default from_option id].
  unfold item_header in N |- *. fold h in N |- *. destruct (UpdataName h (item_rel i)) as [ok h'] eqn:E2. cbn [fst snd e_header e_needSize] in *.
  split_and!; [done..|]. unfold GetName. cbn [e_header e_prefix]. rewrite N. clear -Hroot. destruct (root ++ [GetPathSep]) as [|x p] eqn:Er.
  { by destruct root. }
  rewrite <- Er. rewrite bool_decide_true by by rewrite last_snoc. unfold dest. by rewrite <- app_assoc.
Qed.

Lemma WriteToTar_item (i : Item) b : packable dec i -> src (dest root i) = Some i.2 ->
  WriteToTar src (item_entry i) (mkOut true b) = (true, mkOut true (b ++ block i)).
Proof.
  intros P Hs. destruct (packable_header dec i P) as (Ht & Hz & Hn). destruct (item_header_fields _ _ _ Ht Hz Hn) as (T & Z & _).
  destruct (item_entry_spec i P Hs) as (E1 & E2 & E3). unfold WriteToTar. rewrite E1, E2, E3, T, Z, Hs. cbn [mbind option_bind].
  unfold block, write. cbn [o_good o_bytes]. destruct i as [[rel name] n]. destruct P as (_ & _ & _ & _ & _ & Hk). cbn [fst snd] in *.
  destruct n as [c| |l|]; try done; cbn [item_type item_content readable] in *.
  - change (ORDINARYFILE =? ORDINARYFILE) with true. cbn iota. unfold payload. destruct (zlen c =? 0) eqn:E0; [by rewrite app_nil_r|].
    unfold insert_buf. destruct c as [|x c]; [done|]. cbn [o_good o_bytes]. unfold padding.
    destruct (HEADER_LEN - zlen (x :: c) mod HEADER_LEN <? HEADER_LEN); by rewrite ?app_nil_r, <- !app_assoc.
  - change (DIRECTORY =? ORDINARYFILE) with false. change (DIRECTORY =? DIRECTORY) with true. cbn iota. by rewrite app_nil_r.
Qed.

Lemma write_all L b : Forall (packable dec) L -> (forall i, i ∈ L -> src (dest root i) = Some i.2) ->
  fold_left (fun o e => (WriteToTar src e o).2) (map item_entry L) (mkOut true b) = mkOut true (b ++ concat (map block L)).
Proof.
  revert b. induction L as [|i L IH]; intros b HP Hs; [cbn; by rewrite app_nil_r|]. apply List.Forall_cons_iff in HP as [P HP].
  cbn [map fold_left concat]. rewrite WriteToTar_item; [|done|apply Hs; left]. cbn [snd].
  rewrite IH; [by rewrite app_assoc|done|intros; apply Hs; by right].
Qed.

(** What [Dir2Tar] makes of a directory. *)
Lemma Dir2Tar_spec l garbage tarpath : let L := visible [] (NDir l) in
  src root = Some (NDir l) -> src tarpath = None -> Forall (packable dec) L -> garbage <= 0 \/ zlen L <= garbage + 1 ->
  tarpath <> [] -> Dir2Tar (depth (NDir l)) src garbage root tarpath = Some (true, Some (concat (map block L))).
Proof.
  intros L Hs Ht HP Hg Hne. set (c := UpdatePrefix root (new_compress garbage)). unfold Dir2Tar. fold c.
  assert (Ha : AddEntry src root c = (true, c)).
  { unfold AddEntry, c, UpdatePrefix, new_compress. cbn [maxcount entrys c_prefix]. change (zlen []) with 0.
    assert ((0 <? garbage) && (garbage <? 0) = false) as -> by (apply andb_false_iff; destruct (Z_le_gt_dec garbage 0); [left|right]; lia).
    assert ((0 <? zlen root) = true) as -> by (apply Z.ltb_lt; destruct root; [done|cbn [length]; lia]). cbn [andb]. by rewrite (proj2 (bytes_eqb_eq _ _) eq_refl). }
  destruct (depth (NDir l)) as [|fuel] eqn:Ef; [done|]. cbn [AddPath]. rewrite Hs. change (has_bits _ _) with false. cbn iota.
  rewrite Ha. cbn [negb]. change (add_children ?f root ?l ?c) with (add_children f (base root []) l c).
  assert (Hr : room L c) by (unfold room; change (maxcount c) with garbage; change (zlen (entrys c)) with 0; lia).
  rewrite (add_children_spec l); [|apply List.Forall_forall; intros; apply packs_all|lia| |done|done|done].
  2:{ intros name n Hn. by apply (Hsrc _ l). }
  cbn [mbind option_bind snd]. unfold SaveToFile. rewrite (proj2 (Z.leb_gt _ _)) by (destruct tarpath; [done|cbn; lia]). rewrite Ht.
  fold L. cbn [add_all entrys c UpdatePrefix new_compress app]. rewrite write_all; [done|done|]. by apply visible_src.
Qed.
End Pack.

(** ** The round trip *)

Lemma length_block dec (i : Item) : packable dec i -> exists k, zlen (block i) = HEADER_LEN + HEADER_LEN * k /\ 0 <= k.
Proof.
  intros P. destruct (packable_header dec i P) as (Ht & Hz & Hn). destruct (header_out_spec _ _ _ Ht Hz Hn) as (L & _).
  unfold block. rewrite length_app, Nat2Z.inj_add, L. set (c := item_content i.2). unfold payload. destruct (zlen c =? 0); [by exists 0|].
  rewrite length_app, Nat2Z.inj_add. unfold padding, HEADER_LEN. pose proof (Z.div_mod (zlen c) 512 ltac:(lia)) as D.
  pose proof (Z.mod_pos_bound (zlen c) 512 ltac:(lia)) as B.
  destruct (512 - zlen c mod 512 <? 512) eqn:E; breflect.
  - exists (zlen c / 512 + 1). unfold zeros. rewrite repeat_length, Z2Nat.id by lia. lia.
  - exists (zlen c / 512). change (zlen []) with 0. lia.
Qed.

Lemma length_blocks dec L : Forall (packable dec) L -> exists k, zlen (concat (map block L)) = HEADER_LEN * k /\ zlen L <= k.
Proof.
  induction 1 as [|i L P _ (k & Hk & Hl)]; [by exists 0|]. destruct (length_block dec i P) as (m & Hm & Hp). exists (1 + m + k).
  cbn [map concat length]. rewrite length_app, Nat2Z.inj_add, Hk, Hm. lia.
Qed.

Lemma rfind_suffix_tar dec : rfind (str ".tar") (dec ++ str ".tar") = Some (zlen dec).
Proof.
  unfold rfind. pose proof (rfind_aux_spec (str ".tar") (dec ++ str ".tar") 0) as Hr.
  destruct (rfind_aux _ _ 0) as [j|]; [|by destruct (Hr dec [] ltac:(by rewrite app_nil_r))].
  destruct Hr as (a & b & He & -> & Hmax). specialize (Hmax dec [] ltac:(by rewrite app_nil_r)). f_equal.
  apply (f_equal length) in He. rewrite !length_app in He. change (length (str ".tar")) with 4%nat in He. lia.
Qed.

(** C30. Packing and unpacking: when every file and directory of a tree whose name
    does not start with a dot can be packed (a regular file below 4 GiB or a
    directory, a relative path of at most 198 characters that climbs nowhere) and
    the number of entries is within whatever limit was set, [Dir2Tar] writes an
    archive from which [Tar2Dir], given it under [dec ++ ".tar"], makes the
    directory [dec] with each of these files and directories under the same
    relative path with the same content; nothing else in the file system
    changes. *)
Theorem archive_roundtrip (src : bytes -> option Node) (root dec tarpath : bytes) (l : list (bytes * Node)) (garbage : Z) :
  let L := visible [] (NDir l) in
  coherent src -> root <> [] -> src root = Some (NDir l) -> tarpath <> [] -> src tarpath = None ->
  L <> [] -> Forall (packable dec) L -> NoDup (map item_rel L) -> garbage <= 0 \/ zlen L <= garbage + 1 ->
  exists tar, Dir2Tar (depth (NDir l)) src garbage root tarpath = Some (true, Some tar) /\
  forall fs : gmap bytes DNode, fs !! (dec ++ str ".tar") = Some (DFile tar) -> fs !! dec = None -> fs !! parent dec = Some DDir ->
    (forall i, i ∈ L -> fs !! dest dec i = None) ->
  exists fs', Tar2Dir (dec ++ str ".tar") fs = Some (dec ++ [GetPathSep], fs') /\
    fs' !! dec = Some DDir /\ (forall i, i ∈ L -> fs' !! dest dec i = Some (d_node i.2)) /\
    (forall k, k <> dec -> (forall i, i ∈ L -> k <> dest dec i) -> fs' !! k = fs !! k).
Proof.
  intros L Hsrc Hroot Hs Hne Ht HL HP HD Hg. exists (concat (map block L)). split; [by apply (Dir2Tar_spec src root dec)|].
  intros fs Htar Hdec Hpar Hnew. set (T := concat (map block L)) in *. set (fs1 := <[dec := DDir]> fs).
  destruct (length_blocks dec L HP) as (k & Hk & HkL). fold T in Hk.
  assert (HL1 : 0 < zlen L) by (destruct L; [done|cbn [length]; lia]). unfold HEADER_LEN in Hk.
  assert (Kt : key (dec ++ str ".tar") = dec ++ str ".tar") by (unfold key; by rewrite bool_decide_false by (rewrite last_app; done)).
  assert (Kd : key (dec ++ [GetPathSep]) = dec).
  { unfold key. rewrite bool_decide_true by by rewrite last_snoc. apply ztake_app. rewrite length_app. cbn. lia. }
  assert (Htar1 : fs1 !! (dec ++ str ".tar") = Some (DFile T)).
  { unfold fs1. rewrite lookup_insert_ne; [done|]. intros E. rewrite <- E in Htar. congruence. }
  assert (Hchk : CheckPath (dec ++ str ".tar") (dec ++ [GetPathSep]) fs = (true, fs1)).
  { unfold CheckPath, lstat. rewrite Kt, Kd, Htar, Hdec. unfold ValidateTarFile. change (has_bits _ _) with true.
    unfold HEADER_LEN. rewrite Hk, (Z.mul_comm 512), Z.mod_mul, (proj2 (Z.eqb_neq _ 0)) by lia. cbn [andb negb Z.eqb].
    unfold TryCreateDirectory, lstat, mkdir. by rewrite Kd, Hdec, Hpar. }
  destruct (put_all_lookup dec L fs1 HD) as [H1 H2]. exists (put_all dec L fs1).
  assert (Hd : forall i, i ∈ L -> dec <> dest dec i).
  { intros i _ E. apply (f_equal length) in E. unfold dest in E. rewrite !length_app in E. cbn in E. lia. }
  split_and!; [|rewrite H2 by done; apply lookup_insert_eq|done|].
  - unfold Tar2Dir. rewrite rfind_suffix_tar, ztake_app by done. unfold DecompressToLocal. rewrite Hchk. cbn [negb]. unfold lstat.
    rewrite Kt, Htar1. rewrite (unpack_all dec L _ (fun r => r = [])); [done| |done|by apply visible_layered| | |done].
    + lia.
    + intros r ->. apply lookup_insert_eq.
    + intros i Hi. unfold fs1. rewrite lookup_insert_ne by by apply Hd. by apply Hnew.
  - intros q Hq Hq2. rewrite H2 by (intros; by apply not_eq_sym, not_eq_sym, Hq2). by apply lookup_insert_ne, not_eq_sym.
Qed.

(** ** Examples *)

Module Tree.
Definition of_list (m : list (bytes * Node)) (p : bytes) : option Node := snd <$> List.find (fun e : bytes * Node => bytes_eqb p e.1) m.
Definition sub : Node := NDir [(str "b", NFile [1; 2; 3]); (str ".git", NFile [9])].
Definition files : list (bytes * Node) := [(str "a.txt", NFile (repeat 7 600)); (str "d", sub); (str "e", NFile [])].
Definition src : bytes -> option Node := of_list
  [(str "/r", NDir files); (str "/r/a.txt", NFile (repeat 7 600)); (str "/r/d", sub); (str "/r/d/b", NFile [1; 2; 3]);
   (str "/r/d/.git", NFile [9]); (str "/r/e", NFile [])].

Lemma src_coherent : coherent src.
Proof.
  intros path l name n Hs Hn. unfold src, of_list in Hs. cbn [List.find fst snd] in Hs.
  repeat (destruct (bytes_eqb path _) eqn:E; [apply bytes_eqb_eq in E; subst path; try discriminate Hs; injection Hs as <-|clear E]);
    [..|discriminate Hs];
    repeat (apply elem_of_cons in Hn as [[= -> ->]|Hn]; [vm_compute; reflexivity|]); by apply not_elem_of_nil in Hn.
Qed.
Definition before (tar : bytes) : gmap bytes DNode := <[str "/t" := DDir]> {[str "/t/x.tar" := DFile tar]}.
End Tree.

Lemma archive_roundtrip_witness :
  exists tar, Dir2Tar 3 Tree.src 0 (str "/r") (str "/tmp.tar") = Some (true, Some tar) /\
  exists fs', Tar2Dir (str "/t/x.tar") (Tree.before tar) = Some (str "/t/x/", fs') /\
    fs' !! str "/t/x/d/b" = Some (DFile [1; 2; 3]).
Proof.
  destruct (archive_roundtrip Tree.src (str "/r") (str "/t/x") (str "/tmp.tar") Tree.files 0) as (tar & H1 & H2).
  - exact Tree.src_coherent.
  - discriminate.
  - vm_compute; reflexivity.
  - discriminate.
  - vm_compute; reflexivity.
  - discriminate.
  - repeat constructor; try (vm_compute; congruence); apply (bool_decide_unpack _); vm_compute; exact I.
  - apply (bool_decide_unpack _); vm_compute; exact I.
  - left. lia.
  - exists tar. split; [exact H1|]. destruct (H2 (Tree.before tar)) as (fs' & H3 & H4 & H5 & H6).
    + reflexivity.
    + reflexivity.
    + reflexivity.
    + intros i Hi. repeat (apply elem_of_cons in Hi as [->|Hi]; [reflexivity|]). by apply not_elem_of_nil in Hi.
    + exists fs'. split; [exact H3|]. apply (H5 (str "d", str "b", NFile [1; 2; 3])). right. right. left.
Defined.

(** ** What does not come back *)

(** Packs the tree and unpacks it as [/t/x]: the outcome of [SaveToFile] and the
    files afterwards. *)
Definition there_and_back (src : bytes -> option Node) (garbage : Z) : option (bool * (gmap bytes DNode)) :=
  r ← Dir2Tar 3 src garbage (str "/r") (str "/tmp.tar"); tar ← r.2;
  u ← Tar2Dir (str "/t/x.tar") (Tree.before tar); Some (r.1, u.2).
Definition one_dir (l : list (bytes * Node)) : bytes -> option Node :=
  Tree.of_list ((str "/r", NDir l) :: map (fun e : bytes * Node => (str "/r/" ++ e.1, e.2)) l).
Definition restored (src : bytes -> option Node) (garbage : Z) (names : list bytes) : option (bool * list (option DNode)) :=
  r ← there_and_back src garbage; Some (r.1, map (fun n => r.2 !! (str "/t/x/" ++ n)) names).

(** [maxcount] is not initialised: with 1 in that memory two entries are packed,
    the rest is dropped and [SaveToFile] reports success. *)
Lemma stale_limit_truncates :
  restored Tree.src 0 [str "d"; str "d/b"; str "e"] = Some (true, [Some DDir; Some (DFile [1; 2; 3]); Some (DFile [])]) /\
  restored Tree.src 1 [str "d"; str "d/b"; str "e"] = Some (true, [Some DDir; None; None]).
Proof. split; vm_compute; reflexivity. Qed.

(** A symbolic link counts as a regular file: the header has the length of the
    link's text and the payload is the file it names, so that the archive is no
    longer made of whole blocks and nothing at all is unpacked. *)
Lemma symbolic_link_misaligns :
  restored (one_dir [(str "a", NFile [5]); (str "s", NLink 3 (Some (repeat 7 600)))]) 0 [str "a"; str "s"] = Some (true, [None; None]).
Proof. vm_compute. reflexivity. Qed.

(** A link that cannot be opened puts the output stream in a failed state: the
    files after it are lost and [SaveToFile] reports success. *)
Lemma unreadable_loses_the_rest :
  restored (one_dir [(str "a", NFile [5]); (str "s", NLink 3 None); (str "z", NFile [6])]) 0 [str "a"; str "s"; str "z"] =
    Some (true, [Some (DFile [5]); Some (DFile []); None]).
Proof. vm_compute. reflexivity. Qed.

(** A relative path of 255 characters or more leaves the name empty: unpacking
    stops there, whatever follows. *)
Lemma long_name_stops :
  restored (one_dir [(repeat 97 255, NFile [5]); (str "z", NFile [6])]) 0 [str "z"] = Some (true, [None]).
Proof. vm_compute. reflexivity. Qed.

(** Names that start with a dot are left out. *)
Lemma dot_files_left_out : restored Tree.src 0 [str "d/.git"] = Some (true, [None]).
Proof. vm_compute. reflexivity. Qed.
