(* ===== verification/CircleBuffer.v ===== *)
(** * CircleBuffer: the pool of I/O buffers ([circle_buffer.cpp])

    A map from the address of a buffer to whether it is in use, since when, and
    its contents.  [Malloc] reuses the first free buffer, a timer thread releases
    buffers that have been free for more than five seconds.  Every operation holds
    the mutex, so operations are atomic.  Times are nanoseconds. *)

From Stdlib Require Import ZArith Lia List Bool.
From stdpp Require Import base list numbers option relations.
From S2P Require Import Prelude OrdMap Transfer.

Record Data := mkData { d_used : bool; d_begin : Z; d_buf : bytes }.
Abbreviation Buffers := (list (Z * Data)).

(** [Base::GetUsbffsBulkSize()] zero bytes. *)
Definition zeroed : bytes := repeat 0 (Z.to_nat MAX_USBFFS_BULK).

(** The first buffer not in use. *)
Fixpoint first_free (b : Buffers) : option Z :=
  match b with
  | [] => None
  | (key, data) :: b => if d_used data then first_free b else Some key
  end.

(** [fresh] is the address of a new buffer, if the allocations succeed. *)
Definition Malloc (now : Z) (fresh : option Z) (b : Buffers) : option Z * Buffers :=
  match first_free b with
  | Some key => (Some key, om_set key (mkData true now zeroed) b)
  | None =>
      match fresh with
      | None => (None, b)
      | Some key => (Some key, om_set key (mkData true now zeroed) b)
      end
  end.

Definition Free (now : Z) (key : Z) (b : Buffers) : Buffers :=
  match om_find key b with
  | None => b
  | Some data => om_set key (mkData false now (d_buf data)) b
  end.

Definition decreaseTime : Z := 5.
Definition removable (now : Z) (data : Data) : bool :=
  negb (d_used data) && (decreaseTime <? (now - d_begin data) / 1000000000).
Definition FreeMemory (now : Z) (b : Buffers) : Buffers :=
  List.filter (fun p => negb (removable now p.2)) b.

(** ** Users of the pool *)

(** A state is the pool and the addresses handed out and not given back.  The
    allocator never returns an address that is still allocated; a user writes only
    to buffers it holds. *)
Inductive pool_step : Buffers * list Z -> Buffers * list Z -> Prop :=
| pool_malloc b held now fresh key b' :
    (forall k, fresh = Some k -> om_find k b = None) -> Malloc now fresh b = (Some key, b') ->
    pool_step (b, held) (b', key :: held)
| pool_malloc_fails b held now b' :
    Malloc now None b = (None, b') -> pool_step (b, held) (b', held)
| pool_free b held1 key held2 now :
    pool_step (b, held1 ++ key :: held2) (Free now key b, held1 ++ held2)
| pool_timer b held now : pool_step (b, held) (FreeMemory now b, held)
| pool_write b held key data buf :
    key ∈ held -> om_find key b = Some data ->
    pool_step (b, held) (om_set key (mkData (d_used data) (d_begin data) buf) b, held).

(** The buffers in use are exactly those handed out, each once. *)
Definition pool_inv (s : Buffers * list Z) : Prop :=
  om_sorted s.1 /\ NoDup s.2 /\
  (forall k, k ∈ s.2 <-> exists data, om_find k s.1 = Some data /\ d_used data = true).

Lemma first_free_spec b : om_sorted b ->
  match first_free b with
  | Some key => exists data, om_find key b = Some data /\ d_used data = false
  | None => forall key data, om_find key b = Some data -> d_used data = true
  end.
Proof.
  intros Hs. destruct (first_free b) as [key|] eqn:E.
  - assert (Hin : exists data, In (key, data) b /\ d_used data = false).
    { clear Hs. induction b as [|[k d] b IH]; [done|]. cbn in E. destruct (d_used d) eqn:Ed.
      - destruct (IH E) as (data & ? & ?). exists data. split; [by right|done].
      - injection E as ->. exists d. split; [by left|done]. }
    destruct Hin as (data & Hin & Hu). exists data. split; [by apply om_find_sorted|done].
  - intros key data Hf. apply om_find_In in Hf. clear Hs. induction b as [|[k d] b IH]; [done|]. cbn in E.
    destruct (d_used d) eqn:Ed; [|done]. destruct Hf as [[= -> ->]|Hf]; [done|by apply IH].
Qed.

Lemma filter_sorted (f : Z * Data -> bool) b : om_sorted b -> om_sorted (List.filter f b).
Proof.
  unfold om_sorted. induction b as [|[k d] b IH]; [done|]. cbn [om_keys map fst]. intros Hs. inversion Hs as [|? ? Hs' Hf]; subst.
  cbn [List.filter]. destruct (f (k, d)); [|by apply IH]. cbn [om_keys map fst]. constructor; [by apply IH|].
  rewrite List.Forall_forall in *. intros x Hx. apply Hf. apply in_map_iff in Hx as (p & <- & Hx). apply filter_In in Hx as [Hx _].
  by apply in_map.
Qed.

Lemma FreeMemory_find now b k : om_sorted b ->
  om_find k (FreeMemory now b) = match om_find k b with Some d => if removable now d then None else Some d | None => None end.
Proof.
  intros Hs. unfold FreeMemory. destruct (om_find k b) as [d|] eqn:E.
  - apply om_find_In in E as Hin. destruct (removable now d) eqn:Er.
    + apply om_find_None. intros Hk. apply in_map_iff in Hk as ([k' d'] & Heq & Hk). cbn in Heq. subst k'.
      apply filter_In in Hk as [Hk Hr]. apply (om_find_sorted _ _ _ Hs) in Hk. rewrite E in Hk. injection Hk as <-.
      cbn in Hr. by rewrite Er in Hr.
    + apply om_find_sorted; [by apply filter_sorted|]. apply filter_In. cbn. by rewrite Er.
  - apply om_find_None in E. apply om_find_None. intros Hk. apply E. apply in_map_iff in Hk as (p & <- & Hk).
    apply filter_In in Hk as [Hk _]. by apply in_map.
Qed.

Lemma Malloc_spec now fresh b key b' : om_sorted b -> (forall k, fresh = Some k -> om_find k b = None) ->
  Malloc now fresh b = (Some key, b') ->
  (forall data, om_find key b = Some data -> d_used data = false) /\ b' = om_set key (mkData true now zeroed) b.
Proof.
  intros Hs Hfr Hm. unfold Malloc in Hm. pose proof (first_free_spec b Hs) as Hff. destruct (first_free b) as [k|].
  - injection Hm as <- <-. destruct Hff as (d & Hd & Hu). split; [|done]. intros data Hk. congruence.
  - destruct fresh as [k|]; [|done]. injection Hm as <- <-. split; [|done]. intros data Hk. rewrite Hfr in Hk; done.
Qed.

Lemma pool_inv_set b held k d d0 : pool_inv (b, held) -> om_find k b = Some d0 -> d_used d = d_used d0 ->
  pool_inv (om_set k d b, held).
Proof.
  intros (Hs & Hn & Hu) Hk Hd. cbn in *. split_and!; [by apply om_sorted_set|done|]. cbn. intros k'. rewrite Hu.
  destruct (decide (k' = k)) as [->|Hne]; [|by rewrite om_find_set_ne]. rewrite om_find_set_eq, Hk.
  split; intros (? & [= <-] & ?); eexists; (split; [done|congruence]).
Qed.

Lemma pool_inv_step s s' : pool_inv s -> pool_step s s' -> pool_inv s'.
Proof.
  intros I Hst. destruct Hst as [b held now fresh key b' Hfr Hm|b held now b' Hm|b held1 key held2 now|b held now|b held key data buf Hin Hk].
  - destruct I as (Hs & Hn & Hu). cbn in *. destruct (Malloc_spec _ _ _ _ _ Hs Hfr Hm) as [Hfree ->].
    split_and!; cbn; [by apply om_sorted_set| |].
    + constructor; [|done]. intros Hin. apply Hu in Hin as (d & Hd & Hused). rewrite (Hfree d Hd) in Hused. done.
    + intros k. rewrite elem_of_cons, Hu. destruct (decide (k = key)) as [->|Hne].
      * rewrite om_find_set_eq. split; [intros _; by eexists|by left].
      * rewrite om_find_set_ne by done. split; [by intros [?|?]|by right].
  - unfold Malloc in Hm. destruct (first_free b); [done|]. by injection Hm as <-.
  - destruct I as (Hs & Hn & Hu). cbn in *. destruct (proj1 (Hu key)) as (d & Hd & Hused); [apply elem_of_app; right; left|].
    unfold Free. rewrite Hd. split_and!; cbn; [by apply om_sorted_set| |].
    + apply NoDup_ListNoDup. apply NoDup_ListNoDup, NoDup_remove_1 in Hn. exact Hn.
    + intros k. apply NoDup_ListNoDup, NoDup_remove_2 in Hn as Hk. specialize (Hu k).
      destruct (decide (k = key)) as [->|Hne].
      * rewrite om_find_set_eq. split; [intros Hin; exfalso; apply Hk; by apply list_elem_of_In|by intros (? & [= <-] & ?)].
      * rewrite om_find_set_ne, <- Hu by done. rewrite !elem_of_app, elem_of_cons. tauto.
  - destruct I as (Hs & Hn & Hu). cbn in *. split_and!; cbn; [by apply filter_sorted|done|]. intros k. rewrite Hu, FreeMemory_find by done.
    split; intros (d & Hd & Hused).
    + exists d. rewrite Hd. unfold removable. by rewrite Hused.
    + destruct (om_find k b) as [d'|]; [|done]. destruct (removable now d'); [done|]. injection Hd as <-. by eexists.
  - by apply (pool_inv_set b held key _ data).
Qed.

(** A buffer is never shared and never released under its user: in every
    reachable state of the pool, [Malloc] returns an address nobody holds, with all
    bytes zero, and leaves the buffers in use as they are; and the timer keeps
    every buffer in use and removes exactly those free for more than five seconds. *)
Theorem buffers_exclusive (b : Buffers) (held : list Z) (now : Z) :
  rtc pool_step ([], []) (b, held) ->
  NoDup held /\
  (forall fresh key b', (forall k, fresh = Some k -> om_find k b = None) -> Malloc now fresh b = (Some key, b') ->
     ~ (key ∈ held) /\ om_find key b' = Some (mkData true now zeroed) /\
     forall k, k ∈ held -> om_find k b' = om_find k b) /\
  (forall k, k ∈ held -> om_find k (FreeMemory now b) = om_find k b) /\
  (forall k data, om_find k b = Some data -> d_used data = false ->
     (om_find k (FreeMemory now b) = None <-> 5 < (now - d_begin data) / 1000000000)).
Proof.
  intros Hr. assert (I : pool_inv (b, held)).
  { assert (Hind : forall s s', rtc pool_step s s' -> pool_inv s -> pool_inv s').
    { induction 1; [done|]. eauto using pool_inv_step. }
    apply (Hind _ _ Hr). split_and!; cbn; [constructor|constructor|]. intros k. rewrite elem_of_nil. split; [done|]. by intros (? & ? & _). }
  destruct I as (Hs & Hn & Hu). cbn in *. split_and!; [done|..].
  - intros fresh key b' Hfr Hm. destruct (Malloc_spec _ _ _ _ _ Hs Hfr Hm) as [Hfree ->].
    assert (Hnin : key ∉ held) by (intros Hin; apply Hu in Hin as (d & Hd & Hused); rewrite (Hfree d Hd) in Hused; done).
    split_and!; [done|apply om_find_set_eq|]. intros k Hk. apply om_find_set_ne. by intros ->.
  - intros k Hk. apply Hu in Hk as (d & Hd & Hused). rewrite FreeMemory_find, Hd by done. unfold removable. by rewrite Hused.
  - intros k data Hk Hused. rewrite FreeMemory_find, Hk by done. unfold removable. rewrite Hused. cbn [negb andb].
    unfold decreaseTime. destruct (5 <? _) eqn:E; breflect; (split; intros; first [done|lia]).
Qed.

Lemma buffers_exclusive_witness : NoDup [4096] /\
  forall fresh key b', (forall k, fresh = Some k -> om_find k [(4096, mkData true 7 zeroed)] = None) ->
    Malloc 9 fresh [(4096, mkData true 7 zeroed)] = (Some key, b') -> ~ (key ∈ [4096]).
Proof.
  destruct (buffers_exclusive [(4096, mkData true 7 zeroed)] [4096] 9) as (H1 & H2 & _).
  - apply (rtc_l _ _ ([(4096, mkData true 7 zeroed)], [4096])); [|constructor].
    apply (pool_malloc [] [] 7 (Some 4096) 4096); reflexivity.
  - split; [exact H1|]. intros fresh key b' Hf Hm. exact (proj1 (H2 fresh key b' Hf Hm)).
Defined.
